(* ===== verification/_CoqProject ===== *)
-Q . S2P
Prelude.v
Hdr.v
Memmgr.v
MemmgrSpec.v
Share.v
ShareSpec.v
Bytes.v
Dpb.v
Blockio.v
BlockioRing.v
BlockioSpec.v
BlockioRange.v
Initbuf.v
Fattab.v
CacheSpec.v
FattabSpec.v
Fnode.v
Cluster.v
ClusterSpec.v
ClusterThms.v
Names.v
NamesSpec.v
Fatdir.v
FatdirSpec.v
FatdirThms.v
Fileio.v
FileioSpec.v
FilewriteSpec.v
FilecloseSpec.v
FileThms.v
Chario.v
Lineedit.v
LineeditThms.v
Newstuff.v
NewstuffSpec.v
NewstuffThms.v
NewstuffSafe.v
Dosfns.v
Console.v
ConsoleThms.v
DosfnsSpec.v
DosfnsThms.v
Dosname.v
DosnameThms.v
Fcb.v
FcbThms.v
Media.v
MediaSpec.v
MediaThms.v
Diskdrv.v
DiskdrvSpec.v
DiskdrvThms.v
Initdisk.v
InitdiskSpec.v
InitdiskOrder.v
InitdiskThms.v
Task.v
TaskSpec.v
TaskThms.v
Ioctl.v
IoctlThms.v
Nls.v
NlsThms.v
Systime.v
SystimeSpec.v
Prf.v
PrfSpec.v
Pcb.v
Int21.v
Int2f.v
Int21Spec.v
Int21Thms.v
Config.v
ConfigSpec.v
ConfigThms.v
