(* ===== verification/Prelude.v ===== *)
(** * FreeDOS kernel: a verification library

    A model of the FreeDOS kernel ([src/freedos/source/kernel/]) that the
    repository builds its boot images from, with the theorems that make it correct.
    Paths below are relative to that directory.

    ** What is modelled, and how

    The C code is translated function by function: a C function is a Rocq function
    of the same name, a [struct] a [Record] with the C field names in front of which
    stands what tells the structures apart, a loop a [Fixpoint], a chain of tests a
    chain of [if].  Whatever a function can read or change is passed as state and
    returned.  The build is the one of the repository: a real-mode 8086 program,
    [int] with 16 bits, [long] with 32, [char] unsigned, [WITHFAT32] on, and none of
    [WRITEZEROS], [CHECK_FAT_DURING_CLUSTER_ALLOC], [CHECK_FAT_DURING_SPACE_CHECK],
    [DEBUG], [NLS_DEBUG], [WITHLFNAPI] and [TSC].  Machine integers are [Z]; where the
    code can wrap, the definition says [u8], [u16], [u32] or [s16] (below).

    A result [None] is what C does not define or does not end: an access outside an
    array, a pointer to nothing, or a loop that has used up its fuel.  Errors of the
    kernel are the negative codes of [hdr/error.h], as in the code.

    Every definition that models code carries in its comment the lines it translates.

    ** The parts and how they interact

    From the bottom to the top:

    - memory: [Memmgr] ([kernel/memmgr.c]), the chain of memory control blocks;
      [MemmgrSpec] relates the chain to the list of blocks it spells, and shows that
      allocating, resizing, freeing and checking do on that list what they should;
    - data: [Bytes] (little-endian words in buffers), [Dpb] ([hdr/dcb.h]), [Fnode]
      ([hdr/fat.h], [hdr/fnode.h], [hdr/dirmatch.h]), [Hdr] (constants);
    - the block cache: [Blockio] ([kernel/blockio.c]) over a driver, the class [Device].
      [BlockioRing] reads the linked ring as a list, [BlockioSpec] shows that the cache
      is a disk (a block read is the block last written), [BlockioRange] covers
      transfers past the buffers, [Initbuf] the buffers that the start makes
      ([kernel/config.c], [kernel/inithma.c]);
    - the FAT: [Fattab] ([kernel/fattab.c]) over the class [BlockCache], whose laws
      [BlockCacheLaws] stand in [CacheSpec] together with the proof that [Blockio]
      keeps them.  [FattabSpec] gives the FAT as a function from clusters to entries;
    - chains of clusters: [Cluster] ([kernel/fatfs.c]), [ClusterSpec], [ClusterThms];
    - names in directories: [Names], [NamesSpec]; directories: [Fatdir]
      ([kernel/fatdir.c], [kernel/fatfs.c]) over the class [DosState], which adds what
      the file system uses of the rest of the kernel; [FatdirSpec] and [FatdirThms];
    - open files: [Fileio] ([kernel/fatfs.c]: [rwblock], [dos_open], [dos_close] and the
      exchange between open instances) over the class [BlockTransfer]; [FileioSpec] and
      [FilewriteSpec] (the contents of a file as bytes), [FilecloseSpec], [FileThms];
    - sharing: [Share] ([share/share.c]), the tables of open files and locks;
      [ShareSpec] proves their invariant over all reachable states;
    - the medium: [Media] ([kernel/fatfs.c]: [media_check], [bpb_to_dpb]) over the class
      [MediaDevice]; [MediaSpec] and [MediaThms] show that a well-formed BIOS parameter
      block gives a DPB with all that the FAT and the files rely on;
    - paths: [Newstuff] ([kernel/newstuff.c]: [truename]) over the class [NameServices];
      [NewstuffSpec] is a reference resolution on a stack of components, [NewstuffThms]
      the equivalence, [NewstuffSafe] what arbitrary strings lead to;
    - handles: [Dosfns] ([kernel/dosfns.c]) over the class [DosServices], which the files,
      the devices and the network implement; [DosfnsSpec] and [DosfnsThms];
    - services on names and drives: [Dosname] ([kernel/dosfns.c], [kernel/newstuff.c]),
      [DosnameThms]; control blocks: [Fcb] ([kernel/fcbfns.c]), [FcbThms];
    - characters: [Chario] (requests), [Lineedit] (buffered input, over the class
      [Terminal]), [Console] (cooked input and output, Ctrl-Break; it implements
      [Terminal] over the class [ConsoleHost]), all of [kernel/chario.c] and
      [kernel/break.c]; [LineeditThms] and [ConsoleThms];
    - the disk: [Diskdrv] ([kernel/dsk.c]), the built-in driver over interrupt 13h, the
      class [DiskBios]; [DiskdrvSpec], [DiskdrvThms].  [Initdisk] ([kernel/initdisk.c]),
      the scan for partitions over the class [Int13]; [InitdiskSpec], [InitdiskOrder],
      [InitdiskThms];
    - programs: [Task] ([kernel/task.c]) over the class [TaskHost] (the memory manager and
      the files as a loader sees them); [TaskSpec], [TaskThms];
    - device control: [Ioctl] ([kernel/ioctl.c]) over the class [IoctlDriver]; [IoctlThms];
    - countries: [Nls] ([kernel/nls.c] and the functions 38h, 65h and 66h of
      [kernel/inthndlr.c]) over the class [NlsHost]; [NlsThms];
    - the clock: [Systime] ([kernel/systime.c], [kernel/sysclk.c], [kernel/initclk.c]) over
      the class [Bios]; [SystimeSpec];
    - output of the kernel: [Prf] ([kernel/prf.c]); [PrfSpec];
    - the configuration: [Config] ([kernel/config.c]), the three passes over CONFIG.SYS with
      all commands, the menu and the country files, over the class [BootHost] (files, keys,
      clock, loader of drivers); [ConfigSpec] (invariants of a pass), [ConfigThms] (lines
      and numbers);
    - interrupts: [Pcb] (registers and the structures that programs pass in memory),
      [Int21] ([kernel/inthndlr.c], [kernel/network.c] and the entry of [kernel/entry.asm]),
      all functions of interrupt 21h over the parts above, with the classes [StoreCalls]
      and [KernelPlace] for the rest; [Int2f], interrupts 25h, 26h and the functions of
      2Fh, over [MultiplexHost].  The record [dos] is the state of the whole kernel: every
      part takes its own piece of it, and a call is a function from the registers and
      [dos] to an [ending].  [Int21Spec] (what no function does to the frame, over
      [RedirectorLaws]) and [Int21Thms].

    A part calls the part below it through a class.  The classes whose names end in
    [Laws] (and [QuietConsole]) say what the client may rely on; a client's theorems are
    proved against the laws, and an [Instance] shows that the modelled part below keeps
    them, or, where the part below is hardware, a driver or assembler, that a small
    concrete one does.  Those concrete ones (a disk that is a list of sectors, a BIOS, a
    terminal with a list of keys) also carry the witnesses, on which the definitions run.

    ** What the theorems show

    The properties carry a mark, C and a number, in their comments; they are:

    - files: reading and writing move the bytes of the file's contents and nothing
      else of the volume but the FAT entries of new clusters ([rwblock_read_correct],
      [rwblock_write_correct]); a write and a read at the same place give the bytes back,
      through the registers and the memory of a program, by functions 40h, 42h and 3Fh
      ([file_roundtrip]); opening and closing carry size, time
      and cluster between the directory and the table of open files ([dos_open_correct],
      [dos_close_correct]); cutting a file frees its tail ([rwblock_cut_correct]).  After
      any calls no handle leads to an unused table entry ([handles_never_stale]);
    - calls: a function that tells errors by carry changes no other flag, and on an error
      has its code in AX and in the extended error ([carry_convention]);
    - names: [truename] computes the reference resolution, and answers every
      string on a local drive with a path of up to 128 characters or an error
      ([truename_resolves], [truename_answers]); looking a path up
      and searching report exactly the matching entries in the order of the directory
      ([find_fname_correct], [search_reports_all]);
    - the FAT: a read gives the entry in all three widths, a write changes one entry only
      ([link_fat_read], [link_fat_write]), and the entries of the clusters of a mounted medium
      lie inside the FAT but in two cases that the code lets pass ([entries_inside_fat]); extending keeps the chain
      ([map_cluster_write]), and freeing ends on every FAT, loops included
      ([wipe_out_clusters_stops]);
    - the cache: a block read is the block last written, whatever has been recycled
      ([getblk_correct]), and a flush puts it on the disk ([flush_correct]); the ring that
      the start makes is such a cache, whatever CONFIG.SYS asks for ([boot_cache_ready]);
    - the disk: sectors move between disk and memory in spite of retries, cuts at tracks
      and 64K pages and the bounce buffer, where linear addresses are used or the geometry is
      the one of the BIOS ([LBA_Transfer_correct]); a transfer on one drive of a hard disk
      keeps off all others, unless its end overflows 32 bits ([partition_isolated]); write
      and read round-trip ([drive_roundtrip]); the drive letters come in the documented
      order, and a partition that the scan accepts has a usable BPB and sectors that can all
      be reached ([drive_letters], [partition_ready]); the check of the medium mounts a
      well-formed volume that is in the drive ([media_check_mounts]);
    - programs: the image and its relocations, the prefix and the start
      ([program_starts]); the environment ([environment_built]); a start that fails gives
      the memory back ([failed_exec_keeps]);
    - the configuration: behind three passes that run to their end all settings are in
      their bounds and the environment is a list of variables ([configuration_in_order]); a
      line runs the command that it names in the pass of the command, on its argument
      ([line_executes]);
    - lines and characters: [read_line] is a reference editor ([read_line_edits]); tabs and
      the column ([cooked_write_expands]);
    - sharing and memory: no two incompatible instances are open ([sharing_respected]),
      ranges with a lock at one of their ends are refused ([locked_range_refused]), and an
      allocation adds one block of the size asked for or finds none that is large enough
      ([DosMemAlloc_correct]);
    - countries: what is set is read back, and the shortcuts to the built-in tables make no
      difference ([country_roundtrip], [flags_do_not_matter]).  Control blocks read their
      file, and their names round-trip ([fcb_reads_file], [fcb_name_roundtrip]).

    Theorems without a mark hold too: among others the calendar of [SystimeSpec] is the
    Gregorian one, [PrfSpec] shows what a format prints, [InitdiskThms.primaries_once] and
    [DiskdrvThms.bldbpb_correct] complete the disk, [DosfnsThms.write_read_roundtrip] is the
    round trip at the handles, [LineeditThms.read_handle_pieces] hands a line out in pieces,
    [IoctlThms.device_information_roundtrip] reads back what is set,
    [ConfigThms.file_line_by_line] and [ConfigThms.number_read_back] read lines and
    numbers, and [DiskdrvThms.short_track_hangs],
    [ConfigSpec.long_shell_overruns], [MediaThms.fat_passed_through],
    [ShareSpec.enclosed_lock_missed], [DosfnsThms.force_dup_self],
    [NewstuffThms.path_overruns_buffer], [FcbThms.random_block_count],
    [Int21Thms.server_call_hangs] and [Int21Thms.abort_code_lost] show faults of the code.

    ** Fuel

    A loop of the code takes a natural number; [None] when it is used up.  The theorems
    say how much is enough:

    - [cf] bounds the buffers of the ring: their number is enough ([BlockioSpec], where it
      is called [fuel]);
    - [steps] bounds the steps along a chain of clusters and the sectors of one piece of a
      transfer: the clusters of the volume are enough for walking and freeing, and the
      clusters the file will have in addition for writing;
    - [ents] bounds the entries of a directory: 65536 are enough, since the code counts
      them in 16 bits;
    - [fuel] of [rw_loop] bounds the pieces of a transfer: its bytes are enough; that of
      [scan] the characters of a path, that of [transfer_loop] the sectors;
    - [tries] and the fuel of the requests to drivers bound the rounds in which the user
      asks for a retry: a handler that retries for ever does not end in C either, so the
      theorems take a reliable driver, or hold for any number of rounds;
    - [keys] and [polls] of the configuration bound the keys that are pressed and the looks
      at the keyboard while a question waits, as [tries] does;
    - constants: [table_loop] 31 (the code gives up behind 30 tables), [read_image] 33
      pieces of 32 Kbyte (more than the memory has), [far_string] 65536 (a segment),
      [cluster_loop] 8 (the cluster sizes from 1 to 128 sectors);
    - [mfuel] of the calls bounds the chain of memory blocks; [serve_loop] the jumps back
      to the dispatch: one round is enough but for function 5D00h, which
      [server_call_hangs] shows need not end.

    ** Not modelled

    - in the interrupts: the frame of the caller and the job file table are values beside the
      memory, so a program that points a transfer at them does not change them; the memory
      control blocks likewise are [d_mm] and not bytes.  Where a function tells the address
      of something in the data segment, the address is a method of [KernelPlace];
    - of [kernel/config.c] what lays the memory out ([PreConfig], [PostConfig], [KernelAlloc],
      the chain of devices, upper memory), the start of the commands that INSTALL has kept,
      and the output on the screen; [kernel/main.c], [kernel/dyninit.c] and the rest of
      [kernel/inithma.c], which run once at the start and place the kernel in memory;
      [kernel/nls_load.c], which the makefile does not build;
    - [kernel/lfnapi.c]: not in the build, and written for fields that no longer exist;
    - [kernel/error.c] and the assembler but for the entry of interrupt 21h: glue around entry
      points; the answers of the critical error handler, of the network redirector and of loaded
      drivers are arguments, that is, methods of the classes above;
    - what [kernel/initdisk.c] prints while it scans;
    - the boot sectors, [sys/], [utils/] and the other programs of the repository
      (FreeCOM, 4DOS, mTCP, Info-ZIP, GNU grep and others): separate programs, for the
      most part copies of other projects' releases. *)

From Stdlib Require Export ZArith Lia.
From Stdlib Require Ascii String.
From stdpp Require Export base numbers list gmap option.

#[global] Open Scope Z_scope.

(** ** Machine integers of the 16-bit build

    [int]/[COUNT] have 16 bits, [long]/[ULONG] 32; [UWORD] is [unsigned short]
    and [UBYTE] [unsigned char].  A value of such a type is a [Z] in range, and
    an assignment to it wraps. *)

Definition u8 (z : Z) : Z := z mod 256.
Definition u16 (z : Z) : Z := z mod 65536.
Definition u32 (z : Z) : Z := z mod 4294967296.

(** A signed 16-bit value ([int], [COUNT]) from any integer. *)
Definition s16 (z : Z) : Z := (z + 32768) mod 65536 - 32768.

Ltac word_unfold := unfold u8, u16, u32, s16 in *.

(** Linear arithmetic with division and remainder by constants. *)
Ltac word_lia := word_unfold; Z.div_mod_to_equations; lia.

Lemma u8_range z : 0 <= u8 z < 256.
Proof. apply Z.mod_pos_bound; lia. Qed.
Lemma u16_range z : 0 <= u16 z < 65536.
Proof. apply Z.mod_pos_bound; lia. Qed.
Lemma u32_range z : 0 <= u32 z < 4294967296.
Proof. apply Z.mod_pos_bound; lia. Qed.
Lemma s16_id z : -32768 <= z < 32768 -> s16 z = z.
Proof. intros. unfold s16. rewrite Z.mod_small; lia. Qed.
Lemma u8_id z : 0 <= z < 256 -> u8 z = z.
Proof. apply Z.mod_small. Qed.
Lemma u16_id z : 0 <= z < 65536 -> u16 z = z.
Proof. apply Z.mod_small. Qed.
Lemma u32_id z : 0 <= z < 4294967296 -> u32 z = z.
Proof. apply Z.mod_small. Qed.

Lemma land_1 z : Z.land z 1 = z mod 2.
Proof. exact (Z.land_ones z 1 ltac:(lia)). Qed.

Lemma land_ones_mod z k : 0 <= k -> Z.land z (Z.ones k) = z mod 2 ^ k.
Proof. apply Z.land_ones. Qed.

(** Two parts of a word that do not overlap. *)
Lemma lor_shiftl lo hi k : 0 <= k -> 0 <= lo < 2 ^ k -> Z.lor lo (Z.shiftl hi k) = lo + hi * 2 ^ k.
Proof.
  intros Hk Hlo. rewrite <- Z.lxor_lor, <- Z.add_nocarry_lxor.
  - by rewrite Z.shiftl_mul_pow2.
  - apply Z.bits_inj'. intros n Hn. rewrite Z.land_spec, Z.bits_0.
    destruct (Z.lt_ge_cases n k) as [H|H]; [by rewrite Z.shiftl_spec_low, andb_false_r by done|].
    destruct (decide (lo = 0)) as [->|]; [by rewrite Z.bits_0|].
    rewrite (Z.bits_above_log2 lo); [done|lia|]. apply Z.lt_le_trans with k; [|done].
    apply Z.log2_lt_pow2; lia.
  - apply Z.bits_inj'. intros n Hn. rewrite Z.land_spec, Z.bits_0.
    destruct (Z.lt_ge_cases n k) as [H|H]; [by rewrite Z.shiftl_spec_low, andb_false_r by done|].
    destruct (decide (lo = 0)) as [->|]; [by rewrite Z.bits_0|].
    rewrite (Z.bits_above_log2 lo); [done|lia|]. apply Z.lt_le_trans with k; [|done].
    apply Z.log2_lt_pow2; lia.
Qed.

Create HintDb words.
#[export] Hint Resolve u8_range u16_range u32_range : words.

(** ** Fuel

    A loop of the code is a [Fixpoint] on a fuel argument; [None] is "out of
    fuel", never an outcome of the code. *)

Declare Scope c_scope.
Delimit Scope c_scope with c.

Notation "'let*' x ':=' e 'in' k" :=
  (match e with Some x => k | None => None end)
    (at level 10, x pattern, e at level 200, k at level 200) : c_scope.
#[global] Open Scope c_scope.

(** ** Arrays

    An array is a list; an index outside it is [None], a stray access. *)

Definition at_ {A} (l : list A) (i : Z) : option A :=
  if i <? 0 then None else l !! Z.to_nat i.

Definition set_at {A} (i : Z) (x : A) (l : list A) : option (list A) :=
  if (0 <=? i) && (i <? Z.of_nat (length l)) then Some (<[Z.to_nat i := x]> l) else None.

#[global] Arguments at_ : simpl never.
#[global] Arguments set_at : simpl never.

Lemma at_lookup {A} (l : list A) i x : at_ l i = Some x -> 0 <= i /\ l !! Z.to_nat i = Some x.
Proof. unfold at_. destruct (Z.ltb_spec i 0); [done|]. auto. Qed.

Lemma at_nat {A} (l : list A) (i : nat) : at_ l (Z.of_nat i) = l !! i.
Proof. unfold at_. rewrite (proj2 (Z.ltb_ge _ _)), Nat2Z.id by lia. done. Qed.

Lemma set_at_nat {A} (l : list A) (i : nat) x :
  (i < length l)%nat -> set_at (Z.of_nat i) x l = Some (<[i := x]> l).
Proof.
  intros H. unfold set_at. rewrite (proj2 (Z.leb_le _ _)), (proj2 (Z.ltb_lt _ _)) by lia.
  by rewrite Nat2Z.id.
Qed.

Ltac case_bool :=
  match goal with
  | |- context [Z.eqb ?a ?b] => destruct (Z.eqb_spec a b)
  | |- context [Z.ltb ?a ?b] => destruct (Z.ltb_spec a b)
  | |- context [Z.leb ?a ?b] => destruct (Z.leb_spec a b)
  end.

(** ** Characters and strings

    A character is its code; a string in memory ends with a NUL. *)

Export Ascii.AsciiSyntax String.StringSyntax.
Delimit Scope char_scope with char.
Delimit Scope string_scope with string.

Definition ch (a : Ascii.ascii) : Z := Z.of_N (Ascii.N_of_ascii a).
#[global] Arguments ch a%_char.

Definition str (s : String.string) : list Z := map ch (String.list_ascii_of_string s).
#[global] Arguments str s%_string.

(** The characters up to the NUL. *)
Fixpoint cstr (l : list Z) : option (list Z) :=
  match l with
  | [] => None
  | c :: l => if c =? 0 then Some [] else let* s := cstr l in Some (c :: s)
  end.

Lemma cstr_app s l : Forall (fun c => c <> 0) s -> cstr (s ++ 0 :: l) = Some s.
Proof.
  induction 1 as [|c s Hc _ IH]; [done|]. cbn. by rewrite (proj2 (Z.eqb_neq _ _)), IH.
Qed.

(** ** Checks over ranges *)

Lemma forall_range (P : Z -> bool) lo n :
  forallb P (seqZ lo n) = true -> forall z, lo <= z < lo + n -> P z = true.
Proof.
  intros H z Hz. rewrite forallb_forall in H. apply H.
  apply list_elem_of_In, elem_of_seqZ. lia.
Qed.

(** ** Counting *)

(** A count over a list changes by the one element two predicates differ on. *)
Lemma filter_length_same {A} (P Q : A -> Prop) `{!forall x, Decision (P x), !forall x, Decision (Q x)} l :
  (forall x, x ∈ l -> P x <-> Q x) -> length (filter P l) = length (filter Q l).
Proof.
  induction l as [|x l IH]; intros Hpq; [done|]. rewrite !filter_cons.
  destruct (decide (P x)) as [Hp|Hp], (decide (Q x)) as [Hq|Hq].
  - cbn. f_equal. apply IH. intros y Hy. apply Hpq. by right.
  - destruct Hq. apply Hpq; [by left|done].
  - destruct Hp. apply Hpq; [by left|done].
  - apply IH. intros y Hy. apply Hpq. by right.
Qed.

Lemma filter_length_update {A} (P Q : A -> Prop) `{!forall x, Decision (P x), !forall x, Decision (Q x)} l n :
  NoDup l -> n ∈ l -> (forall x, x ∈ l -> x <> n -> P x <-> Q x) ->
  (length (filter Q l) + (if decide (P n) then 1 else 0) =
   length (filter P l) + (if decide (Q n) then 1 else 0))%nat.
Proof.
  induction l as [|x l IH]; intros Hnd Hin Hpq; [by apply elem_of_nil in Hin|].
  apply list.NoDup_cons in Hnd as [Hx Hnd]. rewrite !filter_cons. apply elem_of_cons in Hin as [->|Hin].
  - assert (length (filter P l) = length (filter Q l)) as E.
    { apply filter_length_same. intros y Hy. apply Hpq; [by right|]. by intros ->. }
    destruct (decide (P x)), (decide (Q x)); cbn; lia.
  - assert (Hne : x <> n) by (by intros ->).
    specialize (IH Hnd Hin ltac:(intros y Hy; apply Hpq; by right)).
    pose proof (Hpq x ltac:(by left) Hne).
    destruct (decide (P x)), (decide (Q x)); cbn; (tauto || lia).
Qed.
