(* ===== verification/Hdr.v ===== *)
(** * Constants of the kernel headers

    The error codes and critical-error answers of [hdr/error.h].  Every mapped
    definition of the library carries the file (relative to the kernel's
    directory [freedos/source/kernel]) and the lines it translates. *)

From S2P Require Import Prelude.

(** hdr/error.h:39-39 *)
Definition SUCCESS : Z := 0.
(** hdr/error.h:40-40 *)
Definition DE_INVLDFUNC : Z := -1.
(** hdr/error.h:41-41 *)
Definition DE_FILENOTFND : Z := -2.
(** hdr/error.h:42-42 *)
Definition DE_PATHNOTFND : Z := -3.
(** hdr/error.h:43-43 *)
Definition DE_TOOMANY : Z := -4.
(** hdr/error.h:44-44 *)
Definition DE_ACCESS : Z := -5.
(** hdr/error.h:45-45 *)
Definition DE_INVLDHNDL : Z := -6.
(** hdr/error.h:46-46 *)
Definition DE_MCBDESTRY : Z := -7.
(** hdr/error.h:47-47 *)
Definition DE_NOMEM : Z := -8.
(** hdr/error.h:48-48 *)
Definition DE_INVLDMCB : Z := -9.
(** hdr/error.h:51-51 *)
Definition DE_INVLDACC : Z := -12.
(** hdr/error.h:52-52 *)
Definition DE_INVLDDATA : Z := -13.
(** hdr/error.h:53-53 *)
Definition DE_INVLDDRV : Z := -15.
(** hdr/error.h:54-54 *)
Definition DE_RMVCUDIR : Z := -16.
(** hdr/error.h:55-55 *)
Definition DE_DEVICE : Z := -17.
(** hdr/error.h:56-56 *)
Definition DE_NFILES : Z := -18.
(** hdr/error.h:58-58 *)
Definition DE_BLKINVLD : Z := -20.
(** hdr/error.h:60-60 *)
Definition DE_SEEK : Z := -25.
(** hdr/error.h:61-61 *)
Definition DE_HNDLDSKFULL : Z := -28.
(** hdr/error.h:66-66 *)
Definition DE_LOCK : Z := -39.
(** hdr/error.h:68-68 *)
Definition DE_FILEEXISTS : Z := -80.
(** hdr/error.h:84-84 *)
Definition CONTINUE : Z := 0.
(** hdr/error.h:85-85 *)
Definition RETRY : Z := 1.
(** hdr/error.h:86-86 *)
Definition ABORT : Z := 2.
(** hdr/error.h:87-87 *)
Definition FAIL : Z := 3.
