(* ===== verification/Memmgr.v ===== *)
(** * Memory manager: the MCB chain ([kernel/memmgr.c])

    Conventional memory is carved into blocks; each starts with a one-paragraph
    memory control block.  An MCB pointer of the code always has offset 0, so it
    is its segment here, and the null pointer is segment 0.  Memory is a map
    from paragraphs to the MCB their 16 bytes spell; a paragraph the map does
    not mention holds zeros. *)

From S2P Require Import Prelude Hdr.

(** ** Data *)

(** hdr/mcb.h:38-38 *)
Definition LARGEST : Z := -1.
(** hdr/mcb.h:39-39 *)
Definition FIRST_FIT : Z := 0.
(** hdr/mcb.h:40-40 *)
Definition BEST_FIT : Z := 1.
(** hdr/mcb.h:41-41 *)
Definition LAST_FIT : Z := 2.
(** hdr/mcb.h:42-42 *)
Definition FIRST_FIT_UO : Z := 0x40.
(** hdr/mcb.h:43-43 *)
Definition BEST_FIT_UO : Z := 0x41.
(** hdr/mcb.h:44-44 *)
Definition LAST_FIT_UO : Z := 0x42.
(** hdr/mcb.h:45-45 *)
Definition FIRST_FIT_U : Z := 0x80.
(** hdr/mcb.h:46-46 *)
Definition BEST_FIT_U : Z := 0x81.
(** hdr/mcb.h:47-47 *)
Definition LAST_FIT_U : Z := 0x82.
(** hdr/mcb.h:51-51 *)
Definition MCB_NORMAL : Z := 0x4d.
(** hdr/mcb.h:52-52 *)
Definition MCB_LAST : Z := 0x5a.
(** hdr/mcb.h:55-55 *)
Definition FREE_PSP : Z := 0.

(** hdr/mcb.h:62-68 *)
Record mcb := Mcb {
  m_type : Z;
  m_psp : Z;
  m_size : Z;
  m_fill : list Z;
  m_name : list Z }.

#[export] Instance mcb_inhabited : Inhabited mcb :=
  populate (Mcb 0 0 0 (replicate 3 0) (replicate 8 0)).

Definition with_type v p := Mcb v (m_psp p) (m_size p) (m_fill p) (m_name p).
Definition with_psp v p := Mcb (m_type p) v (m_size p) (m_fill p) (m_name p).
Definition with_size v p := Mcb (m_type p) (m_psp p) v (m_fill p) (m_name p).
Definition with_name v p := Mcb (m_type p) (m_psp p) (m_size p) (m_fill p) v.

(** Memory, and the globals the manager reads and writes
    ([kernel/globals.h]). *)
Record mm := MM {
  mem : gmap Z mcb;
  first_mcb : Z;
  uppermem_root : Z;
  uppermem_link : Z;
  mem_access_mode : Z;
  cu_psp : Z }.

Definition set_mem m (st : mm) :=
  MM m (first_mcb st) (uppermem_root st) (uppermem_link st) (mem_access_mode st) (cu_psp st).
Definition set_link l (st : mm) :=
  MM (mem st) (first_mcb st) (uppermem_root st) l (mem_access_mode st) (cu_psp st).
Definition set_access_mode a (st : mm) :=
  MM (mem st) (first_mcb st) (uppermem_root st) (uppermem_link st) a (cu_psp st).

(** [p->field = v] *)
Definition upd (p : Z) (f : mcb -> mcb) (m : gmap Z mcb) : gmap Z mcb :=
  <[p := f (m !!! p)]> m.

(** kernel/memmgr.c:37-37 *)
Definition nxtMCBsize (p size : Z) : Z := u16 (p + size + 1).
(** kernel/memmgr.c:38-38 *)
Definition nxtMCB (m : gmap Z mcb) (p : Z) : Z := nxtMCBsize p (m_size (m !!! p)).
(** kernel/memmgr.c:40-40 *)
Definition mcbFree (p : mcb) : bool := m_psp p =? FREE_PSP.
(** kernel/memmgr.c:43-44 *)
Definition mcbFreeable (p : mcb) : bool :=
  (m_type p =? MCB_NORMAL) || (m_type p =? MCB_LAST).
(** kernel/memmgr.c:41-42 *)
Definition mcbValid (p : mcb) : bool :=
  negb (m_size p =? 0xffff) && ((m_type p =? MCB_NORMAL) || (m_type p =? MCB_LAST)).

(** ** Operations *)

(** kernel/memmgr.c:48-79 *)
Fixpoint joinMCBs (fuel : nat) (para : Z) (m : gmap Z mcb) : option (Z * gmap Z mcb) :=
  match fuel with
  | O => None
  | S fuel' =>
      if m_type (m !!! para) =? MCB_NORMAL then
        let q := nxtMCB m para in
        if negb (mcbFree (m !!! q)) then Some (SUCCESS, m)
        else if negb (mcbValid (m !!! q)) then Some (DE_MCBDESTRY, m)
        else
          let m1 := upd para (with_type (m_type (m !!! q))) m in
          let m2 := upd para
            (with_size (u16 (m_size (m1 !!! para) + m_size (m1 !!! q) + 1))) m1 in
          let m3 := upd q (with_size 0xffff) m2 in
          joinMCBs fuel' para m3
      else Some (SUCCESS, m)
  end.

(** A far pointer, for [adjust_far].
    kernel/memmgr.c:81-98 *)
Definition adjust_far (fp : Z * Z) : Z * Z :=
  let '(seg, off) := fp in
  if seg =? 0xffff then fp
  else (u16 (seg + Z.shiftr off 4), Z.land off 0xf).

(** What the search loop of [DosMemAlloc] ends with: a destroyed chain, the
    jump to [stopIt], or the end of the chain, with the candidates. *)
Inductive scan_out :=
  | ScanDestroyed
  | ScanStop (foundSeg biggestSeg : Z)
  | ScanEnd (foundSeg biggestSeg : Z).

(** The [switch (mode)] of the search loop on a block that is large enough:
    the new [foundSeg] and whether the loop is left.
    kernel/memmgr.c:154-182 *)
Definition fit_rule (mode : Z) (m : gmap Z mcb) (p foundSeg : Z) : bool * Z :=
  if mode =? LARGEST then (false, foundSeg)
  else if (mode =? BEST_FIT) || (mode =? BEST_FIT_U) || (mode =? BEST_FIT_UO) then
    (false, if (foundSeg =? 0) || (m_size (m !!! p) <? m_size (m !!! foundSeg))
            then p else foundSeg)
  else if (mode =? FIRST_FIT) || (mode =? FIRST_FIT_U) || (mode =? FIRST_FIT_UO) then
    (true, p)
  else (false, p).

(** The search loop.
    kernel/memmgr.c:136-190 *)
Fixpoint scanMCBs (fuel : nat) (size mode : Z) (m : gmap Z mcb) (p foundSeg biggestSeg : Z)
    : option (gmap Z mcb * scan_out) :=
  match fuel with
  | O => None
  | S fuel' =>
      let advance m foundSeg biggestSeg :=
        if m_type (m !!! p) =? MCB_LAST then Some (m, ScanEnd foundSeg biggestSeg)
        else scanMCBs fuel' size mode m (nxtMCB m p) foundSeg biggestSeg in
      if negb (mcbValid (m !!! p)) then Some (m, ScanDestroyed)
      else if mcbFree (m !!! p) then
        let* (rc, m) := joinMCBs fuel' p m in
        if negb (rc =? SUCCESS) then Some (m, ScanDestroyed)
        else
          let biggestSeg :=
            if (biggestSeg =? 0) || (m_size (m !!! biggestSeg) <? m_size (m !!! p))
            then p else biggestSeg in
          if size <=? m_size (m !!! p) then
            let '(stop, foundSeg) := fit_rule mode m p foundSeg in
            if stop then Some (m, ScanStop foundSeg biggestSeg)
            else advance m foundSeg biggestSeg
          else advance m foundSeg biggestSeg
      else advance m foundSeg biggestSeg
  end.

(** From [stopIt] on: split the block found, claim the part allocated and
    return its segment.
    kernel/memmgr.c:208-254 *)
Definition claimMCB (size mode psp : Z) (m : gmap Z mcb) (foundSeg : Z) : Z * gmap Z mcb :=
  let '(foundSeg, m) :=
    if negb (mode =? LARGEST) && negb (size =? m_size (m !!! foundSeg)) then
      let '(p, foundSeg, m) :=
        if (mode =? LAST_FIT) || (mode =? LAST_FIT_UO) || (mode =? LAST_FIT_U) then
          let p := foundSeg in
          let m := upd p (with_size (u16 (m_size (m !!! p) - (size + 1)))) m in
          let foundSeg := nxtMCB m p in
          let m := upd foundSeg (with_type (m_type (m !!! p))) m in
          (p, foundSeg, upd p (with_type MCB_NORMAL) m)
        else
          let p := nxtMCBsize foundSeg size in
          let m := upd p (with_type (m_type (m !!! foundSeg))) m in
          let m := upd p (with_size (u16 (m_size (m !!! foundSeg) - size - 1))) m in
          (p, foundSeg, upd foundSeg (with_type MCB_NORMAL) m) in
      let m := upd p (with_psp FREE_PSP) m in
      (foundSeg, upd foundSeg (with_size size) m)
    else (foundSeg, m) in
  let m := upd foundSeg (with_psp psp) m in
  let m := upd foundSeg (fun b => with_name (<[0%nat := 0]> (m_name b)) b) m in
  (foundSeg, m).

(** Where the search starts.
    kernel/memmgr.c:120-134 *)
Definition scan_start (st : mm) (size mode : Z) : Z :=
  if negb (Z.land (uppermem_link st) 1 =? 0) && negb (uppermem_root st =? 0xffff) then
    let tmpmode := if mode =? LARGEST then mem_access_mode st else mode in
    if (negb (mode =? LARGEST) || (size =? 0xffff)) &&
       negb (Z.land tmpmode (Z.lor FIRST_FIT_UO FIRST_FIT_U) =? 0)
    then uppermem_root st else first_mcb st
  else first_mcb st.

(** One pass of [DosMemAlloc] from [searchAgain] on.  [asize] is a pointer that
    may be null ([None]); the result gives the return code, [*para] and
    [*asize].  [again] is the jump back to [searchAgain], with the new [mode].
    kernel/memmgr.c:117-254 *)
Definition searchAgain (again : Z -> mm -> option (Z * Z * option Z * mm))
    (fuel : nat) (size mode para : Z) (asize : option Z) (st : mm)
    : option (Z * Z * option Z * mm) :=
  let* (m, out) := scanMCBs fuel size mode (mem st) (scan_start st size mode) 0 0 in
  let st := set_mem m st in
  match out with
  | ScanDestroyed => Some (DE_MCBDESTRY, para, asize, st)
  | ScanStop foundSeg _ =>
      let '(seg, m) := claimMCB size mode (cu_psp st) m foundSeg in
      Some (SUCCESS, seg, asize, set_mem m st)
  | ScanEnd foundSeg biggestSeg =>
      let '(foundSeg, asize) :=
        if (mode =? LARGEST) && negb (biggestSeg =? 0) && (size <=? m_size (m !!! biggestSeg))
        then (biggestSeg, Some (m_size (m !!! biggestSeg)))
        else (foundSeg, asize) in
      if (foundSeg =? 0) || (m_size (m !!! foundSeg) =? 0) then
        if negb (mode =? LARGEST) && negb (Z.land mode FIRST_FIT_U =? 0) &&
           (negb (Z.land (uppermem_link st) 1 =? 0) && negb (uppermem_root st =? 0xffff))
        then again (Z.land mode (Z.lnot FIRST_FIT_U)) st
        else
          Some (DE_NOMEM, para,
                (fun _ => if biggestSeg =? 0 then 0 else m_size (m !!! biggestSeg)) <$> asize, st)
      else
        let '(seg, m) := claimMCB size mode (cu_psp st) m foundSeg in
        Some (SUCCESS, seg, asize, set_mem m st)
  end.

(** The jump back clears [FIRST_FIT_U] in [mode], so it is taken once at most:
    [tries] counts it.
    kernel/memmgr.c:106-255 *)
Fixpoint DosMemAlloc_ (tries fuel : nat) (size mode para : Z) (asize : option Z) (st : mm)
    : option (Z * Z * option Z * mm) :=
  searchAgain
    (match tries with
     | O => fun _ _ => None
     | S tries' => fun mode st => DosMemAlloc_ tries' fuel size mode para asize st
     end) fuel size mode para asize st.

Definition DosMemAlloc (fuel : nat) (size mode para : Z) (asize : option Z) (st : mm) :=
  DosMemAlloc_ 1 fuel size mode para asize st.

(** The result is the return code and [*size].
    kernel/memmgr.c:257-280 *)
Definition DosMemLargest (fuel : nat) (st : mm) : option (Z * Z * mm) :=
  let* (_, _, asz, st) := DosMemAlloc fuel 0xffff LARGEST 0 (Some 0) st in
  let size := default 0 asz in
  let* (size, st) :=
    if negb (Z.land (mem_access_mode st) 0x80 =? 0) then
      let st := set_access_mode (Z.land (mem_access_mode st) (Z.lnot 0x80)) st in
      let* (_, _, lsz, st) := DosMemAlloc fuel 0xffff LARGEST 0 (Some 0) st in
      let st := set_access_mode (Z.lor (mem_access_mode st) 0x80) st in
      let lowsize := default 0 lsz in
      Some (if size <? lowsize then lowsize else size, st)
    else Some (size, st) in
  Some (if negb (size =? 0) then SUCCESS else DE_NOMEM, size, st).

(** kernel/memmgr.c:282-307 *)
Definition DosMemFree (para : Z) (m : gmap Z mcb) : Z * gmap Z mcb :=
  if para =? 0 then (DE_INVLDMCB, m)
  else if negb (mcbFreeable (m !!! para)) then (DE_INVLDMCB, m)
  else
    let m := upd para (with_psp FREE_PSP) m in
    let m := upd para (with_name (replicate 8 0)) m in
    (SUCCESS, m).

(** Growing in [DosMemChange].
    kernel/memmgr.c:328-342 *)
Definition growMCB (fuel : nat) (p size : Z) (m : gmap Z mcb) : option (Z * gmap Z mcb) :=
  if m_size (m !!! p) <? size then
    let* (rc, m) := joinMCBs fuel p m in
    if negb (rc =? SUCCESS) then Some (DE_MCBDESTRY, m)
    else if m_size (m !!! p) <? size then Some (DE_NOMEM, m)
    else Some (SUCCESS, m)
  else Some (SUCCESS, m).

(** Shrinking in [DosMemChange].
    kernel/memmgr.c:344-366 *)
Definition shrinkMCB (fuel : nat) (p size : Z) (m : gmap Z mcb) : option (Z * gmap Z mcb) :=
  if size <? m_size (m !!! p) then
    let q := nxtMCBsize p size in
    let m := upd q (with_size (u16 (m_size (m !!! p) - size - 1))) m in
    let m := upd q (with_type (m_type (m !!! p))) m in
    let m := upd p (with_size size) m in
    let m := upd p (with_type MCB_NORMAL) m in
    let m := upd q (with_psp FREE_PSP) m in
    let m := upd q (with_name (replicate 8 0)) m in
    let* (rc, m) := joinMCBs fuel q m in
    Some (if negb (rc =? SUCCESS) then DE_MCBDESTRY else SUCCESS, m)
  else Some (SUCCESS, m).

(** [maxSize] is a pointer that may be null.
    kernel/memmgr.c:309-374 *)
Definition DosMemChange (fuel : nat) (para size : Z) (maxSize : option Z) (st : mm)
    : option (Z * option Z * mm) :=
  let p := u16 (para - 1) in
  let m := mem st in
  if negb (mcbValid (m !!! p)) then Some (DE_MCBDESTRY, maxSize, st)
  else
    let* (rc, m) := growMCB fuel p size m in
    if rc =? DE_NOMEM then
      Some (DE_NOMEM, (fun _ => m_size (m !!! p)) <$> maxSize, set_mem m st)
    else if negb (rc =? SUCCESS) then Some (rc, maxSize, set_mem m st)
    else
      let* (rc, m) := shrinkMCB fuel p size m in
      if negb (rc =? SUCCESS) then Some (rc, maxSize, set_mem m st)
      else
        let m := upd p (with_psp (cu_psp st)) m in
        Some (SUCCESS, maxSize, set_mem m st).

(** The console messages of the error path are not modelled.
    kernel/memmgr.c:376-405 *)
Fixpoint DosMemCheck_ (fuel : nat) (m : gmap Z mcb) (p : Z) : option Z :=
  match fuel with
  | O => None
  | S fuel' =>
      if m_type (m !!! p) =? MCB_LAST then Some SUCCESS
      else if negb (m_type (m !!! p) =? MCB_NORMAL) then Some DE_MCBDESTRY
      else DosMemCheck_ fuel' m (nxtMCB m p)
  end.

Definition DosMemCheck (fuel : nat) (st : mm) : option Z :=
  DosMemCheck_ fuel (mem st) (first_mcb st).

(** The loop of [DosUmbLink]: [None] for the early return on an invalid MCB,
    otherwise the pointers [q] and [p] at its end; [q] is uninitialised
    ([None]) when the loop body never ran.
    kernel/memmgr.c:475-481 *)
Fixpoint umb_walk (fuel : nat) (st : mm) (q : option Z) (p : Z) : option (option (option Z * Z)) :=
  match fuel with
  | O => None
  | S fuel' =>
      if negb (p =? uppermem_root st) && negb (m_type (mem st !!! p) =? MCB_LAST) then
        if negb (mcbValid (mem st !!! p)) then Some None
        else umb_walk fuel' st (Some p) (nxtMCB (mem st) p)
      else Some (Some (q, p))
  end.

(** Reading the uninitialised [q] is [None] as well.
    kernel/memmgr.c:464-492 *)
Definition DosUmbLink (fuel : nat) (n : Z) (st : mm) : option mm :=
  if uppermem_root st =? 0xffff then Some st
  else if (1 <? n) || (Z.land (uppermem_link st) 1 =? n) then Some st
  else
    let* out := umb_walk fuel st None (first_mcb st) in
    match out with
    | None => Some st
    | Some (q, p) =>
        if n =? 0 then
          let* q := q in
          let m := if (m_type (mem st !!! q) =? MCB_NORMAL) && (p =? uppermem_root st)
                   then upd q (with_type MCB_LAST) (mem st) else mem st in
          Some (set_link n (set_mem m st))
        else if m_type (mem st !!! p) =? MCB_LAST then
          Some (set_link n (set_mem (upd p (with_type MCB_NORMAL) (mem st)) st))
        else Some st
    end.

(** The loop of [FreeProcessMem].
    kernel/memmgr.c:415-427 *)
Fixpoint free_owned (fuel : nat) (ps : Z) (m : gmap Z mcb) (p : Z) : option (Z * gmap Z mcb) :=
  match fuel with
  | O => None
  | S fuel' =>
      if negb (mcbValid (m !!! p)) then Some (DE_MCBDESTRY, m)
      else
        let m := if m_psp (m !!! p) =? ps then snd (DosMemFree p m) else m in
        if m_type (m !!! p) =? MCB_LAST then Some (SUCCESS, m)
        else free_owned fuel' ps m (nxtMCB m p)
  end.

(** kernel/memmgr.c:407-432 *)
Definition FreeProcessMem (fuel : nat) (ps : Z) (st : mm) : option (Z * mm) :=
  let oldumbstate := Z.land (uppermem_link st) 1 in
  let* st := DosUmbLink fuel 1 st in
  let* (rc, m) := free_owned fuel ps (mem st) (first_mcb st) in
  let st := set_mem m st in
  if negb (rc =? SUCCESS) then Some (rc, st)
  else
    let* st := DosUmbLink fuel oldumbstate st in
    Some (SUCCESS, st).
