(* ===== verification/MemmgrSpec.v ===== *)
(** * The MCB chain as a list of blocks

    The abstract state of the memory manager is the list of blocks the MCB
    chain spells, each with its owner (0: free) and its size in paragraphs; the
    segments are determined by the sizes.  Every operation of [Memmgr] is
    specified by what it does to that list. *)

From S2P Require Import Prelude Hdr Memmgr.

(** ** Abstract blocks and their representation *)

Record blk := Blk { b_owner : Z; b_size : Z }.

Definition block_at (m : gmap Z mcb) (s t : Z) (b : blk) : Prop :=
  m_type (m !!! s) = t /\ m_psp (m !!! s) = b_owner b /\ m_size (m !!! s) = b_size b /\
  0 <= b_size b /\ 0 < s /\ s + b_size b < 65536.

Inductive repr (m : gmap Z mcb) : Z -> list blk -> Prop :=
  | repr_last s b : block_at m s MCB_LAST b -> repr m s [b]
  | repr_cons s b c bl :
      block_at m s MCB_NORMAL b -> repr m (s + b_size b + 1) (c :: bl) ->
      repr m s (b :: c :: bl).

(** The segment just after the blocks of [bl], the first of which is at [s]. *)
Fixpoint chain_end (s : Z) (bl : list blk) : Z :=
  match bl with
  | [] => s
  | b :: bl => chain_end (s + b_size b + 1) bl
  end.

(** The free blocks, as (segment, size), and the allocated ones, as
    (segment, size, owner). *)
Fixpoint frees (s : Z) (bl : list blk) : list (Z * Z) :=
  match bl with
  | [] => []
  | b :: bl =>
      (if b_owner b =? FREE_PSP then [(s, b_size b)] else []) ++ frees (s + b_size b + 1) bl
  end.

Fixpoint used (s : Z) (bl : list blk) : list (Z * Z * Z) :=
  match bl with
  | [] => []
  | b :: bl =>
      (if b_owner b =? FREE_PSP then [] else [(s, b_size b, b_owner b)])
        ++ used (s + b_size b + 1) bl
  end.

(** Joining the run of free blocks that follows a block of [z] paragraphs. *)
Fixpoint join_free (z : Z) (bl : list blk) : Z * list blk :=
  match bl with
  | c :: r => if b_owner c =? FREE_PSP then join_free (z + b_size c + 1) r else (z, bl)
  | [] => (z, [])
  end.

(** All free neighbours joined. *)
Fixpoint coalesce (bl : list blk) : list blk :=
  match bl with
  | [] => []
  | b :: r =>
      if b_owner b =? FREE_PSP then
        match coalesce r with
        | c :: r' =>
            if b_owner c =? FREE_PSP then Blk FREE_PSP (b_size b + b_size c + 1) :: r'
            else b :: c :: r'
        | [] => [b]
        end
      else b :: coalesce r
  end.

(** ** Basic facts *)

Lemma upd_eq p f m : upd p f m !!! p = f (m !!! p).
Proof. apply lookup_total_insert_eq. Qed.
Lemma upd_ne p q f m : q <> p -> upd p f m !!! q = m !!! q.
Proof. intros. by apply lookup_total_insert_ne. Qed.

Ltac mm_simpl := repeat (rewrite upd_eq || rewrite upd_ne by lia); cbn.

Lemma repr_nonempty m s bl : repr m s bl -> bl <> [].
Proof. by destruct 1. Qed.

Lemma repr_head m s b bl :
  repr m s (b :: bl) ->
  block_at m s (match bl with [] => MCB_LAST | _ => MCB_NORMAL end) b.
Proof. by inversion 1; subst. Qed.

Lemma repr_tail m s b c bl : repr m s (b :: c :: bl) -> repr m (s + b_size b + 1) (c :: bl).
Proof. by inversion 1. Qed.

Lemma repr_intro m s b bl :
  block_at m s (match bl with [] => MCB_LAST | _ => MCB_NORMAL end) b ->
  (bl <> [] -> repr m (s + b_size b + 1) bl) -> repr m s (b :: bl).
Proof. destruct bl; intros; [by apply repr_last | apply repr_cons; auto]. Qed.

Lemma repr_valid m s b bl : repr m s (b :: bl) -> mcbValid (m !!! s) = true.
Proof.
  intros H%repr_head. unfold mcbValid. destruct H as (-> & _ & -> & ? & ? & ?).
  case_bool; [lia|]. by destruct bl.
Qed.

Lemma repr_end m s bl : repr m s bl -> s < chain_end s bl <= 65536.
Proof. induction 1 as [s b H|s b c bl H _ IH]; cbn in *; unfold block_at in H; lia. Qed.

Lemma repr_end_head m s b bl :
  repr m s (b :: bl) -> s + b_size b + 1 <= chain_end s (b :: bl).
Proof.
  intros H. destruct bl as [|c bl]; cbn [chain_end]; [lia|].
  pose proof (repr_end _ _ _ (repr_tail _ _ _ _ _ H)). cbn [chain_end] in *. lia.
Qed.

Lemma repr_next m s b c bl :
  repr m s (b :: c :: bl) -> nxtMCB m s = s + b_size b + 1.
Proof.
  intros H. pose proof (repr_head _ _ _ _ H) as (_ & _ & Hz & ? & ? & ?).
  pose proof (repr_head _ _ _ _ (repr_tail _ _ _ _ _ H)) as (_ & _ & _ & ? & ? & ?).
  unfold nxtMCB, nxtMCBsize. rewrite Hz. apply u16_id. lia.
Qed.

Lemma block_at_ext m m' s t b : m' !!! s = m !!! s -> block_at m s t b -> block_at m' s t b.
Proof. unfold block_at. by intros ->. Qed.

Lemma repr_frame m m' s bl :
  (forall x, s <= x < chain_end s bl -> m' !!! x = m !!! x) -> repr m s bl -> repr m' s bl.
Proof.
  intros Hf H. revert Hf.
  induction H as [s b H|s b c bl H Hr IH]; intros Hf.
  - apply repr_last. eapply block_at_ext; [|done]. apply Hf. unfold block_at in H. cbn. lia.
  - pose proof (repr_end _ _ _ Hr). unfold block_at in H. cbn in *.
    apply repr_cons; [|apply IH; intros; apply Hf; lia].
    eapply block_at_ext; [|done]. apply Hf. lia.
Qed.

Lemma chain_end_app s l1 l2 : chain_end s (l1 ++ l2) = chain_end (chain_end s l1) l2.
Proof. revert s. induction l1; intros s; cbn; auto. Qed.

Lemma used_app s l1 l2 : used s (l1 ++ l2) = used s l1 ++ used (chain_end s l1) l2.
Proof. revert s. induction l1 as [|b l1 IH]; intros s; cbn; [done|]. by rewrite IH, app_assoc. Qed.

Lemma frees_app s l1 l2 : frees s (l1 ++ l2) = frees s l1 ++ frees (chain_end s l1) l2.
Proof. revert s. induction l1 as [|b l1 IH]; intros s; cbn; [done|]. by rewrite IH, app_assoc. Qed.

(** ** Splitting a chain: a prefix of blocks, none the last, and a chain *)

Fixpoint pre (m : gmap Z mcb) (s : Z) (l : list blk) : Prop :=
  match l with
  | [] => True
  | b :: l => block_at m s MCB_NORMAL b /\ pre m (s + b_size b + 1) l
  end.

Lemma pre_end m s l : pre m s l -> s <= chain_end s l.
Proof.
  revert s. induction l as [|b l IH]; intros s; cbn; [lia|].
  intros [Hb Hl]. apply IH in Hl. unfold block_at in Hb. lia.
Qed.

Lemma pre_frame m m' s l :
  (forall x, s <= x < chain_end s l -> m' !!! x = m !!! x) -> pre m s l -> pre m' s l.
Proof.
  revert s. induction l as [|b l IH]; intros s Hf; cbn; [done|].
  intros [Hb Hl]. pose proof (pre_end _ _ _ Hl). cbn in Hf. unfold block_at in Hb.
  split; [|apply IH; [intros; apply Hf; lia|done]].
  eapply block_at_ext; [apply Hf; lia | done].
Qed.

Lemma repr_app m s l1 l2 :
  l2 <> [] -> repr m s (l1 ++ l2) <-> pre m s l1 /\ repr m (chain_end s l1) l2.
Proof.
  intros Hne. revert s. induction l1 as [|b l1 IH]; intros s; cbn [app pre chain_end]; [tauto|].
  destruct (l1 ++ l2) as [|c r] eqn:E; [by destruct l1, l2|].
  specialize (IH (s + b_size b + 1)). split.
  - intros H. pose proof (repr_head _ _ _ _ H). apply repr_tail in H. tauto.
  - intros [[H1 H2] H3]. apply repr_cons; tauto.
Qed.

(** Replacing the rest of a chain, everything before it untouched. *)
Lemma repr_replace m m' s l1 l2 l2' :
  l2 <> [] -> l2' <> [] -> repr m s (l1 ++ l2) -> repr m' (chain_end s l1) l2' ->
  (forall x, s <= x < chain_end s l1 -> m' !!! x = m !!! x) ->
  repr m' s (l1 ++ l2').
Proof.
  intros H1 H2 [Hp _]%repr_app H' Hf; [|done].
  apply repr_app; [done|]. split; [by eapply pre_frame|done].
Qed.

(** A free block found in a chain splits it. *)
Lemma frees_split s bl f z :
  (f, z) ∈ frees s bl ->
  exists l1 l2, bl = l1 ++ Blk FREE_PSP z :: l2 /\ f = chain_end s l1.
Proof.
  revert s. induction bl as [|b bl IH]; intros s; cbn; [set_solver|].
  rewrite elem_of_app. intros [H|H].
  - destruct (Z.eqb_spec (b_owner b) FREE_PSP) as [E|]; [|set_solver].
    apply list_elem_of_singleton in H. injection H as -> ->.
    exists [], bl. destruct b as [o z]; cbn in *. by subst.
  - destruct (IH _ H) as (l1 & l2 & -> & ->). by exists (b :: l1), l2.
Qed.

Lemma used_split s bl f z o :
  (f, z, o) ∈ used s bl ->
  o <> FREE_PSP /\ exists l1 l2, bl = l1 ++ Blk o z :: l2 /\ f = chain_end s l1.
Proof.
  revert s. induction bl as [|b bl IH]; intros s; cbn; [set_solver|].
  rewrite elem_of_app. intros [H|H].
  - destruct (Z.eqb_spec (b_owner b) FREE_PSP) as [E|]; [set_solver|].
    apply list_elem_of_singleton in H. injection H as -> -> ->.
    split; [done|]. exists [], bl. by destruct b.
  - destruct (IH _ H) as (? & l1 & l2 & -> & ->). split; [done|]. by exists (b :: l1), l2.
Qed.

(** ** Joining *)

Lemma join_free_end s z bl :
  let '(z', r) := join_free z bl in
  chain_end (s + z' + 1) r = chain_end (s + z + 1) bl /\
  used (s + z' + 1) r = used (s + z + 1) bl.
Proof.
  revert z. induction bl as [|c bl IH]; intros z; cbn; [done|].
  destruct (Z.eqb_spec (b_owner c) FREE_PSP) as [E|]; [|cbn; split; [done|]; by case_bool].
  specialize (IH (z + b_size c + 1)). destruct join_free as [z' r].
  by replace (s + z + 1 + b_size c + 1) with (s + (z + b_size c + 1) + 1) by lia.
Qed.

Lemma joinMCBs_repr bl : forall fuel m s o z,
  repr m s (Blk o z :: bl) -> (length bl < fuel)%nat ->
  exists m', joinMCBs fuel s m = Some (SUCCESS, m') /\
    (let '(z', r) := join_free z bl in
     z <= z' /\ repr m' s (Blk o z' :: r) /\
     forall x, ~ (s <= x <= s + z') -> m' !!! x = m !!! x).
Proof.
  induction bl as [|c bl IH]; intros fuel m s o z H Hf; destruct fuel as [|fuel]; [lia| |lia|].
  - pose proof (repr_head _ _ _ _ H) as (Ht & Hh). cbn. rewrite Ht. cbn.
    exists m. split; [done|]. cbn. split; [lia|]. done.
  - pose proof (repr_next _ _ _ _ _ H) as Hn.
    pose proof (repr_head _ _ _ _ H) as (Ht & Ho & Hz & H0 & H1 & H2).
    pose proof (repr_tail _ _ _ _ _ H) as Hr. cbn in Hn, Ho, Hz, H0, H1, H2, Hr.
    pose proof (repr_end _ _ _ Hr) as He.
    pose proof (repr_head _ _ _ _ Hr) as (Ht' & Ho' & Hz' & H0' & H1' & H2').
    cbn [joinMCBs join_free]. rewrite Ht, Hn. cbn [Z.eqb MCB_NORMAL].
    unfold mcbFree. rewrite Ho'.
    destruct (Z.eqb_spec (b_owner c) FREE_PSP) as [E|E]; cbn [negb].
    2: { exists m. split; [done|]. split; [lia|]. by split. }
    change (mcbValid _) with (mcbValid (m !!! (s + z + 1))).
    rewrite (repr_valid _ _ _ _ Hr). cbn [negb].
    set (m3 := upd (s + z + 1) _ _).
    assert (Hm3s : m3 !!! s = with_size (z + b_size c + 1) (with_type (m_type (m !!! (s + z + 1))) (m !!! s))).
    { subst m3. mm_simpl. rewrite Hz, Hz'. rewrite u16_id by lia. done. }
    assert (Hm3 : forall x, x <> s -> x <> s + z + 1 -> m3 !!! x = m !!! x).
    { intros x Hx Hx'. subst m3. mm_simpl. done. }
    clearbody m3.
    destruct (IH fuel m3 s o (z + b_size c + 1)) as (m' & Hj & HH).
    + apply repr_intro.
      * unfold block_at. rewrite Hm3s. cbn. rewrite Ht', Ho. split; [|lia]. by destruct bl.
      * intros Hbl. destruct bl as [|d bl]; [done|].
        apply (repr_frame m); [cbn; intros; apply Hm3; lia|]. cbn.
        apply repr_tail in Hr. by replace (s + (z + b_size c + 1) + 1) with (s + z + 1 + b_size c + 1) by lia.
    + cbn in Hf. lia.
    + exists m'. split; [done|]. destruct (join_free (z + b_size c + 1) bl) as [z' r].
      destruct HH as (? & HH & Hfr). split; [lia|]. split; [done|].
      intros x Hx. rewrite Hfr by lia. apply Hm3; lia.
Qed.

Lemma coalesce_used b r : b_owner b <> FREE_PSP -> coalesce (b :: r) = b :: coalesce r.
Proof. intros H. cbn. by rewrite (proj2 (Z.eqb_neq _ _) H). Qed.

Lemma coalesce_merge z z' r :
  coalesce (Blk FREE_PSP z :: Blk FREE_PSP z' :: r) = coalesce (Blk FREE_PSP (z + z' + 1) :: r).
Proof.
  cbn. destruct (coalesce r) as [|c r']; cbn; [done|].
  destruct (Z.eqb_spec (b_owner c) FREE_PSP); cbn; [|done].
  do 2 f_equal. lia.
Qed.

Lemma coalesce_free z bl :
  let '(z', r) := join_free z bl in
  coalesce (Blk FREE_PSP z :: bl) = Blk FREE_PSP z' :: coalesce r.
Proof.
  revert z. induction bl as [|c bl IH]; intros z; [done|]. cbn [join_free].
  destruct (Z.eqb_spec (b_owner c) FREE_PSP) as [E|E].
  - specialize (IH (z + b_size c + 1)). destruct join_free as [z' r].
    destruct c as [o zc]. cbn in E. subst o. by rewrite coalesce_merge.
  - cbn. apply Z.eqb_neq in E. rewrite !E. done.
Qed.

Lemma join_free_stop z bl : let '(z', r) := join_free z bl in join_free z' r = (z', r).
Proof.
  revert z. induction bl as [|c bl IH]; intros z; [done|]. cbn [join_free].
  destruct (Z.eqb_spec (b_owner c) FREE_PSP) as [E|E]; [apply IH|].
  cbn. apply Z.eqb_neq in E. by rewrite E.
Qed.

Lemma join_free_length z bl : (length (snd (join_free z bl)) <= length bl)%nat.
Proof.
  revert z. induction bl as [|c bl IH]; intros z; cbn; [lia|]. case_bool; cbn; [|lia].
  specialize (IH (z + b_size c + 1)). lia.
Qed.

(** ** The search loop *)

(** A block pointer and the block it points to, as (segment, size). *)
Definition ptr_of (m : gmap Z mcb) (s p : Z) (o : option (Z * Z)) : Prop :=
  match o with
  | None => p = 0
  | Some (f, z) => p = f /\ 0 < f < s /\ m_size (m !!! f) = z
  end.

Definition pick_big (o : option (Z * Z)) (c : Z * Z) : option (Z * Z) :=
  match o with
  | None => Some c
  | Some (f, z) => if z <? snd c then Some c else o
  end.

Definition is_best mode := (mode =? BEST_FIT) || (mode =? BEST_FIT_U) || (mode =? BEST_FIT_UO).
Definition is_first mode := (mode =? FIRST_FIT) || (mode =? FIRST_FIT_U) || (mode =? FIRST_FIT_UO).

Definition pick_fit (size mode : Z) (o : option (Z * Z)) (c : Z * Z) : option (Z * Z) :=
  if size <=? snd c then
    if mode =? LARGEST then o
    else if is_best mode then
      match o with
      | None => Some c
      | Some (f, z) => if snd c <? z then Some c else o
      end
    else Some c
  else o.

Definition scan_result size mode fo go s bl (m' : gmap Z mcb) (out : scan_out) (bl' : list blk) : Prop :=
  match out with
  | ScanDestroyed => False
  | ScanStop f _ => is_first mode = true /\ exists z, (f, z) ∈ frees s bl' /\ size <= z
  | ScanEnd f g =>
      bl' = coalesce bl /\
      ptr_of m' (chain_end s bl') f (foldl (pick_fit size mode) fo (frees s bl')) /\
      ptr_of m' (chain_end s bl') g (foldl pick_big go (frees s bl')) /\
      (is_first mode = true -> Forall (fun c => snd c < size) (frees s bl'))
  end.

Definition scan_post size mode fo go s bl (m m' : gmap Z mcb) (out : scan_out) : Prop :=
  exists bl', repr m' s bl' /\ chain_end s bl' = chain_end s bl /\ used s bl' = used s bl /\
    (forall x, ~ (s <= x < chain_end s bl) -> m' !!! x = m !!! x) /\
    scan_result size mode fo go s bl m' out bl'.

Lemma ptr_of_mono m m' s s' p o :
  ptr_of m s p o -> s <= s' -> (forall x, x < s -> m' !!! x = m !!! x) -> ptr_of m' s' p o.
Proof.
  destruct o as [[f z]|]; cbn; [|done]. intros (-> & ? & <-) ? Hf.
  rewrite Hf by lia. lia.
Qed.

Lemma ptr_of_big m s p o f z :
  ptr_of m s p o -> 0 < f -> f = s -> m_size (m !!! f) = z ->
  ptr_of m (s + 1) (if (p =? 0) || (m_size (m !!! p) <? m_size (m !!! f)) then f else p)
    (pick_big o (f, z)).
Proof.
  intros Hp Hf -> Hz. unfold pick_big. destruct o as [[g y]|]; cbn in *.
  - destruct Hp as (-> & Hg & Hy). rewrite Hy, Hz. case_bool; [lia|]. cbn.
    case_bool; cbn; repeat split; (lia || done).
  - subst p. cbn. repeat split; (lia || done).
Qed.

Lemma ptr_of_fit m s p o f z size mode :
  ptr_of m s p o -> 0 < f -> f = s -> m_size (m !!! f) = z -> size <= z ->
  fst (fit_rule mode m f p) = false ->
  ptr_of m (s + 1) (snd (fit_rule mode m f p)) (pick_fit size mode o (f, z)).
Proof.
  intros Hp Hf -> Hz Hle. unfold fit_rule, pick_fit. cbn [snd]. destruct (Z.leb_spec size z); [|lia].
  case_bool; cbn [fst snd].
  - intros _. eapply (ptr_of_mono m m); [exact Hp|lia|done].
  - fold (is_best mode). destruct (is_best mode); cbn [fst snd].
    + intros _. destruct o as [[g y]|]; cbn in *.
      * destruct Hp as (-> & Hg & Hy). rewrite Hy, Hz. case_bool; [lia|]. cbn.
        case_bool; cbn; repeat split; (lia || done).
      * subst p. cbn. repeat split; (lia || done).
    + fold (is_first mode). destruct (is_first mode); cbn; [done|].
      intros _. repeat split; (lia || done).
Qed.

Lemma repr_head_normal m s b bl :
  repr m s (b :: bl) -> (m_type (m !!! s) =? MCB_LAST) = match bl with [] => true | _ => false end.
Proof. intros H%repr_head. destruct H as [-> _]. by destruct bl. Qed.

(** One step of the search past the (possibly joined) block at [s]: what the
    recursive call establishes for the rest carries over. *)
Lemma scan_post_cons size mode fo go s b r m m1 m' out :
  repr m1 s (b :: r) -> r <> [] ->
  (forall x, s + b_size b < x -> m1 !!! x = m !!! x) ->
  (forall x, x < s -> m1 !!! x = m !!! x) ->
  coalesce (b :: r) = b :: coalesce r ->
  (is_first mode = true -> Forall (fun c => snd c < size) (frees s [b])) ->
  scan_post size mode (foldl (pick_fit size mode) fo (frees s [b]))
    (foldl pick_big go (frees s [b])) (s + b_size b + 1) r m1 m' out ->
  scan_post size mode fo go s (b :: r) m m' out.
Proof.
  intros H Hr Hhi Hlo Hco Hff (bl' & H' & He & Hu & Hf & Hres).
  pose proof (repr_end _ _ _ H') as He'. pose proof (repr_head _ _ _ _ H) as Hb.
  destruct r as [|c r]; [done|].
  assert (0 <= b_size b /\ 0 < s) as [? ?] by (unfold block_at in Hb; tauto).
  exists (b :: bl'). split.
  { apply repr_intro; [|done]. destruct bl'; [by apply repr_nonempty in H'|].
    eapply block_at_ext; [|done]. apply Hf. lia. }
  cbn [chain_end used]. split; [done|]. split; [by rewrite Hu|]. split.
  { intros x Hx. rewrite He in He'. rewrite Hf by (cbn in *; lia).
    destruct (decide (x < s)); [by apply Hlo | apply Hhi; cbn in *; lia]. }
  unfold scan_result in *. cbn [frees]. destruct out as [|f g|f g]; [done| |].
  - destruct Hres as (? & z & Hin & ?). split; [done|]. exists z. split; [|done].
    apply elem_of_app. by right.
  - destruct Hres as (-> & Hfit & Hbig & Hfst). cbn [frees] in *. rewrite app_nil_r in *.
    rewrite !foldl_app. repeat split; [done|done|done|].
    intros Hm. apply Forall_app. split; [by apply Hff|by apply Hfst].
Qed.

Lemma scanMCBs_repr size mode fuel : forall m s bl f g fo go,
  repr m s bl -> (length bl < fuel)%nat -> ptr_of m s f fo -> ptr_of m s g go ->
  exists m' out, scanMCBs fuel size mode m s f g = Some (m', out) /\
    scan_post size mode fo go s bl m m' out.
Proof.
  induction fuel as [|fuel IH]; intros m s bl f g fo go H Hlen Hfo Hgo; [lia|].
  destruct bl as [|b tl]; [by apply repr_nonempty in H|]. cbn [length] in Hlen.
  (* leaving or continuing after the block at [s], now [b'] followed by [r] *)
  assert (Hadv : forall m1 b' r f1 g1,
    repr m1 s (b' :: r) -> (length r < fuel)%nat ->
    (forall x, s + b_size b' < x -> m1 !!! x = m !!! x) ->
    (forall x, x < s -> m1 !!! x = m !!! x) ->
    coalesce (b' :: r) = b' :: coalesce r ->
    (is_first mode = true -> Forall (fun c => snd c < size) (frees s [b'])) ->
    ptr_of m1 (s + 1) f1 (foldl (pick_fit size mode) fo (frees s [b'])) ->
    ptr_of m1 (s + 1) g1 (foldl pick_big go (frees s [b'])) ->
    exists m' out,
      (if m_type (m1 !!! s) =? MCB_LAST then Some (m1, ScanEnd f1 g1)
       else scanMCBs fuel size mode m1 (nxtMCB m1 s) f1 g1) = Some (m', out) /\
      scan_post size mode fo go s (b' :: r) m m' out).
  { intros m1 b' r f1 g1 Hr Hl Hhi Hlo Hco Hff Hf1 Hg1.
    pose proof (repr_head _ _ _ _ Hr) as (_&_&_&?&?&?).
    rewrite (repr_head_normal _ _ _ _ Hr). destruct r as [|c r].
    - exists m1, (ScanEnd f1 g1). split; [done|]. exists [b']. repeat split; try done.
      + intros x Hx. cbn in Hx. destruct (decide (x < s)); [by apply Hlo | apply Hhi; lia].
      + eapply (ptr_of_mono m1 m1); [exact Hf1|cbn; lia|done].
      + eapply (ptr_of_mono m1 m1); [exact Hg1|cbn; lia|done].
    - rewrite (repr_next _ _ _ _ _ Hr).
      edestruct (IH m1 (s + b_size b' + 1) (c :: r) f1 g1) as (m' & out & Hs & Hp).
      + by apply repr_tail in Hr.
      + done.
      + eapply (ptr_of_mono m1 m1); [exact Hf1|lia|done].
      + eapply (ptr_of_mono m1 m1); [exact Hg1|lia|done].
      + exists m', out. split; [done|]. by eapply scan_post_cons. }
  cbn [scanMCBs]. rewrite (repr_valid _ _ _ _ H). cbn [negb].
  pose proof (repr_head _ _ _ _ H) as (_ & Ho & Hz & Hz0 & Hs0 & _).
  unfold mcbFree. rewrite Ho.
  destruct (Z.eqb_spec (b_owner b) FREE_PSP) as [Eb|Eb].
  2: { assert (Ef : frees s [b] = []) by (cbn; by rewrite (proj2 (Z.eqb_neq _ _) Eb)).
       apply Hadv; rewrite ?Ef; cbn; try done; [lia|by apply coalesce_used| |];
       by eapply (ptr_of_mono m m); [done|lia|]. }
  destruct b as [o z]. cbn in Eb, Hz0, Hz. subst o.
  destruct (joinMCBs_repr tl fuel m s FREE_PSP z H) as (m1 & -> & Hj); [lia|].
  cbn [Z.eqb SUCCESS negb].
  pose proof (coalesce_free z tl) as Hco. pose proof (join_free_length z tl) as Hjl.
  pose proof (join_free_end s z tl) as Hje. pose proof (join_free_stop z tl) as Hjs.
  destruct (join_free z tl) as [z' r]. destruct Hj as (Hzz & Hr & Hfr). cbn [snd] in Hjl.
  pose proof (repr_head _ _ _ _ Hr) as (_ & _ & Hz' & _). cbn [b_size] in Hz'.
  set (b' := Blk FREE_PSP z') in *.
  assert (Ef : frees s [b'] = [(s, z')]) by done.
  assert (Hco' : coalesce (b' :: r) = b' :: coalesce r).
  { pose proof (coalesce_free z' r) as E. by rewrite Hjs in E. }
  assert (Hpost : forall m' out, scan_post size mode fo go s (b' :: r) m m' out ->
            scan_post size mode fo go s (Blk FREE_PSP z :: tl) m m' out).
  { intros m' out (bl' & H' & He & Hu & Hf & Hres). exists bl'.
    cbn [chain_end used b_size b_owner b'] in *.
    destruct Hje as [Hje1 Hje2]. rewrite Hje1, Hje2 in *. split_and!; try done.
    unfold scan_result in *. destruct out; [done|done|]. by rewrite Hco, <- Hco'. }
  assert (Hg1 : ptr_of m1 (s + 1)
    (if (g =? 0) || (m_size (m1 !!! g) <? m_size (m1 !!! s)) then s else g)
    (foldl pick_big go (frees s [b']))).
  { rewrite Ef. cbn [foldl]. apply ptr_of_big; try done.
    eapply (ptr_of_mono m m1); [done|lia|]. intros; apply Hfr; lia. }
  assert (Hf1 : ptr_of m1 s f fo).
  { eapply (ptr_of_mono m m1); [done|lia|]. intros; apply Hfr; lia. }
  assert (Hhi : forall x, s + b_size b' < x -> m1 !!! x = m !!! x)
    by (intros; apply Hfr; cbn in *; lia).
  rewrite Hz' in Hg1.
  assert (Hlo : forall x, x < s -> m1 !!! x = m !!! x) by (intros; apply Hfr; lia).
  rewrite Hz'. destruct (Z.leb_spec size z') as [Hle|Hgt].
  - pose proof (ptr_of_fit m1 s f fo s z' size mode Hf1 Hs0 eq_refl Hz' Hle) as Hfit.
    assert (Hfir : fst (fit_rule mode m1 s f) = is_first mode /\
              (is_first mode = true -> snd (fit_rule mode m1 s f) = s)).
    { unfold fit_rule. fold (is_first mode) (is_best mode). unfold is_first, is_best.
      unfold LARGEST, FIRST_FIT, FIRST_FIT_U, FIRST_FIT_UO, BEST_FIT, BEST_FIT_U, BEST_FIT_UO.
      repeat case_bool; cbn; (done || lia). }
    destruct (fit_rule mode m1 s f) as [stop f1]. cbn [fst snd] in Hfit, Hfir.
    destruct Hfir as [-> Hfir]. destruct (is_first mode) eqn:Efirst.
    + eexists _, _. split; [done|]. apply Hpost. exists (b' :: r). repeat split; try done.
      * intros x Hx. cbn in Hx. apply Hfr. pose proof (repr_end_head _ _ _ _ Hr). cbn in *. lia.
      * rewrite Hfir by done. exists z'. split; [|done]. cbn. by left.
    + destruct (Hadv m1 b' r f1 _ Hr ltac:(lia) Hhi Hlo Hco' ltac:(done) ltac:(rewrite Ef; by apply Hfit) Hg1)
        as (m' & out & HA & HB).
      exists m', out. split; [exact HA|by apply Hpost].
  - assert (Hf2 : ptr_of m1 (s + 1) f (foldl (pick_fit size mode) fo (frees s [b']))).
    { rewrite Ef. cbn [foldl]. unfold pick_fit. cbn [snd].
      destruct (Z.leb_spec size z'); [lia|]. eapply (ptr_of_mono m1 m1); [done|lia|done]. }
    destruct (Hadv m1 b' r f _ Hr ltac:(lia) Hhi Hlo Hco'
                ltac:(intros _; rewrite Ef; by repeat constructor) Hf2 Hg1)
      as (m' & out & HA & HB).
    exists m', out. split; [exact HA|by apply Hpost].
Qed.

(** What the folds over the free blocks choose. *)

Lemma pick_fit_fits size mode o l f z :
  foldl (pick_fit size mode) o l = Some (f, z) ->
  o = Some (f, z) \/ ((f, z) ∈ l /\ size <= z).
Proof.
  revert o. induction l as [|c l IH]; intros o; cbn; [auto|].
  intros [H|[? ?]]%IH; [|set_solver]. revert H. unfold pick_fit.
  destruct (Z.leb_spec size (snd c)); [|auto].
  destruct (mode =? LARGEST); [auto|].
  destruct (is_best mode); [|injection 1 as ->; set_solver].
  destruct o as [[g y]|]; [|injection 1 as ->; set_solver].
  destruct (snd c <? y); [|auto]. injection 1 as ->; set_solver.
Qed.

Lemma pick_fit_none size mode o l :
  foldl (pick_fit size mode) o l = None -> mode <> LARGEST ->
  o = None /\ Forall (fun c => snd c < size) l.
Proof.
  intros H Hm. revert o H. induction l as [|c l IH]; intros o; cbn; [by auto|].
  intros [H Hl]%IH. revert H. unfold pick_fit.
  destruct (Z.leb_spec size (snd c)); [|by auto].
  rewrite (proj2 (Z.eqb_neq _ _) Hm). destruct (is_best mode); [|done].
  destruct o as [[g y]|]; [|done]. by destruct (snd c <? y).
Qed.

Lemma pick_fit_largest size o l : foldl (pick_fit size LARGEST) o l = o.
Proof.
  induction l as [|c l IH]; cbn; [done|]. unfold pick_fit at 2. cbn. by destruct (_ <=? _).
Qed.

(** The best fit is no larger than any free block that fits. *)
Lemma pick_fit_best size mode o l f z :
  is_best mode = true -> mode <> LARGEST ->
  foldl (pick_fit size mode) o l = Some (f, z) ->
  Forall (fun c => size <= snd c -> z <= snd c) l /\
  (forall g y, o = Some (g, y) -> z <= y).
Proof.
  intros Hb Hm. apply Z.eqb_neq in Hm. revert o. induction l as [|c l IH]; intros o; cbn.
  - intros ->. split; [done|]. intros g y [= -> ->]. lia.
  - intros [H1 H2]%IH. unfold pick_fit in H2. rewrite Hm, Hb in H2.
    destruct (Z.leb_spec size (snd c)).
    + destruct o as [[g y]|].
      * destruct (Z.ltb_spec (snd c) y).
        -- destruct c as [g' y']. specialize (H2 g' y' eq_refl). cbn in *.
           split; [by constructor|]. intros ? ? [= <- <-]. lia.
        -- specialize (H2 g y eq_refl). split; [constructor; [lia|done]|]. by intros ? ? [= <- <-].
      * destruct c as [g' y']. specialize (H2 g' y' eq_refl). by split; [constructor|].
    + split; [|done]. constructor; [lia|done].
Qed.

Definition largest (l : list (Z * Z)) : Z := foldr (fun c a => Z.max (snd c) a) 0 l.

Lemma pick_big_spec o l :
  match foldl pick_big o l with
  | None => o = None /\ l = []
  | Some (f, z) =>
      ((f, z) ∈ l \/ o = Some (f, z)) /\ Forall (fun c => snd c <= z) l /\
      (forall g y, o = Some (g, y) -> y <= z)
  end.
Proof.
  revert o. induction l as [|c l IH]; intros o; cbn.
  - destruct o as [[f z]|]; [|done]. repeat split; auto. intros ? ? [= -> ->]. lia.
  - specialize (IH (pick_big o c)). destruct (foldl _ _ l) as [[f z]|].
    + destruct IH as (H1 & H2 & H3). unfold pick_big in H1, H3. destruct o as [[g y]|].
      * destruct (Z.ltb_spec y (snd c)).
        -- destruct c as [g' y']. specialize (H3 g' y' eq_refl). cbn in *. split_and!.
           ++ left. destruct H1 as [?|E]; [|injection E as -> ->]; set_solver.
           ++ by constructor.
           ++ intros ? ? [= <- <-]. lia.
        -- pose proof (H3 g y eq_refl). split_and!; [|by constructor; [lia|]|done].
           destruct H1 as [?|E]; [left; by right|by right].
      * destruct c as [g' y']. specialize (H3 g' y' eq_refl). split_and!; [|by constructor|done].
        left. destruct H1 as [?|E]; [by right|injection E as -> ->; by left].
    + destruct IH as [H _]. unfold pick_big in H. destruct o as [[g y]|]; [|done].
      by destruct (y <? snd c).
Qed.

Lemma largest_cons c l : largest (c :: l) = Z.max (snd c) (largest l).
Proof. done. Qed.

Lemma largest_ge l : Forall (fun c => snd c <= largest l) l.
Proof.
  induction l as [|c l IH]; constructor; [rewrite largest_cons; lia|].
  eapply Forall_impl; [|exact IH]. intros x Hx. rewrite largest_cons. cbn in Hx. lia.
Qed.

Lemma largest_unique l f z :
  (f, z) ∈ l -> 0 <= z -> Forall (fun c => snd c <= z) l -> largest l = z.
Proof.
  intros Hin Hz Hf. apply Z.le_antisymm.
  - clear Hin. induction Hf as [|c l H _ IH]; [done|]. rewrite largest_cons. cbn in H. lia.
  - pose proof (largest_ge l) as Hl. rewrite list.Forall_forall in Hl. apply (Hl (f, z) Hin).
Qed.

Lemma ptr_big m s p l :
  ptr_of m s p (foldl pick_big None l) -> Forall (fun c => 0 <= snd c) l ->
  (if p =? 0 then 0 else m_size (m !!! p)) = largest l.
Proof.
  pose proof (pick_big_spec None l) as H. destruct (foldl _ _ l) as [[f z]|].
  - destruct H as ([Hin|?] & Hle & _); [|done]. intros (-> & ? & Hz) Hf.
    destruct (Z.eqb_spec f 0); [lia|]. rewrite Hz. symmetry. apply (largest_unique l f z); [done| |done].
    rewrite list.Forall_forall in Hf. by apply (Hf (f, z)).
  - destruct H as [_ ->]. cbn. by intros ->.
Qed.

(** ** Splitting and claiming *)

Definition is_last mode := (mode =? LAST_FIT) || (mode =? LAST_FIT_UO) || (mode =? LAST_FIT_U).

(** The blocks a free block of [z] paragraphs becomes, and the offset of the
    allocated one. *)
Definition claim_blocks (size mode psp z : Z) : Z * list blk :=
  if (mode =? LARGEST) || (size =? z) then (0, [Blk psp z])
  else if is_last mode then (z - size, [Blk FREE_PSP (z - size - 1); Blk psp size])
  else (0, [Blk psp size; Blk FREE_PSP (z - size - 1)]).

Lemma claimMCB_local size mode psp m f z t :
  block_at m f t (Blk FREE_PSP z) -> 0 <= size <= z ->
  exists m', claimMCB size mode psp m f = (f + fst (claim_blocks size mode psp z), m') /\
    (forall x, ~ (f <= x <= f + z) -> m' !!! x = m !!! x) /\
    match snd (claim_blocks size mode psp z) with
    | [b] => block_at m' f t b
    | [b; c] => block_at m' f MCB_NORMAL b /\ block_at m' (f + b_size b + 1) t c
    | _ => False
    end.
Proof.
  intros (Ht & Ho & Hz & H0 & Hf & Hb) Hs. cbn in *.
  unfold claimMCB, claim_blocks, is_last, nxtMCB, nxtMCBsize. rewrite Hz.
  destruct (Z.eqb_spec mode LARGEST) as [_|Hm]; cbn [negb andb orb].
  { eexists. split; [f_equal; cbn; lia|]. split; [intros x Hx; by mm_simpl|].
    unfold block_at. mm_simpl. rewrite Hz, Ht. lia. }
  destruct (Z.eqb_spec size z) as [->|Hne]; cbn [negb andb orb].
  { eexists. split; [f_equal; cbn; lia|]. split; [intros x Hx; by mm_simpl|].
    unfold block_at. mm_simpl. rewrite Hz, Ht. lia. }
  destruct ((mode =? LAST_FIT) || _ || _).
  - mm_simpl. rewrite !(u16_id (z - (size + 1))) by lia. rewrite !(u16_id (f + _ + 1)) by lia.
    eexists. split; [f_equal; lia|]. split; [intros x Hx; by mm_simpl|]. cbn.
    replace (f + (z - size - 1) + 1) with (f + (z - (size + 1)) + 1) by lia.
    unfold block_at. split; mm_simpl; rewrite ?Ht, ?Ho; lia.
  - rewrite !(u16_id (f + _ + 1)) by lia. mm_simpl.
    rewrite !Hz. rewrite !(u16_id (z - size - 1)) by lia.
    eexists. split; [f_equal; lia|]. split; [intros x Hx; by mm_simpl|]. cbn.
    unfold block_at. split; mm_simpl; rewrite ?Ht; lia.
Qed.

(** A free block of the chain claimed: the only change of the allocated blocks
    is the new one. *)
Lemma claimMCB_repr size mode psp m s bl f z :
  repr m s bl -> (f, z) ∈ frees s bl -> 0 <= size <= z -> psp <> FREE_PSP ->
  exists f' m' bl', claimMCB size mode psp m f = (f', m') /\ repr m' s bl' /\
    chain_end s bl' = chain_end s bl /\
    used s bl' ≡ₚ (f', if mode =? LARGEST then z else size, psp) :: used s bl.
Proof.
  intros H (l1 & l2 & -> & ->)%frees_split Hs Hpsp.
  pose proof H as [Hp Hr]%repr_app; [|done].
  pose proof (repr_end_head _ _ _ _ Hr) as He. cbn [b_size] in He.
  set (f := chain_end s l1) in *.
  destruct (claimMCB_local size mode psp m f z _ (repr_head _ _ _ _ Hr) Hs)
    as (m' & Hc & Hfr & Hbs).
  destruct (claim_blocks size mode psp z) as [d bs] eqn:Ecb. cbn [fst snd] in *.
  exists (f + d), m', (l1 ++ bs ++ l2). split; [done|].
  assert (Hbs' : chain_end f bs = f + z + 1 /\
    used f bs = [(f + d, if mode =? LARGEST then z else size, psp)]).
  { revert Ecb. unfold claim_blocks. apply Z.eqb_neq in Hpsp.
    destruct (mode =? LARGEST) eqn:El; cbn [orb]; [|destruct (Z.eqb_spec size z); cbn [orb];
      [|destruct (is_last mode)]]; intros [= <- <-]; cbn; rewrite ?Hpsp; subst; cbn;
      (split; [lia|]); do 3 f_equal; lia. }
  destruct Hbs' as [He1 Hu1].
  split.
  { apply (repr_replace m m' s l1 (Blk FREE_PSP z :: l2)); [done|by destruct bs as [|? [|? []]]|done| |].
    2: { intros x Hx. apply Hfr. unfold f in *. lia. }
    fold f. assert (Htl : l2 <> [] -> repr m' (f + z + 1) l2).
    { intros Hl2. destruct l2; [done|]. apply repr_tail in Hr.
      eapply repr_frame; [|exact Hr]. intros x Hx. apply Hfr. cbn in Hx. lia. }
    destruct bs as [|b [|c [|]]]; [done| | |done].
    - cbn [app]. apply repr_intro; [done|]. cbn in He1. by rewrite He1.
    - destruct Hbs as [Hb Hcb]. apply repr_cons; [done|].
      apply repr_intro; [done|]. cbn in He1. by rewrite He1. }
  rewrite !chain_end_app, !used_app, ?chain_end_app. fold f. rewrite He1, Hu1.
  split; [done|]. cbn [used b_owner b_size app Z.eqb FREE_PSP].
  symmetry. apply Permutation_middle.
Qed.

Lemma coalesce_length bl : (length (coalesce bl) <= length bl)%nat.
Proof.
  induction bl as [|b bl IH]; cbn; [lia|]. case_bool; cbn; [|lia].
  destruct (coalesce bl) as [|c r]; cbn in *; [lia|]. case_bool; cbn; lia.
Qed.

(** ** Well-formed states *)

(** The upper memory blocks are linked to the chain. *)
Definition linked (st : mm) : bool :=
  negb (Z.land (uppermem_link st) 1 =? 0) && negb (uppermem_root st =? 0xffff).

(** The chain of the state is [bl]; when upper memory is linked in, its root is
    one of the allocated blocks (it covers the area between the two). *)
Definition wf (st : mm) (bl : list blk) : Prop :=
  repr (mem st) (first_mcb st) bl /\
  (linked st = true -> exists z o, (uppermem_root st, z, o) ∈ used (first_mcb st) bl).

Lemma scan_start_split st bl size mode :
  wf st bl -> exists l1 l2, bl = l1 ++ l2 /\ l2 <> [] /\
    scan_start st size mode = chain_end (first_mcb st) l1.
Proof.
  intros [Hr Hroot].
  assert (Hfirst : exists l1 l2, bl = l1 ++ l2 /\ l2 <> [] /\
    first_mcb st = chain_end (first_mcb st) l1).
  { exists [], bl. split_and!; [done| |done]. by eapply repr_nonempty. }
  unfold scan_start. fold (linked st). destruct (linked st); [|done].
  case_match; [|done]. destruct (Hroot eq_refl) as (z & o & (_ & l1 & l2 & -> & ->)%used_split).
  by exists l1, (Blk o z :: l2).
Qed.

Lemma frees_pos m s bl : repr m s bl -> Forall (fun c => 0 <= snd c < 65535) (frees s bl).
Proof.
  intros H. induction H as [s b H|s b c bl H _ IH]; cbn [frees] in *;
    unfold block_at in H; (case_bool; cbn [app]; [constructor; [cbn; lia|]|]); try done.
Qed.

(** The search from where the code starts it: an outcome with the chain kept
    and the allocated blocks untouched. *)
Lemma scan_wf st bl size mode fuel :
  wf st bl -> (length bl < fuel)%nat ->
  exists m' out l1 l2, scanMCBs fuel size mode (mem st) (scan_start st size mode) 0 0 = Some (m', out) /\
    wf (set_mem m' st) (l1 ++ l2) /\ l2 <> [] /\
    scan_start st size mode = chain_end (first_mcb st) l1 /\
    used (first_mcb st) (l1 ++ l2) = used (first_mcb st) bl /\
    chain_end (first_mcb st) (l1 ++ l2) = chain_end (first_mcb st) bl /\
    scan_result size mode None None (scan_start st size mode)
      (skipn (length l1) bl) m' out l2 /\
    (forall f g, out = ScanEnd f g -> (length (l1 ++ l2) <= length bl)%nat).
Proof.
  intros Hwf Hf. destruct (scan_start_split st bl size mode Hwf) as (l1 & l2 & -> & Hne & ->).
  destruct Hwf as [Hr Hroot]. pose proof Hr as [Hp Hr2]%repr_app; [|done].
  rewrite length_app in Hf.
  destruct (scanMCBs_repr size mode fuel _ _ _ 0 0 None None Hr2) as
    (m' & out & Hs & l2' & Hr' & He & Hu & Hfr & Hres); [lia|done|done|].
  exists m', out, l1, l2'.
  assert (used (first_mcb st) (l1 ++ l2') = used (first_mcb st) (l1 ++ l2))
    as Hu' by (by rewrite !used_app, Hu).
  split_and!; try done.
  - unfold wf. cbn. rewrite Hu'. split; [|done].
    eapply repr_replace; [exact Hne|by eapply repr_nonempty|done|done|].
    intros x Hx. apply Hfr. lia.
  - by eapply repr_nonempty.
  - by rewrite !chain_end_app, He.
  - by rewrite drop_app_length.
  - intros f g ->. destruct Hres as (-> & _). pose proof (coalesce_length l2). rewrite !length_app. lia.
Qed.

(** ** Allocation *)

(** The search fails in upper memory and is repeated in low memory. *)
Definition retries (st : mm) (mode : Z) : bool :=
  negb (mode =? LARGEST) && negb (Z.land mode FIRST_FIT_U =? 0) && linked st.

(** Where the search that decides starts. *)
Definition last_start (st : mm) (size mode : Z) : Z :=
  scan_start st size (if retries st mode then Z.land mode (Z.lnot FIRST_FIT_U) else mode).

(** What an allocation promises.  Either a block of the size asked for (for
    [LARGEST]: of at least that size) is added to the allocated blocks and all
    others stay as they are; or no free block of the region searched is large
    enough, and the caller is told the largest. *)
Definition alloc_post (st : mm) (bl : list blk) (size mode para : Z) (asize : option Z)
    (start rc para' : Z) (asize' : option Z) (st' : mm) : Prop :=
  exists bl', wf st' bl' /\ st' = set_mem (mem st') st /\
    chain_end (first_mcb st) bl' = chain_end (first_mcb st) bl /\
    ((rc = SUCCESS /\ exists sz, size <= sz /\ (mode <> LARGEST -> sz = size) /\
        used (first_mcb st) bl' ≡ₚ (para', sz, cu_psp st) :: used (first_mcb st) bl) \/
     (rc = DE_NOMEM /\ para' = para /\ used (first_mcb st) bl' = used (first_mcb st) bl /\
      (length bl' <= length bl)%nat /\
      exists l1 l2, bl' = l1 ++ l2 /\ chain_end (first_mcb st) l1 = start /\
        Forall (fun c => snd c < size) (frees start l2) /\
        asize' = (fun _ => largest (frees start l2)) <$> asize)).

Lemma alloc_claim st st1 m1 bl bl1 size mode para asize asize' start f z :
  wf st1 bl1 -> st1 = set_mem m1 st -> (f, z) ∈ frees (first_mcb st) bl1 ->
  0 <= size <= z -> cu_psp st <> FREE_PSP ->
  used (first_mcb st) bl1 = used (first_mcb st) bl ->
  chain_end (first_mcb st) bl1 = chain_end (first_mcb st) bl ->
  exists para' st', (let '(seg, m) := claimMCB size mode (cu_psp st1) m1 f in
     Some (SUCCESS, seg, asize', set_mem m st1)) = Some (SUCCESS, para', asize', st') /\
    alloc_post st bl size mode para asize start SUCCESS para' asize' st'.
Proof.
  intros [Hr Hroot] -> Hin Hs Hpsp Hu He.
  change (cu_psp (set_mem m1 st)) with (cu_psp st).
  destruct (claimMCB_repr size mode (cu_psp st) m1 _ bl1 f z Hr Hin Hs Hpsp)
    as (f' & m' & bl' & -> & Hr' & He' & Hu').
  eexists _, _. split; [done|]. exists bl'. cbn in *. split_and!; try congruence.
  - split; [done|]. cbn. intros H. destruct (Hroot H) as (z0 & o & Hroot').
    exists z0, o. rewrite Hu'. by right.
  - done.
  - left. split; [done|]. exists (if mode =? LARGEST then z else size). rewrite <- Hu.
    split_and!; [destruct (mode =? LARGEST); lia| |done].
    intros Hm%Z.eqb_neq. by rewrite Hm.
Qed.

Lemma alloc_found m1 e size mode f L :
  Forall (fun c => 0 <= snd c) L -> 0 < size -> mode <> LARGEST ->
  ptr_of m1 e f (foldl (pick_fit size mode) None L) ->
  ((f =? 0) || (m_size (m1 !!! f) =? 0)) = false /\ (exists z, (f, z) ∈ L /\ size <= z) \/
  f = 0 /\ Forall (fun c => snd c < size) L.
Proof.
  intros Hpos Hs Hm Hp.
  destruct (foldl (pick_fit size mode) None _) as [[g z]|] eqn:E.
  - left. destruct Hp as (-> & Hg & Hz).
    apply pick_fit_fits in E as [|[Hin Hle]]; [done|]. rewrite Hz.
    split; [|by exists z].
    destruct (Z.eqb_spec g 0); [lia|]. destruct (Z.eqb_spec z 0); [lia|done].
  - right. split; [done|]. by apply pick_fit_none in E as [_ E].
Qed.

Lemma alloc_biggest m1 e size g L :
  ptr_of m1 e g (foldl pick_big None L) ->
  (negb (g =? 0) && (size <=? m_size (m1 !!! g))) = true /\
    g <> 0 /\ (g, m_size (m1 !!! g)) ∈ L /\ size <= m_size (m1 !!! g) \/
  (negb (g =? 0) && (size <=? m_size (m1 !!! g))) = false /\ Forall (fun c => snd c < size) L.
Proof.
  pose proof (pick_big_spec None L) as H. destruct (foldl _ _ L) as [[f z]|].
  - destruct H as ([Hin|?] & Hle & _); [|done]. intros (-> & ? & <-).
    destruct (Z.eqb_spec f 0); [lia|]. cbn [negb andb].
    destruct (Z.leb_spec size (m_size (m1 !!! f))); [by left|right].
    split; [done|]. eapply Forall_impl; [|exact Hle]. intros c Hc. cbn in Hc. lia.
  - destruct H as [_ ->]. cbn. intros ->. right. split; [done|constructor].
Qed.

Lemma alloc_post_trans st bl m1 bl1 size mode para asize start rc para' asize' st' :
  used (first_mcb st) bl1 = used (first_mcb st) bl ->
  chain_end (first_mcb st) bl1 = chain_end (first_mcb st) bl ->
  (length bl1 <= length bl)%nat ->
  alloc_post (set_mem m1 st) bl1 size mode para asize start rc para' asize' st' ->
  alloc_post st bl size mode para asize start rc para' asize' st'.
Proof.
  intros Hu He Hl (bl' & Hwf & Hst & He' & H). exists bl'. cbn in *. rewrite <- Hu, <- He.
  split_and!; try done. destruct H as [H|(H1 & H2 & H3 & H4 & H)]; [by left|right].
  split_and!; try done. lia.
Qed.

(** One search, whatever follows a failed one in upper memory. *)
Lemma searchAgain_spec again fuel size mode para asize st bl :
  wf st bl -> (length bl < fuel)%nat -> 0 < size -> cu_psp st <> FREE_PSP ->
  (retries st mode = true -> forall m1 bl1,
    wf (set_mem m1 st) bl1 -> (length bl1 < fuel)%nat ->
    exists rc para' asize' st',
      again (Z.land mode (Z.lnot FIRST_FIT_U)) (set_mem m1 st)
        = Some (rc, para', asize', st') /\
      alloc_post (set_mem m1 st) bl1 size mode para asize (last_start st size mode) rc para' asize' st') ->
  exists rc para' asize' st',
    searchAgain again fuel size mode para asize st = Some (rc, para', asize', st') /\
    alloc_post st bl size mode para asize (last_start st size mode) rc para' asize' st'.
Proof.
  intros Hwf Hf Hs Hpsp Hretry.
  destruct (scan_wf st bl size mode fuel Hwf Hf)
    as (m1 & out & l1 & l2 & Hscan & Hwf1 & Hne & Hst & Hu & He & Hres & Hlen).
  assert (Hpos0 : Forall (fun c => 0 <= snd c) (frees (scan_start st size mode) l2)).
  { rewrite Hst. destruct Hwf1 as [[_ Hr]%repr_app _]; [|done].
    eapply Forall_impl; [|by eapply frees_pos]. intros ? ?; cbn in *; lia. }
  assert (Hclaim : forall f z asize', (f, z) ∈ frees (scan_start st size mode) l2 -> size <= z ->
    exists rc para' asize'' st', (let '(seg, m) := claimMCB size mode (cu_psp st) m1 f in
     Some (SUCCESS, seg, asize', set_mem m (set_mem m1 st))) = Some (rc, para', asize'', st') /\
    alloc_post st bl size mode para asize (last_start st size mode) rc para' asize'' st').
  { intros f z asize' Hin Hle.
    destruct (alloc_claim st (set_mem m1 st) m1 bl (l1 ++ l2) size mode para asize asize'
      (last_start st size mode) f z) as (? & ? & H1 & H2); try done; [|lia|].
    - rewrite frees_app, <- Hst. apply elem_of_app. by right.
    - eexists _, _, _, _. split; [exact H1|exact H2]. }
  unfold searchAgain. rewrite Hscan. clear Hscan. destruct out as [|f g|f g]; [done| |].
  { destruct Hres as (_ & z & Hin & Hle). by eapply Hclaim. }
  destruct Hres as (_ & Hfit & Hbig & _).
  pose proof (ptr_big _ _ _ _ Hbig Hpos0) as Hlarge. pose proof (Hlen f g eq_refl) as Hlen'.
  assert (Hnomem : retries st mode = false ->
    Forall (fun c => snd c < size) (frees (scan_start st size mode) l2) ->
    alloc_post st bl size mode para asize (last_start st size mode) DE_NOMEM para
      ((fun _ => if g =? 0 then 0 else m_size (m1 !!! g)) <$> asize) (set_mem m1 st)).
  { intros Hnr Hall. exists (l1 ++ l2). split_and!; try done. right. split_and!; try done.
    exists l1, l2. unfold last_start. rewrite Hnr, Hlarge. by split_and!. }
  destruct (Z.eqb_spec mode LARGEST) as [->|Hm]; cbn [andb negb].
  - rewrite pick_fit_largest in Hfit. cbn in Hfit. subst f.
    destruct (alloc_biggest _ _ size _ _ Hbig) as [(-> & Hg & Hin & Hle)|[-> Hno]].
    + rewrite (proj2 (Z.eqb_neq g 0) Hg), (proj2 (Z.eqb_neq _ 0)) by lia. cbn [orb].
      by eapply Hclaim.
    + cbn [Z.eqb orb]. eexists _, _, _, _. split; [done|]. by apply Hnomem.
  - destruct (alloc_found _ _ size mode f _ Hpos0 Hs Hm Hfit) as [[-> (z & Hin & Hle)]|[-> Hno]].
    { by eapply Hclaim. }
    cbn [Z.eqb orb].
    change (uppermem_link (set_mem m1 st)) with (uppermem_link st).
    change (uppermem_root (set_mem m1 st)) with (uppermem_root st). fold (linked st).
    apply Z.eqb_neq in Hm.
    destruct (negb (Z.land mode FIRST_FIT_U =? 0) && linked st) eqn:Er.
    + assert (retries st mode = true) as Hret by (unfold retries; rewrite Hm; cbn [negb andb]; done).
      destruct (Hretry Hret m1 (l1 ++ l2)) as (? & ? & ? & ? & HA & HB); [done| |].
      { lia. }
      eexists _, _, _, _. split; [exact HA|]. by eapply alloc_post_trans.
    + eexists _, _, _, _. split; [done|]. apply Hnomem; [|done].
      unfold retries. rewrite Hm. done.
Qed.

Lemma retries_once st mode : retries st (Z.land mode (Z.lnot FIRST_FIT_U)) = false.
Proof.
  unfold retries. rewrite <- Z.land_assoc, (Z.land_comm (Z.lnot _)), Z.land_lnot_diag, Z.land_0_r.
  by destruct (_ =? LARGEST).
Qed.

Lemma last_start_retry m1 st size mode :
  retries st mode = true ->
  last_start (set_mem m1 st) size (Z.land mode (Z.lnot FIRST_FIT_U)) = last_start st size mode.
Proof.
  intros H. unfold last_start at 2. rewrite H. unfold last_start.
  change (retries (set_mem m1 st)) with (retries st). by rewrite retries_once.
Qed.

Lemma DosMemAlloc__spec tries fuel size mode para asize st bl :
  wf st bl -> (length bl < fuel)%nat -> 0 < size -> cu_psp st <> FREE_PSP ->
  (tries = 0%nat -> retries st mode = false) ->
  exists rc para' asize' st',
    DosMemAlloc_ tries fuel size mode para asize st = Some (rc, para', asize', st') /\
    alloc_post st bl size mode para asize (last_start st size mode) rc para' asize' st'.
Proof.
  revert mode st bl. induction tries as [|tries IH]; intros mode st bl Hwf Hf Hs Hp Ht;
    apply searchAgain_spec; try done; intros Hr m1 bl1 Hwf1 Hf1.
  - by rewrite Ht in Hr.
  - destruct (IH (Z.land mode (Z.lnot FIRST_FIT_U)) _ bl1 Hwf1 Hf1 Hs Hp) as (? & ? & ? & ? & HA & HB).
    { intros _. apply retries_once. }
    eexists _, _, _, _. split; [exact HA|]. rewrite last_start_retry in HB by done.
    destruct HB as (bl' & H1 & H2 & H3 & H4). exists bl'. split_and!; try done.
    destruct H4 as [(H4 & sz & H5 & H6 & H7)|H4]; [left|by right].
    split; [done|]. exists sz. split_and!; try done. intros _. apply H6.
    intros E. apply (f_equal (fun x => Z.testbit x 7)) in E.
    by rewrite Z.land_spec, andb_false_r in E.
Qed.

(** ** Freeing *)

Lemma DosMemFree_repr m s bl f z o :
  repr m s bl -> (f, z, o) ∈ used s bl ->
  exists m' bl', DosMemFree f m = (SUCCESS, m') /\ repr m' s bl' /\
    chain_end s bl' = chain_end s bl /\ used s bl ≡ₚ (f, z, o) :: used s bl' /\
    (f, z) ∈ frees s bl' /\ length bl' = length bl.
Proof.
  intros H (Hne & l1 & l2 & -> & ->)%used_split.
  pose proof H as [Hp Hr]%repr_app; [|done]. set (f := chain_end s l1) in *.
  pose proof (repr_head _ _ _ _ Hr) as (Ht & Ho & Hz & H0 & Hf & Hb).
  pose proof (repr_valid _ _ _ _ Hr) as Hv.
  unfold DosMemFree. rewrite (proj2 (Z.eqb_neq f 0)) by lia.
  unfold mcbValid in Hv. apply andb_true_iff in Hv as [_ Hv]. fold (mcbFreeable (m !!! f)) in Hv.
  rewrite Hv. cbn [negb]. eexists _, (l1 ++ Blk FREE_PSP z :: l2).
  split; [done|]. apply Z.eqb_neq in Hne. split.
  { eapply repr_replace; [|done|exact H| |]; [done| |].
    - fold f. apply repr_intro.
      + unfold block_at. mm_simpl. by rewrite Ht, Hz.
      + intros Hl. destruct l2; [done|]. apply repr_tail in Hr. cbn in *.
        eapply repr_frame; [|exact Hr]. intros x Hx. by mm_simpl.
    - intros x Hx. fold f in Hx. by mm_simpl. }
  rewrite !chain_end_app, !used_app, frees_app, !length_app. cbn. fold f. rewrite Hne. cbn.
  split_and!; [done| |by apply elem_of_app; right; left|done].
  symmetry. apply Permutation_middle.
Qed.

Fixpoint free_blocks (ps : Z) (bl : list blk) : list blk :=
  match bl with
  | [] => []
  | b :: r => Blk (if b_owner b =? ps then FREE_PSP else b_owner b) (b_size b) :: free_blocks ps r
  end.

Lemma free_blocks_used ps s bl :
  chain_end s (free_blocks ps bl) = chain_end s bl /\
  used s (free_blocks ps bl) = filter (fun x => snd x <> ps) (used s bl).
Proof.
  revert s. induction bl as [|b r IH]; intros s; cbn [free_blocks chain_end used b_size b_owner]; [done|].
  destruct (IH (s + b_size b + 1)) as [-> ->]. split; [done|].
  rewrite list.filter_app. f_equal.
  destruct (Z.eqb_spec (b_owner b) ps) as [E|E]; cbn.
  - destruct (b_owner b =? FREE_PSP); [done|]. by rewrite filter_cons_False by (cbn; lia).
  - destruct (b_owner b =? FREE_PSP); [done|]. by rewrite filter_cons_True by done.
Qed.

Lemma free_owned_repr ps fuel : forall m s bl,
  repr m s bl -> (length bl <= fuel)%nat -> ps <> FREE_PSP ->
  exists m', free_owned fuel ps m s = Some (SUCCESS, m') /\ repr m' s (free_blocks ps bl) /\
    (forall x, ~ (s <= x < chain_end s bl) -> m' !!! x = m !!! x).
Proof.
  induction fuel as [|fuel IH]; intros m s bl H Hf Hps.
  { destruct bl; [by apply repr_nonempty in H|cbn in Hf; lia]. }
  destruct bl as [|b r]; [by apply repr_nonempty in H|]. cbn [length] in Hf.
  pose proof (repr_head _ _ _ _ H) as (Ht & Ho & Hz & H0 & Hs & Hb).
  pose proof (repr_valid _ _ _ _ H) as Hv.
  cbn [free_owned]. rewrite Hv. cbn [negb]. rewrite Ho.
  unfold mcbValid in Hv. apply andb_true_iff in Hv as [_ Hv]. fold (mcbFreeable (m !!! s)) in Hv.
  set (m1 := if b_owner b =? ps then _ else _).
  assert (Hm1 : block_at m1 s (m_type (m !!! s))
      (Blk (if b_owner b =? ps then FREE_PSP else b_owner b) (b_size b)) /\
    forall x, x <> s -> m1 !!! x = m !!! x).
  { subst m1. unfold DosMemFree. rewrite (proj2 (Z.eqb_neq s 0)), Hv by lia. cbn [negb].
    destruct (b_owner b =? ps); cbn [snd]; split; unfold block_at; cbn; try done.
    - mm_simpl. lia.
    - intros x Hx. by mm_simpl. }
  destruct Hm1 as [Hb1 Hm1]. clearbody m1.
  pose proof Hb1 as (Ht1 & _ & Hz1 & _). cbn in Hz1. rewrite Ht1, (repr_head_normal _ _ _ _ H).
  destruct r as [|c r].
  - exists m1. split; [done|]. cbn. split; [|intros; apply Hm1; lia]. apply repr_last. by rewrite Ht in Hb1.
  - pose proof (repr_tail _ _ _ _ _ H) as Hr. pose proof (repr_end _ _ _ Hr) as He.
    assert (nxtMCB m1 s = s + b_size b + 1) as ->.
    { rewrite <- (repr_next _ _ _ _ _ H). unfold nxtMCB. by rewrite Hz1, Hz. }
    destruct (IH m1 (s + b_size b + 1) (c :: r)) as (m' & HA & HB & HC); [|cbn in *; lia|done|].
    { eapply repr_frame; [|exact Hr]. intros; apply Hm1; lia. }
    exists m'. split; [done|]. split.
    + cbn [free_blocks]. apply repr_cons; [|done].
      eapply block_at_ext; [apply HC; lia|]. by rewrite Ht in Hb1.
    + intros x Hx. cbn [chain_end] in *. rewrite HC by lia. apply Hm1. lia.
Qed.

(** ** Linking upper memory *)

(** The two chains of a system with upper memory: low memory ends where upper
    memory starts, and either both are one chain or each ends by itself. *)
Definition umb_wf (st : mm) (low up : list blk) : Prop :=
  low <> [] /\ up <> [] /\ uppermem_root st = chain_end (first_mcb st) low /\
  uppermem_root st <> 0xffff /\
  if Z.land (uppermem_link st) 1 =? 0
  then repr (mem st) (first_mcb st) low /\ repr (mem st) (uppermem_root st) up
  else repr (mem st) (first_mcb st) (low ++ up).

Fixpoint last_block (s : Z) (q : option Z) (l : list blk) : option Z :=
  match l with
  | [] => q
  | b :: r => last_block (s + b_size b + 1) (Some s) r
  end.

Lemma last_block_snoc s q l b : last_block s q (l ++ [b]) = Some (chain_end s l).
Proof. revert s q. induction l; intros s q; cbn; auto. Qed.

Lemma umb_walk_skip st l : forall s q n,
  pre (mem st) s l -> chain_end s l < 65536 -> chain_end s l <= uppermem_root st ->
  umb_walk (length l + n) st q s = umb_walk n st (last_block s q l) (chain_end s l).
Proof.
  induction l as [|b l IH]; intros s q n; cbn [pre chain_end last_block length]; [done|].
  intros [(Ht & Ho & Hz & H0 & Hs & Hb) Hp] He Hr. pose proof (pre_end _ _ _ Hp).
  cbn [Nat.add umb_walk]. rewrite (proj2 (Z.eqb_neq s (uppermem_root st))), Ht by lia.
  cbn [negb andb Z.eqb MCB_LAST MCB_NORMAL].
  unfold mcbValid. rewrite Hz, Ht, (proj2 (Z.eqb_neq _ 0xffff)) by lia.
  cbn [negb andb orb Z.eqb MCB_NORMAL]. unfold nxtMCB, nxtMCBsize.
  rewrite Hz, u16_id by lia. by apply IH.
Qed.

Lemma pre_snoc m s l b : pre m s (l ++ [b]) <-> pre m s l /\ block_at m (chain_end s l) MCB_NORMAL b.
Proof.
  revert s. induction l as [|c l IH]; intros s; cbn [app pre chain_end]; [tauto|].
  rewrite IH. tauto.
Qed.

Lemma repr_snoc m s l b : repr m s (l ++ [b]) <-> pre m s l /\ block_at m (chain_end s l) MCB_LAST b.
Proof.
  rewrite repr_app by done. split; intros [H1 H2]; (split; [done|]).
  - by apply repr_head in H2.
  - by apply repr_last.
Qed.

(** Changing the type of the last block of low memory turns one chain into two
    and back. *)
Lemma block_at_type m s t t' b : block_at m s t b -> block_at (upd s (with_type t') m) s t' b.
Proof. unfold block_at. intros H. mm_simpl. tauto. Qed.

Lemma pre_upd m s l f : pre m s l -> pre (upd (chain_end s l) f m) s l.
Proof. apply pre_frame. intros x Hx. by mm_simpl. Qed.

Lemma repr_upd m s p f bl : p < s -> repr m s bl -> repr (upd p f m) s bl.
Proof. intros Hp. apply repr_frame. intros x Hx. by mm_simpl. Qed.

Lemma chain_cut m s l b up :
  up <> [] -> repr m s ((l ++ [b]) ++ up) ->
  let m' := upd (chain_end s l) (with_type MCB_LAST) m in
  repr m' s (l ++ [b]) /\ repr m' (chain_end s (l ++ [b])) up.
Proof.
  intros Hup [Hp Hr]%repr_app; [|done]. cbn. apply pre_snoc in Hp as [Hp Hb].
  split.
  - apply repr_snoc. split; [by apply pre_upd|by eapply block_at_type].
  - apply repr_upd; [|done]. rewrite chain_end_app. cbn. unfold block_at in Hb. lia.
Qed.

Lemma chain_glue m s l b up :
  up <> [] -> repr m s (l ++ [b]) -> repr m (chain_end s (l ++ [b])) up ->
  repr (upd (chain_end s l) (with_type MCB_NORMAL) m) s ((l ++ [b]) ++ up).
Proof.
  intros Hup [Hp Hb]%repr_snoc Hr. apply repr_app; [done|]. split.
  - apply pre_snoc. split; [by apply pre_upd|by eapply block_at_type].
  - apply repr_upd; [|done]. rewrite chain_end_app. cbn. unfold block_at in Hb. lia.
Qed.

Lemma DosUmbLink_step fuel n st low up :
  umb_wf st low up -> (length low < fuel)%nat -> 0 <= uppermem_link st ->
  n = 0 \/ n = 1 -> Z.land (uppermem_link st) 1 <> n ->
  exists m', DosUmbLink fuel n st = Some (set_link n (set_mem m' st)) /\
    umb_wf (set_link n (set_mem m' st)) low up.
Proof.
  intros (Hlow & Hup & Hroot & Hr0 & Hwf) Hf H0 Hn Hne.
  destruct (exists_last Hlow) as (l & b & ->). clear Hlow. rewrite length_app in Hf. cbn in Hf.
  assert (Hbit : Z.land (uppermem_link st) 1 = 0 \/ Z.land (uppermem_link st) 1 = 1).
  { rewrite land_1. word_lia. }
  unfold DosUmbLink. rewrite (proj2 (Z.eqb_neq _ _) Hr0), (proj2 (Z.eqb_neq _ _) Hne).
  rewrite (proj2 (Z.ltb_ge 1 n)) by lia. cbn [orb].
  destruct Hn as [-> | ->]; cbn [Z.eqb].
  - (* unlinking *)
    destruct Hbit as [?|Hbit]; [done|]. rewrite Hbit in Hwf. cbn [Z.eqb] in Hwf.
    pose proof Hwf as [Hp Hr]%repr_app; [|done].
    pose proof (repr_end _ _ _ Hr) as He. rewrite <- Hroot in Hr, He.
    pose proof Hp as [Hp' Hb]%pre_snoc.
    destruct fuel as [|fuel]; [lia|].
    replace (S fuel) with (length (l ++ [b]) + S (fuel - length (l ++ [b])))%nat
      by (rewrite length_app; cbn; lia).
    rewrite umb_walk_skip; [|done|lia|lia]. cbn [umb_walk]. rewrite <- Hroot, Z.eqb_refl.
    cbn [negb andb]. rewrite last_block_snoc. destruct Hb as [-> _]. cbn [Z.eqb MCB_NORMAL andb].
    rewrite Z.eqb_refl. eexists. split; [done|]. split_and!; try done; [by destruct l|]. cbn.
    rewrite Hroot. by apply chain_cut.
  - (* linking *)
    destruct Hbit as [Hbit|?]; [|done]. rewrite Hbit in Hwf. cbn [Z.eqb] in Hwf.
    destruct Hwf as [Hl Hr]. pose proof (repr_end _ _ _ Hr) as He.
    pose proof Hl as [Hp Hb]%repr_snoc. pose proof Hroot as Hroot'.
    rewrite chain_end_app in Hroot'. cbn in Hroot'. destruct Hb as (Ht & _ & _ & ? & ? & ?).
    destruct fuel as [|fuel]; [lia|].
    replace (S fuel) with (length l + S (fuel - length l))%nat by lia.
    rewrite umb_walk_skip; [|done|lia|lia]. cbn [umb_walk].
    rewrite (proj2 (Z.eqb_neq (chain_end (first_mcb st) l) _)) by lia.
    rewrite Ht. cbn. rewrite Ht. cbn.
    eexists. split; [done|]. split_and!; try done; [by destruct l|]. cbn.
    apply chain_glue; [done|done|]. by rewrite <- Hroot.
Qed.

(** Setting the link state twice is setting it once, and a request for the
    current state changes nothing. *)
Lemma DosUmbLink_to fuel n st low up :
  umb_wf st low up -> (length low < fuel)%nat -> 0 <= uppermem_link st ->
  n = 0 \/ n = 1 ->
  exists st', DosUmbLink fuel n st = Some st' /\ umb_wf st' low up /\
    Z.land (uppermem_link st') 1 = n /\ 0 <= uppermem_link st' /\
    first_mcb st' = first_mcb st /\ uppermem_root st' = uppermem_root st.
Proof.
  intros Hwf Hf H0 Hn. destruct (decide (Z.land (uppermem_link st) 1 = n)) as [E|E].
  - exists st. split; [|done]. unfold DosUmbLink. rewrite E, Z.eqb_refl, orb_true_r.
    by destruct (_ =? 0xffff).
  - destruct (DosUmbLink_step fuel n st low up) as (m' & -> & Hwf'); try done.
    eexists. split; [done|]. split_and!; try done; cbn; destruct Hn as [-> | ->]; (done || lia).
Qed.

Lemma free_blocks_app ps l1 l2 : free_blocks ps (l1 ++ l2) = free_blocks ps l1 ++ free_blocks ps l2.
Proof. induction l1 as [|b l IH]; cbn; [done|by rewrite IH]. Qed.

Lemma free_blocks_nil ps l : l <> [] -> free_blocks ps l <> [].
Proof. by destruct l. Qed.

Lemma free_blocks_length ps l : length (free_blocks ps l) = length l.
Proof. induction l; cbn; auto. Qed.

Lemma FreeProcessMem_umb fuel ps st low up :
  umb_wf st low up -> (length (low ++ up) < fuel)%nat -> 0 <= uppermem_link st ->
  ps <> FREE_PSP ->
  exists st', FreeProcessMem fuel ps st = Some (SUCCESS, st') /\
    umb_wf st' (free_blocks ps low) (free_blocks ps up) /\
    Z.land (uppermem_link st') 1 = Z.land (uppermem_link st) 1 /\
    first_mcb st' = first_mcb st /\ uppermem_root st' = uppermem_root st.
Proof.
  intros Hwf Hf H0 Hps. pose proof Hf as Hf'. rewrite length_app in Hf'.
  destruct (DosUmbLink_to fuel 1 st low up) as (st1 & E1 & Hwf1 & Hl1 & H1 & Hfst & Hroot);
    [done|lia|done|auto|].
  unfold FreeProcessMem. rewrite E1. destruct Hwf1 as (Hlow & Hup & Hr & Hr0 & Hwf1).
  rewrite Hl1 in Hwf1. cbn [Z.eqb] in Hwf1.
  destruct (free_owned_repr ps fuel _ _ _ Hwf1) as (m' & -> & Hr' & _); [lia|done|].
  cbn [Z.eqb SUCCESS negb].
  destruct (DosUmbLink_to fuel (Z.land (uppermem_link st) 1) (set_mem m' st1)
    (free_blocks ps low) (free_blocks ps up)) as (st2 & -> & Hwf2 & Hl2 & H2 & Hfst2 & Hroot2).
  - split_and!; try (by apply free_blocks_nil); cbn; [|done|].
    + by rewrite (proj1 (free_blocks_used _ _ _)).
    + rewrite Hl1. cbn. by rewrite <- free_blocks_app.
  - rewrite free_blocks_length. lia.
  - done.
  - rewrite land_1. word_lia.
  - exists st2. cbn in *. split; [done|]. split_and!; congruence.
Qed.

(** ** Resizing *)

Lemma repr_owner m p o o' z r :
  repr m p (Blk o z :: r) -> repr (upd p (with_psp o') m) p (Blk o' z :: r).
Proof.
  intros H. pose proof (repr_head _ _ _ _ H) as (Ht & Ho & Hz & H0 & Hs & Hb). cbn in *.
  apply repr_intro.
  - unfold block_at. mm_simpl. by rewrite Ht, Hz.
  - intros Hr. destruct r; [done|]. apply repr_upd; [cbn; lia|]. by apply repr_tail in H.
Qed.

(** Growing joins the free run that follows when the block is too small. *)
Lemma growMCB_repr fuel m p o z r size :
  repr m p (Blk o z :: r) -> (length r < fuel)%nat ->
  let '(z', r') := if z <? size then join_free z r else (z, r) in
  exists m', growMCB fuel p size m = Some (if z' <? size then DE_NOMEM else SUCCESS, m') /\
    repr m' p (Blk o z' :: r') /\ (forall x, x < p -> m' !!! x = m !!! x).
Proof.
  intros H Hf. pose proof (repr_head _ _ _ _ H) as (_ & _ & Hz & _). cbn in Hz.
  unfold growMCB. rewrite Hz. destruct (Z.ltb_spec z size) as [Hlt|Hge].
  - destruct (joinMCBs_repr r fuel m p o z H Hf) as (m' & -> & Hj).
    destruct (join_free z r) as [z' r']. destruct Hj as (_ & Hr & Hfr).
    pose proof (repr_head _ _ _ _ Hr) as (_ & _ & -> & _). cbn.
    exists m'. split; [by destruct (z' <? size)|]. split; [done|]. intros; apply Hfr; lia.
  - exists m. split; [|done]. by rewrite (proj2 (Z.ltb_ge z size)).
Qed.

(** Shrinking cuts the block and gives the rest to the free run that follows. *)
Lemma shrinkMCB_repr fuel m p o z r size :
  repr m p (Blk o z :: r) -> 0 <= size < z -> (length r < fuel)%nat ->
  let '(z', r') := join_free (z - size - 1) r in
  exists m', shrinkMCB fuel p size m = Some (SUCCESS, m') /\
    repr m' p (Blk o size :: Blk FREE_PSP z' :: r') /\
    (forall x, x < p -> m' !!! x = m !!! x).
Proof.
  intros H Hs Hf. pose proof (repr_head _ _ _ _ H) as (Ht & Ho & Hz & H0 & Hp & Hb). cbn in *.
  unfold shrinkMCB. rewrite Hz, (proj2 (Z.ltb_lt size z)) by lia.
  unfold nxtMCBsize. rewrite !(u16_id (p + size + 1)), !(u16_id (z - size - 1)) by lia.
  set (q := p + size + 1). cbv zeta. set (m1 := upd q (with_name _) _).
  assert (Hm1p : m_type (m1 !!! p) = MCB_NORMAL /\ m_psp (m1 !!! p) = o /\ m_size (m1 !!! p) = size).
  { subst m1 q. by mm_simpl. }
  assert (Hm1q : m_type (m1 !!! q) = m_type (m !!! p) /\ m_psp (m1 !!! q) = FREE_PSP /\
    m_size (m1 !!! q) = z - size - 1).
  { subst m1. assert (q <> p) by (subst q; lia). by mm_simpl. }
  assert (Hm1 : forall x, x <> p -> x <> q -> m1 !!! x = m !!! x).
  { intros x ? ?. subst m1. by mm_simpl. }
  clearbody m1.
  assert (Hq : repr m1 q (Blk FREE_PSP (z - size - 1) :: r)).
  { apply repr_intro; [unfold block_at; cbn; rewrite <- Ht; subst q; lia|].
    intros Hr. destruct r as [|c r]; [done|]. apply repr_tail in H. cbn [b_size] in *.
    replace (q + (z - size - 1) + 1) with (p + z + 1) by (subst q; lia).
    eapply repr_frame; [|exact H]. intros x Hx. apply Hm1; subst q; lia. }
  destruct (joinMCBs_repr r fuel m1 q _ _ Hq Hf) as (m' & -> & Hj). cbn.
  destruct (join_free (z - size - 1) r) as [z' r']. destruct Hj as (_ & Hr & Hfr).
  exists m'. split; [done|]. split; [|intros x Hx; rewrite Hfr, Hm1 by (subst q; lia); done].
  apply repr_cons; [|done]. unfold block_at. cbn. rewrite !Hfr by (subst q; lia). lia.
Qed.

Definition not_free_head (r : list blk) : Prop :=
  match r with [] => True | c :: _ => b_owner c <> FREE_PSP end.

Lemma join_free_head z bl : not_free_head (snd (join_free z bl)).
Proof.
  revert z. induction bl as [|c bl IH]; intros z; cbn; [done|].
  destruct (Z.eqb_spec (b_owner c) FREE_PSP); cbn; [apply IH|done].
Qed.

Lemma growMCB_end z r size :
  let '(z', r') := if z <? size then join_free z r else (z, r) in
  z' < size -> not_free_head r' /\ z < size.
Proof.
  destruct (Z.ltb_spec z size); [|lia]. pose proof (join_free_head z r).
  by destruct (join_free z r).
Qed.

Lemma DosMemChange_repr fuel size maxSize st s bl f z o :
  repr (mem st) s bl -> (f, z, o) ∈ used s bl -> (length bl < fuel)%nat ->
  0 <= size -> cu_psp st <> FREE_PSP ->
  exists rc ms' m' bl' rest, DosMemChange fuel (f + 1) size maxSize st = Some (rc, ms', set_mem m' st) /\
    repr m' s bl' /\ chain_end s bl' = chain_end s bl /\ used s bl ≡ₚ (f, z, o) :: rest /\
    (rc = SUCCESS /\ used s bl' ≡ₚ (f, size, cu_psp st) :: rest /\ ms' = maxSize \/
     rc = DE_NOMEM /\ exists z' l1 r', bl' = l1 ++ Blk o z' :: r' /\ chain_end s l1 = f /\
       z < size /\ z' < size /\ not_free_head r' /\
       used s bl' ≡ₚ (f, z', o) :: rest /\ ms' = (fun _ => z') <$> maxSize).
Proof.
  intros H (Ho & l1 & l2 & -> & ->)%used_split Hf Hs Hpsp. set (f := chain_end s l1) in *.
  pose proof H as [Hp Hr]%repr_app; [|done]. fold f in Hr. rewrite length_app in Hf. cbn in Hf.
  pose proof (repr_head _ _ _ _ Hr) as (_ & _ & _ & H0 & Hf0 & Hfz). cbn in H0, Hfz.
  exists (if (if z <? size then fst (join_free z l2) else z) <? size then DE_NOMEM else SUCCESS).
  unfold DosMemChange. replace (f + 1 - 1) with f by lia. rewrite (u16_id f) by lia.
  rewrite (repr_valid _ _ _ _ Hr). cbn [negb].
  pose proof (growMCB_repr fuel _ _ _ _ _ size Hr) as Hg.
  pose proof (growMCB_end z l2 size) as Hge.
  assert (Hsame : let '(z', r') := if z <? size then join_free z l2 else (z, l2) in
    chain_end (f + z' + 1) r' = chain_end (f + z + 1) l2 /\
    used (f + z' + 1) r' = used (f + z + 1) l2 /\ (length r' <= length l2)%nat).
  { pose proof (join_free_end f z l2) as Hj. pose proof (join_free_length z l2) as Hl.
    destruct (z <? size); [|done]. destruct (join_free z l2). by destruct Hj. }
  set (rest := used s l1 ++ used (f + z + 1) l2).
  assert (Hrest : forall o' z' r', o' <> FREE_PSP -> used (f + z' + 1) r' = used (f + z + 1) l2 ->
    used s (l1 ++ Blk o' z' :: r') ≡ₚ (f, z', o') :: rest).
  { intros o' z' r' Ho' E. apply Z.eqb_neq in Ho'. rewrite used_app. cbn. fold f. rewrite Ho', E. cbn.
    symmetry. apply Permutation_middle. }
  replace (if z <? size then fst (join_free z l2) else z)
    with (fst (if z <? size then join_free z l2 else (z, l2))) by (by destruct (z <? size)).
  destruct (if z <? size then join_free z l2 else (z, l2)) as [z' r']. cbn [fst].
  destruct Hg as (m1 & -> & Hr1 & Hfr1); [lia|]. destruct Hsame as (He' & Hu' & Hl').
  pose proof (repr_head _ _ _ _ Hr1) as (_ & _ & Hz1 & _). cbn in Hz1.
  destruct (Z.ltb_spec z' size) as [Hlt|Hle].
  - cbn [Z.eqb Pos.eqb DE_NOMEM]. rewrite Hz1. destruct (Hge Hlt) as [Hnf Hzs].
    exists ((fun _ => z') <$> maxSize), m1, (l1 ++ Blk o z' :: r'), rest. split; [done|].
    split_and!; [|rewrite !chain_end_app; cbn; fold f; by rewrite He'|by apply Hrest|].
    + eapply repr_replace; [|done|exact H|exact Hr1|]; [done|]. intros; apply Hfr1; unfold f; lia.
    + right. split; [done|]. exists z', l1, r'. split_and!; auto.
  - cbn [Z.eqb DE_NOMEM SUCCESS negb].
    destruct (Z.eqb_spec z' size) as [->|Hne].
    + unfold shrinkMCB. rewrite Hz1, Z.ltb_irrefl. cbn [Z.eqb SUCCESS negb].
      eexists maxSize, _, (l1 ++ Blk (cu_psp st) size :: r'), rest. split; [done|].
      split_and!; [|rewrite !chain_end_app; cbn; fold f; by rewrite He'|by apply Hrest|].
      * eapply repr_replace; [|done|exact H|by eapply repr_owner|]; [done|].
        intros x Hx. fold f in Hx. mm_simpl. apply Hfr1; lia.
      * left. split_and!; auto.
    + pose proof (shrinkMCB_repr fuel m1 f o z' r' size Hr1) as Hsh.
      pose proof (join_free_end (f + size + 1) (z' - size - 1) r') as Hj2.
      destruct (join_free (z' - size - 1) r') as [z2 r2]. destruct Hj2 as [Hj2 Hj3].
      replace (f + size + 1 + (z' - size - 1) + 1) with (f + z' + 1) in Hj2, Hj3 by lia.
      destruct Hsh as (m2 & -> & Hr2 & Hfr2); [lia|lia|]. cbn [Z.eqb SUCCESS negb].
      eexists maxSize, _, (l1 ++ Blk (cu_psp st) size :: Blk FREE_PSP z2 :: r2), rest. split; [done|].
      split_and!; [|rewrite !chain_end_app; cbn; fold f; by rewrite Hj2, He'|by apply Hrest|].
      * eapply repr_replace; [|done|exact H|by eapply repr_owner|]; [done|].
        intros x Hx. fold f in Hx. mm_simpl. rewrite Hfr2 by lia. apply Hfr1; lia.
      * left. split_and!; auto. apply Hrest; [done|]. cbn. by rewrite Hj3.
Qed.

(** ** The largest block and the chain check *)

Lemma used_small m s bl f z o : repr m s bl -> (f, z, o) ∈ used s bl -> z < 65535.
Proof.
  intros H (_ & l1 & l2 & -> & ->)%used_split. apply repr_app in H as [_ H]; [|done].
  pose proof (repr_head _ _ _ _ H) as Hb. unfold block_at in Hb. cbn in Hb. lia.
Qed.

(** A request for 0xffff paragraphs is never met: it only measures. *)
Lemma measure_spec fuel st bl :
  wf st bl -> (length bl < fuel)%nat -> cu_psp st <> FREE_PSP ->
  exists rc para' m' l1 l2,
    DosMemAlloc fuel 0xffff LARGEST 0 (Some 0) st =
      Some (rc, para', Some (largest (frees (scan_start st 0xffff LARGEST) l2)), set_mem m' st) /\
    wf (set_mem m' st) (l1 ++ l2) /\ chain_end (first_mcb st) l1 = scan_start st 0xffff LARGEST /\
    used (first_mcb st) (l1 ++ l2) = used (first_mcb st) bl /\
    (length (l1 ++ l2) <= length bl)%nat.
Proof.
  intros Hwf Hf Hp. unfold DosMemAlloc.
  destruct (DosMemAlloc__spec 1 fuel 0xffff LARGEST 0 (Some 0) st bl)
    as (rc & para' & asize' & st' & -> & bl' & Hwf' & Hst' & He & H); try done.
  destruct H as [(_ & sz & Hsz & _ & Hu)|(_ & _ & Hu & Hlen & l1 & l2 & -> & Hl1 & _ & ->)].
  - exfalso. assert (sz < 65535); [|lia]. destruct Hwf' as [Hr _]. rewrite Hst' in Hr. cbn in Hr.
    eapply used_small; [exact Hr|]. rewrite Hu. by left.
  - exists rc, para', (mem st'), l1, l2. rewrite <- Hst'. done.
Qed.

Definition largest_start (st : mm) : Z :=
  let a := mem_access_mode st in
  scan_start (set_access_mode (if Z.land a 0x80 =? 0 then a else Z.land a (Z.lnot 0x80)) st)
    0xffff LARGEST.

Lemma set_bit7 a : Z.land a 0x80 <> 0 -> Z.lor (Z.land a (Z.lnot 0x80)) 0x80 = a.
Proof.
  intros H. assert (Ha : Z.testbit a 7 = true).
  { destruct (Z.testbit a 7) eqn:E; [done|]. destruct H. apply Z.bits_inj'. intros n Hn.
    rewrite Z.land_spec, Z.bits_0. change 0x80 with (2 ^ 7). rewrite Z.pow2_bits_eqb by lia.
    destruct (Z.eqb_spec 7 n) as [<-|]; [by rewrite E|by rewrite andb_false_r]. }
  apply Z.bits_inj'. intros n Hn. rewrite Z.lor_spec, Z.land_spec, Z.lnot_spec by done.
  change 0x80 with (2 ^ 7). rewrite Z.pow2_bits_eqb by lia.
  destruct (Z.eqb_spec 7 n) as [<-|]; [by rewrite Ha|]. cbn.
  by rewrite andb_true_r, orb_false_r.
Qed.

Lemma DosMemLargest_repr fuel st bl :
  wf st bl -> (length bl < fuel)%nat -> cu_psp st <> FREE_PSP ->
  exists sz m' l1 l2,
    DosMemLargest fuel st = Some (if sz =? 0 then DE_NOMEM else SUCCESS, sz, set_mem m' st) /\
    wf (set_mem m' st) (l1 ++ l2) /\ used (first_mcb st) (l1 ++ l2) = used (first_mcb st) bl /\
    chain_end (first_mcb st) l1 = largest_start st /\
    Forall (fun c => snd c <= sz) (frees (largest_start st) l2) /\
    (Z.land (mem_access_mode st) 0x80 = 0 -> sz = largest (frees (largest_start st) l2)).
Proof.
  intros Hwf Hf Hp. unfold DosMemLargest.
  destruct (measure_spec fuel st bl Hwf Hf Hp)
    as (rc & p & m1 & l1 & l2 & -> & Hwf1 & Hl1 & Hu1 & Hlen1).
  unfold default, id. cbn [mem_access_mode set_mem].
  set (a := mem_access_mode st). set (sz1 := largest _). unfold largest_start. fold a.
  destruct (Z.eqb_spec (Z.land a 0x80) 0) as [Ea|Ea]; cbn [negb].
  - exists sz1, m1, l1, l2. replace (set_access_mode a st) with st by by destruct st.
    split_and!; try done; [by destruct (sz1 =? 0)|]. apply largest_ge.
  - set (st1 := set_access_mode _ _).
    assert (Hwf2 : wf st1 (l1 ++ l2)) by exact Hwf1.
    destruct (measure_spec fuel st1 (l1 ++ l2) Hwf2) as (rc2 & p2 & m2 & k1 & k2 & -> & Hwf3 & Hk1 & Hu2 & _);
      [lia|done|].
    set (sz2 := largest _).
    exists (if sz1 <? sz2 then sz2 else sz1), m2, k1, k2. split_and!.
    + cbn [set_mem set_access_mode mem_access_mode st1]. rewrite set_bit7 by done.
      by destruct (_ =? 0), st.
    + exact Hwf3.
    + rewrite <- Hu1. exact Hu2.
    + done.
    + eapply Forall_impl; [|apply largest_ge]. cbn. intros c Hc. change (snd c <= sz2) in Hc.
      destruct (Z.ltb_spec sz1 sz2); lia.
    + done.
Qed.

Lemma DosMemCheck_repr fuel : forall m s bl,
  repr m s bl -> (length bl <= fuel)%nat -> DosMemCheck_ fuel m s = Some SUCCESS.
Proof.
  induction fuel as [|fuel IH]; intros m s bl H Hf.
  { destruct bl; [by apply repr_nonempty in H|cbn in Hf; lia]. }
  destruct bl as [|b [|c r]]; [by apply repr_nonempty in H| |]; cbn [DosMemCheck_];
    pose proof (repr_head _ _ _ _ H) as [Ht _]; rewrite Ht; [done|]. cbn [Z.eqb negb].
  rewrite (repr_next _ _ _ _ _ H). eapply IH; [by eapply repr_tail|cbn in *; lia].
Qed.

(** ** The properties *)

(** C38: On a well-formed chain [DosMemAlloc] always returns.  Either it adds one
    block of the requested size (at least one paragraph; with [LARGEST], a block of at least
    that size), owned by the current process, to the allocated blocks and leaves
    every other allocated block alone, or no free block of the region it may use is large
    enough; then it returns [DE_NOMEM], reports the largest free block, and changes nothing
    but the joining of free neighbours. *)
Theorem DosMemAlloc_correct fuel size mode para asize st bl :
  wf st bl -> (length bl < fuel)%nat -> 0 < size -> cu_psp st <> FREE_PSP ->
  exists rc para' asize' st',
    DosMemAlloc fuel size mode para asize st = Some (rc, para', asize', st') /\
    alloc_post st bl size mode para asize (last_start st size mode) rc para' asize' st'.
Proof. intros. by apply DosMemAlloc__spec. Qed.

(** What [DosMemAlloc] hands out, [DosMemFree] takes back: freeing the block
    just allocated restores the allocated blocks and leaves it on the chain as a
    free block. *)
Theorem alloc_free_roundtrip fuel size mode para asize st bl para' asize' st' :
  wf st bl -> (length bl < fuel)%nat -> 0 < size -> cu_psp st <> FREE_PSP ->
  DosMemAlloc fuel size mode para asize st = Some (SUCCESS, para', asize', st') ->
  exists m bl', DosMemFree para' (mem st') = (SUCCESS, m) /\
    repr m (first_mcb st) bl' /\ used (first_mcb st) bl' ≡ₚ used (first_mcb st) bl /\
    exists z, size <= z /\ (para', z) ∈ frees (first_mcb st) bl'.
Proof.
  intros Hwf Hf Hs Hp Ha.
  destruct (DosMemAlloc__spec 1 fuel size mode para asize st bl)
    as (rc & p & a & s' & Ha' & bl1 & [Hr _] & Hst & _ & Hcase); try done.
  unfold DosMemAlloc in Ha. rewrite Ha in Ha'. injection Ha' as <- <- <- <-.
  rewrite Hst in Hr. cbn in Hr. destruct Hcase as [(_ & sz & Hsz & _ & Hu)|[? _]]; [|done].
  destruct (DosMemFree_repr _ _ bl1 para' sz (cu_psp st) Hr) as (m & bl' & HA & HB & _ & HC & HD & _).
  { rewrite Hu. by left. }
  exists m, bl'. rewrite Hst. split_and!; [done|done| |by exists sz].
  rewrite Hu in HC. by apply Permutation.Permutation_cons_inv in HC.
Qed.

(** The best-fit search always ends, with all free neighbours joined, and
    when some free block is large enough it chooses one that no other free block
    large enough is smaller than. *)
Theorem best_fit_smallest fuel size mode m s bl :
  repr m s bl -> (length bl < fuel)%nat -> is_best mode = true ->
  exists m' f g, scanMCBs fuel size mode m s 0 0 = Some (m', ScanEnd f g) /\
    repr m' s (coalesce bl) /\ used s (coalesce bl) = used s bl /\
    (f = 0 /\ Forall (fun c => snd c < size) (frees s (coalesce bl)) \/
     exists z, (f, z) ∈ frees s (coalesce bl) /\ size <= z /\
       Forall (fun c => size <= snd c -> z <= snd c) (frees s (coalesce bl))).
Proof.
  intros H Hf Hb.
  destruct (scanMCBs_repr size mode fuel m s bl 0 0 None None H Hf)
    as (m' & out & -> & bl' & Hr & _ & Hu & _ & Hres); [done|done|].
  assert (Hm : mode <> LARGEST) by (intros ->; done).
  assert (Hnf : is_first mode = false).
  { revert Hb. unfold is_best, is_first, BEST_FIT, BEST_FIT_U, BEST_FIT_UO, FIRST_FIT, FIRST_FIT_U, FIRST_FIT_UO.
    repeat case_bool; subst; done. }
  destruct out as [|f g|f g]; [done| |].
  { destruct Hres as [? _]. congruence. }
  destruct Hres as (-> & Hfit & _). exists m', f, g. split_and!; [done|done|done|].
  destruct (foldl _ None _) as [[h z]|] eqn:E.
  - right. destruct Hfit as (-> & _). exists z.
    destruct (pick_fit_best _ _ _ _ _ _ Hb Hm E) as [? _].
    by apply pick_fit_fits in E as [|[? ?]].
  - left. split; [done|]. by apply pick_fit_none in E as [_ ?].
Qed.

(** Resizing an allocated block either succeeds, and then exactly that block
    has the size asked for and belongs to the current process; or the block grows
    over all the free space that follows it, which is still too small, and the
    caller gets [DE_NOMEM] and the size reached.  No other allocated block
    changes. *)
Theorem DosMemChange_correct fuel size maxSize st s bl f z o :
  repr (mem st) s bl -> (f, z, o) ∈ used s bl -> (length bl < fuel)%nat ->
  0 <= size -> cu_psp st <> FREE_PSP ->
  exists rc ms' m' bl' rest, DosMemChange fuel (f + 1) size maxSize st = Some (rc, ms', set_mem m' st) /\
    repr m' s bl' /\ chain_end s bl' = chain_end s bl /\ used s bl ≡ₚ (f, z, o) :: rest /\
    (rc = SUCCESS /\ used s bl' ≡ₚ (f, size, cu_psp st) :: rest /\ ms' = maxSize \/
     rc = DE_NOMEM /\ exists z' l1 r', bl' = l1 ++ Blk o z' :: r' /\ chain_end s l1 = f /\
       z < size /\ z' < size /\ not_free_head r' /\
       used s bl' ≡ₚ (f, z', o) :: rest /\ ms' = (fun _ => z') <$> maxSize).
Proof. apply DosMemChange_repr. Qed.

(** [FreeProcessMem] frees every block of a terminated process, in low and in
    upper memory, no block of any other process, and leaves upper memory linked
    or unlinked as it was. *)
Theorem FreeProcessMem_correct fuel ps st low up :
  umb_wf st low up -> (length (low ++ up) < fuel)%nat -> 0 <= uppermem_link st ->
  ps <> FREE_PSP ->
  exists st' low' up', FreeProcessMem fuel ps st = Some (SUCCESS, st') /\ umb_wf st' low' up' /\
    Z.land (uppermem_link st') 1 = Z.land (uppermem_link st) 1 /\
    used (first_mcb st') low' = filter (fun x => snd x <> ps) (used (first_mcb st) low) /\
    used (uppermem_root st') up' = filter (fun x => snd x <> ps) (used (uppermem_root st) up).
Proof.
  intros Hwf Hf H0 Hps.
  destruct (FreeProcessMem_umb fuel ps st low up Hwf Hf H0 Hps) as (st' & H & Hwf' & Hl & Hfst & Hroot).
  exists st', (free_blocks ps low), (free_blocks ps up).
  rewrite Hfst, Hroot. split_and!; try done; by destruct (free_blocks_used ps (first_mcb st) low),
    (free_blocks_used ps (uppermem_root st) up).
Qed.

(** Asking for the largest block allocates nothing, keeps the chain and the
    allocation strategy, and the size reported bounds every free block of the
    region searched; it is exactly the largest when that region is searched
    once. *)
Theorem DosMemLargest_correct fuel st bl :
  wf st bl -> (length bl < fuel)%nat -> cu_psp st <> FREE_PSP ->
  exists sz m' l1 l2,
    DosMemLargest fuel st = Some (if sz =? 0 then DE_NOMEM else SUCCESS, sz, set_mem m' st) /\
    wf (set_mem m' st) (l1 ++ l2) /\ used (first_mcb st) (l1 ++ l2) = used (first_mcb st) bl /\
    chain_end (first_mcb st) l1 = largest_start st /\
    Forall (fun c => snd c <= sz) (frees (largest_start st) l2) /\
    (Z.land (mem_access_mode st) 0x80 = 0 -> sz = largest (frees (largest_start st) l2)).
Proof. apply DosMemLargest_repr. Qed.

(** Linking or unlinking upper memory takes effect, keeps both chains well
    formed, and needs no more steps than low memory has blocks. *)
Theorem DosUmbLink_correct fuel n st low up :
  umb_wf st low up -> (length low < fuel)%nat -> 0 <= uppermem_link st ->
  n = 0 \/ n = 1 ->
  exists st', DosUmbLink fuel n st = Some st' /\ umb_wf st' low up /\
    Z.land (uppermem_link st') 1 = n /\ 0 <= uppermem_link st' /\
    first_mcb st' = first_mcb st /\ uppermem_root st' = uppermem_root st.
Proof. apply DosUmbLink_to. Qed.

(** ** A concrete memory

    Low memory: a system block, a free one, two blocks of processes 0x1f0 and
    0x300 around another free one.  Upper memory: the block that covers the
    video area, a block of 0x1f0 and a free one. *)

Definition ex_mcb (b : blk) (t : Z) : mcb :=
  Mcb t (b_owner b) (b_size b) (replicate 3 0) (replicate 8 0).

Fixpoint layout (s : Z) (bl : list blk) : list (Z * mcb) :=
  match bl with
  | [] => []
  | [b] => [(s, ex_mcb b MCB_LAST)]
  | b :: r => (s, ex_mcb b MCB_NORMAL) :: layout (s + b_size b + 1) r
  end.

Definition ex_low : list blk := [Blk 8 0x20; Blk 0 0x40; Blk 0x1f0 0x10; Blk 0 0x80; Blk 0x300 0x7].
Definition ex_up : list blk := [Blk 8 0x100; Blk 0x1f0 0x33; Blk 0 0x200].

Definition ex_linked : mm :=
  MM (list_to_map (layout 0x100 (ex_low ++ ex_up))) 0x100 (chain_end 0x100 ex_low) 1 0 0x1f0.

Definition ex_unlinked : mm :=
  MM (list_to_map (layout 0x100 ex_low ++ layout (chain_end 0x100 ex_low) ex_up))
    0x100 (chain_end 0x100 ex_low) 0 0 0x1f0.

Ltac by_compute := vm_compute; intuition (congruence || lia).

Ltac solve_repr :=
  lazymatch goal with
  | |- repr _ _ [_] => apply repr_last; by_compute
  | |- repr _ _ (_ :: _) => apply repr_cons; [by_compute | solve_repr]
  end.

Lemma ex_linked_repr : repr (mem ex_linked) (first_mcb ex_linked) (ex_low ++ ex_up).
Proof. cbn [app ex_low ex_up]. solve_repr. Qed.

Lemma ex_linked_wf : wf ex_linked (ex_low ++ ex_up).
Proof.
  split; [apply ex_linked_repr|]. intros _. exists 0x100, 8. vm_compute. repeat constructor.
Qed.

Lemma ex_unlinked_wf : umb_wf ex_unlinked ex_low ex_up.
Proof.
  split_and!; [done|done|by vm_compute|by vm_compute|].
  cbn [uppermem_link ex_unlinked Z.land Z.eqb]. unfold ex_low, ex_up. split; solve_repr.
Qed.

Lemma DosMemAlloc_correct_witness :
  exists rc para' asize' st',
    DosMemAlloc 20 0x30 BEST_FIT 0 None ex_linked = Some (rc, para', asize', st') /\
    alloc_post ex_linked (ex_low ++ ex_up) 0x30 BEST_FIT 0 None
      (last_start ex_linked 0x30 BEST_FIT) rc para' asize' st'.
Proof.
  apply (DosMemAlloc_correct 20 0x30 BEST_FIT 0 None ex_linked (ex_low ++ ex_up));
    [apply ex_linked_wf | cbn; lia | lia | done].
Defined.

Lemma alloc_free_roundtrip_witness :
  exists para' asize' st' m bl', DosMemAlloc 20 0x30 LAST_FIT 0 None ex_linked
      = Some (SUCCESS, para', asize', st') /\
    DosMemFree para' (mem st') = (SUCCESS, m) /\
    repr m (first_mcb ex_linked) bl' /\
    used (first_mcb ex_linked) bl' ≡ₚ used (first_mcb ex_linked) (ex_low ++ ex_up) /\
    exists z, 0x30 <= z /\ (para', z) ∈ frees (first_mcb ex_linked) bl'.
Proof.
  destruct (DosMemAlloc 20 0x30 LAST_FIT 0 None ex_linked) as [[[[rc p] a] s]|] eqn:E;
    [|vm_compute in E; discriminate E].
  assert (rc = SUCCESS) as -> by (vm_compute in E; by injection E as <- _ _ _).
  exists p, a, s.
  destruct (alloc_free_roundtrip 20 0x30 LAST_FIT 0 None ex_linked (ex_low ++ ex_up) p a s)
    as (m & bl' & H); [apply ex_linked_wf | cbn; lia | lia | done | exact E |].
  exists m, bl'. split; [reflexivity | exact H].
Defined.

Lemma best_fit_smallest_witness :
  exists m' f g, scanMCBs 20 0x30 BEST_FIT (mem ex_linked) 0x100 0 0 = Some (m', ScanEnd f g) /\
    repr m' 0x100 (coalesce (ex_low ++ ex_up)) /\
    used 0x100 (coalesce (ex_low ++ ex_up)) = used 0x100 (ex_low ++ ex_up) /\
    (f = 0 /\ Forall (fun c => snd c < 0x30) (frees 0x100 (coalesce (ex_low ++ ex_up))) \/
     exists z, (f, z) ∈ frees 0x100 (coalesce (ex_low ++ ex_up)) /\ 0x30 <= z /\
       Forall (fun c => 0x30 <= snd c -> z <= snd c) (frees 0x100 (coalesce (ex_low ++ ex_up)))).
Proof.
  apply (best_fit_smallest 20 0x30 BEST_FIT (mem ex_linked) 0x100 (ex_low ++ ex_up));
    [apply ex_linked_repr | cbn; lia | reflexivity].
Defined.

Lemma DosMemChange_correct_witness :
  exists rc ms' m' bl' rest,
    DosMemChange 20 (0x162 + 1) 0x200 (Some 0) ex_linked = Some (rc, ms', set_mem m' ex_linked) /\
    repr m' 0x100 bl' /\ chain_end 0x100 bl' = chain_end 0x100 (ex_low ++ ex_up) /\
    used 0x100 (ex_low ++ ex_up) ≡ₚ (0x162, 0x10, 0x1f0) :: rest /\
    (rc = SUCCESS /\ used 0x100 bl' ≡ₚ (0x162, 0x200, 0x1f0) :: rest /\ ms' = Some 0 \/
     rc = DE_NOMEM /\ exists z' l1 r', bl' = l1 ++ Blk 0x1f0 z' :: r' /\ chain_end 0x100 l1 = 0x162 /\
       0x10 < 0x200 /\ z' < 0x200 /\ not_free_head r' /\
       used 0x100 bl' ≡ₚ (0x162, z', 0x1f0) :: rest /\ ms' = Some z').
Proof.
  apply (DosMemChange_correct 20 0x200 (Some 0) ex_linked 0x100 (ex_low ++ ex_up) 0x162 0x10 0x1f0);
    [apply ex_linked_repr | vm_compute; repeat constructor | cbn; lia | lia | done].
Defined.

Lemma FreeProcessMem_correct_witness :
  exists st' low' up', FreeProcessMem 20 0x1f0 ex_unlinked = Some (SUCCESS, st') /\
    umb_wf st' low' up' /\ Z.land (uppermem_link st') 1 = 0 /\
    used (first_mcb st') low' = filter (fun x => snd x <> 0x1f0) (used 0x100 ex_low) /\
    used (uppermem_root st') up'
      = filter (fun x => snd x <> 0x1f0) (used (uppermem_root ex_unlinked) ex_up).
Proof.
  apply (FreeProcessMem_correct 20 0x1f0 ex_unlinked ex_low ex_up);
    [apply ex_unlinked_wf | cbn; lia | cbn; lia | done].
Defined.

Lemma DosMemLargest_correct_witness :
  exists sz m' l1 l2,
    DosMemLargest 20 ex_linked = Some (if sz =? 0 then DE_NOMEM else SUCCESS, sz, set_mem m' ex_linked) /\
    wf (set_mem m' ex_linked) (l1 ++ l2) /\ used 0x100 (l1 ++ l2) = used 0x100 (ex_low ++ ex_up) /\
    chain_end 0x100 l1 = largest_start ex_linked /\
    Forall (fun c => snd c <= sz) (frees (largest_start ex_linked) l2) /\
    (Z.land 0 0x80 = 0 -> sz = largest (frees (largest_start ex_linked) l2)).
Proof.
  apply (DosMemLargest_correct 20 ex_linked (ex_low ++ ex_up)); [apply ex_linked_wf | cbn; lia | done].
Defined.

Lemma DosUmbLink_correct_witness :
  exists st', DosUmbLink 20 1 ex_unlinked = Some st' /\ umb_wf st' ex_low ex_up /\
    Z.land (uppermem_link st') 1 = 1 /\ 0 <= uppermem_link st' /\
    first_mcb st' = 0x100 /\ uppermem_root st' = uppermem_root ex_unlinked.
Proof.
  apply (DosUmbLink_correct 20 1 ex_unlinked ex_low ex_up);
    [apply ex_unlinked_wf | cbn; lia | cbn; lia | by right].
Defined.
