(* ===== verification/Share.v ===== *)
(** * File sharing and locking ([share/share.c])

    The resident SHARE keeps a table of open files and a table of locked
    regions; the kernel calls it through int 2f before it opens, reads, writes
    or locks.  A stray access (an index outside a table, or a string read past
    its array) is [None].  A critical error ([int86 (0x24, ...)]) is recorded in
    the state: the model logs its AH, AL and DI. *)

From S2P Require Import Prelude.

(** ** Data *)

(** share/share.c:35-35 *)
Definition OPEN_READ_ONLY : Z := 0.
(** share/share.c:36-36 *)
Definition OPEN_WRITE_ONLY : Z := 1.
(** share/share.c:37-37 *)
Definition OPEN_READ_WRITE : Z := 2.
(** share/share.c:40-40 *)
Definition SHARE_COMPAT : Z := 0.
(** share/share.c:41-41 *)
Definition SHARE_DENY_ALL : Z := 1.
(** share/share.c:42-42 *)
Definition SHARE_DENY_WRITE : Z := 2.
(** share/share.c:43-43 *)
Definition SHARE_DENY_READ : Z := 3.
(** share/share.c:44-44 *)
Definition SHARE_DENY_NONE : Z := 4.

(** share/share.c:78-84 *)
Definition open_actions : list (list Z) :=
  [ [ 0; 1; 1; 1; 1 ];
    [ 2; 1; 1; 1; 1 ];
    [ 2; 1; 1; 1; 1 ];
    [ 2; 1; 1; 1; 1 ];
    [ 2; 1; 1; 1; 0 ] ].

(** share/share.c:86-92 *)
Record open_action_exception_t := Exc {
  x_first_sharemode : Z;
  x_first_openmode : Z;
  x_current_sharemode : Z;
  x_current_openmode : Z;
  x_action : Z }.

(** share/share.c:94-113 *)
Definition open_exceptions : list open_action_exception_t :=
  [ Exc 0 0 2 0 3;
    Exc 0 0 4 0 3;
    Exc 2 0 0 0 4;
    Exc 2 0 2 0 0;
    Exc 2 0 4 0 0;
    Exc 3 0 2 1 0;
    Exc 3 0 4 1 0;
    Exc 3 1 4 1 0;
    Exc 3 2 4 1 0;
    Exc 4 0 0 0 4;
    Exc 4 0 0 1 0;
    Exc 4 0 0 2 0;
    Exc 4 0 2 0 0;
    Exc 4 0 2 1 0;
    Exc 4 0 2 2 0;
    Exc 4 1 3 0 0;
    Exc 4 1 3 1 0;
    Exc 4 1 3 2 0 ].

(** share/share.c:116-123 *)
Record file_t := File {
  f_filename : list Z;
  f_psp : Z;
  f_openmode : Z;
  f_sharemode : Z;
  f_first_openmode : Z;
  f_first_sharemode : Z }.

(** share/share.c:126-132 *)
Record lock_t := Lock {
  l_used : Z;
  l_start : Z;
  l_end : Z;
  l_fileno : Z;
  l_psp : Z }.

(** The tables, and the critical errors raised so far, the latest first.
    share/share.c:136-141 *)
Record share := Sh {
  file_table : list file_t;
  lock_table : list lock_t;
  int24 : list (Z * Z * Z) }.

Definition with_filename n f :=
  File n (f_psp f) (f_openmode f) (f_sharemode f) (f_first_openmode f) (f_first_sharemode f).
Definition with_first sm om f :=
  File (f_filename f) (f_psp f) (f_openmode f) (f_sharemode f) om sm.
Definition with_used u l := Lock u (l_start l) (l_end l) (l_fileno l) (l_psp l).

Definition set_files t (st : share) := Sh t (lock_table st) (int24 st).
Definition set_locks t (st : share) := Sh (file_table st) t (int24 st).

(** The size of [file_t] and its [filename]. *)
Definition sizeof_file_t : Z := 134.
Definition sizeof_filename : nat := 128.

(** [memset (.., 0, ..)] on the tables; the allocations succeed.
    share/share.c:582-593 *)
Definition init (file_table_size_bytes lock_table_size : Z) : share :=
  Sh (replicate (Z.to_nat (file_table_size_bytes / sizeof_file_t))
        (File (replicate sizeof_filename 0) 0 0 0 0 0))
     (replicate (Z.to_nat lock_table_size) (Lock 0 0 0 0 0)) [].

(** ** Operations *)

(** share/share.c:294-302 *)
Definition remove_all_locks (fileno : Z) (st : share) : share :=
  set_locks (map (fun l => if l_fileno l =? fileno then with_used 0 l else l) (lock_table st)) st.

(** share/share.c:304-306 *)
Definition free_file_table_entry (fileno : Z) (st : share) : option share :=
  let* f := at_ (file_table st) fileno in
  let* n := set_at 0 0 (f_filename f) in
  let* t := set_at fileno (with_filename n f) (file_table st) in
  Some (set_files t st).

(** share/share.c:323-330 *)
Fixpoint fnmatches (fn1 fn2 : list Z) : option bool :=
  match fn1, fn2 with
  | c1 :: r1, c2 :: r2 =>
      if c1 =? 0 then Some (c1 =? c2)
      else if negb (c1 =? c2) then Some false else fnmatches r1 r2
  | _, _ => None
  end.

(** The register values of the critical error of [do_open_check] (DI 0x0d) and
    [access_check] (DI 0x0e).
    share/share.c:387-391 *)
Definition critical_regs (di : Z) (filename : list Z) : option (Z * Z * Z) :=
  let* c0 := at_ filename 0 in
  if c0 =? 0 then Some (0x0e, 0, di)
  else
    let* c1 := at_ filename 1 in
    Some (0x0e, (if c1 =? 58 then u8 (c0 - 65) else 0), di).

Definition raise_int24 (r : Z * Z * Z) (st : share) : share :=
  Sh (file_table st) (lock_table st) (r :: int24 st).

(** The action for an open with the current modes of a file first opened with
    the first modes: the exceptions, then the general table.
    share/share.c:349-366 *)
Definition open_action (first_sharemode first_openmode current_sharemode current_openmode : Z)
    : option Z :=
  let hit e :=
    (x_first_sharemode e =? first_sharemode) &&
    (x_current_sharemode e =? current_sharemode) &&
    (x_first_openmode e =? first_openmode) &&
    (x_current_openmode e =? current_openmode) in
  match List.find hit open_exceptions with
  | Some e => Some (x_action e)
  | None =>
      let* row := at_ open_actions first_sharemode in
      at_ row current_sharemode
  end.

(** The loop of [do_open_check] up to the first other entry in use for the same
    file.
    share/share.c:342-346 *)
Fixpoint find_open (i fileno : Z) (name : list Z) (l : list file_t) : option (option file_t) :=
  match l with
  | [] => Some None
  | p :: r =>
      if i =? fileno then find_open (i + 1) fileno name r
      else
        let* c := at_ (f_filename p) 0 in
        if c =? 0 then find_open (i + 1) fileno name r
        else
          let* eq := fnmatches (f_filename p) name in
          if negb eq then find_open (i + 1) fileno name r else Some (Some p)
  end.

(** share/share.c:332-400 *)
Definition do_open_check (fileno : Z) (st : share) : option (Z * share) :=
  let* fptr := at_ (file_table st) fileno in
  let current_sharemode := f_sharemode fptr in
  let current_openmode := f_openmode fptr in
  let* other := find_open 0 fileno (f_filename fptr) (file_table st) in
  match other with
  | None =>
      let* t := set_at fileno (with_first current_sharemode current_openmode fptr) (file_table st) in
      Some (fileno, set_files t st)
  | Some p =>
      let* t := set_at fileno (with_first (f_first_sharemode p) (f_first_openmode p) fptr)
                  (file_table st) in
      let st := set_files t st in
      let* action := open_action (f_first_sharemode p) (f_first_openmode p)
                       current_sharemode current_openmode in
      if action =? 1 then
        let* st := free_file_table_entry fileno st in
        Some (-5, st)
      else if action =? 2 then
        let* regs := critical_regs 0x0d (f_filename fptr) in
        let* st := free_file_table_entry fileno st in
        Some (-0x20, raise_int24 regs st)
      else Some (fileno, st)
  end.

(** The first entry whose name is empty.
    share/share.c:435-440 *)
Fixpoint find_free (i : Z) (l : list file_t) : option (option Z) :=
  match l with
  | [] => Some None
  | p :: r =>
      let* c := at_ (f_filename p) 0 in
      if c =? 0 then Some (Some i) else find_free (i + 1) r
  end.

(** The copy of the name into the entry, [old] being what the array holds.
    share/share.c:444-447 *)
Fixpoint copy_filename (old filename : list Z) : option (list Z) :=
  match old with
  | [] => Some []
  | _ :: old' =>
      match filename with
      | [] => None
      | c :: rest =>
          if c =? 0 then Some (c :: old')
          else let* n := copy_filename old' rest in Some (c :: n)
      end
  end.

(** share/share.c:408-454 *)
Definition open_check (filename : list Z) (psp openmode sharemode : Z) (st : share)
    : option (Z * share) :=
  let sharemode := Z.land sharemode 0x07 in
  let sharemode :=
    if (sharemode <? SHARE_COMPAT) || (SHARE_DENY_NONE <? sharemode) then SHARE_COMPAT else sharemode in
  let openmode := Z.land openmode 0x03 in
  let openmode :=
    if (openmode <? OPEN_READ_ONLY) || (OPEN_READ_WRITE <? openmode) then OPEN_READ_ONLY else openmode in
  let* slot := find_free 0 (file_table st) in
  match slot with
  | None => Some (-1, st)
  | Some fileno =>
      let* fptr := at_ (file_table st) fileno in
      let* name := copy_filename (f_filename fptr) filename in
      let* t := set_at fileno
        (File name psp openmode sharemode (f_first_openmode fptr) (f_first_sharemode fptr))
        (file_table st) in
      do_open_check fileno (set_files t st)
  end.

(** share/share.c:458-463 *)
Definition close_file (fileno : Z) (st : share) : option share :=
  free_file_table_entry fileno (remove_all_locks fileno st).

(** [endofs] and [len] once an overflowing region is cut at the largest offset.
    share/share.c:486-491 *)
Definition clip_region (ofs len : Z) : Z * Z :=
  let endofs := u32 (ofs + len) in
  if endofs <? ofs then (0xffffffff, 0xffffffff - ofs) else (endofs, len).

(** The loop of [access_check]: is there a lock in the way?
    share/share.c:495-501 *)
Fixpoint lock_conflict (psp : Z) (filename : list Z) (ofs endofs : Z) (files : list file_t)
    (l : list lock_t) : option bool :=
  match l with
  | [] => Some false
  | lptr :: r =>
      if negb (l_used lptr =? 0) && ((psp =? 0) || negb (l_psp lptr =? psp)) then
        let* f := at_ files (l_fileno lptr) in
        let* eq := fnmatches filename (f_filename f) in
        if eq && (((l_start lptr <=? ofs) && (ofs <? l_end lptr)) ||
                  ((l_start lptr <? endofs) && (endofs <=? l_end lptr)))
        then Some true
        else lock_conflict psp filename ofs endofs files r
      else lock_conflict psp filename ofs endofs files r
  end.

(** share/share.c:476-517 *)
Definition access_check (psp fileno ofs len : Z) (allowcriter : bool) (st : share)
    : option (Z * share) :=
  let* fptr := at_ (file_table st) fileno in
  let filename := f_filename fptr in
  let '(endofs, len) := clip_region ofs len in
  if len <? 1 then Some (0, st)
  else
    let* c := lock_conflict psp filename ofs endofs (file_table st) (lock_table st) in
    if c then
      if allowcriter then
        let* regs := critical_regs 0x0e filename in
        let* st := free_file_table_entry fileno st in
        Some (-0x21, raise_int24 regs st)
      else Some (-0x21, st)
    else Some (0, st).

(** The search of the unlock branch; the lock released is marked unused.
    share/share.c:546-556 *)
Fixpoint release_lock (psp fileno ofs endofs : Z) (l : list lock_t) : option (list lock_t) :=
  match l with
  | [] => None
  | lptr :: r =>
      if negb (l_used lptr =? 0) && (l_psp lptr =? psp) && (l_fileno lptr =? fileno) &&
         (l_start lptr =? ofs) && (l_end lptr =? endofs)
      then Some (with_used 0 lptr :: r)
      else (lptr ::.) <$> release_lock psp fileno ofs endofs r
  end.

(** The search for an unused entry of the lock branch.
    share/share.c:564-574 *)
Fixpoint take_lock (new : lock_t) (l : list lock_t) : option (list lock_t) :=
  match l with
  | [] => None
  | lptr :: r => if l_used lptr =? 0 then Some (new :: r) else (lptr ::.) <$> take_lock new r
  end.

(** share/share.c:524-577 *)
Definition lock_unlock (psp fileno ofs len : Z) (unlock : bool) (st : share) : option (Z * share) :=
  let '(endofs, len) := clip_region ofs len in
  if len <? 1 then Some (0, st)
  else if unlock then
    match release_lock psp fileno ofs endofs (lock_table st) with
    | Some t => Some (0, set_locks t st)
    | None => Some (-0x21, st)
    end
  else
    let* (rc, st) := access_check 0 fileno ofs len false st in
    if negb (rc =? 0) then Some (-0x21, st)
    else
      match take_lock (Lock 1 ofs (u32 (ofs + len)) fileno psp) (lock_table st) with
      | Some t => Some (0, set_locks t st)
      | None => Some (-0x24, st)
      end.

(** The multiplex handler: [None] inside the option means the call is passed to
    the next handler; otherwise the value of AX it returns.  [name] is the string
    at DS:SI.
    share/share.c:208-292 *)
Definition handler2f (ax bx cx dx si di es : Z) (name : list Z) (st : share)
    : option (option Z * share) :=
  let al := Z.land ax 0xff in
  if negb (Z.land (Z.shiftr ax 8) 0xff =? 0x10) then Some (None, st)
  else if al =? 0 then Some (Some (Z.lor ax 0xff), st)
  else if al =? 0xa0 then
    let* (r, st) := open_check name bx cx dx st in
    Some (Some (u16 r), st)
  else if al =? 0xa1 then
    let* st := close_file bx st in
    Some (Some ax, st)
  else if Z.land ax 0xfe =? 0xa2 then
    let* (r, st) := access_check bx cx (u32 (Z.shiftl si 16 + di)) (u32 (Z.shiftl es 16 + dx))
                      (negb (Z.land ax 1 =? 0)) st in
    Some (Some (u16 r), st)
  else if Z.land ax 0xfe =? 0xa4 then
    let* (r, st) := lock_unlock bx cx (Z.lor (Z.shiftl si 16) di) (Z.lor (Z.shiftl es 16) dx)
                      (negb (Z.land ax 1 =? 0)) st in
    Some (Some (u16 r), st)
  else Some (None, st).
