(* ===== verification/ShareSpec.v ===== *)
(** * What SHARE promises

    C strings as their contents, the invariant of the two tables, the operations
    as steps, and the properties of every reachable state. *)

From S2P Require Import Prelude Share.

(** ** Strings in arrays *)

Fixpoint cstr (l : list Z) : list Z :=
  match l with
  | [] => []
  | c :: r => if c =? 0 then [] else c :: cstr r
  end.

Definition cname (f : file_t) : list Z := cstr (f_filename f).

Lemma fnmatches_spec a b :
  0 ∈ a -> 0 ∈ b -> fnmatches a b = Some (bool_decide (cstr a = cstr b)).
Proof.
  revert b. induction a as [|x a IH]; intros b Ha Hb; [set_solver|].
  destruct b as [|y b]; [set_solver|]. cbn.
  destruct (Z.eqb_spec x 0) as [->|Hx].
  - destruct (Z.eqb_spec 0 y) as [<-|Hy]; [done|]. rewrite (proj2 (Z.eqb_neq y 0)) by lia. done.
  - destruct (Z.eqb_spec x y) as [<-|Hxy]; cbn.
    + rewrite (proj2 (Z.eqb_neq x 0)) by done. rewrite IH; [|set_solver..].
      f_equal. apply bool_decide_ext. split; [by intros -> | by intros [=]].
    + f_equal. symmetry. apply bool_decide_eq_false. destruct (y =? 0); [done|]. by intros [=].
Qed.

Lemma copy_filename_spec old name :
  0 ∈ take (length old) name ->
  exists n, copy_filename old name = Some n /\ cstr n = cstr name /\ 0 ∈ n /\ length n = length old.
Proof.
  revert name. induction old as [|o old IH]; intros name H; cbn in H; [set_solver|].
  destruct name as [|c name]; cbn in *; [set_solver|].
  destruct (Z.eqb_spec c 0) as [->|Hc].
  - eexists. split; [done|]. split_and!; [done|by left|done].
  - destruct (IH name) as (n & -> & Hn & H0 & Hl); [set_solver|].
    eexists. split; [done|]. cbn. rewrite (proj2 (Z.eqb_neq c 0)), Hn, Hl by done.
    split_and!; [done|by right|done].
Qed.

(** ** The invariant *)

Definition file_wf (f : file_t) : Prop :=
  0 ∈ f_filename f /\ length (f_filename f) = sizeof_filename /\
  0 <= f_sharemode f <= 4 /\ 0 <= f_openmode f <= 2 /\
  0 <= f_first_sharemode f <= 4 /\ 0 <= f_first_openmode f <= 2.

(** The table let this entry in, given how its file was first opened. *)
Definition permitted (fsm fom sm om : Z) : Prop :=
  exists a, open_action fsm fom sm om = Some a /\ a <> 1 /\ a <> 2.

Definition admitted (f : file_t) : Prop :=
  permitted (f_first_sharemode f) (f_first_openmode f) (f_sharemode f) (f_openmode f).

Definition is_open (f : file_t) : Prop := cname f <> [].

Definition same_first (f g : file_t) : Prop :=
  f_first_sharemode f = f_first_sharemode g /\ f_first_openmode f = f_first_openmode g.

(** Any two entries for one file agree on how it was first opened, and at least
    one of them was let in by the table. *)
Definition files_ok (t : list file_t) : Prop :=
  Forall file_wf t /\
  forall i j f g, t !! i = Some f -> t !! j = Some g -> i <> j ->
    is_open f -> cname f = cname g -> same_first f g /\ (admitted f \/ admitted g).

Definition locks_in (n : nat) (l : list lock_t) : Prop :=
  Forall (fun l => l_used l <> 0 -> l_used l = 1 /\ 0 <= l_fileno l < Z.of_nat n) l.

Definition share_ok (st : share) : Prop :=
  files_ok (file_table st) /\ locks_in (length (file_table st)) (lock_table st).

(** ** Tables *)

Lemma file_wf_head f : file_wf f ->
  exists c, at_ (f_filename f) 0 = Some c /\ (c =? 0) = bool_decide (cname f = []).
Proof.
  intros (H0 & Hl & _). unfold cname. destruct (f_filename f) as [|c r]; [done|].
  exists c. split; [done|]. cbn. by destruct (Z.eqb_spec c 0).
Qed.

Lemma find_free_spec t i :
  Forall file_wf t ->
  (find_free i t = Some None /\ Forall is_open t) \/
  (exists k f, find_free i t = Some (Some (i + Z.of_nat k)) /\ t !! k = Some f /\ cname f = []).
Proof.
  revert i. induction t as [|p t IH]; intros i H; [by left|].
  apply list.Forall_cons in H as [Hp Ht]. cbn. destruct (file_wf_head p Hp) as (c & -> & ->).
  case_bool_decide as Hc.
  - right. exists 0%nat, p. split; [do 2 f_equal; lia|done].
  - destruct (IH (i + 1) Ht) as [[-> Hall]|(k & f & -> & Hk & Hf)].
    + left. split; [done|]. by constructor.
    + right. exists (S k), f. split; [do 2 f_equal; lia|done].
Qed.

Lemma find_open_spec t i k0 name :
  Forall file_wf t -> 0 ∈ name ->
  exists o, find_open i (i + k0) name t = Some o /\
    match o with
    | None => forall k f, t !! k = Some f -> Z.of_nat k <> k0 -> is_open f -> cname f <> cstr name
    | Some p => exists k, t !! k = Some p /\ Z.of_nat k <> k0 /\ is_open p /\ cname p = cstr name
    end.
Proof.
  revert i k0. induction t as [|p t IH]; intros i k0 H Hn; [by exists None|].
  apply list.Forall_cons in H as [Hp Ht]. cbn.
  destruct (IH (i + 1) (k0 - 1) Ht Hn) as (o & Ho & Hspec).
  replace (i + 1 + (k0 - 1)) with (i + k0) in Ho by lia.
  assert (Hskip : (k0 = 0 \/ cname p = [] \/ cname p <> cstr name) ->
    match o with
    | None => forall k f, (p :: t) !! k = Some f -> Z.of_nat k <> k0 -> is_open f -> cname f <> cstr name
    | Some p' => exists k, (p :: t) !! k = Some p' /\ Z.of_nat k <> k0 /\ is_open p' /\ cname p' = cstr name
    end).
  { intros Hp'. destruct o as [q|].
    - destruct Hspec as (k & Hk & Hne & Hq). exists (S k). split_and!; [done|lia|by destruct Hq..].
    - intros [|k] f Hk Hne Hf; [|apply (Hspec k f); [done|lia|done]].
      injection Hk as <-. destruct Hp' as [?|[?|?]]; [lia|done|done]. }
  destruct (Z.eqb_spec i (i + k0)).
  { exists o. split; [done|]. apply Hskip. lia. }
  destruct (file_wf_head p Hp) as (c & -> & ->). case_bool_decide as Hc.
  { exists o. split; [done|]. apply Hskip. auto. }
  rewrite fnmatches_spec by (done || apply Hp). fold (cname p).
  case_bool_decide as Heq; cbn.
  - exists (Some p). split; [done|]. exists 0%nat. split_and!; [done|lia|done|done].
  - exists o. split; [done|]. apply Hskip. auto.
Qed.

Lemma free_entry_spec k f st :
  file_table st !! k = Some f -> file_wf f ->
  exists f', free_file_table_entry (Z.of_nat k) st = Some (set_files (<[k := f']> (file_table st)) st) /\
    cname f' = [] /\ file_wf f'.
Proof.
  intros Hk Hf. unfold free_file_table_entry. rewrite at_nat, Hk.
  pose proof Hf as (H0 & Hl & Hrest).
  destruct (f_filename f) as [|c r] eqn:E; [done|].
  change 0 with (Z.of_nat 0) at 1. rewrite (set_at_nat (c :: r) 0 0) by (cbn; lia).
  pose proof (lookup_lt_Some _ _ _ Hk). rewrite set_at_nat by done.
  eexists. split; [done|]. split; [done|]. unfold file_wf. cbn. split; [by left|]. done.
Qed.

(** ** Opening *)

(** The modes as [open_check] keeps them. *)
Definition norm_share (sm : Z) : Z :=
  let s := Z.land sm 0x07 in if (s <? 0) || (4 <? s) then 0 else s.
Definition norm_open (om : Z) : Z :=
  let o := Z.land om 0x03 in if (o <? 0) || (2 <? o) then 0 else o.

Lemma norm_share_range sm : 0 <= norm_share sm <= 4.
Proof. unfold norm_share. repeat case_bool; cbn; lia. Qed.
Lemma norm_open_range om : 0 <= norm_open om <= 2.
Proof. unfold norm_open. repeat case_bool; cbn; lia. Qed.

Lemma open_action_total fsm fom sm om :
  0 <= fsm <= 4 -> 0 <= sm <= 4 -> exists a, open_action fsm fom sm om = Some a.
Proof.
  intros H1 H2. unfold open_action. destruct (List.find _ _) as [e|]; [by eexists|].
  assert (fsm = 0 \/ fsm = 1 \/ fsm = 2 \/ fsm = 3 \/ fsm = 4) as Hf by lia.
  assert (sm = 0 \/ sm = 1 \/ sm = 2 \/ sm = 3 \/ sm = 4) as Hs by lia.
  destruct Hf as [->|[->|[->|[->| ->]]]]; destruct Hs as [->|[->|[->|[->| ->]]]]; by eexists.
Qed.

(** The table is in order but for the entry at [k]. *)
Definition files_ok_but (k : nat) (t : list file_t) : Prop :=
  Forall file_wf t /\
  forall i j f g, t !! i = Some f -> t !! j = Some g -> i <> j -> i <> k -> j <> k ->
    is_open f -> cname f = cname g -> same_first f g /\ (admitted f \/ admitted g).

Lemma same_first_sym f g : same_first f g -> same_first g f.
Proof. unfold same_first. intuition. Qed.

Lemma files_ok_insert k t f :
  files_ok_but k t -> file_wf f ->
  (is_open f -> forall i g, t !! i = Some g -> i <> k -> cname g = cname f ->
     same_first f g /\ admitted f) ->
  files_ok (<[k := f]> t).
Proof.
  intros [Hwf Hok] Hf Hnew. split; [by apply Forall_insert|].
  intros i j x y Hi Hj Hij Hx Hxy.
  apply list_lookup_insert_Some in Hi as [(<- & <- & _)|(Hik & Hi)];
    apply list_lookup_insert_Some in Hj as [(<- & <- & _)|(Hjk & Hj)]; [done| | |by eapply Hok].
  - destruct (Hnew Hx j y) as [? ?]; auto.
  - unfold is_open in *. rewrite Hxy in Hx. destruct (Hnew Hx i x) as [? ?]; auto.
    split; [by apply same_first_sym|auto].
Qed.

Lemma files_ok_weaken k t f :
  files_ok t -> file_wf f -> files_ok_but k (<[k := f]> t).
Proof.
  intros [Hwf Hok] Hf. split; [by apply Forall_insert|].
  intros i j x y Hi Hj Hij Hik Hjk Hx Hxy.
  rewrite list_lookup_insert_ne in Hi, Hj by done. by eapply Hok.
Qed.

Lemma critical_regs_total di f : file_wf f -> exists r, critical_regs di (f_filename f) = Some r.
Proof.
  intros (_ & Hl & _). destruct (f_filename f) as [|a [|b r]]; [done|done|].
  unfold critical_regs. change (at_ (a :: b :: r) 0) with (Some a).
  change (at_ (a :: b :: r) 1) with (Some b). cbv beta iota. destruct (a =? 0); eexists; reflexivity.
Qed.

(** The verdict on the open of the entry at [k], now filled in as [f]. *)
Inductive verdict (t : list file_t) (k : nat) (f : file_t) (ev : list (Z * Z * Z))
    : Z -> list file_t -> list (Z * Z * Z) -> Prop :=
  | verdict_first :
      (forall i g, t !! i = Some g -> i <> k -> is_open g -> cname g <> cname f) ->
      verdict t k f ev (Z.of_nat k)
        (<[k := with_first (f_sharemode f) (f_openmode f) f]> t) ev
  | verdict_shared i g a :
      t !! i = Some g -> i <> k -> cname g = cname f ->
      open_action (f_first_sharemode g) (f_first_openmode g) (f_sharemode f) (f_openmode f) = Some a ->
      a <> 1 -> a <> 2 ->
      verdict t k f ev (Z.of_nat k)
        (<[k := with_first (f_first_sharemode g) (f_first_openmode g) f]> t) ev
  | verdict_refused i g a f' ev' :
      t !! i = Some g -> i <> k -> cname g = cname f ->
      open_action (f_first_sharemode g) (f_first_openmode g) (f_sharemode f) (f_openmode f) = Some a ->
      cname f' = [] ->
      (a = 1 /\ ev' = ev \/ a = 2 /\ exists r, ev' = r :: ev) ->
      verdict t k f ev (if a =? 1 then -5 else -0x20) (<[k := f']> t) ev'.

Lemma do_open_check_spec k f st :
  file_table st !! k = Some f -> files_ok_but k (file_table st) -> is_open f ->
  exists rc t' ev', do_open_check (Z.of_nat k) st = Some (rc, Sh t' (lock_table st) ev') /\
    files_ok t' /\ verdict (file_table st) k f (int24 st) rc t' ev'.
Proof.
  intros Hk Hok Hopen. pose proof Hok as [Hwf _].
  pose proof (lookup_lt_Some _ _ _ Hk) as Hlt.
  assert (Hf : file_wf f) by (by eapply Forall_lookup_1).
  unfold do_open_check. rewrite at_nat, Hk.
  destruct (find_open_spec (file_table st) 0 (Z.of_nat k) (f_filename f) Hwf) as (o & Hfind & Ho); [apply Hf|].
  rewrite Z.add_0_l in Hfind. rewrite Hfind.
  destruct o as [g|].
  - destruct Ho as (i & Hi & Hik & Hg & Hgf).
    assert (Hgw : file_wf g) by (by eapply Forall_lookup_1).
    set (f1 := with_first _ _ f). assert (Hf1 : file_wf f1) by (unfold file_wf in *; cbn; tauto).
    rewrite set_at_nat by done.
    destruct (open_action_total (f_first_sharemode g) (f_first_openmode g) (f_sharemode f) (f_openmode f))
      as [a Ha]; [apply Hgw|apply Hf|]. rewrite Ha.
    destruct (free_entry_spec k f1 (set_files (<[k := f1]> (file_table st)) st)) as (f' & Hfree & Hf' & Hwf');
      [cbn; by rewrite list_lookup_insert_eq|done|].
    cbn [set_files file_table] in Hfree. rewrite list_insert_insert_eq in Hfree.
    destruct (critical_regs_total 0x0d f Hf) as [r Hr].
    assert (Hokf : files_ok (<[k := f']> (file_table st)))
      by (apply files_ok_insert; [done|done|unfold is_open; by rewrite Hf']).
    destruct (Z.eqb_spec a 1) as [->|H1]; [|destruct (Z.eqb_spec a 2) as [->|H2]].
    + rewrite Hfree. eexists _, _, _. split; [done|]. split; [done|].
      apply (verdict_refused _ _ _ _ i g 1 f'); auto with lia.
    + rewrite Hr, Hfree. eexists _, _, _. split; [done|]. split; [done|].
      apply (verdict_refused _ _ _ _ i g 2 f'); eauto with lia.
    + eexists _, _, _. split; [done|]. split.
      * apply files_ok_insert; [done|done|]. intros _ j h Hj Hjk Hh. split.
        -- destruct (decide (i = j)) as [->|Hij].
           { rewrite Hi in Hj. injection Hj as ->. done. }
           destruct Hok as [_ Hok]. apply (Hok i j g h Hi Hj Hij); [lia|done|done|].
           rewrite Hgf. by rewrite Hh.
        -- by exists a.
      * apply (verdict_shared _ _ _ _ i g a); auto with lia.
  - rewrite set_at_nat by done. eexists _, _, _. split; [done|]. split.
    + apply files_ok_insert; [done| |].
      * unfold file_wf in *; cbn; tauto.
      * intros _ i g Hi Hik Hg. exfalso. apply (Ho i g Hi); [lia| |done].
        unfold is_open. by rewrite Hg.
    + apply verdict_first. intros i g Hi Hik Hg. apply (Ho i g Hi); [lia|done].
Qed.

(** What [open_check] does, from the table [t] before it: no entry is unused; or
    the entry at [k] is filled in and the verdict falls. *)
Inductive open_result (name : list Z) (psp om sm : Z) (t : list file_t) (ev : list (Z * Z * Z))
    : Z -> list file_t -> list (Z * Z * Z) -> Prop :=
  | open_full : Forall is_open t -> open_result name psp om sm t ev (-1) t ev
  | open_slot k f0 f rc t' ev' :
      t !! k = Some f0 -> cname f0 = [] ->
      cname f = cstr name -> f_psp f = psp ->
      f_openmode f = norm_open om -> f_sharemode f = norm_share sm ->
      verdict (<[k := f]> t) k f ev rc t' ev' ->
      open_result name psp om sm t ev rc t' ev'.

Lemma open_check_spec name psp om sm st :
  files_ok (file_table st) -> 0 ∈ take sizeof_filename name -> cstr name <> [] ->
  exists rc t' ev', open_check name psp om sm st = Some (rc, Sh t' (lock_table st) ev') /\
    files_ok t' /\ open_result name psp om sm (file_table st) (int24 st) rc t' ev'.
Proof.
  intros Hok H0 Hne. pose proof Hok as [Hwf _]. unfold open_check.
  fold (norm_share sm) (norm_open om).
  destruct (find_free_spec (file_table st) 0 Hwf) as [[-> Hall]|(k & f0 & -> & Hk & Hf0)].
  { exists (-1), (file_table st), (int24 st). split; [by destruct st|].
    split; [done|by apply open_full]. }
  rewrite Z.add_0_l, at_nat, Hk.
  assert (Hw0 : file_wf f0) by (by eapply Forall_lookup_1).
  pose proof Hw0 as (_ & Hl & _ & _ & Hr).
  destruct (copy_filename_spec (f_filename f0) name) as (n & -> & Hn & Hn0 & Hnl); [by rewrite Hl|].
  set (f := File n psp _ _ _ _).
  assert (Hfw : file_wf f).
  { unfold file_wf. subst f. cbn [f_filename f_sharemode f_openmode f_first_sharemode f_first_openmode].
    rewrite Hnl.
    split_and!; first [done | apply norm_share_range | apply norm_open_range | apply Hr]. }
  rewrite set_at_nat by (by eapply lookup_lt_Some).
  destruct (do_open_check_spec k f (set_files (<[k := f]> (file_table st)) st))
    as (rc & t' & ev' & -> & Hok' & Hv).
  - cbn. apply list_lookup_insert_eq. by eapply lookup_lt_Some.
  - cbn. by apply files_ok_weaken.
  - unfold is_open, cname. cbn. by rewrite Hn.
  - exists rc, t', ev'. split; [done|]. split; [done|]. cbn in Hv.
    by apply (open_slot _ _ _ _ _ _ k f0 f).
Qed.

(** ** Closing *)

Lemma close_file_spec k f st :
  file_table st !! k = Some f -> files_ok (file_table st) ->
  exists f', close_file (Z.of_nat k) st =
      Some (Sh (<[k := f']> (file_table st))
        (map (fun l => if l_fileno l =? Z.of_nat k then with_used 0 l else l) (lock_table st)) (int24 st)) /\
    cname f' = [] /\ files_ok (<[k := f']> (file_table st)).
Proof.
  intros Hk [Hwf Hok]. assert (Hf : file_wf f) by (by eapply Forall_lookup_1). unfold close_file.
  destruct (free_entry_spec k f (remove_all_locks (Z.of_nat k) st) Hk Hf) as (f' & -> & Hf' & Hwf').
  exists f'. split; [done|]. split; [done|].
  apply files_ok_insert; [|done|unfold is_open; by rewrite Hf'].
  split; [done|]. intros i j g h Hi Hj Hij _ _. by eapply Hok.
Qed.

(** ** Locks *)

(** A lock covers a byte; it overlaps the region from [ofs] to before [endofs]; it lies
    inside this region, whose first and last byte it does not reach. *)
Definition covers (l : lock_t) (x : Z) : Prop := l_start l <= x < l_end l.
Definition overlaps (ofs endofs : Z) (l : lock_t) : Prop := exists x, ofs <= x < endofs /\ covers l x.
Definition enclosed (ofs endofs : Z) (l : lock_t) : Prop := ofs < l_start l /\ l_end l < endofs.

(** The locks that the test of [access_check] finds: those that cover the first or the last
    byte of the region. *)
Definition covers_end (ofs endofs : Z) (l : lock_t) : Prop := covers l ofs \/ covers l (endofs - 1).

(** Of the overlapping locks these are all but the enclosed ones. *)
Lemma covers_end_overlaps ofs endofs l : ofs < endofs ->
  covers_end ofs endofs l <-> overlaps ofs endofs l /\ ~ enclosed ofs endofs l.
Proof.
  intros He. unfold covers_end, overlaps, enclosed, covers. split.
  - intros [Hc|Hc]; (split; [|lia]); [exists ofs|exists (endofs - 1)]; lia.
  - intros [(x & Hx & Hc) Hn]. lia.
Qed.

(** The test as the code writes it. *)
Definition touches (ofs endofs : Z) (l : lock_t) : bool :=
  ((l_start l <=? ofs) && (ofs <? l_end l)) || ((l_start l <? endofs) && (endofs <=? l_end l)).

Lemma touches_spec ofs endofs l : touches ofs endofs l = true <-> covers_end ofs endofs l.
Proof. unfold touches, covers_end, covers. lia. Qed.

Definition same_file (t : list file_t) (f : file_t) (l : lock_t) : Prop :=
  exists g, at_ t (l_fileno l) = Some g /\ cname g = cname f.

(** A lock of another owner on the same file that the test finds. *)
Definition noticed (psp : Z) (t : list file_t) (f : file_t) (ofs endofs : Z) (l : lock_t) : Prop :=
  l_used l <> 0 /\ (psp = 0 \/ l_psp l <> psp) /\ same_file t f l /\ covers_end ofs endofs l.

Lemma lock_conflict_spec psp f ofs endofs t l :
  Forall file_wf t -> file_wf f -> locks_in (length t) l ->
  exists c, lock_conflict psp (f_filename f) ofs endofs t l = Some c /\
    (c = true <-> Exists (noticed psp t f ofs endofs) l).
Proof.
  intros Ht Hf. induction l as [|x l IH]; intros Hl.
  { exists false. split; [done|]. rewrite Exists_nil. done. }
  apply list.Forall_cons in Hl as [Hx Hl]. destruct (IH Hl) as (c & Hc & Hspec). cbn.
  rewrite Hc.
  assert (HE : Exists (noticed psp t f ofs endofs) (x :: l) <->
    noticed psp t f ofs endofs x \/ c = true) by (rewrite Exists_cons; tauto).
  assert (Hno : ~ noticed psp t f ofs endofs x -> exists c', Some c = Some c' /\
    (c' = true <-> Exists (noticed psp t f ofs endofs) (x :: l))).
  { intros Hn. exists c. split; [done|]. tauto. }
  destruct (Z.eqb_spec (l_used x) 0) as [Hu|Hu]; cbn [negb andb].
  { apply Hno. by intros [? _]. }
  destruct ((psp =? 0) || negb (l_psp x =? psp)) eqn:Ep.
  2: { apply Hno. intros (_ & Hp & _). revert Ep.
       destruct (Z.eqb_spec psp 0), (Z.eqb_spec (l_psp x) psp); cbn; try done. tauto. }
  specialize (Hx Hu). destruct (lookup_lt_is_Some_2 t (Z.to_nat (l_fileno x))) as [g Hg]; [lia|].
  assert (Hat : at_ t (l_fileno x) = Some g).
  { unfold at_. by rewrite (proj2 (Z.ltb_ge _ _)) by lia. }
  rewrite Hat. assert (Hgw : file_wf g) by (by eapply Forall_lookup_1).
  rewrite fnmatches_spec by (apply Hf || apply Hgw). fold (touches ofs endofs x).
  destruct (touches ofs endofs x) eqn:Et.
  - case_bool_decide as Heq; cbn [andb].
    + exists true. split; [done|]. split; [|done]. intros _. apply HE. left. split_and!; [done| | |by apply touches_spec].
      * revert Ep. destruct (Z.eqb_spec psp 0), (Z.eqb_spec (l_psp x) psp); cbn; try done; tauto.
      * exists g. by split.
    + apply Hno. intros (_ & _ & (g' & Hg' & Hn) & _). rewrite Hat in Hg'. injection Hg' as <-.
      by apply Heq.
  - rewrite andb_false_r. apply Hno. intros (_ & _ & _ & Ht'%touches_spec). by rewrite Et in Ht'.
Qed.

(** ** The check before an access *)

Definition region_end (ofs len : Z) : Z := fst (clip_region ofs len).

Lemma access_check_spec psp k f ofs len crit st :
  share_ok st -> file_table st !! k = Some f ->
  exists rc st', access_check psp (Z.of_nat k) ofs len crit st = Some (rc, st') /\
    files_ok (file_table st') /\ length (file_table st') = length (file_table st) /\
    lock_table st' = lock_table st /\
    ((rc = 0 /\ st' = st /\
       (snd (clip_region ofs len) < 1 \/
        Forall (fun l => ~ noticed psp (file_table st) f ofs (region_end ofs len) l) (lock_table st))) \/
     (rc = -0x21 /\ 1 <= snd (clip_region ofs len) /\
       Exists (noticed psp (file_table st) f ofs (region_end ofs len)) (lock_table st) /\
       (crit = false -> st' = st) /\
       (crit = true -> exists r, int24 st' = r :: int24 st))).
Proof.
  intros [Hok Hl] Hk. pose proof Hok as [Hwf Hpair].
  assert (Hf : file_wf f) by (by eapply Forall_lookup_1).
  unfold access_check, region_end. rewrite at_nat, Hk. destruct (clip_region ofs len) as [e n]. cbn [fst snd].
  destruct (Z.ltb_spec n 1) as [Hn|Hn].
  { exists 0, st. split_and!; auto. }
  destruct (lock_conflict_spec psp f ofs e _ _ Hwf Hf Hl) as (c & -> & Hc).
  destruct c.
  - assert (Hex : Exists (noticed psp (file_table st) f ofs e) (lock_table st)) by tauto.
    destruct crit.
    + destruct (critical_regs_total 0x0e f Hf) as [r ->].
      destruct (free_entry_spec k f st Hk Hf) as (f' & -> & Hf' & Hwf').
      eexists _, _. split; [done|]. cbn. split_and!; [|by rewrite length_insert|done|].
      * apply files_ok_insert; [|done|unfold is_open; by rewrite Hf'].
        split; [done|]. intros i j g h Hi Hj Hij _ _. by eapply Hpair.
      * right. split_and!; [done|done|done|done|]. intros _. by exists r; done.
    + exists (-0x21), st. split_and!; [done|done|done|done|]. right. by split_and!.
  - exists 0, st. split_and!; auto. left. split; [done|]. split; [done|]. right.
    apply Forall_Exists_neg. intros H. apply Hc in H. done.
Qed.

(** ** Locking and unlocking *)

Definition active (l : list lock_t) : list lock_t := filter (fun x => l_used x <> 0) l.

Lemma take_lock_spec new l :
  match take_lock new l with
  | Some l' => exists l1 x l2, l = l1 ++ x :: l2 /\ l_used x = 0 /\ l' = l1 ++ new :: l2
  | None => Forall (fun x => l_used x <> 0) l
  end.
Proof.
  induction l as [|x l IH]; cbn; [done|]. destruct (Z.eqb_spec (l_used x) 0).
  - by exists [], x, l.
  - destruct (take_lock new l) as [l'|]; cbn; [|by constructor].
    destruct IH as (l1 & y & l2 & -> & ? & ->). by exists (x :: l1), y, l2.
Qed.

Lemma release_lock_spec psp fileno ofs e l :
  let hit x := l_used x <> 0 /\ l_psp x = psp /\ l_fileno x = fileno /\ l_start x = ofs /\ l_end x = e in
  match release_lock psp fileno ofs e l with
  | Some l' => exists l1 x l2, l = l1 ++ x :: l2 /\ hit x /\ l' = l1 ++ with_used 0 x :: l2
  | None => Forall (fun x => ~ hit x) l
  end.
Proof.
  cbv zeta. induction l as [|x l IH]; [constructor|]. cbn [release_lock].
  destruct (_ && _) eqn:E.
  - rewrite !andb_true_iff, negb_true_iff, Z.eqb_neq, !Z.eqb_eq in E.
    exists [], x, l. split_and!; tauto.
  - assert (Hx : ~ (l_used x <> 0 /\ l_psp x = psp /\ l_fileno x = fileno /\ l_start x = ofs /\ l_end x = e)).
    { intros (H1 & H2 & H3 & H4 & H5).
      rewrite (proj2 (Z.eqb_neq _ _) H1), H2, H3, H4, H5, !Z.eqb_refl in E. done. }
    destruct (release_lock psp fileno ofs e l) as [l'|]; cbn; [|by constructor].
    destruct IH as (l1 & y & l2 & -> & H & ->). by exists (x :: l1), y, l2.
Qed.

Lemma active_mid l1 x l2 :
  active (l1 ++ x :: l2) ≡ₚ (if decide (l_used x <> 0) then [x] else []) ++ active (l1 ++ l2).
Proof.
  unfold active. rewrite !list.filter_app. cbn. case_decide; cbn; [|done].
  symmetry. apply Permutation_middle.
Qed.

Lemma active_on l1 x l2 : l_used x <> 0 -> active (l1 ++ x :: l2) ≡ₚ x :: active (l1 ++ l2).
Proof. intros H. by rewrite active_mid, decide_True. Qed.

Lemma active_off l1 x l2 : l_used x = 0 -> active (l1 ++ x :: l2) ≡ₚ active (l1 ++ l2).
Proof. intros H. rewrite active_mid, decide_False by tauto. done. Qed.

Lemma locks_in_mid n l1 x y l2 :
  locks_in n (l1 ++ x :: l2) -> (l_used y <> 0 -> l_used y = 1 /\ 0 <= l_fileno y < Z.of_nat n) ->
  locks_in n (l1 ++ y :: l2).
Proof.
  unfold locks_in. rewrite !list.Forall_app, !list.Forall_cons. tauto.
Qed.

Lemma clip_region_spec ofs len :
  0 <= ofs < 4294967296 -> 0 <= len < 4294967296 ->
  let '(e, n) := clip_region ofs len in
  e = ofs + n /\ e < 4294967296 /\ n <= len /\ (n < len -> e = 0xffffffff).
Proof.
  intros H1 H2. unfold clip_region. destruct (Z.ltb_spec (u32 (ofs + len)) ofs); word_lia.
Qed.

(** What locking and unlocking do to the active locks. *)
Inductive lock_result (psp fileno ofs e : Z) (st : share) (f : file_t) : bool -> Z -> list lock_t -> Prop :=
  | unlocked x l' :
      active (lock_table st) ≡ₚ x :: active l' -> l_psp x = psp -> l_fileno x = fileno ->
      l_start x = ofs -> l_end x = e -> l_used x = 1 -> lock_result psp fileno ofs e st f true 0 l'
  | not_locked :
      (forall x, x ∈ active (lock_table st) ->
         ~ (l_psp x = psp /\ l_fileno x = fileno /\ l_start x = ofs /\ l_end x = e)) ->
      lock_result psp fileno ofs e st f true (-0x21) (lock_table st)
  | locked l' :
      Forall (fun l => ~ noticed 0 (file_table st) f ofs e l) (lock_table st) ->
      active l' ≡ₚ Lock 1 ofs e fileno psp :: active (lock_table st) ->
      lock_result psp fileno ofs e st f false 0 l'
  | lock_refused :
      Exists (noticed 0 (file_table st) f ofs e) (lock_table st) ->
      lock_result psp fileno ofs e st f false (-0x21) (lock_table st)
  | lock_overflow :
      Forall (fun l => ~ noticed 0 (file_table st) f ofs e l) (lock_table st) ->
      Forall (fun x => l_used x <> 0) (lock_table st) ->
      lock_result psp fileno ofs e st f false (-0x24) (lock_table st).

Lemma lock_unlock_spec psp k f ofs len unlock st :
  share_ok st -> file_table st !! k = Some f ->
  0 <= ofs < 4294967296 -> 0 <= len < 4294967296 ->
  exists rc l', lock_unlock psp (Z.of_nat k) ofs len unlock st = Some (rc, set_locks l' st) /\
    locks_in (length (file_table st)) l' /\
    (len = 0 /\ rc = 0 /\ l' = lock_table st \/ ofs = 0xffffffff /\ rc = 0 /\ l' = lock_table st \/
     ofs < region_end ofs len /\ lock_result psp (Z.of_nat k) ofs (region_end ofs len) st f unlock rc l').
Proof.
  intros Hok Hk H1 H2. pose proof Hok as [Hfiles Hl].
  pose proof (clip_region_spec ofs len H1 H2) as Hclip. unfold lock_unlock.
  pose proof (fun l => access_check_spec 0 k f ofs l false st Hok Hk) as Hac. unfold region_end in *.
  destruct (clip_region ofs len) as [e n] eqn:Ec. destruct Hclip as (He & He' & Hn & Hsat). cbn [fst].
  destruct (Z.ltb_spec n 1) as [Hn1|Hn1].
  { exists 0, (lock_table st). split_and!; [by destruct st|done|].
    destruct (decide (len = 0)); [by left|]. right. left. split; [lia|done]. }
  destruct unlock.
  - pose proof (release_lock_spec psp (Z.of_nat k) ofs e (lock_table st)) as Hr. cbv zeta in Hr.
    destruct (release_lock _ _ _ _ _) as [l'|].
    + destruct Hr as (l1 & x & l2 & Hlt & (Hu & Hp & Hf & Hs & Hend) & ->).
      rewrite Hlt in Hl. eexists 0, _. split; [done|]. split.
      { by eapply locks_in_mid. }
      right. right. split; [lia|]. apply (unlocked _ _ _ _ _ _ x); try done.
      * by rewrite Hlt, active_on, (active_off _ (with_used 0 x)).
      * unfold locks_in in Hl. apply list.Forall_app in Hl as [_ Hl].
        apply list.Forall_cons in Hl as [Hx _]. by destruct (Hx Hu).
    + exists (-0x21), (lock_table st). split_and!; [by destruct st|done|].
      right. right. split; [lia|]. apply not_locked. intros x Hx.
      apply list_elem_of_filter in Hx as [Hu Hx]. rewrite list.Forall_forall in Hr.
      specialize (Hr x Hx). tauto.
  - destruct (Hac n) as (rc & st' & -> & _ & _ & _ & Hcase).
    pose proof (clip_region_spec ofs n H1 ltac:(lia)) as Hclip2.
    destruct (clip_region ofs n) as [e2 n2]. cbn [fst snd] in Hcase.
    assert (n2 = n /\ e2 = e) as [-> ->] by lia.
    destruct Hcase as [(-> & -> & Hno)|(-> & _ & Hex & Hsame & _)].
    + destruct Hno as [?|Hno]; [lia|]. cbn [Z.eqb negb].
      rewrite u32_id by lia. rewrite <- He.
      pose proof (take_lock_spec (Lock 1 ofs e (Z.of_nat k) psp) (lock_table st)) as Ht.
      destruct (take_lock _ _) as [l'|].
      * destruct Ht as (l1 & x & l2 & Hlt & Hx & ->). eexists 0, _. split; [done|].
        rewrite Hlt in Hl. split.
        { eapply locks_in_mid; [exact Hl|]. intros _. cbn. split; [done|].
          pose proof (lookup_lt_Some _ _ _ Hk). lia. }
        right. right. split; [lia|]. apply locked; [done|].
        by rewrite Hlt, active_on, active_off.
      * exists (-0x24), (lock_table st). split_and!; [by destruct st|done|].
        right. right. split; [lia|]. by apply lock_overflow.
    + cbn. rewrite Hsame by done. exists (-0x21), (lock_table st). split_and!; [by destruct st|done|].
      right. right. split; [lia|]. by apply lock_refused.
Qed.

(** ** Every call through the multiplex handler *)

(** What the kernel passes: a terminated, non-empty name of at most 127
    characters, and file numbers of the table. *)
Definition legal (st : share) (ax bx cx : Z) (name : list Z) : Prop :=
  let n := Z.of_nat (length (file_table st)) in
  (Z.land ax 0xff = 0xa0 -> 0 ∈ take sizeof_filename name /\ cstr name <> []) /\
  (Z.land ax 0xff = 0xa1 -> 0 <= bx < n) /\
  (Z.land ax 0xfe = 0xa2 \/ Z.land ax 0xfe = 0xa4 -> 0 <= cx < n).

Definition word_arg (z : Z) : Prop := 0 <= z < 65536.

Lemma long_arg hi lo : word_arg hi -> word_arg lo -> 0 <= Z.lor (Z.shiftl hi 16) lo < 4294967296.
Proof.
  unfold word_arg. intros H1 H2.
  assert (0 <= Z.shiftl hi 16) by (apply Z.shiftl_nonneg; lia).
  split; [apply Z.lor_nonneg; lia|].
  apply Z.log2_lt_cancel. change (Z.log2 4294967296) with 32.
  apply Z.le_lt_trans with 31; [|lia]. rewrite Z.log2_lor by lia.
  apply Z.max_lub.
  - destruct (decide (hi = 0)) as [->|]; [done|]. rewrite Z.log2_shiftl by lia.
    assert (Z.log2 hi <= Z.log2 65535) as H3 by (apply Z.log2_le_mono; lia).
    change (Z.log2 65535) with 15 in H3. lia.
  - assert (Z.log2 lo <= Z.log2 65535) as H3 by (apply Z.log2_le_mono; lia).
    change (Z.log2 65535) with 15 in H3. lia.
Qed.

Lemma table_lookup (t : list file_t) n :
  0 <= n < Z.of_nat (length t) -> exists k f, n = Z.of_nat k /\ t !! k = Some f.
Proof.
  intros H. destruct (lookup_lt_is_Some_2 t (Z.to_nat n)) as [f Hf]; [lia|].
  exists (Z.to_nat n), f. split; [lia|done].
Qed.

Lemma locks_released n k l :
  locks_in n l -> locks_in n (map (fun l => if l_fileno l =? k then with_used 0 l else l) l).
Proof.
  intros H. apply Forall_map. eapply Forall_impl; [|exact H].
  cbn. intros x Hx. by destruct (_ =? _).
Qed.

Lemma files_length name psp om sm t ev rc t' ev' :
  open_result name psp om sm t ev rc t' ev' -> length t' = length t.
Proof.
  intros [|k f0 f rc' t1 ev1 Hk _ _ _ _ _ Hv]; [done|].
  destruct Hv; by rewrite !length_insert.
Qed.

Lemma handler2f_ok ax bx cx dx si di es name st :
  share_ok st -> legal st ax bx cx name ->
  word_arg si -> word_arg di -> word_arg es -> word_arg dx ->
  exists r st', handler2f ax bx cx dx si di es name st = Some (r, st') /\ share_ok st'.
Proof.
  intros Hok (Hl0 & Hl1 & Hl2) Hsi Hdi Hes Hdx. pose proof Hok as [Hf Hl]. unfold handler2f.
  destruct (negb _); [by exists None, st|].
  destruct (Z.eqb_spec (Z.land ax 0xff) 0); [by eexists _, st|].
  destruct (Z.eqb_spec (Z.land ax 0xff) 0xa0) as [E|_].
  { destruct (Hl0 E) as [Hn Hne].
    destruct (open_check_spec name bx cx dx st Hf Hn Hne) as (rc & t' & ev' & -> & Hok' & Hr).
    eexists _, _. split; [done|]. split; [done|]. cbn. by rewrite (files_length _ _ _ _ _ _ _ _ _ Hr). }
  destruct (Z.eqb_spec (Z.land ax 0xff) 0xa1) as [E|_].
  { destruct (table_lookup _ _ (Hl1 E)) as (k & f & -> & Hk).
    destruct (close_file_spec k f st Hk Hf) as (f' & -> & _ & Hok').
    eexists _, _. split; [done|]. split; [done|]. cbn. rewrite length_insert. by apply locks_released. }
  destruct (Z.eqb_spec (Z.land ax 0xfe) 0xa2) as [E|_].
  { destruct (table_lookup _ _ (Hl2 (or_introl E))) as (k & f & -> & Hk).
    edestruct (access_check_spec bx k f) as (rc & st' & -> & H1 & H2 & H3 & _); [done|done|].
    eexists _, _. split; [done|]. split; [done|]. by rewrite H2, H3. }
  destruct (Z.eqb_spec (Z.land ax 0xfe) 0xa4) as [E|_]; [|by exists None, st].
  destruct (table_lookup _ _ (Hl2 (or_intror E))) as (k & f & -> & Hk).
  edestruct (lock_unlock_spec bx k f) as (rc & l' & -> & H1 & _);
    [done|done|by apply long_arg|by apply long_arg|].
  eexists _, _. split; [done|]. by split.
Qed.

(** One call of the kernel. *)
Inductive call (st st' : share) : Prop :=
  | a_call ax bx cx dx si di es name r :
      legal st ax bx cx name -> word_arg si -> word_arg di -> word_arg es -> word_arg dx ->
      handler2f ax bx cx dx si di es name st = Some (r, st') -> call st st'.

Lemma init_ok bytes locks : share_ok (init bytes locks).
Proof.
  split; [split|].
  - apply Forall_replicate. unfold file_wf. cbn. split_and!; try done; lia || (by left).
  - intros i j f g Hi _ _ Ho _. exfalso. apply Ho.
    cbn in Hi. by apply lookup_replicate in Hi as [-> _].
  - apply Forall_replicate. done.
Qed.

Lemma reachable_ok bytes locks st : rtc call (init bytes locks) st -> share_ok st.
Proof.
  generalize (init_ok bytes locks). generalize (init bytes locks).
  intros x Hx H. induction H as [|x y z [ax bx cx dx si di es name r Hleg H1 H2 H3 H4 Hh] _ IH]; [done|].
  destruct (handler2f_ok ax bx cx dx si di es name x) as (r' & st' & Hh' & Hok); try done.
  rewrite Hh in Hh'. injection Hh' as _ <-. auto.
Qed.

(** What letting an entry in means for the two opens. *)
Definition compatible (sm1 om1 sm2 om2 : Z) : Prop :=
  sm1 <> SHARE_DENY_ALL /\ (sm1 = SHARE_DENY_WRITE -> om2 = OPEN_READ_ONLY) /\
  (sm1 = SHARE_DENY_READ -> om2 = OPEN_WRITE_ONLY).

Lemma permitted_compatible fsm fom sm om :
  0 <= fsm <= 4 -> 0 <= fom <= 2 -> 0 <= sm <= 4 -> 0 <= om <= 2 -> permitted fsm fom sm om ->
  compatible fsm fom sm om /\ compatible sm om fsm fom.
Proof.
  intros H1 H2 H3 H4 (a & Ha & Ha1 & Ha2).
  assert (fsm = 0 \/ fsm = 1 \/ fsm = 2 \/ fsm = 3 \/ fsm = 4) as Hf by lia.
  assert (sm = 0 \/ sm = 1 \/ sm = 2 \/ sm = 3 \/ sm = 4) as Hs by lia.
  assert (fom = 0 \/ fom = 1 \/ fom = 2) as Hg by lia.
  assert (om = 0 \/ om = 1 \/ om = 2) as Ho by lia. clear H1 H2 H3 H4.
  unfold compatible, SHARE_DENY_ALL, SHARE_DENY_WRITE, SHARE_DENY_READ, OPEN_READ_ONLY, OPEN_WRITE_ONLY.
  repeat match goal with H : _ \/ _ |- _ => destruct H as [->|H] end; subst;
    vm_compute in Ha; injection Ha as <-; first [by destruct Ha1 | by destruct Ha2 | lia].
Qed.

(** ** The properties *)

(** [open_check] gives the verdict of the sharing tables: it refuses with -1
    when no entry is unused; else it grants the open (as the file's first, or with
    the modes of the first open carried over) or refuses it with -5 or -0x20, and
    then the entry is unused again and a critical error was raised exactly for
    -0x20.  No other entry and no lock changes. *)
Theorem open_check_correct name psp om sm st :
  files_ok (file_table st) -> 0 ∈ take sizeof_filename name -> cstr name <> [] ->
  exists rc t' ev', open_check name psp om sm st = Some (rc, Sh t' (lock_table st) ev') /\
    files_ok t' /\ open_result name psp om sm (file_table st) (int24 st) rc t' ev'.
Proof. apply open_check_spec. Qed.

(** In every state the kernel's calls can reach from an empty SHARE, a further
    legal call through the multiplex handler returns without a stray access, and
    the invariant of the two tables holds afterwards. *)
Theorem handler2f_safe bytes locks st ax bx cx dx si di es name :
  rtc call (init bytes locks) st -> legal st ax bx cx name ->
  word_arg si -> word_arg di -> word_arg es -> word_arg dx ->
  exists r st', handler2f ax bx cx dx si di es name st = Some (r, st') /\ share_ok st'.
Proof. intros H%reachable_ok. by apply handler2f_ok. Qed.

(** C39: Sharing modes are respected in every reachable state.  Two entries open on
    the same file agree on how it was first opened; that was not with deny-all; if
    it was with deny-write (deny-read), at most one of the two may write (read). *)
Theorem sharing_respected bytes locks st i j f g :
  rtc call (init bytes locks) st ->
  file_table st !! i = Some f -> file_table st !! j = Some g -> i <> j ->
  is_open f -> cname f = cname g ->
  same_first f g /\ f_first_sharemode f <> SHARE_DENY_ALL /\
  (f_first_sharemode f = SHARE_DENY_WRITE ->
     f_openmode f = OPEN_READ_ONLY \/ f_openmode g = OPEN_READ_ONLY) /\
  (f_first_sharemode f = SHARE_DENY_READ ->
     f_openmode f = OPEN_WRITE_ONLY \/ f_openmode g = OPEN_WRITE_ONLY).
Proof.
  intros [[Hwf Hok] _]%reachable_ok Hi Hj Hij Ho Hn.
  destruct (Hok i j f g Hi Hj Hij Ho Hn) as [Hs Had]. pose proof Hs as [Hs1 _].
  assert (Hf : file_wf f) by (by eapply Forall_lookup_1).
  assert (Hg : file_wf g) by (by eapply Forall_lookup_1).
  split; [done|].
  destruct Had as [H|H]; apply permitted_compatible in H as [(H1 & H2 & H3) _];
    try apply Hf; try apply Hg; rewrite <- ?Hs1 in *; tauto.
Qed.

(** [access_check] lets an access through exactly when it is empty or no lock of
    another owner on the same file covers the first or the last byte of the region
    ([noticed]); a refusal returns -0x21, and raises a critical error when
    asked to. *)
Theorem access_check_correct psp k f ofs len crit st :
  share_ok st -> file_table st !! k = Some f ->
  exists rc st', access_check psp (Z.of_nat k) ofs len crit st = Some (rc, st') /\
    files_ok (file_table st') /\ length (file_table st') = length (file_table st) /\
    lock_table st' = lock_table st /\
    ((rc = 0 /\ st' = st /\
       (snd (clip_region ofs len) < 1 \/
        Forall (fun l => ~ noticed psp (file_table st) f ofs (region_end ofs len) l) (lock_table st))) \/
     (rc = -0x21 /\ 1 <= snd (clip_region ofs len) /\
       Exists (noticed psp (file_table st) f ofs (region_end ofs len)) (lock_table st) /\
       (crit = false -> st' = st) /\
       (crit = true -> exists r, int24 st' = r :: int24 st))).
Proof. apply access_check_spec. Qed.

(** A region that strictly encloses every lock passes [access_check], whoever
    owns the locks: the test looks at the ends of the requested region only. *)
Theorem enclosed_lock_missed psp k f ofs len crit st :
  share_ok st -> file_table st !! k = Some f ->
  0 <= ofs -> 0 < len -> ofs + len < 4294967296 ->
  Forall (fun l => l_used l <> 0 ->
    ofs < l_start l /\ l_start l < l_end l /\ l_end l < ofs + len) (lock_table st) ->
  access_check psp (Z.of_nat k) ofs len crit st = Some (0, st).
Proof.
  intros Hok Hk H0 Hlen Hov Hall.
  destruct (access_check_spec psp k f ofs len crit st Hok Hk)
    as (rc & st' & -> & _ & _ & _ & [(-> & -> & _)|(_ & _ & Hex & _)]); [done|].
  exfalso. apply Exists_exists in Hex as (l & Hin & Hu & _ & _ & Ht).
  rewrite List.Forall_forall in Hall. specialize (Hall l Hin Hu).
  assert (region_end ofs len = ofs + len) as He.
  { unfold region_end, clip_region. rewrite u32_id by lia.
    destruct (Z.ltb_spec (ofs + len) ofs); [lia|done]. }
  revert Ht. unfold covers_end, covers. rewrite He. lia.
Qed.

(** What [lock_unlock] does: an unlock releases one lock with exactly these
    owner, file and bounds, or reports that there is none; a lock is granted, and
    then it is the only new active one, when no active lock on the file is in the
    way and an entry is unused. *)
Theorem lock_unlock_correct psp k f ofs len unlock st :
  share_ok st -> file_table st !! k = Some f ->
  0 <= ofs < 4294967296 -> 0 <= len < 4294967296 ->
  exists rc l', lock_unlock psp (Z.of_nat k) ofs len unlock st = Some (rc, set_locks l' st) /\
    locks_in (length (file_table st)) l' /\
    (len = 0 /\ rc = 0 /\ l' = lock_table st \/ ofs = 0xffffffff /\ rc = 0 /\ l' = lock_table st \/
     ofs < region_end ofs len /\ lock_result psp (Z.of_nat k) ofs (region_end ofs len) st f unlock rc l').
Proof. apply lock_unlock_spec. Qed.

(** Unlocking a region just locked succeeds and restores the active locks. *)
Theorem lock_unlock_roundtrip psp k f ofs len st st1 :
  share_ok st -> file_table st !! k = Some f ->
  0 <= ofs < 0xffffffff -> 0 < len < 4294967296 ->
  lock_unlock psp (Z.of_nat k) ofs len false st = Some (0, st1) ->
  exists st2, lock_unlock psp (Z.of_nat k) ofs len true st1 = Some (0, st2) /\
    active (lock_table st2) ≡ₚ active (lock_table st) /\ file_table st2 = file_table st.
Proof.
  intros Hok Hk H1 H2 Hlock.
  destruct (lock_unlock_spec psp k f ofs len false st Hok Hk) as (rc & l1 & Hl & Hin & Hres); [lia|lia|].
  rewrite Hl in Hlock. injection Hlock as -> <-.
  destruct Hres as [(? & _)|[(? & _)|(Hlt & Hres)]]; [lia|lia|].
  inversion Hres as [| |l' _ Hact|Hex|]; subst.
  assert (Hok1 : share_ok (set_locks l1 st)) by (by split; [apply Hok|]).
  destruct (lock_unlock_spec psp k f ofs len true _ Hok1 Hk) as (rc & l2 & -> & _ & Hres2); [lia|lia|].
  destruct Hres2 as [(? & _)|[(? & _)|(_ & Hres2)]]; [lia|lia|].
  exists (set_locks l2 st). cbn in Hres2.
  inversion Hres2 as [x l' Hx Hp Hf Hs He Hu|Hno| | |]; [|exfalso]; subst rc.
  - destruct x as [u s e fn p]. cbn in *. subst. split; [done|]. split; [|done].
    rewrite Hact in Hx. symmetry. by apply Permutation.Permutation_cons_inv in Hx.
  - eapply (Hno (Lock 1 ofs (region_end ofs len) (Z.of_nat k) psp)); [|done].
    match goal with E : _ = l2 |- _ => rewrite <- E end.
    change (lock_table (set_locks l1 st)) with l1. rewrite Hact. by left.
Qed.

(** ** A concrete run

    One file opened twice, for reading and writing, with deny-none; then the first
    process locks bytes 10 to 19. *)

Definition ex_name : list Z := [67; 58; 92; 65; 0].

Definition ex_do (ax bx cx dx di : Z) (st : share) : share :=
  match handler2f ax bx cx dx 0 di 0 ex_name st with Some (_, st') => st' | None => st end.

Definition ex_open2 : share := ex_do 0x10a0 0x200 2 4 0 (ex_do 0x10a0 0x100 2 4 0 (init 402 2)).
Definition ex_share : share := ex_do 0x10a4 0x100 0 10 10 ex_open2.

Lemma ex_legal st ax bx cx :
  0 <= bx < Z.of_nat (length (file_table st)) \/ Z.land ax 0xff <> 0xa1 ->
  0 <= cx < Z.of_nat (length (file_table st)) -> legal st ax bx cx ex_name.
Proof. intros H1 H2. unfold legal. split_and!; [|lia|lia]. intros _. split; [|done]. do 4 right. by left. Qed.

Ltac legal_call :=
  [> apply ex_legal; [right; vm_compute; congruence | vm_compute; split; congruence]
  | unfold word_arg; lia .. | vm_compute; reflexivity].

Lemma ex_open2_reachable : rtc call (init 402 2) ex_open2.
Proof.
  eapply rtc_l with (ex_do 0x10a0 0x100 2 4 0 (init 402 2)).
  - apply (a_call _ _ 0x10a0 0x100 2 4 0 0 0 ex_name (Some 0)); legal_call.
  - apply rtc_once.
    apply (a_call _ _ 0x10a0 0x200 2 4 0 0 0 ex_name (Some 1)); legal_call.
Qed.

Lemma ex_share_reachable : rtc call (init 402 2) ex_share.
Proof.
  eapply rtc_r; [apply ex_open2_reachable|].
  apply (a_call _ _ 0x10a4 0x100 0 10 0 10 0 ex_name (Some 0)); legal_call.
Qed.

Lemma ex_share_ok : share_ok ex_share.
Proof. exact (reachable_ok _ _ _ ex_share_reachable). Qed.

Definition ex_entry (k : nat) : file_t :=
  default (File [] 0 0 0 0 0) (file_table ex_share !! k).

Lemma open_check_correct_witness :
  exists rc t' ev', open_check ex_name 0x300 0 2 ex_share = Some (rc, Sh t' (lock_table ex_share) ev') /\
    files_ok t' /\ open_result ex_name 0x300 0 2 (file_table ex_share) (int24 ex_share) rc t' ev'.
Proof.
  apply (open_check_correct ex_name 0x300 0 2 ex_share);
    [apply ex_share_ok | do 4 right; by left | vm_compute; congruence].
Defined.

Lemma handler2f_safe_witness :
  exists r st', handler2f 0x10a1 0 0 0 0 0 0 ex_name ex_share = Some (r, st') /\ share_ok st'.
Proof.
  apply (handler2f_safe 402 2 ex_share 0x10a1 0 0 0 0 0 0 ex_name);
    [apply ex_share_reachable | | unfold word_arg; lia ..].
  apply ex_legal; [left|]; vm_compute; split; congruence.
Defined.

Lemma sharing_respected_witness :
  same_first (ex_entry 0) (ex_entry 1) /\ f_first_sharemode (ex_entry 0) <> SHARE_DENY_ALL /\
  (f_first_sharemode (ex_entry 0) = SHARE_DENY_WRITE ->
     f_openmode (ex_entry 0) = OPEN_READ_ONLY \/ f_openmode (ex_entry 1) = OPEN_READ_ONLY) /\
  (f_first_sharemode (ex_entry 0) = SHARE_DENY_READ ->
     f_openmode (ex_entry 0) = OPEN_WRITE_ONLY \/ f_openmode (ex_entry 1) = OPEN_WRITE_ONLY).
Proof.
  apply (sharing_respected 402 2 ex_share 0 1 (ex_entry 0) (ex_entry 1));
    [apply ex_share_reachable | reflexivity | reflexivity | done | vm_compute; congruence | reflexivity].
Defined.

Lemma access_check_correct_witness :
  exists rc st', access_check 0x200 1 5 10 true ex_share = Some (rc, st') /\
    files_ok (file_table st') /\ length (file_table st') = length (file_table ex_share) /\
    lock_table st' = lock_table ex_share /\
    ((rc = 0 /\ st' = ex_share /\
       (snd (clip_region 5 10) < 1 \/
        Forall (fun l => ~ noticed 0x200 (file_table ex_share) (ex_entry 1) 5 (region_end 5 10) l)
          (lock_table ex_share))) \/
     (rc = -0x21 /\ 1 <= snd (clip_region 5 10) /\
       Exists (noticed 0x200 (file_table ex_share) (ex_entry 1) 5 (region_end 5 10)) (lock_table ex_share) /\
       (true = false -> st' = ex_share) /\
       (true = true -> exists r, int24 st' = r :: int24 ex_share))).
Proof.
  apply (access_check_correct 0x200 1 (ex_entry 1) 5 10 true ex_share); [apply ex_share_ok | reflexivity].
Defined.

Lemma enclosed_lock_missed_witness : access_check 0x200 1 5 30 false ex_share = Some (0, ex_share).
Proof.
  apply (enclosed_lock_missed 0x200 1 (ex_entry 1) 5 30 false ex_share);
    [apply ex_share_ok | reflexivity | lia | lia | lia |].
  vm_compute. repeat constructor; congruence.
Defined.

Lemma lock_unlock_correct_witness :
  exists rc l', lock_unlock 0x200 1 30 10 false ex_share = Some (rc, set_locks l' ex_share) /\
    locks_in (length (file_table ex_share)) l' /\
    (10 = 0 /\ rc = 0 /\ l' = lock_table ex_share \/ 30 = 0xffffffff /\ rc = 0 /\ l' = lock_table ex_share \/
     30 < region_end 30 10 /\ lock_result 0x200 1 30 (region_end 30 10) ex_share (ex_entry 1) false rc l').
Proof.
  apply (lock_unlock_correct 0x200 1 (ex_entry 1) 30 10 false ex_share);
    [apply ex_share_ok | reflexivity | lia | lia].
Defined.

Lemma lock_unlock_roundtrip_witness :
  exists st1 st2, lock_unlock 0x200 1 30 10 false ex_share = Some (0, st1) /\
    lock_unlock 0x200 1 30 10 true st1 = Some (0, st2) /\
    active (lock_table st2) ≡ₚ active (lock_table ex_share) /\ file_table st2 = file_table ex_share.
Proof.
  exists (ex_do 0x10a4 0x200 1 10 30 ex_share).
  destruct (lock_unlock_roundtrip 0x200 1 (ex_entry 1) 30 10 ex_share (ex_do 0x10a4 0x200 1 10 30 ex_share))
    as (st2 & H); [apply ex_share_ok | reflexivity | lia | lia | reflexivity |].
  exists st2. split; [reflexivity | exact H].
Defined.
