(* ===== verification/Bytes.v ===== *)
(** * Bytes in buffers

    Little-endian words in byte arrays: [fgetword], [fgetlong], [fputword] and
    [fputlong] of [kernel/proto.h] and the byte accesses of the file system. *)

From S2P Require Import Prelude.

Definition is_byte (b : Z) : Prop := 0 <= b < 256.
Definition bytes (l : list Z) : Prop := Forall is_byte l.

(** [fgetword].
    kernel/globals.h:387-387 *)
Definition get16 (l : list Z) (i : Z) : option Z :=
  let* b0 := at_ l i in
  let* b1 := at_ l (i + 1) in
  Some (b0 + 256 * b1).
(** [fgetlong].
    kernel/globals.h:386-386 *)
Definition get32 (l : list Z) (i : Z) : option Z :=
  let* lo := get16 l i in
  let* hi := get16 l (i + 2) in
  Some (lo + 65536 * hi).

(** [fputword].
    kernel/globals.h:390-390 *)
Definition put16 (i v : Z) (l : list Z) : option (list Z) :=
  let* l := set_at i (u8 v) l in
  set_at (i + 1) (u8 (Z.shiftr v 8)) l.
(** [fputlong].
    kernel/globals.h:389-389 *)
Definition put32 (i v : Z) (l : list Z) : option (list Z) :=
  let* l := put16 i (u16 v) l in
  put16 (i + 2) (u16 (Z.shiftr v 16)) l.

(** A byte of an array read with 0 outside it, for specifications. *)
Definition byte_at (l : list Z) (i : Z) : Z := default 0 (at_ l i).

Lemma at_byte l i : 0 <= i < Z.of_nat (length l) -> at_ l i = Some (byte_at l i).
Proof.
  intros H. unfold byte_at, at_. rewrite (proj2 (Z.ltb_ge _ _)) by lia.
  destruct (lookup_lt_is_Some_2 l (Z.to_nat i)) as [x ->]; [lia|done].
Qed.

Lemma byte_at_range l i : bytes l -> is_byte (byte_at l i).
Proof.
  intros H. unfold byte_at, at_. destruct (i <? 0); [done|].
  destruct (l !! Z.to_nat i) as [x|] eqn:E; [|done]. by eapply Forall_lookup_1 in E.
Qed.

Lemma set_at_spec {A} i (x : A) l :
  0 <= i < Z.of_nat (length l) -> set_at i x l = Some (<[Z.to_nat i := x]> l).
Proof.
  intros H. unfold set_at. by rewrite (proj2 (Z.leb_le _ _)), (proj2 (Z.ltb_lt _ _)) by lia.
Qed.

Lemma byte_at_insert l i j x :
  0 <= i < Z.of_nat (length l) -> 0 <= j ->
  byte_at (<[Z.to_nat i := x]> l) j = if decide (i = j) then x else byte_at l j.
Proof.
  intros Hi Hj. unfold byte_at, at_. rewrite (proj2 (Z.ltb_ge j 0)) by lia.
  case_decide as E.
  - subst. by rewrite list_lookup_insert_eq by lia.
  - rewrite list_lookup_insert_ne by lia. done.
Qed.

Lemma bytes_insert l (i : nat) x : bytes l -> is_byte x -> bytes (<[i := x]> l).
Proof. intros. by apply Forall_insert. Qed.

Lemma get16_spec l i :
  0 <= i -> i + 1 < Z.of_nat (length l) -> get16 l i = Some (byte_at l i + 256 * byte_at l (i + 1)).
Proof. intros. unfold get16. by rewrite !at_byte by lia. Qed.

Lemma get32_spec l i :
  0 <= i -> i + 3 < Z.of_nat (length l) ->
  get32 l i = Some (byte_at l i + 256 * byte_at l (i + 1) +
    65536 * (byte_at l (i + 2) + 256 * byte_at l (i + 3))).
Proof.
  intros. unfold get32. rewrite !get16_spec by lia. by replace (i + 2 + 1) with (i + 3) by lia.
Qed.

(** A store seen byte by byte: the array keeps its length and only the bytes of
    the word change. *)
Lemma put16_spec i v l :
  0 <= i -> i + 1 < Z.of_nat (length l) ->
  exists l', put16 i v l = Some l' /\ length l' = length l /\ (bytes l -> bytes l') /\
    forall j, 0 <= j -> byte_at l' j =
      if decide (j = i) then u8 v else if decide (j = i + 1) then u8 (Z.shiftr v 8) else byte_at l j.
Proof.
  intros H1 H2. unfold put16. rewrite set_at_spec by lia.
  rewrite set_at_spec by (rewrite length_insert; lia).
  eexists. split; [done|]. split; [by rewrite !length_insert|]. split.
  - intros Hb. apply bytes_insert; [apply bytes_insert; [done|]|]; apply u8_range.
  - intros j Hj. rewrite byte_at_insert by (rewrite ?length_insert; lia).
    rewrite byte_at_insert by lia. repeat case_decide; (lia || done).
Qed.

Lemma put32_spec i v l :
  0 <= i -> i + 3 < Z.of_nat (length l) ->
  exists l', put32 i v l = Some l' /\ length l' = length l /\ (bytes l -> bytes l') /\
    forall j, 0 <= j -> byte_at l' j =
      if decide (j = i) then u8 v else if decide (j = i + 1) then u8 (Z.shiftr v 8)
      else if decide (j = i + 2) then u8 (Z.shiftr v 16) else if decide (j = i + 3) then u8 (Z.shiftr v 24)
      else byte_at l j.
Proof.
  intros H1 H2. unfold put32.
  destruct (put16_spec i (u16 v) l) as (l1 & -> & Hl1 & Hb1 & Hj1); [lia|lia|].
  destruct (put16_spec (i + 2) (u16 (Z.shiftr v 16)) l1) as (l2 & -> & Hl2 & Hb2 & Hj2); [lia|lia|].
  exists l2. split; [done|]. split; [congruence|]. split; [auto|].
  assert (Hlo : u8 (u16 v) = u8 v /\ u8 (Z.shiftr (u16 v) 8) = u8 (Z.shiftr v 8) /\
    u8 (u16 (Z.shiftr v 16)) = u8 (Z.shiftr v 16) /\
    u8 (Z.shiftr (u16 (Z.shiftr v 16)) 8) = u8 (Z.shiftr v 24)).
  { rewrite !Z.shiftr_div_pow2 by lia. change (2 ^ 8) with 256. change (2 ^ 16) with 65536.
    change (2 ^ 24) with 16777216. split_and!; word_lia. }
  destruct Hlo as (E1 & E2 & E3 & E4).
  intros j Hj. rewrite Hj2 by done. rewrite Hj1 by done. repeat case_decide; try lia; congruence.
Qed.

(** ** Words read back *)

Lemma byte_at_ext l l' :
  length l = length l' -> (forall j, 0 <= j < Z.of_nat (length l) -> byte_at l j = byte_at l' j) -> l = l'.
Proof.
  intros Hl H. apply list_eq_same_length with (length l); [done|done|]. intros i x y Hi Hx Hy.
  specialize (H (Z.of_nat i) ltac:(lia)). unfold byte_at in H. rewrite !at_nat, Hx, Hy in H. done.
Qed.

Lemma word32_bytes v : 0 <= v < 4294967296 ->
  u8 v + 256 * u8 (Z.shiftr v 8) + 65536 * (u8 (Z.shiftr v 16) + 256 * u8 (Z.shiftr v 24)) = v.
Proof.
  intros H. rewrite !Z.shiftr_div_pow2 by lia. change (2 ^ 8) with 256. change (2 ^ 16) with 65536.
  change (2 ^ 24) with 16777216. word_lia.
Qed.

Lemma get32_put32 i v l l' :
  0 <= i -> i + 3 < Z.of_nat (length l) -> 0 <= v < 4294967296 -> put32 i v l = Some l' -> get32 l' i = Some v.
Proof.
  intros Hi Hl Hv Hp. destruct (put32_spec i v l Hi Hl) as (l1 & Hp1 & Hlen & _ & Hj).
  rewrite Hp in Hp1. injection Hp1 as <-. rewrite get32_spec, !Hj by lia.
  repeat case_decide; try lia. f_equal. by apply word32_bytes.
Qed.

Lemma get32_put32_ne i k v l l' :
  0 <= i -> i + 3 < Z.of_nat (length l) -> 0 <= k -> k + 3 < Z.of_nat (length l) -> k + 3 < i \/ i + 3 < k ->
  put32 i v l = Some l' -> get32 l' k = get32 l k.
Proof.
  intros Hi Hl Hk Hkl Hne Hp. destruct (put32_spec i v l Hi Hl) as (l1 & Hp1 & Hlen & _ & Hj).
  rewrite Hp in Hp1. injection Hp1 as <-. rewrite !get32_spec, !Hj by lia. by rewrite !decide_False by lia.
Qed.

Lemma put32_same i v l :
  0 <= i -> i + 3 < Z.of_nat (length l) -> bytes l -> get32 l i = Some v -> put32 i v l = Some l.
Proof.
  intros Hi Hl Hb Hg. destruct (put32_spec i v l Hi Hl) as (l' & -> & Hlen & _ & Hj). f_equal.
  rewrite get32_spec in Hg by lia. injection Hg as <-.
  apply byte_at_ext; [done|]. intros j Hj0. rewrite Hj by lia.
  assert (forall k, is_byte (byte_at l k)) as HB by (intros; by apply byte_at_range).
  pose proof (HB i). pose proof (HB (i + 1)). pose proof (HB (i + 2)). pose proof (HB (i + 3)).
  unfold is_byte in *. rewrite !Z.shiftr_div_pow2 by lia. change (2 ^ 8) with 256. change (2 ^ 16) with 65536.
  change (2 ^ 24) with 16777216. repeat case_decide; subst; try done; word_lia.
Qed.
