(* ===== verification/Dpb.v ===== *)
(** * Drive parameter blocks ([hdr/dcb.h], the FAT tests of [hdr/fat.h]) *)

From S2P Require Import Prelude.

(** A far pointer to another structure is an opaque number.  The union of the two
    free-cluster counts is its 32-bit member; the 16-bit one is its low word.
    hdr/dcb.h:39-87 *)
Record dpb := Dpb {
  dpb_unit : Z;
  dpb_subunit : Z;
  dpb_secsize : Z;
  dpb_clsmask : Z;
  dpb_shftcnt : Z;
  dpb_fatstrt : Z;
  dpb_fats : Z;
  dpb_dirents : Z;
  dpb_data : Z;
  dpb_size : Z;
  dpb_fatsize : Z;
  dpb_dirstrt : Z;
  dpb_device : Z;
  dpb_mdb : Z;
  dpb_flags : Z;
  dpb_next : Z;
  dpb_cluster : Z;
  dpb_xnfreeclst : Z;
  dpb_xflags : Z;
  dpb_xfsinfosec : Z;
  dpb_xbackupsec : Z;
  dpb_xdata : Z;
  dpb_xsize : Z;
  dpb_xfatsize : Z;
  dpb_xrootclst : Z;
  dpb_xcluster : Z }.

#[export] Instance dpb_inhabited : Inhabited dpb :=
  populate (Dpb 0 0 0 0 0 0 0 0 0 0 0 0 0 0 0 0 0 0 0 0 0 0 0 0 0 0).

(** hdr/dcb.h:89-89 *)
Definition UNKNCLUSTER : Z := 0.
(** hdr/dcb.h:90-90 *)
Definition XUNKNCLSTFREE : Z := 0xffffffff.
(** hdr/dcb.h:91-91 *)
Definition UNKNCLSTFREE : Z := 0xffff.

(** hdr/dcb.h:72-72 *)
Definition dpb_nfreeclst (d : dpb) : Z := Z.land (dpb_xnfreeclst d) 0xffff.

Definition set_xnfreeclst v d :=
  Dpb (dpb_unit d) (dpb_subunit d) (dpb_secsize d) (dpb_clsmask d) (dpb_shftcnt d) (dpb_fatstrt d)
    (dpb_fats d) (dpb_dirents d) (dpb_data d) (dpb_size d) (dpb_fatsize d) (dpb_dirstrt d)
    (dpb_device d) (dpb_mdb d) (dpb_flags d) (dpb_next d) (dpb_cluster d) v (dpb_xflags d)
    (dpb_xfsinfosec d) (dpb_xbackupsec d) (dpb_xdata d) (dpb_xsize d) (dpb_xfatsize d)
    (dpb_xrootclst d) (dpb_xcluster d).
Definition set_nfreeclst v d :=
  set_xnfreeclst (Z.lor (Z.shiftl (Z.shiftr (dpb_xnfreeclst d) 16) 16) (u16 v)) d.
Definition set_cluster v d :=
  Dpb (dpb_unit d) (dpb_subunit d) (dpb_secsize d) (dpb_clsmask d) (dpb_shftcnt d) (dpb_fatstrt d)
    (dpb_fats d) (dpb_dirents d) (dpb_data d) (dpb_size d) (dpb_fatsize d) (dpb_dirstrt d)
    (dpb_device d) (dpb_mdb d) (dpb_flags d) (dpb_next d) v (dpb_xnfreeclst d) (dpb_xflags d)
    (dpb_xfsinfosec d) (dpb_xbackupsec d) (dpb_xdata d) (dpb_xsize d) (dpb_xfatsize d)
    (dpb_xrootclst d) (dpb_xcluster d).
Definition set_xcluster v d :=
  Dpb (dpb_unit d) (dpb_subunit d) (dpb_secsize d) (dpb_clsmask d) (dpb_shftcnt d) (dpb_fatstrt d)
    (dpb_fats d) (dpb_dirents d) (dpb_data d) (dpb_size d) (dpb_fatsize d) (dpb_dirstrt d)
    (dpb_device d) (dpb_mdb d) (dpb_flags d) (dpb_next d) (dpb_cluster d) (dpb_xnfreeclst d) (dpb_xflags d)
    (dpb_xfsinfosec d) (dpb_xbackupsec d) (dpb_xdata d) (dpb_xsize d) (dpb_xfatsize d)
    (dpb_xrootclst d) v.

(** hdr/fat.h:65-65 *)
Definition FREE : Z := 0.
(** hdr/fat.h:68-68 *)
Definition LONG_LAST_CLUSTER : Z := 0x0fffffff.
(** hdr/fat.h:69-69 *)
Definition LONG_BAD : Z := 0x0ffffff7.
(** hdr/fat.h:74-74 *)
Definition MASK16 : Z := 0xfff8.
(** hdr/fat.h:75-75 *)
Definition BAD16 : Z := 0xfff7.
(** hdr/fat.h:76-76 *)
Definition MASK12 : Z := 0xff8.
(** hdr/fat.h:77-77 *)
Definition BAD12 : Z := 0xff7.
(** hdr/fat.h:83-83 *)
Definition FAT_MAGIC : Z := 4085.
(** hdr/fat.h:84-84 *)
Definition FAT_MAGIC16 : Z := 65525.

(** hdr/fat.h:93-93 *)
Definition ISFAT32 (d : dpb) : bool := dpb_fatsize d =? 0.
(** hdr/fat.h:94-94 *)
Definition ISFAT16 (d : dpb) : bool := (FAT_MAGIC <? dpb_size d) && (dpb_size d <=? FAT_MAGIC16).
(** hdr/fat.h:95-95 *)
Definition ISFAT12 (d : dpb) : bool := u16 (dpb_size d - 1) <? FAT_MAGIC.
