(* ===== verification/Blockio.v ===== *)
(** * The block cache ([kernel/blockio.c])

    The buffers form a ring through [b_next] and [b_prev], the most recently used
    first; all lie in one segment, so a buffer pointer is its offset.  Buffers
    are kept in a map from offsets.  The driver is not part of the kernel: it is
    the class [Device], whose state is what the medium holds. *)

From S2P Require Import Prelude Hdr Dpb.

(** ** Data *)

(** hdr/buffer.h:40-40 *)
Definition BUFFERSIZE : nat := 512.
(** hdr/buffer.h:41-54 *)
Record buffer := Buf {
  b_next : Z;
  b_prev : Z;
  b_unit : Z;
  b_flag : Z;
  b_blkno : Z;
  b_copies : Z;
  b_offset : Z;
  b_dpbp : Z;
  b_buffer : list Z }.

#[export] Instance buffer_inhabited : Inhabited buffer :=
  populate (Buf 0 0 0 0 0 0 0 0 (replicate BUFFERSIZE 0)).

(** hdr/buffer.h:56-56 *)
Definition BFR_DIRTY : Z := 0x40.
(** hdr/buffer.h:57-57 *)
Definition BFR_VALID : Z := 0x20.
(** hdr/buffer.h:58-58 *)
Definition BFR_DATA : Z := 0x08.
(** hdr/buffer.h:59-59 *)
Definition BFR_DIR : Z := 0x04.
(** hdr/buffer.h:60-60 *)
Definition BFR_FAT : Z := 0x02.
(** hdr/buffer.h:61-61 *)
Definition BFR_UNCACHE : Z := 0x01.

(** [fl] is set in the flags. *)
Definition has (fl flags : Z) : bool := negb (Z.land flags fl =? 0).
Definition clear (fl flags : Z) : Z := Z.land flags (Z.lnot fl).

Definition with_next v b :=
  Buf v (b_prev b) (b_unit b) (b_flag b) (b_blkno b) (b_copies b) (b_offset b) (b_dpbp b) (b_buffer b).
Definition with_prev v b :=
  Buf (b_next b) v (b_unit b) (b_flag b) (b_blkno b) (b_copies b) (b_offset b) (b_dpbp b) (b_buffer b).
Definition with_flag v b :=
  Buf (b_next b) (b_prev b) (b_unit b) v (b_blkno b) (b_copies b) (b_offset b) (b_dpbp b) (b_buffer b).
Definition with_id u n b :=
  Buf (b_next b) (b_prev b) u (b_flag b) n (b_copies b) (b_offset b) (b_dpbp b) (b_buffer b).
Definition with_fat c o d b :=
  Buf (b_next b) (b_prev b) (b_unit b) (b_flag b) (b_blkno b) c o d (b_buffer b).
Definition with_data v b :=
  Buf (b_next b) (b_prev b) (b_unit b) (b_flag b) (b_blkno b) (b_copies b) (b_offset b) (b_dpbp b) v.

(** hdr/device.h:35-35 *)
Definition S_ERROR : Z := 0x8000.
(** hdr/device.h:37-37 *)
Definition S_DONE : Z := 0x0100.
(** hdr/device.h:81-81 *)
Definition C_INPUT : Z := 0x04.
(** hdr/device.h:85-85 *)
Definition C_OUTPUT : Z := 0x08.
(** hdr/device.h:86-86 *)
Definition C_OUTVFY : Z := 0x09.
(** hdr/device.h:138-138 *)
Definition ATTR_HUGE : Z := 0x0002.
(** hdr/device.h:385-385 *)
Definition HUGECOUNT : Z := 0xffff.
(** hdr/device.h:386-386 *)
Definition MAXSHORT : Z := 0xffff.
(** kernel/globals.h:109-109 *)
Definition XFR_READ : Z := 1.
(** kernel/globals.h:110-110 *)
Definition XFR_WRITE : Z := 2.
(** kernel/globals.h:148-148 *)
Definition DSKWRITE : Z := 1.
(** kernel/globals.h:149-149 *)
Definition DSKREAD : Z := 2.
(** kernel/globals.h:150-150 *)
Definition DSKWRITEINT26 : Z := 3.
(** kernel/globals.h:151-151 *)
Definition DSKREADINT25 : Z := 4.

(** The part of a request header a block transfer fills in.
    hdr/device.h:357-364 *)
Record request := Req {
  r_unit : Z;
  r_command : Z;
  r_meddesc : Z;
  r_count : Z;
  r_start : Z;
  r_huge : Z }.

(** The device driver and the critical error handler behind [block_error].
    [execrh] gets the device header, the request and the transfer buffer and
    returns the status and the transfer buffer; [dev_attr] is [dh_attr] of the
    device header.  [caller_high] says whether the buffer that the running program has
    passed to the kernel lies in segment A000h or above. *)
Class Device (D : Type) := {
  execrh : Z -> request -> list Z -> D -> Z * list Z * D;
  block_error : request -> Z -> Z -> Z -> D -> Z * D;
  dev_attr : Z -> Z;
  caller_high : D -> bool }.

(** The globals of the block layer: the buffers, the head of the ring, the drive
    table ([get_dpb]: a drive's DPB pointer) and the DPBs, [verify_ena],
    [deblock_buf] and whether transfers go through it ([bufloc], with the
    buffers in high memory). *)
Record bio (D : Type) := Bio {
  bufs : gmap Z buffer;
  firstbuf : Z;
  drives : gmap Z Z;
  dpbs : gmap Z dpb;
  verify_ena : bool;
  deblock_buf : list Z;
  deblocked : bool;
  dev : D }.
Arguments Bio {D}. Arguments bufs {D}. Arguments firstbuf {D}. Arguments drives {D}.
Arguments dpbs {D}. Arguments verify_ena {D}. Arguments deblock_buf {D}.
Arguments deblocked {D}. Arguments dev {D}.

Section operations.
  Context {D : Type} `{!Device D}.

Definition set_bufs m (st : bio D) : bio D :=
  Bio m (firstbuf st) (drives st) (dpbs st) (verify_ena st) (deblock_buf st) (deblocked st) (dev st).
Definition set_first p (st : bio D) : bio D :=
  Bio (bufs st) p (drives st) (dpbs st) (verify_ena st) (deblock_buf st) (deblocked st) (dev st).
Definition set_dev d (st : bio D) : bio D :=
  Bio (bufs st) (firstbuf st) (drives st) (dpbs st) (verify_ena st) (deblock_buf st) (deblocked st) d.
Definition set_deblock v (st : bio D) : bio D :=
  Bio (bufs st) (firstbuf st) (drives st) (dpbs st) (verify_ena st) v (deblocked st) (dev st).
Definition set_dpbs v (st : bio D) : bio D :=
  Bio (bufs st) (firstbuf st) (drives st) v (verify_ena st) (deblock_buf st) (deblocked st) (dev st).

(** [bp->...] and the update of a buffer through its pointer. *)
Definition buf (st : bio D) p : buffer := bufs st !!! p.
Definition upd_buf (p : Z) (f : buffer -> buffer) (m : gmap Z buffer) : gmap Z buffer :=
  <[p := f (m !!! p)]> m.
Definition on_buf p f (st : bio D) : bio D := set_bufs (upd_buf p f (bufs st)) st.

(** ** The ring *)

(** kernel/blockio.c:68-79 *)
Definition move_buffer (bp firstbp : Z) (m : gmap Z buffer) : gmap Z buffer :=
  let m := upd_buf (b_next (m !!! bp)) (with_prev (b_prev (m !!! bp))) m in
  let m := upd_buf (b_prev (m !!! bp)) (with_next (b_next (m !!! bp))) m in
  let m := upd_buf bp (with_prev (b_prev (m !!! firstbp))) m in
  let m := upd_buf bp (with_next firstbp) m in
  let m := upd_buf (b_next (m !!! bp)) (with_prev bp) m in
  upd_buf (b_prev (m !!! bp)) (with_next bp) m.

(** What the loop of [searchblock] ends with: the buffer that holds the block, or
    [uncacheBuf], [fat_count] and [lastNonFat]. *)
Inductive search_out :=
  | Hit (bp : Z)
  | Miss (uncacheBuf fat_count lastNonFat : Z).

(** kernel/blockio.c:97-124 *)
Fixpoint search_loop (fuel : nat) (blkno dsk firstbp : Z) (m : gmap Z buffer)
    (bp uncacheBuf fat_count lastNonFat : Z) : option search_out :=
  match fuel with
  | O => None
  | S fuel' =>
      let b := m !!! bp in
      if (b_blkno b =? blkno) && has BFR_VALID (b_flag b) && (b_unit b =? dsk)
      then Some (Hit bp)
      else
        let uncacheBuf := if has BFR_UNCACHE (b_flag b) then bp else uncacheBuf in
        let fat_count := if has BFR_FAT (b_flag b) then fat_count + 1 else fat_count in
        let lastNonFat := if has BFR_FAT (b_flag b) then lastNonFat else bp in
        if b_next b =? firstbp then Some (Miss uncacheBuf fat_count lastNonFat)
        else search_loop fuel' blkno dsk firstbp m (b_next b) uncacheBuf fat_count lastNonFat
  end.

(** The buffer to recycle; [bp] of the code is the first buffer again here.
    kernel/blockio.c:131-142 *)
Definition victim (m : gmap Z buffer) (firstbp uncacheBuf fat_count lastNonFat : Z) : Z :=
  if negb (uncacheBuf =? 0) then uncacheBuf
  else if has BFR_FAT (b_flag (m !!! firstbp)) && (fat_count <? 3) && negb (lastNonFat =? 0)
  then lastNonFat
  else b_prev (m !!! firstbp).

(** Moving a buffer to the front of the ring.
    kernel/blockio.c:150-154 *)
Definition move_front (bp : Z) (st : bio D) : bio D :=
  if bp =? firstbuf st then st
  else set_first bp (set_bufs (move_buffer bp (firstbuf st) (bufs st)) st).

(** kernel/blockio.c:81-156 *)
Definition searchblock (fuel : nat) (blkno dsk : Z) (st : bio D) : option (Z * bio D) :=
  let* out := search_loop fuel blkno dsk (firstbuf st) (bufs st) (firstbuf st) 0 0 0 in
  match out with
  | Hit bp =>
      let st := on_buf bp (fun b => with_flag (clear BFR_UNCACHE (b_flag b)) b) st in
      Some (bp, move_front bp st)
  | Miss uncacheBuf fat_count lastNonFat =>
      let bp := victim (bufs st) (firstbuf st) uncacheBuf fat_count lastNonFat in
      let st := on_buf bp (fun b => with_flag (Z.lor (b_flag b) BFR_UNCACHE) b) st in
      Some (bp, move_front bp st)
  end.

(** ** Transfers *)

(** kernel/blockio.c:399-418 *)
Definition xfer_command (st : bio D) (mode : Z) : option Z :=
  if mode =? DSKWRITE then Some (if verify_ena st then C_OUTVFY else C_OUTPUT)
  else if mode =? DSKWRITEINT26 then Some C_OUTPUT
  else if (mode =? DSKREADINT25) || (mode =? DSKREAD) then Some C_INPUT
  else None.

(** Handing the request to the driver, directly or through [deblock_buf]; [high] says
    whether the segment of the buffer is A000h or above.
    kernel/blockio.c:435-448 *)
Definition xfer_exec (high : bool) (device : Z) (rq : request) (mode : Z) (data : list Z) (st : bio D) : Z * list Z * bio D :=
  if high && (r_count rq =? 1) && deblocked st then
    let st := if mode =? DSKWRITE then set_deblock data st else st in
    let '(status, out, d) := execrh device rq (deblock_buf st) (dev st) in
    let st := set_dev d (set_deblock out st) in
    (status, if mode =? DSKREAD then out else data, st)
  else
    let '(status, out, d) := execrh device rq data (dev st) in
    (status, out, set_dev d st).

(** The retry loop; the result is the return value, the buffer and the state.
    An answer of [block_error] that is none of the four asks again.
    kernel/blockio.c:394-479 *)
Fixpoint xfer_loop (high : bool) (fuel : nat) (rq : request) (mode : Z) (d : dpb) (data : list Z) (st : bio D)
    : option (Z * list Z * bio D) :=
  match fuel with
  | O => None
  | S fuel' =>
      let '(status, data, st) := xfer_exec high (dpb_device d) rq mode data st in
      if Z.land status (Z.lor S_ERROR S_DONE) =? S_DONE then Some (0, data, st)
      else if DSKWRITEINT26 <=? mode then Some (status, data, st)
      else
        (fix loop (n : nat) st :=
           match n with
           | O => None
           | S n' =>
               let '(answer, dv) := block_error rq (dpb_unit d) (dpb_device d) mode (dev st) in
               let st := set_dev dv st in
               if (answer =? ABORT) || (answer =? FAIL) then Some (status, data, st)
               else if answer =? RETRY then xfer_loop high fuel' rq mode d data st
               else if answer =? CONTINUE then Some (0, data, st)
               else loop n' st
           end) fuel st
  end.

(** kernel/blockio.c:373-484 *)
Definition dskxfer (fuel : nat) (high : bool) (dsk blkno : Z) (data : list Z) (numblocks mode : Z) (st : bio D)
    : option (Z * list Z * bio D) :=
  match drives st !! dsk with
  | None => Some (0x0201, data, st)
  | Some dpbp =>
      let d := dpbs st !!! dpbp in
      match xfer_command st mode with
      | None => Some (0x0100, data, st)
      | Some cmd =>
          let huge := has ATTR_HUGE (dev_attr (dpb_device d)) || (MAXSHORT <=? blkno) in
          let rq := Req (dpb_subunit d) cmd (dpb_mdb d) numblocks
                      (if huge then HUGECOUNT else u16 blkno) (if huge then blkno else 0) in
          xfer_loop high fuel rq mode d data st
      end
  end.

(** The loop over the copies of a sector.  A buffer of the cache lies in the high memory
    area if [bufloc] says so, and where it does not the test of its segment makes no
    difference: in the cache [high] is [true].
    kernel/blockio.c:328-333 *)
Fixpoint write_copies (fuel copies : nat) (unit blkno offset : Z) (data : list Z) (ok : bool) (st : bio D)
    : option (bool * bio D) :=
  match copies with
  | O => Some (ok, st)
  | S n =>
      let* (rc, _, st) := dskxfer fuel true unit blkno data 1 DSKWRITE st in
      write_copies fuel n unit (u32 (blkno + offset)) offset data (ok && (rc =? 0)) st
  end.

(** How many copies of a buffer are written and how far apart.
    kernel/blockio.c:313-327 *)
Definition copies_of (st : bio D) (b : buffer) : Z * Z :=
  if has BFR_FAT (b_flag b) then
    (b_copies b, if b_offset b =? 0 then dpb_xfatsize (dpbs st !!! b_dpbp b) else b_offset b)
  else (1, 0).

(** kernel/blockio.c:306-339 *)
Definition flush1 (fuel : nat) (bp : Z) (st : bio D) : option (bool * bio D) :=
  let b := buf st bp in
  let* (ok, st) :=
    if Z.land (b_flag b) (Z.lor BFR_VALID BFR_DIRTY) =? Z.lor BFR_VALID BFR_DIRTY then
      let '(copies, offset) := copies_of st b in
      write_copies fuel (Z.to_nat copies) (b_unit b) (b_blkno b) offset (b_buffer b) true st
    else Some (true, st) in
  let st := on_buf bp (fun b => with_flag (clear BFR_DIRTY (b_flag b)) b) st in
  let st := if ok then st else on_buf bp (fun b => with_flag (clear BFR_VALID (b_flag b)) b) st in
  Some (ok, st).

(** The part of [getblk] after a miss; [None] inside the option is the null
    pointer.
    kernel/blockio.c:228-243 *)
Definition fill_buffer (fuel : nat) (bp blkno dsk : Z) (overwrite : bool) (st : bio D)
    : option (option Z * bio D) :=
  let* (ok, st) := flush1 fuel bp st in
  if negb ok then Some (None, st)
  else
    let* (rc, st) :=
      if overwrite then Some (0, st)
      else
        let* (rc, data, st) := dskxfer fuel true dsk blkno (b_buffer (buf st bp)) 1 DSKREAD st in
        Some (rc, on_buf bp (with_data data) st) in
    if negb (rc =? 0) then Some (None, st)
    else
      let st := on_buf bp (fun b => with_id dsk blkno (with_flag (Z.lor BFR_VALID BFR_DATA) b)) st in
      Some (Some bp, st).

(** kernel/blockio.c:213-244 *)
Definition getblk (fuel : nat) (blkno dsk : Z) (overwrite : bool) (st : bio D)
    : option (option Z * bio D) :=
  let* (bp, st) := searchblock fuel blkno dsk st in
  if negb (has BFR_UNCACHE (b_flag (buf st bp))) then Some (Some bp, st)
  else fill_buffer fuel bp blkno dsk overwrite st.

(** ** The whole ring *)

(** [do ... while (FP_OFF(bp) != FP_OFF(firstbuf))]: the body on every buffer. *)
Fixpoint for_ring (fuel : nat) (body : Z -> bio D -> option (bio D)) (bp : Z) (st : bio D)
    : option (bio D) :=
  match fuel with
  | O => None
  | S fuel' =>
      let* st := body bp st in
      let bp := b_next (buf st bp) in
      if bp =? firstbuf st then Some st else for_ring fuel' body bp st
  end.

(** kernel/blockio.c:158-181 *)
Definition DeleteBlockInBufferCache (fuel : nat) (blknolow blknohigh dsk mode : Z) (st : bio D)
    : option (bio D) :=
  for_ring fuel (fun bp st =>
    let b := buf st bp in
    if (blknolow <=? b_blkno b) && (b_blkno b <=? blknohigh) &&
       has BFR_VALID (b_flag b) && (b_unit b =? dsk) then
      if mode =? XFR_READ then snd <$> flush1 fuel bp st
      else Some (on_buf bp (with_flag 0) st)
    else Some st) (firstbuf st) st.

(** kernel/blockio.c:249-260 *)
Definition setinvld (fuel : nat) (dsk : Z) (st : bio D) : option (bio D) :=
  for_ring fuel (fun bp st =>
    if b_unit (buf st bp) =? dsk then Some (on_buf bp (with_flag 0) st) else Some st)
    (firstbuf st) st.

(** kernel/blockio.c:268-276 *)
Fixpoint dirty_loop (fuel : nat) (dsk bp : Z) (st : bio D) : option bool :=
  match fuel with
  | O => None
  | S fuel' =>
      let b := buf st bp in
      if (b_unit b =? dsk) &&
         (Z.land (b_flag b) (Z.lor BFR_VALID BFR_DIRTY) =? Z.lor BFR_VALID BFR_DIRTY)
      then Some true
      else if b_next b =? firstbuf st then Some false else dirty_loop fuel' dsk (b_next b) st
  end.

(** kernel/blockio.c:264-277 *)
Definition dirty_buffers (fuel : nat) (dsk : Z) (st : bio D) : option bool :=
  dirty_loop fuel dsk (firstbuf st) st.

(** The loops of [flush_buffers] and [flush] also gather whether every write
    succeeded. *)
Fixpoint for_ring_ok (fuel : nat) (body : Z -> bio D -> option (bool * bio D)) (bp : Z) (ok : bool) (st : bio D)
    : option (bool * bio D) :=
  match fuel with
  | O => None
  | S fuel' =>
      let* (ok1, st) := body bp st in
      let ok := ok && ok1 in
      let bp := b_next (buf st bp) in
      if bp =? firstbuf st then Some (ok, st) else for_ring_ok fuel' body bp ok st
  end.

(** kernel/blockio.c:286-301 *)
Definition flush_buffers (fuel : nat) (dsk : Z) (st : bio D) : option (bool * bio D) :=
  for_ring_ok fuel (fun bp st =>
    if b_unit (buf st bp) =? dsk then flush1 fuel bp st else Some (true, st))
    (firstbuf st) true st.

(** The call to the redirector that follows the loop is not modelled.
    kernel/blockio.c:344-362 *)
Definition flush (fuel : nat) (st : bio D) : option (bool * bio D) :=
  for_ring_ok fuel (fun bp st =>
    let* (ok, st) := flush1 fuel bp st in
    Some (ok, on_buf bp (fun b => with_flag (clear BFR_VALID (b_flag b)) b) st))
    (firstbuf st) true st.

End operations.
