(* ===== verification/BlockioRing.v ===== *)
(** * The buffer ring as a list

    The ring the [b_next] and [b_prev] links spell is a list of buffer pointers
    that starts at [firstbuf], the most recently used first.  Moving a buffer to
    the front permutes it; the loops of the cache visit it from the head. *)

From S2P Require Import Prelude Hdr Dpb Blockio.

(** ** Paths *)

Definition link (m : gmap Z buffer) (x y : Z) : Prop :=
  b_next (m !!! x) = y /\ b_prev (m !!! y) = x.

Fixpoint path (m : gmap Z buffer) (l : list Z) : Prop :=
  match l with
  | x :: (y :: _) as r => link m x y /\ path m r
  | _ => True
  end.

Lemma path_cons2 m x y l : path m (x :: y :: l) <-> link m x y /\ path m (y :: l).
Proof. done. Qed.

Lemma path_app m l1 x l2 : path m (l1 ++ x :: l2) <-> path m (l1 ++ [x]) /\ path m (x :: l2).
Proof.
  induction l1 as [|a l1 IH]; cbn [app].
  - destruct l2; cbn; tauto.
  - destruct l1 as [|b l1]; cbn [app] in *; rewrite !path_cons2; [cbn; tauto|]. rewrite IH. tauto.
Qed.

(** A path depends on the forward links of all but its last buffer and on the
    backward links of all but its first. *)
Lemma path_ext m m' l :
  (forall x, x ∈ removelast l -> b_next (m' !!! x) = b_next (m !!! x)) ->
  (forall x, x ∈ tail l -> b_prev (m' !!! x) = b_prev (m !!! x)) ->
  path m l -> path m' l.
Proof.
  induction l as [|x [|y l] IH]; [done|done|]. intros Hn Hp. rewrite !path_cons2.
  intros [[H1 H2] H]. split; [split|].
  - rewrite Hn; [done|by left].
  - rewrite Hp; [done|by left].
  - apply IH; [|intros z Hz; apply Hp; by right|done].
    intros z Hz. apply Hn. by right.
Qed.

(** ** The ring *)

Definition ring (m : gmap Z buffer) (first : Z) (l : list Z) : Prop :=
  exists r, l = first :: r /\ NoDup l /\ path m (l ++ [first]).

Lemma upd_buf_eq p f m : upd_buf p f m !!! p = f (m !!! p).
Proof. apply lookup_total_insert_eq. Qed.
Lemma upd_buf_ne p q f m : q <> p -> upd_buf p f m !!! q = m !!! q.
Proof. intros. by apply lookup_total_insert_ne. Qed.

Lemma upd_buf_field {A} (g : buffer -> A) p q f m :
  g (upd_buf p f m !!! q) = if decide (q = p) then g (f (m !!! p)) else g (m !!! q).
Proof. case_decide; [subst; by rewrite upd_buf_eq | by rewrite upd_buf_ne]. Qed.

(** An update that keeps the links keeps the ring. *)
Lemma ring_ext m m' first l :
  (forall x, b_next (m' !!! x) = b_next (m !!! x) /\ b_prev (m' !!! x) = b_prev (m !!! x)) ->
  ring m first l -> ring m' first l.
Proof.
  intros H (r & -> & Hnd & Hp). exists r. split_and!; [done|done|].
  eapply path_ext; [| |exact Hp]; intros x _; apply H.
Qed.

Lemma ring_upd m first l p f :
  (forall b, b_next (f b) = b_next b /\ b_prev (f b) = b_prev b) ->
  ring m first l -> ring (upd_buf p f m) first l.
Proof.
  intros H. apply ring_ext. intros x. destruct (decide (x = p)) as [->|Hne].
  - rewrite upd_buf_eq. apply H.
  - by rewrite upd_buf_ne.
Qed.

Lemma last_split (x : Z) l : exists l' y, x :: l = l' ++ [y].
Proof. destruct (exists_last (l:=x :: l)) as (l' & y & E); [done|]. by exists l', y. Qed.

(** Taking a buffer out of the ring: the first two assignments. *)
Definition unlink (bp : Z) (m : gmap Z buffer) : gmap Z buffer :=
  let m := upd_buf (b_next (m !!! bp)) (with_prev (b_prev (m !!! bp))) m in
  upd_buf (b_prev (m !!! bp)) (with_next (b_next (m !!! bp))) m.

(** Putting it before the first one: the last four. *)
Definition link_before (bp firstbp : Z) (m : gmap Z buffer) : gmap Z buffer :=
  let m := upd_buf bp (with_prev (b_prev (m !!! firstbp))) m in
  let m := upd_buf bp (with_next firstbp) m in
  let m := upd_buf (b_next (m !!! bp)) (with_prev bp) m in
  upd_buf (b_prev (m !!! bp)) (with_next bp) m.

Lemma unlink_ring m first l1 bp l2 :
  ring m first (first :: l1 ++ bp :: l2) -> ring (unlink bp m) first (first :: l1 ++ l2).
Proof.
  intros (r & [= <-] & Hnd & Hp). exists (l1 ++ l2). split; [done|].
  assert (Hperm : first :: l1 ++ bp :: l2 ≡ₚ bp :: first :: l1 ++ l2)
    by (symmetry; apply (Permutation_middle (first :: l1))).
  pose proof Hnd as Hnd2. rewrite Hperm in Hnd2. apply list.NoDup_cons in Hnd2 as [Hbp Hnd'].
  split; [done|].
  destruct (last_split first l1) as (a0 & a & Ea).
  assert (exists b b0, l2 ++ [first] = b :: b0) as (b & b0 & Eb) by (destruct l2; by eexists _, _).
  change (path m ((first :: l1 ++ bp :: l2) ++ [first])) in Hp.
  change (path (unlink bp m) ((first :: l1 ++ l2) ++ [first])).
  assert (Hlist : (first :: l1 ++ bp :: l2) ++ [first] = a0 ++ a :: bp :: b :: b0).
  { rewrite <- Eb. change (a :: bp :: l2 ++ [first]) with ([a] ++ bp :: l2 ++ [first]).
    rewrite (app_assoc a0 [a]), <- Ea. cbn. by rewrite <- app_assoc. }
  assert (Hlist' : (first :: l1 ++ l2) ++ [first] = a0 ++ a :: b :: b0).
  { rewrite <- Eb. change (a :: l2 ++ [first]) with ([a] ++ l2 ++ [first]).
    rewrite (app_assoc a0 [a]), <- Ea. cbn. by rewrite <- app_assoc. }
  rewrite Hlist in Hp. rewrite Hlist'.
  rewrite path_app, !path_cons2 in Hp. destruct Hp as [Hpa [[Hab1 Hab2] [[Hbb1 Hbb2] Hpb]]].
  rewrite path_app, path_cons2.
  (* where the old and the new links differ *)
  pose proof Hnd' as Hnd3. change (first :: l1 ++ l2) with ((first :: l1) ++ l2) in Hnd3.
  apply list.NoDup_app in Hnd3 as (HndA & Hdis & HndB).
  assert (HndB' : NoDup (l2 ++ [first])).
  { apply list.NoDup_app. split; [done|]. split; [|apply NoDup_singleton].
    intros x Hx ->%list_elem_of_singleton. by apply (Hdis first); [left|]. }
  assert (Hab : a ∈ first :: l1) by (rewrite Ea; apply elem_of_app; right; by left).
  assert (Hb : b ∈ l2 ++ [first]) by (rewrite Eb; by left).
  assert (Hb' : b ∈ l2 \/ b = first).
  { apply elem_of_app in Hb as [?|?%list_elem_of_singleton]; auto. }
  assert (a <> bp) as Habp.
  { intros ->. apply Hbp. change (bp ∈ (first :: l1) ++ l2). apply elem_of_app. by left. }
  assert (b <> bp) as Hbbp.
  { intros ->. apply Hbp. destruct Hb' as [?| ->]; [|by left]. right. apply elem_of_app. by right. }
  assert (Hn : forall x, b_next (unlink bp m !!! x) = if decide (x = a) then b else b_next (m !!! x)).
  { intros x. unfold unlink. rewrite Hbb1, Hab2. rewrite (upd_buf_ne b bp) by done. rewrite Hbb1, Hab2.
    case_decide as Hx; [subst x; by rewrite upd_buf_eq|]. rewrite upd_buf_ne by done.
    destruct (decide (x = b)) as [->|]; [by rewrite upd_buf_eq | by rewrite upd_buf_ne]. }
  assert (Hv : forall x, b_prev (unlink bp m !!! x) = if decide (x = b) then a else b_prev (m !!! x)).
  { intros x. unfold unlink. rewrite Hbb1, Hab2. rewrite (upd_buf_ne b bp) by done. rewrite Hbb1, Hab2.
    assert (Hv' : b_prev (upd_buf b (with_prev a) m !!! x) = if decide (x = b) then a else b_prev (m !!! x)).
    { case_decide as Hx; [subst x; by rewrite upd_buf_eq | by rewrite upd_buf_ne]. }
    rewrite <- Hv'. destruct (decide (x = a)) as [->|]; [by rewrite upd_buf_eq | by rewrite upd_buf_ne]. }
  split_and!.
  - rewrite <- Ea in *. eapply path_ext; [| |exact Hpa].
    + intros x Hx. rewrite Hn, decide_False; [done|]. intros ->.
      rewrite Ea, removelast_last in Hx. rewrite Ea in HndA. apply list.NoDup_app in HndA as (_ & Hd & _).
      apply (Hd a Hx). by left.
    + intros x Hx. rewrite Hv, decide_False; [done|]. intros ->. cbn in Hx.
      destruct Hb' as [Hb'| ->].
      * apply (Hdis b); [by right|done].
      * by apply list.NoDup_cons in HndA as [? _].
  - split; [rewrite Hn | rewrite Hv]; by rewrite decide_True.
  - eapply path_ext; [| |exact Hpb].
    + intros x Hx. rewrite Hn, decide_False; [done|]. intros ->.
      rewrite <- Eb, removelast_last in Hx. by apply (Hdis a).
    + intros x Hx. rewrite Hv, decide_False; [done|]. intros ->. cbn in Hx.
      rewrite Eb in HndB'. by apply list.NoDup_cons in HndB' as [? _].
Qed.

Lemma link_before_ring m first bp l :
  ring m first l -> bp ∉ l -> ring (link_before bp first m) bp (bp :: l).
Proof.
  intros (r & -> & Hnd & Hp) Hbp. exists (first :: r). split; [done|].
  split; [by apply list.NoDup_cons|].
  destruct (last_split first r) as (z0 & z & Ez).
  rewrite Ez in Hp. rewrite <- app_assoc in Hp. cbn [app] in Hp. rewrite path_app, path_cons2 in Hp.
  destruct Hp as [Hpz [[Hz1 Hz2] _]].
  assert (Hz : z ∈ first :: r) by (rewrite Ez; apply elem_of_app; right; by left).
  assert (z <> bp) as Hzbp by congruence.
  assert (first <> bp) as Hfbp by (intros ->; apply Hbp; by left).
  assert (Hm' : forall x,
    b_next (link_before bp first m !!! x) =
      (if decide (x = z) then bp else if decide (x = bp) then first else b_next (m !!! x)) /\
    b_prev (link_before bp first m !!! x) =
      (if decide (x = first) then bp else if decide (x = bp) then z else b_prev (m !!! x))).
  { intros x. unfold link_before. rewrite Hz2.
    repeat (rewrite upd_buf_eq || rewrite (upd_buf_ne first bp) by done).
    cbn [b_next b_prev with_next with_prev].
    split; rewrite !upd_buf_field; repeat case_decide; subst; cbn; congruence. }
  change (path (link_before bp first m) (bp :: first :: (r ++ [bp]))).
  rewrite path_cons2. split.
  { split; [rewrite (proj1 (Hm' bp)) | rewrite (proj2 (Hm' first))]; repeat case_decide; congruence. }
  change (path (link_before bp first m) ((first :: r) ++ [bp])).
  rewrite Ez, <- app_assoc. cbn [app]. rewrite path_app. split.
  - eapply path_ext; [| |exact Hpz].
    + intros x Hx. rewrite removelast_last in Hx. rewrite Ez in Hnd.
      apply list.NoDup_app in Hnd as (_ & Hd & _).
      rewrite (proj1 (Hm' x)), !decide_False; [done| |].
      * intros ->. apply Hbp. rewrite Ez. apply elem_of_app. by left.
      * intros ->. apply (Hd z Hx). by left.
    + intros x Hx. rewrite <- Ez in Hx. cbn in Hx.
      rewrite (proj2 (Hm' x)), !decide_False; [done| |].
      * intros ->. apply Hbp. by right.
      * intros ->. by apply list.NoDup_cons in Hnd as [? _].
  - cbn. split; [|done].
    split; [rewrite (proj1 (Hm' z)) | rewrite (proj2 (Hm' bp))]; repeat case_decide; congruence.
Qed.

(** ** Moving to the front *)

Lemma move_buffer_eq bp first m : move_buffer bp first m = link_before bp first (unlink bp m).
Proof. done. Qed.

Lemma move_buffer_ring m first l1 bp l2 :
  ring m first (first :: l1 ++ bp :: l2) ->
  ring (move_buffer bp first m) bp (bp :: first :: l1 ++ l2).
Proof.
  intros H. rewrite move_buffer_eq. apply link_before_ring; [by apply unlink_ring|].
  destruct H as (r & [= <-] & Hnd & _). intros Hin.
  rewrite app_comm_cons, <- Permutation_middle, list.NoDup_cons in Hnd. by destruct Hnd.
Qed.

(** Only the links change. *)
Definition same_links_only (b b' : buffer) : Prop :=
  b_unit b' = b_unit b /\ b_flag b' = b_flag b /\ b_blkno b' = b_blkno b /\ b_copies b' = b_copies b /\
  b_offset b' = b_offset b /\ b_dpbp b' = b_dpbp b /\ b_buffer b' = b_buffer b.

#[export] Instance same_links_only_preorder : PreOrder same_links_only.
Proof.
  split; [by intros b|]. intros a b c. unfold same_links_only. intuition congruence.
Qed.

Lemma upd_links p f m x :
  (forall b, same_links_only b (f b)) -> same_links_only (m !!! x) (upd_buf p f m !!! x).
Proof.
  intros H. destruct (decide (x = p)) as [->|?]; [rewrite upd_buf_eq; apply H | by rewrite upd_buf_ne].
Qed.

Lemma move_buffer_data bp first m x : same_links_only (m !!! x) (move_buffer bp first m !!! x).
Proof.
  unfold move_buffer. cbv zeta.
  repeat (etransitivity; [|apply upd_links; intros b; by destruct b]). reflexivity.
Qed.
