(* ===== verification/BlockioSpec.v ===== *)
(** * The block cache as a disk

    What the cache promises its clients: a block read through it is the block as
    last written, whether or not the buffer was recycled in between.  The state
    represents a disk image; getting a block keeps the image, flushing brings it
    to the medium. *)

From S2P Require Import Prelude Hdr Dpb Blockio BlockioRing.

(** ** The driver *)

(** The block a request names. *)
Definition rq_blkno (rq : request) : Z := if r_start rq =? HUGECOUNT then r_huge rq else r_start rq.

Definition done (status : Z) : bool := Z.land status (Z.lor S_ERROR S_DONE) =? S_DONE.

(** What a driver is documented to do with a one-block request, given the sectors
    its medium holds by device, unit and number.  A request that does not end
    done reports a status that is not zero.  A failed write may spoil the sector
    it was for.  The critical error handler gives up in the end. *)
Class DeviceLaws (D : Type) `{!Device D} := {
  sect : D -> Z -> Z -> Z -> list Z;
  execrh_read device rq data d status out d' :
    execrh device rq data d = (status, out, d') -> r_command rq = C_INPUT -> r_count rq = 1 ->
    (forall dv u b, sect d' dv u b = sect d dv u b) /\
    (if done status then out = sect d device (r_unit rq) (rq_blkno rq) else status <> 0 /\ out = data);
  execrh_write device rq data d status out d' :
    execrh device rq data d = (status, out, d') ->
    r_command rq = C_OUTPUT \/ r_command rq = C_OUTVFY -> r_count rq = 1 ->
    (forall dv u b, (dv, u, b) <> (device, r_unit rq, rq_blkno rq) -> sect d' dv u b = sect d dv u b) /\
    (if done status then sect d' device (r_unit rq) (rq_blkno rq) = data else status <> 0);
  block_error_sect rq unit device mode d answer d' :
    block_error rq unit device mode d = (answer, d') ->
    (answer = ABORT \/ answer = FAIL) /\ forall dv u b, sect d' dv u b = sect d dv u b }.

Section spec.
  Context {D : Type} `{DeviceLaws D}.

(** A driver that completes every request. *)
Definition reliable : Prop :=
  forall dv rq data d, done (fst (fst (execrh (D := D) dv rq data d))) = true.

(** The sector a drive's block number names on the medium of a state. *)
Definition sector (st : bio D) (dsk b : Z) : list Z :=
  match drives st !! dsk with
  | Some p => sect (dev st) (dpb_device (dpbs st !!! p)) (dpb_subunit (dpbs st !!! p)) b
  | None => []
  end.

(** Only the driver's state and [deblock_buf] differ. *)
Definition dev_only (st st' : bio D) : Prop :=
  bufs st' = bufs st /\ firstbuf st' = firstbuf st /\ drives st' = drives st /\ dpbs st' = dpbs st /\
  verify_ena st' = verify_ena st /\ deblocked st' = deblocked st.

#[export] Instance dev_only_preorder : PreOrder dev_only.
Proof. split; [by intros st|]. intros a b c. unfold dev_only. intuition congruence. Qed.

(** Different drives are different units. *)
Definition drives_ok (st : bio D) : Prop :=
  forall d1 d2 p1 p2, drives st !! d1 = Some p1 -> drives st !! d2 = Some p2 ->
    dpb_device (dpbs st !!! p1) = dpb_device (dpbs st !!! p2) ->
    dpb_subunit (dpbs st !!! p1) = dpb_subunit (dpbs st !!! p2) -> d1 = d2.

Lemma rq_blkno_huge d cmd mdb n huge b :
  0 <= b < 4294967296 -> (huge = false -> b < MAXSHORT) ->
  rq_blkno (Req d cmd mdb n (if huge then HUGECOUNT else u16 b) (if huge then b else 0)) = b.
Proof.
  intros Hb Hh. unfold rq_blkno. cbn. destruct huge; [done|]. unfold MAXSHORT in Hh. specialize (Hh eq_refl).
  rewrite u16_id by lia. unfold HUGECOUNT. destruct (Z.eqb_spec b 0xffff); [lia|done].
Qed.

Lemma xfer_loop_once high fuel rq mode d data (st : bio D) :
  mode < DSKWRITEINT26 ->
  let '(status, data', st') := xfer_exec high (dpb_device d) rq mode data st in
  exists st2, xfer_loop high (S fuel) rq mode d data st
      = Some (if done status then 0 else status, data', st2) /\ dev_only st' st2 /\
    forall dv u b, sect (dev st2) dv u b = sect (dev st') dv u b.
Proof.
  intros Hm. cbn [xfer_loop]. destruct (xfer_exec _ _ _ _ _ _) as [[status data'] st'].
  fold (done status). destruct (done status); [by exists st'|].
  rewrite (proj2 (Z.leb_gt _ _)) by done.
  destruct (block_error _ _ _ _ _) as [answer d'] eqn:E.
  apply block_error_sect in E as [Ha Hs].
  exists (set_dev d' st'). split; [|by split].
  destruct Ha as [-> | ->]; done.
Qed.

Lemma xfer_exec_frame high device rq mode data (st : bio D) status data' st' :
  xfer_exec high device rq mode data st = (status, data', st') -> dev_only st st'.
Proof.
  unfold xfer_exec. destruct (_ && deblocked st).
  - destruct (execrh _ _ _ _) as [[s out] d]. intros [= <- <- <-]. by destruct (mode =? DSKWRITE).
  - destruct (execrh _ _ _ _) as [[s out] d]. intros [= <- <- <-]. done.
Qed.

Lemma sector_dev_only st st' dsk b :
  dev_only st st' -> (forall dv u b, sect (dev st') dv u b = sect (dev st) dv u b) ->
  sector st' dsk b = sector st dsk b.
Proof.
  intros (_ & _ & Hd & Hp & _) Hs. unfold sector. rewrite Hd, Hp. destruct (drives st !! dsk); [|done]. apply Hs.
Qed.

(** Reading one block: the sector, or an error. *)
Lemma dskxfer_read fuel high dsk b data (st : bio D) :
  0 <= b < 4294967296 -> is_Some (drives st !! dsk) ->
  exists rc data' st', dskxfer (S fuel) high dsk b data 1 DSKREAD st = Some (rc, data', st') /\
    dev_only st st' /\ (forall k n, sector st' k n = sector st k n) /\
    (rc = 0 -> data' = sector st dsk b) /\ (rc <> 0 -> deblocked st = false -> data' = data) /\
    (reliable -> rc = 0).
Proof.
  intros Hb [p Hp]. unfold dskxfer. rewrite Hp. cbn [xfer_command DSKREAD DSKWRITE DSKWRITEINT26 Z.eqb orb].
  set (d := dpbs st !!! p). cbn -[xfer_loop].
  set (huge := has _ _ || _). set (rq := Req _ _ _ _ _ _).
  assert (Hrq : rq_blkno rq = b).
  { apply rq_blkno_huge; [done|]. intros Hh. subst huge. apply orb_false_iff in Hh as [_ Hh].
    by apply Z.leb_gt in Hh. }
  pose proof (xfer_loop_once high fuel rq DSKREAD d data st ltac:(done)) as Hx.
  destruct (xfer_exec _ _ _ _ _ _) as [[status data'] st1] eqn:E.
  destruct Hx as (st2 & Hl & Hf2 & Hs2). pose proof (xfer_exec_frame _ _ _ _ _ _ _ _ _ E) as Hf1.
  unfold xfer_exec in E. cbn [r_count rq Z.eqb Pos.eqb] in E. rewrite andb_true_r in E.
  cbn [DSKREAD DSKWRITE Z.eqb Pos.eqb] in E.
  assert (Hexec : exists inb, (deblocked st = false -> inb = data) /\
    execrh (dpb_device d) rq inb (dev st) = (status, data', dev st1)).
  { destruct (high && deblocked st) eqn:Eh.
    - destruct (execrh _ _ _ _) as [[s out] dv] eqn:E2. injection E as <- <- <-. exists (deblock_buf st).
      split; [|done]. intros Ed. by rewrite Ed, andb_false_r in Eh.
    - destruct (execrh _ _ _ _) as [[s out] dv] eqn:E2. injection E as <- <- <-. by exists data. }
  destruct Hexec as (inb & Hin & Hexec).
  assert (Hrel : reliable -> done status = true).
  { intros Hr. specialize (Hr (dpb_device d) rq inb (dev st)). by rewrite Hexec in Hr. }
  apply execrh_read in Hexec as [Hsame Hout]; [|done|done].
  exists (if done status then 0 else status), data', st2. split; [done|].
  split; [by etransitivity|]. split_and!.
  - intros k n. rewrite (sector_dev_only st1 st2), (sector_dev_only st st1); done.
  - intros Hrc. destruct (done status); [|by destruct Hout].
    rewrite Hout, Hrq. unfold sector. by rewrite Hp.
  - intros Hrc Hd. destruct (done status); [done|]. destruct Hout as [_ ->]. auto.
  - intros Hr. by rewrite (Hrel Hr).
Qed.

(** Writing one block: the sector is written, or an error; no other sector
    changes. *)
Lemma dskxfer_write fuel high dsk b data (st : bio D) :
  0 <= b < 4294967296 -> is_Some (drives st !! dsk) -> drives_ok st ->
  exists rc data' st', dskxfer (S fuel) high dsk b data 1 DSKWRITE st = Some (rc, data', st') /\
    dev_only st st' /\ (forall k n, (k, n) <> (dsk, b) -> sector st' k n = sector st k n) /\
    (rc = 0 -> sector st' dsk b = data) /\ (reliable -> rc = 0).
Proof.
  intros Hb [p Hp] Hok. unfold dskxfer. rewrite Hp. cbn [xfer_command DSKWRITE Z.eqb Pos.eqb].
  set (d := dpbs st !!! p). set (huge := has _ _ || _). set (rq := Req _ _ _ _ _ _).
  assert (Hrq : rq_blkno rq = b).
  { apply rq_blkno_huge; [done|]. intros Hh. subst huge. apply orb_false_iff in Hh as [_ Hh].
    by apply Z.leb_gt in Hh. }
  pose proof (xfer_loop_once high fuel rq DSKWRITE d data st ltac:(done)) as Hx.
  destruct (xfer_exec _ _ _ _ _ _) as [[status data'] st1] eqn:E.
  destruct Hx as (st2 & Hl & Hf2 & Hs2). pose proof (xfer_exec_frame _ _ _ _ _ _ _ _ _ E) as Hf1.
  unfold xfer_exec in E. cbn [r_count rq Z.eqb Pos.eqb] in E. rewrite andb_true_r in E.
  cbn [DSKREAD DSKWRITE Z.eqb Pos.eqb] in E.
  assert (Hexec : exists out, execrh (dpb_device d) rq data (dev st) = (status, out, dev st1)).
  { destruct (high && deblocked st).
    - cbn in E. destruct (execrh _ _ _ _) as [[s out] dv] eqn:E2. injection E as <- <- <-. by exists out.
    - destruct (execrh _ _ _ _) as [[s out] dv] eqn:E2. injection E as <- <- <-. by exists out. }
  destruct Hexec as (out & Hexec).
  assert (Hrel : reliable -> done status = true).
  { intros Hr. specialize (Hr (dpb_device d) rq data (dev st)). by rewrite Hexec in Hr. }
  apply execrh_write in Hexec as [Hsame Hout]; [|destruct (verify_ena st); cbn; auto|done].
  rewrite Hrq in *. cbn [r_unit rq] in *.
  assert (Hpos : forall k n, sector st2 k n = sector st1 k n) by (intros; by apply sector_dev_only).
  pose proof Hf1 as (_ & _ & Hd & Hdp & _).
  exists (if done status then 0 else status), data', st2. split; [done|].
  split; [by etransitivity|]. split_and!; [| |intros Hr; by rewrite (Hrel Hr)].
  - intros k n Hne. rewrite Hpos. unfold sector. rewrite Hd, Hdp. destruct (drives st !! k) as [p'|] eqn:Hk; [|done].
    apply Hsame. intros [= H1 H2 ->]. apply Hne. f_equal. by eapply Hok.
  - intros Hrc. destruct (done status); [|done]. rewrite Hpos. unfold sector. by rewrite Hd, Hdp, Hp.
Qed.

(** ** Flags *)

Lemma has_bit i fl : 0 <= i -> has (2 ^ i) fl = Z.testbit fl i.
Proof.
  intros Hi. unfold has. destruct (Z.testbit fl i) eqn:E.
  - apply negb_true_iff, Z.eqb_neq. intros H0. apply (f_equal (fun z => Z.testbit z i)) in H0.
    rewrite Z.land_spec, E, Z.pow2_bits_true, Z.bits_0 in H0 by done. done.
  - apply negb_false_iff, Z.eqb_eq, Z.bits_inj'. intros n Hn.
    rewrite Z.land_spec, Z.bits_0, Z.pow2_bits_eqb by done.
    destruct (Z.eqb_spec i n) as [<-|]; [by rewrite E|apply andb_false_r].
Qed.

Lemma has_clear i j fl : 0 <= i -> 0 <= j ->
  has (2 ^ i) (clear (2 ^ j) fl) = if i =? j then false else has (2 ^ i) fl.
Proof.
  intros Hi Hj. rewrite !has_bit by done. unfold clear.
  rewrite Z.land_spec, Z.lnot_spec, Z.pow2_bits_eqb by done. rewrite (Z.eqb_sym j i).
  destruct (i =? j); [apply andb_false_r|apply andb_true_r].
Qed.

Lemma has_set i j fl : 0 <= i -> 0 <= j ->
  has (2 ^ i) (Z.lor fl (2 ^ j)) = (i =? j) || has (2 ^ i) fl.
Proof.
  intros Hi Hj. rewrite !has_bit by done. rewrite Z.lor_spec, Z.pow2_bits_eqb by done.
  rewrite (Z.eqb_sym j i), orb_comm. done.
Qed.

Definition valid (b : buffer) : Prop := has BFR_VALID (b_flag b) = true.
Definition dirty (b : buffer) : Prop := has BFR_DIRTY (b_flag b) = true.

Lemma flags_both b :
  (Z.land (b_flag b) (Z.lor BFR_VALID BFR_DIRTY) =? Z.lor BFR_VALID BFR_DIRTY)
    = has BFR_VALID (b_flag b) && has BFR_DIRTY (b_flag b).
Proof.
  change BFR_VALID with (2 ^ 5). change BFR_DIRTY with (2 ^ 6). rewrite !has_bit by lia.
  change (Z.lor (2 ^ 5) (2 ^ 6)) with (Z.shiftl 3 5).
  destruct (Z.testbit (b_flag b) 5) eqn:E5; destruct (Z.testbit (b_flag b) 6) eqn:E6; cbn [andb].
  - apply Z.eqb_eq, Z.bits_inj'. intros n Hn. rewrite Z.land_spec.
    destruct (decide (n = 5)) as [->|]; [by rewrite E5|].
    destruct (decide (n = 6)) as [->|]; [by rewrite E6|].
    assert (Z.testbit (Z.shiftl 3 5) n = false) as ->; [|apply andb_false_r].
    destruct (decide (n < 5)); [by apply Z.shiftl_spec_low|].
    rewrite Z.shiftl_spec_high by lia. apply Z.bits_above_log2; [lia|]. change (Z.log2 3) with 1. lia.
  - apply Z.eqb_neq. intros Hc. apply (f_equal (fun z => Z.testbit z 6)) in Hc.
    by rewrite Z.land_spec, E6 in Hc.
  - apply Z.eqb_neq. intros Hc. apply (f_equal (fun z => Z.testbit z 5)) in Hc.
    by rewrite Z.land_spec, E5 in Hc.
  - apply Z.eqb_neq. intros Hc. apply (f_equal (fun z => Z.testbit z 5)) in Hc.
    by rewrite Z.land_spec, E5 in Hc.
Qed.

(** ** The image the cache represents *)

Context (primary : Z -> Z -> Prop).

(** The blocks the copies of a buffer go to. *)
Definition copy_blk (blkno offset : Z) (i : nat) : Z := Nat.iter i (fun b => u32 (b + offset)) blkno.

(** The copies of a FAT sector are blocks no client reads: [primary] is the set
    of the others. *)
Definition copies_ok (st : bio D) (b : buffer) : Prop :=
  let '(copies, offset) := copies_of st b in
  1 <= copies /\ forall i, (0 < i < Z.to_nat copies)%nat -> ~ primary (b_unit b) (copy_blk (b_blkno b) offset i).

Definition same_id (b b' : buffer) : Prop := b_unit b = b_unit b' /\ b_blkno b = b_blkno b'.

(** The state with ring [l] represents the disk image [v]: a valid buffer holds
    what the image has, and so does the medium wherever no dirty buffer differs. *)
Record repr (st : bio D) (l : list Z) (v : Z -> Z -> list Z) : Prop := {
  r_ring : ring (bufs st) (firstbuf st) l;
  r_nz : 0 ∉ l;
  r_drives : drives_ok st;
  r_uniq x y : x ∈ l -> y ∈ l -> valid (buf st x) -> valid (buf st y) -> same_id (buf st x) (buf st y) -> x = y;
  r_blk x : x ∈ l -> valid (buf st x) -> 0 <= b_blkno (buf st x) < 4294967296 /\
    is_Some (drives st !! b_unit (buf st x)) /\ primary (b_unit (buf st x)) (b_blkno (buf st x));
  r_copies x : x ∈ l -> valid (buf st x) -> copies_ok st (buf st x);
  r_cached x : x ∈ l -> valid (buf st x) -> b_buffer (buf st x) = v (b_unit (buf st x)) (b_blkno (buf st x));
  r_disk u n : primary u n ->
    (forall x, x ∈ l -> valid (buf st x) -> dirty (buf st x) -> ~ (b_unit (buf st x) = u /\ b_blkno (buf st x) = n)) ->
    sector st u n = v u n }.

(** ** Flushing one buffer *)

Lemma u32_bound z : 0 <= u32 z < 4294967296.
Proof. apply u32_range. Qed.

Lemma write_copies_spec fuel n dsk offset data : forall blkno ok (st : bio D),
  0 <= blkno < 4294967296 -> is_Some (drives st !! dsk) -> drives_ok st ->
  exists ok' st', write_copies (S fuel) n dsk blkno offset data ok st = Some (ok', st') /\
    dev_only st st' /\
    (forall k m, (forall i, (i < n)%nat -> (k, m) <> (dsk, copy_blk blkno offset i)) -> sector st' k m = sector st k m) /\
    (ok' = true -> ok = true /\ forall i, (i < n)%nat -> sector st' dsk (copy_blk blkno offset i) = data) /\
    (reliable -> ok = true -> ok' = true).
Proof.
  induction n as [|n IH]; intros blkno ok st Hb Hd Hok.
  { exists ok, st. split; [done|]. split_and!; [done|done| |done]. intros ->. split; [done|]. intros i Hi. lia. }
  cbn [write_copies].
  destruct (dskxfer_write fuel true dsk blkno data st Hb Hd Hok) as (rc & d' & st1 & -> & Hf & Hs & Hrc & Hrel).
  pose proof Hf as (_ & _ & Hdr & Hdp & _).
  destruct (IH (u32 (blkno + offset)) (ok && (rc =? 0)) st1) as (ok' & st' & -> & Hf' & Hs' & Hok' & Hrel').
  { apply u32_bound. } { by rewrite Hdr. }
  { unfold drives_ok. rewrite Hdr, Hdp. exact Hok. }
  assert (Hshift : forall i, copy_blk (u32 (blkno + offset)) offset i = copy_blk blkno offset (S i)).
  { intros i. unfold copy_blk. by rewrite Nat.iter_succ_r. }
  exists ok', st'. split; [done|]. split; [by etransitivity|].
  split_and!; [| |intros Hr ->; apply Hrel'; [done|by rewrite (Hrel Hr)]].
  - intros k m Hne. rewrite Hs'.
    + apply Hs. apply (Hne 0%nat). lia.
    + intros i Hi. rewrite Hshift. apply Hne. lia.
  - intros Ht. destruct (Hok' Ht) as [Hand Hall]. apply andb_true_iff in Hand as [-> Hrc0].
    split; [done|]. apply Z.eqb_eq in Hrc0. intros [|i] Hi.
    + (* the first copy: written, and either left alone or written again since *)
      destruct (decide (copy_blk blkno offset 0 ∈ copy_blk (u32 (blkno + offset)) offset <$> seq 0 n))
        as [Hin|Hno].
      * apply list_elem_of_fmap in Hin as (i & Heq & Hin). apply elem_of_seq in Hin.
        rewrite Heq. apply Hall. lia.
      * rewrite Hs'; [by apply Hrc|]. intros i Hi' [= Heq]. apply Hno.
        apply list_elem_of_fmap. exists i. split; [done|]. apply elem_of_seq. lia.
    + rewrite <- Hshift. apply Hall. lia.
Qed.

(** ** Carrying the representation over a step *)

Definition same_place (b b' : buffer) : Prop :=
  b_unit b' = b_unit b /\ b_blkno b' = b_blkno b /\ b_copies b' = b_copies b /\ b_offset b' = b_offset b /\
  b_dpbp b' = b_dpbp b /\ has BFR_FAT (b_flag b') = has BFR_FAT (b_flag b).

#[export] Instance same_place_preorder : PreOrder same_place.
Proof. split; [by intros b|]. intros a b c. unfold same_place. intuition congruence. Qed.

Lemma same_place_copies st st' b b' :
  dpbs st' = dpbs st -> same_place b b' -> copies_ok st b -> copies_ok st' b'.
Proof.
  intros Hd (H1 & H2 & H3 & H4 & H5 & H6). unfold copies_ok, copies_of.
  by rewrite Hd, H1, H2, H3, H4, H5, H6.
Qed.

Lemma repr_step (st st' : bio D) l l' v v' :
  repr st l v -> ring (bufs st') (firstbuf st') l' -> (forall x, x ∈ l' <-> x ∈ l) ->
  drives st' = drives st -> dpbs st' = dpbs st ->
  (forall x, x ∈ l -> valid (buf st' x) ->
     valid (buf st x) /\ same_place (buf st x) (buf st' x) /\
     b_buffer (buf st' x) = v' (b_unit (buf st x)) (b_blkno (buf st x))) ->
  (forall u n, primary u n ->
     (forall x, x ∈ l' -> valid (buf st' x) -> dirty (buf st' x) -> ~ (b_unit (buf st' x) = u /\ b_blkno (buf st' x) = n)) ->
     sector st' u n = v' u n) ->
  repr st' l' v'.
Proof.
  intros Hr Hring Hl Hdr Hdp Hb Hdisk. split; [done| | | | | | |done].
  - rewrite Hl. apply Hr.
  - unfold drives_ok. rewrite Hdr, Hdp. apply Hr.
  - intros x y Hx Hy Hvx Hvy [H1 H2]. rewrite Hl in Hx, Hy.
    destruct (Hb x Hx Hvx) as (Hvx' & (E1 & E2 & _) & _). destruct (Hb y Hy Hvy) as (Hvy' & (E3 & E4 & _) & _).
    apply (r_uniq st l v Hr); try done. split; congruence.
  - intros x Hx Hv. rewrite Hl in Hx. destruct (Hb x Hx Hv) as (Hv' & (-> & -> & _) & _). rewrite Hdr.
    by apply (r_blk st l v Hr).
  - intros x Hx Hv. rewrite Hl in Hx. destruct (Hb x Hx Hv) as (Hv' & Hs & _).
    eapply same_place_copies; [done|exact Hs|]. by apply (r_copies st l v Hr).
  - intros x Hx Hv. rewrite Hl in Hx. destruct (Hb x Hx Hv) as (_ & (-> & -> & _) & Hd). done.
Qed.

Lemma buf_on_buf (st : bio D) p f x : buf (on_buf p f st) x = if decide (x = p) then f (buf st p) else buf st x.
Proof. unfold buf, on_buf. cbn. case_decide; [subst; apply upd_buf_eq | by apply upd_buf_ne]. Qed.

Lemma valid_bit b : valid b <-> Z.testbit (b_flag b) 5 = true.
Proof. unfold valid. change BFR_VALID with (2 ^ 5). by rewrite has_bit. Qed.
Lemma dirty_bit b : dirty b <-> Z.testbit (b_flag b) 6 = true.
Proof. unfold dirty. change BFR_DIRTY with (2 ^ 6). by rewrite has_bit. Qed.

Definition undirty (b : buffer) : buffer := with_flag (clear BFR_DIRTY (b_flag b)) b.
Definition unvalid (b : buffer) : buffer := with_flag (clear BFR_VALID (b_flag b)) b.

Lemma undirty_facts b :
  (valid (undirty b) <-> valid b) /\ ~ dirty (undirty b) /\ same_place b (undirty b) /\
  has BFR_UNCACHE (b_flag (undirty b)) = has BFR_UNCACHE (b_flag b).
Proof.
  unfold valid, dirty, same_place, undirty. cbn [b_flag with_flag b_unit b_blkno b_copies b_offset b_dpbp].
  change BFR_VALID with (2 ^ 5). change BFR_DIRTY with (2 ^ 6). change BFR_FAT with (2 ^ 1).
  change BFR_UNCACHE with (2 ^ 0). rewrite !has_clear by lia. by split_and!.
Qed.

Lemma unvalid_facts b : ~ valid (unvalid b) /\ same_place b (unvalid b).
Proof.
  unfold valid, same_place, unvalid. cbn [b_flag with_flag b_unit b_blkno b_copies b_offset b_dpbp].
  change BFR_VALID with (2 ^ 5). change BFR_FAT with (2 ^ 1). rewrite !has_clear by lia. by split_and!.
Qed.

(** The write of [flush1], if any. *)
Lemma flush_write fuel (st : bio D) l v x :
  repr st l v -> x ∈ l ->
  let b := buf st x in
  exists ok st', (if Z.land (b_flag b) (Z.lor BFR_VALID BFR_DIRTY) =? Z.lor BFR_VALID BFR_DIRTY then
      let '(copies, offset) := copies_of st b in
      write_copies (S fuel) (Z.to_nat copies) (b_unit b) (b_blkno b) offset (b_buffer b) true st
    else Some (true, st)) = Some (ok, st') /\ dev_only st st' /\
    (forall u n, primary u n -> ~ (valid b /\ b_unit b = u /\ b_blkno b = n) -> sector st' u n = sector st u n) /\
    (ok = true -> valid b -> sector st' (b_unit b) (b_blkno b) = v (b_unit b) (b_blkno b)) /\
    (ok = false -> valid b) /\ (reliable -> ok = true).
Proof.
  intros Hr Hx. cbv zeta. set (b := buf st x). rewrite flags_both.
  destruct (has BFR_VALID (b_flag b)) eqn:Ev; cbn [andb].
  2: { exists true, st. split_and!; try done. intros _. unfold valid. by rewrite Ev. }
  assert (Hv : valid b) by done. pose proof (r_blk _ _ _ Hr x Hx Hv) as (Hb & Hd & Hp). fold b in Hb, Hd, Hp.
  destruct (has BFR_DIRTY (b_flag b)) eqn:Ed.
  2: { exists true, st. split_and!; try done. intros _ _. apply (r_disk _ _ _ Hr); [done|].
       intros y Hy Hvy Hdy [E1 E2]. assert (y = x) as -> by (by apply (r_uniq _ _ _ Hr)).
       unfold dirty in Hdy. fold b in Hdy. by rewrite Ed in Hdy. }
  pose proof (r_copies _ _ _ Hr x Hx Hv) as Hc. unfold copies_ok in Hc. fold b in Hc.
  destruct (copies_of st b) as [copies offset]. destruct Hc as [Hc Hnp].
  destruct (write_copies_spec fuel (Z.to_nat copies) (b_unit b) offset (b_buffer b) (b_blkno b) true st Hb Hd
    (r_drives _ _ _ Hr)) as (ok & st' & -> & Hf & Hs & Hok & Hrel).
  exists ok, st'. split_and!; [done|done| | |done|auto].
  - intros u n Hpr Hne. apply Hs. intros i Hi [= -> ->].
    destruct (decide (i = 0%nat)) as [->|]; [by destruct Hne|]. apply (Hnp i); [lia|done].
  - intros Ht _. destruct (Hok Ht) as [_ Hall]. etransitivity; [|by apply (r_cached _ _ _ Hr x Hx Hv)].
    apply (Hall 0%nat). lia.
Qed.

Lemma flush1_spec fuel (st : bio D) l v x :
  repr st l v -> x ∈ l ->
  exists ok st' v', flush1 (S fuel) x st = Some (ok, st') /\ repr st' l v' /\
    (forall u n, ~ (b_unit (buf st x) = u /\ b_blkno (buf st x) = n) -> v' u n = v u n) /\
    (ok = true -> v' = v) /\ ~ dirty (buf st' x) /\ (ok = false -> ~ valid (buf st' x)) /\
    bufs st' = upd_buf x (fun b => if ok then undirty b else unvalid (undirty b)) (bufs st) /\
    firstbuf st' = firstbuf st /\ drives st' = drives st /\ dpbs st' = dpbs st /\
    deblocked st' = deblocked st /\ (reliable -> ok = true).
Proof.
  intros Hr Hx. unfold flush1.
  destruct (flush_write fuel st l v x Hr Hx) as (ok & st1 & -> & Hf & Hs & Hok & Hno & Hrel).
  set (b := buf st x) in *. cbv zeta.
  pose proof Hf as (Hf1 & Hf2 & Hf3 & Hf4 & Hf5 & Hf6).
  set (st' := if ok then _ else _).
  set (g := fun b => if ok then undirty b else unvalid (undirty b)).
  assert (Hbufs : bufs st' = upd_buf x g (bufs st)).
  { subst st' g. destruct ok; cbn; unfold upd_buf; rewrite <- Hf1; [done|].
    by rewrite insert_insert_eq, lookup_total_insert_eq. }
  assert (Hsame : firstbuf st' = firstbuf st /\ drives st' = drives st /\ dpbs st' = dpbs st /\ dev st' = dev st1 /\
    deblocked st' = deblocked st)
    by (subst st'; by destruct ok).
  destruct Hsame as (Hfst & Hdr & Hdp & Hdev & Hdb).
  assert (Hbuf : forall y, buf st' y = if decide (y = x) then g b else buf st y).
  { intros y. unfold buf. rewrite Hbufs. case_decide; [subst; apply upd_buf_eq | by apply upd_buf_ne]. }
  assert (Hsec : forall u n, sector st' u n = sector st1 u n).
  { intros u n. unfold sector. by rewrite Hdr, Hdp, Hdev, Hf3, Hf4. }
  clearbody st'.
  destruct (undirty_facts b) as (Hu1 & Hu2 & Hu3 & _). destruct (unvalid_facts (undirty b)) as [Hi1 Hi2].
  assert (Hg : (valid (g b) -> ok = true /\ valid b) /\ ~ dirty (g b) /\ same_place b (g b) /\ b_buffer (g b) = b_buffer b).
  { subst g. cbv beta. destruct ok; split_and!; try done; try tauto.
    - intros Hd. apply Hu2. revert Hd. unfold dirty, unvalid. cbn [b_flag with_flag].
      change BFR_DIRTY with (2 ^ 6). change BFR_VALID with (2 ^ 5). by rewrite has_clear by lia.
    - by etransitivity. }
  destruct Hg as (Hg1 & Hg2 & Hg3 & Hg4).
  exists ok, st', (fun u n => if decide (ok = false /\ b_unit b = u /\ b_blkno b = n) then sector st' u n else v u n).
  split_and!; try done.
  2: { intros u n Hne. rewrite decide_False; [done|tauto]. }
  2: { intros ->. done. }
  2: { rewrite Hbuf. by rewrite decide_True. }
  2: { intros ->. rewrite Hbuf, decide_True by done. intros Hv. by apply Hg1 in Hv as [? _]. }
  eapply repr_step; [exact Hr| | |done|done| |].
  - rewrite Hfst, Hbufs. apply ring_upd; [|apply Hr]. intros c. subst g. by destruct ok.
  - done.
  - intros y Hy Hv. rewrite Hbuf in Hv |- *. case_decide as Hyx.
    + subst y. destruct (Hg1 Hv) as [-> Hvb]. rewrite decide_False by (by intros [? _]).
      split_and!; [done|done|]. rewrite Hg4. by apply (r_cached _ _ _ Hr).
    + split_and!; [done|by unfold same_place|]. rewrite decide_False; [by apply (r_cached _ _ _ Hr)|].
      intros (Hfalse & E1 & E2). apply Hyx. apply (r_uniq _ _ _ Hr); try done. by apply Hno.
  - intros u n Hp Hnd. case_decide as Hc; [done|]. rewrite Hsec.
    destruct (decide (b_unit b = u /\ b_blkno b = n /\ has BFR_VALID (b_flag b) = true)) as [(<- & <- & Hvb)|Hne].
    + apply Hok; [|done]. destruct ok; [done|]. by destruct Hc.
    + rewrite Hs by tauto. apply (r_disk _ _ _ Hr); [done|]. intros y Hy Hvy Hdy Hyid.
      destruct (decide (y = x)) as [->|Hyx]; [by apply Hne; destruct Hyid|].
      apply (Hnd y Hy); rewrite ?Hbuf, ?decide_False by done; done.
Qed.

(** ** Searching *)

Definition hit (blkno dsk : Z) (b : buffer) : Prop := valid b /\ b_unit b = dsk /\ b_blkno b = blkno.

Lemma hit_bool blkno dsk b :
  (b_blkno b =? blkno) && has BFR_VALID (b_flag b) && (b_unit b =? dsk) = true <-> hit blkno dsk b.
Proof.
  unfold hit, valid. rewrite !andb_true_iff, !Z.eqb_eq. tauto.
Qed.

Lemma search_loop_spec m first blkno dsk l : forall fuel x u c n,
  path m (x :: l ++ [first]) -> first ∉ l -> (length l < fuel)%nat ->
  exists out, search_loop fuel blkno dsk first m x u c n = Some out /\
    match out with
    | Hit p => p ∈ x :: l /\ hit blkno dsk (m !!! p)
    | Miss u' _ n' =>
        (forall y, y ∈ x :: l -> ~ hit blkno dsk (m !!! y)) /\
        (u' = u \/ u' ∈ x :: l /\ has BFR_UNCACHE (b_flag (m !!! u')) = true) /\
        (n' = n \/ n' ∈ x :: l /\ has BFR_FAT (b_flag (m !!! n')) = false)
    end.
Proof.
  induction l as [|y l IH]; intros fuel x u c n Hp Hf Hl; (destruct fuel as [|fuel]; [lia|]);
    cbn [search_loop]; pose proof (hit_bool blkno dsk (m !!! x)) as Hh;
    (destruct (_ && _ && _);
      [exists (Hit x); split; [done|]; split; [by left|by apply Hh]|]);
    assert (Hnh : ~ hit blkno dsk (m !!! x)) by (by intros ?%Hh).
  - destruct Hp as [[-> _] _]. rewrite Z.eqb_refl. eexists. split; [done|]. split_and!.
    + intros y ->%list_elem_of_singleton. done.
    + destruct (has BFR_UNCACHE _) eqn:E; [right; by split; [left|]|by left].
    + destruct (has BFR_FAT _) eqn:E; [by left|right; by split; [left|]].
  - change (path m (x :: y :: l ++ [first])) in Hp. rewrite path_cons2 in Hp. destruct Hp as [[-> _] Hp].
    destruct (Z.eqb_spec y first) as [->|_]; [by destruct Hf; left|].
    edestruct (IH fuel y) as (out & -> & Hout); [done|by intros ?; apply Hf; right|cbn in Hl; lia|].
    exists out. split; [done|]. destruct out as [p|u' c' n'].
    + destruct Hout as [? ?]. split; [by right|done].
    + destruct Hout as (H1 & H2 & H3). split_and!.
      * intros z Hz. apply elem_of_cons in Hz as [->|Hz]; [done|by apply H1].
      * destruct H2 as [->|[? ?]]; [|right; by split; [right|]].
        destruct (has BFR_UNCACHE (b_flag (m !!! x))) eqn:E; [right; by split; [left|]|by left].
      * destruct H3 as [->|[? ?]]; [|right; by split; [right|]].
        destruct (has BFR_FAT (b_flag (m !!! x))) eqn:E; [by left|right; by split; [left|]].
Qed.

(** The link back from the head leads to the last buffer of the ring. *)
Lemma ring_last m first l : ring m first l -> b_prev (m !!! first) ∈ l /\
  ((2 <= length l)%nat -> b_prev (m !!! first) <> first).
Proof.
  intros (r & -> & Hnd & Hp). destruct (last_split first r) as (z0 & z & Ez).
  rewrite Ez, <- app_assoc in Hp. cbn [app] in Hp. rewrite path_app, path_cons2 in Hp.
  destruct Hp as [_ [[_ ->] _]]. split; [rewrite Ez; apply elem_of_app; right; by left|].
  intros Hlen ->. destruct z0 as [|y z0]; cbn in Ez.
  - injection Ez as Er. subst r. cbn in Hlen. lia.
  - injection Ez as Ey Er. subst r. apply list.NoDup_cons in Hnd as [Hn _].
    apply Hn, elem_of_app. right. by left.
Qed.

Lemma move_front_spec (st : bio D) l x :
  ring (bufs st) (firstbuf st) l -> x ∈ l ->
  exists l', ring (bufs (move_front x st)) x l' /\ l' ≡ₚ l /\ firstbuf (move_front x st) = x /\
    (forall y, same_links_only (buf st y) (buf (move_front x st) y)) /\
    dev (move_front x st) = dev st /\ drives (move_front x st) = drives st /\
    dpbs (move_front x st) = dpbs st /\ deblocked (move_front x st) = deblocked st.
Proof.
  intros Hr Hx. unfold move_front. destruct (Z.eqb_spec x (firstbuf st)) as [->|Hne].
  - exists l. by split_and!.
  - pose proof Hr as (r & -> & _). apply elem_of_cons in Hx as [->|Hx]; [done|].
    apply list_elem_of_split in Hx as (l1 & l2 & ->).
    exists (x :: firstbuf st :: l1 ++ l2). split_and!; try done.
    + by apply move_buffer_ring.
    + rewrite Permutation_swap. by rewrite <- Permutation_middle.
    + intros y. apply move_buffer_data.
Qed.

Lemma links_place b b' : same_links_only b b' -> same_place b b' /\ (valid b' <-> valid b) /\
  (dirty b' <-> dirty b) /\ b_buffer b' = b_buffer b /\ b_flag b' = b_flag b.
Proof.
  intros (H1 & H2 & H3 & H4 & H5 & H6 & H7). unfold same_place, valid, dirty. by rewrite H2.
Qed.

(** Any change of the flags but VALID, DIRTY and FAT, followed by a move to the
    front, keeps the image. *)
Lemma touch_front (st : bio D) l v x fl :
  repr st l v -> x ∈ l ->
  has BFR_VALID fl = has BFR_VALID (b_flag (buf st x)) ->
  has BFR_DIRTY fl = has BFR_DIRTY (b_flag (buf st x)) ->
  has BFR_FAT fl = has BFR_FAT (b_flag (buf st x)) ->
  let st' := move_front x (on_buf x (with_flag fl) st) in
  exists l', repr st' l' v /\ l' ≡ₚ l /\ firstbuf st' = x /\
    dev st' = dev st /\ drives st' = drives st /\ dpbs st' = dpbs st /\ deblocked st' = deblocked st /\
    same_links_only (with_flag fl (buf st x)) (buf st' x) /\
    (forall y, y <> x -> same_links_only (buf st y) (buf st' y)).
Proof.
  intros Hr Hx Hv Hd Hf. cbv zeta. set (st1 := on_buf x (with_flag fl) st).
  destruct (move_front_spec st1 l x) as (l' & Hring & Hperm & Hfst & Hlinks & Hdev & Hdr & Hdp & Hdb);
    [by apply ring_upd; [|apply Hr]|done|].
  assert (Hl : forall y, y ∈ l' <-> y ∈ l) by (intros y; by rewrite Hperm).
  assert (Hb1 : forall y, buf st1 y = if decide (y = x) then with_flag fl (buf st x) else buf st y)
    by (intros; apply buf_on_buf).
  assert (Hplace : forall y, same_place (buf st y) (buf (move_front x st1) y) /\
    (valid (buf (move_front x st1) y) <-> valid (buf st y)) /\
    (dirty (buf (move_front x st1) y) <-> dirty (buf st y)) /\
    b_buffer (buf (move_front x st1) y) = b_buffer (buf st y)).
  { intros y. destruct (links_place _ _ (Hlinks y)) as (H1 & H2 & H3 & H4 & _). rewrite Hb1 in *.
    case_decide; subst; [|done]. unfold same_place, valid, dirty in *. cbn in *.
    rewrite H2, H3, H4, Hv, Hd. destruct H1 as (-> & -> & -> & -> & -> & ->). by rewrite Hf. }
  exists l'. split_and!; try done.
  - eapply repr_step; [exact Hr|by rewrite Hfst|done|done|done| |].
    + intros y Hy Hvy. destruct (Hplace y) as (H1 & H2 & H3 & H4).
      split_and!; [by apply H2|done|]. rewrite H4. apply (r_cached _ _ _ Hr); [done|by apply H2].
    + intros u n Hp Hnd. replace (sector (move_front x st1) u n) with (sector st u n)
        by (unfold sector; by rewrite Hdr, Hdp, Hdev).
      apply (r_disk _ _ _ Hr); [done|]. intros y Hy Hvy Hdy Hid.
      destruct (Hplace y) as ((E1 & E2 & _) & H2 & H3 & _).
      apply (Hnd y); [by apply Hl|by apply H2|by apply H3|]. by rewrite E1, E2.
  - specialize (Hlinks x). by rewrite Hb1, decide_True in Hlinks.
  - intros y Hy. specialize (Hlinks y). by rewrite Hb1, decide_False in Hlinks.
Qed.

Definition uncached (b : buffer) : Prop := has BFR_UNCACHE (b_flag b) = true.
Definition is_fat (b : buffer) : Prop := has BFR_FAT (b_flag b) = true.

(** The globals a cache operation leaves alone. *)
Definition same_globals (st st' : bio D) : Prop :=
  drives st' = drives st /\ dpbs st' = dpbs st /\ deblocked st' = deblocked st.

Lemma clear_uncache fl : let fl' := clear BFR_UNCACHE fl in
  has BFR_VALID fl' = has BFR_VALID fl /\ has BFR_DIRTY fl' = has BFR_DIRTY fl /\
  has BFR_FAT fl' = has BFR_FAT fl /\ has BFR_UNCACHE fl' = false.
Proof.
  cbv zeta. change BFR_VALID with (2 ^ 5). change BFR_DIRTY with (2 ^ 6). change BFR_FAT with (2 ^ 1).
  change BFR_UNCACHE with (2 ^ 0). by rewrite !has_clear by lia.
Qed.

Lemma set_uncache fl : let fl' := Z.lor fl BFR_UNCACHE in
  has BFR_VALID fl' = has BFR_VALID fl /\ has BFR_DIRTY fl' = has BFR_DIRTY fl /\
  has BFR_FAT fl' = has BFR_FAT fl /\ has BFR_UNCACHE fl' = true.
Proof.
  cbv zeta. change BFR_VALID with (2 ^ 5). change BFR_DIRTY with (2 ^ 6). change BFR_FAT with (2 ^ 1).
  change BFR_UNCACHE with (2 ^ 0). by rewrite !has_set by lia.
Qed.

Lemma searchblock_spec fuel (st : bio D) l v blkno dsk :
  repr st l v -> (length l <= fuel)%nat ->
  exists x st' l', searchblock fuel blkno dsk st = Some (x, st') /\ repr st' l' v /\ l' ≡ₚ l /\
    firstbuf st' = x /\ same_globals st st' /\ x ∈ l /\
    (forall y, y <> x -> same_links_only (buf st y) (buf st' y)) /\
    (hit blkno dsk (buf st x) /\ hit blkno dsk (buf st' x) /\ ~ uncached (buf st' x) \/
     uncached (buf st' x) /\ (forall y, y ∈ l -> ~ hit blkno dsk (buf st' y)) /\
     (is_fat (buf st (firstbuf st)) -> ~ uncached (buf st (firstbuf st)) -> (2 <= length l)%nat ->
        x <> firstbuf st)).
Proof.
  intros Hr Hlen. pose proof (r_ring _ _ _ Hr) as Hring. pose proof (r_nz _ _ _ Hr) as Hnz.
  pose proof (ring_last _ _ _ Hring) as [Hlast Hlast2].
  destruct Hring as (r & El & Hnd & Hp). subst l.
  pose proof Hnd as Hnd'. apply list.NoDup_cons in Hnd' as [Hfr _].
  destruct (search_loop_spec (bufs st) (firstbuf st) blkno dsk r fuel (firstbuf st) 0 0 0 Hp Hfr)
    as (out & Hout & Hspec); [cbn in Hlen; lia|].
  unfold searchblock. rewrite Hout. set (l := firstbuf st :: r) in *.
  destruct out as [x|u c n].
  - destruct Hspec as [Hx Hhit]. fold (buf st x) in Hhit.
    set (fl := clear BFR_UNCACHE (b_flag (buf st x))).
    destruct (clear_uncache (b_flag (buf st x))) as (H1 & H2 & H3 & H4). fold fl in H1, H2, H3, H4.
    destruct (touch_front st l v x fl Hr Hx H1 H2 H3) as (l' & Hr' & Hperm & Hfst & Hdev & Hdr & Hdp & Hdb & Hl1 & Hl2).
    exists x, (move_front x (on_buf x (with_flag fl) st)), l'. split; [done|]. split_and!; try done.
    left. destruct (links_place _ _ Hl1) as (Hpl & Hv & _ & _ & Hfl). split_and!; [done| |].
    + unfold hit in *. destruct Hpl as (E1 & E2 & _). rewrite Hv, E1, E2. cbn.
      unfold valid in *. cbn. rewrite H1. done.
    + unfold uncached. rewrite Hfl. cbn. by rewrite H4.
  - destruct Hspec as (Hmiss & Hu & Hn).
    set (x := victim _ _ _ _ _).
    assert (Hx : x ∈ l /\ (is_fat (buf st (firstbuf st)) -> ~ uncached (buf st (firstbuf st)) ->
      (2 <= length l)%nat -> x <> firstbuf st)).
    { subst x. unfold victim.
      destruct (Z.eqb_spec u 0) as [->|Hu0]; cbn [negb].
      - destruct (has BFR_FAT _ && _ && _) eqn:Ec.
        + apply andb_true_iff in Ec as [_ Ec]. apply negb_true_iff, Z.eqb_neq in Ec.
          destruct Hn as [->|[Hn1 Hn2]]; [done|]. split; [done|].
          intros Hf _ _ ->. unfold is_fat, buf in Hf. by rewrite Hf in Hn2.
        + split; [done|]. intros _ _ H2. by apply Hlast2.
      - destruct Hu as [->|[Hu1 Hu2]]; [done|]. split; [done|].
        intros _ Hun _ ->. by apply Hun. }
    destruct Hx as [Hx Hkeep]. clearbody x.
    set (fl := Z.lor (b_flag (buf st x)) BFR_UNCACHE).
    destruct (set_uncache (b_flag (buf st x))) as (H1 & H2 & H3 & H4). fold fl in H1, H2, H3, H4.
    destruct (touch_front st l v x fl Hr Hx H1 H2 H3) as (l' & Hr' & Hperm & Hfst & Hdev & Hdr & Hdp & Hdb & Hl1 & Hl2).
    exists x, (move_front x (on_buf x (with_flag fl) st)), l'. split; [done|]. split_and!; try done.
    right. destruct (links_place _ _ Hl1) as (Hpl & Hv & _ & _ & Hfl). split_and!; [|  |done].
    + unfold uncached. rewrite Hfl. done.
    + intros y Hy Hh. apply (Hmiss y Hy). fold (buf st y). revert Hh.
      destruct (decide (y = x)) as [->|Hne].
      * unfold hit. destruct Hpl as (E1 & E2 & _). rewrite Hv, E1, E2. unfold valid. cbn. by rewrite H1.
      * destruct (links_place _ _ (Hl2 y Hne)) as ((E1 & E2 & _) & Hvy & _). unfold hit. by rewrite Hvy, E1, E2.
Qed.

(** ** Getting a block *)

Definition upd_image (v : Z -> Z -> list Z) (u n : Z) (data : list Z) : Z -> Z -> list Z :=
  fun u' n' => if decide (u' = u /\ n' = n) then data else v u' n'.

(** The buffer [x], clean and holding nothing of [dsk]/[blkno], becomes the
    buffer of that block. *)
Lemma fill_repr (st : bio D) l v x dsk blkno data (deb : list Z) (dv : D) :
  repr st l v -> x ∈ l -> ~ dirty (buf st x) ->
  (forall y, y ∈ l -> ~ hit blkno dsk (buf st y)) ->
  0 <= blkno < 4294967296 -> is_Some (drives st !! dsk) -> primary dsk blkno ->
  data = v dsk blkno ->
  let st1 := on_buf x (fun b => with_id dsk blkno (with_flag (Z.lor BFR_VALID BFR_DATA) b))
               (on_buf x (with_data data) st) in
  repr st1 l v.
Proof.
  intros Hr Hx Hnd Hmiss Hb Hd Hp Hdata. cbv zeta. set (st1 := on_buf _ _ (on_buf _ _ _)).
  assert (Hbuf : forall y, buf st1 y = if decide (y = x) then
      with_id dsk blkno (with_flag (Z.lor BFR_VALID BFR_DATA) (with_data data (buf st x))) else buf st y).
  { intros y. subst st1. rewrite !buf_on_buf. case_decide; [|done]. by rewrite decide_True. }
  assert (Hsec : forall u n, sector st1 u n = sector st u n) by done.
  assert (Hdrp : drives st1 = drives st /\ dpbs st1 = dpbs st /\ firstbuf st1 = firstbuf st) by done.
  assert (Hring : ring (bufs st1) (firstbuf st1) l).
  { cbn. apply ring_upd; [done|]. apply ring_upd; [done|]. apply Hr. }
  clearbody st1. destruct Hdrp as (Hdr & Hdp & Hfst).
  split; try done.
  - apply Hr.
  - unfold drives_ok. rewrite Hdr, Hdp. apply Hr.
  - assert (Hclash : forall y, y ∈ l -> y <> x -> valid (buf st y) ->
      ~ (b_unit (buf st y) = dsk /\ b_blkno (buf st y) = blkno)).
    { intros y Hy _ Hv [E1 E2]. by apply (Hmiss y Hy). }
    intros y z Hy Hz Hvy Hvz [E1 E2]. rewrite !Hbuf in *.
    do 2 case_decide; subst; try done; cbn in E1, E2.
    + exfalso. by apply (Hclash z).
    + exfalso. by apply (Hclash y).
    + by apply (r_uniq _ _ _ Hr).
  - intros y Hy Hv. rewrite Hbuf in *. case_decide; [cbn; rewrite Hdr; done|]. rewrite Hdr. by apply (r_blk _ _ _ Hr).
  - intros y Hy Hv. rewrite Hbuf in *. case_decide.
    + unfold copies_ok, copies_of. cbn. split; [lia|]. intros i Hi. lia.
    + eapply same_place_copies; [done| |by apply (r_copies _ _ _ Hr)]. done.
  - intros y Hy Hv. rewrite Hbuf in *. case_decide; [by subst|]. by apply (r_cached _ _ _ Hr).
  - intros u n Hpr Hno. rewrite Hsec. apply (r_disk _ _ _ Hr); [done|].
    intros y Hy Hv Hdy Hid. destruct (decide (y = x)) as [->|Hne]; [by apply Hnd|].
    apply (Hno y Hy); rewrite !Hbuf, !decide_False by done; done.
Qed.

Lemma repr_dev (st st' : bio D) l v :
  dev_only st st' -> (forall u n, sector st' u n = sector st u n) -> repr st l v -> repr st' l v.
Proof.
  intros (H1 & H2 & H3 & H4 & _) Hs Hr.
  assert (Hb : forall x, buf st' x = buf st x) by (intros; unfold buf; by rewrite H1).
  eapply repr_step; [exact Hr| |done|done|done| |].
  - rewrite H1, H2. apply Hr.
  - intros x Hx. rewrite Hb. intros Hv. split_and!; [done|done|]. by apply (r_cached _ _ _ Hr).
  - intros u n Hp Hn. rewrite Hs. apply (r_disk _ _ _ Hr); [done|]. intros x Hx. rewrite <- Hb. by apply Hn.
Qed.

Lemma repr_same_bufs (st st' : bio D) l v :
  (forall x, buf st' x = buf st x) -> firstbuf st' = firstbuf st -> drives st' = drives st ->
  dpbs st' = dpbs st -> (forall u n, sector st' u n = sector st u n) -> repr st l v -> repr st' l v.
Proof.
  intros Hb H2 H3 H4 Hs Hr. eapply repr_step; [exact Hr| |done|done|done| |].
  - rewrite H2. eapply ring_ext; [|apply Hr]. intros x. pose proof (Hb x) as Hx. unfold buf in Hx. by rewrite Hx.
  - intros x Hx. rewrite Hb. intros Hv. split_and!; [done|done|]. by apply (r_cached _ _ _ Hr).
  - intros u n Hp Hn. rewrite Hs. apply (r_disk _ _ _ Hr); [done|]. intros x Hx. rewrite <- Hb. by apply Hn.
Qed.

(** The part of [getblk] after a miss. *)
Lemma fill_spec fuel (st : bio D) l v x dsk blkno :
  repr st l v -> x ∈ l -> (forall y, y ∈ l -> ~ hit blkno dsk (buf st y)) ->
  0 <= blkno < 4294967296 -> is_Some (drives st !! dsk) -> primary dsk blkno ->
  exists r st', fill_buffer (S fuel) x blkno dsk false st = Some (r, st') /\
    firstbuf st' = firstbuf st /\ same_globals st st' /\ (reliable -> r = Some x) /\
    match r with
    | Some y => y = x /\ repr st' l v /\ hit blkno dsk (buf st' x) /\ ~ uncached (buf st' x) /\
        (forall y, y <> x -> buf st' y = buf st y)
    | None => deblocked st = false -> exists v', repr st' l v' /\
        forall u n, ~ (b_unit (buf st x) = u /\ b_blkno (buf st x) = n) -> v' u n = v u n
    end.
Proof.
  intros Hr Hx Hmiss Hb Hd Hp. unfold fill_buffer.
  destruct (flush1_spec fuel st l v x Hr Hx)
    as (ok & st2 & v2 & -> & Hr2 & Hv2 & Hok & Hnd & Hinv & Hbufs & Hfst & Hdr & Hdp & Hdb & Hrel).
  destruct ok; cbn [negb].
  2: { exists None, st2. split_and!; try done. { intros Hre. by specialize (Hrel Hre). } intros _. by exists v2. }
  rewrite Hok in * by done. clear v2 Hv2 Hok Hinv.
  assert (Hbuf2 : forall y, buf st2 y = if decide (y = x) then undirty (buf st x) else buf st y).
  { intros y. unfold buf. rewrite Hbufs. case_decide; [subst; apply upd_buf_eq | by apply upd_buf_ne]. }
  assert (Hmiss2 : forall y, y ∈ l -> ~ hit blkno dsk (buf st2 y)).
  { intros y Hy. rewrite Hbuf2. case_decide as Hyx; [subst y|by apply Hmiss].
    destruct (undirty_facts (buf st x)) as (Hu1 & _ & (E1 & E2 & _) & _). unfold hit. rewrite Hu1, E1, E2.
    by apply Hmiss. }
  destruct (dskxfer_read fuel true dsk blkno (b_buffer (buf st2 x)) st2 Hb)
    as (rc & data & st3 & -> & Hf & Hs & Hrc0 & Hrc1 & Hrel2); [by rewrite Hdr|].
  pose proof Hf as (Hf1 & Hf2 & Hf3 & Hf4 & _ & Hf6).
  pose proof (repr_dev st2 st3 l v Hf Hs Hr2) as Hr3.
  assert (Hbuf3 : forall y, buf st3 y = buf st2 y) by (intros; unfold buf; by rewrite Hf1).
  assert (Hglob : same_globals st st3).
  { unfold same_globals. split_and!; congruence. }
  destruct (Z.eqb_spec rc 0) as [->|Hne]; cbn [negb].
  - eexists (Some x), _. split; [done|]. split_and!; try done; [cbn; congruence| | | |].
    + eapply (fill_repr st3 l v x dsk blkno data (deblock_buf st3) (dev st3)); try done.
      * by rewrite Hbuf3.
      * intros y Hy. rewrite Hbuf3. by apply Hmiss2.
      * by rewrite Hf3, Hdr.
      * rewrite Hrc0 by done. apply (r_disk _ _ _ Hr2); [done|].
        intros y Hy Hv _ [E1 E2]. by apply (Hmiss2 y Hy).
    + rewrite !buf_on_buf, decide_True by done. by repeat split.
    + rewrite !buf_on_buf, decide_True by done. unfold uncached. by vm_compute.
    + intros y Hy. rewrite !buf_on_buf, !decide_False by done. rewrite Hbuf3, Hbuf2. by rewrite decide_False.
  - eexists None, _. split; [done|]. split_and!; [cbn; congruence|done| |].
    { intros Hre. by specialize (Hrel2 Hre). }
    intros Hdeb. exists v. split; [|done].
    assert (data = b_buffer (buf st2 x)) as -> by (apply Hrc1; [done|congruence]).
    eapply (repr_same_bufs st3); try done. intros y. rewrite buf_on_buf. case_decide; [|done].
    subst y. rewrite Hbuf3. by destruct (buf st2 x).
Qed.

Lemma getblk_spec fuel (st : bio D) l v blkno dsk :
  repr st l v -> (length l <= fuel)%nat -> (0 < fuel)%nat ->
  0 <= blkno < 4294967296 -> is_Some (drives st !! dsk) -> primary dsk blkno ->
  exists r st' l', getblk fuel blkno dsk false st = Some (r, st') /\ l' ≡ₚ l /\ same_globals st st' /\
    (reliable -> is_Some r) /\
    match r with
    | Some x => repr st' l' v /\ x ∈ l' /\ firstbuf st' = x /\ hit blkno dsk (buf st' x) /\
        ~ uncached (buf st' x) /\ (forall y, y <> x -> same_links_only (buf st y) (buf st' y)) /\
        (is_fat (buf st (firstbuf st)) -> ~ uncached (buf st (firstbuf st)) -> (2 <= length l)%nat ->
           ~ hit blkno dsk (buf st (firstbuf st)) -> x <> firstbuf st)
    | None => deblocked st = false -> exists v' u0 n0, repr st' l' v' /\
        forall u n, ~ (u0 = u /\ n0 = n) -> v' u n = v u n
    end.
Proof.
  intros Hr Hlen Hfuel Hb Hd Hp. unfold getblk.
  destruct (searchblock_spec fuel st l v blkno dsk Hr Hlen)
    as (x & st1 & l' & -> & Hr1 & Hperm & Hfst & (Hdr & Hdp & Hdb) & Hx & Hother & Hcase).
  assert (Hx' : x ∈ l') by (by rewrite Hperm).
  destruct Hcase as [(Hh0 & Hh & Hun)|(Hun & Hmiss & Hkeep)].
  - unfold uncached in Hun. destruct (has BFR_UNCACHE _) eqn:E; [done|]. cbn [negb].
    exists (Some x), st1, l'. split; [done|]. split_and!; try done.
    + unfold uncached. by rewrite E.
    + intros _ _ _ Hnh ->. by apply Hnh.
  - unfold uncached in Hun. rewrite Hun. cbn [negb].
    destruct fuel as [|fuel]; [lia|].
    destruct (fill_spec fuel st1 l' v x dsk blkno Hr1 Hx') as (r & st' & -> & Hfst' & (Hdr' & Hdp' & Hdb') & Hrel & Hr');
      try done.
    { intros y Hy. apply Hmiss. by rewrite <- Hperm. }
    { by rewrite Hdr. }
    exists r, st', l'. split; [done|]. split_and!; [done|unfold same_globals; split_and!; congruence| |].
    { intros Hre. rewrite Hrel by done. by eexists. }
    destruct r as [y|].
    + destruct Hr' as (-> & Hr' & Hh' & Hun' & Hsame). split_and!; try done; [congruence| |].
      * intros y Hy. rewrite Hsame by done. by apply Hother.
      * intros ? ? ? _. by apply Hkeep.
    + intros Hdeb. destruct Hr' as (v' & Hr' & Hv'); [congruence|]. by exists v', (b_unit (buf st1 x)), (b_blkno (buf st1 x)).
Qed.

(** ** The loops over the ring *)

Definition same_ring (st st' : bio D) : Prop :=
  firstbuf st' = firstbuf st /\
  forall x, b_next (buf st' x) = b_next (buf st x) /\ b_prev (buf st' x) = b_prev (buf st x).

#[export] Instance same_ring_preorder : PreOrder same_ring.
Proof.
  split; [by intros st|]. intros a b c [H1 H2] [H3 H4]. split; [congruence|].
  intros x. destruct (H2 x), (H4 x). split; congruence.
Qed.

Lemma same_ring_upd (st : bio D) x g st' :
  (forall b, b_next (g b) = b_next b /\ b_prev (g b) = b_prev b) ->
  bufs st' = upd_buf x g (bufs st) -> firstbuf st' = firstbuf st -> same_ring st st'.
Proof.
  intros Hg Hb Hf. split; [done|]. intros y. unfold buf. rewrite Hb.
  destruct (decide (y = x)) as [->|]; [rewrite upd_buf_eq; apply Hg | by rewrite upd_buf_ne].
Qed.

(** A loop whose body keeps the links visits every buffer of the ring once. *)
Lemma for_ring_ok_spec (I : list Z -> bool -> bio D -> Prop) (body : Z -> bio D -> option (bool * bio D))
    (first : Z) (l0 : list Z) :
  (forall seen y ok st, I seen ok st -> y ∈ l0 -> exists ok1 st', body y st = Some (ok1, st') /\
     I (seen ++ [y]) (ok && ok1) st' /\ same_ring st st') ->
  forall l seen x ok st fuel, path (bufs st) (x :: l ++ [first]) -> firstbuf st = first -> first ∉ l ->
    (forall y, y ∈ x :: l -> y ∈ l0) -> (length l < fuel)%nat -> I seen ok st ->
    exists ok' st', for_ring_ok fuel body x ok st = Some (ok', st') /\ I (seen ++ x :: l) ok' st'.
Proof.
  intros Hbody l. induction l as [|y l IH]; intros seen x ok st fuel Hp Hfst Hf Hin Hl HI;
    (destruct fuel as [|fuel]; [cbn in Hl; lia|]); cbn [for_ring_ok];
    (destruct (Hbody seen x ok st HI) as (ok1 & st' & -> & HI' & [Hf' Hlinks]); [apply Hin; by left|]);
    rewrite (proj1 (Hlinks x)), Hf', Hfst.
  - destruct Hp as [[Hn _] _]. unfold buf. rewrite Hn, Z.eqb_refl. by eexists _, _.
  - change (path (bufs st) (x :: y :: l ++ [first])) in Hp. rewrite path_cons2 in Hp. destruct Hp as [[Hn _] Hp].
    unfold buf. rewrite Hn. destruct (Z.eqb_spec y first) as [->|_]; [by destruct Hf; left|].
    destruct (IH (seen ++ [x]) y (ok && ok1) st' fuel) as (ok' & st2 & -> & HI2); try done.
    + eapply path_ext; [| |exact Hp]; intros z _; apply Hlinks.
    + by rewrite Hf'.
    + intros ?. apply Hf. by right.
    + intros z Hz. apply Hin. by right.
    + cbn in Hl. lia.
    + exists ok', st2. split; [done|]. by rewrite <- app_assoc in HI2.
Qed.

Lemma unvalid_repr (st : bio D) l v x :
  repr st l v -> x ∈ l -> ~ dirty (buf st x) ->
  repr (on_buf x (fun b => with_flag (clear BFR_VALID (b_flag b)) b) st) l v.
Proof.
  intros Hr Hx Hnd. set (st' := on_buf _ _ _).
  assert (Hb : forall y, buf st' y = if decide (y = x) then unvalid (buf st x) else buf st y)
    by (intros; apply buf_on_buf).
  destruct (unvalid_facts (buf st x)) as [Hi _].
  eapply repr_step; [exact Hr| |done|done|done| |].
  - cbn. apply ring_upd; [done|apply Hr].
  - intros y Hy. rewrite Hb. case_decide; [by intros ?|]. intros Hv.
    split_and!; [done|done|by apply (r_cached _ _ _ Hr)].
  - intros u n Hp Hn. apply (r_disk _ _ _ Hr); [done|]. intros y Hy Hv Hd Hid.
    destruct (decide (y = x)) as [->|Hne]; [done|].
    apply (Hn y Hy); rewrite Hb, decide_False by done; done.
Qed.

Lemma flush_spec fuel (st : bio D) l v :
  repr st l v -> (length l <= fuel)%nat ->
  exists ok st', flush fuel st = Some (ok, st') /\ (forall x, x ∈ l -> ~ valid (buf st' x)) /\
    (ok = true -> forall u n, primary u n -> sector st' u n = v u n) /\ (reliable -> ok = true).
Proof.
  intros Hr Hl. pose proof (r_ring _ _ _ Hr) as (r & El & Hnd & Hp).
  assert (Hfr : firstbuf st ∉ r) by (rewrite El in Hnd; by apply list.NoDup_cons in Hnd as [? _]).
  set (I := fun (seen : list Z) (ok : bool) (st' : bio D) =>
    exists v', repr st' l v' /\ (ok = true -> v' = v) /\ (reliable -> ok = true) /\
      forall y, y ∈ seen -> ~ valid (buf st' y)).
  edestruct (for_ring_ok_spec I (fun bp st => let* (ok, st) := flush1 fuel bp st in
      Some (ok, on_buf bp (fun b => with_flag (clear BFR_VALID (b_flag b)) b) st))
    (firstbuf st) l) with (l := r) (seen := @nil Z) (x := firstbuf st) (ok := true) (st := st) (fuel := fuel)
    as (ok & st' & Hrun & v' & Hr' & Hok & Hrel & Hinv).
  - intros seen y ok s (v' & Hr' & Hok & Hrel & Hinv) Hy. destruct fuel as [|fuel]; [subst l; cbn in Hl; lia|].
    destruct (flush1_spec fuel s l v' y Hr' Hy)
      as (ok1 & s1 & v1 & -> & Hr1 & _ & Hv1 & Hnd1 & _ & Hbufs & Hfst & Hdr & Hdp & _ & Hrel1).
    eexists ok1, _. split; [done|]. split.
    + exists v1. split; [by apply unvalid_repr|]. split.
      * intros [-> ->]%andb_true_iff. rewrite Hv1 by done. by apply Hok.
      * split. { intros Hre. by rewrite Hrel, Hrel1. }
        intros z Hz. rewrite buf_on_buf. case_decide as Hzy; [apply unvalid_facts|].
        apply elem_of_app in Hz as [Hz| ->%list_elem_of_singleton]; [|done].
        unfold buf. rewrite Hbufs, upd_buf_ne by done. by apply Hinv.
    + etransitivity; [|eapply same_ring_upd; [|reflexivity|reflexivity]; done].
      eapply same_ring_upd; [|exact Hbufs|done]. intros b. by destruct ok1.
  - rewrite El in Hp. exact Hp.
  - done.
  - done.
  - intros y Hy. by rewrite El.
  - rewrite El in Hl. cbn in Hl. lia.
  - exists v. split_and!; try done. intros y Hy. by apply elem_of_nil in Hy.
  - exists ok, st'. rewrite El. cbn [app] in Hinv. split_and!; try done.
    intros Ht u n Hpr. rewrite <- (Hok Ht). apply (r_disk _ _ _ Hr'); [done|].
    intros x Hx Hv. exfalso. rewrite El in Hx. by apply (Hinv x).
Qed.

(** The buffers of one drive written out: none is dirty afterwards, and when all
    writes succeeded the image is as before and on the medium. *)
Lemma flush_buffers_spec fuel (st : bio D) l v dsk :
  repr st l v -> (length l <= fuel)%nat ->
  exists ok st' v', flush_buffers fuel dsk st = Some (ok, st') /\ repr st' l v' /\ (ok = true -> v' = v) /\
    drives st' = drives st /\ dpbs st' = dpbs st /\ (reliable -> ok = true) /\
    (ok = true -> forall n, primary dsk n -> sector st' dsk n = v dsk n).
Proof.
  intros Hr Hl. pose proof (r_ring _ _ _ Hr) as (r & El & Hnd & Hp).
  assert (Hfr : firstbuf st ∉ r) by (rewrite El in Hnd; by apply list.NoDup_cons in Hnd as [? _]).
  set (I := fun (seen : list Z) (ok : bool) (st' : bio D) =>
    exists v', repr st' l v' /\ (ok = true -> v' = v) /\ (reliable -> ok = true) /\
      drives st' = drives st /\ dpbs st' = dpbs st /\
      forall y, y ∈ seen -> b_unit (buf st' y) = dsk -> ~ dirty (buf st' y)).
  edestruct (for_ring_ok_spec I (fun bp st => if b_unit (buf st bp) =? dsk then flush1 fuel bp st else Some (true, st))
    (firstbuf st) l) with (l := r) (seen := @nil Z) (x := firstbuf st) (ok := true) (st := st) (fuel := fuel)
    as (ok & st' & Hrun & v' & Hr' & Hok & Hrel & Hdr & Hdp & Hinv).
  - intros seen y ok s (v' & Hr' & Hok & Hrel & Hdr & Hdp & Hinv) Hy.
    destruct fuel as [|fuel]; [subst l; cbn in Hl; lia|]. destruct (Z.eqb_spec (b_unit (buf s y)) dsk) as [Hu|Hu].
    + destruct (flush1_spec fuel s l v' y Hr' Hy)
        as (ok1 & s1 & v1 & -> & Hr1 & _ & Hv1 & Hnd1 & _ & Hbufs & Hfst & Hdr1 & Hdp1 & _ & Hrel1).
      eexists ok1, s1. split; [done|]. split.
      * exists v1. split; [done|]. split; [intros [-> ->]%andb_true_iff; rewrite Hv1 by done; by apply Hok|].
        split; [intros Hre; by rewrite Hrel, Hrel1|]. split; [congruence|]. split; [congruence|].
        intros z Hz. destruct (decide (z = y)) as [->|Hzy]; [by intros _|].
        apply elem_of_app in Hz as [Hz| ->%list_elem_of_singleton]; [|done].
        unfold buf. rewrite Hbufs, upd_buf_ne by done. by apply Hinv.
      * eapply same_ring_upd; [|exact Hbufs|done]. intros b. by destruct ok1.
    + exists true, s. split; [done|]. split; [|done]. exists v'. rewrite andb_true_r. split_and!; try done.
      intros z [Hz| ->%list_elem_of_singleton]%elem_of_app; [by apply Hinv|done].
  - rewrite El in Hp. exact Hp.
  - done.
  - done.
  - intros y Hy. by rewrite El.
  - rewrite El in Hl. cbn in Hl. lia.
  - exists v. split_and!; try done. intros y Hy. by apply elem_of_nil in Hy.
  - exists ok, st', v'. cbn [app] in Hinv. split_and!; try done.
    intros Ht n Hpr. rewrite <- (Hok Ht). apply (r_disk _ _ _ Hr'); [done|].
    intros x Hx Hv Hd [Hu _]. rewrite El in Hx. by apply (Hinv x).
Qed.

(** ** Storing into a buffer *)

(** What a client may do with a buffer it got: keep the block it stands for, keep
    it valid, and mark it dirty if it changes the data. *)
Lemma store_repr (st : bio D) l v v' x b' :
  repr st l v -> x ∈ l -> valid (buf st x) ->
  b_next b' = b_next (buf st x) -> b_prev b' = b_prev (buf st x) ->
  b_unit b' = b_unit (buf st x) -> b_blkno b' = b_blkno (buf st x) -> valid b' -> copies_ok st b' ->
  (dirty b' \/ b_buffer b' = b_buffer (buf st x) /\ ~ dirty (buf st x)) ->
  v' (b_unit b') (b_blkno b') = b_buffer b' ->
  (forall u n, ~ (b_unit b' = u /\ b_blkno b' = n) -> v' u n = v u n) ->
  repr (on_buf x (fun _ => b') st) l v'.
Proof.
  intros Hr Hx Hv Hn Hp Hu Hb Hv' Hc Hd Heq Hne. set (st' := on_buf _ _ _).
  assert (Hbuf : forall y, buf st' y = if decide (y = x) then b' else buf st y) by (intros; apply buf_on_buf).
  assert (Hid : forall y, y ∈ l -> y <> x -> valid (buf st y) -> ~ (b_unit b' = b_unit (buf st y) /\ b_blkno b' = b_blkno (buf st y))).
  { intros y Hy Hyx Hvy [E1 E2]. apply Hyx. apply (r_uniq _ _ _ Hr); try done. split; congruence. }
  split.
  - cbn. eapply ring_ext; [|apply Hr]. intros y. specialize (Hbuf y). unfold buf in Hbuf. cbn in Hbuf.
    rewrite Hbuf. case_decide; [subst; by rewrite Hn, Hp|done].
  - apply Hr.
  - apply (r_drives _ _ _ Hr).
  - intros y z Hy Hz Hvy Hvz [E1 E2]. rewrite !Hbuf in *. do 2 case_decide; subst; try done.
    + exfalso. by apply (Hid z).
    + exfalso. by apply (Hid y).
    + by apply (r_uniq _ _ _ Hr).
  - intros y Hy Hvy. rewrite Hbuf in *. case_decide; [subst; rewrite Hu, Hb|]; by apply (r_blk _ _ _ Hr).
  - intros y Hy Hvy. rewrite Hbuf in *. case_decide; [done|]. by apply (r_copies _ _ _ Hr).
  - intros y Hy Hvy. rewrite Hbuf in *. case_decide; [done|]. rewrite Hne by (by apply Hid).
    by apply (r_cached _ _ _ Hr).
  - intros u n Hpr Hno. change (sector st' u n) with (sector st u n).
    destruct (decide (b_unit b' = u /\ b_blkno b' = n)) as [[<- <-]|Hun].
    + destruct Hd as [Hd|[Hd Hnd]].
      * exfalso. apply (Hno x Hx); rewrite Hbuf, decide_True by done; done.
      * rewrite Heq, Hd, Hu, Hb. rewrite (r_cached _ _ _ Hr) by done.
        apply (r_disk _ _ _ Hr); [rewrite <- Hu, <- Hb; done|]. intros y Hy Hvy Hdy [E1 E2].
        assert (y = x) as -> by (by apply (r_uniq _ _ _ Hr)). done.
    + rewrite Hne by done. apply (r_disk _ _ _ Hr); [done|]. intros y Hy Hvy Hdy Hyid.
      destruct (decide (y = x)) as [->|Hyx]; [apply Hun; destruct Hyid; split; congruence|].
      apply (Hno y Hy); rewrite Hbuf, decide_False by done; done.
Qed.

(** ** The properties *)

(** C30: The cache is transparent: getting a block with the cache in order returns
    (when the driver completes its requests, always) a buffer at the head of the
    ring that holds that block of the disk image; the image is unchanged although
    another buffer may have been written out and recycled, no other buffer's
    contents change, and the ring is a permutation of what it was.  When the
    driver fails and transfers are direct, the null pointer comes back and at most
    one block of the image is lost.  The handler of critical errors answers with
    abort or fail, and does not let the transfer go on ([DeviceLaws]). *)
Theorem getblk_correct fuel (st : bio D) l v blkno dsk :
  repr st l v -> (length l <= fuel)%nat -> (0 < fuel)%nat ->
  0 <= blkno < 4294967296 -> is_Some (drives st !! dsk) -> primary dsk blkno ->
  exists r st' l', getblk fuel blkno dsk false st = Some (r, st') /\ l' ≡ₚ l /\ same_globals st st' /\
    (reliable -> is_Some r) /\
    match r with
    | Some x => repr st' l' v /\ x ∈ l' /\ firstbuf st' = x /\ hit blkno dsk (buf st' x) /\
        ~ uncached (buf st' x) /\ (forall y, y <> x -> same_links_only (buf st y) (buf st' y)) /\
        (is_fat (buf st (firstbuf st)) -> ~ uncached (buf st (firstbuf st)) -> (2 <= length l)%nat ->
           ~ hit blkno dsk (buf st (firstbuf st)) -> x <> firstbuf st)
    | None => deblocked st = false -> exists v' u0 n0, repr st' l' v' /\
        forall u n, ~ (u0 = u /\ n0 = n) -> v' u n = v u n
    end.
Proof. apply getblk_spec. Qed.

(** C35: Flushing visits every buffer once and leaves none valid; when all writes
    succeeded, as they do with a driver that completes its requests, the medium
    holds the disk image. *)
Theorem flush_correct fuel (st : bio D) l v :
  repr st l v -> (length l <= fuel)%nat ->
  exists ok st', flush fuel st = Some (ok, st') /\ (forall x, x ∈ l -> ~ valid (buf st' x)) /\
    (ok = true -> forall u n, primary u n -> sector st' u n = v u n) /\ (reliable -> ok = true).
Proof. apply flush_spec. Qed.

End spec.

(** Moving a buffer to the front of the ring relinks exactly that: the ring
    visits the moved buffer first and the others in their old order, in both
    directions. *)
Theorem move_buffer_correct m first l1 bp l2 :
  ring m first (first :: l1 ++ bp :: l2) ->
  ring (move_buffer bp first m) bp (bp :: first :: l1 ++ l2).
Proof. apply move_buffer_ring. Qed.

(** ** A concrete driver and cache

    The medium is a map from sectors to contents; sector 7 cannot be read. *)

Notation medium := (gmap (Z * Z * Z) (list Z)).

#[export] Instance medium_device : Device medium := {
  execrh dv rq data d :=
    let key := (dv, r_unit rq, rq_blkno rq) in
    if r_command rq =? C_INPUT then
      if rq_blkno rq =? 7 then (Z.lor S_ERROR S_DONE, data, d) else (S_DONE, default [] (d !! key), d)
    else (S_DONE, data, <[key := data]> d);
  block_error _ _ _ _ d := (FAIL, d);
  dev_attr _ := 0;
  caller_high _ := false }.

#[export] Instance medium_laws : DeviceLaws medium.
Proof.
  refine {| sect d dv u b := default [] (d !! (dv, u, b)) |}.
  - cbn. intros dv rq data d status out d' H Hc _. rewrite Hc in H. cbn in H.
    destruct (Z.eqb_spec (rq_blkno rq) 7); injection H as <- <- <-; by vm_compute.
  - cbn. intros dv rq data d status out d' H Hc _.
    assert ((r_command rq =? C_INPUT) = false) as Hn by (destruct Hc as [-> | ->]; done).
    rewrite Hn in H. injection H as <- <- <-. split.
    + intros dv' u b Hne. by rewrite lookup_insert_ne by congruence.
    + cbn. by rewrite lookup_insert_eq.
  - cbn. intros _ _ _ _ d answer d' [= <- <-]. split; [by right|done].
Defined.

(** Two buffers at offsets 100 and 200, of drive 3: block 5, changed since it was
    read, and block 6.  Blocks up to 99 are the clients'; FAT copies go beyond. *)
Definition ex_dpb : dpb := Dpb 3 0 512 0 0 1 2 0 0 0 0 0 9 0xf8 0 0 0 0 0 0 0 0 0 10 0 0.

Definition ex_primary (u n : Z) : Prop := n < 100.

Definition ex_medium : medium :=
  list_to_map [((9, 0, 4), [4]); ((9, 0, 5), [5]); ((9, 0, 6), [6])].

Definition ex_bio (deblocked : bool) : bio medium :=
  Bio (list_to_map [(100, Buf 200 200 3 (Z.lor BFR_VALID (Z.lor BFR_DIRTY BFR_DATA)) 5 0 0 0 [55]);
                    (200, Buf 100 100 3 (Z.lor BFR_VALID BFR_DATA) 6 0 0 0 [6])])
    100 {[ 3 := 77 ]} {[ 77 := ex_dpb ]} false [99] deblocked ex_medium.

Definition ex_image (u n : Z) : list Z :=
  if decide (u = 3 /\ n = 5) then [55] else sector (ex_bio false) u n.

Lemma ex_bio_cases x : x ∈ [100; 200] -> x = 100 \/ x = 200.
Proof. rewrite elem_of_cons, list_elem_of_singleton. done. Qed.

Lemma ex_bio_repr d : repr ex_primary (ex_bio d) [100; 200] ex_image.
Proof.
  split.
  - exists [200]. split; [done|]. split; [|by vm_compute].
    apply list.NoDup_cons. split; [by intros ?%list_elem_of_singleton|]. apply NoDup_singleton.
  - by intros [?|?]%ex_bio_cases.
  - unfold drives_ok. cbn [drives ex_bio].
    intros d1 d2 p1 p2 [<- _]%lookup_singleton_Some [<- _]%lookup_singleton_Some. done.
  - intros x y [-> | ->]%ex_bio_cases [-> | ->]%ex_bio_cases _ _ [_ E]; (done || vm_compute in E; congruence).
  - intros x [-> | ->]%ex_bio_cases _; (split; [vm_compute; split; congruence|]);
      (split; [by eexists|by vm_compute]).
  - intros x [-> | ->]%ex_bio_cases _; unfold copies_ok; cbn; split; lia.
  - by intros x [-> | ->]%ex_bio_cases _.
  - intros u n _ Hn. unfold ex_image. case_decide as Hc; [|by destruct d].
    destruct Hc as [-> ->]. exfalso. by apply (Hn 100); [left|..].
Qed.

(** Block 4 takes the place of block 6, block 5 is still changed in memory. *)
Lemma getblk_correct_witness :
  exists r st' l', getblk 5 4 3 false (ex_bio false) = Some (r, st') /\ l' ≡ₚ [100; 200] /\
    same_globals (ex_bio false) st' /\ (reliable (D := medium) -> is_Some r) /\
    match r with
    | Some x => repr ex_primary st' l' ex_image /\ x ∈ l' /\ firstbuf st' = x /\ hit 4 3 (buf st' x) /\
        ~ uncached (buf st' x) /\
        (forall y, y <> x -> same_links_only (buf (ex_bio false) y) (buf st' y)) /\
        (is_fat (buf (ex_bio false) 100) -> ~ uncached (buf (ex_bio false) 100) -> (2 <= 2)%nat ->
           ~ hit 4 3 (buf (ex_bio false) 100) -> x <> 100)
    | None => false = false -> exists v' u0 n0, repr ex_primary st' l' v' /\
        forall u n, ~ (u0 = u /\ n0 = n) -> v' u n = ex_image u n
    end.
Proof.
  apply (getblk_correct ex_primary 5 (ex_bio false) [100; 200] ex_image 4 3);
    [apply ex_bio_repr | cbn; lia | lia | lia | by eexists | done].
Defined.

Lemma flush_correct_witness :
  exists ok st', flush 5 (ex_bio false) = Some (ok, st') /\
    (forall x, x ∈ [100; 200] -> ~ valid (buf st' x)) /\
    (ok = true -> forall u n, ex_primary u n -> sector st' u n = ex_image u n) /\
    (reliable (D := medium) -> ok = true).
Proof.
  apply (flush_correct ex_primary 5 (ex_bio false) [100; 200] ex_image); [apply ex_bio_repr | cbn; lia].
Defined.

Lemma move_buffer_correct_witness :
  ring (move_buffer 200 100 (bufs (ex_bio false))) 200 [200; 100].
Proof.
  apply (move_buffer_correct (bufs (ex_bio false)) 100 [] 200 []).
  apply (r_ring _ _ _ _ (ex_bio_repr false)).
Defined.

(** When a read fails while transfers go through [deblock_buf], the recycled
    buffer keeps its old identity and stays valid although [deblock_buf] was
    copied into it: the next request for the old block is a hit on wrong data. *)
Theorem stale_after_failed_read :
  exists st1 x st2, getblk 5 7 3 false (ex_bio true) = Some (None, st1) /\
    getblk 5 6 3 false st1 = Some (Some x, st2) /\
    b_buffer (buf st2 x) = [99] /\ sector st2 3 6 = [6] /\ ex_image 3 6 = [6].
Proof.
  eexists _, 200, _. split; [vm_compute; reflexivity|]. split; [vm_compute; reflexivity|].
  by vm_compute.
Qed.
