(* ===== verification/BlockioRange.v ===== *)
(** * Transfers of several sectors

    Reading and writing files moves runs of sectors past the buffers: the buffers
    of the run are written out or forgotten first, then the driver is called.
    The cache's image is what is read and written. *)

From S2P Require Import Prelude Hdr Dpb Blockio BlockioRing BlockioSpec.

(** [k] blocks from [n] on. *)
Definition blocks (f : Z -> list Z) (n k : Z) : list Z := concat (map f (seqZ n k)).

(** Part [i] of some bytes cut into sectors. *)
Definition chunk (data : list Z) (i : Z) : list Z := take 512 (drop (Z.to_nat (512 * i)) data).

(** What a driver is documented to do with a request for several sectors of 512
    bytes that succeeds. *)
Class RangeLaws (D : Type) `{DeviceLaws D} := {
  execrh_read_range device rq data d status out d' :
    execrh device rq data d = (status, out, d') -> r_command rq = C_INPUT -> 1 <= r_count rq ->
    Z.of_nat (length data) = 512 * r_count rq -> done status = true ->
    (forall i, 0 <= i < r_count rq -> length (sect d device (r_unit rq) (rq_blkno rq + i)) = 512%nat) ->
    (forall dv u b, sect d' dv u b = sect d dv u b) /\
    out = blocks (sect d device (r_unit rq)) (rq_blkno rq) (r_count rq);
  execrh_write_range device rq data d status out d' :
    execrh device rq data d = (status, out, d') ->
    r_command rq = C_OUTPUT \/ r_command rq = C_OUTVFY -> 1 <= r_count rq ->
    Z.of_nat (length data) = 512 * r_count rq -> done status = true ->
    (forall dv u b, ~ (dv = device /\ u = r_unit rq /\ rq_blkno rq <= b < rq_blkno rq + r_count rq) ->
       sect d' dv u b = sect d dv u b) /\
    (forall i, 0 <= i < r_count rq -> sect d' device (r_unit rq) (rq_blkno rq + i) = chunk data i);
  execrh_write_buffer device rq data d :
    r_command rq = C_OUTPUT \/ r_command rq = C_OUTVFY -> snd (fst (execrh (D := D) device rq data d)) = data }.

Section range.
  Context {D : Type} `{RangeLaws D} (primary : Z -> Z -> Prop).
  Context (Hrel : reliable (D := D)).

#[local] Abbreviation repr := (repr primary).

Lemma blocks_length f n k : 0 <= k -> (forall i, n <= i < n + k -> length (f i) = 512%nat) ->
  Z.of_nat (length (blocks f n k)) = 512 * k.
Proof.
  intros Hk Hf. unfold blocks. rewrite <- (Z2Nat.id k Hk) in Hf |- *. set (m := Z.to_nat k) in *. clearbody m.
  revert n Hf. induction m as [|m IH]; intros n Hf; [by rewrite seqZ_nil|].
  rewrite seqZ_cons by lia. cbn [map concat]. rewrite length_app, Nat2Z.inj_add, Hf by lia.
  replace (Z.pred (Z.of_nat (S m))) with (Z.of_nat m) by lia.
  rewrite (IH (Z.succ n)); [lia|]. intros i Hi. apply Hf. lia.
Qed.

Lemma blocks_ext f f' n k : (forall i, n <= i < n + k -> f' i = f i) -> blocks f' n k = blocks f n k.
Proof.
  intros Hf. unfold blocks. f_equal. apply map_ext_in. intros i Hi%list_elem_of_In%elem_of_seqZ. apply Hf. lia.
Qed.

Lemma blocks_one f n : blocks f n 1 = f n.
Proof. unfold blocks. rewrite seqZ_cons by lia. rewrite seqZ_nil by lia. cbn. apply app_nil_r. Qed.

Lemma chunk_one data : length data = 512%nat -> chunk data 0 = data.
Proof. intros Hl. unfold chunk. cbn. by rewrite drop_0, take_ge by lia. Qed.

Lemma xfer_reliable high fuel rq mode d data (st : bio D) : mode < DSKWRITEINT26 ->
  let '(status, data', st') := xfer_exec high (dpb_device d) rq mode data st in
  xfer_loop high (S fuel) rq mode d data st = Some (0, data', st').
Proof.
  intros Hm. destruct (xfer_exec _ _ _ _ _ _) as [[status data'] st'] eqn:E. cbn [xfer_loop]. rewrite E.
  fold (done status). unfold xfer_exec in E. destruct (_ && deblocked st).
  - set (inb := deblock_buf _) in E. pose proof (Hrel (dpb_device d) rq inb (dev (if mode =? DSKWRITE then set_deblock data st else st))) as Hr.
    destruct (execrh _ _ _ _) as [[s out] dv]. injection E as <- _ _. cbn in Hr. by rewrite Hr.
  - pose proof (Hrel (dpb_device d) rq data (dev st)) as Hr.
    destruct (execrh _ _ _ _) as [[s out] dv]. injection E as <- _ _. cbn in Hr. by rewrite Hr.
Qed.

(** The request for a range of blocks. *)
Lemma range_request dsk b k data (st : bio D) p mode cmd :
  drives st !! dsk = Some p -> xfer_command st mode = Some cmd -> 0 <= b < 4294967296 ->
  exists rq, r_command rq = cmd /\ r_count rq = k /\ r_unit rq = dpb_subunit (dpbs st !!! p) /\ rq_blkno rq = b /\
    forall fuel high, dskxfer fuel high dsk b data k mode st = xfer_loop high fuel rq mode (dpbs st !!! p) data st.
Proof.
  intros Hp Hc Hb. unfold dskxfer. rewrite Hp, Hc. set (d := dpbs st !!! p). set (huge := has _ _ || _).
  eexists. split; [|split; [|split; [|split; [|intros fuel high; reflexivity]]]]; try done.
  apply rq_blkno_huge; [done|]. intros Hh. subst huge. apply orb_false_iff in Hh as [_ Hh]. by apply Z.leb_gt in Hh.
Qed.

Lemma dskxfer_read_range fuel high dsk b k data (st : bio D) :
  1 <= k -> 0 <= b -> b + k <= 4294967296 -> is_Some (drives st !! dsk) ->
  Z.of_nat (length data) = 512 * k ->
  (forall i, b <= i < b + k -> length (sector st dsk i) = 512%nat) ->
  exists st', dskxfer (S fuel) high dsk b data k DSKREAD st = Some (0, blocks (sector st dsk) b k, st') /\
    dev_only st st' /\ forall u n, sector st' u n = sector st u n.
Proof.
  intros Hk Hb Hbk [p Hp] Hlen Hsec. destruct (decide (k = 1)) as [->|Hk1].
  { destruct (dskxfer_read fuel high dsk b data st) as (rc & data' & st' & E & Hf & Hs & Hd & _ & Hr); [lia|by eexists|].
    rewrite (Hr Hrel), (Hd (Hr Hrel)) in E. exists st'. by rewrite blocks_one. }
  destruct (range_request dsk b k data st p DSKREAD C_INPUT Hp) as (rq & Hc & Hn & Hu & Hblk & ->); [done|lia|].
  pose proof (xfer_reliable high fuel rq DSKREAD (dpbs st !!! p) data st ltac:(done)) as Hx.
  destruct (xfer_exec _ _ _ _ _ _) as [[status data'] st'] eqn:E. pose proof (xfer_exec_frame _ _ _ _ _ _ _ _ _ E) as Hf.
  unfold xfer_exec in E. rewrite Hn, (proj2 (Z.eqb_neq k 1)), andb_false_r in E by done. cbn [andb] in E.
  pose proof (Hrel (dpb_device (dpbs st !!! p)) rq data (dev st)) as Hr.
  destruct (execrh _ _ _ _) as [[s out] dv] eqn:E2. injection E as -> -> <-. cbn in Hr.
  assert (Hsect : forall i, sect (dev st) (dpb_device (dpbs st !!! p)) (r_unit rq) i = sector st dsk i)
    by (intros i; unfold sector; by rewrite Hp, Hu).
  destruct (execrh_read_range _ _ _ _ _ _ _ E2) as [Hsame Hout]; try done; rewrite ?Hn, ?Hblk; try lia.
  { intros i Hi. rewrite Hsect. apply Hsec. lia. }
  rewrite Hn, Hblk in Hout. rewrite (blocks_ext _ _ b k (fun i _ => Hsect i)) in Hout.
  subst data'. exists (set_dev dv st). split; [done|]. split; [done|].
  intros u n. by apply sector_dev_only.
Qed.

(** A write leaves the caller's buffer alone. *)
Lemma dskxfer_write_buffer fuel high dsk b k data (st : bio D) r data' st' : 0 <= b < 4294967296 ->
  is_Some (drives st !! dsk) -> dskxfer (S fuel) high dsk b data k DSKWRITE st = Some (r, data', st') -> data' = data.
Proof.
  intros Hb [p Hp].
  destruct (range_request dsk b k data st p DSKWRITE (if verify_ena st then C_OUTVFY else C_OUTPUT) Hp)
    as (rq & Hc & Hn & Hu & Hblk & ->); [done|lia|].
  pose proof (xfer_reliable high fuel rq DSKWRITE (dpbs st !!! p) data st ltac:(done)) as Hx.
  destruct (xfer_exec _ _ _ _ _ _) as [[status out] st1] eqn:E. rewrite Hx. intros [= _ <- _].
  unfold xfer_exec in E. destruct (_ && deblocked st).
  - destruct (execrh _ _ _ _) as [[s o] dv]. by injection E as _ <- _.
  - pose proof (execrh_write_buffer (dpb_device (dpbs st !!! p)) rq data (dev st)) as Hd.
    destruct (execrh _ _ _ _) as [[s o] dv]. injection E as _ <- _. apply Hd. destruct (verify_ena st); rewrite Hc; auto.
Qed.

Lemma dskxfer_write_range fuel high dsk b k data (st : bio D) :
  1 <= k -> 0 <= b -> b + k <= 4294967296 -> is_Some (drives st !! dsk) -> drives_ok st ->
  Z.of_nat (length data) = 512 * k ->
  exists st', dskxfer (S fuel) high dsk b data k DSKWRITE st = Some (0, data, st') /\ dev_only st st' /\
    (forall u n, ~ (u = dsk /\ b <= n < b + k) -> sector st' u n = sector st u n) /\
    (forall i, 0 <= i < k -> sector st' dsk (b + i) = chunk data i).
Proof.
  intros Hk Hb Hbk [p Hp] Hok Hlen. destruct (decide (k = 1)) as [->|Hk1].
  { destruct (dskxfer_write fuel high dsk b data st) as (rc & data' & st' & E & Hf & Hs & Hd & Hr); [lia|by eexists|done|].
    rewrite (Hr Hrel) in *. specialize (Hd eq_refl).
    assert (data' = data) as -> by (eapply dskxfer_write_buffer; [|by eexists|exact E]; lia).
    exists st'. split; [done|]. split; [done|]. split.
    - intros u n Hne. apply Hs. intros [= -> ->]. apply Hne. lia.
    - intros i Hi. assert (i = 0) as -> by lia. rewrite Z.add_0_r, chunk_one by lia. done. }
  destruct (range_request dsk b k data st p DSKWRITE (if verify_ena st then C_OUTVFY else C_OUTPUT) Hp)
    as (rq & Hc & Hn & Hu & Hblk & ->); [done|lia|].
  assert (Hbuf : snd (fst (xfer_exec high (dpb_device (dpbs st !!! p)) rq DSKWRITE data st)) = data).
  { unfold xfer_exec. rewrite Hn, (proj2 (Z.eqb_neq k 1)), andb_false_r by done. cbn [andb].
    pose proof (execrh_write_buffer (dpb_device (dpbs st !!! p)) rq data (dev st)) as Hd.
    destruct (execrh _ _ _ _) as [[s o] dv]. apply Hd. destruct (verify_ena st); rewrite Hc; auto. }
  pose proof (xfer_reliable high fuel rq DSKWRITE (dpbs st !!! p) data st ltac:(done)) as Hx.
  destruct (xfer_exec _ _ _ _ _ _) as [[status data'] st'] eqn:E. pose proof (xfer_exec_frame _ _ _ _ _ _ _ _ _ E) as Hf.
  cbn in Hbuf. subst data'. unfold xfer_exec in E. rewrite Hn, (proj2 (Z.eqb_neq k 1)), andb_false_r in E by done. cbn [andb] in E.
  pose proof (Hrel (dpb_device (dpbs st !!! p)) rq data (dev st)) as Hr.
  destruct (execrh _ _ _ _) as [[s out] dv] eqn:E2. injection E as -> -> <-. cbn in Hr.
  destruct (execrh_write_range _ _ _ _ _ _ _ E2) as [Hsame Hout]; try done; rewrite ?Hn; try lia.
  { destruct (verify_ena st); rewrite Hc; auto. }
  rewrite Hn, Hblk, Hu in *. exists (set_dev dv st). split; [done|]. split; [done|]. split.
  - intros u n Hne. unfold sector. cbn [drives set_dev dpbs dev].
    destruct (drives st !! u) as [p'|] eqn:Hu'; [|done]. apply Hsame. intros (E1 & E3 & E4). apply Hne.
    split; [|done]. by eapply Hok.
  - intros i Hi. unfold sector. cbn [drives set_dev dpbs dev]. rewrite Hp. by apply Hout.
Qed.

(** ** Making room for a transfer *)

Lemma for_ring_as_ok fuel (body : Z -> bio D -> option (bio D)) : forall x ok st,
  for_ring fuel body x st = snd <$> for_ring_ok fuel (fun x st => pair true <$> body x st) x ok st.
Proof.
  induction fuel as [|fuel IH]; intros x ok st; [done|]. cbn [for_ring for_ring_ok].
  destruct (body x st) as [st'|]; [|done]. cbn. destruct (_ =? firstbuf st'); [done|]. apply IH.
Qed.

(** A loop over the ring, from what its body does to one buffer. *)
Lemma for_ring_spec fuel (I : list Z -> bio D -> Prop) body (st : bio D) l v :
  repr st l v -> (length l <= fuel)%nat -> I [] st ->
  (forall seen y st', I seen st' -> y ∈ l -> exists st2, body y st' = Some st2 /\ I (seen ++ [y]) st2 /\ same_ring st' st2) ->
  exists st', for_ring fuel body (firstbuf st) st = Some st' /\ I l st'.
Proof.
  intros Hr Hl HI0 Hbody. pose proof (r_ring _ _ _ _ Hr) as (r & El & Hnd & Hp).
  assert (Hfr : firstbuf st ∉ r) by (rewrite El in Hnd; by apply list.NoDup_cons in Hnd as [? _]).
  rewrite (for_ring_as_ok _ _ _ true).
  edestruct (for_ring_ok_spec (fun seen (_ : bool) => I seen) (fun x st => pair true <$> body x st) (firstbuf st) l)
    with (l := r) (seen := @nil Z) (x := firstbuf st) (ok := true) (st := st) (fuel := fuel) as (ok & st' & -> & HI).
  - intros seen y ok s HI Hy. destruct (Hbody seen y s HI Hy) as (st2 & -> & HI' & Hs). by exists true, st2.
  - by rewrite El in Hp.
  - done.
  - done.
  - intros y Hy. by rewrite El.
  - rewrite El in Hl. cbn in Hl. lia.
  - done.
  - exists st'. rewrite El. by split.
Qed.

(** A buffer of the run. *)
Definition in_run (lo hi dsk : Z) (b : buffer) : Prop := lo <= b_blkno b <= hi /\ valid b /\ b_unit b = dsk.

Lemma in_run_bool lo hi dsk b :
  (lo <=? b_blkno b) && (b_blkno b <=? hi) && has BFR_VALID (b_flag b) && (b_unit b =? dsk) = true <->
  in_run lo hi dsk b.
Proof. unfold in_run, valid. rewrite !andb_true_iff, !Z.leb_le, Z.eqb_eq. tauto. Qed.

Lemma delete_read fuel (st : bio D) l v lo hi dsk :
  repr st l v -> (0 < length l <= fuel)%nat ->
  exists st', DeleteBlockInBufferCache fuel lo hi dsk XFR_READ st = Some st' /\ repr st' l v /\
    drives st' = drives st /\ dpbs st' = dpbs st /\
    forall n, primary dsk n -> lo <= n <= hi -> sector st' dsk n = v dsk n.
Proof.
  intros Hr Hl. unfold DeleteBlockInBufferCache.
  set (I := fun (seen : list Z) (st' : bio D) => repr st' l v /\ drives st' = drives st /\ dpbs st' = dpbs st /\
    forall y, y ∈ seen -> in_run lo hi dsk (buf st' y) -> ~ dirty (buf st' y)).
  eapply (for_ring_spec fuel I) in Hr as Hloop; [destruct Hloop as (st' & -> & Hr' & Hdr & Hdp & Hno)|lia| |].
  - exists st'. split_and!; try done. intros n Hp Hn. apply (r_disk _ _ _ _ Hr'); [done|].
    intros x Hx Hv Hd [E1 E2]. apply (Hno x Hx); [|done]. split; [lia|done].
  - split_and!; try done. by intros y ?%elem_of_nil.
  - intros seen y s (Hr' & Hdr & Hdp & Hno) Hy. destruct (_ && _) eqn:E.
    + apply in_run_bool in E. destruct fuel as [|fuel]; [lia|].
      destruct (flush1_spec primary fuel s l v y Hr' Hy)
        as (ok & s1 & v1 & -> & Hr1 & _ & Hv1 & Hnd & _ & Hbufs & Hfst & Hdr1 & Hdp1 & _ & Hok).
      rewrite (Hok Hrel) in *. rewrite (Hv1 eq_refl) in Hr1. exists s1. split; [done|]. split.
      * split_and!; [done|congruence|congruence|]. intros z Hz. destruct (decide (z = y)) as [->|Hne]; [done|].
        apply elem_of_app in Hz as [Hz|Hz%list_elem_of_singleton]; [|done]. unfold buf.
        rewrite Hbufs, upd_buf_ne by done. by apply Hno.
      * eapply same_ring_upd; [|exact Hbufs|done]. done.
    + exists s. split; [done|]. split; [|done]. split_and!; try done.
      intros z [Hz|Hz%list_elem_of_singleton]%elem_of_app; [by apply Hno|]. subst z. intros Hrun%in_run_bool. congruence.
Qed.

(** Forgetting a buffer: the block is what the medium has. *)
Lemma forget_repr (st : bio D) l v x :
  repr st l v -> x ∈ l -> valid (buf st x) ->
  exists v', repr (on_buf x (with_flag 0) st) l v' /\
    forall u n, ~ (b_unit (buf st x) = u /\ b_blkno (buf st x) = n) -> v' u n = v u n.
Proof.
  intros Hr Hx Hv. set (b := buf st x). set (st' := on_buf _ _ _).
  exists (fun u n => if decide (b_unit b = u /\ b_blkno b = n) then sector st u n else v u n).
  assert (Hb : forall y, buf st' y = if decide (y = x) then with_flag 0 b else buf st y) by (intros; apply buf_on_buf).
  split; [|intros u n Hne; by rewrite decide_False].
  eapply repr_step; [exact Hr| |done|done|done| |].
  - cbn. apply ring_upd; [done|apply Hr].
  - intros y Hy. rewrite Hb. case_decide as E; [by intros ?|]. intros Hvy. split_and!; [done|done|].
    rewrite decide_False; [by apply (r_cached _ _ _ _ Hr)|]. intros Hid. apply E. symmetry.
    by apply (r_uniq _ _ _ _ Hr).
  - intros u n Hp Hn. case_decide as E; [done|]. change (sector st' u n) with (sector st u n).
    apply (r_disk _ _ _ _ Hr); [done|]. intros y Hy Hvy Hdy Hid. destruct (decide (y = x)) as [->|Hne]; [done|].
    apply (Hn y Hy); rewrite Hb, decide_False by done; done.
Qed.

Lemma delete_write fuel (st : bio D) l v lo hi dsk :
  repr st l v -> (0 < length l <= fuel)%nat ->
  exists st' v', DeleteBlockInBufferCache fuel lo hi dsk XFR_WRITE st = Some st' /\ repr st' l v' /\
    drives st' = drives st /\ dpbs st' = dpbs st /\
    (forall u n, ~ (u = dsk /\ lo <= n <= hi) -> v' u n = v u n) /\
    forall x, x ∈ l -> ~ in_run lo hi dsk (buf st' x).
Proof.
  intros Hr Hl. unfold DeleteBlockInBufferCache.
  set (I := fun (seen : list Z) (st' : bio D) => exists v', repr st' l v' /\ drives st' = drives st /\ dpbs st' = dpbs st /\
    (forall u n, ~ (u = dsk /\ lo <= n <= hi) -> v' u n = v u n) /\
    forall y, y ∈ seen -> ~ in_run lo hi dsk (buf st' y)).
  eapply (for_ring_spec fuel I) in Hr as Hloop; [destruct Hloop as (st' & -> & v' & Hr' & Hrest)|lia| |].
  - by exists st', v'.
  - exists v. split_and!; try done. by intros y ?%elem_of_nil.
  - intros seen y s (v1 & Hr1 & Hdr & Hdp & Hv1 & Hno) Hy. destruct (_ && _) eqn:E.
    + apply in_run_bool in E as Hrun. destruct Hrun as (Hblk & Hvy & Hu).
      change (XFR_WRITE =? XFR_READ) with false. cbv iota.
      destruct (forget_repr s l v1 y Hr1 Hy Hvy) as (v2 & Hr2 & Hv2).
      exists (on_buf y (with_flag 0) s). split; [done|]. split.
      * exists v2. split_and!; try done.
        { intros u n Hne. rewrite Hv2; [by apply Hv1|]. intros [<- <-]. by apply Hne. }
        intros z Hz. rewrite buf_on_buf. case_decide as Ezy; [by intros (_ & ? & _)|].
        apply elem_of_app in Hz as [Hz|Hz%list_elem_of_singleton]; [by apply Hno|done].
      * eapply (same_ring_upd _ y); [|reflexivity|done]. done.
    + exists s. split; [done|]. split; [|done]. exists v1. split_and!; try done.
      intros z [Hz|Hz%list_elem_of_singleton]%elem_of_app; [by apply Hno|]. subst z. intros Hrun%in_run_bool. congruence.
Qed.

(** ** The transfers *)

(** The image with a run of blocks replaced. *)
Definition with_run (v : Z -> Z -> list Z) (dsk n k : Z) (data : list Z) (u b : Z) : list Z :=
  if decide (u = dsk /\ n <= b < n + k) then chunk data (b - n) else v u b.

Lemma read_run fuel high (st : bio D) l v n k dsk data :
  repr st l v -> (0 < length l <= fuel)%nat -> 1 <= k -> 0 <= n -> n + k <= 4294967296 ->
  is_Some (drives st !! dsk) -> (forall i, n <= i < n + k -> primary dsk i /\ length (v dsk i) = 512%nat) ->
  Z.of_nat (length data) = 512 * k ->
  exists s1 s2, DeleteBlockInBufferCache fuel n (n + k - 1) dsk XFR_READ st = Some s1 /\
    dskxfer fuel high dsk n data k DSKREAD s1 = Some (0, blocks (v dsk) n k, s2) /\
    repr s2 l v /\ drives s2 = drives st /\ dpbs s2 = dpbs st.
Proof.
  intros Hr Hl Hk Hn Hnk Hd Hp Hlen. destruct fuel as [|fuel]; [lia|].
  destruct (delete_read (S fuel) st l v n (n + k - 1) dsk Hr) as (s1 & E1 & Hr1 & Hdr & Hdp & Hs); [lia|].
  assert (Hsec : forall i, n <= i < n + k -> sector s1 dsk i = v dsk i) by (intros i Hi; apply Hs; [by apply Hp|lia]).
  destruct (dskxfer_read_range fuel high dsk n k data s1) as (s2 & E2 & Hf & Hsame); try lia; [by rewrite Hdr| |].
  { intros i Hi. rewrite Hsec by done. by apply Hp. }
  pose proof Hf as (_ & _ & Hdr2 & Hdp2 & _). exists s1, s2. rewrite (blocks_ext _ _ n k Hsec) in E2.
  split_and!; try done; [|congruence|congruence]. by apply (repr_dev primary s1).
Qed.

Lemma write_run fuel high (st : bio D) l v n k dsk data :
  repr st l v -> (0 < length l <= fuel)%nat -> 1 <= k -> 0 <= n -> n + k <= 4294967296 ->
  is_Some (drives st !! dsk) -> Z.of_nat (length data) = 512 * k ->
  exists s1 s2, DeleteBlockInBufferCache fuel n (n + k - 1) dsk XFR_WRITE st = Some s1 /\
    dskxfer fuel high dsk n data k DSKWRITE s1 = Some (0, data, s2) /\
    repr s2 l (with_run v dsk n k data) /\ drives s2 = drives st /\ dpbs s2 = dpbs st.
Proof.
  intros Hr Hl Hk Hn Hnk Hd Hlen. destruct fuel as [|fuel]; [lia|].
  destruct (delete_write (S fuel) st l v n (n + k - 1) dsk Hr) as (s1 & v1 & E1 & Hr1 & Hdr & Hdp & Hv1 & Hno); [lia|].
  destruct (dskxfer_write_range fuel high dsk n k data s1) as (s2 & E2 & Hf & Hs & Hc); try lia.
  { by rewrite Hdr. } { apply (r_drives _ _ _ _ Hr1). }
  pose proof Hf as (Hb & Hfst & Hdr2 & Hdp2 & _). exists s1, s2.
  split; [done|]. split; [done|]. split; [|split; congruence].
  assert (Hbuf : forall x, buf s2 x = buf s1 x) by (intros; unfold buf; by rewrite Hb).
  eapply repr_step; [exact Hr1| |done|done|done| |].
  - rewrite Hb, Hfst. apply Hr1.
  - intros x Hx. rewrite Hbuf. intros Hvx. split_and!; [done|done|]. unfold with_run. rewrite decide_False.
    + rewrite <- Hv1; [by apply (r_cached _ _ _ _ Hr1)|]. intros [Eu Eb]. apply (Hno x Hx). split_and!; (done || lia).
    + intros [Eu Eb]. apply (Hno x Hx). split_and!; (done || lia).
  - intros u b Hp Hnd. unfold with_run. case_decide as E.
    + destruct E as [-> Hb']. replace b with (n + (b - n)) at 1 by lia. apply Hc. lia.
    + rewrite Hs by done. rewrite <- Hv1 by (intros [-> ?]; apply E; lia). apply (r_disk _ _ _ _ Hr1); [done|].
      intros x Hx. rewrite <- Hbuf. by apply Hnd.
Qed.

End range.
