(* ===== verification/Initbuf.v ===== *)
(** * The buffers at the start ([kernel/config.c], [kernel/inithma.c])

    The number of buffers asked for in CONFIG.SYS becomes a ring of empty buffers, in the
    high memory area if there is room.  A pointer to a buffer is a number, as in
    [Blockio]; the buffers lie in one segment, so pointers do not wrap.  The ring is the
    one that the theorems on the cache start from. *)

From S2P Require Import Prelude Hdr Dpb Blockio BlockioRing BlockioSpec.

(** A buffer header with its sector.
    hdr/buffer.h:41-54 *)
Definition sizeof_buffer : Z := 532.

(** The number wanted, within its bounds, and the number to be made: in the high memory
    area as many as there is room for, unless the number wanted is negative.
    kernel/config.c:1940-1956 *)
Definition buffer_count (wantedbuffers : Z) (hma : bool) (HMAFree : Z) : Z * Z :=
  let w := if wantedbuffers <? 0 then - wantedbuffers else wantedbuffers in
  let b := if (0 <=? wantedbuffers) && hma then u16 (0xfff0 - HMAFree) / sizeof_buffer else 0 in
  let w := if w <? 6 then 6 else w in
  let w := if 99 <? w then 99 else w in
  (w, if b <? w then w else b).

(** The offset of the memory, if there is room, and the first free byte behind it.
    kernel/inithma.c:283-303 *)
Definition HMAalloc (bytes : Z) (loaded : bool) (HMAFree : Z) : option (Z * Z) :=
  if negb loaded then None
  else if u16 (0xfff0 - bytes) <? HMAFree then None
  else Some (HMAFree, Z.land (u16 (HMAFree + bytes + 0xf)) 0xfff0).

(** The memory as it was cleared.
    kernel/inithma.c:300-300 *)
Fixpoint clear_buffers (n : nat) (p : Z) : gmap Z buffer :=
  match n with
  | O => empty
  | S n => <[p := Buf 0 0 0 0 0 0 0 0 (replicate BUFFERSIZE 0)]> (clear_buffers n (p + sizeof_buffer))
  end.

(** The links between neighbours, and the last buffer.
    kernel/config.c:1986-1994 *)
Fixpoint link_loop (n : nat) (pbuffer : Z) (m : gmap Z buffer) : Z * gmap Z buffer :=
  match n with
  | O => (pbuffer, m)
  | S n =>
      let m := upd_buf pbuffer (with_next (pbuffer + sizeof_buffer)) m in
      let p := pbuffer + sizeof_buffer in
      link_loop n p (upd_buf p (with_prev (p - sizeof_buffer)) m)
  end.

(** The ring of [buffers] buffers from [pbuffer] on.
    kernel/config.c:1983-1995 *)
Definition link_buffers (buffers pbuffer : Z) : gmap Z buffer :=
  let n := buffers - 1 in
  let m := upd_buf pbuffer (with_prev (pbuffer + sizeof_buffer * n)) (clear_buffers (Z.to_nat buffers) pbuffer) in
  let '(p, m) := link_loop (Z.to_nat n) pbuffer m in
  upd_buf p (with_next (p - sizeof_buffer * n)) m.

(** The buffers of the kernel, their number, the first byte of the high memory area that
    is left, and the first buffer that programs may have. *)
Record buffer_start := BufferStart {
  bs_bufs : gmap Z buffer;
  bs_firstbuf : Z;
  bs_nbuffers : Z;
  bs_HMAFree : Z;
  bs_firstAvailable : option Z }.

(** [low] is the memory that [KernelAlloc] gives, [hma] whether [HMAState] says that the
    kernel has been moved, and [high] the number of a pointer into the high memory area.
    kernel/config.c:1937-2011 *)
Definition config_init_buffers (wantedbuffers : Z) (hma loaded : bool) (HMAFree low : Z) (high : Z -> Z) : buffer_start :=
  let '(w, b) := buffer_count wantedbuffers hma HMAFree in
  match HMAalloc (u16 (sizeof_buffer * b)) loaded HMAFree with
  | None => BufferStart (link_buffers b low) low b HMAFree (if hma then Some (high HMAFree) else None)
  | Some (off, free) =>
      BufferStart (link_buffers b (high off)) (high off) b free (Some (high off + sizeof_buffer * w))
  end.

(** ** The ring *)

Fixpoint addrs (n : nat) (p : Z) : list Z :=
  match n with
  | O => []
  | S n => p :: addrs n (p + sizeof_buffer)
  end.

Lemma addrs_ge n p x : x ∈ addrs n p -> p <= x.
Proof.
  revert p. induction n as [|n IH]; intros p; cbn; [by intros ?%elem_of_nil|]. unfold sizeof_buffer in *.
  intros [->|Hx]%elem_of_cons; [lia|]. specialize (IH _ Hx). lia.
Qed.

Lemma addrs_nodup n p : NoDup (addrs n p).
Proof.
  revert p. induction n as [|n IH]; intros p; cbn; [constructor|]. apply list.NoDup_cons. split; [|done].
  intros Hp%addrs_ge. unfold sizeof_buffer in Hp. lia.
Qed.

Lemma addrs_last n p : addrs (S n) p = addrs n p ++ [p + sizeof_buffer * Z.of_nat n].
Proof.
  revert p. induction n as [|n IH]; intros p; [cbn; do 2 f_equal; lia|].
  change (addrs (S (S n)) p) with (p :: addrs (S n) (p + sizeof_buffer)). rewrite IH. cbn [addrs app]. do 3 f_equal.
  unfold sizeof_buffer. lia.
Qed.

(** The loop links the buffers from [p] on and leaves those before alone. *)
Lemma link_loop_spec n p m : exists m', link_loop n p m = (p + sizeof_buffer * Z.of_nat n, m') /\ path m' (addrs (S n) p) /\
  b_prev (m' !!! p) = b_prev (m !!! p) /\ (forall x, x < p -> m' !!! x = m !!! x) /\
  forall x, same_links_only (m !!! x) (m' !!! x).
Proof.
  revert p m. induction n as [|n IH]; intros p m.
  { exists m. split; [cbn; f_equal; lia|]. by repeat split. }
  cbn [link_loop]. set (q := p + sizeof_buffer). set (m1 := upd_buf q _ _).
  assert (Hq : p < q) by (unfold q, sizeof_buffer; lia).
  destruct (IH q m1) as (m' & E & Hp & Hprev & Hlow & Hsame). exists m'. split; [|split; [|split; [|split]]].
  - rewrite E. f_equal. unfold q, sizeof_buffer. lia.
  - change (path m' (p :: q :: addrs n (q + sizeof_buffer))). apply path_cons2. split; [|exact Hp]. split.
    + rewrite Hlow by lia. unfold m1. rewrite upd_buf_ne by lia. by rewrite upd_buf_eq.
    + rewrite Hprev. unfold m1. rewrite upd_buf_eq. cbn. unfold q. lia.
  - rewrite Hlow by lia. unfold m1. rewrite upd_buf_ne by lia. by rewrite upd_buf_eq.
  - intros x Hx. rewrite Hlow by lia. unfold m1. by rewrite !upd_buf_ne by lia.
  - intros x. etransitivity; [|apply Hsame]. unfold m1.
    etransitivity; apply upd_links; intros b; by repeat split.
Qed.

Lemma clear_buffers_flag n p x : b_flag (clear_buffers n p !!! x) = 0.
Proof.
  revert p. induction n as [|n IH]; intros p; cbn [clear_buffers]; [by rewrite lookup_total_empty|].
  destruct (decide (x = p)) as [->|Hx]; [by rewrite lookup_total_insert_eq|]. by rewrite lookup_total_insert_ne.
Qed.

(** The ring, whose buffers are all empty. *)
Lemma link_buffers_ring b p : 1 <= b -> ring (link_buffers b p) p (addrs (Z.to_nat b) p) /\
  forall x, b_flag (link_buffers b p !!! x) = 0.
Proof.
  intros Hb. unfold link_buffers. set (n := Z.to_nat (b - 1)). set (m0 := upd_buf p _ _).
  destruct (link_loop_spec n p m0) as (m & E & Hp & Hprev & _ & Hsame). rewrite E.
  set (q := p + sizeof_buffer * Z.of_nat n). assert (q - sizeof_buffer * (b - 1) = p) as -> by (unfold q, n, sizeof_buffer; lia).
  replace (Z.to_nat b) with (S n) by lia. set (m2 := upd_buf q (with_next p) m). split.
  - exists (addrs n (p + sizeof_buffer)). split; [done|]. split; [apply addrs_nodup|].
    rewrite addrs_last. fold q. rewrite <- app_assoc. change ([q] ++ [p]) with (q :: [p]). apply path_app. rewrite <- addrs_last. split.
    + eapply path_ext; [| |exact Hp].
      * intros x Hx. unfold m2. rewrite upd_buf_ne; [done|]. rewrite addrs_last, removelast_last in Hx. intros ->.
        pose proof (addrs_nodup (S n) p) as Hnd. rewrite addrs_last in Hnd. apply list.NoDup_app in Hnd as (_ & Hd & _).
        apply (Hd q Hx). by left.
      * intros x _. unfold m2. destruct (decide (x = q)) as [->|?]; [by rewrite upd_buf_eq|by rewrite upd_buf_ne].
    + apply path_cons2. split; [|done]. split; unfold m2; [by rewrite upd_buf_eq|].
      rewrite (upd_buf_field b_prev). cbn.
      assert (b_prev (m !!! p) = q) as Hpq. { rewrite Hprev. unfold m0. rewrite upd_buf_eq. cbn. unfold q, n, sizeof_buffer. lia. }
      case_decide; [congruence|done].
  - intros x. unfold m2. rewrite (upd_buf_field b_flag). cbn.
    assert (Hf : forall y, b_flag (m !!! y) = 0).
    { intros y. destruct (Hsame y) as (_ & -> & _). unfold m0. rewrite (upd_buf_field b_flag). cbn.
      case_decide; apply clear_buffers_flag. }
    case_decide; apply Hf.
Qed.

Lemma buffer_count_range w hma free : let '(n, b) := buffer_count w hma free in 6 <= n <= 99 /\ n <= b <= 123 /\
  (hma = false \/ w < 0 -> b = n) /\ (6 <= Z.abs w <= 99 -> n = Z.abs w).
Proof.
  unfold buffer_count. set (w1 := if w <? 0 then _ else _).
  assert (w1 = Z.abs w) as -> by (unfold w1; destruct (Z.ltb_spec w 0); lia).
  set (r := u16 (0xfff0 - free) / sizeof_buffer).
  assert (0 <= r <= 123).
  { unfold r, sizeof_buffer. pose proof (u16_range (0xfff0 - free)).
    generalize dependent (u16 (0xfff0 - free)). intros. Z.div_mod_to_equations. lia. }
  set (b1 := if _ && _ then r else 0).
  assert (0 <= b1 <= 123) by (unfold b1; destruct (_ && _); lia).
  assert (Hb : hma = false \/ w < 0 -> b1 = 0).
  { unfold b1. intros [->|Hw]; [by rewrite andb_false_r|]. by rewrite (proj2 (Z.leb_gt _ _)) by lia. }
  clearbody b1. clear H r. destruct (Z.ltb_spec (Z.abs w) 6) as [H1|H1].
  - change (99 <? 6) with false. cbv iota. destruct (Z.ltb_spec b1 6); repeat split; intros; try lia; specialize (Hb ltac:(done)); lia.
  - destruct (Z.ltb_spec 99 (Z.abs w)) as [H2|H2].
    + destruct (Z.ltb_spec b1 99); repeat split; intros; try lia; specialize (Hb ltac:(done)); lia.
    + destruct (Z.ltb_spec b1 (Z.abs w)); repeat split; intros; try lia; specialize (Hb ltac:(done)); lia.
Qed.

Section ready.
  Context {D : Type} `{DeviceLaws D} (primary : Z -> Z -> Prop).

(** C34: the buffers that the start makes are a cache that the theorems on the cache
    apply to, for whatever number CONFIG.SYS asks for: a ring of empty buffers, from 6
    to 123, that stands for what is on the disks.  The number is the one asked for
    where that is between 6 and 99 and the kernel stays low, and in the high memory
    area at least that. *)
Theorem boot_cache_ready (st : bio D) w hma loaded free low high :
  drives_ok st -> 0 < low -> (forall off, 0 < high off) ->
  let s := config_init_buffers w hma loaded free low high in
  let st' := Bio (bs_bufs s) (bs_firstbuf s) (drives st) (dpbs st) (verify_ena st) (deblock_buf st) (deblocked st) (dev st) in
  exists l, Z.of_nat (length l) = bs_nbuffers s /\ 6 <= bs_nbuffers s <= 123 /\
    (6 <= Z.abs w <= 99 -> Z.abs w <= bs_nbuffers s /\ (hma = false \/ w < 0 -> bs_nbuffers s = Z.abs w)) /\
    repr primary st' l (sector st').
Proof.
  intros Hd Hlow Hhigh s st'. pose proof (buffer_count_range w hma free) as Hr.
  destruct (buffer_count w hma free) as [n b] eqn:E. destruct Hr as (Hn & Hb & Hlo & Heq).
  assert (exists p, 0 < p /\ bs_firstbuf s = p /\ bs_bufs s = link_buffers b p /\ bs_nbuffers s = b) as (p & Hp & Ef & Eb & En).
  { unfold s, config_init_buffers. rewrite E. destruct (HMAalloc _ _ _) as [[off fr]|]; [exists (high off)|exists low]; by repeat split. }
  destruct (link_buffers_ring b p) as [Hring Hflag]; [lia|]. exists (addrs (Z.to_nat b) p). rewrite En.
  assert (Hlen : forall m q, length (addrs m q) = m) by (induction m as [|m IH]; intros q; cbn; [done|by rewrite IH]).
  split; [rewrite Hlen; lia|]. split; [lia|]. split; [intros; split; [lia|intros; rewrite Hlo by done; by apply Heq]|].
  assert (Hv : forall x, ~ valid (buf st' x)).
  { intros x. unfold valid, buf. change (bufs st') with (bs_bufs s). by rewrite Eb, Hflag. }
  split; try (intros; exfalso; by eapply Hv).
  - change (ring (bs_bufs s) (bs_firstbuf s) (addrs (Z.to_nat b) p)). by rewrite Ef, Eb.
  - intros H0%addrs_ge. lia.
  - exact Hd.
  - done.
Qed.

End ready.

(** Twenty buffers for a drive, with the kernel low. *)
Lemma boot_cache_ready_witness : exists l, length l = 20%nat /\
  let s := config_init_buffers 20 false false 0 0x1000 (fun off => 0x100000 + u16 off) in
  let st' := Bio (bs_bufs s) (bs_firstbuf s) (drives (ex_bio false)) (dpbs (ex_bio false)) false [99] false ex_medium in
  repr ex_primary st' l (sector st').
Proof.
  destruct (boot_cache_ready ex_primary (ex_bio false) 20 false false 0 0x1000 (fun off => 0x100000 + u16 off)) as (l & E & _ & _ & Hr).
  - intros d1 d2 p1 p2 H1 H2 _ _. change (drives (ex_bio false)) with ({[ 3 := 77 ]} : gmap Z Z) in H1, H2.
    apply lookup_singleton_Some in H1 as [<- _], H2 as [<- _]. reflexivity.
  - reflexivity.
  - intros off. pose proof (u16_range off). lia.
  - exists l. split; [apply Nat2Z.inj; rewrite E; reflexivity|]. exact Hr.
Defined.
