(* ===== verification/Fattab.v ===== *)
(** * The file allocation table ([kernel/fattab.c])

    The FAT code sees the disk through the block cache only: the class
    [BlockCache] lists what it uses of it.  A DPB pointer names a DPB of the
    state.  [clusterMessage] prints and is left out. *)

From S2P Require Import Prelude Hdr Bytes Dpb Blockio.

(** ** The interface of the block cache *)

Class BlockCache (S : Type) := {
  bc_getblock : nat -> Z -> Z -> S -> option (option Z * S);
  bc_getblockOver : nat -> Z -> Z -> S -> option (option Z * S);
  bc_buf : S -> Z -> buffer;
  bc_upd : Z -> (buffer -> buffer) -> S -> S;
  bc_flush : nat -> Z -> S -> option (bool * S);
  bc_dpb : S -> Z -> dpb;
  bc_set_dpb : Z -> dpb -> S -> S }.

#[export] Instance bio_cache {D} `{!Device D} : BlockCache (bio D) := {
  bc_getblock fuel blkno dsk st := getblk fuel blkno dsk false st;
  bc_getblockOver fuel blkno dsk st := getblk fuel blkno dsk true st;
  bc_buf := buf;
  bc_upd := on_buf;
  bc_flush := flush_buffers;
  bc_dpb st p := dpbs st !!! p;
  bc_set_dpb p d st := set_dpbs (<[p := d]> (dpbs st)) st }.

(** kernel/fattab.c:45-45 *)
Definition READ_CLUSTER : Z := 1.
(** hdr/device.h:145-145 *)
Definition FAT_NO_MIRRORING : Z := 0x80.

Section operations.
  Context {S : Type} `{!BlockCache S}.

(** [bp->b_flag |= fl] *)
Definition mark (fl x : Z) (st : S) : S :=
  bc_upd x (fun b => with_flag (Z.lor (b_flag b) fl) b) st.

(** kernel/fattab.c:65-88 *)
Definition getFATblock (fuel : nat) (dpbp clussec : Z) (st : S) : option (option Z * S) :=
  let* (bp, st) := bc_getblock fuel clussec (dpb_unit (bc_dpb st dpbp)) st in
  match bp with
  | None => Some (None, st)
  | Some x =>
      let d := bc_dpb st dpbp in
      let copies :=
        if ISFAT32 d && negb (Z.land (dpb_xflags d) FAT_NO_MIRRORING =? 0) then 1 else dpb_fats d in
      let st := bc_upd x (fun b =>
        with_fat copies (dpb_fatsize d) dpbp
          (with_flag (Z.lor (clear (Z.lor BFR_DATA BFR_DIR) (b_flag b)) (Z.lor BFR_FAT BFR_VALID)) b)) st in
      Some (Some x, st)
  end.

(** The null pointer of a failed [getblock] is not tested: [None].
    kernel/fattab.c:91-114 *)
Definition read_fsinfo (fuel : nat) (dpbp : Z) (st : S) : option S :=
  let d := bc_dpb st dpbp in
  if dpb_xfsinfosec d =? 0xffff then Some st
  else
    let* (bp, st) := bc_getblock fuel (dpb_xfsinfosec d) (dpb_unit d) st in
    let* x := bp in
    let st := bc_upd x (fun b =>
      with_flag (Z.lor (clear (Z.lor (Z.lor BFR_DATA BFR_DIR) (Z.lor BFR_FAT BFR_DIRTY)) (b_flag b)) BFR_VALID) b) st in
    let data := b_buffer (bc_buf st x) in
    let* nfree := get32 data (0x1e4 + 4) in
    let* clst := get32 data (0x1e4 + 8) in
    let nfree := if dpb_xsize d <=? nfree then XUNKNCLSTFREE else nfree in
    let st := bc_set_dpb dpbp (set_xnfreeclst nfree (bc_dpb st dpbp)) st in
    let clst := if (clst <? 2) || (dpb_xsize d <? clst) then UNKNCLUSTER else clst in
    Some (bc_set_dpb dpbp (set_xcluster clst (bc_dpb st dpbp)) st).

(** kernel/fattab.c:116-136 *)
Definition write_fsinfo (fuel : nat) (dpbp : Z) (st : S) : option S :=
  let d := bc_dpb st dpbp in
  if dpb_xfsinfosec d =? 0xffff then Some st
  else
    let* (bp, st) := bc_getblock fuel (dpb_xfsinfosec d) (dpb_unit d) st in
    let* x := bp in
    let st := bc_upd x (fun b =>
      with_flag (Z.lor (clear (Z.lor (Z.lor BFR_DATA BFR_DIR) BFR_FAT) (b_flag b)) BFR_VALID) b) st in
    let data := b_buffer (bc_buf st x) in
    let* nfree := get32 data (0x1e4 + 4) in
    let* clst := get32 data (0x1e4 + 8) in
    let st := if negb (nfree =? dpb_xnfreeclst d) || negb (clst =? dpb_xcluster d)
              then mark BFR_DIRTY x st else st in
    let* data := put32 (0x1e4 + 4) (dpb_xnfreeclst d) data in
    let* data := put32 (0x1e4 + 8) (dpb_xcluster d) data in
    Some (bc_upd x (with_data data) st).

(** The highest cluster number. *)
Definition max_cluster (d : dpb) : Z := if ISFAT32 d then dpb_xsize d else dpb_size d.

(** The sector of the FAT that holds an entry, and the index of the entry in it:
    in nibbles for FAT12, in entries else.
    kernel/fattab.c:190-218 *)
Definition fat_place (d : dpb) (Cluster1 : Z) : Z * Z :=
  let '(clussec, secdiv) :=
    if ISFAT12 d then (u16 (u16 Cluster1 * 3), u16 (dpb_secsize d * 2))
    else (Cluster1, if ISFAT32 d then dpb_secsize d / 2 / 2 else dpb_secsize d / 2) in
  let idx := clussec mod secdiv in
  let clussec := clussec / secdiv + dpb_fatstrt d in
  let clussec :=
    if ISFAT32 d && negb (Z.land (dpb_xflags d) FAT_NO_MIRRORING =? 0)
    then u32 (clussec + Z.land (dpb_xflags d) 0xf * dpb_xfatsize d) else clussec in
  (clussec, idx).

(** The 12-bit value packed into the two bytes [cluster] of an entry.
    kernel/fattab.c:288-300 *)
Definition pack12 (Cluster1 Cluster2 cluster : Z) : Z :=
  let cluster2 := Z.land (u16 Cluster2) 0x0fff in
  if negb (Z.land Cluster1 1 =? 0) then Z.lor (Z.land cluster 0x000f) (u16 (Z.shiftl cluster2 4))
  else Z.lor (Z.land cluster 0xf000) cluster2.

(** kernel/fattab.c:266-268 *)
Definition unpack12 (Cluster1 cluster : Z) : Z :=
  let cluster := if negb (Z.land Cluster1 1 =? 0) then Z.shiftr cluster 4 else cluster in
  Z.land cluster 0x0fff.

(** What an access to an entry ends with: a value to return, or the buffer of a
    written entry and whether the entry was free. *)
Inductive access :=
  | Return (v : Z)
  | Written (bp : Z) (wasfree : bool).

(** kernel/fattab.c:227-303 *)
Definition access12 (fuel : nat) (dpbp Cluster1 Cluster2 clussec idx bp : Z) (st : S)
    : option (access * S) :=
  let idx := idx / 2 in
  let* fbp1 :=
    if dpb_secsize (bc_dpb st dpbp) - 1 <=? idx then
      let* (bp1, st) := getFATblock fuel dpbp (u16 (clussec + 1)) st in
      match bp1 with
      | None => Some (None, st)
      | Some bp1 =>
          let st := if negb (Cluster2 =? READ_CLUSTER) then mark (Z.lor BFR_DIRTY BFR_VALID) bp1 st else st in
          Some (Some (bp1, 0), st)
      end
    else Some (Some (bp, idx + 1), st) in
  let '(fbp1, st) := fbp1 in
  match fbp1 with
  | None => Some (Return 1, st)
  | Some (bp1, idx1) =>
      let* lo := at_ (b_buffer (bc_buf st bp)) idx in
      let* hi := at_ (b_buffer (bc_buf st bp1)) idx1 in
      let res := Z.lor lo (Z.shiftl hi 8) in
      let cluster := unpack12 Cluster1 res in
      if u16 Cluster2 =? READ_CLUSTER then
        Some (Return (if MASK12 <=? cluster then LONG_LAST_CLUSTER
                      else if cluster =? BAD12 then LONG_BAD else cluster), st)
      else
        let new := pack12 Cluster1 Cluster2 res in
        let* d0 := set_at idx (u8 new) (b_buffer (bc_buf st bp)) in
        let st := bc_upd bp (with_data d0) st in
        let* d1 := set_at idx1 (u8 (Z.shiftr new 8)) (b_buffer (bc_buf st bp1)) in
        let st := bc_upd bp1 (with_data d1) st in
        Some (Written bp (cluster =? FREE), st)
  end.

(** kernel/fattab.c:304-325 *)
Definition access16 (Cluster2 idx bp : Z) (st : S) : option (access * S) :=
  let data := b_buffer (bc_buf st bp) in
  let* res := get16 data (idx * 2) in
  if u16 Cluster2 =? READ_CLUSTER then
    Some (Return (if MASK16 <=? res then LONG_LAST_CLUSTER
                  else if res =? BAD16 then LONG_BAD else res), st)
  else
    let* data := put16 (idx * 2) (u16 Cluster2) data in
    Some (Written bp (res =? FREE), bc_upd bp (with_data data) st).

(** kernel/fattab.c:327-345 *)
Definition access32 (Cluster2 idx bp : Z) (st : S) : option (access * S) :=
  let data := b_buffer (bc_buf st bp) in
  let* res := get32 data (idx * 4) in
  let res := Z.land res LONG_LAST_CLUSTER in
  if Cluster2 =? READ_CLUSTER then
    Some (Return (if LONG_BAD <? res then LONG_LAST_CLUSTER else res), st)
  else
    let* data := put32 (idx * 4) (Z.land Cluster2 LONG_LAST_CLUSTER) data in
    Some (Written bp (res =? FREE), bc_upd bp (with_data data) st).

(** The end of [link_fat] after a write: the buffer is dirty and the free count
    follows.
    kernel/fattab.c:352-374 *)
Definition finish_write (fuel : nat) (dpbp Cluster2 bp : Z) (wasfree : bool) (st : S)
    : option (Z * S) :=
  let st := mark (Z.lor BFR_DIRTY BFR_VALID) bp st in
  if (Cluster2 =? FREE) || wasfree then
    let adjust := if negb wasfree then 1 else if negb (Cluster2 =? FREE) then -1 else 0 in
    let d := bc_dpb st dpbp in
    if ISFAT32 d && negb (dpb_xnfreeclst d =? XUNKNCLSTFREE) then
      let st := bc_set_dpb dpbp (set_xnfreeclst (u32 (dpb_xnfreeclst d + adjust)) d) st in
      let* st := write_fsinfo fuel dpbp st in
      Some (SUCCESS, st)
    else if negb (dpb_nfreeclst d =? UNKNCLSTFREE) then
      Some (SUCCESS, bc_set_dpb dpbp (set_nfreeclst (u16 (dpb_nfreeclst d + adjust)) d) st)
    else Some (SUCCESS, st)
  else Some (SUCCESS, st).

(** Reads the entry of [Cluster1] when [Cluster2] is [READ_CLUSTER], else writes
    [Cluster2] to it.
    kernel/fattab.c:161-375 *)
Definition link_fat (fuel : nat) (dpbp Cluster1 Cluster2 : Z) (st : S) : option (Z * S) :=
  let d := bc_dpb st dpbp in
  let maxc := max_cluster d in
  if (Cluster1 <=? 1) || (maxc <? Cluster1) then Some (1, st)
  else if (Cluster2 <? LONG_BAD) && (maxc <? Cluster2) then Some (1, st)
  else
    let '(clussec, idx) := fat_place d Cluster1 in
    let* (bp, st) := getFATblock fuel dpbp clussec st in
    match bp with
    | None => Some (1, st)
    | Some bp =>
        let* (a, st) :=
          if ISFAT12 d then access12 fuel dpbp Cluster1 Cluster2 clussec idx bp st
          else if ISFAT16 d then access16 Cluster2 idx bp st
          else if ISFAT32 d then access32 Cluster2 idx bp st
          else Some (Return 1, st) in
        match a with
        | Return v => Some (v, st)
        | Written bp wasfree => finish_write fuel dpbp Cluster2 bp wasfree st
        end
    end.

(** kernel/fattab.c:380-407 *)
Definition next_cluster (fuel : nat) (dpbp ClusterNum : Z) (st : S) : option (Z * S) :=
  let* (candidate, st) := link_fat fuel dpbp ClusterNum READ_CLUSTER st in
  if (candidate <? 2) || (LONG_BAD <=? candidate) then Some (candidate, st)
  else
    let maxc := max_cluster (bc_dpb st dpbp) in
    let* (following, st) := link_fat fuel dpbp candidate READ_CLUSTER st in
    if (following <? 2) || ((following <? LONG_BAD) && (maxc <? following)) then Some (1, st)
    else Some (candidate, st).

(** kernel/fattab.c:410-413 *)
Definition is_free_cluster (fuel : nat) (dpbp ClusterNum : Z) (st : S) : option (bool * S) :=
  let* (v, st) := link_fat fuel dpbp ClusterNum READ_CLUSTER st in
  Some (v =? FREE, st).

End operations.
