(* ===== verification/CacheSpec.v ===== *)
(** * What the block cache promises the file system

    The laws of the interface [BlockCache], stated without the ring, and the proof
    that the cache of [Blockio] keeps them.  The file system is verified against
    the laws. *)

From S2P Require Import Prelude Hdr Dpb Blockio BlockioRing BlockioSpec Fattab.

(** The offset between the copies of a FAT buffer. *)
Definition copy_offset (xfatsize : Z) (b : buffer) : Z := if b_offset b =? 0 then xfatsize else b_offset b.

(** The number of copies a buffer is written in, and that all but the first go to
    blocks that are nobody's. *)
Definition mirrors_ok (primary : Z -> Z -> Prop) (xfatsize : Z) (b : buffer) : Prop :=
  is_fat b -> 1 <= b_copies b /\ forall i, (0 < i < Z.to_nat (b_copies b))%nat ->
    ~ primary (b_unit b) (copy_blk (b_blkno b) (copy_offset xfatsize b) i).

(** A cache state with buffers [l] represents the image [v]; [fuel] bounds the
    buffers. *)
Class BlockCacheLaws (S : Type) `{!BlockCache S} (primary : Z -> Z -> Prop) := {
  bc_rep : nat -> S -> list Z -> (Z -> Z -> list Z) -> Prop;
  bc_drive : S -> Z -> Prop;
  bc_reliable : Prop;
  (* the buffer got last, which the next request will not recycle *)
  bc_fresh : S -> Z -> Prop;
  (* what the medium holds *)
  bc_disk : S -> Z -> Z -> list Z;
  bc_read fuel s l v x u n :
    bc_rep fuel s l v -> x ∈ l -> hit n u (bc_buf s x) -> b_buffer (bc_buf s x) = v u n;
  bc_mirrors fuel s l v x :
    bc_rep fuel s l v -> x ∈ l -> valid (bc_buf s x) ->
    mirrors_ok primary (dpb_xfatsize (bc_dpb s (b_dpbp (bc_buf s x)))) (bc_buf s x);
  bc_get fuel s l v u n :
    bc_rep fuel s l v -> 0 <= n < 4294967296 -> bc_drive s u -> primary u n ->
    exists r s', bc_getblock fuel n u s = Some (r, s') /\
      (forall p, bc_dpb s' p = bc_dpb s p) /\ (forall u', bc_drive s u' -> bc_drive s' u') /\
      (bc_reliable -> is_Some r) /\
      match r with
      | None => True
      | Some x => exists l', bc_rep fuel s' l' v /\ l' ≡ₚ l /\ x ∈ l /\ hit n u (bc_buf s' x) /\ bc_fresh s' x /\
          (forall y, y <> x -> same_links_only (bc_buf s y) (bc_buf s' y)) /\
          (forall y, bc_fresh s y -> is_fat (bc_buf s y) -> ~ hit n u (bc_buf s y) -> x <> y)
      end;
  bc_buf_upd x f s y : bc_buf (bc_upd x f s) y = if decide (y = x) then f (bc_buf s x) else bc_buf s y;
  bc_upd_upd x f g s : bc_upd x f (bc_upd x g s) = bc_upd x (fun b => f (g b)) s;
  bc_upd_comm x y f g s : x <> y -> bc_upd x f (bc_upd y g s) = bc_upd y g (bc_upd x f s);
  bc_dpb_upd x f s p : bc_dpb (bc_upd x f s) p = bc_dpb s p;
  bc_drive_upd x f s u : bc_drive s u -> bc_drive (bc_upd x f s) u;
  bc_store fuel s l v v' x f :
    bc_rep fuel s l v -> x ∈ l -> valid (bc_buf s x) ->
    let b := bc_buf s x in let b' := f b in
    b_next b' = b_next b -> b_prev b' = b_prev b -> b_unit b' = b_unit b -> b_blkno b' = b_blkno b ->
    valid b' -> mirrors_ok primary (dpb_xfatsize (bc_dpb s (b_dpbp b'))) b' ->
    (dirty b' \/ b_buffer b' = b_buffer b /\ (dirty b -> dirty b')) ->
    v' (b_unit b) (b_blkno b) = b_buffer b' ->
    (forall u n, ~ (b_unit b = u /\ b_blkno b = n) -> v' u n = v u n) ->
    bc_rep fuel (bc_upd x f s) l v' /\
    forall y, bc_fresh s y -> (y = x -> has BFR_UNCACHE (b_flag b') = has BFR_UNCACHE (b_flag b)) ->
      bc_fresh (bc_upd x f s) y;
  (* a DPB may change as long as the cache does not look at the change *)
  bc_set_dpb_rep fuel s l v p d :
    bc_rep fuel s l v -> dpb_device d = dpb_device (bc_dpb s p) -> dpb_subunit d = dpb_subunit (bc_dpb s p) ->
    dpb_xfatsize d = dpb_xfatsize (bc_dpb s p) -> bc_rep fuel (bc_set_dpb p d s) l v;
  bc_set_dpb_get p d s q : bc_dpb (bc_set_dpb p d s) q = if decide (q = p) then d else bc_dpb s q;
  bc_set_dpb_buf p d s x : bc_buf (bc_set_dpb p d s) x = bc_buf s x;
  bc_set_dpb_drive p d s u : bc_drive s u -> bc_drive (bc_set_dpb p d s) u;
  (* flushing a drive keeps the image and puts it on the medium *)
  bc_flushed fuel s l v u :
    bc_rep fuel s l v ->
    exists ok s', bc_flush fuel u s = Some (ok, s') /\ (forall p, bc_dpb s' p = bc_dpb s p) /\
      (forall u', bc_drive s u' -> bc_drive s' u') /\ (bc_reliable -> ok = true) /\
      (ok = true -> bc_rep fuel s' l v /\ forall n, primary u n -> bc_disk s' u n = v u n) }.

Section bio.
  Context {D : Type} `{DeviceLaws D} (primary : Z -> Z -> Prop).

Definition bio_rep (fuel : nat) (st : bio D) (l : list Z) (v : Z -> Z -> list Z) : Prop :=
  repr primary st l v /\ (2 <= length l <= fuel)%nat.

Lemma mirrors_copies (st : bio D) b :
  mirrors_ok primary (dpb_xfatsize (dpbs st !!! b_dpbp b)) b -> copies_ok primary st b.
Proof.
  unfold mirrors_ok, copies_ok, copies_of, copy_offset, is_fat.
  destruct (has BFR_FAT (b_flag b)); [by auto|]. intros _. split; [lia|]. intros i Hi. lia.
Qed.

Lemma set_dpbs_repr (st : bio D) l v p d :
  repr primary st l v -> dpb_device d = dpb_device (dpbs st !!! p) ->
  dpb_subunit d = dpb_subunit (dpbs st !!! p) -> dpb_xfatsize d = dpb_xfatsize (dpbs st !!! p) ->
  repr primary (set_dpbs (<[p := d]> (dpbs st)) st) l v.
Proof.
  intros Hr H1 H2 H3. set (st' := set_dpbs _ _).
  assert (Hd : forall q, dpb_device (dpbs st' !!! q) = dpb_device (dpbs st !!! q) /\
    dpb_subunit (dpbs st' !!! q) = dpb_subunit (dpbs st !!! q) /\
    dpb_xfatsize (dpbs st' !!! q) = dpb_xfatsize (dpbs st !!! q)).
  { intros q. cbn. destruct (decide (q = p)) as [->|]; [by rewrite lookup_total_insert_eq|].
    by rewrite lookup_total_insert_ne. }
  assert (Hs : forall u n, sector st' u n = sector st u n).
  { intros u n. unfold sector. cbn [drives st' set_dpbs]. destruct (drives st !! u) as [q|]; [|done].
    destruct (Hd q) as (-> & -> & _). done. }
  split; try apply Hr.
  - unfold drives_ok. intros d1 d2 p1 p2 Hp1 Hp2. destruct (Hd p1) as (-> & -> & _), (Hd p2) as (-> & -> & _).
    by apply (r_drives _ _ _ _ Hr).
  - intros x Hx Hv. pose proof (r_copies _ _ _ _ Hr x Hx Hv) as Hc. revert Hc.
    unfold copies_ok, copies_of. change (buf st' x) with (buf st x).
    by destruct (Hd (b_dpbp (buf st x))) as (_ & _ & ->).
  - intros u n Hp Hno. rewrite Hs. by apply (r_disk _ _ _ _ Hr).
Qed.

#[export] Program Instance bio_laws : BlockCacheLaws (bio D) primary := {
  bc_rep := bio_rep;
  bc_drive st u := is_Some (drives st !! u);
  bc_reliable := reliable (D := D);
  bc_fresh st x := firstbuf st = x /\ ~ uncached (buf st x);
  bc_disk := sector }.
Next Obligation.
  intros fuel s l v x u n [Hr _] Hx (Hv & <- & <-). by apply (r_cached _ _ _ _ Hr).
Qed.
Next Obligation.
  intros fuel s l v x [Hr Hl] Hx Hv. pose proof (r_copies _ _ _ _ Hr x Hx Hv) as Hc. revert Hc.
  unfold copies_ok, copies_of, mirrors_ok, copy_offset, is_fat. cbn.
  destruct (has BFR_FAT (b_flag (buf s x))); [|done]. intros [Hc1 Hc2] _. split; [lia|]. intros i Hi. apply Hc2. lia.
Qed.
Next Obligation.
  intros fuel s l v u n [Hr Hl] Hn Hd Hp. cbn.
  destruct (getblk_spec primary fuel s l v n u Hr) as (r & s' & l' & -> & Hperm & (Hdr & Hdp & _) & Hrel & Hres);
    [lia|lia|done|done|done|].
  exists r, s'. split; [done|]. rewrite Hdr, Hdp. split_and!; try done.
  destruct r as [x|]; [|done]. destruct Hres as (Hr' & Hx & Hfst & Hh & Hun & Hsame & Hkeep).
  exists l'. split_and!; try done.
  - split; [done|]. by rewrite Hperm.
  - by rewrite <- Hperm.
  - intros y [Hy Huy] Hfat Hnh. subst y. apply Hkeep; try done. lia.
Qed.
Next Obligation. intros x f s y. apply buf_on_buf. Qed.
Next Obligation.
  intros x f g s. cbn. unfold on_buf, set_bufs, upd_buf. cbn. f_equal.
  by rewrite lookup_total_insert_eq, insert_insert_eq.
Qed.
Next Obligation.
  intros x y f g s Hne. cbn. unfold on_buf, set_bufs, upd_buf. cbn. f_equal.
  rewrite !lookup_total_insert_ne by done. by apply insert_insert_ne.
Qed.
Next Obligation. done. Qed.
Next Obligation. done. Qed.
Next Obligation.
  intros fuel s l v v' x f [Hr Hl] Hx Hv. cbv zeta. cbn [bc_buf bc_upd bio_cache].
  intros H1 H2 H3 H4 H5 H6 H7 H8 H9.
  assert (Heq : forall st : bio D, on_buf x f st = on_buf x (fun _ => f (buf st x)) st) by done.
  split.
  - split; [|done]. rewrite Heq. eapply store_repr; try done.
    + by apply mirrors_copies.
    + destruct H7 as [?|[? Hd]]; [by left|]. unfold dirty in *.
      destruct (has BFR_DIRTY (b_flag (buf s x))); [left; by apply Hd|by right].
    + by rewrite H3, H4.
    + by rewrite H3, H4.
  - intros y [Hf Hun] Hfl. split; [done|]. rewrite buf_on_buf. case_decide; [|done]. subst y.
    unfold uncached in *. rewrite Hfl by done. by subst x.
Qed.
Next Obligation. intros fuel s l v p d [Hr Hl] H1 H2 H3. split; [by apply set_dpbs_repr|done]. Qed.
Next Obligation.
  intros p d s q. cbn. case_decide; [subst; apply lookup_total_insert_eq | by apply lookup_total_insert_ne].
Qed.
Next Obligation. done. Qed.
Next Obligation. done. Qed.
Next Obligation.
  intros fuel s l v u [Hr Hl].
  destruct (flush_buffers_spec primary fuel s l v u Hr) as (ok & s' & v' & Hf & Hr' & Hok & Hdr & Hdp & Hrel & Hdisk); [lia|].
  exists ok, s'. cbn. rewrite Hdr, Hdp. split_and!; try done. intros Ht.
  specialize (Hok Ht). subst v'. split; [by split|]. by apply Hdisk.
Qed.
End bio.
