(* ===== verification/FattabSpec.v ===== *)
(** * The FAT as an array of cluster numbers

    The entries of a FAT as the bytes of its sectors spell them, for the three
    widths, and what [link_fat] does to them: a read returns the entry, a write
    changes that entry only, also where two entries share a byte and where one
    straddles two sectors. *)

From S2P Require Import Prelude Hdr Bytes Dpb Blockio BlockioRing BlockioSpec BlockioRange Fattab CacheSpec.

(** ** Packing 12-bit entries *)

Lemma land_odd n : negb (Z.land n 1 =? 0) = Z.odd n.
Proof.
  rewrite land_1, Zmod_odd. by destruct (Z.odd n).
Qed.

Lemma two_bytes lo hi : is_byte lo -> Z.lor lo (Z.shiftl hi 8) = lo + 256 * hi.
Proof. intros H. unfold is_byte in H. rewrite lor_shiftl by lia. change (2 ^ 8) with 256. lia. Qed.

Lemma unpack12_spec n lo hi :
  is_byte lo -> is_byte hi ->
  unpack12 n (lo + 256 * hi) = if Z.odd n then lo / 16 + 16 * hi else lo + 256 * (hi mod 16).
Proof.
  unfold is_byte. intros H1 H2. unfold unpack12. rewrite land_odd.
  change 0x0fff with (Z.ones 12). rewrite land_ones_mod by lia. change (2 ^ 12) with 4096.
  destruct (Z.odd n).
  - rewrite Z.shiftr_div_pow2 by lia. change (2 ^ 4) with 16. Z.div_mod_to_equations. lia.
  - Z.div_mod_to_equations. lia.
Qed.

Lemma land_f000 x : 0 <= x < 65536 -> Z.land x 0xf000 = Z.shiftl (x / 4096) 12.
Proof.
  intros H. apply Z.bits_inj'. intros n Hn. rewrite Z.land_spec.
  change 0xf000 with (Z.shiftl (Z.ones 4) 12). change 4096 with (2 ^ 12).
  rewrite <- Z.shiftr_div_pow2 by lia. destruct (Z.lt_ge_cases n 12).
  - rewrite !Z.shiftl_spec_low by lia. by rewrite andb_false_r.
  - rewrite !Z.shiftl_spec by lia. rewrite Z.shiftr_spec by lia. replace (n - 12 + 12) with n by lia.
    destruct (Z.lt_ge_cases (n - 12) 4); [by rewrite Z.ones_spec_low, andb_true_r by lia|].
    rewrite Z.ones_spec_high by lia. rewrite andb_false_r. symmetry.
    destruct (decide (x = 0)) as [->|]; [apply Z.bits_0|]. apply Z.bits_above_log2; [lia|].
    apply Z.log2_lt_pow2; [lia|]. apply Z.lt_le_trans with (2 ^ 16); [lia|]. apply Z.pow_le_mono_r; lia.
Qed.

(** The two bytes after a write. *)
Lemma pack12_spec n c lo hi :
  is_byte lo -> is_byte hi -> 0 <= c ->
  let new := pack12 n c (lo + 256 * hi) in
  let c' := c mod 4096 in
  u8 new = (if Z.odd n then lo mod 16 + 16 * (c' mod 16) else c' mod 256) /\
  u8 (Z.shiftr new 8) = (if Z.odd n then c' / 16 else c' / 256 + 16 * (hi / 16)).
Proof.
  unfold is_byte. intros H1 H2 Hc. cbv zeta. unfold pack12. rewrite land_odd.
  change 0x0fff with (Z.ones 12). rewrite land_ones_mod by lia. change (2 ^ 12) with 4096.
  assert (u16 c mod 4096 = c mod 4096) as -> by word_lia.
  set (c' := c mod 4096). assert (0 <= c' < 4096) by (subst c'; Z.div_mod_to_equations; lia).
  rewrite !Z.shiftr_div_pow2 by lia. change (2 ^ 8) with 256. destruct (Z.odd n).
  - change 0xf with (Z.ones 4). rewrite land_ones_mod by lia. change (2 ^ 4) with 16.
    rewrite (u16_id (Z.shiftl c' 4)) by (rewrite Z.shiftl_mul_pow2 by lia; change (2 ^ 4) with 16; lia).
    rewrite lor_shiftl by (change (2 ^ 4) with 16; Z.div_mod_to_equations; lia).
    change (2 ^ 4) with 16. split; word_lia.
  - rewrite land_f000 by lia. rewrite Z.lor_comm, lor_shiftl by (change (2 ^ 12) with 4096; lia).
    change (2 ^ 12) with 4096. split; word_lia.
Qed.

(** ** A volume's FAT *)

(** The first sector of the active FAT. *)
Definition fat_start (d : dpb) : Z :=
  dpb_fatstrt d +
  (if ISFAT32 d && negb (Z.land (dpb_xflags d) FAT_NO_MIRRORING =? 0)
   then Z.land (dpb_xflags d) 0xf * dpb_xfatsize d else 0).

(** The first byte of an entry, counted from the start of the FAT. *)
Definition fat_pos (d : dpb) (n : Z) : Z :=
  if ISFAT12 d then n * 3 / 2 else if ISFAT32 d then n * 4 else n * 2.

Definition last_sector (d : dpb) : Z := (fat_pos d (max_cluster d) + if ISFAT32 d then 3 else 1) / 512.

Definition fat_copies (d : dpb) : Z :=
  if ISFAT32 d && negb (Z.land (dpb_xflags d) FAT_NO_MIRRORING =? 0) then 1 else dpb_fats d.
Definition fat_offset (d : dpb) : Z := if dpb_fatsize d =? 0 then dpb_xfatsize d else dpb_fatsize d.

(** What a DPB of a mounted volume satisfies: one of the three widths, sectors of
    512 bytes, cluster numbers that are not markers, and a FAT whose copies are
    apart from everything the cache's clients read. *)
Record volume_ok (primary : Z -> Z -> Prop) (d : dpb) : Prop := {
  v_size : if ISFAT32 d then dpb_size d = 0 else 1 <= dpb_size d <= FAT_MAGIC16;
  v_max : 2 <= max_cluster d < LONG_BAD;
  v_secsize : dpb_secsize d = 512;
  v_start : 0 <= dpb_fatstrt d /\ 0 <= dpb_xfatsize d /\ 0 <= dpb_xflags d;
  v_sector sec : 0 <= sec <= last_sector d ->
    0 <= fat_start d + sec < (if ISFAT12 d then 65536 else 4294967296) /\
    primary (dpb_unit d) (fat_start d + sec) /\
    forall i, (0 < i < Z.to_nat (fat_copies d))%nat ->
      ~ primary (dpb_unit d) (copy_blk (fat_start d + sec) (fat_offset d) i);
  v_copies : 1 <= fat_copies d }.

(** The byte [k] of the active FAT in an image. *)
Definition fatb (d : dpb) (v : Z -> Z -> list Z) (k : Z) : Z :=
  byte_at (v (dpb_unit d) (fat_start d + k / 512)) (k mod 512).

Definition image_ok (d : dpb) (v : Z -> Z -> list Z) : Prop :=
  forall sec, 0 <= sec <= last_sector d ->
    length (v (dpb_unit d) (fat_start d + sec)) = 512%nat /\ bytes (v (dpb_unit d) (fat_start d + sec)).

(** The entry of a cluster as it is stored, and what it means to a reader. *)
Definition entry (d : dpb) (v : Z -> Z -> list Z) (n : Z) : Z :=
  let k := fat_pos d n in
  if ISFAT12 d then unpack12 n (fatb d v k + 256 * fatb d v (k + 1))
  else if ISFAT32 d then
    Z.land (fatb d v k + 256 * fatb d v (k + 1) + 65536 * (fatb d v (k + 2) + 256 * fatb d v (k + 3)))
      LONG_LAST_CLUSTER
  else fatb d v k + 256 * fatb d v (k + 1).

Definition decode (d : dpb) (e : Z) : Z :=
  if ISFAT12 d then (if MASK12 <=? e then LONG_LAST_CLUSTER else if e =? BAD12 then LONG_BAD else e)
  else if ISFAT32 d then (if LONG_BAD <? e then LONG_LAST_CLUSTER else e)
  else (if MASK16 <=? e then LONG_LAST_CLUSTER else if e =? BAD16 then LONG_BAD else e).

Lemma decode_free d e : decode d e = FREE <-> e = FREE.
Proof.
  unfold decode, FREE, LONG_LAST_CLUSTER, LONG_BAD, MASK12, BAD12, MASK16, BAD16.
  destruct (ISFAT12 d), (ISFAT32 d); repeat case_bool; lia.
Qed.

(** A cluster number cut to the width of an entry. *)
Definition encode (d : dpb) (c : Z) : Z :=
  if ISFAT12 d then c mod 4096 else if ISFAT32 d then c mod 268435456 else c mod 65536.

Lemma fat_types primary d : volume_ok primary d ->
  ISFAT12 d = true /\ ISFAT16 d = false /\ ISFAT32 d = false \/
  ISFAT12 d = false /\ ISFAT16 d = true /\ ISFAT32 d = false \/
  ISFAT12 d = false /\ ISFAT16 d = false /\ ISFAT32 d = true.
Proof.
  intros [Hs _ _ _ _ _]. unfold ISFAT12, ISFAT16, FAT_MAGIC, FAT_MAGIC16 in *.
  destruct (ISFAT32 d).
  - right; right. rewrite Hs. by vm_compute.
  - rewrite u16_id by lia. repeat case_bool; cbn; (lia || tauto).
Qed.

Lemma image_byte d v k :
  image_ok d v -> 0 <= k -> k / 512 <= last_sector d -> is_byte (fatb d v k).
Proof.
  intros Hi Hk Hs. unfold fatb. apply byte_at_range, Hi. split; [|done]. apply Z.div_pos; lia.
Qed.

(** Replacing a sector of the FAT. *)
Lemma fatb_upd d v sec data k :
  fatb d (upd_image v (dpb_unit d) (fat_start d + sec) data) k =
  if decide (k / 512 = sec) then byte_at data (k mod 512) else fatb d v k.
Proof.
  unfold fatb, upd_image. repeat case_decide; subst; try done; lia.
Qed.

Lemma image_ok_upd d v sec data :
  image_ok d v -> length data = 512%nat -> bytes data ->
  image_ok d (upd_image v (dpb_unit d) (fat_start d + sec) data).
Proof.
  intros Hi Hl Hb s Hs. unfold upd_image. case_decide; [done|by apply Hi].
Qed.

(** ** Where an entry is *)

Lemma fat_place_12 d n :
  ISFAT12 d = true -> ISFAT32 d = false -> dpb_secsize d = 512 -> 0 <= n <= FAT_MAGIC ->
  exists idx, fat_place d n = (fat_start d + fat_pos d n / 512, idx) /\ idx / 2 = fat_pos d n mod 512.
Proof.
  intros H12 H32 Hs Hn. unfold fat_place, fat_start, fat_pos, FAT_MAGIC in *. rewrite H12, H32, Hs. cbn [andb].
  rewrite (u16_id n), (u16_id (n * 3)), (u16_id (512 * 2)) by lia.
  eexists. split; [f_equal|]; Z.div_mod_to_equations; lia.
Qed.

Lemma fat_place_16 d n :
  ISFAT12 d = false -> ISFAT32 d = false -> dpb_secsize d = 512 -> 0 <= n ->
  exists idx, fat_place d n = (fat_start d + fat_pos d n / 512, idx) /\ idx * 2 = fat_pos d n mod 512.
Proof.
  intros H12 H32 Hs Hn. unfold fat_place, fat_start, fat_pos in *. rewrite H12, H32, Hs. cbn [andb].
  change (512 / 2) with 256.
  eexists. split; [f_equal|]; Z.div_mod_to_equations; lia.
Qed.

Lemma fat_place_32 primary d n :
  volume_ok primary d -> ISFAT12 d = false -> ISFAT32 d = true -> 0 <= n <= max_cluster d ->
  exists idx, fat_place d n = (fat_start d + fat_pos d n / 512, idx) /\ idx * 4 = fat_pos d n mod 512.
Proof.
  intros Hv H12 H32 Hn. pose proof (v_sector _ _ Hv (fat_pos d n / 512)) as Hsec.
  pose proof (v_secsize _ _ Hv) as Hs. pose proof (v_start _ _ Hv) as Hst.
  unfold last_sector, fat_place, fat_start, fat_pos in *. rewrite H12, H32, Hs in *. cbn [andb] in *.
  change (512 / 2 / 2) with 128.
  assert (n / 128 = n * 4 / 512) as E by (Z.div_mod_to_equations; lia). rewrite E.
  destruct Hsec as [[_ Hlt] _]; [Z.div_mod_to_equations; lia|].
  destruct (negb _).
  - rewrite u32_id; [|assert (0 <= n * 4 / 512) by (Z.div_mod_to_equations; lia);
      assert (0 <= Z.land (dpb_xflags d) 15 * dpb_xfatsize d) by (apply Z.mul_nonneg_nonneg; [apply Z.land_nonneg; lia|lia]); lia].
    eexists. split; [f_equal; lia|]. Z.div_mod_to_equations; lia.
  - eexists. split; [f_equal; lia|]. Z.div_mod_to_equations; lia.
Qed.

Lemma fat_pos_last primary d n :
  volume_ok primary d -> 2 <= n <= max_cluster d -> 0 <= fat_pos d n /\ (fat_pos d n + 1) / 512 <= last_sector d /\
    (ISFAT32 d = true -> (fat_pos d n + 3) / 512 <= last_sector d).
Proof.
  intros Hv Hn. unfold last_sector, fat_pos. destruct (ISFAT12 d), (ISFAT32 d);
    (split; [|split; [|try done; intros _]]); Z.div_mod_to_equations; lia.
Qed.

(** ** Bytes and entries *)

Lemma byte_of_sector d v k j :
  0 <= k -> 0 <= j -> k mod 512 + j < 512 ->
  byte_at (v (dpb_unit d) (fat_start d + k / 512)) (k mod 512 + j) = fatb d v (k + j).
Proof.
  intros Hk Hj H. unfold fatb.
  replace ((k + j) / 512) with (k / 512) by (Z.div_mod_to_equations; lia).
  by replace ((k + j) mod 512) with (k mod 512 + j) by (Z.div_mod_to_equations; lia).
Qed.

(** The bytes of a word stored inside one sector. *)
Lemma fatb_store d v k w data (f : Z -> Z) :
  0 <= k -> k mod 512 + w <= 512 ->
  (forall j, 0 <= j -> byte_at data j =
     if decide (k mod 512 <= j < k mod 512 + w) then f (j - k mod 512)
     else byte_at (v (dpb_unit d) (fat_start d + k / 512)) j) ->
  forall i, 0 <= i ->
    fatb d (upd_image v (dpb_unit d) (fat_start d + k / 512) data) i =
    if decide (k <= i < k + w) then f (i - k) else fatb d v i.
Proof.
  intros Hk Hw Hdata i Hi. rewrite fatb_upd. case_decide as Hs.
  - rewrite Hdata by (apply Z.mod_pos_bound; lia). unfold fatb. rewrite Hs.
    repeat case_decide; try (exfalso; Z.div_mod_to_equations; lia); [|done].
    f_equal. Z.div_mod_to_equations; lia.
  - rewrite decide_False by (Z.div_mod_to_equations; lia). done.
Qed.

Lemma odd_cases n : (Z.odd n = true /\ n = 2 * (n / 2) + 1) \/ (Z.odd n = false /\ n = 2 * (n / 2)).
Proof. pose proof (Zmod_odd n). destruct (Z.odd n); [left|right]; (split; [done|]); Z.div_mod_to_equations; lia. Qed.

Lemma entry_write_12 primary d v v' n c :
  volume_ok primary d -> ISFAT12 d = true -> image_ok d v -> 2 <= n <= max_cluster d -> 0 <= c ->
  let k := fat_pos d n in
  let new := pack12 n c (fatb d v k + 256 * fatb d v (k + 1)) in
  (forall i, 0 <= i -> fatb d v' i =
     if decide (i = k) then u8 new else if decide (i = k + 1) then u8 (Z.shiftr new 8) else fatb d v i) ->
  forall m, 2 <= m <= max_cluster d -> entry d v' m = if decide (m = n) then encode d c else entry d v m.
Proof.
  intros Hv H12 Hi Hn Hc. cbv zeta. intros Hb m Hm.
  assert (Hbyte : forall m j, 2 <= m <= max_cluster d -> 0 <= j <= 1 -> is_byte (fatb d v (fat_pos d m + j))).
  { intros q j Hq Hj. destruct (fat_pos_last _ _ _ Hv Hq) as (? & ? & _). apply image_byte; [done|lia|].
    etransitivity; [|eassumption]. apply Z.div_le_mono; lia. }
  pose proof (Hbyte n 0 Hn ltac:(lia)) as B0. pose proof (Hbyte n 1 Hn ltac:(lia)) as B1. rewrite Z.add_0_r in B0.
  pose proof (Hbyte m 0 Hm ltac:(lia)) as C0. pose proof (Hbyte m 1 Hm ltac:(lia)) as C1. rewrite Z.add_0_r in C0.
  destruct (pack12_spec n c _ _ B0 B1 Hc) as [E0 E1]. rewrite E0, E1 in Hb. clear E0 E1 Hbyte.
  set (c' := c mod 4096) in *. assert (0 <= c' < 4096) by (subst c'; Z.div_mod_to_equations; lia).
  unfold entry, encode. rewrite H12. fold c'.
  destruct (fat_pos_last _ _ _ Hv Hm) as (Hk & _). rewrite !Hb by lia. clear Hb.
  unfold is_byte in *.
  assert (Hfp : forall q, fat_pos d q = q * 3 / 2) by (intros; unfold fat_pos; by rewrite H12).
  rewrite !Hfp in *.
  destruct (decide (m = n)) as [->|Hne].
  - rewrite decide_True, decide_False, decide_True by lia.
    set (lo := fatb d v (n * 3 / 2)) in *. set (hi := fatb d v (n * 3 / 2 + 1)) in *.
    rewrite unpack12_spec; unfold is_byte; destruct (Z.odd n); Z.div_mod_to_equations; lia.
  - destruct (decide (m * 3 / 2 + 1 = n * 3 / 2)) as [Hs|Hs].
    + (* [m] is the even entry before an odd [n]: its high nibble is in the first byte *)
      assert (m = n - 1 /\ Z.odd n = true /\ Z.odd m = false) as (Em & On & Om).
      { destruct (odd_cases n) as [[? ?]|[? ?]], (odd_cases m) as [[? ?]|[? ?]];
          Z.div_mod_to_equations; try lia; auto with lia. }
      rewrite (decide_False (P := m * 3 / 2 = n * 3 / 2)), (decide_False (P := m * 3 / 2 = n * 3 / 2 + 1)) by lia.
      rewrite On. rewrite Hs in *.
      rewrite !unpack12_spec by (unfold is_byte; Z.div_mod_to_equations; lia). rewrite Om.
      Z.div_mod_to_equations; lia.
    + destruct (decide (m * 3 / 2 = n * 3 / 2 + 1)) as [Hs2|Hs2].
      * (* [m] is the odd entry after an even [n]: its low nibble is in the second byte *)
        assert (m = n + 1 /\ Z.odd n = false /\ Z.odd m = true) as (Em & On & Om).
        { destruct (odd_cases n) as [[? ?]|[? ?]], (odd_cases m) as [[? ?]|[? ?]];
            Z.div_mod_to_equations; try lia; auto with lia. }
        rewrite (decide_False (P := m * 3 / 2 = n * 3 / 2)) by lia.
        rewrite (decide_False (P := m * 3 / 2 + 1 = n * 3 / 2 + 1)) by lia.
        rewrite On. rewrite Hs2 in *.
        rewrite !unpack12_spec by (unfold is_byte; Z.div_mod_to_equations; lia). rewrite Om.
        Z.div_mod_to_equations; lia.
      * by rewrite !decide_False by (Z.div_mod_to_equations; lia).
Qed.

Lemma u32_split c : 0 <= c -> let c' := Z.land c LONG_LAST_CLUSTER in
  u8 c' + 256 * u8 (Z.shiftr c' 8) + 65536 * (u8 (Z.shiftr c' 16) + 256 * u8 (Z.shiftr c' 24)) = c mod 268435456.
Proof.
  intros Hc. cbv zeta. change LONG_LAST_CLUSTER with (Z.ones 28). rewrite land_ones_mod by lia.
  change (2 ^ 28) with 268435456. rewrite !Z.shiftr_div_pow2 by lia.
  change (2 ^ 8) with 256. change (2 ^ 16) with 65536. change (2 ^ 24) with 16777216. word_lia.
Qed.

Lemma entry_write_16 d v v' n c :
  ISFAT12 d = false -> ISFAT32 d = false -> 0 <= n -> 0 <= c ->
  (forall i, 0 <= i -> fatb d v' i =
     if decide (fat_pos d n <= i < fat_pos d n + 2)
     then (if decide (i - fat_pos d n = 0) then u8 (u16 c) else u8 (Z.shiftr (u16 c) 8)) else fatb d v i) ->
  forall m, 0 <= m -> entry d v' m = if decide (m = n) then encode d c else entry d v m.
Proof.
  intros H12 H32 Hn Hc Hb m Hm. unfold entry, encode, fat_pos in *. rewrite H12, H32 in *. rewrite !Hb by lia.
  destruct (decide (m = n)) as [->|Hne].
  - rewrite !decide_True by lia. rewrite decide_False by lia.
    rewrite Z.shiftr_div_pow2 by lia. change (2 ^ 8) with 256. word_lia.
  - by rewrite !decide_False by lia.
Qed.

Lemma entry_write_32 d v v' n c :
  ISFAT12 d = false -> ISFAT32 d = true -> 0 <= n -> 0 <= c ->
  let c' := Z.land c LONG_LAST_CLUSTER in
  (forall i, 0 <= i -> fatb d v' i =
     if decide (fat_pos d n <= i < fat_pos d n + 4)
     then u8 (Z.shiftr c' (8 * (i - fat_pos d n))) else fatb d v i) ->
  forall m, 0 <= m -> entry d v' m = if decide (m = n) then encode d c else entry d v m.
Proof.
  intros H12 H32 Hn Hc. cbv zeta. intros Hb m Hm. unfold entry, encode, fat_pos in *. rewrite H12, H32 in *.
  rewrite !Hb by lia. destruct (decide (m = n)) as [->|Hne].
  - rewrite !decide_True by lia.
    replace (8 * (n * 4 - n * 4)) with 0 by lia. replace (8 * (n * 4 + 1 - n * 4)) with 8 by lia.
    replace (8 * (n * 4 + 2 - n * 4)) with 16 by lia. replace (8 * (n * 4 + 3 - n * 4)) with 24 by lia.
    rewrite Z.shiftr_0_r, u32_split by done. change LONG_LAST_CLUSTER with (Z.ones 28).
    rewrite land_ones_mod by lia. change (2 ^ 28) with 268435456. apply Z.mod_small, Z.mod_pos_bound. lia.
  - by rewrite !decide_False by lia.
Qed.

(** ** Getting a FAT sector *)

Section fat.
  Context {S : Type} `{BlockCacheLaws S primary}.
  Implicit Types st : S.

(** A buffer of a FAT sector, as [getFATblock] marks it. *)
Definition fat_buffer (d : dpb) (p sec : Z) (b : buffer) : Prop :=
  hit (fat_start d + sec) (dpb_unit d) b /\ is_fat b /\ b_copies b = fat_copies d /\
  b_offset b = dpb_fatsize d /\ b_dpbp b = p.

Lemma fat_buffer_mirrors d p sec b xf :
  volume_ok primary d -> 0 <= sec <= last_sector d -> fat_buffer d p sec b -> xf = dpb_xfatsize d ->
  mirrors_ok primary xf b.
Proof.
  intros Hv Hsec ((_ & Hu & Hb) & _ & Hc & Hoff & _) ->. unfold mirrors_ok, copy_offset.
  rewrite Hu, Hb, Hc, Hoff. intros _. split; [apply (v_copies _ _ Hv)|]. fold (fat_offset d). by apply (v_sector _ _ Hv).
Qed.

Definition mark_fat (d : dpb) (p : Z) (b : buffer) : buffer :=
  with_fat (fat_copies d) (dpb_fatsize d) p
    (with_flag (Z.lor (clear (Z.lor BFR_DATA BFR_DIR) (b_flag b)) (Z.lor BFR_FAT BFR_VALID)) b).

Lemma mark_fat_flags fl :
  let fl' := Z.lor (clear (Z.lor BFR_DATA BFR_DIR) fl) (Z.lor BFR_FAT BFR_VALID) in
  has BFR_VALID fl' = true /\ has BFR_FAT fl' = true /\ has BFR_DIRTY fl' = has BFR_DIRTY fl /\
  has BFR_UNCACHE fl' = has BFR_UNCACHE fl.
Proof.
  cbv zeta. unfold clear. change BFR_VALID with (2 ^ 5). change BFR_DIRTY with (2 ^ 6).
  change BFR_FAT with (2 ^ 1). change BFR_UNCACHE with (2 ^ 0). rewrite !has_bit by lia.
  rewrite !Z.lor_spec, !Z.land_spec, !Z.lnot_spec by lia.
  change (Z.lor BFR_DATA BFR_DIR) with 12. change (Z.lor (2 ^ 1) (2 ^ 5)) with 34.
  cbn [Z.testbit Pos.testbit]. 
  repeat split; cbn; rewrite ?orb_true_r, ?orb_false_r, ?andb_true_r; done.
Qed.

Lemma getFATblock_spec fuel st l v p sec :
  let d := bc_dpb st p in
  bc_rep fuel st l v -> volume_ok primary d -> bc_drive st (dpb_unit d) -> 0 <= sec <= last_sector d ->
  exists r st', getFATblock fuel p (fat_start d + sec) st = Some (r, st') /\
    (forall q, bc_dpb st' q = bc_dpb st q) /\ (forall u, bc_drive st u -> bc_drive st' u) /\
    (bc_reliable -> is_Some r) /\
    match r with
    | None => True
    | Some x => exists l', bc_rep fuel st' l' v /\ l' ≡ₚ l /\ x ∈ l /\ fat_buffer d p sec (bc_buf st' x) /\
        bc_fresh st' x /\
        (forall y, y <> x -> same_links_only (bc_buf st y) (bc_buf st' y)) /\
        (forall y, bc_fresh st y -> is_fat (bc_buf st y) -> ~ hit (fat_start d + sec) (dpb_unit d) (bc_buf st y) -> x <> y)
    end.
Proof.
  cbv zeta. intros Hr Hv Hd Hsec. destruct (v_sector _ _ Hv sec Hsec) as (Hn & Hp & _).
  unfold getFATblock.
  destruct (bc_get fuel st l v (dpb_unit (bc_dpb st p)) (fat_start (bc_dpb st p) + sec) Hr)
    as (r & s1 & -> & Hdpb & Hdrv & Hrel & Hres); [by destruct (ISFAT12 _); lia|done|done|].
  destruct r as [x|]; [|by exists None, s1].
  destruct Hres as (l' & Hr1 & Hperm & Hx & Hh & Hfresh & Hsame & Hkeep).
  rewrite Hdpb. set (d := bc_dpb st p) in *. fold (fat_copies d).
  set (s2 := bc_upd x (mark_fat d p) s1).
  destruct (mark_fat_flags (b_flag (bc_buf s1 x))) as (F1 & F2 & F3 & F4).
  assert (Hfb : fat_buffer d p sec (mark_fat d p (bc_buf s1 x))).
  { destruct Hh as (Hv1 & H1 & H2). split_and!; try done. }
  assert (Hx' : x ∈ l') by (by rewrite Hperm).
  pose proof (bc_read _ _ _ _ _ _ _ Hr1 Hx' Hh) as Hdata.
  destruct Hh as (Hv1 & Hu1 & Hb1).
  destruct (bc_store fuel s1 l' v v x (mark_fat d p) Hr1 Hx' Hv1) as [Hr2 Hfresh2]; cbn; try done.
  { eapply fat_buffer_mirrors; [exact Hv|exact Hsec|exact Hfb|]. by rewrite Hdpb. }
  { right. split; [done|]. unfold dirty. cbn. by rewrite F3. }
  { by rewrite Hu1, Hb1. }
  eexists (Some x), s2. split; [done|]. split_and!.
  - intros q. subst s2. by rewrite bc_dpb_upd.
  - intros u Hu. by apply bc_drive_upd, Hdrv.
  - done.
  - exists l'. split_and!; try done.
    + subst s2. rewrite bc_buf_upd. by rewrite decide_True.
    + apply Hfresh2; [done|]. intros _. cbn. by rewrite F4.
    + intros y Hy. subst s2. rewrite bc_buf_upd, decide_False by done. by apply Hsame.
Qed.

(** ** Accessing an entry *)

(** Blocks outside the active FAT are as they were. *)
Definition same_elsewhere (d : dpb) (v v' : Z -> Z -> list Z) : Prop :=
  forall u n, ~ (u = dpb_unit d /\ fat_start d <= n <= fat_start d + last_sector d) -> v' u n = v u n.

(** The image after writing [c] to entry [n]. *)
Definition written (d : dpb) (n c : Z) (v v' : Z -> Z -> list Z) : Prop :=
  image_ok d v' /\ same_elsewhere d v v' /\
  forall m, 2 <= m <= max_cluster d -> entry d v' m = if decide (m = n) then encode d c else entry d v m.

Definition dirty_data (data : list Z) (b : buffer) : buffer :=
  with_flag (Z.lor (b_flag b) (Z.lor BFR_DIRTY BFR_VALID)) (with_data data b).

Lemma mark_flags fl :
  let fl' := Z.lor fl (Z.lor BFR_DIRTY BFR_VALID) in
  has BFR_VALID fl' = true /\ has BFR_DIRTY fl' = true /\ has BFR_FAT fl' = has BFR_FAT fl /\
  has BFR_UNCACHE fl' = has BFR_UNCACHE fl.
Proof.
  cbv zeta. change BFR_VALID with (2 ^ 5). change BFR_DIRTY with (2 ^ 6).
  change BFR_FAT with (2 ^ 1). change BFR_UNCACHE with (2 ^ 0). rewrite !has_bit by lia.
  rewrite !Z.lor_spec. change (Z.lor (2 ^ 6) (2 ^ 5)) with 96.
  repeat split; cbn; rewrite ?orb_true_r, ?orb_false_r; done.
Qed.

(** Storing a FAT sector: the image gets the new data. *)
Lemma store_fat fuel st l v p sec x f fl data :
  let d := bc_dpb st p in
  bc_rep fuel st l v -> volume_ok primary d -> 0 <= sec <= last_sector d -> x ∈ l ->
  fat_buffer d p sec (bc_buf st x) ->
  f (bc_buf st x) = with_flag fl (with_data data (bc_buf st x)) ->
  has BFR_VALID fl = true -> has BFR_DIRTY fl = true ->
  bc_rep fuel (bc_upd x f st) l (upd_image v (dpb_unit d) (fat_start d + sec) data) /\
  forall y, bc_fresh st y -> (y = x -> has BFR_UNCACHE fl = has BFR_UNCACHE (b_flag (bc_buf st x))) ->
      bc_fresh (bc_upd x f st) y.
Proof.
  cbv zeta. intros Hr Hv Hs Hx Hb Hf HV HD.
  pose proof Hb as ((Hva & Hu & Hbk) & Hfat & Hc & Ho & Hdp).
  destruct (bc_store fuel st l v (upd_image v (dpb_unit (bc_dpb st p)) (fat_start (bc_dpb st p) + sec) data) x f Hr Hx Hva)
    as [Hr' Hfr]; rewrite ?Hf; try done.
  - unfold mirrors_ok, copy_offset. cbn. rewrite Hu, Hbk, Hc, Ho, Hdp. intros _.
    split; [apply (v_copies _ _ Hv)|]. fold (fat_offset (bc_dpb st p)). by apply (v_sector _ _ Hv).
  - by left.
  - cbn. rewrite Hu, Hbk. unfold upd_image. by rewrite decide_True.
  - intros u n Hne. unfold upd_image. rewrite decide_False; [done|]. intros [-> ->]. by apply Hne.
  - split; [done|]. intros y Hy Hun. apply Hfr; [done|]. by rewrite Hf.
Qed.

Lemma elsewhere_upd d v sec data : 0 <= sec <= last_sector d ->
  same_elsewhere d v (upd_image v (dpb_unit d) (fat_start d + sec) data).
Proof. intros Hs u n Hn. unfold upd_image. rewrite decide_False; [done|]. intros [-> ->]. apply Hn. split; [done|lia]. Qed.

Lemma elsewhere_trans d v v1 v2 : same_elsewhere d v v1 -> same_elsewhere d v1 v2 -> same_elsewhere d v v2.
Proof. intros H1 H2 u n Hn. by rewrite H2, H1. Qed.

Lemma fat_data fuel st l v p sec x :
  let d := bc_dpb st p in
  bc_rep fuel st l v -> x ∈ l -> fat_buffer d p sec (bc_buf st x) -> image_ok d v -> 0 <= sec <= last_sector d ->
  b_buffer (bc_buf st x) = v (dpb_unit d) (fat_start d + sec) /\
  length (b_buffer (bc_buf st x)) = 512%nat /\ bytes (b_buffer (bc_buf st x)).
Proof.
  cbv zeta. intros Hr Hx Hb Hi Hs. rewrite (bc_read _ _ _ _ _ _ _ Hr Hx (proj1 Hb)).
  split; [done|]. by apply Hi.
Qed.

(** What an access to entry [n] promises: a read gives the decoded entry, a write
    leaves a buffer whose marking as dirty completes the new image. *)
Definition access_post (fuel : nat) (p n c : Z) (l : list Z) (v : Z -> Z -> list Z) (st : S) (a : access) (st' : S) : Prop :=
  let d := bc_dpb st p in
  (forall q, bc_dpb st' q = bc_dpb st q) /\ (forall u, bc_drive st u -> bc_drive st' u) /\
  match a with
  | Return r =>
      (c = READ_CLUSTER /\ r = decode d (entry d v n) /\ exists l', bc_rep fuel st' l' v /\ l' ≡ₚ l) \/
      (r = 1 /\ ~ bc_reliable)
  | Written bp wasfree =>
      c <> READ_CLUSTER /\ wasfree = (entry d v n =? FREE) /\
      exists l' v', bc_rep fuel (mark (Z.lor BFR_DIRTY BFR_VALID) bp st') l' v' /\ l' ≡ₚ l /\ written d n c v v'
  end.

(** The values a caller passes for the new contents of an entry. *)
Definition target_ok (d : dpb) (c : Z) : Prop :=
  0 <= c <= max_cluster d \/ LONG_BAD <= c <= LONG_LAST_CLUSTER.

Lemma target_read d c : volume_ok primary d -> ISFAT32 d = false -> target_ok d c ->
  (u16 c =? READ_CLUSTER) = (c =? READ_CLUSTER).
Proof.
  intros Hv H32 Hc. pose proof (v_size _ _ Hv) as Hs. unfold target_ok, max_cluster in Hc. rewrite H32 in *.
  unfold READ_CLUSTER, LONG_BAD, LONG_LAST_CLUSTER, FAT_MAGIC16 in *.
  destruct (Z.eqb_spec (u16 c) 1), (Z.eqb_spec c 1); try done; word_lia.
Qed.

(** The hypotheses an access runs under. *)
Definition access_pre (fuel : nat) (p n c : Z) (l : list Z) (v : Z -> Z -> list Z) (st : S) (x : Z) : Prop :=
  let d := bc_dpb st p in
  bc_rep fuel st l v /\ volume_ok primary d /\ bc_drive st (dpb_unit d) /\ image_ok d v /\
  2 <= n <= max_cluster d /\ target_ok d c /\ x ∈ l /\ fat_buffer d p (fat_pos d n / 512) (bc_buf st x).

(** One write into one sector. *)
Lemma access_one fuel p n c l v st x data' wasfree :
  let d := bc_dpb st p in
  access_pre fuel p n c l v st x -> c <> READ_CLUSTER -> wasfree = (entry d v n =? FREE) ->
  length data' = 512%nat -> bytes data' ->
  (forall m, 2 <= m <= max_cluster d ->
    entry d (upd_image v (dpb_unit d) (fat_start d + fat_pos d n / 512) data') m =
    if decide (m = n) then encode d c else entry d v m) ->
  access_post fuel p n c l v st (Written x wasfree) (bc_upd x (with_data data') st).
Proof.
  cbv zeta. intros (Hr & Hv & Hd & Hi & Hn & Hc & Hx & Hb) Hnr Hw Hl Hby He.
  destruct (fat_pos_last _ _ _ Hv Hn) as (Hk0 & Hk1 & Hk3).
  assert (Hsec : 0 <= fat_pos (bc_dpb st p) n / 512 <= last_sector (bc_dpb st p)) by (Z.div_mod_to_equations; lia).
  split; [intros; apply bc_dpb_upd|]. split; [intros; by apply bc_drive_upd|].
  split; [done|]. split; [done|]. eexists l, _. unfold mark. rewrite bc_upd_upd. split_and!.
  - eapply (store_fat fuel st l v p _ x _ _ data'); try done; apply mark_flags.
  - done.
  - split_and!; [by apply image_ok_upd|by apply elsewhere_upd|done].
Qed.

Lemma access16_spec fuel p n c idx l v st x :
  let d := bc_dpb st p in
  access_pre fuel p n c l v st x -> ISFAT12 d = false -> ISFAT32 d = false -> idx * 2 = fat_pos d n mod 512 ->
  exists a st', access16 c idx x st = Some (a, st') /\ access_post fuel p n c l v st a st'.
Proof.
  cbv zeta. intros Hpre H12 H32 Hidx. pose proof Hpre as (Hr & Hv & Hd & Hi & Hn & Hc & Hx & Hb).
  destruct (fat_pos_last _ _ _ Hv Hn) as (Hk0 & Hk1 & Hk3).
  assert (Hsec : 0 <= fat_pos (bc_dpb st p) n / 512 <= last_sector (bc_dpb st p)) by (Z.div_mod_to_equations; lia).
  destruct (fat_data _ _ _ _ _ _ _ Hr Hx Hb Hi Hsec) as (Hdata & Hlen & Hby).
  assert (Hodd : fat_pos (bc_dpb st p) n = n * 2) by (unfold fat_pos; by rewrite H12, H32).
  unfold access16. rewrite (target_read _ _ Hv H32 Hc), get16_spec by (Z.div_mod_to_equations; lia).
  assert (He : byte_at (b_buffer (bc_buf st x)) (idx * 2) + 256 * byte_at (b_buffer (bc_buf st x)) (idx * 2 + 1)
    = entry (bc_dpb st p) v n).
  { unfold entry. rewrite H12, H32, Hidx, Hdata.
    by rewrite byte_of_sector by (Z.div_mod_to_equations; lia). }
  rewrite He. destruct (Z.eqb_spec c READ_CLUSTER) as [->|Hnr].
  - eexists _, _. split; [done|]. split_and!; [done|done|]. left. split; [done|]. split; [|by exists l].
    unfold decode. by rewrite H12, H32.
  - destruct (put16_spec (idx * 2) (u16 c) (b_buffer (bc_buf st x))) as (data' & -> & Hl' & Hby' & Hj);
      [Z.div_mod_to_equations; lia..|].
    eexists _, _. split; [done|]. apply access_one; try done; [congruence|by apply Hby'|].
    intros m Hm. eapply (entry_write_16 _ v); try done; [lia|unfold target_ok in Hc; word_lia || (unfold LONG_BAD in Hc; lia)| |lia].
    intros i Hi0.
    rewrite (fatb_store _ _ (fat_pos (bc_dpb st p) n) 2 data'
      (fun j => if decide (j = 0) then u8 (u16 c) else u8 (Z.shiftr (u16 c) 8))); try done; [Z.div_mod_to_equations; lia|].
    intros j Hj0. rewrite Hj, Hidx, <- Hdata by done.
    repeat case_decide; (lia || done).
Qed.

Lemma access32_spec fuel p n c idx l v st x :
  let d := bc_dpb st p in
  access_pre fuel p n c l v st x -> ISFAT12 d = false -> ISFAT32 d = true -> idx * 4 = fat_pos d n mod 512 ->
  exists a st', access32 c idx x st = Some (a, st') /\ access_post fuel p n c l v st a st'.
Proof.
  cbv zeta. intros Hpre H12 H32 Hidx. pose proof Hpre as (Hr & Hv & Hd & Hi & Hn & Hc & Hx & Hb).
  destruct (fat_pos_last _ _ _ Hv Hn) as (Hk0 & Hk1 & Hk3).
  assert (Hsec : 0 <= fat_pos (bc_dpb st p) n / 512 <= last_sector (bc_dpb st p)) by (Z.div_mod_to_equations; lia).
  destruct (fat_data _ _ _ _ _ _ _ Hr Hx Hb Hi Hsec) as (Hdata & Hlen & Hby).
  assert (Hodd : fat_pos (bc_dpb st p) n = n * 4) by (unfold fat_pos; by rewrite H12, H32).
  unfold access32. rewrite get32_spec by (Z.div_mod_to_equations; lia).
  rewrite Hdata, Hidx, !byte_of_sector by (Z.div_mod_to_equations; lia).
  fold (fatb (bc_dpb st p) v (fat_pos (bc_dpb st p) n)).
  assert (He : Z.land (fatb (bc_dpb st p) v (fat_pos (bc_dpb st p) n) +
     256 * fatb (bc_dpb st p) v (fat_pos (bc_dpb st p) n + 1) +
     65536 * (fatb (bc_dpb st p) v (fat_pos (bc_dpb st p) n + 2) +
              256 * fatb (bc_dpb st p) v (fat_pos (bc_dpb st p) n + 3))) LONG_LAST_CLUSTER
    = entry (bc_dpb st p) v n) by (unfold entry; by rewrite H12, H32).
  rewrite He. destruct (Z.eqb_spec c READ_CLUSTER) as [->|Hnr].
  - eexists _, _. split; [done|]. split_and!; [done|done|]. left. split; [done|]. split; [|by exists l].
    unfold decode. by rewrite H12, H32.
  - destruct (put32_spec (fat_pos (bc_dpb st p) n mod 512) (Z.land c LONG_LAST_CLUSTER) (b_buffer (bc_buf st x)))
      as (data' & Hput & Hl' & Hby' & Hj); [Z.div_mod_to_equations; lia..|].
    rewrite Hdata in Hput. rewrite Hput.
    eexists _, _. split; [done|]. apply access_one; try done; [congruence|by apply Hby'|].
    intros m Hm. eapply (entry_write_32 _ v); try done; [lia|unfold target_ok, LONG_BAD in Hc; lia| |lia].
    intros i Hi0.
    rewrite (fatb_store _ _ (fat_pos (bc_dpb st p) n) 4 data'
      (fun j => u8 (Z.shiftr (Z.land c LONG_LAST_CLUSTER) (8 * j)))); try done; [Z.div_mod_to_equations; lia|].
    intros j Hj0. rewrite Hj, <- Hdata by done.
    repeat case_decide; try lia; try done;
      match goal with |- u8 _ = u8 (Z.shiftr _ ?e) =>
        first [replace e with 0 by lia; by rewrite Z.shiftr_0_r | f_equal; f_equal; lia] end.
Qed.

(** ** The straddling entry *)

Lemma mark_buffer fuel st l v p sec x :
  let d := bc_dpb st p in
  bc_rep fuel st l v -> volume_ok primary d -> 0 <= sec <= last_sector d -> x ∈ l ->
  fat_buffer d p sec (bc_buf st x) ->
  let st' := mark (Z.lor BFR_DIRTY BFR_VALID) x st in
  bc_rep fuel st' l v /\ fat_buffer d p sec (bc_buf st' x) /\ has BFR_DIRTY (b_flag (bc_buf st' x)) = true.
Proof.
  cbv zeta. intros Hr Hv Hs Hx Hb. pose proof Hb as ((Hva & Hu & Hbk) & Hfat & Hc & Ho & Hdp).
  destruct (mark_flags (b_flag (bc_buf st x))) as (F1 & F2 & F3 & F4). unfold mark. split.
  - refine (proj1 (bc_store fuel st l v v x _ Hr Hx Hva _ _ _ _ _ _ _ _ _)); try done; cbn.
    + eapply fat_buffer_mirrors; [exact Hv|exact Hs| |by rewrite Hdp]. split_and!; try done.
      unfold is_fat. cbn. by rewrite F3.
    + by left.
    + by rewrite (bc_read _ _ _ _ _ _ _ Hr Hx (conj Hva (conj Hu Hbk))), Hu, Hbk.
  - rewrite bc_buf_upd, decide_True by done. split; [|done]. split_and!; try done. unfold is_fat. cbn. by rewrite F3.
Qed.

Lemma same_links_fat_buffer d p sec b b' :
  same_links_only b b' -> fat_buffer d p sec b -> fat_buffer d p sec b'.
Proof.
  unfold same_links_only, fat_buffer, hit, valid, is_fat.
  intros (-> & -> & -> & -> & -> & -> & _). done.
Qed.

(** The two bytes of a 12-bit entry in one sector. *)
Lemma access12_inner fuel p n c cs idx l v st x :
  let d := bc_dpb st p in
  access_pre fuel p n c l v st x -> ISFAT12 d = true -> ISFAT32 d = false -> idx / 2 = fat_pos d n mod 512 ->
  fat_pos d n mod 512 < 511 ->
  exists a st', access12 fuel p n c cs idx x st = Some (a, st') /\ access_post fuel p n c l v st a st'.
Proof.
  cbv zeta. intros Hpre H12 H32 Hidx Hin. pose proof Hpre as (Hr & Hv & Hd & Hi & Hn & Hc & Hx & Hb).
  destruct (fat_pos_last _ _ _ Hv Hn) as (Hk0 & Hk1 & Hk3).
  assert (Hsec : 0 <= fat_pos (bc_dpb st p) n / 512 <= last_sector (bc_dpb st p)) by (Z.div_mod_to_equations; lia).
  destruct (fat_data _ _ _ _ _ _ _ Hr Hx Hb Hi Hsec) as (Hdata & Hlen & Hby).
  set (k := fat_pos (bc_dpb st p) n) in *. pose proof (Z.mod_pos_bound k 512 ltac:(lia)) as Hkm.
  unfold access12. rewrite Hidx, (v_secsize _ _ Hv), (proj2 (Z.leb_gt _ _)), (target_read _ _ Hv H32 Hc) by lia.
  rewrite !at_byte by lia.
  assert (Hlo : byte_at (b_buffer (bc_buf st x)) (k mod 512) = fatb (bc_dpb st p) v k) by (by rewrite Hdata).
  assert (Hhi : byte_at (b_buffer (bc_buf st x)) (k mod 512 + 1) = fatb (bc_dpb st p) v (k + 1))
    by (rewrite Hdata; apply byte_of_sector; lia).
  rewrite Hlo, Hhi, two_bytes by (apply image_byte; [done|lia|lia]).
  assert (He : unpack12 n (fatb (bc_dpb st p) v k + 256 * fatb (bc_dpb st p) v (k + 1)) = entry (bc_dpb st p) v n)
    by (unfold entry; by rewrite H12).
  rewrite He. destruct (Z.eqb_spec c READ_CLUSTER) as [->|Hnr].
  - eexists _, _. split; [done|]. split_and!; [done|done|]. left. split; [done|]. split; [|by exists l].
    unfold decode. by rewrite H12.
  - rewrite set_at_spec by lia. rewrite bc_buf_upd, decide_True by done. cbn [b_buffer with_data].
    rewrite set_at_spec by (rewrite length_insert; lia). rewrite bc_upd_upd.
    eexists _, _. split; [done|]. apply access_one; try done.
    + by rewrite !length_insert.
    + apply bytes_insert; [apply bytes_insert; [done|]|]; apply u8_range.
    + fold k. set (new := pack12 _ _ _). intros m Hm.
      eapply (entry_write_12 primary _ v); try done; [unfold target_ok, LONG_BAD in Hc; lia|].
      fold k. fold new. intros i Hi0.
      rewrite (fatb_store _ _ k 2 _ (fun j => if decide (j = 0) then u8 new else u8 (Z.shiftr new 8))); try lia.
      * repeat case_decide; (lia || done).
      * intros j Hj0. rewrite byte_at_insert by (rewrite ?length_insert; lia). rewrite byte_at_insert by lia.
        rewrite Hdata. fold k. repeat case_decide; (lia || done).
Qed.

(** One byte of an image. *)
Lemma fatb_store_byte d v k data b :
  0 <= k -> (forall j, 0 <= j -> byte_at data j = if decide (j = k mod 512) then b
     else byte_at (v (dpb_unit d) (fat_start d + k / 512)) j) ->
  forall i, 0 <= i ->
    fatb d (upd_image v (dpb_unit d) (fat_start d + k / 512) data) i = if decide (i = k) then b else fatb d v i.
Proof.
  intros Hk Hdata i Hi.
  rewrite (fatb_store d v k 1 data (fun _ => b)); [|done|Z.div_mod_to_equations; lia| |done].
  - repeat case_decide; (lia || done).
  - intros j Hj. rewrite Hdata by done. repeat case_decide; (lia || done).
Qed.

(** The buffer of the sector after [x]'s. *)
Lemma next_sector fuel p n c l v st x :
  let d := bc_dpb st p in
  access_pre fuel p n c l v st x -> bc_fresh st x -> ISFAT12 d = true -> fat_pos d n mod 512 = 511 ->
  exists r st', getFATblock fuel p (u16 (fat_start d + fat_pos d n / 512 + 1)) st = Some (r, st') /\
    (forall q, bc_dpb st' q = bc_dpb st q) /\ (forall u, bc_drive st u -> bc_drive st' u) /\
    match r with
    | None => ~ bc_reliable
    | Some y => exists l', bc_rep fuel st' l' v /\ l' ≡ₚ l /\ x ∈ l' /\ y ∈ l' /\ x <> y /\
        fat_buffer d p (fat_pos d n / 512) (bc_buf st' x) /\ fat_buffer d p (fat_pos d n / 512 + 1) (bc_buf st' y)
    end.
Proof.
  cbv zeta. intros (Hr & Hv & Hd & Hi & Hn & Hc & Hx & Hb) Hfr H12 Hk.
  destruct (fat_pos_last _ _ _ Hv Hn) as (Hk0 & Hk1 & Hk3). set (k := fat_pos (bc_dpb st p) n) in *.
  assert (Hsec : 0 <= k / 512 + 1 <= last_sector (bc_dpb st p)) by (Z.div_mod_to_equations; lia).
  destruct (v_sector _ _ Hv _ Hsec) as [Hrange _]. rewrite H12 in Hrange.
  rewrite u16_id by lia. replace (fat_start (bc_dpb st p) + k / 512 + 1) with (fat_start (bc_dpb st p) + (k / 512 + 1)) by lia.
  destruct (getFATblock_spec fuel st l v p (k / 512 + 1) Hr Hv Hd Hsec) as (r & st' & -> & Hdpb & Hdrv & Hrel & Hres).
  exists r, st'. split; [done|]. split; [done|]. split; [done|].
  destruct r as [y|]; [|by intros [? ?]%Hrel].
  destruct Hres as (l' & Hr' & Hp & Hy & Hfy & _ & Hsame & Hkeep). exists l'. assert (x ∈ l' /\ y ∈ l') as [Hx' Hy'] by (by rewrite !Hp).
  assert (Hne : y <> x).
  { apply Hkeep; [done|apply Hb|]. intros (_ & _ & E1). destruct Hb as ((_ & _ & E2) & _). lia. }
  split_and!; try done. eapply same_links_fat_buffer; [|done]. by apply Hsame.
Qed.

(** One byte in each of two sectors: with [x] not yet marked, and [y] marked. *)
Lemma store_two fuel l v st p x y k (b0 b1 : Z) :
  let d := bc_dpb st p in
  bc_rep fuel st l v -> volume_ok primary d -> image_ok d v -> x ∈ l -> y ∈ l -> x <> y ->
  0 <= k -> k mod 512 = 511 -> (k + 1) / 512 <= last_sector d -> is_byte b0 -> is_byte b1 ->
  fat_buffer d p (k / 512) (bc_buf st x) -> fat_buffer d p (k / 512 + 1) (bc_buf st y) ->
  has BFR_DIRTY (b_flag (bc_buf st y)) = true ->
  let st' := bc_upd y (with_data (<[0%nat := b1]> (b_buffer (bc_buf st y))))
    (bc_upd x (with_data (<[Z.to_nat (k mod 512) := b0]> (b_buffer (bc_buf st x)))) st) in
  exists v', bc_rep fuel (mark (Z.lor BFR_DIRTY BFR_VALID) x st') l v' /\ image_ok d v' /\ same_elsewhere d v v' /\
    forall i, 0 <= i -> fatb d v' i = if decide (i = k) then b0 else if decide (i = k + 1) then b1 else fatb d v i.
Proof.
  cbv zeta. intros Hr Hv Hi Hx Hy Hne Hk Hmod Hlast Hb0 Hb1 Hfx Hfy Hdy.
  assert (Hs0 : 0 <= k / 512 <= last_sector (bc_dpb st p)) by (Z.div_mod_to_equations; lia).
  assert (Hs1 : 0 <= k / 512 + 1 <= last_sector (bc_dpb st p)) by (Z.div_mod_to_equations; lia).
  destruct (fat_data _ _ _ _ _ _ _ Hr Hx Hfx Hi Hs0) as (Ex & Lx & Bx).
  destruct (fat_data _ _ _ _ _ _ _ Hr Hy Hfy Hi Hs1) as (Ey & Ly & By).
  set (dx := <[Z.to_nat (k mod 512) := b0]> _). set (dy := <[0%nat := b1]> _).
  unfold mark. rewrite bc_upd_comm, bc_upd_upd by done.
  destruct (mark_flags (b_flag (bc_buf st x))) as (F1 & F2 & _).
  set (f := fun b => with_flag (Z.lor (b_flag (with_data dx b)) (Z.lor BFR_DIRTY BFR_VALID)) (with_data dx b)).
  destruct (store_fat fuel st l v p _ x f _ dx Hr Hv Hs0 Hx Hfx eq_refl F1 F2) as [Hr1 _].
  set (v1 := upd_image v _ _ dx) in Hr1. set (s1 := bc_upd x f st) in *.
  assert (Eb : bc_buf s1 y = bc_buf st y) by (unfold s1; by rewrite bc_buf_upd, decide_False).
  assert (Ed : bc_dpb s1 p = bc_dpb st p) by apply bc_dpb_upd.
  destruct (store_fat fuel s1 l v1 p (k / 512 + 1) y (with_data dy) (b_flag (bc_buf st y)) dy) as [Hr2 _];
    rewrite ?Eb, ?Ed; try done; [apply Hfy|].
  rewrite Ed in Hr2. eexists. split; [exact Hr2|].
  assert (Hi1 : image_ok (bc_dpb st p) v1).
  { apply image_ok_upd; [done| |].
    - unfold dx. by rewrite length_insert.
    - unfold dx. by apply bytes_insert. }
  split_and!.
  - apply image_ok_upd; [done| |]; unfold dy; [by rewrite length_insert|by apply bytes_insert].
  - eapply elsewhere_trans; by apply elsewhere_upd.
  - intros i Hi0. replace (k / 512 + 1) with ((k + 1) / 512) by (Z.div_mod_to_equations; lia).
    rewrite (fatb_store_byte _ _ (k + 1) _ b1); [|lia| |done].
    + unfold v1. rewrite (fatb_store_byte _ _ k _ b0); [|lia| |done].
      * repeat case_decide; (lia || done).
      * intros j Hj. unfold dx. rewrite byte_at_insert by (rewrite ?Lx; lia). rewrite <- Ex. repeat case_decide; (lia || done).
    + intros j Hj. unfold dy. change 0%nat with (Z.to_nat 0). rewrite byte_at_insert by lia.
      assert ((k + 1) mod 512 = 0) as -> by (Z.div_mod_to_equations; lia).
      replace ((k + 1) / 512) with (k / 512 + 1) by (Z.div_mod_to_equations; lia).
      unfold v1, upd_image. rewrite (decide_False (P := _ /\ _)) by lia. rewrite Ey. repeat case_decide; (lia || done).
Qed.

Lemma access12_straddle fuel p n c idx l v st x :
  let d := bc_dpb st p in
  access_pre fuel p n c l v st x -> bc_fresh st x -> ISFAT12 d = true -> ISFAT32 d = false ->
  idx / 2 = fat_pos d n mod 512 -> fat_pos d n mod 512 = 511 ->
  exists a st', access12 fuel p n c (fat_start d + fat_pos d n / 512) idx x st = Some (a, st') /\
    access_post fuel p n c l v st a st'.
Proof.
  cbv zeta. intros Hpre Hfr H12 H32 Hidx Hmod.
  destruct (next_sector _ _ _ _ _ _ _ _ Hpre Hfr H12 Hmod) as (r & s1 & Hget & Hdpb & Hdrv & Hres).
  destruct Hpre as (_ & Hv & Hd & Hi & Hn & Hc & _).
  destruct (fat_pos_last _ _ _ Hv Hn) as (Hk0 & Hk1 & Hk3). unfold access12.
  rewrite Hidx, (v_secsize _ _ Hv), (proj2 (Z.leb_le _ _)), (target_read _ _ Hv H32 Hc), Hget by lia.
  destruct r as [y|]; [|by eexists _, _; split; [done|]; split_and!; auto].
  destruct Hres as (l' & Hr & Hp & Hx & Hy & Hne & Hbx & Hby). rewrite <- (Hdpb p) in *.
  set (k := fat_pos (bc_dpb s1 p) n) in *.
  assert (Hs0 : 0 <= k / 512 <= last_sector (bc_dpb s1 p)) by (Z.div_mod_to_equations; lia).
  assert (Hs1 : 0 <= k / 512 + 1 <= last_sector (bc_dpb s1 p)) by (Z.div_mod_to_equations; lia).
  assert (Hread : forall s2, bc_rep fuel s2 l' v -> bc_dpb s2 p = bc_dpb s1 p ->
    fat_buffer (bc_dpb s1 p) p (k / 512) (bc_buf s2 x) -> fat_buffer (bc_dpb s1 p) p (k / 512 + 1) (bc_buf s2 y) ->
    at_ (b_buffer (bc_buf s2 x)) (k mod 512) = Some (fatb (bc_dpb s1 p) v k) /\
    at_ (b_buffer (bc_buf s2 y)) 0 = Some (fatb (bc_dpb s1 p) v (k + 1)) /\
    length (b_buffer (bc_buf s2 x)) = 512%nat /\ length (b_buffer (bc_buf s2 y)) = 512%nat).
  { intros s2 Hr2 Hd2 Hb2 Hb2'. rewrite <- Hd2 in *.
    destruct (fat_data _ _ _ _ _ _ _ Hr2 Hx Hb2 Hi Hs0) as (-> & Lx & _).
    destruct (fat_data _ _ _ _ _ _ _ Hr2 Hy Hb2' Hi Hs1) as (-> & Ly & _).
    rewrite !at_byte by lia. split_and!; try done. f_equal. unfold fatb.
    replace ((k + 1) mod 512) with 0 by (Z.div_mod_to_equations; lia).
    by replace ((k + 1) / 512) with (k / 512 + 1) by (Z.div_mod_to_equations; lia). }
  assert (He : unpack12 n (fatb (bc_dpb s1 p) v k + 256 * fatb (bc_dpb s1 p) v (k + 1)) = entry (bc_dpb s1 p) v n)
    by (unfold entry; by rewrite H12).
  assert (Hlo : is_byte (fatb (bc_dpb s1 p) v k)) by (apply image_byte; [done|lia|lia]).
  destruct (Z.eqb_spec c READ_CLUSTER) as [->|Hnr]; cbn [negb].
  - destruct (Hread s1) as (-> & -> & _); try done. rewrite two_bytes, He by done.
    eexists _, _. split; [done|]. split_and!; [done|done|]. left. split; [done|].
    split; [unfold decode; by rewrite <- Hdpb, H12|]. by exists l'.
  - destruct (mark_buffer fuel s1 l' v p _ y Hr Hv Hs1 Hy Hby) as (Hr2 & Hby2 & Hdy).
    set (s2 := mark _ y s1) in *.
    assert (Hbx2 : fat_buffer (bc_dpb s1 p) p (k / 512) (bc_buf s2 x))
      by (unfold s2, mark; by rewrite bc_buf_upd, decide_False).
    assert (Hd2 : bc_dpb s2 p = bc_dpb s1 p) by apply bc_dpb_upd.
    destruct (Hread s2) as (-> & -> & Lx & Ly); try done. rewrite two_bytes, He by done. clear Hread.
    rewrite set_at_spec by lia. rewrite bc_buf_upd, decide_False by done. rewrite set_at_spec by lia.
    eexists _, _. split; [done|]. split; [intros q; rewrite !bc_dpb_upd; by rewrite <- Hdpb; apply bc_dpb_upd|].
    split; [intros u Hu; do 2 apply bc_drive_upd; by apply bc_drive_upd, Hdrv|].
    split; [done|]. split; [by rewrite <- Hdpb|].
    destruct (store_two fuel l' v s2 p x y k (u8 (pack12 n c (fatb (bc_dpb s1 p) v k + 256 * fatb (bc_dpb s1 p) v (k + 1))))
      (u8 (Z.shiftr (pack12 n c (fatb (bc_dpb s1 p) v k + 256 * fatb (bc_dpb s1 p) v (k + 1))) 8)))
      as (v' & Hr3 & Hi3 & Hel & Hb3); rewrite ?Hd2; try done; try apply u8_range.
    exists l', v'. split; [exact Hr3|]. split; [done|]. rewrite Hd2 in *. rewrite <- Hdpb. split_and!; try done.
    intros m Hm. eapply (entry_write_12 primary _ v); try done. unfold target_ok, LONG_BAD in Hc; lia.
Qed.

Lemma access12_spec fuel p n c idx l v st x :
  let d := bc_dpb st p in
  access_pre fuel p n c l v st x -> bc_fresh st x -> ISFAT12 d = true -> ISFAT32 d = false ->
  idx / 2 = fat_pos d n mod 512 ->
  exists a st', access12 fuel p n c (fat_start d + fat_pos d n / 512) idx x st = Some (a, st') /\
    access_post fuel p n c l v st a st'.
Proof.
  cbv zeta. intros. pose proof (Z.mod_pos_bound (fat_pos (bc_dpb st p) n) 512 ltac:(lia)).
  destruct (decide (fat_pos (bc_dpb st p) n mod 512 = 511)).
  - by apply access12_straddle.
  - apply access12_inner; try done. lia.
Qed.

(** ** The free count *)

(** The sector of the FAT32 information, when there is one, is the cache's and
    apart from the FAT. *)
Definition fsinfo_ok (d : dpb) (v : Z -> Z -> list Z) : Prop :=
  0 <= dpb_xnfreeclst d < 4294967296 /\ 0 <= dpb_xcluster d < 4294967296 /\
  (dpb_xfsinfosec d = 0xffff \/
   0 <= dpb_xfsinfosec d < 0xffff /\ primary (dpb_unit d) (dpb_xfsinfosec d) /\
   ~ (fat_start d <= dpb_xfsinfosec d <= fat_start d + last_sector d) /\
   length (v (dpb_unit d) (dpb_xfsinfosec d)) = 512%nat /\ bytes (v (dpb_unit d) (dpb_xfsinfosec d))).

(** The image after the DPB's counts went to the information sector. *)
Definition fsinfo_written (d : dpb) (v v' : Z -> Z -> list Z) : Prop :=
  (forall u n, ~ (u = dpb_unit d /\ n = dpb_xfsinfosec d /\ n <> 0xffff) -> v' u n = v u n) /\
  (dpb_xfsinfosec d <> 0xffff ->
    get32 (v' (dpb_unit d) (dpb_xfsinfosec d)) 0x1e8 = Some (dpb_xnfreeclst d) /\
    get32 (v' (dpb_unit d) (dpb_xfsinfosec d)) 0x1ec = Some (dpb_xcluster d)) /\
  fsinfo_ok d v'.

Lemma fsinfo_flags fl :
  let fl' := Z.lor (clear (Z.lor (Z.lor BFR_DATA BFR_DIR) BFR_FAT) fl) BFR_VALID in
  has BFR_VALID fl' = true /\ has BFR_FAT fl' = false /\ has BFR_DIRTY fl' = has BFR_DIRTY fl.
Proof.
  cbv zeta. unfold clear. change BFR_VALID with (2 ^ 5). change BFR_DIRTY with (2 ^ 6).
  change BFR_FAT with (2 ^ 1). rewrite !has_bit by lia.
  rewrite !Z.lor_spec, !Z.land_spec, !Z.lnot_spec by lia.
  change (Z.lor (Z.lor BFR_DATA BFR_DIR) (2 ^ 1)) with 14. 
  repeat split; cbn; rewrite ?orb_true_r, ?orb_false_r, ?andb_true_r, ?andb_false_r; done.
Qed.

(** The two stores of [write_fsinfo] into the sector. *)
Lemma fsinfo_data data nfree clst :
  length data = 512%nat -> bytes data -> 0 <= nfree < 4294967296 -> 0 <= clst < 4294967296 ->
  exists n0 c0 d1 d2, get32 data (0x1e4 + 4) = Some n0 /\ get32 data (0x1e4 + 8) = Some c0 /\
    put32 (0x1e4 + 4) nfree data = Some d1 /\ put32 (0x1e4 + 8) clst d1 = Some d2 /\
    length d2 = 512%nat /\ bytes d2 /\ get32 d2 0x1e8 = Some nfree /\ get32 d2 0x1ec = Some clst /\
    (n0 = nfree -> c0 = clst -> d2 = data).
Proof.
  intros Hl Hb Hn Hc. change (0x1e4 + 4) with 0x1e8. change (0x1e4 + 8) with 0x1ec.
  destruct (put32_spec 0x1e8 nfree data) as (d1 & H1 & L1 & B1 & _); [lia|lia|].
  destruct (put32_spec 0x1ec clst d1) as (d2 & H2 & L2 & B2 & _); [lia|lia|].
  eexists _, _, d1, d2. rewrite !get32_spec by lia. split; [done|]. split; [done|].
  split; [done|]. split; [done|]. split; [congruence|]. split; [auto|]. rewrite <- !get32_spec by lia.
  split. { rewrite (get32_put32_ne 0x1ec 0x1e8 clst d1 d2) by (done || lia). apply (get32_put32 _ _ data); done || lia. }
  split. { apply (get32_put32 0x1ec clst d1 d2); done || lia. }
  intros E1 E2. assert (d1 = data) as ->.
  { rewrite put32_same in H1; [congruence|lia|lia|done|]. rewrite get32_spec by lia. by f_equal. }
  rewrite put32_same in H2; [congruence|lia|lia|done|]. rewrite get32_spec by lia. by f_equal.
Qed.

Lemma write_fsinfo_spec fuel st l v p :
  let d := bc_dpb st p in
  bc_rep fuel st l v -> bc_drive st (dpb_unit d) -> fsinfo_ok d v -> bc_reliable ->
  exists st', write_fsinfo fuel p st = Some st' /\ (forall q, bc_dpb st' q = bc_dpb st q) /\
    (forall u, bc_drive st u -> bc_drive st' u) /\
    exists l' v', bc_rep fuel st' l' v' /\ l' ≡ₚ l /\ fsinfo_written d v v'.
Proof.
  cbv zeta. intros Hr Hd (Hnf & Hcl & Hfs) Hrel. unfold write_fsinfo.
  destruct (Z.eqb_spec (dpb_xfsinfosec (bc_dpb st p)) 0xffff) as [E|E].
  { eexists. split; [done|]. split; [done|]. split; [done|]. exists l, v. split_and!; try done. }
  destruct Hfs as [|(Hs & Hp & Hnfat & Hlen & Hby)]; [done|].
  assert (Hn32 : 0 <= dpb_xfsinfosec (bc_dpb st p) < 4294967296) by lia.
  destruct (bc_get fuel st l v (dpb_unit (bc_dpb st p)) (dpb_xfsinfosec (bc_dpb st p)) Hr Hn32 Hd Hp)
    as (r & s1 & -> & Hdpb & Hdrv & Hrel1 & Hres).
  destruct (Hrel1 Hrel) as [x ->]. destruct Hres as (l' & Hr1 & Hperm & Hx & Hh & _).
  assert (Hx' : x ∈ l') by (by rewrite Hperm).
  pose proof (bc_read _ _ _ _ _ _ _ Hr1 Hx' Hh) as Hdata. destruct Hh as (Hva & Hu & Hbk).
  rewrite bc_buf_upd, decide_True by done. cbn [b_buffer with_flag]. rewrite Hdata.
  set (d := bc_dpb st p) in *. set (data := v (dpb_unit d) (dpb_xfsinfosec d)) in *.
  destruct (fsinfo_data data _ _ Hlen Hby Hnf Hcl) as (n0 & c0 & d1 & d2 & -> & -> & -> & -> & L2 & B2 & G1 & G2 & Hsame).
  set (f0 := fun b : buffer => with_flag _ b).
  set (chg := negb (n0 =? _) || negb (c0 =? _)).
  assert (Hs2 : exists f, bc_upd x (with_data d2)
      (if chg then mark BFR_DIRTY x (bc_upd x f0 s1) else bc_upd x f0 s1) = bc_upd x f s1 /\
      f (bc_buf s1 x) = with_flag (if chg then Z.lor (b_flag (f0 (bc_buf s1 x))) BFR_DIRTY else b_flag (f0 (bc_buf s1 x)))
        (with_data d2 (bc_buf s1 x))).
  { unfold mark. destruct chg; rewrite !bc_upd_upd; eexists; (split; [reflexivity|done]). }
  destruct Hs2 as (f & -> & Hf).
  destruct (fsinfo_flags (b_flag (bc_buf s1 x))) as (F1 & F2 & F3). fold (f0 (bc_buf s1 x)) in F1, F2, F3.
  eexists. split; [done|]. split; [intros q; by rewrite bc_dpb_upd|]. split; [intros u Hu'; by apply bc_drive_upd, Hdrv|].
  exists l', (upd_image v (dpb_unit d) (dpb_xfsinfosec d) d2).
  assert (Hflags : has BFR_VALID (b_flag (f (bc_buf s1 x))) = true /\ has BFR_FAT (b_flag (f (bc_buf s1 x))) = false /\
    (chg = true -> has BFR_DIRTY (b_flag (f (bc_buf s1 x))) = true) /\
    (chg = false -> has BFR_DIRTY (b_flag (f (bc_buf s1 x))) = has BFR_DIRTY (b_flag (bc_buf s1 x)))).
  { rewrite Hf. cbn. destruct chg; [|split_and!; done].
    revert F1 F2. cbn. change BFR_VALID with (2 ^ 5). change BFR_FAT with (2 ^ 1). change BFR_DIRTY with (2 ^ 6).
    rewrite !has_bit, !Z.lor_spec by lia. intros -> ->. cbn. rewrite orb_true_r. done. }
  destruct Hflags as (V1 & V2 & V3 & V4).
  split; [|split; [done|]].
  - refine (proj1 (bc_store fuel s1 l' v _ x f Hr1 Hx' Hva _ _ _ _ _ _ _ _ _)); try (by rewrite Hf); try exact V1.
    + unfold mirrors_ok, is_fat. by rewrite V2.
    + unfold dirty. destruct chg eqn:Ec; [left; by apply V3|right]. rewrite V4 by done. split; [|done].
      rewrite Hf. cbn. rewrite Hdata. unfold chg in Ec. apply orb_false_iff in Ec as [E1 E2].
      apply negb_false_iff, Z.eqb_eq in E1, E2. by apply Hsame.
    + rewrite Hf, Hu, Hbk. unfold upd_image. by rewrite decide_True.
    + intros u n Hne. unfold upd_image. rewrite decide_False; [done|]. intros [-> ->]. by apply Hne.
  - unfold fsinfo_written, fsinfo_ok, upd_image. split_and!; try lia.
    + intros u n Hne. rewrite decide_False; [done|]. intros [-> ->]. by apply Hne.
    + intros _. by rewrite decide_True.
    + right. rewrite decide_True by done. done.
Qed.

Definition free_count (d : dpb) (v : Z -> Z -> list Z) : Z :=
  Z.of_nat (length (filter (fun n => entry d v n = FREE) (seqZ 2 (max_cluster d - 1)))).

(** The count of free clusters the DPB keeps, of 16 or 32 bits, and whether it is
    known. *)
Definition dpb_count (d : dpb) : Z := if ISFAT32 d then dpb_xnfreeclst d else dpb_nfreeclst d.
Definition unknown_count (d : dpb) : Z := if ISFAT32 d then XUNKNCLSTFREE else UNKNCLSTFREE.

Lemma encode_free d c : volume_ok primary d -> target_ok d c -> encode d c = FREE <-> c = FREE.
Proof.
  intros Hv Hc. pose proof (fat_types _ _ Hv) as Ht. pose proof (v_size _ _ Hv) as Hs. pose proof (v_max _ _ Hv) as Hm.
  unfold target_ok, encode, FREE, max_cluster in *. unfold LONG_BAD, LONG_LAST_CLUSTER in *.
  destruct Ht as [(E12 & E16 & E32)|[(E12 & E16 & E32)|(E12 & E16 & E32)]]; rewrite E12, E32 in *;
    unfold FAT_MAGIC16 in Hs; [|Z.div_mod_to_equations; lia..].
  unfold ISFAT12, FAT_MAGIC in E12. apply Z.ltb_lt in E12. rewrite u16_id in E12 by lia.
  Z.div_mod_to_equations; lia.
Qed.

Lemma free_count_written d n c v v' :
  volume_ok primary d -> target_ok d c -> 2 <= n <= max_cluster d ->
  (forall m, 2 <= m <= max_cluster d -> entry d v' m = if decide (m = n) then encode d c else entry d v m) ->
  free_count d v' = free_count d v + (if c =? FREE then 1 else 0) - (if entry d v n =? FREE then 1 else 0).
Proof.
  intros Hv Hc Hn He. unfold free_count.
  pose proof (filter_length_update (fun m => entry d v m = FREE) (fun m => entry d v' m = FREE)
    (seqZ 2 (max_cluster d - 1)) n (NoDup_seqZ _ _)) as Hf.
  rewrite elem_of_seqZ in Hf. specialize (Hf ltac:(lia)).
  assert (Hen : entry d v' n = FREE <-> c = FREE) by (rewrite He, decide_True by done; by apply encode_free).
  lapply Hf; clear Hf; [intros Hf|].
  2: { intros m Hm%elem_of_seqZ Hne. rewrite He by lia. by rewrite decide_False. }
  destruct (Z.eqb_spec c FREE), (Z.eqb_spec (entry d v n) FREE);
    repeat case_decide; (tauto || lia).
Qed.

Lemma free_count_bounds d v : volume_ok primary d -> 0 <= free_count d v <= max_cluster d - 1.
Proof.
  intros Hv. pose proof (v_max _ _ Hv). unfold free_count.
  pose proof (length_filter (fun n => entry d v n = FREE) (seqZ 2 (max_cluster d - 1))) as Hl. rewrite length_seqZ in Hl. lia.
Qed.

Lemma nfreeclst_set k d : dpb_nfreeclst (set_nfreeclst k d) = u16 k.
Proof.
  unfold dpb_nfreeclst, set_nfreeclst. cbn [dpb_xnfreeclst set_xnfreeclst].
  rewrite Z.lor_comm, lor_shiftl by (lia || apply u16_range). change 0xffff with (Z.ones 16).
  rewrite land_ones_mod by lia. pose proof (u16_range k). change (2 ^ 16) with 65536. Z.div_mod_to_equations; lia.
Qed.

(** The DPB with a new free count, whose width the volume decides. *)
Definition with_count (k : Z) (d : dpb) : dpb :=
  if ISFAT32 d then set_xnfreeclst k d else set_nfreeclst k d.

(** The image after [link_fat] wrote [c] to entry [n]: only the FAT and the
    information sector may change, and in the FAT only the entry. *)
Definition linked (d : dpb) (n c : Z) (v v' : Z -> Z -> list Z) : Prop :=
  image_ok d v' /\
  (forall u b, ~ (u = dpb_unit d /\ fat_start d <= b <= fat_start d + last_sector d) ->
     ~ (u = dpb_unit d /\ b = dpb_xfsinfosec d /\ b <> 0xffff) -> v' u b = v u b) /\
  forall m, 2 <= m <= max_cluster d -> entry d v' m = if decide (m = n) then encode d c else entry d v m.

Lemma entry_ext d v v' m :
  volume_ok primary d -> 2 <= m <= max_cluster d ->
  (forall sec, 0 <= sec <= last_sector d -> v' (dpb_unit d) (fat_start d + sec) = v (dpb_unit d) (fat_start d + sec)) ->
  entry d v' m = entry d v m.
Proof.
  intros Hv Hm He. destruct (fat_pos_last _ _ _ Hv Hm) as (Hk0 & Hk1 & Hk3).
  assert (Hb : forall j, 0 <= j <= (if ISFAT32 d then 3 else 1) -> fatb d v' (fat_pos d m + j) = fatb d v (fat_pos d m + j)).
  { intros j Hj. unfold fatb. rewrite He; [done|]. destruct (ISFAT32 d); Z.div_mod_to_equations; lia. }
  assert (Hb01 : fatb d v' (fat_pos d m) = fatb d v (fat_pos d m) /\ fatb d v' (fat_pos d m + 1) = fatb d v (fat_pos d m + 1)).
  { pose proof (Hb 0) as H0. rewrite Z.add_0_r in H0. split; [apply H0|apply Hb]; destruct (ISFAT32 d); lia. }
  destruct Hb01 as [H0 H1]. unfold entry. destruct (ISFAT12 d); [by rewrite H0, H1|].
  destruct (ISFAT32 d); [by rewrite H0, H1, !Hb by lia|by rewrite H0, H1].
Qed.

Lemma linked_fsinfo d n c v v1 v2 :
  volume_ok primary d -> fsinfo_ok d v -> written d n c v v1 ->
  (forall u n, ~ (u = dpb_unit d /\ n = dpb_xfsinfosec d /\ n <> 0xffff) -> v2 u n = v1 u n) -> linked d n c v v2.
Proof.
  intros Hv (_ & _ & Hfs) (Hi & Hel & He) Hsame.
  assert (Hfat : forall sec, 0 <= sec <= last_sector d ->
    v2 (dpb_unit d) (fat_start d + sec) = v1 (dpb_unit d) (fat_start d + sec)).
  { intros sec Hsec. apply Hsame. intros (_ & E & E2). destruct Hfs as [?|(? & _ & ? & _)]; lia. }
  split_and!.
  - intros sec Hsec. rewrite Hfat by done. by apply Hi.
  - intros u b Hu Hb. rewrite Hsame by done. by apply Hel.
  - intros m Hm. rewrite <- He by done. by apply entry_ext.
Qed.

Lemma fsinfo_ok_written d n c v v' : fsinfo_ok d v -> written d n c v v' -> fsinfo_ok d v'.
Proof.
  intros (H1 & H2 & Hfs) (_ & Hel & _). split_and!; try lia. destruct Hfs as [|(Hs & Hp & Hn & Hl)]; [by left|right].
  rewrite Hel; [done|]. intros [_ ?]. done.
Qed.

(** What [link_fat] does to the free count of the DPB. *)
Definition counted (fuel : nat) (p n c : Z) (st : S) (l : list Z) (v : Z -> Z -> list Z) (st' : S) : Prop :=
  let d := bc_dpb st p in
  exists l' v', bc_rep fuel st' l' v' /\ l' ≡ₚ l /\ linked d n c v v' /\
    (forall u, bc_drive st u -> bc_drive st' u) /\ (forall q, q <> p -> bc_dpb st' q = bc_dpb st q) /\
    (exists k, bc_dpb st' p = set_xnfreeclst k d) /\ fsinfo_ok (bc_dpb st' p) v' /\
    (dpb_count d = unknown_count d -> bc_dpb st' p = d) /\
    (dpb_count d = free_count d v -> dpb_count (bc_dpb st' p) = free_count d v').

Lemma free_count_ext d v v' :
  volume_ok primary d -> (forall m, 2 <= m <= max_cluster d -> entry d v m = entry d v' m) -> free_count d v = free_count d v'.
Proof.
  intros Hv He. unfold free_count. f_equal. apply filter_length_same. intros m Hm%elem_of_seqZ.
  by rewrite He by lia.
Qed.

Lemma set_xnfreeclst_id d : set_xnfreeclst (dpb_xnfreeclst d) d = d.
Proof. by destruct d. Qed.

Lemma finish_write_spec fuel p n c l v v' st x wasfree :
  let d := bc_dpb st p in
  volume_ok primary d -> bc_drive st (dpb_unit d) -> target_ok d c -> 2 <= n <= max_cluster d -> fsinfo_ok d v ->
  bc_reliable -> bc_rep fuel (mark (Z.lor BFR_DIRTY BFR_VALID) x st) l v' -> wasfree = (entry d v n =? FREE) ->
  written d n c v v' ->
  exists st', finish_write fuel p c x wasfree st = Some (SUCCESS, st') /\ counted fuel p n c st l v st'.
Proof.
  cbv zeta. intros Hv Hd Hc Hn Hfs Hrel Hr Hw Hwr. unfold finish_write, counted.
  pose proof (fsinfo_ok_written _ _ _ _ _ Hfs Hwr) as Hfs'.
  pose proof (free_count_written _ _ _ _ _ Hv Hc Hn (proj2 (proj2 Hwr))) as Hcount.
  pose proof (free_count_bounds _ v' Hv) as Hb. pose proof (v_max _ _ Hv) as Hm. unfold LONG_BAD in Hm.
  set (s1 := mark _ x st) in *. assert (Hd1 : forall q, bc_dpb s1 q = bc_dpb st q) by (intros; apply bc_dpb_upd).
  assert (Hdr1 : forall u, bc_drive st u -> bc_drive s1 u) by (intros; by apply bc_drive_upd).
  rewrite Hd1. set (d := bc_dpb st p) in *.
  assert (Hlinked : linked d n c v v').
  { destruct Hwr as (? & Hel & ?). split_and!; try done. intros u b Hu _. by apply Hel. }
  assert (Hnone : free_count d v' = free_count d v -> counted fuel p n c st l v s1).
  { intros E. exists l, v'. rewrite Hd1. split_and!; try done; [|by intros ->].
    exists (dpb_xnfreeclst d). by rewrite set_xnfreeclst_id. }
  set (adjust := if negb wasfree then 1 else if negb (c =? FREE) then -1 else 0).
  assert (Hadj : (c =? FREE) || wasfree = true -> free_count d v' = free_count d v + adjust).
  { rewrite Hcount, <- Hw. subst adjust. destruct (c =? FREE), wasfree; cbn; (lia || done). }
  destruct ((c =? FREE) || wasfree) eqn:Eor.
  2: { exists s1. split; [done|]. apply Hnone. rewrite Hcount, <- Hw.
       apply orb_false_iff in Eor as [-> ->]. lia. }
  specialize (Hadj eq_refl). pose proof Hfs' as (Hnf & Hcl & Hsec).
  destruct (ISFAT32 d) eqn:E32; cbn [andb].
  - destruct (Z.eqb_spec (dpb_xnfreeclst d) XUNKNCLSTFREE) as [Ex|Ex]; cbn [negb].
    + assert (dpb_nfreeclst d = UNKNCLSTFREE) as -> by (unfold dpb_nfreeclst; by rewrite Ex).
      exists s1. split; [done|]. exists l, v'. rewrite Hd1. split_and!; try done.
      * exists (dpb_xnfreeclst d). by rewrite set_xnfreeclst_id.
      * unfold dpb_count. fold d. rewrite E32, Ex. unfold XUNKNCLSTFREE. pose proof (free_count_bounds _ v Hv). lia.
    + set (k := u32 (dpb_xnfreeclst d + adjust)). set (d' := set_xnfreeclst k d). set (s2 := bc_set_dpb p d' s1).
      assert (Hr2 : bc_rep fuel s2 l v') by (apply bc_set_dpb_rep; rewrite ?Hd1; done).
      assert (Hd2 : forall q, bc_dpb s2 q = if decide (q = p) then d' else bc_dpb st q)
        by (intros q; unfold s2; by rewrite bc_set_dpb_get, Hd1).
      pose proof (u32_range (dpb_xnfreeclst d + adjust)).
      destruct (write_fsinfo_spec fuel s2 l v' p) as (s3 & -> & Hd3 & Hdr3 & l3 & v3 & Hr3 & Hl3 & Hw3).
      * done.
      * rewrite Hd2, decide_True by done. by apply bc_set_dpb_drive, Hdr1.
      * rewrite Hd2, decide_True by done. done.
      * done.
      * rewrite Hd2, decide_True in Hw3 by done.
        assert (Hl : linked d n c v v3) by (eapply linked_fsinfo; [done|done|done|apply Hw3]).
        exists s3. split; [done|]. exists l3, v3. rewrite Hd3, Hd2, decide_True by done. split_and!; try done.
        -- intros u Hu. by apply Hdr3, bc_set_dpb_drive, Hdr1.
        -- intros q Hq. by rewrite Hd3, Hd2, decide_False.
        -- by exists k.
        -- apply Hw3.
        -- unfold dpb_count, unknown_count. fold d. by rewrite E32.
        -- unfold dpb_count. cbn [dpb_xnfreeclst]. change (ISFAT32 d') with (ISFAT32 d). rewrite E32. intros E.
           rewrite (free_count_ext d v3 v'); [|done|].
           ++ cbn. unfold k. rewrite u32_id; lia.
           ++ intros m Hm'. destruct Hl as (_ & _ & ->); [|done]. by destruct Hlinked as (_ & _ & ->).
  - destruct (Z.eqb_spec (dpb_nfreeclst d) UNKNCLSTFREE) as [Ex|Ex]; cbn [negb].
    + exists s1. split; [done|]. exists l, v'. rewrite Hd1. split_and!; try done.
      * exists (dpb_xnfreeclst d). by rewrite set_xnfreeclst_id.
      * unfold dpb_count. fold d. rewrite E32, Ex. unfold UNKNCLSTFREE. pose proof (free_count_bounds _ v Hv).
        pose proof (v_size _ _ Hv) as Hsz. rewrite E32 in Hsz. unfold max_cluster, FAT_MAGIC16 in *. rewrite E32 in *. lia.
    + set (k := u16 (dpb_nfreeclst d + adjust)). set (d' := set_nfreeclst k d). set (s2 := bc_set_dpb p d' s1).
      assert (Hr2 : bc_rep fuel s2 l v') by (apply bc_set_dpb_rep; rewrite ?Hd1; done).
      assert (Hd2 : forall q, bc_dpb s2 q = if decide (q = p) then d' else bc_dpb st q)
        by (intros q; unfold s2; by rewrite bc_set_dpb_get, Hd1).
      exists s2. split; [done|]. exists l, v'. rewrite Hd2, decide_True by done. split_and!; try done.
      * intros u Hu. by apply bc_set_dpb_drive, Hdr1.
      * intros q Hq. by rewrite Hd2, decide_False.
      * by eexists.
      * split; [|done]. subst d'. unfold set_nfreeclst. cbn [dpb_xnfreeclst set_xnfreeclst].
        rewrite Z.lor_comm, lor_shiftl, Z.shiftr_div_pow2 by (lia || apply u16_range).
        change (2 ^ 16) with 65536. pose proof (u16_range k). Z.div_mod_to_equations; lia.
      * unfold dpb_count, unknown_count. fold d. by rewrite E32.
      * unfold dpb_count. change (ISFAT32 d') with (ISFAT32 d). rewrite E32. intros E. fold d in E.
        subst d'. rewrite nfreeclst_set.
        pose proof (v_size _ _ Hv) as Hsz. fold d in Hsz. rewrite E32 in Hsz.
        unfold max_cluster, FAT_MAGIC16 in Hb, Hsz. fold d in Hb. rewrite E32 in Hb.
        subst k. rewrite !u16_id; [lia|lia|rewrite u16_id; lia].
Qed.

(** ** [link_fat] *)

Lemma max_cluster_32 d : volume_ok primary d -> 0 <= max_cluster d < 268435456.
Proof. intros Hv. pose proof (v_max _ _ Hv). unfold LONG_BAD in *. lia. Qed.

(** Up to the end of the access. *)
Lemma link_fat_access fuel p n c l v st :
  let d := bc_dpb st p in
  bc_rep fuel st l v -> volume_ok primary d -> bc_drive st (dpb_unit d) -> image_ok d v ->
  2 <= n <= max_cluster d -> target_ok d c ->
  exists a st', access_post fuel p n c l v st a st' /\
    link_fat fuel p n c st =
      match a with Return r => Some (r, st') | Written bp wasfree => finish_write fuel p c bp wasfree st' end.
Proof.
  cbv zeta. intros Hr Hv Hd Hi Hn Hc. destruct (fat_pos_last _ _ _ Hv Hn) as (Hk0 & Hk1 & Hk3).
  assert (Hsec : 0 <= fat_pos (bc_dpb st p) n / 512 <= last_sector (bc_dpb st p)) by (Z.div_mod_to_equations; lia).
  unfold link_fat. rewrite (proj2 (Z.leb_gt n 1)), (proj2 (Z.ltb_ge _ n)) by lia. cbn [orb].
  assert ((c <? LONG_BAD) && (max_cluster (bc_dpb st p) <? c) = false) as ->.
  { destruct Hc; [rewrite (proj2 (Z.ltb_ge _ c)) by lia; apply andb_false_r | by rewrite (proj2 (Z.ltb_ge c _)) by lia]. }
  destruct (getFATblock_spec fuel st l v p _ Hr Hv Hd Hsec) as (r & s1 & Hget & Hdpb & Hdrv & Hrel & Hres).
  assert (Hfail : r = None -> access_post fuel p n c l v st (Return 1) s1).
  { intros ->. split_and!; try done. right. split; [done|]. by intros [? ?]%Hrel. }
  assert (Hlift : forall a s2, r <> None -> access_post fuel p n c l v s1 a s2 ->
    access_post fuel p n c l v st a s2).
  { unfold access_post. intros a s2 _. rewrite Hdpb. intros (H1 & H2 & H3). split_and!; [by intros; rewrite H1|by auto|done]. }
  assert (Hpre : forall x, r = Some x -> exists l', l' ≡ₚ l /\ access_pre fuel p n c l' v s1 x /\ bc_fresh s1 x).
  { intros x ->. destruct Hres as (l' & Hr1 & Hp & Hx & Hb & Hfr & _). exists l'. split; [done|]. split; [|done].
    unfold access_pre. rewrite Hdpb. split_and!; try (done || lia); [by apply Hdrv|by rewrite Hp]. }
  assert (Hperm : forall a s2 l', l' ≡ₚ l -> access_post fuel p n c l' v s1 a s2 -> access_post fuel p n c l v s1 a s2).
  { unfold access_post. intros a s2 l' Hp (H1 & H2 & H3). split_and!; [done|done|]. destruct a.
    - destruct H3 as [(? & ? & l2 & ? & H4)|]; [left|by right]. split_and!; try done. exists l2. split; [done|by etransitivity].
    - destruct H3 as (? & ? & l2 & v2 & ? & H4 & ?). split_and!; try done. exists l2, v2. split_and!; try done. by etransitivity. }
  clear Hres. pose proof (v_secsize _ _ Hv) as Hss. pose proof (v_max _ _ Hv) as Hmx.
  destruct (fat_types _ _ Hv) as [(E12 & E16 & E32)|[(E12 & E16 & E32)|(E12 & E16 & E32)]].
  - destruct (fat_place_12 (bc_dpb st p) n E12 E32 Hss) as (idx & -> & Hidx).
    { unfold ISFAT12, max_cluster in *. rewrite E32 in *. pose proof (v_size _ _ Hv) as Hs. rewrite E32 in Hs.
      apply Z.ltb_lt in E12. unfold FAT_MAGIC16 in *. rewrite u16_id in E12 by lia. lia. }
    rewrite Hget. destruct r as [x|]; [|exists (Return 1), s1; split; [by apply Hfail|done]].
    destruct (Hpre x eq_refl) as (l' & Hp & Hpr & Hfr). rewrite E12.
    destruct (access12_spec fuel p n c idx l' v s1 x) as (a & s2 & Hacc & Hpost); rewrite ?Hdpb; try done.
    rewrite Hdpb in Hacc. rewrite Hacc. exists a, s2. split; [|done]. apply Hlift; [done|]. by eapply Hperm.
  - destruct (fat_place_16 (bc_dpb st p) n E12 E32 Hss) as (idx & -> & Hidx); [lia|].
    rewrite Hget. destruct r as [x|]; [|exists (Return 1), s1; split; [by apply Hfail|done]].
    destruct (Hpre x eq_refl) as (l' & Hp & Hpr & Hfr). rewrite E12, E16.
    destruct (access16_spec fuel p n c idx l' v s1 x) as (a & s2 & Hacc & Hpost); rewrite ?Hdpb; try done.
    rewrite Hacc. exists a, s2. split; [|done]. apply Hlift; [done|]. by eapply Hperm.
  - destruct (fat_place_32 _ (bc_dpb st p) n Hv E12 E32) as (idx & -> & Hidx); [lia|].
    rewrite Hget. destruct r as [x|]; [|exists (Return 1), s1; split; [by apply Hfail|done]].
    destruct (Hpre x eq_refl) as (l' & Hp & Hpr & Hfr). rewrite E12, E16, E32.
    destruct (access32_spec fuel p n c idx l' v s1 x) as (a & s2 & Hacc & Hpost); rewrite ?Hdpb; try done.
    rewrite Hacc. exists a, s2. split; [|done]. apply Hlift; [done|]. by eapply Hperm.
Qed.

(** A reading or walking operation leaves the image and the DPBs. *)
Definition unchanged (fuel : nat) (st : S) (l : list Z) (v : Z -> Z -> list Z) (st' : S) : Prop :=
  (forall q, bc_dpb st' q = bc_dpb st q) /\ (forall u, bc_drive st u -> bc_drive st' u) /\
  exists l', bc_rep fuel st' l' v /\ l' ≡ₚ l.

Definition in_range (d : dpb) (n : Z) : bool := (2 <=? n) && (n <=? max_cluster d).

(** What a reader of the entry of [n] sees: 1 when there is no such entry. *)
Definition fat_at (d : dpb) (v : Z -> Z -> list Z) (n : Z) : Z :=
  if in_range d n then decode d (entry d v n) else 1.

Lemma link_fat_outside fuel p n c st :
  in_range (bc_dpb st p) n = false -> link_fat fuel p n c st = Some (1, st).
Proof.
  unfold in_range, link_fat. intros Hr.
  destruct (Z.leb_spec n 1); [done|]. destruct (Z.ltb_spec (max_cluster (bc_dpb st p)) n); [done|].
  destruct (Z.leb_spec 2 n), (Z.leb_spec n (max_cluster (bc_dpb st p))); try done; lia.
Qed.

Lemma link_fat_read_spec fuel p n l v st :
  let d := bc_dpb st p in
  bc_rep fuel st l v -> volume_ok primary d -> bc_drive st (dpb_unit d) -> image_ok d v ->
  exists r st', link_fat fuel p n READ_CLUSTER st = Some (r, st') /\
    (r = fat_at d v n /\ unchanged fuel st l v st' \/ r = 1 /\ ~ bc_reliable).
Proof.
  cbv zeta. intros Hr Hv Hd Hi. unfold fat_at. destruct (in_range (bc_dpb st p) n) eqn:En.
  - apply andb_true_iff in En as [?%Z.leb_le ?%Z.leb_le].
    destruct (link_fat_access fuel p n READ_CLUSTER l v st) as (a & st' & (Hp1 & Hp2 & Hpost) & ->); try done.
    { pose proof (v_max _ _ Hv). left. unfold READ_CLUSTER. lia. }
    destruct a as [r|]; [|by destruct Hpost].
    exists r, st'. split; [done|]. destruct Hpost as [(_ & -> & Hl)|]; [left|by right]. split; [done|].
    by split_and!.
  - rewrite link_fat_outside by done. eexists _, _. split; [done|]. left. split; [done|]. split_and!; try done.
    by exists l.
Qed.

Lemma link_fat_write_spec fuel p n c l v st :
  let d := bc_dpb st p in
  bc_rep fuel st l v -> volume_ok primary d -> bc_drive st (dpb_unit d) -> image_ok d v -> fsinfo_ok d v ->
  bc_reliable -> 2 <= n <= max_cluster d -> target_ok d c -> c <> READ_CLUSTER ->
  exists st', link_fat fuel p n c st = Some (SUCCESS, st') /\ counted fuel p n c st l v st'.
Proof.
  cbv zeta. intros Hr Hv Hd Hi Hf Hrel Hn Hc Hnr.
  destruct (link_fat_access fuel p n c l v st Hr Hv Hd Hi Hn Hc) as (a & s1 & (Hp1 & Hp2 & Hpost) & ->).
  destruct a as [r|x wasfree]; [by destruct Hpost as [[? _]|[_ ?]]|].
  destruct Hpost as (_ & Hw & l1 & v1 & Hr1 & Hl1 & Hwr). rewrite <- (Hp1 p) in Hv, Hd, Hf, Hn, Hc, Hw, Hwr.
  destruct (finish_write_spec fuel p n c l1 v v1 s1 x wasfree) as (st' & -> & l2 & v2 & H2); try done; [by apply Hp2|].
  exists st'. split; [done|]. exists l2, v2. rewrite (Hp1 p) in H2.
  destruct H2 as (? & ? & ? & Hdr & Hdp & ?). split_and!; try done; try tauto.
  - by etransitivity.
  - intros u Hu. by apply Hdr, Hp2.
  - intros q Hq. rewrite Hdp by done. apply Hp1.
Qed.

(** The walk of one step, with the loose ends the code looks for. *)
Definition next_at (d : dpb) (v : Z -> Z -> list Z) (n : Z) : Z :=
  let e := fat_at d v n in
  if (e <? 2) || (LONG_BAD <=? e) then e
  else let f := fat_at d v e in
       if (f <? 2) || ((f <? LONG_BAD) && (max_cluster d <? f)) then 1 else e.

Lemma next_cluster_spec fuel p n l v st :
  let d := bc_dpb st p in
  bc_rep fuel st l v -> volume_ok primary d -> bc_drive st (dpb_unit d) -> image_ok d v -> bc_reliable ->
  exists st', next_cluster fuel p n st = Some (next_at d v n, st') /\ unchanged fuel st l v st' /\
    (2 <= next_at d v n < LONG_BAD -> next_at d v n <= max_cluster d /\ entry d v (next_at d v n) <> FREE).
Proof.
  cbv zeta. intros Hr Hv Hd Hi Hrel. unfold next_cluster.
  destruct (link_fat_read_spec fuel p n l v st Hr Hv Hd Hi) as (r & s1 & -> & [[-> H1]|[_ ?]]); [|done].
  destruct H1 as (Hp1 & Hd1 & l1 & Hr1 & Hl1).
  assert (Hnone : next_at (bc_dpb st p) v n < 2 \/ LONG_BAD <= next_at (bc_dpb st p) v n ->
    2 <= next_at (bc_dpb st p) v n < LONG_BAD ->
    next_at (bc_dpb st p) v n <= max_cluster (bc_dpb st p) /\ entry (bc_dpb st p) v (next_at (bc_dpb st p) v n) <> FREE) by lia.
  revert Hnone. unfold next_at. destruct ((fat_at _ v n <? 2) || (LONG_BAD <=? fat_at _ v n)) eqn:E1.
  { intros Hnone. exists s1. split; [done|]. split; [split_and!; try done; by exists l1|]. apply Hnone.
    apply orb_true_iff in E1 as [?%Z.ltb_lt|?%Z.leb_le]; auto. }
  set (e := fat_at (bc_dpb st p) v n) in *.
  destruct (link_fat_read_spec fuel p e l1 v s1) as (r & s2 & -> & [[-> H2]|[_ ?]]); rewrite ?Hp1; try done; [by apply Hd1|].
  destruct H2 as (Hp2 & Hd2 & l2 & Hr2 & Hl2). set (d := bc_dpb st p) in *.
  assert (Hun : unchanged fuel st l v s2).
  { split_and!; [intros; by rewrite Hp2, Hp1|by auto|]. exists l2. split; [done|]. by etransitivity. }
  destruct ((fat_at d v e <? 2) || _) eqn:E2; intros Hnone.
  { exists s2. split; [done|]. split; [done|]. apply Hnone. lia. }
  exists s2. split; [done|]. split; [done|]. intros _. apply orb_false_iff in E2 as [E2 _]. apply Z.ltb_ge in E2.
  unfold fat_at in E2. destruct (in_range d e) eqn:Er; [|lia].
  apply andb_true_iff in Er as [_ ?%Z.leb_le]. split; [done|]. intros E0. rewrite E0 in E2.
  assert (Hz : decode d FREE = 0) by (unfold decode; by destruct (ISFAT12 d), (ISFAT32 d)). lia.
Qed.

(** ** The properties *)

(** C28: Reading the FAT: [link_fat] with [READ_CLUSTER] returns the entry the bytes
    of the FAT spell, its end and bad markers mapped to one pair of values for the
    three widths, also when the entry straddles two sectors; a cluster number that
    is out of range gives the error value 1.  The disk image and the DPBs stay as
    they are.  Only when the driver fails may 1 come back for a cluster in range. *)
Theorem link_fat_read fuel p n l v st :
  let d := bc_dpb st p in
  bc_rep fuel st l v -> volume_ok primary d -> bc_drive st (dpb_unit d) -> image_ok d v ->
  exists r st', link_fat fuel p n READ_CLUSTER st = Some (r, st') /\
    (r = fat_at d v n /\ unchanged fuel st l v st' \/ r = 1 /\ ~ bc_reliable).
Proof. apply link_fat_read_spec. Qed.

(** C29: Writing the FAT: [link_fat] stores the value, cut to the width of an entry,
    in the entry of its cluster and in no other, although 12-bit entries share
    bytes and sectors; blocks outside the FAT and the information sector keep
    their contents; the count of free clusters in the DPB, when it is known and
    right, is right again afterwards, and an unknown count stays unknown. *)
Theorem link_fat_write fuel p n c l v st :
  let d := bc_dpb st p in
  bc_rep fuel st l v -> volume_ok primary d -> bc_drive st (dpb_unit d) -> image_ok d v -> fsinfo_ok d v ->
  bc_reliable -> 2 <= n <= max_cluster d -> target_ok d c -> c <> READ_CLUSTER ->
  exists st', link_fat fuel p n c st = Some (SUCCESS, st') /\ counted fuel p n c st l v st'.
Proof. apply link_fat_write_spec. Qed.

(** The step along a chain returns the entry of the cluster when it is a
    marker, or when it is a cluster whose own entry leads on; it returns the error
    value 1 instead of a cluster that is free, out of range or points out of range,
    so whatever [next_cluster] returns as a cluster is a cluster of the volume with
    an allocated entry. *)
Theorem next_cluster_correct fuel p n l v st :
  let d := bc_dpb st p in
  bc_rep fuel st l v -> volume_ok primary d -> bc_drive st (dpb_unit d) -> image_ok d v -> bc_reliable ->
  exists st', next_cluster fuel p n st = Some (next_at d v n, st') /\ unchanged fuel st l v st' /\
    (2 <= next_at d v n < LONG_BAD -> next_at d v n <= max_cluster d /\ entry d v (next_at d v n) <> FREE).
Proof. apply next_cluster_spec. Qed.
End fat.

(** ** A concrete volume

    A FAT12 volume of 399 clusters on a disk that never fails; entry 341
    straddles the two sectors of the FAT (blocks 1 and 2), whose second copy is in
    blocks 3 and 4. *)

Inductive disk := Disk (contents : medium).

(** [k] sectors of the medium from [b] on, and storing them. *)
Definition medium_read (m : medium) (dv u b k : Z) : list Z :=
  blocks (fun i => default [] (m !! (dv, u, i))) b k.
Fixpoint medium_write (m : medium) (dv u b : Z) (k : nat) (data : list Z) : medium :=
  match k with
  | O => m
  | S O => <[(dv, u, b) := data]> m
  | S k => medium_write (<[(dv, u, b) := take 512 data]> m) dv u (b + 1) k (drop 512 data)
  end.

Lemma medium_write_spec dv u k : forall m b data dv' u' b',
  default [] (medium_write m dv u b (S k) data !! (dv', u', b')) =
    if decide (dv' = dv /\ u' = u /\ b <= b' < b + Z.of_nat (S k)) then
      (if decide (b' = b + Z.of_nat k) then drop (512 * k) data else take 512 (drop (Z.to_nat (512 * (b' - b))) data))
    else default [] (m !! (dv', u', b')).
Proof.
  induction k as [|k IH]; intros m b data dv' u' b'.
  - cbn. case_decide as E.
    + destruct E as (-> & -> & E). assert (b' = b) as -> by lia. by rewrite lookup_insert_eq, decide_True by lia.
    + rewrite lookup_insert_ne; [done|]. intros [= -> -> ->]. apply E. lia.
  - change (medium_write m dv u b (S (S k)) data) with
      (medium_write (<[(dv, u, b) := take 512 data]> m) dv u (b + 1) (S k) (drop 512 data)).
    rewrite IH. destruct (decide (dv' = dv /\ u' = u /\ b + 1 <= b' < b + 1 + Z.of_nat (S k))) as [E|E].
    + destruct E as (-> & -> & E). rewrite (decide_True (P := _ /\ _)) by (split_and!; (done || lia)). rewrite !drop_drop.
      case_decide as E2; [rewrite decide_True by lia; f_equal; lia|]. rewrite decide_False by lia. do 2 f_equal. lia.
    + case_decide as E2.
      * destruct E2 as (-> & -> & E2). assert (b' = b) as -> by (destruct (decide (b' = b)); [done|exfalso; apply E; lia]).
        rewrite lookup_insert_eq, decide_False by lia. by rewrite Z.sub_diag.
      * rewrite lookup_insert_ne; [done|]. intros [= -> -> ->]. apply E2. lia.
Qed.

#[export] Instance disk_device : Device disk := {
  execrh dv rq data d :=
    let '(Disk m) := d in
    if r_command rq =? C_INPUT then (S_DONE, medium_read m dv (r_unit rq) (rq_blkno rq) (r_count rq), d)
    else (S_DONE, data, Disk (medium_write m dv (r_unit rq) (rq_blkno rq) (Z.to_nat (r_count rq)) data));
  block_error _ _ _ _ d := (FAIL, d);
  dev_attr _ := 0;
  caller_high _ := false }.

Definition disk_sect (d : disk) (dv u b : Z) : list Z := let '(Disk m) := d in default [] (m !! (dv, u, b)).

Lemma disk_write dv rq data m status out d' :
  execrh dv rq data (Disk m) = (status, out, d') -> r_command rq = C_OUTPUT \/ r_command rq = C_OUTVFY ->
  d' = Disk (medium_write m dv (r_unit rq) (rq_blkno rq) (Z.to_nat (r_count rq)) data) /\ done status = true.
Proof.
  cbn. intros E Hc. assert ((r_command rq =? C_INPUT) = false) as Hn by (destruct Hc as [-> | ->]; done).
  rewrite Hn in E. injection E as <- <- <-. by split.
Qed.

#[export] Instance disk_laws : DeviceLaws disk.
Proof.
  refine {| sect := disk_sect |}.
  - cbn. intros dv rq data [m] status out d' E Hc Hn. rewrite Hc in E. cbn in E. injection E as <- <- <-.
    split; [done|]. cbn. rewrite Hn. apply blocks_one.
  - intros dv rq data [m] status out d' E Hc Hn. destruct (disk_write _ _ _ _ _ _ _ E Hc) as [-> ->]. rewrite Hn.
    change (Z.to_nat 1) with 1%nat. unfold disk_sect. split.
    + intros dv' u b Hne. rewrite (medium_write_spec _ _ 0), decide_False; [done|]. intros (-> & -> & ?).
      apply Hne. do 2 f_equal. lia.
    + rewrite (medium_write_spec _ _ 0), (decide_True (P := _ /\ _)), decide_True by (try split_and!; first [done|lia]).
      by rewrite drop_0.
  - cbn. intros _ _ _ _ d answer d' [= <- <-]. split; [by right|done].
Defined.

#[export] Instance disk_ranges : RangeLaws disk.
Proof.
  split.
  - cbn. intros dv rq data [m] status out d' E Hc _ _ _ _. rewrite Hc in E. cbn in E. by injection E as <- <- <-.
  - intros dv rq data [m] status out d' E Hc Hn Hl _. destruct (disk_write _ _ _ _ _ _ _ E Hc) as [-> _].
    cbn [sect disk_laws]. unfold disk_sect.
    destruct (Z.to_nat (r_count rq)) as [|k] eqn:Ek; [lia|]. split.
    + intros dv' u b Hne. rewrite medium_write_spec, decide_False; [done|]. intros (-> & -> & ?).
      apply Hne. split_and!; (done || lia).
    + intros i Hi. rewrite medium_write_spec, decide_True by (split_and!; (done || lia)). unfold chunk.
      case_decide as E2; [|do 2 f_equal; lia]. assert (Z.to_nat (512 * i) = 512 * k)%nat as -> by lia.
      rewrite take_ge; [done|]. rewrite length_drop. lia.
  - intros dv rq data [m] Hc. destruct (execrh dv rq data (Disk m)) as [[st out] d'] eqn:E. cbn in E |- *.
    assert ((r_command rq =? C_INPUT) = false) as Hn by (destruct Hc as [-> | ->]; done).
    rewrite Hn in E. by injection E as _ <- _.
Qed.

Lemma disk_reliable : reliable (D := disk).
Proof. intros dv rq data [m]. cbn. by destruct (r_command rq =? C_INPUT). Qed.

Definition vol_dpb : dpb := Dpb 3 0 512 0 0 1 2 16 6 400 2 5 9 0xf8 0 0 0 397 0 0xffff 0 0 0 2 0 0.

(** Entries 2 (next: 341), 341 (last), all others free. *)
Definition vol_sector1 : list Z := <[3%nat := 0x55]> (<[4%nat := 0x01]> (<[511%nat := 0xf0]> (replicate 512 0))).
Definition vol_sector2 : list Z := <[0%nat := 0xff]> (replicate 512 0).

(** A cache of two unused buffers over a disk, with one drive. *)
Definition fresh_bio (d : dpb) (m : disk) : bio disk :=
  Bio (list_to_map [(100, Buf 200 200 0 0 0 0 0 0 []); (200, Buf 100 100 0 0 0 0 0 0 [])])
    100 {[ 3 := 77 ]} {[ 77 := d ]} false [] false m.

Lemma fresh_rep primary d m : bio_rep primary 5 (fresh_bio d m) [100; 200] (sector (fresh_bio d m)).
Proof.
  split; [|cbn; lia]. split.
  - exists [200]. split; [done|]. split; [|by vm_compute].
    apply list.NoDup_cons. split; [by intros ?%list_elem_of_singleton|]. apply NoDup_singleton.
  - by intros [?|?]%ex_bio_cases.
  - unfold drives_ok. cbn [drives fresh_bio].
    intros d1 d2 p1 p2 [<- _]%lookup_singleton_Some [<- _]%lookup_singleton_Some. done.
  - by intros x y [-> | ->]%ex_bio_cases [-> | ->]%ex_bio_cases.
  - by intros x [-> | ->]%ex_bio_cases.
  - by intros x [-> | ->]%ex_bio_cases.
  - by intros x [-> | ->]%ex_bio_cases.
  - done.
Qed.

Definition vol_bio : bio disk :=
  fresh_bio vol_dpb (Disk (list_to_map [((9, 0, 1), vol_sector1); ((9, 0, 2), vol_sector2)])).

Definition vol_primary (u n : Z) : Prop := n < 3 \/ 4 < n.
Definition vol_image (u n : Z) : list Z := sector vol_bio u n.

Lemma vol_rep : bio_rep vol_primary 5 vol_bio [100; 200] vol_image.
Proof. apply fresh_rep. Qed.

Lemma vol_ok : volume_ok vol_primary vol_dpb.
Proof.
  split; [by vm_compute|by vm_compute|done|by vm_compute| |by vm_compute].
  change (last_sector vol_dpb) with 1. change (fat_start vol_dpb) with 1. change (fat_copies vol_dpb) with 2.
  cbn [dpb_unit vol_dpb]. change (fat_offset vol_dpb) with 2. change (ISFAT12 vol_dpb) with true. cbv iota.
  intros sec Hsec. assert (sec = 0 \/ sec = 1) as [-> | ->] by lia;
    (split; [lia|]; split; [left; lia|]; intros i Hi; replace i with 1%nat by lia).
  - change (copy_blk (1 + 0) 2 1) with 3. unfold vol_primary. lia.
  - change (copy_blk (1 + 1) 2 1) with 4. unfold vol_primary. lia.
Qed.

Lemma vol_image_ok : image_ok vol_dpb vol_image.
Proof.
  change (image_ok vol_dpb vol_image) with (forall sec, 0 <= sec <= 1 ->
    length (vol_image 3 (1 + sec)) = 512%nat /\ bytes (vol_image 3 (1 + sec))).
  assert (Hall : forallb (fun b => (0 <=? b) && (b <? 256)) (vol_image 3 1 ++ vol_image 3 2) = true) by by vm_compute.
  rewrite forallb_forall in Hall. setoid_rewrite <- list_elem_of_In in Hall. setoid_rewrite elem_of_app in Hall.
  assert (Hby : forall x, x ∈ vol_image 3 1 \/ x ∈ vol_image 3 2 -> is_byte x).
  { intros x Hx. specialize (Hall x Hx). by apply andb_true_iff in Hall as [?%Z.leb_le ?%Z.ltb_lt]. }
  intros sec Hsec. assert (sec = 0 \/ sec = 1) as [-> | ->] by lia;
    (split; [by vm_compute|]; apply list.Forall_forall; intros x Hx; apply Hby; auto).
Qed.

Lemma vol_get : bc_dpb vol_bio 77 = vol_dpb.
Proof. by vm_compute. Qed.

(** What the properties ask of a state, at the concrete one. *)
Lemma vol_pre : let d := bc_dpb vol_bio 77 in
  bc_rep (primary := vol_primary) 5 vol_bio [100; 200] vol_image /\ volume_ok vol_primary d /\
  bc_drive (primary := vol_primary) vol_bio (dpb_unit d) /\ image_ok d vol_image /\
  fsinfo_ok (primary := vol_primary) d vol_image /\ bc_reliable (S := bio disk) (primary := vol_primary).
Proof.
  rewrite vol_get. split_and!; [exact vol_rep|exact vol_ok|by eexists|exact vol_image_ok|by vm_compute; split_and!; auto
    |exact disk_reliable].
Qed.

(** Entry 341 is the end of a chain; entry 2 leads to it. *)
Lemma link_fat_read_witness :
  let d := bc_dpb vol_bio 77 in fat_at d vol_image 341 = LONG_LAST_CLUSTER /\
  exists r st', link_fat 5 77 341 READ_CLUSTER vol_bio = Some (r, st') /\
    (r = fat_at d vol_image 341 /\ unchanged (primary := vol_primary) 5 vol_bio [100; 200] vol_image st' \/
     r = 1 /\ ~ bc_reliable (S := bio disk) (primary := vol_primary)).
Proof.
  destruct vol_pre as (H1 & H2 & H3 & H4 & H5 & H6). split; [by vm_compute|].
  by apply (link_fat_read (primary := vol_primary) 5 77 341 [100; 200] vol_image vol_bio).
Defined.

Lemma link_fat_write_witness :
  exists st', link_fat 5 77 341 300 vol_bio = Some (SUCCESS, st') /\
    counted (primary := vol_primary) 5 77 341 300 vol_bio [100; 200] vol_image st'.
Proof.
  destruct vol_pre as (H1 & H2 & H3 & H4 & H5 & H6).
  apply (link_fat_write (primary := vol_primary) 5 77 341 300 [100; 200] vol_image vol_bio); try done.
  left. rewrite vol_get. change (max_cluster vol_dpb) with 400. lia.
Defined.

Lemma next_cluster_correct_witness :
  let d := bc_dpb vol_bio 77 in next_at d vol_image 2 = 341 /\
  exists st', next_cluster 5 77 2 vol_bio = Some (next_at d vol_image 2, st') /\
    unchanged (primary := vol_primary) 5 vol_bio [100; 200] vol_image st' /\
    (2 <= next_at d vol_image 2 < LONG_BAD ->
     next_at d vol_image 2 <= max_cluster d /\ entry d vol_image (next_at d vol_image 2) <> FREE).
Proof.
  destruct vol_pre as (H1 & H2 & H3 & H4 & H5 & H6). split; [by vm_compute|].
  by apply (next_cluster_correct (primary := vol_primary) 5 77 2 [100; 200] vol_image vol_bio).
Defined.
