(* ===== verification/Fnode.v ===== *)
(** * Directory entries and file nodes ([hdr/fat.h], [hdr/dirmatch.h],
    [hdr/fnode.h]) *)

From S2P Require Import Prelude Dpb.

(** hdr/fat.h:40-40 *)
Definition D_RDONLY : Z := 0x01.
(** hdr/fat.h:41-41 *)
Definition D_HIDDEN : Z := 0x02.
(** hdr/fat.h:42-42 *)
Definition D_SYSTEM : Z := 0x04.
(** hdr/fat.h:43-43 *)
Definition D_VOLID : Z := 0x08.
(** hdr/fat.h:44-44 *)
Definition D_DIR : Z := 0x10.
(** hdr/fat.h:45-45 *)
Definition D_ARCHIVE : Z := 0x20.
(** hdr/fat.h:47-47 *)
Definition D_DEVICE : Z := 0x40.
(** hdr/fat.h:49-49 *)
Definition D_LFN : Z := Z.lor (Z.lor D_RDONLY D_HIDDEN) (Z.lor D_SYSTEM D_VOLID).
(** hdr/fat.h:50-50 *)
Definition D_ALL : Z := Z.lor (Z.lor (Z.lor D_RDONLY D_HIDDEN) (Z.lor D_SYSTEM D_DIR)) D_ARCHIVE.
(** hdr/fat.h:53-53 *)
Definition FNAME_SIZE : nat := 8.
(** hdr/fat.h:54-54 *)
Definition FEXT_SIZE : nat := 3.
(** hdr/fat.h:57-57 *)
Definition DELETED : Z := 0x05.
(** hdr/fat.h:58-58 *)
Definition EXT_DELETED : Z := 0xe5.
(** hdr/fat.h:151-151 *)
Definition DIRENT_SIZE : Z := 32.

(** [dir_name] holds the 11 characters as bytes.
    hdr/fat.h:99-113 *)
Record dirent := Dirent {
  dir_name : list Z;
  dir_attrib : Z;
  dir_case : Z;
  dir_crtimems : Z;
  dir_crtime : Z;
  dir_crdate : Z;
  dir_accdate : Z;
  dir_start_high : Z;
  dir_time : Z;
  dir_date : Z;
  dir_start : Z;
  dir_size : Z }.

(** hdr/dirmatch.h:38-54 *)
Record dmatch := Dmatch {
  dm_drive : Z;
  dm_name_pat : list Z;
  dm_attr_srch : Z;
  dm_entry : Z;
  dm_dircluster : Z }.

(** [f_dmp] points to one of two fixed structures, [sda_tmp_dm] and
    [sda_tmp_dm_ren]; the node holds the one it uses.  [f_dpb] is a far pointer.
    hdr/fnode.h:38-53 *)
Record f_node := Fnode {
  f_flags : Z;
  f_dmp : dmatch;
  f_dir : dirent;
  f_dirsector : Z;
  f_diridx : Z;
  f_dpb : Z;
  f_offset : Z;
  f_cluster_offset : Z;
  f_cluster : Z;
  f_sft_idx : Z }.

Definition with_start lo hi (e : dirent) : dirent :=
  Dirent (dir_name e) (dir_attrib e) (dir_case e) (dir_crtimems e) (dir_crtime e) (dir_crdate e)
    (dir_accdate e) hi (dir_time e) (dir_date e) lo (dir_size e).

Definition with_f_dir e (f : f_node) : f_node :=
  Fnode (f_flags f) (f_dmp f) e (f_dirsector f) (f_diridx f) (f_dpb f) (f_offset f)
    (f_cluster_offset f) (f_cluster f) (f_sft_idx f).
Definition with_f_offset o (f : f_node) : f_node :=
  Fnode (f_flags f) (f_dmp f) (f_dir f) (f_dirsector f) (f_diridx f) (f_dpb f) o
    (f_cluster_offset f) (f_cluster f) (f_sft_idx f).
(** The position in the chain: [f_cluster_offset] and [f_cluster]. *)
Definition with_f_pos o c (f : f_node) : f_node :=
  Fnode (f_flags f) (f_dmp f) (f_dir f) (f_dirsector f) (f_diridx f) (f_dpb f) (f_offset f)
    o c (f_sft_idx f).

(** kernel/fatfs.c:61-66 *)
Definition getdstart (d : dpb) (e : dirent) : Z :=
  if negb (ISFAT32 d) then dir_start e else Z.lor (Z.shiftl (dir_start_high e) 16) (dir_start e).

(** kernel/fatfs.c:68-73 *)
Definition setdstart (d : dpb) (value : Z) (e : dirent) : dirent :=
  let e := with_start (u16 value) (dir_start_high e) e in
  if ISFAT32 d then with_start (dir_start e) (u16 (Z.shiftr value 16)) e else e.

(** kernel/fatfs.c:76-84 *)
Definition clus2phys (cl_no : Z) (d : dpb) : Z :=
  let data := if ISFAT32 d then dpb_xdata d else dpb_data d in
  u32 (u32 (Z.shiftl (u32 (cl_no - 2)) (dpb_shftcnt d)) + data).

Lemma setdstart_getdstart d c e :
  0 <= c < (if ISFAT32 d then 4294967296 else 65536) -> getdstart d (setdstart d c e) = c.
Proof.
  unfold getdstart, setdstart. destruct (ISFAT32 d); cbn [negb dir_start dir_start_high with_start]; intros H.
  - rewrite Z.lor_comm, lor_shiftl, Z.shiftr_div_pow2 by (lia || apply u16_range).
    change (2 ^ 16) with 65536. word_lia.
  - apply u16_id. lia.
Qed.
