(* ===== verification/Cluster.v ===== *)
(** * Cluster chains ([kernel/fatfs.c])

    Walking, extending, cutting and freeing the chains of clusters of the FAT.
    [cf] bounds the buffers of the block cache, [steps] the turns of a loop. *)

From S2P Require Import Prelude Hdr Dpb Blockio Fattab Fnode.

Section operations.
  Context {S : Type} `{!BlockCache S} (cf : nat).

(** The start of free space moves down to a freed cluster.
    kernel/fatfs.c:588-598 *)
Definition lower_hint (st : Z) (d : dpb) : dpb :=
  if ISFAT32 d then
    if (dpb_xcluster d =? UNKNCLUSTER) || (st <? dpb_xcluster d) then set_xcluster st d else d
  else if (dpb_cluster d =? UNKNCLUSTER) || (u16 st <? dpb_cluster d) then set_cluster (u16 st) d
  else d.

(** The loop of [wipe_out_clusters]; [false]: it returned early.
    kernel/fatfs.c:574-601 *)
Fixpoint wipe_loop (steps : nat) (dpbp st : Z) (s : S) : option (bool * S) :=
  if st =? LONG_LAST_CLUSTER then Some (true, s)
  else
    match steps with
    | O => None
    | Datatypes.S steps' =>
        let* (next, s) := next_cluster cf dpbp st s in
        if next <=? 1 then Some (false, s)
        else
          let* (rc, s) := link_fat cf dpbp st FREE s in
          if negb (rc =? SUCCESS) then Some (false, s)
          else
            let s := bc_set_dpb dpbp (lower_hint st (bc_dpb s dpbp)) s in
            wipe_loop steps' dpbp next s
    end.

(** kernel/fatfs.c:567-606 *)
Definition wipe_out_clusters (steps : nat) (dpbp st : Z) (s : S) : option S :=
  let* (finished, s) := wipe_loop steps dpbp st s in
  if finished && ISFAT32 (bc_dpb s dpbp) then write_fsinfo cf dpbp s else Some s.

(** kernel/fatfs.c:610-618 *)
Definition wipe_out (steps : nat) (fnp : f_node) (s : S) : option S :=
  let cluster := getdstart (bc_dpb s (f_dpb fnp)) (f_dir fnp) in
  if negb (cluster =? FREE) then wipe_out_clusters steps (f_dpb fnp) cluster s else Some s.

(** The search of [find_fat_free] from [idx] until it is back at [cluster].
    kernel/fatfs.c:721-742 *)
Fixpoint find_loop (steps : nat) (dpbp size cluster idx : Z) (s : S) : option (option Z * S) :=
  match steps with
  | O => None
  | Datatypes.S steps' =>
      let* (free, s) := is_free_cluster cf dpbp idx s in
      if free then Some (Some idx, s)
      else
        let idx := u32 (idx + 1) in
        let idx := if size <? idx then 2 else idx in
        if idx =? cluster then Some (None, s)
        else find_loop steps' dpbp size cluster idx s
  end.

(** kernel/fatfs.c:693-757 *)
Definition find_fat_free (steps : nat) (fnp : f_node) (s : S) : option (Z * S) :=
  let dpbp := f_dpb fnp in
  let d := bc_dpb s dpbp in
  let idx :=
    if ISFAT32 d then (if negb (dpb_xcluster d =? UNKNCLUSTER) then dpb_xcluster d else 2)
    else (if negb (dpb_cluster d =? UNKNCLUSTER) then dpb_cluster d else 2) in
  let size := if ISFAT32 d then dpb_xsize d else dpb_size d in
  let* (r, s) := find_loop steps dpbp size idx idx s in
  let '(cluster, idx) :=
    match r with Some i => (i, i) | None => (UNKNCLUSTER, LONG_LAST_CLUSTER) end in
  let d := bc_dpb s dpbp in
  if ISFAT32 d then
    let* s := write_fsinfo cf dpbp (bc_set_dpb dpbp (set_xcluster cluster d) s) in
    Some (idx, s)
  else Some (idx, bc_set_dpb dpbp (set_cluster (u16 cluster) d) s).

(** The message about a bad chain is left out.
    kernel/fatfs.c:880-916 *)
Definition extend (steps : nat) (fnp : f_node) (s : S) : option (Z * f_node * S) :=
  let* (free_fat, s) := find_fat_free steps fnp s in
  if free_fat =? LONG_LAST_CLUSTER then Some (free_fat, fnp, s)
  else
    let dpbp := f_dpb fnp in
    let* (rc, s) := link_fat cf dpbp free_fat LONG_LAST_CLUSTER s in
    if negb (rc =? SUCCESS) then Some (LONG_LAST_CLUSTER, fnp, s)
    else if f_cluster fnp =? FREE then
      Some (free_fat, with_f_dir (setdstart (bc_dpb s dpbp) free_fat (f_dir fnp)) fnp, s)
    else
      let* (next, s) := next_cluster cf dpbp (f_cluster fnp) s in
      if negb (next =? LONG_LAST_CLUSTER) then Some (LONG_LAST_CLUSTER, fnp, s)
      else
        let* (rc, s) := link_fat cf dpbp (f_cluster fnp) free_fat s in
        if negb (rc =? SUCCESS) then Some (LONG_LAST_CLUSTER, fnp, s)
        else Some (free_fat, fnp, s).

(** The linear search of [map_cluster].
    kernel/fatfs.c:1007-1031 *)
Fixpoint map_loop (steps : nat) (relcluster mode : Z) (fnp : f_node) (s : S)
    : option (Z * f_node * S) :=
  if f_cluster_offset fnp =? relcluster then Some (SUCCESS, fnp, s)
  else
    match steps with
    | O => None
    | Datatypes.S steps' =>
        let* (cluster, s) := next_cluster cf (f_dpb fnp) (f_cluster fnp) s in
        if cluster <=? 1 then Some (DE_SEEK, fnp, s)
        else if (cluster =? LONG_LAST_CLUSTER) && (mode =? XFR_READ) then Some (DE_SEEK, fnp, s)
        else
          let* (cluster, fnp, s) :=
            if cluster =? LONG_LAST_CLUSTER then extend steps fnp s else Some (cluster, fnp, s) in
          if cluster =? LONG_LAST_CLUSTER then Some (DE_HNDLDSKFULL, fnp, s)
          else map_loop steps' relcluster mode
                 (with_f_pos (u32 (f_cluster_offset fnp + 1)) cluster fnp) s
    end.

(** The relative cluster of the current offset.
    kernel/fatfs.c:988-989 *)
Definition relcluster_of (d : dpb) (offset : Z) : Z :=
  Z.shiftr (offset / dpb_secsize d) (dpb_shftcnt d).

(** kernel/fatfs.c:959-1038 *)
Definition map_cluster (steps : nat) (fnp : f_node) (mode : Z) (s : S) : option (Z * f_node * S) :=
  let* (rc, fnp, s) :=
    if f_cluster fnp =? FREE then
      if mode =? XFR_READ then Some (DE_SEEK, fnp, s)
      else
        let* (cluster, fnp, s) := extend steps fnp s in
        if cluster =? LONG_LAST_CLUSTER then Some (DE_HNDLDSKFULL, fnp, s)
        else Some (SUCCESS, with_f_pos (f_cluster_offset fnp) cluster fnp, s)
    else Some (SUCCESS, fnp, s) in
  if negb (rc =? SUCCESS) then Some (rc, fnp, s)
  else
    let d := bc_dpb s (f_dpb fnp) in
    let relcluster := relcluster_of d (f_offset fnp) in
    let fnp :=
      if relcluster <? f_cluster_offset fnp then
        with_f_pos 0 (if f_sft_idx fnp =? 0xff then dm_dircluster (f_dmp fnp) else getdstart d (f_dir fnp)) fnp
      else fnp in
    map_loop steps relcluster mode fnp s.

(** The loop of [dos_free].
    kernel/fatfs.c:1467-1487 *)
Fixpoint count_loop (steps : nat) (dpbp max_cluster i cnt : Z) (s : S) : option (Z * S) :=
  if negb (i <=? max_cluster) then Some (cnt, s)
  else
    match steps with
    | O => None
    | Datatypes.S steps' =>
        let* (free, s) := is_free_cluster cf dpbp i s in
        if free then
          let d := bc_dpb s dpbp in
          let s := if cnt =? 0
                   then bc_set_dpb dpbp (if ISFAT32 d then set_xcluster i d else set_cluster (u16 i) d) s
                   else s in
          count_loop steps' dpbp max_cluster (i + 1) (cnt + 1) s
        else count_loop steps' dpbp max_cluster (i + 1) cnt s
    end.

(** kernel/fatfs.c:1446-1498 *)
Definition dos_free (steps : nat) (dpbp : Z) (s : S) : option (Z * S) :=
  let d := bc_dpb s dpbp in
  if ISFAT32 d && negb (dpb_xnfreeclst d =? XUNKNCLSTFREE) then Some (dpb_xnfreeclst d, s)
  else if negb (ISFAT32 d) && negb (dpb_nfreeclst d =? UNKNCLSTFREE) then Some (dpb_nfreeclst d, s)
  else
    let* (cnt, s) := count_loop steps dpbp (if ISFAT32 d then dpb_xsize d else dpb_size d) 2 0 s in
    let d := bc_dpb s dpbp in
    if ISFAT32 d then
      let* s := write_fsinfo cf dpbp (bc_set_dpb dpbp (set_xnfreeclst cnt d) s) in
      Some (cnt, s)
    else Some (cnt, bc_set_dpb dpbp (set_nfreeclst (u16 cnt) d) s).

(** The part of [shrink_file] between saving and restoring [f_offset].
    kernel/fatfs.c:1806-1852 *)
Definition shrink_body (steps : nat) (fnp : f_node) (s : S) : option (Z * f_node * S) :=
  let dpbp := f_dpb fnp in
  if (f_offset fnp =? 0) && (f_cluster fnp =? FREE) then Some (SUCCESS, fnp, s)
  else
    let fnp := if negb (f_offset fnp =? 0) then with_f_offset (f_offset fnp - 1) fnp else fnp in
    let* (rc, fnp, s) := map_cluster steps fnp XFR_READ s in
    if negb (rc =? SUCCESS) then Some (DE_ACCESS, fnp, s)
    else
      let st := f_cluster fnp in
      let* (next, s) := next_cluster cf dpbp st s in
      if next <=? 1 then Some (DE_ACCESS, fnp, s)
      else if negb (dir_size (f_dir fnp) =? 0) && (next =? LONG_LAST_CLUSTER) then Some (SUCCESS, fnp, s)
      else
        let '(fnp, last) :=
          if dir_size (f_dir fnp) =? 0 then
            (with_f_dir (setdstart (bc_dpb s dpbp) FREE (f_dir fnp))
               (with_f_pos (f_cluster_offset fnp) FREE fnp), FREE)
          else (fnp, LONG_LAST_CLUSTER) in
        let* (rc, s) := link_fat cf dpbp st last s in
        if negb (rc =? SUCCESS) then Some (DE_ACCESS, fnp, s)
        else
          let* s := wipe_out_clusters steps dpbp next s in
          let* (ok, s) := bc_flush cf (dpb_unit (bc_dpb s dpbp)) s in
          Some (if ok then SUCCESS else DE_ACCESS, fnp, s).

(** kernel/fatfs.c:1802-1857 *)
Definition shrink_file (steps : nat) (fnp : f_node) (s : S) : option (Z * f_node * S) :=
  let lastoffset := f_offset fnp in
  let* (ret, fnp, s) := shrink_body steps fnp s in
  Some (ret, with_f_offset lastoffset fnp, s).

End operations.
