(* ===== verification/ClusterSpec.v ===== *)
(** * What the operations on cluster chains do to the FAT

    Everything is stated of the FAT as a function from clusters to entries, over
    the laws of the block cache.  A chain is a list of clusters; the operations
    free it, look a position up in it, make it longer or cut it. *)

From S2P Require Import Prelude Hdr Bytes Dpb Blockio BlockioSpec Fattab CacheSpec FattabSpec Fnode Cluster.

(** ** The mounted volume *)

(** A DPB without its counts and hints. *)
Definition geometry (d : dpb) : dpb := set_xnfreeclst 0 (set_xcluster 0 (set_cluster 0 d)).

Lemma volume_ok_geometry primary d : volume_ok primary (geometry d) <-> volume_ok primary d.
Proof. split; intros [H1 H2 H3 H4 H5 H6]; split; assumption. Qed.

Lemma fat_at_geometry d v n : fat_at (geometry d) v n = fat_at d v n.
Proof. reflexivity. Qed.

Lemma next_at_geometry d v n : next_at (geometry d) v n = next_at d v n.
Proof.
  unfold next_at. cbv zeta. rewrite !fat_at_geometry. by change (max_cluster (geometry d)) with (max_cluster d).
Qed.

(** Where the search for free space starts. *)
Definition hint (d : dpb) : Z := if ISFAT32 d then dpb_xcluster d else dpb_cluster d.
Definition hint_ok (d : dpb) : Prop := hint d = UNKNCLUSTER \/ 2 <= hint d <= max_cluster d.
Definition count_ok (d : dpb) (v : Z -> Z -> list Z) : Prop :=
  dpb_count d = unknown_count d \/ dpb_count d = free_count d v.

(** A chain from the cluster number [c]. *)
Fixpoint chain (d : dpb) (v : Z -> Z -> list Z) (c : Z) (cs : list Z) : Prop :=
  match cs with
  | [] => c = LONG_LAST_CLUSTER
  | x :: r => c = x /\ 2 <= x <= max_cluster d /\ chain d v (fat_at d v x) r
  end.

Section cluster.
  Context {S : Type} `{BlockCacheLaws S primary} (cf : nat) (p : Z) (g : dpb).
  Context (Hrel : bc_reliable (S := S) (primary := primary)).

(** The DPB [p] of the state is that of a volume of geometry [g] whose image is
    [v], with a sound hint and a sound free count. *)
Record mounted (v : Z -> Z -> list Z) (s : S) : Prop := {
  m_geom : geometry (bc_dpb s p) = g;
  m_rep : exists l, bc_rep cf s l v;
  m_vol : volume_ok primary g;
  m_drive : bc_drive s (dpb_unit g);
  m_image : image_ok g v;
  m_fsinfo : fsinfo_ok (primary := primary) (bc_dpb s p) v;
  m_hint : hint_ok (bc_dpb s p);
  m_count : count_ok (bc_dpb s p) v }.

(** What an operation on the FAT leaves alone. *)
Record evolves (v : Z -> Z -> list Z) (s : S) (v' : Z -> Z -> list Z) (s' : S) : Prop := {
  ev_mounted : mounted v' s';
  ev_dpbs q : q <> p -> bc_dpb s' q = bc_dpb s q;
  ev_drives u : bc_drive s u -> bc_drive s' u;
  ev_else u b : ~ (u = dpb_unit g /\ fat_start g <= b <= fat_start g + last_sector g) ->
    ~ (u = dpb_unit g /\ b = dpb_xfsinfosec g /\ b <> 0xffff) -> v' u b = v u b }.

Lemma evolves_refl v s : mounted v s -> evolves v s v s.
Proof. by split. Qed.

Lemma evolves_trans v s v1 s1 v2 s2 : evolves v s v1 s1 -> evolves v1 s1 v2 s2 -> evolves v s v2 s2.
Proof.
  intros [H1 H2 H3 H4] [G1 G2 G3 G4]. split; [done| | |].
  - intros q Hq. by rewrite G2, H2.
  - auto.
  - intros u b Hf Hi. by rewrite G4, H4.
Qed.

Notation F := (fat_at g).

Lemma fat_at_geom v s : mounted v s -> forall w n, fat_at (bc_dpb s p) w n = F w n.
Proof. intros [<- _ _ _ _ _ _ _] w n. by rewrite fat_at_geometry. Qed.

Lemma mounted_vol v s : mounted v s -> volume_ok primary (bc_dpb s p).
Proof. intros [Hg _ Hv _ _ _ _ _]. rewrite <- Hg in Hv. by apply volume_ok_geometry. Qed.

(** The same image and DPB in another state of the cache. *)
Lemma mounted_same v s l s' :
  mounted v s -> bc_rep cf s' l v -> (forall q, bc_dpb s' q = bc_dpb s q) ->
  (forall u, bc_drive s u -> bc_drive s' u) -> evolves v s v s'.
Proof.
  intros [H1 H2 H3 H4 H5 H6 H7 H8] Hr Hd Hu. split; [split|..]; rewrite ?Hd; auto. by exists l.
Qed.

(** Values that are stored in entries. *)
Definition settable (c : Z) : Prop := c = FREE \/ 2 <= c <= max_cluster g \/ c = LONG_LAST_CLUSTER.

Lemma decode_encode c : volume_ok primary g -> settable c -> decode g (encode g c) = c.
Proof.
  intros Hv Hc. pose proof (fat_types _ _ Hv) as Ht. pose proof (v_size _ _ Hv) as Hs. pose proof (v_max _ _ Hv) as Hm.
  unfold settable, max_cluster in Hc. unfold max_cluster in Hm.
  unfold decode, encode, FREE, LONG_BAD, LONG_LAST_CLUSTER, MASK12, BAD12, MASK16, BAD16 in *.
  destruct Ht as [(E12 & E16 & E32)|[(E12 & E16 & E32)|(E12 & E16 & E32)]]; rewrite E12, E32 in *;
    unfold FAT_MAGIC16 in Hs.
  - unfold ISFAT12, FAT_MAGIC in E12. apply Z.ltb_lt in E12. rewrite u16_id in E12 by lia.
    destruct Hc as [->|[Hc| ->]]; [done| |done]. rewrite Z.mod_small by lia. repeat case_bool; lia.
  - destruct Hc as [->|[Hc| ->]]; [done| |done]. rewrite Z.mod_small by lia. repeat case_bool; lia.
  - destruct Hc as [->|[Hc| ->]]; [done| |done]. rewrite Z.mod_small by lia. repeat case_bool; lia.
Qed.

(** Storing an entry. *)
Lemma fat_set v s n c :
  mounted v s -> 2 <= n <= max_cluster g -> settable c ->
  exists v' s', link_fat cf p n c s = Some (SUCCESS, s') /\ evolves v s v' s' /\
    (forall m, F v' m = if decide (m = n) then c else F v m) /\
    hint (bc_dpb s' p) = hint (bc_dpb s p) /\
    free_count g v' = free_count g v + (if c =? FREE then 1 else 0) - (if F v n =? FREE then 1 else 0).
Proof.
  intros Hm Hn Hc. pose proof (mounted_vol _ _ Hm) as Hv. destruct Hm as [Hg [l Hr] Hvg Hd Hi Hf Hh Hcnt].
  assert (Ht : target_ok (bc_dpb s p) c).
  { change (target_ok (geometry (bc_dpb s p)) c). rewrite Hg. unfold target_ok, LONG_BAD.
    destruct Hc as [->|[?| ->]]; [left|left|right]; unfold FREE, LONG_LAST_CLUSTER; lia. }
  assert (Hnr : c <> READ_CLUSTER).
  { unfold settable, FREE, LONG_LAST_CLUSTER, READ_CLUSTER in *. lia. }
  destruct (link_fat_write_spec cf p n c l v s) as (s' & Hlk & l' & v' & Hr' & Hp & (Hi' & Hel & He) & Hdr & Hdp & [k Hk] & Hf' & Hun & Hct);
    try done; try (by rewrite <- Hg in *).
  assert (Hg' : geometry (bc_dpb s' p) = g) by (by rewrite Hk, <- Hg).
  assert (He' : forall m, 2 <= m <= max_cluster g -> entry g v' m = if decide (m = n) then encode g c else entry g v m)
    by (by rewrite <- Hg).
  exists v', s'. split; [done|]. split; [split; [split|..]|split; [|split]]; try done.
  - by exists l'.
  - by apply Hdr.
  - rewrite <- Hg. exact Hi'.
  - rewrite Hk. exact Hh.
  - destruct Hcnt as [Hcnt|Hcnt]; [left; by rewrite Hun|right; rewrite (Hct Hcnt)].
    rewrite Hk. reflexivity.
  - rewrite <- Hg. exact Hel.
  - intros m. unfold fat_at. destruct (in_range g m) eqn:Em.
    + apply andb_true_iff in Em as [?%Z.leb_le ?%Z.leb_le]. rewrite He' by done.
      case_decide; [by apply decode_encode|done].
    + case_decide; [subst m|done]. unfold in_range in Em. apply andb_false_iff in Em as [?%Z.leb_gt|?%Z.leb_gt]; lia.
  - by rewrite Hk.
  - rewrite (free_count_written (primary := primary) g n c v v'); try done.
    + unfold fat_at, in_range. rewrite (proj2 (Z.leb_le 2 n)), (proj2 (Z.leb_le n _)) by lia. cbn [andb].
      destruct (Z.eqb_spec (entry g v n) FREE) as [E|E], (Z.eqb_spec (decode g (entry g v n)) FREE) as [E'|E'];
        try done; [by rewrite decode_free in E'|by rewrite decode_free in E'].
    + by rewrite <- Hg.
Qed.

(** Following an entry. *)
Lemma fat_get v s n :
  mounted v s -> exists s', next_cluster cf p n s = Some (next_at g v n, s') /\ evolves v s v s' /\
    bc_dpb s' p = bc_dpb s p.
Proof.
  intros Hm. pose proof (mounted_vol _ _ Hm) as Hv. pose proof Hm as [Hg [l Hr] _ Hd Hi _ _ _].
  destruct (next_cluster_spec cf p n l v s) as (s' & Hn & (Hd1 & Hd2 & l' & Hr' & _) & _);
    try done; try (by rewrite <- Hg in * ).
  exists s'. split; [|split; [|done]].
  - by rewrite Hn, <- Hg, next_at_geometry.
  - by eapply mounted_same.
Qed.

Lemma fat_free v s n :
  mounted v s -> exists s', is_free_cluster cf p n s = Some (F v n =? FREE, s') /\ evolves v s v s' /\
    bc_dpb s' p = bc_dpb s p.
Proof.
  intros Hm. pose proof (mounted_vol _ _ Hm) as Hv. pose proof Hm as [Hg [l Hr] _ Hd Hi _ _ _]. unfold is_free_cluster.
  destruct (link_fat_read_spec cf p n l v s) as (r & s' & -> & [[-> (Hd1 & Hd2 & l' & Hr' & _)]|[_ ?]]);
    try done; try (by rewrite <- Hg in * ).
  exists s'. split; [|split; [|done]].
  - by rewrite (fat_at_geom v s).
  - by eapply mounted_same.
Qed.

Lemma mounted_set v s d :
  mounted v s -> geometry d = g -> hint_ok d -> count_ok d v ->
  0 <= dpb_xnfreeclst d < 4294967296 -> 0 <= dpb_xcluster d < 4294967296 ->
  evolves v s v (bc_set_dpb p d s).
Proof.
  intros Hm Hgd Hhd Hcd Hn Hc. destruct Hm as [Hg [l Hr] Hvg Hd Hi Hf Hh Hcnt].
  assert (Hp : bc_dpb (bc_set_dpb p d s) p = d) by (by rewrite bc_set_dpb_get, decide_True).
  assert (Heq : geometry d = geometry (bc_dpb s p)) by congruence.
  split; [split|..]; rewrite ?Hp; try done.
  - exists l. apply bc_set_dpb_rep; [done| | |].
    + by apply (f_equal dpb_device) in Heq.
    + by apply (f_equal dpb_subunit) in Heq.
    + by apply (f_equal dpb_xfatsize) in Heq.
  - by apply bc_set_dpb_drive.
  - split; [done|]. split; [done|]. destruct Hf as (_ & _ & Hf).
    set (T := fun e : dpb => dpb_xfsinfosec e = 0xffff \/
      0 <= dpb_xfsinfosec e < 0xffff /\ primary (dpb_unit e) (dpb_xfsinfosec e) /\
      ~ (fat_start e <= dpb_xfsinfosec e <= fat_start e + last_sector e) /\
      length (v (dpb_unit e) (dpb_xfsinfosec e)) = 512%nat /\ bytes (v (dpb_unit e) (dpb_xfsinfosec e))).
    change (T (geometry (bc_dpb s p))) in Hf. rewrite <- Heq in Hf. exact Hf.
  - intros q Hq. by rewrite bc_set_dpb_get, decide_False.
  - intros u. apply bc_set_dpb_drive.
Qed.

(** Setting the hint. *)
Definition with_hint (h : Z) (d : dpb) : dpb := if ISFAT32 d then set_xcluster h d else set_cluster h d.

Lemma hint_set h d : hint (with_hint h d) = h.
Proof.
  unfold hint, with_hint. destruct (ISFAT32 d) eqn:E.
  - change (ISFAT32 (set_xcluster h d)) with (ISFAT32 d). by rewrite E.
  - change (ISFAT32 (set_cluster h d)) with (ISFAT32 d). by rewrite E.
Qed.

Lemma with_hint_geometry h d : geometry (with_hint h d) = geometry d.
Proof. unfold with_hint. by destruct (ISFAT32 d). Qed.

Lemma max_geom v s : mounted v s -> max_cluster (bc_dpb s p) = max_cluster g.
Proof. intros [<- _ _ _ _ _ _ _]. done. Qed.

Lemma fat32_geom v s : mounted v s -> ISFAT32 (bc_dpb s p) = ISFAT32 g.
Proof. intros [<- _ _ _ _ _ _ _]. done. Qed.

Lemma mounted_hint v s h :
  mounted v s -> h = UNKNCLUSTER \/ 2 <= h <= max_cluster g -> evolves v s v (bc_set_dpb p (with_hint h (bc_dpb s p)) s).
Proof.
  intros Hm Hh. pose proof (max_geom _ _ Hm) as Hmx. pose proof (v_max _ _ (m_vol _ _ Hm)) as Hmax. unfold LONG_BAD in Hmax.
  pose proof (m_fsinfo _ _ Hm) as (Hn & Hx & _).
  apply mounted_set; try done.
  - rewrite with_hint_geometry. apply Hm.
  - unfold hint_ok. rewrite hint_set. unfold with_hint. destruct (ISFAT32 (bc_dpb s p)); by rewrite <- Hmx in Hh.
  - pose proof (m_count _ _ Hm) as Hc. unfold with_hint. by destruct (ISFAT32 (bc_dpb s p)).
  - unfold with_hint. by destruct (ISFAT32 (bc_dpb s p)).
  - unfold with_hint. destruct (ISFAT32 (bc_dpb s p)); [|done]. cbn. unfold UNKNCLUSTER in Hh. lia.
Qed.

(** The information sector does not matter to the FAT. *)
Lemma mounted_fsinfo v s :
  mounted v s -> exists v' s', write_fsinfo cf p s = Some s' /\ evolves v s v' s' /\
    bc_dpb s' p = bc_dpb s p /\ forall m, F v' m = F v m.
Proof.
  intros Hm. pose proof Hm as [Hg [l Hr] Hv Hd Hi Hf Hh Hc].
  destruct (write_fsinfo_spec cf s l v p) as (s' & Hw & Hdp & Hdr & l' & v' & Hr' & _ & Hsame & _ & Hf');
    try done; try (by rewrite <- Hg in * ).
  assert (Hfat : forall sec, 0 <= sec <= last_sector g ->
    v' (dpb_unit g) (fat_start g + sec) = v (dpb_unit g) (fat_start g + sec)).
  { intros sec Hsec. destruct Hf as (_ & _ & Hsec32). rewrite <- Hg in *. apply Hsame. intros (_ & E1 & E2).
    destruct Hsec32 as [?|(_ & _ & Hnot & _)]; [lia|]. apply Hnot.
    change (fat_start (geometry (bc_dpb s p))) with (fat_start (bc_dpb s p)) in E1.
    change (last_sector (geometry (bc_dpb s p))) with (last_sector (bc_dpb s p)) in Hsec. lia. }
  assert (He : forall m, 2 <= m <= max_cluster g -> entry g v' m = entry g v m) by (intros; by eapply entry_ext).
  exists v', s'. split; [done|]. split; [split; [split|..]|split; [done|]]; rewrite ?Hdp; try done.
  - by exists l'.
  - by apply Hdr.
  - intros sec Hsec. rewrite Hfat by done. by apply Hi.
  - destruct Hc as [Hc|Hc]; [by left|right]. rewrite Hc.
    change (free_count (geometry (bc_dpb s p)) v = free_count (geometry (bc_dpb s p)) v').
    rewrite Hg. symmetry. by eapply free_count_ext.
  - intros u b _ Hb. rewrite <- Hg in Hb. apply Hsame. intros (E1 & E2 & E3). by apply Hb.
  - intros m. unfold fat_at. destruct (in_range g m) eqn:Em; [|done].
    apply andb_true_iff in Em as [?%Z.leb_le ?%Z.leb_le]. by rewrite He.
Qed.

(** ** Chains *)

Lemma chain_cons v x cs c : chain g v c (x :: cs) <-> c = x /\ 2 <= x <= max_cluster g /\ chain g v (F v x) cs.
Proof. done. Qed.

Lemma chain_unique v : volume_ok primary g -> forall cs1 cs2 c, chain g v c cs1 -> chain g v c cs2 -> cs1 = cs2.
Proof.
  intros Hv cs1. pose proof (v_max _ _ Hv) as Hmx. unfold LONG_BAD in Hmx.
  assert (Hlast : forall x, x = LONG_LAST_CLUSTER -> 2 <= x <= max_cluster g -> False)
    by (intros x ->; unfold LONG_LAST_CLUSTER; lia).
  induction cs1 as [|x cs1 IH]; intros [|y cs2] c H1 H2; cbn in H1, H2; [done| | |].
  - destruct H2 as (-> & Hr & _). by destruct (Hlast y).
  - destruct H1 as (-> & Hr & _). by destruct (Hlast x).
  - destruct H1 as (-> & _ & H1), H2 as (-> & _ & H2). f_equal. by eapply IH.
Qed.

Lemma chain_app v : forall cs1 x cs2 c, chain g v c (cs1 ++ x :: cs2) -> chain g v x (x :: cs2).
Proof.
  induction cs1 as [|y cs1 IH]; intros x cs2 c Hc; cbn in Hc |- *.
  - destruct Hc as (-> & ? & ?). done.
  - destruct Hc as (_ & _ & Hc). by eapply IH.
Qed.

Lemma chain_range v : forall cs c x, chain g v c cs -> x ∈ cs -> 2 <= x <= max_cluster g.
Proof.
  induction cs as [|y cs IH]; intros c x Hc Hx; [by apply elem_of_nil in Hx|].
  destruct Hc as (-> & Hr & Hc). apply elem_of_cons in Hx as [->|Hx]; [done|by eapply IH].
Qed.

(** A chain that ends does not come back. *)
Lemma chain_NoDup v cs : volume_ok primary g -> forall c, chain g v c cs -> NoDup cs.
Proof.
  intros Hv. induction cs as [|x cs IH]; intros c Hc; [by constructor|].
  apply list.NoDup_cons. split; [|destruct Hc as (_ & _ & Hc); by eapply IH].
  intros Hin. apply list_elem_of_split in Hin as (l1 & l2 & ->).
  pose proof (chain_app _ (x :: l1) x l2 c Hc) as H2. pose proof (chain_app _ [] x (l1 ++ x :: l2) c Hc) as H1.
  pose proof (f_equal length (chain_unique v Hv _ _ _ H1 H2)) as E.
  cbn in E. rewrite length_app in E. cbn in E. lia.
Qed.

Lemma chain_agree v v' cs : (forall x, x ∈ cs -> F v' x = F v x) -> forall c, chain g v c cs -> chain g v' c cs.
Proof.
  induction cs as [|x cs IH]; intros Ha c Hc; [done|]. destruct Hc as (-> & Hr & Hc).
  cbn. split; [done|]. split; [done|]. rewrite Ha by by left. apply IH; [|done]. intros y Hy. apply Ha. by right.
Qed.

(** The entry of a cluster of a chain leads on. *)
Lemma chain_next v x cs : volume_ok primary g -> chain g v x (x :: cs) -> next_at g v x = F v x.
Proof.
  intros Hv (_ & Hx & Hc). pose proof (v_max _ _ Hv) as Hmx. unfold next_at. cbv zeta.
  unfold LONG_BAD in *. destruct cs as [|y cs].
  - cbn in Hc. rewrite Hc. done.
  - destruct Hc as (-> & Hy & Hc). set (e := F v y).
    assert (He : e = LONG_LAST_CLUSTER \/ 2 <= e <= max_cluster g).
    { destruct cs as [|z cs]; [by left|right]. destruct Hc as (E & Hz & _). unfold e. by rewrite E. }
    unfold LONG_LAST_CLUSTER in He.
    repeat case_bool; cbn; try done; lia.
Qed.

Lemma chain_next_settable v x cs : chain g v x (x :: cs) -> F v x = LONG_LAST_CLUSTER \/ 2 <= F v x <= max_cluster g.
Proof. intros (_ & _ & Hc). destruct cs as [|y cs]; [by left|right]. destruct Hc as (-> & Hy & _). done. Qed.

(** ** Freeing *)

Lemma small_cluster x : volume_ok primary g -> ISFAT32 g = false -> 2 <= x <= max_cluster g -> u16 x = x.
Proof.
  intros Hv E Hx. pose proof (v_size _ _ Hv) as Hs. unfold max_cluster, FAT_MAGIC16 in *. rewrite E in *. apply u16_id. lia.
Qed.

Lemma mounted_lower v s x :
  mounted v s -> 2 <= x <= max_cluster g -> evolves v s v (bc_set_dpb p (lower_hint x (bc_dpb s p)) s).
Proof.
  intros Hm Hx. pose proof (mounted_hint v s x Hm (or_intror Hx)) as Hset. pose proof Hm as [_ _ Hv _ _ Hf Hh Hc].
  assert (Hsame : evolves v s v (bc_set_dpb p (bc_dpb s p) s)) by (apply mounted_set; try done; [apply Hm|apply Hf|apply Hf]).
  pose proof (fat32_geom _ _ Hm) as E. pose proof (small_cluster x Hv) as Hsmall. unfold lower_hint, with_hint in *. rewrite E in *.
  destruct (ISFAT32 g).
  - by destruct (_ || _).
  - rewrite Hsmall by done. by destruct (_ || _).
Qed.

Lemma allocated_step v n : 2 <= next_at g v n -> 2 <= n <= max_cluster g /\ F v n <> FREE.
Proof.
  unfold next_at. cbv zeta. intros Hn.
  assert (2 <= F v n) as Hf by (revert Hn; repeat case_bool; cbn; lia).
  split; [|unfold FREE; lia]. unfold fat_at in Hf. destruct (in_range g n) eqn:E; [|lia].
  by apply andb_true_iff in E as [?%Z.leb_le ?%Z.leb_le].
Qed.

(** One turn of the loop of [wipe_out_clusters]. *)
Lemma wipe_step v s c steps :
  mounted v s -> c <> LONG_LAST_CLUSTER -> 2 <= next_at g v c ->
  exists v' s', wipe_loop cf (Datatypes.S steps) p c s = wipe_loop cf steps p (next_at g v c) s' /\
    evolves v s v' s' /\ (forall m, F v' m = if decide (m = c) then FREE else F v m) /\
    free_count g v' = free_count g v + 1.
Proof.
  intros Hm Hc Hn. destruct (allocated_step _ _ Hn) as [Hr Hnf]. cbn [wipe_loop].
  rewrite (proj2 (Z.eqb_neq _ _)) by done. destruct (fat_get v s c Hm) as (s1 & -> & Hev1 & Hd1).
  rewrite (proj2 (Z.leb_gt _ _)) by lia.
  destruct (fat_set v s1 c FREE (ev_mounted _ _ _ _ Hev1) Hr (or_introl eq_refl)) as (v2 & s2 & -> & Hev2 & Hf2 & _ & Hcnt).
  change (negb (SUCCESS =? SUCCESS)) with false. cbv iota.
  eexists v2, _. split; [reflexivity|]. split; [|split; [done|]].
  - eapply evolves_trans; [exact Hev1|]. eapply evolves_trans; [exact Hev2|].
    by apply mounted_lower; [apply Hev2|].
  - rewrite Hcnt, (proj2 (Z.eqb_neq (F v c) FREE)) by done. cbn. lia.
Qed.

Lemma wipe_chain cs : forall steps v s c, mounted v s -> chain g v c cs -> (length cs <= steps)%nat ->
  exists v' s', wipe_loop cf steps p c s = Some (true, s') /\ evolves v s v' s' /\
    forall m, F v' m = if decide (m ∈ cs) then FREE else F v m.
Proof.
  induction cs as [|x cs IH]; intros steps v s c Hm Hc Hl; pose proof (m_vol _ _ Hm) as Hv.
  - cbn in Hc. subst c. exists v, s. split; [by destruct steps|]. split; [by apply evolves_refl|].
    intros m. rewrite decide_False; [done|]. by intros ?%elem_of_nil.
  - pose proof (chain_NoDup _ _ Hv _ Hc) as [Hx Hnd]%list.NoDup_cons.
    pose proof (v_max _ _ Hv) as Hmx. unfold LONG_BAD in Hmx.
    assert (c = x) as -> by apply Hc. pose proof (chain_next v x cs Hv Hc) as Hnext.
    pose proof (chain_next_settable _ _ _ Hc) as Hset. destruct Hc as (_ & Hr & Hc).
    destruct steps as [|steps]; [cbn in Hl; lia|].
    destruct (wipe_step v s x steps Hm) as (v1 & s1 & -> & Hev1 & Hf1 & _).
    { unfold LONG_LAST_CLUSTER. lia. }
    { rewrite Hnext. unfold LONG_LAST_CLUSTER in Hset. lia. }
    rewrite Hnext.
    destruct (IH steps v1 s1 (F v x)) as (v2 & s2 & -> & Hev2 & Hf2).
    + apply Hev1.
    + eapply chain_agree; [|exact Hc]. intros y Hy. rewrite Hf1, decide_False; [done|]. by intros ->.
    + cbn in Hl. lia.
    + exists v2, s2. split; [done|]. split; [by eapply evolves_trans|]. intros m. rewrite Hf2, Hf1.
      destruct (decide (m = x)) as [->|Hne].
      * rewrite (decide_True (P := x ∈ x :: cs)) by (by left). by case_decide.
      * destruct (decide (m ∈ cs)) as [Hi|Hi].
        -- by rewrite decide_True by (by right).
        -- by rewrite decide_False by (rewrite elem_of_cons; tauto).
Qed.

(** On any FAT at all the loop stops: every turn frees a cluster. *)
Lemma wipe_total steps : forall v s c, mounted v s -> max_cluster g - 1 - free_count g v < Z.of_nat steps ->
  exists b v' s', wipe_loop cf steps p c s = Some (b, s') /\ evolves v s v' s' /\
    forall m, F v' m = F v m \/ F v' m = FREE.
Proof.
  induction steps as [|steps IH]; intros v s c Hm Hl; pose proof (m_vol _ _ Hm) as Hv;
    pose proof (free_count_bounds (primary := primary) g v Hv) as Hb; [lia|].
  destruct (decide (c = LONG_LAST_CLUSTER)) as [->|Hc].
  { exists true, v, s. split; [done|]. split; [by apply evolves_refl|]. by left. }
  destruct (decide (2 <= next_at g v c)) as [Hn|Hn].
  - destruct (wipe_step v s c steps Hm Hc Hn) as (v1 & s1 & -> & Hev1 & Hf1 & Hcnt).
    destruct (IH v1 s1 (next_at g v c)) as (b & v2 & s2 & -> & Hev2 & Hf2); [apply Hev1|lia|].
    exists b, v2, s2. split; [done|]. split; [by eapply evolves_trans|]. intros m.
    destruct (Hf2 m) as [->| ->]; [|by right]. rewrite Hf1. case_decide; [by right|by left].
  - destruct (fat_get v s c Hm) as (s1 & Hg1 & Hev1 & _). exists false, v, s1. split; [|split; [done|by left]].
    cbn [wipe_loop]. rewrite (proj2 (Z.eqb_neq _ _)), Hg1 by done. by rewrite (proj2 (Z.leb_le _ _)) by lia.
Qed.

(** The whole of [wipe_out_clusters]. *)
Lemma wipe_out_clusters_chain steps v s c cs :
  mounted v s -> chain g v c cs -> (length cs <= steps)%nat ->
  exists v' s', wipe_out_clusters cf steps p c s = Some s' /\ evolves v s v' s' /\
    forall m, F v' m = if decide (m ∈ cs) then FREE else F v m.
Proof.
  intros Hm Hc Hl. unfold wipe_out_clusters.
  destruct (wipe_chain cs steps v s c Hm Hc Hl) as (v1 & s1 & -> & Hev1 & Hf1). cbn [andb].
  destruct (ISFAT32 _); [|by exists v1, s1].
  destruct (mounted_fsinfo v1 s1 (ev_mounted _ _ _ _ Hev1)) as (v2 & s2 & -> & Hev2 & _ & Hf2).
  exists v2, s2. split; [done|]. split; [by eapply evolves_trans|]. intros m. by rewrite Hf2.
Qed.

Lemma wipe_out_clusters_any steps v s c :
  mounted v s -> (Z.to_nat (max_cluster g) <= steps)%nat ->
  exists v' s', wipe_out_clusters cf steps p c s = Some s' /\ evolves v s v' s' /\
    forall m, F v' m = F v m \/ F v' m = FREE.
Proof.
  intros Hm Hl. unfold wipe_out_clusters.
  pose proof (free_count_bounds (primary := primary) g v (m_vol _ _ Hm)) as Hb. pose proof (v_max _ _ (m_vol _ _ Hm)).
  destruct (wipe_total steps v s c Hm) as (b & v1 & s1 & -> & Hev1 & Hf1); [lia|].
  destruct (b && _); [|by exists v1, s1].
  destruct (mounted_fsinfo v1 s1 (ev_mounted _ _ _ _ Hev1)) as (v2 & s2 & -> & Hev2 & _ & Hf2).
  exists v2, s2. split; [done|]. split; [by eapply evolves_trans|]. intros m. by rewrite Hf2.
Qed.

(** ** Looking for a free cluster *)

(** The [k]th cluster from [h] on, turning round at the end of the volume. *)
Definition cyc (h k : Z) : Z := 2 + (h - 2 + k) mod (max_cluster g - 1).

Lemma cyc_range h k : volume_ok primary g -> 2 <= cyc h k <= max_cluster g.
Proof.
  intros Hv. pose proof (v_max _ _ Hv). unfold cyc.
  pose proof (Z.mod_pos_bound (h - 2 + k) (max_cluster g - 1) ltac:(lia)). lia.
Qed.

Lemma cyc_0 h : 2 <= h <= max_cluster g -> cyc h 0 = h.
Proof. intros Hh. unfold cyc. rewrite Z.mod_small by lia. lia. Qed.

Lemma cyc_step h k : volume_ok primary g ->
  cyc h (k + 1) = if max_cluster g <? u32 (cyc h k + 1) then 2 else u32 (cyc h k + 1).
Proof.
  intros Hv. pose proof (v_max _ _ Hv) as Hm. unfold LONG_BAD in Hm. pose proof (cyc_range h k Hv) as Hr.
  rewrite u32_id by lia. unfold cyc in *. set (M := max_cluster g - 1) in *. set (a := h - 2 + k) in *.
  replace (h - 2 + (k + 1)) with (a + 1) by lia.
  pose proof (Z.mod_pos_bound a M ltac:(lia)) as Hb. pose proof (Z.div_mod a M ltac:(lia)) as Hd.
  destruct (Z.ltb_spec (max_cluster g) (2 + a mod M + 1)).
  - assert (a mod M = M - 1) by lia.
    rewrite <- (Z.mod_unique_pos (a + 1) M (a / M + 1) 0); lia.
  - rewrite <- (Z.mod_unique_pos (a + 1) M (a / M) (a mod M + 1)); lia.
Qed.

Lemma cyc_back h k : 2 <= h <= max_cluster g -> 0 < k < max_cluster g - 1 -> cyc h k <> h.
Proof.
  intros Hh Hk E. unfold cyc in E. assert (0 <= h - 2) by lia. remember (max_cluster g - 1) as M eqn:EM.
  pose proof (Z.div_mod (h - 2 + k) M ltac:(lia)) as Hd.
  assert ((h - 2 + k) mod M = h - 2) as Em by lia. rewrite Em in Hd.
  clear E Em EM. generalize dependent ((h - 2 + k) / M). intros q Hd. assert (0 < q < 1) by nia. lia.
Qed.

Lemma cyc_all h n : 2 <= h <= max_cluster g -> 2 <= n <= max_cluster g -> exists k, 0 <= k < max_cluster g - 1 /\ cyc h k = n.
Proof.
  intros Hh Hn. exists ((n - h) mod (max_cluster g - 1)). set (M := max_cluster g - 1).
  split; [apply Z.mod_pos_bound; lia|]. unfold cyc. fold M.
  rewrite Zplus_mod_idemp_r. replace (h - 2 + (n - h)) with (n - 2) by lia. rewrite Z.mod_small by lia. lia.
Qed.

(** The first free cluster from [h] on, in the order of [cyc]. *)
Definition first_free (v : Z -> Z -> list Z) (h i : Z) : Prop :=
  2 <= i <= max_cluster g /\ F v i = FREE /\
  exists k, 0 <= k /\ i = cyc h k /\ forall j, 0 <= j < k -> F v (cyc h j) <> FREE.

Definition none_free (v : Z -> Z -> list Z) : Prop := forall n, 2 <= n <= max_cluster g -> F v n <> FREE.

Lemma find_loop_spec h steps : 2 <= h <= max_cluster g -> forall k v s,
  mounted v s -> 0 <= k < max_cluster g - 1 -> max_cluster g - 1 - k <= Z.of_nat steps ->
  (forall j, 0 <= j < k -> F v (cyc h j) <> FREE) ->
  exists r s', find_loop cf steps p (max_cluster g) h (cyc h k) s = Some (r, s') /\ evolves v s v s' /\
    bc_dpb s' p = bc_dpb s p /\ match r with Some i => first_free v h i | None => none_free v end.
Proof.
  intros Hh. induction steps as [|steps IH]; intros k v s Hm Hk Hs Hno; [lia|]. pose proof (m_vol _ _ Hm) as Hv.
  cbn [find_loop]. destruct (fat_free v s (cyc h k) Hm) as (s1 & -> & Hev1 & Hd1).
  destruct (Z.eqb_spec (F v (cyc h k)) FREE) as [E|E].
  { eexists _, s1. split; [reflexivity|]. split; [done|]. split; [done|].
    split; [by apply cyc_range|]. split; [done|]. exists k. split; [lia|]. by split. }
  rewrite <- cyc_step by done.
  assert (Hno' : forall j, 0 <= j < k + 1 -> F v (cyc h j) <> FREE).
  { intros j Hj. destruct (decide (j = k)) as [->|]; [done|]. apply Hno. lia. }
  destruct (decide (k + 1 = max_cluster g - 1)) as [Ek|Ek].
  - assert (cyc h (k + 1) = h) as ->.
    { rewrite Ek. unfold cyc. rewrite <- (Z.mod_unique_pos (h - 2 + (max_cluster g - 1)) (max_cluster g - 1) 1 (h - 2)); lia. }
    rewrite Z.eqb_refl. eexists None, s1. split; [reflexivity|]. split; [done|]. split; [done|].
    intros n Hn. destruct (cyc_all h n Hh Hn) as (j & Hj & <-). apply Hno'. lia.
  - rewrite (proj2 (Z.eqb_neq _ _)) by (apply cyc_back; lia).
    destruct (IH (k + 1) v s1) as (r & s2 & -> & Hev2 & Hd2 & Hr); try done; [apply Hev1|lia|lia|].
    exists r, s2. split; [done|]. split; [by eapply evolves_trans|]. split; [congruence|done].
Qed.

Definition search_start (d : dpb) : Z := if hint d =? UNKNCLUSTER then 2 else hint d.

Lemma find_fat_free_spec steps v s fnp :
  mounted v s -> f_dpb fnp = p -> (Z.to_nat (max_cluster g) <= steps)%nat ->
  exists i v' s', find_fat_free cf steps fnp s = Some (i, s') /\ evolves v s v' s' /\ (forall m, F v' m = F v m) /\
    (first_free v (search_start (bc_dpb s p)) i /\ hint (bc_dpb s' p) = i \/
     i = LONG_LAST_CLUSTER /\ none_free v /\ hint (bc_dpb s' p) = UNKNCLUSTER).
Proof.
  intros Hm Hp Hs. pose proof (m_vol _ _ Hm) as Hv. pose proof (v_max _ _ Hv) as Hmx. unfold LONG_BAD in Hmx.
  unfold find_fat_free. rewrite Hp. cbv zeta.
  assert ((if ISFAT32 (bc_dpb s p) then if negb (dpb_xcluster (bc_dpb s p) =? UNKNCLUSTER) then dpb_xcluster (bc_dpb s p) else 2
    else if negb (dpb_cluster (bc_dpb s p) =? UNKNCLUSTER) then dpb_cluster (bc_dpb s p) else 2) = search_start (bc_dpb s p)) as ->.
  { unfold search_start, hint. by destruct (ISFAT32 _), (_ =? UNKNCLUSTER). }
  assert ((if ISFAT32 (bc_dpb s p) then dpb_xsize (bc_dpb s p) else dpb_size (bc_dpb s p)) = max_cluster g) as ->
    by (by rewrite <- (max_geom v s Hm)).
  set (h := search_start (bc_dpb s p)).
  assert (Hh : 2 <= h <= max_cluster g).
  { unfold h, search_start. destruct (m_hint _ _ Hm) as [E|Hr]; [rewrite E; cbn; lia|].
    rewrite (max_geom v s Hm) in Hr. case_bool; lia. }
  destruct (find_loop_spec h steps Hh 0 v s Hm) as (r & s1 & Hf & Hev1 & Hd1 & Hr); [lia|lia|intros; lia|].
  rewrite cyc_0 in Hf by done. rewrite Hf. clear Hf.
  assert (Hset : forall c, c = UNKNCLUSTER \/ 2 <= c <= max_cluster g ->
    exists v' s', (if ISFAT32 (bc_dpb s1 p) then write_fsinfo cf p (bc_set_dpb p (set_xcluster c (bc_dpb s1 p)) s1)
       else Some (bc_set_dpb p (set_cluster (u16 c) (bc_dpb s1 p)) s1)) = Some s' /\ evolves v s v' s' /\
      (forall m, F v' m = F v m) /\ hint (bc_dpb s' p) = c).
  { intros c Hc. pose proof (mounted_hint v s1 c (ev_mounted _ _ _ _ Hev1) Hc) as Hev2.
    pose proof (fat32_geom v s1 (ev_mounted _ _ _ _ Hev1)) as E.
    assert (Hh' : hint (bc_dpb (bc_set_dpb p (with_hint c (bc_dpb s1 p)) s1) p) = c)
      by (rewrite bc_set_dpb_get, decide_True by done; apply hint_set).
    unfold with_hint in *. rewrite E in *. destruct (ISFAT32 g) eqn:E32.
    - destruct (mounted_fsinfo _ _ (ev_mounted _ _ _ _ Hev2)) as (v3 & s3 & -> & Hev3 & Hd3 & Hf3).
      exists v3, s3. split; [done|]. split; [by do 2 (eapply evolves_trans; [done|])|]. split; [done|]. by rewrite Hd3.
    - assert (u16 c = c) as ->.
      { destruct Hc as [->|Hc]; [done|by apply small_cluster]. }
      eexists v, _. split; [reflexivity|]. split; [by eapply evolves_trans|]. by split. }
  destruct r as [i|].
  - destruct Hr as (Hi & Hfr & Hk). destruct (Hset i (or_intror Hi)) as (v' & s' & Hw & Hev & Hf & Hhint).
    exists i, v', s'. split; [|split; [done|split; [done|left; split; [done|done]]]].
    destruct (ISFAT32 (bc_dpb s1 p)); [by rewrite Hw|by injection Hw as <-].
  - destruct (Hset UNKNCLUSTER (or_introl eq_refl)) as (v' & s' & Hw & Hev & Hf & Hhint).
    exists LONG_LAST_CLUSTER, v', s'. split; [|split; [done|split; [done|right; split; [done|by split]]]].
    destruct (ISFAT32 (bc_dpb s1 p)); [by rewrite Hw|by injection Hw as <-].
Qed.

(** ** Extending *)

(** The FAT with the cluster [i] put behind [last] ([FREE]: behind nothing). *)
Definition appended (v v' : Z -> Z -> list Z) (last i : Z) : Prop :=
  forall m, F v' m = if decide (m = i) then LONG_LAST_CLUSTER
                     else if decide (m = last /\ last <> FREE) then i else F v m.

Lemma setdstart_geom v s c e : mounted v s -> setdstart (bc_dpb s p) c e = setdstart g c e.
Proof. intros [<- _ _ _ _ _ _ _]. done. Qed.

Lemma next_at_last v n : F v n = LONG_LAST_CLUSTER -> next_at g v n = LONG_LAST_CLUSTER.
Proof. intros E. unfold next_at. cbv zeta. by rewrite E. Qed.

Lemma extend_spec steps v s fnp :
  mounted v s -> f_dpb fnp = p -> (Z.to_nat (max_cluster g) <= steps)%nat ->
  f_cluster fnp = FREE \/ 2 <= f_cluster fnp <= max_cluster g /\ F v (f_cluster fnp) = LONG_LAST_CLUSTER ->
  exists i fnp' v' s', extend cf steps fnp s = Some (i, fnp', s') /\ evolves v s v' s' /\
    (i = LONG_LAST_CLUSTER /\ none_free v /\ fnp' = fnp /\ (forall m, F v' m = F v m) \/
     first_free v (search_start (bc_dpb s p)) i /\ appended v v' (f_cluster fnp) i /\
     fnp' = if f_cluster fnp =? FREE then with_f_dir (setdstart g i (f_dir fnp)) fnp else fnp).
Proof.
  intros Hm Hp Hs Hpos. pose proof (m_vol _ _ Hm) as Hv. pose proof (v_max _ _ Hv) as Hmx. unfold LONG_BAD in Hmx.
  unfold extend. rewrite Hp. cbv zeta.
  destruct (find_fat_free_spec steps v s fnp Hm Hp Hs) as (i & v1 & s1 & -> & Hev1 & Hf1 & [[Hi _]|(-> & Hno & _)]).
  2: { rewrite Z.eqb_refl. eexists _, fnp, v1, s1. split; [reflexivity|]. split; [done|]. left. by split. }
  pose proof Hi as (Hr & Hfree & _).
  rewrite (proj2 (Z.eqb_neq i _)) by (unfold LONG_LAST_CLUSTER; lia).
  destruct (fat_set v1 s1 i LONG_LAST_CLUSTER (ev_mounted _ _ _ _ Hev1) Hr (or_intror (or_intror eq_refl)))
    as (v2 & s2 & -> & Hev2 & Hf2 & _).
  change (negb (SUCCESS =? SUCCESS)) with false. cbv iota.
  assert (Hev : evolves v s v2 s2) by (by eapply evolves_trans).
  destruct Hpos as [E|[Hcr Hlast]].
  - rewrite E, Z.eqb_refl. eexists i, _, v2, s2. split; [reflexivity|]. split; [done|]. right.
    split; [done|]. split; [|by erewrite setdstart_geom by apply Hev].
    intros m. rewrite Hf2. case_decide; [done|]. rewrite Hf1. by rewrite decide_False by (by intros [_ ?]).
  - assert (f_cluster fnp <> FREE) as Hne by (unfold FREE; lia). rewrite (proj2 (Z.eqb_neq (f_cluster fnp) FREE)) by done.
    assert (Hci : f_cluster fnp <> i) by (intros <-; rewrite Hfree in Hlast; done).
    destruct (fat_get v2 s2 (f_cluster fnp) (ev_mounted _ _ _ _ Hev2)) as (s3 & -> & Hev3 & _).
    rewrite next_at_last by (by rewrite Hf2, decide_False, Hf1). rewrite Z.eqb_refl. cbn [negb].
    destruct (fat_set v2 s3 (f_cluster fnp) i (ev_mounted _ _ _ _ Hev3) Hcr (or_intror (or_introl Hr)))
      as (v4 & s4 & -> & Hev4 & Hf4 & _).
    change (negb (SUCCESS =? SUCCESS)) with false. cbv iota.
    eexists i, _, v4, s4. split; [reflexivity|]. split; [by do 2 (eapply evolves_trans; [done|])|]. right.
    split; [done|]. split; [|done]. intros m. rewrite Hf4, Hf2, Hf1.
    destruct (decide (m = f_cluster fnp)) as [->|Hm1]; destruct (decide (_ = i)) as [?|?]; try done.
    + by rewrite decide_True.
    + by rewrite decide_False by (by intros [? _]).
Qed.

Lemma chain_append v v' i x : 2 <= i <= max_cluster g -> x <> FREE -> appended v v' x i ->
  forall cs c, chain g v c (cs ++ [x]) -> NoDup (cs ++ [x]) -> i ∉ cs ++ [x] -> chain g v' c ((cs ++ [x]) ++ [i]).
Proof.
  intros Hi Hx Ha. induction cs as [|y cs IH]; intros c Hc Hnd Hni.
  - destruct Hc as (-> & Hr & Hl). cbn [app]. apply chain_cons. split; [done|]. split; [done|].
    rewrite (Ha x), decide_False by (intros ->; apply Hni; by left). rewrite decide_True by done.
    apply chain_cons. split; [done|]. split; [done|]. by rewrite (Ha i), decide_True.
  - destruct Hc as (-> & Hr & Hc). cbn [app] in *. apply list.NoDup_cons in Hnd as [Hy Hnd].
    apply chain_cons. split; [done|]. split; [done|].
    rewrite (Ha y), decide_False, decide_False.
    + apply IH; try done. intros ?. apply Hni. by right.
    + intros [-> _]. apply Hy, elem_of_app. right. by left.
    + intros ->. apply Hni. by left.
Qed.

(** ** Positions *)

(** The FAT after the chain [cs] from [c] got longer by [news]. *)
Definition grown (v v' : Z -> Z -> list Z) (c : Z) (cs news : list Z) : Prop :=
  chain g v' c (cs ++ news) /\ (forall i, i ∈ news -> F v i = FREE) /\
  forall m, m ∉ cs ++ news -> F v' m = F v m.

Lemma grown_refl v c cs : chain g v c cs -> grown v v c cs [].
Proof. intros Hc. unfold grown. rewrite app_nil_r. split; [done|]. split; [by intros i ?%elem_of_nil|done]. Qed.

Lemma grown_trans v v1 v2 c cs i news :
  volume_ok primary g -> grown v v1 c cs [i] -> grown v1 v2 c (cs ++ [i]) news -> grown v v2 c cs (i :: news).
Proof.
  intros Hv (_ & Hn1 & Hs1) (Hc2 & Hn2 & Hs2). unfold grown. rewrite <- app_assoc in Hc2, Hs2. cbn [app] in Hc2, Hs2.
  split; [done|]. split.
  - intros j [->|Hj]%elem_of_cons; [by apply Hn1; left|]. rewrite <- (Hn2 j Hj). symmetry. apply Hs1.
    pose proof (chain_NoDup _ _ Hv _ Hc2) as Hnd. rewrite cons_middle, app_assoc in Hnd.
    apply list.NoDup_app in Hnd as (_ & Hd & _). intros Hin. by apply (Hd j).
  - intros m Hm. rewrite Hs2 by done. apply Hs1. intros Hin. apply Hm.
    apply elem_of_app in Hin as [?|?%list_elem_of_singleton]; apply elem_of_app; [by left|right; subst; by left].
Qed.

Lemma chain_end v c cs x : chain g v c (cs ++ [x]) -> F v x = LONG_LAST_CLUSTER.
Proof. intros Hc. by apply chain_app in Hc as (_ & _ & Hc). Qed.

(** Appending a free cluster to a chain. *)
Lemma grown_append v v' c cs x i :
  volume_ok primary g -> chain g v c (cs ++ [x]) -> 2 <= i <= max_cluster g -> F v i = FREE -> appended v v' x i ->
  grown v v' c (cs ++ [x]) [i].
Proof.
  intros Hv Hc Hi Hfree Ha.
  assert (Hx : 2 <= x <= max_cluster g) by (eapply chain_range; [exact Hc|]; apply elem_of_app; right; by left).
  assert (Hni : i ∉ cs ++ [x]).
  { intros Hin. apply list_elem_of_split in Hin as (l1 & l2 & E). rewrite E in Hc.
    apply chain_app in Hc. apply chain_next_settable in Hc. rewrite Hfree in Hc. unfold FREE, LONG_LAST_CLUSTER in Hc. lia. }
  split; [|split].
  - eapply chain_append; try done; [unfold FREE; lia|]. by eapply chain_NoDup.
  - by intros j ->%list_elem_of_singleton.
  - intros m Hm. rewrite (Ha m), decide_False, decide_False; [done| |].
    + intros [-> _]. apply Hm. apply elem_of_app. left. apply elem_of_app. right. by left.
    + intros ->. apply Hm. apply elem_of_app. right. by left.
Qed.

Lemma with_f_pos_pos o c o' c' f : with_f_pos o c (with_f_pos o' c' f) = with_f_pos o c f.
Proof. done. Qed.

(** One step inside the chain. *)
Lemma map_step steps rel mode v s fnp c cs k x y :
  mounted v s -> f_dpb fnp = p -> chain g v c cs -> cs !! k = Some x -> cs !! Datatypes.S k = Some y ->
  f_cluster fnp = x -> f_cluster_offset fnp = Z.of_nat k -> Z.of_nat k <> rel -> Z.of_nat (Datatypes.S k) < 4294967296 ->
  exists s', map_loop cf (Datatypes.S steps) rel mode fnp s =
      map_loop cf steps rel mode (with_f_pos (Z.of_nat (Datatypes.S k)) y fnp) s' /\ evolves v s v s'.
Proof.
  intros Hm Hp Hc Hx Hy Ef Eo Hne Hb. pose proof (m_vol _ _ Hm) as Hv. pose proof (v_max _ _ Hv) as Hmx. unfold LONG_BAD in Hmx.
  cbn [map_loop]. rewrite Eo, Ef, Hp, (proj2 (Z.eqb_neq _ rel)) by done.
  destruct (fat_get v s x Hm) as (s1 & -> & Hev & _).
  rewrite <- (take_drop_middle cs k x Hx) in Hc. pose proof (chain_app _ _ _ _ _ Hc) as Hcx.
  assert (Hd : exists r, drop (Datatypes.S k) cs = y :: r).
  { exists (drop (Datatypes.S (Datatypes.S k)) cs). by rewrite (drop_S _ y). }
  destruct Hd as [r Hd]. rewrite Hd in Hcx. rewrite (chain_next v x _ Hv Hcx).
  destruct Hcx as (_ & _ & E & Hr & _). rewrite E.
  rewrite (proj2 (Z.leb_gt y 1)), (proj2 (Z.eqb_neq y _)) by (unfold LONG_LAST_CLUSTER; lia). cbn [andb].
  exists s1. split; [|done]. rewrite (proj2 (Z.eqb_neq y _)) by (unfold LONG_LAST_CLUSTER; lia).
  rewrite u32_id by lia. do 2 f_equal. lia.
Qed.

(** Reading past the chain. *)
Lemma map_end steps rel mode v s fnp c cs x :
  mounted v s -> f_dpb fnp = p -> chain g v c (cs ++ [x]) -> f_cluster fnp = x -> f_cluster_offset fnp <> rel ->
  exists s', evolves v s v s' /\ map_loop cf (Datatypes.S steps) rel mode fnp s =
    if mode =? XFR_READ then Some (DE_SEEK, fnp, s')
    else let* (cluster, fnp, s) := extend cf (Datatypes.S steps) fnp s' in
         if cluster =? LONG_LAST_CLUSTER then Some (DE_HNDLDSKFULL, fnp, s)
         else map_loop cf steps rel mode (with_f_pos (u32 (f_cluster_offset fnp + 1)) cluster fnp) s.
Proof.
  intros Hm Hp Hc Ef Hne. cbn [map_loop]. rewrite Ef, Hp, (proj2 (Z.eqb_neq _ rel)) by done.
  destruct (fat_get v s x Hm) as (s1 & -> & Hev & _). exists s1. split; [done|].
  rewrite next_at_last by (by eapply chain_end). change (LONG_LAST_CLUSTER <=? 1) with false. rewrite Z.eqb_refl.
  cbn [andb]. by destruct (mode =? XFR_READ).
Qed.

(** A chain is not longer than the volume. *)
Lemma chain_length v c cs : volume_ok primary g -> chain g v c cs -> Z.of_nat (length cs) < max_cluster g.
Proof.
  intros Hv Hc. pose proof (v_max _ _ Hv) as Hmx. pose proof (chain_NoDup _ _ Hv _ Hc) as Hnd.
  assert (Hsub : cs ⊆+ seqZ 2 (max_cluster g - 1)).
  { apply NoDup_submseteq; [done|]. intros x Hx. apply elem_of_seqZ. pose proof (chain_range _ _ _ _ Hc Hx). lia. }
  apply submseteq_length in Hsub. rewrite length_seqZ in Hsub. lia.
Qed.

Lemma lookup_last_snoc {A} (cs : list A) k x :
  cs !! k = Some x -> cs !! Datatypes.S k = None -> exists l, cs = l ++ [x] /\ length l = k.
Proof.
  intros Hx Hn. apply lookup_ge_None in Hn. pose proof (lookup_lt_Some _ _ _ Hx).
  exists (take k cs). split; [|rewrite length_take; lia].
  rewrite <- (take_drop_middle cs k x Hx) at 1. by rewrite drop_ge by lia.
Qed.

(** The search in a reading position. *)
Lemma map_loop_read n : forall steps v s fnp c cs k x rel,
  mounted v s -> f_dpb fnp = p -> chain g v c cs -> cs !! k = Some x ->
  f_cluster fnp = x -> f_cluster_offset fnp = Z.of_nat k -> rel = Z.of_nat (k + n) -> (length cs < k + steps)%nat ->
  exists rc fnp' s', map_loop cf steps rel XFR_READ fnp s = Some (rc, fnp', s') /\ evolves v s v s' /\
    match cs !! (k + n)%nat with
    | Some y => rc = SUCCESS /\ fnp' = with_f_pos rel y fnp
    | None => rc = DE_SEEK /\ exists l y, cs = l ++ [y] /\ fnp' = with_f_pos (Z.of_nat (length l)) y fnp
    end.
Proof.
  induction n as [|n IH]; intros steps v s fnp c cs k x rel Hm Hp Hc Hx Ef Eo Erel Hl;
    pose proof (lookup_lt_Some _ _ _ Hx) as Hk; (destruct steps as [|steps]; [lia|]);
    pose proof (m_vol _ _ Hm) as Hv; pose proof (chain_length _ _ _ Hv Hc) as Hlen; pose proof (v_max _ _ Hv) as Hmx;
    unfold LONG_BAD in Hmx.
  - rewrite Nat.add_0_r in *. subst rel. exists SUCCESS, fnp, s. cbn [map_loop]. rewrite Eo, Z.eqb_refl.
    split; [done|]. split; [by apply evolves_refl|]. rewrite Hx. split; [done|]. rewrite <- Eo, <- Ef. by destruct fnp.
  - replace (k + Datatypes.S n)%nat with (Datatypes.S k + n)%nat in * by lia.
    destruct (cs !! Datatypes.S k) as [y|] eqn:Ey.
    + destruct (map_step steps rel XFR_READ v s fnp c cs k x y) as (s1 & -> & Hev1); try done; [lia|lia|].
      destruct (IH steps v s1 (with_f_pos (Z.of_nat (Datatypes.S k)) y fnp) c cs (Datatypes.S k) y rel)
        as (rc & fnp' & s2 & -> & Hev2 & Hres); try done; [apply Hev1|lia|].
      exists rc, fnp', s2. split; [done|]. split; [by eapply evolves_trans|done].
    + rewrite (lookup_ge_None_2 cs (Datatypes.S k + n)) by (apply lookup_ge_None in Ey; lia).
      destruct (lookup_last_snoc cs k x Hx Ey) as (l & -> & El).
      destruct (map_end steps rel XFR_READ v s fnp c l x) as (s1 & Hev1 & ->); try done; [lia|].
      exists DE_SEEK, fnp, s1. split; [done|]. split; [done|]. split; [done|]. exists l, x. split; [done|].
      rewrite El, <- Eo, <- Ef. by destruct fnp.
Qed.

(** The search in a writing position: the chain grows as far as it has to. *)
Lemma map_loop_write n : forall steps v s fnp c cs k x rel,
  mounted v s -> f_dpb fnp = p -> chain g v c cs -> cs !! k = Some x ->
  f_cluster fnp = x -> f_cluster_offset fnp = Z.of_nat k -> rel = Z.of_nat (k + n) ->
  (Z.to_nat (max_cluster g) + n <= steps)%nat -> rel < 4294967296 ->
  exists rc fnp' news v' s', map_loop cf steps rel XFR_WRITE fnp s = Some (rc, fnp', s') /\ evolves v s v' s' /\
    grown v v' c cs news /\
    (rc = SUCCESS /\ (length (cs ++ news) = Nat.max (length cs) (k + n + 1))%nat /\
       (exists y, (cs ++ news) !! (k + n)%nat = Some y /\ fnp' = with_f_pos rel y fnp) \/
     rc = DE_HNDLDSKFULL /\ none_free v' /\ (length (cs ++ news) <= k + n)%nat /\
       exists l y, cs ++ news = l ++ [y] /\ fnp' = with_f_pos (Z.of_nat (length l)) y fnp).
Proof.
  induction n as [|n IH]; intros steps v s fnp c cs k x rel Hm Hp Hc Hx Ef Eo Erel Hl Hrel32;
    pose proof (lookup_lt_Some _ _ _ Hx) as Hk;
    pose proof (m_vol _ _ Hm) as Hv; pose proof (chain_length _ _ _ Hv Hc) as Hlen; pose proof (v_max _ _ Hv) as Hmx;
    unfold LONG_BAD in Hmx; (destruct steps as [|steps]; [lia|]).
  - rewrite Nat.add_0_r in *. subst rel. exists SUCCESS, fnp, [], v, s. cbn [map_loop]. rewrite Eo, Z.eqb_refl.
    split; [done|]. split; [by apply evolves_refl|]. split; [by apply grown_refl|]. left. rewrite app_nil_r.
    split; [done|]. split; [lia|]. exists x. split; [done|]. rewrite <- Eo, <- Ef. by destruct fnp.
  - replace (k + Datatypes.S n)%nat with (Datatypes.S k + n)%nat in * by lia.
    destruct (cs !! Datatypes.S k) as [y|] eqn:Ey.
    + destruct (map_step steps rel XFR_WRITE v s fnp c cs k x y) as (s1 & -> & Hev1); try done; [lia|lia|].
      destruct (IH steps v s1 (with_f_pos (Z.of_nat (Datatypes.S k)) y fnp) c cs (Datatypes.S k) y rel)
        as (rc & fnp' & news & v2 & s2 & -> & Hev2 & Hg & Hres); try done; [apply Hev1|lia|].
      exists rc, fnp', news, v2, s2. split; [done|]. split; [by eapply evolves_trans|done].
    + destruct (lookup_last_snoc cs k x Hx Ey) as (l & -> & El).
      destruct (map_end steps rel XFR_WRITE v s fnp c l x) as (s1 & Hev1 & ->); try done; [lia|].
      change (XFR_WRITE =? XFR_READ) with false. cbv iota.
      assert (Hlast : F v x = LONG_LAST_CLUSTER) by (by eapply chain_end).
      assert (Hxr : 2 <= x <= max_cluster g) by (eapply chain_range; [exact Hc|]; apply elem_of_app; right; by left).
      destruct (extend_spec (Datatypes.S steps) v s1 fnp (ev_mounted _ _ _ _ Hev1) Hp ltac:(lia))
        as (i & fnp1 & v2 & s2 & -> & Hev2 & Hres); [right; by rewrite Ef|].
      assert (Hev : evolves v s v2 s2) by (by eapply evolves_trans).
      destruct Hres as [(-> & Hno & -> & Hf)|(Hi & Ha & Efnp)].
      * rewrite Z.eqb_refl. exists DE_HNDLDSKFULL, fnp, [], v2, s2. split; [done|]. split; [done|]. rewrite app_nil_r.
        assert (Hc2 : chain g v2 c (l ++ [x])) by (eapply chain_agree; [|exact Hc]; auto).
        split. { unfold grown. rewrite app_nil_r. split; [done|]. split; [by intros i ?%elem_of_nil|auto]. }
        right. split; [done|]. split; [intros m Hmr; rewrite Hf; by apply Hno|]. rewrite length_app in *. cbn [length].
        split; [lia|]. exists l, x. split; [done|]. rewrite El, <- Eo, <- Ef. by destruct fnp.
      * rewrite Ef, (proj2 (Z.eqb_neq x FREE)) in Efnp by (unfold FREE; lia). subst fnp1. rewrite Ef in Ha.
        destruct Hi as (Hir & Hifree & _).
        rewrite (proj2 (Z.eqb_neq i _)) by (unfold LONG_LAST_CLUSTER; lia).
        rewrite u32_id by lia. rewrite Eo. replace (Z.of_nat k + 1) with (Z.of_nat (Datatypes.S k)) by lia.
        pose proof (grown_append v v2 c l x i Hv Hc Hir Hifree Ha) as Hg1.
        destruct (IH steps v2 s2 (with_f_pos (Z.of_nat (Datatypes.S k)) i fnp) c ((l ++ [x]) ++ [i]) (Datatypes.S k) i rel)
          as (rc & fnp' & news & v3 & s3 & -> & Hev3 & Hg3 & Hres); try done.
        { apply Hev2. } { apply Hg1. }
        { apply list_lookup_middle. rewrite length_app, El. cbn. lia. } { lia. }
        exists rc, fnp', (i :: news), v3, s3. split; [done|]. split; [by eapply evolves_trans|].
        split; [by eapply grown_trans|]. rewrite cons_middle, (app_assoc (l ++ [x])).
        rewrite !length_app in *. cbn [length] in *.
        destruct Hres as [(H1 & H2 & H3)|Hres]; [left|by right]. split_and!; [done|lia|done].
Qed.

(** ** [map_cluster] *)

(** The first cluster of the file or directory. *)
Definition dstart (fnp : f_node) : Z :=
  if f_sft_idx fnp =? 0xff then dm_dircluster (f_dmp fnp) else getdstart g (f_dir fnp).

(** The node stands at a cluster of its chain [cs], or its file is empty. *)
Definition positioned (v : Z -> Z -> list Z) (fnp : f_node) (cs : list Z) : Prop :=
  chain g v (dstart fnp) cs /\ 0 <= f_cluster_offset fnp /\ cs !! Z.to_nat (f_cluster_offset fnp) = Some (f_cluster fnp).
Definition file_at (v : Z -> Z -> list Z) (fnp : f_node) (cs : list Z) : Prop :=
  cs = [] /\ f_cluster fnp = FREE /\ f_cluster_offset fnp = 0 \/ positioned v fnp cs.

Lemma getdstart_geom v s e : mounted v s -> getdstart (bc_dpb s p) e = getdstart g e.
Proof. intros [<- _ _ _ _ _ _ _]. done. Qed.

Lemma relcluster_geom v s o : mounted v s -> relcluster_of (bc_dpb s p) o = relcluster_of g o.
Proof. intros [<- _ _ _ _ _ _ _]. done. Qed.

(** The step back to the start of the chain. *)
Definition rewound (rel : Z) (fnp : f_node) : f_node :=
  if rel <? f_cluster_offset fnp then with_f_pos 0 (dstart fnp) fnp else fnp.

Lemma rewound_spec v rel fnp cs :
  positioned v fnp cs -> 0 <= rel -> exists k x, cs !! k = Some x /\ f_cluster (rewound rel fnp) = x /\
    f_cluster_offset (rewound rel fnp) = Z.of_nat k /\ Z.of_nat k <= rel /\ f_dpb (rewound rel fnp) = f_dpb fnp /\
    forall o y, with_f_pos o y (rewound rel fnp) = with_f_pos o y fnp.
Proof.
  intros (Hc & Ho & Hx) Hr. unfold rewound. destruct (Z.ltb_spec rel (f_cluster_offset fnp)).
  - destruct cs as [|x cs]; [by rewrite lookup_nil in Hx|]. exists 0%nat, x. destruct Hc as (E & _).
    split_and!; try done.
  - exists (Z.to_nat (f_cluster_offset fnp)), (f_cluster fnp). split_and!; try done; lia.
Qed.

Lemma relcluster_range o : volume_ok primary g -> 0 <= o -> 0 <= dpb_shftcnt g -> 0 <= relcluster_of g o <= o.
Proof.
  intros Hv Ho Hs. unfold relcluster_of. rewrite Z.shiftr_div_pow2, (v_secsize _ _ Hv) by done.
  assert (0 < 2 ^ dpb_shftcnt g) by (by apply Z.pow_pos_nonneg).
  assert (0 <= o / 512 <= o) by (Z.div_mod_to_equations; lia).
  split; [apply Z.div_pos; lia|]. etransitivity; [apply Z.div_le_upper_bound with (q := o / 512)|]; [done|nia|lia].
Qed.

Lemma map_cluster_nonempty steps fnp mode v s :
  mounted v s -> f_dpb fnp = p -> f_cluster fnp <> FREE ->
  map_cluster cf steps fnp mode s =
    map_loop cf steps (relcluster_of g (f_offset fnp)) mode (rewound (relcluster_of g (f_offset fnp)) fnp) s.
Proof.
  intros Hm Hp Hne. unfold map_cluster. rewrite (proj2 (Z.eqb_neq _ FREE)) by done.
  change (negb (SUCCESS =? SUCCESS)) with false. cbv iota zeta. rewrite Hp.
  rewrite (relcluster_geom v s _ Hm), (getdstart_geom v s _ Hm). done.
Qed.

Lemma positioned_cluster v fnp cs : volume_ok primary g -> positioned v fnp cs -> 2 <= f_cluster fnp <= max_cluster g.
Proof. intros Hv (Hc & _ & Hx). eapply chain_range; [exact Hc|]. by eapply list_elem_of_lookup_2. Qed.

Lemma map_cluster_read_spec steps v s fnp cs :
  mounted v s -> f_dpb fnp = p -> positioned v fnp cs -> 0 <= f_offset fnp -> 0 <= dpb_shftcnt g ->
  (Z.to_nat (max_cluster g) <= steps)%nat ->
  let rel := relcluster_of g (f_offset fnp) in
  exists rc fnp' s', map_cluster cf steps fnp XFR_READ s = Some (rc, fnp', s') /\ evolves v s v s' /\
    match cs !! Z.to_nat rel with
    | Some y => rc = SUCCESS /\ fnp' = with_f_pos rel y fnp
    | None => rc = DE_SEEK /\ exists l y, cs = l ++ [y] /\ fnp' = with_f_pos (Z.of_nat (length l)) y fnp
    end.
Proof.
  cbv zeta. intros Hm Hp Hpos Ho Hs Hsteps. pose proof (m_vol _ _ Hm) as Hv. set (rel := relcluster_of g (f_offset fnp)).
  pose proof (relcluster_range _ Hv Ho Hs) as Hrg. fold rel in Hrg.
  pose proof (positioned_cluster _ _ _ Hv Hpos) as Hcl. pose proof (chain_length _ _ _ Hv (proj1 Hpos)) as Hlen.
  rewrite (map_cluster_nonempty _ _ _ v s) by (done || unfold FREE; lia). fold rel.
  destruct (rewound_spec v rel fnp cs Hpos ltac:(lia)) as (k & x & Hx & Ef & Eo & Hk & Hd & Hw).
  destruct (map_loop_read (Z.to_nat rel - k) steps v s (rewound rel fnp) (dstart fnp) cs k x rel)
    as (rc & fnp' & s' & -> & Hev & Hres); try done; [by rewrite Hd|apply Hpos|lia|lia|].
  exists rc, fnp', s'. split; [done|]. split; [done|].
  replace (k + (Z.to_nat rel - k))%nat with (Z.to_nat rel) in Hres by lia.
  destruct (cs !! Z.to_nat rel); [by rewrite <- Hw|]. destruct Hres as (? & l & y & ? & ->). split; [done|].
  exists l, y. by rewrite <- Hw.
Qed.

(** The parts of a node that [map_cluster] keeps; the entry's start cluster is set
    when the file leaves the empty state. *)
Definition same_node (cs : list Z) (fnp fnp' : f_node) : Prop :=
  f_offset fnp' = f_offset fnp /\ f_dpb fnp' = f_dpb fnp /\ f_sft_idx fnp' = f_sft_idx fnp /\
  f_flags fnp' = f_flags fnp /\ f_dmp fnp' = f_dmp fnp /\ dir_size (f_dir fnp') = dir_size (f_dir fnp) /\
  (cs <> [] -> f_dir fnp' = f_dir fnp).

(** What the writing mode promises for a target cluster index [rel]. *)
Definition mapped (v v' : Z -> Z -> list Z) (fnp fnp' : f_node) (cs news : list Z) (rel rc : Z) : Prop :=
  file_at v' fnp' (cs ++ news) /\ same_node cs fnp fnp' /\
  (forall i, i ∈ news -> F v i = FREE) /\ (forall m, m ∉ cs ++ news -> F v' m = F v m) /\
  (rc = SUCCESS /\ f_cluster_offset fnp' = rel /\
     Z.of_nat (length (cs ++ news)) = Z.max (Z.of_nat (length cs)) (rel + 1) \/
   rc = DE_HNDLDSKFULL /\ none_free v' /\ Z.of_nat (length (cs ++ news)) <= rel).

Lemma same_node_pos cs o c fnp : same_node cs fnp (with_f_pos o c fnp).
Proof. by split_and!. Qed.

(** From a node at a cluster of its chain. *)
Lemma map_write_nonempty steps v s fnp cs rel :
  mounted v s -> f_dpb fnp = p -> positioned v fnp cs -> 0 <= rel < 4294967296 ->
  (Z.to_nat (max_cluster g) + Z.to_nat rel <= steps)%nat ->
  exists rc fnp' news v' s', map_loop cf steps rel XFR_WRITE (rewound rel fnp) s = Some (rc, fnp', s') /\
    evolves v s v' s' /\ mapped v v' fnp fnp' cs news rel rc.
Proof.
  intros Hm Hp Hpos Hr Hsteps. pose proof (m_vol _ _ Hm) as Hv.
  destruct (rewound_spec v rel fnp cs Hpos ltac:(lia)) as (k & x & Hx & Ef & Eo & Hk & Hd & Hw).
  destruct (map_loop_write (Z.to_nat rel - k) steps v s (rewound rel fnp) (dstart fnp) cs k x rel)
    as (rc & fnp' & news & v' & s' & -> & Hev & (Hc & Hfree & Hsame) & Hres); try done; [by rewrite Hd|apply Hpos|lia|lia|lia|].
  exists rc, fnp', news, v', s'. split; [done|]. split; [done|].
  replace (k + (Z.to_nat rel - k))%nat with (Z.to_nat rel) in Hres by lia.
  assert (Hfnp : exists o y, fnp' = with_f_pos o y fnp /\ 0 <= o /\ (cs ++ news) !! Z.to_nat o = Some y).
  { destruct Hres as [(_ & _ & y & Hy & ->)|(_ & _ & _ & l & y & E & ->)]; rewrite Hw; eexists _, y; (split; [done|]).
    - split; [lia|done].
    - split; [lia|]. rewrite E, Nat2Z.id. by apply list_lookup_middle. }
  unfold mapped. destruct Hfnp as (o & y & Efnp & Ho & Hy).
  split; [right; rewrite Efnp; by split_and!|]. split; [rewrite Efnp; apply same_node_pos|]. split; [done|]. split; [done|].
  destruct Hres as [(? & Hlen & y' & Hy' & E)|(? & ? & ? & _)]; [left|right].
  - rewrite E, Hw. split; [done|]. split; [done|]. lia.
  - split; [done|]. split; [done|]. lia.
Qed.

Lemma map_cluster_write_spec steps v s fnp cs :
  mounted v s -> f_dpb fnp = p -> file_at v fnp cs -> (cs = [] -> f_sft_idx fnp <> 0xff) ->
  0 <= f_offset fnp < 4294967296 -> 0 <= dpb_shftcnt g ->
  let rel := relcluster_of g (f_offset fnp) in
  (Z.to_nat (max_cluster g) + Z.to_nat rel <= steps)%nat ->
  exists rc fnp' news v' s', map_cluster cf steps fnp XFR_WRITE s = Some (rc, fnp', s') /\
    evolves v s v' s' /\ mapped v v' fnp fnp' cs news rel rc.
Proof.
  cbv zeta. intros Hm Hp Hfile Hsft Ho Hs Hsteps. pose proof (m_vol _ _ Hm) as Hv.
  pose proof (v_max _ _ Hv) as Hmx. unfold LONG_BAD in Hmx.
  set (rel := relcluster_of g (f_offset fnp)) in *.
  pose proof (relcluster_range (f_offset fnp) Hv ltac:(lia) Hs) as Hrg. fold rel in Hrg.
  destruct Hfile as [(-> & Ec & Eo)|Hpos].
  2: { pose proof (positioned_cluster _ _ _ Hv Hpos). rewrite (map_cluster_nonempty _ _ _ v s) by (done || unfold FREE; lia).
       fold rel. apply map_write_nonempty; (done || lia). }
  unfold map_cluster. rewrite Ec, Z.eqb_refl. change (XFR_WRITE =? XFR_READ) with false. cbv iota.
  destruct (extend_spec steps v s fnp Hm Hp ltac:(lia) (or_introl Ec)) as (i & fnp1 & v1 & s1 & -> & Hev1 & Hres).
  rewrite Ec in Hres. destruct Hres as [(-> & Hno & -> & Hf)|((Hir & Hifree & _) & Ha & ->)].
  - rewrite Z.eqb_refl. eexists DE_HNDLDSKFULL, fnp, [], v1, s1. split; [reflexivity|]. split; [done|].
    split; [by left|]. split; [by split_and!|]. split; [by intros i ?%elem_of_nil|]. split; [auto|].
    right. split; [done|]. split; [intros m Hmr; rewrite Hf; by apply Hno|]. cbn. lia.
  - rewrite Z.eqb_refl. rewrite (proj2 (Z.eqb_neq i _)) by (unfold LONG_LAST_CLUSTER; lia).
    change (negb (SUCCESS =? SUCCESS)) with false. cbv iota zeta.
    set (fnp2 := with_f_pos _ i _).
    assert (Hst : dstart fnp2 = i).
    { unfold dstart. cbn [f_sft_idx fnp2 with_f_pos with_f_dir f_dir]. rewrite (proj2 (Z.eqb_neq _ 0xff)) by auto.
      apply setdstart_getdstart. destruct (ISFAT32 g) eqn:E32; [lia|].
      rewrite <- (small_cluster i Hv E32 Hir). pose proof (u16_range i). lia. }
    assert (Hpos2 : positioned v1 fnp2 [i]).
    { unfold positioned. rewrite Hst. cbn [f_cluster_offset f_cluster fnp2 with_f_pos with_f_dir]. rewrite Eo.
      split_and!; try done. cbn. rewrite (Ha i), decide_True by done. done. }
    change (f_dpb fnp2) with (f_dpb fnp). change (f_offset fnp2) with (f_offset fnp). rewrite Hp.
    rewrite (relcluster_geom v1 s1 _ (ev_mounted _ _ _ _ Hev1)), (getdstart_geom v1 s1 _ (ev_mounted _ _ _ _ Hev1)).
    fold rel. change (if rel <? _ then _ else _) with (rewound rel fnp2).
    destruct (map_write_nonempty steps v1 s1 fnp2 [i] rel) as (rc & fnp' & news & v2 & s2 & -> & Hev2 & Hmap);
      try done; [apply Hev1|lia|].
    exists rc, fnp', (i :: news), v2, s2. split; [done|]. split; [by eapply evolves_trans|].
    destruct Hmap as (Hf2 & (N1 & N2 & N3 & N4 & N5 & N6 & _) & Hfree2 & Hsame2 & Hres). cbn [app] in *.
    assert (Hfv1 : forall m, m <> i -> F v1 m = F v m).
    { intros m Hne. rewrite (Ha m), !decide_False; [done| |done]. by intros [_ ?]. }
    assert (Hnd : NoDup (i :: news)).
    { destruct Hf2 as [(? & _)|(Hc & _)]; [done|]. by eapply chain_NoDup. }
    apply list.NoDup_cons in Hnd as [Hni _].
    unfold mapped. cbn [app]. split; [done|]. split_and!; try done.
    + split_and!; try done. rewrite N6. unfold fnp2, setdstart. cbn. by destruct (ISFAT32 g).
    + intros j [->|Hj]%elem_of_cons; [done|]. rewrite <- (Hfree2 j Hj). symmetry. apply Hfv1. by intros ->.
    + intros m Hm'. rewrite Hsame2 by done. apply Hfv1. intros ->. apply Hm'. by left.
    + cbn [length] in *. destruct Hres as [(? & ? & ?)|(? & ? & ?)]; [left|right]; split_and!; try done; lia.
Qed.

(** ** Cutting a file *)

(** The number of clusters a file of the size keeps. *)
Definition clusters_for (size : Z) : nat :=
  if size =? 0 then 0%nat else Datatypes.S (Z.to_nat (relcluster_of g (size - 1))).

(** What cutting the chain [cs] to [n] clusters does. *)
Definition cut (v v' : Z -> Z -> list Z) (cs : list Z) (n : nat) (fnp fnp' : f_node) : Prop :=
  file_at v' fnp' (take n cs) /\
  (forall m, F v' m = if decide (m ∈ drop n cs) then FREE
                      else if decide ((0 < n)%nat /\ cs !! (n - 1)%nat = Some m) then LONG_LAST_CLUSTER else F v m) /\
  (n = 0%nat -> f_sft_idx fnp <> 0xff -> cs <> [] -> getdstart g (f_dir fnp') = FREE) /\
  f_offset fnp' = f_offset fnp /\ f_dpb fnp' = f_dpb fnp /\ f_sft_idx fnp' = f_sft_idx fnp /\
  dir_size (f_dir fnp') = dir_size (f_dir fnp).

(** The image is on the medium. *)
Definition durable (v : Z -> Z -> list Z) (s : S) : Prop :=
  forall n, primary (dpb_unit g) n -> bc_disk s (dpb_unit g) n = v (dpb_unit g) n.

Lemma flush_mounted v s :
  mounted v s -> exists s', bc_flush cf (dpb_unit (bc_dpb s p)) s = Some (true, s') /\ evolves v s v s' /\ durable v s'.
Proof.
  intros Hm. pose proof Hm as [Hg [l Hr] _ _ _ _ _ _].
  destruct (bc_flushed cf s l v (dpb_unit (bc_dpb s p)) Hr) as (ok & s' & Hf & Hd & Hu & Hok & Hdone).
  rewrite (Hok Hrel) in Hf. destruct (Hdone (Hok Hrel)) as [Hr' Hdisk]. exists s'. split; [done|]. split.
  - by eapply mounted_same.
  - intros n Hn. rewrite <- Hg in *. by apply Hdisk.
Qed.

(** Linking the last kept cluster and freeing the rest. *)
Lemma cut_tail steps v s c l x r last :
  mounted v s -> chain g v c (l ++ x :: r) -> last = FREE \/ last = LONG_LAST_CLUSTER -> (length r <= steps)%nat ->
  exists s1 v2 s2, link_fat cf p x last s = Some (SUCCESS, s1) /\ wipe_out_clusters cf steps p (F v x) s1 = Some s2 /\
    evolves v s v2 s2 /\
    forall m, F v2 m = if decide (m ∈ r) then FREE else if decide (m = x) then last else F v m.
Proof.
  intros Hm Hc Hlast Hl. pose proof (m_vol _ _ Hm) as Hv. pose proof (chain_NoDup _ _ Hv _ Hc) as Hnd.
  apply list.NoDup_app in Hnd as (_ & _ & [Hx _]%list.NoDup_cons).
  apply chain_app in Hc as (_ & Hr & Hc).
  destruct (fat_set v s x last Hm Hr) as (v1 & s1 & Hlk & Hev1 & Hf1 & _); [destruct Hlast; [by left|by right; right]|].
  destruct (wipe_out_clusters_chain steps v1 s1 (F v x) r (ev_mounted _ _ _ _ Hev1)) as (v2 & s2 & Hw & Hev2 & Hf2).
  { eapply chain_agree; [|exact Hc]. intros y Hy. rewrite Hf1, decide_False; [done|]. by intros ->. }
  { done. }
  exists s1, v2, s2. split; [done|]. split; [done|]. split; [by eapply evolves_trans|].
  intros m. by rewrite Hf2, Hf1.
Qed.

(** The part of the chain that stays. *)
Lemma chain_take v v' c l x r :
  volume_ok primary g -> chain g v c (l ++ x :: r) -> NoDup (l ++ x :: r) ->
  (forall m, F v' m = if decide (m ∈ r) then FREE else if decide (m = x) then LONG_LAST_CLUSTER else F v m) ->
  chain g v' c (l ++ [x]).
Proof.
  intros Hv. revert c. induction l as [|y l IH]; intros c Hc Hnd Hf.
  - destruct Hc as (-> & Hr & _). apply list.NoDup_cons in Hnd as [Hx _]. apply chain_cons. split; [done|]. split; [done|].
    by rewrite Hf, decide_False, decide_True.
  - destruct Hc as (-> & Hr & Hc). cbn [app] in *. apply list.NoDup_cons in Hnd as [Hy Hnd].
    rewrite elem_of_app, elem_of_cons in Hy. apply chain_cons. split; [done|]. split; [done|].
    rewrite Hf, decide_False, decide_False by tauto. by apply IH.
Qed.

Lemma shrink_file_spec steps v s fnp cs :
  mounted v s -> f_dpb fnp = p -> file_at v fnp cs -> f_sft_idx fnp <> 0xff ->
  0 <= f_offset fnp -> 0 <= dpb_shftcnt g -> dir_size (f_dir fnp) = f_offset fnp ->
  (clusters_for (f_offset fnp) <= length cs)%nat -> (Z.to_nat (max_cluster g) <= steps)%nat ->
  exists fnp' v' s', shrink_file cf steps fnp s = Some (SUCCESS, fnp', s') /\ evolves v s v' s' /\
    cut v v' cs (clusters_for (f_offset fnp)) fnp fnp' /\
    (drop (clusters_for (f_offset fnp)) cs <> [] -> durable v' s').
Proof.
  intros Hm Hp Hfile Hsft Ho Hs Hsize Hkeep Hsteps. pose proof (m_vol _ _ Hm) as Hv.
  pose proof (v_max _ _ Hv) as Hmx. unfold LONG_BAD in Hmx. unfold shrink_file, shrink_body. cbv zeta.
  destruct Hfile as [(-> & Ec & Eo)|Hpos].
  { assert (f_offset fnp = 0) as E0.
    { unfold clusters_for in Hkeep. destruct (Z.eqb_spec (f_offset fnp) 0); [done|]. cbn in Hkeep. lia. }
    rewrite E0, Ec. cbn [Z.eqb andb FREE]. eexists _, v, s. split; [reflexivity|]. split; [by apply evolves_refl|].
    unfold cut, clusters_for. cbn [Z.eqb drop take]. split; [|done]. split; [by left|]. split.
    - intros m. rewrite decide_False by (by intros ?%elem_of_nil). rewrite decide_False; [done|]. intros [? _]; lia.
    - by split_and!. }
  pose proof (positioned_cluster _ _ _ Hv Hpos) as Hcl. pose proof (chain_length _ _ _ Hv (proj1 Hpos)) as Hlen.
  rewrite (proj2 (Z.eqb_neq (f_cluster fnp) FREE)), andb_false_r by (unfold FREE; lia).
  set (o0 := if f_offset fnp =? 0 then 0 else f_offset fnp - 1).
  assert ((if negb (f_offset fnp =? 0) then with_f_offset (f_offset fnp - 1) fnp else fnp) = with_f_offset o0 fnp) as ->.
  { unfold o0. destruct (Z.eqb_spec (f_offset fnp) 0) as [E|E]; [|done]. cbn [negb]. rewrite <- E. by destruct fnp. }
  assert (Ho0 : 0 <= o0) by (unfold o0; case_bool; lia).
  destruct (map_cluster_read_spec steps v s (with_f_offset o0 fnp) cs) as (rc & fnp1 & s1 & -> & Hev1 & Hres); try done.
  cbn [f_offset with_f_offset] in Hres. set (rel := relcluster_of g o0) in *.
  pose proof (relcluster_range o0 Hv Ho0 Hs) as Hrg. fold rel in Hrg.
  assert (Hcs : (0 < length cs)%nat) by (destruct Hpos as (_ & _ & Hx); apply lookup_lt_Some in Hx; lia).
  assert (Hk : (Z.to_nat rel < length cs)%nat /\
    clusters_for (f_offset fnp) = if f_offset fnp =? 0 then 0%nat else Datatypes.S (Z.to_nat rel)).
  { unfold clusters_for in *. unfold rel, o0 in *. destruct (f_offset fnp =? 0); [|split; [lia|done]]. split; [lia|done]. }
  destruct Hk as [Hk Hn]. rewrite Hn in *.
  destruct (lookup_lt_is_Some_2 cs _ Hk) as [y Hy]. rewrite Hy in Hres. destruct Hres as [-> ->].
  change (negb (SUCCESS =? SUCCESS)) with false. cbv iota. cbn [f_cluster with_f_pos f_dir with_f_offset].
  rewrite Hp. destruct (fat_get v s1 y (ev_mounted _ _ _ _ Hev1)) as (s2 & -> & Hev2 & Hd2).
  set (k := Z.to_nat rel) in *. pose proof (take_drop_middle cs k y Hy) as Ecs.
  pose proof (proj1 Hpos) as Hc. rewrite <- Ecs in Hc. set (r := drop (Datatypes.S k) cs) in *.
  pose proof (chain_app _ _ _ _ _ Hc) as Hcy. rewrite (chain_next v y r Hv Hcy).
  pose proof (chain_next_settable _ _ _ Hcy) as Hset.
  rewrite (proj2 (Z.leb_gt _ 1)) by (unfold LONG_LAST_CLUSTER in Hset; lia).
  assert (Hrl : (length r <= steps)%nat) by (unfold r; rewrite length_drop; lia).
  assert (Hev02 : evolves v s v s2) by (by eapply evolves_trans).
  pose proof (ev_mounted _ _ _ _ Hev02) as Hm2. rewrite Hsize.
  destruct (Z.eqb_spec (f_offset fnp) 0) as [E0|E0]; cbn [negb andb].
  - (* the file becomes empty *)
    destruct (cut_tail steps v s2 _ _ y r FREE Hm2 Hc (or_introl eq_refl) Hrl) as (s3 & v4 & s4 & -> & Hw & Hev4 & Hf4).
    change (negb (SUCCESS =? SUCCESS)) with false. cbv iota. rewrite Hw. cbn [f_dpb].
    destruct (flush_mounted v4 s4 (ev_mounted _ _ _ _ Hev4)) as (s5 & -> & Hev5 & Hdur).
    eexists _, v4, s5. split; [reflexivity|]. split; [eapply evolves_trans; [exact Hev02|]; by eapply evolves_trans|].
    cbn [take drop]. assert (rel = 0) as Erel by (assert (o0 = 0) by (unfold o0; try rewrite E0; done); lia).
    split; [|done]. split; [left; by rewrite Erel|]. split; [|split_and!; try done].
    + intros m. rewrite Hf4. rewrite (decide_False (P := (0 < 0)%nat /\ _)) by (intros [? _]; lia).
      assert (k = 0%nat) as Ek by lia. rewrite Ek in Ecs. rewrite <- Ecs.
      change (drop 0 (take 0 cs ++ y :: r)) with (y :: r).
      destruct (decide (m ∈ r)) as [Hi|Hi]; [by rewrite decide_True by (by right)|].
      destruct (decide (m = y)) as [->|Hmy]; [by rewrite decide_True by (by left)|].
      by rewrite decide_False by (rewrite elem_of_cons; tauto).
    + intros _ _ _. cbn [f_dir with_f_offset with_f_dir]. rewrite (setdstart_geom v s2 _ _ Hm2).
      apply setdstart_getdstart. destruct (ISFAT32 g); unfold FREE; lia.
    + cbn. unfold setdstart. by destruct (ISFAT32 _).
  - destruct (Z.eqb_spec (F v y) LONG_LAST_CLUSTER) as [El|El].
    + (* the file ends here already *)
      assert (r = []) as Er.
      { destruct Hcy as (_ & _ & Hcr). rewrite El in Hcr. by eapply chain_unique. }
      eexists _, v, s2. split; [reflexivity|]. split; [done|]. fold r. rewrite Er. split; [|done].
      assert (Et : take (Datatypes.S k) cs = cs) by (apply take_ge; apply (f_equal length) in Er; unfold r in Er;
        rewrite length_drop in Er; cbn in Er; lia).
      split; [|split; [|by split_and!]].
      * right. rewrite Et. split; [exact (proj1 Hpos)|]. split; [cbn; lia|]. exact Hy.
      * intros m. rewrite decide_False by (fold r; rewrite Er; by intros ?%elem_of_nil). case_decide as Hd; [|done].
        destruct Hd as [_ Hd]. cbn [Nat.sub] in Hd. rewrite Nat.sub_0_r, Hy in Hd. by injection Hd as <-.
    + destruct (cut_tail steps v s2 _ _ y r LONG_LAST_CLUSTER Hm2 Hc (or_intror eq_refl) Hrl)
        as (s3 & v4 & s4 & -> & Hw & Hev4 & Hf4).
      change (negb (SUCCESS =? SUCCESS)) with false. cbv iota. rewrite Hw. cbn [f_dpb].
      destruct (flush_mounted v4 s4 (ev_mounted _ _ _ _ Hev4)) as (s5 & -> & Hev5 & Hdur).
      eexists _, v4, s5. split; [reflexivity|]. split; [eapply evolves_trans; [exact Hev02|]; by eapply evolves_trans|].
      fold r. split; [|done]. pose proof (chain_NoDup _ _ Hv _ Hc) as Hnd.
      split; [|split; [|by split_and!]].
      * right. rewrite (take_S_r cs k y Hy). split; [|split; [cbn; lia|]].
        -- apply (chain_take v v4 (dstart fnp) (take k cs) y r); done.
        -- cbn. fold k. apply list_lookup_middle. rewrite length_take. lia.
      * intros m. rewrite Hf4. cbn [Nat.sub]. rewrite Nat.sub_0_r, Hy. fold r.
        destruct (decide (m ∈ r)) as [Hi|Hi]; [done|].
        destruct (decide (m = y)) as [->|Hmy]; [by rewrite decide_True by (split; [lia|done])|].
        rewrite decide_False; [done|]. intros [_ [= E]]. by apply Hmy.
Qed.

(** ** Counting the free clusters *)

Definition free_between (v : Z -> Z -> list Z) (a n : Z) : Z :=
  Z.of_nat (length (filter (fun m => entry g v m = FREE) (seqZ a n))).

Lemma fat_at_free v m : 2 <= m <= max_cluster g -> (F v m =? FREE) = bool_decide (entry g v m = FREE).
Proof.
  intros Hm. unfold fat_at, in_range. rewrite (proj2 (Z.leb_le 2 m)), (proj2 (Z.leb_le m _)) by lia. cbn [andb].
  pose proof (decode_free g (entry g v m)). case_bool_decide; [by apply Z.eqb_eq; tauto|apply Z.eqb_neq; tauto].
Qed.

Lemma free_count_fat v v' : (forall m, F v' m = F v m) -> free_count g v' = free_count g v.
Proof.
  intros Hf. unfold free_count. f_equal. apply filter_length_same. intros m Hm%elem_of_seqZ.
  specialize (Hf m). unfold fat_at, in_range in Hf.
  rewrite (proj2 (Z.leb_le 2 m)), (proj2 (Z.leb_le m _)) in Hf by lia. cbn [andb] in Hf.
  by rewrite <- (decode_free g (entry g v' m)), Hf, decode_free.
Qed.

Lemma count_loop_spec n : forall steps v s i cnt,
  mounted v s -> 2 <= i -> i + Z.of_nat n = max_cluster g + 1 -> 0 <= cnt -> (n <= steps)%nat ->
  exists s', count_loop cf steps p (max_cluster g) i cnt s = Some (cnt + free_between v i (Z.of_nat n), s') /\ evolves v s v s'.
Proof.
  induction n as [|n IH]; intros steps v s i cnt Hm Hi Hn Hc Hl.
  - exists s. split; [|by apply evolves_refl]. assert (free_between v i (Z.of_nat 0) = 0) as -> by done.
    rewrite Z.add_0_r. destruct steps; cbn [count_loop]; by rewrite (proj2 (Z.leb_gt i _)) by lia.
  - destruct steps as [|steps]; [lia|]. cbn [count_loop]. rewrite (proj2 (Z.leb_le i _)) by lia. cbn [negb].
    destruct (fat_free v s i Hm) as (s1 & -> & Hev1 & Hd1). rewrite (fat_at_free v i) by lia.
    assert (Hf : free_between v i (Z.of_nat (Datatypes.S n)) =
      (if bool_decide (entry g v i = FREE) then 1 else 0) + free_between v (i + 1) (Z.of_nat n)).
    { unfold free_between. rewrite seqZ_cons by lia. rewrite filter_cons.
      replace (Z.of_nat (Datatypes.S n)) with (Z.succ (Z.of_nat n)) by lia. rewrite Z.pred_succ.
      change (Z.succ i) with (i + 1). case_bool_decide; [rewrite decide_True by done|rewrite decide_False by done]; cbn [length]; lia. }
    rewrite Hf. case_bool_decide.
    + destruct (cnt =? 0) eqn:E0.
      * pose proof (v_max _ _ (m_vol _ _ Hm)) as Hmx. unfold LONG_BAD in Hmx.
        assert (Hi2 : i = UNKNCLUSTER \/ 2 <= i <= max_cluster g) by (right; lia).
        pose proof (mounted_hint v s1 i (ev_mounted _ _ _ _ Hev1) Hi2) as Hev2.
        assert ((if ISFAT32 (bc_dpb s1 p) then set_xcluster i (bc_dpb s1 p) else set_cluster (u16 i) (bc_dpb s1 p))
          = with_hint i (bc_dpb s1 p)) as ->.
        { unfold with_hint. rewrite (fat32_geom v s1 (ev_mounted _ _ _ _ Hev1)). destruct (ISFAT32 g) eqn:E; [done|].
          rewrite small_cluster; [done|apply Hm|done|lia]. }
        destruct (IH steps v _ (i + 1) (cnt + 1) (ev_mounted _ _ _ _ Hev2)) as (s3 & -> & Hev3); [lia..|].
        exists s3. split; [do 2 f_equal; lia|]. eapply evolves_trans; [done|]. by eapply evolves_trans.
      * destruct (IH steps v s1 (i + 1) (cnt + 1) (ev_mounted _ _ _ _ Hev1)) as (s3 & -> & Hev3); [lia..|].
        exists s3. split; [do 2 f_equal; lia|]. by eapply evolves_trans.
    + destruct (IH steps v s1 (i + 1) cnt (ev_mounted _ _ _ _ Hev1)) as (s3 & -> & Hev3); [lia..|].
      exists s3. split; [do 2 f_equal; lia|]. by eapply evolves_trans.
Qed.

Lemma free_count_geom v s w : mounted v s -> free_count (bc_dpb s p) w = free_count g w.
Proof. intros [<- _ _ _ _ _ _ _]. done. Qed.

Lemma dos_free_spec steps v s :
  mounted v s -> (Z.to_nat (max_cluster g) <= steps)%nat ->
  exists v' s', dos_free cf steps p s = Some (free_count g v, s') /\ evolves v s v' s' /\
    (forall m, F v' m = F v m) /\ dpb_count (bc_dpb s' p) = free_count g v'.
Proof.
  intros Hm Hsteps. pose proof (m_vol _ _ Hm) as Hv. pose proof (v_max _ _ Hv) as Hmx. unfold LONG_BAD in Hmx.
  pose proof (fat32_geom v s Hm) as E32. pose proof (m_count _ _ Hm) as Hcnt.
  rewrite <- (free_count_geom v s v Hm). unfold dos_free. cbv zeta. rewrite E32.
  assert (Hknown : dpb_count (bc_dpb s p) <> unknown_count (bc_dpb s p) ->
    dpb_count (bc_dpb s p) = free_count (bc_dpb s p) v) by (by destruct Hcnt).
  assert (Hloop : (if ISFAT32 g then dpb_xsize (bc_dpb s p) else dpb_size (bc_dpb s p)) = max_cluster g)
    by (rewrite <- (max_geom v s Hm); unfold max_cluster; by rewrite E32).
  destruct (count_loop_spec (Z.to_nat (max_cluster g) - 1) steps v s 2 0 Hm) as (s1 & Hrun & Hev1); [lia..|].
  assert (free_between v 2 (Z.of_nat (Z.to_nat (max_cluster g) - 1)) = free_count g v) as Efb.
  { unfold free_between, free_count. by replace (Z.of_nat (Z.to_nat (max_cluster g) - 1)) with (max_cluster g - 1) by lia. }
  rewrite Efb, Z.add_0_l in Hrun. pose proof (ev_mounted _ _ _ _ Hev1) as Hm1.
  pose proof (fat32_geom v s1 Hm1) as E32'. pose proof (m_fsinfo _ _ Hm1) as (Hx1 & Hx2 & _).
  pose proof (free_count_bounds (primary := primary) g v Hv) as Hb.
  assert (Hset : forall k, 0 <= dpb_xnfreeclst (set_xnfreeclst k (bc_dpb s1 p)) < 4294967296 ->
    dpb_count (set_xnfreeclst k (bc_dpb s1 p)) = free_count g v ->
    evolves v s1 v (bc_set_dpb p (set_xnfreeclst k (bc_dpb s1 p)) s1)).
  { intros k Hk Hck. apply mounted_set; try done.
    - apply Hm1.
    - apply Hm1.
    - right. rewrite Hck. symmetry. apply (free_count_geom v s1 v Hm1). }
  destruct (ISFAT32 g) eqn:E; cbn [negb andb].
  - destruct (Z.eqb_spec (dpb_xnfreeclst (bc_dpb s p)) XUNKNCLSTFREE) as [Eu|Eu]; cbn [negb].
    + rewrite Hloop, Hrun. rewrite E32'.
      assert (Hck : dpb_count (set_xnfreeclst (free_count g v) (bc_dpb s1 p)) = free_count g v)
        by (unfold dpb_count; change (ISFAT32 (set_xnfreeclst _ _)) with (ISFAT32 (bc_dpb s1 p)); by rewrite E32').
      assert (Hfc : 0 <= dpb_xnfreeclst (set_xnfreeclst (free_count g v) (bc_dpb s1 p)) < 4294967296)
        by (cbn [dpb_xnfreeclst set_xnfreeclst]; lia).
      pose proof (Hset (free_count g v) Hfc Hck) as Hev2.
      destruct (mounted_fsinfo _ _ (ev_mounted _ _ _ _ Hev2)) as (v3 & s3 & -> & Hev3 & Hd3 & Hf3).
      exists v3, s3. rewrite (free_count_geom v s v Hm). split; [done|].
      split; [eapply evolves_trans; [done|]; by eapply evolves_trans|]. split; [done|].
      rewrite Hd3, bc_set_dpb_get, decide_True, Hck by done. symmetry. by apply free_count_fat.
    + exists v, s. unfold dpb_count in *. rewrite E32 in *. unfold unknown_count in Hknown. rewrite E32 in Hknown.
      rewrite (Hknown Eu). split; [done|]. split; [by apply evolves_refl|]. split; [done|]. by apply (free_count_geom v s v Hm).
  - destruct (Z.eqb_spec (dpb_nfreeclst (bc_dpb s p)) UNKNCLSTFREE) as [Eu|Eu]; cbn [negb].
    + rewrite Hloop, Hrun. rewrite E32'.
      assert (Hck : dpb_count (set_nfreeclst (u16 (free_count g v)) (bc_dpb s1 p)) = free_count g v).
      { unfold dpb_count. change (ISFAT32 (set_nfreeclst _ _)) with (ISFAT32 (bc_dpb s1 p)). rewrite E32', nfreeclst_set.
        pose proof (v_size _ _ Hv) as Hsz. unfold max_cluster, FAT_MAGIC16 in *. rewrite E in *.
        rewrite (u16_id (free_count g v)) by lia. apply u16_id. lia. }
      unfold set_nfreeclst in Hck |- *. set (w := Z.lor _ _) in *.
      assert (Hw : 0 <= dpb_xnfreeclst (set_xnfreeclst w (bc_dpb s1 p)) < 4294967296).
      { cbn. unfold w. rewrite Z.lor_comm, lor_shiftl, Z.shiftr_div_pow2 by (lia || apply u16_range).
        change (2 ^ 16) with 65536. pose proof (u16_range (u16 (free_count g v))). Z.div_mod_to_equations; lia. }
      pose proof (Hset w Hw Hck) as Hev2. exists v, (bc_set_dpb p (set_xnfreeclst w (bc_dpb s1 p)) s1).
      rewrite (free_count_geom v s v Hm). split; [done|]. split; [by eapply evolves_trans|]. split; [done|].
      by rewrite bc_set_dpb_get, decide_True.
    + exists v, s. unfold dpb_count in *. rewrite E32 in *. unfold unknown_count in Hknown. rewrite E32 in Hknown.
      rewrite (Hknown Eu). split; [done|]. split; [by apply evolves_refl|]. split; [done|]. by apply (free_count_geom v s v Hm).
Qed.
End cluster.
