(* ===== verification/ClusterThms.v ===== *)
(** * The properties of the operations on cluster chains

    The theorems on [wipe_out_clusters], [find_fat_free], [map_cluster],
    [shrink_file] and [dos_free], and a concrete FAT12 volume on which they
    apply. *)

From S2P Require Import Prelude Hdr Bytes Dpb Blockio BlockioSpec Fattab CacheSpec FattabSpec Fnode Cluster ClusterSpec.

Section properties.
  Context {S : Type} `{BlockCacheLaws S primary} (cf : nat) (p : Z) (g : dpb).

(** Deleting a chain of clusters frees exactly its clusters: their entries read
    as free, every other entry is as before; the DPB's free count and its hint
    are sound, and no block outside the FAT and the information sector changed. *)
Theorem wipe_out_clusters_correct steps v s c cs :
  bc_reliable (primary := primary) -> mounted cf p g v s -> chain g v c cs -> (length cs <= steps)%nat ->
  exists v' s', wipe_out_clusters cf steps p c s = Some s' /\ evolves cf p g v s v' s' /\
    forall m, fat_at g v' m = if decide (m ∈ cs) then FREE else fat_at g v m.
Proof. intros Hrel. by apply wipe_out_clusters_chain. Qed.

(** C40: Deletion ends on every FAT, also one with cycles or crossed chains, within
    as many turns as the volume has clusters, and changes entries only by freeing
    them. *)
Theorem wipe_out_clusters_stops steps v s c :
  bc_reliable (primary := primary) -> mounted cf p g v s -> (Z.to_nat (max_cluster g) <= steps)%nat ->
  exists v' s', wipe_out_clusters cf steps p c s = Some s' /\ evolves cf p g v s v' s' /\
    forall m, fat_at g v' m = fat_at g v m \/ fat_at g v' m = FREE.
Proof. intros Hrel. by apply wipe_out_clusters_any. Qed.

(** The search for a free cluster ends; it returns the first free one from the
    hint on, going round at the end of the volume, or the end marker when there is
    none at all; the FAT is as before and the hint is the cluster found. *)
Theorem find_fat_free_correct steps v s fnp :
  bc_reliable (primary := primary) -> mounted cf p g v s -> f_dpb fnp = p -> (Z.to_nat (max_cluster g) <= steps)%nat ->
  exists i v' s', find_fat_free cf steps fnp s = Some (i, s') /\ evolves cf p g v s v' s' /\
    (forall m, fat_at g v' m = fat_at g v m) /\
    (first_free g v (search_start (bc_dpb s p)) i /\ hint (bc_dpb s' p) = i \/
     i = LONG_LAST_CLUSTER /\ none_free g v /\ hint (bc_dpb s' p) = UNKNCLUSTER).
Proof. intros Hrel. by apply find_fat_free_spec. Qed.

(** Positioning for reading finds the cluster of the current offset: when the
    chain has that many clusters the node stands at it, else the error is DE_SEEK
    and the node stands at the last cluster; nothing on the volume changes. *)
Theorem map_cluster_read steps v s fnp cs :
  bc_reliable (primary := primary) -> mounted cf p g v s -> f_dpb fnp = p -> positioned g v fnp cs ->
  0 <= f_offset fnp -> 0 <= dpb_shftcnt g -> (Z.to_nat (max_cluster g) <= steps)%nat ->
  let rel := relcluster_of g (f_offset fnp) in
  exists rc fnp' s', map_cluster cf steps fnp XFR_READ s = Some (rc, fnp', s') /\ evolves cf p g v s v s' /\
    match cs !! Z.to_nat rel with
    | Some y => rc = SUCCESS /\ fnp' = with_f_pos rel y fnp
    | None => rc = DE_SEEK /\ exists l y, cs = l ++ [y] /\ fnp' = with_f_pos (Z.of_nat (length l)) y fnp
    end.
Proof. intros Hrel. by apply map_cluster_read_spec. Qed.

(** C36: Positioning for writing makes the file long enough: the chain keeps its
    clusters and grows by clusters that were free, until it has the cluster of the
    current offset, where the node then stands; other chains are untouched.  Only
    when no free cluster is left is the answer DE_HNDLDSKFULL, with the clusters
    there were still chained to the file. *)
Theorem map_cluster_write steps v s fnp cs :
  bc_reliable (primary := primary) -> mounted cf p g v s -> f_dpb fnp = p -> file_at g v fnp cs ->
  (cs = [] -> f_sft_idx fnp <> 0xff) -> 0 <= f_offset fnp < 4294967296 -> 0 <= dpb_shftcnt g ->
  let rel := relcluster_of g (f_offset fnp) in
  (Z.to_nat (max_cluster g) + Z.to_nat rel <= steps)%nat ->
  exists rc fnp' news v' s', map_cluster cf steps fnp XFR_WRITE s = Some (rc, fnp', s') /\
    evolves cf p g v s v' s' /\ mapped g v v' fnp fnp' cs news rel rc.
Proof. intros Hrel. by apply map_cluster_write_spec. Qed.

(** Truncation keeps the clusters a file of the new size needs and frees the
    rest of the chain; the last one kept ends the chain, a file of size 0 has no
    start cluster any more, the offset is restored, and the change is on the
    medium. *)
Theorem shrink_file_correct steps v s fnp cs :
  bc_reliable (primary := primary) -> mounted cf p g v s -> f_dpb fnp = p -> file_at g v fnp cs ->
  f_sft_idx fnp <> 0xff -> 0 <= f_offset fnp -> 0 <= dpb_shftcnt g -> dir_size (f_dir fnp) = f_offset fnp ->
  (clusters_for g (f_offset fnp) <= length cs)%nat -> (Z.to_nat (max_cluster g) <= steps)%nat ->
  exists fnp' v' s', shrink_file cf steps fnp s = Some (SUCCESS, fnp', s') /\ evolves cf p g v s v' s' /\
    cut g v v' cs (clusters_for g (f_offset fnp)) fnp fnp' /\
    (drop (clusters_for g (f_offset fnp)) cs <> [] -> durable g v' s').
Proof. intros Hrel. by apply shrink_file_spec. Qed.

(** The number of free clusters reported is the number of free entries of the
    FAT, counted or remembered, and is remembered afterwards. *)
Theorem dos_free_correct steps v s :
  bc_reliable (primary := primary) -> mounted cf p g v s -> (Z.to_nat (max_cluster g) <= steps)%nat ->
  exists v' s', dos_free cf steps p s = Some (free_count g v, s') /\ evolves cf p g v s v' s' /\
    (forall m, fat_at g v' m = fat_at g v m) /\ dpb_count (bc_dpb s' p) = free_count g v'.
Proof. intros Hrel. by apply dos_free_spec. Qed.

End properties.

(** ** The volume of [FattabSpec]

    Its clusters 2 and 341 are the chain of a file; a node stands at the first. *)

Definition vol_geom : dpb := geometry vol_dpb.

Definition vol_node (offset : Z) : f_node :=
  Fnode 0 (Dmatch 0 [] 0 0 0) (Dirent [] 0 0 0 0 0 0 0 0 0 2 offset) 0 0 77 offset 0 2 0.

Lemma vol_mounted : mounted (primary := vol_primary) 5 77 vol_geom vol_image vol_bio.
Proof.
  destruct vol_pre as (H1 & H2 & H3 & H4 & H5 & H6). rewrite vol_get in *. split.
  - by rewrite vol_get.
  - by eexists.
  - by apply volume_ok_geometry.
  - exact H3.
  - exact H4.
  - by rewrite vol_get.
  - rewrite vol_get. by left.
  - rewrite vol_get. right. by vm_compute.
Qed.

Lemma vol_chain : chain vol_geom vol_image 2 [2; 341].
Proof. by vm_compute. Qed.

Lemma vol_positioned o : positioned vol_geom vol_image (vol_node o) [2; 341].
Proof. split; [exact vol_chain|done]. Qed.

Lemma wipe_out_clusters_correct_witness :
  exists v' s', wipe_out_clusters 5 10 77 2 vol_bio = Some s' /\
    evolves (primary := vol_primary) 5 77 vol_geom vol_image vol_bio v' s' /\
    forall m, fat_at vol_geom v' m = if decide (m ∈ [2; 341]) then FREE else fat_at vol_geom vol_image m.
Proof.
  apply (wipe_out_clusters_correct (primary := vol_primary) 5 77 vol_geom 10 vol_image vol_bio 2 [2; 341]);
    [exact disk_reliable|exact vol_mounted|exact vol_chain|cbn; lia].
Defined.

Lemma wipe_out_clusters_stops_witness :
  exists v' s', wipe_out_clusters 5 400 77 2 vol_bio = Some s' /\
    evolves (primary := vol_primary) 5 77 vol_geom vol_image vol_bio v' s' /\
    forall m, fat_at vol_geom v' m = fat_at vol_geom vol_image m \/ fat_at vol_geom v' m = FREE.
Proof.
  apply (wipe_out_clusters_stops (primary := vol_primary) 5 77 vol_geom 400 vol_image vol_bio 2);
    [exact disk_reliable|exact vol_mounted|change (max_cluster vol_geom) with 400; lia].
Defined.

Lemma find_fat_free_correct_witness :
  exists i v' s', find_fat_free 5 400 (vol_node 0) vol_bio = Some (i, s') /\
    evolves (primary := vol_primary) 5 77 vol_geom vol_image vol_bio v' s' /\
    (forall m, fat_at vol_geom v' m = fat_at vol_geom vol_image m) /\
    (first_free vol_geom vol_image (search_start (bc_dpb vol_bio 77)) i /\ hint (bc_dpb s' 77) = i \/
     i = LONG_LAST_CLUSTER /\ none_free vol_geom vol_image /\ hint (bc_dpb s' 77) = UNKNCLUSTER).
Proof.
  apply (find_fat_free_correct (primary := vol_primary) 5 77 vol_geom 400 vol_image vol_bio (vol_node 0));
    [exact disk_reliable|exact vol_mounted|done|change (max_cluster vol_geom) with 400; lia].
Defined.

(** Offset 600 is in the second cluster. *)
Lemma map_cluster_read_witness :
  relcluster_of vol_geom 600 = 1 /\
  let rel := relcluster_of vol_geom 600 in
  exists rc fnp' s', map_cluster 5 400 (vol_node 600) XFR_READ vol_bio = Some (rc, fnp', s') /\
    evolves (primary := vol_primary) 5 77 vol_geom vol_image vol_bio vol_image s' /\
    match [2; 341] !! Z.to_nat rel with
    | Some y => rc = SUCCESS /\ fnp' = with_f_pos rel y (vol_node 600)
    | None => rc = DE_SEEK /\ exists l y, [2; 341] = l ++ [y] /\ fnp' = with_f_pos (Z.of_nat (length l)) y (vol_node 600)
    end.
Proof.
  split; [by vm_compute|].
  apply (map_cluster_read (primary := vol_primary) 5 77 vol_geom 400 vol_image vol_bio (vol_node 600) [2; 341]);
    [exact disk_reliable|exact vol_mounted|done|exact (vol_positioned 600)|done|done
    |change (max_cluster vol_geom) with 400; lia].
Defined.

(** Offset 2000 needs two more clusters. *)
Lemma map_cluster_write_witness :
  let rel := relcluster_of vol_geom 2000 in rel = 3 /\
  exists rc fnp' news v' s', map_cluster 5 500 (vol_node 2000) XFR_WRITE vol_bio = Some (rc, fnp', s') /\
    evolves (primary := vol_primary) 5 77 vol_geom vol_image vol_bio v' s' /\
    mapped vol_geom vol_image v' (vol_node 2000) fnp' [2; 341] news rel rc.
Proof.
  split; [by vm_compute|].
  apply (map_cluster_write (primary := vol_primary) 5 77 vol_geom 500 vol_image vol_bio (vol_node 2000) [2; 341]);
    [exact disk_reliable|exact vol_mounted|done|right; exact (vol_positioned 2000)|done|done|done
    |change (relcluster_of vol_geom _) with 3; change (max_cluster vol_geom) with 400; lia].
Defined.

(** Cut to 100 bytes: the second cluster goes. *)
Lemma shrink_file_correct_witness :
  clusters_for vol_geom 100 = 1%nat /\
  exists fnp' v' s', shrink_file 5 400 (vol_node 100) vol_bio = Some (SUCCESS, fnp', s') /\
    evolves (primary := vol_primary) 5 77 vol_geom vol_image vol_bio v' s' /\
    cut vol_geom vol_image v' [2; 341] (clusters_for vol_geom 100) (vol_node 100) fnp' /\
    (drop (clusters_for vol_geom 100) [2; 341] <> [] -> durable (primary := vol_primary) vol_geom v' s').
Proof.
  split; [by vm_compute|].
  apply (shrink_file_correct (primary := vol_primary) 5 77 vol_geom 400 vol_image vol_bio (vol_node 100) [2; 341]);
    [exact disk_reliable|exact vol_mounted|done|right; exact (vol_positioned 100)|done|done|done|done
    |change (clusters_for vol_geom _) with 1%nat; cbn; lia|change (max_cluster vol_geom) with 400; lia].
Defined.

Lemma dos_free_correct_witness :
  free_count vol_geom vol_image = 397 /\
  exists v' s', dos_free 5 400 77 vol_bio = Some (free_count vol_geom vol_image, s') /\
    evolves (primary := vol_primary) 5 77 vol_geom vol_image vol_bio v' s' /\
    (forall m, fat_at vol_geom v' m = fat_at vol_geom vol_image m) /\ dpb_count (bc_dpb s' 77) = free_count vol_geom v'.
Proof.
  split; [by vm_compute|].
  apply (dos_free_correct (primary := vol_primary) 5 77 vol_geom 400 vol_image vol_bio);
    [exact disk_reliable|exact vol_mounted|change (max_cluster vol_geom) with 400; lia].
Defined.
