(* ===== verification/Names.v ===== *)
(** * Names in directories ([kernel/fatdir.c], [kernel/fatfs.c])

    A name in a directory is 11 characters, padded with blanks; in a path it is
    written with a dot.  Characters are bytes. *)

From S2P Require Import Prelude Fnode.

(** kernel/fatfs.c:205-211 *)
Fixpoint fcmp_wild (s1 s2 : list Z) (n : nat) : bool :=
  match n with
  | O => true
  | S n' =>
      match s1, s2 with
      | c1 :: s1', c2 :: s2' =>
          if negb (c1 =? ch "?") && negb (c1 =? c2) then false else fcmp_wild s1' s2' n'
      | _, _ => false
      end
  end.

(** kernel/fatfs.c:271-274 *)
Definition fcbmatch (fcbname1 fcbname2 : list Z) : bool :=
  bool_decide (take (FNAME_SIZE + FEXT_SIZE) fcbname1 = take (FNAME_SIZE + FEXT_SIZE) fcbname2).

(** Swap internal and external delete flags.
    kernel/fatdir.c:139-143 *)
Definition swap_deleted (name : list Z) : list Z :=
  match name with
  | c :: l => if (c =? DELETED) || (c =? EXT_DELETED) then Z.lxor c (EXT_DELETED - DELETED) :: l else name
  | [] => name
  end.

(** The last place before [n] that is not blank, plus one.
    kernel/fatdir.c:423-427 *)
Fixpoint trimmed (l : list Z) (n : nat) : nat :=
  match n with
  | O => O
  | S n' => if nth n' l 0 =? 32 then trimmed l n' else n
  end.

(** The string without its NUL.
    kernel/fatdir.c:409-446 *)
Definition ConvertName83ToNameSZ (srcFCBName : list Z) : list Z :=
  let noExtension := nth 0 srcFCBName 0 =? ch "." in
  let name := take FNAME_SIZE srcFCBName in
  let ext := drop FNAME_SIZE srcFCBName in
  let base := take (trimmed name FNAME_SIZE) name in
  if noExtension then base
  else
    match trimmed ext FEXT_SIZE with
    | O => base
    | n => base ++ ch "." :: take n ext
    end.

(** The loop from [i]; a dot goes on with the extension.
    kernel/fatdir.c:470-479 *)
Fixpoint name83_loop (dirname : list Z) (i : nat) (fcbname : list Z) : list Z * list Z :=
  if (i <? FNAME_SIZE + FEXT_SIZE)%nat then
    match dirname with
    | c :: dirname' =>
        if c =? ch "." then name83_loop dirname' FNAME_SIZE fcbname
        else if negb (c =? ch "\") then name83_loop dirname' (i + 1) (<[i := c]> fcbname)
        else (fcbname, dirname)
    | [] => (fcbname, [])
    end
  else (fcbname, dirname).

(** The name, and the rest of the path.
    kernel/fatdir.c:465-481 *)
Definition ConvertNameSZToName83 (dirname : list Z) : list Z * list Z :=
  name83_loop dirname 0 (replicate (FNAME_SIZE + FEXT_SIZE) 32).
