(* ===== verification/NamesSpec.v ===== *)
(** * Names in directories: the two forms of a name *)

From S2P Require Import Prelude Fnode Names.

(** A part of a name: characters that are not separators, the last not blank. *)
Definition name_char (c : Z) : Prop := c <> 0 /\ c <> ch "." /\ c <> ch "\".
Definition ends_in_char (l : list Z) : Prop := match rev l with [] => True | c :: _ => c <> 32 end.
Definition part_ok (n : nat) (l : list Z) : Prop :=
  (length l <= n)%nat /\ Forall name_char l /\ ends_in_char l.

(** The name in a path and in a directory. *)
Definition sz_name (base ext : list Z) : list Z := base ++ (if bool_decide (ext = []) then [] else ch "." :: ext).
Definition pad (n : nat) (l : list Z) : list Z := l ++ replicate (n - length l) 32.
Definition fcb_name (base ext : list Z) : list Z := pad FNAME_SIZE base ++ pad FEXT_SIZE ext.

(** The rest of a path behind a name. *)
Definition path_rest (l : list Z) : Prop := match l with [] => True | c :: _ => c = ch "\" end.

Lemma pad_length n l : (length l <= n)%nat -> length (pad n l) = n.
Proof. intros H. unfold pad. rewrite length_app, length_replicate. lia. Qed.

Lemma trimmed_app l m n : (n <= length l)%nat -> trimmed (l ++ m) n = trimmed l n.
Proof.
  induction n as [|n IH]; intros H; [done|]. cbn. rewrite app_nth1 by lia. by rewrite IH by lia.
Qed.

Lemma trimmed_pad l k : ends_in_char l ->
  trimmed (l ++ replicate k 32) (length l + k) = length l.
Proof.
  intros Hl. induction k as [|k IH].
  - rewrite app_nil_r, Nat.add_0_r. destruct l as [|c l _] using rev_ind; [done|].
    unfold ends_in_char in Hl. rewrite rev_app_distr in Hl. cbn in Hl.
    rewrite length_app. cbn [length]. rewrite Nat.add_1_r. cbn [trimmed].
    rewrite app_nth2, Nat.sub_diag by lia. cbn [nth]. by rewrite (proj2 (Z.eqb_neq c 32)).
  - rewrite Nat.add_succ_r, replicate_S_end, app_assoc. cbn [trimmed].
    rewrite app_nth2 by (rewrite length_app, length_replicate; lia).
    rewrite length_app, length_replicate, Nat.sub_diag. cbn [nth].
    rewrite Z.eqb_refl, trimmed_app; [done|]. rewrite length_app, length_replicate. lia.
Qed.

Lemma trimmed_padded n l : part_ok n l -> trimmed (pad n l) n = length l.
Proof.
  intros (Hl & _ & He). unfold pad. rewrite <- (trimmed_pad l (n - length l)) at 2 by done.
  f_equal. lia.
Qed.

(** One part of the name, from its place in the field. *)
Lemma name83_part l : forall i rest pre post, Forall name_char l ->
  length pre = i -> (i + length l <= FNAME_SIZE + FEXT_SIZE)%nat -> (length l <= length post)%nat ->
  name83_loop (l ++ rest) i (pre ++ post) =
  name83_loop rest (i + length l) (pre ++ l ++ drop (length l) post).
Proof.
  induction l as [|c l IH]; intros i rest pre post Hl Hp Hi Hpost; [by cbn [length app]; rewrite Nat.add_0_r, drop_0|].
  inversion Hl as [|? ? (Hc0 & Hc1 & Hc2) Hl']; subst. cbn [length] in *.
  destruct post as [|x post]; [cbn in Hpost; lia|].
  cbn [app name83_loop]. rewrite (proj2 (Nat.ltb_lt _ _)) by (unfold FNAME_SIZE, FEXT_SIZE in *; lia).
  rewrite (proj2 (Z.eqb_neq c _)), (proj2 (Z.eqb_neq c (ch "\"))) by done. cbn [negb].
  rewrite insert_app_r_alt, Nat.sub_diag by lia. cbn [insert list_insert].
  replace (pre ++ c :: post) with ((pre ++ [c]) ++ post) by (by rewrite <- app_assoc).
  rewrite IH by (done || (rewrite ?length_app; cbn in *; lia)).
  rewrite <- app_assoc. cbn [app drop]. f_equal. lia.
Qed.

Lemma name83_stop rest i f : path_rest rest -> name83_loop rest i f = (f, rest).
Proof.
  intros H. destruct rest as [|c rest]; cbn [name83_loop]; [by destruct (_ <? _)%nat|].
  cbn in H. subst c. by destruct (_ <? _)%nat.
Qed.

Lemma to_83 base ext rest : part_ok FNAME_SIZE base -> part_ok FEXT_SIZE ext -> path_rest rest ->
  ConvertNameSZToName83 (sz_name base ext ++ rest) = (fcb_name base ext, rest).
Proof.
  intros (Hb & Hbc & _) (He & Hec & _) Hr. unfold ConvertNameSZToName83, sz_name, fcb_name, pad.
  rewrite <- app_assoc.
  pose proof (name83_part base 0 ((if bool_decide (ext = []) then [] else ch "." :: ext) ++ rest) []
    (replicate (FNAME_SIZE + FEXT_SIZE) 32) Hbc eq_refl
    ltac:(unfold FNAME_SIZE, FEXT_SIZE in *; lia)
    ltac:(rewrite length_replicate; unfold FNAME_SIZE, FEXT_SIZE in *; lia)) as E.
  cbn [app] in E. rewrite E. clear E. rewrite drop_replicate, Nat.add_0_l.
  replace (FNAME_SIZE + FEXT_SIZE - length base)%nat with ((FNAME_SIZE - length base) + FEXT_SIZE)%nat by lia.
  rewrite replicate_add. case_bool_decide as Hx.
  - subst ext. cbn [app length]. rewrite name83_stop by done. by rewrite <- !app_assoc.
  - cbn [app name83_loop]. rewrite (proj2 (Nat.ltb_lt _ _)) by (unfold FNAME_SIZE, FEXT_SIZE in *; lia).
    rewrite Z.eqb_refl.
    pose proof (name83_part ext FNAME_SIZE rest (base ++ replicate (FNAME_SIZE - length base) 32)
      (replicate FEXT_SIZE 32) Hec ltac:(rewrite length_app, length_replicate; lia)
      ltac:(lia) ltac:(rewrite length_replicate; lia)) as E.
    rewrite <- app_assoc in E. rewrite E. rewrite name83_stop by done. by rewrite drop_replicate.
Qed.

Lemma to_sz base ext : part_ok FNAME_SIZE base -> part_ok FEXT_SIZE ext -> base <> [] ->
  ConvertName83ToNameSZ (fcb_name base ext) = sz_name base ext.
Proof.
  intros Hb He Hne. unfold ConvertName83ToNameSZ, fcb_name, sz_name.
  assert (length (pad FNAME_SIZE base) = FNAME_SIZE) as Hlen by (apply pad_length, Hb).
  rewrite take_app_length', drop_app_length' by done.
  assert ((nth 0 (pad FNAME_SIZE base ++ pad FEXT_SIZE ext) 0 =? ch ".") = false) as ->.
  { destruct base as [|c base]; [done|]. cbn. destruct Hb as (_ & Hc & _).
    inversion Hc as [|? ? (? & ? & ?)]; subst. by apply Z.eqb_neq. }
  rewrite !trimmed_padded by done.
  assert (take (length base) (pad FNAME_SIZE base) = base) as -> by (unfold pad; by rewrite take_app_length).
  destruct ext as [|c ext]; [by rewrite app_nil_r|]. cbn [length].
  change (S (length ext)) with (length (c :: ext)). unfold pad.
  by rewrite take_app_length.
Qed.

(** ** Properties *)

(** A valid name of up to eight characters and three of extension survives
    the way into a directory and back: the path is read up to the separator, the
    field has both parts padded with blanks, and it is written as the same name. *)
Theorem name_roundtrip base ext rest :
  part_ok FNAME_SIZE base -> part_ok FEXT_SIZE ext -> base <> [] -> path_rest rest ->
  exists fcb, ConvertNameSZToName83 (sz_name base ext ++ rest) = (fcb, rest) /\
    length fcb = (FNAME_SIZE + FEXT_SIZE)%nat /\ ConvertName83ToNameSZ fcb = sz_name base ext.
Proof.
  intros Hb He Hne Hr. exists (fcb_name base ext). split; [by apply to_83|]. split; [|by apply to_sz].
  unfold fcb_name. rewrite length_app, !pad_length; [done|apply He|apply Hb].
Qed.

Lemma name_roundtrip_witness : exists fcb,
  ConvertNameSZToName83 (str "COMMAND.COM\X") = (fcb, str "\X") /\ length fcb = 11%nat /\
  ConvertName83ToNameSZ fcb = str "COMMAND.COM".
Proof.
  refine (name_roundtrip (str "COMMAND") (str "COM") (str "\X") _ _ _ _); [|..|done|done].
  - split_and!; [vm_compute; lia|by repeat constructor|done].
  - split_and!; [vm_compute; lia|by repeat constructor|done].
Defined.
