(* ===== verification/Fatdir.v ===== *)
(** * Directories ([kernel/fatdir.c], [kernel/fatfs.c])

    Reading and writing directory entries through the block cache, walking
    paths, searching, and the operations on files that only change directories
    and chains.  A near file node is passed and returned; it holds the directory
    match structure it points to. *)

From S2P Require Import Prelude Hdr Bytes Dpb Blockio Fattab Fnode Cluster Names.

(** ** What the file system uses of the rest of the kernel *)

(** A current directory structure; the path is the characters before the NUL.
    hdr/cds.h:32-56 *)
Record cds := Cds {
  cdsCurrentPath : list Z;
  cdsFlags : Z;
  cdsDpb : Z;
  cdsStrtClst : Z;
  cdsBackslashOffset : Z }.
(** hdr/cds.h:69-69 *)
Definition CDSNETWDRV : Z := 0x8000.
(** hdr/cds.h:71-71 *)
Definition CDSJOINED : Z := 0x2000.
(** hdr/cds.h:84-84 *)
Definition CDSVALID : Z := 0xc000.
(** hdr/cds.h:30-30 *)
Definition MAX_CDSPATH : nat := 67.

(** The array of current directory structures with the number of drives, the
    check of the medium, and the time stamps. *)
Class DosState (S : Type) := {
  ds_cds : Z -> S -> cds;
  ds_lastdrive : S -> Z;
  ds_set_strtclst : Z -> Z -> S -> S;
  ds_media_check : Z -> S -> option (Z * S);
  ds_gettime : S -> option (Z * S);
  ds_getdate : S -> option (Z * S) }.

(** hdr/sft.h:117-117 *)
Definition SFT_FDATE : Z := 0x4000.
(** hdr/sft.h:118-118 *)
Definition SFT_FCLEAN : Z := 0x0040.

(** ** Entries as bytes *)

(** kernel/proto.h:345-345 *)
Definition getdirent (l : list Z) : option dirent :=
  let* attrib := at_ l 11 in
  let* case := at_ l 12 in
  let* crtimems := at_ l 13 in
  let* crtime := get16 l 14 in
  let* crdate := get16 l 16 in
  let* accdate := get16 l 18 in
  let* high := get16 l 20 in
  let* time := get16 l 22 in
  let* date := get16 l 24 in
  let* start := get16 l 26 in
  let* size := get32 l 28 in
  Some (Dirent (take 11 l) attrib case crtimems crtime crdate accdate high time date start size).

Definition le16 (v : Z) : list Z := [u8 v; u8 (Z.shiftr v 8)].
Definition le32 (v : Z) : list Z := [u8 v; u8 (Z.shiftr v 8); u8 (Z.shiftr v 16); u8 (Z.shiftr v 24)].

(** kernel/proto.h:346-346 *)
Definition putdirent (e : dirent) : list Z :=
  dir_name e ++ [dir_attrib e; dir_case e; dir_crtimems e] ++ le16 (dir_crtime e) ++
  le16 (dir_crdate e) ++ le16 (dir_accdate e) ++ le16 (dir_start_high e) ++ le16 (dir_time e) ++
  le16 (dir_date e) ++ le16 (dir_start e) ++ le32 (dir_size e).

(** [l] with [x] in the places from [i]. *)
Definition splice (i : nat) (x l : list Z) : list Z := take i l ++ x ++ drop (i + length x) l.

Definition with_dir_name n (e : dirent) : dirent :=
  Dirent n (dir_attrib e) (dir_case e) (dir_crtimems e) (dir_crtime e) (dir_crdate e)
    (dir_accdate e) (dir_start_high e) (dir_time e) (dir_date e) (dir_start e) (dir_size e).
Definition swap_entry (e : dirent) : dirent := with_dir_name (swap_deleted (dir_name e)) e.

Definition with_dm (f : dmatch -> dmatch) (n : f_node) : f_node :=
  Fnode (f_flags n) (f (f_dmp n)) (f_dir n) (f_dirsector n) (f_diridx n) (f_dpb n) (f_offset n)
    (f_cluster_offset n) (f_cluster n) (f_sft_idx n).
Definition with_dm_entry e (d : dmatch) : dmatch :=
  Dmatch (dm_drive d) (dm_name_pat d) (dm_attr_srch d) e (dm_dircluster d).
Definition with_dm_pat p (d : dmatch) : dmatch :=
  Dmatch (dm_drive d) p (dm_attr_srch d) (dm_entry d) (dm_dircluster d).
Definition set_entry (e : Z) (n : f_node) : f_node := with_dm (with_dm_entry e) n.
Definition next_entry (n : f_node) : f_node := set_entry (u16 (dm_entry (f_dmp n) + 1)) n.
Definition with_dirpos sector idx (n : f_node) : f_node :=
  Fnode (f_flags n) (f_dmp n) (f_dir n) sector idx (f_dpb n) (f_offset n)
    (f_cluster_offset n) (f_cluster n) (f_sft_idx n).
Definition with_f_dpb p (n : f_node) : f_node :=
  Fnode (f_flags n) (f_dmp n) (f_dir n) (f_dirsector n) (f_diridx n) p (f_offset n)
    (f_cluster_offset n) (f_cluster n) (f_sft_idx n).

Definition deleted (e : dirent) : bool := nth 0 (dir_name e) 0 =? DELETED.
Definition mark_deleted (e : dirent) : dirent := with_dir_name (<[0%nat := DELETED]> (dir_name e)) e.

Section directories.
  Context {S : Type} `{!BlockCache S, !DosState S} (cf steps : nat).

(** [None] is the null pointer.
    kernel/dosfns.c:99-115 *)
Definition get_cds (drive : Z) (s : S) : option cds :=
  if ds_lastdrive s <=? u16 drive then None
  else
    let c := ds_cds (u16 drive) s in
    let flags := cdsFlags c in
    if (Z.land flags CDSVALID =? 0) || negb (Z.land flags CDSJOINED =? 0) then None
    else if (Z.land flags CDSNETWDRV =? 0) && (cdsDpb c =? 0) then None
    else Some c.

(** kernel/fatfs.c:86-93 *)
Definition get_dpb (dsk : Z) (s : S) : option Z :=
  let* cdsp := get_cds dsk s in
  if negb (Z.land (cdsFlags cdsp) CDSNETWDRV =? 0) then None else Some (cdsDpb cdsp).

(** kernel/fatfs.c:96-108 *)
Definition init_direntry (attrib cluster : Z) (name : list Z) (s : S) : option (dirent * S) :=
  let* (time, s) := ds_gettime s in
  let* (date, s) := ds_getdate s in
  Some (Dirent (take 11 name) (u8 attrib) 0 0 0 0 0 (u16 (Z.shiftr cluster 16)) time date
          (u16 cluster) 0, s).

(** kernel/fatdir.c:42-59 *)
Definition dir_init_fnode (fnp : f_node) (dirstart : Z) (s : S) : f_node :=
  let d := bc_dpb s (f_dpb fnp) in
  let dirstart := if (dirstart =? 0) && ISFAT32 d then dpb_xrootclst d else dirstart in
  let dm := f_dmp fnp in
  Fnode (f_flags fnp)
    (Dmatch (dm_drive dm) (dm_name_pat dm) (dm_attr_srch dm) (dm_entry dm) dirstart)
    (f_dir fnp) (f_dirsector fnp) (f_diridx fnp) (f_dpb fnp) 0 0 dirstart 0xff.

(** The sector of an entry: the first part of [dir_read].
    kernel/fatdir.c:173-197 *)
Definition dir_seek (fnp : f_node) (s : S) : option (bool * f_node * S) :=
  let d := bc_dpb s (f_dpb fnp) in
  let entry := dm_entry (f_dmp fnp) in
  let per := dpb_secsize d / DIRENT_SIZE in
  if dm_dircluster (f_dmp fnp) =? 0 then
    if dpb_dirents d <=? entry then Some (false, fnp, s)
    else Some (true, with_dirpos (u16 (entry / per + dpb_dirstrt d)) (f_diridx fnp) fnp, s)
  else
    let* (rc, fnp, s) := map_cluster cf steps (with_f_offset (entry * DIRENT_SIZE) fnp) XFR_READ s in
    if negb (rc =? SUCCESS) then Some (false, fnp, s)
    else
      let d := bc_dpb s (f_dpb fnp) in
      let sector := Z.land (u8 (f_offset fnp / dpb_secsize d)) (dpb_clsmask d) in
      Some (true, with_dirpos (u32 (clus2phys (f_cluster fnp) d + sector)) (f_diridx fnp) fnp, s).

(** kernel/fatdir.c:157-222 *)
Definition dir_read (fnp : f_node) (s : S) : option (Z * f_node * S) :=
  let entry := dm_entry (f_dmp fnp) in
  if 65535 <=? entry then Some (DE_SEEK, fnp, s)
  else
    let* (found, fnp, s) := dir_seek fnp s in
    if negb found then Some (DE_SEEK, fnp, s)
    else
      let d := bc_dpb s (f_dpb fnp) in
      let* (bp, s) := bc_getblock cf (f_dirsector fnp) (dpb_unit d) s in
      match bp with
      | None => Some (DE_BLKINVLD, fnp, s)
      | Some x =>
          let s := bc_upd x (fun b =>
            with_flag (Z.lor (clear (Z.lor BFR_DATA BFR_FAT) (b_flag b)) (Z.lor BFR_DIR BFR_VALID)) b) s in
          let idx := entry mod (dpb_secsize d / DIRENT_SIZE) in
          let* e := getdirent (take 32 (drop (Z.to_nat (idx * DIRENT_SIZE)) (b_buffer (bc_buf s x)))) in
          let fnp := with_f_dir (swap_entry e) (with_dirpos (f_dirsector fnp) idx fnp) in
          Some (if negb (nth 0 (dir_name (f_dir fnp)) 0 =? 0) then 1 else 0, fnp, s)
      end.

(** The fields of an open file.
    kernel/fatdir.c:258-268 *)
Definition update_fields (fat32 : bool) (e : dirent) (vp : list Z) : list Z :=
  let vp := splice 0 (dir_name e) vp in
  let vp := splice 11 [dir_attrib e] vp in
  let vp := splice 22 (le16 (dir_time e)) vp in
  let vp := splice 24 (le16 (dir_date e)) vp in
  let vp := splice 26 (le16 (dir_start e)) vp in
  let vp := if fat32 then splice 20 (le16 (dir_start_high e)) vp else vp in
  splice 28 (le32 (dir_size e)) vp.

(** kernel/fatdir.c:233-282 *)
Definition dir_write_update (fnp : f_node) (update : bool) (s : S) : option (bool * S) :=
  let d := bc_dpb s (f_dpb fnp) in
  let* (ok, s) :=
    if negb update || negb (Z.land (f_flags fnp) (Z.lor SFT_FCLEAN SFT_FDATE) =? SFT_FCLEAN) then
      let* (bp, s) := bc_getblock cf (f_dirsector fnp) (dpb_unit d) s in
      match bp with
      | None => Some (false, s)
      | Some x =>
          let e := swap_entry (f_dir fnp) in
          let base := Z.to_nat (f_diridx fnp * DIRENT_SIZE) in
          let put (b : buffer) :=
            let vp := take 32 (drop base (b_buffer b)) in
            splice base (if update then update_fields (ISFAT32 d) e vp else putdirent e) (b_buffer b) in
          Some (true, bc_upd x (fun b =>
            with_flag (Z.lor (clear (Z.lor BFR_DATA BFR_FAT) (b_flag b))
                        (Z.lor (Z.lor BFR_DIR BFR_DIRTY) BFR_VALID)) (with_data (put b) b)) s)
      end
    else Some (true, s) in
  if ok then bc_flush cf (dpb_unit d) s else Some (false, s).

(** kernel/proto.h:143-143 *)
Definition dir_write (fnp : f_node) (s : S) : option (bool * S) := dir_write_update fnp false s.

(** ** Searching *)

(** Read on while [stop] does not hold for the entry: whether one was found.
    kernel/fatfs.c:283-292 *)
Fixpoint search (ents : nat) (stop : dirent -> bool) (fnp : f_node) (s : S)
    : option (bool * Z * f_node * S) :=
  match ents with
  | O => None
  | Datatypes.S ents' =>
      let* (rc, fnp, s) := dir_read fnp s in
      if rc =? 1 then
        if stop (f_dir fnp) then Some (true, rc, fnp, s)
        else search ents' stop (next_entry fnp) s
      else Some (false, rc, fnp, s)
  end.

(** Along the components of a path; [None] in the result is the null pointer.
    kernel/fatdir.c:87-134 *)
Fixpoint walk (fuel ents : nat) (dirname : list Z) (split : bool) (fnp : f_node) (s : S)
    : option (bool * f_node * S) :=
  match fuel with
  | O => None
  | Datatypes.S fuel' =>
      match dirname with
      | [] | [_] => Some (true, fnp, s)
      | _ :: dirname =>
          let '(fcbname, dirname) := ConvertNameSZToName83 dirname in
          let fnp := with_dm (with_dm_pat fcbname) fnp in
          if split && bool_decide (dirname = []) then Some (true, fnp, s)
          else
            let* (i, _, fnp, s) :=
              search ents (fun e => (Z.land (dir_attrib e) D_VOLID =? 0) && fcbmatch fcbname (dir_name e))
                fnp s in
            if negb i || (Z.land (dir_attrib (f_dir fnp)) D_DIR =? 0) then Some (false, fnp, s)
            else
              let d := bc_dpb s (f_dpb fnp) in
              walk fuel' ents dirname split
                (set_entry 0 (dir_init_fnode fnp (getdstart d (f_dir fnp)) s)) s
      end
  end.

(** A null drive pointer is not tested: [None].
    kernel/fatdir.c:61-136 *)
Definition dir_open (ents : nat) (dirname : list Z) (split : bool) (fnp : f_node) (s : S)
    : option (bool * f_node * S) :=
  let* c := head dirname in
  let* p := get_dpb (c - ch "A") s in
  let fnp := set_entry 0 (dir_init_fnode (with_f_dpb p fnp) 0 s) in
  walk (Datatypes.S (length dirname)) ents (drop 2 dirname) split fnp s.

(** kernel/fatfs.c:236-263 *)
Definition split_path (ents : nat) (path : list Z) (fnp : f_node) (s : S) : option (bool * f_node * S) :=
  let* c := head (rev path) in
  if c =? ch "\" then Some (false, fnp, s) else dir_open ents path true fnp s.

(** kernel/fatfs.c:266-269 *)
Definition dir_exists (ents : nat) (path : list Z) (fnp : f_node) (s : S) : option (bool * f_node * S) :=
  split_path ents path fnp s.

(** kernel/fatfs.c:276-293 *)
Definition find_fname (ents : nat) (path : list Z) (attr : Z) (fnp : f_node) (s : S)
    : option (Z * f_node * S) :=
  let* (ok, fnp, s) := split_path ents path fnp s in
  if negb ok then Some (DE_PATHNOTFND, fnp, s)
  else
    let pat := dm_name_pat (f_dmp fnp) in
    let* (found, _, fnp, s) :=
      search ents (fun e => fcbmatch (dir_name e) pat &&
        (Z.land (dir_attrib e) (Z.lnot (Z.lor (Z.lor D_RDONLY D_ARCHIVE) attr)) =? 0)) fnp s in
    Some (if found then SUCCESS else DE_FILENOTFND, fnp, s).

(** kernel/fatfs.c:620-631 *)
Definition find_free (ents : nat) (fnp : f_node) (s : S) : option (bool * f_node * S) :=
  let* (found, rc, fnp, s) := search ents deleted fnp s in
  Some (found || (0 <=? rc), fnp, s).

(** ** Searching with wildcards *)

(** The final test of an entry.
    kernel/fatdir.c:358-383 *)
Definition matches (dm : dmatch) (e : dirent) : bool :=
  negb (deleted e) && negb (Z.land (dir_attrib e) D_LFN =? D_LFN) &&
  fcmp_wild (dm_name_pat dm) (dir_name e) (FNAME_SIZE + FEXT_SIZE) &&
  (let attr_srch := Z.land (dm_attr_srch dm) (Z.lnot (Z.lor (Z.lor D_RDONLY D_ARCHIVE) D_DEVICE)) in
   if attr_srch =? D_VOLID then negb (Z.land (dir_attrib e) D_VOLID =? 0)
   else Z.land (Z.land (Z.lnot attr_srch) (Z.lor (Z.lor D_DIR D_SYSTEM) (Z.lor D_HIDDEN D_VOLID)))
          (dir_attrib e) =? 0).

(** The loop; the entry is counted before it is looked at.
    kernel/fatdir.c:355-397 *)
Fixpoint findnext_loop (ents : nat) (fnp : f_node) (s : S) : option (Z * f_node * S) :=
  match ents with
  | O => None
  | Datatypes.S ents' =>
      let* (rc, fnp, s) := dir_read fnp s in
      if rc =? 1 then
        let fnp := next_entry fnp in
        if matches (f_dmp fnp) (f_dir fnp) then Some (SUCCESS, fnp, s) else findnext_loop ents' fnp s
      else Some (DE_NFILES, fnp, s)
  end.

(** [dmp] is the structure [sda_tmp_dm]; the node returned holds it, and the
    entry found.
    kernel/fatdir.c:337-398 *)
Definition dos_findnext (ents : nat) (fnp : f_node) (s : S) : option (Z * f_node * S) :=
  match get_dpb (dm_drive (f_dmp fnp)) s with
  | None => Some (DE_NFILES, fnp, s)
  | Some p =>
      let fnp := with_f_dpb p fnp in
      let* (rc, s) := ds_media_check p s in
      if rc <? 0 then Some (DE_NFILES, fnp, s)
      else findnext_loop ents (dir_init_fnode fnp (dm_dircluster (f_dmp fnp)) s) s
  end.

(** kernel/fatdir.c:286-326 *)
Definition dos_findfirst (ents : nat) (attr : Z) (name : list Z) (fnp : f_node) (s : S)
    : option (Z * f_node * S) :=
  if (length name <=? 3)%nat then Some (DE_NFILES, fnp, s)
  else
    let* (ok, fnp, s) := split_path ents name fnp s in
    if negb ok then Some (DE_PATHNOTFND, fnp, s)
    else
      let fnp :=
        if Z.land attr (Z.lnot (Z.lor (Z.lor D_RDONLY D_ARCHIVE) D_DEVICE)) =? D_VOLID
        then dir_init_fnode fnp 0 s else fnp in
      let* c := head name in
      dos_findnext ents (with_dm (fun d =>
        Dmatch (u8 (c - ch "A")) (dm_name_pat d) (u8 attr) (dm_entry d) (dm_dircluster d)) fnp) s.

(** ** Deleting *)

(** The loop of [remove_lfn_entries].
    kernel/fatfs.c:308-319 *)
Fixpoint remove_lfn_loop (ents : nat) (fnp : f_node) (s : S) : option (Z * f_node * S) :=
  if dm_entry (f_dmp fnp) =? 0 then Some (SUCCESS, fnp, s)
  else
    match ents with
    | O => None
    | Datatypes.S ents' =>
        let fnp := set_entry (dm_entry (f_dmp fnp) - 1) fnp in
        let* (rc, fnp, s) := dir_read fnp s in
        if rc <=? 0 then Some (DE_ACCESS, fnp, s)
        else if negb (dir_attrib (f_dir fnp) =? D_LFN) then Some (SUCCESS, fnp, s)
        else
          let fnp := with_f_dir (mark_deleted (f_dir fnp)) fnp in
          let* (ok, s) := dir_write fnp s in
          if negb ok then Some (DE_ACCESS, fnp, s) else remove_lfn_loop ents' fnp s
    end.

(** kernel/fatfs.c:304-325 *)
Definition remove_lfn_entries (ents : nat) (fnp : f_node) (s : S) : option (Z * f_node * S) :=
  let original_diroff := dm_entry (f_dmp fnp) in
  let* (rc, fnp, s) := remove_lfn_loop ents fnp s in
  if negb (rc =? SUCCESS) then Some (rc, fnp, s)
  else
    let* (rc, fnp, s) := dir_read (set_entry original_diroff fnp) s in
    Some (if rc <=? 0 then DE_ACCESS else SUCCESS, fnp, s).

(** kernel/fatfs.c:399-420 *)
Definition delete_dir_entry (ents : nat) (fnp : f_node) (s : S) : option (Z * f_node * S) :=
  let* (rc, fnp, s) := remove_lfn_entries ents fnp s in
  if rc <? 0 then Some (rc, fnp, s)
  else
    let* s := wipe_out cf steps fnp s in
    let fnp := with_f_dir (mark_deleted (f_dir fnp)) fnp in
    let* (ok, s) := dir_write fnp s in
    Some (if ok then SUCCESS else DE_ACCESS, fnp, s).

(** kernel/fatfs.c:422-443 *)
Definition dos_delete (ents : nat) (path : list Z) (attrib : Z) (fnp : f_node) (s : S)
    : option (Z * S) :=
  let* (ret, fnp, s) := find_fname ents path attrib fnp s in
  if ret =? SUCCESS then
    if negb (Z.land (dir_attrib (f_dir fnp)) (Z.lor D_RDONLY D_DIR) =? 0) then Some (DE_ACCESS, s)
    else
      let* (rc, _, s) := delete_dir_entry ents fnp s in
      Some (rc, s)
  else Some (ret, s).

(** The path is the current directory of its drive.
    kernel/fatfs.c:449-452 *)
Definition is_current (path : list Z) (s : S) : option bool :=
  let* c := head path in
  let* cdsp := get_cds (c - ch "A") s in
  Some (bool_decide (path = cdsCurrentPath cdsp)).

(** kernel/fatfs.c:445-498 *)
Definition dos_rmdir (ents : nat) (path : list Z) (fnp : f_node) (s : S) : option (Z * S) :=
  let* current := is_current path s in
  if current then Some (DE_RMVCUDIR, s)
  else if (nth 2 path 0 =? ch "\") && (nth 3 path 0 =? 0) then Some (DE_ACCESS, s)
  else
    let* (ok, fnp, s) := dir_open ents path false fnp s in
    if negb ok then Some (DE_PATHNOTFND, s)
    else if negb (Z.land (dir_attrib (f_dir fnp)) (Z.lnot (Z.lor D_DIR D_ARCHIVE)) =? 0) then
      Some (DE_ACCESS, s)
    else
      let* (_, fnp, s) := dir_read fnp s in
      let name := dir_name (f_dir fnp) in
      if negb (nth 0 name 0 =? ch ".") || negb (nth 1 name 0 =? 32) then Some (DE_ACCESS, s)
      else
        let* (_, fnp, s) := dir_read (next_entry fnp) s in
        let name := dir_name (f_dir fnp) in
        if negb (nth 0 name 0 =? ch ".") || negb (nth 1 name 0 =? ch ".") then Some (DE_ACCESS, s)
        else
          let* (found, _, fnp, s) :=
            search ents (fun e => negb (deleted e) && negb (dir_attrib e =? D_LFN)) (next_entry fnp) s in
          if found then Some (DE_ACCESS, s)
          else
            let* (ret, fnp, s) := find_fname ents path D_ALL fnp s in
            if negb (ret =? SUCCESS) then Some (DE_PATHNOTFND, s)
            else
              let* (rc, _, s) := delete_dir_entry ents fnp s in
              Some (rc, s).

(** ** Creating *)

(** kernel/fatfs.c:763-780 *)
Fixpoint clear_dir_loop (n : nat) (idx : Z) (fnp : f_node) (cluster : Z) (s : S) : option (Z * S) :=
  match n with
  | O => Some (SUCCESS, s)
  | Datatypes.S n' =>
      let d := bc_dpb s (f_dpb fnp) in
      let* (bp, s) := bc_getblockOver cf (u32 (clus2phys cluster d + idx)) (dpb_unit d) s in
      match bp with
      | None => Some (DE_ACCESS, s)
      | Some x =>
          let s := bc_upd x (fun b =>
            let b := with_data (replicate BUFFERSIZE 0) b in
            let b := with_flag (Z.lor (b_flag b) (Z.lor BFR_DIRTY BFR_VALID)) b in
            if negb (idx =? 0) then with_flag (Z.lor (b_flag b) BFR_UNCACHE) b else b) s in
          clear_dir_loop n' (idx + 1) fnp cluster s
      end
  end.

(** kernel/fatfs.c:760-782 *)
Definition clear_dir (fnp : f_node) (cluster : Z) (s : S) : option (Z * S) :=
  clear_dir_loop (Z.to_nat (dpb_clsmask (bc_dpb s (f_dpb fnp)) + 1)) 0 fnp cluster s.

(** kernel/fatfs.c:918-938 *)
Definition extend_dir (ents : nat) (fnp : f_node) (s : S) : option (Z * f_node * S) :=
  let* (cluster, fnp, s) := extend cf steps fnp s in
  if cluster =? LONG_LAST_CLUSTER then Some (DE_HNDLDSKFULL, fnp, s)
  else
    let* (ret, s) := clear_dir fnp cluster s in
    if negb (ret =? SUCCESS) then Some (ret, fnp, s)
    else
      let* (ok, fnp, s) := find_free ents fnp s in
      if negb ok then Some (DE_HNDLDSKFULL, fnp, s)
      else
        let* (ok, s) := bc_flush cf (dpb_unit (bc_dpb s (f_dpb fnp))) s in
        Some (if ok then SUCCESS else DE_ACCESS, fnp, s).

(** The result of [split_path] is not tested: [None].
    kernel/fatfs.c:636-661 *)
Definition alloc_find_free (ents : nat) (fnp : f_node) (path : list Z) (s : S)
    : option (Z * f_node * S) :=
  let* (ok, fnp, s) := split_path ents path fnp s in
  if negb ok then None
  else
    let* (free, fnp, s) := find_free ents fnp s in
    if free then Some (SUCCESS, fnp, s)
    else if dm_dircluster (f_dmp fnp) =? 0 then Some (DE_TOOMANY, fnp, s)
    else extend_dir ents fnp s.

(** The name of the entry of the directory itself. *)
Definition dot_name : list Z := str ".          ".

(** The two entries of a new directory.
    kernel/fatfs.c:847-875 *)
Definition craft_dir (ents : nat) (fnp : f_node) (free_fat parent : Z) (s : S) : option (Z * S) :=
  let fnp := set_entry 0 (dir_init_fnode fnp free_fat s) in
  let* (_, fnp, s) := find_free ents fnp s in
  let* (e, s) := init_direntry D_DIR free_fat dot_name s in
  let* (ok, s) := dir_write (with_f_dir e fnp) s in
  if negb ok then Some (DE_ACCESS, s)
  else
    let* (free, fnp, s) := find_free ents (with_f_dir e fnp) s in
    let* (ret, fnp, s) := if free then Some (SUCCESS, fnp, s) else extend_dir ents fnp s in
    if negb (ret =? SUCCESS) then Some (ret, s)
    else
      let d := bc_dpb s (f_dpb fnp) in
      let parent := if ISFAT32 d && (parent =? dpb_xrootclst d) then 0 else parent in
      let* (e, s) := init_direntry D_DIR parent dot_name s in
      let e := with_dir_name (<[1%nat := ch "."]> (dir_name e)) e in
      let* (ok, s) := dir_write (with_f_dir e fnp) s in
      Some (if ok then SUCCESS else DE_ACCESS, s).

(** kernel/fatfs.c:788-876 *)
Definition dos_mkdir (ents : nat) (dir : list Z) (fnp : f_node) (s : S) : option (Z * S) :=
  if (MAX_CDSPATH <=? length dir)%nat then Some (DE_PATHNOTFND, s)
  else
    let* (ret, fnp, s) := find_fname ents dir D_ALL fnp s in
    if negb (ret =? DE_FILENOTFND) then Some (if ret =? SUCCESS then DE_ACCESS else ret, s)
    else
      let parent := dm_dircluster (f_dmp fnp) in
      let* (ret, fnp, s) := alloc_find_free ents fnp dir s in
      if negb (ret =? SUCCESS) then Some (ret, s)
      else
        let* (free_fat, s) := find_fat_free cf steps fnp s in
        if free_fat =? LONG_LAST_CLUSTER then Some (DE_HNDLDSKFULL, s)
        else
          let* (e, s) := init_direntry D_DIR free_fat (dm_name_pat (f_dmp fnp)) s in
          let fnp := with_f_dir e fnp in
          let* (rc, s) := link_fat cf (f_dpb fnp) free_fat LONG_LAST_CLUSTER s in
          if negb (rc =? SUCCESS) then Some (DE_HNDLDSKFULL, s)
          else
            let* (ret, s) := clear_dir fnp free_fat s in
            if negb (ret =? SUCCESS) then Some (ret, s)
            else
              let* (ok, s) := dir_write fnp s in
              if negb ok then Some (DE_ACCESS, s) else craft_dir ents fnp free_fat parent s.

(** ** Renaming *)

(** The new name into the entry.
    kernel/fatfs.c:557-561 *)
Definition put_name (fcbname : list Z) (fnp : f_node) (s : S) : option (Z * S) :=
  let* (ok, s) := dir_write (with_f_dir (with_dir_name fcbname (f_dir fnp)) fnp) s in
  Some (if ok then SUCCESS else DE_ACCESS, s).

(** kernel/fatfs.c:500-562 *)
Definition dos_rename (ents : nat) (path1 path2 : list Z) (attrib : Z) (fnp1 fnp2 : f_node) (s : S)
    : option (Z * S) :=
  let* current := is_current path1 s in
  if current then Some (DE_RMVCUDIR, s)
  else
    let* (ret, fnp1, s) := find_fname ents path1 attrib fnp1 s in
    if negb (ret =? SUCCESS) then Some (ret, s)
    else
      let* (ret, fnp2, s) := find_fname ents path2 attrib fnp2 s in
      if negb (ret =? DE_FILENOTFND) then Some (if ret =? SUCCESS then DE_ACCESS else ret, s)
      else
        let fcbname := dm_name_pat (f_dmp fnp2) in
        if dm_dircluster (f_dmp fnp1) =? dm_dircluster (f_dmp fnp2) then
          let* (ret, fnp1, s) := remove_lfn_entries ents fnp1 s in
          if ret <? 0 then Some (ret, s) else put_name fcbname fnp1 s
        else if negb (Z.land (dir_attrib (f_dir fnp1)) D_DIR =? 0) then Some (DE_ACCESS, s)
        else
          let* (ret, fnp2, s) := alloc_find_free ents fnp2 path2 s in
          if negb (ret =? SUCCESS) then Some (ret, s)
          else
            let fcbname := dm_name_pat (f_dmp fnp2) in
            let* (ret, fnp1, s) := remove_lfn_entries ents fnp1 s in
            if ret <? 0 then Some (ret, s)
            else
              let fnp2 := with_f_dir (f_dir fnp1) fnp2 in
              let* (ok, s) := dir_write (with_f_dir (mark_deleted (f_dir fnp1)) fnp1) s in
              if negb ok then Some (DE_ACCESS, s) else put_name fcbname fnp2 s.

(** ** Attributes and the current directory *)

(** kernel/fatfs.c:1519-1524 *)
Definition dos_getfattr (ents : nat) (name : list Z) (fnp : f_node) (s : S) : option (Z * S) :=
  let* (ret, fnp, s) := find_fname ents name D_ALL fnp s in
  Some (if ret =? SUCCESS then dir_attrib (f_dir fnp) else ret, s).

(** kernel/fatfs.c:1501-1515 *)
Definition dos_cd (ents : nat) (path : list Z) (fnp : f_node) (s : S) : option (Z * f_node * S) :=
  let* (ok, fnp, s) := dir_open ents path false fnp s in
  if negb ok then Some (DE_PATHNOTFND, fnp, s)
  else
    let* c := head path in
    let* _ := get_cds (c - ch "A") s in
    Some (SUCCESS, fnp, ds_set_strtclst (c - ch "A") (u16 (dm_dircluster (f_dmp fnp))) s).

End directories.
