(* ===== verification/FatdirSpec.v ===== *)
(** * Directories: what is read and found

    A directory of a mounted volume is a list of entries, in the fixed root area
    or along a chain of clusters.  Reading, searching and writing are stated
    against the list. *)

From S2P Require Import Prelude Hdr Bytes Dpb Blockio BlockioRing BlockioSpec Fattab.
From S2P Require Import CacheSpec FattabSpec Fnode Cluster ClusterSpec Names NamesSpec Fatdir.

Section dirs.
  Context {S : Type} `{BlockCacheLaws S primary} (cf steps : nat) (p : Z) (g : dpb).
  Context (Hrel : bc_reliable (S := S) (primary := primary)).

#[local] Abbreviation mounted := (mounted (primary := primary) cf p g).
#[local] Abbreviation evolves := (evolves (primary := primary) cf p g).

(** ** Blocks of directories *)

(** A block the cache holds for the volume, outside the FAT and the FAT32
    information. *)
Definition data_block (n : Z) : Prop :=
  0 <= n < 4294967296 /\ primary (dpb_unit g) n /\
  ~ (fat_start g <= n <= fat_start g + last_sector g) /\
  ~ (n = dpb_xfsinfosec g /\ n <> 0xffff).

(** The volume's layout: clusters of a power of two of sectors, and both areas
    of directories. *)
Record layout_ok (v : Z -> Z -> list Z) : Prop := {
  lo_shift : 0 <= dpb_shftcnt g <= 7;
  lo_mask : dpb_clsmask g = 2 ^ dpb_shftcnt g - 1;
  lo_dirents : 0 <= dpb_dirents g;
  lo_root k : 0 <= k < dpb_dirents g ->
    0 <= dpb_dirstrt g + k / 16 < 65536 /\ data_block (dpb_dirstrt g + k / 16);
  lo_cluster c j : 2 <= c <= max_cluster g -> 0 <= j <= dpb_clsmask g ->
    clus2phys c g + j < 4294967296 /\ data_block (clus2phys c g + j);
  lo_data n : data_block n ->
    length (v (dpb_unit g) n) = 512%nat /\ bytes (v (dpb_unit g) n) }.

Lemma clus2phys_geom v s c : mounted v s -> clus2phys c (bc_dpb s p) = clus2phys c g.
Proof. intros [<- _ _ _ _ _ _ _]. done. Qed.

Lemma evolves_data v s v' s' n : evolves v s v' s' -> data_block n -> v' (dpb_unit g) n = v (dpb_unit g) n.
Proof.
  intros Hev (_ & _ & Hf & Hi). apply (ev_else _ _ _ _ _ _ _ Hev); tauto.
Qed.

Lemma layout_evolves v s v' s' : evolves v s v' s' -> layout_ok v -> layout_ok v'.
Proof.
  intros Hev [H1 H2 H3 H4 H5 H6]. split; try done. intros n Hn.
  rewrite (evolves_data _ _ _ _ _ Hev Hn). auto.
Qed.

(** Getting a block of data. *)
Lemma data_get v s n : mounted v s -> data_block n -> exists x s' l,
  bc_getblock cf n (dpb_unit g) s = Some (Some x, s') /\ evolves v s v s' /\
  (forall q, bc_dpb s' q = bc_dpb s q) /\ bc_rep cf s' l v /\ x ∈ l /\ hit n (dpb_unit g) (bc_buf s' x).
Proof.
  intros Hm (Hn & Hp & _). destruct (m_rep _ _ _ _ _ Hm) as [l Hr].
  destruct (bc_get cf s l v (dpb_unit g) n Hr Hn (m_drive _ _ _ _ _ Hm) Hp)
    as (r & s' & E & Hdp & Hdr & Hs & Hres).
  destruct (Hs Hrel) as [x ->]. destruct Hres as (l' & Hr' & Hperm & Hx & Hh & _).
  exists x, s', l'. split_and!; try done; [|by rewrite Hperm].
  by apply (mounted_same cf p g v s l' s').
Qed.

(** New flags for a block of data, which is no block of the FAT then. *)
Lemma data_mark v s x n l f : mounted v s -> bc_rep cf s l v -> x ∈ l -> hit n (dpb_unit g) (bc_buf s x) ->
  has BFR_VALID (f (b_flag (bc_buf s x))) = true -> has BFR_FAT (f (b_flag (bc_buf s x))) = false ->
  (has BFR_DIRTY (b_flag (bc_buf s x)) = true -> has BFR_DIRTY (f (b_flag (bc_buf s x))) = true) ->
  evolves v s v (bc_upd x (fun b => with_flag (f (b_flag b)) b) s).
Proof.
  intros Hm Hr Hx Hh Hv Hf Hd.
  destruct (bc_store cf s l v v x (fun b => with_flag (f (b_flag b)) b) Hr Hx (proj1 Hh)) as [Hr' _]; try done.
  - intros Hfat. unfold is_fat in Hfat. cbn in Hfat. by rewrite Hf in Hfat.
  - right. split; [done|]. exact Hd.
  - cbn. pose proof (bc_read _ _ _ _ _ _ _ Hr Hx Hh) as Hdata. destruct Hh as (_ & -> & ->). done.
  - apply (mounted_same cf p g v s l); [done|done| |].
    + intros q. by rewrite bc_dpb_upd.
    + intros u Hu. by apply bc_drive_upd.
Qed.

Lemma dir_flags fl :
  let fl' := Z.lor (clear (Z.lor BFR_DATA BFR_FAT) fl) (Z.lor BFR_DIR BFR_VALID) in
  has BFR_VALID fl' = true /\ has BFR_FAT fl' = false /\ has BFR_DIRTY fl' = has BFR_DIRTY fl.
Proof.
  cbv zeta. unfold clear. change BFR_VALID with (2 ^ 5). change BFR_DIRTY with (2 ^ 6).
  change BFR_FAT with (2 ^ 1). rewrite !has_bit by lia.
  rewrite !Z.lor_spec, !Z.land_spec, !Z.lnot_spec by lia.
  change (Z.lor BFR_DATA (2 ^ 1)) with 10. change (Z.lor BFR_DIR (2 ^ 5)) with 36.
  repeat split; cbn; rewrite ?orb_true_r, ?orb_false_r, ?andb_true_r, ?andb_false_r; done.
Qed.

(** ** The entries of a directory *)

(** A directory with start cluster [c]; the fixed root has none. *)
Definition dir_chain (v : Z -> Z -> list Z) (c : Z) (cs : list Z) : Prop :=
  c = 0 /\ cs = [] \/ c <> 0 /\ cs <> [] /\ chain g v c cs.

(** The block and the index of entry [k]. *)
Definition dir_slot (c : Z) (cs : list Z) (k : Z) : option (Z * Z) :=
  if c =? 0 then
    if k <? dpb_dirents g then Some (dpb_dirstrt g + k / 16, k mod 16) else None
  else
    let* x := cs !! Z.to_nat (relcluster_of g (k * 32)) in
    Some (clus2phys x g + (k / 16) mod 2 ^ dpb_shftcnt g, k mod 16).

(** The bytes of a slot, and the entry the code sees in them. *)
Definition slot_bytes (v : Z -> Z -> list Z) (sl : Z * Z) : list Z :=
  take 32 (drop (Z.to_nat (sl.2 * 32)) (v (dpb_unit g) sl.1)).
Definition dir_entry (v : Z -> Z -> list Z) (c : Z) (cs : list Z) (k : Z) : option dirent :=
  let* sl := dir_slot c cs k in
  let* e := getdirent (slot_bytes v sl) in
  Some (swap_entry e).

Lemma dir_slot_block v c cs k sl : volume_ok primary g -> layout_ok v -> dir_chain v c cs -> 0 <= k ->
  dir_slot c cs k = Some sl -> data_block sl.1 /\ 0 <= sl.2 < 16.
Proof.
  intros Hv Hl Hc Hk E. unfold dir_slot in E. pose proof (Z.mod_pos_bound k 16 ltac:(lia)).
  destruct (Z.eqb_spec c 0) as [->|Hne].
  - destruct (Z.ltb_spec k (dpb_dirents g)); [|done]. injection E as <-. cbn.
    split; [|done]. apply (lo_root _ Hl). lia.
  - destruct Hc as [[? _]|(_ & _ & Hc)]; [done|]. destruct (cs !! _) as [x|] eqn:Ex; [|done].
    injection E as <-. cbn. split; [|done].
    pose proof (lo_shift _ Hl) as Hs. pose proof (lo_mask _ Hl) as Hm.
    assert (0 < 2 ^ dpb_shftcnt g) by (apply Z.pow_pos_nonneg; lia).
    pose proof (Z.mod_pos_bound (k / 16) (2 ^ dpb_shftcnt g) ltac:(lia)).
    apply (lo_cluster _ Hl); [|lia]. eapply chain_range; [exact Hc|]. by eapply list_elem_of_lookup_2.
Qed.

(** Whole entries can be read. *)
Lemma getdirent_some l : length l = 32%nat -> exists e, getdirent l = Some e.
Proof.
  intros Hl. unfold getdirent. rewrite !at_byte by lia. rewrite !get16_spec by lia.
  rewrite get32_spec by lia. by eexists.
Qed.

Lemma slot_bytes_length v c cs k sl : volume_ok primary g -> layout_ok v -> dir_chain v c cs -> 0 <= k ->
  dir_slot c cs k = Some sl -> length (slot_bytes v sl) = 32%nat.
Proof.
  intros Hv Hl Hc Hk E. destruct (dir_slot_block _ _ _ _ _ Hv Hl Hc Hk E) as [Hb Hi].
  destruct (lo_data _ Hl _ Hb) as [Hlen _]. unfold slot_bytes.
  rewrite length_take, length_drop, Hlen. lia.
Qed.

(** ** A node at a directory *)

Definition dir_node (v : Z -> Z -> list Z) (fnp : f_node) (c : Z) (cs : list Z) : Prop :=
  f_dpb fnp = p /\ dm_dircluster (f_dmp fnp) = c /\ f_sft_idx fnp = 0xff /\ dir_chain v c cs /\
  (c <> 0 -> positioned g v fnp cs).

(** The parts of a node that reading changes. *)
Definition same_dir (fnp fnp' : f_node) : Prop :=
  f_dpb fnp' = f_dpb fnp /\ f_dmp fnp' = f_dmp fnp /\ f_sft_idx fnp' = f_sft_idx fnp /\
  f_flags fnp' = f_flags fnp.

Definition entry_of (fnp : f_node) : Z := dm_entry (f_dmp fnp).

Lemma dir_seek_spec v s fnp c cs :
  mounted v s -> layout_ok v -> dir_node v fnp c cs -> 0 <= entry_of fnp < 65536 ->
  (Z.to_nat (max_cluster g) <= steps)%nat ->
  exists found fnp' s', dir_seek cf steps fnp s = Some (found, fnp', s') /\ evolves v s v s' /\
    dir_node v fnp' c cs /\ same_dir fnp fnp' /\ f_dir fnp' = f_dir fnp /\
    match dir_slot c cs (entry_of fnp) with
    | Some sl => found = true /\ f_dirsector fnp' = sl.1
    | None => found = false
    end.
Proof.
  intros Hm Hl (Hp & Hc & Hx & Hch & Hpos) Hk Hst. unfold dir_seek. rewrite Hp, Hc.
  pose proof (m_geom _ _ _ _ _ Hm) as Hg. pose proof (m_vol _ _ _ _ _ Hm) as Hv.
  assert (dpb_dirents (bc_dpb s p) = dpb_dirents g /\ dpb_dirstrt (bc_dpb s p) = dpb_dirstrt g /\
    dpb_secsize (bc_dpb s p) = 512) as (Ed & Es & Esz).
  { rewrite <- Hg. split_and!; try done. rewrite <- (v_secsize _ _ Hv), <- Hg. done. }
  rewrite Ed, Es, Esz. fold (entry_of fnp). unfold dir_slot.
  destruct (Z.eqb_spec c 0) as [Hz|Hz].
  - rewrite Z.leb_antisym. destruct (Z.ltb_spec (entry_of fnp) (dpb_dirents g)) as [Hlt|Hge]; cbn [negb].
    + eexists true, _, s. split; [done|]. split; [by apply evolves_refl|].
      split; [by split_and!|]. split; [by split_and!|]. split; [done|]. split; [done|].
      cbn. change (512 / DIRENT_SIZE) with 16. rewrite Z.add_comm. apply u16_id.
      apply (lo_root _ Hl). lia.
    + exists false, fnp, s. split; [done|]. split; [by apply evolves_refl|]. by split_and!.
  - specialize (Hpos Hz).
    destruct (map_cluster_read_spec cf p g Hrel steps v s
      (with_f_offset (entry_of fnp * DIRENT_SIZE) fnp) cs Hm Hp Hpos
      ltac:(cbn; unfold DIRENT_SIZE; lia) ltac:(apply (lo_shift _ Hl)) Hst) as (rc & fnp1 & s1 & E & Hev & Hres).
    rewrite E. cbn [f_offset with_f_offset] in Hres. unfold DIRENT_SIZE in Hres.
    pose proof Hch as Hdc. destruct Hch as [[? _]|(_ & _ & Hch)]; [done|].
    destruct (cs !! Z.to_nat (relcluster_of g (entry_of fnp * 32))) as [x|] eqn:Ex.
    + destruct Hres as [-> ->]. change (negb (SUCCESS =? SUCCESS)) with false. cbv iota zeta.
      eexists true, _, s1. split; [done|]. split; [done|].
      assert (0 <= relcluster_of g (entry_of fnp * 32)) as Hrel0.
      { pose proof (relcluster_range g (entry_of fnp * 32) Hv ltac:(lia) ltac:(apply (lo_shift _ Hl))). lia. }
      split.
      { split; [done|]. split; [done|]. split; [done|]. split; [exact Hdc|]. intros _.
        split; [|split]; [|done|exact Ex].
        cbn [with_dirpos with_f_pos with_f_offset f_dir f_sft_idx f_dmp]. unfold dstart. cbn. rewrite Hx, Hc. done. }
      split; [by split_and!|]. split; [done|]. split; [done|].
      cbn [f_dirsector with_dirpos with_f_pos with_f_offset f_cluster f_offset f_dpb fst].
      pose proof (ev_mounted _ _ _ _ _ _ _ Hev) as Hm1. rewrite Hp, (clus2phys_geom v s1 x Hm1).
      assert (dpb_secsize (bc_dpb s1 p) = 512) as ->.
      { rewrite <- (v_secsize _ _ Hv), <- (m_geom _ _ _ _ _ Hm1). done. }
      assert (dpb_clsmask (bc_dpb s1 p) = dpb_clsmask g) as -> by (by rewrite <- (m_geom _ _ _ _ _ Hm1)).
      unfold DIRENT_SIZE. replace (entry_of fnp * 32 / 512) with (entry_of fnp / 16) by (Z.div_mod_to_equations; lia).
      pose proof (lo_shift _ Hl) as Hs. rewrite (lo_mask _ Hl).
      replace (2 ^ dpb_shftcnt g - 1) with (Z.ones (dpb_shftcnt g)) by (rewrite Z.ones_equiv; lia).
      rewrite land_ones_mod by lia.
      assert (u8 (entry_of fnp / 16) mod 2 ^ dpb_shftcnt g = (entry_of fnp / 16) mod 2 ^ dpb_shftcnt g) as ->.
      { unfold u8. change 256 with (2 ^ 8). replace 8 with (dpb_shftcnt g + (8 - dpb_shftcnt g)) by lia.
        assert (0 < 2 ^ dpb_shftcnt g /\ 0 < 2 ^ (8 - dpb_shftcnt g)) by (split; apply Z.pow_pos_nonneg; lia).
        rewrite Z.pow_add_r, Z.rem_mul_r by lia. rewrite Z.mul_comm, Z_mod_plus_full, Zmod_mod. done. }
      apply u32_id. assert (0 < 2 ^ dpb_shftcnt g) by (apply Z.pow_pos_nonneg; lia).
      pose proof (Z.mod_pos_bound (entry_of fnp / 16) (2 ^ dpb_shftcnt g) ltac:(lia)).
      destruct (lo_cluster _ Hl x ((entry_of fnp / 16) mod 2 ^ dpb_shftcnt g)) as [? [? _]]; [|rewrite (lo_mask _ Hl); lia|lia].
      eapply chain_range; [exact Hch|]. by eapply list_elem_of_lookup_2.
    + destruct Hres as (-> & l & y & Ecs & ->). change (negb (DE_SEEK =? SUCCESS)) with true. cbv iota.
      eexists false, _, s1. split; [done|]. split; [done|].
      split; [|by split_and!].
      split; [done|]. split; [done|]. split; [done|]. split; [exact Hdc|]. intros _.
      split; [|split]; [|cbn; lia|cbn; rewrite Ecs, Nat2Z.id; by apply list_lookup_middle].
      cbn. unfold dstart. cbn. rewrite Hx, Hc. done.
Qed.

(** The code does not count beyond 65534. *)
Definition nth_entry (v : Z -> Z -> list Z) (c : Z) (cs : list Z) (k : Z) : option dirent :=
  if 65535 <=? k then None else dir_entry v c cs k.

Definition occupied (e : dirent) : bool := negb (nth 0 (dir_name e) 0 =? 0).

(** The node has read entry [k], which is [e]. *)
Definition has_read (c : Z) (cs : list Z) (k : Z) (e : dirent) (fnp : f_node) : Prop :=
  f_dir fnp = e /\ dir_slot c cs k = Some (f_dirsector fnp, f_diridx fnp).

Lemma same_dir_refl fnp : same_dir fnp fnp.
Proof. by split_and!. Qed.
Lemma same_dir_trans f1 f2 f3 : same_dir f1 f2 -> same_dir f2 f3 -> same_dir f1 f3.
Proof. intros (? & ? & ? & ?) (? & ? & ? & ?). split_and!; congruence. Qed.

Lemma dir_read_spec v s fnp c cs :
  mounted v s -> layout_ok v -> dir_node v fnp c cs -> 0 <= entry_of fnp < 65536 ->
  (Z.to_nat (max_cluster g) <= steps)%nat ->
  exists rc fnp' s', dir_read cf steps fnp s = Some (rc, fnp', s') /\ evolves v s v s' /\
    dir_node v fnp' c cs /\ same_dir fnp fnp' /\
    match nth_entry v c cs (entry_of fnp) with
    | Some e => rc = (if occupied e then 1 else 0) /\ has_read c cs (entry_of fnp) e fnp'
    | None => rc = DE_SEEK /\ f_dir fnp' = f_dir fnp
    end.
Proof.
  intros Hm Hl Hn Hk Hst. unfold dir_read, nth_entry. fold (entry_of fnp).
  destruct (65535 <=? entry_of fnp).
  { exists DE_SEEK, fnp, s. split; [done|]. split; [by apply evolves_refl|]. by split_and!; try apply same_dir_refl. }
  destruct (dir_seek_spec v s fnp c cs Hm Hl Hn Hk Hst) as (found & fnp1 & s1 & E & Hev & Hn1 & Hsd & Hdir & Hsl).
  rewrite E. unfold dir_entry. pose proof (m_vol _ _ _ _ _ Hm) as Hv.
  destruct (dir_slot c cs (entry_of fnp)) as [sl|] eqn:Esl.
  2: { subst found. cbn [negb]. exists DE_SEEK, fnp1, s1. by split_and!. }
  destruct Hsl as [-> Hsec]. cbn [negb].
  destruct (dir_slot_block v c cs (entry_of fnp) sl Hv Hl (proj1 (proj2 (proj2 (proj2 Hn)))) (proj1 Hk) Esl) as [Hb Hidx].
  pose proof (slot_bytes_length v c cs (entry_of fnp) sl Hv Hl (proj1 (proj2 (proj2 (proj2 Hn)))) (proj1 Hk) Esl) as Hlen.
  destruct (getdirent_some _ Hlen) as [e Ee]. rewrite Ee.
  pose proof (ev_mounted _ _ _ _ _ _ _ Hev) as Hm1.
  assert (dpb_unit (bc_dpb s1 (f_dpb fnp1)) = dpb_unit g /\ dpb_secsize (bc_dpb s1 (f_dpb fnp1)) = 512) as [Eu Esz].
  { rewrite (proj1 Hn1), <- (v_secsize _ _ Hv), <- (m_geom _ _ _ _ _ Hm1). done. }
  rewrite Eu, Esz, Hsec.
  destruct (data_get v s1 sl.1 Hm1 Hb) as (x & s2 & l & -> & Hev2 & Hdp & Hr2 & Hx & Hh).
  set (s3 := bc_upd x _ s2).
  destruct (dir_flags (b_flag (bc_buf s2 x))) as (F1 & F2 & F3).
  assert (evolves v s2 v s3) as Hev3.
  { apply (data_mark v s2 x sl.1 l (fun fl => Z.lor (clear (Z.lor BFR_DATA BFR_FAT) fl) (Z.lor BFR_DIR BFR_VALID)));
      try done; [apply Hev2|]. intros Hd. by rewrite F3. }
  assert (b_buffer (bc_buf s3 x) = v (dpb_unit g) sl.1) as ->.
  { subst s3. rewrite bc_buf_upd, decide_True by done. cbn. by rewrite (bc_read _ _ _ _ _ _ _ Hr2 Hx Hh). }
  change (512 / DIRENT_SIZE) with 16. cbv zeta.
  assert (sl = (sl.1, entry_of fnp mod 16)) as Esl'.
  { unfold dir_slot in Esl. destruct (c =? 0); [destruct (_ <? _); [|done]|destruct (cs !! _); [|done]]; by injection Esl as <-. }
  assert (getdirent (take 32 (drop (Z.to_nat (entry_of fnp mod 16 * DIRENT_SIZE)) (v (dpb_unit g) sl.1))) = Some e) as ->.
  { rewrite <- Ee. unfold slot_bytes. rewrite Esl'. done. }
  eexists _, _, s3. split; [reflexivity|]. split; [eapply evolves_trans; [exact Hev|eapply evolves_trans; [exact Hev2|exact Hev3]]|].
  split; [|split; [|split; [|split]]].
  - destruct Hn1 as (H1 & H2 & H3 & H4 & H5). split_and!; try done.
    intros Hc. destruct (H5 Hc) as (G1 & G2 & G3). split_and!; try done.
    revert G1. unfold dstart. cbn. by rewrite H3.
  - destruct Hsd as (? & ? & ? & ?). by split_and!.
  - cbn. by destruct (occupied (swap_entry e)) eqn:Eo; unfold occupied in Eo; cbn in Eo; rewrite Eo.
  - done.
  - cbn. by rewrite Esl, Esl' at 1.
Qed.

(** ** Searching *)

(** Entry [k'] is the first from [k] on that is missing, free for ever or what is
    looked for. *)
Definition first_entry (entry : Z -> option dirent) (stop : dirent -> bool) (k k' : Z) : Prop :=
  k <= k' <= 65535 /\
  (forall j, k <= j < k' -> exists e, entry j = Some e /\ occupied e = true /\ stop e = false) /\
  match entry k' with Some e => occupied e = true -> stop e = true | None => True end.

(** What a search returns. *)
Definition outcome (entry : Z -> option dirent) (k : Z) : bool * Z :=
  match entry k with
  | Some e => if occupied e then (true, 1) else (false, 0)
  | None => (false, DE_SEEK)
  end.

Lemma first_entry_next entry stop k k' e : entry k = Some e -> occupied e = true -> stop e = false ->
  first_entry entry stop (k + 1) k' -> first_entry entry stop k k'.
Proof.
  intros He Ho Hs (Hk & Hbefore & Hat). split; [lia|]. split; [|done]. intros j Hj.
  destruct (decide (j = k)) as [->|]; [by exists e|]. apply Hbefore. lia.
Qed.

Lemma first_entry_here entry stop k : k <= 65535 ->
  match entry k with Some e => occupied e = true -> stop e = true | None => True end ->
  first_entry entry stop k k.
Proof. intros Hk He. split; [lia|]. split; [|done]. intros j Hj. lia. Qed.

Lemma nth_entry_last v c cs : nth_entry v c cs 65535 = None.
Proof. reflexivity. Qed.

Lemma set_entry_entry k fnp : entry_of (set_entry k fnp) = k.
Proof. done. Qed.

Lemma dir_node_entry v fnp c cs k : dir_node v fnp c cs -> dir_node v (set_entry k fnp) c cs.
Proof. intros (H1 & H2 & H3 & H4 & H5). by split_and!. Qed.

(** The node after a search: at entry [k'], the pattern, the drive and the
    attributes as they were. *)
Definition searched (fnp fnp' : f_node) (k' : Z) : Prop :=
  f_dmp fnp' = with_dm_entry k' (f_dmp fnp) /\ f_dpb fnp' = f_dpb fnp /\
  f_sft_idx fnp' = f_sft_idx fnp /\ f_flags fnp' = f_flags fnp.

Lemma searched_next fnp fnp1 fnp' k k' : same_dir fnp fnp1 ->
  searched (set_entry k fnp1) fnp' k' -> searched fnp fnp' k'.
Proof.
  intros (H1 & H2 & H3 & H4) (G1 & G2 & G3 & G4). cbn in *.
  split_and!; try congruence. rewrite G1, H2. done.
Qed.

Lemma search_spec stop ents : forall v s fnp c cs,
  mounted v s -> layout_ok v -> dir_node v fnp c cs -> 0 <= entry_of fnp < 65536 ->
  (Z.to_nat (max_cluster g) <= steps)%nat -> 65536 - entry_of fnp <= Z.of_nat ents ->
  exists found rc fnp' s' k', search cf steps ents stop fnp s = Some (found, rc, fnp', s') /\
    evolves v s v s' /\ dir_node v fnp' c cs /\ searched fnp fnp' k' /\
    first_entry (nth_entry v c cs) stop (entry_of fnp) k' /\
    (found, rc) = outcome (nth_entry v c cs) k' /\
    match nth_entry v c cs k' with Some e => has_read c cs k' e fnp' | None => True end.
Proof.
  induction ents as [|ents IH]; intros v s fnp c cs Hm Hl Hn Hk Hst He; [lia|].
  destruct (dir_read_spec v s fnp c cs Hm Hl Hn Hk Hst) as (rc & fnp1 & s1 & E & Hev & Hn1 & Hsd & Hres).
  cbn [search]. rewrite E.
  assert (Hstay : searched fnp fnp1 (entry_of fnp)).
  { destruct Hsd as (H1 & H2 & H3 & H4). split_and!; try done. rewrite H2. unfold entry_of. by destruct (f_dmp fnp). }
  destruct (nth_entry v c cs (entry_of fnp)) as [e|] eqn:Een.
  2: { destruct Hres as [-> Hd]. change (DE_SEEK =? 1) with false. cbv iota.
       exists false, DE_SEEK, fnp1, s1, (entry_of fnp). unfold outcome. rewrite Een.
       split_and!; try done; first [apply first_entry_here; [lia|by rewrite Een]|by rewrite Een]. }
  destruct Hres as [-> Hread]. destruct (occupied e) eqn:Eo.
  2: { change (0 =? 1) with false. cbv iota.
       exists false, 0, fnp1, s1, (entry_of fnp). unfold outcome. rewrite Een, Eo.
       split_and!; try done; first [apply first_entry_here; [lia|by rewrite Een, Eo]|by rewrite Een]. }
  change (1 =? 1) with true. cbv iota. rewrite (proj1 Hread).
  destruct (stop e) eqn:Es.
  { exists true, 1, fnp1, s1, (entry_of fnp). unfold outcome. rewrite Een, Eo.
    split_and!; try done; first [apply first_entry_here; [lia|by rewrite Een]|by rewrite Een]. }
  assert (entry_of fnp < 65535) as Hlt.
  { destruct (Z.lt_ge_cases (entry_of fnp) 65535); [done|]. exfalso.
    unfold nth_entry in Een. by rewrite (proj2 (Z.leb_le _ _)) in Een by lia. }
  unfold next_entry. assert (dm_entry (f_dmp fnp1) = entry_of fnp) as -> by (by destruct Hsd as (_ & -> & _)).
  rewrite u16_id by lia.
  destruct (IH v s1 (set_entry (entry_of fnp + 1) fnp1) c cs) as (fd & rc & fnp' & s' & k' & E' & Hev' & Hn' & Hs' & Hf & Ho & Hr);
    [apply Hev|done|by apply dir_node_entry|rewrite set_entry_entry; lia|done|rewrite set_entry_entry; lia|].
  rewrite set_entry_entry in Hf.
  exists fd, rc, fnp', s', k'. split; [exact E'|]. split; [by eapply evolves_trans|]. split; [done|].
  split; [by eapply searched_next|]. split; [by eapply first_entry_next|]. done.
Qed.

(** ** Paths *)

(** The directory an entry leads to: none is the root. *)
Definition start_of (c : Z) : Z := if (c =? 0) && ISFAT32 g then dpb_xrootclst g else c.

Lemma dir_init_spec v s fnp c cs : mounted v s -> f_dpb fnp = p -> dir_chain v (start_of c) cs ->
  dir_node v (dir_init_fnode fnp c s) (start_of c) cs.
Proof.
  intros Hm Hp Hc. unfold dir_init_fnode. rewrite Hp, (fat32_geom cf p g v s Hm).
  assert (dpb_xrootclst (bc_dpb s p) = dpb_xrootclst g) as -> by (by rewrite <- (m_geom _ _ _ _ _ Hm)).
  fold (start_of c). split_and!; try done. intros Hne.
  destruct Hc as [[? _]|(_ & Hnil & Hc)]; [done|]. destruct cs as [|x cs]; [done|].
  destruct Hc as (Ex & Hr & Hc). split; [|split]; [|done|cbn; by rewrite Ex].
  unfold dstart. cbn. by split.
Qed.

Definition is_dir (e : dirent) : bool := negb (Z.land (dir_attrib e) D_DIR =? 0).
Definition dir_match (n : list Z) (e : dirent) : bool :=
  (Z.land (dir_attrib e) D_VOLID =? 0) && fcbmatch n (dir_name e).

(** From the directory [c], the names lead to a directory, or to none. *)
Inductive resolves (v : Z -> Z -> list Z) : Z -> list Z -> list (list Z) -> option (Z * list Z) -> Prop :=
  | resolves_here c cs : dir_chain v c cs -> resolves v c cs [] (Some (c, cs))
  | resolves_down c cs n ns k e cs' r :
      dir_chain v c cs -> first_entry (nth_entry v c cs) (dir_match n) 0 k ->
      nth_entry v c cs k = Some e -> occupied e = true -> is_dir e = true ->
      resolves v (start_of (getdstart g e)) cs' ns r -> resolves v c cs (n :: ns) r
  | resolves_none c cs n ns k :
      dir_chain v c cs -> first_entry (nth_entry v c cs) (dir_match n) 0 k ->
      match nth_entry v c cs k with Some e => occupied e = true -> is_dir e = false | None => True end ->
      resolves v c cs (n :: ns) None.

Lemma resolves_chain v c cs ns r : resolves v c cs ns r -> dir_chain v c cs.
Proof. by destruct 1. Qed.

Lemma first_entry_unique entry stop k k1 k2 :
  first_entry entry stop k k1 -> first_entry entry stop k k2 -> k1 = k2.
Proof.
  intros (H1 & B1 & A1) (H2 & B2 & A2). destruct (Z.lt_trichotomy k1 k2) as [Hlt|[->|Hlt]]; [|done|].
  - destruct (B2 k1 ltac:(lia)) as (e & E & Ho & Hs). rewrite E in A1. rewrite A1 in Hs by done. done.
  - destruct (B1 k2 ltac:(lia)) as (e & E & Ho & Hs). rewrite E in A2. rewrite A2 in Hs by done. done.
Qed.

(** A component of a path: a base name and an extension. *)
Definition comp : Type := list Z * list Z.
Definition comp_ok (x : comp) : Prop := part_ok FNAME_SIZE x.1 /\ part_ok FEXT_SIZE x.2 /\ x.1 <> [].
Definition fcb (x : comp) : list Z := fcb_name x.1 x.2.
Definition path_of (l : list comp) : list Z := concat (map (fun x => ch "\" :: sz_name x.1 x.2) l).

Lemma path_of_rest l : path_rest (path_of l).
Proof. by destruct l. Qed.

Lemma path_of_nil l : path_of l = [] <-> l = [].
Proof. by destruct l. Qed.

Lemma sz_name_cons x : comp_ok x -> exists c l, sz_name x.1 x.2 = c :: l.
Proof. intros (_ & _ & Hne). destruct x as [[|c b] e]; [done|]. by eexists _, _. Qed.

Lemma walk_step x l fuel ents split fnp s : comp_ok x ->
  walk cf steps (Datatypes.S fuel) ents (path_of (x :: l)) split fnp s =
  let fnp := with_dm (with_dm_pat (fcb x)) fnp in
  if split && bool_decide (path_of l = []) then Some (true, fnp, s)
  else
    let* (i, _, fnp, s) := search cf steps ents (dir_match (fcb x)) fnp s in
    if negb i || (Z.land (dir_attrib (f_dir fnp)) D_DIR =? 0) then Some (false, fnp, s)
    else walk cf steps fuel ents (path_of l) split
           (set_entry 0 (dir_init_fnode fnp (getdstart (bc_dpb s (f_dpb fnp)) (f_dir fnp)) s)) s.
Proof.
  intros Hx. destruct (sz_name_cons x Hx) as (c & m & E). destruct Hx as (H1 & H2 & _).
  pose proof (to_83 x.1 x.2 (path_of l) H1 H2 (path_of_rest l)) as Ec.
  cbn [walk]. change (path_of (x :: l)) with (ch "\" :: sz_name x.1 x.2 ++ path_of l).
  rewrite E in Ec |- *. cbn [app] in Ec |- *. rewrite Ec. reflexivity.
Qed.

(** What a walk does not enter: the last component, when it is split off. *)
Definition split_off (split : bool) (tail : list comp) : Prop :=
  match tail with [] => split = false | [x] => split = true /\ comp_ok x | _ => False end.

Lemma pat_node v fnp c cs n : dir_node v fnp c cs -> dir_node v (with_dm (with_dm_pat n) fnp) c cs.
Proof. intros (H1 & H2 & H3 & H4 & H5). by split_and!. Qed.

Lemma set_entry_same k fnp : entry_of fnp = k -> set_entry k fnp = fnp.
Proof. intros <-. by destruct fnp as [? [] ? ? ? ? ? ? ? ?]. Qed.

Lemma searched_pat fnp fnp' k : searched fnp fnp' k -> dm_name_pat (f_dmp fnp') = dm_name_pat (f_dmp fnp).
Proof. by intros (-> & _). Qed.

Lemma walk_spec split tail ents dirs : forall v s fnp c cs r fuel,
  mounted v s -> layout_ok v -> (Z.to_nat (max_cluster g) <= steps)%nat -> 65536 <= Z.of_nat ents ->
  dir_node v fnp c cs -> entry_of fnp = 0 -> Forall comp_ok dirs -> split_off split tail ->
  resolves v c cs (map fcb dirs) r -> (length (dirs ++ tail) < fuel)%nat ->
  exists fnp' s', walk cf steps fuel ents (path_of (dirs ++ tail)) split fnp s =
      Some (bool_decide (is_Some r), fnp', s') /\ evolves v s v s' /\
    match r with
    | Some (c', cs') => dir_node v fnp' c' cs' /\ entry_of fnp' = 0 /\
        match tail with [x] => dm_name_pat (f_dmp fnp') = fcb x | _ => True end
    | None => True
    end.
Proof.
  induction dirs as [|x dirs IH]; intros v s fnp c cs r fuel Hm Hl Hst He Hn Hk Hok Hsp Hres Hf;
    (destruct fuel as [|fuel]; [lia|]).
  - inversion Hres; subst. rewrite bool_decide_true by by eexists. cbn [app].
    destruct tail as [|x [|]]; [|destruct Hsp as [-> Hx]|done].
    + exists fnp, s. cbn. split_and!; try done; by apply evolves_refl.
    + rewrite walk_step by done. exists (with_dm (with_dm_pat (fcb x)) fnp), s. cbn.
      split_and!; try done; first [by apply evolves_refl|by apply pat_node].
  - apply list.Forall_cons in Hok as [Hx Hok]. cbn [app map] in *. rewrite walk_step by done. cbv zeta.
    assert (split && bool_decide (path_of (dirs ++ tail) = []) = false) as ->.
    { destruct tail as [|t [|]]; [by rewrite Hsp|destruct Hsp as [-> _]|done].
      rewrite bool_decide_false; [done|]. rewrite path_of_nil. by destruct dirs. }
    set (fnp1 := with_dm (with_dm_pat (fcb x)) fnp).
    destruct (search_spec (dir_match (fcb x)) ents v s fnp1 c cs Hm Hl ltac:(by apply pat_node)
      ltac:(change (entry_of fnp1) with (entry_of fnp); lia) Hst ltac:(change (entry_of fnp1) with (entry_of fnp); lia))
      as (fd & rc & fnp2 & s2 & k' & -> & Hev & Hn2 & Hs2 & Hf2 & Ho & Hr2).
    change (entry_of fnp1) with (entry_of fnp) in Hf2. rewrite Hk in Hf2.
    inversion Hres as [|? ? ? ? k e cs' ? Hch Hfirst He1 Ho1 Hd1 Hres'|? ? ? ? k Hch Hfirst He1]; subst.
    + pose proof (first_entry_unique _ _ _ _ _ Hf2 Hfirst) as ->.
      unfold outcome in Ho. rewrite He1, Ho1 in Ho. injection Ho as -> ->. rewrite He1 in Hr2.
      rewrite (proj1 Hr2). cbn [negb orb].
      unfold is_dir in Hd1. apply negb_true_iff in Hd1. rewrite Hd1.
      pose proof (ev_mounted _ _ _ _ _ _ _ Hev) as Hm2.
      assert (f_dpb fnp2 = p) as Hp2 by apply Hn2.
      rewrite Hp2, (getdstart_geom cf p g v s2 e Hm2).
      destruct (IH v s2 (set_entry 0 (dir_init_fnode fnp2 (getdstart g e) s2)) (start_of (getdstart g e)) cs' r fuel)
        as (fnp' & s' & E & Hev' & Hfin); try done.
      * apply dir_node_entry, dir_init_spec; [done|done|]. by eapply resolves_chain.
      * cbn [length] in Hf. lia.
      * exists fnp', s'. split; [exact E|]. split; [by eapply evolves_trans|done].
    + pose proof (first_entry_unique _ _ _ _ _ Hf2 Hfirst) as ->. rewrite bool_decide_false by (by intros [? ?]).
      exists fnp2, s2. split; [|done]. unfold outcome in Ho.
      destruct (nth_entry v c cs k) as [e|]; [|by injection Ho as -> ->].
      destruct (occupied e) eqn:Eo; [|by injection Ho as -> ->]. injection Ho as -> ->.
      rewrite (proj1 Hr2). cbn [negb orb]. specialize (He1 eq_refl). unfold is_dir in He1.
      apply negb_false_iff in He1. by rewrite He1.
Qed.

Context `{!DosState S}.

(** The root directory. *)
Definition root : Z := start_of 0.

(** A full path on drive [c]. *)
Definition full_path (c : Z) (l : list comp) : list Z := c :: ch ":" :: path_of l.

Lemma last_char_ok l x : comp_ok x -> exists c, head (rev (path_of (l ++ [x]))) = Some c /\ c <> ch "\".
Proof.
  intros Hx. destruct (sz_name_cons x Hx) as (d & m & E). destruct Hx as ((_ & Hb & _) & (_ & He & _) & _).
  unfold path_of. rewrite map_app, concat_app. cbn [map concat]. rewrite app_nil_r, rev_app_distr.
  change (ch "\" :: sz_name x.1 x.2) with ([ch "\"] ++ sz_name x.1 x.2). rewrite rev_app_distr.
  assert (Forall (fun c => c <> ch "\") (sz_name x.1 x.2)) as Hs.
  { unfold sz_name. apply list.Forall_app. split; [eapply Forall_impl; [|exact Hb]; by intros ? (? & ? & ?)|].
    case_bool_decide; [constructor|]. constructor; [done|]. eapply Forall_impl; [|exact He]; by intros ? (? & ? & ?). }
  destruct (rev (sz_name x.1 x.2)) as [|c r] eqn:Er.
  { apply (f_equal length) in Er. rewrite length_rev, E in Er. done. }
  exists c. split; [done|]. rewrite list.Forall_forall in Hs. apply Hs.
  apply list_elem_of_In, in_rev. rewrite Er. by left.
Qed.

Lemma split_path_spec ents v s fnp c dirs x cs r :
  mounted v s -> layout_ok v -> (Z.to_nat (max_cluster g) <= steps)%nat -> 65536 <= Z.of_nat ents ->
  get_dpb (c - ch "A") s = Some p -> Forall comp_ok dirs -> comp_ok x ->
  resolves v root cs (map fcb dirs) r ->
  exists fnp' s', split_path cf steps ents (full_path c (dirs ++ [x])) fnp s =
      Some (bool_decide (is_Some r), fnp', s') /\ evolves v s v s' /\
    match r with
    | Some (c', cs') => dir_node v fnp' c' cs' /\ entry_of fnp' = 0 /\ dm_name_pat (f_dmp fnp') = fcb x
    | None => True
    end.
Proof.
  intros Hm Hl Hst He Hp Hok Hx Hres. unfold split_path, full_path.
  destruct (last_char_ok dirs x Hx) as (d & Hd & Hne).
  assert (head (rev (c :: ch ":" :: path_of (dirs ++ [x]))) = Some d) as ->.
  { change (c :: ch ":" :: path_of (dirs ++ [x])) with ([c; ch ":"] ++ path_of (dirs ++ [x])).
    rewrite rev_app_distr. destruct (rev (path_of (dirs ++ [x]))); [done|exact Hd]. }
  rewrite (proj2 (Z.eqb_neq d _)) by done. unfold dir_open. cbn [head]. rewrite Hp.
  eapply (walk_spec true [x]); try done.
  - apply dir_node_entry, dir_init_spec; [done|done|]. by eapply resolves_chain.
  - cbn [length]. assert (length (dirs ++ [x]) <= length (path_of (dirs ++ [x])))%nat; [|lia].
    unfold path_of. generalize (dirs ++ [x]). intros l. induction l as [|y l IH]; [done|].
    cbn. rewrite length_app. lia.
Qed.

Definition file_match (n : list Z) (attr : Z) (e : dirent) : bool :=
  fcbmatch (dir_name e) n && (Z.land (dir_attrib e) (Z.lnot (Z.lor (Z.lor D_RDONLY D_ARCHIVE) attr)) =? 0).

(** What a search for a name gives. *)
Definition found_file v c cs (stop : dirent -> bool) (rc : Z) (fnp' : f_node) : Prop :=
  exists k, first_entry (nth_entry v c cs) stop 0 k /\ dir_node v fnp' c cs /\ entry_of fnp' = k /\
    match nth_entry v c cs k with
    | Some e => if occupied e then rc = SUCCESS /\ has_read c cs k e fnp' else rc = DE_FILENOTFND
    | None => rc = DE_FILENOTFND
    end.

Lemma find_fname_spec ents v s fnp c dirs x cs r attr :
  mounted v s -> layout_ok v -> (Z.to_nat (max_cluster g) <= steps)%nat -> 65536 <= Z.of_nat ents ->
  get_dpb (c - ch "A") s = Some p -> Forall comp_ok dirs -> comp_ok x ->
  resolves v root cs (map fcb dirs) r ->
  exists rc fnp' s', find_fname cf steps ents (full_path c (dirs ++ [x])) attr fnp s = Some (rc, fnp', s') /\
    evolves v s v s' /\
    match r with
    | Some (c', cs') => found_file v c' cs' (file_match (fcb x) attr) rc fnp'
    | None => rc = DE_PATHNOTFND
    end.
Proof.
  intros Hm Hl Hst He Hp Hok Hx Hres. unfold find_fname.
  destruct (split_path_spec ents v s fnp c dirs x cs r Hm Hl Hst He Hp Hok Hx Hres)
    as (fnp1 & s1 & -> & Hev & Hr1).
  destruct r as [[c' cs']|].
  2: { rewrite bool_decide_false by (by intros [? ?]). by exists DE_PATHNOTFND, fnp1, s1. }
  rewrite bool_decide_true by by eexists. cbn [negb]. destruct Hr1 as (Hn1 & Hk1 & ->).
  destruct (search_spec (file_match (fcb x) attr) ents v s1 fnp1 c' cs' (ev_mounted _ _ _ _ _ _ _ Hev) Hl Hn1
    ltac:(lia) Hst ltac:(lia)) as (fd & rc & fnp2 & s2 & k & E & Hev2 & Hn2 & Hs2 & Hf2 & Ho & Hr2).
  unfold file_match in E at 1. rewrite E. exists (if fd then SUCCESS else DE_FILENOTFND), fnp2, s2.
  split; [done|]. split; [by eapply evolves_trans|]. exists k. rewrite Hk1 in Hf2.
  split; [done|]. split; [done|]. split; [by destruct Hs2 as (E2 & _); unfold entry_of; rewrite E2|].
  unfold outcome in Ho. destruct (nth_entry v c' cs' k) as [e|]; [|by injection Ho as -> _].
  destruct (occupied e); by injection Ho as -> _.
Qed.

(** ** Searching with wildcards *)

Lemma matches_entry k dm e : matches (with_dm_entry k dm) e = matches dm e.
Proof. reflexivity. Qed.

(** The entry counted after a search with wildcards: behind the one found. *)
Lemma findnext_loop_spec ents : forall v s fnp c cs,
  mounted v s -> layout_ok v -> dir_node v fnp c cs -> 0 <= entry_of fnp < 65536 ->
  (Z.to_nat (max_cluster g) <= steps)%nat -> 65536 - entry_of fnp <= Z.of_nat ents ->
  exists rc fnp' s' k', findnext_loop cf steps ents fnp s = Some (rc, fnp', s') /\
    evolves v s v s' /\ dir_node v fnp' c cs /\
    first_entry (nth_entry v c cs) (matches (f_dmp fnp)) (entry_of fnp) k' /\
    match nth_entry v c cs k' with
    | Some e => if occupied e
                then rc = SUCCESS /\ has_read c cs k' e fnp' /\ searched fnp fnp' (k' + 1)
                else rc = DE_NFILES /\ searched fnp fnp' k'
    | None => rc = DE_NFILES /\ searched fnp fnp' k'
    end.
Proof.
  induction ents as [|ents IH]; intros v s fnp c cs Hm Hl Hn Hk Hst He; [lia|].
  destruct (dir_read_spec v s fnp c cs Hm Hl Hn Hk Hst) as (rc & fnp1 & s1 & E & Hev & Hn1 & Hsd & Hres).
  cbn [findnext_loop]. rewrite E.
  assert (Hstay : searched fnp fnp1 (entry_of fnp)).
  { destruct Hsd as (H1 & H2 & H3 & H4). split_and!; try done. rewrite H2. unfold entry_of. by destruct (f_dmp fnp). }
  destruct (nth_entry v c cs (entry_of fnp)) as [e|] eqn:Een.
  2: { destruct Hres as [-> Hd]. change (DE_SEEK =? 1) with false. cbv iota.
       exists DE_NFILES, fnp1, s1, (entry_of fnp). rewrite Een.
       split_and!; try done; apply first_entry_here; [lia|by rewrite Een]. }
  destruct Hres as [-> Hread]. destruct (occupied e) eqn:Eo.
  2: { change (0 =? 1) with false. cbv iota.
       exists DE_NFILES, fnp1, s1, (entry_of fnp). rewrite Een, Eo.
       split_and!; try done. apply first_entry_here; [lia|by rewrite Een, Eo]. }
  change (1 =? 1) with true. cbv iota zeta.
  assert (entry_of fnp < 65535) as Hlt.
  { destruct (Z.lt_ge_cases (entry_of fnp) 65535); [done|]. exfalso.
    unfold nth_entry in Een. by rewrite (proj2 (Z.leb_le _ _)) in Een by lia. }
  unfold next_entry. pose proof Hsd as (_ & Edm & _). rewrite Edm. fold (entry_of fnp).
  rewrite u16_id by lia. set (fnp2 := set_entry (entry_of fnp + 1) fnp1).
  assert (searched fnp fnp2 (entry_of fnp + 1)) as Hnext.
  { destruct Hsd as (H1 & H2 & H3 & H4). split_and!; try done. cbn. by rewrite H2. }
  assert (f_dir fnp2 = e) as -> by apply Hread.
  assert (matches (f_dmp fnp2) e = matches (f_dmp fnp) e) as -> by (by rewrite (proj1 Hnext), matches_entry).
  destruct (matches (f_dmp fnp) e) eqn:Es.
  { exists SUCCESS, fnp2, s1, (entry_of fnp). rewrite Een, Eo.
    split_and!; try done; first [by apply dir_node_entry|apply Hread|apply first_entry_here; [lia|by rewrite Een]]. }
  destruct (IH v s1 fnp2 c cs) as (rc & fnp' & s' & k' & E' & Hev' & Hn' & Hf & Hr);
    [apply Hev|done|by apply dir_node_entry|change (entry_of fnp2) with (entry_of fnp + 1); lia|done
    |change (entry_of fnp2) with (entry_of fnp + 1); lia|].
  change (entry_of fnp2) with (entry_of fnp + 1) in Hf.
  exists rc, fnp', s', k'. split; [exact E'|]. split; [by eapply evolves_trans|]. split; [done|].
  assert (forall q, searched fnp2 fnp' q -> searched fnp fnp' q) as Hsr.
  { intros q. apply (searched_next fnp fnp1 fnp' (entry_of fnp + 1) q Hsd). }
  split.
  - eapply first_entry_next; [done|done|done|].
    destruct Hf as (B1 & B2 & B3).
    assert (forall e, matches (f_dmp fnp2) e = matches (f_dmp fnp) e) as Hm2
      by (intros; by rewrite (proj1 Hnext), matches_entry).
    split; [done|]. split.
    + intros j Hj. destruct (B2 j Hj) as (e' & ? & ? & ?). exists e'. by rewrite <- Hm2.
    + destruct (nth_entry v c cs k'); [|done]. by rewrite <- Hm2.
  - destruct (nth_entry v c cs k') as [e'|]; [|split; [apply Hr|apply Hsr, Hr]].
    destruct (occupied e'); split_and!; try apply Hr; apply Hsr, Hr.
Qed.

Lemma dos_findnext_spec ents v s fnp cs :
  mounted v s -> layout_ok v -> (Z.to_nat (max_cluster g) <= steps)%nat -> 65536 <= Z.of_nat ents ->
  0 <= entry_of fnp < 65536 ->
  get_dpb (dm_drive (f_dmp fnp)) s = Some p -> ds_media_check p s = Some (SUCCESS, s) ->
  let c := start_of (dm_dircluster (f_dmp fnp)) in
  dir_chain v c cs ->
  exists rc fnp' s' k', dos_findnext cf steps ents fnp s = Some (rc, fnp', s') /\ evolves v s v s' /\
    dir_node v fnp' c cs /\ first_entry (nth_entry v c cs) (matches (f_dmp fnp)) (entry_of fnp) k' /\
    dm_drive (f_dmp fnp') = dm_drive (f_dmp fnp) /\ dm_name_pat (f_dmp fnp') = dm_name_pat (f_dmp fnp) /\
    dm_attr_srch (f_dmp fnp') = dm_attr_srch (f_dmp fnp) /\
    match nth_entry v c cs k' with
    | Some e => if occupied e then rc = SUCCESS /\ has_read c cs k' e fnp' /\ entry_of fnp' = k' + 1
                else rc = DE_NFILES /\ entry_of fnp' = k'
    | None => rc = DE_NFILES /\ entry_of fnp' = k'
    end.
Proof.
  cbv zeta. intros Hm Hl Hst He Hk Hp Hmc Hc. unfold dos_findnext. rewrite Hp, Hmc.
  change (SUCCESS <? 0) with false. cbv iota. set (c := start_of _) in *.
  set (fnp1 := dir_init_fnode (with_f_dpb p fnp) (dm_dircluster (f_dmp (with_f_dpb p fnp))) s).
  assert (dir_node v fnp1 c cs) as Hn1 by (by apply (dir_init_spec v s (with_f_dpb p fnp) (dm_dircluster (f_dmp fnp)))).
  assert (dm_drive (f_dmp fnp1) = dm_drive (f_dmp fnp) /\ dm_name_pat (f_dmp fnp1) = dm_name_pat (f_dmp fnp) /\
    dm_attr_srch (f_dmp fnp1) = dm_attr_srch (f_dmp fnp) /\ entry_of fnp1 = entry_of fnp) as (D1 & D2 & D3 & D4) by done.
  assert (forall e, matches (f_dmp fnp1) e = matches (f_dmp fnp) e) as Hmt by done.
  destruct (findnext_loop_spec ents v s fnp1 c cs Hm Hl Hn1 ltac:(lia) Hst ltac:(lia))
    as (rc & fnp' & s' & k' & E & Hev & Hn' & Hf & Hr).
  exists rc, fnp', s', k'. rewrite D4 in Hf. split; [exact E|]. split; [done|]. split; [done|]. split; [exact Hf|].
  assert (forall q, searched fnp1 fnp' q -> (dm_drive (f_dmp fnp') = dm_drive (f_dmp fnp) /\
    dm_name_pat (f_dmp fnp') = dm_name_pat (f_dmp fnp) /\ dm_attr_srch (f_dmp fnp') = dm_attr_srch (f_dmp fnp)) /\
    entry_of fnp' = q) as Hsr.
  { intros q (Eq & _). unfold entry_of. rewrite Eq. done. }
  destruct (nth_entry v c cs k') as [e|]; [destruct (occupied e)|].
  - destruct Hr as (-> & Hr & Hs). destruct (Hsr _ Hs) as [(? & ? & ?) ?]. by split_and!.
  - destruct Hr as (-> & Hs). destruct (Hsr _ Hs) as [(? & ? & ?) ?]. by split_and!.
  - destruct Hr as (-> & Hs). destruct (Hsr _ Hs) as [(? & ? & ?) ?]. by split_and!.
Qed.

(** ** Writing an entry *)

Lemma swap_deleted_twice n : swap_deleted (swap_deleted n) = n.
Proof.
  destruct n as [|c n]; [done|]. unfold swap_deleted at 2.
  destruct (Z.eqb_spec c DELETED) as [->|H5]; [done|].
  destruct (Z.eqb_spec c EXT_DELETED) as [->|He5]; [done|].
  cbn [orb]. unfold swap_deleted.
  by rewrite (proj2 (Z.eqb_neq c DELETED)), (proj2 (Z.eqb_neq c EXT_DELETED)) by done.
Qed.

Lemma swap_entry_twice e : swap_entry (swap_entry e) = e.
Proof. destruct e. unfold swap_entry, with_dir_name. cbn. by rewrite swap_deleted_twice. Qed.

(** The mark volume sets [with_data]. *)
Lemma write_flags fl :
  let fl' := Z.lor (clear (Z.lor BFR_DATA BFR_FAT) fl) (Z.lor (Z.lor BFR_DIR BFR_DIRTY) BFR_VALID) in
  has BFR_VALID fl' = true /\ has BFR_FAT fl' = false /\ has BFR_DIRTY fl' = true.
Proof.
  cbv zeta. unfold clear. change BFR_VALID with (2 ^ 5). change BFR_DIRTY with (2 ^ 6).
  change BFR_FAT with (2 ^ 1). rewrite !has_bit by lia.
  rewrite !Z.lor_spec, !Z.land_spec, !Z.lnot_spec by lia.
  change (Z.lor BFR_DATA (2 ^ 1)) with 10.
  repeat split; cbn; rewrite ?orb_true_r, ?orb_false_r, ?andb_true_r, ?andb_false_r; done.
Qed.

(** A block of data changes: the volume is as it was. *)
Lemma mounted_agree v s v' s' l' : mounted v s -> bc_rep cf s' l' v' ->
  (forall u n, ~ (u = dpb_unit g /\ data_block n) -> v' u n = v u n) ->
  (forall q, bc_dpb s' q = bc_dpb s q) -> (forall u, bc_drive s u -> bc_drive s' u) ->
  mounted v' s' /\ forall m, fat_at g v' m = fat_at g v m.
Proof.
  intros [Hg Hr Hv Hd Hi Hf Hh Hc] Hr' Hag Hdp Hdr.
  assert (Hfat : forall sec, 0 <= sec <= last_sector g ->
    v' (dpb_unit g) (fat_start g + sec) = v (dpb_unit g) (fat_start g + sec)).
  { intros sec Hsec. apply Hag. intros [_ (_ & _ & Hnf & _)]. apply Hnf. lia. }
  assert (He : forall m, 2 <= m <= max_cluster g -> entry g v' m = entry g v m)
    by (intros; by apply (entry_ext (primary := primary) g v v')).
  split; [split|]; rewrite ?Hdp; try done.
  - by exists l'.
  - by apply Hdr.
  - intros sec Hsec. rewrite Hfat by done. by apply Hi.
  - destruct Hf as (H1 & H2 & H3). split; [done|]. split; [done|].
    destruct H3 as [H3|(H3 & H4 & H5 & H6 & H7)]; [by left|right].
    assert (v' (dpb_unit (bc_dpb s p)) (dpb_xfsinfosec (bc_dpb s p)) =
      v (dpb_unit (bc_dpb s p)) (dpb_xfsinfosec (bc_dpb s p))) as ->; [|exact (conj H3 (conj H4 (conj H5 (conj H6 H7))))].
    apply Hag. intros [_ (_ & _ & _ & Hni)]. apply Hni. rewrite <- Hg.
    change (dpb_xfsinfosec (geometry (bc_dpb s p))) with (dpb_xfsinfosec (bc_dpb s p)). lia.
  - destruct Hc as [Hc|Hc]; [by left|right]. rewrite Hc.
    change (free_count (geometry (bc_dpb s p)) v = free_count (geometry (bc_dpb s p)) v').
    rewrite Hg. symmetry. by apply (free_count_ext (primary := primary)).
  - intros m. unfold fat_at. destruct (in_range g m) eqn:Em; [|done].
    apply andb_true_iff in Em as [?%Z.leb_le ?%Z.leb_le]. by rewrite He.
Qed.

Lemma mounted_data v s n s' l' data : mounted v s -> data_block n ->
  bc_rep cf s' l' (upd_image v (dpb_unit g) n data) ->
  (forall q, bc_dpb s' q = bc_dpb s q) -> (forall u, bc_drive s u -> bc_drive s' u) ->
  mounted (upd_image v (dpb_unit g) n data) s' /\
  forall m, fat_at g (upd_image v (dpb_unit g) n data) m = fat_at g v m.
Proof.
  intros Hm Hn Hr' Hdp Hdr. eapply mounted_agree; try done. intros u b Hub. unfold upd_image.
  rewrite decide_False; [done|]. intros [-> ->]. by apply Hub.
Qed.

(** What an entry looks like as bytes. *)
Record dirent_ok (e : dirent) : Prop := {
  de_name : length (dir_name e) = 11%nat /\ bytes (dir_name e);
  de_attrib : is_byte (dir_attrib e);
  de_case : is_byte (dir_case e);
  de_crtimems : is_byte (dir_crtimems e);
  de_crtime : 0 <= dir_crtime e < 65536;
  de_crdate : 0 <= dir_crdate e < 65536;
  de_accdate : 0 <= dir_accdate e < 65536;
  de_high : 0 <= dir_start_high e < 65536;
  de_time : 0 <= dir_time e < 65536;
  de_date : 0 <= dir_date e < 65536;
  de_start : 0 <= dir_start e < 65536;
  de_size : 0 <= dir_size e < 4294967296 }.

Lemma swap_entry_ok e : dirent_ok e -> dirent_ok (swap_entry e).
Proof.
  intros [[Hl Hb] ? ? ? ? ? ? ? ? ? ? ?]. split; try done. cbn. destruct (dir_name e) as [|c l]; [done|].
  cbn. destruct (_ || _) eqn:E; [|done]. split; [done|]. inversion Hb; subst. constructor; [|done].
  apply orb_true_iff in E as [->%Z.eqb_eq| ->%Z.eqb_eq]; done.
Qed.

Lemma le16_value v : 0 <= v < 65536 -> u8 v + 256 * u8 (Z.shiftr v 8) = v.
Proof. intros H0. rewrite Z.shiftr_div_pow2 by lia. change (2 ^ 8) with 256. word_lia. Qed.

(** Reading the fields of 32 bytes given one by one. *)
Ltac dirent_cbn :=
  cbn -[u8 Z.shiftr getdirent]; unfold getdirent, get32, get16, at_;
  repeat match goal with |- context [Z.pos ?a + Z.pos ?b] =>
    let c := eval cbv in (Z.pos a + Z.pos b) in change (Z.pos a + Z.pos b) with c end;
  cbn -[u8 Z.shiftr Z.mul Z.add];
  repeat match goal with |- context [Z.to_nat (Z.pos ?a)] =>
    let c := eval cbv in (Z.to_nat (Z.pos a)) in change (Z.to_nat (Z.pos a)) with c end;
  cbn -[u8 Z.shiftr Z.mul Z.add].

(** An entry written is the entry read. *)
Lemma get_putdirent e : dirent_ok e -> getdirent (putdirent e) = Some e /\
  length (putdirent e) = 32%nat /\ bytes (putdirent e).
Proof.
  intros [[Hl Hb] ? ? ? ? ? ? ? ? ? ? ?]. split; [|split].
  - destruct e as [n a c ms ct cd ad hi ti da st sz]. cbn in *.
    do 11 (destruct n as [|? n]; [done|]). destruct n; [|done].
    unfold putdirent, le16, le32. dirent_cbn.
    rewrite !le16_value by done.
    do 2 f_equal. by apply word32_bytes.
  - unfold putdirent. rewrite !length_app, Hl. done.
  - unfold putdirent, le16, le32. repeat (apply list.Forall_app; split); try done;
      repeat (constructor; [first [done|apply u8_range]|]); constructor.
Qed.

(** Blocks of different clusters are different. *)
Definition data_start : Z := if ISFAT32 g then dpb_xdata g else dpb_data g.
Definition layout_fits : Prop :=
  0 <= data_start /\ data_start + (max_cluster g - 1) * 2 ^ dpb_shftcnt g <= 4294967296.

Lemma clus2phys_value c : layout_fits -> 0 <= dpb_shftcnt g <= 7 -> 2 <= c <= max_cluster g ->
  max_cluster g < LONG_BAD -> clus2phys c g = data_start + (c - 2) * 2 ^ dpb_shftcnt g.
Proof.
  intros [H0 Hf] Hs Hc Hmx. unfold LONG_BAD in Hmx. unfold clus2phys. fold data_start.
  assert (0 < 2 ^ dpb_shftcnt g) by (apply Z.pow_pos_nonneg; lia).
  rewrite (u32_id (c - 2)) by lia. rewrite Z.shiftl_mul_pow2 by lia.
  rewrite (u32_id (_ * _)) by nia. rewrite u32_id by nia. lia.
Qed.

Lemma dir_slot_inj v c cs j k sl : volume_ok primary g -> layout_ok v -> layout_fits -> dir_chain v c cs ->
  0 <= j -> 0 <= k -> dir_slot c cs j = Some sl -> dir_slot c cs k = Some sl -> j = k.
Proof.
  intros Hv Hl Hf Hc Hj Hk Ej Ek. unfold dir_slot in *.
  assert (forall a b, a / 16 = b / 16 -> a mod 16 = b mod 16 -> a = b) as Hdm
    by (intros a b Ha Hb; Z.div_mod_to_equations; lia).
  destruct (Z.eqb_spec c 0) as [->|Hne].
  - destruct (j <? _), (k <? _); try done. injection Ej as <-. injection Ek as E1 E2. apply Hdm; lia.
  - destruct (cs !! Z.to_nat (relcluster_of g (j * 32))) as [x|] eqn:Ex; [|done].
    destruct (cs !! Z.to_nat (relcluster_of g (k * 32))) as [y|] eqn:Ey; [|done].
    injection Ej as <-. injection Ek as E1 E2.
    destruct Hc as [[? _]|(_ & _ & Hc)]; [done|]. pose proof (lo_shift _ Hl) as Hs.
    assert (0 < 2 ^ dpb_shftcnt g) as Hpow by (apply Z.pow_pos_nonneg; lia).
    pose proof (v_max _ _ Hv) as Hmx.
    assert (2 <= x <= max_cluster g /\ 2 <= y <= max_cluster g) as [Hx Hy].
    { split; (eapply chain_range; [exact Hc|]); by eapply list_elem_of_lookup_2. }
    rewrite !clus2phys_value in E1 by (done || lia).
    pose proof (Z.mod_pos_bound (j / 16) (2 ^ dpb_shftcnt g) ltac:(lia)).
    pose proof (Z.mod_pos_bound (k / 16) (2 ^ dpb_shftcnt g) ltac:(lia)).
    assert (x = y /\ (j / 16) mod 2 ^ dpb_shftcnt g = (k / 16) mod 2 ^ dpb_shftcnt g) as [<- Em].
    { destruct (Z.div_mod_unique (2 ^ dpb_shftcnt g) (x - 2) (y - 2) ((j / 16) mod 2 ^ dpb_shftcnt g)
        ((k / 16) mod 2 ^ dpb_shftcnt g)) as [? ?]; lia. }
    pose proof (relcluster_range g (j * 32) Hv ltac:(lia) ltac:(lia)).
    pose proof (relcluster_range g (k * 32) Hv ltac:(lia) ltac:(lia)).
    assert (relcluster_of g (j * 32) = relcluster_of g (k * 32)) as Er.
    { apply Z2Nat.inj; [lia|lia|]. eapply list.NoDup_lookup; [|exact Ex|exact Ey].
      eapply chain_NoDup; [exact Hv|exact Hc]. }
    unfold relcluster_of in Er. rewrite (v_secsize _ _ Hv), !Z.shiftr_div_pow2 in Er by lia.
    replace (j * 32 / 512) with (j / 16) in Er by (Z.div_mod_to_equations; lia).
    replace (k * 32 / 512) with (k / 16) in Er by (Z.div_mod_to_equations; lia).
    apply Hdm; [|lia].
    rewrite (Z.div_mod (j / 16) (2 ^ dpb_shftcnt g)), (Z.div_mod (k / 16) (2 ^ dpb_shftcnt g)) by lia.
    by rewrite Er, Em.
Qed.

(** A slot in a block with new bytes in one slot. *)
Lemma slot_bytes_write (v v' : Z -> Z -> list Z) sl sl' bs :
  length bs = 32%nat -> 0 <= sl.2 < 16 -> 0 <= sl'.2 < 16 -> length (v (dpb_unit g) sl.1) = 512%nat ->
  v' = upd_image v (dpb_unit g) sl.1 (splice (Z.to_nat (sl.2 * 32)) bs (v (dpb_unit g) sl.1)) ->
  slot_bytes v' sl' = if decide (sl' = sl) then bs else slot_bytes v sl'.
Proof.
  intros Hbs Hi Hi' Hl ->. unfold slot_bytes, upd_image. destruct sl as [n i], sl' as [n' i']. cbn [fst snd] in *.
  destruct (decide (n' = n)) as [->|Hne].
  2: { rewrite decide_False by tauto. by rewrite decide_False by congruence. }
  rewrite decide_True by done. unfold splice. rewrite Hbs. set (d := v (dpb_unit g) n) in *.
  destruct (decide (i' = i)) as [->|Hne].
  - rewrite decide_True by done. rewrite drop_app_length' by (rewrite length_take; lia).
    by rewrite take_app_length'.
  - rewrite decide_False by congruence. apply list_eq. intros j.
    destruct (lt_dec j 32) as [Hj|Hj].
    2: { rewrite !lookup_ge_None_2; [done|rewrite length_take; lia|rewrite length_take; lia]. }
    rewrite !lookup_take_lt, !lookup_drop by done.
    destruct (decide (i' < i)).
    + rewrite lookup_app_l by (rewrite length_take; lia). by rewrite lookup_take_lt by lia.
    + rewrite lookup_app_r by (rewrite length_take; lia). rewrite length_take.
      rewrite lookup_app_r by lia. rewrite lookup_drop, Hbs. f_equal. lia.
Qed.

Lemma splice_length i (bs d : list Z) : (i + length bs <= length d)%nat -> length (splice i bs d) = length d.
Proof. intros Hi. unfold splice. rewrite !length_app, length_take, length_drop. lia. Qed.

Lemma splice_bytes i bs d : bytes bs -> bytes d -> bytes (splice i bs d).
Proof.
  intros Hb Hd. unfold splice, bytes. apply list.Forall_app. split; [by apply Forall_take|].
  apply list.Forall_app. split; [done|by apply Forall_drop].
Qed.

Lemma chain_fat v v' c cs : (forall m, fat_at g v' m = fat_at g v m) -> chain g v c cs -> chain g v' c cs.
Proof. intros Hf. apply (chain_agree g v v' cs). intros x _. apply Hf. Qed.

Lemma dir_chain_fat v v' c cs : (forall m, fat_at g v' m = fat_at g v m) -> dir_chain v c cs -> dir_chain v' c cs.
Proof. intros Hf [?|(? & ? & Hc)]; [by left|right]. split_and!; try done. by apply (chain_fat v). Qed.

Lemma dir_node_fat v v' fnp c cs : (forall m, fat_at g v' m = fat_at g v m) ->
  dir_node v fnp c cs -> dir_node v' fnp c cs.
Proof.
  intros Hf (H1 & H2 & H3 & H4 & H5). split_and!; try done; [by eapply dir_chain_fat|].
  intros Hc. destruct (H5 Hc) as (G1 & G2 & G3). split_and!; try done. by apply (chain_fat v).
Qed.

(** The volume after an entry was written. *)
Definition entry_written (v v' : Z -> Z -> list Z) (s' : S) (sl : Z * Z) (e : dirent) : Prop :=
  mounted v' s' /\ layout_ok v' /\ (forall m, fat_at g v' m = fat_at g v m) /\
  (forall n, primary (dpb_unit g) n -> bc_disk (primary := primary) s' (dpb_unit g) n = v' (dpb_unit g) n) /\
  (forall c cs j, dir_chain v c cs -> 0 <= j ->
     dir_entry v' c cs j = match dir_slot c cs j with
                           | Some sl' => if decide (sl' = sl) then Some e else dir_entry v c cs j
                           | None => None
                           end).

(** ** Writing an entry *)

(** A call that puts the bytes [w], an entry [e], in the node's slot. *)
Lemma dir_write_slot update v s fnp e :
  mounted v s -> layout_ok v -> f_dpb fnp = p -> data_block (f_dirsector fnp) -> 0 <= f_diridx fnp < 16 ->
  negb update || negb (Z.land (f_flags fnp) (Z.lor SFT_FCLEAN SFT_FDATE) =? SFT_FCLEAN) = true ->
  let w := if update then update_fields (ISFAT32 g) (swap_entry (f_dir fnp)) (slot_bytes v (f_dirsector fnp, f_diridx fnp))
           else putdirent (swap_entry (f_dir fnp)) in
  length w = 32%nat -> bytes w -> getdirent w = Some (swap_entry e) ->
  exists v' s', dir_write_update cf fnp update s = Some (true, s') /\
    entry_written v v' s' (f_dirsector fnp, f_diridx fnp) e /\ (forall q, bc_dpb s' q = bc_dpb s q) /\
    (forall u, bc_drive s u -> bc_drive s' u) /\
    (forall n, data_block n -> n <> f_dirsector fnp -> v' (dpb_unit g) n = v (dpb_unit g) n).
Proof.
  intros Hm Hl Hp Hb Hidx Hcond w Hlen Hby Hget. unfold dir_write_update. rewrite Hcond, Hp.
  pose proof (m_vol _ _ _ _ _ Hm) as Hv.
  assert (dpb_unit (bc_dpb s p) = dpb_unit g) as -> by (by rewrite <- (m_geom _ _ _ _ _ Hm)).
  rewrite (fat32_geom cf p g v s Hm).
  destruct (data_get v s _ Hm Hb) as (x & s1 & l & -> & Hev & Hdp & Hr1 & Hx & Hh).
  set (n := f_dirsector fnp) in *. set (i := f_diridx fnp) in *.
  set (data := splice (Z.to_nat (i * 32)) w (v (dpb_unit g) n)).
  destruct (lo_data _ Hl n Hb) as [Hdl Hdb].
  set (v' := upd_image v (dpb_unit g) n data).
  pose proof (bc_read _ _ _ _ _ _ _ Hr1 Hx Hh) as Hdata. destruct Hh as (Hvx & Hux & Hnx).
  cbv zeta. set (f := fun b : buffer => _).
  assert (Hfd : b_buffer (f (bc_buf s1 x)) = data).
  { unfold f, data, w. cbn [b_buffer with_flag with_data]. rewrite Hdata. by destruct update. }
  destruct (write_flags (b_flag (bc_buf s1 x))) as (F1 & F2 & F3).
  destruct (bc_store cf s1 l v v' x f Hr1 Hx Hvx) as [Hr2 _]; try done.
  { intros Hfat. unfold is_fat in Hfat. cbn in Hfat. rewrite F2 in Hfat. done. }
  { by left. }
  { unfold v', upd_image. rewrite decide_True by done. by rewrite Hfd. }
  { intros u m Hum. unfold v', upd_image. rewrite decide_False; [done|]. rewrite Hux, Hnx in Hum. intros [-> ->]. by apply Hum. }
  set (s2 := bc_upd x f s1) in *.
  destruct (bc_flushed cf s2 l v' (dpb_unit g) Hr2) as (ok & s' & -> & Hdp' & Hdr' & Hok & Hfin).
  specialize (Hok Hrel). subst ok. destruct (Hfin eq_refl) as [Hr' Hdisk].
  assert (Hdps : forall q, bc_dpb s' q = bc_dpb s q).
  { intros q. rewrite Hdp'. unfold s2. by rewrite bc_dpb_upd, Hdp. }
  assert (Hdrs : forall u, bc_drive s u -> bc_drive s' u).
  { intros u Hu. apply Hdr'. unfold s2. apply bc_drive_upd. by apply (ev_drives _ _ _ _ _ _ _ Hev). }
  destruct (mounted_data v s n s' l data Hm Hb Hr' Hdps Hdrs) as [Hm' Hfat']. fold v' in Hm', Hfat'.
  assert (length data = 512%nat /\ bytes data) as [Hdal Hdab].
  { split; [unfold data; rewrite splice_length; lia|]. by apply splice_bytes. }
  exists v', s'. split; [done|]. split; [|split; [done|split; [done|]]].
  2: { intros m _ Hne. unfold v', upd_image. rewrite decide_False; [done|]. by intros [_ ->]. }
  split; [done|]. split; [|split; [done|split; [done|]]].
  - destruct Hl as [L1 L2 L3 L4 L5 L6]. split; try done. intros m Hmb. unfold v', upd_image.
    case_decide; [done|]. by apply L6.
  - intros c' cs' j Hc' Hj. unfold dir_entry. destruct (dir_slot c' cs' j) as [sl'|] eqn:Ej; [|done].
    destruct (dir_slot_block v c' cs' j sl' Hv Hl Hc' Hj Ej) as [_ Hi'].
    rewrite (slot_bytes_write v v' (n, i) sl' w Hlen Hidx Hi' Hdl eq_refl).
    destruct (decide (sl' = (n, i))); [|done]. rewrite Hget. by rewrite swap_entry_twice.
Qed.

Lemma dir_write_spec v s fnp c cs k :
  mounted v s -> layout_ok v -> dir_node v fnp c cs -> 0 <= k ->
  dir_slot c cs k = Some (f_dirsector fnp, f_diridx fnp) -> dirent_ok (f_dir fnp) ->
  exists v' s', dir_write cf fnp s = Some (true, s') /\
    entry_written v v' s' (f_dirsector fnp, f_diridx fnp) (f_dir fnp) /\ dir_node v' fnp c cs /\
    (forall q, bc_dpb s' q = bc_dpb s q).
Proof.
  intros Hm Hl Hn Hk Esl He. pose proof Hn as (Hp & _ & _ & Hch & _). pose proof (m_vol _ _ _ _ _ Hm) as Hv.
  destruct (dir_slot_block v c cs k _ Hv Hl Hch Hk Esl) as [Hb Hidx].
  destruct (get_putdirent _ (swap_entry_ok _ He)) as (Hget & Hlen & Hby).
  destruct (dir_write_slot false v s fnp (f_dir fnp) Hm Hl Hp Hb Hidx eq_refl Hlen Hby Hget) as (v' & s' & E & Hw & Hdp & _ & _).
  exists v', s'. split; [done|]. split; [done|]. split; [|done]. apply (dir_node_fat v); [apply Hw|done].
Qed.

(** ** Updating the entry of an open file *)

(** The fields an open file has in its table entry, and the others. *)
Definition closed_entry (fat32 : bool) (old d : dirent) : dirent :=
  Dirent (dir_name d) (dir_attrib d) (dir_case old) (dir_crtimems old) (dir_crtime old) (dir_crdate old)
    (dir_accdate old) (if fat32 then dir_start_high d else dir_start_high old) (dir_time d) (dir_date d)
    (dir_start d) (dir_size d).

(** What is asked of the fields an open file has. *)
Record open_fields_ok (e : dirent) : Prop := {
  of_name : length (dir_name e) = 11%nat /\ bytes (dir_name e);
  of_attrib : is_byte (dir_attrib e);
  of_time : 0 <= dir_time e < 65536;
  of_date : 0 <= dir_date e < 65536;
  of_start : 0 <= dir_start e < 65536;
  of_size : 0 <= dir_size e < 4294967296 }.

Lemma swap_fields_ok e : open_fields_ok e -> open_fields_ok (swap_entry e).
Proof.
  intros [[Hl Hb] ? ? ? ? ?]. split; try done. cbn. destruct (dir_name e) as [|c l]; [done|].
  cbn. destruct (_ || _) eqn:E; [|done]. split; [done|]. inversion Hb; subst. constructor; [|done].
  apply orb_true_iff in E as [->%Z.eqb_eq| ->%Z.eqb_eq]; done.
Qed.

Lemma get_update_fields (fat32 : bool) e vp old : open_fields_ok e -> (fat32 = true -> 0 <= dir_start_high e < 65536) ->
  length vp = 32%nat -> bytes vp -> getdirent vp = Some old ->
  getdirent (update_fields fat32 e vp) = Some (closed_entry fat32 old e) /\
  length (update_fields fat32 e vp) = 32%nat /\ bytes (update_fields fat32 e vp).
Proof.
  intros [[Hl Hb] ? ? ? ? ?] Hhigh Hvl Hvb Hget.
  assert (forall x, bytes (le16 x)) as H16 by (intros x; repeat (constructor; [apply u8_range|]); constructor).
  assert (forall x, bytes (le32 x)) as H32 by (intros x; repeat (constructor; [apply u8_range|]); constructor).
  assert (length (update_fields fat32 e vp) = 32%nat /\ bytes (update_fields fat32 e vp)) as [Hlen Hby].
  { assert (forall i bs (d : list Z), length d = 32%nat -> (i + length bs <= 32)%nat -> length (splice i bs d) = 32%nat) as Hs
      by (intros; rewrite splice_length; lia).
    unfold update_fields. destruct fat32; (split; [repeat (apply Hs; [|rewrite ?Hl; cbn; lia]); done|]).
    all: assert (bytes [dir_attrib e]) by (constructor; [done|constructor]).
    all: repeat (apply splice_bytes; [first [done|apply H16|apply H32]|]); done. }
  split; [|done]. destruct e as [n a c ms ct cd ad hi ti da st sz]. cbn in *. clear Hlen Hby Hb Hvb.
  do 11 (destruct n as [|? n]; [done|]). destruct n; [|done].
  do 32 (destruct vp as [|? vp]; [done|]). destruct vp; [|done].
  revert Hget. unfold update_fields, splice, le16, le32, closed_entry.
  destruct fat32; [specialize (Hhigh eq_refl)|]; dirent_cbn; intros [= <-]; cbn -[u8 Z.shiftr Z.mul Z.add].
  all: rewrite !le16_value by done; do 2 f_equal; by apply word32_bytes.
Qed.

End dirs.
