(* ===== verification/FatdirThms.v ===== *)
(** * Directories: the properties

    The theorems about directories, and a small volume they are applied to. *)

From S2P Require Import Prelude Hdr Bytes Dpb Blockio BlockioRing BlockioSpec Fattab.
From S2P Require Import CacheSpec FattabSpec Fnode Cluster ClusterSpec Names NamesSpec Fatdir FatdirSpec.

(** The entries of a directory from entry [k] on, to the first that was never
    used. *)
Fixpoint entries_from (entry : Z -> option dirent) (n : nat) (k : Z) : list dirent :=
  match n with
  | O => []
  | S n' =>
      match entry k with
      | Some e => if occupied e then e :: entries_from entry n' (k + 1) else []
      | None => []
      end
  end.

Lemma entries_first entry stop n : forall k k', first_entry entry stop k k' -> 0 <= k ->
  entry 65535 = None -> 65536 - k <= Z.of_nat n ->
  List.filter stop (entries_from entry n k) =
  match entry k' with
  | Some e => if occupied e then e :: List.filter stop (entries_from entry (n - Z.to_nat (k' + 1 - k)) (k' + 1))
              else []
  | None => []
  end.
Proof.
  induction n as [|n IH]; intros k k' (Hk & Hb & Ha) H0 Hlast Hn; [lia|]. cbn [entries_from].
  destruct (decide (k' = k)) as [->|Hne].
  - destruct (entry k) as [e|]; [|done]. destruct (occupied e); [|done].
    cbn. rewrite Ha by done. replace (Z.to_nat (k + 1 - k)) with 1%nat by lia. cbn. by rewrite Nat.sub_0_r.
  - destruct (Hb k ltac:(lia)) as (e & E & Ho & Hs). rewrite E, Ho. cbn. rewrite Hs.
    rewrite (IH (k + 1) k'); [|split; [lia|split; [intros j Hj; apply Hb; lia|done]]|lia|done|lia].
    replace (Z.to_nat (k' + 1 - k)) with (S (Z.to_nat (k' + 1 - (k + 1)))) by lia. done.
Qed.

(** The entries from [k] on; a directory has at most 65535. *)
Definition dir_list (entry : Z -> option dirent) (k : Z) : list dirent :=
  entries_from entry (Z.to_nat (65536 - k)) k.

Lemma dir_list_first entry stop k k' : first_entry entry stop k k' -> 0 <= k < 65536 -> entry 65535 = None ->
  List.filter stop (dir_list entry k) =
  match entry k' with
  | Some e => if occupied e then e :: List.filter stop (dir_list entry (k' + 1)) else []
  | None => []
  end.
Proof.
  intros Hf Hk Hl. unfold dir_list. rewrite (entries_first _ _ _ _ _ Hf) by (done || lia).
  destruct Hf as (? & _ & _).
  by replace (Z.to_nat (65536 - k) - Z.to_nat (k' + 1 - k))%nat with (Z.to_nat (65536 - (k' + 1))) by lia.
Qed.

Section properties.
  Context {S : Type} `{BlockCacheLaws S primary, !DosState S} (cf steps ents : nat) (p : Z) (g : dpb).

(** All that is left to find. *)
Fixpoint find_rest (n : nat) (fnp : f_node) (s : S) : option (list dirent * S) :=
  match n with
  | O => None
  | Datatypes.S n' =>
      let* (rc, fnp, s) := dos_findnext cf steps ents fnp s in
      if rc =? SUCCESS then
        let* (l, s) := find_rest n' fnp s in
        Some (f_dir fnp :: l, s)
      else Some ([], s)
  end.

(** C31: looking for a file by its path: when the directories of the path exist,
    the entry found is the first one in use with the name and suitable
    attributes; file not found when the directory has none; path not found when
    a directory is missing.  The volume keeps its contents. *)
Theorem find_fname_correct v s fnp c dirs x cs r attr :
  bc_reliable (primary := primary) -> mounted cf p g v s -> layout_ok (primary := primary) g v ->
  (Z.to_nat (max_cluster g) <= steps)%nat -> 65536 <= Z.of_nat ents ->
  get_dpb (c - ch "A") s = Some p -> Forall comp_ok dirs -> comp_ok x ->
  resolves g v (root g) cs (map fcb dirs) r ->
  exists rc fnp' s', find_fname cf steps ents (full_path c (dirs ++ [x])) attr fnp s = Some (rc, fnp', s') /\
    evolves cf p g v s v s' /\
    match r with
    | Some (c', cs') => found_file p g v c' cs' (file_match (fcb x) attr) rc fnp'
    | None => rc = DE_PATHNOTFND
    end.
Proof. intros Hrel ? ? ? ? ? ? ? ?. by eapply (find_fname_spec cf steps p g Hrel ents). Qed.

(** Repeating the search with wildcards lists every entry of the directory
    from the current one on that matches pattern and attributes, in order and
    once, and ends. *)
Theorem findnext_lists_all v s fnp cs n :
  bc_reliable (primary := primary) -> mounted cf p g v s -> layout_ok (primary := primary) g v ->
  (Z.to_nat (max_cluster g) <= steps)%nat -> 65536 <= Z.of_nat ents ->
  (forall s, get_dpb (dm_drive (f_dmp fnp)) s = Some p /\ ds_media_check p s = Some (SUCCESS, s)) ->
  0 <= entry_of fnp < 65536 -> 65536 - entry_of fnp < Z.of_nat n ->
  let c := start_of g (dm_dircluster (f_dmp fnp)) in
  dir_chain g v c cs ->
  exists s', find_rest n fnp s =
      Some (List.filter (matches (f_dmp fnp)) (dir_list (nth_entry g v c cs) (entry_of fnp)), s') /\
    evolves cf p g v s v s'.
Proof.
  cbv zeta. intros Hrel Hm Hl Hst He Hds.
  revert s fnp Hm Hds. induction n as [|n IH]; intros s fnp Hm Hds Hk Hn Hc; [lia|].
  destruct (Hds s) as [Hp Hmc].
  destruct (dos_findnext_spec cf steps p g Hrel ents v s fnp cs Hm Hl Hst He Hk Hp Hmc Hc)
    as (rc & fnp' & s' & k' & E & Hev & Hn' & Hf & D1 & D2 & D3 & Hr).
  cbn [find_rest]. rewrite E. rewrite (dir_list_first _ _ _ _ Hf) by (done || lia).
  set (c := start_of g (dm_dircluster (f_dmp fnp))) in *.
  destruct (nth_entry g v c cs k') as [e|] eqn:Ek; [destruct (occupied e) eqn:Eo|].
  2,3: destruct Hr as [-> _]; exists s'; by split.
  destruct Hr as (-> & Hread & Hke). change (SUCCESS =? SUCCESS) with true. cbv iota.
  pose proof Hf as ((Hk1 & Hk2) & _ & _).
  assert (k' < 65535) as Hlt.
  { destruct (decide (k' = 65535)) as [->|]; [by rewrite nth_entry_last in Ek|lia]. }
  assert (start_of g (dm_dircluster (f_dmp fnp')) = c) as Ec.
  { pose proof Hn' as (_ & -> & _). unfold c, start_of.
    destruct (dm_dircluster (f_dmp fnp) =? 0) eqn:E0; cbn [andb]; [|by rewrite E0].
    destruct (ISFAT32 g); cbn [andb]; [by destruct (dpb_xrootclst g =? 0)|by rewrite E0]. }
  assert (forall e, matches (f_dmp fnp') e = matches (f_dmp fnp) e) as Hmt.
  { intros e'. unfold matches. by rewrite D2, D3. }
  destruct (IH s' fnp') as (s'' & E' & Hev'); try lia; [apply Hev|intros s0; rewrite D1; apply Hds|by rewrite Ec|].
  exists s''. rewrite E', Ec, Hke, (proj1 Hread), (List.filter_ext _ _ Hmt).
  split; [done|]. by eapply evolves_trans.
Qed.

(** Writing back an entry that was read: the medium gets it, the entry is
    read as it was written, and every other entry of the directory and the FAT
    are as before. *)
Theorem dir_write_correct v s fnp c cs k :
  bc_reliable (primary := primary) -> mounted cf p g v s -> layout_ok (primary := primary) g v ->
  layout_fits g -> dir_node p g v fnp c cs -> 0 <= k ->
  dir_slot g c cs k = Some (f_dirsector fnp, f_diridx fnp) -> dirent_ok (f_dir fnp) ->
  exists v' s', dir_write cf fnp s = Some (true, s') /\ mounted cf p g v' s' /\
    (forall n, primary (dpb_unit g) n -> bc_disk (primary := primary) s' (dpb_unit g) n = v' (dpb_unit g) n) /\
    (forall m, fat_at g v' m = fat_at g v m) /\
    forall j, 0 <= j -> dir_entry g v' c cs j = if decide (j = k) then Some (f_dir fnp) else dir_entry g v c cs j.
Proof.
  intros Hrel Hm Hl Hfit Hn Hk Hsl Hok.
  destruct (dir_write_spec cf p g Hrel v s fnp c cs k Hm Hl Hn Hk Hsl Hok)
    as (v' & s' & E & (Hm' & Hl' & Hf & Hd & He) & _).
  exists v', s'. split_and!; try done. intros j Hj.
  pose proof Hn as (_ & _ & _ & Hc & _). rewrite He by done.
  destruct (decide (j = k)) as [->|Hne]; [by rewrite Hsl, decide_True|].
  destruct (dir_slot g c cs j) as [sl|] eqn:Ej; [|unfold dir_entry; by rewrite Ej].
  rewrite decide_False; [done|]. intros ->. apply Hne.
  pose proof (m_vol _ _ _ _ _ Hm) as Hv. by eapply (dir_slot_inj (primary := primary) g v c cs).
Qed.

End properties.

(** ** A small volume

    Block 1 is the FAT, 3 the root directory with the directory SUB, 4 and 5 the
    clusters 2 and 3; SUB, in cluster 2, has the file README.TXT. *)

Definition sub_entry : dirent := Dirent (str "SUB        ") 0x10 0 0 0 0 0 0 0 0 2 0.
Definition dot_entry : dirent := Dirent (str ".          ") 0x10 0 0 0 0 0 0 0 0 2 0.
Definition dotdot_entry : dirent := Dirent (str "..         ") 0x10 0 0 0 0 0 0 0 0 0 0.
Definition readme_entry : dirent := Dirent (str "README  TXT") 0x20 0 0 0 0 0 0 0 0 3 5.

Definition fill (l : list Z) : list Z := l ++ replicate (512 - length l) 0.

Definition dir_dpb : dpb := Dpb 3 0 512 0 0 1 2 16 4 3 1 3 9 0xf8 0 0 0 0 0 0xffff 0 0 0 2 0 0.

Definition dir_bio : bio disk :=
  fresh_bio dir_dpb (Disk (list_to_map
    [((9, 0, 1), fill [0xf8; 0xff; 0xff; 0xff; 0xff; 0xff]);
     ((9, 0, 3), fill (putdirent sub_entry));
     ((9, 0, 4), fill (putdirent dot_entry ++ putdirent dotdot_entry ++ putdirent readme_entry));
     ((9, 0, 5), fill [72; 101; 108; 108; 111])])).

Definition dir_primary (u n : Z) : Prop := u = 3 /\ (n = 1 \/ 3 <= n <= 5).
Definition dir_image (u n : Z) : list Z := sector dir_bio u n.
Definition dir_geom : dpb := geometry dir_dpb.

(** Drive C is there and its medium does not change. *)
#[export] Instance sample_dos : DosState (bio disk) := {
  ds_cds d _ := if d =? 2 then Cds (str "C:\") 0x4000 77 0 2 else Cds [] 0 0 0 2;
  ds_lastdrive _ := 5;
  ds_set_strtclst _ _ s := s;
  ds_media_check _ s := Some (SUCCESS, s);
  ds_gettime s := Some (0, s);
  ds_getdate s := Some (0, s) }.

Lemma dir_get : bc_dpb dir_bio 77 = dir_dpb.
Proof. by vm_compute. Qed.

Lemma dir_blocks n : n = 1 \/ 3 <= n <= 5 -> length (dir_image 3 n) = 512%nat /\ bytes (dir_image 3 n).
Proof.
  intros Hn. assert (n = 1 \/ n = 3 \/ n = 4 \/ n = 5) as Hc by lia.
  assert (forall l, forallb (fun b => (0 <=? b) && (b <? 256)) l = true -> bytes l) as Hb.
  { intros l Hl. rewrite forallb_forall in Hl. apply list.Forall_forall. intros x Hx%list_elem_of_In.
    by apply Hl, andb_true_iff in Hx as [?%Z.leb_le ?%Z.ltb_lt]. }
  destruct_or! Hc; subst n; (split; [by vm_compute|apply Hb; by vm_compute]).
Qed.

Lemma dir_vol : volume_ok dir_primary dir_geom.
Proof.
  split; [by vm_compute|by vm_compute|done|by vm_compute| |by vm_compute].
  change (last_sector dir_geom) with 0. change (fat_start dir_geom) with 1. change (fat_copies dir_geom) with 2.
  change (dpb_unit dir_geom) with 3. change (fat_offset dir_geom) with 1. change (ISFAT12 dir_geom) with true. cbv iota.
  intros sec Hsec. assert (sec = 0) as -> by lia. split; [lia|]. split; [split; [done|by left]|].
  intros i Hi. replace i with 1%nat by lia. change (copy_blk (1 + 0) 1 1) with 2. unfold dir_primary. lia.
Qed.

Lemma dir_reliable : bc_reliable (S := bio disk) (primary := dir_primary).
Proof. exact disk_reliable. Qed.

Lemma dir_mounted : mounted (primary := dir_primary) 5 77 dir_geom dir_image dir_bio.
Proof.
  split; rewrite ?dir_get.
  - done.
  - eexists. exact (fresh_rep dir_primary dir_dpb _).
  - exact dir_vol.
  - by eexists.
  - intros sec Hsec. change (last_sector dir_geom) with 0 in Hsec. apply dir_blocks. left.
    change (fat_start dir_geom) with 1. lia.
  - split_and!; try (by vm_compute). by left.
  - by left.
  - right. by vm_compute.
Qed.

Lemma dir_data n : data_block (primary := dir_primary) dir_geom n -> 3 <= n <= 5.
Proof.
  intros (_ & (_ & Hp) & Hf & _). change (fat_start dir_geom) with 1 in Hf. change (last_sector dir_geom) with 0 in Hf. lia.
Qed.

Lemma data_dir n : 3 <= n <= 5 -> data_block (primary := dir_primary) dir_geom n.
Proof.
  intros Hn. split; [lia|]. split; [split; [done|by right]|].
  change (fat_start dir_geom) with 1. change (last_sector dir_geom) with 0.
  change (dpb_xfsinfosec dir_geom) with 0xffff. lia.
Qed.

Lemma dir_layout : layout_ok (primary := dir_primary) dir_geom dir_image.
Proof.
  split.
  - by vm_compute.
  - done.
  - by vm_compute.
  - change (dpb_dirents dir_geom) with 16. change (dpb_dirstrt dir_geom) with 3. intros k Hk.
    rewrite (Z.div_small k 16) by lia. split; [lia|]. apply data_dir. lia.
  - change (max_cluster dir_geom) with 3. change (dpb_clsmask dir_geom) with 0. intros c j Hc Hj.
    assert (j = 0) as -> by lia. assert (c = 2 \/ c = 3) as [-> | ->] by lia.
    + change (clus2phys 2 dir_geom) with 4. split; [lia|]. apply data_dir. lia.
    + change (clus2phys 3 dir_geom) with 5. split; [lia|]. apply data_dir. lia.
  - intros n Hn%dir_data. apply dir_blocks. lia.
Qed.

Lemma sub_chain : dir_chain dir_geom dir_image 2 [2].
Proof. right. split_and!; [done|done|by vm_compute]. Qed.

Lemma root_chain : dir_chain dir_geom dir_image (root dir_geom) [].
Proof. by left. Qed.

Definition sub : comp := (str "SUB", []).
Definition readme : comp := (str "README", str "TXT").

Lemma sub_ok : comp_ok sub /\ comp_ok readme.
Proof. split; split_and!; first [done|by repeat constructor|vm_compute; lia]. Qed.

Lemma sub_resolves : resolves dir_geom dir_image (root dir_geom) [] (map fcb [sub]) (Some (2, [2])).
Proof.
  eapply (resolves_down _ _ _ _ _ _ 0 sub_entry [2]).
  - exact root_chain.
  - apply first_entry_here; [lia|]. by vm_compute.
  - by vm_compute.
  - by vm_compute.
  - by vm_compute.
  - change (start_of dir_geom (getdstart dir_geom sub_entry)) with 2. apply resolves_here, sub_chain.
Qed.

(** Before [k], entries in use that do not stop the search. *)
Lemma first_entry_check entry stop k : 0 <= k <= 65535 ->
  forallb (fun j => match entry j with Some e => occupied e && negb (stop e) | None => false end) (seqZ 0 k) = true ->
  match entry k with Some e => occupied e = true -> stop e = true | None => True end -> first_entry entry stop 0 k.
Proof.
  intros Hk Hb He. split; [lia|]. split; [|done]. intros j Hj.
  pose proof (forall_range _ _ _ Hb j ltac:(lia)) as H1. cbn in H1. destruct (entry j) as [e|]; [|done].
  exists e. apply andb_true_iff in H1 as [? ?%negb_true_iff]. done.
Qed.

Definition sample_node : f_node :=
  Fnode 0 (Dmatch 2 (str "????????TXT") 0 0 2) (Dirent [] 0 0 0 0 0 0 0 0 0 0 0) 0 0 77 0 0 2 0xff.

(** Entries enough for every directory. *)
Definition ENTS : nat := Z.to_nat 65537.
Lemma ENTS_enough : 65536 <= Z.of_nat ENTS.
Proof. unfold ENTS. rewrite Z2Nat.id; lia. Qed.
Lemma ENTS_more : 65536 - 0 < Z.of_nat ENTS.
Proof. unfold ENTS. rewrite Z2Nat.id; lia. Qed.

Lemma find_fname_correct_witness : exists fnp' s',
  find_fname 5 10 ENTS (str "C:\SUB\README.TXT") D_ALL sample_node dir_bio = Some (SUCCESS, fnp', s') /\
  f_dir fnp' = readme_entry.
Proof.
  destruct (find_fname_correct (S := bio disk) (primary := dir_primary) 5 10 ENTS 77 dir_geom dir_image dir_bio sample_node
    (ch "C") [sub] readme [] (Some (2, [2])) D_ALL dir_reliable dir_mounted dir_layout) as (rc & fnp' & s' & E & _ & k & Hf & _ & _ & Hr);
    [change (max_cluster dir_geom) with 3; lia|exact ENTS_enough|done|constructor; [apply sub_ok|constructor]|apply sub_ok|exact sub_resolves|].
  assert (k = 2) as ->.
  { eapply first_entry_unique; [exact Hf|]. apply first_entry_check; [lia|by vm_compute|by vm_compute]. }
  assert (nth_entry dir_geom dir_image 2 [2] 2 = Some readme_entry) as Ee by (by vm_compute).
  rewrite Ee in Hr. change (occupied readme_entry) with true in Hr. destruct Hr as (-> & Hd & _).
  exists fnp', s'. split; [exact E|exact Hd].
Defined.

Lemma findnext_lists_all_witness : exists s',
  find_rest 5 10 ENTS ENTS sample_node dir_bio = Some ([readme_entry], s').
Proof.
  destruct (findnext_lists_all (S := bio disk) (primary := dir_primary) 5 10 ENTS 77 dir_geom dir_image dir_bio sample_node [2] ENTS
    dir_reliable dir_mounted dir_layout) as (s' & E & _);
    [change (max_cluster dir_geom) with 3; lia|exact ENTS_enough|done|by vm_compute|exact ENTS_more|exact sub_chain|].
  exists s'. rewrite E. reflexivity.
Defined.

(** The file gets the read-only attribute. *)
Definition write_node : f_node :=
  Fnode 0 (Dmatch 2 (str "README  TXT") 0 2 2)
    (Dirent (str "README  TXT") 0x21 0 0 0 0 0 0 0 0 3 5) 4 2 77 0 0 2 0xff.

Lemma dir_write_correct_witness : exists v' s',
  dir_write 5 write_node dir_bio = Some (true, s') /\
  dir_entry dir_geom v' 2 [2] 2 = Some (f_dir write_node) /\ dir_entry dir_geom v' 2 [2] 1 = Some dotdot_entry /\
  bc_disk (primary := dir_primary) s' 3 4 = v' 3 4.
Proof.
  destruct (dir_write_correct (S := bio disk) (primary := dir_primary) 5 77 dir_geom dir_image dir_bio
    write_node 2 [2] 2 dir_reliable dir_mounted dir_layout) as (v' & s' & E & _ & Hd & _ & He).
  - split; vm_compute; congruence.
  - split_and!; [done|done|done|exact sub_chain|]. intros _. split_and!; [by vm_compute|done|done].
  - lia.
  - by vm_compute.
  - split; try (by vm_compute). split; [done|]. by repeat (constructor; [by vm_compute|]).
  - exists v', s'. split; [exact E|]. rewrite !He by lia. split; [done|]. split; [by vm_compute|].
    apply Hd. split; [done|]. lia.
Defined.
