(* ===== verification/Fileio.v ===== *)
(** * Open files ([kernel/fatfs.c])

    The system file tables, and reading, writing, opening and closing files on a
    volume.  All these operations work on [fnode[0]], which is copied from a table
    entry and back; it is passed along as [fnp].  A pointer to a table entry is
    the entry's number. *)

From S2P Require Import Prelude Hdr Share Dpb Blockio Fattab Fnode Cluster Fatdir.

(** hdr/file.h:53-53 *)
Definition O_RDONLY : Z := 0x0000.
(** hdr/file.h:54-54 *)
Definition O_WRONLY : Z := 0x0001.
(** hdr/file.h:55-55 *)
Definition O_RDWR : Z := 0x0002.
(** hdr/file.h:56-56 *)
Definition O_ACCMODE : Z := 0x0003.
(** hdr/file.h:70-70 *)
Definition O_OPEN : Z := 0x0100.
(** hdr/file.h:71-71 *)
Definition O_TRUNC : Z := 0x0200.
(** hdr/file.h:72-72 *)
Definition O_CREAT : Z := 0x0400.
(** hdr/file.h:77-77 *)
Definition O_FCB : Z := 0x8000.
(** hdr/file.h:80-80 *)
Definition S_OPENED : Z := 1.
(** hdr/file.h:80-80 *)
Definition S_CREATED : Z := 2.
(** hdr/file.h:80-80 *)
Definition S_REPLACED : Z := 3.

(** ** The tables *)

(** An entry without the machine number and the padding; [sft_dcb] is the union of
    the drive parameter block of a file and the header of a device.
    hdr/sft.h:40-86 *)
Record sft := Sft {
  sft_count : Z;
  sft_mode : Z;
  sft_attrib : Z;
  sft_flags : Z;
  sft_dcb : Z;
  sft_relclust_high : Z;
  sft_time : Z;
  sft_date : Z;
  sft_size : Z;
  sft_posit : Z;
  sft_relclust : Z;
  sft_dirsector : Z;
  sft_diridx : Z;
  sft_name : list Z;
  sft_stclust : Z;
  sft_psp : Z;
  sft_shroff : Z;
  sft_cuclust : Z }.

(** The tables linked from [sfthead].
    hdr/sft.h:97-103 *)
Definition sfttbl : Type := list sft.

(** Transfers of several sectors past the buffers of the cache, and whether the buffer of
    the program lies in segment A000h or above. *)
Class BlockTransfer (S : Type) := {
  bt_delete : nat -> Z -> Z -> Z -> Z -> S -> option S;
  bt_dskxfer : nat -> bool -> Z -> Z -> list Z -> Z -> Z -> S -> option (Z * list Z * S);
  bt_high : S -> bool }.

#[export] Instance bio_transfer {D} `{!Device D} : BlockTransfer (bio D) := {
  bt_delete := DeleteBlockInBufferCache;
  bt_dskxfer := dskxfer;
  bt_high st := caller_high (dev st) }.

(** The state of the file code: what the file system below works on, the system
    file tables, whether SHARE is installed and its tables, and of the running
    process its PSP segment and its table of handles. *)
Record system (S : Type) := System {
  below : S;
  sfthead : list sfttbl;
  share_installed : bool;
  sharing : share;
  cu_psp : Z;
  ps_filetab : list Z }.
Arguments System {S}. Arguments below {S}. Arguments sfthead {S}. Arguments share_installed {S}.
Arguments sharing {S}. Arguments cu_psp {S}. Arguments ps_filetab {S}.

Definition with_below {S} c (s : system S) : system S :=
  System c (sfthead s) (share_installed s) (sharing s) (cu_psp s) (ps_filetab s).
Definition with_sfthead {S} t (s : system S) : system S :=
  System (below s) t (share_installed s) (sharing s) (cu_psp s) (ps_filetab s).
Definition with_installed {S} b (s : system S) : system S :=
  System (below s) (sfthead s) b (sharing s) (cu_psp s) (ps_filetab s).
Definition with_sharing {S} sh (s : system S) : system S :=
  System (below s) (sfthead s) (share_installed s) sh (cu_psp s) (ps_filetab s).
Definition with_filetab {S} t (s : system S) : system S :=
  System (below s) (sfthead s) (share_installed s) (sharing s) (cu_psp s) t.

Definition upd_below {S} (f : S -> S) (s : system S) : system S := with_below (f (below s)) s.

(** A call of the file system below. *)
Definition call {S A} (f : S -> option (A * S)) (s : system S) : option (A * system S) :=
  let* (a, c) := f (below s) in Some (a, with_below c s).
Definition call_ {S} (f : S -> option S) (s : system S) : option (system S) :=
  let* c := f (below s) in Some (with_below c s).

(** The entry with a number that is not negative, in the tables from [sp] on.
    kernel/dosfns.c:158-168 *)
Fixpoint find_sft (sp : list (list sft)) (SftIndex : Z) : option sft :=
  match sp with
  | [] => None
  | t :: sp =>
      if SftIndex <? Z.of_nat (length t) then at_ t SftIndex
      else find_sft sp (SftIndex - Z.of_nat (length t))
  end.

(** The change of an entry through the pointer found that way. *)
Fixpoint change_sft (f : sft -> sft) (sp : list (list sft)) (SftIndex : Z) : list (list sft) :=
  match sp with
  | [] => []
  | t :: sp =>
      if SftIndex <? Z.of_nat (length t) then alter f (Z.to_nat SftIndex) t :: sp
      else t :: change_sft f sp (SftIndex - Z.of_nat (length t))
  end.

Definition with_f_dirent (f : dirent -> dirent) (n : f_node) : f_node := with_f_dir (f (f_dir n)) n.
Definition with_dir_attrib a (e : dirent) : dirent :=
  Dirent (dir_name e) a (dir_case e) (dir_crtimems e) (dir_crtime e) (dir_crdate e) (dir_accdate e)
    (dir_start_high e) (dir_time e) (dir_date e) (dir_start e) (dir_size e).
Definition with_dir_stamp time date (e : dirent) : dirent :=
  Dirent (dir_name e) (dir_attrib e) (dir_case e) (dir_crtimems e) (dir_crtime e) (dir_crdate e)
    (dir_accdate e) (dir_start_high e) time date (dir_start e) (dir_size e).
Definition with_dir_size size (e : dirent) : dirent :=
  Dirent (dir_name e) (dir_attrib e) (dir_case e) (dir_crtimems e) (dir_crtime e) (dir_crdate e)
    (dir_accdate e) (dir_start_high e) (dir_time e) (dir_date e) (dir_start e) size.
Definition with_f_flags fl (n : f_node) : f_node :=
  Fnode fl (f_dmp n) (f_dir n) (f_dirsector n) (f_diridx n) (f_dpb n) (f_offset n) (f_cluster_offset n)
    (f_cluster n) (f_sft_idx n).
Definition with_f_sft_idx i (n : f_node) : f_node :=
  Fnode (f_flags n) (f_dmp n) (f_dir n) (f_dirsector n) (f_diridx n) (f_dpb n) (f_offset n)
    (f_cluster_offset n) (f_cluster n) i.

(** The parts of an entry two open instances of a file share. *)
Definition with_sft_file stclust size date time (t : sft) : sft :=
  Sft (sft_count t) (sft_mode t) (sft_attrib t) (sft_flags t) (sft_dcb t) (sft_relclust_high t)
    time date size (sft_posit t) (sft_relclust t) (sft_dirsector t) (sft_diridx t) (sft_name t)
    stclust (sft_psp t) (sft_shroff t) (sft_cuclust t).

(** ** Between the tables and the node *)

Section files.
  Context {S : Type} `{!BlockCache S, !DosState S, !BlockTransfer S} (cf steps ents : nat).

#[local] Abbreviation state := (system S).

(** kernel/dosfns.c:149-182 *)
Definition idx_to_sft (SftIndex : Z) (s : state) : option sft :=
  if SftIndex <? 0 then None
  else
    let* t := find_sft (sfthead s) SftIndex in
    if sft_count t =? 0 then None else Some t.

Definition upd_sft (f : sft -> sft) (SftIndex : Z) (s : state) : state :=
  with_sfthead (change_sft f (sfthead s) SftIndex) s.

(** [fnp] is what [fnode[0]] held; an index without an open entry is a stray
    pointer.
    kernel/fatfs.c:1733-1760 *)
Definition sft_to_fnode (fd : Z) (fnp : f_node) (s : state) : option f_node :=
  let* sftp := idx_to_sft fd s in
  let e := f_dir fnp in
  let e := Dirent (take 11 (sft_name sftp)) (sft_attrib sftp) (dir_case e) (dir_crtimems e) (dir_crtime e)
             (dir_crdate e) (dir_accdate e) (dir_start_high e) (sft_time sftp) (sft_date sftp)
             (dir_start e) (sft_size sftp) in
  let e := setdstart (bc_dpb (below s) (sft_dcb sftp)) (sft_stclust sftp) e in
  Some (Fnode (sft_flags sftp) (f_dmp fnp) e (sft_dirsector sftp) (sft_diridx sftp) (sft_dcb sftp)
          (sft_posit sftp) (Z.lor (sft_relclust sftp) (Z.shiftl (sft_relclust_high sftp) 16))
          (sft_cuclust sftp) (u8 fd)).

(** What is stored in the entry of the node.
    kernel/fatfs.c:1766-1784 *)
Definition store_fnode (d : dpb) (fnp : f_node) (t : sft) : sft :=
  let e := f_dir fnp in
  Sft (sft_count t) (sft_mode t) (dir_attrib e) (f_flags fnp) (f_dpb fnp)
    (u16 (Z.shiftr (f_cluster_offset fnp) 16)) (dir_time e) (dir_date e) (dir_size e) (f_offset fnp)
    (u16 (f_cluster_offset fnp)) (f_dirsector fnp) (f_diridx fnp)
    (take 11 (dir_name e)) (getdstart d e) (sft_psp t) (sft_shroff t) (f_cluster fnp).

(** kernel/fatfs.c:1762-1785 *)
Definition fnode_to_sft (fnp : f_node) (s : state) : option state :=
  let* _ := idx_to_sft (f_sft_idx fnp) s in
  Some (upd_sft (store_fnode (bc_dpb (below s) (f_dpb fnp)) fnp) (f_sft_idx fnp) s).

(** ** Several open instances of a file *)

(** The entry [i] is another open instance of the node's file.
    kernel/fatfs.c:350-356 *)
Definition same_file (fnp : f_node) (i : Z) (sftp : sft) : bool :=
  negb (i =? f_sft_idx fnp) && negb (sft_count sftp =? 0) && (f_dpb fnp =? sft_dcb sftp) &&
  (Z.land (dir_attrib (f_dir fnp)) D_VOLID =? 0) && (Z.land (sft_attrib sftp) D_VOLID =? 0) &&
  (f_diridx fnp =? sft_diridx sftp) && (f_dirsector fnp =? sft_dirsector sftp).

(** The loops over all entries, [i] from the first on, with [n] left.  [close] is
    [DosCloseSft], which changes [fnode[0]], and so the node, as well.  The
    table is looked at anew for each entry, since the loop changes it.
    kernel/fatfs.c:345-390 *)
Fixpoint merge_loop (close : Z -> f_node -> state -> option (Z * f_node * state)) (collect : Z) (n : nat) (i : Z)
    (fnp : f_node) (s : state) : option (Z * f_node * state) :=
  match n with
  | O => Some (SUCCESS, fnp, s)
  | Datatypes.S n' =>
      let* sftp := find_sft (sfthead s) i in
      if negb (same_file fnp i sftp) then merge_loop close collect n' (i + 1) fnp s
      else if collect =? -1 then
        let* (rc, fnp, s) := close i fnp s in
        if negb (rc =? SUCCESS) then Some (rc, fnp, s) else merge_loop close collect n' (i + 1) fnp s
      else if negb (collect =? 0) then
        if negb (Z.land (sft_mode sftp) O_ACCMODE =? O_RDONLY) then
          let e := setdstart (bc_dpb (below s) (f_dpb fnp)) (sft_stclust sftp) (f_dir fnp) in
          let e := with_dir_stamp (sft_time sftp) (sft_date sftp) (with_dir_size (sft_size sftp) e) in
          Some (SUCCESS, with_f_dir e fnp, s)
        else merge_loop close collect n' (i + 1) fnp s
      else
        let e := f_dir fnp in
        let s := upd_sft (with_sft_file (getdstart (bc_dpb (below s) (f_dpb fnp)) e) (dir_size e) (dir_date e) (dir_time e))
                   i s in
        merge_loop close collect n' (i + 1) fnp s
  end.

(** kernel/fatfs.c:336-392 *)
Definition merge_file_changes (close : Z -> f_node -> state -> option (Z * f_node * state)) (fnp : f_node)
    (collect : Z) (s : state) : option (Z * f_node * state) :=
  if negb (share_installed s) then Some (SUCCESS, fnp, s)
  else merge_loop close collect (length (concat (sfthead s))) 0 fnp s.

(** The calls that do not close anything. *)
Definition no_close (i : Z) (fnp : f_node) (s : state) : option (Z * f_node * state) := None.
Definition distribute (fnp : f_node) (s : state) : option state :=
  let* (_, _, s) := merge_file_changes no_close fnp 0 s in Some s.

(** kernel/fatfs.c:394-397 *)
Definition dos_merge_file_changes (fd : Z) (fnp : f_node) (s : state) : option (f_node * state) :=
  let* fnp := sft_to_fnode fd fnp s in
  let* s := distribute fnp s in
  Some (fnp, s).

(** ** Reading and writing *)

(** kernel/fatfs.c:1047-1119 *)
Definition dos_extend (fnp : f_node) (s : state) : option (Z * f_node * state) :=
  if f_offset fnp <=? dir_size (f_dir fnp) then Some (SUCCESS, fnp, s)
  else
    let* (rc, fnp, s) := call (map_cluster cf steps fnp XFR_WRITE) s in
    if negb (rc =? SUCCESS) then Some (DE_HNDLDSKFULL, fnp, s)
    else
      let fnp := with_f_dirent (with_dir_size (f_offset fnp)) fnp in
      let* s := distribute fnp s in
      Some (SUCCESS, fnp, s).

(** Collecting sectors that follow each other, across clusters.
    kernel/fatfs.c:1334-1349 *)
Fixpoint collect_sectors (fuel : nat) (mode secsize wanted startoffset currentblock sectors : Z) (fnp : f_node) (s : state)
    : option (Z * f_node * state) :=
  if negb (sectors <? wanted) then Some (sectors, fnp, s)
  else
    match fuel with
    | O => None
    | Datatypes.S fuel' =>
        let* (rc, fnp, s) := call (map_cluster cf steps fnp mode) s in
        if negb (rc =? SUCCESS) then Some (sectors, fnp, s)
        else
          let d := bc_dpb (below s) (f_dpb fnp) in
          if negb (clus2phys (f_cluster fnp) d =? u32 (currentblock + sectors)) then Some (sectors, fnp, s)
          else
            let sectors := Z.min (sectors + (dpb_clsmask d + 1)) wanted in
            collect_sectors fuel' mode secsize wanted startoffset currentblock sectors
              (with_f_offset (u32 (startoffset + u16 (sectors * secsize))) fnp) s
    end.

(** A turn of the loop ends the call, or has moved some bytes. *)
Inductive moved :=
  | Ended (rc : Z)
  | Moved (xfr_cnt : Z).

(** Whole sectors, past the cache; [ret_cnt] is where in the buffer.
    kernel/fatfs.c:1326-1371 *)
Definition xfer_sectors (mode secsize wanted sector currentblock ret_cnt : Z) (buffer : list Z) (fnp : f_node) (s : state)
    : option (moved * list Z * f_node * state) :=
  let startoffset := f_offset fnp in
  let d := bc_dpb (below s) (f_dpb fnp) in
  let sectors := Z.min (dpb_clsmask d + 1 - sector) wanted in
  let fnp := with_f_offset (u32 (startoffset + u16 (sectors * secsize))) fnp in
  let* (sectors, fnp, s) :=
    collect_sectors steps mode secsize wanted startoffset currentblock sectors fnp s in
  let xfr_cnt := u16 (sectors * secsize) in
  let d := bc_dpb (below s) (f_dpb fnp) in
  let high := bt_high (below s) in
  let* s := call_ (bt_delete cf currentblock (u32 (currentblock + sectors - 1)) (dpb_unit d) mode) s in
  let data := take (Z.to_nat xfr_cnt) (drop (Z.to_nat ret_cnt) buffer) in
  let* (rc, data, s) :=
    call (bt_dskxfer cf high (dpb_unit d) currentblock data sectors (if mode =? XFR_READ then DSKREAD else DSKWRITE)) s in
  let buffer := splice (Z.to_nat ret_cnt) data buffer in
  if negb (rc =? 0) then Some (Ended DE_ACCESS, buffer, with_f_offset startoffset fnp, s)
  else Some (Moved xfr_cnt, buffer, fnp, s).

(** A part of one sector, through the cache.
    kernel/fatfs.c:1383-1429 *)
Definition xfer_part (mode secsize boff currentblock ret_cnt to_xfer : Z) (buffer : list Z) (fnp : f_node) (s : state)
    : option (moved * list Z * f_node * state) :=
  let* (bp, s) := call (bc_getblock cf currentblock (dpb_unit (bc_dpb (below s) (f_dpb fnp)))) s in
  match bp with
  | None => Some (Ended ret_cnt, buffer, fnp, s)
  | Some x =>
      let xfr_cnt := Z.min to_xfer (secsize - boff) in
      let left := u32 (dir_size (f_dir fnp) - f_offset fnp) in
      let xfr_cnt := if mode =? XFR_READ then u16 (Z.min xfr_cnt left) else xfr_cnt in
      let '(buffer, s) :=
        if mode =? XFR_WRITE then
          let data := take (Z.to_nat xfr_cnt) (drop (Z.to_nat ret_cnt) buffer) in
          (buffer, upd_below (bc_upd x (fun b => with_flag (Z.lor (b_flag b) (Z.lor BFR_DIRTY BFR_VALID))
                     (with_data (splice (Z.to_nat boff) data (b_buffer b)) b))) s)
        else
          let data := take (Z.to_nat xfr_cnt) (drop (Z.to_nat boff) (b_buffer (bc_buf (below s) x))) in
          (splice (Z.to_nat ret_cnt) data buffer, s) in
      let s :=
        if (xfr_cnt =? Z.of_nat BUFFERSIZE) ||
           (mode =? XFR_READ) && (u32 (f_offset fnp + xfr_cnt) =? dir_size (f_dir fnp))
        then upd_below (bc_upd x (fun b => with_flag (Z.lor (b_flag b) BFR_UNCACHE) b)) s else s in
      Some (Moved xfr_cnt, buffer, with_f_offset (u32 (f_offset fnp + xfr_cnt)) fnp, s)
  end.

(** The transfer of one turn, after the file is positioned.
    kernel/fatfs.c:1301-1430 *)
Definition xfer_turn (mode secsize ret_cnt to_xfer : Z) (buffer : list Z) (fnp : f_node) (s : state)
    : option (moved * list Z * f_node * state) :=
  let d := bc_dpb (below s) (f_dpb fnp) in
  let sector := Z.land (u8 (f_offset fnp / secsize)) (dpb_clsmask d) in
  let boff := u16 (f_offset fnp mod secsize) in
  let currentblock := u32 (clus2phys (f_cluster fnp) d + sector) in
  let left := u32 (dir_size (f_dir fnp) - f_offset fnp) in
  let wanted := (if (mode =? XFR_READ) && (left <? to_xfer) then u16 left else to_xfer) / secsize in
  if (boff =? 0) && negb (wanted =? 0)
  then xfer_sectors mode secsize wanted sector currentblock ret_cnt buffer fnp s
  else xfer_part mode secsize boff currentblock ret_cnt to_xfer buffer fnp s.

(** The loop; the node is copied back to its table entry by the caller.
    kernel/fatfs.c:1251-1441 *)
Fixpoint rw_loop (fuel : nat) (mode secsize count ret_cnt to_xfer : Z) (buffer : list Z) (fnp : f_node) (s : state)
    : option (Z * list Z * f_node * state) :=
  if negb (ret_cnt <? count) then Some (ret_cnt, buffer, fnp, s)
  else
    match fuel with
    | O => None
    | Datatypes.S fuel' =>
        if (mode =? XFR_READ) && (dir_size (f_dir fnp) <=? f_offset fnp) then Some (ret_cnt, buffer, fnp, s)
        else
          let* (rc, fnp, s) := call (map_cluster cf steps fnp mode) s in
          if negb (rc =? SUCCESS) then Some (ret_cnt, buffer, fnp, s)
          else
            let* s := if mode =? XFR_WRITE then distribute fnp s else Some s in
            let* (m, buffer, fnp, s) := xfer_turn mode secsize ret_cnt to_xfer buffer fnp s in
            match m with
            | Ended rc => Some (rc, buffer, fnp, s)
            | Moved xfr_cnt =>
                let ret_cnt := u16 (ret_cnt + xfr_cnt) in
                let to_xfer := u16 (to_xfer - xfr_cnt) in
                let* (fnp, s) :=
                  if mode =? XFR_WRITE then
                    let fnp := if dir_size (f_dir fnp) <? f_offset fnp
                               then with_f_dirent (with_dir_size (f_offset fnp)) fnp else fnp in
                    let* s := distribute fnp s in
                    Some (fnp, s)
                  else Some (fnp, s) in
                rw_loop fuel' mode secsize count ret_cnt to_xfer buffer fnp s
            end
    end.

(** The start of a write.
    kernel/fatfs.c:1208-1219 *)
Definition mark_written (fnp : f_node) : f_node :=
  with_f_flags (clear (Z.lor SFT_FCLEAN SFT_FDATE) (f_flags fnp))
    (with_f_dirent (fun e => with_dir_attrib (Z.lor (dir_attrib e) D_ARCHIVE) e) fnp).

(** [buffer] is the memory of the caller from the address on; the result is what
    it holds afterwards.
    kernel/fatfs.c:1187-1443 *)
Definition rwblock (fuel : nat) (fd : Z) (buffer : list Z) (count mode : Z) (fnp : f_node) (s : state)
    : option (Z * list Z * f_node * state) :=
  let leave rc buffer fnp s := let* s := fnode_to_sft fnp s in Some (rc, buffer, fnp, s) in
  let* fnp := sft_to_fnode fd fnp s in
  let* (rc, fnp, s) :=
    if mode =? XFR_WRITE then dos_extend (mark_written fnp) s else Some (SUCCESS, fnp, s) in
  if negb (rc =? SUCCESS) then leave 0 buffer fnp s
  else if count =? 0 then
    if mode =? XFR_WRITE then
      let* (rc, fnp, s) := call (shrink_file cf steps (with_f_dirent (with_dir_size (f_offset fnp)) fnp)) s in
      if rc <? 0 then Some (DE_ACCESS, buffer, fnp, s) else leave 0 buffer fnp s
    else leave 0 buffer fnp s
  else
    let secsize := dpb_secsize (bc_dpb (below s) (f_dpb fnp)) in
    let* (rc, buffer, fnp, s) := rw_loop fuel mode secsize count 0 count buffer fnp s in
    leave rc buffer fnp s.

(** ** Opening and closing *)

(** What becomes of the file that was found, or not: the status, or an error that
    ends the call.
    kernel/fatfs.c:130-182 *)
Definition open_found (path : list Z) (flags attrib status : Z) (fnp : f_node) (s : state)
    : option ((Z + Z) * f_node * state) :=
  if status =? SUCCESS then
    let a := dir_attrib (f_dir fnp) in
    if negb (Z.land flags O_TRUNC =? 0) then
      if negb (Z.land a (Z.lor D_RDONLY (Z.lor D_DIR D_VOLID)) =? 0) ||
         negb (Z.land (Z.land a (Z.lnot D_ARCHIVE)) (Z.lnot attrib) =? 0)
      then Some (inl DE_ACCESS, fnp, s)
      else
        let* s := call_ (wipe_out cf steps fnp) s in
        Some (inr S_REPLACED, fnp, s)
    else if negb (Z.land flags O_OPEN =? 0) then
      let flags :=
        if negb (Z.land flags O_FCB =? 0) && negb (Z.land a D_RDONLY =? 0)
        then Z.lor (Z.land flags (Z.lnot 3)) O_RDONLY else flags in
      if negb (Z.land a (Z.lor D_DIR D_VOLID) =? 0) ||
         negb (Z.land a D_RDONLY =? 0) && negb (Z.land flags O_ACCMODE =? O_RDONLY)
      then Some (inl DE_ACCESS, fnp, s)
      else Some (inr S_OPENED, fnp, s)
    else Some (inl DE_FILEEXISTS, fnp, s)
  else if (status =? DE_FILENOTFND) && negb (Z.land flags O_CREAT =? 0) then
    let* (ret, fnp, s) := call (alloc_find_free cf steps ents fnp path) s in
    if negb (ret =? SUCCESS) then Some (inl ret, fnp, s) else Some (inr S_CREATED, fnp, s)
  else Some (inl status, fnp, s).

(** kernel/fatfs.c:123-203 *)
Definition dos_open (path : list Z) (flags attrib fd : Z) (fnp : f_node) (s : state) : option (Z * f_node * state) :=
  let* fnp := sft_to_fnode fd fnp s in
  let* (status, fnp, s) := call (find_fname cf steps ents path (Z.lor D_ALL attrib) fnp) s in
  let* (status, fnp, s) := open_found path flags attrib status fnp s in
  match status with
  | inl err => Some (err, fnp, s)
  | inr status =>
      let fnp := with_f_pos 0 (f_cluster fnp) (with_f_offset 0 (with_f_sft_idx (u8 fd) fnp)) in
      let fnp := with_f_flags (Z.lor (clear SFT_FDATE (f_flags fnp)) SFT_FCLEAN) fnp in
      let* (ok, fnp, s) :=
        if negb (status =? S_OPENED) then
          let* (e, s) := call (init_direntry attrib FREE (dm_name_pat (f_dmp fnp))) s in
          let fnp := with_f_dir e fnp in
          let* (ok, s) := call (dir_write cf fnp) s in
          Some (ok, fnp, s)
        else Some (true, fnp, s) in
      if negb ok then Some (DE_ACCESS, fnp, s)
      else
        let* (_, fnp, s) := merge_file_changes no_close fnp (if status =? S_OPENED then 1 else 0) s in
        let fnp := with_f_pos (f_cluster_offset fnp) (getdstart (bc_dpb (below s) (f_dpb fnp)) (f_dir fnp)) fnp in
        let* s := fnode_to_sft fnp s in
        Some (status, fnp, s)
  end.

(** kernel/fatfs.c:213-231 *)
Definition dos_close (fd : Z) (fnp : f_node) (s : state) : option (Z * f_node * state) :=
  let* fnp := sft_to_fnode fd fnp s in
  let* (fnp, s) :=
    if Z.land (f_flags fnp) SFT_FCLEAN =? 0 then
      let* (fnp, s) :=
        if Z.land (f_flags fnp) SFT_FDATE =? 0 then
          let* (time, s) := call ds_gettime s in
          let* (date, s) := call ds_getdate s in
          Some (with_f_dirent (with_dir_stamp time date) fnp, s)
        else Some (fnp, s) in
      let* s := distribute fnp s in
      Some (fnp, s)
    else Some (fnp, s) in
  let fnp := with_f_sft_idx 0xff fnp in
  let* (ok, s) := call (dir_write_update cf fnp true) s in
  Some (if ok then SUCCESS else DE_INVLDHNDL, fnp, s).

End files.
