(* ===== verification/FileioSpec.v ===== *)
(** * Files: what is read and written

    The contents of a file are the bytes of its sectors, which are the sectors of
    the clusters of its chain in order.  Reading and writing are stated of these
    bytes. *)

From S2P Require Import Prelude Hdr Bytes Dpb Blockio BlockioRing BlockioSpec BlockioRange Fattab CacheSpec.
From S2P Require Import FattabSpec Fnode Cluster ClusterSpec Fatdir FatdirSpec Fileio.

(** ** Lists of sectors *)

Lemma concat_drop (f : Z -> list Z) k : forall L, (forall x, x ∈ L -> length (f x) = 512%nat) ->
  drop (512 * k) (concat (map f L)) = concat (map f (drop k L)).
Proof.
  induction k as [|k IH]; intros L HL; [done|]. destruct L as [|x L]; [by rewrite drop_nil|].
  cbn [map concat drop]. assert (Hx : length (f x) = 512%nat) by (apply HL; by left).
  rewrite drop_app_ge by lia. rewrite Hx, <- (IH L) by (intros y Hy; apply HL; by right). f_equal. lia.
Qed.

Lemma concat_take (f : Z -> list Z) k : forall L, (forall x, x ∈ L -> length (f x) = 512%nat) ->
  take (512 * k) (concat (map f L)) = concat (map f (take k L)).
Proof.
  induction k as [|k IH]; intros L HL; [done|]. destruct L as [|x L]; [by rewrite take_nil|].
  cbn [map concat take]. assert (Hx : length (f x) = 512%nat) by (apply HL; by left).
  rewrite take_app_ge by lia. rewrite Hx, <- (IH L) by (intros y Hy; apply HL; by right). do 2 f_equal. lia.
Qed.

Lemma concat_length (f : Z -> list Z) L : (forall x, x ∈ L -> length (f x) = 512%nat) ->
  length (concat (map f L)) = (512 * length L)%nat.
Proof.
  induction L as [|x L IH]; intros HL; [done|]. cbn [map concat length]. rewrite length_app, IH, HL; [lia|by left|].
  intros y Hy. apply HL. by right.
Qed.

Lemma splice_grow (i n : nat) (x l : list Z) (k : nat) :
  (i + k <= length l)%nat -> (n + k <= length x)%nat ->
  splice i (take k (drop n x)) l = take i l ++ take k (drop n x) ++ drop (i + k) l.
Proof. intros Hi Hn. unfold splice. rewrite length_take, length_drop. do 3 f_equal. lia. Qed.

(** What has been moved so far, and the next piece. *)
Lemma splice_next (x l : list Z) (o r k : nat) :
  (o + r + k <= length x)%nat -> (r + k <= length l)%nat ->
  splice r (take k (drop (o + r) x)) (take r (drop o x) ++ drop r l) = take (r + k) (drop o x) ++ drop (r + k) l.
Proof.
  intros Hx Hl. assert (length (take r (drop o x)) = r) as Hr by (rewrite length_take, length_drop; lia).
  rewrite splice_grow by (rewrite ?length_app, ?length_drop; lia).
  rewrite take_app_length' by done. rewrite drop_app_ge by lia. rewrite Hr, drop_drop.
  rewrite <- (drop_drop x r o). rewrite app_assoc, take_take_drop. do 2 f_equal. lia.
Qed.

(** ** Transfers past the buffers *)

Class TransferLaws (S : Type) (primary : Z -> Z -> Prop) `{BlockCacheLaws S primary, !BlockTransfer S} := {
  bt_read_run fuel high s l v n k u data :
    bc_reliable -> bc_rep fuel s l v -> 1 <= k -> 0 <= n -> n + k <= 4294967296 -> bc_drive s u ->
    (forall i, n <= i < n + k -> primary u i /\ length (v u i) = 512%nat) -> Z.of_nat (length data) = 512 * k ->
    exists s1 s2, bt_delete fuel n (n + k - 1) u XFR_READ s = Some s1 /\
      bt_dskxfer fuel high u n data k DSKREAD s1 = Some (0, blocks (v u) n k, s2) /\ bc_rep fuel s2 l v /\
      (forall p, bc_dpb s2 p = bc_dpb s p) /\ (forall u', bc_drive s u' -> bc_drive s2 u');
  bt_write_run fuel high s l v n k u data :
    bc_reliable -> bc_rep fuel s l v -> 1 <= k -> 0 <= n -> n + k <= 4294967296 -> bc_drive s u ->
    Z.of_nat (length data) = 512 * k ->
    exists s1 s2, bt_delete fuel n (n + k - 1) u XFR_WRITE s = Some s1 /\
      bt_dskxfer fuel high u n data k DSKWRITE s1 = Some (0, data, s2) /\ bc_rep fuel s2 l (with_run v u n k data) /\
      (forall p, bc_dpb s2 p = bc_dpb s p) /\ (forall u', bc_drive s u' -> bc_drive s2 u') }.

#[export] Instance bio_transfers {D} `{RangeLaws D} primary : TransferLaws (bio D) primary.
Proof.
  split.
  - intros fuel high s l v n k u data Hrel [Hr Hl] Hk Hn Hnk Hd Hp Hlen.
    destruct (read_run primary Hrel fuel high s l v n k u data Hr) as (s1 & s2 & E1 & E2 & Hr2 & Hdr & Hdp); try done; [lia|].
    exists s1, s2. split; [done|]. split; [done|]. split; [by split|]. split.
    + intros q. cbn. by rewrite Hdp.
    + intros u'. cbn. by rewrite Hdr.
  - intros fuel high s l v n k u data Hrel [Hr Hl] Hk Hn Hnk Hd Hlen.
    destruct (write_run primary Hrel fuel high s l v n k u data Hr) as (s1 & s2 & E1 & E2 & Hr2 & Hdr & Hdp); try done; [lia|].
    exists s1, s2. split; [done|]. split; [done|]. split; [by split|]. split.
    + intros q. cbn. by rewrite Hdp.
    + intros u'. cbn. by rewrite Hdr.
Qed.

Section files.
  Context {S : Type} `{TransferLaws S primary} (cf steps : nat) (p : Z) (g : dpb).
  Context (Hrel : bc_reliable (S := S) (primary := primary)).

#[local] Abbreviation mounted := (mounted (primary := primary) cf p g).
#[local] Abbreviation evolves := (evolves (primary := primary) cf p g).
#[local] Abbreviation layout_ok := (layout_ok (primary := primary) g).
#[local] Abbreviation data_block := (data_block (primary := primary) g).
#[local] Abbreviation unit := (dpb_unit g).

(** ** The contents of a file *)

(** Sectors of a cluster. *)
Definition spc : Z := 2 ^ dpb_shftcnt g.

Definition cluster_sectors (c : Z) : list Z := seqZ (clus2phys c g) spc.
Definition file_sectors (cs : list Z) : list Z := concat (map cluster_sectors cs).
Definition file_bytes (v : Z -> Z -> list Z) (cs : list Z) : list Z := concat (map (v unit) (file_sectors cs)).

Lemma spc_pos v : layout_ok v -> 0 < spc <= 128.
Proof.
  intros Hl. pose proof (lo_shift _ _ Hl). unfold spc. split; [apply Z.pow_pos_nonneg; lia|].
  change 128 with (2 ^ 7). apply Z.pow_le_mono_r; lia.
Qed.

Lemma file_sector v cs : layout_ok v -> forall k, 0 <= k ->
  file_sectors cs !! Z.to_nat k = c ← cs !! Z.to_nat (k / spc); Some (clus2phys c g + k mod spc).
Proof.
  intros Hl. pose proof (spc_pos v Hl) as Hs. induction cs as [|c cs IH]; intros k Hk; [done|].
  unfold file_sectors. cbn [map concat]. unfold cluster_sectors at 1.
  destruct (decide (k < spc)) as [Hlt|Hge].
  - rewrite (Z.div_small k), (Z.mod_small k) by lia. cbn. rewrite lookup_app_l by (rewrite length_seqZ; lia).
    rewrite lookup_seqZ_lt by lia. change (Z.to_nat 0) with 0%nat. cbn. f_equal. lia.
  - rewrite lookup_app_r by (rewrite length_seqZ; lia). rewrite length_seqZ.
    replace (Z.to_nat k - Z.to_nat spc)%nat with (Z.to_nat (k - spc)) by lia. fold (file_sectors cs).
    assert (k / spc = (k - spc) / spc + 1) as -> by (rewrite <- Z.div_add by lia; f_equal; lia).
    assert (k mod spc = (k - spc) mod spc) as ->
      by (rewrite <- (Z.mod_add (k - spc) 1 spc) by lia; f_equal; lia).
    rewrite IH by lia. pose proof (Z.div_pos (k - spc) spc ltac:(lia) ltac:(lia)).
    by replace (Z.to_nat ((k - spc) / spc + 1)) with (Datatypes.S (Z.to_nat ((k - spc) / spc))) by lia.
Qed.

Lemma file_sectors_length v cs : layout_ok v -> Z.of_nat (length (file_sectors cs)) = spc * Z.of_nat (length cs).
Proof.
  intros Hl. pose proof (spc_pos v Hl). induction cs as [|c cs IH]; [cbn; lia|].
  unfold file_sectors in *. cbn [map concat length]. rewrite length_app. unfold cluster_sectors at 1.
  rewrite length_seqZ. lia.
Qed.

(** Clusters of the volume. *)
Definition clusters (cs : list Z) : Prop := forall x, x ∈ cs -> 2 <= x <= max_cluster g.

Lemma chain_clusters v c cs : chain g v c cs -> clusters cs.
Proof. intros Hc x. by apply (chain_range g v cs c). Qed.

Lemma file_sector_data v cs x : layout_ok v -> clusters cs -> x ∈ file_sectors cs -> data_block x.
Proof.
  intros Hl Hc Hx. unfold file_sectors in Hx. apply list_elem_of_In, in_concat in Hx as (l & Hin & Hx).
  apply in_map_iff in Hin as (y & <- & Hy). apply list_elem_of_In, elem_of_seqZ in Hx.
  replace x with (clus2phys y g + (x - clus2phys y g)) by lia.
  apply (lo_cluster _ _ Hl); [|rewrite (lo_mask _ _ Hl); fold spc; lia].
  apply Hc. by apply list_elem_of_In.
Qed.

Lemma file_sector_length v cs x : layout_ok v -> clusters cs -> x ∈ file_sectors cs ->
  length (v unit x) = 512%nat.
Proof. intros Hl Hc Hx. apply (lo_data _ _ Hl). by eapply file_sector_data. Qed.

Lemma file_bytes_length v cs : layout_ok v -> clusters cs ->
  Z.of_nat (length (file_bytes v cs)) = 512 * spc * Z.of_nat (length cs).
Proof.
  intros Hl Hc. unfold file_bytes. rewrite concat_length by (intros x; by eapply file_sector_length).
  pose proof (file_sectors_length v cs Hl). lia.
Qed.

(** A part of a sector, and a run of sectors that follow each other. *)
Lemma file_part v cs k x i n : layout_ok v -> clusters cs -> 0 <= k -> file_sectors cs !! Z.to_nat k = Some x ->
  (i + n <= 512)%nat ->
  take n (drop (Z.to_nat (512 * k) + i) (file_bytes v cs)) = take n (drop i (v unit x)).
Proof.
  intros Hl Hc Hk Hx Hi. pose proof (fun y => file_sector_length v cs y Hl Hc) as H512. unfold file_bytes.
  rewrite <- drop_drop. replace (Z.to_nat (512 * k)) with (512 * Z.to_nat k)%nat by lia.
  rewrite concat_drop by done. rewrite (drop_S (file_sectors cs) x (Z.to_nat k)) by done. cbn [map concat].
  assert (length (v unit x) = 512%nat) as Hlx by (apply H512; by eapply list_elem_of_lookup_2).
  rewrite drop_app_le by lia. by rewrite take_app_le by (rewrite length_drop; lia).
Qed.

Lemma file_run v cs k b n : layout_ok v -> clusters cs -> 0 <= k -> 0 <= n ->
  (forall i, 0 <= i < n -> file_sectors cs !! Z.to_nat (k + i) = Some (b + i)) ->
  take (Z.to_nat (512 * n)) (drop (Z.to_nat (512 * k)) (file_bytes v cs)) = blocks (v unit) b n.
Proof.
  intros Hl Hc Hk Hn Hrun. pose proof (fun y => file_sector_length v cs y Hl Hc) as H512. unfold file_bytes.
  replace (Z.to_nat (512 * k)) with (512 * Z.to_nat k)%nat by lia.
  replace (Z.to_nat (512 * n)) with (512 * Z.to_nat n)%nat by lia.
  rewrite concat_drop by done. rewrite concat_take.
  2: { intros x Hx. apply H512. apply list_elem_of_lookup in Hx as [j Hj]. rewrite lookup_drop in Hj.
       by eapply list_elem_of_lookup_2. }
  unfold blocks. do 2 f_equal. apply list_eq. intros j. destruct (decide (j < Z.to_nat n)%nat) as [Hj|Hj].
  - rewrite lookup_take_lt, lookup_drop by done. replace (Z.to_nat k + j)%nat with (Z.to_nat (k + Z.of_nat j)) by lia.
    rewrite Hrun, lookup_seqZ_lt by lia. done.
  - rewrite lookup_take_ge by lia. symmetry. apply lookup_ge_None. rewrite length_seqZ. lia.
Qed.

(** ** A node at a file *)

(** The node with its position changed. *)
Definition moved_to (o a b : Z) (fnp : f_node) : f_node := with_f_offset o (with_f_pos a b fnp).

Lemma moved_moved o a b o' a' b' fnp : moved_to o a b (moved_to o' a' b' fnp) = moved_to o a b fnp.
Proof. done. Qed.

Lemma moved_offset o o' a b fnp : with_f_offset o (moved_to o' a b fnp) = moved_to o a b fnp.
Proof. done. Qed.

Lemma positioned_offset v o fnp cs : positioned g v (with_f_offset o fnp) cs <-> positioned g v fnp cs.
Proof. done. Qed.

Lemma mounted_fields v s : mounted v s ->
  dpb_secsize (bc_dpb s p) = 512 /\ dpb_clsmask (bc_dpb s p) = dpb_clsmask g /\ dpb_unit (bc_dpb s p) = unit.
Proof.
  intros Hm. pose proof (m_geom _ _ _ _ _ Hm) as Hg. pose proof (v_secsize _ _ (m_vol _ _ _ _ _ Hm)) as Hs.
  rewrite <- Hg in *. by split_and!.
Qed.

Lemma sector_of v o : layout_ok v -> Z.land (u8 (o / 512)) (dpb_clsmask g) = (o / 512) mod spc.
Proof.
  intros Hl. pose proof (lo_shift _ _ Hl). rewrite (lo_mask _ _ Hl). unfold spc.
  replace (2 ^ dpb_shftcnt g - 1) with (Z.ones (dpb_shftcnt g)) by (rewrite Z.ones_equiv; lia).
  rewrite land_ones_mod by lia. unfold u8. change 256 with (2 ^ 8).
  replace 8 with (dpb_shftcnt g + (8 - dpb_shftcnt g)) by lia.
  assert (0 < 2 ^ dpb_shftcnt g /\ 0 < 2 ^ (8 - dpb_shftcnt g)) by (split; apply Z.pow_pos_nonneg; lia).
  rewrite Z.pow_add_r, Z.rem_mul_r by lia. by rewrite Z.mul_comm, Z_mod_plus_full, Zmod_mod.
Qed.

Lemma relcluster_spc v o : volume_ok primary g -> layout_ok v -> relcluster_of g o = o / 512 / spc.
Proof.
  intros Hv Hl. pose proof (lo_shift _ _ Hl). unfold relcluster_of, spc.
  by rewrite (v_secsize _ _ Hv), Z.shiftr_div_pow2 by lia.
Qed.

Lemma moved_offset_id fnp : moved_to (f_offset fnp) (f_cluster_offset fnp) (f_cluster fnp) fnp = fnp.
Proof. by destruct fnp. Qed.

(** Positioning for reading inside the chain. *)
Lemma map_read v (s : system S) fnp cs :
  mounted v (below s) -> layout_ok v -> f_dpb fnp = p -> positioned g v fnp cs ->
  (Z.to_nat (max_cluster g) <= steps)%nat ->
  0 <= f_offset fnp < 512 * spc * Z.of_nat (length cs) ->
  exists x c, call (map_cluster cf steps fnp XFR_READ) s =
      Some (SUCCESS, moved_to (f_offset fnp) (f_offset fnp / 512 / spc) x fnp, with_below c s) /\
    cs !! Z.to_nat (f_offset fnp / 512 / spc) = Some x /\ evolves v (below s) v c /\
    positioned g v (moved_to (f_offset fnp) (f_offset fnp / 512 / spc) x fnp) cs.
Proof.
  intros Hm Hl Hp Hpos Hst Ho. pose proof (m_vol _ _ _ _ _ Hm) as Hv. pose proof (spc_pos v Hl) as Hs.
  destruct (map_cluster_read_spec cf p g Hrel steps v (below s) fnp cs Hm Hp Hpos ltac:(lia)
    ltac:(apply (lo_shift _ _ Hl)) Hst) as (rc & fnp' & c & E & Hev & Hres).
  rewrite (relcluster_spc v) in Hres by done. set (rel := f_offset fnp / 512 / spc) in *.
  assert (0 <= rel < Z.of_nat (length cs)) as Hrel0.
  { unfold rel. rewrite Z.div_div by lia. split; [apply Z.div_pos; lia|]. apply Z.div_lt_upper_bound; lia. }
  destruct (lookup_lt_is_Some_2 cs (Z.to_nat rel)) as [x Hx]; [lia|]. rewrite Hx in Hres. destruct Hres as [-> ->].
  exists x, c. unfold call. rewrite E. assert (with_f_pos rel x fnp = moved_to (f_offset fnp) rel x fnp) as -> by (by destruct fnp).
  split_and!; try done. split; [exact (proj1 Hpos)|]. split; [cbn; lia|exact Hx].
Qed.

(** Data starts after the boot sector and ends on the volume. *)
Definition data_area : Prop := layout_fits g /\ 1 <= data_start g.

Lemma clus2phys_pos v x : data_area -> layout_ok v -> volume_ok primary g -> 2 <= x <= max_cluster g -> 1 <= clus2phys x g.
Proof.
  intros [Hf H1] Hl Hv Hx. pose proof (lo_shift _ _ Hl). rewrite clus2phys_value; [|done|done|done|apply (v_max _ _ Hv)].
  assert (0 < 2 ^ dpb_shftcnt g) by (apply Z.pow_pos_nonneg; lia). nia.
Qed.

(** Sectors of the file from [k] on that follow each other on the volume. *)
Definition run_at (cs : list Z) (k b n : Z) : Prop :=
  forall i, 0 <= i < n -> file_sectors cs !! Z.to_nat (k + i) = Some (b + i).

Lemma run_block v cs k b n i : layout_ok v -> clusters cs -> run_at cs k b n -> 0 <= i < n -> data_block (b + i).
Proof. intros Hl Hc Hr Hi. eapply file_sector_data; [done|done|]. eapply list_elem_of_lookup_2. by apply Hr. Qed.

(** The rest of the cluster that holds sector [k]. *)
Lemma run_in_cluster v cs k x n : layout_ok v -> 0 <= k -> cs !! Z.to_nat (k / spc) = Some x -> n <= spc - k mod spc ->
  run_at cs k (clus2phys x g + k mod spc) n.
Proof.
  intros Hl Hk Hx Hn i Hi. pose proof (spc_pos v Hl) as Hs. rewrite (file_sector v) by (done || lia).
  pose proof (Z.mod_pos_bound k spc ltac:(lia)).
  assert (k + i = k mod spc + i + k / spc * spc) as -> by (pose proof (Z.div_mod k spc); lia).
  rewrite Z.div_add, Z.mod_add by lia. rewrite (Z.div_small (_ + i)), (Z.mod_small (_ + i)) by lia.
  rewrite Z.add_0_l, Hx. cbn. f_equal. lia.
Qed.

Lemma run_app cs k b m n : run_at cs k b m -> run_at cs (k + m) (b + m) n -> run_at cs k b (m + n).
Proof.
  intros H1 H2 i Hi. destruct (decide (i < m)); [apply H1; lia|].
  replace (k + i) with (k + m + (i - m)) by lia. replace (b + i) with (b + m + (i - m)) by lia. apply H2. lia.
Qed.

Lemma run_take cs k b m n : run_at cs k b n -> m <= n -> run_at cs k b m.
Proof. intros Hr Hm i Hi. apply Hr. lia. Qed.

(** ** Reading *)

Lemma with_below_id (s : system S) : with_below (below s) s = s.
Proof. by destruct s. Qed.

(** [v] is the image, [cs] the chain, [o] where the run starts. *)
Lemma collect_read v cs o wanted b :
  data_area -> layout_ok v -> (Z.to_nat (max_cluster g) <= steps)%nat ->
  0 <= o -> o mod 512 = 0 -> 512 * wanted < 65536 -> o + 512 * wanted <= 512 * spc * Z.of_nat (length cs) ->
  o + 512 * wanted < 4294967296 -> forall fuel sectors fnp (s : system S),
  mounted v (below s) -> f_dpb fnp = p -> positioned g v fnp cs -> f_offset fnp = o + 512 * sectors ->
  1 <= sectors <= wanted -> run_at cs (o / 512) b sectors ->
  sectors = wanted \/ (o / 512 + sectors) mod spc = 0 -> wanted - sectors <= Z.of_nat fuel ->
  exists m a y c, collect_sectors cf steps fuel XFR_READ 512 wanted o b sectors fnp s =
      Some (m, moved_to (o + 512 * m) a y fnp, with_below c s) /\
    sectors <= m <= wanted /\ run_at cs (o / 512) b m /\ evolves v (below s) v c /\
    positioned g v (moved_to (o + 512 * m) a y fnp) cs.
Proof.
  intros Hda Hl Hst Ho Hmod Hw16 Hend Hw32. pose proof (spc_pos v Hl) as Hs.
  induction fuel as [|fuel IH]; intros sectors fnp s Hm Hp Hpos Eo Hsec Hrun Hal Hf.
  { exists sectors, (f_cluster_offset fnp), (f_cluster fnp), (below s). rewrite <- Eo, moved_offset_id, with_below_id.
    cbn [collect_sectors]. rewrite (proj2 (Z.ltb_ge _ _)) by lia. split_and!; first [done|lia|by apply evolves_refl]. }
  cbn [collect_sectors]. destruct (Z.ltb_spec sectors wanted) as [Hlt|Hge]; cbn [negb].
  2: { exists sectors, (f_cluster_offset fnp), (f_cluster fnp), (below s). rewrite <- Eo, moved_offset_id, with_below_id.
       split_and!; first [done|lia|by apply evolves_refl]. }
  destruct Hal as [?|Hal]; [lia|]. pose proof (m_vol _ _ _ _ _ Hm) as Hv.
  destruct (map_read v s fnp cs Hm Hl Hp Hpos Hst) as (x & c & -> & Hx & Hev & Hpos'); [lia|].
  rewrite Eo in *. change (negb (SUCCESS =? SUCCESS)) with false. cbv iota.
  assert ((o + 512 * sectors) / 512 = o / 512 + sectors) as Ek by (Z.div_mod_to_equations; lia). rewrite Ek in *.
  set (k := o / 512 + sectors) in *. set (fnp1 := moved_to _ _ x fnp) in *.
  change (f_dpb fnp1) with (f_dpb fnp). change (f_cluster fnp1) with x. change (below (with_below c s)) with c.
  pose proof (ev_mounted _ _ _ _ _ _ _ Hev) as Hm1. rewrite Hp, (clus2phys_geom cf p g v c x Hm1).
  assert (2 <= x <= max_cluster g) as Hxr by (eapply chain_range; [exact (proj1 Hpos)|by eapply list_elem_of_lookup_2]).
  destruct (run_block v cs (o / 512) b sectors (sectors - 1) Hl (chain_clusters _ _ _ (proj1 Hpos)) Hrun) as [Hb _]; [lia|].
  assert (Hb0 : 0 <= b).
  { destruct (run_block v cs (o / 512) b sectors 0 Hl (chain_clusters _ _ _ (proj1 Hpos)) Hrun) as [Hb0 _]; lia. }
  destruct (mounted_fields v c Hm1) as (_ & -> & _).
  destruct (Z.eqb_spec (clus2phys x g) (u32 (b + sectors))) as [Ec|Ec]; cbn [negb].
  2: { exists sectors, (k / spc), x, c. split_and!; first [done|lia]. }
  pose proof (clus2phys_pos v x Hda Hl Hv Hxr) as Hcp.
  assert (b + sectors <> 4294967296) by (intros E; rewrite E in Ec; change (u32 4294967296) with 0 in Ec; lia).
  rewrite u32_id in Ec by lia. rewrite (lo_mask _ _ Hl). fold spc.
  set (sectors' := Z.min (sectors + (spc - 1 + 1)) wanted).
  assert (Hrun' : run_at cs (o / 512) b sectors').
  { apply (run_take _ _ _ _ (sectors + spc)); [|lia]. apply run_app; [done|].
    fold k. rewrite <- Ec. replace (clus2phys x g) with (clus2phys x g + k mod spc) by lia.
    apply (run_in_cluster v); [done|unfold k; Z.div_mod_to_equations; lia|done|lia]. }
  rewrite (u16_id (sectors' * 512)), u32_id by lia.
  replace (o + sectors' * 512) with (o + 512 * sectors') by lia.
  destruct (IH sectors' (with_f_offset (o + 512 * sectors') fnp1) (with_below c s))
    as (m & a & y & c2 & -> & Hm2 & Hrun2 & Hev2 & Hpos2); try done; try lia.
  { unfold sectors'. destruct (decide (wanted <= sectors + spc)); [left; lia|right].
    rewrite Z.min_l by lia. replace (o / 512 + (sectors + (spc - 1 + 1))) with (k + 1 * spc) by (unfold k; lia).
    by rewrite Z.mod_add by lia. }
  exists m, a, y, c2. split_and!; first [done|lia|by eapply evolves_trans].
Qed.

(** A buffer of the volume's data may be recycled soon. *)
Lemma data_uncache v s x n l : mounted v s -> bc_rep cf s l v -> x ∈ l -> hit n unit (bc_buf s x) ->
  evolves v s v (bc_upd x (fun b => with_flag (Z.lor (b_flag b) BFR_UNCACHE) b) s).
Proof.
  intros Hm Hr Hx Hh. destruct (set_uncache (b_flag (bc_buf s x))) as (F1 & F2 & F3 & F4).
  pose proof (bc_mirrors _ _ _ _ _ Hr Hx (proj1 Hh)) as Hmir.
  destruct (bc_store cf s l v v x (fun b => with_flag (Z.lor (b_flag b) BFR_UNCACHE) b) Hr Hx (proj1 Hh)) as [Hr' _]; try done.
  - unfold valid. cbn. rewrite F1. apply Hh.
  - unfold mirrors_ok, is_fat, copy_offset in *. cbn. by rewrite F3.
  - right. split; [done|]. unfold dirty. cbn. by rewrite F2.
  - cbn. pose proof (bc_read _ _ _ _ _ _ _ Hr Hx Hh) as Hdata. destruct Hh as (_ & -> & ->). done.
  - apply (mounted_same cf p g v s l); [done|done| |].
    + intros q. by rewrite bc_dpb_upd.
    + intros u Hu. by apply bc_drive_upd.
Qed.

(** A node where [map_cluster] has left it. *)
Definition on_cluster (v : Z -> Z -> list Z) (fnp : f_node) (cs : list Z) : Prop :=
  f_dpb fnp = p /\ positioned g v fnp cs /\ 0 <= f_offset fnp /\
  cs !! Z.to_nat (f_offset fnp / 512 / spc) = Some (f_cluster fnp).

(** The next piece, of [k] bytes, has gone from the file to the buffer. *)
Definition read_piece (v : Z -> Z -> list Z) (cs : list Z) (fnp : f_node) (ret k : Z) (buffer : list Z)
    (s : system S) (r : option (moved * list Z * f_node * system S)) : Prop :=
  exists a y c, r = Some (Moved k,
      splice (Z.to_nat ret) (take (Z.to_nat k) (drop (Z.to_nat (f_offset fnp)) (file_bytes v cs))) buffer,
      moved_to (f_offset fnp + k) a y fnp, with_below c s) /\
    evolves v (below s) v c /\ positioned g v (moved_to (f_offset fnp + k) a y fnp) cs.

Lemma xfer_sectors_read v cs (s : system S) fnp wanted ret buffer :
  data_area -> layout_ok v -> (Z.to_nat (max_cluster g) <= steps)%nat -> 128 <= Z.of_nat steps ->
  mounted v (below s) -> on_cluster v fnp cs -> f_offset fnp mod 512 = 0 -> 1 <= wanted -> 512 * wanted < 65536 ->
  f_offset fnp + 512 * wanted <= 512 * spc * Z.of_nat (length cs) -> f_offset fnp + 512 * wanted < 4294967296 ->
  0 <= ret -> ret + 512 * wanted <= Z.of_nat (length buffer) ->
  let sector := (f_offset fnp / 512) mod spc in
  exists k, 1 <= k <= 512 * wanted /\
    read_piece v cs fnp ret k buffer s
      (xfer_sectors cf steps XFR_READ 512 wanted sector (clus2phys (f_cluster fnp) g + sector) ret buffer fnp s).
Proof.
  intros Hda Hl Hst Hst2 Hm (Hp & Hpos & Ho & Hx) Hmod Hw Hw16 Hend Hw32 Hret Hlen sector. unfold xfer_sectors.
  pose proof (spc_pos v Hl) as Hs. pose proof (m_vol _ _ _ _ _ Hm) as Hv. rewrite Hp.
  destruct (mounted_fields v (below s) Hm) as (_ & -> & _). rewrite (lo_mask _ _ Hl). fold spc.
  pose proof (Z.mod_pos_bound (f_offset fnp / 512) spc ltac:(lia)) as Hsec. fold sector in Hsec.
  set (n0 := Z.min (spc - 1 + 1 - sector) wanted). rewrite (u16_id (n0 * 512)), u32_id by lia.
  replace (f_offset fnp + n0 * 512) with (f_offset fnp + 512 * n0) by lia.
  set (b := clus2phys (f_cluster fnp) g + sector).
  assert (Hrun0 : run_at cs (f_offset fnp / 512) b n0).
  { apply (run_in_cluster v); [done|Z.div_mod_to_equations; lia|done|]. fold sector. lia. }
  destruct (collect_read v cs (f_offset fnp) wanted b Hda Hl Hst Ho Hmod Hw16 Hend Hw32 steps n0
    (with_f_offset (f_offset fnp + 512 * n0) fnp) s) as (m & a & y & c & -> & Hmr & Hrun & Hev & Hpos'); try done; try lia.
  { destruct (decide (wanted <= spc - sector)) as [?|Hge]; [left; lia|right]. unfold n0. rewrite Z.min_l by lia.
    unfold sector. rewrite (Z.div_mod (f_offset fnp / 512) spc) at 1 by lia.
    replace (_ + _) with ((f_offset fnp / 512 / spc + 1) * spc) by lia. by rewrite Z.mod_mul by lia. }
  cbn [f_dpb moved_to with_f_offset with_f_pos]. rewrite Hp. change (below (with_below c s)) with c.
  pose proof (ev_mounted _ _ _ _ _ _ _ Hev) as Hm1. destruct (mounted_fields v c Hm1) as (_ & _ & ->).
  destruct (run_block v cs _ b m 0 Hl (chain_clusters _ _ _ (proj1 Hpos)) Hrun) as [Hb0 _]; [lia|].
  destruct (run_block v cs _ b m (m - 1) Hl (chain_clusters _ _ _ (proj1 Hpos)) Hrun) as [Hb1 _]; [lia|].
  destruct (m_rep _ _ _ _ _ Hm1) as [l Hr]. rewrite (u16_id (m * 512)), (u32_id (b + m - 1)) by lia.
  set (data := take _ _).
  destruct (bt_read_run cf (bt_high c) c l v b m unit data Hrel Hr) as (s1 & s2 & E1 & E2 & Hr2 & Hdp & Hdr); try lia.
  { apply (m_drive _ _ _ _ _ Hm1). }
  { intros i Hi. replace i with (b + (i - b)) by lia.
    pose proof (run_block v cs _ b m (i - b) Hl (chain_clusters _ _ _ (proj1 Hpos)) Hrun ltac:(lia)) as Hd.
    split; [apply Hd|]. by apply (lo_data _ _ Hl). }
  { unfold data. rewrite length_take, length_drop. lia. }
  unfold call_, call. cbn [below with_below]. rewrite E1. cbn [below with_below].
  change (if XFR_READ =? XFR_READ then DSKREAD else DSKWRITE) with DSKREAD. rewrite E2.
  exists (m * 512). split; [lia|]. exists a, y, s2.
  replace (m * 512) with (512 * m) by lia. replace (Z.to_nat (f_offset fnp)) with (Z.to_nat (512 * (f_offset fnp / 512)))
    by (Z.div_mod_to_equations; lia).
  rewrite (file_run v cs _ b m Hl (chain_clusters _ _ _ (proj1 Hpos))) by (done || lia || (Z.div_mod_to_equations; lia)).
  split; [done|]. split; [|done]. eapply evolves_trans; [exact Hev|]. by apply (mounted_same cf p g v c l).
Qed.

Lemma xfer_part_read v cs (s : system S) fnp ret to_xfer buffer :
  layout_ok v -> mounted v (below s) -> on_cluster v fnp cs ->
  f_offset fnp < dir_size (f_dir fnp) < 4294967296 -> 1 <= to_xfer < 65536 ->
  dir_size (f_dir fnp) <= 512 * spc * Z.of_nat (length cs) ->
  0 <= ret -> ret + to_xfer <= Z.of_nat (length buffer) ->
  exists k, 1 <= k <= to_xfer /\ f_offset fnp + k <= dir_size (f_dir fnp) /\
    read_piece v cs fnp ret k buffer s
      (xfer_part cf XFR_READ 512 (f_offset fnp mod 512)
         (clus2phys (f_cluster fnp) g + (f_offset fnp / 512) mod spc) ret to_xfer buffer fnp s).
Proof.
  intros Hl Hm (Hp & Hpos & Ho & Hx) Hsz Hto Hend Hret Hlen. unfold xfer_part. rewrite Hp.
  pose proof (spc_pos v Hl) as Hs. destruct (mounted_fields v (below s) Hm) as (_ & _ & ->).
  set (k0 := f_offset fnp / 512) in *. set (b := clus2phys (f_cluster fnp) g + k0 mod spc).
  assert (0 <= k0) as Hk0 by (unfold k0; apply Z.div_pos; lia).
  assert (file_sectors cs !! Z.to_nat k0 = Some b) as Eb by (rewrite (file_sector v) by done; by rewrite Hx).
  assert (data_block b) as Hb by (eapply file_sector_data; [done|exact (chain_clusters _ _ _ (proj1 Hpos))|by eapply list_elem_of_lookup_2]).
  destruct (data_get cf p g Hrel v (below s) b Hm Hb) as (x & c & l & E & Hev & _ & Hr & Hxl & Hh).
  unfold call. rewrite E. change (XFR_READ =? XFR_READ) with true. change (XFR_READ =? XFR_WRITE) with false. cbv iota.
  pose proof (Z.mod_pos_bound (f_offset fnp) 512 ltac:(lia)) as Hmod.
  rewrite (u32_id (dir_size _ - _)), (u16_id (Z.min _ _)) by lia.
  set (k := Z.min (Z.min to_xfer (512 - f_offset fnp mod 512)) (dir_size (f_dir fnp) - f_offset fnp)).
  rewrite (u32_id (f_offset fnp + k)) by lia. change (below (with_below c s)) with c.
  rewrite (bc_read _ _ _ _ _ _ _ Hr Hxl Hh). exists k. split; [lia|]. split; [lia|]. unfold read_piece.
  assert (take (Z.to_nat k) (drop (Z.to_nat (f_offset fnp)) (file_bytes v cs)) =
          take (Z.to_nat k) (drop (Z.to_nat (f_offset fnp mod 512)) (v unit b))) as ->.
  { rewrite <- (file_part v cs k0 b _ _ Hl (chain_clusters _ _ _ (proj1 Hpos))) by (done || lia). do 2 f_equal.
    unfold k0. Z.div_mod_to_equations; lia. }
  exists (f_cluster_offset fnp), (f_cluster fnp).
  assert (forall o, with_f_offset o fnp = moved_to o (f_cluster_offset fnp) (f_cluster fnp) fnp) as Hmv by (by destruct fnp).
  rewrite Hmv. pose proof (ev_mounted _ _ _ _ _ _ _ Hev) as Hm1.
  destruct ((k =? Z.of_nat BUFFERSIZE) || _).
  - eexists. split; [reflexivity|]. split; [|rewrite <- Hmv; exact Hpos]. eapply evolves_trans; [exact Hev|].
    by eapply data_uncache.
  - exists c. split; [done|]. split; [done|]. rewrite <- Hmv. exact Hpos.
Qed.

Lemma xfer_turn_read v cs (s : system S) fnp ret to_xfer buffer :
  data_area -> layout_ok v -> (Z.to_nat (max_cluster g) <= steps)%nat -> 128 <= Z.of_nat steps ->
  mounted v (below s) -> on_cluster v fnp cs ->
  f_offset fnp < dir_size (f_dir fnp) < 4294967296 -> 1 <= to_xfer < 65536 ->
  dir_size (f_dir fnp) <= 512 * spc * Z.of_nat (length cs) ->
  0 <= ret -> ret + to_xfer <= Z.of_nat (length buffer) ->
  exists k, 1 <= k <= to_xfer /\ f_offset fnp + k <= dir_size (f_dir fnp) /\
    read_piece v cs fnp ret k buffer s (xfer_turn cf steps XFR_READ 512 ret to_xfer buffer fnp s).
Proof.
  intros Hda Hl Hst Hst2 Hm Hon Hsz Hto Hend Hret Hlen. pose proof Hon as (Hp & Hpos & Ho & Hx). unfold xfer_turn.
  rewrite Hp. rewrite (clus2phys_geom cf p g v _ _ Hm). destruct (mounted_fields v (below s) Hm) as (_ & -> & _).
  rewrite (sector_of v) by done. pose proof (Z.mod_pos_bound (f_offset fnp) 512 ltac:(lia)) as Hmod.
  rewrite (u16_id (_ mod 512)) by lia. change (XFR_READ =? XFR_READ) with true. cbn [andb].
  assert (0 <= f_offset fnp / 512) by (apply Z.div_pos; lia).
  assert (Hb : data_block (clus2phys (f_cluster fnp) g + (f_offset fnp / 512) mod spc)).
  { eapply file_sector_data; [done|exact (chain_clusters _ _ _ (proj1 Hpos))|]. eapply (list_elem_of_lookup_2 _ (Z.to_nat (f_offset fnp / 512))).
    rewrite (file_sector v) by done. by rewrite Hx. }
  rewrite (u32_id (_ + _)) by apply Hb. rewrite (u32_id (dir_size _ - _)) by lia.
  set (left := dir_size (f_dir fnp) - f_offset fnp) in *.
  set (n := if left <? to_xfer then u16 left else to_xfer).
  assert (Hn : n = Z.min left to_xfer) by (unfold n; case_bool; [rewrite u16_id|]; lia).
  destruct (_ && _) eqn:E.
  - apply andb_true_iff in E as [E0%Z.eqb_eq E1%negb_true_iff%Z.eqb_neq].
    assert (1 <= n / 512 /\ 512 * (n / 512) <= n) as Hw by (Z.div_mod_to_equations; lia).
    destruct (xfer_sectors_read v cs s fnp (n / 512) ret buffer Hda Hl Hst Hst2 Hm Hon E0) as (k & Hk & Hr); try lia.
    exists k. split; [lia|]. split; [lia|]. exact Hr.
  - by apply xfer_part_read.
Qed.

(** The bytes that are left to read from an offset, and how many are read. *)
Definition file_part_of (v : Z -> Z -> list Z) (cs : list Z) (o n : Z) : list Z :=
  take (Z.to_nat n) (drop (Z.to_nat o) (file_bytes v cs)).
Definition readable (size o count : Z) : Z := Z.min count (Z.max 0 (size - o)).

Lemma rw_loop_read v cs o count buffer0 :
  data_area -> layout_ok v -> (Z.to_nat (max_cluster g) <= steps)%nat -> 128 <= Z.of_nat steps ->
  0 <= o -> 0 <= count < 65536 -> count <= Z.of_nat (length buffer0) -> forall fuel ret buffer fnp (s : system S),
  mounted v (below s) -> f_dpb fnp = p -> file_at g v fnp cs -> 0 <= dir_size (f_dir fnp) < 4294967296 ->
  dir_size (f_dir fnp) <= 512 * spc * Z.of_nat (length cs) ->
  f_offset fnp = o + ret -> 0 <= ret <= readable (dir_size (f_dir fnp)) o count ->
  buffer = file_part_of v cs o ret ++ drop (Z.to_nat ret) buffer0 -> count - ret <= Z.of_nat fuel ->
  let n := readable (dir_size (f_dir fnp)) o count in
  exists a y c, rw_loop cf steps fuel XFR_READ 512 count ret (count - ret) buffer fnp s =
      Some (n, file_part_of v cs o n ++ drop (Z.to_nat n) buffer0, moved_to (o + n) a y fnp, with_below c s) /\
    evolves v (below s) v c /\ file_at g v (moved_to (o + n) a y fnp) cs.
Proof.
  intros Hda Hl Hst Hst2 Ho Hcount Hbuf. induction fuel as [|fuel IH];
    intros ret buffer fnp s Hm Hp Hfile Hsz Hend Eo Hret Eb Hf n.
  { assert (ret = n) as <- by (unfold n, readable in *; lia). cbn [rw_loop]. rewrite (proj2 (Z.ltb_ge _ _)) by lia.
    exists (f_cluster_offset fnp), (f_cluster fnp), (below s). rewrite <- Eo, moved_offset_id, with_below_id, Eb.
    split_and!; first [done|by apply evolves_refl]. }
  cbn [rw_loop]. destruct (Z.ltb_spec ret count) as [Hlt|Hge]; cbn [negb].
  2: { assert (ret = n) as <- by (unfold n, readable in *; lia).
       exists (f_cluster_offset fnp), (f_cluster fnp), (below s). rewrite <- Eo, moved_offset_id, with_below_id, Eb.
       split_and!; first [done|by apply evolves_refl]. }
  change (XFR_READ =? XFR_READ) with true. cbn [andb].
  destruct (Z.leb_spec (dir_size (f_dir fnp)) (f_offset fnp)) as [Heof|Hleft].
  { assert (ret = n) as <- by (unfold n, readable in *; lia).
    exists (f_cluster_offset fnp), (f_cluster fnp), (below s). rewrite <- Eo, moved_offset_id, with_below_id, Eb.
    split_and!; first [done|by apply evolves_refl]. }
  destruct Hfile as [(-> & _)|Hpos]; [cbn in Hend; lia|].
  destruct (map_read v s fnp cs Hm Hl Hp Hpos Hst) as (x & c & -> & Hx & Hev & Hpos'); [lia|].
  change (negb (SUCCESS =? SUCCESS)) with false. change (XFR_READ =? XFR_WRITE) with false. cbv iota.
  set (fnp1 := moved_to _ _ x fnp) in *. pose proof (ev_mounted _ _ _ _ _ _ _ Hev) as Hm1.
  pose proof (file_bytes_length v cs Hl (chain_clusters _ _ _ (proj1 Hpos))) as Hfl.
  assert (length (file_part_of v cs o ret) = Z.to_nat ret) as Hpl.
  { unfold file_part_of. rewrite length_take, length_drop. unfold readable in *. lia. }
  assert (length buffer = length buffer0) as Hbl by (rewrite Eb, length_app, length_drop, Hpl; lia).
  destruct (xfer_turn_read v cs (with_below c s) fnp1 ret (count - ret) buffer Hda Hl Hst Hst2)
    as (k & Hk & Hks & a & y & c2 & -> & Hev2 & Hpos2); try done; try lia.
  { split; [done|]. split; [done|]. split; [cbn; lia|done]. } { cbn; lia. }
  change (f_offset fnp1) with (f_offset fnp) in *. change (f_dir fnp1) with (f_dir fnp) in *.
  rewrite (u16_id (ret + k)), (u16_id (count - ret - k)) by lia.
  replace (count - ret - k) with (count - (ret + k)) by lia.
  destruct (IH (ret + k) (splice (Z.to_nat ret) (take (Z.to_nat k) (drop (Z.to_nat (f_offset fnp)) (file_bytes v cs))) buffer)
    (moved_to (f_offset fnp + k) a y fnp1) (with_below c2 (with_below c s))) as (a' & y' & c' & -> & Hev' & Hf');
    try done; try (cbn; lia); try (by right).
  { apply (ev_mounted _ _ _ _ _ _ _ Hev2). }
  { unfold readable in *. cbn. lia. }
  { rewrite Eb, Eo. unfold file_part_of.
    replace (Z.to_nat (o + ret)) with (Z.to_nat o + Z.to_nat ret)%nat by lia. rewrite splice_next by lia.
    replace (Z.to_nat (ret + k)) with (Z.to_nat ret + Z.to_nat k)%nat by lia. done. }
  exists a', y', c'. split_and!; [done| |done].
  eapply evolves_trans; [exact Hev|]. by eapply evolves_trans.
Qed.

End files.

(** ** The system file tables *)

Lemma find_sft_range sp i t : find_sft sp i = Some t -> 0 <= i.
Proof.
  revert i. induction sp as [|l sp IH]; intros i; cbn; [done|].
  destruct (Z.ltb_spec i (Z.of_nat (length l))); [by intros [? _]%at_lookup|intros Hi%IH; lia].
Qed.

Lemma find_change f sp : forall i j, 0 <= i -> 0 <= j ->
  find_sft (change_sft f sp i) j = if decide (j = i) then f <$> find_sft sp i else find_sft sp j.
Proof.
  induction sp as [|t sp IH]; intros i j Hi Hj; cbn [find_sft change_sft]; [by case_decide|].
  destruct (Z.ltb_spec i (Z.of_nat (length t))) as [Hlt|Hge]; cbn [find_sft].
  - rewrite length_alter. destruct (Z.ltb_spec j (Z.of_nat (length t))) as [Hjt|Hjt].
    + unfold at_. rewrite !(proj2 (Z.ltb_ge _ 0)) by lia. case_decide as E; [subst j; by rewrite list_lookup_alter_eq|].
      rewrite list_lookup_alter_ne by lia. done.
    + rewrite decide_False by lia. done.
  - destruct (Z.ltb_spec j (Z.of_nat (length t))) as [Hjt|Hjt]; [by rewrite decide_False by lia|].
    rewrite IH by lia. case_decide; [by rewrite decide_True by lia|by rewrite decide_False by lia].
Qed.

Lemma idx_to_sft_spec {S} (s : system S) i t :
  idx_to_sft i s = Some t <-> find_sft (sfthead s) i = Some t /\ sft_count t <> 0.
Proof.
  unfold idx_to_sft. destruct (Z.ltb_spec i 0).
  { split; [done|]. intros [Hf%find_sft_range _]. lia. }
  destruct (find_sft _ _) as [t'|]; [|split; [done|by intros [? _]]].
  destruct (Z.eqb_spec (sft_count t') 0); split; try done; [intros [[= ->] ?]; done|by intros [= ->]|by intros [[= ->] ?]].
Qed.

(** Changing an open entry without its count. *)
Lemma upd_sft_spec {S} f (s : system S) i t : idx_to_sft i s = Some t -> sft_count (f t) = sft_count t ->
  idx_to_sft i (upd_sft f i s) = Some (f t) /\
  forall j, 0 <= j -> j <> i -> find_sft (sfthead (upd_sft f i s)) j = find_sft (sfthead s) j.
Proof.
  intros [Hf Hc]%idx_to_sft_spec Hcf. pose proof (find_sft_range _ _ _ Hf) as Hi. split.
  - apply idx_to_sft_spec. cbn. rewrite find_change, decide_True, Hf by done. cbn. by rewrite Hcf.
  - intros j Hj Hne. cbn. by rewrite find_change, decide_False.
Qed.

Section tables.
  Context {S : Type} `{TransferLaws S primary} `{!DosState S} (cf steps : nat) (p : Z) (g : dpb).
  Context (Hrel : bc_reliable (S := S) (primary := primary)).

#[local] Abbreviation mounted := (mounted (primary := primary) cf p g).
#[local] Abbreviation evolves := (evolves (primary := primary) cf p g).
#[local] Abbreviation layout_ok := (layout_ok (primary := primary) g).

Definition sft_rel (t : sft) : Z := Z.lor (sft_relclust t) (Z.shiftl (sft_relclust_high t) 16).

(** A table entry of a file with chain [cs]; the volume holds at least its
    size. *)
Record file_open (v : Z -> Z -> list Z) (t : sft) (cs : list Z) : Prop := {
  fo_dpb : sft_dcb t = p;
  fo_at : cs = [] /\ sft_cuclust t = FREE /\ sft_rel t = 0 \/
          chain g v (sft_stclust t) cs /\ 0 <= sft_rel t /\ cs !! Z.to_nat (sft_rel t) = Some (sft_cuclust t);
  fo_size : 0 <= sft_size t < 4294967296;
  fo_posit : 0 <= sft_posit t < 4294967296;
  fo_holds : sft_size t <= 512 * spc g * Z.of_nat (length cs) }.

Lemma start_stored v s c e cs : mounted v s -> chain g v c cs -> cs <> [] ->
  getdstart g (setdstart (bc_dpb s p) c e) = c.
Proof.
  intros Hm Hc Hne. rewrite <- (getdstart_geom cf p g v s) by done. apply setdstart_getdstart.
  pose proof (m_vol _ _ _ _ _ Hm) as Hv. pose proof (v_max _ _ Hv) as Hmx. unfold LONG_BAD in Hmx.
  destruct cs as [|x cs]; [done|]. destruct Hc as (-> & Hr & _). rewrite (fat32_geom cf p g v) by done.
  pose proof (small_cluster (primary := primary) g x Hv) as Hsm. destruct (ISFAT32 g); [lia|].
  rewrite <- (Hsm eq_refl Hr). apply u16_range.
Qed.

(** From the table to the node. *)
Lemma sft_to_fnode_spec v (s : system S) fd fnp0 t cs :
  mounted v (below s) -> idx_to_sft fd s = Some t -> 0 <= fd < 255 -> file_open v t cs ->
  exists fnp, sft_to_fnode fd fnp0 s = Some fnp /\ f_dpb fnp = p /\ f_offset fnp = sft_posit t /\
    dir_size (f_dir fnp) = sft_size t /\ dir_attrib (f_dir fnp) = sft_attrib t /\ f_flags fnp = sft_flags t /\
    f_sft_idx fnp = fd /\ f_dirsector fnp = sft_dirsector t /\ f_diridx fnp = sft_diridx t /\
    dir_name (f_dir fnp) = take 11 (sft_name t) /\ f_dmp fnp = f_dmp fnp0 /\
    file_at g v fnp cs.
Proof.
  intros Hm Ht Hfd [Hp Hat _ _ _]. unfold sft_to_fnode. rewrite Ht, Hp.
  eexists. split; [reflexivity|]. cbn [f_dpb f_offset f_flags f_sft_idx f_dirsector f_diridx f_dmp f_dir].
  rewrite u8_id by lia.
  assert (Hsd : forall d c e, dir_size (setdstart d c e) = dir_size e /\ dir_attrib (setdstart d c e) = dir_attrib e /\
    dir_name (setdstart d c e) = dir_name e) by (intros d c e; unfold setdstart; by destruct (ISFAT32 d)).
  split; [done|]. split; [done|]. rewrite (proj1 (Hsd _ _ _)), (proj1 (proj2 (Hsd _ _ _))), (proj2 (proj2 (Hsd _ _ _))).
  cbn [dir_size dir_attrib dir_name]. repeat (split; [done|]). fold (sft_rel t). destruct Hat as [(-> & Hc & Hr)|(Hc & Hr & Hx)].
  - left. cbn. by rewrite Hc, Hr.
  - right. split; [|by cbn]. unfold dstart. cbn [f_sft_idx f_dir].
    rewrite (proj2 (Z.eqb_neq _ _)) by lia. destruct cs as [|y cs]; [by rewrite lookup_nil in Hx|].
    rewrite (start_stored v (below s) _ _ (y :: cs)); done.
Qed.

(** From the node back to its table entry. *)
Lemma fnode_to_sft_spec v (s : system S) fnp t cs :
  mounted v (below s) -> 0 <= f_sft_idx fnp < 255 -> idx_to_sft (f_sft_idx fnp) s = Some t ->
  f_dpb fnp = p -> file_at g v fnp cs -> 0 <= f_offset fnp < 4294967296 -> 0 <= dir_size (f_dir fnp) < 4294967296 ->
  dir_size (f_dir fnp) <= 512 * spc g * Z.of_nat (length cs) ->
  let t' := store_fnode (bc_dpb (below s) (f_dpb fnp)) fnp t in
  fnode_to_sft fnp s = Some (upd_sft (store_fnode (bc_dpb (below s) (f_dpb fnp)) fnp) (f_sft_idx fnp) s) /\
  file_open v t' cs.
Proof.
  intros Hm Hfd Ht Hp Hfile Ho Hsz Hend t'. unfold fnode_to_sft. rewrite Ht. split; [done|].
  pose proof (m_vol _ _ _ _ _ Hm) as Hv. pose proof (v_max _ _ Hv) as Hmx. unfold LONG_BAD in Hmx.
  assert (0 <= f_cluster_offset fnp < 4294967296) as Hco.
  { destruct Hfile as [(_ & _ & ->)|(Hc & H0' & Hx)]; [lia|].
    pose proof (chain_length g v _ cs Hv Hc). apply lookup_lt_Some in Hx. lia. }
  assert (sft_rel t' = f_cluster_offset fnp) as Erel.
  { unfold sft_rel. cbn. rewrite lor_shiftl, Z.shiftr_div_pow2 by (lia || apply u16_range).
    change (2 ^ 16) with 65536. word_lia. }
  split; cbn [t' store_fnode sft_dcb sft_size sft_posit sft_cuclust sft_stclust]; try done.
  rewrite Erel. destruct Hfile as [(-> & -> & ->)|(Hc & H0' & Hx)]; [by left|right]. split; [|done].
  unfold dstart in Hc. rewrite (proj2 (Z.eqb_neq _ _)) in Hc by lia. by rewrite Hp, (getdstart_geom cf p g v) by done.
Qed.

(** What a call leaves of the other entries. *)
Definition other_entries (fd : Z) (s s' : system S) : Prop :=
  forall j, 0 <= j -> j <> fd -> find_sft (sfthead s') j = find_sft (sfthead s) j.

(** Reading: the bytes of the file from the position on, as many as asked for or
    left; the position moves behind them. *)
Lemma rwblock_read_full fuel v (s : system S) fd t cs count buffer fnp0 :
  mounted v (below s) -> layout_ok v -> data_area g -> (Z.to_nat (max_cluster g) <= steps)%nat ->
  128 <= Z.of_nat steps -> 0 <= count < 65536 -> count <= Z.of_nat fuel -> count <= Z.of_nat (length buffer) ->
  0 <= fd < 255 -> idx_to_sft fd s = Some t -> file_open v t cs ->
  let n := readable (sft_size t) (sft_posit t) count in
  exists fnp s' t', rwblock cf steps fuel fd buffer count XFR_READ fnp0 s =
      Some (n, file_part_of g v cs (sft_posit t) n ++ drop (Z.to_nat n) buffer, fnp, s') /\
    evolves v (below s) v (below s') /\ idx_to_sft fd s' = Some t' /\ file_open v t' cs /\
    sft_posit t' = sft_posit t + n /\ sft_size t' = sft_size t /\ other_entries fd s s' /\
    sft_flags t' = sft_flags t /\ sft_mode t' = sft_mode t /\ sft_shroff t' = sft_shroff t /\
    share_installed s' = share_installed s.
Proof.
  intros Hm Hl Hda Hst Hst2 Hcount Hfuel Hbuf Hfd Ht Hopen n. pose proof Hopen as [_ _ Hsz Hpo Hend].
  destruct (sft_to_fnode_spec v s fd fnp0 t cs Hm Ht Hfd Hopen)
    as (fnp & E & Hp & Eo & Es & _ & Efl & Ex & _ & _ & _ & _ & Hfile).
  assert (rwblock cf steps fuel fd buffer count XFR_READ fnp0 s =
    let* (rc, buffer, fnp, s) := (if count =? 0 then Some (0, buffer, fnp, s)
      else rw_loop cf steps fuel XFR_READ (dpb_secsize (bc_dpb (below s) (f_dpb fnp))) count 0 count buffer fnp s) in
    let* s := fnode_to_sft fnp s in Some (rc, buffer, fnp, s)) as ->.
  { unfold rwblock. rewrite E. cbn. by destruct (count =? 0). }
  assert (Hloop : exists a y c, (if count =? 0 then Some (0, buffer, fnp, s)
      else rw_loop cf steps fuel XFR_READ (dpb_secsize (bc_dpb (below s) (f_dpb fnp))) count 0 count buffer fnp s) =
      Some (n, file_part_of g v cs (sft_posit t) n ++ drop (Z.to_nat n) buffer,
            moved_to (sft_posit t + n) a y fnp, with_below c s) /\
    evolves v (below s) v c /\ file_at g v (moved_to (sft_posit t + n) a y fnp) cs).
  { destruct (Z.eqb_spec count 0) as [->|Hne].
    - assert (n = 0) as -> by (unfold n, readable; lia).
      exists (f_cluster_offset fnp), (f_cluster fnp), (below s).
      rewrite Z.add_0_r, <- Eo, moved_offset_id, with_below_id. split_and!; first [done|by apply evolves_refl].
    - rewrite Hp. destruct (mounted_fields cf p g v _ Hm) as (-> & _). unfold n. rewrite <- Es.
      replace (rw_loop _ _ _ _ _ _ _ count) with (rw_loop cf steps fuel XFR_READ 512 count 0 (count - 0))
        by (by rewrite Z.sub_0_r).
      eapply (rw_loop_read cf steps p g Hrel v cs (sft_posit t) count buffer Hda Hl Hst Hst2); try done; try lia.
      unfold readable. lia. }
  destruct Hloop as (a & y & c & Hrun & Hev & Hf'). set (fnp' := moved_to _ a y fnp) in *.
  assert (Ht' : idx_to_sft (f_sft_idx fnp') (with_below c s) = Some t).
  { change (f_sft_idx fnp') with (f_sft_idx fnp). by rewrite Ex. }
  destruct (fnode_to_sft_spec v (with_below c s) fnp' t cs) as [Hstore Hopen']; try done.
  { apply (ev_mounted _ _ _ _ _ _ _ Hev). } { cbn. lia. } { cbn. unfold n, readable. lia. }
  { cbn. by rewrite Es. } { cbn. by rewrite Es. }
  set (f := store_fnode _ _) in *. change (f_sft_idx fnp') with (f_sft_idx fnp) in *. rewrite Ex in *.
  destruct (upd_sft_spec f (with_below c s) fd t Ht' eq_refl) as [Ht2 Hoth].
  exists fnp', (upd_sft f fd (with_below c s)), (f t). rewrite Hrun, Hstore. split_and!; done.
Qed.

Lemma rwblock_read_spec fuel v (s : system S) fd t cs count buffer fnp0 :
  mounted v (below s) -> layout_ok v -> data_area g -> (Z.to_nat (max_cluster g) <= steps)%nat ->
  128 <= Z.of_nat steps -> 0 <= count < 65536 -> count <= Z.of_nat fuel -> count <= Z.of_nat (length buffer) ->
  0 <= fd < 255 -> idx_to_sft fd s = Some t -> file_open v t cs ->
  let n := readable (sft_size t) (sft_posit t) count in
  exists fnp s' t', rwblock cf steps fuel fd buffer count XFR_READ fnp0 s =
      Some (n, file_part_of g v cs (sft_posit t) n ++ drop (Z.to_nat n) buffer, fnp, s') /\
    evolves v (below s) v (below s') /\ idx_to_sft fd s' = Some t' /\ file_open v t' cs /\
    sft_posit t' = sft_posit t + n /\ sft_size t' = sft_size t /\ other_entries fd s s'.
Proof.
  intros. destruct (rwblock_read_full fuel v s fd t cs count buffer fnp0)
    as (fnp & s' & t' & ? & ? & ? & ? & ? & ? & ? & _); try done. by exists fnp, s', t'.
Qed.

End tables.
