(* ===== verification/FilewriteSpec.v ===== *)
(** * Files: what writing does

    Writing replaces bytes of the file's contents and makes its chain longer where
    it must; nothing else on the volume changes but the FAT of the new
    clusters. *)

From S2P Require Import Prelude Hdr Bytes Dpb Blockio BlockioRing BlockioSpec BlockioRange Fattab CacheSpec.
From S2P Require Import FattabSpec Fnode Cluster ClusterSpec Fatdir FatdirSpec Fileio FileioSpec.

(** ** Replacing a part of a list *)

Lemma splice_nil i (l : list Z) : splice i [] l = l.
Proof. unfold splice. rewrite Nat.add_0_r. cbn. apply take_drop. Qed.

Lemma splice_app_l i (x l1 l2 : list Z) : (i + length x <= length l1)%nat ->
  splice i x (l1 ++ l2) = splice i x l1 ++ l2.
Proof.
  intros Hi. unfold splice. rewrite take_app_le, drop_app_le by lia. by rewrite <- !app_assoc.
Qed.

Lemma splice_splice i (x y l : list Z) : (i + length x + length y <= length l)%nat ->
  splice (i + length x) y (splice i x l) = splice i (x ++ y) l.
Proof.
  intros Hi. unfold splice. assert (length (take i l) = i) as Hl by (rewrite length_take; lia).
  rewrite (app_assoc (take i l) x). rewrite take_app_length' by (rewrite length_app; lia).
  rewrite drop_app_ge by (rewrite length_app; lia). rewrite length_app, Hl, drop_drop, <- !app_assoc, length_app.
  do 4 f_equal. lia.
Qed.

(** A part of a part. *)
Lemma splice_inner i j n (x l : list Z) : (j + length x <= n)%nat -> (i + n <= length l)%nat ->
  splice i (splice j x (take n (drop i l))) l = splice (i + j) x l.
Proof.
  intros Hj Hi. unfold splice at 1.
  assert (length (splice j x (take n (drop i l))) = n) as Hlen.
  { rewrite splice_length; rewrite length_take, length_drop; lia. }
  rewrite Hlen. unfold splice. rewrite take_take, skipn_firstn_comm, !drop_drop.
  replace (j `min` n)%nat with j by lia. rewrite <- !app_assoc, app_assoc, take_take_drop. do 2 f_equal.
  replace (i + (j + length x))%nat with (i + j + length x)%nat by lia.
  rewrite <- (take_drop (n - (j + length x)) (drop (i + j + length x) l)) at 2. f_equal.
  rewrite drop_drop. f_equal. lia.
Qed.

Section write.
  Context {S : Type} `{TransferLaws S primary} (cf steps : nat) (p : Z) (g : dpb).
  Context (Hrel : bc_reliable (S := S) (primary := primary)).

#[local] Abbreviation mounted := (mounted (primary := primary) cf p g).
#[local] Abbreviation evolves := (evolves (primary := primary) cf p g).
#[local] Abbreviation layout_ok := (layout_ok (primary := primary) g).
#[local] Abbreviation data_block := (data_block (primary := primary) g).
#[local] Abbreviation unit := (dpb_unit g).
#[local] Abbreviation F := (fat_at g).
#[local] Abbreviation bytes_of := (file_bytes g).
#[local] Abbreviation spc := (spc g).
#[local] Abbreviation sectors_of := (file_sectors g).

(** ** Sectors of different clusters *)

Lemma sectors_apart v x y b : layout_ok v -> layout_fits g -> volume_ok primary g ->
  2 <= x <= max_cluster g -> 2 <= y <= max_cluster g ->
  b ∈ cluster_sectors g x -> b ∈ cluster_sectors g y -> x = y.
Proof.
  intros Hl Hf Hv Hx Hy. unfold cluster_sectors. rewrite !elem_of_seqZ. pose proof (lo_shift _ _ Hl).
  pose proof (v_max _ _ Hv). rewrite !clus2phys_value by (done || lia). fold spc. pose proof (spc_pos g v Hl). nia.
Qed.

Lemma elem_of_sectors b cs : b ∈ sectors_of cs <-> exists x, x ∈ cs /\ b ∈ cluster_sectors g x.
Proof.
  unfold file_sectors. rewrite list_elem_of_In, in_concat. setoid_rewrite in_map_iff. split.
  - intros (l & (x & <- & Hx) & Hb). exists x. by rewrite !list_elem_of_In.
  - intros (x & Hx & Hb). exists (cluster_sectors g x). rewrite <- list_elem_of_In. split; [|done].
    exists x. by rewrite <- list_elem_of_In.
Qed.

Lemma sectors_app l1 l2 : sectors_of (l1 ++ l2) = sectors_of l1 ++ sectors_of l2.
Proof. unfold file_sectors. by rewrite map_app, concat_app. Qed.

Lemma bytes_app v l1 l2 : bytes_of v (l1 ++ l2) = bytes_of v l1 ++ bytes_of v l2.
Proof. unfold file_bytes. by rewrite sectors_app, map_app, concat_app. Qed.

Lemma sectors_NoDup v cs : layout_ok v -> layout_fits g -> volume_ok primary g -> clusters g cs -> NoDup cs ->
  NoDup (sectors_of cs).
Proof.
  intros Hl Hf Hv. induction cs as [|x cs IH]; intros Hr Hnd; [constructor|].
  apply list.NoDup_cons in Hnd as [Hx Hnd]. unfold file_sectors. cbn [map concat]. fold (sectors_of cs).
  apply list.NoDup_app. split; [apply NoDup_seqZ|]. split.
  - intros b Hb (y & Hy & Hby)%elem_of_sectors. apply Hx.
    assert (x = y) as -> by (eapply (sectors_apart v); try done; apply Hr; [by left|by right]). done.
  - apply IH; [|done]. intros y Hy. apply Hr. by right.
Qed.

Lemma bytes_ext v v' cs : (forall b, b ∈ sectors_of cs -> v' unit b = v unit b) -> bytes_of v' cs = bytes_of v cs.
Proof.
  intros He. unfold file_bytes. f_equal. apply map_ext_in. intros b Hb. apply He. by apply list_elem_of_In.
Qed.

(** Cutting bytes into sectors and putting them together. *)
Lemma chunks_concat n : forall (data : list Z) b, length data = (512 * n)%nat ->
  concat (map (fun i => chunk data (i - b)) (seqZ b (Z.of_nat n))) = data.
Proof.
  induction n as [|n IH]; intros data b Hd; [by destruct data|].
  rewrite seqZ_cons by lia. cbn [map concat]. replace (Z.pred (Z.of_nat (Datatypes.S n))) with (Z.of_nat n) by lia.
  rewrite Z.sub_diag. unfold chunk at 1. change (Z.to_nat (512 * 0)) with 0%nat. rewrite drop_0.
  transitivity (take 512 data ++ drop 512 data); [f_equal|apply take_drop]. rewrite <- (IH (drop 512 data) (Z.succ b)) at 1 by (rewrite length_drop; lia).
  f_equal. apply map_ext_in. intros i Hi%list_elem_of_In%elem_of_seqZ. unfold chunk. rewrite drop_drop. do 2 f_equal. lia.
Qed.

(** The file after some of its sectors that follow each other were written. *)
Lemma bytes_run v v' cs k b n data :
  layout_ok v -> layout_fits g -> volume_ok primary g -> clusters g cs -> NoDup cs ->
  0 <= k -> 0 <= n -> run_at g cs k b n -> k + n <= Z.of_nat (length (sectors_of cs)) ->
  length data = Z.to_nat (512 * n) ->
  (forall i, 0 <= i < n -> v' unit (b + i) = chunk data i) ->
  (forall x, ~ (b <= x < b + n) -> v' unit x = v unit x) ->
  bytes_of v' cs = splice (Z.to_nat (512 * k)) data (bytes_of v cs).
Proof.
  intros Hl Hf Hv Hr Hnd Hk Hn Hrun Hkn Hd Hin Hout. pose proof (sectors_NoDup v cs Hl Hf Hv Hr Hnd) as Hsnd.
  set (L := sectors_of cs) in *. set (kn := Z.to_nat k). set (nn := Z.to_nat n).
  assert (H512 : forall y, y ∈ L -> length (v unit y) = 512%nat) by (intros y; by apply (file_sector_length (primary := primary))).
  assert (Hsplit : L = take kn L ++ seqZ b n ++ drop (kn + nn) L).
  { rewrite <- (take_drop kn L) at 1. f_equal. rewrite <- drop_drop. rewrite <- (take_drop nn (drop kn L)) at 1. f_equal.
    apply list_eq. intros j. destruct (decide (j < nn)%nat) as [Hj|Hj].
    - rewrite lookup_take_lt, lookup_drop by done. replace (kn + j)%nat with (Z.to_nat (k + Z.of_nat j)) by lia.
      rewrite Hrun, lookup_seqZ_lt by lia. done.
    - rewrite lookup_take_ge by lia. symmetry. apply lookup_ge_None. rewrite length_seqZ. lia. }
  assert (Hapart : forall y, y ∈ take kn L \/ y ∈ drop (kn + nn) L -> ~ (b <= y < b + n)).
  { intros y Hy Hb. rewrite Hsplit in Hsnd. apply list.NoDup_app in Hsnd as (_ & Hd1 & Hsnd).
    apply list.NoDup_app in Hsnd as (_ & Hd2 & _). assert (y ∈ seqZ b n) as Hs by (apply elem_of_seqZ; lia).
    destruct Hy as [Hy|Hy]; [apply (Hd1 y Hy); apply elem_of_app; by left|by apply (Hd2 y Hs)]. }
  unfold splice. rewrite Hd. unfold file_bytes. fold L.
  replace (Z.to_nat (512 * k)) with (512 * kn)%nat by lia.
  replace (512 * kn + Z.to_nat (512 * n))%nat with (512 * (kn + nn))%nat by lia.
  rewrite concat_take, concat_drop by done.
  rewrite Hsplit at 1. rewrite !map_app, !concat_app. f_equal; [|f_equal].
  - f_equal. apply map_ext_in. intros y Hy%list_elem_of_In. apply Hout, Hapart. by left.
  - rewrite <- (chunks_concat nn data b) by lia. replace (Z.of_nat nn) with n by lia. f_equal. apply map_ext_in.
    intros y Hy%list_elem_of_In%elem_of_seqZ. replace y with (b + (y - b)) at 1 by lia. apply Hin. lia.
  - f_equal. apply map_ext_in. intros y Hy%list_elem_of_In. apply Hout, Hapart. by right.
Qed.

(** ** The volume after writing *)

(** From the file with chain [cs] to the one with chain [cs'], where [data] has
    replaced the bytes at [o]. *)
Record wrote (v : Z -> Z -> list Z) (s : S) (v' : Z -> Z -> list Z) (s' : S) (cs cs' : list Z) (o : nat)
    (data : list Z) : Prop := {
  wr_mounted : mounted v' s';
  wr_layout : layout_ok v';
  wr_dpbs q : q <> p -> bc_dpb s' q = bc_dpb s q;
  wr_drives u : bc_drive s u -> bc_drive s' u;
  wr_chain : exists news, cs' = cs ++ news /\ forall i, i ∈ news -> F v i = FREE;
  wr_fat m : m ∉ cs' -> F v' m = F v m;
  wr_clusters : clusters g cs' /\ NoDup cs';
  wr_fits : data <> [] -> (o + length data <= length (bytes_of v cs'))%nat;
  wr_bytes : bytes_of v' cs' = splice o data (bytes_of v cs');
  wr_else b : data_block b -> b ∉ sectors_of cs' -> v' unit b = v unit b }.

Lemma wrote_refl v s cs o : mounted v s -> layout_ok v -> clusters g cs -> NoDup cs -> wrote v s v s cs cs o [].
Proof.
  intros Hm Hl Hc Hnd. split; try done.
  - exists []. rewrite app_nil_r. split; [done|]. by intros i ?%elem_of_nil.
  - by rewrite splice_nil.
Qed.

Lemma wrote_evolves v s v' s' cs news o : layout_ok v -> evolves v s v' s' ->
  clusters g (cs ++ news) -> NoDup (cs ++ news) -> (forall i, i ∈ news -> F v i = FREE) ->
  (forall m, m ∉ cs ++ news -> F v' m = F v m) -> wrote v s v' s' cs (cs ++ news) o [].
Proof.
  intros Hl Hev Hc Hnd Hn Hf. pose proof Hev as [Hm Hdp Hdr _]. split; try done.
  - by apply (layout_evolves cf p g v s v' s').
  - by exists news.
  - rewrite splice_nil. apply bytes_ext. intros b Hb. eapply evolves_data; [exact Hev|].
    by apply (file_sector_data (primary := primary) g v (cs ++ news)).
  - intros b Hb _. by eapply evolves_data.
Qed.

(** The clusters that come later are not touched before. *)
Lemma bytes_later v v1 cs1 news o d :
  layout_ok v -> layout_fits g -> volume_ok primary g -> clusters g (cs1 ++ news) -> NoDup (cs1 ++ news) ->
  (d <> [] -> (o + length d <= length (bytes_of v cs1))%nat) -> bytes_of v1 cs1 = splice o d (bytes_of v cs1) ->
  (forall b, data_block b -> b ∉ sectors_of cs1 -> v1 unit b = v unit b) ->
  bytes_of v1 (cs1 ++ news) = splice o d (bytes_of v (cs1 ++ news)).
Proof.
  intros Hl Hf Hv Hc Hnd Hfit Hb Helse. rewrite !bytes_app, Hb.
  assert (bytes_of v1 news = bytes_of v news) as ->.
  { apply bytes_ext. intros b (x & Hx & Hbx)%elem_of_sectors. apply Helse.
    - apply (file_sector_data (primary := primary) g v (cs1 ++ news)); [done|done|].
      apply elem_of_sectors. exists x. split; [|done]. apply elem_of_app. by right.
    - intros (y & Hy & Hby)%elem_of_sectors. apply list.NoDup_app in Hnd as (_ & Hd & _). apply (Hd y Hy).
      assert (x = y) as <-; [|done].
      eapply (sectors_apart v); try done; apply Hc; apply elem_of_app; [by right|by left]. }
  destruct d as [|c d]; [by rewrite !splice_nil|]. symmetry. apply splice_app_l. by apply Hfit.
Qed.

Lemma wrote_trans v s v1 s1 v2 s2 cs cs1 cs2 o d1 d2 : layout_ok v -> layout_fits g ->
  wrote v s v1 s1 cs cs1 o d1 -> wrote v1 s1 v2 s2 cs1 cs2 (o + length d1) d2 ->
  wrote v s v2 s2 cs cs2 o (d1 ++ d2).
Proof.
  intros Hl Hfit [A1 A2 A3 A4 (n1 & -> & A5) A6 [A7 A7'] A8 A9 A10] [B1 B2 B3 B4 (n2 & -> & B5) B6 [B7 B7'] B8 B9 B10].
  pose proof (m_vol _ _ _ _ _ A1) as Hv.
  pose proof (bytes_later v v1 (cs ++ n1) n2 o d1 Hl Hfit Hv B7 B7' A8 A9 A10) as Hlater.
  assert (Hlen : length (bytes_of v1 ((cs ++ n1) ++ n2)) = length (bytes_of v ((cs ++ n1) ++ n2))).
  { apply Nat2Z.inj. by rewrite !(file_bytes_length (primary := primary) g). }
  assert (Hlen1 : (length (bytes_of v (cs ++ n1)) <= length (bytes_of v ((cs ++ n1) ++ n2)))%nat)
    by (rewrite (bytes_app v (cs ++ n1)), length_app; lia).
  split; try done.
  - intros q Hq. by rewrite B3, A3.
  - auto.
  - exists (n1 ++ n2). split; [by rewrite app_assoc|]. intros i [Hi|Hi]%elem_of_app; [by apply A5|].
    rewrite <- A6; [by apply B5|]. intros Hi1. apply list.NoDup_app in B7' as (_ & Hd & _). by apply (Hd i).
  - intros m Hm. rewrite B6 by done. apply A6. intros Hm1. apply Hm. apply elem_of_app. by left.
  - intros Hne. rewrite length_app. destruct d2 as [|c d2].
    + cbn. rewrite Nat.add_0_r. rewrite app_nil_r in Hne. specialize (A8 Hne). lia.
    + specialize (B8 ltac:(done)). lia.
  - rewrite B9, Hlater. destruct d2 as [|c d2]; [by rewrite splice_nil, app_nil_r|].
    specialize (B8 ltac:(done)). rewrite splice_splice by lia. done.
  - intros b Hb Hno. rewrite B10 by done. apply A10; [done|]. intros Hin. apply Hno. rewrite sectors_app.
    apply elem_of_app. by left.
Qed.

(** One transfer of sectors or of a part of a sector: what the image must be. *)
Lemma wrote_run v s v' s' l cs k b n data :
  mounted v s -> layout_ok v -> layout_fits g -> clusters g cs -> NoDup cs ->
  bc_rep cf s' l v' -> (forall q, bc_dpb s' q = bc_dpb s q) -> (forall u, bc_drive s u -> bc_drive s' u) ->
  0 <= k -> 1 <= n -> run_at g cs k b n ->
  length data = Z.to_nat (512 * n) -> bytes data ->
  (forall i, 0 <= i < n -> v' unit (b + i) = chunk data i) ->
  (forall u x, ~ (u = unit /\ b <= x < b + n) -> v' u x = v u x) ->
  wrote v s v' s' cs cs (Z.to_nat (512 * k)) data.
Proof.
  intros Hm Hl Hfit Hc Hnd Hr Hdp Hdr Hk Hn Hrun Hd Hby Hin Hout. pose proof (m_vol _ _ _ _ _ Hm) as Hv.
  assert (Hblk : forall x, b <= x < b + n -> data_block x /\ x ∈ sectors_of cs).
  { intros x Hx. replace x with (b + (x - b)) by lia. split.
    - by apply (run_block (primary := primary) g v cs k b n (x - b) Hl Hc Hrun); lia.
    - eapply list_elem_of_lookup_2. apply Hrun. lia. }
  destruct (mounted_agree cf p g v s v' s' l Hm Hr) as [Hm' Hfat]; try done.
  { intros u x Hux. apply Hout. intros [-> Hx]. apply Hux. split; [done|]. by apply Hblk. }
  assert (Hkn : k + n <= Z.of_nat (length (sectors_of cs))).
  { pose proof (Hrun (n - 1) ltac:(lia)) as Hlast. apply lookup_lt_Some in Hlast. lia. }
  split; try done.
  - pose proof Hl as [L1 L2 L3 L4 L5 L6]. split; try done. intros x Hx.
    destruct (decide (b <= x < b + n)) as [Hin'|Hno].
    + replace x with (b + (x - b)) by lia. rewrite Hin by lia. unfold chunk. split.
      * rewrite length_take, length_drop. lia.
      * unfold bytes. by apply Forall_take, Forall_drop.
    + rewrite Hout by tauto. by apply L6.
  - exists []. rewrite app_nil_r. split; [done|]. by intros i ?%elem_of_nil.
  - intros _. rewrite Hd. pose proof (file_bytes_length (primary := primary) g v cs Hl Hc).
    pose proof (file_sectors_length (primary := primary) g v cs Hl). lia.
  - apply (bytes_run v v' cs k b n data); try done; [lia|]. intros x Hx. apply Hout. tauto.
  - intros x Hx Hno. apply Hout. intros [_ Hx']. apply Hno. by apply Hblk.
Qed.

(** ** Positioning for writing *)

(** What says which file a node is of, and how it was last changed. *)
Definition ident (n : f_node) :=
  (f_sft_idx n, f_dpb n, f_diridx n, f_dirsector n, f_flags n,
   (dir_attrib (f_dir n), dir_name (f_dir n), dir_time (f_dir n), dir_date (f_dir n))).

Lemma ident_start d c n : ident (with_f_dir (setdstart d c (f_dir n)) n) = ident n.
Proof. unfold ident, setdstart. by destruct (ISFAT32 d). Qed.

Lemma ident_fields a b : ident a = ident b -> f_sft_idx a = f_sft_idx b /\ f_dpb a = f_dpb b /\ f_flags a = f_flags b /\
  dir_attrib (f_dir a) = dir_attrib (f_dir b).
Proof. unfold ident. by intros [= -> -> _ _ -> -> _ _ _]. Qed.

Lemma extend_ident k fnp (s : S) r fnp' s' : extend cf k fnp s = Some (r, fnp', s') -> ident fnp' = ident fnp.
Proof.
  unfold extend. intros E. destruct (find_fat_free _ _ _ _) as [[i s1]|]; [|done].
  destruct (i =? _); [by injection E as <- <- <-|]. destruct (link_fat _ _ _ _ _) as [[rc s2]|]; [|done].
  destruct (negb _); [by injection E as <- <- <-|].
  destruct (_ =? FREE); [injection E as <- <- <-; apply ident_start|].
  destruct (next_cluster _ _ _ _) as [[n s3]|]; [|done]. destruct (negb _); [by injection E as <- <- <-|].
  destruct (link_fat _ _ _ _ _) as [[rc2 s4]|]; [|done]. destruct (negb _); by injection E as <- <- <-.
Qed.

Lemma map_loop_ident rel mode k : forall fnp (s : S) r fnp' s',
  map_loop cf k rel mode fnp s = Some (r, fnp', s') -> ident fnp' = ident fnp.
Proof.
  induction k as [|k IH]; intros fnp s r fnp' s'; cbn [map_loop].
  { destruct (_ =? rel); [by intros [= <- <- <-]|done]. }
  destruct (_ =? rel); [by intros [= <- <- <-]|].
  destruct (next_cluster _ _ _ _) as [[n s1]|]; [|done]. destruct (n <=? 1); [by intros [= <- <- <-]|].
  destruct (_ && _); [by intros [= <- <- <-]|].
  destruct (n =? LONG_LAST_CLUSTER).
  - destruct (extend _ _ _ _) as [[[c f1] s2]|] eqn:E; [|done]. apply extend_ident in E.
    destruct (c =? _); [by intros [= <- <- <-]|]. intros Hr%IH. by rewrite Hr, <- E.
  - destruct (n =? _); [by intros [= <- <- <-]|]. by intros Hr%IH.
Qed.

Lemma map_cluster_ident mode fnp (s : S) r fnp' s' :
  map_cluster cf steps fnp mode s = Some (r, fnp', s') -> ident fnp' = ident fnp.
Proof.
  unfold map_cluster. intros E. destruct (if f_cluster fnp =? FREE then _ else _) as [[[rc f1] s1]|] eqn:E1; [|done].
  assert (ident f1 = ident fnp) as <-.
  { destruct (f_cluster fnp =? FREE); [|by injection E1 as <- <- <-]. destruct (mode =? _); [by injection E1 as <- <- <-|].
    destruct (extend _ _ _ _) as [[[c f2] s2]|] eqn:E2; [|done]. apply extend_ident in E2.
    destruct (c =? _); by injection E1 as <- <- <-. }
  destruct (negb _); [by injection E as <- <- <-|]. apply map_loop_ident in E. rewrite E. by destruct (_ <? _).
Qed.

(** The parts of the node that stay while its position moves. *)
Definition kept_node (fnp fnp' : f_node) : Prop :=
  f_dpb fnp' = f_dpb fnp /\ f_sft_idx fnp' = f_sft_idx fnp /\ dir_size (f_dir fnp') = dir_size (f_dir fnp) /\
  ident fnp' = ident fnp.

#[local] Instance kept_node_preorder : PreOrder kept_node.
Proof. split; [by intros f|]. intros f1 f2 f3 (? & ? & ? & ?) (? & ? & ? & ?). split_and!; congruence. Qed.

Lemma wrote_nil_at v s v' s' cs cs' o o' : wrote v s v' s' cs cs' o [] -> wrote v s v' s' cs cs' o' [].
Proof. intros [? ? ? ? ? ? ? ? Hb ?]. split; try done. rewrite splice_nil in *. done. Qed.

Lemma map_write v (s : system S) fnp cs o :
  mounted v (below s) -> layout_ok v -> f_dpb fnp = p -> file_at g v fnp cs -> f_sft_idx fnp <> 0xff ->
  0 <= f_offset fnp < 4294967296 -> max_cluster g + f_offset fnp / 512 <= Z.of_nat steps ->
  exists rc fnp' news v' c, call (map_cluster cf steps fnp XFR_WRITE) s = Some (rc, fnp', with_below c s) /\
    wrote v (below s) v' c cs (cs ++ news) o [] /\ file_at g v' fnp' (cs ++ news) /\
    f_offset fnp' = f_offset fnp /\ kept_node fnp fnp' /\
    (rc = SUCCESS /\ on_cluster p g v' fnp' (cs ++ news) /\
       f_offset fnp < 512 * spc * Z.of_nat (length (cs ++ news)) \/
     rc = DE_HNDLDSKFULL /\ none_free g v').
Proof.
  intros Hm Hl Hp Hfile Hx Ho Hst. pose proof (m_vol _ _ _ _ _ Hm) as Hv. pose proof (spc_pos g v Hl) as Hs.
  pose proof (v_max _ _ Hv) as Hmx. unfold LONG_BAD in Hmx.
  assert (Hrel_eq : relcluster_of g (f_offset fnp) = f_offset fnp / 512 / spc) by (by apply (relcluster_spc (primary := primary) g v)).
  set (rel := f_offset fnp / 512 / spc) in *.
  assert (0 <= f_offset fnp / 512) as Hk0 by (apply Z.div_pos; lia).
  assert (0 <= rel <= f_offset fnp / 512) as Hrel0.
  { unfold rel. split; [apply Z.div_pos; lia|]. apply Z.div_le_upper_bound; nia. }
  destruct (map_cluster_write_spec cf p g Hrel steps v (below s) fnp cs Hm Hp Hfile) as
    (rc & fnp' & news & v' & c & E & Hev & Hf' & (N1 & N2 & N3 & _ & _ & N6 & _) & Hfree & Hsame & Hres); try done.
  { apply (lo_shift _ _ Hl). } { rewrite Hrel_eq. lia. }
  rewrite Hrel_eq in Hres. pose proof (ev_mounted _ _ _ _ _ _ _ Hev) as Hm'.
  assert (Hcl : clusters g (cs ++ news) /\ NoDup (cs ++ news)).
  { destruct Hf' as [(-> & _)|(Hc & _)].
    - split; [by intros x ?%elem_of_nil|constructor].
    - split; [by eapply chain_clusters|by eapply chain_NoDup]. }
  exists rc, fnp', news, v', c. unfold call. rewrite E. split; [done|].
  split; [apply wrote_evolves; try done; apply Hcl|]. split; [done|]. split; [done|]. split; [by pose proof (map_cluster_ident _ _ _ _ _ _ E); split_and!|].
  destruct Hres as [(-> & Eo & Hlen)|(-> & Hnone & _)]; [left|by right]. split; [done|].
  assert (rel + 1 <= Z.of_nat (length (cs ++ news))) as Hlen' by lia.
  split.
  - destruct Hf' as [(Hnil & _)|Hpos]; [rewrite Hnil in Hlen'; cbn in Hlen'; lia|].
    split; [congruence|]. split; [done|]. rewrite N1. split; [lia|]. fold rel. destruct Hpos as (_ & _ & Hpos). by rewrite Eo in Hpos.
  - assert (f_offset fnp / 512 < spc * (rel + 1)).
    { unfold rel. pose proof (Z.mod_pos_bound (f_offset fnp / 512) spc ltac:(lia)).
      rewrite (Z.div_mod (f_offset fnp / 512) spc) at 1 by lia. lia. }
    assert (f_offset fnp < 512 * (f_offset fnp / 512 + 1)) by (Z.div_mod_to_equations; lia). nia.
Qed.

Lemma run_longer cs news k b n : run_at g cs k b n -> run_at g (cs ++ news) k b n.
Proof. intros Hr i Hi. rewrite sectors_app. apply lookup_app_l_Some. by apply Hr. Qed.

Lemma splice_self i n (l : list Z) : (i + n <= length l)%nat -> splice i (take n (drop i l)) l = l.
Proof.
  intros Hi. rewrite splice_grow by lia. rewrite app_assoc, take_take_drop. apply take_drop.
Qed.

(** Collecting sectors while the chain grows. *)
Lemma collect_write o wanted b : data_area g -> 0 <= o -> o mod 512 = 0 -> 512 * wanted < 65536 ->
  o + 512 * wanted < 4294967296 -> max_cluster g + (o + 512 * wanted) / 512 <= Z.of_nat steps ->
  forall fuel sectors fnp (s : system S) v cs,
  mounted v (below s) -> layout_ok v -> f_dpb fnp = p -> positioned g v fnp cs -> f_sft_idx fnp <> 0xff ->
  f_offset fnp = o + 512 * sectors -> 1 <= sectors <= wanted -> run_at g cs (o / 512) b sectors ->
  sectors = wanted \/ (o / 512 + sectors) mod spc = 0 -> wanted - sectors <= Z.of_nat fuel ->
  exists m fnp' v' c news, collect_sectors cf steps fuel XFR_WRITE 512 wanted o b sectors fnp s =
      Some (m, fnp', with_below c s) /\
    sectors <= m <= wanted /\ run_at g (cs ++ news) (o / 512) b m /\ wrote v (below s) v' c cs (cs ++ news) 0 [] /\
    positioned g v' fnp' (cs ++ news) /\ f_offset fnp' = o + 512 * m /\ kept_node fnp fnp'.
Proof.
  intros Hda Ho Hmod Hw16 Hw32 Hst.
  assert (Hstop : forall sectors fnp (s : system S) v cs, mounted v (below s) -> layout_ok v ->
    positioned g v fnp cs -> f_offset fnp = o + 512 * sectors -> 1 <= sectors <= wanted -> run_at g cs (o / 512) b sectors ->
    exists m fnp' v' c news, Some (sectors, fnp, s) = Some (m, fnp', with_below c s) /\
      sectors <= m <= wanted /\ run_at g (cs ++ news) (o / 512) b m /\ wrote v (below s) v' c cs (cs ++ news) 0 [] /\
      positioned g v' fnp' (cs ++ news) /\ f_offset fnp' = o + 512 * m /\ kept_node fnp fnp').
  { intros sectors fnp s v cs Hm Hl Hpos Eo Hsec Hrun. exists sectors, fnp, v, (below s), [].
    rewrite app_nil_r, with_below_id. split; [done|]. split; [lia|]. split; [done|]. split; [|by split_and!].
    apply wrote_refl; try done; [by eapply chain_clusters, Hpos|]. eapply chain_NoDup; [apply Hm|apply Hpos]. }
  induction fuel as [|fuel IH]; intros sectors fnp s v cs Hm Hl Hp Hpos Hx Eo Hsec Hrun Hal Hf; cbn [collect_sectors].
  { rewrite (proj2 (Z.ltb_ge _ _)) by lia. by apply Hstop. }
  destruct (Z.ltb_spec sectors wanted) as [Hlt|Hge]; cbn [negb]; [|by apply Hstop].
  destruct Hal as [?|Hal]; [lia|]. pose proof (m_vol _ _ _ _ _ Hm) as Hv. pose proof (spc_pos g v Hl) as Hs.
  assert ((o + 512 * sectors) / 512 = o / 512 + sectors) as Ek by (Z.div_mod_to_equations; lia).
  assert ((o + 512 * wanted) / 512 = o / 512 + wanted) as Ew by (Z.div_mod_to_equations; lia).
  destruct (map_write v s fnp cs 0 Hm Hl Hp (or_intror Hpos) Hx) as (rc & fnp1 & news & v1 & c & -> & Hw & Hf1 & Eo1 & Hk1 & Hres);
    [lia|rewrite Eo, Ek; lia|].
  pose proof (wr_mounted _ _ _ _ _ _ _ _ Hw) as Hm1. pose proof (wr_layout _ _ _ _ _ _ _ _ Hw) as Hl1.
  destruct (wr_clusters _ _ _ _ _ _ _ _ Hw) as [Hcl Hnd].
  assert (Hpos1 : positioned g v1 fnp1 (cs ++ news)).
  { destruct Hf1 as [(Hnil & _)|?]; [|done]. apply app_eq_nil in Hnil as [-> _]. destruct Hpos as (_ & _ & Hpos). by rewrite lookup_nil in Hpos. }
  pose proof (run_longer cs news _ _ _ Hrun) as Hrun1. pose proof Hk1 as (Kp & Kx & Ks).
  assert (Hend : exists m fnp' v' c' news', Some (sectors, fnp1, with_below c s) = Some (m, fnp', with_below c' s) /\
      sectors <= m <= wanted /\ run_at g (cs ++ news') (o / 512) b m /\ wrote v (below s) v' c' cs (cs ++ news') 0 [] /\
      positioned g v' fnp' (cs ++ news') /\ f_offset fnp' = o + 512 * m /\ kept_node fnp fnp').
  { exists sectors, fnp1, v1, c, news. split_and!; first [done|lia|by rewrite Eo1]. }
  destruct Hres as [(-> & (_ & _ & _ & Hxc) & _)|(-> & _)].
  2: { change (negb (DE_HNDLDSKFULL =? SUCCESS)) with true. exact Hend. }
  change (negb (SUCCESS =? SUCCESS)) with false. cbv iota. change (below (with_below c s)) with c.
  rewrite Kp, Hp, (clus2phys_geom cf p g v1 c _ Hm1). rewrite Eo1, Eo, Ek in Hxc. set (x := f_cluster fnp1) in *.
  set (k := o / 512 + sectors) in *.
  assert (2 <= x <= max_cluster g) as Hxr by (apply Hcl; by eapply list_elem_of_lookup_2).
  destruct (run_block (primary := primary) g v (cs ++ news) (o / 512) b sectors (sectors - 1) Hl Hcl Hrun1) as [Hb _]; [lia|].
  destruct (run_block (primary := primary) g v (cs ++ news) (o / 512) b sectors 0 Hl Hcl Hrun1) as [Hb0 _]; [lia|].
  destruct (mounted_fields cf p g v1 c Hm1) as (_ & -> & _).
  destruct (Z.eqb_spec (clus2phys x g) (u32 (b + sectors))) as [Ec|Ec]; cbn [negb]; [|exact Hend].
  pose proof (clus2phys_pos g v x Hda Hl Hv Hxr) as Hcp.
  assert (b + sectors <> 4294967296) by (intros E; rewrite E in Ec; change (u32 4294967296) with 0 in Ec; lia).
  rewrite u32_id in Ec by lia. rewrite (lo_mask _ _ Hl). fold spc.
  set (sectors' := Z.min (sectors + (spc - 1 + 1)) wanted).
  assert (Hrun' : run_at g (cs ++ news) (o / 512) b sectors').
  { apply (run_take g _ _ _ _ (sectors + spc)); [|lia]. apply run_app; [done|].
    fold k. rewrite <- Ec. replace (clus2phys x g) with (clus2phys x g + k mod spc) by lia.
    apply (run_in_cluster (primary := primary) g v); [done|unfold k; Z.div_mod_to_equations; lia|done|lia]. }
  rewrite (u16_id (sectors' * 512)), u32_id by lia.
  replace (o + sectors' * 512) with (o + 512 * sectors') by lia.
  destruct (IH sectors' (with_f_offset (o + 512 * sectors') fnp1) (with_below c s) v1 (cs ++ news))
    as (m & fnp2 & v2 & c2 & news2 & -> & Hm2 & Hrun2 & Hw2 & Hpos2 & Eo2 & Hk2); try done; try lia.
  { cbn. congruence. } { cbn. congruence. }
  { unfold sectors'. destruct (decide (wanted <= sectors + spc)); [left; lia|right].
    rewrite Z.min_l by lia. replace (o / 512 + (sectors + (spc - 1 + 1))) with (k + 1 * spc) by (unfold k; lia).
    by rewrite Z.mod_add by lia. }
  exists m, fnp2, v2, c2, (news ++ news2). rewrite app_assoc. split; [done|]. split; [lia|]. split; [done|].
  split; [apply (wrote_trans _ _ _ _ _ _ _ _ _ 0 [] [] Hl (proj1 Hda) Hw Hw2)|]. split; [done|]. split; [done|].
  by transitivity fnp1.
Qed.

(** ** One turn *)

(** The next [k] bytes of the buffer have gone to the file. *)
Definition wrote_piece (v : Z -> Z -> list Z) (cs : list Z) (fnp : f_node) (ret k : Z) (buffer : list Z)
    (s : system S) (r : option (moved * list Z * f_node * system S)) : Prop :=
  exists fnp' v' c news, r = Some (Moved k, buffer, fnp', with_below c s) /\
    wrote v (below s) v' c cs (cs ++ news) (Z.to_nat (f_offset fnp))
      (take (Z.to_nat k) (drop (Z.to_nat ret) buffer)) /\
    positioned g v' fnp' (cs ++ news) /\ f_offset fnp' = f_offset fnp + k /\ kept_node fnp fnp'.

Lemma xfer_sectors_write v cs (s : system S) fnp wanted ret buffer :
  data_area g -> layout_ok v -> max_cluster g + (f_offset fnp + 512 * wanted) / 512 <= Z.of_nat steps ->
  128 <= Z.of_nat steps -> mounted v (below s) -> on_cluster p g v fnp cs -> f_sft_idx fnp <> 0xff ->
  f_offset fnp mod 512 = 0 -> 1 <= wanted -> 512 * wanted < 65536 -> f_offset fnp + 512 * wanted < 4294967296 ->
  0 <= ret -> ret + 512 * wanted <= Z.of_nat (length buffer) -> bytes buffer ->
  let sector := (f_offset fnp / 512) mod spc in
  exists k, 1 <= k <= 512 * wanted /\
    wrote_piece v cs fnp ret k buffer s
      (xfer_sectors cf steps XFR_WRITE 512 wanted sector (clus2phys (f_cluster fnp) g + sector) ret buffer fnp s).
Proof.
  intros Hda Hl Hst Hst2 Hm (Hp & Hpos & Ho & Hx) Hsx Hmod Hw Hw16 Hw32 Hret Hlen Hby sector. unfold xfer_sectors.
  pose proof (spc_pos g v Hl) as Hs. pose proof (m_vol _ _ _ _ _ Hm) as Hv. rewrite Hp.
  destruct (mounted_fields cf p g v (below s) Hm) as (_ & -> & _). rewrite (lo_mask _ _ Hl). fold spc.
  pose proof (Z.mod_pos_bound (f_offset fnp / 512) spc ltac:(lia)) as Hsec. fold sector in Hsec.
  set (n0 := Z.min (spc - 1 + 1 - sector) wanted). rewrite (u16_id (n0 * 512)), u32_id by lia.
  replace (f_offset fnp + n0 * 512) with (f_offset fnp + 512 * n0) by lia.
  set (b := clus2phys (f_cluster fnp) g + sector). set (k := f_offset fnp / 512) in *.
  assert (0 <= k /\ f_offset fnp = 512 * k) as [Hk0 Hk] by (unfold k; Z.div_mod_to_equations; lia).
  assert (Hrun0 : run_at g cs k b n0).
  { apply (run_in_cluster (primary := primary) g v); [done|done|done|]. fold sector. lia. }
  destruct (collect_write (f_offset fnp) wanted b Hda Ho Hmod Hw16 Hw32 Hst steps n0
    (with_f_offset (f_offset fnp + 512 * n0) fnp) s v cs) as (m & fnp' & v1 & c & news & -> & Hmr & Hrun & Hwr & Hpos' & Eo & Hkn);
    try done; try lia.
  { destruct (decide (wanted <= spc - sector)) as [?|Hge]; [left; lia|right]. unfold n0. rewrite Z.min_l by lia.
    fold k. unfold sector. rewrite (Z.div_mod k spc) at 1 by lia.
    replace (_ + _) with ((k / spc + 1) * spc) by lia. by rewrite Z.mod_mul by lia. }
  fold k in Hrun. pose proof Hkn as (Kp & _). change (f_dpb (with_f_offset _ fnp)) with (f_dpb fnp) in Kp. rewrite Kp, Hp.
  change (below (with_below c s)) with c.
  pose proof (wr_mounted _ _ _ _ _ _ _ _ Hwr) as Hm1. pose proof (wr_layout _ _ _ _ _ _ _ _ Hwr) as Hl1.
  destruct (wr_clusters _ _ _ _ _ _ _ _ Hwr) as [Hcl Hnd]. destruct (mounted_fields cf p g v1 c Hm1) as (_ & _ & ->).
  destruct (run_block (primary := primary) g v1 _ _ b m 0 Hl1 Hcl Hrun) as [Hb0 _]; [lia|].
  destruct (run_block (primary := primary) g v1 _ _ b m (m - 1) Hl1 Hcl Hrun) as [Hb1 _]; [lia|].
  destruct (m_rep _ _ _ _ _ Hm1) as [l Hr]. rewrite (u16_id (m * 512)), (u32_id (b + m - 1)) by lia.
  replace (m * 512) with (512 * m) by lia. set (data := take _ _).
  assert (length data = Z.to_nat (512 * m)) as Hdl by (unfold data; rewrite length_take, length_drop; lia).
  destruct (bt_write_run cf (bt_high c) c l v1 b m unit data Hrel Hr) as (s1 & s2 & E1 & E2 & Hr2 & Hdp & Hdr); try lia.
  { apply (m_drive _ _ _ _ _ Hm1). }
  unfold call_, call. cbn [below with_below]. rewrite E1. cbn [below with_below].
  change (if XFR_WRITE =? XFR_READ then DSKREAD else DSKWRITE) with DSKWRITE. rewrite E2.
  change (negb (0 =? 0)) with false. cbv iota. exists (512 * m). split; [lia|].
  assert (Hw2 : wrote v1 c (with_run v1 unit b m data) s2 (cs ++ news) (cs ++ news) (Z.to_nat (512 * k)) data).
  { apply (wrote_run v1 c (with_run v1 unit b m data) s2 l (cs ++ news) k b m data); try done; try lia.
    - apply Hda.
    - unfold data, bytes. by apply Forall_take, Forall_drop.
    - intros i Hi. unfold with_run. rewrite decide_True by (split; [done|lia]). f_equal. lia.
    - intros u x Hux. unfold with_run. by rewrite decide_False. }
  exists fnp', (with_run v1 unit b m data), s2, news. fold data. unfold data at 1. rewrite splice_self by lia. rewrite Hk.
  split; [done|]. split.
  { apply (wrote_trans _ _ _ _ _ _ _ _ _ _ [] data Hl (proj1 Hda) (wrote_nil_at _ _ _ _ _ _ _ _ Hwr)).
    cbn [length]. by rewrite Nat.add_0_r. }
  split; [|split; [lia|done]]. destruct Hpos' as (Hc & Hpos').
  split; [|done]. eapply chain_agree; [|exact Hc]. intros x Hxc.
  destruct (mounted_agree cf p g v1 c (with_run v1 unit b m data) s2 l Hm1 Hr2) as [_ Hfat]; try done.
  intros u y Huy. unfold with_run. rewrite decide_False; [done|]. intros [-> Hy]. apply Huy. split; [done|].
  replace y with (b + (y - b)) by lia. apply (run_block (primary := primary) g v1 _ _ b m (y - b) Hl1 Hcl Hrun). lia.
Qed.

Lemma dirty_flags fl : let fl' := Z.lor fl (Z.lor BFR_DIRTY BFR_VALID) in
  has BFR_VALID fl' = true /\ has BFR_FAT fl' = has BFR_FAT fl /\ has BFR_DIRTY fl' = true.
Proof. destruct (mark_flags fl) as (? & ? & ? & _). by split_and!. Qed.

Lemma xfer_part_write v cs (s : system S) fnp ret to_xfer buffer :
  data_area g -> layout_ok v -> mounted v (below s) -> on_cluster p g v fnp cs ->
  1 <= to_xfer < 65536 -> f_offset fnp + to_xfer < 4294967296 ->
  0 <= ret -> ret + to_xfer <= Z.of_nat (length buffer) -> bytes buffer ->
  exists k, 1 <= k <= to_xfer /\
    wrote_piece v cs fnp ret k buffer s
      (xfer_part cf XFR_WRITE 512 (f_offset fnp mod 512)
         (clus2phys (f_cluster fnp) g + (f_offset fnp / 512) mod spc) ret to_xfer buffer fnp s).
Proof.
  intros Hda Hl Hm (Hp & Hpos & Ho & Hx) Hto H32 Hret Hlen Hby. unfold xfer_part. rewrite Hp.
  pose proof (spc_pos g v Hl) as Hs. destruct (mounted_fields cf p g v (below s) Hm) as (_ & _ & ->).
  pose proof (m_vol _ _ _ _ _ Hm) as Hv. pose proof (Z.mod_pos_bound (f_offset fnp) 512 ltac:(lia)) as Hmod.
  set (k0 := f_offset fnp / 512) in *. set (boff := f_offset fnp mod 512) in *.
  set (b := clus2phys (f_cluster fnp) g + k0 mod spc).
  assert (0 <= k0 /\ f_offset fnp = 512 * k0 + boff) as [Hk0 Ek] by (unfold k0, boff; Z.div_mod_to_equations; lia).
  assert (Hrun : run_at g cs k0 b 1).
  { intros i Hi. assert (i = 0) as -> by lia. rewrite !Z.add_0_r, (file_sector (primary := primary) g v) by done. by rewrite Hx. }
  pose proof (chain_clusters _ _ _ _ (proj1 Hpos)) as Hcl.
  pose proof (run_block (primary := primary) g v cs k0 b 1 0 Hl Hcl Hrun ltac:(lia)) as Hb. rewrite Z.add_0_r in Hb.
  destruct (data_get cf p g Hrel v (below s) b Hm Hb) as (x & c & l & E & Hev & _ & Hr & Hxl & Hh).
  unfold call. rewrite E. change (XFR_WRITE =? XFR_READ) with false. change (XFR_WRITE =? XFR_WRITE) with true.
  cbn [andb orb]. set (k := Z.min to_xfer (512 - boff)). rewrite (u32_id (f_offset fnp + k)) by lia.
  set (data := take _ _).
  assert (length data = Z.to_nat k) as Hdl by (unfold data; rewrite length_take, length_drop; lia).
  exists k. split; [lia|]. pose proof (ev_mounted _ _ _ _ _ _ _ Hev) as Hm1.
  pose proof (bc_read _ _ _ _ _ _ _ Hr Hxl Hh) as Hdata. pose proof (lo_data _ _ Hl b Hb) as [Hbl Hbb].
  set (blk := splice (Z.to_nat boff) data (v unit b)).
  assert (length blk = 512%nat /\ bytes blk) as [Hblkl Hblkb].
  { split; [unfold blk; rewrite splice_length; lia|]. apply splice_bytes; [|done]. unfold data, bytes. by apply Forall_take, Forall_drop. }
  set (f := fun bb => with_flag (Z.lor (b_flag bb) (Z.lor BFR_DIRTY BFR_VALID))
    (with_data (splice (Z.to_nat boff) data (b_buffer bb)) bb)).
  set (v' := upd_image v unit b blk).
  destruct (dirty_flags (b_flag (bc_buf c x))) as (F1 & F2 & F3).
  pose proof (bc_mirrors _ _ _ _ _ Hr Hxl (proj1 Hh)) as Hmir.
  destruct Hh as (Hvx & Hux & Hnx).
  destruct (bc_store cf c l v v' x f Hr Hxl Hvx) as [Hr2 _]; try done.
  { unfold mirrors_ok, is_fat, copy_offset in *. cbn. by rewrite F2. }
  { by left. }
  { unfold v', upd_image. rewrite decide_True by done. cbn. by rewrite Hdata. }
  { intros u y Huy. unfold v', upd_image. rewrite decide_False; [done|]. intros [-> ->]. by apply Huy. }
  set (c2 := bc_upd x f c) in *.
  assert (Hdps : forall q, bc_dpb c2 q = bc_dpb c q) by (intros; apply bc_dpb_upd).
  assert (Hdrs : forall u, bc_drive c u -> bc_drive c2 u) by (intros; by apply bc_drive_upd).
  assert (Hw1 : wrote v c v' c2 cs cs (Z.to_nat (512 * k0)) blk).
  { apply (wrote_run v c v' c2 l cs k0 b 1 blk); try done; try lia.
    - apply Hda.
    - eapply chain_NoDup; [done|apply Hpos].
    - intros i Hi. assert (i = 0) as -> by lia. unfold v', upd_image. rewrite Z.add_0_r, decide_True by done.
      by rewrite chunk_one.
    - intros u y Huy. unfold v', upd_image. rewrite decide_False; [done|]. intros [-> ->]. apply Huy. split; [done|lia]. }
  assert (Hw2 : wrote v (below s) v' c2 cs cs (Z.to_nat (f_offset fnp)) data).
  { destruct Hw1 as [W1 W2 W3 W4 W5 W6 W7 W8 W9 W10]. destruct Hev as [_ V2 V3 _].
    pose proof (file_bytes_length (primary := primary) g v cs Hl Hcl) as Hfl. specialize (W8 ltac:(by destruct blk)).
    split; try done.
    - intros q Hq. by rewrite W3, V2.
    - auto.
    - intros _. lia.
    - rewrite W9. unfold blk.
      assert (v unit b = take 512 (drop (Z.to_nat (512 * k0)) (bytes_of v cs))) as ->.
      { rewrite <- (Nat.add_0_r (Z.to_nat (512 * k0))), (file_part (primary := primary) g v cs k0 b) by
          (try done; try lia; replace b with (b + 0) by lia; replace k0 with (k0 + 0) by lia; by apply Hrun; lia).
        by rewrite drop_0, take_ge by lia. }
      rewrite splice_inner by lia. f_equal. lia. }
  pose proof (wr_mounted _ _ _ _ _ _ _ _ Hw2) as Hm2.
  assert (Hposf : forall o, positioned g v' (with_f_offset o fnp) cs).
  { intros o. destruct Hpos as (Hc & Hpos). split; [|done]. eapply chain_agree; [|exact Hc]. intros y Hy.
    destruct (mounted_data cf p g v c b c2 l blk Hm1 Hb Hr2 Hdps Hdrs) as [_ Hfat]. apply Hfat. }
  destruct (_ =? Z.of_nat BUFFERSIZE).
  2: { exists (with_f_offset (f_offset fnp + k) fnp), v', c2, []. rewrite app_nil_r. by split_and!. }
  assert (hit b unit (bc_buf c2 x)) as Hh2.
  { unfold c2. rewrite bc_buf_upd, decide_True by done. by split_and!. }
  pose proof (data_uncache cf p g v' c2 x b l Hm2 Hr2 Hxl Hh2) as Hev2.
  eexists (with_f_offset (f_offset fnp + k) fnp), v', _, []. rewrite app_nil_r. split; [reflexivity|].
  split; [|by split_and!]. destruct Hw2 as [W1 W2 W3 W4 W5 W6 W7 W8 W9 W10]. destruct Hev2 as [V1 V2 V3 _].
  split; try done; [intros q Hq; by rewrite V2, W3|auto].
Qed.

Lemma xfer_turn_write v cs (s : system S) fnp ret to_xfer buffer :
  data_area g -> layout_ok v -> max_cluster g + (f_offset fnp + to_xfer) / 512 <= Z.of_nat steps ->
  128 <= Z.of_nat steps -> mounted v (below s) -> on_cluster p g v fnp cs -> f_sft_idx fnp <> 0xff ->
  1 <= to_xfer < 65536 -> f_offset fnp + to_xfer < 4294967296 ->
  0 <= ret -> ret + to_xfer <= Z.of_nat (length buffer) -> bytes buffer ->
  exists k, 1 <= k <= to_xfer /\
    wrote_piece v cs fnp ret k buffer s (xfer_turn cf steps XFR_WRITE 512 ret to_xfer buffer fnp s).
Proof.
  intros Hda Hl Hst Hst2 Hm Hon Hsx Hto H32 Hret Hlen Hby. pose proof Hon as (Hp & Hpos & Ho & Hx). unfold xfer_turn.
  rewrite Hp. rewrite (clus2phys_geom cf p g v _ _ Hm). destruct (mounted_fields cf p g v (below s) Hm) as (_ & -> & _).
  rewrite (sector_of (primary := primary) g v) by done. pose proof (Z.mod_pos_bound (f_offset fnp) 512 ltac:(lia)) as Hmod.
  rewrite (u16_id (_ mod 512)) by lia. change (XFR_WRITE =? XFR_READ) with false. cbn [andb].
  assert (0 <= f_offset fnp / 512) by (apply Z.div_pos; lia).
  assert (Hb : data_block (clus2phys (f_cluster fnp) g + (f_offset fnp / 512) mod spc)).
  { eapply (file_sector_data (primary := primary)); [done|exact (chain_clusters _ _ _ _ (proj1 Hpos))|].
    eapply (list_elem_of_lookup_2 _ (Z.to_nat (f_offset fnp / 512))). rewrite (file_sector (primary := primary) g v) by done. by rewrite Hx. }
  rewrite (u32_id (_ + _)) by apply Hb. destruct (_ && _) eqn:E; [|by apply xfer_part_write].
  apply andb_true_iff in E as [E0%Z.eqb_eq E1%negb_true_iff%Z.eqb_neq].
  assert (1 <= to_xfer / 512 /\ 512 * (to_xfer / 512) <= to_xfer) as Hw by (Z.div_mod_to_equations; lia).
  assert ((f_offset fnp + 512 * (to_xfer / 512)) / 512 <= (f_offset fnp + to_xfer) / 512) by (apply Z.div_le_mono; lia).
  destruct (xfer_sectors_write v cs s fnp (to_xfer / 512) ret buffer Hda Hl ltac:(lia) Hst2 Hm Hon Hsx E0) as (k & Hk & Hr);
    try done; try lia.
  exists k. split; [lia|]. exact Hr.
Qed.


(** ** Telling the other open instances *)

(** An entry once the node's file has been distributed. *)
Definition told (share : bool) (fnp : f_node) (j : Z) (t : sft) : sft :=
  if share && same_file fnp j t
  then with_sft_file (getdstart g (f_dir fnp)) (dir_size (f_dir fnp)) (dir_date (f_dir fnp)) (dir_time (f_dir fnp)) t
  else t.

Definition same_process (s s' : system S) : Prop :=
  share_installed s' = share_installed s /\ sharing s' = sharing s /\ cu_psp s' = cu_psp s /\
  ps_filetab s' = ps_filetab s.

Definition relayed (fnp : f_node) (s s' : system S) : Prop :=
  same_process s s' /\
  forall j, 0 <= j -> find_sft (sfthead s') j = told (share_installed s) fnp j <$> find_sft (sfthead s) j.

(** Nothing was distributed, or the file as it was at some time. *)
Definition spread (fnp : f_node) (s s' : system S) : Prop :=
  same_process s s' /\ (forall j, 0 <= j -> find_sft (sfthead s') j = find_sft (sfthead s) j) \/
  exists last, ident last = ident fnp /\ relayed last s s'.

Lemma same_file_ident f1 f2 j t : ident f1 = ident f2 -> same_file f1 j t = same_file f2 j t.
Proof. unfold same_file. intros [= -> -> -> -> _ -> _ _ _]. done. Qed.

Lemma told_told share f1 f2 j t : ident f1 = ident f2 -> told share f2 j (told share f1 j t) = told share f2 j t.
Proof.
  intros Hi. unfold told. rewrite (same_file_ident f1 f2 j t Hi).
  destruct (share && same_file f2 j t) eqn:E; [|by rewrite E].
  assert (forall a b c d, same_file f2 j (with_sft_file a b c d t) = same_file f2 j t) as -> by done. by rewrite E.
Qed.

Lemma spread_refl fnp s : spread fnp s s.
Proof. left. split; [|done]. by split_and!. Qed.

Lemma spread_relayed f1 f2 s s1 s2 : spread f1 s s1 -> ident f1 = ident f2 -> relayed f2 s1 s2 -> relayed f2 s s2.
Proof.
  intros [[(P1 & P2 & P3 & P4) H1]|(last & Hid & (P1 & P2 & P3 & P4) & H1)] Hi [(Q1 & Q2 & Q3 & Q4) H2].
  { split; [split_and!; congruence|]. intros j Hj. by rewrite H2, H1, P1 by done. }
  split; [split_and!; congruence|]. intros j Hj. rewrite H2, H1, P1 by done.
  rewrite <- option_fmap_compose. destruct (find_sft (sfthead s) j) as [t|]; [|done]. cbn.
  by rewrite told_told by congruence.
Qed.

Lemma spread_trans fnp f1 s s1 s2 : spread fnp s s1 -> ident f1 = ident fnp -> spread f1 s1 s2 -> spread fnp s s2.
Proof.
  intros H1 Hi [[(Q1 & Q2 & Q3 & Q4) H2]|(last & Hid & H2)].
  - destruct H1 as [[(P1 & P2 & P3 & P4) H1]|(last & Hid & (P1 & P2 & P3 & P4) & H1)].
    + left. split; [split_and!; congruence|]. intros j Hj. by rewrite H2, H1.
    + right. exists last. split; [done|]. split; [split_and!; congruence|]. intros j Hj. by rewrite H2, H1.
  - right. exists last. split; [congruence|]. eapply spread_relayed; [exact H1|congruence|done].
Qed.

Lemma spread_ident f1 f2 s s1 : spread f1 s s1 -> ident f2 = ident f1 -> spread f2 s s1.
Proof. intros [?|(last & Hid & Hrl)] Hi; [by left|right]. exists last. split; [congruence|done]. Qed.

Lemma change_length f sp : forall i, length (concat (change_sft f sp i)) = length (concat sp).
Proof.
  induction sp as [|t sp IH]; intros i; cbn [change_sft]; [done|]. destruct (_ <? _); cbn [concat].
  - by rewrite !length_app, length_alter.
  - by rewrite !length_app, IH.
Qed.

Lemma find_sft_bound sp : forall i, 0 <= i -> is_Some (find_sft sp i) <-> i < Z.of_nat (length (concat sp)).
Proof.
  induction sp as [|t sp IH]; intros i Hi; cbn [find_sft concat]; [split; [by intros [? ?]|cbn; lia]|].
  rewrite length_app. destruct (Z.ltb_spec i (Z.of_nat (length t))).
  - unfold at_. rewrite (proj2 (Z.ltb_ge _ 0)) by lia. rewrite lookup_lt_is_Some. lia.
  - rewrite IH by lia. lia.
Qed.

Lemma merge_distributes fnp n : forall i (s : system S), 0 <= i ->
  (forall e, getdstart (bc_dpb (below s) (f_dpb fnp)) e = getdstart g e) ->
  Z.of_nat (length (concat (sfthead s))) = i + Z.of_nat n ->
  exists tabs, merge_loop no_close 0 n i fnp s = Some (SUCCESS, fnp, with_sfthead tabs s) /\
    forall j, 0 <= j -> find_sft tabs j = (if i <=? j then told true fnp j else id) <$> find_sft (sfthead s) j.
Proof.
  induction n as [|n IH]; intros i s Hi Hg Hlen.
  { exists (sfthead s). split; [by destruct s|]. intros j Hj. destruct (Z.leb_spec i j) as [Hle|]; [|by rewrite option_fmap_id].
    destruct (find_sft (sfthead s) j) eqn:E; [|done].
    assert (is_Some (find_sft (sfthead s) j)) as Hs%find_sft_bound by done; lia. }
  cbn [merge_loop]. destruct (proj2 (find_sft_bound (sfthead s) i Hi)) as [t Ht]; [lia|]. rewrite Ht.
  change (0 =? -1) with false. change (negb (0 =? 0)) with false. cbv iota zeta.
  destruct (same_file fnp i t) eqn:Esame; cbn [negb].
  - set (f := with_sft_file _ _ _ _).
    destruct (IH (i + 1) (upd_sft f i s)) as (tabs & -> & Htabs); [lia|done|cbn; rewrite change_length; lia|].
    exists tabs. split; [done|]. intros j Hj. rewrite Htabs by done. cbn. rewrite find_change by done.
    destruct (Z.leb_spec i j) as [Hle|Hlt].
    + case_decide as Ej.
      * subst j. rewrite (proj2 (Z.leb_gt _ _)), Ht by lia. cbn. unfold told. rewrite Esame. cbn. unfold f. by rewrite Hg.
      * by rewrite (proj2 (Z.leb_le _ _)) by lia.
    + rewrite decide_False, (proj2 (Z.leb_gt _ _)) by lia. done.
  - destruct (IH (i + 1) s) as (tabs & -> & Htabs); [lia|done|lia|]. exists tabs. split; [done|].
    intros j Hj. rewrite Htabs by done. destruct (Z.leb_spec i j) as [Hle|Hlt].
    + destruct (decide (j = i)) as [->|Hne].
      * rewrite (proj2 (Z.leb_gt _ _)), Ht by lia. cbn. unfold told. by rewrite Esame.
      * by rewrite (proj2 (Z.leb_le _ _)) by lia.
    + by rewrite (proj2 (Z.leb_gt _ _)) by lia.
Qed.

Lemma distribute_spec v (s : system S) fnp : mounted v (below s) -> f_dpb fnp = p ->
  exists tabs, distribute fnp s = Some (with_sfthead tabs s) /\ relayed fnp s (with_sfthead tabs s).
Proof.
  intros Hm Hp. unfold distribute, merge_file_changes. destruct (share_installed s) eqn:Es; cbn [negb].
  - destruct (merge_distributes fnp (length (concat (sfthead s))) 0 s) as (tabs & -> & Htabs); [lia| |lia|].
    { intros e. rewrite Hp. by apply (getdstart_geom cf p g v). }
    exists tabs. split; [done|]. split; [by split_and!|]. intros j Hj. cbn. rewrite Htabs, Es by done.
    by rewrite (proj2 (Z.leb_le _ _)) by lia.
  - exists (sfthead s). split; [by destruct s|]. split; [by split_and!|]. intros j Hj. cbn. rewrite Es.
    destruct (find_sft _ j); done.
Qed.


(** ** The whole transfer *)

(** The size a node has after [n] bytes were written at [o]. *)
Definition grown (size o n : Z) : Z := Z.max size (o + n).

(** The first [n] bytes of [data] are in the file at [o], and the volume is else as
    it was; the node is behind them. *)
Record written (v : Z -> Z -> list Z) (s : system S) (cs : list Z) (fnp : f_node) (o n : Z) (data : list Z)
    (v' : Z -> Z -> list Z) (s' : system S) (cs' : list Z) (fnp' : f_node) : Prop := {
  wn_wrote : wrote v (below s) v' (below s') cs cs' (Z.to_nat o) (take (Z.to_nat n) data);
  wn_file : file_at g v' fnp' cs';
  wn_offset : f_offset fnp' = o + n;
  wn_size : dir_size (f_dir fnp') = grown (dir_size (f_dir fnp)) o n;
  wn_ident : ident fnp' = ident fnp;
  wn_holds : dir_size (f_dir fnp') <= 512 * spc * Z.of_nat (length cs');
  wn_spread : spread fnp s s' }.

Lemma file_longer (cs news : list Z) : 512 * spc * Z.of_nat (length cs) <= 512 * spc * Z.of_nat (length (cs ++ news)).
Proof. rewrite length_app. unfold FileioSpec.spc. pose proof (Z.pow_nonneg 2 (dpb_shftcnt g)). nia. Qed.

Lemma written_none v (s : system S) cs news fnp o data v' c fnp' :
  wrote v (below s) v' c cs (cs ++ news) 0 [] -> file_at g v' fnp' (cs ++ news) -> f_offset fnp' = o ->
  kept_node fnp fnp' -> o <= dir_size (f_dir fnp) <= 512 * spc * Z.of_nat (length cs) ->
  written v s cs fnp o 0 data v' (with_below c s) (cs ++ news) fnp'.
Proof.
  intros Hw Hf Eo (K1 & K2 & K3 & K4) Hsz. pose proof (file_longer cs news). split; try done.
  - by eapply wrote_nil_at.
  - lia.
  - unfold grown. lia.
  - lia.
  - left. split; [by split_and!|done].
Qed.

Lemma written_refl v (s : system S) cs fnp o data : mounted v (below s) -> layout_ok v -> file_at g v fnp cs ->
  f_offset fnp = o -> o <= dir_size (f_dir fnp) <= 512 * spc * Z.of_nat (length cs) ->
  written v s cs fnp o 0 data v s (cs ++ []) fnp.
Proof.
  intros Hm Hl Hf Eo Hsz. pose proof (m_vol _ _ _ _ _ Hm) as Hv.
  assert (written v s cs fnp o 0 data v (with_below (below s) s) (cs ++ []) fnp) as Hw; [|by rewrite with_below_id in Hw].
  apply written_none; rewrite ?app_nil_r; try done. apply wrote_refl; try done.
  - destruct Hf as [(-> & _)|(Hc & _)]; [by intros x ?%elem_of_nil|by eapply chain_clusters].
  - destruct Hf as [(-> & _)|(Hc & _)]; [constructor|by eapply chain_NoDup].
Qed.

Lemma written_trans v s cs fnp o n data v1 s1 cs1 fnp1 m v2 s2 cs2 fnp2 :
  layout_ok v -> layout_fits g -> 0 <= o -> 0 <= n -> 0 <= m -> n + m <= Z.of_nat (length data) ->
  written v s cs fnp o n data v1 s1 cs1 fnp1 ->
  written v1 s1 cs1 fnp1 (o + n) m (drop (Z.to_nat n) data) v2 s2 cs2 fnp2 ->
  written v s cs fnp o (n + m) data v2 s2 cs2 fnp2.
Proof.
  intros Hl Hf Ho Hn Hm Hlen [W1 F1 O1 S1 I1 H1 D1] [W2 F2 O2 S2 I2 H2 D2]. split; try done.
  - replace (Z.to_nat (n + m)) with (Z.to_nat n + Z.to_nat m)%nat by lia. rewrite <- take_take_drop.
    eapply wrote_trans; [done|done|exact W1|]. rewrite length_take.
    replace (Z.to_nat o + Z.to_nat n `min` length data)%nat with (Z.to_nat (o + n)) by lia. exact W2.
  - lia.
  - rewrite S2, S1. unfold grown. lia.
  - congruence.
  - by eapply spread_trans.
Qed.

(** A turn that writes, with what comes before and after the transfer. *)
Lemma turn_written v cs (s : system S) fnp ret to_xfer buffer :
  data_area g -> layout_ok v -> max_cluster g + (f_offset fnp + to_xfer) / 512 <= Z.of_nat steps ->
  128 <= Z.of_nat steps -> mounted v (below s) -> on_cluster p g v fnp cs -> f_sft_idx fnp <> 0xff ->
  1 <= to_xfer < 65536 -> f_offset fnp + to_xfer < 4294967296 ->
  0 <= ret -> ret + to_xfer <= Z.of_nat (length buffer) -> bytes buffer ->
  f_offset fnp <= dir_size (f_dir fnp) <= 512 * spc * Z.of_nat (length cs) ->
  exists k fnp1 s1 v' s' news, 1 <= k <= to_xfer /\
    xfer_turn cf steps XFR_WRITE 512 ret to_xfer buffer fnp s = Some (Moved k, buffer, fnp1, s1) /\
    let fnp' := if dir_size (f_dir fnp1) <? f_offset fnp1
                then with_f_dirent (with_dir_size (f_offset fnp1)) fnp1 else fnp1 in
    distribute fnp' s1 = Some s' /\ relayed fnp' s s' /\
    written v s cs fnp (f_offset fnp) k (drop (Z.to_nat ret) buffer) v' s' (cs ++ news) fnp'.
Proof.
  intros Hda Hl Hst Hst2 Hm Hon Hsx Hto H32 Hret Hlen Hby Hsz.
  destruct (xfer_turn_write v cs s fnp ret to_xfer buffer Hda Hl Hst Hst2 Hm Hon Hsx Hto H32 Hret Hlen Hby)
    as (k & Hk & fnp1 & v' & c & news & Er & Hw & Hpos & Eo & (K1 & K2 & K3 & K4)).
  set (fnp' := if dir_size (f_dir fnp1) <? f_offset fnp1
    then with_f_dirent (with_dir_size (f_offset fnp1)) fnp1 else fnp1).
  pose proof Hon as (Hp & _ & Ho & _).
  assert (ident fnp' = ident fnp /\ f_dpb fnp' = p /\ f_offset fnp' = f_offset fnp + k /\ positioned g v' fnp' (cs ++ news)) as (I' & P' & O' & F').
  { unfold fnp'. destruct (_ <? _).
    - split; [exact K4|]. split; [cbn; congruence|]. by split.
    - split; [exact K4|]. split; [congruence|]. by split. }
  assert (dir_size (f_dir fnp') = grown (dir_size (f_dir fnp)) (f_offset fnp) k) as S'.
  { unfold fnp', grown. destruct (Z.ltb_spec (dir_size (f_dir fnp1)) (f_offset fnp1)); cbn; lia. }
  destruct (distribute_spec v' (with_below c s) fnp' (wr_mounted _ _ _ _ _ _ _ _ Hw) P') as (tabs & Ed & Hrel').
  exists k, fnp1, (with_below c s), v', (with_sfthead tabs (with_below c s)), news.
  split; [done|]. split; [exact Er|]. cbv zeta. fold fnp'. split; [exact Ed|].
  assert (relayed fnp' s (with_sfthead tabs (with_below c s))) as Hrel2 by done. split; [done|].
  pose proof (wr_fits _ _ _ _ _ _ _ _ Hw) as Hfit. rewrite length_take, length_drop in Hfit.
  specialize (Hfit ltac:(intros E; apply (f_equal length) in E; rewrite length_take, length_drop in E; cbn in E; lia)).
  pose proof (file_bytes_length (primary := primary) g v (cs ++ news) Hl (proj1 (wr_clusters _ _ _ _ _ _ _ _ Hw))) as Hbl.
  pose proof (file_longer cs news). split; try done.
  - by right.
  - rewrite S'. unfold grown. lia.
  - right. exists fnp'. by split.
Qed.

Lemma rw_loop_write o count buffer :
  data_area g -> 0 <= o -> 0 <= count < 65536 -> o + count < 4294967296 -> count <= Z.of_nat (length buffer) ->
  bytes buffer -> max_cluster g + (o + count) / 512 <= Z.of_nat steps -> 128 <= Z.of_nat steps ->
  forall fuel ret fnp (s : system S) v cs,
  mounted v (below s) -> layout_ok v -> f_dpb fnp = p -> file_at g v fnp cs -> f_sft_idx fnp <> 0xff ->
  f_offset fnp = o + ret -> 0 <= ret <= count -> count - ret <= Z.of_nat fuel ->
  f_offset fnp <= dir_size (f_dir fnp) <= 512 * spc * Z.of_nat (length cs) ->
  exists n fnp' s' v' news,
    rw_loop cf steps fuel XFR_WRITE 512 count ret (count - ret) buffer fnp s = Some (n, buffer, fnp', s') /\
    ret <= n <= count /\ (n = count \/ none_free g v') /\
    written v s cs fnp (o + ret) (n - ret) (drop (Z.to_nat ret) buffer) v' s' (cs ++ news) fnp' /\
    (n = count -> ret = count /\ fnp' = fnp /\ s' = s \/ relayed fnp' s s').
Proof.
  intros Hda Ho Hcount H32 Hlen Hby Hst Hst2. induction fuel as [|fuel IH];
    intros ret fnp s v cs Hm Hl Hp Hfile Hsx Eo Hret Hf Hsz; cbn [rw_loop].
  all: assert (Hdone : ret = count -> exists n fnp' s' v' news, Some (ret, buffer, fnp, s) = Some (n, buffer, fnp', s') /\
    ret <= n <= count /\ (n = count \/ none_free g v') /\
    written v s cs fnp (o + ret) (n - ret) (drop (Z.to_nat ret) buffer) v' s' (cs ++ news) fnp' /\
    (n = count -> ret = count /\ fnp' = fnp /\ s' = s \/ relayed fnp' s s'))
    by (intros Er; exists ret, fnp, s, v, []; split; [done|]; split; [lia|]; split; [by left|];
        split; [|intros _; left; by split_and!]; rewrite Z.sub_diag; apply written_refl; done || lia).
  { rewrite (proj2 (Z.ltb_ge _ _)) by lia. apply Hdone. lia. }
  destruct (Z.ltb_spec ret count) as [Hlt|Hge]; cbn [negb]; [|apply Hdone; lia].
  change (XFR_WRITE =? XFR_READ) with false. change (XFR_WRITE =? XFR_WRITE) with true. cbn [andb].
  assert (f_offset fnp / 512 <= (o + count) / 512) by (apply Z.div_le_mono; lia).
  destruct (map_write v s fnp cs 0 Hm Hl Hp Hfile Hsx) as
    (rc & fnp1 & news & v1 & c & -> & Hw & Hf1 & Eo1 & Hk1 & Hres); [lia|lia|].
  pose proof (written_none v s cs news fnp (o + ret) (drop (Z.to_nat ret) buffer) v1 c fnp1 Hw Hf1 ltac:(lia) Hk1 ltac:(lia)) as Hwn.
  destruct Hres as [(-> & Hon & _)|(-> & Hnone)].
  2: { change (negb (DE_HNDLDSKFULL =? SUCCESS)) with true. cbv iota.
       exists ret, fnp1, (with_below c s), v1, news. rewrite Z.sub_diag. split_and!; first [done|lia|by right]. }
  change (negb (SUCCESS =? SUCCESS)) with false. cbv iota. pose proof Hk1 as (Kp & Kx & Ks & Ki).
  pose proof (wr_mounted _ _ _ _ _ _ _ _ Hw) as Hm1. pose proof (wr_layout _ _ _ _ _ _ _ _ Hw) as Hl1.
  destruct (distribute_spec v1 (with_below c s) fnp1 Hm1 ltac:(congruence)) as (tabs & -> & Hrel1).
  set (s1 := with_sfthead tabs (with_below c s)) in *. pose proof (file_longer cs news) as Hlonger.
  destruct (turn_written v1 (cs ++ news) s1 fnp1 ret (count - ret) buffer Hda Hl1)
    as (k & fnp2 & s2 & v2 & s3 & news2 & Hk & -> & E3 & Hrel3 & Hwn2); try done; try lia; try congruence.
  { rewrite Eo1, Eo. replace (o + ret + (count - ret)) with (o + count) by lia. lia. }
  cbv zeta in E3, Hrel3, Hwn2. set (fnp3 := if _ <? _ then _ else fnp2) in *. rewrite E3.
  rewrite (u16_id (ret + k)), (u16_id (count - ret - k)) by lia.
  replace (count - ret - k) with (count - (ret + k)) by lia.
  assert (Hw2 : written v s cs fnp (o + ret) (0 + k) (drop (Z.to_nat ret) buffer) v2 s3 (cs ++ news ++ news2) fnp3).
  { rewrite app_assoc. apply (written_trans v s cs fnp (o + ret) 0 _ v1 s1 (cs ++ news) fnp1 k); try done; try lia.
    - apply Hda.
    - rewrite length_drop; lia.
    - destruct Hwn as [A1 A2 A3 A4 A5 A6 _]. split; try done. right. exists fnp1. by split.
    - change (Z.to_nat 0) with 0%nat. rewrite drop_0, Z.add_0_r. rewrite Eo1, Eo in Hwn2. exact Hwn2. }
  destruct Hw2 as [Hw2 Hf3 Eo3 Es3 Ei3 Hh3 Hsp3]. destruct (ident_fields _ _ Ei3) as (Ex3 & Ep3 & _ & _).
  destruct (IH (ret + k) fnp3 s3 v2 (cs ++ news ++ news2)) as (n & fnp' & s' & v' & news' & -> & Hn & Hfull & Hwn' & Hlast);
    try done; try lia; try congruence.
  { apply (wr_mounted _ _ _ _ _ _ _ _ Hw2). } { apply (wr_layout _ _ _ _ _ _ _ _ Hw2). }
  { split; [|done]. rewrite Es3, Eo3. unfold grown. lia. }
  exists n, fnp', s', v', ((news ++ news2) ++ news'). split; [done|]. split; [lia|]. split; [done|]. split.
  - rewrite app_assoc. replace (n - ret) with (k + (n - (ret + k))) by lia.
    apply (written_trans v s cs fnp (o + ret) k _ v2 s3 (cs ++ news ++ news2) fnp3); try done; try lia.
    + apply Hda.
    + rewrite length_drop; lia.
    + rewrite drop_drop. replace (Z.to_nat ret + Z.to_nat k)%nat with (Z.to_nat (ret + k)) by lia.
      by rewrite <- Z.add_assoc.
  - intros Hnc. right. pose proof (wn_ident _ _ _ _ _ _ _ _ _ _ _ Hwn') as Ei'.
    assert (relayed fnp3 s s3) as Hr3.
    { eapply spread_relayed; [|reflexivity|exact Hrel3]. right. exists fnp1. split; [congruence|exact Hrel1]. }
    destruct (Hlast Hnc) as [(_ & -> & ->)|Hr]; [done|].
    eapply spread_relayed; [|symmetry; exact Ei'|exact Hr]. right. exists fnp3. by split.
Qed.


(** ** Extending a file to its position *)

Lemma dos_extend_spec v (s : system S) fnp cs :
  mounted v (below s) -> layout_ok v -> f_dpb fnp = p -> file_at g v fnp cs -> f_sft_idx fnp <> 0xff ->
  0 <= f_offset fnp < 4294967296 -> max_cluster g + f_offset fnp / 512 <= Z.of_nat steps ->
  dir_size (f_dir fnp) <= 512 * spc * Z.of_nat (length cs) ->
  exists rc fnp' s' v' news, dos_extend cf steps fnp s = Some (rc, fnp', s') /\
    wrote v (below s) v' (below s') cs (cs ++ news) 0 [] /\ file_at g v' fnp' (cs ++ news) /\
    f_offset fnp' = f_offset fnp /\ ident fnp' = ident fnp /\ spread fnp s s' /\
    dir_size (f_dir fnp') <= 512 * spc * Z.of_nat (length (cs ++ news)) /\
    (rc = SUCCESS /\ dir_size (f_dir fnp') = Z.max (dir_size (f_dir fnp)) (f_offset fnp) \/
     rc = DE_HNDLDSKFULL /\ none_free g v' /\ dir_size (f_dir fnp') = dir_size (f_dir fnp)).
Proof.
  intros Hm Hl Hp Hfile Hsx Ho Hst Hsz. pose proof (m_vol _ _ _ _ _ Hm) as Hv. unfold dos_extend.
  destruct (Z.leb_spec (f_offset fnp) (dir_size (f_dir fnp))) as [Hle|Hgt].
  { exists SUCCESS, fnp, s, v, []. rewrite app_nil_r. split; [done|]. split.
    { apply wrote_refl; try done.
      - destruct Hfile as [(-> & _)|(Hc & _)]; [by intros x ?%elem_of_nil|by eapply chain_clusters].
      - destruct Hfile as [(-> & _)|(Hc & _)]; [constructor|by eapply chain_NoDup]. }
    pose proof (spread_refl fnp s). split_and!; try done. left. split; [done|lia]. }
  destruct (map_write v s fnp cs 0 Hm Hl Hp Hfile Hsx) as
    (rc & fnp1 & news & v1 & c & -> & Hw & Hf1 & Eo1 & (K1 & K2 & K3 & K4) & Hres); [lia|lia|].
  pose proof (file_longer cs news).
  destruct Hres as [(-> & Hon & Hlen)|(-> & Hnone)].
  2: { change (negb (DE_HNDLDSKFULL =? SUCCESS)) with true. cbv iota. exists DE_HNDLDSKFULL, fnp1, (with_below c s), v1, news.
       split; [done|]. split; [done|]. split; [done|]. split; [done|]. split; [done|].
       split; [left; split; [by split_and!|done]|]. split; [lia|]. right. by split_and!. }
  change (negb (SUCCESS =? SUCCESS)) with false. cbv iota zeta. set (fnp2 := with_f_dirent _ fnp1).
  destruct (distribute_spec v1 (with_below c s) fnp2 (wr_mounted _ _ _ _ _ _ _ _ Hw) ltac:(cbn; congruence)) as (tabs & -> & Hrl).
  exists SUCCESS, fnp2, (with_sfthead tabs (with_below c s)), v1, news. split; [done|]. split; [done|]. split; [done|].
  split; [done|]. split; [done|]. split; [right; exists fnp2; by split|]. split; [cbn; lia|]. left. split; [done|]. cbn. lia.
Qed.

(** ** The table entries *)

(** The entry of the call itself is not changed by what is distributed. *)
Lemma told_self share fnp t : told share fnp (f_sft_idx fnp) t = t.
Proof. unfold told, same_file. rewrite Z.eqb_refl. cbn [negb andb]. by destruct share. Qed.

Lemma spread_own fnp (s s' : system S) fd t : spread fnp s s' -> f_sft_idx fnp = fd -> idx_to_sft fd s = Some t ->
  idx_to_sft fd s' = Some t.
Proof.
  intros Hs Ei [Hf Hc]%idx_to_sft_spec. pose proof (find_sft_range _ _ _ Hf) as Hr. apply idx_to_sft_spec. split; [|done].
  destruct Hs as [[_ H']|(last & Hid & _ & H')]; [by rewrite H'|]. rewrite H', Hf by done.
  injection Hid as Hi _ _ _ _ _ _ _ _. cbn. rewrite <- Ei, <- Hi. by rewrite told_self.
Qed.

(** Entries of other files are untouched. *)
Definition others_kept (fd : Z) (fnp : f_node) (s s' : system S) : Prop :=
  same_process s s' /\ forall j t, 0 <= j -> j <> fd -> find_sft (sfthead s) j = Some t ->
    share_installed s && same_file fnp j t = false -> find_sft (sfthead s') j = Some t.

(** Other open instances of the file have its start, size, date and time. *)
Definition others_told (fd : Z) (fnp : f_node) (s s' : system S) : Prop :=
  forall j, 0 <= j -> j <> fd -> find_sft (sfthead s') j = told (share_installed s) fnp j <$> find_sft (sfthead s) j.

Lemma spread_kept fnp f2 (s s' : system S) fd : spread fnp s s' -> ident f2 = ident fnp -> others_kept fd f2 s s'.
Proof.
  intros Hs Hi. destruct Hs as [[Hp H']|(last & Hid & Hp & H')]; (split; [done|]).
  all: intros j t Hj _ Ht Hn; rewrite H', Ht by done. 1: done. cbn. unfold told.
  by rewrite (same_file_ident last f2) by congruence; rewrite Hn.
Qed.

(** Leaving the call: the node is stored in the entry. *)
Lemma leave_spec v (s s1 : system S) fd t fnp cs :
  spread fnp s s1 -> idx_to_sft fd s = Some t -> 0 <= fd < 255 -> f_sft_idx fnp = fd -> f_dpb fnp = p ->
  mounted v (below s1) -> layout_ok v -> file_at g v fnp cs -> 0 <= f_offset fnp < 4294967296 ->
  0 <= dir_size (f_dir fnp) < 4294967296 -> dir_size (f_dir fnp) <= 512 * spc * Z.of_nat (length cs) ->
  exists s' t', fnode_to_sft fnp s1 = Some s' /\ below s' = below s1 /\ idx_to_sft fd s' = Some t' /\
    file_open p g v t' cs /\ sft_posit t' = f_offset fnp /\ sft_size t' = dir_size (f_dir fnp) /\
    sft_attrib t' = dir_attrib (f_dir fnp) /\ sft_flags t' = f_flags fnp /\
    (sft_mode t' = sft_mode t /\ sft_shroff t' = sft_shroff t) /\ other_entries fd s1 s' /\ others_kept fd fnp s s' /\ (relayed fnp s s1 -> others_told fd fnp s s').
Proof.
  intros Hs Ht Hfd Ei Hp Hm Hl Hfile Ho Hsz Hend. pose proof (spread_own fnp s s1 fd t Hs Ei Ht) as Ht1.
  rewrite <- Ei in Ht1 at 1.
  destruct (fnode_to_sft_spec cf p g v s1 fnp t cs Hm ltac:(lia) Ht1 Hp Hfile Ho Hsz Hend) as [E Hopen].
  set (f := store_fnode _ fnp) in *. destruct (upd_sft_spec f s1 (f_sft_idx fnp) t Ht1 eq_refl) as [Ht2 Hoth].
  destruct (spread_kept fnp fnp s s1 fd Hs eq_refl) as [Hpr Hkept].
  rewrite Ei in *. exists (upd_sft f fd s1), (f t). repeat (split; [done|]). split.
  - split; [done|]. intros j t2 Hj Hne Hj2 Hn. rewrite Hoth by done. by apply Hkept.
  - intros [_ Hrl] j Hj Hne. rewrite Hoth by done. by apply Hrl.
Qed.


(** ** Writing *)

(** The node of a write, before the file is extended. *)
Lemma marked v (s : system S) fd fnp0 t cs : mounted v (below s) -> idx_to_sft fd s = Some t -> 0 <= fd < 255 ->
  file_open p g v t cs ->
  exists fnp, sft_to_fnode fd fnp0 s = Some fnp /\ f_dpb (mark_written fnp) = p /\
    f_offset (mark_written fnp) = sft_posit t /\ dir_size (f_dir (mark_written fnp)) = sft_size t /\
    dir_attrib (f_dir (mark_written fnp)) = Z.lor (sft_attrib t) D_ARCHIVE /\
    f_flags (mark_written fnp) = clear (Z.lor SFT_FCLEAN SFT_FDATE) (sft_flags t) /\
    f_sft_idx (mark_written fnp) = fd /\ file_at g v (mark_written fnp) cs.
Proof.
  intros Hm Ht Hfd Hopen. destruct (sft_to_fnode_spec cf p g v s fd fnp0 t cs Hm Ht Hfd Hopen)
    as (fnp & E & Hp & Eo & Es & Ea & Efl & Ex & _ & _ & _ & _ & Hfile).
  exists fnp. split; [done|]. cbn. rewrite Ea, Efl. by split_and!.
Qed.

(** The entry after a write of [n] bytes. *)
Record sft_written (t t' : sft) (n : Z) : Prop := {
  sw_posit : sft_posit t' = sft_posit t + n;
  sw_size : n = 0 /\ sft_size t' = sft_size t \/ sft_size t' = Z.max (sft_size t) (sft_posit t + n);
  sw_attrib : sft_attrib t' = Z.lor (sft_attrib t) D_ARCHIVE;
  sw_flags : sft_flags t' = clear (Z.lor SFT_FCLEAN SFT_FDATE) (sft_flags t);
  sw_mode : sft_mode t' = sft_mode t /\ sft_shroff t' = sft_shroff t }.

Lemma rwblock_write_spec fuel v (s : system S) fd t cs count buffer fnp0 :
  mounted v (below s) -> layout_ok v -> data_area g -> 128 <= Z.of_nat steps ->
  max_cluster g + (sft_posit t + count) / 512 <= Z.of_nat steps ->
  1 <= count < 65536 -> sft_posit t + count < 4294967296 -> count <= Z.of_nat fuel -> count <= Z.of_nat (length buffer) ->
  bytes buffer -> 0 <= fd < 255 -> idx_to_sft fd s = Some t -> file_open p g v t cs ->
  exists n fnp s' t' v' news, rwblock cf steps fuel fd buffer count XFR_WRITE fnp0 s = Some (n, buffer, fnp, s') /\
    0 <= n <= count /\ (n = count \/ none_free g v') /\
    wrote v (below s) v' (below s') cs (cs ++ news) (Z.to_nat (sft_posit t)) (take (Z.to_nat n) buffer) /\
    idx_to_sft fd s' = Some t' /\ file_open p g v' t' (cs ++ news) /\ sft_written t t' n /\
    others_kept fd fnp s s' /\ (n = count -> others_told fd fnp s s').
Proof.
  intros Hm Hl Hda Hst2 Hst Hcount H32 Hfuel Hlen Hby Hfd Ht Hopen. pose proof Hopen as [_ _ Hsz Hpo Hend].
  destruct (marked v s fd fnp0 t cs Hm Ht Hfd Hopen) as (fnp0' & E & Hp & Eo & Es & Ea & Efl & Ex & Hfile).
  set (fnp := mark_written fnp0') in *. unfold rwblock. rewrite E. change (XFR_WRITE =? XFR_WRITE) with true. cbv iota zeta.
  fold fnp. assert (sft_posit t / 512 <= (sft_posit t + count) / 512) by (apply Z.div_le_mono; lia).
  destruct (dos_extend_spec v s fnp cs Hm Hl Hp Hfile ltac:(lia) ltac:(lia) ltac:(rewrite Eo; lia) ltac:(lia))
    as (rc & fnp1 & s1 & v1 & news1 & -> & Hw1 & Hf1 & Eo1 & Ei1 & Hsp1 & Hend1 & Hres).
  destruct (ident_fields _ _ Ei1) as (Ex1 & Ep1 & Efl1 & Ea1).
  pose proof (wr_mounted _ _ _ _ _ _ _ _ Hw1) as Hm1. pose proof (wr_layout _ _ _ _ _ _ _ _ Hw1) as Hl1.
  destruct Hres as [(-> & Es1)|(-> & Hnone & Es1)].
  2: { change (negb (DE_HNDLDSKFULL =? SUCCESS)) with true. cbv iota.
       destruct (leave_spec v1 s s1 fd t fnp1 (cs ++ news1)) as (s' & t' & -> & Eb & Ht' & Hopen' & T1 & T2 & T3 & T4 & T5 & _ & Hk & _);
         try done; try lia; try congruence.
       { by eapply spread_ident. }
       exists 0, fnp1, s', t', v1, news1. split; [done|]. split; [lia|]. split; [by right|].
       rewrite Eb. split; [by eapply wrote_nil_at|]. split; [done|]. split; [done|]. split; [|by split; [|lia]].
       split; [lia|left; split; [done|congruence]|congruence|congruence|exact T5]. }
  change (negb (SUCCESS =? SUCCESS)) with false. cbv iota. rewrite (proj2 (Z.eqb_neq count 0)) by lia.
  rewrite Ep1, Hp. destruct (mounted_fields cf p g v1 (below s1) Hm1) as (-> & _).
  destruct (rw_loop_write (sft_posit t) count buffer Hda ltac:(lia) ltac:(lia) ltac:(lia) Hlen Hby Hst Hst2
    fuel 0 fnp1 s1 v1 (cs ++ news1)) as (n & fnp2 & s2 & v2 & news2 & El & Hn & Hfull & Hwn & Hlast);
    try done; try lia; try congruence.
  rewrite Z.sub_0_r in El, Hwn. rewrite El. change (Z.to_nat 0) with 0%nat in Hwn. rewrite drop_0, Z.add_0_r in Hwn.
  destruct Hwn as [Hw2 Hf2 Eo2 Es2 Ei2 Hend2 Hsp2]. destruct (ident_fields _ _ Ei2) as (Ex2 & Ep2 & Efl2 & Ea2).
  assert (Hsp : spread fnp s s2) by (eapply spread_trans; [exact Hsp1|exact Ei1|exact Hsp2]).
  rewrite Es1, Es, Eo in Es2. unfold grown in Es2.
  destruct (leave_spec v2 s s2 fd t fnp2 ((cs ++ news1) ++ news2)) as (s' & t' & -> & Eb & Ht' & Hopen' & T1 & T2 & T3 & T4 & T5 & _ & Hk & Htold);
    try done; try lia; try congruence.
  { eapply spread_ident; [exact Hsp|congruence]. }
  { apply (wr_mounted _ _ _ _ _ _ _ _ Hw2). } { apply (wr_layout _ _ _ _ _ _ _ _ Hw2). }
  exists n, fnp2, s', t', v2, (news1 ++ news2). rewrite app_assoc, Eb. split; [done|]. split; [done|]. split; [done|].
  split.
  { apply (wrote_trans _ _ _ _ _ _ _ _ _ _ [] _ Hl (proj1 Hda) (wrote_nil_at _ _ _ _ _ _ _ _ Hw1)).
    cbn [length]. by rewrite Nat.add_0_r. }
  split; [done|]. split; [done|]. split.
  { split; [congruence|right; lia|congruence|congruence|exact T5]. }
  split; [done|]. intros Hnc. apply Htold. destruct (Hlast Hnc) as [(? & _)|Hrl]; [lia|].
  eapply spread_relayed; [exact Hsp1|congruence|exact Hrl].
Qed.

(** ** Writing nothing, which cuts the file *)

Lemma rwblock_cut_spec fuel v (s : system S) fd t cs buffer fnp0 :
  mounted v (below s) -> layout_ok v -> (Z.to_nat (max_cluster g) <= steps)%nat -> 0 <= fd < 255 ->
  idx_to_sft fd s = Some t -> file_open p g v t cs -> sft_posit t <= sft_size t ->
  let k := clusters_for g (sft_posit t) in
  exists fnp s' t' v', rwblock cf steps fuel fd buffer 0 XFR_WRITE fnp0 s = Some (0, buffer, fnp, s') /\
    evolves v (below s) v' (below s') /\ file_open p g v' t' (take k cs) /\
    (forall m, F v' m = if decide (m ∈ drop k cs) then FREE
                        else if decide ((0 < k)%nat /\ cs !! (k - 1)%nat = Some m) then LONG_LAST_CLUSTER else F v m) /\
    bytes_of v' (take k cs) = bytes_of v (take k cs) /\ sft_posit t' = sft_posit t /\ sft_size t' = sft_posit t /\
    (drop k cs <> [] -> durable (primary := primary) g v' (below s')) /\
    idx_to_sft fd s' = Some t' /\ other_entries fd s s'.
Proof.
  intros Hm Hl Hst Hfd Ht Hopen Hle k. pose proof Hopen as [_ _ Hsz Hpo Hend].
  destruct (marked v s fd fnp0 t cs Hm Ht Hfd Hopen) as (fnp0' & E & Hp & Eo & Es & Ea & Efl & Ex & Hfile).
  set (fnp := mark_written fnp0') in *. unfold rwblock. rewrite E. change (XFR_WRITE =? XFR_WRITE) with true. cbv iota zeta.
  fold fnp. unfold dos_extend. rewrite Eo, Es, (proj2 (Z.leb_le _ _)) by lia.
  change (negb (SUCCESS =? SUCCESS)) with false. change (0 =? 0) with true. cbv iota. rewrite Eo.
  pose proof (spc_pos g v Hl) as Hs. pose proof (m_vol _ _ _ _ _ Hm) as Hv.
  assert (Hck : (k <= length cs)%nat).
  { unfold k, clusters_for. destruct (Z.eqb_spec (sft_posit t) 0); [lia|].
    rewrite (relcluster_spc (primary := primary) g v) by done.
    assert ((sft_posit t - 1) / 512 / spc < Z.of_nat (length cs)); [|lia].
    rewrite Z.div_div by lia. apply Z.div_lt_upper_bound; lia. }
  set (fnp1 := with_f_dirent (with_dir_size (sft_posit t)) fnp).
  destruct (shrink_file_spec cf p g Hrel steps v (below s) fnp1 cs Hm) as (fnp2 & v' & c & E2 & Hev & Hcut & Hdur); try done; try lia.
  { change (f_sft_idx fnp1) with (f_sft_idx fnp). lia. } { change (f_offset fnp1) with (f_offset fnp). lia. }
  { apply (lo_shift _ _ Hl). } { change (f_offset fnp1) with (f_offset fnp). by rewrite Eo. }
  change (f_offset fnp1) with (f_offset fnp) in *. rewrite Eo in *. fold k in Hcut, Hdur.
  unfold call. rewrite E2. change (SUCCESS <? 0) with false. cbv iota.
  destruct Hcut as (Hf2 & HF & _ & Eo2 & Ep2 & Ei2 & Es2).
  change (f_offset fnp1) with (f_offset fnp) in *. change (f_dpb fnp1) with (f_dpb fnp) in Ep2.
  change (f_sft_idx fnp1) with (f_sft_idx fnp) in Ei2. change (dir_size (f_dir fnp1)) with (sft_posit t) in Es2.
  pose proof (layout_evolves cf p g v (below s) v' c Hev Hl) as Hl'.
  assert (Hk2 : sft_posit t <= 512 * spc * Z.of_nat (length (take k cs))).
  { rewrite length_take, Nat.min_l by done. unfold k, clusters_for. destruct (Z.eqb_spec (sft_posit t) 0); [lia|].
    rewrite (relcluster_spc (primary := primary) g v), Z.div_div by (done || lia).
    pose proof (Z.div_pos (sft_posit t - 1) (512 * spc) ltac:(lia) ltac:(lia)).
    pose proof (Z.mod_pos_bound (sft_posit t - 1) (512 * spc) ltac:(lia)).
    pose proof (Z.div_mod (sft_posit t - 1) (512 * spc) ltac:(lia)). lia. }
  destruct (leave_spec v' (with_below c s) (with_below c s) fd t fnp2 (take k cs))
    as (s' & t' & -> & Eb & Ht' & Hopen' & T1 & T2 & _ & _ & _ & Hoth & _ & _); try done; try lia; try congruence.
  { apply spread_refl. } { apply (ev_mounted _ _ _ _ _ _ _ Hev). }
  exists fnp2, s', t', v'. rewrite Eb. split; [done|]. split; [done|]. split; [done|]. split; [done|]. split.
  { apply bytes_ext. intros b Hb. eapply evolves_data; [exact Hev|].
    apply (file_sector_data (primary := primary) g v (take k cs)); [done| |done]. intros x Hx.
    destruct Hfile as [(-> & _)|(Hc & _)]; [by rewrite take_nil, elem_of_nil in Hx|].
    eapply (chain_clusters _ _ _ _ Hc). apply list_elem_of_lookup in Hx as [j Hj]. apply lookup_take_Some in Hj as [Hj _].
    by eapply list_elem_of_lookup_2. }
  split; [congruence|]. split; [congruence|]. split; [done|]. split; [done|].
  exact Hoth.
Qed.

End write.
