(* ===== verification/FilecloseSpec.v ===== *)
(** * Files: what closing and opening do

    Closing puts what the table entry knows of the file into its directory
    entry; opening goes the other way. *)

From S2P Require Import Prelude Hdr Bytes Dpb Blockio BlockioRing BlockioSpec BlockioRange Fattab CacheSpec.
From S2P Require Import FattabSpec Fnode Cluster ClusterSpec Names Fatdir FatdirSpec Fileio FileioSpec FilewriteSpec.

Section close.
  Context {S : Type} `{TransferLaws S primary} `{!DosState S} (cf steps ents : nat) (p : Z) (g : dpb).
  Context (Hrel : bc_reliable (S := S) (primary := primary)).

#[local] Abbreviation mounted := (mounted (primary := primary) cf p g).
#[local] Abbreviation evolves := (evolves (primary := primary) cf p g).
#[local] Abbreviation layout_ok := (layout_ok (primary := primary) g).
#[local] Abbreviation data_block := (data_block (primary := primary) g).
#[local] Abbreviation unit := (dpb_unit g).
#[local] Abbreviation F := (fat_at g).

(** The clock answers, and leaves the volume alone. *)
Definition clock_ok : Prop := forall v s, mounted v s ->
  (exists tm s', ds_gettime s = Some (tm, s') /\ 0 <= tm < 65536 /\ evolves v s v s') /\
  (exists dt s', ds_getdate s = Some (dt, s') /\ 0 <= dt < 65536 /\ evolves v s v s').

(** The fields of a table entry at their widths. *)
Record sft_ok (t : sft) : Prop := {
  so_name : length (take 11 (sft_name t)) = 11%nat /\ bytes (sft_name t);
  so_attrib : is_byte (sft_attrib t);
  so_time : 0 <= sft_time t < 65536;
  so_date : 0 <= sft_date t < 65536;
  so_start : 0 <= sft_stclust t < 4294967296 }.

(** The directory entry of an open file, with the fields that [old] keeps. *)
Definition entry_of_sft (t : sft) (time date : Z) (old : dirent) : dirent :=
  Dirent (take 11 (sft_name t)) (sft_attrib t) (dir_case old) (dir_crtimems old) (dir_crtime old) (dir_crdate old)
    (dir_accdate old) (if ISFAT32 g then u16 (Z.shiftr (sft_stclust t) 16) else dir_start_high old) time date
    (u16 (sft_stclust t)) (sft_size t).

(** The node is loaded with the fields of the entry. *)
Definition loaded (t : sft) (fd : Z) (fnp : f_node) : Prop :=
  f_dpb fnp = p /\ f_sft_idx fnp = fd /\ f_flags fnp = sft_flags t /\ f_dirsector fnp = sft_dirsector t /\
  f_diridx fnp = sft_diridx t /\
  forall old, closed_entry (ISFAT32 g) old (f_dir fnp) = entry_of_sft t (sft_time t) (sft_date t) old.

Lemma sft_loaded v (s : system S) fd t cs fnp0 :
  mounted v (below s) -> idx_to_sft fd s = Some t -> 0 <= fd < 255 -> file_open p g v t cs ->
  exists fnp, sft_to_fnode fd fnp0 s = Some fnp /\ loaded t fd fnp.
Proof.
  intros Hm Ht Hfd [Hp _ _ _ _]. unfold sft_to_fnode. rewrite Ht, Hp. eexists. split; [reflexivity|].
  unfold loaded. cbn [f_dpb f_sft_idx f_flags f_dirsector f_diridx f_dir]. rewrite u8_id by lia.
  split_and!; try done. intros old. unfold setdstart. rewrite (fat32_geom cf p g v (below s) Hm).
  unfold closed_entry, entry_of_sft. by destruct (ISFAT32 g).
Qed.

Lemma closed_fields_ok t time date old d : sft_ok t -> 0 <= sft_size t < 4294967296 -> 0 <= time < 65536 -> 0 <= date < 65536 ->
  closed_entry (ISFAT32 g) old d = entry_of_sft t time date old ->
  open_fields_ok d /\ (ISFAT32 g = true -> 0 <= dir_start_high d < 65536).
Proof.
  intros [[Hn Hb] Ha ? ? ?] Hsz Ht Hd [= E1 E2 E3 E4 E5 E6 E7]. split.
  - split; rewrite ?E1, ?E2, ?E4, ?E5, ?E6, ?E7; try done.
    + split; [done|]. by apply Forall_take.
    + apply u16_range.
  - intros E. rewrite E in E3. rewrite E3. apply u16_range.
Qed.

(** Which entries are written back, and with whose time. *)
Definition is_clean (t : sft) : bool := negb (Z.land (sft_flags t) SFT_FCLEAN =? 0).
Definition is_dated (t : sft) : bool := negb (Z.land (sft_flags t) SFT_FDATE =? 0).
Definition untouched (t : sft) : bool := Z.land (sft_flags t) (Z.lor SFT_FCLEAN SFT_FDATE) =? SFT_FCLEAN.

(** The node of a file that is closed, as its directory entry is going to be. *)
Definition stamped (t : sft) (fd time date : Z) (fnp : f_node) : Prop :=
  f_dpb fnp = p /\ f_sft_idx fnp = fd /\ f_flags fnp = sft_flags t /\ f_dirsector fnp = sft_dirsector t /\
  f_diridx fnp = sft_diridx t /\
  forall old, closed_entry (ISFAT32 g) old (f_dir fnp) = entry_of_sft t time date old.

Lemma spread_below fnp (s : system S) c : spread g fnp s (with_below c s).
Proof. left. split; [by split_and!|done]. Qed.

Lemma close_stamp v (s : system S) t fd fnp : clock_ok -> mounted v (below s) -> sft_ok t -> loaded t fd fnp ->
  exists time date fnp1 s1, (if Z.land (f_flags fnp) SFT_FCLEAN =? 0 then
      let* (fnp, s) :=
        if Z.land (f_flags fnp) SFT_FDATE =? 0 then
          let* (time, s) := call ds_gettime s in
          let* (date, s) := call ds_getdate s in
          Some (with_f_dirent (with_dir_stamp time date) fnp, s)
        else Some (fnp, s) in
      let* s := distribute fnp s in
      Some (fnp, s)
    else Some (fnp, s)) = Some (fnp1, s1) /\
    stamped t fd time date fnp1 /\ 0 <= time < 65536 /\ 0 <= date < 65536 /\
    (is_clean t || is_dated t = true -> time = sft_time t /\ date = sft_date t) /\
    evolves v (below s) v (below s1) /\ spread g fnp1 s s1 /\ (is_clean t = false -> relayed g fnp1 s s1).
Proof.
  intros Hclk Hm [_ _ Htm Hdt _] (L1 & L2 & L3 & L4 & L5 & L6). unfold is_clean, is_dated. rewrite L3.
  destruct (Z.eqb_spec (Z.land (sft_flags t) SFT_FCLEAN) 0) as [Hc|Hc]; cbn [negb orb].
  2: { exists (sft_time t), (sft_date t), fnp, s. pose proof (evolves_refl cf p g v _ Hm). pose proof (spread_refl g fnp s).
       split_and!; try done; lia. }
  destruct (Z.eqb_spec (Z.land (sft_flags t) SFT_FDATE) 0) as [Hd|Hd]; cbn [negb].
  - destruct (Hclk v (below s) Hm) as [(tm & c1 & E1 & R1 & V1) _].
    destruct (Hclk v c1 (ev_mounted _ _ _ _ _ _ _ V1)) as [_ (dt & c2 & E2 & R2 & V2)].
    unfold call. rewrite E1. cbn [below with_below]. rewrite E2. set (fnp1 := with_f_dirent _ fnp).
    change (with_below c2 (with_below c1 s)) with (with_below c2 s).
    destruct (distribute_spec cf p g v (with_below c2 s) fnp1 (ev_mounted _ _ _ _ _ _ _ V2) L1) as (tabs & -> & Hrl).
    exists tm, dt, fnp1, (with_sfthead tabs (with_below c2 s)).
    assert (relayed g fnp1 s (with_sfthead tabs (with_below c2 s))) by done.
    split; [done|]. split; [|split; [lia|split; [lia|split; [done|]]]].
    + repeat (split; [done|]). intros old. specialize (L6 old). unfold closed_entry, entry_of_sft in *. cbn.
      injection L6 as E3 E4 E5 E6 E7 E8 E9. by rewrite E3, E4, E5, E8, E9.
    + split; [by eapply evolves_trans|]. split; [right; by exists fnp1|done].
  - destruct (distribute_spec cf p g v s fnp Hm L1) as (tabs & -> & Hrl).
    exists (sft_time t), (sft_date t), fnp, (with_sfthead tabs s). pose proof (evolves_refl cf p g v _ Hm).
    split_and!; try done; try lia. right. by exists fnp.
Qed.

Lemma dos_close_spec v (s : system S) fd t cs c dcs k old fnp0 :
  clock_ok -> mounted v (below s) -> layout_ok v -> 0 <= fd < 255 -> idx_to_sft fd s = Some t -> file_open p g v t cs ->
  sft_ok t -> dir_chain g v c dcs -> 0 <= k -> dir_slot g c dcs k = Some (sft_dirsector t, sft_diridx t) ->
  dir_entry g v c dcs k = Some old ->
  exists fnp v' s' time date, dos_close cf fd fnp0 s = Some (SUCCESS, fnp, s') /\
    mounted v' (below s') /\ layout_ok v' /\ (forall m, F v' m = F v m) /\
    (forall n, primary unit n -> bc_disk (primary := primary) (below s') unit n = v' unit n) /\
    (is_clean t || is_dated t = true -> time = sft_time t /\ date = sft_date t) /\
    (forall c' dcs' j, dir_chain g v c' dcs' -> 0 <= j ->
       dir_entry g v' c' dcs' j =
         if untouched t then dir_entry g v c' dcs' j
         else match dir_slot g c' dcs' j with
              | Some sl => if decide (sl = (sft_dirsector t, sft_diridx t)) then Some (entry_of_sft t time date old)
                           else dir_entry g v c' dcs' j
              | None => None
              end) /\
    (forall n, data_block n -> n <> sft_dirsector t -> v' unit n = v unit n) /\
    idx_to_sft fd s' = Some t /\ file_open p g v' t cs /\ others_kept fd (with_f_sft_idx fd fnp) s s' /\
    (is_clean t = false -> others_told g fd (with_f_sft_idx fd fnp) s s').
Proof.
  intros Hclk Hm Hl Hfd Ht Hopen Hok Hdc Hk Hsl Hold. pose proof (m_vol _ _ _ _ _ Hm) as Hv.
  destruct (sft_loaded v s fd t cs fnp0 Hm Ht Hfd Hopen) as (fnp & E0 & Hload).
  destruct (close_stamp v s t fd fnp Hclk Hm Hok Hload) as
    (time & date & fnp1 & s1 & E1 & (L1 & L2 & L3 & L4 & L5 & L6) & Rt & Rd & Hkeep & Hev & Hsp & Htell).
  unfold dos_close. rewrite E0, E1. clear E0 E1 Hload. set (fnp2 := with_f_sft_idx 0xff fnp1).
  pose proof (ev_mounted _ _ _ _ _ _ _ Hev) as Hm1.
  assert (Heq : with_f_sft_idx fd fnp2 = fnp1) by (destruct fnp1; cbn in *; by subst).
  assert (Hfin : forall c2 v', (forall m, F v' m = F v m) ->
    idx_to_sft fd (with_below c2 s1) = Some t /\ file_open p g v' t cs /\ others_kept fd (with_f_sft_idx fd fnp2) s (with_below c2 s1) /\
    (is_clean t = false -> others_told g fd (with_f_sft_idx fd fnp2) s (with_below c2 s1))).
  { intros c2 v' HF. rewrite Heq. split; [by eapply (spread_own g fnp1 s s1)|]. split.
    { destruct Hopen as [O1 [O2|(O2 & O2')] O3 O4 O5]; split; try done; [by left|right]. split; [|done].
      by apply (chain_fat g v). }
    split; [by eapply spread_kept|]. intros Hc j Hj _. by apply (Htell Hc). }
  assert (untouched t = (Z.land (f_flags fnp2) (Z.lor SFT_FCLEAN SFT_FDATE) =? SFT_FCLEAN)) as Hu
    by (unfold untouched; change (f_flags fnp2) with (f_flags fnp1); by rewrite L3).
  destruct (untouched t) eqn:Eu.
  - unfold call. unfold dir_write_update at 1. rewrite <- Hu. cbn [negb orb]. change (f_dpb fnp2) with (f_dpb fnp1). rewrite L1.
    destruct (flush_mounted cf p g Hrel v (below s1) Hm1) as (c2 & -> & Hev2 & Hdur).
    exists fnp2, v, (with_below c2 s1), time, date. destruct (Hfin c2 v ltac:(done)) as (A1 & A2 & A3 & A4).
    split; [done|]. split; [apply (ev_mounted _ _ _ _ _ _ _ Hev2)|]. by split_and!.
  - destruct (dir_slot_block (primary := primary) g v c dcs k _ Hv Hl Hdc Hk Hsl) as [Hb Hi]. cbn [fst snd] in Hb, Hi.
    destruct (closed_fields_ok t time date old (f_dir fnp1) Hok (fo_size _ _ _ _ _ Hopen) Rt Rd (L6 old)) as [Hfo Hhigh].
    unfold dir_entry in Hold. rewrite Hsl in Hold.
    destruct (getdirent (slot_bytes g v (sft_dirsector t, sft_diridx t))) as [old0|] eqn:Eg; [|done]. injection Hold as Hold.
    destruct (lo_data _ _ Hl _ Hb) as [Hbl Hbb].
    destruct (get_update_fields (ISFAT32 g) (swap_entry (f_dir fnp1)) (slot_bytes g v (sft_dirsector t, sft_diridx t)) old0)
      as (Hget & Hwl & Hwb); try done.
    { by apply swap_fields_ok. }
    { unfold slot_bytes. cbn [fst snd]. rewrite length_take, length_drop. lia. }
    { unfold slot_bytes, bytes. by apply Forall_take, Forall_drop. }
    assert (closed_entry (ISFAT32 g) old0 (swap_entry (f_dir fnp1)) = swap_entry (entry_of_sft t time date old)) as Esw.
    { rewrite <- (L6 old), <- Hold. done. }
    rewrite Esw in Hget.
    destruct (dir_write_slot cf p g Hrel true v (below s1) fnp2 (entry_of_sft t time date old) Hm1 Hl) as
      (v' & c2 & E2 & Hw & Hdp & Hdr & Helse); try done.
    { change (f_dirsector fnp2) with (f_dirsector fnp1). by rewrite L4. }
    { change (f_diridx fnp2) with (f_diridx fnp1). by rewrite L5. }
    { rewrite <- Hu. done. }
    1-3: change (f_dirsector fnp2) with (f_dirsector fnp1); change (f_diridx fnp2) with (f_diridx fnp1);
      change (f_dir fnp2) with (f_dir fnp1); by rewrite L4, L5.
    change (f_dirsector fnp2) with (f_dirsector fnp1) in *. change (f_diridx fnp2) with (f_diridx fnp1) in *. rewrite L4, L5 in *.
    destruct Hw as (W1 & W2 & W3 & W4 & W5). unfold call. rewrite E2. cbv iota.
    exists fnp2, v', (with_below c2 s1), time, date. destruct (Hfin c2 v' W3) as (A1 & A2 & A3 & A4).
    split_and!; done.
Qed.

(** ** Opening a file that exists *)

(** An entry that another writable instance of the node's file has. *)
Definition is_writer (fnp : f_node) (j : Z) (t : sft) : bool :=
  same_file fnp j t && negb (Z.land (sft_mode t) O_ACCMODE =? O_RDONLY).
Definition no_writer (fnp : f_node) (s : system S) : Prop :=
  share_installed s = true -> forall j t, 0 <= j -> find_sft (sfthead s) j = Some t -> is_writer fnp j t = false.

Lemma merge_alone fnp n : forall i (s : system S), 0 <= i -> Z.of_nat (length (concat (sfthead s))) = i + Z.of_nat n ->
  (forall j t, 0 <= j -> find_sft (sfthead s) j = Some t -> is_writer fnp j t = false) ->
  merge_loop no_close 1 n i fnp s = Some (SUCCESS, fnp, s).
Proof.
  induction n as [|n IH]; intros i s Hi Hlen Hno; [done|]. cbn [merge_loop].
  destruct (proj2 (find_sft_bound (sfthead s) i Hi)) as [t Ht]; [lia|]. rewrite Ht.
  pose proof (Hno i t Hi Ht) as Hw. unfold is_writer in Hw.
  change (1 =? -1) with false. change (negb (1 =? 0)) with true. cbv iota.
  destruct (same_file fnp i t); cbn [andb negb] in *; [rewrite Hw|]; apply IH; (done || lia).
Qed.

Lemma collect_alone fnp (s : system S) : no_writer fnp s -> merge_file_changes no_close fnp 1 s = Some (SUCCESS, fnp, s).
Proof.
  intros Hno. unfold merge_file_changes, no_writer in *. destruct (share_installed s); [|done]. cbn [negb].
  apply merge_alone; [lia|lia|auto].
Qed.

Lemma merge_total fnp n : forall i (s : system S), 0 <= i -> Z.of_nat (length (concat (sfthead s))) = i + Z.of_nat n ->
  exists d, merge_loop no_close 1 n i fnp s = Some (SUCCESS, with_f_dir d fnp, s).
Proof.
  induction n as [|n IH]; intros i s Hi Hlen; [exists (f_dir fnp); by destruct fnp|]. cbn [merge_loop].
  destruct (proj2 (find_sft_bound (sfthead s) i Hi)) as [t Ht]; [lia|]. rewrite Ht.
  change (1 =? -1) with false. change (negb (1 =? 0)) with true. cbv iota.
  destruct (same_file fnp i t); cbn [negb]; [|apply IH; lia].
  destruct (negb _); [by eexists|apply IH; lia].
Qed.

Lemma collect_total fnp (s : system S) :
  exists d, merge_file_changes no_close fnp 1 s = Some (SUCCESS, with_f_dir d fnp, s) /\ (no_writer fnp s -> d = f_dir fnp).
Proof.
  assert (exists d, merge_file_changes no_close fnp 1 s = Some (SUCCESS, with_f_dir d fnp, s)) as [d E].
  { unfold merge_file_changes. destruct (share_installed s); cbn [negb]; [apply merge_total; lia|].
    exists (f_dir fnp). by destruct fnp. }
  exists d. split; [done|]. intros Hno%collect_alone. rewrite E in Hno. injection Hno as Hno.
  by apply (f_equal f_dir) in Hno.
Qed.

(** What a directory entry says about a file the volume holds. *)
Definition entry_file (v : Z -> Z -> list Z) (e : dirent) (cs : list Z) : Prop :=
  (getdstart g e = FREE /\ cs = [] \/ chain g v (getdstart g e) cs /\ cs <> []) /\
  0 <= dir_size e < 4294967296 /\ dir_size e <= 512 * spc g * Z.of_nat (length cs).

(** Opening it is refused. *)
Definition open_denied (flags : Z) (e : dirent) : bool :=
  negb (Z.land (dir_attrib e) (Z.lor D_DIR D_VOLID) =? 0) ||
  negb (Z.land (dir_attrib e) D_RDONLY =? 0) && negb (Z.land flags O_ACCMODE =? O_RDONLY).

(** The table entry of a file just opened. *)
Record just_opened (t t' : sft) (e : dirent) (sl : Z * Z) : Prop := {
  jo_count : sft_count t' = sft_count t;
  jo_mode : sft_mode t' = sft_mode t;
  jo_posit : sft_posit t' = 0;
  jo_size : sft_size t' = dir_size e;
  jo_start : sft_stclust t' = getdstart g e;
  jo_attrib : sft_attrib t' = dir_attrib e;
  jo_stamp : sft_time t' = dir_time e /\ sft_date t' = dir_date e;
  jo_name : sft_name t' = take 11 (dir_name e);
  jo_slot : (sft_dirsector t', sft_diridx t') = sl;
  jo_clean : is_clean t' = true /\ is_dated t' = false }.

Lemma opened_flags fl : let fl' := Z.lor (clear SFT_FDATE fl) SFT_FCLEAN in
  Z.land fl' SFT_FCLEAN <> 0 /\ Z.land fl' SFT_FDATE = 0.
Proof.
  cbv zeta. unfold clear, SFT_FCLEAN, SFT_FDATE. split.
  - intros E. apply (f_equal (fun z => Z.testbit z 6)) in E. rewrite Z.land_spec, Z.lor_spec, orb_true_r in E by lia. done.
  - apply Z.bits_inj'. intros n Hn. rewrite Z.land_spec, Z.lor_spec, Z.land_spec, Z.lnot_spec, Z.bits_0 by lia.
    destruct (Z.testbit 0x4000 n) eqn:E; [|by rewrite andb_false_r].
    cbn [negb]. rewrite andb_false_r. cbn [orb]. rewrite andb_true_r.
    change 0x4000 with (2 ^ 14) in E. change 0x40 with (2 ^ 6). rewrite Z.pow2_bits_eqb in * by lia.
    apply Z.eqb_eq in E as <-. done.
Qed.

(** No other entry has the file of slot [sl] open for writing. *)
Definition only_reader (fd : Z) (sl : Z * Z) (s : system S) : Prop :=
  share_installed s = true -> forall j t, 0 <= j -> j <> fd -> find_sft (sfthead s) j = Some t -> sft_count t <> 0 ->
    sft_dcb t = p -> (sft_dirsector t, sft_diridx t) = sl -> Z.land (sft_mode t) O_ACCMODE = O_RDONLY.

Lemma only_reader_writer fd fnp s : f_sft_idx fnp = fd -> f_dpb fnp = p ->
  only_reader fd (f_dirsector fnp, f_diridx fnp) s -> no_writer fnp s.
Proof.
  intros Ei Ep Ho Hs j t Hj Ht. unfold is_writer. destruct (same_file fnp j t) eqn:E; [cbn [andb]|done].
  unfold same_file in E. rewrite !andb_true_iff, !negb_true_iff, !Z.eqb_eq, !Z.eqb_neq in E.
  destruct E as ((((((E1 & E2) & E3) & _) & _) & E4) & E5).
  rewrite (Ho Hs j t Hj ltac:(congruence) Ht E2 ltac:(congruence) ltac:(congruence)). done.
Qed.

(** The node that is stored, from the one the search has left. *)
Definition open_node (fd : Z) (d : dpb) (fnp : f_node) : f_node :=
  let fnp := with_f_pos 0 (f_cluster fnp) (with_f_offset 0 (with_f_sft_idx (u8 fd) fnp)) in
  let fnp := with_f_flags (Z.lor (clear SFT_FDATE (f_flags fnp)) SFT_FCLEAN) fnp in
  with_f_pos 0 (getdstart d (f_dir fnp)) fnp.

Lemma open_stored v (s : system S) fd t fnp e :
  mounted v (below s) -> 0 <= fd < 255 -> idx_to_sft fd s = Some t -> f_dpb fnp = p -> f_dir fnp = e ->
  let n := open_node fd (bc_dpb (below s) (f_dpb fnp)) fnp in
  exists s' t', fnode_to_sft n s = Some s' /\ below s' = below s /\ same_process s s' /\
    idx_to_sft fd s' = Some t' /\ just_opened t t' e (f_dirsector fnp, f_diridx fnp) /\ other_entries fd s s' /\
    (forall cs, entry_file v e cs -> file_open p g v t' cs) /\ (dirent_ok e -> sft_ok t').
Proof.
  intros Hm Hfd Ht Hp He n. pose proof Hm as Hm0. pose proof (m_geom _ _ _ _ _ Hm) as Hg.
  assert (f_sft_idx n = fd) as Ei by (cbn; apply u8_id; lia).
  unfold fnode_to_sft. rewrite Ei, Ht. set (f := store_fnode (bc_dpb (below s) (f_dpb n)) n).
  destruct (upd_sft_spec f s fd t Ht eq_refl) as [Ht2 Hoth].
  assert (Hs : sft_stclust (f t) = getdstart g e) by (cbn; by rewrite Hp, He, (getdstart_geom cf p g v (below s))).
  assert (Hc : sft_cuclust (f t) = getdstart g e) by (cbn; by rewrite Hp, He, (getdstart_geom cf p g v (below s))).
  exists (upd_sft f fd s), (f t). split; [done|]. split; [done|]. split; [by split_and!|]. split; [done|].
  destruct (opened_flags (f_flags fnp)) as [F1 F2]. split.
  { split; try done; try (cbn; by rewrite He).
    unfold is_clean, is_dated. cbn [f store_fnode sft_flags n open_node f_flags with_f_flags with_f_pos with_f_offset with_f_sft_idx].
    rewrite F2, (proj2 (Z.eqb_neq _ _)) by done. done. }
  split; [done|]. split.
  - intros cs [Hch [Hsz Hend]]. split.
    + cbn. exact Hp.
    + rewrite Hs, Hc. assert (sft_rel (f t) = 0) as -> by done.
      destruct Hch as [(Hf & ->)|(Hch & Hne)]; [left; by rewrite Hf|right]. split; [done|]. split; [done|].
      destruct cs as [|y cs]; [done|]. destruct Hch as (-> & _). done.
    + cbn. by rewrite He.
    + cbn. lia.
    + cbn. by rewrite He.
  - intros [[Hn Hb] D1 D2 D3 D4 D5 D6 D7 D8 D9 D10 D11]. split; try (cbn; by rewrite He).
    + cbn. rewrite He, take_take, Nat.min_id. split; [rewrite length_take; lia|]. by apply Forall_take.
    + rewrite Hs. unfold getdstart. destruct (ISFAT32 g); cbn [negb]; [|lia]. rewrite Z.lor_comm, lor_shiftl by lia.
      change (2 ^ 16) with 65536. lia.
Qed.

Lemma dos_open_spec v (s : system S) fd t drv dirs x dcs0 c dcs flags attrib fnp0 :
  mounted v (below s) -> layout_ok v -> (Z.to_nat (max_cluster g) <= steps)%nat -> 65536 <= Z.of_nat ents ->
  0 <= fd < 255 -> idx_to_sft fd s = Some t ->
  get_dpb (drv - ch "A") (below s) = Some p -> Forall comp_ok dirs -> comp_ok x ->
  resolves g v (root g) dcs0 (map fcb dirs) (Some (c, dcs)) ->
  Z.land flags O_TRUNC = 0 -> Z.land flags O_CREAT = 0 -> Z.land flags O_OPEN <> 0 -> Z.land flags O_FCB = 0 ->
  exists k rc fnp s', dos_open cf steps ents (full_path drv (dirs ++ [x])) flags attrib fd fnp0 s = Some (rc, fnp, s') /\
    evolves v (below s) v (below s') /\ other_entries fd s s' /\ same_process s s' /\
    first_entry (nth_entry g v c dcs) (file_match (fcb x) (Z.lor D_ALL attrib)) 0 k /\
    match nth_entry g v c dcs k with
    | Some e =>
        if occupied e then
          if open_denied flags e then rc = DE_ACCESS /\ sfthead s' = sfthead s
          else exists sl, dir_slot g c dcs k = Some sl /\
            (only_reader fd sl s -> rc = S_OPENED /\ exists t', idx_to_sft fd s' = Some t' /\ just_opened t t' e sl /\
               (forall cs, entry_file v e cs -> file_open p g v t' cs) /\ (dirent_ok e -> sft_ok t'))
        else rc = DE_FILENOTFND /\ sfthead s' = sfthead s
    | None => rc = DE_FILENOTFND /\ sfthead s' = sfthead s
    end.
Proof.
  intros Hm Hl Hst Hen Hfd Ht Hdr Hdirs Hx Hres Htr Hcr Hop Hfcb. unfold dos_open, sft_to_fnode. rewrite Ht.
  set (fnp1 := Fnode _ _ _ _ _ _ _ _ _ _). unfold call at 1.
  destruct (find_fname_spec cf steps p g Hrel ents v (below s) fnp1 drv dirs x dcs0 (Some (c, dcs)) (Z.lor D_ALL attrib)
    Hm Hl Hst Hen Hdr Hdirs Hx Hres) as (rc & fnp & c1 & -> & Hev & k & Hfirst & Hnode & _ & Hfound).
  exists k. set (s1 := with_below c1 s). pose proof Hnode as (Hp & _).
  assert (Hnone : rc = DE_FILENOTFND -> open_found cf steps ents (full_path drv (dirs ++ [x])) flags attrib rc fnp s1 =
    Some (inl DE_FILENOTFND, fnp, s1)).
  { intros ->. unfold open_found. change (DE_FILENOTFND =? SUCCESS) with false. rewrite Hcr. done. }
  assert (Hsame : other_entries fd s s1 /\ same_process s s1) by (split; [done|by split_and!]).
  destruct (nth_entry g v c dcs k) as [e|] eqn:Ee; [destruct (occupied e) eqn:Eo|].
  2,3: rewrite Hnone by done; exists DE_FILENOTFND, fnp, s1; split; [done|]; split; [done|];
    destruct Hsame; split_and!; done.
  destruct Hfound as (-> & Hd & Hsl). unfold open_found. change (SUCCESS =? SUCCESS) with true. cbv iota zeta.
  rewrite Htr, Hfcb, (proj2 (Z.eqb_neq _ 0) Hop), Hd. change (0 =? 0) with true. cbn [negb andb].
  fold (open_denied flags e). destruct (open_denied flags e).
  { exists DE_ACCESS, fnp, s1. destruct Hsame. split_and!; done. }
  change (negb (S_OPENED =? S_OPENED)) with false. change (S_OPENED =? S_OPENED) with true. cbn [negb]. cbv iota.
  set (n0 := with_f_flags _ _). pose proof (ev_mounted _ _ _ _ _ _ _ Hev) as Hm1.
  assert (Hn0 : f_sft_idx n0 = fd /\ f_dpb n0 = p /\ (f_dirsector n0, f_diridx n0) = (f_dirsector fnp, f_diridx fnp)).
  { split; [apply u8_id; lia|]. by split. }
  destruct Hn0 as (Hi0 & Hp0 & Hsl0).
  destruct (collect_total n0 s1) as (d' & Ecol & Hd'). rewrite Ecol. cbn [f_dpb with_f_dir with_f_pos].
  change (f_dpb n0) with (f_dpb fnp). change (below s1) with c1.
  assert (Hopen : exists n s' t', n = with_f_pos (f_cluster_offset (with_f_dir d' n0))
      (getdstart (bc_dpb c1 (f_dpb fnp)) (f_dir (with_f_dir d' n0))) (with_f_dir d' n0) /\
    fnode_to_sft n s1 = Some s' /\ below s' = c1 /\ same_process s1 s' /\ idx_to_sft fd s' = Some t' /\
    just_opened t t' d' (f_dirsector fnp, f_diridx fnp) /\ other_entries fd s1 s' /\
    (forall cs, entry_file v d' cs -> file_open p g v t' cs) /\ (dirent_ok d' -> sft_ok t')).
  { destruct (open_stored v s1 fd t (with_f_dir d' fnp) d' Hm1 Hfd Ht Hp eq_refl) as (s' & t' & E & Hrest).
    eexists _, s', t'. split; [reflexivity|]. split; [exact E|exact Hrest]. }
  destruct Hopen as (n & s' & t' & -> & E & Eb & Hpr & Ht' & Hjo & Hoth & Hfo & Hok).
  rewrite E. eexists S_OPENED, _, s'. split; [reflexivity|]. rewrite Eb. split; [done|]. split; [done|]. split; [done|].
  split; [done|]. exists (f_dirsector fnp, f_diridx fnp). split; [done|]. intros Hro. split; [done|].
  assert (d' = e) as ->. { rewrite Hd'; [exact Hd|]. apply (only_reader_writer fd n0 s1 Hi0 Hp0). exact Hro. }
  by exists t'.
Qed.

End close.
