(* ===== verification/FileThms.v ===== *)
(** * Files: the properties of reading and writing, and a sample file *)

From S2P Require Import Prelude Hdr Share Bytes Dpb Blockio BlockioRing BlockioSpec BlockioRange Fattab CacheSpec.
From S2P Require Import FattabSpec Fnode Cluster ClusterSpec Names Fatdir FatdirSpec FatdirThms Fileio FileioSpec.
From S2P Require Import FilewriteSpec FilecloseSpec.

Section properties.
  Context {S : Type} `{TransferLaws S primary} (cf steps : nat) (p : Z) (g : dpb).

(** C2: reading an open file yields the bytes of its contents from the position
    on, as many as asked for and left of it, whatever mixture of cached sectors
    and direct transfers the call uses; the position moves behind them, the rest
    of the buffer, the file, the volume and the other table entries stay. *)
Theorem rwblock_read_correct fuel v (s : system S) fd t cs count buffer fnp0 :
  bc_reliable (primary := primary) -> mounted (primary := primary) cf p g v (below s) ->
  layout_ok (primary := primary) g v -> data_area g -> (Z.to_nat (max_cluster g) <= steps)%nat ->
  128 <= Z.of_nat steps -> 0 <= count < 65536 -> count <= Z.of_nat fuel -> count <= Z.of_nat (length buffer) ->
  0 <= fd < 255 -> idx_to_sft fd s = Some t -> file_open p g v t cs ->
  let n := readable (sft_size t) (sft_posit t) count in
  exists fnp s' t', rwblock cf steps fuel fd buffer count XFR_READ fnp0 s =
      Some (n, file_part_of g v cs (sft_posit t) n ++ drop (Z.to_nat n) buffer, fnp, s') /\
    evolves cf p g v (below s) v (below s') /\ idx_to_sft fd s' = Some t' /\ file_open p g v t' cs /\
    sft_posit t' = sft_posit t + n /\ sft_size t' = sft_size t /\ other_entries fd s s'.
Proof. intros Hrel. by apply (rwblock_read_spec cf steps p g Hrel fuel v). Qed.

(** C1: writing to an open file puts the bytes at its position, extending the
    file and its chain of clusters as needed; all of them, unless the volume is
    full, when the number says how many.  No other data block of the volume
    changes, and no FAT entry but those of the file and of free clusters it took.
    The table entry follows, and so do the other open instances of the file. *)
Theorem rwblock_write_correct fuel v (s : system S) fd t cs count buffer fnp0 :
  bc_reliable (primary := primary) -> mounted (primary := primary) cf p g v (below s) ->
  layout_ok (primary := primary) g v -> data_area g -> 128 <= Z.of_nat steps ->
  max_cluster g + (sft_posit t + count) / 512 <= Z.of_nat steps ->
  1 <= count < 65536 -> sft_posit t + count < 4294967296 -> count <= Z.of_nat fuel -> count <= Z.of_nat (length buffer) ->
  bytes buffer -> 0 <= fd < 255 -> idx_to_sft fd s = Some t -> file_open p g v t cs ->
  exists n fnp s' t' v' news, rwblock cf steps fuel fd buffer count XFR_WRITE fnp0 s = Some (n, buffer, fnp, s') /\
    0 <= n <= count /\ (n = count \/ none_free g v') /\
    wrote (primary := primary) cf p g v (below s) v' (below s') cs (cs ++ news) (Z.to_nat (sft_posit t))
      (take (Z.to_nat n) buffer) /\
    idx_to_sft fd s' = Some t' /\ file_open p g v' t' (cs ++ news) /\ sft_written t t' n /\
    others_kept fd fnp s s' /\ (n = count -> others_told g fd fnp s s').
Proof. intros Hrel. by apply (rwblock_write_spec cf steps p g Hrel fuel v). Qed.

(** C37: writing no bytes cuts the file at its position: the clusters behind it are
    free, the chain ends before them and this is on the medium, the bytes before
    the position stay.  The other open instances of the file are not told. *)
Theorem rwblock_cut_correct fuel v (s : system S) fd t cs buffer fnp0 :
  bc_reliable (primary := primary) -> mounted (primary := primary) cf p g v (below s) ->
  layout_ok (primary := primary) g v -> (Z.to_nat (max_cluster g) <= steps)%nat -> 0 <= fd < 255 ->
  idx_to_sft fd s = Some t -> file_open p g v t cs -> sft_posit t <= sft_size t ->
  let k := clusters_for g (sft_posit t) in
  exists fnp s' t' v', rwblock cf steps fuel fd buffer 0 XFR_WRITE fnp0 s = Some (0, buffer, fnp, s') /\
    evolves cf p g v (below s) v' (below s') /\ file_open p g v' t' (take k cs) /\
    (forall m, fat_at g v' m = if decide (m ∈ drop k cs) then FREE
                               else if decide ((0 < k)%nat /\ cs !! (k - 1)%nat = Some m) then LONG_LAST_CLUSTER
                               else fat_at g v m) /\
    file_bytes g v' (take k cs) = file_bytes g v (take k cs) /\ sft_posit t' = sft_posit t /\ sft_size t' = sft_posit t /\
    (drop k cs <> [] -> durable (primary := primary) g v' (below s')) /\
    idx_to_sft fd s' = Some t' /\ other_entries fd s s'.
Proof. intros Hrel. by apply (rwblock_cut_spec cf steps p g Hrel fuel v). Qed.

(** C3: opening a file by its path, for reading or writing as it exists: the table
    entry gets what the directory entry found says, at position 0 and marked as
    not written to, as long as no other table entry has the file open for writing where
    SHARE is installed ([only_reader]); file not found when the directory has no such entry;
    access denied for a directory, a label, or writing to a read-only file. *)
Theorem dos_open_correct `{!DosState S} ents v (s : system S) fd t drv dirs x dcs0 c dcs flags attrib fnp0 :
  bc_reliable (primary := primary) -> mounted (primary := primary) cf p g v (below s) ->
  layout_ok (primary := primary) g v -> (Z.to_nat (max_cluster g) <= steps)%nat -> 65536 <= Z.of_nat ents ->
  0 <= fd < 255 -> idx_to_sft fd s = Some t ->
  get_dpb (drv - ch "A") (below s) = Some p -> Forall comp_ok dirs -> comp_ok x ->
  resolves g v (root g) dcs0 (map fcb dirs) (Some (c, dcs)) ->
  Z.land flags O_TRUNC = 0 -> Z.land flags O_CREAT = 0 -> Z.land flags O_OPEN <> 0 -> Z.land flags O_FCB = 0 ->
  exists k rc fnp s', dos_open cf steps ents (full_path drv (dirs ++ [x])) flags attrib fd fnp0 s = Some (rc, fnp, s') /\
    evolves cf p g v (below s) v (below s') /\ other_entries fd s s' /\ same_process s s' /\
    first_entry (nth_entry g v c dcs) (file_match (fcb x) (Z.lor D_ALL attrib)) 0 k /\
    match nth_entry g v c dcs k with
    | Some e =>
        if occupied e then
          if open_denied flags e then rc = DE_ACCESS /\ sfthead s' = sfthead s
          else exists sl, dir_slot g c dcs k = Some sl /\
            (only_reader p fd sl s -> rc = S_OPENED /\ exists t', idx_to_sft fd s' = Some t' /\ just_opened g t t' e sl /\
               (forall cs, entry_file g v e cs -> file_open p g v t' cs) /\ (dirent_ok e -> sft_ok t'))
        else rc = DE_FILENOTFND /\ sfthead s' = sfthead s
    | None => rc = DE_FILENOTFND /\ sfthead s' = sfthead s
    end.
Proof. intros Hrel. by apply (dos_open_spec cf steps ents p g Hrel). Qed.

(** C4: closing a file that was written to, or whose time was set: its directory
    entry on the medium gets the name, attributes, time, first cluster and size of
    the table entry and keeps its other fields; every other entry of every
    directory, the FAT and the other data stay.  Without a change nothing is
    written but what the cache still holds. *)
Theorem dos_close_correct `{!DosState S} v (s : system S) fd t cs c dcs k old fnp0 :
  bc_reliable (primary := primary) -> clock_ok (primary := primary) cf p g ->
  mounted (primary := primary) cf p g v (below s) -> layout_ok (primary := primary) g v ->
  0 <= fd < 255 -> idx_to_sft fd s = Some t -> file_open p g v t cs -> sft_ok t ->
  dir_chain g v c dcs -> 0 <= k -> dir_slot g c dcs k = Some (sft_dirsector t, sft_diridx t) ->
  dir_entry g v c dcs k = Some old ->
  exists fnp v' s' time date, dos_close cf fd fnp0 s = Some (SUCCESS, fnp, s') /\
    mounted (primary := primary) cf p g v' (below s') /\ layout_ok (primary := primary) g v' /\
    (forall m, fat_at g v' m = fat_at g v m) /\
    (forall n, primary (dpb_unit g) n -> bc_disk (primary := primary) (below s') (dpb_unit g) n = v' (dpb_unit g) n) /\
    (is_clean t || is_dated t = true -> time = sft_time t /\ date = sft_date t) /\
    (forall c' dcs' j, dir_chain g v c' dcs' -> 0 <= j ->
       dir_entry g v' c' dcs' j =
         if untouched t then dir_entry g v c' dcs' j
         else match dir_slot g c' dcs' j with
              | Some sl => if decide (sl = (sft_dirsector t, sft_diridx t)) then Some (entry_of_sft g t time date old)
                           else dir_entry g v c' dcs' j
              | None => None
              end) /\
    (forall n, data_block (primary := primary) g n -> n <> sft_dirsector t -> v' (dpb_unit g) n = v (dpb_unit g) n) /\
    idx_to_sft fd s' = Some t /\ file_open p g v' t cs /\ others_kept fd (with_f_sft_idx fd fnp) s s' /\
    (is_clean t = false -> others_told g fd (with_f_sft_idx fd fnp) s s').
Proof. intros Hrel. by apply (dos_close_spec cf p g Hrel). Qed.

End properties.

(** ** The file README.TXT of the small volume, opened twice *)

Definition readme_sft (posit : Z) : sft :=
  Sft 1 O_RDWR 0x20 2 77 0 0 0 5 posit 0 4 2 (str "README  TXT") 3 0 0 3.

Definition small_system (posit : Z) : system (bio disk) := System dir_bio [[readme_sft posit; readme_sft 0]] true (init 0 0) 0 [].

Lemma readme_chain : chain dir_geom dir_image 3 [3].
Proof. split; [done|]. split; [by vm_compute|]. by vm_compute. Qed.

Lemma readme_open posit : 0 <= posit < 4294967296 -> file_open 77 dir_geom dir_image (readme_sft posit) [3].
Proof.
  intros Hp. split; cbn; [done| |lia|lia|by vm_compute]. right. split; [exact readme_chain|]. by split.
Qed.

Lemma dir_area : data_area dir_geom.
Proof. split; [split|]; vm_compute; congruence. Qed.

(** How many bytes a call has moved. *)
Definition moved_bytes {A B C} (r : option (Z * A * B * C)) : option Z :=
  match r with Some (n, _, _, _) => Some n | None => None end.

Lemma some_inj {A} {x y : A} : Some x = Some y -> x = y.
Proof. by intros [= ->]. Qed.

Lemma rwblock_read_correct_witness : exists fnp s',
  rwblock 5 200 10 0 (replicate 10 0) 10 XFR_READ sample_node (small_system 1) =
    Some (4, [101; 108; 108; 111] ++ replicate 6 0, fnp, s').
Proof.
  destruct (rwblock_read_correct (S := bio disk) (primary := dir_primary) 5 200 77 dir_geom 10 dir_image (small_system 1) 0
    (readme_sft 1) [3] 10 (replicate 10 0) sample_node dir_reliable dir_mounted dir_layout dir_area)
    as (fnp & s' & t' & E & _);
    [change (max_cluster dir_geom) with 3; lia|lia|lia|lia|by vm_compute|lia|reflexivity|by apply readme_open|].
  exists fnp, s'. etransitivity; [exact E|]. by vm_compute.
Defined.

Lemma rwblock_write_correct_witness : exists fnp s' t' v' news,
  rwblock 5 200 10 0 [112; 33; 33] 3 XFR_WRITE sample_node (small_system 4) = Some (3, [112; 33; 33], fnp, s') /\
  take 7 (file_bytes dir_geom v' ([3] ++ news)) = [72; 101; 108; 108; 112; 33; 33] /\
  idx_to_sft 0 s' = Some t' /\ sft_size t' = 7 /\ sft_posit t' = 7.
Proof.
  destruct (rwblock_write_correct (S := bio disk) (primary := dir_primary) 5 200 77 dir_geom 10 dir_image (small_system 4) 0
    (readme_sft 4) [3] 3 [112; 33; 33] sample_node dir_reliable dir_mounted dir_layout dir_area)
    as (n & fnp & s' & t' & v' & news & E & _ & _ & Hw & Ht & _ & He & _);
    [lia|by vm_compute|lia|by vm_compute|lia|by vm_compute|by repeat constructor|lia|reflexivity|by apply readme_open|].
  assert (n = 3) as ->.
  { assert (moved_bytes (rwblock 5 200 10 0 [112; 33; 33] 3 XFR_WRITE sample_node (small_system 4)) = Some 3) as E3
      by (by vm_compute). rewrite E in E3. exact (some_inj E3). }
  exists fnp, s', t', v', news. split; [exact E|].
  destruct He as [Ep [[? _]|Es] _ _ _]; [done|]. split; [|split; [exact Ht|]; split; [rewrite Es|rewrite Ep]; reflexivity].
  rewrite (wr_bytes _ _ _ _ _ _ _ _ _ _ _ Hw), (bytes_app dir_geom). vm_compute (file_bytes _ dir_image [3]). reflexivity.
Defined.

Lemma rwblock_cut_correct_witness : exists fnp s' t' v',
  rwblock 5 200 10 0 [] 0 XFR_WRITE sample_node (small_system 0) = Some (0, [], fnp, s') /\
  fat_at dir_geom v' 3 = FREE /\ idx_to_sft 0 s' = Some t' /\ sft_size t' = 0 /\
  find_sft (sfthead s') 1 = Some (readme_sft 0).
Proof.
  destruct (rwblock_cut_correct (S := bio disk) (primary := dir_primary) 5 200 77 dir_geom 10 dir_image (small_system 0) 0
    (readme_sft 0) [3] [] sample_node dir_reliable dir_mounted dir_layout)
    as (fnp & s' & t' & v' & E & _ & _ & Hf & _ & _ & Es & _ & Ht & Ho);
    [change (max_cluster dir_geom) with 3; lia|lia|reflexivity|by apply readme_open|by vm_compute|].
  exists fnp, s', t', v'. split; [exact E|]. split; [rewrite Hf; by vm_compute|]. split; [done|]. split; [done|].
  by rewrite Ho.
Defined.

(** A table entry before its file is opened, and one that was written to. *)
Definition blank_sft : sft := Sft 1 O_RDWR 0x20 2 0 0 0 0 0 0 0 0 0 (replicate 11 0) 0 0 (-1) 0.
Definition blank_system : system (bio disk) := System dir_bio [[blank_sft]] false (init 0 0) 0 [].

Definition written_sft : sft := Sft 1 O_RDWR 0x21 2 77 0 0 0 3 3 0 4 2 (str "README  TXT") 3 0 0 3.
Definition written_system : system (bio disk) := System dir_bio [[written_sft]] false (init 0 0) 0 [].

Lemma dos_open_correct_witness : exists fnp s' t',
  dos_open 5 200 ENTS (str "C:\SUB\README.TXT") (Z.lor O_OPEN O_RDWR) 0 0 sample_node blank_system = Some (S_OPENED, fnp, s') /\
  idx_to_sft 0 s' = Some t' /\ sft_size t' = 5 /\ file_open 77 dir_geom dir_image t' [3].
Proof.
  destruct (dos_open_correct (S := bio disk) (primary := dir_primary) 5 200 77 dir_geom ENTS dir_image blank_system 0 blank_sft
    (ch "C") [sub] readme [] 2 [2] (Z.lor O_OPEN O_RDWR) 0 sample_node dir_reliable dir_mounted dir_layout)
    as (k & rc & fnp & s' & E & _ & _ & _ & Hf & Hr);
    [change (max_cluster dir_geom) with 3; lia|exact ENTS_enough|lia|reflexivity|reflexivity|constructor; [apply sub_ok|constructor]
    |apply sub_ok|exact sub_resolves|reflexivity|reflexivity|by vm_compute|reflexivity|].
  assert (k = 2) as ->.
  { eapply first_entry_unique; [exact Hf|]. apply first_entry_check; [lia|by vm_compute|by vm_compute]. }
  assert (nth_entry dir_geom dir_image 2 [2] 2 = Some readme_entry) as Ee by (by vm_compute).
  rewrite Ee in Hr. change (occupied readme_entry) with true in Hr.
  change (open_denied (Z.lor O_OPEN O_RDWR) readme_entry) with false in Hr. cbv iota in Hr.
  destruct Hr as (sl & _ & Hr). destruct Hr as (-> & t' & Ht & Hjo & Hfo & _); [intros Hs; discriminate Hs|].
  exists fnp, s', t'. split; [exact E|]. split; [exact Ht|]. split; [exact (jo_size _ _ _ _ _ Hjo)|].
  apply Hfo. split; [right; split; [exact readme_chain|done]|]. split; [vm_compute; by split|by vm_compute].
Defined.

Lemma sample_clock : clock_ok (S := bio disk) (primary := dir_primary) 5 77 dir_geom.
Proof.
  intros v s Hm. split; exists 0, s; (split; [reflexivity|]; split; [lia|]); by apply evolves_refl.
Qed.

Lemma dos_close_correct_witness : exists fnp v' s' e,
  dos_close 5 0 sample_node written_system = Some (SUCCESS, fnp, s') /\
  dir_entry dir_geom v' 2 [2] 2 = Some e /\ dir_size e = 3 /\ dir_attrib e = 0x21 /\
  dir_entry dir_geom v' 2 [2] 1 = Some dotdot_entry.
Proof.
  destruct (dos_close_correct (S := bio disk) (primary := dir_primary) 5 77 dir_geom dir_image written_system 0 written_sft [3]
    2 [2] 2 readme_entry sample_node dir_reliable sample_clock dir_mounted dir_layout)
    as (fnp & v' & s' & time & date & E & _ & _ & _ & _ & _ & He & _);
    [lia|reflexivity| | |exact sub_chain|lia|by vm_compute|by vm_compute|].
  - split; cbn; [done| |lia|lia|by vm_compute]. right. split; [exact readme_chain|]. by split.
  - split; [|unfold is_byte; cbn; lia|cbn; lia|cbn; lia|cbn; lia]. split; [done|].
    by repeat (constructor; [by vm_compute|]).
  - exists fnp, v', s'. eexists. split; [exact E|]. split; [|split; [|split]].
    + rewrite He by (exact sub_chain || lia). reflexivity.
    + reflexivity.
    + reflexivity.
    + rewrite He by (exact sub_chain || lia). by vm_compute.
Defined.
