(* ===== verification/Chario.v ===== *)
(** * Requests to character devices ([kernel/chario.c])

    A request carries a command, a count and a transfer area; the area has the
    type [T] of what the device transfers.  The device driver and the critical
    error handler are the class [CharDevice]. *)

From S2P Require Import Prelude Hdr.

(** [char_execrh] gets the command, the count and the transfer area and returns
    the status, the count and the area; [None] is a driver that never answers. *)
Class CharDevice (T D : Type) := {
  char_execrh : Z -> Z -> T -> D -> option (Z * Z * T * D);
  char_error : Z -> D -> Z * D }.

(** hdr/device.h:35-35 *)
Definition S_ERROR : Z := 0x8000.
(** hdr/device.h:37-37 *)
Definition S_DONE : Z := 0x0100.
(** hdr/device.h:102-102 *)
Definition failure (x : Z) : Z := S_ERROR + S_DONE + x.

Definition is_error (status : Z) : bool := negb (Z.land status S_ERROR =? 0).

Section requests.
  Context {T D : Type} `{!CharDevice T D}.

(** The fields of the request header that outlive the call, and the area. *)
Record char_request := CharReq {
  r_status : Z;
  r_count : Z;
  r_trans : T }.

(** The loop over the answers of the critical error handler: the return value of
    [CharRequest] and [r_count].
    kernel/chario.c:50-62 *)
Fixpoint error_loop (fuel : nat) (status count : Z) (d : D) : option (Z * Z * D) :=
  match fuel with
  | O => None
  | S fuel' =>
      let '(answer, d) := char_error status d in
      if (answer =? ABORT) || (answer =? FAIL) then Some (DE_INVLDACC, count, d)
      else if answer =? CONTINUE then Some (0, 0, d)
      else if answer =? RETRY then Some (1, count, d)
      else error_loop fuel' status count d
  end.

(** kernel/chario.c:40-65 *)
Definition CharRequest (fuel : nat) (command count : Z) (trans : T) (d : D)
    : option (Z * char_request * D) :=
  let* (status, count, trans, d) := char_execrh command count trans d in
  if is_error status then
    let* (err, count, d) := error_loop fuel status count d in
    Some (err, CharReq status count trans, d)
  else Some (SUCCESS, CharReq status count trans, d).

(** kernel/chario.c:67-78 *)
Fixpoint BinaryCharIO (fuel : nat) (n : Z) (bp : T) (command : Z) (d : D)
    : option (Z * char_request * D) :=
  match fuel with
  | O => None
  | S fuel' =>
      let* (err, rq, d) := CharRequest fuel command n bp d in
      if err =? 1 then BinaryCharIO fuel' n (r_trans rq) command d
      else Some (if err =? SUCCESS then r_count rq else err, rq, d)
  end.

End requests.
Arguments char_request : clear implicits.
