(* ===== verification/Lineedit.v ===== *)
(** * Buffered input ([kernel/chario.c])

    [read_line] edits a line with the keys of a terminal, and [read_line_handle]
    hands it out in pieces.  The terminal is the class [Terminal]; [Console] gives
    the one of the kernel. *)

From S2P Require Import Prelude.

(** kernel/globals.h:122-122 *)
Definition CTL_F : Z := 0x06.
(** kernel/globals.h:123-123 *)
Definition BELL : Z := 0x07.
(** kernel/globals.h:124-124 *)
Definition BS : Z := 0x08.
(** kernel/globals.h:125-125 *)
Definition HT : Z := 0x09.
(** kernel/globals.h:126-126 *)
Definition LF : Z := 0x0a.
(** kernel/globals.h:127-127 *)
Definition CR : Z := 0x0d.
(** kernel/globals.h:131-131 *)
Definition CTL_Z : Z := 0x1a.
(** kernel/globals.h:132-132 *)
Definition ESC : Z := 0x1b.
(** kernel/globals.h:133-133 *)
Definition CTL_BS : Z := 0x7f.
(** kernel/globals.h:135-135 *)
Definition INS : Z := 0x5200.
(** kernel/globals.h:136-136 *)
Definition DEL : Z := 0x5300.
(** kernel/globals.h:138-138 *)
Definition F1 : Z := 0x3b00.
(** kernel/globals.h:139-139 *)
Definition F2 : Z := 0x3c00.
(** kernel/globals.h:140-140 *)
Definition F3 : Z := 0x3d00.
(** kernel/globals.h:141-141 *)
Definition F4 : Z := 0x3e00.
(** kernel/globals.h:142-142 *)
Definition F5 : Z := 0x3f00.
(** kernel/globals.h:143-143 *)
Definition F6 : Z := 0x4000.
(** kernel/globals.h:144-144 *)
Definition LEFT : Z := 0x4b00.
(** kernel/globals.h:145-145 *)
Definition RIGHT : Z := 0x4d00.
(** hdr/kbd.h:38-38 *)
Definition LINEBUFSIZECON : Z := 128.
(** hdr/kbd.h:40-40 *)
Definition LINEBUFSIZE0A : Z := 256.

(** ** Calls that a break ends

    A call on the console is done, or the user has pressed Ctrl-Break: then the
    kernel leaves it for the program's handler and never comes back to it. *)

Inductive outcome (D A : Type) :=
  | Done (a : A) (d : D)
  | Broken (d : D)
  | Stuck.
Arguments Done {D A} a d.
Arguments Broken {D A} d.
Arguments Stuck {D A}.

Definition obind {D A B} (r : outcome D A) (f : A -> D -> outcome D B) : outcome D B :=
  match r with Done a d => f a d | Broken d => Broken d | Stuck => Stuck end.

Notation "'let!' ( a , d ) ':=' e 'in' k" := (obind e (fun a d => k))
  (at level 10, a pattern, d pattern, e at level 200, k at level 200) : c_scope.

(** [Stuck] is a call that never ends, or a stray access. *)
Definition lift {D A} (r : option (A * D)) : outcome D A :=
  match r with Some (a, d) => Done a d | None => Stuck end.
Definition lift_at {D A} (r : option A) (d : D) : outcome D A :=
  match r with Some a => Done a d | None => Stuck end.

(** ** The terminal

    Reading a character with the test for a break ([sft_in], [sft_out]), writing
    one, and the column of the cursor. *)
Class Terminal (D : Type) := {
  t_read : Z -> Z -> D -> outcome D Z;
  t_write : Z -> Z -> D -> outcome D unit;
  t_scr_pos : D -> Z }.

(** The column behind a character that takes [count] columns.
    kernel/chario.c:162-175 *)
Definition next_pos (c count pos : Z) : Z :=
  if c =? CR then 0
  else if c =? BS then if 0 <? pos then pos - 1 else pos
  else if negb (c =? LF) && negb (c =? BELL) then u8 (pos + count)
  else pos.

(** hdr/kbd.h:43-47 *)
Record keyboard := Keyboard {
  kb_size : Z;
  kb_count : Z;
  kb_buf : list Z }.

(** [local_buffer] has 128 bytes of its own; its second half is the memory of the
    default buffer [kb_buf] that follows: its size, its count and its characters.
    kernel/kernel.asm:438-444 *)
Record line_memory := LineMem {
  local_buffer : list Z;
  con_buf : list Z }.

Definition con_keyboard (m : line_memory) : option keyboard :=
  match con_buf m with size :: count :: buf => Some (Keyboard size count buf) | _ => None end.
Definition set_con (kp : keyboard) (m : line_memory) : line_memory :=
  LineMem (local_buffer m) (kb_size kp :: kb_count kp :: kb_buf kp).

(** A store at an index of [local_buffer]. *)
Definition store (i c : Z) (m : line_memory) : option line_memory :=
  if i <? 128 then let* l := set_at i c (local_buffer m) in Some (LineMem l (con_buf m))
  else let* l := set_at (i - 128) c (con_buf m) in Some (LineMem (local_buffer m) l).
Definition line (count : Z) (m : line_memory) : list Z := take (Z.to_nat count) (local_buffer m ++ con_buf m).

(** [kp->kb_buf], the size of the stored line, [local_buffer] with [count], the
    position in the stored line, and the insert mode. *)
Record editor := Editor {
  e_buf : list Z;
  e_stored : Z;
  e_mem : line_memory;
  e_count : Z;
  e_pos : Z;
  e_insert : bool }.

Definition with_pos p (st : editor) : editor :=
  Editor (e_buf st) (e_stored st) (e_mem st) (e_count st) p (e_insert st).
Definition with_count n (st : editor) : editor :=
  Editor (e_buf st) (e_stored st) (e_mem st) n (e_pos st) (e_insert st).
Definition with_insert i (st : editor) : editor :=
  Editor (e_buf st) (e_stored st) (e_mem st) (e_count st) (e_pos st) i.
Definition with_stored buf n (st : editor) : editor :=
  Editor buf n (e_mem st) (e_count st) (e_pos st) (e_insert st).

Section editing.
  Context {D : Type} `{!Terminal D} (fuel : nat) (sft_in sft_out : Z).

(** kernel/chario.c:252-252 *)
Definition iscntrl (c : Z) : bool := u8 c <? 32.

Fixpoint write_all (l : list Z) (d : D) : outcome D unit :=
  match l with
  | [] => Done tt d
  | c :: l => let! (_, d) := t_write c sft_out d in write_all l d
  end.

(** kernel/chario.c:255-265 *)
Definition echo_char (c : Z) (d : D) : outcome D Z :=
  if iscntrl c && negb (c =? HT) && negb (c =? LF) && negb (c =? CR) then
    let! (_, d) := write_all [ch "^"; c + ch "@"] d in Done c d
  else
    let! (_, d) := write_all [c] d in Done c d.

(** kernel/chario.c:267-272 *)
Definition destr_bs (d : D) : outcome D unit := write_all [BS; ch " "; BS] d.

(** [local_buffer[count++] = echo_char(c, sft_out)] *)
Definition add_char (c : Z) (st : editor) (d : D) : outcome D editor :=
  let! (c, d) := echo_char c d in
  let! (m, d) := lift_at (store (e_count st) (u8 c) (e_mem st)) d in
  Done (Editor (e_buf st) (e_stored st) m (e_count st + 1) (e_pos st) (e_insert st)) d.

(** The next character of the stored line, if it and the space are there.
    kernel/chario.c:396-400 *)
Definition recall_one (size : Z) (st : editor) (d : D) : outcome D editor :=
  if e_count st <? size - 1 then
    let! (c, d) := lift_at (at_ (e_buf st) (e_pos st)) d in
    add_char c (with_pos (e_pos st + 1) st) d
  else Done st d.

(** The loop up to [new_pos].
    kernel/chario.c:424-425 *)
Fixpoint recall (n : nat) (size : Z) (st : editor) (d : D) : outcome D editor :=
  match n with
  | O => Done st d
  | S n => let! (st, d) := recall_one size st d in recall n size st d
  end.

(** kernel/chario.c:422-427 *)
Definition recall_to (copy : bool) (size new_pos : Z) (st : editor) (d : D) : outcome D editor :=
  let! (st, d) := if copy then recall (Z.to_nat (new_pos - e_pos st)) size st d else Done st d in
  Done (with_pos new_pos st) d.

(** The position up to which F2 and F4 go: the search takes as many bytes as
    [stored_size - stored_pos] is as an unsigned number.
    kernel/chario.c:404-419 *)
Definition search_pos (st : editor) (d : D) : outcome D Z :=
  let! (c2, d) := t_read sft_in sft_out d in
  if c2 =? 0 then
    let! (_, d) := t_read sft_in sft_out d in Done (e_pos st) d
  else
    let n := Z.to_nat (u16 (e_stored st - e_pos st)) in
    let rest := drop (Z.to_nat (e_pos st)) (e_buf st) in
    match list_find (fun c => c = u8 c2) (take n rest) with
    | Some (i, _) => Done (Z.of_nat i + 1) d
    | None => if (length rest <? n)%nat then Stuck else Done (e_pos st) d
    end.

(** The column behind the characters of a line.
    kernel/chario.c:454-463 *)
Fixpoint column (l : list Z) (pos : Z) : Z :=
  match l with
  | [] => pos
  | c :: l => column l (if c =? HT then Z.land (pos + 8) (Z.lnot 7) else if iscntrl c then pos + 2 else pos + 1)
  end.

(** The loop that clears a tab.
    kernel/chario.c:464-466 *)
Fixpoint clear_to (fuel : nat) (new_pos : Z) (d : D) : outcome D unit :=
  match fuel with
  | O => Stuck
  | S fuel =>
      let! (_, d) := destr_bs d in
      if new_pos <? t_scr_pos d then clear_to fuel new_pos d else Done tt d
  end.

(** kernel/chario.c:444-477 *)
Definition backspace (cu_pos : Z) (st : editor) (d : D) : outcome D editor :=
  let! (st, d) :=
    if 0 <? e_count st then
      let st := with_count (e_count st - 1) st in
      let! (c2, d) := lift_at (at_ (local_buffer (e_mem st) ++ con_buf (e_mem st)) (e_count st)) d in
      let! (_, d) :=
        if c2 =? HT then clear_to fuel (column (line (e_count st) (e_mem st)) cu_pos) d
        else
          let! (_, d) := if iscntrl c2 then destr_bs d else Done tt d in
          destr_bs d in
      Done st d
    else Done st d in
  Done (if 0 <? e_pos st then with_pos (e_pos st - 1) st else st) d.

(** kernel/chario.c:481-489 *)
Definition start_new_line (cu_pos : Z) (st : editor) (d : D) : outcome D editor :=
  let! (_, d) := write_all (CR :: LF :: replicate (Z.to_nat cu_pos) (ch " ")) d in
  Done (Editor (e_buf st) (e_stored st) (e_mem st) 0 0 false) d.

(** kernel/chario.c:495-502 *)
Definition typed_char (size c : Z) (st : editor) (d : D) : outcome D editor :=
  let! (st, d) :=
    if (e_count st <? size - 1) || (c =? CR) then add_char c st d
    else let! (_, d) := write_all [BELL] d in Done st d in
  Done (if (e_pos st <? e_stored st) && negb (e_insert st) then with_pos (e_pos st + 1) st else st) d.

(** One key.
    kernel/chario.c:382-503 *)
Definition edit (size cu_pos : Z) (first : bool) (c : Z) (st : editor) (d : D) : outcome D editor :=
  if c =? LF then
    if first then Done st d else let! (_, d) := write_all [CR; LF] d in Done st d
  else if c =? CTL_F then Done st d
  else if (c =? RIGHT) || (c =? F1) then
    if e_pos st <? e_stored st then recall_one size st d else Done st d
  else if (c =? F2) || (c =? F4) then
    let! (new_pos, d) := search_pos st d in
    recall_to (negb (c =? F4)) size new_pos st d
  else if c =? F3 then recall_to true size (e_stored st) st d
  else if c =? F5 then
    let l := line (e_count st) (e_mem st) in
    let st := with_stored (l ++ drop (length l) (e_buf st)) (e_count st) st in
    let! (_, d) := write_all [ch "@"] d in
    start_new_line cu_pos st d
  else if c =? INS then Done (with_insert (negb (e_insert st)) st) d
  else if c =? DEL then Done (with_pos (u16 (e_pos st + 1)) st) d
  else if (c =? LEFT) || (c =? CTL_BS) || (c =? BS) then backspace cu_pos st d
  else if c =? ESC then
    let! (_, d) := write_all [ch "\"] d in
    start_new_line cu_pos st d
  else typed_char size (if c =? F6 then CTL_Z else c) st d.

(** A key: a character, or a NUL and a second character.
    kernel/chario.c:379-381 *)
Definition read_key (d : D) : outcome D Z :=
  let! (c, d) := t_read sft_in sft_out d in
  if c =? 0 then let! (c, d) := t_read sft_in sft_out d in Done (u16 (Z.shiftl c 8)) d
  else Done c d.

(** kernel/chario.c:375-505 *)
Fixpoint edit_loop (fuel : nat) (size cu_pos : Z) (first : bool) (st : editor) (d : D) : outcome D editor :=
  match fuel with
  | O => Stuck
  | S fuel =>
      let! (c, d) := read_key d in
      let! (st, d) := edit size cu_pos first c st d in
      if c =? CR then Done st d else edit_loop fuel size cu_pos false st d
  end.

(** The buffer of the caller and the memory of the kernel after the call.
    kernel/chario.c:360-513 *)
Definition read_line (kp : keyboard) (m : line_memory) (d : D) : outcome D (keyboard * line_memory) :=
  if kb_size kp =? 0 then Done (kp, m) d
  else
    let! (last, d) := lift_at (at_ (kb_buf kp) (kb_count kp)) d in
    let stored := if last =? CR then kb_count kp else 0 in
    let! (st, d) := edit_loop fuel (kb_size kp) (t_scr_pos d) true (Editor (kb_buf kp) stored m 0 0 false) d in
    let l := line (e_count st) (e_mem st) in
    let m := e_mem st in
    let m :=
      if LINEBUFSIZECON <? e_count st
      then LineMem (local_buffer m) (match con_buf m with _ :: r => 0 :: r | [] => [] end) else m in
    Done (Keyboard (kb_size kp) (u8 (e_count st - 1)) (l ++ drop (length l) (e_buf st)), m) d.

End editing.

(** Reading by handle: the line of the default buffer, from [inputptr] on (an
    offset in the buffer, when it is not null).  The result is what was copied.
    kernel/chario.c:516-547 *)
Definition read_line_handle {D} `{!Terminal D} (fuel : nat) (sft_idx n : Z) (inputptr : option Z) (m : line_memory) (d : D)
    : outcome D (list Z * option Z * line_memory) :=
  let! (im, d) :=
    match inputptr with
    | Some i => Done (Some i, m) d
    | None =>
        let! (kp, d) := lift_at (con_keyboard m) d in
        let kp := if kb_size kp =? LINEBUFSIZECON then kp else Keyboard LINEBUFSIZECON 0 (kb_buf kp) in
        let! (r, d) := read_line fuel sft_idx sft_idx kp (set_con kp m) d in
        let '(kp, m) := r in
        let! (c, d) := echo_char sft_idx LF d in
        let! (buf, d) := lift_at (set_at (kb_count kp + 1) (u8 c) (kb_buf kp)) d in
        let m := set_con (Keyboard (kb_size kp) (kb_count kp) buf) m in
        let! (first, d) := lift_at (at_ buf 0) d in
        Done (if first =? CTL_Z then None else Some 0, m) d
    end in
  let '(inputptr, m) := im in
  match inputptr with
  | None => Done ([], None, m) d
  | Some i =>
      let! (kp, d) := lift_at (con_keyboard m) d in
      let chars_left := u16 (kb_count kp + 2 - i) in
      let n := if chars_left <? n then chars_left else n in
      Done (take (Z.to_nat n) (drop (Z.to_nat i) (kb_buf kp)), if n =? chars_left then None else Some (i + n), m) d
  end.
