(* ===== verification/LineeditThms.v ===== *)
(** * Buffered input: a reference editor, and the properties *)

From S2P Require Import Prelude Lineedit.

(** ** A terminal that works *)

(** The characters that will be read; writing always succeeds and moves the
    cursor. *)
Class TerminalLaws (D : Type) `{!Terminal D} := {
  tl_keys : D -> list Z;
  tl_read si so d c r : tl_keys d = c :: r -> exists d', t_read si so d = Done c d' /\ tl_keys d' = r;
  tl_write c so d : exists d', t_write c so d = Done tt d' /\ tl_keys d' = tl_keys d /\
    (c <> HT -> t_scr_pos d' = next_pos c 1 (t_scr_pos d));
  tl_pos d : 0 <= t_scr_pos d < 256 }.

(** ** The reference

    The line typed so far, the line of before with a position in it, and the
    insert mode. *)
Record typing := Typing {
  y_line : list Z;
  y_old : list Z;
  y_pos : Z;
  y_ins : bool }.

Definition y_with_pos p (y : typing) : typing := Typing (y_line y) (y_old y) p (y_ins y).

(** The old line from the position on, as far as there is room. *)
Definition y_recall (n : nat) (size : Z) (y : typing) : typing :=
  let l := take (Z.to_nat (size - 1) - length (y_line y)) (take n (drop (Z.to_nat (y_pos y)) (y_old y))) in
  Typing (y_line y ++ l) (y_old y) (y_pos y + Z.of_nat (length l)) (y_ins y).

Definition type_key (size c : Z) (y : typing) : typing :=
  let skip := if (y_pos y <? Z.of_nat (length (y_old y))) && negb (y_ins y) then y_pos y + 1 else y_pos y in
  let c := if c =? F6 then CTL_Z else c in
  if (Z.of_nat (length (y_line y)) <? size - 1) || (c =? CR)
  then Typing (y_line y ++ [u8 c]) (y_old y) skip (y_ins y)
  else y_with_pos skip y.

Definition edit_key (size c : Z) (y : typing) : typing :=
  if (c =? LF) || (c =? CTL_F) then y
  else if (c =? RIGHT) || (c =? F1) then y_recall 1 size y
  else if c =? F3 then
    let old := y_old y in y_with_pos (Z.of_nat (length old)) (y_recall (length old) size y)
  else if c =? F5 then Typing [] (y_line y) 0 false
  else if c =? INS then Typing (y_line y) (y_old y) (y_pos y) (negb (y_ins y))
  else if c =? DEL then y_with_pos (u16 (y_pos y + 1)) y
  else if (c =? LEFT) || (c =? CTL_BS) || (c =? BS) then
    Typing (removelast (y_line y)) (y_old y) (if 0 <? y_pos y then y_pos y - 1 else y_pos y) (y_ins y)
  else if c =? ESC then Typing [] (y_old y) 0 false
  else type_key size c y.

(** Keys up to the end of the line. *)
Definition edit_keys (size : Z) (ks : list Z) (y : typing) : typing := foldl (fun y c => edit_key size c y) y ks.

(** How a key comes from the terminal. *)
Definition key_codes (c : Z) : list Z := if c <? 256 then [c] else [0; c / 256].
Definition is_key (c : Z) : Prop := 0 < c < 256 \/ (256 <= c < 65536 /\ c mod 256 = 0).

(** ** The memory *)

Definition mem_ok (m : line_memory) : Prop := length (local_buffer m) = 128%nat /\ (128 <= length (con_buf m))%nat.

Lemma store_line n c m : mem_ok m -> 0 <= n < 256 ->
  exists m', store n c m = Some m' /\ mem_ok m' /\ line (n + 1) m' = line n m ++ [c].
Proof.
  intros [H1 H2] Hn. unfold store, line. destruct (Z.ltb_spec n 128).
  - unfold set_at. rewrite (proj2 (Z.leb_le _ _)), (proj2 (Z.ltb_lt _ _)) by lia. cbn [andb].
    eexists. split; [done|]. split; [split; cbn; [by rewrite length_insert|done]|]. cbn [local_buffer con_buf].
    replace (Z.to_nat (n + 1)) with (Datatypes.S (Z.to_nat n)) by lia. rewrite <- insert_app_l by lia.
    rewrite (take_S_r _ _ c).
    + by rewrite take_insert_ge by lia.
    + apply list_lookup_insert_eq. rewrite length_app. lia.
  - unfold set_at. rewrite (proj2 (Z.leb_le 0 _)), (proj2 (Z.ltb_lt _ _)) by lia. cbn [andb].
    eexists. split; [done|]. split; [split; cbn; [done|by rewrite length_insert]|]. cbn [local_buffer con_buf].
    replace (Z.to_nat (n + 1)) with (Datatypes.S (Z.to_nat n)) by lia.
    replace (Z.to_nat (n - 128)) with (Z.to_nat n - length (local_buffer m))%nat by lia. rewrite <- insert_app_r_alt by lia.
    rewrite (take_S_r _ _ c).
    + by rewrite take_insert_ge by lia.
    + apply list_lookup_insert_eq. rewrite length_app. lia.
Qed.

Lemma line_length n m : mem_ok m -> 0 <= n <= 256 -> Z.of_nat (length (line n m)) = n.
Proof. intros [H1 H2] Hn. unfold line. rewrite length_take, length_app. lia. Qed.

Section editing.
  Context {D : Type} `{!Terminal D, !TerminalLaws D} (fuel : nat) (sft_in sft_out : Z).

Lemma column_pos l : forall p, 0 <= p -> 0 <= column l p.
Proof.
  induction l as [|c l IH]; intros p Hp; [done|]. cbn. apply IH. destruct (c =? HT).
  - change 7 with (Z.ones 3). rewrite <- Z.ldiff_land, Z.ldiff_ones_r, Z.shiftr_div_pow2, Z.shiftl_mul_pow2 by lia.
    change (2 ^ 3) with 8. pose proof (Z.div_pos (p + 8) 8). lia.
  - destruct (iscntrl c); lia.
Qed.

(** ** Output *)

Lemma write_all_spec l : forall d, exists d', write_all sft_out l d = Done tt d' /\ tl_keys d' = tl_keys d.
Proof.
  induction l as [|c l IH]; intros d; [by exists d|]. cbn. destruct (tl_write c sft_out d) as (d1 & -> & Hk & _). cbn.
  destruct (IH d1) as (d2 & -> & Hk2). exists d2. split; [done|congruence].
Qed.

Lemma echo_char_spec c d : exists d', echo_char sft_out c d = Done c d' /\ tl_keys d' = tl_keys d.
Proof.
  unfold echo_char. destruct (_ && _); [destruct (write_all_spec [ch "^"; c + ch "@"] d) as (d' & -> & Hk)|
    destruct (write_all_spec [c] d) as (d' & -> & Hk)]; by exists d'.
Qed.

Lemma destr_bs_spec d : exists d', destr_bs sft_out d = Done tt d' /\ tl_keys d' = tl_keys d /\
  t_scr_pos d' = Z.max 0 (t_scr_pos d - 1).
Proof.
  unfold destr_bs. cbn [write_all]. pose proof (tl_pos d) as Hp.
  destruct (tl_write BS sft_out d) as (d1 & -> & K1 & P1). cbn [obind].
  destruct (tl_write (ch " ") sft_out d1) as (d2 & -> & K2 & P2). cbn [obind].
  destruct (tl_write BS sft_out d2) as (d3 & -> & K3 & P3). cbn [obind].
  exists d3. split; [done|]. split; [congruence|]. rewrite P3, P2, P1 by done. unfold next_pos.
  change (BS =? CR) with false. change (BS =? BS) with true. change (ch " " =? CR) with false. change (ch " " =? BS) with false.
  change (negb (ch " " =? LF) && negb (ch " " =? BELL)) with true. cbv iota.
  destruct (Z.ltb_spec 0 (t_scr_pos d)).
  - rewrite u8_id by lia. rewrite (proj2 (Z.ltb_lt _ _)) by lia. lia.
  - rewrite u8_id by lia. rewrite (proj2 (Z.ltb_lt _ _)) by lia. lia.
Qed.

Lemma clear_to_spec fuel' : forall new_pos d, 0 <= new_pos -> t_scr_pos d <= new_pos + Z.of_nat fuel' ->
  exists d', clear_to sft_out (S fuel') new_pos d = Done tt d' /\ tl_keys d' = tl_keys d.
Proof.
  induction fuel' as [|fuel' IH]; intros new_pos d Hn Hp; cbn [clear_to];
    destruct (destr_bs_spec d) as (d1 & -> & K1 & P1); cbn [obind].
  - rewrite (proj2 (Z.ltb_ge _ _)) by lia. by exists d1.
  - destruct (Z.ltb_spec new_pos (t_scr_pos d1)); [|by exists d1].
    destruct (IH new_pos d1) as (d2 & E & K2); [done|lia|]. exists d2. split; [exact E|congruence].
Qed.

(** ** The editor and the reference *)

Record follows (st : editor) (y : typing) : Prop := {
  f_mem : mem_ok (e_mem st);
  f_line : y_line y = line (e_count st) (e_mem st);
  f_count : 0 <= e_count st <= 255;
  f_old : y_old y = take (Z.to_nat (e_stored st)) (e_buf st);
  f_stored : 0 <= e_stored st <= Z.of_nat (length (e_buf st));
  f_pos : e_pos st = y_pos y;
  f_pos_ok : 0 <= e_pos st;
  f_ins : e_insert st = y_ins y;
  f_bytes : Forall (fun c => u8 c = c) (y_old y) /\ Forall (fun c => u8 c = c) (y_line y) }.

Lemma f_length st y : follows st y -> Z.of_nat (length (y_line y)) = e_count st /\ Z.of_nat (length (y_old y)) = e_stored st.
Proof.
  intros [H1 H2 H3 H4 H5 _ _ _ _]. rewrite H2, H4, line_length by (done || lia). split; [done|].
  rewrite length_take. lia.
Qed.

Lemma add_char_spec c st y d : follows st y -> e_count st < 255 ->
  exists st' d', add_char sft_out c st d = Done st' d' /\ tl_keys d' = tl_keys d /\
    follows st' (Typing (y_line y ++ [u8 c]) (y_old y) (y_pos y) (y_ins y)) /\ e_count st' = e_count st + 1 /\
    e_buf st' = e_buf st /\ e_stored st' = e_stored st.
Proof.
  intros [H1 H2 H3 H4 H5 H6 H7 H8 [H9 H10]] Hc. unfold add_char. destruct (echo_char_spec c d) as (d' & -> & Hk). cbn [obind].
  destruct (store_line (e_count st) (u8 c) (e_mem st) H1) as (m' & -> & Hm & Hl); [lia|]. cbn [lift_at obind].
  eexists _, d'. split; [done|]. split; [done|]. split; [|done]. split; cbn; try done; [by rewrite Hl, H2|lia|].
  split; [done|]. apply list.Forall_app. split; [done|]. constructor; [|constructor]. apply u8_id, u8_range.
Qed.

Lemma follows_pos st y p : follows st y -> 0 <= p -> follows (with_pos p st) (y_with_pos p y).
Proof. intros [] Hp. by split. Qed.

Lemma recall_spec size n : forall st y d, follows st y -> size <= 255 ->
  ((0 < n)%nat -> y_pos y + Z.of_nat n <= Z.of_nat (length (y_old y))) ->
  exists st' d', recall sft_out n size st d = Done st' d' /\ tl_keys d' = tl_keys d /\ follows st' (y_recall n size y) /\
    e_buf st' = e_buf st /\ e_stored st' = e_stored st.
Proof.
  induction n as [|n IH]; intros st y d Hf Hs Hn; cbn [recall].
  { exists st, d. split; [done|]. split; [done|]. split; [|done]. unfold y_recall. rewrite take_0, take_nil, app_nil_r. cbn. rewrite Z.add_0_r. by destruct y. }
  specialize (Hn ltac:(lia)). destruct (f_length _ _ Hf) as [L1 L2]. pose proof (f_pos _ _ Hf) as Hp. pose proof (f_pos_ok _ _ Hf) as Hp0.
  destruct (drop (Z.to_nat (y_pos y)) (y_old y)) as [|c rest] eqn:Edrop.
  { apply (f_equal length) in Edrop. rewrite length_drop in Edrop. cbn in Edrop. lia. }
  assert (y_old y !! Z.to_nat (y_pos y) = Some c) as Hc.
  { rewrite <- (Nat.add_0_r (Z.to_nat (y_pos y))), <- lookup_drop, Edrop. done. }
  assert (drop (Z.to_nat (y_pos y + 1)) (y_old y) = rest) as Edrop2.
  { replace (Z.to_nat (y_pos y + 1)) with (Z.to_nat (y_pos y) + 1)%nat by lia. by rewrite <- drop_drop, Edrop. }
  assert (u8 c = c) as Hu by (by apply (list.Forall_lookup_1 _ _ _ _ (proj1 (f_bytes _ _ Hf)) Hc)).
  unfold recall_one. destruct (Z.ltb_spec (e_count st) (size - 1)) as [Hlt|Hge].
  - assert (at_ (e_buf st) (e_pos st) = Some c) as ->.
    { unfold at_. rewrite Hp, (proj2 (Z.ltb_ge _ _)) by lia. rewrite (f_old _ _ Hf) in Hc. apply lookup_take_Some in Hc. apply Hc. }
    cbn [lift_at obind]. pose proof (follows_pos st y (e_pos st + 1) Hf ltac:(lia)) as Hf1.
    destruct (add_char_spec c _ _ d Hf1) as (st2 & d2 & -> & K2 & F2 & _ & B2 & B3); [cbn; lia|]. cbn [obind].
    destruct (IH st2 _ d2 F2 Hs) as (st3 & d3 & E3 & K3 & F3 & B4 & B5); [cbn; lia|].
    exists st3, d3. split; [exact E3|]. split; [congruence|]. cbn in B2, B3. split; [|by rewrite B4, B5].
    match goal with |- follows _ ?a => match type of F3 with follows _ ?b => assert (a = b) as -> end end; [|exact F3].
    unfold y_recall. cbn [y_line y_old y_pos y_ins y_with_pos]. rewrite Hp, Edrop, Edrop2, Hu. cbn [take].
    assert (Z.to_nat (size - 1) - length (y_line y) = S (Z.to_nat (size - 1) - length (y_line y ++ [c])))%nat as ->
      by (rewrite length_app; cbn; lia).
    cbn [take length]. f_equal; [by rewrite <- app_assoc|lia].
  - cbn [obind]. destruct (IH st y d Hf Hs) as (st3 & d3 & E3 & K3 & F3 & B4); [lia|]. exists st3, d3. split; [exact E3|].
    split; [done|]. split; [|exact B4]. unfold y_recall in *.
    assert (Z.to_nat (size - 1) - length (y_line y) = 0)%nat as E0 by lia. rewrite E0 in *. exact F3.
Qed.

Lemma backspace_spec cu_pos st y d : follows st y -> 0 <= cu_pos -> (256 < fuel)%nat ->
  exists st' d', backspace fuel sft_out cu_pos st d = Done st' d' /\ tl_keys d' = tl_keys d /\
    follows st' (Typing (removelast (y_line y)) (y_old y) (if 0 <? y_pos y then y_pos y - 1 else y_pos y) (y_ins y)) /\
    e_buf st' = e_buf st.
Proof.
  intros Hf Hcu Hfuel. destruct (f_length _ _ Hf) as [L1 L2]. pose proof Hf as [H1 H2 H3 H4 H5 H6 H7 H8 [H9 H10]].
  unfold backspace. destruct (Z.ltb_spec 0 (e_count st)) as [Hpos|Hz].
  - cbn [with_count e_mem e_count].
    assert (exists c, at_ (local_buffer (e_mem st) ++ con_buf (e_mem st)) (e_count st - 1) = Some c) as [c Hc].
    { unfold at_. rewrite (proj2 (Z.ltb_ge _ _)) by lia. apply lookup_lt_is_Some. rewrite length_app. destruct H1. lia. }
    rewrite Hc. cbn [lift_at obind].
    assert (exists d1, (if c =? HT then clear_to sft_out fuel (column (line (e_count st - 1) (e_mem st)) cu_pos) d
      else let! (_, d) := if iscntrl c then destr_bs sft_out d else Done tt d in destr_bs sft_out d) = Done tt d1 /\
      tl_keys d1 = tl_keys d) as (d1 & -> & K1).
    { destruct (c =? HT).
      - pose proof (column_pos (line (e_count st - 1) (e_mem st)) cu_pos Hcu).
        destruct fuel as [|fuel'] eqn:Ef; [lia|]. apply clear_to_spec; [done|]. pose proof (tl_pos d). lia.
      - destruct (iscntrl c).
        + destruct (destr_bs_spec d) as (d1 & -> & K1 & _). cbn [obind]. destruct (destr_bs_spec d1) as (d2 & -> & K2 & _).
          exists d2. split; [done|congruence].
        + cbn [obind]. destruct (destr_bs_spec d) as (d1 & -> & K1 & _). by exists d1. }
    cbn [obind with_count e_pos]. rewrite H6.
    eexists _, d1. split; [done|]. split; [done|].
    assert (removelast (y_line y) = line (e_count st - 1) (e_mem st)) as Erl.
    { rewrite H2. unfold line. replace (Z.to_nat (e_count st)) with (S (Z.to_nat (e_count st - 1))) by lia.
      unfold at_ in Hc. rewrite (proj2 (Z.ltb_ge _ _)) in Hc by lia. rewrite (take_S_r _ _ _ Hc). apply removelast_last. }
    assert (follows (with_count (e_count st - 1) st)
      (Typing (removelast (y_line y)) (y_old y) (y_pos y) (y_ins y))) as Hf1.
    { split; cbn; try done; [lia|]. split; [done|]. rewrite H2 in H10. rewrite Erl. unfold line in *.
      replace (Z.to_nat (e_count st - 1)) with (Nat.min (Z.to_nat (e_count st - 1)) (Z.to_nat (e_count st))) by lia.
      rewrite <- take_take. by apply Forall_take. }
    destruct (Z.ltb_spec 0 (y_pos y)) as [Hp|Hp]; cbn [e_count with_pos]; [|split; [exact Hf1|done]].
    split; [|done]. apply (follows_pos _ _ (y_pos y - 1) Hf1). lia.
  - cbn [obind]. exists (if 0 <? e_pos st then with_pos (e_pos st - 1) st else st), d. split; [done|]. split; [done|].
    assert (y_line y = []) as El by (destruct (y_line y); [done|cbn in L1; lia]). rewrite El. cbn [removelast]. rewrite H6.
    destruct (Z.ltb_spec 0 (y_pos y)) as [Hp|Hp]; cbn [e_count with_pos].
    + split; [|done]. pose proof (follows_pos _ _ (y_pos y - 1) Hf ltac:(lia)) as Hf1. unfold y_with_pos in Hf1. by rewrite El in Hf1.
    + split; [|done]. destruct y. cbn in *. by subst.
Qed.

Lemma new_line_spec cu_pos st y d : follows st y ->
  exists st' d', start_new_line sft_out cu_pos st d = Done st' d' /\ tl_keys d' = tl_keys d /\
    follows st' (Typing [] (y_old y) 0 false) /\ e_buf st' = e_buf st.
Proof.
  intros [H1 H2 H3 H4 H5 H6 H7 H8 [H9 H10]]. unfold start_new_line.
  destruct (write_all_spec (CR :: LF :: replicate (Z.to_nat cu_pos) (ch " ")) d) as (d1 & -> & K1). cbn [obind].
  eexists _, d1. split; [done|]. split; [done|]. split; [|done]. by split.
Qed.

(** ** Keys *)

Lemma y_recall_bound n size y : Z.of_nat (length (y_line y)) <= size - 1 -> Z.of_nat (length (y_line (y_recall n size y))) <= size - 1.
Proof. intros Hl. cbn. rewrite length_app, !length_take. lia. Qed.

Lemma edit_key_bound size c y : 1 <= size -> Z.of_nat (length (y_line y)) <= size - 1 ->
  Z.of_nat (length (y_line (edit_key size c y))) <= (if c =? CR then size else size - 1).
Proof.
  intros Hs Hl. destruct (Z.eqb_spec c CR) as [->|Hne].
  { change (edit_key size CR y) with (type_key size CR y). unfold type_key.
    change (CR =? F6) with false. change (CR =? CR) with true. rewrite orb_true_r. cbn. rewrite length_app. cbn. lia. }
  assert (length (removelast (y_line y)) <= length (y_line y))%nat as Hrl.
  { destruct (y_line y) as [|x l _] using rev_ind; [done|]. rewrite removelast_last, length_app. lia. }
  unfold edit_key. repeat case_match; try done; try (by apply y_recall_bound); cbn [y_line length]; try lia.
  - unfold type_key. assert ((if c =? F6 then CTL_Z else c) =? CR = false) as ->.
    { destruct (c =? F6); [done|]. by apply Z.eqb_neq. }
    rewrite orb_false_r. destruct (Z.ltb_spec (Z.of_nat (length (y_line y))) (size - 1)); cbn; [|done].
    rewrite length_app. cbn. lia.
Qed.

Lemma y_recall_rest n size y : 0 <= y_pos y -> (length (y_old y) - Z.to_nat (y_pos y) <= n)%nat ->
  y_recall n size y = y_recall (length (y_old y)) size y.
Proof.
  intros Hp Hn. unfold y_recall. rewrite (take_ge (drop _ _) n), (take_ge (drop _ _) (length (y_old y))) by (rewrite length_drop; lia). done.
Qed.

Lemma typed_spec size c st y d : follows st y -> 1 <= size <= 255 -> e_count st <= size - 1 ->
  exists st' d', typed_char sft_out size (if c =? F6 then CTL_Z else c) st d = Done st' d' /\ tl_keys d' = tl_keys d /\
    follows st' (type_key size c y) /\ e_buf st' = e_buf st.
Proof.
  intros Hf Hs Hc. destruct (f_length _ _ Hf) as [L1 L2]. pose proof (f_pos _ _ Hf) as Hp. pose proof (f_pos_ok _ _ Hf) as Hp0.
  pose proof (f_ins _ _ Hf) as Hi. unfold typed_char, type_key. set (c' := if c =? F6 then CTL_Z else c). cbv zeta.
  rewrite L1, L2. destruct ((e_count st <? size - 1) || (c' =? CR)).
  - destruct (add_char_spec c' st y d Hf) as (st1 & d1 & -> & K1 & F1' & C1 & B1 & B2); [lia|]. cbn [obind].
    pose proof (f_pos _ _ F1') as Hp1. pose proof (f_ins _ _ F1') as Hi1. cbn in Hp1, Hi1. rewrite Hp1, Hi1, B2.
    eexists _, d1. split; [done|]. split; [done|]. destruct ((y_pos y <? e_stored st) && negb (y_ins y)); [|by split].
    split; [|done]. apply (follows_pos _ _ (y_pos y + 1) F1'). lia.
  - destruct (write_all_spec [BELL] d) as (d1 & -> & K1). cbn [obind]. rewrite Hp, Hi.
    eexists _, d1. split; [done|]. split; [done|]. destruct ((y_pos y <? e_stored st) && negb (y_ins y)); split; try done.
    + apply follows_pos; [done|lia].
    + destruct y. exact Hf.
Qed.

(** One key. *)
Lemma edit_spec size cu_pos first c st y d : follows st y -> 1 <= size <= 255 -> e_count st <= size - 1 ->
  0 <= cu_pos -> (256 < fuel)%nat -> c <> F2 -> c <> F4 ->
  exists st' d', edit fuel sft_in sft_out size cu_pos first c st d = Done st' d' /\ tl_keys d' = tl_keys d /\
    follows st' (edit_key size c y) /\ drop (Z.to_nat size) (e_buf st') = drop (Z.to_nat size) (e_buf st).
Proof.
  intros Hf Hs Hc Hcu Hfu H2 H4. destruct (f_length _ _ Hf) as [L1 L2]. pose proof (f_pos _ _ Hf) as Hp.
  pose proof (f_pos_ok _ _ Hf) as Hp0. unfold edit, edit_key.
  destruct (Z.eqb_spec c LF); cbn [orb].
  { destruct first; [by exists st, d|]. destruct (write_all_spec [CR; LF] d) as (d1 & -> & K1). by exists st, d1. }
  destruct (c =? CTL_F); [by exists st, d|].
  destruct ((c =? RIGHT) || (c =? F1)).
  { rewrite Hp. destruct (Z.ltb_spec (y_pos y) (e_stored st)).
    - destruct (recall_spec size 1 st y d Hf) as (st1 & d1 & E & K1 & G1 & B1 & _); [lia|lia|].
      cbn [recall] in E. exists st1, d1. split; [|by rewrite B1]. destruct (recall_one sft_out size st d); [done..].
    - exists st, d. split; [done|]. split; [done|]. split; [|done]. unfold y_recall.
      rewrite (drop_ge (y_old y)) by lia. rewrite take_nil, take_nil, app_nil_r. cbn. rewrite Z.add_0_r. by destruct y. }
  rewrite (proj2 (Z.eqb_neq c F2)), (proj2 (Z.eqb_neq c F4)) by done. cbn [orb].
  destruct (c =? F3).
  { unfold recall_to. destruct (recall_spec size (Z.to_nat (e_stored st - e_pos st)) st y d Hf) as (st1 & d1 & E & K1 & G1 & B1 & B2);
      [lia|lia|]. rewrite E. cbn [obind]. rewrite y_recall_rest in G1 by lia. eexists _, d1. split; [done|]. split; [done|].
    split; [|cbn; by rewrite B1]. rewrite L2. apply follows_pos; [done|lia]. }
  destruct (c =? F5).
  { destruct (write_all_spec [ch "@"] d) as (d1 & -> & K1). cbn [obind].
    pose proof Hf as [M1 M2 M3 M4 M5 M6 M7 M8 [M9 M10]]. set (l := line (e_count st) (e_mem st)) in *.
    assert (length l = Z.to_nat (e_count st)) as Ll by (rewrite <- M2; lia).
    destruct (new_line_spec cu_pos (with_stored (l ++ drop (length l) (e_buf st)) (e_count st) st)
      (Typing (y_line y) (y_line y) (y_pos y) (y_ins y)) d1) as (st2 & d2 & -> & K2 & G2 & B2).
    - split; cbn; try done; [by rewrite M2, take_app_length'|]. rewrite length_app. lia.
    - exists st2, d2. split; [done|]. split; [congruence|]. split; [exact G2|]. rewrite B2. cbn.
      rewrite drop_app_ge, drop_drop by lia. f_equal. lia. }
  destruct (c =? INS).
  { eexists _, d. split; [done|]. split; [done|]. split; [|done]. destruct Hf. split; cbn; try done. by f_equal. }
  destruct (c =? DEL).
  { eexists _, d. split; [done|]. split; [done|]. split; [|done]. rewrite Hp. apply follows_pos; [done|apply u16_range]. }
  destruct ((c =? LEFT) || (c =? CTL_BS) || (c =? BS)).
  { destruct (backspace_spec cu_pos st y d Hf Hcu Hfu) as (st1 & d1 & -> & K1 & G1 & B1). exists st1, d1. by rewrite B1. }
  destruct (c =? ESC).
  { destruct (write_all_spec [ch "\"] d) as (d1 & -> & K1). cbn [obind].
    destruct (new_line_spec cu_pos st y d1 Hf) as (st2 & d2 & -> & K2 & G2 & B2). exists st2, d2. split; [done|].
    split; [congruence|]. by rewrite B2. }
  destruct (typed_spec size c st y d Hf Hs Hc) as (st1 & d1 & -> & K1 & G1 & B1). exists st1, d1. by rewrite B1.
Qed.

Lemma read_key_spec c r d : is_key c -> tl_keys d = key_codes c ++ r ->
  exists d', read_key sft_in sft_out d = Done c d' /\ tl_keys d' = r.
Proof.
  unfold key_codes, read_key. intros Hk. destruct (Z.ltb_spec c 256); cbn [app]; intros E.
  - destruct (tl_read sft_in sft_out d _ _ E) as (d1 & -> & K1). cbn [obind].
    rewrite (proj2 (Z.eqb_neq c 0)) by (destruct Hk as [?|[? _]]; lia). by exists d1.
  - destruct (tl_read sft_in sft_out d _ _ E) as (d1 & -> & K1). cbn [obind]. cbn [Z.eqb].
    destruct (tl_read sft_in sft_out d1 _ _ K1) as (d2 & -> & K2). cbn [obind]. exists d2. split; [|done]. f_equal.
    destruct Hk as [?|[Hr Hm]]; [lia|]. rewrite Z.shiftl_mul_pow2 by lia. change (2 ^ 8) with 256.
    pose proof (Z.div_mod c 256). rewrite u16_id; lia.
Qed.

(** Keys that are not the end of the line, nor F2 and F4. *)
Definition plain_key (c : Z) : Prop := is_key c /\ c <> CR /\ c <> F2 /\ c <> F4.

Lemma edit_loop_spec size cu_pos r : forall ks fuel' first st y d,
  Forall plain_key ks -> tl_keys d = concat (map key_codes ks) ++ CR :: r -> (length ks < fuel')%nat ->
  follows st y -> 1 <= size <= 255 -> e_count st <= size - 1 -> 0 <= cu_pos -> (256 < fuel)%nat ->
  exists st' d', edit_loop fuel sft_in sft_out fuel' size cu_pos first st d = Done st' d' /\ tl_keys d' = r /\
    follows st' (edit_key size CR (edit_keys size ks y)) /\ drop (Z.to_nat size) (e_buf st') = drop (Z.to_nat size) (e_buf st).
Proof.
  induction ks as [|c ks IH]; intros fuel' first st y d Hks Hk Hf' Hf Hs Hc Hcu Hfu;
    (destruct fuel' as [|fuel']; [cbn in Hf'; lia|]); cbn [edit_loop].
  - cbn [map concat app] in Hk. destruct (read_key_spec CR r d) as (d1 & -> & K1); [left; unfold CR; lia|exact Hk|]. cbn [obind].
    destruct (edit_spec size cu_pos first CR st y d1) as (st2 & d2 & -> & K2 & G2 & B2); try done.
    cbn [obind]. change (CR =? CR) with true. cbv iota. exists st2, d2. split; [done|]. split; [congruence|]. by split.
  - apply list.Forall_cons in Hks as [(Hkey & N1 & N2 & N3) Hks]. cbn [map concat] in Hk. rewrite <- app_assoc in Hk.
    destruct (read_key_spec c _ d Hkey Hk) as (d1 & -> & K1). cbn [obind].
    destruct (edit_spec size cu_pos first c st y d1) as (st2 & d2 & -> & K2 & G2 & B2); try done. cbn [obind].
    rewrite (proj2 (Z.eqb_neq c CR)) by done. rewrite <- K2 in K1.
    destruct (f_length _ _ G2) as [L1 _]. destruct (f_length _ _ Hf) as [L0 _].
    pose proof (edit_key_bound size c y ltac:(lia) ltac:(lia)) as Hb. rewrite (proj2 (Z.eqb_neq c CR)) in Hb by done.
    destruct (IH fuel' false st2 (edit_key size c y) d2) as (st3 & d3 & E3 & K3 & G3 & B3); try done; [cbn in Hf'; lia|lia|].
    exists st3, d3. split; [exact E3|]. split; [done|]. split; [exact G3|]. by rewrite B3.
Qed.

Lemma read_line_spec kp m d ks r last :
  let size := kb_size kp in
  let old := if last =? CR then take (Z.to_nat (kb_count kp)) (kb_buf kp) else [] in
  let l := y_line (edit_keys size ks (Typing [] old 0 false)) in
  1 <= size <= 255 -> at_ (kb_buf kp) (kb_count kp) = Some last -> Forall (fun c => u8 c = c) old ->
  mem_ok m -> Forall plain_key ks -> tl_keys d = concat (map key_codes ks) ++ CR :: r ->
  (length ks < fuel)%nat -> (256 < fuel)%nat ->
  exists kp' m' d', read_line fuel sft_in sft_out kp m d = Done (kp', m') d' /\ tl_keys d' = r /\
    kb_size kp' = size /\ kb_count kp' = Z.of_nat (length l) /\ Z.of_nat (length l) <= size - 1 /\
    take (length l + 1) (kb_buf kp') = l ++ [CR] /\
    drop (Z.to_nat size) (kb_buf kp') = drop (Z.to_nat size) (kb_buf kp).
Proof.
  intros size old l Hs Hlast Hold Hm Hks Hkeys Hf1 Hf2. unfold read_line. rewrite (proj2 (Z.eqb_neq _ _)) by lia.
  rewrite Hlast. cbn [lift_at obind]. apply at_lookup in Hlast as [Hc0 Hc1]. apply lookup_lt_Some in Hc1.
  set (stored := if last =? CR then kb_count kp else 0).
  assert (follows (Editor (kb_buf kp) stored m 0 0 false) (Typing [] old 0 false)) as Hf.
  { split; cbn; try done; [unfold old, stored; by destruct (last =? CR)|unfold stored; destruct (last =? CR); lia]. }
  change (kb_size kp) with size. fold stored.
  destruct (edit_loop_spec size (t_scr_pos d) r ks fuel true (Editor (kb_buf kp) stored m 0 0 false) (Typing [] old 0 false) d)
    as (st' & d' & -> & K & G & B); try done; [cbn; lia|apply tl_pos|]. cbn [obind e_buf] in *.
  assert (y_line (edit_key size CR (edit_keys size ks (Typing [] old 0 false))) = l ++ [CR]) as El.
  { change (edit_key size CR ?y) with (type_key size CR y). unfold type_key. change (CR =? F6) with false.
    change (CR =? CR) with true. rewrite orb_true_r. done. }
  assert (Z.of_nat (length l) <= size - 1) as Hll.
  { unfold l. clear -Hs Hks. assert (Z.of_nat (length (y_line (Typing [] old 0 false))) <= size - 1) as Hy by (cbn; lia).
    revert Hy. generalize (Typing [] old 0 false). induction Hks as [|c ks (Hk & N1 & _) _ IH]; intros y Hy; [done|].
    apply IH. pose proof (edit_key_bound size c y ltac:(lia) Hy) as Hb. by rewrite (proj2 (Z.eqb_neq c CR)) in Hb. }
  destruct (f_length _ _ G) as [L1 _]. pose proof (f_line _ _ G) as Hline. rewrite El in L1, Hline. rewrite length_app in L1. cbn in L1.
  rewrite <- Hline. eexists _, _, d'. split; [done|]. split; [done|]. split; [done|]. cbn [kb_count kb_buf].
  split_and!; [rewrite u8_id; lia|done| |].
  - rewrite take_app_le by (rewrite length_app; cbn; lia). apply take_ge. rewrite length_app. cbn. lia.
  - rewrite drop_app_ge by (rewrite length_app; cbn; lia). rewrite drop_drop, length_app. cbn [length]. rewrite <- B. f_equal. lia.
Qed.

(** C12: the line editor is the reference editor.  On a terminal that works, for
    any keys but F2 and F4 up to the end of the line, the line in the buffer of
    the caller is the one the reference leads to from the stored line; it ends
    with a carriage return, the count is its length without it, the buffer is not
    written behind its size, and exactly these keys are consumed. *)
Theorem read_line_edits kp m d ks r last :
  let size := kb_size kp in
  let old := if last =? CR then take (Z.to_nat (kb_count kp)) (kb_buf kp) else [] in
  let l := y_line (edit_keys size ks (Typing [] old 0 false)) in
  1 <= size <= 255 -> at_ (kb_buf kp) (kb_count kp) = Some last -> Forall (fun c => u8 c = c) old ->
  mem_ok m -> Forall plain_key ks -> tl_keys d = concat (map key_codes ks) ++ CR :: r ->
  (length ks < fuel)%nat -> (256 < fuel)%nat ->
  exists kp' m' d', read_line fuel sft_in sft_out kp m d = Done (kp', m') d' /\ tl_keys d' = r /\
    kb_size kp' = size /\ kb_count kp' = Z.of_nat (length l) /\ Z.of_nat (length l) <= size - 1 /\
    take (length l + 1) (kb_buf kp') = l ++ [CR] /\
    drop (Z.to_nat size) (kb_buf kp') = drop (Z.to_nat size) (kb_buf kp).
Proof. apply read_line_spec. Qed.

End editing.

(** ** Reading in pieces *)

Section pieces.
  Context {D : Type} `{!Terminal D, !TerminalLaws D} (fuel : nat) (sft_idx : Z).

(** Successive reads of the sizes [ns], as long as the line lasts. *)
Fixpoint read_pieces (ns : list Z) (inputptr : option Z) (m : line_memory) (d : D) : outcome D (list Z * option Z) :=
  match ns with
  | [] => Done ([], inputptr) d
  | n :: ns =>
      let! (r, d) := read_line_handle fuel sft_idx n inputptr m d in
      let '(l, inputptr, m) := r in
      match inputptr with
      | None => Done (l, None) d
      | Some _ => let! (r, d) := read_pieces ns inputptr m d in Done (l ++ r.1, r.2) d
      end
  end.

Definition total (ns : list Z) : Z := foldr Z.add 0 ns.

Lemma total_pos ns : Forall (fun n => 0 <= n) ns -> 0 <= total ns.
Proof. unfold total. induction 1; cbn [foldr]; lia. Qed.

(** The text [T] is in the default buffer. *)
Definition holds_text (T : list Z) (m : line_memory) : Prop :=
  exists kp, con_keyboard m = Some kp /\ kb_count kp + 2 = Z.of_nat (length T) /\ take (length T) (kb_buf kp) = T.

Definition after_read (T : list Z) (i : Z) : option Z := if Z.of_nat (length T) <=? i then None else Some i.

Lemma handle_rest T i n m d : holds_text T m -> 0 <= i < Z.of_nat (length T) -> 0 <= n -> (length T < 256)%nat ->
  read_line_handle fuel sft_idx n (Some i) m d =
    Done (take (Z.to_nat n) (drop (Z.to_nat i) T), after_read T (i + n), m) d.
Proof.
  intros (kp & E & Hc & Ht) Hi Hn Hlen. unfold read_line_handle. cbn [obind]. rewrite E. cbn [lift_at obind].
  rewrite Hc, u16_id by lia. cbv zeta. f_equal. unfold after_read.
  assert (forall k, (k <= Z.to_nat n)%nat -> (k <= length T - Z.to_nat i)%nat -> take k (drop (Z.to_nat i) (kb_buf kp)) = take k (drop (Z.to_nat i) T)) as Hk.
  { intros k _ Hk. rewrite <- Ht at 1. rewrite skipn_firstn_comm, take_take. f_equal. lia. }
  destruct (Z.ltb_spec (Z.of_nat (length T) - i) n).
  - rewrite Z.eqb_refl, (proj2 (Z.leb_le _ _)), Hk by lia. f_equal. f_equal.
    rewrite !take_ge by (rewrite length_drop; lia). done.
  - rewrite Hk by lia. destruct (Z.eqb_spec n (Z.of_nat (length T) - i)).
    + by rewrite (proj2 (Z.leb_le _ _)) by lia.
    + by rewrite (proj2 (Z.leb_gt _ _)) by lia.
Qed.

Lemma pieces_rest T : (length T < 256)%nat -> forall ns i m d, holds_text T m -> 0 <= i < Z.of_nat (length T) ->
  Forall (fun n => 0 <= n) ns ->
  read_pieces ns (Some i) m d = Done (take (Z.to_nat (total ns)) (drop (Z.to_nat i) T), after_read T (i + total ns)) d.
Proof.
  intros Hlen ns. induction ns as [|n ns IH]; intros i m d HT Hi Hns.
  - cbn. rewrite Z.add_0_r. unfold after_read. by rewrite (proj2 (Z.leb_gt _ _)) by lia.
  - apply list.Forall_cons in Hns as [Hn Hns]. pose proof (total_pos ns Hns) as Ht. cbn [read_pieces total foldr].
    rewrite (handle_rest T) by done. cbn [obind]. fold (total ns). unfold after_read at 1.
    destruct (Z.leb_spec (Z.of_nat (length T)) (i + n)).
    + unfold after_read. rewrite (proj2 (Z.leb_le _ _)) by lia. by rewrite !take_ge by (rewrite length_drop; lia).
    + assert (after_read T (i + n) = Some (i + n)) as -> by (unfold after_read; by rewrite (proj2 (Z.leb_gt _ _)) by lia).
      rewrite (IH (i + n)) by (done || lia). cbn [obind fst snd]. rewrite <- Z.add_assoc. f_equal. f_equal.
      rewrite !Z2Nat.inj_add by lia. rewrite <- drop_drop. generalize (drop (Z.to_nat i) T). intros l.
      rewrite <- (take_drop (Z.to_nat n) l) at 3. destruct (Nat.le_gt_cases (Z.to_nat n) (length l)).
      * rewrite take_app_ge by (rewrite length_take; lia). rewrite length_take_le by done. f_equal. f_equal. lia.
      * rewrite !(drop_ge l), !take_nil, app_nil_r by lia. rewrite (take_ge (take _ _)) by (rewrite length_take; lia). done.
Qed.

Context (m : line_memory) (kp : keyboard) (d : D) (ks r : list Z) (last : Z).
Hypothesis con : con_keyboard m = Some kp.
Hypothesis con_size : kb_size kp = LINEBUFSIZECON /\ length (kb_buf kp) = 129%nat.
Hypothesis con_last : at_ (kb_buf kp) (kb_count kp) = Some last.
Let old : list Z := if last =? CR then take (Z.to_nat (kb_count kp)) (kb_buf kp) else [].
Hypothesis con_bytes : Forall (fun c => u8 c = c) old.
Hypothesis con_mem : length (local_buffer m) = 128%nat.
Hypothesis plain : Forall plain_key ks.
Hypothesis keys : tl_keys d = concat (map key_codes ks) ++ CR :: r.
Hypothesis enough : (length ks < fuel)%nat /\ (256 < fuel)%nat.

Let text : list Z := y_line (edit_keys LINEBUFSIZECON ks (Typing [] old 0 false)) ++ [CR; LF].

(** The first read leaves the text in the buffer. *)
Lemma handle_first n : hd 0 text <> CTL_Z -> 0 <= n ->
  exists m' d', holds_text text m' /\ tl_keys d' = r /\ (length text < 256)%nat /\
    read_line_handle fuel sft_idx n None m d = read_line_handle fuel sft_idx n (Some 0) m' d'.
Proof.
  intros Hz Hn. destruct con_size as [Cs Cl], enough as [E1 E2].
  assert (set_con kp m = m) as Em.
  { revert con. unfold con_keyboard, set_con. destruct m as [lb [|x [|y b]]]; cbn; [done..|]. by intros [= <-]. }
  assert (mem_ok m) as Hm.
  { split; [done|]. rewrite <- Em. cbn. rewrite Cl. lia. }
  unfold read_line_handle at 1. cbn [obind]. rewrite con. cbn [lift_at obind]. rewrite Cs. rewrite Z.eqb_refl, Em.
  destruct (read_line_spec fuel sft_idx sft_idx kp m d ks r last) as (kp' & m' & d1 & -> & K1 & S1 & C1 & B1 & T1 & T2);
    try done; [rewrite Cs; unfold LINEBUFSIZECON; lia|].
  rewrite Cs in S1, C1, B1, T1, T2. fold old in C1, B1, T1. cbn [obind].
  destruct (echo_char_spec sft_idx LF d1) as (d2 & -> & K2). cbn [obind].
  unfold text in *. set (l := y_line _) in *. change LINEBUFSIZECON with 128 in *.
  assert (length (kb_buf kp') = 129)%nat as Lb.
  { assert (length (drop (Z.to_nat 128) (kb_buf kp')) = 1%nat) as Hd by (rewrite T2, length_drop; lia).
    rewrite length_drop in Hd. lia. }
  unfold set_at. rewrite C1, (proj2 (Z.leb_le _ _)), (proj2 (Z.ltb_lt _ _)) by lia. cbn [andb lift_at obind].
  set (buf := <[_ := _]> (kb_buf kp')).
  assert (take (length (l ++ [CR; LF])) buf = l ++ [CR; LF]) as Ht.
  { rewrite length_app. cbn [length]. replace (length l + 2)%nat with (Datatypes.S (length l + 1)) by lia. rewrite (take_S_r _ (length l + 1) LF).
    - unfold buf. rewrite take_insert_ge by lia. rewrite T1, <- app_assoc. done.
    - unfold buf. replace (Z.to_nat (Z.of_nat (length l) + 1)) with (length l + 1)%nat by lia.
      apply list_lookup_insert_eq. lia. }
  assert (at_ buf 0 = Some (hd 0 (l ++ [CR; LF]))) as E0.
  { unfold at_. cbn. revert Ht. destruct buf; [by destruct l|]. rewrite length_app. cbn [length].
    rewrite Nat.add_comm. cbn [Nat.add take]. intros <-. done. }
  rewrite E0. cbn [lift_at obind]. rewrite (proj2 (Z.eqb_neq _ _)) by done.
  exists (set_con (Keyboard (kb_size kp') (kb_count kp') buf) m'), d2. split_and!; [|congruence| |by rewrite C1].
  - eexists. split; [done|]. cbn [kb_count kb_buf]. split; [|done]. rewrite C1, length_app. cbn. lia.
  - rewrite length_app. cbn. lia.
Qed.

Lemma text_pos : 0 < Z.of_nat (length text).
Proof. unfold text. rewrite length_app. cbn. lia. Qed.

(** A line that is read by handle comes out in pieces.  Whatever the sizes of
    the reads, they return consecutive parts of the edited line with its CR and
    LF, nothing lost and nothing twice; the line is given up exactly when it has
    been read to its end, and only the keys of this one line are consumed. *)
Theorem read_handle_pieces n ns : hd 0 text <> CTL_Z -> Forall (fun n => 0 <= n) (n :: ns) ->
  exists d', tl_keys d' = r /\
    read_pieces (n :: ns) None m d =
      Done (take (Z.to_nat (total (n :: ns))) text, after_read text (total (n :: ns))) d'.
Proof.
  intros Hz Hns. pose proof Hns as [Hn _]%list.Forall_cons. destruct (handle_first n Hz Hn) as (m' & d' & Ht & K & Hl & E).
  exists d'. split; [done|]. pose proof text_pos as Hp.
  etransitivity; [|exact (pieces_rest text Hl (n :: ns) 0 m' d' Ht ltac:(lia) Hns)].
  cbn [read_pieces]. by rewrite E.
Qed.

End pieces.

(** ** A sample terminal: the keys to come, and the column *)

#[export] Instance tape_terminal : Terminal (list Z * Z) := {|
  t_read _ _ d := match d.1 with c :: r => Done c (r, d.2) | [] => Stuck end;
  t_write c _ d := Done tt (d.1, next_pos c 1 (u8 d.2));
  t_scr_pos d := u8 d.2 |}.

Lemma next_pos_range c p : 0 <= p < 256 -> 0 <= next_pos c 1 p < 256.
Proof. intros Hp. unfold next_pos. pose proof (u8_range (p + 1)). repeat case_match; lia. Qed.

#[export, program] Instance tape_laws : TerminalLaws (list Z * Z) := {| tl_keys d := d.1 |}.
Next Obligation. intros si so [k p] c r. cbn. intros ->. by eexists. Qed.
Next Obligation.
  intros c so [k p]. eexists. split; [done|]. split; [done|]. intros _. cbn. apply u8_id, next_pos_range, u8_range.
Qed.
Next Obligation. intros [k p]. apply u8_range. Qed.

(** The stored line is [dir]; the user recalls a character, types one that is
    taken back, and recalls the rest with F3. *)
Definition sample_line : list Z := [ch "d"; ch "i"; ch "r"; CR].
Definition sample_keyboard : keyboard := Keyboard 128 3 (sample_line ++ replicate 125 0).
Definition sample_memory : line_memory :=
  set_con sample_keyboard (LineMem (replicate 128 0) []).
Definition sample_edits : list Z := [F1; ch "x"; BS; F3; HT; ch "a"].
Definition sample_tape : list Z * Z := (concat (map key_codes sample_edits) ++ [CR; ch "q"], 4).

Lemma sample_plain : Forall plain_key sample_edits.
Proof. repeat constructor; try (unfold is_key, F1, F3, BS, HT; cbn; lia); discriminate. Qed.

Lemma read_line_edits_witness :
  1 <= kb_size sample_keyboard <= 255 /\
  exists kp' m' d', read_line 300 0 1 sample_keyboard sample_memory sample_tape = Done (kp', m') d' /\ tl_keys d' = [ch "q"] /\
    kb_size kp' = 128 /\ kb_count kp' = 5 /\ 5 <= 127 /\
    take 6 (kb_buf kp') = [ch "d"; ch "i"; ch "r"; HT; ch "a"; CR] /\
    drop 128 (kb_buf kp') = drop 128 (kb_buf sample_keyboard).
Proof.
  split; [cbn; lia|]. apply (read_line_edits 300 0 1 sample_keyboard sample_memory sample_tape sample_edits [ch "q"] CR).
  - cbn. lia.
  - reflexivity.
  - repeat constructor.
  - split; cbn; lia.
  - exact sample_plain.
  - reflexivity.
  - cbn. lia.
  - lia.
Defined.

Lemma read_handle_pieces_witness :
  Forall (fun n => 0 <= n) [2; 3; 9] /\
  exists d' : list Z * Z, tl_keys d' = [ch "q"] /\
    read_pieces 300 0 [2; 3; 9] None sample_memory sample_tape =
      Done ([ch "d"; ch "i"; ch "r"; HT; ch "a"; CR; LF], None) d'.
Proof.
  split; [repeat constructor; lia|].
  apply (read_handle_pieces 300 0 sample_memory sample_keyboard sample_tape sample_edits [ch "q"] CR).
  - reflexivity.
  - split; reflexivity.
  - reflexivity.
  - repeat constructor.
  - reflexivity.
  - exact sample_plain.
  - reflexivity.
  - split; cbn; lia.
  - discriminate.
  - repeat constructor; lia.
Defined.
