(* ===== verification/Newstuff.v ===== *)
(** * The resolution of names ([kernel/newstuff.c], the device names of [kernel/dosfns.c])

    [truename] turns what a program passes into the path of a file on a drive.  A
    string is the list of its characters without the NUL.  [dest] is kept as the
    characters in front of [p], last one first, and the character at [rootPos],
    which the code also reads while [p] is at [rootPos] or before it. *)

From S2P Require Import Prelude Hdr Dpb Blockio Fattab Fnode Names Fatdir.

(** hdr/device.h:126-126 *)
Definition ATTR_CHAR : Z := 0x8000.
(** hdr/cds.h:72-72 *)
Definition CDSSUBST : Z := 0x1000.
(** hdr/cds.h:86-86 *)
Definition IS_DEVICE : Z := 0x20.
(** hdr/cds.h:87-87 *)
Definition IS_NETWORK : Z := 0x40.
(** hdr/cds.h:89-89 *)
Definition CDS_MODE_SKIP_PHYSICAL : Z := 0x01.
(** hdr/cds.h:90-90 *)
Definition CDS_MODE_CHECK_DEV_PATH : Z := 0x02.
(** hdr/cds.h:91-91 *)
Definition CDS_MODE_ALLOW_WILDCARDS : Z := 0x04.
(** hdr/sft.h:37-37 *)
Definition SFTMAX : nat := 128.

(** A device header; [dh_at] is the far pointer to it.
    hdr/device.h:116-123 *)
Record dhdr := Dhdr {
  dh_at : Z;
  dh_attr : Z;
  dh_name : list Z }.

(** What the resolution of names uses of the rest of the kernel: the assignment of
    [current_ldt] ([-1] is the sentinel for network names), the truncation of a
    drive's current directory, the default drive, the number of joined drives, the
    redirector's answer to a name, the chain of devices, upper-casing, and the DOS
    version reported. *)
Class NameServices (S : Type) := {
  ns_set_ldt : Z -> S -> S;
  ns_cut_path : Z -> Z -> S -> S;
  ns_default_drive : S -> Z;
  ns_njoined : S -> Z;
  ns_qremote : list Z -> S -> option (Z * list Z * S);
  ns_devices : S -> list dhdr;
  ns_up_fchar : Z -> Z;
  ns_os_major : S -> Z }.

(** ** Characters *)

Definition slash (c : Z) : bool := (c =? ch "/") || (c =? ch "\").

(** kernel/newstuff.c:249-249 *)
Definition DirChars : list Z :=
  [34; ch "["; ch "]"; ch ":"; ch "|"; ch "<"; ch ">"; ch "+"; ch "="; ch ";"; ch ","].
(** kernel/newstuff.c:247-248 *)
Definition DirChar (c : Z) : bool := (ch " " <=? c) && negb (existsb (Z.eqb c) DirChars).

(** The error depends on whether more of the path follows.
    kernel/newstuff.c:490-495 *)
Definition path_error (src : list Z) : Z := if existsb slash src then DE_PATHNOTFND else DE_FILENOTFND.

(** ** Names of devices *)

(** The part of a name behind the last separator.
    kernel/dosfns.c:397-415 *)
Definition is_separator (c : Z) : bool := (c =? ch "/") || (c =? ch "\") || (c =? ch ":").
Fixpoint get_root_rev (acc l : list Z) : list Z :=
  match l with
  | [] => acc
  | c :: l => if is_separator c then acc else get_root_rev (c :: acc) l
  end.
Definition get_root (fname : list Z) : list Z := get_root_rev [] (rev fname).

(** ** Adding to the path *)

(** The characters before [p], last one first, and the one at [rootPos]. *)
Record dest := Dest {
  t_rev : list Z;
  t_root : Z }.

(** [None] is the error of a path too long.
    kernel/newstuff.c:250-254 *)
Definition addChar (rootPos : nat) (c : Z) (t : dest) : option dest :=
  if (SFTMAX <=? length (t_rev t))%nat then None
  else Some (Dest (c :: t_rev t) (if (length (t_rev t) =? rootPos)%nat then c else t_root t)).

Fixpoint add_chars (rootPos : nat) (l : list Z) (t : dest) : option dest :=
  match l with
  | [] => Some t
  | c :: l => let* t := addChar rootPos c t in add_chars rootPos l t
  end.

(** Backing up over the last component; [None] is the error at the root.
    kernel/newstuff.c:480-484 *)
Fixpoint drop_component (rootPos : nat) (l : list Z) : option (list Z) :=
  match l with
  | [] => None
  | c :: l =>
      if c =? ch "\" then Some l
      else if (length l <=? rootPos)%nat then None
      else drop_component rootPos l
  end.

(** What a part of the scan has found: an error, or the path so far. *)
Inductive scanned :=
  | Bad (err : Z)
  | Scanned (src : list Z) (t : dest) (wild : bool).

(** One component in 8.3 convention: [i] characters may still be added, [dot] is
    [PNE_DOT].
    kernel/newstuff.c:501-548 *)
Fixpoint scan_name (rootPos : nat) (i : nat) (dot wild : bool) (src : list Z) (t : dest) : scanned :=
  match src with
  | [] => Scanned src t wild
  | c :: src' =>
      if slash c then Scanned src t wild
      else
        let '(c, filled, i) :=
          if c =? ch "*" then (ch "?", add_chars rootPos (replicate i (ch "?")) t, O) else (c, Some t, i) in
        match filled with
        | None => Bad (path_error src')
        | Some t =>
            if (c =? ch ".") && dot then Bad (path_error src')
            else if (c =? ch ".") && match src' with [] => true | d :: _ => slash d end
            then Scanned src' t wild
            else
              let '(dot, i) := if c =? ch "." then (true, (FEXT_SIZE + 1)%nat) else (dot, i) in
              let wild := wild || (c =? ch "?") in
              match i with
              | O => scan_name rootPos O dot wild src' t
              | Datatypes.S i' =>
                  if negb (DirChar c) then Bad (path_error src')
                  else
                    match addChar rootPos c t with
                    | None => Bad (path_error src')
                    | Some t => scan_name rootPos i' dot wild src' t
                    end
              end
        end
  end.

Fixpoint skip_slashes (src : list Z) : list Z :=
  match src with c :: src' => if slash c then skip_slashes src' else src | [] => [] end.

(** The loop over the segments of [src]; [prev] is the character in front of
    [src], which the code reads to tell [..] from [.].
    kernel/newstuff.c:450-549 *)
Fixpoint scan (fuel : nat) (rootPos : nat) (prev : Z) (src : list Z) (t : dest) (wild : bool) : option scanned :=
  match fuel with
  | O => None
  | Datatypes.S fuel' =>
      match src with
      | [] => Some (Scanned [] t wild)
      | c0 :: _ =>
          if wild then Some (Bad DE_PATHNOTFND)
          else
            let* last := head (t_rev t) in
            match (if last =? t_root t then Some t else addChar rootPos (t_root t) t) with
            | None => Some (Bad (path_error src))
            | Some t =>
                let prev := if slash c0 then c0 else prev in
                let src := skip_slashes src in
                if bool_decide (head src = Some (ch ".")) then
                  let src1 := tail src in
                  let '(prev, src2) :=
                    if bool_decide (head src1 = Some (ch ".")) then (ch ".", tail src1) else (prev, src1) in
                  if match src2 with [] => true | c :: _ => slash c end then
                    let* l := match t_rev t with _ :: l => Some l | [] => None end in
                    if prev =? ch "." then
                      match drop_component rootPos l with
                      | None => Some (Bad DE_PATHNOTFND)
                      | Some l => scan fuel' rootPos (ch ".") src2 (Dest l (t_root t)) wild
                      end
                    else scan fuel' rootPos (ch ".") src2 (Dest l (t_root t)) wild
                  else Some (Bad (path_error src2))
                else
                  match scan_name rootPos FNAME_SIZE false wild src t with
                  | Bad e => Some (Bad e)
                  | Scanned src' t wild => scan fuel' rootPos 0 src' t wild
                  end
            end
      end
  end.

Section names.
  Context {S : Type} `{!BlockCache S, !DosState S, !NameServices S} (cf steps ents : nat).

(** Comparison of a name with the eight characters of a header.
    kernel/dosfns.c:1305-1328 *)
Fixpoint device_match (froot name : list Z) : bool :=
  match name with
  | [] => true
  | n :: name' =>
      let blank := forallb (fun c => (c =? ch " ") || (c =? 0)) name in
      match froot with
      | [] => blank
      | c :: froot => if (c =? ch ".") || (c =? 0) then blank
                      else (ns_up_fchar c =? ns_up_fchar n) && device_match froot name'
      end
  end.

(** kernel/dosfns.c:1265-1333 *)
Definition IsDevice (fname : list Z) (s : S) : option dhdr :=
  let froot := get_root fname in
  match froot with
  | [] => None
  | c :: rest =>
      if (c =? ch ".") && match rest with [] => true | [d] => d =? ch "." | _ => false end then None
      else List.find (fun d => negb (Z.land (dh_attr d) ATTR_CHAR =? 0) && device_match froot (dh_name d)) (ns_devices s)
  end.

(** ** The parts of [truename] *)

(** The drive a name is on.
    kernel/newstuff.c:295-300 *)
Definition drive_of (src : list Z) (s : S) : Z :=
  match src with
  | c :: 58 :: _ => u8 (ns_up_fchar c - ch "A")
  | _ => ns_default_drive s
  end.

(** Five characters that name the directory of devices.
    kernel/newstuff.c:366-372 *)
Definition in_dev (src : list Z) : bool :=
  let flip c := if c =? ch "/" then ch "\" else c in
  match map ns_up_fchar (take 5 src) with
  | [a; b; c; d; e] => bool_decide ([flip a; b; c; d; flip e] = str "\DEV\")
  | _ => false
  end.

(** A device gets a forward slash and loses its path: the result, the character
    behind the drive, the one in front of the source, and the source.
    kernel/newstuff.c:354-388 *)
Definition device_part (result prev : Z) (src : list Z) : Z * Z * Z * list Z :=
  if Z.land result IS_DEVICE =? 0 then (result, ch "\", prev, src)
  else
    let froot := get_root src in
    let off := (length src - length froot)%nat in
    if (off =? 0)%nat || (off =? 5)%nat && in_dev src then
      (clear IS_NETWORK result, ch "/", if (off =? 0)%nat then prev else ch "\", froot)
    else (result, ch "\", prev, src).

(** The current directory is entered again; when it is gone, the root directory
    takes its place.  [None] in the result is the error of the medium.
    kernel/newstuff.c:397-413 *)
Definition current_dir (drive : Z) (tmp : cds) (fnp : f_node) (s : S) : option (option (list Z) * f_node * S) :=
  let path := take (MAX_CDSPATH - 1) (cdsCurrentPath tmp) in
  if Z.land (cdsFlags tmp) CDSNETWDRV =? 0 then
    let* (rc, s) := ds_media_check (cdsDpb tmp) s in
    if rc <? 0 then Some (None, fnp, s)
    else
      let* (rc, fnp, s) := dos_cd cf steps ents path fnp s in
      if rc =? SUCCESS then Some (Some path, fnp, s)
      else
        let path := take (Z.to_nat (cdsBackslashOffset tmp + 1)) path in
        let s := ns_cut_path drive (cdsBackslashOffset tmp) s in
        let* (_, fnp, s) := dos_cd cf steps ents path fnp s in
        Some (Some path, fnp, s)
  else Some (Some path, fnp, s).

(** Where the scan begins: the position of the root, the path, the character in
    front of the source, and the source.  An offset behind the end of the current
    directory is a stray access.
    kernel/newstuff.c:415-446 *)
Definition start_path (skip : bool) (letter : Z) (tmp : cds) (path : list Z) (prev : Z) (src : list Z)
    : option (nat * dest * Z * list Z) :=
  let off := Z.to_nat (cdsBackslashOffset tmp) in
  if (length path <? off)%nat then None
  else
    let base := if skip then [letter; ch ":"] else take off path in
    let rest := ch "\" :: tail (drop off path) in
    let '(l, prev, src) :=
      match src with
      | c :: src' => if slash c then (base, c, src') else (base ++ rest, prev, src)
      | [] => (base ++ rest, prev, src)
      end in
    let* last := head (rev l) in
    let l := if last =? ch "\" then tail (rev l) else rev l in
    Some (length base, Dest l (ch "\"), prev, src).

(** A drive that is substituted gives way to the one of its path.
    kernel/newstuff.c:424-434 *)
Definition subst_result (skip : bool) (tmp : cds) (path : list Z) (result : Z) (s : S) : Z :=
  if negb skip && negb (Z.land (cdsFlags tmp) CDSSUBST =? 0) then
    match path with
    | c :: 58 :: _ =>
        let i := u8 (c - ch "A") in
        if i <? ds_lastdrive s then Z.lor (Z.land result 0xffe0) i else result
    | _ => result
    end
  else result.

(** The end of the scan: a separator when there is only the drive, and upper case
    from the root on.
    kernel/newstuff.c:545-554 *)
Definition finish_path (rootPos : nat) (t : dest) : option (list Z) :=
  let* t := if (length (t_rev t) =? 2)%nat then addChar rootPos (ch "\") t else Some t in
  let d := rev (t_rev t) in
  Some (take rootPos d ++ map ns_up_fchar (drop rootPos d)).

(** The path leads to the directory a drive is joined to.
    kernel/newstuff.c:573-580 *)
Definition joined_at (d : list Z) (c : cds) : bool :=
  let path := cdsCurrentPath c in
  negb (Z.land (cdsFlags c) CDSJOINED =? 0) && bool_decide (take (length path) d = path) &&
  match drop (length path) d with [] => true | x :: _ => x =? ch "\" end.

Fixpoint find_joined (n : nat) (i : Z) (d : list Z) (s : S) : option Z :=
  match n with
  | O => None
  | Datatypes.S n' => if joined_at d (ds_cds i s) then Some i else find_joined n' (i + 1) d s
  end.

(** The path on the joined drive.
    kernel/newstuff.c:581-600 *)
Definition join_path (i : Z) (d : list Z) (result : Z) (s : S) : Z * list Z * S :=
  let c := ds_cds i s in
  let rest := drop (length (cdsCurrentPath c)) d in
  let d := i + ch "A" :: ch ":" ::
    (match rest with [] => [ch "\"] | _ => if (length (cdsCurrentPath c) =? 2)%nat then drop 2 d else rest end) in
  let result := clear IS_NETWORK (Z.lor (Z.land result 0xffe0) i) in
  let s := ns_set_ldt i s in
  (if negb (Z.land (cdsFlags c) CDSNETWDRV =? 0) then Z.lor result IS_NETWORK else result, d, s).

(** The rest of [truename]: the scan and what follows it.
    kernel/newstuff.c:549-617 *)
Definition resolve_path (mode result : Z) (rootPos : nat) (t : dest) (prev : Z) (src : list Z) (fnp : f_node) (s : S)
    : option (Z * list Z * f_node * S) :=
  let* r := scan (Datatypes.S (length src)) rootPos prev src t false in
  match r with
  | Bad e => Some (e, [], fnp, s)
  | Scanned _ t wild =>
      if wild && (Z.land mode CDS_MODE_ALLOW_WILDCARDS =? 0) then Some (DE_PATHNOTFND, [], fnp, s)
      else
        let* d := finish_path rootPos t in
        let* c2 := at_ d 2 in
        let joined :=
          if negb (c2 =? ch "/") && (Z.land mode CDS_MODE_SKIP_PHYSICAL =? 0) && negb (ns_njoined s =? 0)
          then find_joined (Z.to_nat (ds_lastdrive s)) 0 d s else None in
        match joined with
        | Some i => let '(result, d, s) := join_path i d result s in Some (result, d, fnp, s)
        | None =>
            let char_dev := Z.land result (Z.lor IS_DEVICE IS_NETWORK) =? IS_DEVICE in
            let* (found, fnp, s) :=
              if negb (Z.land mode CDS_MODE_CHECK_DEV_PATH =? 0) && char_dev && negb (c2 =? ch "/")
              then dir_exists cf steps ents d fnp s else Some (true, fnp, s) in
            if negb found then Some (DE_PATHNOTFND, d, fnp, s)
            else
              let result :=
                if mode =? CDS_MODE_ALLOW_WILDCARDS then
                  if (ns_os_major s =? 6) && char_dev then 0x3a00 else 0
                else result in
              Some (result, d, fnp, s)
        end
  end.

(** A name on the network is taken as it is, when it fits with its NUL.
    kernel/newstuff.c:278-293 *)
Definition unc_path (src : list Z) (fnp : f_node) (s : S) : Z * list Z * f_node * S :=
  if (SFTMAX <=? length src)%nat then (DE_PATHNOTFND, [], fnp, s)
  else (IS_NETWORK, src, fnp, ns_set_ldt (-1) s).

(** The result, [dest] and the state; [before] is the byte in front of the string
    in memory, [fnp] what [fnode[0]] holds.
    kernel/newstuff.c:256-447 *)
Definition truename (before : Z) (src : list Z) (mode : Z) (fnp : f_node) (s : S)
    : option (Z * list Z * f_node * S) :=
  if bool_decide (src = []) then Some (DE_FILENOTFND, [], fnp, s)
  else if bool_decide (take 2 src = str "\\") then Some (unc_path src fnp s)
  else
    let drive := drive_of src s in
    match get_cds drive s with
    | None => Some (DE_PATHNOTFND, [], fnp, s)
    | Some tmp =>
        let s := ns_set_ldt drive s in
        let result := if Z.land (cdsFlags tmp) CDSNETWDRV =? 0 then drive else Z.lor drive IS_NETWORK in
        let result := match IsDevice src s with Some _ => Z.lor result IS_DEVICE | None => result end in
        let skip := negb (Z.land mode CDS_MODE_SKIP_PHYSICAL =? 0) in
        let* (rc, remote, s) := if skip then Some (DE_INVLDFUNC, [], s) else ns_qremote src s in
        if (rc =? SUCCESS) && match remote with [] => false | _ => true end then
          Some (if (nth 2 remote 0 =? ch "/") && negb (Z.land result IS_DEVICE =? 0) then clear IS_NETWORK result else result,
                remote, fnp, s)
        else
          let letter := Z.land result 0x1f + ch "A" in
          let '(prev, src) := match src with _ :: 58 :: src => (58, src) | _ => (before, src) end in
          let '(result, c2, prev, src) := device_part result prev src in
          if c2 =? ch "/" then
            resolve_path mode result 2 (Dest [ch ":"; letter] c2) prev src fnp s
          else
            let* (path, fnp, s) := current_dir drive tmp fnp s in
            match path with
            | None => Some (DE_PATHNOTFND, [], fnp, s)
            | Some path =>
                let result := subst_result skip tmp path result s in
                let* (rootPos, t, prev, src) := start_path skip letter tmp path prev src in
                resolve_path mode result rootPos t prev src fnp s
            end
    end.

End names.
