(* ===== verification/NewstuffSpec.v ===== *)
(** * The resolution of names: what [truename] computes

    A source is a list of components with runs of separators between them; the
    reference resolves it on a stack of components, without a buffer. *)

From S2P Require Import Prelude Hdr Dpb Blockio Fattab Fnode Names NamesSpec Fatdir FatdirSpec Newstuff.

(** ** The reference *)

Inductive item :=
  | Dot
  | DotDot
  | Name (base ext : list Z).

(** A character a program may use in a name, wildcards apart. *)
Definition src_char (c : Z) : Prop :=
  DirChar c = true /\ c <> ch "." /\ slash c = false /\ c <> ch "*" /\ c <> ch "?".

Definition item_ok (it : item) : Prop :=
  match it with Name b e => b <> [] /\ Forall src_char b /\ Forall src_char e | _ => True end.

Definition text (it : item) : list Z :=
  match it with Dot => [ch "."] | DotDot => [ch "."; ch "."] | Name b e => sz_name b e end.

Definition source (l : list (list Z * item)) : list Z := concat (map (fun x => x.1 ++ text x.2) l).

(** A name cut to 8.3. *)
Definition cut (b e : list Z) : comp := (take FNAME_SIZE b, take FEXT_SIZE e).

Definition resolve1 (st : list comp) (it : item) : option (list comp) :=
  match it with
  | Dot => Some st
  | DotDot => match st with [] => None | _ => Some (removelast st) end
  | Name b e => Some (st ++ [cut b e])
  end.

Fixpoint resolve (st : list comp) (l : list item) : option (list comp) :=
  match l with
  | [] => Some st
  | it :: l => let* st := resolve1 st it in resolve st l
  end.

(** The buffer has room for every path on the way; [n] characters are in front. *)
Fixpoint room (n : nat) (st : list comp) (l : list item) : Prop :=
  match l with
  | [] => True
  | it :: l =>
      (n + length (path_of st) < SFTMAX)%nat /\
      match resolve1 st it with
      | Some st' => (n + length (path_of st') <= SFTMAX)%nat /\ room n st' l
      | None => True
      end
  end.

(** Separators only, at least one in front of every component but the first. *)
Definition seps_ok (x : list Z * item) : Prop := Forall (fun c => slash c = true) x.1 /\ item_ok x.2.
Definition sources_ok (l : list (list Z * item)) : Prop :=
  Forall seps_ok l /\ Forall (fun x => x.1 <> []) (tail l).

(** ** The buffer *)

Definition legal_comp (x : comp) : Prop := x.1 <> [] /\ Forall src_char x.1 /\ Forall src_char x.2.

(** [base] and the components of the stack are in the buffer. *)
Definition holds (base : list Z) (st : list comp) : dest := Dest (rev (base ++ path_of st)) (ch "\").

Lemma path_of_app l m : path_of (l ++ m) = path_of l ++ path_of m.
Proof. unfold path_of. by rewrite map_app, concat_app. Qed.

Lemma path_of_one x : path_of [x] = ch "\" :: sz_name x.1 x.2.
Proof. unfold path_of. cbn. by rewrite app_nil_r. Qed.

Lemma legal_text x : legal_comp x -> Forall (fun c => c <> ch "\") (sz_name x.1 x.2) /\ sz_name x.1 x.2 <> [].
Proof.
  intros (Hne & Hb & He). unfold sz_name. split.
  - apply list.Forall_app. split; [eapply Forall_impl; [|exact Hb]|case_bool_decide; [constructor|]; constructor; [done|];
      eapply Forall_impl; [|exact He]]; intros c (_ & _ & Hs & _) ->; done.
  - destruct x.1; [done|discriminate].
Qed.

Lemma cut_legal b e : item_ok (Name b e) -> legal_comp (cut b e).
Proof.
  intros (Hne & Hb & He). split; cbn; [by destruct b|]. split; by apply Forall_take.
Qed.

(** The last character in the buffer is not a separator. *)
Lemma last_no_slash base st : list.last base <> Some (ch "\") -> base <> [] -> Forall legal_comp st ->
  exists c, head (t_rev (holds base st)) = Some c /\ c <> ch "\".
Proof.
  intros Hb Hne Hst. cbn. rewrite rev_app_distr. destruct st as [|x st _] using rev_ind.
  - cbn. destruct base as [|c base _] using rev_ind; [done|]. rewrite last_snoc in Hb. rewrite rev_app_distr.
    exists c. split; [done|]. by intros ->.
  - apply list.Forall_app in Hst as [_ [Hx _]%list.Forall_cons]. destruct (legal_text x Hx) as [Hc Hn].
    rewrite path_of_app, path_of_one. change (ch "\" :: sz_name x.1 x.2) with ([ch "\"] ++ sz_name x.1 x.2).
    rewrite !rev_app_distr. destruct (rev (sz_name x.1 x.2)) as [|c r] eqn:E.
    + apply (f_equal (@rev Z)) in E. rewrite rev_involutive in E. done.
    + exists c. split; [done|]. rewrite list.Forall_forall in Hc. apply Hc. apply list_elem_of_In, in_rev. rewrite E. by left.
Qed.

(** Characters behind the separator of the root. *)
Definition more (l : list Z) (t : dest) : dest := Dest (rev l ++ t_rev t) (t_root t).

Lemma addChar_more rp c t : (rp < length (t_rev t) < SFTMAX)%nat -> addChar rp c t = Some (more [c] t).
Proof.
  intros H. unfold addChar. rewrite (proj2 (Nat.leb_gt _ _)), (proj2 (Nat.eqb_neq _ _)) by lia. done.
Qed.

Lemma more_app l m t : more (l ++ m) t = more m (more l t).
Proof. unfold more. cbn. by rewrite rev_app_distr, app_assoc. Qed.

Lemma src_char_facts c : src_char c -> slash c = false /\ (c =? ch "*") = false /\ (c =? ch ".") = false /\
  (c =? ch "?") = false /\ DirChar c = true.
Proof. intros (H1 & H2 & H3 & H4 & H5). rewrite !Z.eqb_neq. by split_and!. Qed.

(** A part of a name: what does not fit is dropped. *)
Lemma scan_part rp dot rest b : forall i t, Forall src_char b -> (rp < length (t_rev t))%nat ->
  (length (t_rev t) + Nat.min i (length b) <= SFTMAX)%nat ->
  scan_name rp i dot false (b ++ rest) t = scan_name rp (i - length b) dot false rest (more (take i b) t).
Proof.
  induction b as [|c b IH]; intros i t Hb Hrp Hl.
  { cbn [app length]. rewrite Nat.sub_0_r, take_nil. by destruct t. }
  apply list.Forall_cons in Hb as [Hc Hb]. destruct (src_char_facts c Hc) as (H1 & H2 & H3 & H4 & H5).
  cbn [app scan_name]. rewrite H1, H2, H3, H4, H5. cbn [andb orb negb]. destruct i as [|i].
  - rewrite IH by (done || cbn in *; lia). done.
  - cbn [length] in Hl. rewrite addChar_more by lia. rewrite IH; [|done|cbn; lia|cbn; lia].
    cbn [take length Nat.sub]. by rewrite <- more_app.
Qed.

Definition ends_here (rest : list Z) : Prop := match rest with [] => True | c :: _ => slash c = true end.

Lemma scan_stop rp i dot wild rest t : ends_here rest -> scan_name rp i dot wild rest t = Scanned rest t wild.
Proof. destruct rest as [|c rest]; [done|]. cbn. by intros ->. Qed.

Lemma scan_item rp b e rest t : item_ok (Name b e) -> ends_here rest -> (rp < length (t_rev t))%nat ->
  (length (t_rev t) + length (sz_name (take FNAME_SIZE b) (take FEXT_SIZE e)) <= SFTMAX)%nat ->
  scan_name rp FNAME_SIZE false false (sz_name b e ++ rest) t =
    Scanned rest (more (sz_name (take FNAME_SIZE b) (take FEXT_SIZE e)) t) false.
Proof.
  intros (Hne & Hb & He) Hr Hrp Hl. unfold sz_name in *. rewrite length_app, length_take in Hl.
  rewrite <- app_assoc, scan_part by (done || lia). destruct e as [|c e].
  - rewrite (bool_decide_true ([] = [])) by done. rewrite bool_decide_true by done. cbn [app]. rewrite app_nil_r. by apply scan_stop.
  - rewrite (bool_decide_false (c :: e = [])) by done.
    assert (take FEXT_SIZE (c :: e) <> []) as Hne' by done. rewrite bool_decide_false in Hl |- * by done.
    apply list.Forall_cons in He as He'. destruct He' as [Hc _]. destruct (src_char_facts c Hc) as (H1 & _ & _ & _ & _).
    rewrite <- app_comm_cons. cbn [scan_name]. change (slash (ch ".")) with false. change (ch "." =? ch "*") with false.
    change (ch "." =? ch ".") with true. cbn [andb orb]. rewrite <- app_comm_cons, H1, app_comm_cons.
    change (ch "." =? ch "?") with false. change (negb (DirChar (ch "."))) with false. cbv iota. cbn [length] in Hl.
    cbn [Nat.add FEXT_SIZE]. rewrite addChar_more.
    2: { cbn [more t_rev]. rewrite length_app, length_rev, length_take. lia. }
    change (ch "." =? ch ".") with true. cbn [andb]. cbv iota beta.
    rewrite scan_part; [|done|cbn [more t_rev]; rewrite !length_app, !length_rev; cbn; lia|].
    2: { cbn [more t_rev]. rewrite !length_app, !length_rev, length_take. rewrite length_take in Hl.
         change FEXT_SIZE with 3%nat in Hl. cbn [length] in *. lia. }
    rewrite scan_stop by done. by rewrite <- !more_app.
Qed.

(** ** The steps of the scan *)

Lemma more_root l t : t_root (more l t) = t_root t.
Proof. done. Qed.

Section steps.
  Context (base : list Z) (Hlast : list.last base <> Some (ch "\")) (Hbase : base <> []).
#[local] Abbreviation rp := (length base).

Lemma holds_length st : length (t_rev (holds base st)) = (length base + length (path_of st))%nat.
Proof. cbn. by rewrite length_rev, length_app. Qed.

Lemma add_sep st : Forall legal_comp st -> (rp + length (path_of st) < SFTMAX)%nat ->
  exists c, head (t_rev (holds base st)) = Some c /\
    (if c =? t_root (holds base st) then Some (holds base st) else addChar rp (t_root (holds base st)) (holds base st)) =
    Some (more [ch "\"] (holds base st)).
Proof.
  intros Hst Hl. destruct (last_no_slash base st Hlast Hbase Hst) as (c & Hc & Hne). exists c. split; [done|].
  change (t_root (holds base st)) with (ch "\"). rewrite (proj2 (Z.eqb_neq _ _) Hne).
  unfold addChar. rewrite holds_length, (proj2 (Nat.leb_gt _ _)) by lia. unfold more. cbn [rev app].
  by destruct (_ =? _)%nat.
Qed.

Lemma drop_to rp' l r : Forall (fun c => c <> ch "\") l -> (rp' <= length r)%nat ->
  drop_component rp' (l ++ ch "\" :: r) = Some r.
Proof.
  induction l as [|c l IH]; intros Hl Hr; [done|]. apply list.Forall_cons in Hl as [Hc Hl]. cbn [app drop_component].
  rewrite (proj2 (Z.eqb_neq _ _) Hc), (proj2 (Nat.leb_gt _ _)); [by apply IH|]. rewrite length_app. cbn. lia.
Qed.

Lemma drop_spec st : Forall legal_comp st ->
  drop_component rp (t_rev (holds base st)) = match st with [] => None | _ => Some (t_rev (holds base (removelast st))) end.
Proof.
  intros Hst. destruct st as [|x st _] using rev_ind.
  - cbn. rewrite app_nil_r. destruct base as [|c b _] using rev_ind; [done|]. rewrite rev_app_distr. cbn.
    rewrite list.last_snoc in Hlast. rewrite (proj2 (Z.eqb_neq _ _)) by congruence.
    rewrite length_rev, length_app, (proj2 (Nat.leb_le _ _)) by lia. done.
  - rewrite removelast_last. apply list.Forall_app in Hst as [_ [Hx _]%list.Forall_cons].
    destruct (legal_text x Hx) as [Hc _]. cbn [holds t_rev]. rewrite path_of_app, path_of_one, app_assoc, rev_app_distr.
    cbn [rev]. rewrite <- app_assoc. cbn [app]. rewrite drop_to.
    + by destruct st.
    + by apply Forall_rev.
    + rewrite length_rev, length_app. lia.
Qed.

Lemma holds_name st x : more (sz_name x.1 x.2) (more [ch "\"] (holds base st)) = holds base (st ++ [x]).
Proof.
  unfold more, holds. cbn [t_rev t_root]. rewrite path_of_app, path_of_one. f_equal.
  change (ch "\" :: sz_name x.1 x.2) with ([ch "\"] ++ sz_name x.1 x.2). rewrite !rev_app_distr. by rewrite <- !app_assoc.
Qed.

Lemma skip_seps seps rest : Forall (fun c => slash c = true) seps -> skip_slashes (seps ++ rest) = skip_slashes rest.
Proof. induction 1 as [|c l Hc _ IH]; [done|]. cbn. by rewrite Hc. Qed.

Lemma source_ends (l : list (list Z * item)) : Forall seps_ok l -> Forall (fun x => x.1 <> []) l -> ends_here (source l).
Proof.
  intros Hl Hs. destruct l as [|[seps it] l]; [done|]. apply list.Forall_cons in Hl as [[Hq _] _].
  apply list.Forall_cons in Hs as [Hn _]. cbn in *. destruct seps as [|c seps]; [done|]. cbn. by apply list.Forall_cons in Hq as [? _].
Qed.

Lemma text_head it : item_ok it -> exists c l, text it = c :: l /\ slash c = false.
Proof.
  destruct it as [| |b e]; [by eexists _, _..|]. intros (Hne & Hb & _). destruct b as [|c b]; [done|].
  apply list.Forall_cons in Hb as [Hc _]. destruct (src_char_facts c Hc) as (H1 & _). by eexists _, _.
Qed.

Lemma resolve1_legal st it st' : Forall legal_comp st -> item_ok it -> resolve1 st it = Some st' -> Forall legal_comp st'.
Proof.
  intros Hst Hit. destruct it as [| |b e]; cbn.
  - by intros [= <-].
  - destruct st as [|x st _] using rev_ind; [done|]. apply list.Forall_app in Hst as [Hst _].
    rewrite removelast_last. destruct (st ++ [x]); [done|]. by intros [= <-].
  - intros [= <-]. apply list.Forall_app. split; [done|]. constructor; [by apply cut_legal|constructor].
Qed.

(** What one component does to the buffer. *)
Definition after (st : list comp) (l : list (list Z * item)) : scanned :=
  match resolve st (map snd l) with
  | Some st => Scanned [] (holds base st) false
  | None => Bad DE_PATHNOTFND
  end.

Lemma scan_items (l : list (list Z * item)) : forall fuel prev st,
  Forall seps_ok l -> Forall (fun x => x.1 <> []) (tail l) ->
  match l with (seps, _) :: _ => seps <> [] \/ prev <> ch "." | [] => True end ->
  Forall legal_comp st -> room rp st (map snd l) -> (length l < fuel)%nat ->
  scan fuel rp prev (source l) (holds base st) false = Some (after st l).
Proof.
  induction l as [|[seps it] l IH]; intros fuel prev st Hl Ht Hp Hst Hroom Hf; (destruct fuel as [|fuel]; [cbn in Hf; lia|]).
  { done. }
  apply list.Forall_cons in Hl as [[Hq Hit] Hl]. cbn [fst snd tail] in *. cbn [map snd room] in Hroom. destruct Hroom as [Hlt Hroom].
  assert (Hrec : forall prev' st', resolve1 st it = Some st' ->
    scan fuel rp prev' (source l) (holds base st') false = Some (after st ((seps, it) :: l))).
  { intros prev' st' E. rewrite E in Hroom. destruct Hroom as [_ Hroom]. unfold after. cbn [map snd resolve]. rewrite E.
    apply IH; [done|by destruct l; [|apply list.Forall_cons in Ht as [_ ?]]| |by eapply resolve1_legal|done|cbn in Hf; lia].
    destruct l as [|[q i] l']; [done|]. apply list.Forall_cons in Ht as [Hn _]. by left. }
  assert (Hrest : ends_here (source l)) by (by apply source_ends).
  destruct (text_head it Hit) as (c1 & l1 & Etxt & Hc1).
  assert (Esrc : source ((seps, it) :: l) = seps ++ text it ++ source l) by (unfold source; cbn; by rewrite app_assoc).
  rewrite Esrc. cbn [scan]. destruct (add_sep st Hst Hlt) as (c & Hc & Hadd).
  assert (exists c0 r0, seps ++ text it ++ source l = c0 :: r0 /\ (if slash c0 then c0 else prev) <> ch ".") as (c0 & r0 & E0 & Hprev).
  { rewrite Etxt. destruct seps as [|q seps]; [eexists _, _; split; [done|]|].
    - rewrite Hc1. by destruct Hp.
    - eexists _, _. split; [done|]. apply list.Forall_cons in Hq as [Hs _]. rewrite Hs. intros ->. done. }
  rewrite E0, Hc, Hadd, <- E0. rewrite skip_seps by done.
  assert (skip_slashes (text it ++ source l) = text it ++ source l) as -> by (rewrite Etxt; cbn; by rewrite Hc1).
  destruct it as [| |b e]; cbn [text app].
  - rewrite bool_decide_true by done. cbn [tail]. rewrite bool_decide_false.
    2: { destruct (source l) as [|d r]; [done|]. cbn in Hrest |- *. intros [= ->]. done. }
    assert (match source l with [] => true | c2 :: _ => slash c2 end = true) as -> by (by destruct (source l)).
    cbn [more t_rev rev app]. rewrite (proj2 (Z.eqb_neq _ _) Hprev). by apply (Hrec _ st).
  - rewrite bool_decide_true by done. cbn [tail]. rewrite bool_decide_true by done. cbn [tail].
    assert (match source l with [] => true | c2 :: _ => slash c2 end = true) as -> by (by destruct (source l)).
    cbn [more t_rev rev app]. rewrite Z.eqb_refl, drop_spec by done.
    destruct st as [|x st0]; [done|]. by apply (Hrec _ (removelast (x :: st0))).
  - cbv zeta. rewrite bool_decide_false.
    2: { destruct Hit as (Hne & Hb & _). destruct b as [|d b]; [done|]. apply list.Forall_cons in Hb as [Hd _]. cbn.
         intros [= ->]. by destruct Hd as (_ & ? & _). }
    cbn [resolve1] in Hroom. destruct Hroom as [Hfit _].
    pose proof (scan_item rp b e (source l) (more [ch "\"] (holds base st)) Hit Hrest) as Hs. rewrite Hs.
    + change (take FNAME_SIZE b) with (cut b e).1. change (take FEXT_SIZE e) with (cut b e).2. rewrite holds_name. by apply (Hrec 0 (st ++ [cut b e])).
    + cbn [more t_rev rev app length]. rewrite holds_length. lia.
    + rewrite path_of_app, path_of_one, length_app in Hfit. cbn [more t_rev rev app length] in *. rewrite holds_length. cbn in Hfit |- *. lia.
Qed.

End steps.
