(* ===== verification/NewstuffThms.v ===== *)
(** * The resolution of names: the properties *)

From S2P Require Import Prelude Hdr Dpb Blockio BlockioSpec Fattab FattabSpec CacheSpec Fnode Cluster ClusterSpec Names NamesSpec Fatdir.
From S2P Require Import FatdirSpec FatdirThms Newstuff NewstuffSpec.

(** ** The path of a stack of components *)

(** What [dest] holds when the names lead to [st]. *)
Definition drive_path (letter : Z) (st : list comp) : list Z :=
  [letter; ch ":"] ++ match st with [] => [ch "\"] | _ => path_of st end.

(** Upper-casing leaves the separator and the dot alone. *)
Class UpperLaws (S : Type) `{!NameServices S} := {
  up_slash : ns_up_fchar (S := S) (ch "\") = ch "\";
  up_dot : ns_up_fchar (S := S) (ch ".") = ch "." }.

Lemma small_drive drive : 0 <= drive < 32 -> Z.land drive IS_DEVICE = 0 /\ Z.land drive IS_NETWORK = 0.
Proof.
  intros H. assert (drive = drive mod 2 ^ 5) as -> by (symmetry; apply Z.mod_small; lia).
  split; apply Z.bits_inj'; intros n Hn; rewrite Z.land_spec, Z.bits_0; (destruct (decide (n < 5));
    [|rewrite Z.mod_pow2_bits_high by lia; done]).
  all: assert (n = 0 \/ n = 1 \/ n = 2 \/ n = 3 \/ n = 4) as Hc by lia; by decompose [or] Hc; subst n; rewrite andb_false_r.
Qed.

Lemma source_length (l : list (list Z * item)) : Forall seps_ok l -> (length l <= length (source l))%nat.
Proof.
  induction 1 as [|[seps it] l [_ Hit] _ IH]; [done|]. unfold source in *. cbn. rewrite !length_app.
  destruct (text_head it Hit) as (c & r & -> & _). cbn. lia.
Qed.

Section resolved.
  Context {S : Type} `{!BlockCache S, !DosState S, !NameServices S, !UpperLaws S} (cf steps ents : nat).
#[local] Abbreviation up := (ns_up_fchar (S := S)).

Definition up_comp (x : comp) : comp := (map up x.1, map up x.2).

Lemma up_path st : map up (path_of st) = path_of (map up_comp st).
Proof.
  induction st as [|x st IH]; [done|]. change (x :: st) with ([x] ++ st).
  rewrite map_app, !path_of_app, map_app, IH. f_equal. cbn [map]. rewrite !path_of_one. cbn [map]. rewrite up_slash. f_equal.
  unfold sz_name. rewrite map_app. cbn. f_equal. destruct x.2 as [|e l]; [done|].
  rewrite !bool_decide_false by done. cbn. by rewrite up_dot.
Qed.

Lemma path_of_length st : st <> [] -> (1 <= length (path_of st))%nat.
Proof. destruct st; [done|]. cbn. lia. Qed.

Lemma finish_holds letter st : (2 + length (path_of st) <= SFTMAX)%nat ->
  finish_path (S := S) 2 (holds [letter; ch ":"] st) = Some (drive_path letter (map up_comp st)).
Proof.
  intros Hl. unfold finish_path. rewrite holds_length. cbn [length]. destruct st as [|x st].
  - cbn. by rewrite up_slash.
  - rewrite (proj2 (Nat.eqb_neq _ _)) by (assert (1 <= length (path_of (x :: st)))%nat by (by apply path_of_length); lia).
    unfold holds. cbn [t_rev]. rewrite rev_involutive.
    change (take 2 ([letter; ch ":"] ++ path_of (x :: st))) with [letter; ch ":"].
    change (drop 2 ([letter; ch ":"] ++ path_of (x :: st))) with (path_of (x :: st)). by rewrite up_path.
Qed.

(** Where a current directory puts the scan. *)
Lemma start_holds letter tmp cur prev src : cdsBackslashOffset tmp = 2 ->
  Forall legal_comp cur ->
  start_path false letter tmp (drive_path letter cur) prev src =
  match src with
  | c :: src' => if slash c then Some (2%nat, holds [letter; ch ":"] [], c, src')
                 else Some (2%nat, holds [letter; ch ":"] cur, prev, src)
  | [] => Some (2%nat, holds [letter; ch ":"] cur, prev, src)
  end.
Proof.
  intros Ho Hcur. unfold start_path. rewrite Ho. change (Z.to_nat 2) with 2%nat.
  assert (length (drive_path letter cur) <? 2 = false)%nat as -> by (apply Nat.ltb_ge; unfold drive_path; cbn; lia).
  assert (take 2 (drive_path letter cur) = [letter; ch ":"]) as -> by done.
  assert (drop 2 (drive_path letter cur) = match cur with [] => [ch "\"] | _ => path_of cur end) as -> by done.
  assert (forall (p : Z) (r : list Z), (let* last := head (rev ([letter; ch ":"] ++ ch "\" :: tail match cur with [] => [ch "\"] | _ => path_of cur end)) in
    let l := if last =? ch "\" then tail (rev ([letter; ch ":"] ++ ch "\" :: tail match cur with [] => [ch "\"] | _ => path_of cur end))
             else rev ([letter; ch ":"] ++ ch "\" :: tail match cur with [] => [ch "\"] | _ => path_of cur end) in
    Some (2%nat, Dest l (ch "\"), p, r)) = Some (2%nat, holds [letter; ch ":"] cur, p, r)) as Hrel.
  { intros p r. destruct cur as [|x cur']; [done|].
    assert (ch "\" :: tail (path_of (x :: cur')) = path_of (x :: cur')) as -> by done.
    destruct (last_no_slash [letter; ch ":"] (x :: cur')) as (c & Hc & Hne); [done|done|done|].
    unfold holds in Hc. cbn [t_rev] in Hc. rewrite Hc. by rewrite (proj2 (Z.eqb_neq _ _) Hne). }
  destruct src as [|c src]; [apply Hrel|]. destruct (slash c); [done|apply Hrel].
Qed.

(** The scan from a stack, and what follows. *)
Lemma resolve_path_holds mode drive letter st (l : list (list Z * item)) prev fnp (s : S) :
  0 <= drive < 32 -> ns_njoined s = 0 -> Forall seps_ok l -> Forall (fun x => x.1 <> []) (tail l) ->
  match l with (seps, _) :: _ => seps <> [] \/ prev <> ch "." | [] => True end ->
  Forall legal_comp st -> (2 + length (path_of st) <= SFTMAX)%nat -> room 2 st (map snd l) ->
  resolve_path cf steps ents mode drive 2 (holds [letter; ch ":"] st) prev (source l) fnp s =
  match resolve st (map snd l) with
  | Some st' => Some (if mode =? CDS_MODE_ALLOW_WILDCARDS then 0 else drive, drive_path letter (map up_comp st'), fnp, s)
  | None => Some (DE_PATHNOTFND, [], fnp, s)
  end.
Proof.
  intros Hd Hj Hl Ht Hp Hst Hlen Hroom. unfold resolve_path.
  pose proof (source_length l Hl). rewrite (scan_items [letter; ch ":"]) by (done || lia). unfold after.
  destruct (resolve st (map snd l)) as [st'|] eqn:E; [|done]. cbn [andb].
  rewrite finish_holds.
  2: { clear - E Hroom Hlen. revert st Hlen Hroom E. induction (map snd l) as [|it m IH]; intros st Hlen Hroom E.
       - by injection E as <-.
       - cbn [resolve] in E. destruct Hroom as [_ Hroom]. destruct (resolve1 st it) as [st1|]; [|done]. destruct Hroom. by apply (IH st1). }
  assert (at_ (drive_path letter (map up_comp st')) 2 = Some (ch "\")) as -> by (by destruct st').
  change (ch "\" =? ch "/") with false. rewrite Hj. cbn [negb andb]. rewrite andb_false_r.
  assert (Z.land drive (Z.lor IS_DEVICE IS_NETWORK) =? IS_DEVICE = false) as ->.
  { rewrite Z.land_lor_distr_r. by rewrite !(proj2 (small_drive drive Hd)), (proj1 (small_drive drive Hd)). }
  rewrite andb_false_r. cbn [andb negb]. rewrite andb_false_r. done.
Qed.

(** ** A drive of the machine *)

(** Neither a network drive nor a substituted one; [cur] is its current directory. *)
Record local_drive (drive : Z) (tmp : cds) (cur : list comp) (s : S) : Prop := {
  ld_cds : get_cds drive s = Some tmp;
  ld_letter : 0 <= drive < 32;
  ld_net : Z.land (cdsFlags tmp) CDSNETWDRV = 0;
  ld_subst : Z.land (cdsFlags tmp) CDSSUBST = 0;
  ld_off : cdsBackslashOffset tmp = 2;
  ld_path : cdsCurrentPath tmp = drive_path (drive + ch "A") cur;
  ld_comps : Forall legal_comp cur;
  ld_fits : (length (cdsCurrentPath tmp) < MAX_CDSPATH)%nat }.

(** Entering the current directory; when it is gone from the medium, the root
    directory is the current one. *)
Inductive entered (drive : Z) (tmp : cds) (cur : list comp) (fnp : f_node) (s : S) : list comp -> f_node -> S -> Prop :=
  | entered_current rc s1 fnp' s' :
      ds_media_check (cdsDpb tmp) s = Some (rc, s1) -> 0 <= rc ->
      dos_cd cf steps ents (cdsCurrentPath tmp) fnp s1 = Some (SUCCESS, fnp', s') ->
      entered drive tmp cur fnp s cur fnp' s'
  | entered_root rc s1 rc1 fnp1 s2 rc2 fnp' s' :
      ds_media_check (cdsDpb tmp) s = Some (rc, s1) -> 0 <= rc ->
      dos_cd cf steps ents (cdsCurrentPath tmp) fnp s1 = Some (rc1, fnp1, s2) -> rc1 <> SUCCESS ->
      dos_cd cf steps ents (drive_path (drive + ch "A") []) fnp1 (ns_cut_path drive 2 s2) = Some (rc2, fnp', s') ->
      entered drive tmp cur fnp s [] fnp' s'.

Lemma current_dir_entered drive tmp cur s0 fnp s st fnp' s' : local_drive drive tmp cur s0 ->
  entered drive tmp cur fnp s st fnp' s' ->
  current_dir cf steps ents drive tmp fnp s = Some (Some (drive_path (drive + ch "A") st), fnp', s') /\
  Forall legal_comp st /\ (2 + length (path_of st) <= SFTMAX)%nat.
Proof.
  intros [D1 D2 D3 D4 D5 D6 D7 D8] Hent. unfold current_dir. rewrite D3.
  assert (take (MAX_CDSPATH - 1) (cdsCurrentPath tmp) = cdsCurrentPath tmp) as -> by (apply take_ge; unfold MAX_CDSPATH in *; lia).
  destruct Hent as [rc s1 fnp' s' Hm Hrc Hcd|rc s1 rc1 fnp1 s2 rc2 fnp' s' Hm Hrc Hcd Hne Hcd2];
    rewrite Hm; cbn [Z.eqb]; rewrite (proj2 (Z.ltb_ge _ _) Hrc), Hcd.
  - change (SUCCESS =? SUCCESS) with true. cbv iota. rewrite <- D6. split_and!; [done|done|].
    rewrite D6 in D8. unfold drive_path in D8. destruct cur; [by apply Nat.leb_le|]. rewrite length_app in D8.
    change MAX_CDSPATH with 67%nat in D8. change SFTMAX with 128%nat. cbn [length] in D8. lia.
  - rewrite (proj2 (Z.eqb_neq _ _) Hne), D5.
    assert (take (Z.to_nat (2 + 1)) (cdsCurrentPath tmp) = drive_path (drive + ch "A") []) as -> by (rewrite D6; by destruct cur).
    rewrite Hcd2. split_and!; [done|constructor|by apply Nat.leb_le].
Qed.

(** ** The text of a name *)

(** An optional drive, an optional separator for the root directory, and
    components. *)
Record name_text (before : Z) (dr root : list Z) (l : list (list Z * item)) (src : list Z) : Prop := {
  nt_src : src = dr ++ root ++ source l;
  nt_items : sources_ok l;
  nt_drive : dr = [] \/ exists c, dr = [c; ch ":"];
  nt_root : root = [] /\ match l with [] => True | x :: _ => x.1 = [] end \/ exists c, root = [c] /\ slash c = true;
  nt_before : dr = [] -> before <> ch ".";
  nt_some : src <> [];
  nt_local : take 2 src <> str "\\" }.

Lemma source_colon (l : list (list Z * item)) : Forall seps_ok l -> Forall (fun c => c <> ch ":") (source l).
Proof.
  assert (forall b, Forall src_char b -> Forall (fun c => c <> ch ":") b) as Hc.
  { intros b. apply Forall_impl. intros c (H & _) ->. done. }
  induction 1 as [|[seps it] l [Hs Hit] _ IH]; [constructor|]. unfold source in *. cbn in *.
  rewrite !list.Forall_app. split_and!; [| |done].
  - eapply Forall_impl; [|exact Hs]. cbn. by intros c H ->.
  - destruct it as [| |b e]; [by repeat constructor..|]. destruct Hit as (_ & Hb & He). cbn. unfold sz_name.
    apply list.Forall_app. split; [by apply Hc|]. case_bool_decide; [constructor|]. constructor; [done|by apply Hc].
Qed.

Lemma no_drive_prefix (before : Z) src : Forall (fun c => c <> ch ":") (tail src) ->
  match src with _ :: 58 :: r => (58, r) | _ => (before, src) end = (before, src).
Proof.
  destruct src as [|a [|b r]]; [done..|]. cbn [tail]. intros [Hb _]%list.Forall_cons.
  change (ch ":") with 58 in Hb. by repeat (destruct b as [|b|b]; try done).
Qed.

Lemma name_text_strip before dr root l src : name_text before dr root l src ->
  match src with _ :: 58 :: r => (58, r) | _ => (before, src) end =
    (if bool_decide (dr = []) then before else ch ":", root ++ source l).
Proof.
  intros [N1 [N2 _] N3 N4 _ _ _]. subst src. destruct N3 as [->|[c ->]]; [|done].
  rewrite bool_decide_true by done. cbn [app]. apply no_drive_prefix. pose proof (source_colon l N2) as H.
  destruct N4 as [[-> _]|(c & -> & _)]; cbn [app tail]; [|done]. by destruct (source l); [|apply list.Forall_cons in H as [_ ?]].
Qed.

(** On such a drive the name is resolved from the current or the root directory. *)
Lemma truename_local before src mode drive tmp cur st0 fnp fnp' rc r (s s' : S) prev src2 :
  src <> [] -> take 2 src <> str "\\" -> drive = drive_of src s -> local_drive drive tmp cur s ->
  Z.land mode CDS_MODE_SKIP_PHYSICAL = 0 ->
  IsDevice src (ns_set_ldt drive s) = None ->
  ns_qremote src (ns_set_ldt drive s) = Some (rc, r, ns_set_ldt drive s) -> rc <> SUCCESS ->
  entered drive tmp cur fnp (ns_set_ldt drive s) st0 fnp' s' ->
  match src with _ :: 58 :: r => (58, r) | _ => (before, src) end = (prev, src2) ->
  truename cf steps ents before src mode fnp s =
  match src2 with
  | c :: r => if slash c then resolve_path cf steps ents mode drive 2 (holds [drive + ch "A"; ch ":"] []) c r fnp' s'
              else resolve_path cf steps ents mode drive 2 (holds [drive + ch "A"; ch ":"] st0) prev src2 fnp' s'
  | [] => resolve_path cf steps ents mode drive 2 (holds [drive + ch "A"; ch ":"] st0) prev src2 fnp' s'
  end.
Proof.
  intros N6 N7 Hdr Hld Hmode Hdev Hq Hrc Hent Hstrip. pose proof Hld as [D1 D2 D3 D4 D5 D6 D7 D8].
  destruct (current_dir_entered drive tmp cur s fnp _ st0 fnp' s' Hld Hent) as (Hcur & Hst0 & Hlen).
  unfold truename. rewrite (bool_decide_false (src = [])), (bool_decide_false (take 2 src = _)) by done.
  rewrite <- Hdr, D1, D3, Hdev, Hmode, Hq. cbn [Z.eqb negb]. rewrite (proj2 (Z.eqb_neq rc _)) by done. cbn [andb].
  rewrite Hstrip. unfold device_part.
  assert (Z.land drive IS_DEVICE = 0) as -> by (by apply small_drive). cbn [Z.eqb].
  change (ch "\" =? ch "/") with false. cbv iota beta. rewrite Hcur. unfold subst_result. rewrite D4.
  cbn [Z.eqb negb andb].
  assert (Z.land drive 31 = drive) as -> by (change 31 with (Z.ones 5); rewrite Z.land_ones, Z.mod_small; lia).
  rewrite start_holds by done. destruct src2 as [|c r2]; [done|]. by destruct (slash c).
Qed.

Lemma truename_spec before dr root l src mode drive tmp cur st0 fnp fnp' rc r (s s' : S) :
  name_text before dr root l src -> drive = drive_of src s ->
  local_drive drive tmp cur s ->
  Z.land mode CDS_MODE_SKIP_PHYSICAL = 0 ->
  IsDevice src (ns_set_ldt drive s) = None ->
  ns_qremote src (ns_set_ldt drive s) = Some (rc, r, ns_set_ldt drive s) -> rc <> SUCCESS ->
  entered drive tmp cur fnp (ns_set_ldt drive s) st0 fnp' s' -> ns_njoined s' = 0 ->
  let start := if bool_decide (root = []) then st0 else [] in
  room 2 start (map snd l) ->
  truename cf steps ents before src mode fnp s =
  match resolve start (map snd l) with
  | Some st => Some (if mode =? CDS_MODE_ALLOW_WILDCARDS then 0 else drive,
                     drive_path (drive + ch "A") (map up_comp st), fnp', s')
  | None => Some (DE_PATHNOTFND, [], fnp', s')
  end.
Proof.
  intros Hn Hdr Hld Hmode Hdev Hq Hrc Hent Hj start Hroom.
  pose proof (name_text_strip before dr root l src Hn) as Hstrip. destruct Hn as [N1 [N2 N2'] N3 N4 N5 N6 N7].
  pose proof (ld_letter _ _ _ _ Hld) as D2.
  destruct (current_dir_entered drive tmp cur s fnp _ st0 fnp' s' Hld Hent) as (_ & Hst0 & Hlen).
  rewrite (truename_local before src mode drive tmp cur st0 fnp fnp' rc r s s' _ _ N6 N7 Hdr Hld Hmode Hdev Hq Hrc Hent Hstrip).
  subst start.
  assert (Hgo : forall (st : list comp) prev, Forall legal_comp st -> (2 + length (path_of st) <= SFTMAX)%nat ->
    match l with (seps, _) :: _ => seps <> [] \/ prev <> ch "." | [] => True end -> room 2 st (map snd l) ->
    resolve_path cf steps ents mode drive 2 (holds [drive + ch "A"; ch ":"] st) prev (source l) fnp' s' =
    match resolve st (map snd l) with
    | Some st => Some (if mode =? CDS_MODE_ALLOW_WILDCARDS then 0 else drive, drive_path (drive + ch "A") (map up_comp st), fnp', s')
    | None => Some (DE_PATHNOTFND, [], fnp', s')
    end) by (intros st prev H1 H2 H3 H4; by apply resolve_path_holds).
  destruct N4 as [[-> Hrel]|(c & -> & Hc)].
  - rewrite (bool_decide_true (@nil Z = [])) in Hroom |- * by done. cbn [app].
    assert (match source l with [] => True | c :: _ => slash c = false end) as Hns.
    { destruct l as [|[seps it] l']; [done|]. cbn in Hrel. subst seps. apply list.Forall_cons in N2 as [[_ Hit] _].
      destruct (text_head it Hit) as (c & r' & E & Hc). unfold source. cbn. by rewrite E. }
    assert (Hp : forall prev, prev <> ch "." -> match l with (seps, _) :: _ => seps <> [] \/ prev <> ch "." | [] => True end).
    { intros prev Hp. destruct l as [|[seps it] l']; [done|]. by right. }
    assert ((if bool_decide (dr = []) then before else ch ":") <> ch ".") as Hb by (case_bool_decide; auto).
    specialize (Hgo st0 _ Hst0 Hlen (Hp _ Hb) Hroom). by destruct (source l) as [|c r']; [|rewrite Hns].
  - rewrite (bool_decide_false ([c] = [])) in Hroom |- * by done. cbn [app]. rewrite Hc.
    apply (Hgo []); [constructor|by apply Nat.leb_le| |done].
    destruct l as [|[seps it] l']; [done|]. right. intros ->. done.
Qed.

(** C8: the resolution of a name.  The text of a name on a drive of the machine
    resolves to the path its components lead to from the current directory, or
    from the root directory when it begins with a separator: [.] stays, [..] goes
    up, every other component is cut to 8.3 and upper-cased, however many
    separators there are.  A [..] in the root directory is the error of a path
    not found.  The name is not that of a device, no drive is joined, the current
    directory can be entered ([entered]), and the paths on the way fit the buffer
    ([room]). *)
Theorem truename_resolves before dr root l src mode drive tmp cur st0 fnp fnp' rc r (s s' : S) :
  name_text before dr root l src -> drive = drive_of src s ->
  local_drive drive tmp cur s ->
  Z.land mode CDS_MODE_SKIP_PHYSICAL = 0 ->
  IsDevice src (ns_set_ldt drive s) = None ->
  ns_qremote src (ns_set_ldt drive s) = Some (rc, r, ns_set_ldt drive s) -> rc <> SUCCESS ->
  entered drive tmp cur fnp (ns_set_ldt drive s) st0 fnp' s' -> ns_njoined s' = 0 ->
  let start := if bool_decide (root = []) then st0 else [] in
  room 2 start (map snd l) ->
  truename cf steps ents before src mode fnp s =
  match resolve start (map snd l) with
  | Some st => Some (if mode =? CDS_MODE_ALLOW_WILDCARDS then 0 else drive,
                     drive_path (drive + ch "A") (map up_comp st), fnp', s')
  | None => Some (DE_PATHNOTFND, [], fnp', s')
  end.
Proof.
  by apply (truename_spec before dr root).
Qed.

(** The longest path: fourteen components of eight characters. *)
Definition deep : list (list Z * item) := ([], Name (str "ABCDEFGH") []) :: replicate 13 (str "\", Name (str "ABCDEFGH") []).

(** The buffer is one byte short.  A name below the limits resolves to 128
    characters on any drive of the machine; [dest] has 128 bytes, and the zero
    behind the path is the byte after them. *)
Theorem path_overruns_buffer before src drive tmp cur st0 fnp fnp' rc r (s s' : S) :
  src = str "\" ++ source deep -> drive = drive_of src s -> local_drive drive tmp cur s ->
  IsDevice src (ns_set_ldt drive s) = None ->
  ns_qremote src (ns_set_ldt drive s) = Some (rc, r, ns_set_ldt drive s) -> rc <> SUCCESS ->
  entered drive tmp cur fnp (ns_set_ldt drive s) st0 fnp' s' -> ns_njoined s' = 0 -> before <> ch "." ->
  exists d, truename cf steps ents before src 0 fnp s = Some (drive, d, fnp', s') /\ length d = 128%nat.
Proof.
  intros Hsrc Hdr Hld Hdev Hq Hrc Hent Hj Hb.
  assert (name_text before [] (str "\") deep src) as Hn.
  { split; [done| |by left|by right; exists 92|done|by rewrite Hsrc|by rewrite Hsrc].
    split; [|by repeat constructor]. unfold deep. constructor; [|apply list.Forall_replicate];
      (split; [by repeat constructor|]; split_and!; [done|by repeat constructor|constructor]). }
  exists (drive_path (drive + ch "A") (map up_comp (replicate 14 (str "ABCDEFGH", [])))).
  rewrite (truename_spec before [] (str "\") deep src 0 drive tmp cur st0 fnp fnp' rc r s s' Hn Hdr Hld eq_refl Hdev Hq Hrc Hent Hj).
  - done.
  - vm_compute. repeat split; repeat constructor.
Qed.

End resolved.

(** ** Calls on the small volume *)

(** Drive C, no network, no devices. *)
#[export] Instance sample_names : NameServices (bio disk) := {
  ns_set_ldt _ s := s;
  ns_cut_path _ _ s := s;
  ns_default_drive _ := 2;
  ns_njoined _ := 0;
  ns_qremote _ s := Some (DE_INVLDFUNC, [], s);
  ns_devices _ := [];
  ns_up_fchar c := if (97 <=? c) && (c <=? 122) then c - 32 else c;
  ns_os_major _ := 7 }.

#[export] Instance sample_upper : UpperLaws (bio disk).
Proof. by split. Qed.

Definition sample_cds : cds := Cds (str "C:\") 0x4000 77 0 2.

Lemma sample_drive : local_drive 2 sample_cds [] dir_bio.
Proof. split; try done; try lia; by apply Nat.leb_le. Qed.

Lemma sample_entered : exists fnp' s', entered 5 10 ENTS 2 sample_cds [] sample_node dir_bio [] fnp' s'.
Proof.
  assert (match dos_cd 5 10 ENTS (str "C:\") sample_node dir_bio with Some (rc, _, _) => Some rc | None => None end = Some SUCCESS) as E
    by (vm_compute; reflexivity).
  destruct (dos_cd 5 10 ENTS (str "C:\") sample_node dir_bio) as [[[rc fnp'] s']|] eqn:Ecd; [|discriminate E].
  injection E as ->. exists fnp', s'. by apply (entered_current _ _ _ _ _ _ _ _ SUCCESS dir_bio).
Qed.

(** Up and down again, with a doubled separator and a name to be cut. *)
Definition sample_items : list (list Z * item) :=
  [([], Name (str "SUB") []); (str "\", DotDot); (str "\", Dot); (str "\/", Name (str "Database01") (str "Texts"))].

Lemma truename_resolves_witness : exists fnp' s',
  truename 5 10 ENTS 0 (str "c:\SUB\..\.\/Database01.Texts") 0 sample_node dir_bio =
    Some (2, str "C:\DATABASE.TEX", fnp', s').
Proof.
  destruct sample_entered as (fnp' & s' & Hent). exists fnp', s'.
  assert (name_text 0 (str "c:") (str "\") sample_items (str "c:\SUB\..\.\/Database01.Texts")) as Hn.
  { split; try done; [|by right; exists 99|by right; exists 92].
    split; [|by repeat constructor]. repeat apply list.Forall_cons_2; try constructor; cbn; try done; try (by repeat constructor).
    all: split_and!; try done; repeat constructor; by vm_compute. }
  pose proof (truename_resolves 5 10 ENTS 0 (str "c:") (str "\") sample_items (str "c:\SUB\..\.\/Database01.Texts") 0 2
    sample_cds [] [] sample_node fnp' DE_INVLDFUNC [] dir_bio s' Hn eq_refl sample_drive eq_refl eq_refl eq_refl) as H.
  apply H; [done|exact Hent|done|]. vm_compute. repeat split; repeat constructor.
Defined.

Lemma path_overruns_buffer_witness : exists d fnp' s',
  truename 5 10 ENTS 0 (str "\" ++ source deep) 0 sample_node dir_bio = Some (2, d, fnp', s') /\ length d = 128%nat.
Proof.
  destruct sample_entered as (fnp' & s' & Hent).
  assert (2 = drive_of (str "\" ++ source deep) dir_bio) as Hd by (vm_compute; reflexivity).
  assert (IsDevice (str "\" ++ source deep) dir_bio = None) as Hdev by (vm_compute; reflexivity).
  destruct (path_overruns_buffer 5 10 ENTS 0 _ 2 sample_cds [] [] sample_node fnp' DE_INVLDFUNC [] dir_bio s' eq_refl Hd
    sample_drive Hdev eq_refl) as (d & E & Hl); [discriminate|exact Hent|reflexivity|discriminate|].
  exists d, fnp', s'. exact (conj E Hl).
Defined.
