(* ===== verification/NewstuffSafe.v ===== *)
(** * The resolution of names: what every string leads to

    [NewstuffThms] follows well-formed names.  Here the string is arbitrary. *)

From S2P Require Import Prelude Hdr Dpb Blockio Fattab FattabSpec Fnode Names NamesSpec Fatdir FatdirSpec.
From S2P Require Import FatdirThms Newstuff NewstuffSpec NewstuffThms.

(** ** Names in 8.3 form *)

(** A character of a name in a path; a question mark is a wildcard. *)
Definition path_char (wild : bool) (c : Z) : Prop :=
  DirChar c = true /\ c <> ch "." /\ slash c = false /\ c <> ch "*" /\ (wild = false -> c <> ch "?").

Definition comp83 (wild : bool) (x : comp) : Prop :=
  x.1 <> [] /\ (length x.1 <= FNAME_SIZE)%nat /\ (length x.2 <= FEXT_SIZE)%nat /\
  Forall (path_char wild) x.1 /\ Forall (path_char wild) x.2.

Lemma path_char_weaken wild wild' c : path_char wild c -> path_char (wild || wild') c.
Proof. intros (H1 & H2 & H3 & H4 & H5). split_and!; [done..|]. intros [Hw _]%orb_false_elim. auto. Qed.

Lemma path_chars_weaken wild wild' l : Forall (path_char wild) l -> Forall (path_char (wild || wild')) l.
Proof. apply Forall_impl. intros c. apply path_char_weaken. Qed.

Lemma comp83_legal st : Forall (comp83 false) st -> Forall legal_comp st.
Proof.
  apply Forall_impl. intros x (H1 & _ & _ & H2 & H3). split; [done|].
  split; (eapply Forall_impl; [|eassumption]); intros c (? & ? & ? & ? & H); split_and!; auto.
Qed.

Definition is_path_error (e : Z) : Prop := e = DE_PATHNOTFND \/ e = DE_FILENOTFND.

Lemma path_error_is src : is_path_error (path_error src).
Proof. unfold path_error. destruct (existsb slash src); [by left|by right]. Qed.

#[local] Hint Resolve path_error_is : core.

(** ** Adding characters *)

Lemma addChar_some rp c t t' : (rp < length (t_rev t))%nat -> addChar rp c t = Some t' ->
  t' = more [c] t /\ (length (t_rev t') <= SFTMAX)%nat.
Proof.
  intros Hrp. unfold addChar. destruct (Nat.leb_spec SFTMAX (length (t_rev t))); [done|].
  rewrite (proj2 (Nat.eqb_neq _ _)) by lia. intros [= <-]. cbn [t_rev length]. split; [done|lia].
Qed.

Lemma add_chars_some rp l : forall t t', (rp < length (t_rev t) <= SFTMAX)%nat -> add_chars rp l t = Some t' ->
  t' = more l t /\ (length (t_rev t') <= SFTMAX)%nat.
Proof.
  induction l as [|c l IH]; intros t t' [Hrp Hl0] E.
  - injection E as <-. split; [by destruct t|done].
  - cbn in E. destruct (addChar rp c t) as [t1|] eqn:E1; [|done]. destruct (addChar_some _ _ _ _ Hrp E1) as [-> Hl].
    assert (rp < length (t_rev (more [c] t)) <= SFTMAX)%nat as Hrp1 by (split; [cbn; lia|done]).
    destruct (IH _ _ Hrp1 E) as [-> Hl2]. split; [by rewrite <- more_app|done].
Qed.

(** ** One component *)

Lemma scan_name_shrinks rp : forall src i dot wild t,
  match scan_name rp i dot wild src t with
  | Bad e => is_path_error e
  | Scanned src' _ _ => (length src' <= length src)%nat /\ ends_here src' /\
      match src with c :: _ => slash c = false -> (length src' < length src)%nat | [] => True end
  end.
Proof.
  induction src as [|c src IH]; intros i dot wild t; [done|]. cbn [scan_name]. destruct (slash c) eqn:Hc.
  { by split_and!. }
  destruct (c =? ch "*"); [destruct (add_chars rp (replicate i (ch "?")) t) as [t1|]; [|auto]|]; cbv beta iota zeta.
  all: match goal with |- context [if ?b && ?d then _ else _] => destruct (b && d); [auto|] end.
  all: match goal with |- context [if ?b && ?e then _ else _] =>
      assert (e = true -> ends_here src) as He by (by destruct src); destruct (b && e) eqn:E;
        [apply andb_prop in E as [_ E]; split_and!; [cbn; lia|auto|cbn; lia]|clear E He] end.
  all: try match goal with |- context [(if ?b then (true, _) else _)] => destruct b end.
  all: repeat match goal with
    | |- context [match ?i with O => _ | Datatypes.S _ => _ end] => destruct i
    | |- context [if negb ?b then _ else _] => destruct b; cbn [negb]; [|by auto]
    | |- context [match addChar ?r ?c ?t with Some _ => _ | None => _ end] => destruct (addChar r c t); [|by auto]
    | |- context [scan_name ?r ?i ?d ?w ?s ?t] => pose proof (IH i d w t); destruct (scan_name r i d w s t) as [|s1 t2 w1]; [done|]
    end.
  all: match goal with H : _ /\ ends_here _ /\ _ |- _ => destruct H as (? & ? & _) end; split_and!; [cbn; lia|done|intros _; cbn; lia].
Qed.

(** The part of a component that is in the buffer. *)
Definition partial (b e : list Z) (dot : bool) : list Z := b ++ if dot then ch "." :: e else [].

Definition add_b (dot : bool) (b l : list Z) : list Z := if dot then b else b ++ l.
Definition add_e (dot : bool) (e l : list Z) : list Z := if dot then e ++ l else e.

(** [i] more characters fit behind the part. *)
Record part83 (wild dot : bool) (i : nat) (b e : list Z) : Prop := {
  p_base : Forall (path_char wild) b;
  p_ext : Forall (path_char wild) e;
  p_size : if dot then b <> [] /\ (length b <= FNAME_SIZE /\ length e + i <= FEXT_SIZE)%nat
           else (length b + i <= FNAME_SIZE)%nat /\ e = [] }.

Lemma part83_comp wild dot i b e : part83 wild dot i b e -> (if dot then e else b) <> [] ->
  comp83 wild (b, e) /\ partial b e dot = sz_name b e.
Proof.
  intros [H1 H2 H3] Hne. unfold comp83, partial, sz_name. cbn. destruct dot.
  - rewrite bool_decide_false by done. destruct H3 as (? & ? & ?). split_and!; (done || lia).
  - destruct H3 as [? ->]. rewrite bool_decide_true by done. split_and!; (done || cbn; lia).
Qed.

Lemma part83_add wild wild' dot i k l b e : part83 wild dot i b e -> Forall (path_char (wild || wild')) l ->
  (length l + k <= i)%nat -> part83 (wild || wild') dot k (add_b dot b l) (add_e dot e l).
Proof.
  intros [H1 H2 H3] Hl Hk. apply path_chars_weaken with (wild' := wild') in H1, H2.
  destruct dot; split; cbn; try done; try (by apply list.Forall_app); rewrite ?length_app.
  - destruct H3 as (? & ? & ?). split; [done|]. lia.
  - destruct H3 as (? & ->). split; [lia|done].
Qed.

Lemma more_partial pre b e dot l :
  more l (Dest (rev (pre ++ partial b e dot)) (ch "\")) = Dest (rev (pre ++ partial (add_b dot b l) (add_e dot e l) dot)) (ch "\").
Proof.
  unfold more, partial. cbn. f_equal. rewrite <- rev_app_distr. f_equal. destruct dot; cbn; by rewrite <- ?app_assoc, ?app_nil_r.
Qed.

Definition name_at (pre : list Z) (r : scanned) : Prop :=
  match r with
  | Bad _ => True
  | Scanned _ t wild => exists x, comp83 wild x /\ t = Dest (rev (pre ++ sz_name x.1 x.2)) (ch "\") /\ (length (t_rev t) <= SFTMAX)%nat
  end.

Lemma name_at_stop pre src wild dot i b e : part83 wild dot i b e -> (if dot then e else b) <> [] ->
  (length (pre ++ partial b e dot) <= SFTMAX)%nat ->
  name_at pre (Scanned src (Dest (rev (pre ++ partial b e dot)) (ch "\")) wild).
Proof.
  intros Hp Hne Hl. destruct (part83_comp _ _ _ _ _ Hp Hne) as [Hc E]. exists (b, e).
  change (sz_name (b, e).1 (b, e).2) with (sz_name b e). rewrite <- E. split_and!; [done|done|]. cbn [t_rev]. by rewrite length_rev.
Qed.

(** The first character of a part may still be missing. *)
Definition started (dot : bool) (i : nat) (b e src : list Z) : Prop :=
  (if dot then e else b) = [] -> exists c r, src = c :: r /\ slash c = false /\ (c <> ch "." \/ dot = true) /\ (0 < i)%nat.

Lemma add_started (dot : bool) k (b e l src : list Z) : l <> [] \/ (if dot then e else b) <> [] -> started dot k (add_b dot b l) (add_e dot e l) src.
Proof. unfold started. intros H. destruct dot; cbn; intros [E1 E2]%app_nil; by destruct H. Qed.

Lemma scan_name_shape rp pre : (rp < length pre)%nat -> forall src i dot wild b e,
  (length (pre ++ partial b e dot) <= SFTMAX)%nat -> part83 wild dot i b e -> started dot i b e src ->
  name_at pre (scan_name rp i dot wild src (Dest (rev (pre ++ partial b e dot)) (ch "\"))).
Proof.
  intros Hrp. induction src as [|c src IH]; intros i dot wild b e Hl Hp Hs.
  { eapply name_at_stop; [done| |done]. intros Hn. by destruct (Hs Hn) as (? & ? & ? & _). }
  assert (forall b' e' d, (rp < length (t_rev (Dest (rev (pre ++ partial b' e' d)) (ch "\"))))%nat) as Hpos.
  { intros. cbn. rewrite length_rev, length_app. lia. }
  cbn [scan_name]. destruct (slash c) eqn:Hc.
  { eapply name_at_stop; [done| |done]. intros Hn. destruct (Hs Hn) as (? & ? & [= <- <-] & ? & _). by rewrite Hc in *. }
  destruct (Z.eqb_spec c (ch "*")) as [->|Hstar].
  - destruct (add_chars rp (replicate i (ch "?")) _) as [t1|] eqn:E; [|done].
    apply add_chars_some in E as [-> Hl1]; [|split; [apply Hpos|by cbn; rewrite length_rev]].
    rewrite more_partial in Hl1 |- *. cbn [t_rev] in Hl1. rewrite length_rev in Hl1.
    change (ch "?" =? ch ".") with false. change (ch "?" =? ch "?") with true. cbn [andb]. apply IH; [done| |].
    + eapply part83_add; [done| |rewrite length_replicate; lia]. rewrite orb_true_r. by apply list.Forall_replicate.
    + apply add_started. destruct (decide ((if dot then e else b) = [])) as [Hn|]; [left|by right].
      destruct (Hs Hn) as (? & ? & _ & _ & _ & Hi). by destruct i; [lia|].
  - destruct (Z.eqb_spec c (ch ".")) as [->|Hdot].
    + destruct dot; [done|]. cbn [andb].
      assert (b <> []) as Hb. { intros Hn. by destruct (Hs Hn) as (? & ? & [= <- <-] & _ & [?|?] & _). }
      destruct (match src with [] => true | d :: _ => slash d end) eqn:Hend; [by eapply name_at_stop|].
      change (ch "." =? ch "?") with false. cbn [Nat.add FEXT_SIZE]. change (negb (DirChar (ch "."))) with false. cbv iota.
      destruct (addChar rp (ch ".") _) as [t1|] eqn:E; [|done]. apply addChar_some in E as [-> Hl1]; [|apply Hpos].
      destruct Hp as [P1 P2 [P3 ->]].
      assert (more [ch "."] (Dest (rev (pre ++ partial b [] false)) (ch "\")) = Dest (rev (pre ++ partial b [] true)) (ch "\")) as E.
      { unfold more, partial. cbn [t_rev t_root]. rewrite app_nil_r. f_equal. rewrite <- rev_app_distr. by rewrite <- app_assoc. }
      rewrite E in Hl1 |- *. cbn [t_rev] in Hl1. rewrite length_rev in Hl1. rewrite orb_false_r. apply IH; [done| |].
      * split; [done|constructor|]. split_and!; [done|lia|by apply Nat.leb_le].
      * intros _. destruct src as [|d r]; [done|]. exists d, r. split_and!; [done|done|by right|lia].
    + cbn [andb]. assert (Forall (path_char (wild || (c =? ch "?"))) [] ) as Hnil by constructor.
      destruct i as [|i].
      * assert ((if dot then e else b) <> []) as Hne. { intros Hn. destruct (Hs Hn) as (? & ? & _ & _ & _ & ?). lia. }
        apply IH; [done| |by intros Hn]. destruct Hp as [P1 P2 P3]. by split; [apply path_chars_weaken..|].
      * destruct (DirChar c) eqn:Hd; [|done]. cbn [negb]. destruct (addChar rp c _) as [t1|] eqn:E; [|done].
        apply addChar_some in E as [-> Hl1]; [|apply Hpos]. rewrite more_partial in Hl1 |- *. cbn [t_rev] in Hl1.
        rewrite length_rev in Hl1. apply IH; [done| |apply add_started; by left].
        eapply part83_add; [done| |cbn; lia]. constructor; [|constructor]. split_and!; [done..|].
        intros [_ Hq]%orb_false_elim. by apply Z.eqb_neq.
Qed.

(** ** The whole scan *)

Definition good_path (base : list Z) (r : scanned) : Prop :=
  match r with
  | Bad e => is_path_error e
  | Scanned src t wild => src = [] /\ exists st tl, t = more tl (holds base st) /\ (tl = [] \/ tl = [ch "\"]) /\
      Forall (comp83 wild) st /\ (length (t_rev t) <= SFTMAX)%nat
  end.

Lemma skip_slashes_spec src : (length (skip_slashes src) <= length src)%nat /\
  match skip_slashes src with c :: _ => slash c = false | [] => True end.
Proof.
  induction src as [|c src [IH1 IH2]]; [done|]. cbn [skip_slashes]. destruct (slash c) eqn:E; [|done].
  split; [cbn; lia|done].
Qed.

Lemma shorter (st : list comp) : (length (path_of (removelast st)) <= length (path_of st))%nat.
Proof.
  destruct st as [|x st _] using rev_ind; [done|]. rewrite removelast_last, path_of_app, length_app. lia.
Qed.

Section whole.
  Context (base : list Z) (Hlast : list.last base <> Some (ch "\")) (Hbase : base <> []).
#[local] Abbreviation rp := (length base).

Lemma scan_end fuel prev t wild : (0 < fuel)%nat -> scan fuel rp prev [] t wild = Some (Scanned [] t wild).
Proof. by destruct fuel; [lia|]. Qed.

Lemma scan_wild fuel prev src t : (0 < fuel)%nat -> scan fuel rp prev src t true =
  Some (match src with [] => Scanned [] t true | _ => Bad DE_PATHNOTFND end).
Proof. by destruct fuel, src; [lia|lia| |]. Qed.

Lemma good_holds wild st tl : Forall (comp83 wild) st -> tl = [] \/ tl = [ch "\"] ->
  (length base + length (path_of st) + length tl <= SFTMAX)%nat -> good_path base (Scanned [] (more tl (holds base st)) wild).
Proof.
  intros Hst Htl Hl. split; [done|]. exists st, tl. split_and!; [done..|]. cbn. rewrite length_app, !length_rev, length_app. lia.
Qed.

Lemma scan_safe : forall fuel prev src st, Forall (comp83 false) st -> (rp + length (path_of st) <= SFTMAX)%nat ->
  (length src < fuel)%nat -> exists r, scan fuel rp prev src (holds base st) false = Some r /\ good_path base r.
Proof.
  induction fuel as [|fuel IH]; intros prev src st Hst Hl Hf; [lia|]. destruct src as [|c0 src0]; cbn [scan].
  { eexists. split; [done|]. apply (good_holds false st []); [done|by left|cbn; lia]. }
  pose proof (comp83_legal st Hst) as Hleg. set (src := c0 :: src0) in *.
  assert (0 < length src)%nat as Hpos by (cbn; lia).
  destruct (decide (rp + length (path_of st) = SFTMAX)%nat) as [Hfull|Hroom].
  { destruct (last_no_slash base st Hlast Hbase Hleg) as (c & -> & Hne). rewrite (proj2 (Z.eqb_neq _ _)) by done.
    unfold addChar. rewrite holds_length, (proj2 (Nat.leb_le _ _)) by lia. eexists. split; [done|]. apply path_error_is. }
  destruct (add_sep base Hlast Hbase st Hleg) as (c & -> & ->); [lia|].
  destruct (skip_slashes_spec src) as [Hskip Hhead]. set (src1 := skip_slashes src) in *. cbv zeta.
  case_bool_decide as Hd.
  - destruct src1 as [|d src1]; [done|]. cbn [tail length] in *.
    assert (exists prev' src2, (if bool_decide (head src1 = Some (ch ".")) then (ch ".", tail src1)
      else (if slash c0 then c0 else prev, src1)) = (prev', src2) /\ (length src2 <= length src1)%nat) as (prev' & src2 & -> & Hs2).
    { case_bool_decide; eexists _, _; (split; [done|]); [destruct src1; cbn; lia|done]. }
    destruct (match src2 with [] => true | c :: _ => slash c end).
    2: { eexists. split; [done|]. apply path_error_is. }
    cbn [more t_rev rev app]. destruct (prev' =? ch ".").
    + rewrite drop_spec by done. destruct st as [|x st0]; [eexists; split; [done|by left]|].
      apply (IH (ch ".") src2 (removelast (x :: st0))); [|pose proof (shorter (x :: st0)); lia|lia].
      destruct st0 as [|y st1] using rev_ind; [constructor|]. change (x :: st1 ++ [y]) with ((x :: st1) ++ [y]) in *.
      rewrite removelast_last. by apply list.Forall_app in Hst as [? _].
    + apply (IH (ch ".") src2 st); [done|done|lia].
  - pose proof (scan_name_shrinks rp src1 FNAME_SIZE false false (more [ch "\"] (holds base st))) as Hsh.
    destruct src1 as [|d src1].
    + cbn [scan_name]. rewrite scan_end by lia. eexists. split; [done|]. apply (good_holds false st [ch "\"]); [done|by right|cbn; lia].
    + pose proof (scan_name_shape rp (base ++ path_of st ++ [ch "\"])) as Hshape.
      assert (more [ch "\"] (holds base st) = Dest (rev ((base ++ path_of st ++ [ch "\"]) ++ partial [] [] false)) (ch "\")) as E.
      { unfold more, holds, partial. cbn [t_rev t_root app]. rewrite app_nil_r, app_assoc. f_equal. by rewrite (rev_app_distr _ [_]). }
      rewrite E in Hsh |- *. specialize (Hshape ltac:(rewrite !length_app; cbn; lia) (d :: src1) FNAME_SIZE false false [] []).
      assert (name_at (base ++ path_of st ++ [ch "\"]) (scan_name rp FNAME_SIZE false false (d :: src1)
        (Dest (rev ((base ++ path_of st ++ [ch "\"]) ++ partial [] [] false)) (ch "\")))) as Hn.
      { apply Hshape.
        - rewrite !length_app. cbn. lia.
        - split; [constructor..|]. split; [by apply Nat.leb_le|done].
        - intros _. exists d, src1. split_and!; [done|done| |by apply Nat.ltb_lt]. left. intros ->. done. }
      clear Hshape. destruct (scan_name _ _ _ _ _ _) as [e|src' t' wild']; [by eexists|].
      destruct Hn as ([b e] & Hx & -> & Hlen). destruct Hsh as (_ & _ & Hlt). specialize (Hlt Hhead). cbn [length] in *.
      assert (Dest (rev ((base ++ path_of st ++ [ch "\"]) ++ sz_name (b, e).1 (b, e).2)) (ch "\") = holds base (st ++ [(b, e)])) as Eh.
      { unfold holds. rewrite path_of_app, path_of_one. by rewrite <- !app_assoc. }
      rewrite Eh in Hlen |- *. rewrite holds_length in Hlen.
      assert (Forall (comp83 wild') (st ++ [(b, e)])) as Hst'.
      { apply list.Forall_app. split; [|by constructor]. eapply Forall_impl; [|exact Hst]. intros y (Y1 & Y2 & Y3 & Y4 & Y5).
        split_and!; [done..| |]; by apply (path_chars_weaken false wild'). }
      destruct wild'.
      * rewrite scan_wild by lia. eexists. split; [done|]. destruct src'; [|by left].
        apply (good_holds true (st ++ [(b, e)]) []); [done|by left|cbn; lia].
      * apply IH; [done|done|lia].
Qed.

End whole.

(** ** Every name gets an answer *)

Section answers.
  Context {S : Type} `{!BlockCache S, !DosState S, !NameServices S, !UpperLaws S} (cf steps ents : nat).

(** A path on a drive: components in 8.3 form and at most one separator behind
    them, in the buffer. *)
Definition path_result (letter : Z) (wild : bool) (d : list Z) : Prop :=
  exists st tl, d = drive_path letter (map (up_comp (S := S)) st) ++ tl /\ (tl = [] \/ tl = [ch "\"]) /\
    Forall (comp83 wild) st /\ (length d <= SFTMAX)%nat.

Lemma up_comp_length st : length (path_of (map (up_comp (S := S)) st)) = length (path_of st).
Proof. by rewrite <- up_path, length_map. Qed.

Lemma finish_result letter wild st tl : Forall (comp83 wild) st -> tl = [] \/ tl = [ch "\"] ->
  (2 + length (path_of st) + length tl <= SFTMAX)%nat ->
  exists d, finish_path (S := S) 2 (more tl (holds [letter; ch ":"] st)) = Some d /\ path_result letter wild d /\ at_ d 2 = Some (ch "\").
Proof.
  intros Hst Htl Hl. destruct Htl as [-> | ->].
  - assert (more [] (holds [letter; ch ":"] st) = holds [letter; ch ":"] st) as -> by done.
    rewrite finish_holds by (cbn [length] in Hl; lia). eexists. split; [done|]. split; [|by destruct st].
    exists st, []. rewrite app_nil_r. split_and!; [done|by left|done|]. unfold drive_path.
    destruct st as [|x st]; [by apply Nat.leb_le|]. cbn [map]. change (up_comp x :: map up_comp st) with (map (up_comp (S := S)) (x :: st)).
    rewrite length_app, up_comp_length. cbn [length] in *. lia.
  - set (t := more [ch "\"] (holds [letter; ch ":"] st)).
    assert (rev (t_rev t) = [letter; ch ":"] ++ path_of st ++ [ch "\"]) as Et.
    { unfold t, more, holds. cbn [t_rev]. by rewrite rev_app_distr, !rev_involutive, <- app_assoc. }
    assert (length (t_rev t) = (3 + length (path_of st))%nat) as El.
    { rewrite <- length_rev, Et, !length_app. cbn. lia. }
    unfold finish_path. rewrite El, (proj2 (Nat.eqb_neq _ _)) by lia. cbv zeta. rewrite Et.
    eexists. split; [done|]. change (take 2 ([letter; ch ":"] ++ path_of st ++ [ch "\"])) with [letter; ch ":"].
    change (drop 2 ([letter; ch ":"] ++ path_of st ++ [ch "\"])) with (path_of st ++ [ch "\"]). rewrite map_app, up_path. cbn [map]. rewrite up_slash.
    assert ([letter; ch ":"] ++ path_of (map (up_comp (S := S)) st) ++ [ch "\"] =
      drive_path letter (map (up_comp (S := S)) st) ++ match st with [] => [] | _ => [ch "\"] end) as ->.
    { unfold drive_path. destruct st; [done|]. by rewrite <- app_assoc. }
    split; [|by destruct st]. eexists st, _. split_and!; [done|by destruct st; auto|done|]. unfold drive_path.
    destruct st as [|x st]; [by apply Nat.leb_le|]. cbn [map]. change (up_comp x :: map up_comp st) with (map (up_comp (S := S)) (x :: st)).
    rewrite !length_app, up_comp_length. cbn [length] in *. lia.
Qed.

Lemma resolve_path_answers mode drive letter st prev src fnp (s : S) :
  0 <= drive < 32 -> ns_njoined s = 0 -> Forall (comp83 false) st -> (2 + length (path_of st) <= SFTMAX)%nat ->
  exists rc d, resolve_path cf steps ents mode drive 2 (holds [letter; ch ":"] st) prev src fnp s = Some (rc, d, fnp, s) /\
    (is_path_error rc \/ rc = (if mode =? CDS_MODE_ALLOW_WILDCARDS then 0 else drive) /\
                         path_result letter (negb (Z.land mode CDS_MODE_ALLOW_WILDCARDS =? 0)) d).
Proof.
  intros Hd Hj Hst Hl. unfold resolve_path.
  destruct (scan_safe [letter; ch ":"]) with (fuel := Datatypes.S (length src)) (prev := prev) (src := src) (st := st)
    as (r & Es & Hr); [done..|lia|]. change (length [letter; ch ":"]) with 2%nat in Es. rewrite Es.
  destruct r as [e|src' t wild]; [by eexists _, _; split; [|left]|].
  destruct Hr as (-> & st' & tl & -> & Htl & Hst' & Hlen).
  destruct (wild && (Z.land mode CDS_MODE_ALLOW_WILDCARDS =? 0)) eqn:Ew; [eexists _, _; split; [done|by left; left]|].
  assert (Forall (comp83 (negb (Z.land mode CDS_MODE_ALLOW_WILDCARDS =? 0))) st') as Hst2.
  { eapply Forall_impl; [|exact Hst']. intros x (X1 & X2 & X3 & X4 & X5). 
    assert (negb (Z.land mode CDS_MODE_ALLOW_WILDCARDS =? 0) = wild || negb (Z.land mode CDS_MODE_ALLOW_WILDCARDS =? 0)) as ->
      by (destruct wild, (Z.land mode CDS_MODE_ALLOW_WILDCARDS =? 0); done).
    split_and!; [done..| |]; by apply path_chars_weaken. }
  destruct (finish_result letter _ st' tl Hst2 Htl) as (d & -> & Hres & ->).
  { unfold more in Hlen. cbn [t_rev] in Hlen. rewrite length_app, length_rev, holds_length in Hlen. cbn [length] in Hlen. lia. }
  change (ch "\" =? ch "/") with false. rewrite Hj. cbn [negb andb]. rewrite andb_false_r.
  assert (Z.land drive (Z.lor IS_DEVICE IS_NETWORK) =? IS_DEVICE = false) as ->.
  { rewrite Z.land_lor_distr_r. by rewrite !(proj2 (small_drive drive Hd)), (proj1 (small_drive drive Hd)). }
  rewrite andb_false_r. cbn [andb negb]. rewrite andb_false_r. eexists _, d. split; [done|by right].
Qed.

(** C9: a name for a file on a drive of the machine gets an answer, whatever string it is:
    the call returns the error of a path or of a file not found, or a path of that
    drive of at most 128 characters, whose components are in 8.3 form, without [.] and
    [..], without wildcards unless the caller allows them.  The buffer has 128 bytes, so the
    NUL behind a path of 128 characters lies one byte behind it
    ([NewstuffThms.path_overruns_buffer]).  The drive is local and not substituted, no
    drive is joined, the name is neither that of a device nor one the redirector or the
    mode "skip physical" answers; its medium can be checked, and entering the current
    directory, or the root in its place, has come to an end ([entered]). *)
Theorem truename_answers before src mode drive tmp cur st0 fnp fnp' rc r (s s' : S) :
  take 2 src <> str "\\" -> drive = drive_of src s -> local_drive drive tmp cur s ->
  Forall (comp83 false) cur ->
  Z.land mode CDS_MODE_SKIP_PHYSICAL = 0 ->
  IsDevice src (ns_set_ldt drive s) = None ->
  ns_qremote src (ns_set_ldt drive s) = Some (rc, r, ns_set_ldt drive s) -> rc <> SUCCESS ->
  entered cf steps ents drive tmp cur fnp (ns_set_ldt drive s) st0 fnp' s' -> ns_njoined s' = 0 ->
  exists res d f t, truename cf steps ents before src mode fnp s = Some (res, d, f, t) /\
    (is_path_error res \/
     res = (if mode =? CDS_MODE_ALLOW_WILDCARDS then 0 else drive) /\
     path_result (drive + ch "A") (negb (Z.land mode CDS_MODE_ALLOW_WILDCARDS =? 0)) d).
Proof.
  intros Hunc Hdr Hld H83 Hmode Hdev Hq Hrc Hent Hj.
  destruct (decide (src = [])) as [->|Hne]; [eexists _, _, _, _; split; [done|by left; right]|].
  destruct (match src with _ :: 58 :: r => (58, r) | _ => (before, src) end) as [prev src2] eqn:Hstrip.
  rewrite (truename_local cf steps ents before src mode drive tmp cur st0 fnp fnp' rc r s s' prev src2 Hne Hunc Hdr Hld Hmode
    Hdev Hq Hrc Hent Hstrip).
  destruct (current_dir_entered cf steps ents drive tmp cur s fnp _ st0 fnp' s' Hld Hent) as (_ & _ & Hlen).
  assert (Forall (comp83 false) st0) as Hst0 by (destruct Hent; [done|constructor]).
  assert (Hgo : forall p q, exists res d f t,
    resolve_path cf steps ents mode drive 2 (holds [drive + ch "A"; ch ":"] st0) p q fnp' s' = Some (res, d, f, t) /\
    (is_path_error res \/ res = (if mode =? CDS_MODE_ALLOW_WILDCARDS then 0 else drive) /\
     path_result (drive + ch "A") (negb (Z.land mode CDS_MODE_ALLOW_WILDCARDS =? 0)) d)).
  { intros p q. destruct (resolve_path_answers mode drive (drive + ch "A") st0 p q fnp' s') as (res & d & E & Hd);
      [apply Hld|done..|]. by exists res, d, fnp', s'. }
  destruct src2 as [|c r2]; [apply Hgo|]. destruct (slash c); [|apply Hgo].
  destruct (resolve_path_answers mode drive (drive + ch "A") [] c r2 fnp' s') as (res & d & E & Hd);
    [apply Hld|done|constructor|by apply Nat.leb_le|]. by exists res, d, fnp', s'.
Qed.

End answers.

Definition messy : list Z := str "sub\\a.b*c+".

Lemma truename_answers_witness : exists res d f t,
  truename 5 10 ENTS 0 messy CDS_MODE_ALLOW_WILDCARDS sample_node dir_bio = Some (res, d, f, t) /\
  (is_path_error res \/ res = 0 /\ path_result (S := bio disk) (ch "C") true d).
Proof.
  destruct sample_entered as (fnp' & s' & Hent).
  assert (2 = drive_of messy dir_bio) as Hd by (vm_compute; reflexivity).
  assert (IsDevice messy dir_bio = None) as Hdev by (vm_compute; reflexivity).
  apply (truename_answers 5 10 ENTS 0 messy CDS_MODE_ALLOW_WILDCARDS 2 sample_cds [] [] sample_node fnp' DE_INVLDFUNC [] dir_bio s');
    [discriminate|exact Hd|exact sample_drive|constructor|reflexivity|exact Hdev|reflexivity|discriminate|exact Hent|reflexivity].
Defined.
