(* ===== verification/Dosfns.v ===== *)
(** * Handles and the file services ([kernel/dosfns.c])

    From a handle of the running process to an entry of the system file tables and
    from there to the file system, a character device or the network.  Names are
    lists of characters without the NUL; [fnp] is what [fnode[0]] holds. *)

From S2P Require Import Prelude Hdr Share Dpb Blockio Fattab Fnode Cluster Names Fatdir Fileio Chario Newstuff.

(** hdr/file.h:51-51 *)
Definition O_VALIDMASK : Z := 0xfff3.
(** hdr/file.h:66-66 *)
Definition O_DENYNONE : Z := 0x0040.
(** hdr/file.h:65-65 *)
Definition O_DENYREAD : Z := 0x0030.
(** hdr/file.h:69-69 *)
Definition O_NOINHERIT : Z := 0x0080.
(** hdr/file.h:73-73 *)
Definition O_LEGACY : Z := 0x0800.
(** hdr/sft.h:106-106 *)
Definition SFT_MASK : Z := 0x0060.
(** hdr/sft.h:111-111 *)
Definition SFT_FSHARED : Z := 0x8000.
(** hdr/sft.h:114-114 *)
Definition SFT_FDEVICE : Z := 0x0080.
(** hdr/sft.h:123-123 *)
Definition SFT_FOCRM : Z := 0x0800.
(** hdr/sft.h:124-124 *)
Definition SFT_FEOF : Z := 0x0040.
(** hdr/sft.h:125-125 *)
Definition SFT_FBINARY : Z := 0x0020.
(** hdr/sft.h:128-128 *)
Definition SFT_FNUL : Z := 0x0004.
(** hdr/sft.h:129-129 *)
Definition SFT_FCONOUT : Z := 0x0002.
(** hdr/sft.h:130-130 *)
Definition SFT_FCONIN : Z := 0x0001.
(** hdr/sft.h:142-142 *)
Definition SEEK_CUR : Z := 1.
(** hdr/sft.h:143-143 *)
Definition SEEK_END : Z := 2.
(** kernel/globals.h:111-111 *)
Definition XFR_FORCE_WRITE : Z := 3.
(** kernel/globals.h:131-131 *)
Definition CTL_Z : Z := 0x1a.
(** hdr/device.h:81-81 *)
Definition C_INPUT : Z := 0x04.
(** hdr/device.h:85-85 *)
Definition C_OUTPUT : Z := 0x08.
(** hdr/device.h:90-90 *)
Definition C_OPEN : Z := 0x0d.
(** hdr/device.h:91-91 *)
Definition C_CLOSE : Z := 0x0e.
(** hdr/fat.h:47-47 *)
Definition D_DEVICE : Z := 0x40.
(** hdr/network.h:35-35 *)
Definition REM_CLOSE : Z := 0x1106.
(** hdr/network.h:36-36 *)
Definition REM_FLUSH : Z := 0x1107.
(** hdr/network.h:37-37 *)
Definition REM_READ : Z := 0x1108.
(** hdr/network.h:38-38 *)
Definition REM_WRITE : Z := 0x1109.
(** hdr/network.h:39-39 *)
Definition REM_LOCK : Z := 0x110a.
(** hdr/network.h:46-46 *)
Definition REM_OPEN : Z := 0x1116.
(** hdr/network.h:47-47 *)
Definition REM_CREATE : Z := 0x1117.
(** hdr/network.h:56-56 *)
Definition REM_LSEEK : Z := 0x1121.
(** hdr/network.h:60-60 *)
Definition REM_EXTOC : Z := 0x112e.

(** ** What the services use of the rest of the kernel

    The check for a resident SHARE, the network redirector (function, table entry
    or [-1], parameters, count, buffer; the answer is its status), the drivers of
    the devices, and the console.  [sv_near] is the byte that lies in the kernel's own data
    segment at the offset of the buffer. *)
Class DosServices (S : Type) := {
  sv_share_check : system S -> Z;
  sv_network : Z -> Z -> list Z -> Z -> list Z -> system S -> option (Z * list Z * system S);
  sv_driver : Z -> CharDevice (list Z) (system S);
  sv_update_scr_pos : Z -> system S -> system S;
  sv_read_line_handle : Z -> Z -> list Z -> system S -> option (Z * list Z * system S);
  sv_cooked_read : Z -> Z -> list Z -> system S -> option (Z * list Z * system S);
  sv_cooked_write : Z -> Z -> list Z -> system S -> option (Z * system S);
  sv_near : list Z -> system S -> Z }.

(** ** Changes of an entry *)

Definition with_sft_count c (t : sft) : sft :=
  Sft c (sft_mode t) (sft_attrib t) (sft_flags t) (sft_dcb t) (sft_relclust_high t) (sft_time t) (sft_date t)
    (sft_size t) (sft_posit t) (sft_relclust t) (sft_dirsector t) (sft_diridx t) (sft_name t) (sft_stclust t)
    (sft_psp t) (sft_shroff t) (sft_cuclust t).
Definition with_sft_flags f (t : sft) : sft :=
  Sft (sft_count t) (sft_mode t) (sft_attrib t) f (sft_dcb t) (sft_relclust_high t) (sft_time t) (sft_date t)
    (sft_size t) (sft_posit t) (sft_relclust t) (sft_dirsector t) (sft_diridx t) (sft_name t) (sft_stclust t)
    (sft_psp t) (sft_shroff t) (sft_cuclust t).
Definition with_sft_posit p (t : sft) : sft :=
  Sft (sft_count t) (sft_mode t) (sft_attrib t) (sft_flags t) (sft_dcb t) (sft_relclust_high t) (sft_time t) (sft_date t)
    (sft_size t) p (sft_relclust t) (sft_dirsector t) (sft_diridx t) (sft_name t) (sft_stclust t)
    (sft_psp t) (sft_shroff t) (sft_cuclust t).
Definition with_sft_shroff o (t : sft) : sft :=
  Sft (sft_count t) (sft_mode t) (sft_attrib t) (sft_flags t) (sft_dcb t) (sft_relclust_high t) (sft_time t) (sft_date t)
    (sft_size t) (sft_posit t) (sft_relclust t) (sft_dirsector t) (sft_diridx t) (sft_name t) (sft_stclust t)
    (sft_psp t) o (sft_cuclust t).
Definition with_sft_stamp time date (t : sft) : sft :=
  Sft (sft_count t) (sft_mode t) (sft_attrib t) (sft_flags t) (sft_dcb t) (sft_relclust_high t) time date
    (sft_size t) (sft_posit t) (sft_relclust t) (sft_dirsector t) (sft_diridx t) (sft_name t) (sft_stclust t)
    (sft_psp t) (sft_shroff t) (sft_cuclust t).

(** The entry of a device just opened. *)
Definition with_sft_device flags name dev time date (t : sft) : sft :=
  Sft (sft_count t) (sft_mode t) D_DEVICE flags dev (sft_relclust_high t) time date
    (sft_size t) (sft_posit t) (sft_relclust t) (sft_dirsector t) (sft_diridx t) name (sft_stclust t)
    (sft_psp t) (sft_shroff t) (sft_cuclust t).

Definition add_count (n : Z) (t : sft) : sft := with_sft_count (s16 (sft_count t + n)) t.

(** A table entry after [fmemset] and the first assignments; the attribute is a byte.
    kernel/dosfns.c:497-504 *)
Definition new_sft (psp flags attrib : Z) : sft :=
  Sft 0 (Z.land flags 0xf0ff) (u8 attrib) 0 0 0 0 0 0 0 0 0 0 (replicate 11 0) 0 psp (-1) 0.

Section services.
  Context {S : Type} `{!BlockCache S, !DosState S, !BlockTransfer S, !NameServices S, !DosServices S}.
  Context (cf steps ents fuel : nat).

#[local] Abbreviation state := (system S).

(** The header an entry points to. *)
Definition device_of (p : Z) (s : state) : option dhdr := List.find (fun d => dh_at d =? p) (ns_devices (below s)).

(** ** Handles *)

(** kernel/dosfns.c:184-194 *)
Definition get_sft_idx (hndl : Z) (s : state) : Z :=
  match at_ (ps_filetab s) hndl with
  | None => DE_INVLDHNDL
  | Some idx => if idx =? 0xff then DE_INVLDHNDL else idx
  end.

(** kernel/dosfns.c:196-200 *)
Definition get_sft (hndl : Z) (s : state) : option sft := idx_to_sft (get_sft_idx hndl s) s.

(** kernel/dosfns.c:357-364 *)
Definition get_free_hndl (s : state) : Z :=
  match list_find (fun h => h = 0xff) (ps_filetab s) with
  | Some (i, _) => Z.of_nat i
  | None => DE_TOOMANY
  end.

(** The number of the first free entry.
    kernel/dosfns.c:366-395 *)
Definition get_free_sft (s : state) : option Z :=
  let* (i, _) := list_find (fun t => sft_count t = 0) (concat (sfthead s)) in Some (Z.of_nat i).

(** kernel/dosfns.c:1337-1346 *)
Definition IsShareInstalled (recheck : bool) (s : state) : bool * state :=
  let s := if recheck && negb (share_installed s) && (sv_share_check s =? 0xff) then with_installed true s else s in
  (share_installed s, s).

(** ** Reading and writing *)

(** A transfer of a device in binary mode.
    kernel/dosfns.c:245-257 *)
Definition raw_io (dev : Z) (flags n : Z) (bp : list Z) (mode : Z) (s : state) : option (Z * list Z * state) :=
  let* (rc, rq, s) :=
    BinaryCharIO (CharDevice0 := sv_driver dev) fuel n bp (if mode =? XFR_READ then C_INPUT else C_OUTPUT) s in
  let bp := r_trans rq in
  let s :=
    if (mode =? XFR_WRITE) && (0 <? rc) && negb (Z.land flags SFT_FCONOUT =? 0)
    then foldl (fun s c => sv_update_scr_pos c s) s (take (Z.to_nat rc) bp) else s in
  Some (rc, bp, s).

(** In cooked mode.  The test for the end-of-file character takes the far pointer to the
    buffer as a near one.
    kernel/dosfns.c:260-286 *)
Definition cooked_io (sft_idx dev : Z) (flags n : Z) (bp : list Z) (mode : Z) (s : state) : option (Z * list Z * state) :=
  if mode =? XFR_READ then
    if Z.land flags SFT_FEOF =? 0 then Some (0, bp, s)
    else
      let* (rc, bp, s) :=
        if negb (Z.land flags SFT_FCONIN =? 0) then sv_read_line_handle sft_idx n bp s else sv_cooked_read dev n bp s in
      let s := if sv_near bp s =? CTL_Z then upd_sft (fun t => with_sft_flags (clear SFT_FEOF (sft_flags t)) t) sft_idx s else s in
      Some (rc, bp, s)
  else
    let s := upd_sft (fun t => with_sft_flags (Z.lor (sft_flags t) SFT_FEOF) t) sft_idx s in
    if negb (Z.land flags SFT_FNUL =? 0) then Some (n, bp, s)
    else
      let* (rc, s) := sv_cooked_write dev n bp s in
      Some (rc, bp, s).

(** kernel/dosfns.c:202-300 *)
Definition DosRWSft (sft_idx n : Z) (bp : list Z) (mode : Z) (fnp : f_node) (s : state)
    : option (Z * list Z * f_node * state) :=
  match idx_to_sft sft_idx s with
  | None => Some (DE_INVLDHNDL, bp, fnp, s)
  | Some t =>
      if (mode =? XFR_READ) && negb (Z.land (sft_mode t) O_WRONLY =? 0) ||
         (mode =? XFR_WRITE) && (Z.land (sft_mode t) O_ACCMODE =? O_RDONLY)
      then Some (DE_ACCESS, bp, fnp, s)
      else
        let mode := if mode =? XFR_FORCE_WRITE then XFR_WRITE else mode in
        if negb (Z.land (sft_flags t) SFT_FSHARED =? 0) then
          let* (rc, bp, s) := sv_network (if mode =? XFR_READ then REM_READ else REM_WRITE) sft_idx [] n bp s in
          Some (rc, bp, fnp, s)
        else if negb (Z.land (sft_flags t) SFT_FDEVICE =? 0) then
          let* (rc, bp, s) :=
            if negb (Z.land (sft_flags t) SFT_FBINARY =? 0) then raw_io (sft_dcb t) (sft_flags t) n bp mode s
            else cooked_io sft_idx (sft_dcb t) (sft_flags t) n bp mode s in
          Some (rc, bp, fnp, s)
        else
          let* (rc, s) :=
            if fst (IsShareInstalled false s) && (0 <=? sft_shroff t) then
              let* (rc, sh) := access_check (cu_psp s) (sft_shroff t) (sft_posit t) n true (sharing s) in
              Some (rc, with_sharing sh s)
            else Some (SUCCESS, s) in
          if negb (rc =? SUCCESS) then Some (rc, bp, fnp, s)
          else rwblock cf steps fuel sft_idx bp n mode fnp s
  end.

(** The two calls of a program.
    kernel/proto.h:89-89 *)
Definition DosRead (hndl n : Z) (bp : list Z) (fnp : f_node) (s : state) := DosRWSft (get_sft_idx hndl s) n bp XFR_READ fnp s.
(** kernel/proto.h:90-90 *)
Definition DosWrite (hndl n : Z) (bp : list Z) (fnp : f_node) (s : state) := DosRWSft (get_sft_idx hndl s) n bp XFR_WRITE fnp s.

(** [new_pos] is signed, the position is not.
    kernel/dosfns.c:302-344 *)
Definition SftSeek (sft_idx new_pos mode : Z) (s : state) : option (Z * state) :=
  match idx_to_sft sft_idx s with
  | None => Some (DE_INVLDHNDL, s)
  | Some t =>
      if SEEK_END <? mode then Some (DE_INVLDFUNC, s)
      else
        let* (new_pos, s) :=
          if negb (Z.land (sft_flags t) SFT_FDEVICE =? 0) then Some (0, s)
          else if mode =? SEEK_CUR then Some (new_pos + sft_posit t, s)
          else if mode =? SEEK_END then
            if negb (Z.land (sft_flags t) SFT_FSHARED =? 0) &&
               negb (Z.land (sft_mode t) (Z.lor O_DENYREAD O_DENYNONE) =? 0) then
              let* (p, _, s) := sv_network REM_LSEEK sft_idx [new_pos] 0 [] s in Some (p, s)
            else Some (new_pos + sft_size t, s)
          else Some (new_pos, s) in
        Some (SUCCESS, upd_sft (with_sft_posit (u32 new_pos)) sft_idx s)
  end.

(** The position, or the error, and the status.
    kernel/dosfns.c:346-355 *)
Definition DosSeek (hndl new_pos mode : Z) (s : state) : option (Z * Z * state) :=
  let sft_idx := get_sft_idx hndl s in
  let* (rc, s) := SftSeek sft_idx new_pos mode s in
  if rc =? SUCCESS then
    let* t := idx_to_sft sft_idx s in
    Some (sft_posit t, rc, s)
  else Some (rc, rc, s).


(** ** Opening *)

(** The eight characters of a header in the eleven of an entry: NULs at the end
    become spaces; a name without any character is overrun.
    kernel/dosfns.c:426-432 *)
Fixpoint pad_rev (l : list Z) : option (list Z) :=
  match l with
  | [] => None
  | c :: l => if c =? 0 then let* l := pad_rev l in Some (ch " " :: l) else Some (c :: l)
  end.
Definition device_sft_name (name : list Z) : option (list Z) :=
  let* l := pad_rev (rev (name ++ replicate 3 0)) in Some (map ns_up_fchar (rev l)).

(** kernel/dosfns.c:418-449 *)
Definition DeviceOpenSft (dhp : dhdr) (sft_idx : Z) (s : state) : option (Z * state) :=
  let s := upd_sft (fun t => add_count 1 (with_sft_shroff (-1) t)) sft_idx s in
  let* name := device_sft_name (dh_name dhp) in
  let* (date, s) := call ds_getdate s in
  let* (time, s) := call ds_gettime s in
  let flags := Z.lor (Z.lor (Z.land (dh_attr dhp) (Z.lnot (Z.lor SFT_MASK SFT_FSHARED))) SFT_FDEVICE) SFT_FEOF in
  let s := upd_sft (with_sft_device flags name (dh_at dhp) time date) sft_idx s in
  if negb (Z.land (dh_attr dhp) SFT_FOCRM =? 0) then
    let* (rc, _, s) := BinaryCharIO (CharDevice0 := sv_driver (dh_at dhp)) fuel 0 [] C_OPEN s in
    Some (if negb (rc =? SUCCESS) then DE_ACCESS else SUCCESS, s)
  else Some (SUCCESS, s).

(** The number of an entry and the action taken.
    kernel/dosfns.c:547-547 *)
Definition sft_and_action (sft_idx action : Z) : Z := Z.lor sft_idx (Z.shiftl action 16).

(** A name on the network.
    kernel/dosfns.c:506-537 *)
Definition network_open (sft_idx flags attrib : Z) (s : state) : option (Z * state) :=
  let attrib := if Z.land flags (Z.lor O_TRUNC O_CREAT) =? O_CREAT then Z.lor attrib 0x100 else attrib in
  let '(cmd, attrib) :=
    if Z.land flags O_LEGACY =? 0 then (REM_EXTOC, attrib)
    else if Z.land flags O_CREAT =? 0 then (REM_OPEN, u8 flags)
    else (REM_CREATE, attrib) in
  let ext :=
    if cmd =? REM_EXTOC
    then [Z.land flags 0x70ff; Z.land attrib 0xff;
          Z.lor (Z.shiftr (Z.land flags 0x0300) 8) (Z.shiftr (Z.land flags O_CREAT) 6)] else [] in
  let* (status, _, s) := sv_network cmd sft_idx (attrib :: ext) 0 [] s in
  if 0 <=? status then
    let* t := find_sft (sfthead s) sft_idx in
    Some (sft_and_action sft_idx status, if sft_count t =? 0 then upd_sft (add_count 1) sft_idx s else s)
  else Some (status, s).

(** A name on a volume; [path] is [PriPathName].
    kernel/dosfns.c:551-587 *)
Definition file_open_sft (sft_idx : Z) (path : list Z) (flags attrib : Z) (fnp : f_node) (s : state)
    : option (Z * f_node * state) :=
  if 2 <? Z.land flags O_ACCMODE then Some (DE_INVLDACC, fnp, s)
  else if (Z.land flags O_FCB =? 0) &&
          negb (Z.land attrib (Z.lnot (Z.lor (Z.lor D_RDONLY D_HIDDEN) (Z.lor D_SYSTEM (Z.lor D_ARCHIVE D_VOLID)))) =? 0)
  then Some (DE_ACCESS, fnp, s)
  else
    let '(installed, s) := IsShareInstalled true s in
    let* (rc, s) :=
      if installed then
        let* (rc, sh) := open_check (path ++ [0]) (cu_psp s) (Z.land flags 3) (Z.land (Z.shiftr flags 4) 7) (sharing s) in
        Some (rc, upd_sft (with_sft_shroff rc) sft_idx (with_sharing sh s))
      else Some (SUCCESS, s) in
    if rc <? 0 then Some (rc, fnp, s)
    else
      let* drive := head path in
      let s := upd_sft (fun t => with_sft_flags (drive - ch "A") (add_count 1 t)) sft_idx s in
      let* (result, fnp, s) := dos_open cf steps ents path flags attrib sft_idx fnp s in
      if result <? 0 then
        let '(installed, s) := IsShareInstalled true s in
        let* s :=
          if installed then
            let* t := find_sft (sfthead s) sft_idx in
            let* sh := close_file (sft_shroff t) (sharing s) in
            Some (upd_sft (with_sft_shroff (-1)) sft_idx (with_sharing sh s))
          else Some s in
        Some (result, fnp, upd_sft (add_count (-1)) sft_idx s)
      else Some (sft_and_action sft_idx result, fnp, s).

(** [before] is the byte in front of the name in memory.
    kernel/dosfns.c:482-588 *)
Definition DosOpenSft (before : Z) (fname : list Z) (flags attrib : Z) (fnp : f_node) (s : state) : option (Z * f_node * state) :=
  let* (result, path, fnp, s) := call (truename cf steps ents before fname CDS_MODE_CHECK_DEV_PATH fnp) s in
  if result <? SUCCESS then Some (result, fnp, s)
  else
    match get_free_sft s with
    | None => Some (DE_TOOMANY, fnp, s)
    | Some sft_idx =>
        let attrib := Z.lor attrib D_ARCHIVE in
        let s := upd_sft (fun _ => new_sft (cu_psp s) flags attrib) sft_idx s in
        if negb (Z.land result IS_NETWORK =? 0) then
          let* (rc, s) := network_open sft_idx flags attrib s in
          Some (rc, fnp, s)
        else
          match (if negb (Z.land result IS_DEVICE =? 0) then IsDevice fname (below s) else None) with
          | Some dhp =>
              let* (rc, s) := DeviceOpenSft dhp sft_idx s in
              Some (if rc <? SUCCESS then rc else sft_idx, fnp, s)
          | None => file_open_sft sft_idx path flags attrib fnp s
          end
    end.

(** kernel/dosfns.c:590-610 *)
Definition DosOpen (before : Z) (fname : list Z) (mode attrib : Z) (fnp : f_node) (s : state) : option (Z * f_node * state) :=
  if negb (Z.land mode (Z.lnot O_VALIDMASK) =? 0) then Some (DE_INVLDACC, fnp, s)
  else
    let hndl := get_free_hndl s in
    if hndl <? 0 then Some (hndl, fnp, s)
    else
      let* (result, fnp, s) := DosOpenSft before fname mode attrib fnp s in
      if result <? SUCCESS then Some (result, fnp, s)
      else
        let* t := set_at hndl (u8 result) (ps_filetab s) in
        Some (Z.lor hndl (Z.land result (Z.shiftl 0xffff 16)), fnp, with_filetab t s).

(** ** Closing *)

(** kernel/dosfns.c:665-715 *)
Definition DosCloseSft (sft_idx : Z) (commitonly : bool) (fnp : f_node) (s : state) : option (Z * f_node * state) :=
  match idx_to_sft sft_idx s with
  | None => Some (DE_INVLDHNDL, fnp, s)
  | Some t =>
      if negb (Z.land (sft_flags t) SFT_FSHARED =? 0) then
        let* (rc, _, s) := sv_network (if commitonly then REM_FLUSH else REM_CLOSE) sft_idx [] 0 [] s in
        Some (rc, fnp, s)
      else if negb (Z.land (sft_flags t) SFT_FDEVICE =? 0) then
        let* dev := device_of (sft_dcb t) s in
        let* (rc, s) :=
          if negb (Z.land (dh_attr dev) SFT_FOCRM =? 0) then
            let* (rc, _, s) := BinaryCharIO (CharDevice0 := sv_driver (dh_at dev)) fuel 0 [] C_CLOSE s in
            Some (rc, s)
          else Some (SUCCESS, s) in
        if negb (rc =? SUCCESS) then Some (DE_INVLDHNDL, fnp, s)
        else Some (SUCCESS, fnp, if commitonly then s else upd_sft (add_count (-1)) sft_idx s)
      else
        let* (result, fnp, s) := dos_close cf sft_idx fnp s in
        if commitonly || negb (result =? SUCCESS) then Some (result, fnp, s)
        else
          let* t := find_sft (sfthead s) sft_idx in
          let* s :=
            if sft_count t =? 1 then
              let '(installed, s) := IsShareInstalled true s in
              if installed then
                let* s :=
                  if 0 <=? sft_shroff t then
                    let* sh := close_file (sft_shroff t) (sharing s) in Some (with_sharing sh s)
                  else Some s in
                Some (upd_sft (with_sft_shroff (-1)) sft_idx s)
              else Some s
            else Some s in
          Some (SUCCESS, fnp, upd_sft (add_count (-1)) sft_idx s)
  end.

(** kernel/dosfns.c:717-732 *)
Definition DosClose (hndl : Z) (fnp : f_node) (s : state) : option (Z * f_node * state) :=
  let sft_idx := get_sft_idx hndl s in
  match idx_to_sft sft_idx s with
  | None => Some (DE_INVLDHNDL, fnp, s)
  | Some _ =>
      let* t := set_at hndl 0xff (ps_filetab s) in
      DosCloseSft sft_idx false fnp (with_filetab t s)
  end.

(** kernel/proto.h:97-97 *)
Definition DosCommit (hndl : Z) (fnp : f_node) (s : state) := DosCloseSft (get_sft_idx hndl s) true fnp s.

(** ** Duplicating *)

(** kernel/dosfns.c:612-625 *)
Definition CloneHandle (hndl : Z) (s : state) : Z * state :=
  match get_sft hndl s with
  | None => (DE_INVLDHNDL, s)
  | Some t =>
      if negb (Z.land (sft_mode t) O_NOINHERIT =? 0) then (DE_INVLDHNDL, s)
      else (SUCCESS, upd_sft (add_count 1) (get_sft_idx hndl s) s)
  end.

(** The new handle is not checked against the size of the table: a stray access.
    kernel/dosfns.c:640-663 *)
Definition DosForceDup (OldHandle NewHandle : Z) (fnp : f_node) (s : state) : option (Z * f_node * state) :=
  match get_sft OldHandle s with
  | None => Some (DE_INVLDHNDL, fnp, s)
  | Some _ =>
      let sft_idx := get_sft_idx OldHandle s in
      let* new := at_ (ps_filetab s) NewHandle in
      let* (ret, fnp, s) := if negb (new =? 0xff) then DosClose NewHandle fnp s else Some (SUCCESS, fnp, s) in
      if negb (ret =? SUCCESS) then Some (ret, fnp, s)
      else
        let* old := at_ (ps_filetab s) OldHandle in
        let* t := set_at NewHandle old (ps_filetab s) in
        Some (SUCCESS, fnp, upd_sft (add_count 1) sft_idx (with_filetab t s))
  end.

(** kernel/dosfns.c:627-638 *)
Definition DosDup (Handle : Z) (fnp : f_node) (s : state) : option (Z * f_node * state) :=
  let NewHandle := get_free_hndl s in
  if NewHandle <? 0 then Some (NewHandle, fnp, s)
  else
    let* (rc, fnp, s) := DosForceDup Handle NewHandle fnp s in
    Some (if rc <? 0 then DE_INVLDHNDL else NewHandle, fnp, s).

(** ** Time stamps and locks *)

(** The date and the time.
    kernel/dosfns.c:1063-1075 *)
Definition DosGetFtime (hndl : Z) (s : state) : Z + Z * Z :=
  match get_sft hndl s with
  | None => inl DE_INVLDHNDL
  | Some t => inr (sft_date t, sft_time t)
  end.

(** kernel/dosfns.c:1077-1094 *)
Definition DosSetFtimeSft (sft_idx dp tp : Z) (s : state) : Z * state :=
  match idx_to_sft sft_idx s with
  | None => (DE_INVLDHNDL, s)
  | Some t =>
      if negb (Z.land (sft_flags t) SFT_FDEVICE =? 0) then (SUCCESS, s)
      else (SUCCESS, upd_sft (fun t => with_sft_stamp tp dp (with_sft_flags (Z.lor (sft_flags t) SFT_FDATE) t)) sft_idx s)
  end.

(** kernel/proto.h:107-107 *)
Definition DosSetFtime (hndl dp tp : Z) (s : state) := DosSetFtimeSft (get_sft_idx hndl s) dp tp s.

(** The parameters in the order of the block.
    kernel/dosfns.c:1362-1377 *)
Definition remote_lock_unlock (sft_idx ofs len : Z) (unlock : bool) (s : state) : option (Z * state) :=
  let* (rc, _, s) := sv_network REM_LOCK sft_idx [ofs; len; if unlock then 1 else 0] 0 [] s in
  Some (rc, s).

(** kernel/dosfns.c:1234-1255 *)
Definition DosLockUnlock (hndl pos len : Z) (unlock : bool) (s : state) : option (Z * state) :=
  match get_sft hndl s with
  | None => Some (DE_INVLDHNDL, s)
  | Some t =>
      if negb (Z.land (sft_flags t) SFT_FSHARED =? 0) then
        remote_lock_unlock (get_sft_idx hndl s) (u32 pos) (u32 len) unlock s
      else if negb (fst (IsShareInstalled false s)) then Some (DE_INVLDFUNC, s)
      else if sft_shroff t <? 0 then Some (DE_LOCK, s)
      else
        let* (rc, sh) := lock_unlock (cu_psp s) (sft_shroff t) (u32 pos) (u32 len) unlock (sharing s) in
        Some (rc, with_sharing sh s)
  end.

End services.
