(* ===== verification/Console.v ===== *)
(** * The console ([kernel/chario.c], [kernel/break.c])

    Characters from and to devices with the tests for Ctrl-Break and for the hold
    key, the expansion of tabs, and the column of the cursor.  A device is known by
    the address of its header. *)

From S2P Require Import Prelude Hdr Share Dpb Blockio Fattab Fnode Cluster Fatdir Fileio Chario Lineedit Newstuff Dosfns.

(** kernel/globals.h:121-121 *)
Definition CTL_C : Z := 0x03.
(** kernel/globals.h:130-130 *)
Definition CTL_S : Z := 0x13.
(** hdr/device.h:82-82 *)
Definition C_NDREAD : Z := 0x05.
(** hdr/device.h:83-83 *)
Definition C_ISTAT : Z := 0x06.
(** hdr/device.h:84-84 *)
Definition C_IFLUSH : Z := 0x07.
(** hdr/device.h:36-36 *)
Definition S_BUSY : Z := 0x0200.
(** hdr/device.h:134-134 *)
Definition ATTR_FASTCON : Z := 0x0010.
(** hdr/file.h:44-44 *)
Definition STDIN : Z := 0.
(** hdr/file.h:45-45 *)
Definition STDOUT : Z := 1.

(** What the console uses of the machine and of the rest of the kernel: the
    drivers, the header attributes, [syscon], the Ctrl-Break flag of the BIOS, the
    idle interrupt (when the call may raise it), the fast output interrupt, the
    copy to the printer, the column, the entries of the tables by number and by
    handle, and the transfer through an entry.  A driver answers a non-destructive
    read with the character in the transfer area.  [co_int23] is what remains
    before the handler of the program: the InDOS count. *)
Class ConsoleHost (D : Type) := {
  co_driver : Z -> CharDevice (list Z) D;
  co_attr : Z -> D -> Z;
  co_syscon : D -> Z;
  co_break_flag : D -> bool;
  co_clear_break : D -> D;
  co_idle : D -> D;
  co_fast_put : Z -> D -> D;
  co_printer_echo : D -> bool;
  co_print : Z -> D -> D;
  co_scr_pos : D -> Z;
  co_set_scr_pos : Z -> D -> D;
  co_sft : Z -> D -> option sft;
  co_sft_idx : Z -> D -> Z;
  co_rw : Z -> list Z -> Z -> D -> option (Z * list Z * D);
  co_int23 : D -> D }.

Section console.
  Context {D : Type} `{!ConsoleHost D} (tries : nat).

(** ** Requests *)

(** The character, 256 for none, or an error; [fuel] bounds the retries.
    kernel/chario.c:80-88 *)
Definition CharIO (dev c command : Z) (d : D) : outcome D Z :=
  let! (r, d) := lift (let* (err, rq, d) := BinaryCharIO (CharDevice0 := co_driver dev) tries 1 [c] command d in
                       Some (err, rq, d)) in
  let '(err, rq) := r in
  if err =? 0 then Done 256 d
  else if err <? 0 then Done err d
  else lift_at (at_ (r_trans rq) 0) d.

(** kernel/chario.c:92-95 *)
Fixpoint CharCmd (fuel : nat) (dev command : Z) (d : D) : outcome D (char_request (list Z)) :=
  match fuel with
  | O => Stuck
  | Datatypes.S fuel =>
      let! (r, d) := lift (let* (err, rq, d) := CharRequest (CharDevice0 := co_driver dev) tries command 0 [] d in
                           Some (err, rq, d)) in
      let '(err, rq) := r in
      if err =? 1 then CharCmd fuel dev command d else Done rq d
  end.

Definition busy_bit (rq : char_request (list Z)) : bool := negb (Z.land (r_status rq) S_BUSY =? 0).

(** kernel/chario.c:97-101 *)
Definition Busy (dev : Z) (d : D) : outcome D bool :=
  let! (rq, d) := CharCmd tries dev C_ISTAT d in Done (busy_bit rq) d.

(** kernel/chario.c:103-106 *)
Definition con_flush (dev : Z) (d : D) : outcome D unit :=
  let! (_, d) := CharCmd tries dev C_IFLUSH d in Done tt d.

(** kernel/chario.c:109-116 *)
Definition sft_to_dev (t : option sft) (d : D) : option Z :=
  match t with
  | None => Some (co_syscon d)
  | Some t => if negb (Z.land (sft_flags t) SFT_FDEVICE =? 0) then Some (sft_dcb t) else None
  end.

(** kernel/chario.c:118-127 *)
Definition StdinBusy (d : D) : outcome D bool :=
  let t := co_sft (co_sft_idx STDIN d) d in
  match sft_to_dev t d with
  | Some dev => Busy dev d
  | None => let! (t, d) := lift_at t d in Done (sft_size t <=? sft_posit t) d
  end.

(** kernel/chario.c:131-137 *)
Definition ndread (dev : Z) (d : D) : outcome D Z :=
  let! (rq, d) := CharCmd tries dev C_NDREAD d in
  if busy_bit rq then Done (-1) d else lift_at (at_ (r_trans rq) 0) d.

(** ** The column *)

Definition update_scr_pos (c count : Z) (d : D) : D := co_set_scr_pos (next_pos c count (co_scr_pos d)) d.

(** kernel/chario.c:199-203 *)
Definition expand_tab (c : Z) (d : D) : Z * Z :=
  if c =? HT then (ch " ", 8 - Z.land (co_scr_pos d) 7) else (c, 1).

(** kernel/chario.c:224-228 *)
Definition write_char (c sft_idx : Z) (d : D) : outcome D unit :=
  let! (_, d) := lift (let* (_, _, d) := co_rw sft_idx [u8 c] XFR_FORCE_WRITE d in Some (tt, d)) in Done tt d.

Fixpoint write_chars (n : nat) (c sft_idx : Z) (d : D) : outcome D unit :=
  match n with
  | O => Done tt d
  | Datatypes.S n => let! (_, d) := write_char c sft_idx d in write_chars n c sft_idx d
  end.

(** kernel/chario.c:230-250 *)
Definition write_char_stdout (c : Z) (d : D) : outcome D unit :=
  let! (t, d) := lift_at (co_sft (co_sft_idx STDOUT d) d) d in
  let flags := sft_flags t in
  let '(c, count, d) :=
    if Z.land flags (Z.lor SFT_FDEVICE SFT_FBINARY) =? SFT_FDEVICE then (c, 1, d)
    else
      let '(c, count) := expand_tab c d in
      (c, count, if Z.land flags (Z.lor SFT_FDEVICE SFT_FCONOUT) =? Z.lor SFT_FDEVICE SFT_FCONOUT then d
                 else update_scr_pos (u8 c) count d) in
  write_chars (Z.to_nat count) c (co_sft_idx STDOUT d) d.

(** ** Output, input and breaks

    These call each other: output looks for a break and for the hold key, a break
    is echoed by output, and holding reads a character. *)

(** The counter of fast output: bit 7 tells that the device is fast. *)
Definition fast_start (dev : Z) (d : D) : Z := Z.shiftl (Z.land (co_attr dev d) ATTR_FASTCON) 3.

(** One character goes out [count] times; the result is an error or the counter.
    kernel/chario.c:205-218 *)
Definition put_body (check : Z -> D -> outcome D Z) (hold : Z -> D -> outcome D Z) (again : Z -> D -> outcome D (Z + Z))
    (dev c count fast : Z) (d : D) : outcome D (Z + Z) :=
  let! (_, d) :=
    if fast <=? 0x80 then
      let! (k, d) := check dev d in
      if k =? CTL_S then let! (_, d) := hold dev d in Done tt d else Done tt d
    else Done tt d in
  let fast := Z.land (u8 (fast + 1)) 0x9f in
  let d := if co_printer_echo d then co_print c d else d in
  let! (err, d) :=
    if negb (Z.land fast 0x80 =? 0) then Done 0 (co_fast_put c d) else CharIO dev c C_OUTPUT d in
  if err <? 0 then Done (inl err) d
  else if count =? 1 then Done (inr fast) d else again fast d.

(** One round of the loop over the characters; [xfer] of them are out.
    kernel/chario.c:187-204 *)
Definition cooked_body (put : Z -> Z -> Z -> Z -> D -> outcome D (Z + Z)) (next : list Z -> Z -> Z -> D -> outcome D Z)
    (dev : Z) (bp : list Z) (xfer fast : Z) (d : D) : outcome D Z :=
  match bp with
  | [] => Done xfer d
  | c :: bp =>
      if c =? CTL_Z then Done xfer d
      else
        let '(c, count) := expand_tab c d in
        let d := update_scr_pos c count d in
        let! (r, d) := put dev c count fast d in
        match r with
        | inl err => Done err d
        | inr fast => next bp (xfer + 1) fast d
        end
  end.

(** kernel/break.c:56-65 *)
Definition check_body (break : option Z -> Z -> D -> outcome D unit) (dev : Z) (d : D) : outcome D Z :=
  let syscon := co_syscon d in
  let! (c, d) := if co_break_flag d then Done CTL_C d else let! (c, d) := ndread syscon d in Done (u8 c) d in
  let! (c, d) :=
    if negb (c =? CTL_C) && negb (dev =? syscon) then let! (c, d) := ndread dev d in Done (u8 c) d else Done c d in
  if c =? CTL_C then let! (_, d) := break (Some dev) (-1) d in Done c d else Done c d.

(** The device is the null pointer when the input is a file: the request then goes
    astray.
    kernel/break.c:78-93 *)
Definition break_body (cooked : Z -> list Z -> Z -> Z -> D -> outcome D Z) (dev : option Z) (sft_out : Z) (d : D) : outcome D unit :=
  let buf := [ch "^"; ch "C"; CR; LF] in
  let d := co_clear_break d in
  let! (dev, d) := lift_at dev d in
  let! (_, d) := con_flush dev d in
  let! (_, d) :=
    if sft_out =? -1 then let! (_, d) := cooked dev buf 0 (fast_start dev d) d in Done tt d
    else lift (let* (_, _, d) := co_rw sft_out buf XFR_FORCE_WRITE d in Some (tt, d)) in
  Broken (co_int23 d).

(** One round of the wait for a character of a device.
    kernel/chario.c:303-322 *)
Definition poll_body (check : Z -> D -> outcome D Z) (again : D -> outcome D Z) (dev : Z) (check_break : bool) (d : D) : outcome D Z :=
  if co_break_flag d then Done CTL_C d
  else
    let! (busy, d) := Busy dev d in
    if negb busy then let! (c, d) := CharIO dev 0 C_INPUT d in Done (u8 c) d
    else
      let! (_, d) :=
        if check_break && negb (dev =? co_syscon d)
        then let! (_, d) := check (co_syscon d) d in Done tt d else Done tt d in
      again (co_idle d).

(** The read from a file stores nothing at its end, where the code returns the
    variable as it is: [Stuck].
    kernel/chario.c:295-336 *)
Definition read_body (wait : Z -> bool -> D -> outcome D Z) (read_again : option Z -> bool -> D -> outcome D Z)
    (break : option Z -> Z -> D -> outcome D unit) (read : bool -> D -> outcome D Z)
    (sft_in sft_out : Z) (dev : option Z) (check_break : bool) (d : D) : outcome D Z :=
  let! (c, d) :=
    match dev with
    | Some dev => wait dev check_break d
    | None =>
        let! (r, d) := lift (let* (n, l, d) := co_rw sft_in [0] XFR_READ d in Some (n, l, d)) in
        let '(n, l) := r in
        if n =? 1 then lift_at (at_ l 0) d else Stuck
    end in
  if check_break && ((c =? CTL_C) || (c =? CTL_S)) then
    let! (c, d) := if c =? CTL_S then read_again dev false d else Done c d in
    let! (_, d) := if c =? CTL_C then break dev sft_out d else Done tt d in
    read false d
  else Done c d.

(** The calls among them; [fuel] bounds the polling and their depth.
    kernel/chario.c:343-347 *)
Fixpoint read_char (fuel : nat) (sft_in sft_out : Z) (check_break : bool) (d : D) : outcome D Z :=
  match fuel with
  | O => Stuck
  | Datatypes.S fuel =>
      read_char_sft_dev fuel sft_in sft_out (sft_to_dev (co_sft sft_in d) d) check_break d
  end

with read_char_sft_dev (fuel : nat) (sft_in sft_out : Z) (dev : option Z) (check_break : bool) (d : D) : outcome D Z :=
  match fuel with
  | O => Stuck
  | Datatypes.S fuel =>
      read_body (poll fuel) (read_char_sft_dev fuel sft_in sft_out) (handle_break fuel) (read_char fuel sft_in sft_out)
        sft_in sft_out dev check_break d
  end

with poll (fuel : nat) (dev : Z) (check_break : bool) (d : D) : outcome D Z :=
  match fuel with
  | O => Stuck
  | Datatypes.S fuel => poll_body (check_handle_break fuel) (poll fuel dev check_break) dev check_break d
  end

with put_char (fuel : nat) (dev c count fast : Z) (d : D) : outcome D (Z + Z) :=
  match fuel with
  | O => Stuck
  | Datatypes.S fuel =>
      put_body (check_handle_break fuel) (fun dev d => read_char_sft_dev fuel (-1) (-1) (Some dev) true d)
        (put_char fuel dev c (count - 1)) dev c count fast d
  end

with cooked_loop (fuel : nat) (dev : Z) (bp : list Z) (xfer fast : Z) (d : D) : outcome D Z :=
  match fuel with
  | O => Stuck
  | Datatypes.S fuel => cooked_body (put_char fuel) (cooked_loop fuel dev) dev bp xfer fast d
  end

with check_handle_break (fuel : nat) (dev : Z) (d : D) : outcome D Z :=
  match fuel with
  | O => Stuck
  | Datatypes.S fuel => check_body (handle_break fuel) dev d
  end

with handle_break (fuel : nat) (dev : option Z) (sft_out : Z) (d : D) : outcome D unit :=
  match fuel with
  | O => Stuck
  | Datatypes.S fuel => break_body (cooked_loop fuel) dev sft_out d
  end.

(** kernel/chario.c:179-221 *)
Definition cooked_write (fuel : nat) (dev : Z) (bp : list Z) (d : D) : outcome D Z :=
  cooked_loop fuel dev bp 0 (fast_start dev d) d.

(** kernel/chario.c:338-341 *)
Definition raw_get_char (fuel : nat) (dev : Z) (check_break : bool) (d : D) : outcome D Z :=
  read_char_sft_dev fuel (-1) (-1) (Some dev) check_break d.

(** The tests for an error and for 256 come from the type of [raw_get_char]; its
    values are bytes.
    kernel/chario.c:276-293 *)
Fixpoint cooked_read (fuel n : nat) (dev : Z) (d : D) : outcome D (list Z) :=
  match n with
  | O => Done [] d
  | Datatypes.S n =>
      let! (c, d) := raw_get_char fuel dev true d in
      if c =? CTL_Z then Done [c] d
      else let! (l, d) := cooked_read fuel n dev d in Done (c :: l) d
  end.

(** kernel/chario.c:349-352 *)
Definition read_char_check_break (fuel : nat) (sft_in sft_out : Z) (d : D) : outcome D Z :=
  read_char fuel sft_in sft_out true d.

(** kernel/chario.c:354-357 *)
Definition read_char_stdin (fuel : nat) (check_break : bool) (d : D) : outcome D Z :=
  read_char fuel (co_sft_idx STDIN d) (co_sft_idx STDOUT d) check_break d.

(** The terminal of [Lineedit]. *)
#[export] Instance console_terminal (fuel : nat) : Terminal D := {
  t_read := read_char_check_break fuel;
  t_write := write_char;
  t_scr_pos := co_scr_pos }.

End console.
