(* ===== verification/ConsoleThms.v ===== *)
(** * The console: properties *)

From S2P Require Import Prelude Hdr Share Dpb Blockio Fattab Fnode Cluster Fatdir Fileio Chario Lineedit Newstuff Dosfns Console.

(** ** A console at rest

    No break is pending, no key is waiting, nothing goes to the printer, and every
    driver takes what it is given; [qc_screen] is all that has been written. *)
Class QuietConsole (D : Type) `{!ConsoleHost D} := {
  qc_ok : D -> Prop;
  qc_screen : D -> list Z;
  qc_break d : qc_ok d -> co_break_flag d = false;
  qc_printer d : qc_ok d -> co_printer_echo d = false;
  qc_poll dev d : qc_ok d -> exists status count d',
    char_execrh (CharDevice := co_driver dev) C_NDREAD 0 [] d = Some (status, count, [], d') /\
    is_error status = false /\ Z.land status S_BUSY <> 0 /\
    qc_ok d' /\ qc_screen d' = qc_screen d /\ co_scr_pos d' = co_scr_pos d;
  qc_output dev c d : qc_ok d -> exists status d',
    char_execrh (CharDevice := co_driver dev) C_OUTPUT 1 [c] d = Some (status, 1, [c], d') /\ is_error status = false /\
    qc_ok d' /\ qc_screen d' = qc_screen d ++ [c] /\ co_scr_pos d' = co_scr_pos d;
  qc_fast c d : qc_ok d -> qc_ok (co_fast_put c d) /\ qc_screen (co_fast_put c d) = qc_screen d ++ [c] /\
    co_scr_pos (co_fast_put c d) = co_scr_pos d;
  qc_set p d : qc_ok d -> qc_ok (co_set_scr_pos p d) /\ qc_screen (co_set_scr_pos p d) = qc_screen d /\
    co_scr_pos (co_set_scr_pos p d) = p }.

(** ** The reference: what a text looks like on the screen *)

(** The text up to the end-of-file character. *)
Fixpoint till_eof (l : list Z) : list Z :=
  match l with [] => [] | c :: l => if c =? CTL_Z then [] else c :: till_eof l end.

(** A tab goes to the next column that is a multiple of 8; the columns count
    modulo 256. *)
Definition column_after (c p : Z) : Z :=
  if c =? HT then ((p / 8 + 1) * 8) mod 256 else next_pos c 1 p.
Definition shown (c p : Z) : list Z :=
  if c =? HT then replicate (Z.to_nat ((p / 8 + 1) * 8 - p)) (ch " ") else [c].

Fixpoint screen_text (l : list Z) (p : Z) : list Z :=
  match l with [] => [] | c :: l => shown c p ++ screen_text l (column_after c p) end.
Definition last_column (l : list Z) (p : Z) : Z := foldl (fun p c => column_after c p) p l.

Lemma tab_count p : 0 <= p -> 8 - Z.land p 7 = (p / 8 + 1) * 8 - p.
Proof. intros Hp. change 7 with (Z.ones 3). rewrite Z.land_ones by lia. change (2 ^ 3) with 8. pose proof (Z.div_mod p 8). lia. Qed.

Section quiet.
  Context {D : Type} `{!ConsoleHost D, !QuietConsole D} (tries : nat).
  Hypothesis some_tries : (0 < tries)%nat.

Lemma ndread_quiet dev d : qc_ok d -> exists d', ndread tries dev d = Done (-1) d' /\
  qc_ok d' /\ qc_screen d' = qc_screen d /\ co_scr_pos d' = co_scr_pos d.
Proof.
  intros Hok. destruct (qc_poll dev d Hok) as (status & count & d' & E & He & Hb & Hd). exists d'. split; [|done].
  unfold ndread. destruct tries as [|n] eqn:Et; [lia|]. cbn [CharCmd]. rewrite <- Et. unfold CharRequest. rewrite E.
  cbn [obind lift mbind option_bind]. rewrite He. cbn. unfold busy_bit. cbn. by rewrite (proj2 (Z.eqb_neq _ _)).
Qed.

Lemma CharIO_quiet dev c d : qc_ok d -> exists d', CharIO tries dev c C_OUTPUT d = Done c d' /\
  qc_ok d' /\ qc_screen d' = qc_screen d ++ [c] /\ co_scr_pos d' = co_scr_pos d.
Proof.
  intros Hok. destruct (qc_output dev c d Hok) as (status & d' & E & He & Hd). exists d'. split; [|done].
  unfold CharIO. destruct tries as [|n] eqn:Et; [lia|]. cbn [BinaryCharIO]. rewrite <- Et. unfold CharRequest. rewrite E.
  cbn. by rewrite He.
Qed.

Lemma check_quiet n dev d : qc_ok d -> exists d', check_handle_break tries (Datatypes.S n) dev d = Done 255 d' /\
  qc_ok d' /\ qc_screen d' = qc_screen d /\ co_scr_pos d' = co_scr_pos d.
Proof.
  intros Hok. cbn [check_handle_break]. unfold check_body. rewrite qc_break by done.
  destruct (ndread_quiet (co_syscon d) d Hok) as (d1 & -> & O1 & S1 & P1). cbn [obind].
  change (u8 (-1)) with 255. change (255 =? CTL_C) with false. cbn [negb andb].
  destruct (dev =? co_syscon d); cbn [negb obind].
  - exists d1. done.
  - destruct (ndread_quiet dev d1 O1) as (d2 & -> & O2 & S2 & P2). cbn [obind].
    change (u8 (-1)) with 255. change (255 =? CTL_C) with false. exists d2. by rewrite S2, P2.
Qed.

Lemma put_char_S n dev c count fast d : put_char tries (Datatypes.S n) dev c count fast d =
  put_body tries (check_handle_break tries n) (fun dev d => read_char_sft_dev tries n (-1) (-1) (Some dev) true d)
    (put_char tries n dev c (count - 1)) dev c count fast d.
Proof. done. Qed.

(** One character goes out [count] times. *)
Lemma put_quiet n : forall count dev c fast d, (Z.to_nat count < n)%nat -> 1 <= count -> 0 <= c -> qc_ok d ->
  exists fast' d', put_char tries (Datatypes.S n) dev c count fast d = Done (inr fast') d' /\ qc_ok d' /\
    qc_screen d' = qc_screen d ++ replicate (Z.to_nat count) c /\ co_scr_pos d' = co_scr_pos d.
Proof.
  induction n as [|n IH]; intros count dev c fast d Hn Hc Hbyte Hok; [lia|].
  rewrite put_char_S. remember (Datatypes.S n) as n' eqn:En. unfold put_body. cbv beta.
  assert (exists d1, (if fast <=? 0x80 then
      let! (k, d) := check_handle_break tries n' dev d in
      if k =? CTL_S then let! (_, d) := read_char_sft_dev tries n' (-1) (-1) (Some dev) true d in Done tt d else Done tt d
    else Done tt d) = Done tt d1 /\ qc_ok d1 /\ qc_screen d1 = qc_screen d /\ co_scr_pos d1 = co_scr_pos d) as (d1 & -> & O1 & S1 & P1).
  { destruct (fast <=? 0x80); [|by exists d]. subst n'. destruct (check_quiet n dev d Hok) as (d1 & -> & Hd). by exists d1. }
  cbn [obind]. rewrite qc_printer by done. cbv zeta iota. set (fast1 := Z.land (u8 (fast + 1)) 0x9f).
  assert (exists e d2, (if negb (Z.land fast1 0x80 =? 0) then Done 0 (co_fast_put c d1) else CharIO tries dev c C_OUTPUT d1)
    = Done e d2 /\ 0 <= e /\ qc_ok d2 /\ qc_screen d2 = qc_screen d ++ [c] /\ co_scr_pos d2 = co_scr_pos d) as (e & d2 & -> & He & O2 & S2 & P2).
  { rewrite <- S1, <- P1. destruct (negb _); [exists 0, (co_fast_put c d1); pose proof (qc_fast c d1 O1); done|].
    destruct (CharIO_quiet dev c d1 O1) as (d2 & -> & Hd). by exists c, d2. }
  cbn [obind]. rewrite (proj2 (Z.ltb_ge _ _)) by done. destruct (Z.eqb_spec count 1) as [->|Hne].
  - by exists fast1, d2.
  - subst n'. destruct (IH (count - 1) dev c fast1 d2) as (fast' & d3 & -> & O3 & S3 & P3); [lia..|done|].
    exists fast', d3. split; [done|]. split; [done|]. rewrite S3, P3, S2, <- app_assoc. split; [|done].
    replace (Z.to_nat count) with (Datatypes.S (Z.to_nat (count - 1))) by lia. done.
Qed.

Lemma cooked_loop_S n dev c bp xfer fast d : cooked_loop tries (Datatypes.S n) dev (c :: bp) xfer fast d =
  if c =? CTL_Z then Done xfer d
  else
    let '(c, count) := expand_tab c d in
    let d := update_scr_pos c count d in
    let! (r, d) := put_char tries n dev c count fast d in
    match r with
    | inl err => Done err d
    | inr fast => cooked_loop tries n dev bp (xfer + 1) fast d
    end.
Proof. done. Qed.

Lemma next_pos_byte c count p : 0 <= p < 256 -> 0 <= next_pos c count p < 256.
Proof. intros Hp. unfold next_pos. pose proof (u8_range (p + count)). repeat case_match; lia. Qed.

Lemma cooked_quiet n : forall bp dev xfer fast d, (length bp + 10 < n)%nat -> Forall (fun c => 0 <= c) bp ->
  qc_ok d -> 0 <= co_scr_pos d < 256 ->
  let t := till_eof bp in
  exists d', cooked_loop tries n dev bp xfer fast d = Done (xfer + Z.of_nat (length t)) d' /\ qc_ok d' /\
    qc_screen d' = qc_screen d ++ screen_text t (co_scr_pos d) /\ co_scr_pos d' = last_column t (co_scr_pos d).
Proof.
  induction n as [|n IH]; intros bp dev xfer fast d Hn Hb Hok Hp t; [lia|]. subst t.
  destruct bp as [|c bp]; [|rewrite cooked_loop_S; cbn [till_eof]].
  { exists d. cbn. rewrite Z.add_0_r, app_nil_r. done. }
  apply list.Forall_cons in Hb as [Hc Hb]. destruct (Z.eqb_spec c CTL_Z).
  { exists d. cbn. rewrite Z.add_0_r, app_nil_r. done. }
  assert (exists c' count, expand_tab c d = (c', count) /\ 0 <= c' /\ 1 <= count <= 8 /\
    replicate (Z.to_nat count) c' = shown c (co_scr_pos d) /\ next_pos c' count (co_scr_pos d) = column_after c (co_scr_pos d))
    as (c' & count & -> & Hc' & Hcount & Hsh & Hcol).
  { unfold expand_tab, shown, column_after. destruct (Z.eqb_spec c HT) as [->|Hne].
    - eexists _, _. split; [done|]. rewrite tab_count by lia. pose proof (Z.div_mod (co_scr_pos d) 8).
      pose proof (Z.mod_pos_bound (co_scr_pos d) 8). split; [done|]. split; [lia|]. split; [done|].
      unfold next_pos. cbn. unfold u8. f_equal. lia.
    - by eexists _, _. }
  destruct (qc_set (next_pos c' count (co_scr_pos d)) d Hok) as (O1 & S1 & P1). cbn in Hn.
  unfold update_scr_pos at 1.
  destruct n as [|n']; [lia|].
  destruct (put_quiet n' count dev c' fast (co_set_scr_pos (next_pos c' count (co_scr_pos d)) d))
    as (fast' & d2 & -> & O2 & S2 & P2); [lia|lia|done|done|].
  cbn [obind]. rewrite P1 in P2. rewrite S1, Hsh in S2. rewrite Hcol in P2.
  destruct (IH bp dev (xfer + 1) fast' d2) as (d3 & E & O3 & S3 & P3); [lia|done|done| |].
  { rewrite P2, <- Hcol. by apply next_pos_byte. }
  exists d3. rewrite E. split; [f_equal; cbn [length]; lia|]. split; [done|]. cbn [screen_text]. unfold last_column. cbn [foldl].
  rewrite S3, P3, S2, P2, <- app_assoc. done.
Qed.

(** C21: cooked output at rest.  The text up to the end-of-file character appears on
    the screen with every tab filled up with spaces to the next column that is a
    multiple of 8; the result is the number of its characters, and the column the
    kernel keeps is the one behind it, whether the device is fast or not. *)
Theorem cooked_write_expands n dev bp d : (length bp + 10 < n)%nat -> Forall (fun c => 0 <= c) bp ->
  qc_ok d -> 0 <= co_scr_pos d < 256 ->
  let t := till_eof bp in
  exists d', cooked_write tries n dev bp d = Done (Z.of_nat (length t)) d' /\
    qc_screen d' = qc_screen d ++ screen_text t (co_scr_pos d) /\ co_scr_pos d' = last_column t (co_scr_pos d).
Proof.
  intros Hn Hb Hok Hp t. destruct (cooked_quiet n bp dev 0 (fast_start dev d) d Hn Hb Hok Hp) as (d' & E & _ & H2).
  by exists d'.
Qed.

End quiet.

(** ** A sample console: the screen and the column; device 1 is fast *)

Definition screen : Type := (list Z * Z)%type.

Definition screen_driver : CharDevice (list Z) screen := {|
  char_execrh command count trans d :=
    if command =? C_OUTPUT then Some (S_DONE, count, trans, (d.1 ++ trans, d.2))
    else if command =? C_NDREAD then Some (S_DONE + S_BUSY, count, trans, d)
    else Some (S_DONE, count, trans, d);
  char_error _ d := (FAIL, d) |}.

#[export] Instance screen_host : ConsoleHost screen := {|
  co_driver _ := screen_driver;
  co_attr dev _ := if dev =? 1 then ATTR_FASTCON else 0;
  co_syscon _ := 1;
  co_break_flag _ := false;
  co_clear_break d := d;
  co_idle d := d;
  co_fast_put c d := (d.1 ++ [c], d.2);
  co_printer_echo _ := false;
  co_print _ d := d;
  co_scr_pos d := d.2;
  co_set_scr_pos p d := (d.1, p);
  co_sft _ _ := None;
  co_sft_idx h _ := h;
  co_rw _ _ _ _ := None;
  co_int23 d := d |}.

#[local] Obligation Tactic := idtac.

#[export, program] Instance screen_quiet : QuietConsole screen := {| qc_ok _ := True; qc_screen d := d.1 |}.
Next Obligation. done. Qed.
Next Obligation. done. Qed.
Next Obligation. intros dev [l p] _. eexists _, _, _. split; [done|]. split; [done|]. split; [discriminate|done]. Qed.
Next Obligation. intros dev c [l p] _. eexists _, _. split; [done|]. split; done. Qed.
Next Obligation. done. Qed.
Next Obligation. done. Qed.

Lemma cooked_write_expands_witness :
  (0 < 1)%nat /\ exists d' : screen, cooked_write 1 20 1 [ch "a"; HT; ch "b"; CR; ch "c"; CTL_Z; ch "x"] ([], 5) = Done 5 d' /\
    qc_screen d' = [ch "a"; ch " "; ch " "; ch "b"; CR; ch "c"] /\ co_scr_pos d' = 1.
Proof.
  split; [lia|].
  apply (cooked_write_expands (D := screen) 1 ltac:(lia) 20 1 [ch "a"; HT; ch "b"; CR; ch "c"; CTL_Z; ch "x"] ([], 5)).
  - cbn. lia.
  - do 7 (apply List.Forall_cons; [discriminate|]). apply List.Forall_nil.
  - exact I.
  - cbn. lia.
Defined.
