(* ===== verification/DosfnsSpec.v ===== *)
(** * Handles and the file services: lemmas

    How the calls change the counts of the table entries, and what reading and
    writing through handles does. *)

From S2P Require Import Prelude Hdr Share ShareSpec Bytes Dpb Blockio BlockioRange Fattab CacheSpec FattabSpec.
From S2P Require Import Fnode Cluster ClusterSpec Names Fatdir FatdirSpec Fileio FileioSpec FilewriteSpec FilecloseSpec.
From S2P Require Import Chario Newstuff Dosfns.

(** ** The counts of the table entries *)

Definition counts {S} (s : system S) : list (list Z) := map (map sft_count) (sfthead s).

(** A call that leaves all counts and the handles. *)
Definition same_handles {S} (s s' : system S) : Prop := counts s' = counts s /\ ps_filetab s' = ps_filetab s.

#[export] Instance same_handles_preorder {S} : PreOrder (@same_handles S).
Proof. split; [by intros s|]. intros s1 s2 s3 [? ?] [? ?]. split; congruence. Qed.

Lemma idx_to_sft_range {S} i (s : system S) t : idx_to_sft i s = Some t -> 0 <= i /\ find_sft (sfthead s) i = Some t /\ sft_count t <> 0.
Proof. intros [Hf Hc]%idx_to_sft_spec. split; [|done]. by eapply find_sft_range. Qed.

Lemma find_counts {S} (s s' : system S) j : same_handles s s' ->
  sft_count <$> find_sft (sfthead s') j = sft_count <$> find_sft (sfthead s) j.
Proof.
  intros [Hc _]. unfold counts in Hc. revert Hc j. generalize (sfthead s) as l. generalize (sfthead s') as l'.
  induction l' as [|t' l' IH]; intros [|t l] Hc j; try done. cbn in Hc. injection Hc as Ht Hl.
  assert (length t' = length t) as Hlen by (by rewrite <- (length_map sft_count t'), Ht, length_map).
  cbn [find_sft]. rewrite Hlen. destruct (j <? _); [|by apply IH].
  unfold at_. destruct (j <? 0); [done|]. 
  assert (forall l : list sft, sft_count <$> l !! Z.to_nat j = map sft_count l !! Z.to_nat j) as Hm
    by (intros; symmetry; apply list_lookup_fmap).
  by rewrite !Hm, Ht.
Qed.

Lemma change_counts f sp : (forall t, sft_count (f t) = sft_count t) -> forall i,
  map (map sft_count) (change_sft f sp i) = map (map sft_count) sp.
Proof.
  intros Hf. induction sp as [|t sp IH]; intros i; cbn [change_sft]; [done|]. destruct (i <? _); cbn [map].
  - f_equal. apply list_eq. intros j. change (map sft_count) with (fmap (M := list) sft_count).
    rewrite !list_lookup_fmap. destruct (decide (j = Z.to_nat i)) as [->|Hne].
    + rewrite list_lookup_alter_eq. destruct (t !! Z.to_nat i); cbn; [by rewrite Hf|done].
    + by rewrite list_lookup_alter_ne.
  - by rewrite IH.
Qed.

Lemma upd_same {S} f i (s : system S) : (forall t, sft_count (f t) = sft_count t) -> same_handles s (upd_sft f i s).
Proof. intros Hf. split; [|done]. by apply change_counts. Qed.

Section structure.
  Context {S : Type} `{!BlockCache S, !DosState S, !BlockTransfer S} (cf steps ents : nat).

Lemma call_same {A} (f : S -> option (A * S)) (s : system S) a s' : call f s = Some (a, s') -> same_handles s s'.
Proof. unfold call. destruct (f (below s)) as [[b c]|]; [|done]. by intros [= _ <-]. Qed.

Lemma call__same (f : S -> option S) (s s' : system S) : call_ f s = Some s' -> same_handles s s'.
Proof. unfold call_. destruct (f (below s)) as [c|]; [|done]. by intros [= <-]. Qed.

Lemma merge_loop_same collect n : forall i fnp (s : system S) rc fnp' s',
  merge_loop no_close collect n i fnp s = Some (rc, fnp', s') -> same_handles s s'.
Proof.
  induction n as [|n IH]; intros i fnp s rc fnp' s'; cbn [merge_loop]; [by intros [= _ _ <-]|].
  destruct (find_sft _ _) as [t|]; [|done]. destruct (negb (same_file fnp i t)); [apply IH|].
  destruct (collect =? -1); [done|]. destruct (negb _).
  - destruct (negb _); [by intros [= _ _ <-]|apply IH].
  - intros Hr%IH. etransitivity; [|exact Hr]. by apply upd_same.
Qed.

Lemma merge_same fnp collect (s : system S) rc fnp' s' :
  merge_file_changes no_close fnp collect s = Some (rc, fnp', s') -> same_handles s s'.
Proof. unfold merge_file_changes. destruct (negb _); [by intros [= _ _ <-]|]. apply merge_loop_same. Qed.

Lemma distribute_same fnp (s s' : system S) : distribute fnp s = Some s' -> same_handles s s'.
Proof.
  unfold distribute. destruct (merge_file_changes _ _ _ _) as [[[rc f] s1]|] eqn:E; [|done].
  apply merge_same in E. by intros [= <-].
Qed.

Lemma fnode_to_sft_same fnp (s s' : system S) : fnode_to_sft fnp s = Some s' -> same_handles s s'.
Proof.
  unfold fnode_to_sft. destruct (idx_to_sft _ _); [|done]. intros [= <-]. by apply upd_same.
Qed.

(** The steps of a call one after the other. *)
Ltac same_steps :=
  repeat match goal with
  | H : Some _ = Some _ |- _ => injection H as <-; subst || (injection H; intros; subst)
  | H : None = Some _ |- _ => discriminate H
  | H : call _ _ = Some _ |- _ => apply call_same in H
  | H : call_ _ _ = Some _ |- _ => apply call__same in H
  | H : distribute _ _ = Some _ |- _ => apply distribute_same in H
  | H : merge_file_changes no_close _ _ _ = Some _ |- _ => apply merge_same in H
  | H : fnode_to_sft _ _ = Some _ |- _ => apply fnode_to_sft_same in H
  | H : (match ?x with _ => _ end) = Some _ |- _ => destruct x eqn:?
  end; try discriminate.

Lemma dos_close_same fd fnp (s : system S) rc fnp' s' : dos_close cf fd fnp s = Some (rc, fnp', s') -> same_handles s s'.
Proof.
  unfold dos_close. intros E. same_steps; repeat (etransitivity; [eassumption|]); try done.
Qed.

Lemma dos_open_same path flags attrib fd fnp (s : system S) rc fnp' s' :
  dos_open cf steps ents path flags attrib fd fnp s = Some (rc, fnp', s') -> same_handles s s'.
Proof.
  unfold dos_open, open_found. intros E. same_steps; repeat (etransitivity; [eassumption|]); try done.
Qed.

End structure.

(** ** Counting one entry up or down *)

Record counted {S} (i n : Z) (s s' : system S) : Prop := {
  cn_len : length (concat (sfthead s')) = length (concat (sfthead s));
  cn_tab : ps_filetab s' = ps_filetab s;
  cn_find j : 0 <= j -> sft_count <$> find_sft (sfthead s') j =
    (fun c => if decide (j = i) then s16 (c + n) else c) <$> (sft_count <$> find_sft (sfthead s) j) }.

Lemma same_length {S} (s s' : system S) : same_handles s s' -> length (concat (sfthead s')) = length (concat (sfthead s)).
Proof.
  intros [Hc _]. unfold counts in Hc. revert Hc. generalize (sfthead s) as l. generalize (sfthead s') as l'.
  induction l' as [|t' l' IH]; intros [|t l] Hc; try done. cbn in Hc. injection Hc as Ht Hl. cbn [concat].
  rewrite !length_app, (IH l Hl), <- (length_map sft_count t'), Ht, length_map. done.
Qed.

Lemma counted_before {S} i n (s s1 s2 : system S) : same_handles s s1 -> counted i n s1 s2 -> counted i n s s2.
Proof.
  intros Hs [L T F]. split; [by rewrite L, (same_length s s1)|by rewrite T, (proj2 Hs)|].
  intros j Hj. by rewrite F, (find_counts s s1) by done.
Qed.

Lemma counted_after {S} i n (s s1 s2 : system S) : counted i n s s1 -> same_handles s1 s2 -> counted i n s s2.
Proof.
  intros [L T F] Hs. split; [by rewrite (same_length s1 s2), L|by rewrite (proj2 Hs), T|].
  intros j Hj. by rewrite (find_counts s1 s2), F.
Qed.

Lemma upd_counted {S} f i n (s : system S) : 0 <= i -> (forall t, sft_count (f t) = s16 (sft_count t + n)) -> counted i n s (upd_sft f i s).
Proof.
  intros Hi Hf. split; [|done|].
  - cbn. generalize i as i'. induction (sfthead s) as [|t sp IH]; intros i'; cbn [change_sft]; [done|].
    destruct (_ <? _); cbn [concat]; rewrite !length_app; [by rewrite length_alter|by rewrite IH].
  - intros j Hj. cbn. rewrite find_change by done. case_decide as E; [subst j|]; destruct (find_sft _ _); cbn; try done.
    by rewrite Hf.
Qed.

Lemma counted_down {S} i (s s1 s2 : system S) : counted i 1 s s1 -> counted i (-1) s1 s2 ->
  (forall t, find_sft (sfthead s) i = Some t -> sft_count t = 0) -> 0 <= i -> counted i 0 s s2.
Proof.
  intros [L1 T1 F1] [L2 T2 F2] H0 Hi. split; [congruence|congruence|]. intros j Hj. rewrite F2, F1 by done.
  destruct (find_sft (sfthead s) j) as [t|] eqn:E; [|done]. cbn. case_decide; [subst j|done]. by rewrite (H0 t E).
Qed.

(** ** The services keep the tables *)

(** What is relied on: the device drivers leave the tables and the handles alone. *)
Class HandleLaws (S : Type) `{!DosServices S} := {
  hl_driver d c n t (s : system S) st n' t' s' :
    char_execrh (CharDevice := sv_driver d) c n t s = Some (st, n', t', s') -> same_handles s s';
  hl_error d st (s : system S) a s' : char_error (CharDevice := sv_driver d) st s = (a, s') -> same_handles s s' }.

Section services.
  Context {S : Type} `{!BlockCache S, !DosState S, !BlockTransfer S, !NameServices S, !DosServices S, !HandleLaws S}.
  Context (cf steps ents fuel : nat).

Lemma error_loop_same d k : forall status count (s : system S) r c s',
  error_loop (CharDevice0 := sv_driver d) k status count s = Some (r, c, s') -> same_handles s s'.
Proof.
  induction k as [|k IH]; intros status count s r c s'; cbn [error_loop]; [done|].
  destruct (char_error status s) as [a s1] eqn:E. apply hl_error in E. intros Hr. etransitivity; [exact E|].
  destruct (_ || _); [by injection Hr as _ _ <-|]. destruct (a =? CONTINUE); [by injection Hr as _ _ <-|].
  destruct (a =? RETRY); [by injection Hr as _ _ <-|]. by apply IH in Hr.
Qed.

Lemma binary_same d k : forall n bp c (s : system S) r q s',
  BinaryCharIO (CharDevice0 := sv_driver d) k n bp c s = Some (r, q, s') -> same_handles s s'.
Proof.
  induction k as [|k IH]; intros n bp c s r q s'; cbn [BinaryCharIO]; [done|].
  destruct (CharRequest _ _ _ _ _) as [[[err rq] s1]|] eqn:E; [|done].
  assert (same_handles s s1) as Hs.
  { unfold CharRequest in E. destruct (char_execrh c n bp s) as [[[[st cnt] tr] s2]|] eqn:E2; [|done].
    apply hl_driver in E2. destruct (is_error st).
    - destruct (error_loop _ _ _ _) as [[[e' c'] s3]|] eqn:E3; [|done]. apply error_loop_same in E3.
      injection E as _ _ <-. by etransitivity.
    - by injection E as _ _ <-. }
  destruct (err =? 1); [intros Hr%IH; by etransitivity|]. by intros [= _ _ <-].
Qed.

Lemma installed_same b (s : system S) r s' : IsShareInstalled b s = (r, s') -> same_handles s s'.
Proof. unfold IsShareInstalled. intros [= _ <-]. by destruct (_ && _). Qed.

Lemma sharing_same sh (s : system S) : same_handles s (with_sharing sh s).
Proof. done. Qed.

(** Closing counts the entry down, or changes nothing. *)
Lemma DosCloseSft_counts i fnp (s : system S) t rc fnp' s' :
  idx_to_sft i s = Some t -> Z.land (sft_flags t) SFT_FSHARED = 0 ->
  DosCloseSft cf fuel i false fnp s = Some (rc, fnp', s') ->
  rc = SUCCESS /\ counted i (-1) s s' \/ rc <> SUCCESS /\ same_handles s s'.
Proof.
  intros Ht Hsh. unfold DosCloseSft. rewrite Ht, Hsh. cbn [Z.eqb negb].
  assert (0 <= i) as Hi by (apply idx_to_sft_range in Ht; lia).
  destruct (negb (Z.land (sft_flags t) SFT_FDEVICE =? 0)).
  - destruct (device_of (sft_dcb t) s) as [dev|]; [|done].
    destruct (if negb (Z.land (dh_attr dev) SFT_FOCRM =? 0) then _ else _) as [[r s1]|] eqn:E; [|done].
    assert (same_handles s s1) as Hs1.
    { destruct (negb (Z.land (dh_attr dev) SFT_FOCRM =? 0)); [|by injection E as _ <-].
      destruct (BinaryCharIO _ _ _ _ _) as [[[r' q] s2]|] eqn:E2; [|done]. apply binary_same in E2. by injection E as _ <-. }
    destruct (Z.eqb_spec r SUCCESS); cbn [negb]; intros [= <- <- <-]; [left|by right].
    split; [done|]. eapply counted_before; [exact Hs1|]. by apply upd_counted.
  - destruct (dos_close cf i fnp s) as [[[r f1] s1]|] eqn:E; [|done]. apply dos_close_same in E. cbn [orb].
    destruct (Z.eqb_spec r SUCCESS) as [->|Hr]; cbn [negb]; [|intros [= <- <- <-]; by right].
    destruct (find_sft (sfthead s1) i) as [t1|]; [|done].
    destruct (if sft_count t1 =? 1 then _ else _) as [s2|] eqn:E2; [|done]. intros [= <- <- <-]. left. split; [done|].
    eapply counted_before; [|by apply upd_counted]. etransitivity; [exact E|].
    destruct (sft_count t1 =? 1); [|by injection E2 as <-].
    destruct (IsShareInstalled true s1) as [b s3] eqn:E3. apply installed_same in E3. etransitivity; [exact E3|].
    destruct b; [|by injection E2 as <-].
    destruct (0 <=? sft_shroff t1); [destruct (close_file _ _) as [sh|]; [|done]|]; injection E2 as <-;
      (split; [by apply change_counts|done]).
Qed.

(** ** Handles and counts *)

(** How many handles stand for entry [i]. *)
Definition refs (i : Z) (tab : list Z) : Z := Z.of_nat (length (filter (fun h => h = i) tab)).

Lemma refs_pos i tab : 0 <= refs i tab.
Proof. unfold refs. lia. Qed.

Lemma refs_in i tab : i ∈ tab -> 1 <= refs i tab.
Proof.
  intros Hi. unfold refs. assert (i ∈ filter (fun h => h = i) tab) as Hf by (by apply list_elem_of_filter).
  destruct (filter _ tab); [by apply elem_of_nil in Hf|cbn; lia].
Qed.

Lemma refs_insert i k x y tab : tab !! k = Some y ->
  refs i (<[k := x]> tab) = refs i tab - (if decide (y = i) then 1 else 0) + (if decide (x = i) then 1 else 0).
Proof.
  unfold refs. revert k. induction tab as [|z tab IH]; intros k Hk; [done|]. destruct k as [|k]; cbn in Hk.
  - injection Hk as ->. change (<[0%nat := x]> (y :: tab)) with (x :: tab). rewrite !filter_cons.
    repeat case_decide; cbn [length]; lia.
  - change (<[Datatypes.S k := x]> (z :: tab)) with (z :: <[k := x]> tab). rewrite !filter_cons. specialize (IH k Hk).
    destruct (decide (z = i)); cbn [length]; lia.
Qed.

(** The handles of the running process stand for open entries, whose counts have
    room for them and for those of the [others]. *)
Record handles_ok (others : Z -> Z) (s : system S) : Prop := {
  ho_handles h : h ∈ ps_filetab s -> 0 <= h <= 255;
  ho_others i : 0 <= others i;
  ho_small : Z.of_nat (length (concat (sfthead s))) <= 255;
  ho_open h : h ∈ ps_filetab s -> h <> 255 -> is_Some (find_sft (sfthead s) h);
  ho_count i t : 0 <= i -> find_sft (sfthead s) i = Some t -> refs i (ps_filetab s) + others i <= sft_count t <= 32767 }.

Lemma handles_same others s s' : same_handles s s' -> handles_ok others s -> handles_ok others s'.
Proof.
  intros Hs [H1 H2 H3 H4 H5]. pose proof Hs as [_ Ht]. split; try done.
  - by rewrite Ht.
  - by rewrite (same_length s s').
  - rewrite Ht. intros h Hh Hne. pose proof (find_counts s s' h Hs) as Hf. destruct (H4 h Hh Hne) as [t E]. rewrite E in Hf.
    destruct (find_sft (sfthead s') h); [done|discriminate].
  - intros i t Hi E. pose proof (find_counts s s' i Hs) as Hf. rewrite E in Hf.
    destruct (find_sft (sfthead s) i) as [t0|] eqn:E0; [|discriminate]. injection Hf as Hf. rewrite Ht, Hf. by apply H5.
Qed.

(** A change of the count of entry [i] together with one of the handle [k], from
    [y] to [x]. *)
Lemma handles_changed others (s s1 : system S) i n k x y :
  handles_ok others s -> counted i n s s1 -> ps_filetab s !! k = Some y -> 0 <= x <= 255 -> 0 <= i ->
  (x <> 255 -> is_Some (find_sft (sfthead s) x)) ->
  (forall t j, 0 <= j -> find_sft (sfthead s) j = Some t ->
     refs j (ps_filetab s) - (if decide (y = j) then 1 else 0) + (if decide (x = j) then 1 else 0) + others j <=
       (if decide (j = i) then sft_count t + n else sft_count t) <= 32767) ->
  handles_ok others (with_filetab (<[k := x]> (ps_filetab s1)) s1).
Proof.
  intros [H1 H2 H3 H4 H5] [L T F] Hk Hx Hi Hxf Hn. rewrite T.
  assert (Hfind : forall j, 0 <= j -> is_Some (find_sft (sfthead s) j) -> is_Some (find_sft (sfthead s1) j)).
  { intros j Hj [t E]. specialize (F j Hj). rewrite E in F. destruct (find_sft (sfthead s1) j); [done|discriminate]. }
  assert (Hin : forall h, h ∈ <[k := x]> (ps_filetab s) -> h = x \/ h ∈ ps_filetab s).
  { intros h Hh. apply list_elem_of_lookup in Hh as [j Hj]. destruct (decide (j = k)) as [->|Hne].
    - rewrite list_lookup_insert_eq in Hj by (by eapply lookup_lt_Some). injection Hj as ->. by left.
    - rewrite list_lookup_insert_ne in Hj by done. right. by eapply list_elem_of_lookup_2. }
  split; cbn [ps_filetab sfthead with_filetab].
  - intros h [->|Hh]%Hin; [done|by apply H1].
  - done.
  - by rewrite L.
  - intros h [->|Hh]%Hin Hne; [apply Hfind; [lia|by apply Hxf]|]. apply Hfind; [by apply H1|by apply H4].
  - intros j t Hj E. specialize (F j Hj). rewrite E in F.
    destruct (find_sft (sfthead s) j) as [t0|] eqn:E0; [|discriminate]. injection F as ->.
    rewrite (refs_insert j k x y) by done. specialize (Hn t0 j Hj E0). pose proof (H2 j).
    pose proof (H5 j t0 Hj E0). pose proof (refs_pos j (ps_filetab s)).
    destruct (decide (j = i)); [|done].
    assert (0 <= sft_count t0 + n) by (pose proof (refs_pos j (<[k:=x]> (ps_filetab s))) as Hp;
      rewrite (refs_insert j k x y) in Hp by done; lia).
    unfold s16. rewrite Z.mod_small by lia. lia.
Qed.

Lemma same_counted others i (s s1 : system S) : handles_ok others s -> same_handles s s1 -> counted i 0 s s1.
Proof.
  intros [_ H2 _ _ H5] Hs. split; [by apply same_length|apply Hs|]. intros j Hj. rewrite (find_counts s s1 j Hs).
  destruct (find_sft (sfthead s) j) as [t|] eqn:E; [|done]. cbn. case_decide; [|done]. f_equal.
  pose proof (H5 j t Hj E). pose proof (H2 j). pose proof (refs_pos j (ps_filetab s)).
  rewrite Z.add_0_r. unfold s16. rewrite Z.mod_small by lia. lia.
Qed.

(** A change of a count only. *)
Lemma handles_counted others (s s1 : system S) i n k y : handles_ok others s -> counted i n s s1 -> ps_filetab s !! k = Some y ->
  0 <= i -> (forall t, find_sft (sfthead s) i = Some t -> refs i (ps_filetab s) + others i <= sft_count t + n <= 32767) ->
  handles_ok others s1.
Proof.
  intros Hok Hc Hk Hi Hn. pose proof Hok as [H1 H2 H3 H4 H5].
  assert (Hy : y ∈ ps_filetab s) by (by eapply list_elem_of_lookup_2).
  pose proof (handles_changed others s s1 i n k y y Hok Hc Hk (H1 y Hy) Hi (H4 y Hy)) as Hres.
  rewrite (cn_tab _ _ _ _ Hc), list_insert_id in Hres by done. rewrite <- (cn_tab _ _ _ _ Hc) in Hres.
  assert (with_filetab (ps_filetab s1) s1 = s1) as E by (by destruct s1). rewrite E in Hres. apply Hres.
  intros t j Hj Et. rewrite (cn_tab _ _ _ _ Hc). enough (refs j (ps_filetab s) + others j <=
    (if decide (j = i) then sft_count t + n else sft_count t) <= 32767) by (destruct (decide (y = j)); lia).
  destruct (decide (j = i)) as [->|]; [by apply Hn|by apply H5].
Qed.

Lemma find_255 others (s : system S) t : handles_ok others s -> find_sft (sfthead s) 255 = Some t -> False.
Proof.
  intros [_ _ H3 _ _] E. assert (is_Some (find_sft (sfthead s) 255)) as Hs%find_sft_bound by done; lia.
Qed.

(** The entry of a handle. *)
Lemma get_sft_handle h (s : system S) t : get_sft h s = Some t ->
  let i := get_sft_idx h s in at_ (ps_filetab s) h = Some i /\ i <> 255 /\ 0 <= i /\
    idx_to_sft i s = Some t /\ find_sft (sfthead s) i = Some t.
Proof.
  intros Ht i. unfold get_sft in Ht. fold i in Ht. destruct (idx_to_sft_range i s t Ht) as (Hi & Hf & _).
  unfold i, get_sft_idx in *. destruct (at_ (ps_filetab s) h) as [x|]; [|cbn in Hi; unfold DE_INVLDHNDL in Hi; lia].
  destruct (Z.eqb_spec x 0xff); [unfold DE_INVLDHNDL in Hi; lia|]. by split_and!.
Qed.

Lemma set_at_some {A} i (x : A) l l' : set_at i x l = Some l' ->
  0 <= i /\ l' = <[Z.to_nat i := x]> l /\ (Z.to_nat i < length l)%nat.
Proof.
  unfold set_at. destruct (Z.leb_spec 0 i); [|done]. destruct (Z.ltb_spec i (Z.of_nat (length l))); [|done].
  intros [= <-]. split_and!; [done|done|lia].
Qed.

(** The entries that calls may close are not on the network. *)
Definition local (h : Z) (s : system S) : Prop := forall t, get_sft h s = Some t -> Z.land (sft_flags t) SFT_FSHARED = 0.

(** Handle [h] is closed, the count of its entry goes down or not. *)
Lemma handle_closed others h (s s1 : system S) i t n : handles_ok others s -> counted i n s s1 -> n = -1 \/ n = 0 ->
  ps_filetab s !! Z.to_nat h = Some i -> idx_to_sft i s = Some t -> i <> 255 ->
  let s' := with_filetab (<[Z.to_nat h := 255]> (ps_filetab s1)) s1 in
  handles_ok others s' /\
  (forall j t t', 0 <= j -> find_sft (sfthead s) j = Some t -> find_sft (sfthead s') j = Some t' -> sft_count t' <= sft_count t) /\
  (forall j, 0 <= j -> is_Some (find_sft (sfthead s) j) -> is_Some (find_sft (sfthead s') j)).
Proof.
  intros Hok Hc Hn Hk Ht Hne s'. pose proof Hok as [H1 H2 H3 H4 H5]. destruct (idx_to_sft_range i s t Ht) as (Hi & Hf & Ht0).
  split; [|split].
  - apply (handles_changed others s s1 i n (Z.to_nat h) 255 i); try done. intros t0 j Hj E0. pose proof (H5 j t0 Hj E0).
    destruct (decide (255 = j)) as [<-|]; [by destruct (find_255 others s t0 Hok E0)|].
    destruct (decide (i = j)), (decide (j = i)); try congruence; lia.
  - intros j t0 t1 Hj E0 E1. pose proof (cn_find _ _ _ _ Hc j Hj) as F. cbn in E1. rewrite E0, E1 in F. injection F as F.
    pose proof (H5 j t0 Hj E0). pose proof (H2 j). pose proof (refs_pos j (ps_filetab s)).
    destruct (decide (j = i)) as [->|]; [|lia]. assert (t0 = t) as -> by congruence. rewrite F.
    unfold s16. rewrite Z.mod_small by lia. lia.
  - intros j Hj [t0 E0]. pose proof (cn_find _ _ _ _ Hc j Hj) as F. rewrite E0 in F. cbn.
    destruct (find_sft (sfthead s1) j); [done|discriminate].
Qed.

Lemma DosClose_ok others h fnp (s : system S) rc fnp' s' :
  handles_ok others s -> local h s -> DosClose cf fuel h fnp s = Some (rc, fnp', s') ->
  handles_ok others s' /\
  (is_Some (get_sft h s) -> 0 <= h /\ ps_filetab s' = <[Z.to_nat h := 255]> (ps_filetab s)) /\
  (forall j t t', 0 <= j -> find_sft (sfthead s) j = Some t -> find_sft (sfthead s') j = Some t' -> sft_count t' <= sft_count t) /\
  (forall j, 0 <= j -> is_Some (find_sft (sfthead s) j) -> is_Some (find_sft (sfthead s') j)).
Proof.
  intros Hok Hloc. unfold DosClose. destruct (idx_to_sft (get_sft_idx h s) s) as [t|] eqn:Et.
  2: { intros [= _ _ <-]. split; [done|]. split; [intros [t Ht]; unfold get_sft in Ht; congruence|].
       split; [intros j t t' _ E1 E2; rewrite E1 in E2; injection E2 as ->; lia|done]. }
  destruct (get_sft_handle h s t Et) as (Hat & Hne & Hi & _ & Hf). specialize (Hloc t Et). set (i := get_sft_idx h s) in *.
  apply at_lookup in Hat as [Hh Hk]. destruct (set_at h 0xff (ps_filetab s)) as [tab|] eqn:E; [|done].
  destruct (set_at_some _ _ _ _ E) as (_ & -> & _). set (tab := <[Z.to_nat h := 0xff]> (ps_filetab s)) in *.
  intros Hc. set (s1 := with_filetab (ps_filetab s) s').
  assert (Hcs : exists n, (n = -1 \/ n = 0) /\ counted i n s s1 /\ ps_filetab s' = tab).
  { destruct (DosCloseSft_counts i fnp (with_filetab tab s) t rc fnp' s') as [(-> & [L T F])|(_ & [Hcc Htab])]; try done.
    - exists (-1). split; [by left|]. split; [|done]. by split.
    - exists 0. split; [by right|]. split; [|done]. eapply same_counted; [exact Hok|by split]. }
  destruct Hcs as (n & Hn & Hcs & Htab).
  assert (s' = with_filetab (<[Z.to_nat h := 255]> (ps_filetab s1)) s1) as Es by (destruct s'; cbn in *; by subst).
  destruct (handle_closed others h s s1 i t n Hok Hcs Hn Hk Et Hne) as (A1 & A2 & A3). rewrite <- Es in *.
  by split_and!.
Qed.

(** The entry of a handle has room for one more. *)
Definition not_full (h : Z) (s : system S) : Prop := forall t, get_sft h s = Some t -> sft_count t < 32767.

Lemma DosForceDup_ok others old new fnp (s : system S) rc fnp' s' :
  handles_ok others s -> local new s -> not_full old s -> DosForceDup cf fuel old new fnp s = Some (rc, fnp', s') ->
  handles_ok others s'.
Proof.
  intros Hok Hloc Hfull. unfold DosForceDup. destruct (get_sft old s) as [t|] eqn:Et; [|by intros [= _ _ <-]].
  destruct (get_sft_handle old s t Et) as (Hat & Hne & Hi & _ & Hf). specialize (Hfull t Et).
  set (i := get_sft_idx old s) in *. destruct (at_ (ps_filetab s) new) as [y|] eqn:Enew; [|done].
  destruct (if negb (y =? 0xff) then _ else _) as [[[ret f1] s1]|] eqn:E1; [|done].
  assert (Hs1 : ret = SUCCESS -> handles_ok others s1 /\ ps_filetab s1 !! Z.to_nat new = Some 255 /\
    (forall t', find_sft (sfthead s1) i = Some t' -> sft_count t' < 32767) /\ is_Some (find_sft (sfthead s1) i)).
  { apply at_lookup in Enew as [Hn Hk]. intros ->. destruct (Z.eqb_spec y 0xff) as [->|Hy]; cbn [negb] in E1.
    - injection E1 as _ <-. split_and!; try done. intros t' E. assert (t' = t) as -> by congruence. lia.
    - destruct (DosClose_ok others new fnp s _ _ _ Hok Hloc E1) as (A1 & A2 & A3 & A4).
      assert (is_Some (get_sft new s)) as Hs.
      { unfold DosClose in E1. unfold get_sft. destruct (idx_to_sft _ s); [done|]. discriminate E1. }
      destruct (A2 Hs) as [_ Etab]. split; [done|]. split.
      + rewrite Etab. apply list_lookup_insert_eq. by eapply lookup_lt_Some.
      + split; [|by apply A4]. intros t' E. specialize (A3 i t t' Hi Hf E). lia. }
  destruct (Z.eqb_spec ret SUCCESS) as [->|Hr]; cbn [negb].
  2: { intros [= <- <- <-]. destruct (Z.eqb_spec y 0xff) as [->|Hy]; cbn [negb] in E1; [by injection E1 as <- _ _|].
       by apply (DosClose_ok others new fnp s _ _ _ Hok Hloc E1). }
  destruct (Hs1 eq_refl) as (Hok1 & Hk1 & Hc1 & Hs). destruct (at_ (ps_filetab s1) old) as [x|] eqn:Eold; [|done].
  destruct (set_at new x (ps_filetab s1)) as [tab|] eqn:Etab; [|done]. intros [= _ _ <-].
  destruct (set_at_some _ _ _ _ Etab) as (_ & -> & _). apply at_lookup in Eold as [_ Eold].
  assert (Hx : x ∈ ps_filetab s1) by (by eapply list_elem_of_lookup_2).
  pose proof Hok1 as [H1 H2 H3 H4 H5].
  assert (x = i \/ x = 255) as Hxi.
  { apply at_lookup in Hat as [_ Hat]. destruct (Z.eqb_spec y 0xff) as [->|Hy]; cbn [negb] in E1.
    - injection E1 as _ <-. left. congruence.
    - destruct (DosClose_ok others new fnp s _ _ _ Hok Hloc E1) as (_ & A2 & _).
      assert (is_Some (get_sft new s)) as Hs'.
      { unfold DosClose in E1. unfold get_sft. destruct (idx_to_sft _ s); [done|]. discriminate E1. }
      destruct (A2 Hs') as [_ Et1]. rewrite Et1 in Eold. destruct (decide (Z.to_nat old = Z.to_nat new)) as [En|En].
      + rewrite En, list_lookup_insert_eq in Eold; [right; congruence|].
        apply at_lookup in Enew as [_ Enew]. by eapply lookup_lt_Some.
      + rewrite list_lookup_insert_ne in Eold by done. left. congruence. }
  assert (Hcnt : counted i 1 s1 (upd_sft (add_count 1) i s1)) by (by apply upd_counted).
  apply (handles_changed others s1 _ i 1 (Z.to_nat new) x 255 Hok1 Hcnt Hk1); [by apply H1|done|by apply H4|].
  intros t0 j Hj E0. pose proof (H5 j t0 Hj E0).
  destruct (decide (255 = j)) as [<-|]; [by destruct (find_255 others s1 t0 Hok1 E0)|].
  destruct (decide (j = i)) as [->|].
  - pose proof (Hc1 t0 E0). destruct (decide (x = i)); lia.
  - destruct (decide (x = j)); [|lia]. subst. destruct Hxi; congruence.
Qed.

Lemma DosDup_ok others h fnp (s : system S) rc fnp' s' :
  handles_ok others s -> not_full h s -> DosDup cf fuel h fnp s = Some (rc, fnp', s') -> handles_ok others s'.
Proof.
  intros Hok Hfull. unfold DosDup. destruct (get_free_hndl s <? 0) eqn:E; [by intros [= _ _ <-]|].
  destruct (DosForceDup _ _ _ _ _ _) as [[[r f1] s1]|] eqn:E1; [|done]. intros [= _ _ <-].
  eapply DosForceDup_ok; [exact Hok| |exact Hfull|exact E1]. intros t Ht.
  destruct (get_sft_handle _ _ _ Ht) as (_ & _ & Hi & _). unfold get_free_hndl in *.
  destruct (list_find _ _) as [[k y]|] eqn:Ef; [|done]. apply list_find_Some in Ef as (Hk & -> & _).
  unfold get_sft_idx in Hi. rewrite at_nat, Hk in Hi. cbn in Hi. unfold DE_INVLDHNDL in Hi. lia.
Qed.

Lemma CloneHandle_ok others h (s : system S) rc s' :
  handles_ok others s -> not_full h s -> CloneHandle h s = (rc, s') -> handles_ok others s'.
Proof.
  intros Hok Hfull. unfold CloneHandle. destruct (get_sft h s) as [t|] eqn:Et; [|by intros [= _ <-]].
  destruct (negb _); [by intros [= _ <-]|]. intros [= _ <-].
  destruct (get_sft_handle h s t Et) as (Hat & Hne & Hi & _ & Hf). apply at_lookup in Hat as [_ Hat].
  eapply (handles_counted others s _ _ 1); [done|by apply upd_counted|exact Hat|done|].
  intros t0 E0. specialize (Hfull t Et). assert (t0 = t) as -> by congruence.
  pose proof (ho_count _ _ Hok _ t Hi Hf). lia.
Qed.

(** ** Opening *)

Lemma change_counts_at f sp : forall i, 0 <= i -> (forall t, find_sft sp i = Some t -> sft_count (f t) = sft_count t) ->
  map (map sft_count) (change_sft f sp i) = map (map sft_count) sp.
Proof.
  induction sp as [|t sp IH]; intros i Hi Hf; cbn [change_sft find_sft] in *; [done|].
  destruct (Z.ltb_spec i (Z.of_nat (length t))); cbn [map]; [|f_equal; apply IH; [lia|done]].
  f_equal. apply list_eq. intros j. change (map sft_count) with (fmap (M := list) sft_count).
  rewrite !list_lookup_fmap. destruct (decide (j = Z.to_nat i)) as [->|Hne]; [|by rewrite list_lookup_alter_ne].
  rewrite list_lookup_alter_eq. unfold at_ in Hf. rewrite (proj2 (Z.ltb_ge _ 0)) in Hf by lia.
  destruct (t !! Z.to_nat i) as [u|]; cbn; [by rewrite Hf|done].
Qed.

Lemma concat_find (sp : list (list sft)) : forall n t, concat sp !! n = Some t -> find_sft sp (Z.of_nat n) = Some t.
Proof.
  induction sp as [|l sp IH]; intros n t Hn; [done|]. cbn [concat find_sft] in *.
  destruct (Z.ltb_spec (Z.of_nat n) (Z.of_nat (length l))).
  - rewrite lookup_app_l in Hn by lia. by rewrite at_nat.
  - rewrite lookup_app_r in Hn by lia. replace (Z.of_nat n - Z.of_nat (length l)) with (Z.of_nat (n - length l)) by lia.
    by apply IH.
Qed.

Lemma free_sft_spec (s : system S) i : get_free_sft s = Some i ->
  0 <= i /\ exists t, find_sft (sfthead s) i = Some t /\ sft_count t = 0.
Proof.
  unfold get_free_sft. destruct (list_find _ _) as [[k t]|] eqn:E; [|done]. intros [= <-].
  apply list_find_Some in E as (Hk & Hc & _). split; [lia|]. exists t. split; [by apply concat_find|done].
Qed.

Lemma action_index i a : u8 (sft_and_action i a) = u8 i.
Proof.
  unfold sft_and_action, u8. change 256 with (2 ^ 8). rewrite <- !Z.land_ones by lia.
  apply Z.bits_inj'. intros n Hn. rewrite !Z.land_spec, Z.lor_spec, Z.shiftl_spec by lia.
  destruct (decide (n < 8)); [by rewrite (Z.testbit_neg_r a), orb_false_r by lia|].
  by rewrite Z.ones_spec_high, !andb_false_r by lia.
Qed.

Lemma DeviceOpenSft_counts dhp i (s : system S) rc s' : 0 <= i -> DeviceOpenSft fuel dhp i s = Some (rc, s') -> counted i 1 s s'.
Proof.
  intros Hi. unfold DeviceOpenSft. set (s0 := upd_sft _ i s).
  assert (counted i 1 s s0) as H0 by (by apply upd_counted).
  destruct (device_sft_name _) as [name|]; [|done].
  destruct (call ds_getdate s0) as [[dt s1]|] eqn:E1; [|done]. destruct (call ds_gettime s1) as [[tm s2]|] eqn:E2; [|done].
  apply call_same in E1. apply call_same in E2. cbv zeta. set (s3 := upd_sft _ i s2).
  assert (counted i 1 s s3) as H3.
  { eapply counted_after; [exact H0|]. etransitivity; [exact E1|]. etransitivity; [exact E2|]. by apply upd_same. }
  destruct (negb _); [|by intros [= _ <-]]. destruct (BinaryCharIO _ _ _ _ _) as [[[r q] s4]|] eqn:E4; [|done].
  apply binary_same in E4. intros [= _ <-]. by eapply counted_after.
Qed.

Lemma file_open_counts i path flags attrib fnp (s : system S) t rc fnp' s' :
  0 <= i -> find_sft (sfthead s) i = Some t -> sft_count t = 0 ->
  file_open_sft cf steps ents i path flags attrib fnp s = Some (rc, fnp', s') ->
  rc < 0 /\ (same_handles s s' \/ counted i 0 s s') \/ counted i 1 s s' /\ u8 rc = u8 i.
Proof.
  intros Hi Ht Hc. unfold file_open_sft. destruct (2 <? _); [intros [= <- _ <-]; by left; split; [|left]|].
  destruct (_ && _); [intros [= <- _ <-]; by left; split; [|left]|].
  destruct (IsShareInstalled true s) as [b s0] eqn:E0. apply installed_same in E0.
  destruct (if b then _ else _) as [[r s1]|] eqn:E1; [|done].
  assert (same_handles s s1) as H1.
  { destruct b; [|by injection E1 as _ <-]. destruct (open_check _ _ _ _ _) as [[r' sh]|]; [|done]. injection E1 as _ <-.
    etransitivity; [exact E0|]. split; [by apply change_counts|done]. }
  destruct (Z.ltb_spec r 0); [intros [= <- _ <-]; left; split; [done|by left]|].
  destruct (head path) as [drive|]; [|done]. set (s2 := upd_sft _ i s1).
  assert (counted i 1 s s2) as H2 by (eapply counted_before; [exact H1|]; by apply upd_counted).
  destruct (dos_open _ _ _ _ _ _ _ _ _) as [[[result f3] s3]|] eqn:E3; [|done]. apply dos_open_same in E3.
  pose proof (counted_after _ _ _ _ _ H2 E3) as H3.
  destruct (Z.ltb_spec result 0).
  2: { intros [= <- _ <-]. right. split; [done|]. apply action_index. }
  destruct (IsShareInstalled true s3) as [b4 s4] eqn:E4. apply installed_same in E4.
  destruct (if b4 then _ else _) as [s5|] eqn:E5; [|done]. intros [= <- _ <-]. left. split; [done|]. right.
  eapply counted_down; [|by apply upd_counted| |done].
  - eapply counted_after; [exact H3|]. etransitivity; [exact E4|]. destruct b4; [|by injection E5 as <-].
    destruct (find_sft (sfthead s4) i); [|done]. destruct (close_file _ _); [|done]. injection E5 as <-.
    split; [by apply change_counts|done].
  - intros t' E. by assert (t' = t) as -> by congruence.
Qed.

(** The name is not one of the network. *)
Definition local_name (before : Z) (fname : list Z) (fnp : f_node) (s : system S) : Prop := forall r path f s1,
  call (truename cf steps ents before fname CDS_MODE_CHECK_DEV_PATH fnp) s = Some (r, path, f, s1) ->
  Z.land r IS_NETWORK = 0.

Lemma DosOpenSft_counts before fname flags attrib fnp (s : system S) rc fnp' s' : local_name before fname fnp s ->
  DosOpenSft cf steps ents fuel before fname flags attrib fnp s = Some (rc, fnp', s') ->
  rc < 0 /\ same_handles s s' \/
  exists i t n, 0 <= i /\ find_sft (sfthead s) i = Some t /\ sft_count t = 0 /\ counted i n s s' /\
    (rc < 0 /\ n = 0 \/ n = 1 /\ (rc < 0 \/ u8 rc = u8 i)).
Proof.
  intros Hloc. unfold DosOpenSft. destruct (call _ s) as [[[[r path] f0] s1]|] eqn:E; [|done].
  rewrite (Hloc r path f0 s1 E). apply call_same in E. cbn [Z.eqb negb].
  destruct (Z.ltb_spec r SUCCESS); [intros [= <- _ <-]; by left|].
  destruct (get_free_sft s1) as [i|] eqn:Ei; [|intros [= <- _ <-]; by left].
  destruct (free_sft_spec s1 i Ei) as (Hi & t1 & Ht1 & Hc1). set (s2 := upd_sft _ i s1).
  assert (same_handles s s2) as H2.
  { etransitivity; [exact E|]. split; [|done]. apply change_counts_at; [done|]. intros t' Et'.
    assert (t' = t1) as -> by congruence. by rewrite Hc1. }
  pose proof (find_counts s s2 i H2) as Hf. assert (is_Some (find_sft (sfthead s2) i)) as [t2 Ht2].
  { cbn. rewrite find_change, decide_True, Ht1 by done. by eexists. }
  assert (sft_count t2 = 0) as Hc2.
  { cbn in Ht2. rewrite find_change, decide_True, Ht1 in Ht2 by done. by injection Ht2 as <-. }
  rewrite Ht2 in Hf. destruct (find_sft (sfthead s) i) as [t|] eqn:Et; [|discriminate]. injection Hf as Hf.
  assert (sft_count t = 0) as Hc by congruence.
  assert (Hzero : same_handles s2 s' -> counted i 0 s s').
  { intros Hs. assert (same_handles s s') as Hs' by (by transitivity s2). split; [by apply same_length|apply Hs'|].
    intros j Hj. rewrite (find_counts s s' j Hs'). destruct (find_sft (sfthead s) j) as [u|] eqn:Eu; [|done]. cbn.
    case_decide; [|done]. subst j. assert (u = t) as -> by congruence. by rewrite Hc. }
  intros Hr. right. exists i, t.
  destruct (if negb (Z.land r IS_DEVICE =? 0) then IsDevice fname (below s2) else None) as [dhp|].
  - destruct (DeviceOpenSft fuel dhp i s2) as [[r3 s3]|] eqn:E3; [|done]. apply DeviceOpenSft_counts in E3; [|done].
    injection Hr as <- <- <-. exists 1. repeat (split; [done|]). split; [by eapply counted_before|]. right. split; [done|].
    destruct (Z.ltb_spec r3 SUCCESS); [by left|by right].
  - destruct (file_open_counts i path flags (Z.lor attrib D_ARCHIVE) f0 s2 t2 rc fnp' s' Hi Ht2 Hc2 Hr) as
      [(Hn & [Hs|Hs])|(Hs & Hu)].
    + exists 0. repeat (split; [done|]). split; [by apply Hzero|by left].
    + exists 0. repeat (split; [done|]). split; [by eapply counted_before|by left].
    + exists 1. repeat (split; [done|]). split; [by eapply counted_before|by right; split; [|right]].
Qed.

Lemma DosOpen_ok others before fname mode attrib fnp (s : system S) rc fnp' s' : handles_ok others s ->
  local_name before fname fnp s -> DosOpen cf steps ents fuel before fname mode attrib fnp s = Some (rc, fnp', s') -> handles_ok others s'.
Proof.
  intros Hok Hloc. pose proof Hok as [H1 H2 H3 H4 H5]. unfold DosOpen. destruct (negb _); [by intros [= _ _ <-]|].
  destruct (Z.ltb_spec (get_free_hndl s) 0) as [|Hh]; [by intros [= _ _ <-]|].
  assert (ps_filetab s !! Z.to_nat (get_free_hndl s) = Some 255) as Hk.
  { unfold get_free_hndl in *. destruct (list_find _ _) as [[k y]|] eqn:Ef; [|unfold DE_TOOMANY in Hh; lia].
    apply list_find_Some in Ef as (Hk & -> & _). by rewrite Nat2Z.id. }
  destruct (DosOpenSft _ _ _ _ _ _ _ _ _ _) as [[[r f1] s1]|] eqn:E; [|done].
  destruct (DosOpenSft_counts before fname mode attrib fnp s r f1 s1 Hloc E) as [(Hr & Hs)|(i & t & n & Hi & Ht & Hc & Hcnt & Hn)].
  { rewrite (proj2 (Z.ltb_lt r SUCCESS)) by (unfold SUCCESS; lia). intros [= _ _ <-]. by eapply handles_same. }
  assert (refs i (ps_filetab s) = 0 /\ others i = 0) as [Hr0 Ho0].
  { pose proof (H5 i t Hi Ht). pose proof (H2 i). pose proof (refs_pos i (ps_filetab s)). lia. }
  assert (i < 255) as Hi2.
  { assert (is_Some (find_sft (sfthead s) i)) as Hs%find_sft_bound by done; lia. }
  destruct (Z.ltb_spec r SUCCESS) as [Hr|Hr].
  { intros [= _ _ <-]. eapply (handles_counted others s s1 i n); try done. intros t' E'.
    assert (t' = t) as -> by congruence. lia. }
  destruct Hn as [(? & _)|(-> & [?|Hu])]; [unfold SUCCESS in Hr; lia..|]. rewrite (u8_id i) in Hu by lia.
  destruct (set_at _ _ _) as [tab|] eqn:Etab; [|done]. intros [= _ _ <-].
  destruct (set_at_some _ _ _ _ Etab) as (_ & -> & _). rewrite Hu.
  apply (handles_changed others s s1 i 1 (Z.to_nat (get_free_hndl s)) i 255 Hok Hcnt Hk); [lia|done|done|].
  intros t0 j Hj E0. pose proof (H5 j t0 Hj E0).
  destruct (decide (255 = j)) as [<-|]; [by destruct (find_255 others s t0 Hok E0)|].
  destruct (decide (j = i)) as [->|]; [|destruct (decide (i = j)); [congruence|lia]].
  assert (t0 = t) as -> by congruence. rewrite decide_True by done. lia.
Qed.

(** ** Every sequence of calls *)

(** A call of the running process that makes or drops a handle. *)
Inductive handle_call : system S -> system S -> Prop :=
  | call_open before fname mode attrib fnp s rc fnp' s' :
      local_name before fname fnp s -> DosOpen cf steps ents fuel before fname mode attrib fnp s = Some (rc, fnp', s') -> handle_call s s'
  | call_close h fnp s rc fnp' s' : local h s -> DosClose cf fuel h fnp s = Some (rc, fnp', s') -> handle_call s s'
  | call_dup h fnp s rc fnp' s' : not_full h s -> DosDup cf fuel h fnp s = Some (rc, fnp', s') -> handle_call s s'
  | call_force_dup old new fnp s rc fnp' s' :
      local new s -> not_full old s -> DosForceDup cf fuel old new fnp s = Some (rc, fnp', s') -> handle_call s s'
  | call_clone h s rc s' : not_full h s -> CloneHandle h s = (rc, s') -> handle_call s s'.

Lemma handle_call_ok others s s' : handle_call s s' -> handles_ok others s -> handles_ok others s'.
Proof.
  intros [] Hok; [by eapply DosOpen_ok|by eapply DosClose_ok|by eapply DosDup_ok|by eapply DosForceDup_ok|by eapply CloneHandle_ok].
Qed.

End services.
