(* ===== verification/DosfnsThms.v ===== *)
(** * Handles and the file services: the properties, and sample calls *)

From S2P Require Import Prelude Hdr Share ShareSpec Bytes Dpb Blockio BlockioRing BlockioSpec BlockioRange Fattab CacheSpec.
From S2P Require Import FattabSpec Fnode Cluster ClusterSpec Names Fatdir FatdirSpec FatdirThms Fileio FileioSpec.
From S2P Require Import FilewriteSpec FilecloseSpec FileThms Chario Newstuff NewstuffThms Dosfns DosfnsSpec.

(** ** Flags and modes *)

Lemma clear_other m b fl : Z.land fl b = 0 -> Z.land (clear m fl) b = 0.
Proof. intros H. unfold clear. by rewrite <- Z.land_assoc, (Z.land_comm (Z.lnot m)), Z.land_assoc, H. Qed.

Lemma rdwr_reads m : Z.land m O_ACCMODE = O_RDWR -> Z.land m O_WRONLY = 0.
Proof. intros H. change O_WRONLY with (Z.land O_ACCMODE O_WRONLY). by rewrite Z.land_assoc, H. Qed.

Section properties.
  Context {S : Type} `{TransferLaws S primary} `{!DosState S, !NameServices S, !DosServices S}.
  Context (cf steps ents fuel : nat) (p : Z) (g : dpb).

(** An entry of a local file that SHARE does not watch. *)
Record plain_file (t : sft) (s : system S) : Prop := {
  pf_local : Z.land (sft_flags t) SFT_FSHARED = 0;
  pf_file : Z.land (sft_flags t) SFT_FDEVICE = 0;
  pf_free : share_installed s = false \/ sft_shroff t < 0 }.

Lemma plain_rw i t n bp mode fnp s : idx_to_sft i s = Some t -> plain_file t s ->
  mode = XFR_READ /\ Z.land (sft_mode t) O_WRONLY = 0 \/ mode = XFR_WRITE /\ Z.land (sft_mode t) O_ACCMODE <> O_RDONLY ->
  DosRWSft cf steps fuel i n bp mode fnp s = rwblock cf steps fuel i bp n mode fnp s.
Proof.
  intros Ht [P1 P2 P3] Hmode. unfold DosRWSft. rewrite Ht, P1, P2. cbn [Z.eqb negb].
  assert (fst (IsShareInstalled false s) && (0 <=? sft_shroff t) = false) as ->.
  { unfold IsShareInstalled. cbn. destruct P3 as [->|Hs]; [done|]. rewrite (proj2 (Z.leb_gt _ _)) by lia. by rewrite andb_false_r. }
  destruct Hmode as [(-> & ->)|(-> & Hm)]; [done|]. change (XFR_WRITE =? XFR_READ) with false.
  change (XFR_WRITE =? XFR_WRITE) with true. by rewrite (proj2 (Z.eqb_neq (Z.land (sft_mode t) O_ACCMODE) O_RDONLY) Hm).
Qed.

(** Setting the position. *)
Lemma DosSeek_set h t i pos s : get_sft_idx h s = i -> idx_to_sft i s = Some t -> Z.land (sft_flags t) SFT_FDEVICE = 0 ->
  DosSeek h pos 0 s = Some (u32 pos, SUCCESS, upd_sft (with_sft_posit (u32 pos)) i s) /\
  idx_to_sft i (upd_sft (with_sft_posit (u32 pos)) i s) = Some (with_sft_posit (u32 pos) t).
Proof.
  intros Hi Ht Hd. destruct (upd_sft_spec (with_sft_posit (u32 pos)) s i t Ht eq_refl) as [Ht2 _]. split; [|done].
  unfold DosSeek, SftSeek. rewrite Hi, Ht, Hd. change (SEEK_END <? 0) with false. change (0 =? 0) with true.
  change (0 =? SEEK_CUR) with false. change (0 =? SEEK_END) with false. cbn [negb].
  change (SUCCESS =? SUCCESS) with true. cbv iota. by rewrite Ht2.
Qed.

(** A write, and then a seek to where it began and a read into any buffer. *)
Lemma write_read_spec v (s : system S) h t cs count buf fnp0 :
  bc_reliable (primary := primary) -> mounted (primary := primary) cf p g v (below s) ->
  layout_ok (primary := primary) g v -> data_area g -> 128 <= Z.of_nat steps ->
  max_cluster g + (sft_posit t + count) / 512 <= Z.of_nat steps ->
  1 <= count < 65536 -> sft_posit t + count < 4294967296 -> count <= Z.of_nat fuel ->
  count <= Z.of_nat (length buf) -> bytes buf ->
  0 <= get_sft_idx h s < 255 -> get_sft h s = Some t -> file_open p g v t cs ->
  Z.land (sft_mode t) O_ACCMODE = O_RDWR -> plain_file t s ->
  exists n f1 s1 v', DosWrite cf steps fuel h count buf fnp0 s = Some (n, buf, f1, s1) /\
    0 <= n <= count /\ (n = count \/ none_free g v') /\ mounted (primary := primary) cf p g v' (below s1) /\
    forall pos, u32 pos = sft_posit t -> exists s2, DosSeek h pos 0 s1 = Some (sft_posit t, SUCCESS, s2) /\
    forall buf2 fnp2, n <= Z.of_nat (length buf2) -> exists f3 s3,
      DosRead cf steps fuel h n buf2 fnp2 s2 = Some (n, take (Z.to_nat n) buf ++ drop (Z.to_nat n) buf2, f3, s3).
Proof.
  intros Hrel Hm Hl Hda Hst2 Hst Hc H32 Hfu Hl1 Hby Hi Ht Hopen Hmode Hplain. unfold DosWrite.
  set (i := get_sft_idx h s) in *. unfold get_sft in Ht. fold i in Ht.
  rewrite (plain_rw i t count buf XFR_WRITE fnp0 s Ht Hplain) by (right; rewrite Hmode; by split).
  destruct (rwblock_write_spec cf steps p g Hrel fuel v s i t cs count buf fnp0) as
    (n & f1 & s1 & t1 & v' & news & E1 & Hn & Hfull & Hw & Ht1 & Hopen1 & [W1 W2 W3 W4 [W5 W6]] & [(P1 & _ & _ & P4) _] & _);
    try done.
  pose proof (fo_posit _ _ _ _ _ Hopen) as Hpo. pose proof Hplain as [F1 F2 F3].
  exists n, f1, s1, v'. split; [done|]. split; [done|]. split; [done|].
  split; [apply (wr_mounted _ _ _ _ _ _ _ _ _ _ _ Hw)|]. intros pos Hpos.
  assert (get_sft_idx h s1 = i) as Hi1 by (unfold get_sft_idx; rewrite P4; done).
  destruct (DosSeek_set h t1 i pos s1 Hi1 Ht1) as [E2 Ht2]; [rewrite W4; by apply clear_other|]. rewrite Hpos in *.
  set (s2 := upd_sft _ i s1) in *. set (t2 := with_sft_posit _ t1) in *. exists s2. split; [done|]. intros buf2 fnp2 Hl2.
  assert (file_open p g v' t2 (cs ++ news)) as Hopen2 by (destruct Hopen1 as [O1 O2 O3 O4 O5]; split; done).
  assert (Hsz : readable (sft_size t2) (sft_posit t2) n = n).
  { change (sft_size t2) with (sft_size t1). change (sft_posit t2) with (sft_posit t). unfold readable. lia. }
  destruct (rwblock_read_spec cf steps p g Hrel fuel v' s2 i t2 (cs ++ news) n buf2 fnp2) as
    (f3 & s3 & t3 & E3 & _); try done; try lia.
  { apply (wr_mounted _ _ _ _ _ _ _ _ _ _ _ Hw). } { apply (wr_layout _ _ _ _ _ _ _ _ _ _ _ Hw). }
  { assert (0 <= (sft_posit t + count) / 512) by (apply Z.div_pos; lia). lia. }
  rewrite Hsz in E3. change (sft_posit t2) with (sft_posit t) in E3. exists f3, s3.
  assert (get_sft_idx h s2 = i) as Hi2 by exact Hi1. unfold DosRead. rewrite Hi2.
  rewrite (plain_rw i t2 n buf2 XFR_READ fnp2 s2 Ht2).
  2: { split; [cbn; rewrite W4; by apply clear_other|cbn; rewrite W4; by apply clear_other|].
       change (share_installed s2) with (share_installed s1). cbn. rewrite P1, W6. done. }
  2: { left. split; [done|]. cbn. rewrite W5. by apply rdwr_reads. }
  rewrite E3. do 3 f_equal. f_equal. unfold file_part_of. rewrite (wr_bytes _ _ _ _ _ _ _ _ _ _ _ Hw).
  destruct (decide (n = 0)) as [->|Hne]; [done|].
  pose proof (wr_fits _ _ _ _ _ _ _ _ _ _ _ Hw) as Hfit. rewrite length_take in Hfit.
  specialize (Hfit ltac:(intros E; apply (f_equal length) in E; rewrite length_take in E; cbn in E; lia)).
  unfold splice. rewrite drop_app_length' by (rewrite length_take; lia).
  rewrite take_app_length' by (rewrite length_take; lia). done.
Qed.

(** What a program writes through a handle it reads back: after a write, a
    seek to where it began and a read of as many bytes, the buffer of the read
    holds the bytes written. *)
Theorem write_read_roundtrip v (s : system S) h t cs count buf buf2 fnp0 :
  bc_reliable (primary := primary) -> mounted (primary := primary) cf p g v (below s) ->
  layout_ok (primary := primary) g v -> data_area g -> 128 <= Z.of_nat steps ->
  max_cluster g + (sft_posit t + count) / 512 <= Z.of_nat steps ->
  1 <= count < 65536 -> sft_posit t + count < 4294967296 -> count <= Z.of_nat fuel ->
  count <= Z.of_nat (length buf) -> count <= Z.of_nat (length buf2) -> bytes buf ->
  0 <= get_sft_idx h s < 255 -> get_sft h s = Some t -> file_open p g v t cs ->
  Z.land (sft_mode t) O_ACCMODE = O_RDWR -> plain_file t s ->
  exists n f1 s1 s2 f3 s3 v', DosWrite cf steps fuel h count buf fnp0 s = Some (n, buf, f1, s1) /\
    0 <= n <= count /\ (n = count \/ none_free g v') /\ mounted (primary := primary) cf p g v' (below s1) /\
    DosSeek h (sft_posit t) 0 s1 = Some (sft_posit t, SUCCESS, s2) /\
    DosRead cf steps fuel h n buf2 f1 s2 = Some (n, take (Z.to_nat n) buf ++ drop (Z.to_nat n) buf2, f3, s3).
Proof.
  intros Hrel Hm Hl Hda Hst2 Hst Hc H32 Hfu Hl1 Hl2 Hby Hi Ht Hopen Hmode Hplain.
  destruct (write_read_spec v s h t cs count buf fnp0) as (n & f1 & s1 & v' & E1 & Hn & Hfull & Hm1 & Hseek); try done.
  destruct (Hseek (sft_posit t)) as (s2 & E2 & Hread). { apply u32_id. destruct Hopen. lia. }
  destruct (Hread buf2 f1) as (f3 & s3 & E3); [lia|]. exists n, f1, s1, s2, f3, s3, v'. by repeat (split; [done|]).
Qed.

(** C33: with SHARE installed, reading or writing through an entry where another process
    holds a lock that overlaps the bytes is refused with a lock violation, and nothing is
    transferred, unless the lock is enclosed by the bytes and reaches neither the first nor
    the last of them: such a lock the test of SHARE does not see
    ([ShareSpec.enclosed_lock_missed]). *)
Theorem locked_range_refused i t n bp mode fnp (s : system S) k f l :
  idx_to_sft i s = Some t -> Z.land (sft_flags t) SFT_FSHARED = 0 -> Z.land (sft_flags t) SFT_FDEVICE = 0 ->
  mode = XFR_READ /\ Z.land (sft_mode t) O_WRONLY = 0 \/ mode = XFR_WRITE /\ Z.land (sft_mode t) O_ACCMODE <> O_RDONLY ->
  share_installed s = true -> sft_shroff t = Z.of_nat k -> share_ok (sharing s) -> file_table (sharing s) !! k = Some f ->
  1 <= snd (clip_region (sft_posit t) n) ->
  l ∈ lock_table (sharing s) -> l_used l <> 0 -> l_psp l <> cu_psp s -> ShareSpec.same_file (file_table (sharing s)) f l ->
  overlaps (sft_posit t) (region_end (sft_posit t) n) l -> ~ enclosed (sft_posit t) (region_end (sft_posit t) n) l ->
  exists sh, DosRWSft cf steps fuel i n bp mode fnp s = Some (-0x21, bp, fnp, with_sharing sh s) /\
    lock_table sh = lock_table (sharing s).
Proof.
  intros Ht P1 P2 Hmode Hs Hk Hok Hf Hn Hin Hu Hpsp Hsame Hov Hne.
  assert (Exists (ShareSpec.noticed (cu_psp s) (file_table (sharing s)) f (sft_posit t) (region_end (sft_posit t) n)) (lock_table (sharing s))) as Hex.
  { apply Exists_exists. exists l. split; [by apply list_elem_of_In|]. split; [done|]. split; [by right|]. split; [done|].
    apply covers_end_overlaps; [destruct Hov as (x & Hx & _); lia|done]. }
  unfold DosRWSft. rewrite Ht, P1, P2. cbn [Z.eqb negb].
  destruct (access_check_spec (cu_psp s) k f (sft_posit t) n true (sharing s) Hok Hf) as (rc & sh & E & _ & _ & Hlt & Hres).
  assert (fst (IsShareInstalled false s) && (0 <=? sft_shroff t) = true) as ->.
  { unfold IsShareInstalled. cbn. rewrite Hs, Hk. apply Z.leb_le. lia. }
  rewrite Hk, E. destruct Hres as [(_ & _ & [?|Hall])|(-> & _)]; [lia| |].
  { exfalso. apply Exists_exists in Hex as (l1 & Hin1 & Hb). rewrite list.Forall_forall in Hall. apply (Hall l1); [by apply list_elem_of_In|done]. }
  exists sh. split; [|done].
  destruct Hmode as [(-> & ->)|(-> & Hm)]; [done|]. change (XFR_WRITE =? XFR_READ) with false.
  change (XFR_WRITE =? XFR_WRITE) with true. by rewrite (proj2 (Z.eqb_neq (Z.land (sft_mode t) O_ACCMODE) O_RDONLY) Hm).
Qed.

End properties.

Section handles.
  Context {S : Type} `{!BlockCache S, !DosState S, !BlockTransfer S, !NameServices S, !DosServices S, !HandleLaws S}.
  Context (cf steps ents fuel : nat).

(** C7: whatever sequence of opening, closing and duplicating the running process
    goes through, failed calls included, each of its handles stands for an open
    entry of the tables, whose count is at least the number of handles that stand
    for it, its own and those of the other processes.  The calls are those that return
    ([handle_call]); the files are local ones, and an entry has fewer than 32767 handles
    when another is made for it. *)
Theorem handles_never_stale others (s s' : system S) :
  handles_ok others s -> rtc (handle_call cf steps ents fuel) s s' ->
  (forall h, h ∈ ps_filetab s' -> h <> 255 -> exists t, idx_to_sft h s' = Some t) /\
  (forall i t, 0 <= i -> find_sft (sfthead s') i = Some t -> refs i (ps_filetab s') + others i <= sft_count t).
Proof.
  intros Hok Hr. assert (handles_ok others s') as Hok'.
  { induction Hr as [|s1 s2 s3 Hc _ IH]; [done|]. apply IH. by eapply handle_call_ok. }
  split.
  - intros h Hh Hne. destruct (ho_open _ _ Hok' h Hh Hne) as [t Ht]. exists t. apply idx_to_sft_spec. split; [done|].
    pose proof (find_sft_range _ _ _ Ht) as Hr'. pose proof (ho_count _ _ Hok' h t Hr' Ht).
    pose proof (ho_others _ _ Hok' h). pose proof (refs_in h _ Hh). lia.
  - intros i t Hi Ht. by apply (ho_count _ _ Hok').
Qed.

(** Duplicating a handle onto itself closes it and counts the entry up again:
    the handle is gone and the entry keeps its count, so it is never released. *)
Theorem force_dup_self h t fnp (s : system S) fnp' s' :
  get_sft h s = Some t -> Z.land (sft_flags t) SFT_FSHARED = 0 -> 0 < sft_count t <= 32767 ->
  DosForceDup cf fuel h h fnp s = Some (SUCCESS, fnp', s') ->
  get_sft_idx h s' = DE_INVLDHNDL /\
  exists t', find_sft (sfthead s') (get_sft_idx h s) = Some t' /\ sft_count t' = sft_count t.
Proof.
  intros Ht Hloc Hcnt. unfold DosForceDup. rewrite Ht. destruct (get_sft_handle h s t Ht) as (Hat & Hne & Hi & Hx & Hf).
  set (i := get_sft_idx h s) in *. rewrite Hat, (proj2 (Z.eqb_neq _ _)) by done. cbn [negb].
  unfold DosClose. fold i. rewrite Hx. destruct (set_at h 0xff (ps_filetab s)) as [tab|] eqn:E; [|done].
  destruct (set_at_some _ _ _ _ E) as (Hh & -> & Hlen). set (tab := <[Z.to_nat h := 0xff]> (ps_filetab s)) in *.
  destruct (DosCloseSft _ _ _ _ _ _) as [[[r f1] s1]|] eqn:Ec; [|done].
  destruct (DosCloseSft_counts cf fuel i fnp (with_filetab tab s) t r f1 s1) as [(-> & [L T F])|(Hr & _)]; try done.
  2: { rewrite (proj2 (Z.eqb_neq _ _)) by done. cbn [negb]. by intros [= -> _ _]. }
  change (negb (SUCCESS =? SUCCESS)) with false. cbv iota. cbn in T. rewrite T.
  assert (tab !! Z.to_nat h = Some 255) as Hk by (by apply list_lookup_insert_eq).
  assert (at_ tab h = Some 255) as -> by (unfold at_; by rewrite (proj2 (Z.ltb_ge _ _)) by lia).
  destruct (set_at h 255 tab) as [tab2|] eqn:E2; [|done]. destruct (set_at_some _ _ _ _ E2) as (_ & -> & _).
  rewrite list_insert_id by done. intros [= _ <-]. split.
  - unfold get_sft_idx. cbn [ps_filetab upd_sft with_sfthead with_filetab].
    unfold at_. rewrite (proj2 (Z.ltb_ge _ _)), Hk by lia. done.
  - specialize (F i Hi). cbn [sfthead with_filetab] in F. rewrite Hf in F. cbn in F.
    rewrite decide_True in F by done.
    destruct (find_sft (sfthead s1) i) as [t1|] eqn:E1; [|discriminate]. injection F as F.
    exists (add_count 1 t1). cbn. rewrite find_change, decide_True, E1 by done. split; [done|]. cbn. rewrite F.
    unfold s16. rewrite !Z.mod_small by (rewrite ?Z.mod_small; lia). lia.
Qed.

End handles.

(** ** Calls on the small volume *)

#[export] Instance sample_services : DosServices (bio disk) := {
  sv_share_check _ := 0;
  sv_network _ _ _ _ _ _ := None;
  sv_driver _ := Build_CharDevice (list Z) (system (bio disk)) (fun _ n t s => Some (S_DONE, n, t, s)) (fun _ s => (FAIL, s));
  sv_update_scr_pos _ s := s;
  sv_read_line_handle _ _ _ _ := None;
  sv_cooked_read _ _ _ _ := None;
  sv_cooked_write _ _ _ _ := None;
  sv_near bp _ := default 0 (head bp) }.

#[export] Instance sample_laws : HandleLaws (bio disk).
Proof.
  split.
  - by intros ????????? [= _ _ _ <-].
  - by intros ????? [= _ <-].
Qed.

Definition handle_system (posit : Z) : system (bio disk) :=
  System dir_bio [[readme_sft posit; readme_sft 0]] false (init 0 0) 0 [0; 255].

Definition answer_of {A B} (r : option (Z * A * B)) : option Z :=
  match r with Some (n, _, _) => Some n | None => None end.

Lemma write_read_roundtrip_witness : exists f1 s1 s2 f3 s3,
  DosWrite 5 200 10 0 3 [112; 33; 33] sample_node (handle_system 4) = Some (3, [112; 33; 33], f1, s1) /\
  DosSeek 0 4 0 s1 = Some (4, SUCCESS, s2) /\
  DosRead 5 200 10 0 3 (replicate 4 0) f1 s2 = Some (3, [112; 33; 33; 0], f3, s3).
Proof.
  destruct (write_read_roundtrip (S := bio disk) (primary := dir_primary) 5 200 10 77 dir_geom dir_image (handle_system 4) 0
    (readme_sft 4) [3] 3 [112; 33; 33] (replicate 4 0) sample_node dir_reliable dir_mounted dir_layout dir_area)
    as (n & f1 & s1 & s2 & f3 & s3 & v' & E1 & _ & _ & _ & E2 & E3);
    [lia|by vm_compute|lia|by vm_compute|lia|by vm_compute|by vm_compute|by repeat constructor|by vm_compute|reflexivity
    |by apply readme_open|reflexivity|split; [reflexivity|reflexivity|by left]|].
  assert (n = 3) as ->.
  { assert (moved_bytes (DosWrite 5 200 10 0 3 [112; 33; 33] sample_node (handle_system 4)) = Some 3) as En
      by (by vm_compute). rewrite E1 in En. exact (some_inj En). }
  exists f1, s1, s2, f3, s3. split; [exact E1|]. split; [exact E2|exact E3].
Defined.

(** A file that the process 0x200 has open as file 1 of SHARE. *)
Definition watched_sft (posit : Z) : sft :=
  Sft 1 O_RDWR 0x20 2 77 0 0 0 5 posit 0 4 2 (str "README  TXT") 3 0x200 1 3.
Definition watched_system : system (bio disk) := System dir_bio [[watched_sft 5]] true ex_share 0x200 [0].

Lemma locked_range_refused_witness : exists sh,
  DosRWSft 5 200 10 0 10 (replicate 10 0) XFR_READ sample_node watched_system =
    Some (-0x21, replicate 10 0, sample_node, with_sharing sh watched_system) /\
  lock_table sh = lock_table ex_share.
Proof.
  apply (locked_range_refused (S := bio disk) 5 200 10 0 (watched_sft 5) 10 (replicate 10 0) XFR_READ sample_node
    watched_system 1 (ex_entry 1) (Lock 1 10 20 0 0x100));
    [reflexivity|reflexivity|reflexivity|left; by split|reflexivity|reflexivity|exact ex_share_ok|reflexivity|by vm_compute| | | | | |].
  - apply list_elem_of_In. vm_compute. by left.
  - done.
  - done.
  - exists (ex_entry 0). split; vm_compute; reflexivity.
  - exists 10. by vm_compute.
  - intros [_ Hlt]. by vm_compute in Hlt.
Defined.

(** A process without a handle opens a file. *)
Definition closed_sft : sft := Sft 0 0 0 0 0 0 0 0 0 0 0 0 0 (replicate 11 0) 0 0 (-1) 0.
Definition start_system : system (bio disk) := System dir_bio [[closed_sft; closed_sft]] false (init 0 0) 0 [255; 255].

Definition opened_system : system (bio disk) :=
  match DosOpen 5 200 ENTS 10 0 (str "\sub\..\sub\.\readme.txt") (Z.lor O_OPEN O_RDWR) 0 sample_node start_system with
  | Some (_, _, s) => s
  | None => start_system
  end.

Lemma start_ok : handles_ok (fun _ => 0) start_system.
Proof.
  split.
  - intros h Hh. repeat (apply elem_of_cons in Hh as [->|Hh]; [lia|]). by apply elem_of_nil in Hh.
  - lia.
  - by vm_compute.
  - intros h Hh Hne. repeat (apply elem_of_cons in Hh as [->|Hh]; [done|]). by apply elem_of_nil in Hh.
  - intros i t Hi Et. unfold start_system in Et. cbn [sfthead find_sft length] in Et.
    assert (i = 0 \/ i = 1 \/ 2 <= i) as [-> | [-> | Hi2]] by lia.
    + injection Et as <-. by vm_compute.
    + injection Et as <-. by vm_compute.
    + rewrite (proj2 (Z.ltb_ge _ _)) in Et by (cbn; lia). discriminate Et.
Qed.

Lemma handles_never_stale_witness : exists t, idx_to_sft 0 opened_system = Some t /\ sft_count t = 1 /\ 0 ∈ ps_filetab opened_system.
Proof.
  assert (exists rc f, DosOpen 5 200 ENTS 10 0 (str "\sub\..\sub\.\readme.txt") (Z.lor O_OPEN O_RDWR) 0 sample_node start_system =
    Some (rc, f, opened_system)) as (rc & f & E).
  { unfold opened_system. destruct (DosOpen _ _ _ _ _ _ _ _ _ _) as [[[rc f] s']|] eqn:E; [by exists rc, f|].
    exfalso. assert (answer_of (DosOpen 5 200 ENTS 10 0 (str "\sub\..\sub\.\readme.txt") (Z.lor O_OPEN O_RDWR) 0 sample_node start_system)
      = Some 0x10000) as Ev by (by vm_compute). rewrite E in Ev. discriminate Ev. }
  assert (ps_filetab opened_system = [0; 255]) as Hp by (by vm_compute).
  assert (0 ∈ ps_filetab opened_system) as Hin by (rewrite Hp; by left).
  destruct (handles_never_stale (S := bio disk) 5 200 ENTS 10 (fun _ => 0) start_system opened_system start_ok) as [Ho _].
  { apply rtc_once. eapply call_open; [|exact E]. intros r path f' s1 Et.
    assert (moved_bytes (call (truename 5 200 ENTS 0 (str "\sub\..\sub\.\readme.txt") CDS_MODE_CHECK_DEV_PATH sample_node)
      start_system) = Some 2) as Er by (by vm_compute).
    rewrite Et in Er. by pose proof (some_inj Er) as ->. }
  destruct (Ho 0 Hin) as [t Ht]; [lia|]. exists t. split; [exact Ht|]. split; [|exact Hin].
  assert (option_map sft_count (idx_to_sft 0 opened_system) = Some 1) as Ec by (by vm_compute).
  rewrite Ht in Ec. exact (some_inj Ec).
Defined.

Lemma force_dup_self_witness : exists f s', DosForceDup 5 10 0 0 sample_node (handle_system 0) = Some (SUCCESS, f, s') /\
  get_sft_idx 0 s' = DE_INVLDHNDL /\ exists t', find_sft (sfthead s') 0 = Some t' /\ sft_count t' = 1.
Proof.
  destruct (DosForceDup 5 10 0 0 sample_node (handle_system 0)) as [[[rc f] s']|] eqn:E.
  2: { exfalso. assert (answer_of (DosForceDup 5 10 0 0 sample_node (handle_system 0)) = Some SUCCESS) as Ev by (by vm_compute).
       rewrite E in Ev. discriminate Ev. }
  assert (rc = SUCCESS) as ->.
  { assert (answer_of (DosForceDup 5 10 0 0 sample_node (handle_system 0)) = Some SUCCESS) as Ev by (by vm_compute).
    rewrite E in Ev. exact (some_inj Ev). }
  exists f, s'. split; [reflexivity|].
  apply (force_dup_self (S := bio disk) 5 10 0 (readme_sft 0) sample_node (handle_system 0) f s'); [reflexivity|reflexivity| |exact E].
  cbn. lia.
Defined.
