(* ===== verification/Dosname.v ===== *)
(** * The services on names and drives ([kernel/dosfns.c], [kernel/newstuff.c])

    Current directories, attributes, deleting, renaming, searching, free space and
    temporary files.  [before] is the byte in front of a name in memory, [fnp] what
    [fnode[0]] holds when a call begins; what a search keeps is in the buffer of
    the program. *)

From S2P Require Import Prelude Hdr Memmgr Share Dpb Blockio Fattab Fnode Cluster Names Fatdir Fileio Chario Newstuff Dosfns.

(** hdr/network.h:32-32 *)
Definition REM_RMDIR : Z := 0x1101.
(** hdr/network.h:33-33 *)
Definition REM_MKDIR : Z := 0x1103.
(** hdr/network.h:34-34 *)
Definition REM_CHDIR : Z := 0x1105.
(** hdr/network.h:41-41 *)
Definition REM_GETSPACE : Z := 0x110c.
(** hdr/network.h:42-42 *)
Definition REM_SETATTR : Z := 0x110e.
(** hdr/network.h:43-43 *)
Definition REM_GETATTRZ : Z := 0x110f.
(** hdr/network.h:44-44 *)
Definition REM_RENAME : Z := 0x1111.
(** hdr/network.h:45-45 *)
Definition REM_DELETE : Z := 0x1113.
(** hdr/network.h:50-50 *)
Definition REM_FINDFIRST : Z := 0x111b.
(** hdr/network.h:51-51 *)
Definition REM_FINDNEXT : Z := 0x111c.
(** The byte of [dpb_flags].
    hdr/device.h:51-51 *)
Definition M_CHANGED : Z := 0xff.

(** What the services use of the rest of the kernel: [current_ldt], an index or
    [-1] for the sentinel of network names ([-2] stands for the null pointer), the
    copy of a path into its structure, the assignment of the default drive, and
    the searches of the redirector. *)
Class DirServices (S : Type) := {
  dv_ldt : S -> Z;
  dv_set_path : Z -> list Z -> S -> S;
  dv_set_default : Z -> S -> S;
  dv_remote_find : Z -> dmatch -> system S -> option (Z * dmatch * dirent * system S) }.

(** The buffer of a search: the 21 bytes of the search itself, and what was found.
    hdr/dirmatch.h:38-54 *)
Record dta_buf := Dta {
  dta_dm : dmatch;
  dm_attr_fnd : Z;
  dm_time : Z;
  dm_date : Z;
  dm_size : Z;
  dm_name : list Z }.

(** hdr/xstructs.h:21-36 *)
Record xfreespace := Xfs {
  xfs_clussize : Z;
  xfs_secsize : Z;
  xfs_freeclusters : Z;
  xfs_totalclusters : Z;
  xfs_freesectors : Z;
  xfs_totalsectors : Z;
  xfs_freeunits : Z;
  xfs_totalunits : Z }.

Definition set_dpb_flags (f : Z) (d : dpb) : dpb :=
  Dpb (dpb_unit d) (dpb_subunit d) (dpb_secsize d) (dpb_clsmask d) (dpb_shftcnt d) (dpb_fatstrt d)
    (dpb_fats d) (dpb_dirents d) (dpb_data d) (dpb_size d) (dpb_fatsize d) (dpb_dirstrt d)
    (dpb_device d) (dpb_mdb d) f (dpb_next d) (dpb_cluster d) (dpb_xnfreeclst d) (dpb_xflags d)
    (dpb_xfsinfosec d) (dpb_xbackupsec d) (dpb_xdata d) (dpb_xsize d) (dpb_xfatsize d) (dpb_xrootclst d)
    (dpb_xcluster d).

(** ** Free space *)

(** The cluster size is doubled until 16 bits hold the number of clusters: the
    sectors per cluster, all clusters, the free ones.
    kernel/dosfns.c:796-802 *)
Fixpoint fold_clusters (fuel : nat) (cluster_size spc ntotal nfree : Z) : option (Z * Z * Z) :=
  match fuel with
  | O => None
  | Datatypes.S fuel' =>
      if (FAT_MAGIC16 <? ntotal) && (cluster_size <? 0x8000)
      then fold_clusters fuel' (u32 (Z.shiftl cluster_size 1)) (u16 (Z.shiftl spc 1)) (Z.shiftr ntotal 1) (Z.shiftr nfree 1)
      else Some (spc, ntotal, nfree)
  end.

(** kernel/dosfns.c:804-809 *)
Definition cap16 (n : Z) : Z := if FAT_MAGIC16 <? n then FAT_MAGIC16 else n.

(** kernel/dosfns.c:827-830 *)
Definition double16 (n : Z) : Z := if n <? FAT_MAGIC16 / 2 then u16 (Z.shiftl n 1) else FAT_MAGIC16.

(** What is reported of a volume with [nfree] free clusters: the sectors per
    cluster, the free and all clusters.
    kernel/dosfns.c:782-834 *)
Definition report_space (d : dpb) (nfree : Z) : option (Z * Z * Z) :=
  let spc := dpb_clsmask d + 1 in
  if ISFAT32 d then
    let* (spc, ntotal, nfree) :=
      fold_clusters 32 (u32 (Z.shiftl (dpb_secsize d) (dpb_shftcnt d))) spc (u32 (dpb_xsize d - 1)) nfree in
    Some (spc, cap16 nfree, cap16 ntotal)
  else
    let navc := u16 nfree in
    let nc := u16 (dpb_size d - 1) in
    if 64 <? spc then Some (Z.shiftr spc 1, double16 navc, double16 nc) else Some (spc, navc, nc).

Section services.
  Context {S : Type} `{!BlockCache S, !DosState S, !BlockTransfer S, !NameServices S, !DosServices S, !DirServices S}.
  Context (cf steps ents fuel : nat).

#[local] Abbreviation state := (system S).

(** kernel/dosfns.c:116-122 *)
Definition cds1_drive (drv : Z) (s : state) : Z := if drv =? 0 then ns_default_drive (below s) else u16 (drv - 1).
Definition get_cds1 (drv : Z) (s : state) : option cds := get_cds (cds1_drive drv s) (below s).

(** kernel/dosfns.c:124-148 *)
Definition GetDriveDPB (drive : Z) (s : state) : Z * option Z :=
  match get_cds1 drive s with
  | None => (DE_INVLDDRV, None)
  | Some cdsp =>
      if (cdsDpb cdsp =? 0) || negb (Z.land (cdsFlags cdsp) CDSNETWDRV =? 0) then (DE_INVLDDRV, None)
      else (SUCCESS, Some (cdsDpb cdsp))
  end.

(** The value returned and, when they are written, [*navc], [*bps] and [*nc];
    [count] tells whether [navc] is a pointer.
    kernel/dosfns.c:734-835 *)
Definition DosGetFree (drive : Z) (count : bool) (s : state) : option (Z * option (Z * Z * Z) * state) :=
  match get_cds1 drive s with
  | None => Some (0xffff, None, s)
  | Some cdsp =>
      if negb (Z.land (cdsFlags cdsp) CDSNETWDRV =? 0) then
        let* (rc, rg, s) := sv_network REM_GETSPACE (-1) [cds1_drive drive s] 0 [] s in
        if negb (rc =? SUCCESS) then Some (0xffff, None, s)
        else
          let* spc := at_ rg 0 in let* nc := at_ rg 1 in let* bps := at_ rg 2 in let* navc := at_ rg 3 in
          Some (if count then Z.land spc 0xff else spc, Some (navc, bps, nc), s)
      else
        let dpbp := cdsDpb cdsp in
        let* s :=
          if count then Some s
          else
            let* (_, s) := call (bc_flush cf (dpb_unit (bc_dpb (below s) dpbp))) s in
            Some (upd_below (fun c => bc_set_dpb dpbp (set_dpb_flags M_CHANGED (bc_dpb c dpbp)) c) s) in
        let* (rc, s) := call (ds_media_check dpbp) s in
        if rc <? 0 then Some (0xffff, None, s)
        else
          let d := bc_dpb (below s) dpbp in
          let* (nfree, s) := if count then call (dos_free cf steps dpbp) s else Some (0, s) in
          let* (spc, navc, nc) := report_space d nfree in
          Some (spc, Some (navc, dpb_secsize d, nc), s)
  end.

(** The drive a string names; a network name, or a single letter, names none.
    kernel/dosfns.c:853-861 *)
Definition string_drive (str : list Z) (s : state) : option Z :=
  let c0 := nth 0 str 0 in
  let c1 := nth 1 str 0 in
  if (c0 =? 0) || (c0 =? ch ".") || slash c0 && negb (slash c1) then Some (ns_default_drive (below s))
  else if c1 =? ch ":" then Some (ns_up_fchar (S := S) c0 - ch "A")
  else None.

(** The structure as it is after the call.
    kernel/dosfns.c:839-892 *)
Definition DosGetExtFree (DriveString : list Z) (s : state) : option (Z * xfreespace * state) :=
  let fields clussize secsize free total :=
    Xfs clussize secsize free total (u32 (free * clussize)) (u32 (total * clussize)) free total in
  let none := fields 0 0 0 0 in
  match (let* drive := string_drive DriveString s in let* c := get_cds drive (below s) in Some (drive, c)) with
  | None => Some (DE_INVLDDRV, none, s)
  | Some (drive, cdsp) =>
      if negb (Z.land (cdsFlags cdsp) CDSNETWDRV =? 0) then
        let* (rc, rg, s) := sv_network REM_GETSPACE (-1) [drive] 0 [] s in
        if negb (rc =? SUCCESS) then Some (DE_INVLDDRV, none, s)
        else
          let* spc := at_ rg 0 in let* nc := at_ rg 1 in let* bps := at_ rg 2 in let* navc := at_ rg 3 in
          Some (SUCCESS, fields spc bps navc nc, s)
      else
        let dpbp := cdsDpb cdsp in
        let* (rc, s) := call (ds_media_check dpbp) s in
        if rc <? 0 then Some (DE_INVLDDRV, none, s)
        else
          let d := bc_dpb (below s) dpbp in
          let* (free, s) := call (dos_free cf steps dpbp) s in
          Some (SUCCESS, fields (dpb_clsmask d + 1) (dpb_secsize d) free (if ISFAT32 d then dpb_xsize d else dpb_size d), s)
  end.

(** ** Current directories *)

(** The name of a drive alone resolves to its current directory.
    kernel/dosfns.c:895-911 *)
Definition DosGetCuDir (drive : Z) (fnp : f_node) (s : state) : option (Z * option (list Z) * state) :=
  let drive := if drive =? 0 then ns_default_drive (below s) else u8 (drive - 1) in
  let path := [ch "A" + Z.land drive 0x1f; ch ":"] in
  let* (rc, d, _, s) := call (truename cf steps ents 0 path CDS_MODE_SKIP_PHYSICAL fnp) s in
  if rc <? SUCCESS then Some (DE_INVLDDRV, None, s) else Some (SUCCESS, Some (drop 3 d), s).

(** [current_ldt] is written through even when it is the sentinel of a network
    name: that store is stray ([None]).
    kernel/dosfns.c:914-953 *)
Definition DosChangeDir (before : Z) (name : list Z) (fnp : f_node) (s : state) : option (Z * state) :=
  let* (result, path, fnp, s) := call (truename cf steps ents before name CDS_MODE_CHECK_DEV_PATH fnp) s in
  if result <? SUCCESS then Some (DE_PATHNOTFND, s)
  else if negb (dv_ldt (below s) =? -1) && (MAX_CDSPATH <=? length path)%nat then Some (DE_PATHNOTFND, s)
  else
    let* (result, s) :=
      if negb (Z.land result IS_NETWORK =? 0) then
        let* (rc, _, s) := sv_network REM_CHDIR (-1) [] 0 path s in Some (rc, s)
      else
        let* (rc, _, s) := call (dos_cd cf steps ents path fnp) s in Some (rc, s) in
    if negb (result =? SUCCESS) then Some (result, s)
    else if dv_ldt (below s) =? -1 then None
    else Some (SUCCESS, upd_below (fun c => dv_set_path (dv_ldt c) path c) s).

(** kernel/dosfns.c:1155-1163 *)
Definition DosSelectDrv (drv : Z) (s : state) : Z * state :=
  let s :=
    match get_cds drv (below s) with
    | Some _ => upd_below (fun c => dv_set_default drv (ns_set_ldt drv c)) s
    | None => upd_below (ns_set_ldt (-2)) s
    end in
  (u8 (ds_lastdrive (below s)), s).

(** ** Files and directories by name *)

(** A name for the file system below: an error, the network, or a path of a drive
    with [fnode[0]].  A device has the result [dev]. *)
Definition on_path (before : Z) (name : list Z) (dev : Z) (remote : list Z -> state -> option (Z * state))
    (local : list Z -> f_node -> state -> option (Z * state)) (fnp : f_node) (s : state) : option (Z * state) :=
  let* (result, path, fnp, s) := call (truename cf steps ents before name CDS_MODE_CHECK_DEV_PATH fnp) s in
  if result <? SUCCESS then Some (result, s)
  else if negb (Z.land result IS_NETWORK =? 0) then remote path s
  else if negb (Z.land result IS_DEVICE =? 0) then Some (dev, s)
  else local path fnp s.

Definition redirect (cmd : Z) (params : list Z) (path : list Z) (s : state) : option (Z * state) :=
  let* (rc, _, s) := sv_network cmd (-1) params 0 path s in Some (rc, s).

(** kernel/dosfns.c:1165-1180 *)
Definition DosDelete (before : Z) (path : list Z) (attrib : Z) (fnp : f_node) (s : state) : option (Z * state) :=
  on_path before path DE_FILENOTFND (redirect REM_DELETE [])
    (fun path fnp s => call (dos_delete cf steps ents path attrib fnp) s) fnp s.

(** kernel/dosfns.c:1215-1230 *)
Definition DosMkRmdir (before : Z) (dir : list Z) (action : Z) (fnp : f_node) (s : state) : option (Z * state) :=
  on_path before dir DE_ACCESS (redirect (if action =? 0x39 then REM_MKDIR else REM_RMDIR) [])
    (fun path fnp s =>
       call (if action =? 0x39 then dos_mkdir cf steps ents path fnp else dos_rmdir cf steps ents path fnp) s) fnp s.

(** The root directory has no entry; it is answered for before the network is
    asked.
    kernel/dosfns.c:1096-1123 *)
Definition DosGetFattr (before : Z) (name : list Z) (fnp : f_node) (s : state) : option (Z * state) :=
  let* (result, path, fnp, s) := call (truename cf steps ents before name CDS_MODE_CHECK_DEV_PATH fnp) s in
  if result <? SUCCESS then Some (result, s)
  else if nth 3 path 0 =? 0 then Some (0x10, s)
  else if negb (Z.land result IS_NETWORK =? 0) then redirect REM_GETATTRZ [] path s
  else if negb (Z.land result IS_DEVICE =? 0) then Some (DE_FILENOTFND, s)
  else call (dos_getfattr cf steps ents path fnp) s.

(** The other open instances are closed; the node is the one that closing works
    with, so it is what the last of them leaves.
    kernel/fatfs.c:1526-1561 *)
Definition dos_setfattr (name : list Z) (attrp : Z) (fnp : f_node) (s : state) : option (Z * state) :=
  if negb (Z.land attrp (Z.lor D_VOLID 0xc0) =? 0) then Some (DE_ACCESS, s)
  else
    let* (rc, fnp, s) := call (find_fname cf steps ents name D_ALL fnp) s in
    if negb (rc =? SUCCESS) then Some (rc, s)
    else if negb (Z.land attrp D_DIR =? 0) && (Z.land (dir_attrib (f_dir fnp)) D_DIR =? 0) then Some (DE_ACCESS, s)
    else
      let kept := Z.land (dir_attrib (f_dir fnp)) (Z.lor D_VOLID D_DIR) in
      let fnp := with_f_dirent (with_dir_attrib (u8 (Z.lor kept attrp))) fnp in
      let* (rc, fnp, s) := merge_file_changes (fun i => DosCloseSft cf fuel i false) fnp (-1) s in
      if rc =? SUCCESS then
        let* (ok, s) := call (dir_write cf fnp) s in
        Some (if ok then SUCCESS else DE_ACCESS, s)
      else Some (rc, s).

(** kernel/dosfns.c:1128-1153 *)
Definition DosSetFattr (before : Z) (name : list Z) (attrp : Z) (fnp : f_node) (s : state) : option (Z * state) :=
  on_path before name DE_FILENOTFND (redirect REM_SETATTR [attrp])
    (fun path fnp s =>
       let '(installed, s) := IsShareInstalled true s in
       if installed then
         let* (rc, sh) := open_check (path ++ [0]) (cu_psp s) O_RDWR 0 (sharing s) in
         let s := with_sharing sh s in
         if rc <? 0 then Some (rc, s)
         else
           let* sh := close_file rc (sharing s) in
           dos_setfattr path attrp fnp (with_sharing sh s)
       else dos_setfattr path attrp fnp s) fnp s.

(** The drive of the first path decides; [fnp2] is [fnode[1]].
    kernel/dosfns.c:1182-1192 *)
Definition DosRenameTrue (path1 path2 : list Z) (attrib : Z) (fnp1 fnp2 : f_node) (s : state) : option (Z * state) :=
  let* c1 := head path1 in
  let* c2 := head path2 in
  if negb (c1 =? c2) then Some (DE_DEVICE, s)
  else if (dv_ldt (below s) =? -1) || negb (Z.land (cdsFlags (ds_cds (dv_ldt (below s)) (below s))) CDSNETWDRV =? 0)
  then redirect REM_RENAME [] path1 s
  else call (dos_rename cf steps ents path1 path2 attrib fnp1 fnp2) s.

(** kernel/dosfns.c:1194-1213 *)
Definition DosRename (before1 before2 : Z) (path1 path2 : list Z) (fnp1 fnp2 : f_node) (s : state) : option (Z * state) :=
  let dev r := Z.land r (Z.lor IS_NETWORK IS_DEVICE) =? IS_DEVICE in
  let* (result, sec, fnp1, s) := call (truename cf steps ents before2 path2 CDS_MODE_CHECK_DEV_PATH fnp1) s in
  if result <? SUCCESS then Some (result, s)
  else if dev result then Some (DE_FILENOTFND, s)
  else
    let* (result, pri, fnp1, s) := call (truename cf steps ents before1 path1 CDS_MODE_CHECK_DEV_PATH fnp1) s in
    if result <? SUCCESS then Some (result, s)
    else if dev result then Some (DE_FILENOTFND, s)
    else DosRenameTrue pri sec D_ALL fnp1 fnp2 s.

(** The second part is the buffer of the program, when it is written.
    kernel/dosfns.c:1350-1360 *)
Definition DosTruename (before : Z) (src : list Z) (fnp : f_node) (s : state) : option (Z * option (list Z) * state) :=
  let* (rc, d, _, s) := call (truename cf steps ents before src CDS_MODE_ALLOW_WILDCARDS fnp) s in
  Some (rc, if SUCCESS <=? rc then Some d else None, s).

(** ** Searching *)

(** kernel/dosfns.c:955-968 *)
Definition pop_dmp (rc : Z) (dm : dmatch) (e : dirent) (dta : dta_buf) : dta_buf :=
  if rc =? SUCCESS
  then Dta dm (u8 (dir_attrib e)) (dir_time e) (dir_date e) (dir_size e) (ConvertName83ToNameSZ (dir_name e))
  else dta.

Definition no_dm : dmatch := Dmatch 0 (replicate 11 0) 0 0 0.
Definition no_entry : dirent := Dirent (replicate 11 0) 0 0 0 0 0 0 0 0 0 0 0.

(** The entry of a device.
    kernel/dosfns.c:1005-1015 *)
Definition device_entry (time date : Z) (path : list Z) : dirent :=
  let base := take FNAME_SIZE (get_root path) in
  let base := match list_find (fun c => c = ch ".") base with Some (i, _) => take i base | None => base end in
  Dirent (base ++ replicate (FNAME_SIZE + FEXT_SIZE - length base) 32) D_DEVICE 0 0 0 0 0 0 time date 0 0.

(** The status, the state of the search, and [SearchDir].
    kernel/dosfns.c:970-1021 *)
Definition search_first (before attr : Z) (name : list Z) (fnp : f_node) (s : state)
    : option (Z * dmatch * dirent * state) :=
  let mode := Z.lor CDS_MODE_CHECK_DEV_PATH CDS_MODE_ALLOW_WILDCARDS in
  let* (rc, path, fnp, s) := call (truename cf steps ents before name mode fnp) s in
  if rc <? SUCCESS then Some (rc, no_dm, no_entry, s)
  else if negb (Z.land rc IS_NETWORK =? 0) then dv_remote_find REM_FINDFIRST no_dm s
  else if negb (Z.land rc IS_DEVICE =? 0) then
    let* (time, s) := call ds_gettime s in
    let* (date, s) := call ds_getdate s in
    Some (SUCCESS, with_dm_entry 0xffff no_dm, device_entry time date path, s)
  else
    let* (rc, fnp, s) := call (dos_findfirst cf steps ents attr path (with_dm (fun _ => no_dm) fnp)) s in
    Some (rc, f_dmp fnp, f_dir fnp, s).

(** kernel/dosfns.c:970-1021 *)
Definition DosFindFirst (before attr : Z) (name : list Z) (dta : dta_buf) (fnp : f_node) (s : state)
    : option (Z * dta_buf * state) :=
  let* (rc, dm, e, s) := search_first before attr name fnp s in Some (rc, pop_dmp rc dm e dta, s).

(** kernel/dosfns.c:1023-1061 *)
Definition search_next (dm : dmatch) (fnp : f_node) (s : state) : option (Z * dmatch * dirent * state) :=
  if (Z.land (dm_attr_srch dm) (Z.lnot (Z.lor (Z.lor D_RDONLY D_ARCHIVE) D_DEVICE)) =? D_VOLID) || (dm_entry dm =? 0xffff)
  then Some (DE_NFILES, dm, no_entry, s)
  else if negb (Z.land (dm_drive dm) 0x80 =? 0) then dv_remote_find REM_FINDNEXT dm s
  else
    let* (rc, fnp, s) := call (dos_findnext cf steps ents (with_dm (fun _ => dm) fnp)) s in
    Some (rc, f_dmp fnp, f_dir fnp, s).

(** kernel/dosfns.c:1023-1061 *)
Definition DosFindNext (dta : dta_buf) (fnp : f_node) (s : state) : option (Z * dta_buf * state) :=
  let* (rc, dm, e, s) := search_next (dta_dm dta) fnp s in Some (rc, pop_dmp rc dm e dta, s).

(** ** Temporary files and the size of the handle table *)

(** The eight characters of a number; for versions before 5 they are meant to be
    hexadecimal digits.
    kernel/newstuff.c:88-98 *)
Definition tmp_char (os_major tmp : Z) : Z :=
  let c := Z.land tmp 0xf + ch "A" in
  if os_major <? 5 then u8 (c - (if c <? ch "A" + 10 then ch "0" - ch "A" else 10)) else c.

Definition tmp_name (os_major tmp : Z) : list Z :=
  map (fun i => tmp_char os_major (Z.shiftr tmp (4 * i))) [7; 6; 5; 4; 3; 2; 1; 0].

(** Another number as long as the file exists.
    kernel/newstuff.c:86-103 *)
Fixpoint mktmp_loop (tries : nat) (before : Z) (pathname : list Z) (randvar attr : Z) (fnp : f_node) (s : state)
    : option (Z * list Z * f_node * state) :=
  let name := pathname ++ tmp_name (ns_os_major (below s)) randvar in
  let* (rc, fnp, s) := DosOpen cf steps ents fuel before name (Z.lor (Z.lor O_LEGACY O_CREAT) O_RDWR) attr fnp s in
  match tries with
  | O => Some (rc, name, fnp, s)
  | Datatypes.S tries =>
      if rc =? DE_FILEEXISTS then mktmp_loop tries before pathname (u32 (randvar + 1)) attr fnp s
      else Some (rc, name, fnp, s)
  end.

(** The result is the handle or an error, and the name in the buffer.
    kernel/newstuff.c:70-105 *)
Definition DosMkTmp (before : Z) (pathname : list Z) (attr : Z) (fnp : f_node) (s : state)
    : option (Z * list Z * f_node * state) :=
  let pathname :=
    if (ns_os_major (below s) =? 5) && match rev pathname with [] => true | c :: _ => negb (slash c) end
    then pathname ++ [ch "\"] else pathname in
  let* (date, s) := call ds_getdate s in
  let* (time, s) := call ds_gettime s in
  mktmp_loop (Z.to_nat 0xfff) before pathname (Z.lor (Z.shiftl date 16) time) attr fnp s.

(** The table is the first [ps_maxfiles] handles: a smaller one keeps its first
    handles, a larger one is copied to a block of its own.
    kernel/newstuff.c:40-68 *)
Definition SetJFTSize (tries : nat) (nHandles : Z) (m : mm) (s : state) : option (Z * mm * state) :=
  if nHandles <=? Z.of_nat (length (ps_filetab s)) then
    Some (SUCCESS, m, with_filetab (take (Z.to_nat nHandles) (ps_filetab s)) s)
  else
    let* (rc, block, _, m) := DosMemAlloc tries (Z.shiftr (u16 (nHandles + 0xf)) 4) (mem_access_mode m) 0 (Some 0) m in
    if rc <? 0 then Some (DE_NOMEM, m, s)
    else
      let tab := ps_filetab s in
      Some (SUCCESS, m, with_filetab (tab ++ replicate (Z.to_nat nHandles - length tab) 0xff) s).

End services.
