(* ===== verification/DosnameThms.v ===== *)
(** * The services on names and drives: the properties *)

From S2P Require Import Prelude Hdr Memmgr Share Dpb Blockio Fattab CacheSpec FattabSpec Fnode Cluster ClusterSpec Names NamesSpec.
From S2P Require Import Fatdir FatdirSpec FatdirThms Fileio FileioSpec FilecloseSpec FileThms Chario Newstuff NewstuffSpec NewstuffThms.
From S2P Require Import Dosfns DosfnsSpec DosfnsThms Dosname.

(** ** Free space *)

Lemma fold_step fuel cs spc ntotal nfree : fold_clusters (Datatypes.S fuel) cs spc ntotal nfree =
  if (FAT_MAGIC16 <? ntotal) && (cs <? 0x8000)
  then fold_clusters fuel (u32 (Z.shiftl cs 1)) (u16 (Z.shiftl spc 1)) (Z.shiftr ntotal 1) (Z.shiftr nfree 1)
  else Some (spc, ntotal, nfree).
Proof. done. Qed.

(** Doubling the clusters never enlarges the space. *)
Lemma fold_clusters_spec fuel : forall cs spc ntotal nfree,
  0 < spc -> 0 < cs -> spc <= cs < 0x10000 -> 0 <= ntotal < 2 ^ Z.of_nat fuel -> 0 <= nfree ->
  exists spc' ntotal' nfree', fold_clusters (Datatypes.S fuel) cs spc ntotal nfree = Some (spc', ntotal', nfree') /\
    spc <= spc' < 65536 /\ 0 <= ntotal' /\ 0 <= nfree' /\ spc' * ntotal' <= spc * ntotal /\ spc' * nfree' <= spc * nfree.
Proof.
  induction fuel as [|fuel IH]; intros cs spc ntotal nfree Hspc Hcs Hle Hn Hf; rewrite fold_step.
  - change (2 ^ Z.of_nat 0) with 1 in Hn. rewrite (proj2 (Z.ltb_ge FAT_MAGIC16 ntotal)) by (unfold FAT_MAGIC16; lia).
    cbn [andb]. exists spc, ntotal, nfree. split_and!; (done || lia).
  - destruct (Z.ltb_spec FAT_MAGIC16 ntotal) as [Hb|Hb]; cbn [andb].
    2: { exists spc, ntotal, nfree. split_and!; (done || lia). }
    destruct (Z.ltb_spec cs 0x8000) as [Hc|Hc].
    2: { exists spc, ntotal, nfree. split_and!; (done || lia). }
    rewrite !Z.shiftl_mul_pow2, !Z.shiftr_div_pow2 by lia. change (2 ^ 1) with 2.
    rewrite u32_id, u16_id by lia.
    pose proof (Z.div_mod ntotal 2). pose proof (Z.mod_pos_bound ntotal 2).
    pose proof (Z.div_mod nfree 2). pose proof (Z.mod_pos_bound nfree 2).
    rewrite Nat2Z.inj_succ, Z.pow_succ_r in Hn by lia.
    destruct (IH (cs * 2) (spc * 2) (ntotal / 2) (nfree / 2)) as (spc' & nt' & nf' & E & K1 & K2 & K3 & K4 & K5);
      [lia..|]. exists spc', nt', nf'. split_and!; (done || nia).
Qed.

Lemma cap16_le n : 0 <= n -> 0 <= cap16 n <= FAT_MAGIC16 /\ cap16 n <= n.
Proof. intros H. unfold cap16. destruct (Z.ltb_spec FAT_MAGIC16 n); unfold FAT_MAGIC16 in *; lia. Qed.

Lemma double16_le n : 0 <= n < 65536 -> 0 <= double16 n <= FAT_MAGIC16 /\ double16 n <= 2 * n + 1.
Proof.
  intros H. unfold double16. change (FAT_MAGIC16 / 2) with 32762. destruct (Z.ltb_spec n 32762).
  - rewrite Z.shiftl_mul_pow2, u16_id by lia. unfold FAT_MAGIC16. lia.
  - unfold FAT_MAGIC16. lia.
Qed.

(** The geometry of a DPB that is in use. *)
Definition space_ok (d : dpb) : Prop :=
  dpb_clsmask d + 1 = 2 ^ dpb_shftcnt d /\ 0 <= dpb_shftcnt d < 8 /\
  if ISFAT32 d then 0 < dpb_secsize d /\ dpb_secsize d * 2 ^ dpb_shftcnt d <= 0x8000 /\ 1 <= dpb_xsize d < 2 ^ 31
  else 1 <= dpb_size d <= FAT_MAGIC16.

Lemma report_space_spec d nfree : space_ok d -> 0 <= nfree -> (ISFAT32 d = false -> nfree < 65536) ->
  exists spc navc nc, report_space d nfree = Some (spc, navc, nc) /\
    0 < spc < 65536 /\ 0 <= navc < 65536 /\ 0 <= nc < 65536 /\
    spc * navc <= (dpb_clsmask d + 1) * nfree + 64 /\
    spc * nc <= (dpb_clsmask d + 1) * ((if ISFAT32 d then dpb_xsize d else dpb_size d) - 1) + 64 /\
    (ISFAT32 d = true \/ dpb_clsmask d < 64 \/ nfree < 32762 -> spc * navc <= (dpb_clsmask d + 1) * nfree).
Proof.
  intros (Hm & Hsh & H) Hn H16. unfold report_space. destruct (ISFAT32 d) eqn:E.
  - destruct H as (Hs & Hp & Hx). rewrite Z.shiftl_mul_pow2 by lia.
    assert (0 < 2 ^ dpb_shftcnt d) as Hpos by (apply Z.pow_pos_nonneg; lia).
    rewrite (u32_id (dpb_secsize d * _)), (u32_id (dpb_xsize d - 1)) by nia.
    destruct (fold_clusters_spec 31 (dpb_secsize d * 2 ^ dpb_shftcnt d) (dpb_clsmask d + 1) (dpb_xsize d - 1) nfree)
      as (spc & nt & nf & -> & H1 & H2 & H3 & H4 & H5); [lia|nia|nia| |lia|].
    { change (2 ^ Z.of_nat 31) with (2 ^ 31). lia. }
    pose proof (cap16_le nf H3). pose proof (cap16_le nt H2). unfold FAT_MAGIC16 in *.
    exists spc, (cap16 nf), (cap16 nt). split_and!; (done || nia).
  - specialize (H16 eq_refl). unfold FAT_MAGIC16 in H. rewrite (u16_id nfree), (u16_id (dpb_size d - 1)) by lia.
    destruct (Z.ltb_spec 64 (dpb_clsmask d + 1)).
    + assert (dpb_clsmask d + 1 = 128) as Hm2.
      { assert (dpb_shftcnt d = 7) as Hs7; [|by rewrite Hm, Hs7].
        assert (dpb_shftcnt d = 0 \/ dpb_shftcnt d = 1 \/ dpb_shftcnt d = 2 \/ dpb_shftcnt d = 3 \/ dpb_shftcnt d = 4 \/
                dpb_shftcnt d = 5 \/ dpb_shftcnt d = 6 \/ dpb_shftcnt d = 7) as Hcs by lia.
        rewrite Hm in *. decompose [or] Hcs; (done || (match goal with E : dpb_shftcnt d = _ |- _ => rewrite E in * end; cbn in *; lia)). }
      rewrite Hm2 in *. change (Z.shiftr 128 1) with 64.
      pose proof (double16_le nfree). pose proof (double16_le (dpb_size d - 1)). unfold FAT_MAGIC16 in *.
      eexists _, _, _. split_and!; [done|lia..|]. intros [?|[?|Hlt]]; [done|lia|]. unfold double16.
      change (FAT_MAGIC16 / 2) with 32762. rewrite (proj2 (Z.ltb_lt nfree 32762)), Z.shiftl_mul_pow2, u16_id by lia. lia.
    + exists (dpb_clsmask d + 1), nfree, (dpb_size d - 1). split_and!; (done || nia).
Qed.

(** What a search reports of an entry. *)
Definition report (e : dirent) : Z * Z * Z * Z * list Z :=
  (u8 (dir_attrib e), dir_time e, dir_date e, dir_size e, ConvertName83ToNameSZ (dir_name e)).
Definition reported (d : dta_buf) : Z * Z * Z * Z * list Z := (dm_attr_fnd d, dm_time d, dm_date d, dm_size d, dm_name d).

Section properties.
  Context {S : Type} `{BlockCacheLaws S primary} `{!DosState S, !BlockTransfer S, !NameServices S, !DosServices S, !DirServices S}.
  Context (cf steps ents fuel : nat) (p : Z) (g : dpb).

#[local] Abbreviation mounted := (mounted (primary := primary) cf p g).

(** The free space reported is the space there is.  For a volume of at most
    128 sectors per cluster the call answers with 16-bit numbers; the sectors they
    stand for are at most those of the free entries of the FAT, and of all
    clusters, but for half a cluster of 128 sectors. *)
Theorem free_space_reported drive c v (s s1 : system S) rc :
  bc_reliable (primary := primary) -> get_cds1 drive s = Some c ->
  Z.land (cdsFlags c) CDSNETWDRV = 0 -> cdsDpb c = p ->
  call (ds_media_check p) s = Some (rc, s1) -> 0 <= rc ->
  mounted v (below s1) -> (Z.to_nat (max_cluster g) <= steps)%nat ->
  dpb_clsmask g + 1 = 2 ^ dpb_shftcnt g -> 0 <= dpb_shftcnt g < (if ISFAT32 g then 7 else 8) ->
  exists spc navc nc s2, DosGetFree cf steps drive true s = Some (spc, Some (navc, 512, nc), s2) /\
    0 < spc < 65536 /\ 0 <= navc < 65536 /\ 0 <= nc < 65536 /\
    spc * navc <= (dpb_clsmask g + 1) * free_count g v + 64 /\
    spc * nc <= (dpb_clsmask g + 1) * (max_cluster g - 1) + 64 /\
    (ISFAT32 g = true \/ dpb_clsmask g < 64 \/ free_count g v < 32762 -> spc * navc <= (dpb_clsmask g + 1) * free_count g v) /\
    exists v', mounted v' (below s2) /\ forall m, fat_at g v' m = fat_at g v m.
Proof.
  intros Hrel Hc Hnet Hp Hm Hrc Hmt Hst Hcl Hsh. unfold DosGetFree. rewrite Hc, Hnet, Hp. cbn [Z.eqb negb]. rewrite Hm.
  rewrite (proj2 (Z.ltb_ge _ _) Hrc).
  destruct (dos_free_spec cf p g Hrel steps v (below s1) Hmt Hst) as (v' & c' & E & Hev & Hfat & _).
  unfold call. rewrite E. pose proof (m_geom _ _ _ _ _ Hmt) as Hg. pose proof (m_vol _ _ _ _ _ Hmt) as Hv.
  set (d := bc_dpb (below s1) p) in *.
  assert (dpb_clsmask d = dpb_clsmask g /\ dpb_shftcnt d = dpb_shftcnt g /\ dpb_secsize d = dpb_secsize g /\
    ISFAT32 d = ISFAT32 g /\ dpb_size d = dpb_size g /\ dpb_xsize d = dpb_xsize g) as (D1 & D2 & D3 & D4 & D5 & D6) by (by rewrite <- Hg).
  pose proof (v_size _ _ Hv) as Hsz. pose proof (v_max _ _ Hv) as Hmx. pose proof (v_secsize _ _ Hv) as Hss.
  assert (0 <= free_count g v <= max_cluster g) as Hfree.
  { unfold free_count. split; [lia|]. pose proof (list.length_filter (fun n => entry g v n = FREE) (seqZ 2 (max_cluster g - 1))) as Hlf.
    rewrite length_seqZ in Hlf. lia. }
  unfold max_cluster, LONG_BAD in *.
  destruct (report_space_spec d (free_count g v)) as (spc & navc & nc & Er & R1 & R2 & R3 & R4 & R5 & R6).
  - split; [by rewrite D1, D2|]. rewrite D2, D3, D4, D5, D6, Hss. split; [destruct (ISFAT32 g); lia|].
    destruct (ISFAT32 g); [|done]. split_and!; try lia.
    assert (2 ^ dpb_shftcnt g <= 2 ^ 6) by (apply Z.pow_le_mono_r; lia). change (2 ^ 6) with 64 in *. lia.
  - lia.
  - rewrite D4. intros E32. rewrite E32 in *. unfold FAT_MAGIC16 in *. lia.
  - rewrite Er, D3, Hss. exists spc, navc, nc, (with_below c' s1). split; [done|]. rewrite D1, D4, ?D5, ?D6 in *.
    split_and!; try done; try lia. exists v'. split; [apply Hev|done].
Qed.

(** ** Searching *)

(** Calls of [DosFindNext] on one buffer; each begins with another [fnode[0]], and
    something happens before it. *)
Fixpoint find_calls (between : list ((system S -> system S) * f_node)) (dta : dta_buf) (s : system S)
    : option (list dta_buf * Z * system S) :=
  match between with
  | [] => Some ([], SUCCESS, s)
  | (f, fnp) :: between =>
      let* (rc, dta, s) := DosFindNext cf steps ents dta fnp (f s) in
      if rc =? SUCCESS then
        let* (l, rc, s) := find_calls between dta s in Some (dta :: l, rc, s)
      else Some ([], rc, s)
  end.

Lemma pop_success dm e d : reported (pop_dmp SUCCESS dm e d) = report e /\ dta_dm (pop_dmp SUCCESS dm e d) = dm.
Proof. done. Qed.

(** C32: a search lives in the buffer of the program.  Over a driver that completes its
    requests, calls of [DosFindNext] report the entries that match the search, each once
    and in the order of the directory, and then that there are no more, whatever other
    calls of the file system the program makes in between, as long as they leave the
    volume as it is. *)
Theorem search_reports_all v dta cs (s : system S) between :
  bc_reliable (primary := primary) -> mounted v (below s) -> layout_ok (primary := primary) g v ->
  (Z.to_nat (max_cluster g) <= steps)%nat -> 65536 <= Z.of_nat ents ->
  let dm := dta_dm dta in
  let c := start_of g (dm_dircluster dm) in
  let found := List.filter (matches dm) (dir_list (nth_entry g v c cs) (dm_entry dm)) in
  (forall s, get_dpb (dm_drive dm) s = Some p /\ ds_media_check p s = Some (SUCCESS, s)) ->
  Forall (fun x => forall s, mounted v (below s) -> mounted v (below (x.1 s))) between ->
  Z.land (dm_attr_srch dm) (Z.lnot (Z.lor (Z.lor D_RDONLY D_ARCHIVE) D_DEVICE)) <> D_VOLID -> Z.land (dm_drive dm) 0x80 = 0 ->
  0 <= dm_entry dm < 65536 -> dir_chain g v c cs -> (length found < length between)%nat ->
  exists l s', find_calls between dta s = Some (l, DE_NFILES, s') /\ map reported l = map report found /\ mounted v (below s').
Proof.
  cbv zeta. intros Hrel Hm Hl Hst He Hds Hbt Hvol Hdrv. revert dta s Hm Hds Hvol Hdrv.
  induction Hbt as [|[f fnp] between Hf Hbt IH]; intros dta s Hm Hds Hvol Hdrv Hk Hc Hn; [by apply Nat.nlt_0_r in Hn|].
  cbn [find_calls fst] in *. apply Hf in Hm. clear Hf. destruct (Hds (below (f s))) as [Hp Hmc].
  unfold DosFindNext, search_next. rewrite (proj2 (Z.eqb_neq _ _) Hvol). cbn [orb]. rewrite Hdrv. cbn [Z.eqb negb].
  set (fnp1 := with_dm (fun _ => dta_dm dta) fnp).
  assert (f_dmp fnp1 = dta_dm dta) as Ed by done.
  destruct (dos_findnext_spec cf steps p g Hrel ents v (below (f s)) fnp1 cs Hm Hl Hst He Hk Hp Hmc Hc)
    as (rc & fnp' & s' & k' & E & Hev & Hn' & Hfirst & D1 & D2 & D3 & Hr).
  unfold entry_of in Hfirst. rewrite Ed in *.
  pose proof (dir_list_first _ _ _ _ Hfirst Hk (nth_entry_last _ _ _ _)) as Hlist. rewrite Hlist in Hn |- *. clear Hlist.
  destruct (Z.eqb_spec (dm_entry (dta_dm dta)) 0xffff) as [Hend|Hend].
  { assert (k' = 65535) as -> by (destruct Hfirst as ((? & ?) & _ & _); lia). rewrite nth_entry_last.
    exists [], (f s). done. }
  unfold call. rewrite E. set (c := start_of g (dm_dircluster (dta_dm dta))) in *.
  destruct (nth_entry g v c cs k') as [e|] eqn:Ek; [destruct (occupied e) eqn:Eo|].
  2,3: destruct Hr as [-> _]; exists [], (with_below s' (f s)); split_and!; [done|done|apply Hev].
  destruct Hr as (-> & Hread & Hke). change (SUCCESS =? SUCCESS) with true. cbv iota.
  destruct (pop_success (f_dmp fnp') (f_dir fnp') dta) as [Hrep Hdm]. set (dta' := pop_dmp _ _ _ dta) in *.
  assert (k' < 65535) as Hlt.
  { destruct Hfirst as ((? & ?) & _). destruct (decide (k' = 65535)) as [->|]; [by rewrite nth_entry_last in Ek|lia]. }
  assert (start_of g (dm_dircluster (f_dmp fnp')) = c) as Ec.
  { pose proof Hn' as (_ & -> & _). unfold c, start_of.
    destruct (dm_dircluster (dta_dm dta) =? 0) eqn:E0; cbn [andb]; [|by rewrite E0].
    destruct (ISFAT32 g); cbn [andb]; [by destruct (dpb_xrootclst g =? 0)|by rewrite E0]. }
  assert (forall e, matches (f_dmp fnp') e = matches (dta_dm dta) e) as Hmt by (intros e'; unfold matches; by rewrite D2, D3).
  unfold entry_of in Hke. destruct (IH dta' (with_below s' (f s))) as (l & s2 & E2 & Hl2 & Hm2).
  all: rewrite ?Hdm, ?Ec, ?D1, ?D3, ?Hke, ?(List.filter_ext _ _ Hmt); try done.
  - apply Hev.
  - destruct Hfirst as ((? & ?) & _). lia.
  - cbn [length] in Hn. lia.
  - rewrite E2. exists (dta' :: l), s2. split; [done|]. split; [|done]. cbn [map]. rewrite Hrep, Hl2, Hdm, Ec, Hke.
    rewrite (List.filter_ext _ _ Hmt). by rewrite (proj1 Hread).
Qed.

(** ** A changed entry *)

(** The same name, start and kind. *)
Definition similar (e e' : dirent) : Prop :=
  dir_name e' = dir_name e /\ getdstart g e' = getdstart g e /\ is_dir e' = is_dir e /\
  Z.land (dir_attrib e') D_VOLID = Z.land (dir_attrib e) D_VOLID.

Lemma similar_refl e : similar e e.
Proof. by split_and!. Qed.

Definition opt_similar (o o' : option dirent) : Prop :=
  match o, o' with Some e, Some e' => similar e e' | None, None => True | _, _ => False end.

Lemma opt_similar_refl o : opt_similar o o.
Proof. destruct o; [apply similar_refl|done]. Qed.

Lemma first_similar (f f' : Z -> option dirent) stop k :
  (forall j, 0 <= j -> opt_similar (f j) (f' j)) -> (forall e e', similar e e' -> stop e' = stop e) ->
  first_entry f stop 0 k -> first_entry f' stop 0 k.
Proof.
  intros Hs Hstop (Hk & Hb & Ha). split; [done|]. split.
  - intros j Hj. destruct (Hb j Hj) as (e & E & Ho & Hst). specialize (Hs j ltac:(lia)). rewrite E in Hs.
    destruct (f' j) as [e'|]; [|done]. exists e'. split; [done|]. rewrite (Hstop _ _ Hs). destruct Hs as (Hn & _).
    unfold occupied in *. by rewrite Hn.
  - specialize (Hs k ltac:(lia)). destruct (f k) as [e|], (f' k) as [e'|]; try done.
    intros Ho. rewrite (Hstop _ _ Hs). apply Ha. destruct Hs as (Hn & _). unfold occupied in *. by rewrite <- Hn.
Qed.

Lemma resolves_similar v v' c cs ns r : (forall m, fat_at g v' m = fat_at g v m) ->
  (forall c cs j, dir_chain g v c cs -> 0 <= j -> opt_similar (nth_entry g v c cs j) (nth_entry g v' c cs j)) ->
  resolves g v c cs ns r -> resolves g v' c cs ns r.
Proof.
  intros Hf Hs Hr. induction Hr as [c cs Hc|c cs n ns k e cs' r Hc Hk Ee Ho Hd Hr IH|c cs n ns k Hc Hk Ee].
  - apply resolves_here. by eapply dir_chain_fat.
  - pose proof (Hs c cs k Hc ltac:(destruct Hk; lia)) as He. rewrite Ee in He.
    destruct (nth_entry g v' c cs k) as [e'|] eqn:Ee'; [|done]. pose proof He as (S1 & S2 & S3 & S4).
    eapply resolves_down; [by eapply dir_chain_fat| |exact Ee'| | |rewrite S2; exact IH].
    + eapply first_similar; [|  |exact Hk]; [by intros j Hj; apply Hs|].
      intros x x' (X1 & _ & _ & X4). unfold dir_match. by rewrite X1, X4.
    + unfold occupied in *. by rewrite S1.
    + by rewrite S3.
  - eapply (resolves_none _ _ _ _ _ _ k); [by eapply dir_chain_fat| |].
    + eapply first_similar; [|  |exact Hk]; [by intros j Hj; apply Hs|].
      intros x x' (X1 & _ & _ & X4). unfold dir_match. by rewrite X1, X4.
    + pose proof (Hs c cs k Hc ltac:(destruct Hk; lia)) as He.
      destruct (nth_entry g v c cs k) as [e|], (nth_entry g v' c cs k) as [e'|]; try done.
      destruct He as (S1 & _ & S3 & _). unfold occupied in *. by rewrite S1, S3.
Qed.

Lemma written_similar v v' s' sl c0 cs0 k0 e e' : entry_written (primary := primary) cf p g v v' s' sl e' ->
  dir_chain g v c0 cs0 -> 0 <= k0 -> dir_slot g c0 cs0 k0 = Some sl -> dir_entry g v c0 cs0 k0 = Some e -> similar e e' ->
  forall c cs j, dir_chain g v c cs -> 0 <= j -> opt_similar (nth_entry g v c cs j) (nth_entry g v' c cs j).
Proof.
  intros (_ & _ & _ & _ & He) Hc0 Hk0 Hsl Ee Hsim c cs j Hc Hj. unfold nth_entry. destruct (_ <=? _); [done|].
  rewrite He by done. unfold dir_entry in *. destruct (dir_slot g c cs j) as [sl'|]; [|done]. rewrite Hsl in Ee.
  destruct (decide (sl' = sl)) as [->|]; [by rewrite Ee|apply opt_similar_refl].
Qed.

(** ** Attributes *)

(** The attributes after a call: the kind stays, the rest is as asked. *)
Definition set_attr (old attrp : Z) : Z := u8 (Z.lor (Z.land old (Z.lor D_VOLID D_DIR)) attrp).

Definition attr_ok (a b : Z) : bool :=
  let new := set_attr a b in
  negb ((Z.land b (Z.lor D_VOLID 0xc0) =? 0) && ((Z.land b D_DIR =? 0) || negb (Z.land a D_DIR =? 0))) ||
  (Z.land new D_VOLID =? Z.land a D_VOLID) && Bool.eqb (Z.land new D_DIR =? 0) (Z.land a D_DIR =? 0) &&
  (negb (Z.land a (Z.lnot (Z.lor (Z.lor D_RDONLY D_ARCHIVE) D_ALL)) =? 0) ||
   (Z.land new (Z.lnot (Z.lor (Z.lor D_RDONLY D_ARCHIVE) D_ALL)) =? 0)).

Lemma attr_bytes a b : 0 <= a < 256 -> 0 <= b < 256 -> attr_ok a b = true.
Proof.
  intros Ha Hb. assert (forallb (fun a => forallb (attr_ok a) (seqZ 0 256)) (seqZ 0 256) = true) as Hall by (vm_compute; reflexivity).
  rewrite forallb_forall in Hall. specialize (Hall a ltac:(apply list_elem_of_In, elem_of_seqZ; lia)).
  rewrite forallb_forall in Hall. apply Hall, list_elem_of_In, elem_of_seqZ. lia.
Qed.

Lemma land_low x m : 0 <= m < 256 -> Z.land (u8 x) m = Z.land x m.
Proof.
  intros Hm. unfold u8. change 256 with (2 ^ 8). rewrite <- Z.land_ones, <- Z.land_assoc by lia. f_equal.
  rewrite Z.land_comm, Z.land_ones by lia. by apply Z.mod_small.
Qed.

Lemma set_attr_low old attrp : set_attr old attrp = set_attr old (u8 attrp).
Proof.
  unfold set_attr, u8. change 256 with (2 ^ 8). apply Z.bits_inj'. intros n Hn. rewrite !Z.testbit_mod_pow2, !Z.lor_spec by lia.
  rewrite Z.testbit_mod_pow2 by lia. by destruct (n <? 8).
Qed.

Lemma set_attr_spec old attrp : 0 <= old < 256 -> Z.land attrp (Z.lor D_VOLID 0xc0) = 0 ->
  Z.land attrp D_DIR = 0 \/ Z.land old D_DIR <> 0 ->
  let new := set_attr old attrp in
  Z.land new D_VOLID = Z.land old D_VOLID /\ (Z.land new D_DIR =? 0) = (Z.land old D_DIR =? 0) /\
  (Z.land old (Z.lnot (Z.lor (Z.lor D_RDONLY D_ARCHIVE) D_ALL)) = 0 ->
   Z.land new (Z.lnot (Z.lor (Z.lor D_RDONLY D_ARCHIVE) D_ALL)) = 0).
Proof.
  intros Ho Hv Hd new. subst new. rewrite set_attr_low.
  assert (0 <= u8 attrp < 256) as Hb by apply u8_range. pose proof (attr_bytes old (u8 attrp) Ho Hb) as Hall. unfold attr_ok in Hall.
  rewrite !land_low, Hv in Hall by (by vm_compute). cbn [Z.eqb andb] in Hall.
  assert ((Z.land attrp D_DIR =? 0) || negb (Z.land old D_DIR =? 0) = true) as Hd'.
  { apply orb_true_iff. destruct Hd as [->|Hd]; [by left|right]. by apply negb_true_iff, Z.eqb_neq. }
  rewrite Hd' in Hall. cbn [negb orb] in Hall. apply andb_prop in Hall as [[H1 H2]%andb_prop H3]. split_and!.
  - by apply Z.eqb_eq.
  - by apply Bool.eqb_prop.
  - intros E. rewrite E in H3. by apply Z.eqb_eq.
Qed.

(** Attributes read back.  Setting the attributes of a file or directory that
    exists succeeds, and asking for them gives what was set, with the bits for a
    directory and a volume label as they were; the other entries of every
    directory and the FAT are as before. *)
Theorem attributes_roundtrip v (s : system S) fnp fnp2 c dirs x cs c1 cs1 k e attrp :
  bc_reliable (primary := primary) -> mounted v (below s) -> layout_ok (primary := primary) g v ->
  layout_fits g -> (Z.to_nat (max_cluster g) <= steps)%nat -> 65536 <= Z.of_nat ents ->
  (forall s, get_dpb (c - ch "A") s = Some p) -> Forall comp_ok dirs -> comp_ok x ->
  resolves g v (root g) cs (map fcb dirs) (Some (c1, cs1)) ->
  first_entry (nth_entry g v c1 cs1) (file_match (fcb x) D_ALL) 0 k ->
  nth_entry g v c1 cs1 k = Some e -> occupied e = true -> dirent_ok e ->
  share_installed s = false ->
  Z.land attrp (Z.lor D_VOLID 0xc0) = 0 -> Z.land attrp D_DIR = 0 \/ Z.land (dir_attrib e) D_DIR <> 0 ->
  let path := full_path c (dirs ++ [x]) in
  let new := set_attr (dir_attrib e) attrp in
  exists s1 s2 v', dos_setfattr cf steps ents fuel path attrp fnp s = Some (SUCCESS, s1) /\
    call (dos_getfattr cf steps ents path fnp2) s1 = Some (new, s2) /\
    mounted v' (below s1) /\ (forall m, fat_at g v' m = fat_at g v m) /\
    forall j, 0 <= j -> nth_entry g v' c1 cs1 j = if decide (j = k) then Some (with_dir_attrib new e) else nth_entry g v c1 cs1 j.
Proof.
  intros Hrel Hm Hl Hfit Hst He Hp Hok Hx Hres Hk Ee Ho Hde Hsh Hav Had path new.
  destruct (set_attr_spec (dir_attrib e) attrp (de_attrib _ Hde) Hav Had) as (N1 & N2 & N3). fold new in N1, N2, N3.
  destruct (find_fname_spec cf steps p g Hrel ents v (below s) fnp c dirs x cs (Some (c1, cs1)) D_ALL Hm Hl Hst He (Hp _) Hok Hx Hres)
    as (rc & fnp1 & t1 & E1 & Hev1 & k1 & Hk1 & Hn1 & Hke & Hr).
  pose proof (first_entry_unique _ _ _ _ _ Hk1 Hk) as ->. rewrite Ee, Ho in Hr. destruct Hr as (-> & Hd1 & Hsl).
  unfold dos_setfattr. rewrite Hav. cbn [Z.eqb negb]. unfold call at 1. fold path in E1. rewrite E1.
  change (negb (SUCCESS =? SUCCESS)) with false. cbv iota.
  assert (negb (Z.land attrp D_DIR =? 0) && (Z.land (dir_attrib (f_dir fnp1)) D_DIR =? 0) = false) as ->.
  { rewrite Hd1. destruct Had as [->|Had]; [done|]. rewrite (proj2 (Z.eqb_neq _ _) Had). by rewrite andb_false_r. }
  unfold merge_file_changes. cbn [share_installed with_below]. rewrite Hsh. cbn [negb]. change (SUCCESS =? SUCCESS) with true. cbv iota.
  rewrite Hd1. fold (set_attr (dir_attrib e) attrp). fold new.
  set (fnp' := with_f_dirent (with_dir_attrib new) fnp1).
  assert (f_dir fnp' = with_dir_attrib new e) as Hd' by (unfold fnp', with_f_dirent; cbn; by rewrite Hd1).
  assert (dir_node p g v fnp' c1 cs1) as Hn' by exact Hn1.
  assert (dirent_ok (f_dir fnp')) as Hde'.
  { rewrite Hd'. destruct Hde. split; try done. cbn. subst new. apply u8_range. }
  assert (0 <= k < 65535) as Hk0.
  { destruct Hk as ((? & ?) & _). destruct (decide (k = 65535)) as [->|]; [by rewrite nth_entry_last in Ee|lia]. }
  destruct (dir_write_spec cf p g Hrel v t1 fnp' c1 cs1 k (ev_mounted _ _ _ _ _ _ _ Hev1) Hl Hn' (proj1 Hk0) Hsl Hde')
    as (v' & t2 & E2 & Hw & _ & _).
  unfold call at 1. cbn [below with_below]. rewrite E2. rewrite Hd' in Hw.
  assert (similar e (with_dir_attrib new e)) as Hsim.
  { split_and!; [done|done| |done]. unfold is_dir. cbn. by rewrite N2. }
  pose proof (resolves_chain _ _ _ _ _ _ Hres) as Hc0.
  assert (dir_chain g v c1 cs1) as Hc1 by apply Hn1.
  assert (dir_entry g v c1 cs1 k = Some e) as Ede.
  { unfold nth_entry in Ee. by rewrite (proj2 (Z.leb_gt _ _)) in Ee by lia. }
  pose proof (written_similar v v' t2 _ c1 cs1 k e _ Hw Hc1 (proj1 Hk0) Hsl Ede Hsim) as Hall.
  pose proof Hw as (Hm' & Hl' & Hfat & _ & Hent).
  assert (Hj : forall j, 0 <= j -> nth_entry g v' c1 cs1 j =
    if decide (j = k) then Some (with_dir_attrib new e) else nth_entry g v c1 cs1 j).
  { intros j Hj. unfold nth_entry. destruct (Z.leb_spec 65535 j); [rewrite decide_False by lia; done|].
    rewrite (Hent c1 cs1 j Hc1 Hj). destruct (decide (j = k)) as [->|Hne]; [by rewrite Hsl, decide_True|].
    destruct (dir_slot g c1 cs1 j) as [sl|] eqn:Ej; [|unfold dir_entry; by rewrite Ej].
    rewrite decide_False; [done|]. intros ->. apply Hne.
    pose proof (m_vol _ _ _ _ _ Hm) as Hv. exact (dir_slot_inj (primary := primary) g v c1 cs1 j k _ Hv Hl Hfit Hc1 Hj (proj1 Hk0) Ej Hsl). }
  pose proof (resolves_similar v v' _ _ _ _ Hfat Hall Hres) as Hres'.
  destruct (find_fname_spec cf steps p g Hrel ents v' t2 fnp2 c dirs x cs (Some (c1, cs1)) D_ALL Hm' Hl' Hst He (Hp _) Hok Hx Hres')
    as (rc & fnp3 & t3 & E3 & Hev3 & k3 & Hk3 & Hn3 & Hke3 & Hr3).
  assert (k3 = k) as ->.
  { eapply first_entry_unique; [exact Hk3|]. destruct Hk as (Hr & Hb & Ha). split; [done|]. split.
    - intros j Hj0. rewrite Hj, decide_False by lia. by apply Hb.
    - rewrite Hj, decide_True by lia. intros _. rewrite Ee in Ha. specialize (Ha Ho).
      unfold file_match in *. cbn. apply andb_prop in Ha as [Ha1 Ha2%Z.eqb_eq]. rewrite Ha1, N3 by done. done. }
  rewrite Hj, decide_True in Hr3 by lia. change (occupied (with_dir_attrib new e)) with (occupied e) in Hr3. rewrite Ho in Hr3.
  destruct Hr3 as (-> & Hd3 & _). eexists _, _, v'. split; [done|]. split.
  { unfold call. cbn [below with_below]. unfold dos_getfattr. fold path in E3. rewrite E3.
    change (SUCCESS =? SUCCESS) with true. cbv iota. rewrite Hd3. done. }
  split; [done|]. split; [done|exact Hj].
Qed.

End properties.

(** ** Calls on the small volume *)

#[export] Instance sample_dirs : DirServices (bio disk) := {
  dv_ldt _ := 2;
  dv_set_path _ _ s := s;
  dv_set_default _ s := s;
  dv_remote_find _ _ _ := None }.

Lemma free_space_reported_witness : exists spc navc nc s2,
  DosGetFree 5 10 3 true start_system = Some (spc, Some (navc, 512, nc), s2) /\
  spc * navc <= (dpb_clsmask dir_geom + 1) * free_count dir_geom dir_image.
Proof.
  destruct (free_space_reported (S := bio disk) (primary := dir_primary) 5 10 77 dir_geom 3 sample_cds dir_image start_system
    start_system SUCCESS dir_reliable) as (spc & navc & nc & s2 & E & _ & _ & _ & _ & _ & Hle & _);
    [reflexivity|reflexivity|reflexivity|reflexivity|done|exact dir_mounted|change (max_cluster dir_geom) with 3; lia|reflexivity
    |by vm_compute|].
  exists spc, navc, nc, s2. split; [exact E|]. apply Hle. right. left. by vm_compute.
Defined.

Definition sample_dta : dta_buf := Dta (f_dmp sample_node) 0 0 0 0 [].

Lemma search_reports_all_witness : exists l s', 
  find_calls 5 10 ENTS [(id, sample_node); (id, write_node)] sample_dta start_system = Some (l, DE_NFILES, s') /\
  map reported l = [report readme_entry].
Proof.
  destruct (search_reports_all (S := bio disk) (primary := dir_primary) 5 10 ENTS 77 dir_geom dir_image sample_dta [2] start_system
    [(id, sample_node); (id, write_node)] dir_reliable dir_mounted dir_layout) as (l & s' & E & Hl & _);
    [change (max_cluster dir_geom) with 3; lia|exact ENTS_enough|done
    |constructor; [exact (fun _ Hid => Hid)|constructor; [exact (fun _ Hid => Hid)|constructor]]|by vm_compute|reflexivity|done|exact sub_chain
    |by vm_compute|].
  exists l, s'. split; [exact E|]. rewrite Hl. reflexivity.
Defined.

Lemma attributes_roundtrip_witness : exists s1 s2,
  dos_setfattr 5 10 ENTS 10 (str "C:\SUB\README.TXT") 3 sample_node start_system = Some (SUCCESS, s1) /\
  call (dos_getfattr 5 10 ENTS (str "C:\SUB\README.TXT") sample_node) s1 = Some (3, s2).
Proof.
  destruct (attributes_roundtrip (S := bio disk) (primary := dir_primary) 5 10 ENTS 10 77 dir_geom dir_image start_system
    sample_node sample_node (ch "C") [sub] readme [] 2 [2] 2 readme_entry 3 dir_reliable dir_mounted dir_layout)
    as (s1 & s2 & v' & E1 & E2 & _);
    [split; vm_compute; congruence|change (max_cluster dir_geom) with 3; lia|exact ENTS_enough|done|constructor; [apply sub_ok|constructor]|apply sub_ok
    |exact sub_resolves|apply first_entry_check; [lia|by vm_compute|by vm_compute]|by vm_compute|reflexivity| |reflexivity|reflexivity
    |left; reflexivity|].
  - split; try (by vm_compute). split; [done|]. by repeat (constructor; [by vm_compute|]).
  - exists s1, s2. split; [exact E1|]. exact E2.
Defined.
