(* ===== verification/Fcb.v ===== *)
(** * File control blocks ([kernel/fcbfns.c], [hdr/fcb.h])

    The old services, which work on a control block in the memory of the program:
    parsing names, opening, reading and writing records, searching, deleting and
    renaming.  A block is changed in place, so an operation returns it. *)

From S2P Require Import Prelude Hdr Share Dpb Blockio Fattab Fnode Cluster Names Fatdir Fileio Newstuff Dosfns Dosname.

(** kernel/fcbfns.c:37-37 *)
Definition FCB_SUCCESS : Z := 0.
(** kernel/fcbfns.c:38-38 *)
Definition FCB_ERR_NODATA : Z := 1.
(** kernel/fcbfns.c:39-39 *)
Definition FCB_ERR_SEGMENT_WRAP : Z := 2.
(** kernel/fcbfns.c:40-40 *)
Definition FCB_ERR_EOF : Z := 3.
(** kernel/fcbfns.c:41-41 *)
Definition FCB_ERROR : Z := 0xff.
(** kernel/fcbfns.c:81-81 *)
Definition PARSE_SEP_STOP : Z := 0x01.
(** kernel/fcbfns.c:82-82 *)
Definition PARSE_DFLT_DRIVE : Z := 0x02.
(** kernel/fcbfns.c:83-83 *)
Definition PARSE_BLNK_FNAME : Z := 0x04.
(** kernel/fcbfns.c:84-84 *)
Definition PARSE_BLNK_FEXT : Z := 0x08.
(** kernel/fcbfns.c:86-86 *)
Definition PARSE_RET_NOWILD : Z := 0.
(** kernel/fcbfns.c:87-87 *)
Definition PARSE_RET_WILD : Z := 1.
(** kernel/fcbfns.c:88-88 *)
Definition PARSE_RET_BADDRIVE : Z := 0xff.
(** kernel/globals.h:113-113 *)
Definition XFR_FCB_RANDOM : Z := 4.

(** ** Data *)

(** The block without the bytes no code looks at ([fcb_attrib_hi],
    [fcb_attrib_lo], [fcb_diroff_unused]).
    hdr/fcb.h:80-101 *)
Record fcb := Fcb {
  fcb_drive : Z;
  fcb_fname : list Z;
  fcb_fext : list Z;
  fcb_cublock : Z;
  fcb_recsiz : Z;
  fcb_fsize : Z;
  fcb_date : Z;
  fcb_time : Z;
  fcb_sftno : Z;
  fcb_strtclst : Z;
  fcb_dirclst : Z;
  fcb_curec : Z;
  fcb_rndm : Z }.

(** What a program passes: a block, or an extended one, which starts with FFh,
    five bytes and an attribute.
    hdr/fcb.h:104-109 *)
Inductive xfcb :=
  | Plain (f : fcb)
  | Extended (xfcb_resvrd : list Z) (xfcb_attrib : Z) (f : fcb).

(** The block of a renaming: the new name lies over other fields.
    hdr/fcb.h:111-119 *)
Record rfcb := Rfcb {
  renDriveID : Z;
  renOldName : list Z;
  renNewName : list Z }.

Definition with_fcb_drive d (f : fcb) : fcb :=
  Fcb d (fcb_fname f) (fcb_fext f) (fcb_cublock f) (fcb_recsiz f) (fcb_fsize f) (fcb_date f) (fcb_time f)
    (fcb_sftno f) (fcb_strtclst f) (fcb_dirclst f) (fcb_curec f) (fcb_rndm f).
Definition with_fcb_name n e (f : fcb) : fcb :=
  Fcb (fcb_drive f) n e (fcb_cublock f) (fcb_recsiz f) (fcb_fsize f) (fcb_date f) (fcb_time f)
    (fcb_sftno f) (fcb_strtclst f) (fcb_dirclst f) (fcb_curec f) (fcb_rndm f).
Definition with_fcb_rec block recsiz cur (f : fcb) : fcb :=
  Fcb (fcb_drive f) (fcb_fname f) (fcb_fext f) block recsiz (fcb_fsize f) (fcb_date f) (fcb_time f)
    (fcb_sftno f) (fcb_strtclst f) (fcb_dirclst f) cur (fcb_rndm f).
Definition with_fcb_file size date time (f : fcb) : fcb :=
  Fcb (fcb_drive f) (fcb_fname f) (fcb_fext f) (fcb_cublock f) (fcb_recsiz f) size date time
    (fcb_sftno f) (fcb_strtclst f) (fcb_dirclst f) (fcb_curec f) (fcb_rndm f).
Definition with_fcb_search sftno strtclst dirclst (f : fcb) : fcb :=
  Fcb (fcb_drive f) (fcb_fname f) (fcb_fext f) (fcb_cublock f) (fcb_recsiz f) (fcb_fsize f) (fcb_date f) (fcb_time f)
    sftno strtclst dirclst (fcb_curec f) (fcb_rndm f).
Definition with_fcb_sftno n (f : fcb) : fcb := with_fcb_search n (fcb_strtclst f) (fcb_dirclst f) f.
Definition with_fcb_rndm r (f : fcb) : fcb :=
  Fcb (fcb_drive f) (fcb_fname f) (fcb_fext f) (fcb_cublock f) (fcb_recsiz f) (fcb_fsize f) (fcb_date f) (fcb_time f)
    (fcb_sftno f) (fcb_strtclst f) (fcb_dirclst f) (fcb_curec f) r.

(** A plain block that starts with FFh is not one.
    kernel/fcbfns.c:452-459 *)
Definition ExtFcbToFcb (x : xfcb) : option fcb :=
  match x with
  | Plain f => if fcb_drive f =? 0xff then None else Some f
  | Extended _ _ f => Some f
  end.

Definition set_fcb (f : fcb) (x : xfcb) : xfcb :=
  match x with Plain _ => Plain f | Extended r a _ => Extended r a f end.

(** The attribute of an extended block. *)
Definition ext_attrib (dflt : Z) (x : xfcb) : Z := match x with Plain _ => dflt | Extended _ a _ => a end.

(** ** Parsing *)

(** kernel/fcbfns.c:50-50 *)
Definition TestCmnSeps (c : Z) : bool := existsb (Z.eqb c) (str ":<|>+=,").
(** kernel/fcbfns.c:51-51 *)
Definition TestFieldSeps (c : Z) : bool := (c <=? ch " ") || existsb (Z.eqb c) (34 :: str "/\[]<>|.").

(** A string is the memory from its start on; [None] runs out of what is known.
    kernel/fcbfns.c:165-170 *)
Fixpoint ParseSkipWh (l : list Z) : option (list Z) :=
  match l with
  | [] => None
  | c :: l' => if (c =? ch " ") || (c =? 9) then ParseSkipWh l' else Some l
  end.

Section parsing.
  Context {S : Type} `{!BlockCache S, !DosState S, !NameServices S}.

(** The field with its fill, whether a wild card was seen, and the rest.
    kernel/fcbfns.c:200-227 *)
Fixpoint GetNameField (l : list Z) (n : nat) : option (list Z * bool * list Z) :=
  match l with
  | [] => None
  | c :: l' =>
      if (c =? 0) || TestFieldSeps c then Some (replicate n (ch " "), false, l)
      else
        match n with
        | O => Some ([], false, l)
        | Datatypes.S n' =>
            if c =? ch "*" then Some (replicate n (ch "?"), true, l')
            else
              let* (field, wild, rest) := GetNameField l' n' in
              Some (ns_up_fchar (S := S) c :: field, (c =? ch "?") || wild, rest)
        end
  end.

(** A drive in front of the name, if it exists: the new [fcb_drive], when it is
    set, and what follows.
    kernel/fcbfns.c:107-122 *)
Definition parse_drive (wTestMode : Z) (l : list Z) (s : S) : option (option (option Z * list Z)) :=
  let* c0 := at_ l 0 in
  let* c1 := at_ l 1 in
  if c1 =? ch ":" then
    let drive := u8 (ns_up_fchar (S := S) c0 - ch "A") in
    match get_cds drive s with
    | None => Some None
    | Some _ => Some (Some (Some (u8 (drive + 1)), drop 2 l))
    end
  else Some (Some (if Z.land wTestMode PARSE_DFLT_DRIVE =? 0 then Some 0 else None, l)).

(** The name behind the drive.
    kernel/fcbfns.c:124-162 *)
Definition parse_name (wTestMode : Z) (l : list Z) (f : fcb) : option (Z * list Z * fcb) :=
  let f := with_fcb_rec 0 0 (fcb_curec f) f in
  let name := if Z.land wTestMode PARSE_BLNK_FNAME =? 0 then replicate FNAME_SIZE (ch " ") else fcb_fname f in
  let ext := if Z.land wTestMode PARSE_BLNK_FEXT =? 0 then replicate FEXT_SIZE (ch " ") else fcb_fext f in
  let* c := at_ l 0 in
  if c =? ch "." then
    let name := <[0%nat := ch "."]> name in
    let* c1 := at_ l 1 in
    if c1 =? ch "."
    then Some (PARSE_RET_NOWILD, drop 2 l, with_fcb_name (<[1%nat := ch "."]> name) ext f)
    else Some (PARSE_RET_NOWILD, drop 1 l, with_fcb_name name ext f)
  else
    let* (name, wild1, l) := GetNameField l FNAME_SIZE in
    let* c := at_ l 0 in
    let* (ext, wild2, l) :=
      if c =? ch "." then GetNameField (drop 1 l) FEXT_SIZE else Some (ext, false, l) in
    Some (if wild1 || wild2 then PARSE_RET_WILD else PARSE_RET_NOWILD, l, with_fcb_name name ext f).

(** The new mode, the rest of the string, and the block.
    kernel/fcbfns.c:91-163 *)
Definition FcbParseFname (wTestMode : Z) (l : list Z) (f : fcb) (s : S) : option (Z * list Z * fcb) :=
  let* l :=
    if Z.land wTestMode PARSE_SEP_STOP =? 0 then
      let* l := ParseSkipWh l in
      let* c := at_ l 0 in
      Some (if TestCmnSeps c then drop 1 l else l)
    else Some l in
  let* l := ParseSkipWh l in
  let* d := parse_drive wTestMode l s in
  match d with
  | None => Some (PARSE_RET_BADDRIVE, l, f)
  | Some (drive, l) =>
      parse_name wTestMode l (match drive with Some d => with_fcb_drive d f | None => f end)
  end.

End parsing.

(** ** Records *)

(** kernel/fcbfns.c:229-236 *)
Definition FcbNextRecord (f : fcb) : fcb :=
  let cur := u8 (fcb_curec f + 1) in
  if 128 <=? cur then with_fcb_rec (u16 (fcb_cublock f + 1)) (fcb_recsiz f) 0 f
  else with_fcb_rec (fcb_cublock f) (fcb_recsiz f) cur f.

(** kernel/fcbfns.c:238-241 *)
Definition FcbRec (f : fcb) : Z := u32 (fcb_cublock f * 128 + fcb_curec f).

(** kernel/fcbfns.c:341-351 *)
Definition calc_rec (f : fcb) : fcb :=
  with_fcb_rec (u16 (fcb_rndm f / 128)) (fcb_recsiz f) (Z.land (u8 (fcb_rndm f)) 127) f.

(** kernel/fcbfns.c:341-351 *)
Definition FcbCalcRec (x : xfcb) : option xfcb := let* f := ExtFcbToFcb x in Some (set_fcb (calc_rec f) x).

(** kernel/fcbfns.c:331-339 *)
Definition FcbSetRandom (x : xfcb) : option xfcb :=
  let* f := ExtFcbToFcb x in Some (set_fcb (with_fcb_rndm (FcbRec f) f) x).

(** The records a transfer has touched, in 16 bits.
    kernel/fcbfns.c:281-281 *)
Definition records_done (nTransfer recsiz : Z) : Z := u16 (u16 nTransfer + recsiz - 1) / recsiz.

(** ** The services *)

(** The state of the kernel below, [CritErrCode] and [wAttr]. *)
Record fcb_state (S : Type) := FcbState {
  sys : system S;
  CritErrCode : Z;
  wAttr : Z }.
Arguments FcbState {S}. Arguments sys {S}. Arguments CritErrCode {S}. Arguments wAttr {S}.

Section services.
  Context {S : Type} `{!BlockCache S, !DosState S, !BlockTransfer S, !NameServices S, !DosServices S, !DirServices S}.
  Context (cf steps ents fuel : nat).

(** The bytes in front of [SecPathName] and of a buffer on the stack, what the
    file nodes hold when a call begins, and what a block on the stack does. *)
  Context (sec_before stack_before : Z) (node node1 : fcb_state S -> f_node) (stack_fcb : fcb).

#[local] Abbreviation state := (fcb_state S).

Definition with_sys y (s : state) : state := FcbState y (CritErrCode s) (wAttr s).
Definition with_crit e (s : state) : state := FcbState (sys s) (s16 e) (wAttr s).
Definition with_wAttr a (s : state) : state := FcbState (sys s) (CritErrCode s) a.

Definition on_sys {A} (f : system S -> option (A * system S)) (s : state) : option (A * state) :=
  let* (a, y) := f (sys s) in Some (a, with_sys y s).

(** A call whose error goes to [CritErrCode]. *)
Definition crit_sys (f : system S -> option (Z * system S)) (s : state) : option (Z * state) :=
  let* (rc, s) := on_sys f s in Some (rc, with_crit (- rc) s).

Definition close_sft (i : Z) (s : state) : option (Z * state) :=
  crit_sys (fun y => let* (rc, _, y) := DosCloseSft cf fuel i false (node s) y in Some (rc, y)) s.

(** kernel/task.c:84-93 *)
Definition SftGetFsize (i : Z) (s : state) : Z :=
  match idx_to_sft i (sys s) with None => u32 DE_INVLDHNDL | Some t => sft_size t end.

(** The sectors per cluster, the bytes per sector, the clusters and the media
    descriptor; a drive without parameters has the high byte of the answer.
    kernel/fcbfns.c:55-79 *)
Definition FatGetDrvData (drive : Z) (s : state) : option (option (Z * Z * Z * Z) * state) :=
  let* (spc, out, s) := on_sys (DosGetFree cf steps drive false) s in
  match out with
  | Some (_, bps, nc) =>
      if spc =? 0xffff then Some (None, s)
      else
        let y := below (sys s) in
        let mdb :=
          match get_dpb (if drive =? 0 then ns_default_drive y else drive - 1) y with
          | None => u8 (Z.shiftr spc 8)
          | Some p => dpb_mdb (bc_dpb y p)
          end in
        Some (Some (u8 spc, bps, nc, mdb), s)
  | None => Some (None, s)
  end.

(** The transfer went well or not: what is left of the request decides; [dta] is
    the memory at the transfer address.
    kernel/fcbfns.c:282-295 *)
Definition rw_result (recsiz size nTransfer mode : Z) (dta : list Z) (f : fcb) : option (Z * list Z * fcb) :=
  let size := u16 (size - u16 nTransfer) in
  if size =? 0 then Some (FCB_SUCCESS, dta, FcbNextRecord f)
  else if recsiz =? 0 then None
  else
    let size := size mod recsiz in
    if negb (Z.land mode XFR_READ =? 0) && (0 <? size) then
      let at' := Z.to_nat (u16 nTransfer) in
      let n := Z.to_nat size in
      if (length dta <? at' + n)%nat then None
      else Some (FCB_ERR_EOF, take at' dta ++ replicate n 0 ++ drop (at' + n) dta, FcbNextRecord f)
    else Some (FCB_ERR_NODATA, dta, f).

(** [dta_off] is the offset of the transfer address in its segment.
    kernel/fcbfns.c:243-296 *)
Definition FcbReadWrite (x : xfcb) (recno mode dta_off : Z) (dta : list Z) (s : state)
    : option (Z * xfcb * list Z * state) :=
  let* f := ExtFcbToFcb x in
  let recsiz := fcb_recsiz f in
  let bigsize := u32 (recsiz * recno) in
  if 0xffff <? bigsize then Some (FCB_ERR_SEGMENT_WRAP, x, dta, s)
  else
    let size := bigsize in
    if u16 (dta_off + size) <? dta_off then Some (FCB_ERR_SEGMENT_WRAP, x, dta, s)
    else
      let lPosit := u32 (FcbRec f * recsiz) in
      let* (rc, s) := crit_sys (SftSeek (fcb_sftno f) lPosit 0) s in
      if negb (rc =? SUCCESS) then Some (FCB_ERR_NODATA, x, dta, s)
      else
        let* (nTransfer, dta, _, s) :=
          on_sys (DosRWSft cf steps fuel (fcb_sftno f) size dta (Z.land mode (Z.lnot XFR_FCB_RANDOM)) (node s)) s in
        let s := if nTransfer <? 0 then with_crit (- s16 nTransfer) s else s in
        let f :=
          if negb (Z.land mode XFR_WRITE =? 0)
          then with_fcb_file (SftGetFsize (fcb_sftno f) s) (fcb_date f) (fcb_time f) f else f in
        let f :=
          if negb (Z.land mode XFR_FCB_RANDOM =? 0) && (0 <? recsiz)
          then with_fcb_rndm (u32 (fcb_rndm f + records_done nTransfer recsiz)) f else f in
        let* (rc, dta, f) := rw_result recsiz size nTransfer mode dta f in
        Some (rc, set_fcb f x, dta, s).

(** The number of records is an argument and a result.
    kernel/fcbfns.c:353-372 *)
Definition FcbRandomBlockIO (x : xfcb) (nRecords mode dta_off : Z) (dta : list Z) (s : state)
    : option (Z * Z * xfcb * list Z * state) :=
  let* x := FcbCalcRec x in
  let* f := ExtFcbToFcb x in
  let old := fcb_rndm f in
  let* (err, x, dta, s) := FcbReadWrite x nRecords mode dta_off dta s in
  let* f := ExtFcbToFcb x in
  let n := u16 (fcb_rndm f - old) in
  let* x := FcbCalcRec x in
  Some (err, n, x, dta, s).

(** kernel/fcbfns.c:374-394 *)
Definition FcbRandomIO (x : xfcb) (mode dta_off : Z) (dta : list Z) (s : state) : option (Z * xfcb * list Z * state) :=
  let* x := FcbCalcRec x in
  let* f := ExtFcbToFcb x in
  let* (err, x, dta, s) := FcbReadWrite x 1 mode dta_off dta s in
  let* f' := ExtFcbToFcb x in
  Some (err, set_fcb (with_fcb_rec (fcb_cublock f) (fcb_recsiz f') (fcb_curec f) f') x, dta, s).

(** The file name and the drive of a block.
    kernel/fcbfns.c:475-489 *)
Definition FcbNameInit (drive : Z) (name : list Z) (s : state) : list Z * Z :=
  if drive =? 0 then (ConvertName83ToNameSZ name, ns_default_drive (below (sys s)) + 1)
  else (u8 (ch "A" + drive - 1) :: ch ":" :: ConvertName83ToNameSZ name, drive).

(** kernel/fcbfns.c:461-473 *)
Definition CommonFcbInit (x : xfcb) (s : state) : option (fcb * list Z * Z) :=
  let* f := ExtFcbToFcb x in
  let '(path, drive) := FcbNameInit (fcb_drive f) (fcb_fname f ++ fcb_fext f) s in
  Some (f, path, drive).

Definition open_sft (path : list Z) (flags attrib : Z) (s : state) : option (Z * state) :=
  let* (rc, s) :=
    on_sys (fun y => let* (rc, _, y) := DosOpenSft cf steps ents fuel sec_before path flags attrib (node s) y in Some (rc, y)) s in
  Some (s16 rc, s).

(** kernel/fcbfns.c:298-329 *)
Definition FcbGetFileSize (x : xfcb) (s : state) : option (Z * xfcb * state) :=
  let* (f, path, _) := CommonFcbInit x s in
  let recsiz := fcb_recsiz f in
  if bool_decide (IsDevice path (below (sys s)) <> None) || (recsiz =? 0) then Some (FCB_ERROR, x, s)
  else
    let* (sft_idx, s) := open_sft path (Z.lor (Z.lor O_LEGACY O_RDONLY) O_OPEN) 0 s in
    if 0 <=? sft_idx then
      let fsize := SftGetFsize sft_idx s in
      let x := set_fcb (with_fcb_rndm (u32 (fsize + (recsiz - 1)) / recsiz) f) x in
      let* (rc, s) := close_sft sft_idx s in
      Some (if rc =? SUCCESS then FCB_SUCCESS else FCB_ERROR, x, s)
    else Some (FCB_ERROR, x, with_crit (- sft_idx) s).

Definition with_sft_mode m (t : sft) : sft :=
  Sft (sft_count t) m (sft_attrib t) (sft_flags t) (sft_dcb t) (sft_relclust_high t) (sft_time t) (sft_date t)
    (sft_size t) (sft_posit t) (sft_relclust t) (sft_dirsector t) (sft_diridx t) (sft_name t) (sft_stclust t)
    (sft_psp t) (sft_shroff t) (sft_cuclust t).

(** kernel/fcbfns.c:410-449 *)
Definition FcbOpen (x : xfcb) (flags : Z) (s : state) : option (Z * xfcb * state) :=
  let* (f, path, drive) := CommonFcbInit x s in
  let attr := if negb (Z.land flags O_CREAT =? 0) then ext_attrib 0 x else 0 in
  let* (sft_idx, s) := open_sft path flags attr s in
  if sft_idx <? 0 then Some (FCB_ERROR, x, with_crit (- sft_idx) s)
  else
    let* t := idx_to_sft sft_idx (sys s) in
    let s := with_sys (upd_sft (fun t => with_sft_mode (Z.lor (sft_mode t) O_FCB) t) sft_idx (sys s)) s in
    let f := with_fcb_rec 0 0 (fcb_curec f) (with_fcb_sftno (u8 sft_idx) f) in
    let f :=
      if Z.land (sft_flags t) SFT_FDEVICE =? 0
      then with_fcb_rec 0 128 (fcb_curec f) (with_fcb_drive (u8 drive) f) else f in
    Some (FCB_SUCCESS, set_fcb (with_fcb_file (sft_size t) (sft_date t) (sft_time t) f) x, s).

(** kernel/fcbfns.c:613-639 *)
Definition FcbClose (x : xfcb) (s : state) : option (Z * xfcb * state) :=
  let* f := ExtFcbToFcb x in
  let i := fcb_sftno f in
  if i =? 0xff then Some (FCB_SUCCESS, x, s)
  else
    match idx_to_sft i (sys s) with
    | None => Some (FCB_ERROR, x, s)
    | Some t =>
        let set_size t := with_sft_file (sft_stclust t) (fcb_fsize f) (sft_date t) (sft_time t) t in
        let s := with_sys (upd_sft set_size i (sys s)) s in
        let* s :=
          if Z.land (sft_flags t) SFT_FSHARED =? 0 then
            let* (_, y) := dos_merge_file_changes i (node s) (sys s) in Some (with_sys y s)
          else Some s in
        let s := with_sys (snd (DosSetFtimeSft i (fcb_date f) (fcb_time f) (sys s))) s in
        let* (rc, s) := close_sft i s in
        if rc =? SUCCESS then Some (FCB_SUCCESS, set_fcb (with_fcb_sftno 0xff f) x, s) else Some (FCB_ERROR, x, s)
    end.

(** The loop over the entries ends at the first one that is not in use.
    kernel/fcbfns.c:647-649 *)
Fixpoint close_all (n : nat) (idx : Z) (s : state) : option state :=
  match n with
  | O => None
  | Datatypes.S n =>
      match idx_to_sft idx (sys s) with
      | None => Some s
      | Some t =>
          let* s :=
            if negb (Z.land (sft_mode t) O_FCB =? 0) && (sft_psp t =? cu_psp (sys s)) then
              let* (_, s) :=
                on_sys (fun y => let* (rc, _, y) := DosCloseSft cf fuel idx false (node s) y in Some (rc, y)) s in Some s
            else Some s in
          close_all n (idx + 1) s
      end
  end.

(** kernel/fcbfns.c:642-650 *)
Definition FcbCloseAll (n : nat) (s : state) : option state := close_all n 0 s.

(** ** Searching, deleting and renaming *)

(** The status, the block and what has been written at the transfer address.
    kernel/fcbfns.c:652-711 *)
Definition FcbFindFirstNext (x : xfcb) (first : bool) (s : state) : option (Z * xfcb * list Z * state) :=
  let* (f, path, drive) := CommonFcbInit x s in
  let pat := map (ns_up_fchar (S := S)) (fcb_fname f ++ fcb_fext f) in
  let dm := Dmatch (fcb_sftno f) pat (u8 (wAttr s)) (fcb_strtclst f) (fcb_dirclst f) in
  let s := with_wAttr (ext_attrib D_ALL x) s in
  let header := match x with Plain _ => [] | Extended r a _ => 0xff :: r ++ [a] end in
  let* (rc, dm, e, s) :=
    on_sys (fun y => if first then search_first cf steps ents sec_before (wAttr s) path (node s) y
                     else search_next cf steps ents dm (node s) y) s in
  let s := with_crit (- rc) s in
  if negb (rc =? SUCCESS) then Some (FCB_ERROR, x, header, s)
  else
    let f := with_fcb_search (dm_drive dm) (dm_entry dm) (u16 (dm_dircluster dm)) f in
    Some (FCB_SUCCESS, set_fcb f x, header ++ u8 drive :: putdirent e, s).

(** A search in a buffer of the kernel. *)
Definition find_first (attr : Z) (path : list Z) (dta : dta_buf) (s : state) : option (Z * dta_buf * state) :=
  let* (rc, dta, s) := on_sys (DosFindFirst cf steps ents sec_before attr path dta (node s)) s in
  Some (rc, dta, with_crit (- rc) s).
Definition find_next (dta : dta_buf) (s : state) : option (Z * dta_buf * state) :=
  let* (rc, dta, s) := on_sys (DosFindNext cf steps ents dta (node s)) s in
  Some (rc, dta, with_crit (- rc) s).

(** What was found, as a path. *)
Definition found_path (drive : Z) (dta : dta_buf) : list Z := u8 (ch "A" + drive - 1) :: ch ":" :: dm_name dta.

(** kernel/fcbfns.c:514-525 *)
Fixpoint delete_loop (n : nat) (drive attr : Z) (dta : dta_buf) (s : state) : option (Z * state) :=
  match n with
  | O => None
  | Datatypes.S n =>
      let* (rc, s) := on_sys (DosDelete cf steps ents sec_before (found_path drive dta) attr (node s)) s in
      if negb (rc =? SUCCESS) then Some (FCB_ERROR, s)
      else
        let* (rc, dta, s) := find_next dta s in
        if rc =? SUCCESS then delete_loop n drive attr dta s else Some (FCB_SUCCESS, s)
  end.

(** [dta] is the buffer on the stack before the search.
    kernel/fcbfns.c:491-529 *)
Definition FcbDelete (n : nat) (x : xfcb) (dta : dta_buf) (s : state) : option (Z * state) :=
  let* (_, path, drive) := CommonFcbInit x s in
  if bool_decide (IsDevice path (below (sys s)) <> None) then Some (FCB_ERROR, s)
  else
    let attr := ext_attrib D_ALL x in
    let* (rc, dta, s) := find_first attr path dta s in
    if negb (rc =? SUCCESS) then Some (FCB_ERROR, s)
    else delete_loop n drive attr dta s.

(** The new name: the old one where the pattern has a question mark.
    kernel/fcbfns.c:573-579 *)
Definition overlay (old new : list Z) : list Z :=
  zip_with (fun o n => if n =? ch "?" then o else n) old new.

(** One file: whether the loop goes on.
    kernel/fcbfns.c:558-601 *)
Definition rename_one (r : rfcb) (drive : Z) (dta : dta_buf) (s : state) : option (bool * Z * state) :=
  let* (_, _, f) := FcbParseFname 0 (dm_name dta ++ [0]) stack_fcb (below (sys s)) in
  let name := overlay (fcb_fname f ++ fcb_fext f) (renNewName r) in
  let* (rc, path1, fnp, s) :=
    on_sys (call (truename cf steps ents sec_before (found_path drive dta) 0 (node s))) s in
  if (rc <? SUCCESS) || negb (Z.land rc IS_DEVICE =? 0) then Some (false, drive, s)
  else
    let '(loc, drive) := FcbNameInit drive name s in
    let* (rc, path2, fnp, s) := on_sys (call (truename cf steps ents stack_before loc 0 fnp)) s in
    if (rc <? SUCCESS) || (Z.land rc (Z.lor IS_NETWORK IS_DEVICE) =? IS_DEVICE) then Some (false, drive, s)
    else
      let* (rc, s) := on_sys (DosRenameTrue cf steps ents path1 path2 (wAttr s) fnp (node1 s)) s in
      Some (rc =? SUCCESS, drive, s).

(** kernel/fcbfns.c:557-602 *)
Fixpoint rename_loop (n : nat) (r : rfcb) (drive : Z) (dta : dta_buf) (s : state) : option state :=
  match n with
  | O => None
  | Datatypes.S n =>
      let* (go, drive, s) := rename_one r drive dta s in
      if negb go then Some s
      else
        let* (rc, dta, s) := find_next dta s in
        if rc =? SUCCESS then rename_loop n r drive dta s else Some s
  end.

(** The errors of the loop go to a variable of the inner block, which hides the
    one that is returned.  [ext] is the attribute of an extended block.
    kernel/fcbfns.c:531-606 *)
Definition FcbRename (n : nat) (ext : option Z) (r : rfcb) (dta : dta_buf) (s : state) : option (Z * state) :=
  let '(path, drive) := FcbNameInit (renDriveID r) (renOldName r) s in
  if bool_decide (IsDevice path (below (sys s)) <> None) then Some (FCB_ERROR, s)
  else
    let s := with_wAttr (default D_ALL ext) s in
    let* (rc, dta, s) := find_first (wAttr s) path dta s in
    let* s := if rc =? SUCCESS then rename_loop n r drive dta s else Some s in
    Some (FCB_SUCCESS, s).

End services.
