(* ===== verification/FcbThms.v ===== *)
(** * File control blocks: the properties *)

From S2P Require Import Prelude Hdr Share ShareSpec Bytes Dpb Blockio BlockioRing BlockioSpec BlockioRange Fattab CacheSpec.
From S2P Require Import FattabSpec Fnode Cluster ClusterSpec Names NamesSpec Fatdir FatdirSpec FatdirThms Fileio FileioSpec.
From S2P Require Import FilewriteSpec FilecloseSpec FileThms Chario Newstuff NewstuffThms Dosfns DosfnsSpec DosfnsThms.
From S2P Require Import Dosname DosnameThms Fcb.

(** ** Record numbers *)

Record wf_rec (f : fcb) : Prop := {
  wf_block : 0 <= fcb_cublock f < 65536;
  wf_cur : 0 <= fcb_curec f < 128 }.

Lemma FcbRec_wf f : wf_rec f -> FcbRec f = fcb_cublock f * 128 + fcb_curec f.
Proof. intros [H1 H2]. unfold FcbRec. apply u32_id. lia. Qed.

Lemma FcbRec_next f : wf_rec f -> FcbRec f + 1 < 8388608 -> FcbRec (FcbNextRecord f) = FcbRec f + 1 /\ wf_rec (FcbNextRecord f).
Proof.
  intros Hw Hlt. pose proof Hw as [H1 H2]. rewrite (FcbRec_wf f Hw) in *. unfold FcbNextRecord. rewrite u8_id by lia.
  destruct (Z.leb_spec 128 (fcb_curec f + 1)).
  - assert (wf_rec (with_fcb_rec (u16 (fcb_cublock f + 1)) (fcb_recsiz f) 0 f)) as Hw'.
    { split; cbn; [apply u16_range|lia]. }
    split; [|done]. rewrite FcbRec_wf by done. cbn. rewrite u16_id; lia.
  - assert (wf_rec (with_fcb_rec (fcb_cublock f) (fcb_recsiz f) (fcb_curec f + 1) f)) as Hw' by (split; cbn; lia).
    split; [|done]. rewrite FcbRec_wf by done. cbn. lia.
Qed.

Lemma next_same f : fcb_recsiz (FcbNextRecord f) = fcb_recsiz f /\ fcb_sftno (FcbNextRecord f) = fcb_sftno f.
Proof. unfold FcbNextRecord. by destruct (128 <=? _). Qed.

Lemma set_get x f f' : ExtFcbToFcb x = Some f -> fcb_drive f' = fcb_drive f -> ExtFcbToFcb (set_fcb f' x) = Some f'.
Proof.
  destruct x as [f0|r a f0]; cbn; [|done]. destruct (fcb_drive f0 =? 0xff) eqn:E; [done|]. intros [= ->] ->. by rewrite E.
Qed.

Lemma next_drive f : fcb_drive (FcbNextRecord f) = fcb_drive f.
Proof. unfold FcbNextRecord. by destruct (128 <=? _). Qed.

(** ** Reading *)

Section reading.
  Context {S : Type} `{TransferLaws S primary} `{!DosState S, !NameServices S, !DosServices S, !DirServices S}.
  Context (cf steps fuel : nat) (p : Z) (g : dpb) (node : fcb_state S -> f_node).
  Hypothesis reliable : bc_reliable (primary := primary).

(** The block has a file open: its table entry, the chain of the file. *)
Record opened (v : Z -> Z -> list Z) (cs : list Z) (size r : Z) (f : fcb) (s : fcb_state S) (t : sft) : Prop := {
  op_mounted : mounted (primary := primary) cf p g v (below (sys s));
  op_sftno : 0 <= fcb_sftno f < 255;
  op_sft : idx_to_sft (fcb_sftno f) (sys s) = Some t;
  op_open : file_open p g v t cs;
  op_size : sft_size t = size;
  op_plain : plain_file t (sys s);
  op_mode : Z.land (sft_mode t) O_WRONLY = 0;
  op_recsiz : fcb_recsiz f = r }.

(** What a read of one record finds. *)
Definition read_status (r n : Z) : Z := if n =? r then FCB_SUCCESS else if n =? 0 then FCB_ERR_NODATA else FCB_ERR_EOF.
Definition read_data (v : Z -> Z -> list Z) (cs : list Z) (pos r n : Z) (dta : list Z) : list Z :=
  if n =? 0 then dta
  else file_part_of g v cs pos n ++ replicate (Z.to_nat (r - n)) 0 ++ drop (Z.to_nat r) dta.

Lemma seek_spec i t pos (s : system S) : idx_to_sft i s = Some t -> Z.land (sft_flags t) SFT_FDEVICE = 0 -> 0 <= pos < 4294967296 ->
  SftSeek i pos 0 s = Some (SUCCESS, upd_sft (with_sft_posit pos) i s) /\
  idx_to_sft i (upd_sft (with_sft_posit pos) i s) = Some (with_sft_posit pos t).
Proof.
  intros Ht Hd Hp. split; [|by destruct (upd_sft_spec (with_sft_posit pos) s i t Ht eq_refl)].
  unfold SftSeek. rewrite Ht, Hd. cbn. by rewrite u32_id.
Qed.

Lemma part_length v cs pos n size : 0 <= pos -> 0 <= n -> pos + n <= size -> layout_ok (primary := primary) g v ->
  size <= Z.of_nat (length (file_bytes g v cs)) -> length (file_part_of g v cs pos n) = Z.to_nat n.
Proof. intros. unfold file_part_of. rewrite length_take, length_drop. lia. Qed.

Lemma open_holds v t cs : layout_ok (primary := primary) g v -> file_open p g v t cs ->
  sft_size t <= Z.of_nat (length (file_bytes g v cs)).
Proof.
  intros Hl [_ Hat _ _ Hend]. destruct Hat as [(-> & _)|(Hc & _)]; [cbn in *; lia|].
  rewrite (file_bytes_length (primary := primary) g v cs Hl); [done|]. by apply chain_clusters with v (sft_stclust t).
Qed.

Lemma fcb_read_spec v cs size r x f s t dta dta_off :
  layout_ok (primary := primary) g v -> data_area g -> (Z.to_nat (max_cluster g) <= steps)%nat -> 128 <= Z.of_nat steps ->
  ExtFcbToFcb x = Some f -> opened v cs size r f s t ->
  1 <= r < 65536 -> 0 <= dta_off -> dta_off + r < 65536 -> r <= Z.of_nat (length dta) -> r <= Z.of_nat fuel ->
  let pos := FcbRec f * r in
  0 <= pos < 4294967296 ->
  let n := readable size pos r in
  exists s' t', FcbReadWrite cf steps fuel node x 1 XFR_READ dta_off dta s =
      Some (read_status r n, if n =? 0 then x else set_fcb (FcbNextRecord f) x, read_data v cs pos r n dta, s') /\
    opened v cs size r (FcbNextRecord f) s' t'.
Proof.
  intros Hl Hda Hst Hst2 Hx [Hm Hi Ht Hopen Hsz Hplain Hmode Hr] Hrr Hoff Hwrap Hdta Hfu pos Hpos n.
  unfold FcbReadWrite. rewrite Hx. cbv zeta. rewrite Hr, Z.mul_1_r, (u32_id r) by lia.
  rewrite (proj2 (Z.ltb_ge _ _)) by lia. rewrite (u16_id (dta_off + r)) by lia. rewrite (proj2 (Z.ltb_ge _ _)) by lia.
  fold pos. rewrite (u32_id pos) by done. pose proof Hplain as [P1 P2 P3].
  destruct (seek_spec (fcb_sftno f) t pos (sys s) Ht P2 Hpos) as [E1 Ht1].
  unfold crit_sys, on_sys at 1. rewrite E1. cbv beta iota zeta. change (SUCCESS =? SUCCESS) with true. cbn [negb].
  set (y1 := upd_sft _ _ (sys s)) in *. set (s1 := with_crit _ _). set (t1 := with_sft_posit pos t) in *.
  assert (file_open p g v t1 cs) as Hopen1 by (destruct Hopen as [O1 O2 O3 O4 O5]; split; done).
  assert (plain_file t1 y1) as Hplain1 by (by split).
  change (Z.land XFR_READ (Z.lnot XFR_FCB_RANDOM)) with XFR_READ. unfold on_sys. change (sys s1) with y1.
  rewrite (plain_rw cf steps fuel (fcb_sftno f) t1 r dta XFR_READ (node s1) y1 Ht1 Hplain1) by (by left).
  destruct (rwblock_read_full cf steps p g reliable fuel v y1 (fcb_sftno f) t1 cs r dta (node s1)) as
    (f3 & y3 & t3 & E3 & Hev & Ht3 & Hopen3 & Hp3 & Hs3 & _ & Hfl3 & Hmo3 & Hsh3 & Hin3); try done; try lia.
  assert (readable (sft_size t1) (sft_posit t1) r = n) as En.
  { unfold n. change (sft_size t1) with (sft_size t). by rewrite Hsz. }
  rewrite En in *. rewrite E3. cbv beta iota zeta. change (sft_posit t1) with pos.
  assert (0 <= n <= r) as Hn by (unfold n, readable; lia).
  rewrite (proj2 (Z.ltb_ge n 0)) by lia. change (Z.land XFR_READ XFR_WRITE =? 0) with true.
  change (Z.land XFR_READ XFR_FCB_RANDOM =? 0) with true. cbn [negb andb].
  exists (with_sys y3 s1), t3. split.
  2: { destruct (next_same f) as [R1 R2]. split; rewrite ?R1, ?R2; try done; [apply Hev|by rewrite Hs3| |by rewrite Hmo3].
       split; [by rewrite Hfl3|by rewrite Hfl3|]. rewrite Hsh3. change (share_installed (sys (with_sys y3 s1))) with (share_installed y3).
       rewrite Hin3. exact P3. }
  unfold rw_result. rewrite (u16_id n), (u16_id (r - n)) by lia. unfold read_status, read_data.
  assert (n = 0 \/ Z.of_nat (length (file_part_of g v cs pos n)) = n) as Hlen.
  { destruct (decide (n = 0)) as [E|E]; [by left|right]. rewrite (part_length v cs pos n size); try done; try lia.
    - unfold n, readable in *. lia.
    - rewrite <- Hsz. by apply open_holds. }
  assert (length (drop (Z.to_nat n) dta) = length dta - Z.to_nat n)%nat as Hdrop by apply length_drop.
  destruct (Z.eqb_spec n r) as [->|Hne].
  - rewrite Z.sub_diag. cbn [Z.eqb]. rewrite (proj2 (Z.eqb_neq r 0)) by lia. done.
  - rewrite (proj2 (Z.eqb_neq (r - n) 0)), (proj2 (Z.eqb_neq r 0)) by lia. destruct (Z.eqb_spec n 0) as [->|Hn0].
    + rewrite Z.sub_0_r, Z.mod_same by lia. change (Z.land XFR_READ XFR_READ =? 0) with false. cbn.
      unfold file_part_of. cbn. by destruct x; cbn in *; [destruct (_ =? _)|]; simplify_eq.
    + rewrite Z.mod_small by lia. change (Z.land XFR_READ XFR_READ =? 0) with false.
      rewrite (proj2 (Z.ltb_lt 0 (r - n))) by lia. cbn [negb andb]. destruct Hlen as [?|Hlen]; [done|].
      rewrite (proj2 (Nat.ltb_ge _ _)) by (rewrite length_app; lia).
      rewrite take_app_length' by lia. rewrite drop_app_ge, drop_drop by lia. do 3 f_equal. f_equal. f_equal. f_equal. lia.
Qed.
(** Sequential reads of one record each, as a program does them: the records until
    one is not full, or there is none. *)
Fixpoint read_records (m : nat) (r dta_off : Z) (x : xfcb) (dta : list Z) (s : fcb_state S)
    : option (list Z * Z * xfcb * fcb_state S) :=
  match m with
  | O => None
  | Datatypes.S m =>
      let* (rc, x, dta, s) := FcbReadWrite cf steps fuel node x 1 XFR_READ dta_off dta s in
      if rc =? FCB_SUCCESS then
        let* (l, rc, x, s) := read_records m r dta_off x dta s in
        Some (take (Z.to_nat r) dta ++ l, rc, x, s)
      else if rc =? FCB_ERR_EOF then Some (take (Z.to_nat r) dta, rc, x, s)
      else Some ([], rc, x, s)
  end.

(** The rest of the file, filled up to whole records. *)
Definition records_from (v : Z -> Z -> list Z) (cs : list Z) (size r pos : Z) : list Z :=
  file_part_of g v cs pos (size - pos) ++ replicate (Z.to_nat ((pos - size) mod r)) 0.

Lemma part_split v cs pos a b : 0 <= pos -> 0 <= a -> 0 <= b ->
  file_part_of g v cs pos (a + b) = file_part_of g v cs pos a ++ file_part_of g v cs (pos + a) b.
Proof.
  intros. unfold file_part_of. rewrite !Z2Nat.inj_add by done. rewrite <- drop_drop. generalize (drop (Z.to_nat pos) (file_bytes g v cs)).
  intros l. by rewrite take_take_drop.
Qed.

Lemma records_from_step v cs size r pos : 1 <= r -> 0 <= pos -> pos + r <= size ->
  records_from v cs size r pos = file_part_of g v cs pos r ++ records_from v cs size r (pos + r).
Proof.
  intros Hr Hp Hs. unfold records_from. rewrite app_assoc, <- part_split by lia. f_equal; [f_equal; lia|].
  replace (pos + r - size) with (pos - size + 1 * r) by lia. by rewrite Z.mod_add by lia.
Qed.

Lemma read_records_spec v cs size r dta_off :
  layout_ok (primary := primary) g v -> data_area g -> (Z.to_nat (max_cluster g) <= steps)%nat -> 128 <= Z.of_nat steps ->
  1 <= r < 65536 -> 0 <= dta_off -> dta_off + r < 65536 -> r <= Z.of_nat fuel ->
  size + r < 4294967296 -> size / r + 1 < 8388608 ->
  forall m x f s t dta, ExtFcbToFcb x = Some f -> opened v cs size r f s t -> wf_rec f ->
  let pos := FcbRec f * r in
  pos <= size -> r <= Z.of_nat (length dta) -> (Z.to_nat ((size - pos) / r) < m)%nat ->
  exists x' s', read_records m r dta_off x dta s =
      Some (records_from v cs size r pos, if (size - pos) mod r =? 0 then FCB_ERR_NODATA else FCB_ERR_EOF, x', s') /\
    mounted (primary := primary) cf p g v (below (sys s')).
Proof.
  intros Hl Hda Hst Hst2 Hr Hoff Hwrap Hfu Hsize Hrec. induction m as [|m IH]; intros x f s t dta Hx Hop Hwf pos Hpos Hdta Hm; [lia|].
  assert (0 <= FcbRec f) as Hrec0 by (rewrite FcbRec_wf by done; destruct Hwf; lia). assert (0 <= pos) as Hp0 by (unfold pos; nia).
  destruct (fcb_read_spec v cs size r x f s t dta dta_off) as (s1 & t1 & E & Hop1); try done; [fold pos; lia|].
  cbn [read_records]. rewrite E. clear E. fold pos. set (n := readable size pos r) in *. unfold read_status.
  pose proof (open_holds v t cs Hl (op_open _ _ _ _ _ _ _ Hop)) as Hhold. rewrite (op_size _ _ _ _ _ _ _ Hop) in Hhold.
  assert (forall k, 0 <= k -> pos + k <= size -> length (file_part_of g v cs pos k) = Z.to_nat k) as Hlen.
  { intros k Hk Hks. by apply (part_length v cs pos k size). }
  destruct (Z.eqb_spec n r) as [En|En].
  - assert (pos + r <= size) as Hfit by (unfold n, readable in En; lia).
    change (FCB_SUCCESS =? FCB_SUCCESS) with true. cbv iota. rewrite En. rewrite (proj2 (Z.eqb_neq r 0)) by lia. unfold read_data.
    rewrite (proj2 (Z.eqb_neq r 0)), Z.sub_diag by lia. change (replicate (Z.to_nat 0) 0) with (@nil Z). rewrite app_nil_l.
    assert (FcbRec f < size / r + 1) as Hlt.
    { assert (FcbRec f <= size / r) by (apply Z.div_le_lower_bound; [lia|]; unfold pos in Hfit; nia). lia. }
    destruct (FcbRec_next f Hwf) as [En1 Hwf1]; [lia|].
    assert (FcbRec (FcbNextRecord f) * r = pos + r) as Epos by (rewrite En1; unfold pos; lia).
    destruct (IH (set_fcb (FcbNextRecord f) x) (FcbNextRecord f) s1 t1 (file_part_of g v cs pos r ++ drop (Z.to_nat r) dta))
      as (x' & s' & E & Hm'); try done; rewrite ?Epos.
    + apply (set_get x f); [done|apply next_drive].
    + lia.
    + rewrite length_app, length_drop, Hlen by lia. lia.
    + replace (size - (pos + r)) with (size - pos + (-1) * r) by lia. rewrite Z.div_add by lia.
      assert (1 <= (size - pos) / r) by (apply Z.div_le_lower_bound; lia). lia.
    + rewrite E, Epos. exists x', s'. split; [|done]. rewrite take_app_length' by (rewrite Hlen; lia).
      rewrite (records_from_step v cs size r pos) by lia. do 3 f_equal. f_equal.
      replace (size - (pos + r)) with (size - pos + (-1) * r) by lia. by rewrite Z.mod_add by lia.
  - assert (n = size - pos) as Hn by (unfold n, readable in *; lia). assert (size - pos < r) as Hsm by (unfold n, readable in *; lia).
    rewrite (Z.mod_small (size - pos)) by lia. rewrite Hn in *. destruct (Z.eqb_spec (size - pos) 0) as [E0|E0].
    + change (FCB_ERR_NODATA =? FCB_SUCCESS) with false. change (FCB_ERR_NODATA =? FCB_ERR_EOF) with false. cbv iota.
      exists x, s1. split; [|apply Hop1]. unfold records_from. rewrite E0. replace (pos - size) with 0 by lia.
      rewrite Z.mod_0_l by lia. done.
    + change (FCB_ERR_EOF =? FCB_SUCCESS) with false. change (FCB_ERR_EOF =? FCB_ERR_EOF) with true. cbv iota.
      eexists _, s1. split; [|apply Hop1]. unfold records_from, read_data. rewrite (proj2 (Z.eqb_neq _ _)) by done.
      replace (pos - size) with (r - (size - pos) + (-1) * r) by lia. rewrite Z.mod_add, Z.mod_small by lia.
      rewrite app_assoc, take_app_length'; [done|]. rewrite length_app, length_replicate, Hlen by lia. lia.
Qed.

(** C22: a file read record by record through a control block is the file.
    Sequential reads of one record each, from the record where the block stands,
    return exactly the bytes of the file from there on, the last record filled up
    with zeros; the last status tells whether that record was cut short (3) or the
    file ended with a full one (1). *)
Theorem fcb_reads_file v cs size r dta_off m x f s t dta :
  layout_ok (primary := primary) g v -> data_area g -> (Z.to_nat (max_cluster g) <= steps)%nat -> 128 <= Z.of_nat steps ->
  1 <= r < 65536 -> 0 <= dta_off -> dta_off + r < 65536 -> r <= Z.of_nat fuel ->
  size + r < 4294967296 -> size / r + 1 < 8388608 ->
  ExtFcbToFcb x = Some f -> opened v cs size r f s t -> wf_rec f ->
  let pos := FcbRec f * r in
  pos <= size -> r <= Z.of_nat (length dta) -> (Z.to_nat ((size - pos) / r) < m)%nat ->
  exists x' s', read_records m r dta_off x dta s =
      Some (records_from v cs size r pos, if (size - pos) mod r =? 0 then FCB_ERR_NODATA else FCB_ERR_EOF, x', s') /\
    mounted (primary := primary) cf p g v (below (sys s')).
Proof. intros. by eapply (read_records_spec v cs size r dta_off). Qed.

End reading.

(** ** Names *)

Section naming.
  Context {S : Type} `{!BlockCache S, !DosState S, !NameServices S}.

(** A character that parsing keeps as it is. *)
Record fcb_char (c : Z) : Prop := {
  fc_graph : ch " " < c;
  fc_plain : existsb (Z.eqb c) (34 :: str "/\[]<>|.*?:+=,") = false;
  fc_upper : ns_up_fchar (S := S) c = c }.

Lemma fcb_char_ne c x : fcb_char c -> In x (34 :: str "/\[]<>|.*?:+=,") -> c <> x.
Proof.
  intros [_ H _] Hin ->. assert (existsb (Z.eqb x) (34 :: str "/\[]<>|.*?:+=,") = true); [|congruence].
  apply existsb_exists. exists x. split; [done|]. apply Z.eqb_refl.
Qed.

Lemma not_exists c l : (forall x, In x l -> c <> x) -> existsb (Z.eqb c) l = false.
Proof.
  intros H. apply not_true_is_false. intros (x & Hin & ->%Z.eqb_eq)%existsb_exists. by apply (H x Hin).
Qed.

Lemma fcb_char_seps c : fcb_char c -> TestFieldSeps c = false /\ TestCmnSeps c = false /\ (c =? ch " ") || (c =? 9) = false /\
  c <> 0 /\ c <> ch "*" /\ c <> ch "?" /\ c <> ch ":" /\ c <> ch ".".
Proof.
  intros Hc. pose proof (fc_graph _ Hc) as Hg. pose proof (fun x => fcb_char_ne c x Hc) as Hne. change (ch " ") with 32 in *.
  assert (forall x, In x (str "/\[]<>|.*?:+=,") -> c <> x) as Hne2 by (intros x Hx; apply Hne; by right).
  split; [|split; [|split; [|split_and!]]].
  - unfold TestFieldSeps. change (ch " ") with 32. rewrite (proj2 (Z.leb_gt _ _)) by lia. apply not_exists. intros x Hx. apply Hne.
    cbn in Hx |- *. tauto.
  - apply not_exists. intros x Hx. apply Hne2. cbn in Hx |- *. tauto.
  - apply orb_false_iff. split; apply Z.eqb_neq; lia.
  - lia.
  - apply Hne2. cbn. tauto.
  - apply Hne2. cbn. tauto.
  - apply Hne2. cbn. tauto.
  - apply Hne2. cbn. tauto.
Qed.

(** A field of plain characters, up to a separator. *)
Lemma GetNameField_plain l : forall n c rest, Forall fcb_char l -> (length l <= n)%nat -> c = 0 \/ TestFieldSeps c = true ->
  GetNameField (S := S) (l ++ c :: rest) n = Some (pad n l, false, c :: rest).
Proof.
  induction l as [|x l IH]; intros n c rest Hl Hn Hc.
  - cbn [app GetNameField]. assert ((c =? 0) || TestFieldSeps c = true) as ->.
    { destruct Hc as [-> | ->]; [done|]. apply orb_true_r. }
    unfold pad. cbn [length app]. by rewrite Nat.sub_0_r.
  - apply list.Forall_cons in Hl as [Hx Hl]. destruct n as [|n]; [cbn in Hn; lia|]. cbn [app GetNameField].
    destruct (fcb_char_seps x Hx) as (-> & _ & _ & H0 & Hs & Hq & _).
    rewrite (proj2 (Z.eqb_neq x 0)), (proj2 (Z.eqb_neq x (ch "*"))), (proj2 (Z.eqb_neq x (ch "?"))) by done. cbn [orb].
    rewrite IH by (done || (cbn in Hn; lia)). by rewrite (fc_upper _ Hx).
Qed.

(** Parsing the part behind the drive. *)
Lemma parse_name_plain base ext more f : base <> [] -> (length base <= FNAME_SIZE)%nat -> (length ext <= FEXT_SIZE)%nat ->
  Forall fcb_char base -> Forall fcb_char ext ->
  parse_name (S := S) 0 (sz_name base ext ++ 0 :: more) f =
    Some (PARSE_RET_NOWILD, 0 :: more, with_fcb_name (pad FNAME_SIZE base) (pad FEXT_SIZE ext) (with_fcb_rec 0 0 (fcb_curec f) f)).
Proof.
  intros Hne Hb He Fb Fe. unfold parse_name. destruct base as [|c base]; [done|].
  assert (at_ (sz_name (c :: base) ext ++ 0 :: more) 0 = Some c) as -> by done.
  assert (c <> ch ".") as Hdot by (apply list.Forall_cons in Fb as [Hc _]; by apply fcb_char_seps).
  rewrite (proj2 (Z.eqb_neq _ _)) by done. unfold sz_name. rewrite <- app_assoc.
  case_bool_decide as Hx.
  - subst ext. cbn [app]. change (c :: base ++ 0 :: more) with ((c :: base) ++ 0 :: more).
    rewrite GetNameField_plain by (done || by left). done.
  - change ((c :: base) ++ (ch "." :: ext) ++ 0 :: more) with ((c :: base) ++ ch "." :: (ext ++ 0 :: more)).
    rewrite GetNameField_plain by (done || by right).
    assert (at_ (ch "." :: ext ++ 0 :: more) 0 = Some (ch ".")) as -> by done. rewrite Z.eqb_refl.
    change (drop 1 (ch "." :: ext ++ 0 :: more)) with (ext ++ 0 :: more).
    rewrite GetNameField_plain by (done || by left). done.
Qed.

Lemma parse_start mode c l f (s : S) : (c =? ch " ") || (c =? 9) = false -> TestCmnSeps c = false ->
  FcbParseFname mode (c :: l) f s =
    (let* d := parse_drive mode (c :: l) s in
     match d with
     | None => Some (PARSE_RET_BADDRIVE, c :: l, f)
     | Some (drive, l) => parse_name (S := S) mode l (match drive with Some d => with_fcb_drive d f | None => f end)
     end).
Proof.
  intros Hc Ht. unfold FcbParseFname.
  assert (ParseSkipWh (c :: l) = Some (c :: l)) as E by (cbn [ParseSkipWh]; by rewrite Hc).
  assert (at_ (c :: l) 0 = Some c) as E0 by done.
  destruct (Z.land mode PARSE_SEP_STOP =? 0); rewrite E; [rewrite E0, Ht, E|]; done.
Qed.

(** C23: the name of a control block survives the way into a path and back.  The
    path that the kernel builds of a block with a valid name, on the default drive
    or on any drive there is, parses to the same drive and the same padded name and
    extension; nothing of what follows the name is read, and no wild card is seen. *)
Theorem fcb_name_roundtrip d base ext more f (s : fcb_state S) :
  part_ok FNAME_SIZE base -> part_ok FEXT_SIZE ext -> base <> [] -> Forall fcb_char base -> Forall fcb_char ext ->
  d = 0 \/ 1 <= d <= 26 /\ ns_up_fchar (S := S) (ch "A" + d - 1) = ch "A" + d - 1 /\ is_Some (get_cds (d - 1) (below (sys s))) ->
  let path := (FcbNameInit d (fcb_name base ext) s).1 in
  FcbParseFname 0 (path ++ 0 :: more) f (below (sys s)) =
    Some (PARSE_RET_NOWILD, 0 :: more,
          with_fcb_name (pad FNAME_SIZE base) (pad FEXT_SIZE ext) (with_fcb_rec 0 0 (fcb_curec f) (with_fcb_drive d f))).
Proof.
  intros Hb He Hne Fb Fe Hd path. pose proof Hb as (Lb & _). pose proof He as (Le & _).
  unfold path, FcbNameInit. rewrite to_sz by done. destruct Hd as [-> |(Hd & Hup & [c0 Hcds])].
  - change (0 =? 0) with true. cbv iota. cbn [fst]. destruct base as [|c base]; [done|]. pose proof Fb as [Hc Fb']%list.Forall_cons.
    destruct (fcb_char_seps c Hc) as (_ & Hs & Hw & _ & _ & _ & _).
    change (sz_name (c :: base) ext ++ 0 :: more) with (c :: (sz_name base ext ++ 0 :: more)).
    rewrite parse_start by done. change (c :: sz_name base ext ++ 0 :: more) with (sz_name (c :: base) ext ++ 0 :: more).
    assert (exists c1, at_ (sz_name (c :: base) ext ++ 0 :: more) 1 = Some c1 /\ c1 <> ch ":") as (c1 & E1 & Hc1).
    { destruct base as [|c1 base].
      - unfold sz_name. case_bool_decide; [by exists 0|]. by exists (ch ".").
      - exists c1. split; [done|]. apply list.Forall_cons in Fb' as [Hc1 _]. by apply fcb_char_seps. }
    unfold parse_drive. assert (at_ (sz_name (c :: base) ext ++ 0 :: more) 0 = Some c) as -> by done.
    rewrite E1, (proj2 (Z.eqb_neq _ _)) by done. change (Z.land 0 PARSE_DFLT_DRIVE =? 0) with true. cbv iota.
    by rewrite parse_name_plain.
  - rewrite (proj2 (Z.eqb_neq d 0)) by lia. cbn [fst]. change (ch "A") with 65 in *. rewrite (u8_id (65 + d - 1)) by lia.
    rewrite <- !app_comm_cons. rewrite parse_start.
    + unfold parse_drive. set (rest := sz_name base ext ++ 0 :: more).
      assert (at_ (65 + d - 1 :: ch ":" :: rest) 0 = Some (65 + d - 1)) as -> by done.
      assert (at_ (65 + d - 1 :: ch ":" :: rest) 1 = Some (ch ":")) as -> by done. rewrite Z.eqb_refl, Hup.
      change (ch "A") with 65. rewrite (u8_id (65 + d - 1 - 65)) by lia. replace (65 + d - 1 - 65) with (d - 1) by lia.
      rewrite Hcds, (u8_id (d - 1 + 1)) by lia. replace (d - 1 + 1) with d by lia.
      change (drop 2 (65 + d - 1 :: ch ":" :: rest)) with rest. unfold rest. by rewrite parse_name_plain.
    + apply orb_false_iff. change (ch " ") with 32. split; apply Z.eqb_neq; lia.
    + apply not_exists. intros x Hx. vm_compute in Hx. lia.
Qed.

End naming.

(** ** Counting records *)

Section counting.
  Context {S : Type} `{!BlockCache S, !DosState S, !BlockTransfer S, !NameServices S, !DosServices S, !DirServices S}.
  Context (cf steps fuel : nat) (node : fcb_state S -> f_node).

(** How many records a random block transfer reports.  When [n] records are
    all transferred, the call succeeds and the block moves on by the number it
    reports.  That is [n] as long as the bytes and one record less one fit in 16
    bits; for larger transfers the sum wraps around, and the number is too small,
    so a program that goes on transfers records twice. *)
Theorem random_block_count x f n mode dta_off dta dta' s y1 fnp y2 :
  let f0 := calc_rec f in
  let r := fcb_recsiz f in
  ExtFcbToFcb x = Some f -> 1 <= r -> 1 <= n -> r * n < 65536 -> 0 <= dta_off -> dta_off + r * n < 65536 ->
  mode = XFR_READ \/ mode = XFR_WRITE -> 0 <= fcb_rndm f -> fcb_rndm f + n < 4294967296 ->
  SftSeek (fcb_sftno f) (u32 (FcbRec f0 * r)) 0 (sys s) = Some (SUCCESS, y1) ->
  DosRWSft cf steps fuel (fcb_sftno f) (r * n) dta mode (node (with_crit (- SUCCESS) (with_sys y1 s))) y1 = Some (r * n, dta', fnp, y2) ->
  let count := if r * n + r - 1 <? 65536 then n else (r * n + r - 1 - 65536) / r in
  exists x' f' s', FcbRandomBlockIO cf steps fuel node x n (Z.lor mode XFR_FCB_RANDOM) dta_off dta s = Some (FCB_SUCCESS, count, x', dta', s') /\
    ExtFcbToFcb x' = Some f' /\ fcb_rndm f' = fcb_rndm f + count /\ 0 <= count <= n /\ (65536 <= r * n + r - 1 -> count < n).
Proof.
  intros f0 r Hx Hr Hn Hsz Hoff Hwrap Hmode Hrn Hrn2 E1 E2 count.
  assert (count = records_done (r * n) r) as Ec.
  { unfold count, records_done. rewrite (u16_id (r * n)) by nia. destruct (Z.ltb_spec (r * n + r - 1) 65536).
    - rewrite u16_id by nia. apply Z.div_unique_pos with (r - 1); lia.
    - f_equal. unfold u16. apply Z.mod_unique_pos with 1; [nia|lia]. }
  assert (0 <= count <= n /\ (65536 <= r * n + r - 1 -> count < n)) as [Hcount Hless].
  { unfold count. destruct (Z.ltb_spec (r * n + r - 1) 65536); [lia|].
    assert (0 <= (r * n + r - 1 - 65536) / r) by (apply Z.div_pos; lia).
    assert ((r * n + r - 1 - 65536) / r < n) by (apply Z.div_lt_upper_bound; nia). lia. }
  assert (ExtFcbToFcb (set_fcb f0 x) = Some f0) as Hx0 by (by apply (set_get x f)).
  unfold FcbRandomBlockIO, FcbCalcRec at 1. rewrite Hx. fold f0. rewrite Hx0. unfold FcbReadWrite. rewrite Hx0. cbv zeta.
  change (fcb_recsiz f0) with r. rewrite (u32_id (r * n)) by nia. rewrite (proj2 (Z.ltb_ge _ _)) by lia.
  rewrite (u16_id (dta_off + r * n)) by nia. rewrite (proj2 (Z.ltb_ge _ _)) by nia.
  unfold crit_sys, on_sys at 1. change (fcb_sftno f0) with (fcb_sftno f). rewrite E1. cbv beta iota zeta.
  change (SUCCESS =? SUCCESS) with true. cbn [negb]. unfold on_sys. set (s1 := with_crit _ _) in *.
  assert (Z.land (Z.lor mode XFR_FCB_RANDOM) (Z.lnot XFR_FCB_RANDOM) = mode) as -> by (by destruct Hmode as [-> | ->]).
  change (sys s1) with y1. rewrite E2. cbv beta iota zeta. rewrite (proj2 (Z.ltb_ge (r * n) 0)) by nia.
  assert (Z.land (Z.lor mode XFR_FCB_RANDOM) XFR_FCB_RANDOM =? 0 = false) as -> by (by destruct Hmode as [-> | ->]).
  rewrite (proj2 (Z.ltb_lt 0 r)) by lia. cbn [negb andb].
  unfold rw_result. rewrite (u16_id (r * n)), Z.sub_diag by nia. change (u16 0 =? 0) with true. cbv iota.
  set (f1 := if negb _ then with_fcb_file _ _ _ f0 else f0).
  assert (fcb_rndm f1 = fcb_rndm f /\ fcb_drive f1 = fcb_drive f) as [Er Ed] by (unfold f1; by destruct (negb _)).
  rewrite Er, <- Ec, (u32_id (fcb_rndm f + count)) by lia. set (f2 := FcbNextRecord _).
  assert (fcb_rndm f2 = fcb_rndm f + count) as Er2 by (unfold f2, FcbNextRecord; by destruct (128 <=? _)).
  assert (fcb_drive f2 = fcb_drive f) as Ed2 by (unfold f2; rewrite next_drive; exact Ed).
  assert (forall f', fcb_drive f' = fcb_drive f -> ExtFcbToFcb (set_fcb f' (set_fcb f0 x)) = Some f') as Hset.
  { intros f' Hf'. by apply (set_get (set_fcb f0 x) f0). }
  rewrite (Hset f2 Ed2). unfold FcbCalcRec. rewrite (Hset f2 Ed2). cbv beta iota zeta.
  eexists _, (calc_rec f2), _. split; [|split; [|split; [exact Er2|done]]].
  - rewrite Er2. change (fcb_rndm f0) with (fcb_rndm f). replace (fcb_rndm f + count - fcb_rndm f) with count by lia.
    by rewrite u16_id by nia.
  - by apply (set_get (set_fcb f2 (set_fcb f0 x)) f2); [apply Hset|].
Qed.
End counting.

(** ** Sample blocks *)

Definition sample_fcb (sftno recsiz : Z) : fcb :=
  Fcb 3 (str "README  ") (str "TXT") 0 recsiz 5 0 0 sftno 0 0 0 0.

Definition fcb_machine : fcb_state (bio disk) := FcbState (handle_system 0) 0 0.

Lemma sample_opened : opened (S := bio disk) (primary := dir_primary) 5 77 dir_geom dir_image [3] 5 2 (sample_fcb 0 2) fcb_machine (readme_sft 0).
Proof.
  split; try reflexivity.
  - exact dir_mounted.
  - cbn. lia.
  - apply readme_open. lia.
  - split; [reflexivity|reflexivity|by left].
Qed.

(** Five bytes in records of two. *)
Lemma fcb_reads_file_witness : exists x' s',
  read_records 5 200 10 (fun _ => sample_node) 4 2 0x80 (Plain (sample_fcb 0 2)) (replicate 128 0) fcb_machine =
    Some (records_from dir_geom dir_image [3] 5 2 0, FCB_ERR_EOF, x', s') /\
  records_from dir_geom dir_image [3] 5 2 0 = str "Hello" ++ [0].
Proof.
  destruct (fcb_reads_file (S := bio disk) (primary := dir_primary) 5 200 10 77 dir_geom (fun _ => sample_node) dir_reliable
    dir_image [3] 5 2 0x80 4 (Plain (sample_fcb 0 2)) (sample_fcb 0 2) fcb_machine (readme_sft 0) (replicate 128 0)
    dir_layout dir_area) as (x' & s' & E & _).
  - change (max_cluster dir_geom) with 3. lia.
  - lia.
  - lia.
  - lia.
  - lia.
  - lia.
  - lia.
  - by vm_compute.
  - reflexivity.
  - exact sample_opened.
  - split; cbn; lia.
  - by vm_compute.
  - by vm_compute.
  - apply Nat.ltb_lt. reflexivity.
  - exists x', s'. split; [exact E|vm_compute; reflexivity].
Defined.

Lemma fcb_name_roundtrip_witness :
  (FcbNameInit 3 (fcb_name (str "README") (str "TXT")) fcb_machine).1 = str "C:README.TXT" /\
  FcbParseFname 0 (str "C:README.TXT" ++ [0; 7]) (sample_fcb 9 9) (below (sys fcb_machine)) =
    Some (PARSE_RET_NOWILD, [0; 7], with_fcb_name (str "README  ") (str "TXT") (with_fcb_rec 0 0 0 (sample_fcb 9 9))).
Proof.
  split; [reflexivity|].
  apply (fcb_name_roundtrip (S := bio disk) 3 (str "README") (str "TXT") [7] (sample_fcb 9 9) fcb_machine).
  - split; [apply Nat.leb_le; reflexivity|]. split; [repeat constructor; discriminate|discriminate].
  - split; [apply Nat.leb_le; reflexivity|]. split; [repeat constructor; discriminate|discriminate].
  - discriminate.
  - repeat constructor.
  - repeat constructor.
  - right. split; [lia|]. split; [reflexivity|]. eexists. reflexivity.
Defined.

(** A device in binary mode, and 65 records of 1000 bytes. *)
Definition device_sft : sft := Sft 1 O_RDWR 0 (Z.lor SFT_FDEVICE SFT_FBINARY) 9 0 0 0 0 0 0 0 0 (str "AUX     ") 0 0 (-1) 0.
Definition device_machine : fcb_state (bio disk) := FcbState (System dir_bio [[device_sft]] false (init 0 0) 0 [0]) 0 0.

Lemma random_block_count_witness : exists x' f' s',
  FcbRandomBlockIO 5 200 10 (fun _ => sample_node) (Plain (sample_fcb 0 1000)) 65 (Z.lor XFR_WRITE XFR_FCB_RANDOM) 0 [1] device_machine =
    Some (FCB_SUCCESS, 0, x', [1], s') /\ ExtFcbToFcb x' = Some f' /\ fcb_rndm f' = 0.
Proof.
  destruct (random_block_count (S := bio disk) 5 200 10 (fun _ => sample_node) (Plain (sample_fcb 0 1000)) (sample_fcb 0 1000) 65
    XFR_WRITE 0 [1] [1] device_machine (upd_sft (with_sft_posit 0) 0 (sys device_machine)) sample_node
    (upd_sft (with_sft_posit 0) 0 (sys device_machine))) as (x' & f' & s' & E & Hx & Hr & _).
  - reflexivity.
  - cbn. lia.
  - lia.
  - cbn. lia.
  - lia.
  - cbn. lia.
  - by right.
  - cbn. lia.
  - cbn. lia.
  - reflexivity.
  - reflexivity.
  - exists x', f', s'. split; [exact E|]. split; [exact Hx|exact Hr].
Defined.
