(* ===== verification/Media.v ===== *)
(** * The medium of a drive ([kernel/fatfs.c]: BPB, DPB and the check of the medium)

    A drive's DPB is computed from the BIOS parameter block of its medium, anew
    whenever the medium may have changed.  The driver's two requests go through the
    class [MediaDevice]; a BPB is the record the answer points to. *)

From S2P Require Import Prelude Hdr Dpb Blockio Fattab.

(** hdr/device.h:52-52 *)
Definition M_DONT_KNOW : Z := 0.
(** hdr/device.h:53-53 *)
Definition M_NOT_CHANGED : Z := 1.
(** hdr/device.h:78-78 *)
Definition C_MEDIACHK : Z := 0x01.
(** hdr/device.h:79-79 *)
Definition C_BLDBPB : Z := 0x02.
(** hdr/fat.h:151-151 *)
Definition DIRENT_SIZE : Z := 32.

(** hdr/device.h:149-177 *)
Record bpb := Bpb {
  bpb_nbyte : Z;
  bpb_nsector : Z;
  bpb_nreserved : Z;
  bpb_nfat : Z;
  bpb_ndirent : Z;
  bpb_nsize : Z;
  bpb_mdesc : Z;
  bpb_nfsect : Z;
  bpb_nsecs : Z;
  bpb_nheads : Z;
  bpb_hidden : Z;
  bpb_huge : Z;
  bpb_xnfsect : Z;
  bpb_xflags : Z;
  bpb_xfsversion : Z;
  bpb_xrootclst : Z;
  bpb_xfsinfosec : Z;
  bpb_xbackupsec : Z }.

(** ** From a BPB to a DPB *)

(** The size of a cluster as a shift; 8 steps are enough for a byte.
    kernel/fatfs.c:1585-1587 *)
Fixpoint shift_loop (n : nat) (nsector shftcnt : Z) : Z :=
  match n with
  | O => shftcnt
  | S n' => if 1 <? Z.shiftr nsector shftcnt then shift_loop n' nsector (shftcnt + 1) else shftcnt
  end.

(** The number of clusters the FAT has room for.
    kernel/fatfs.c:1603-1622 *)
Definition fat_limit (fatsize secsize size : Z) : Z :=
  let tmp := u32 (fatsize * (secsize / 2)) in
  if 0x10000 <=? tmp then size
  else if FAT_MAGIC <? size then
    if tmp <=? FAT_MAGIC then size else if tmp <=? size then u16 (tmp - 1) else size
  else if 0x4000 <=? tmp then size
  else
    let fatsiz := tmp * 4 / 3 in
    if fatsiz <=? size then u16 (fatsiz - 1) else size.

(** kernel/fatfs.c:1565-1573 *)
Definition dpb16to32 (d : dpb) : dpb :=
  Dpb (dpb_unit d) (dpb_subunit d) (dpb_secsize d) (dpb_clsmask d) (dpb_shftcnt d) (dpb_fatstrt d)
    (dpb_fats d) (dpb_dirents d) (dpb_data d) (dpb_size d) (dpb_fatsize d) (dpb_dirstrt d)
    (dpb_device d) (dpb_mdb d) (dpb_flags d) (dpb_next d) (dpb_cluster d) (dpb_xnfreeclst d) 0
    0xffff 0xffff (dpb_data d) (dpb_size d) (dpb_xfatsize d) 0 (dpb_xcluster d).

Definition total_sectors (b : bpb) : Z := if bpb_nsize b =? 0 then bpb_huge b else bpb_nsize b.

(** The part that every drive has.  Sectors of less than 32 bytes make the code
    divide by zero.
    kernel/fatfs.c:1584-1626 *)
Definition bpb_basic (b : bpb) (d : dpb) : option dpb :=
  let shftcnt := shift_loop 8 (bpb_nsector b) 0 in
  let perblock := bpb_nbyte b / DIRENT_SIZE in
  let dirstrt := u16 (bpb_nreserved b + bpb_nfat b * bpb_nfsect b) in
  if perblock =? 0 then None
  else
    let data := u16 (dirstrt + u16 (bpb_ndirent b + perblock - 1) / perblock) in
    let size := u16 (u16 (Z.shiftr (u32 (total_sectors b - data)) shftcnt) + 1) in
    Some (set_nfreeclst UNKNCLSTFREE
      (Dpb (dpb_unit d) (dpb_subunit d) (bpb_nbyte b) (u8 (bpb_nsector b - 1)) shftcnt (bpb_nreserved b)
         (bpb_nfat b) (bpb_ndirent b) data (fat_limit (bpb_nfsect b) (bpb_nbyte b) size) (bpb_nfsect b) dirstrt
         (dpb_device d) (bpb_mdesc b) 0 (dpb_next d) UNKNCLUSTER (dpb_xnfreeclst d) (dpb_xflags d)
         (dpb_xfsinfosec d) (dpb_xbackupsec d) (dpb_xdata d) (dpb_xsize d) (dpb_xfatsize d)
         (dpb_xrootclst d) (dpb_xcluster d))).

(** The fields of a volume with 32-bit entries.
    kernel/fatfs.c:1638-1648 *)
Definition bpb_fat32 (b : bpb) (d : dpb) : dpb :=
  let xdata := u32 (dpb_fatstrt d + dpb_fats d * dpb_xfatsize d) in
  Dpb (dpb_unit d) (dpb_subunit d) (dpb_secsize d) (dpb_clsmask d) (dpb_shftcnt d) (dpb_fatstrt d)
    (dpb_fats d) 0 (dpb_data d) 0 (dpb_fatsize d) 0xffff
    (dpb_device d) (dpb_mdb d) (dpb_flags d) (dpb_next d) (dpb_cluster d) (dpb_xnfreeclst d) (bpb_xflags b)
    (bpb_xfsinfosec b) (bpb_xbackupsec b) xdata
    (u32 (Z.shiftr (u32 (total_sectors b - xdata)) (dpb_shftcnt d) + 1)) (dpb_xfatsize d)
    (bpb_xrootclst b) (dpb_xcluster d).

(** kernel/fatfs.c:1629-1636 *)
Definition bpb_extended (b : bpb) (d : dpb) : dpb :=
  let d := dpb16to32
    (Dpb (dpb_unit d) (dpb_subunit d) (dpb_secsize d) (dpb_clsmask d) (dpb_shftcnt d) (dpb_fatstrt d)
       (dpb_fats d) (dpb_dirents d) (dpb_data d) (dpb_size d) (dpb_fatsize d) (dpb_dirstrt d)
       (dpb_device d) (dpb_mdb d) (dpb_flags d) (dpb_next d) (dpb_cluster d) XUNKNCLSTFREE (dpb_xflags d)
       (dpb_xfsinfosec d) (dpb_xbackupsec d) (dpb_xdata d) (dpb_xsize d)
       (if bpb_nfsect b =? 0 then bpb_xnfsect b else bpb_nfsect b) (dpb_xrootclst d) UNKNCLUSTER) in
  if ISFAT32 d then bpb_fat32 b d else d.

Definition bpb_fields (b : bpb) (extended : bool) (d : dpb) : option dpb :=
  let* d := bpb_basic b d in Some (if extended then bpb_extended b d else d).

(** ** The check of the medium *)

(** The driver gets the command, the sub-unit, the media byte and the device and
    answers with the status; the return code and the BPB are read in the request
    header.  [md_internal] tells the kernel's own DPBs. *)
Class MediaDevice (S : Type) := {
  md_execrh : Z -> Z -> Z -> Z -> S -> Z * S;
  md_error : Z -> Z -> S -> Z * S;
  md_retcode : S -> Z;
  md_bpptr : S -> bpb;
  md_internal : Z -> bool;
  md_dirty_buffers : nat -> Z -> S -> option bool;
  md_setinvld : nat -> Z -> S -> option S }.

Section check.
  Context {S : Type} `{!BlockCache S, !MediaDevice S} (cf : nat).

(** kernel/fatfs.c:1575-1652 *)
Definition bpb_to_dpb (bpbp : bpb) (dpbp : Z) (extended : bool) (s : S) : option S :=
  let* d := bpb_fields bpbp extended (bc_dpb s dpbp) in
  let s := bc_set_dpb dpbp d s in
  if extended && ISFAT32 d then read_fsinfo cf dpbp s else Some s.

(** kernel/fatfs.c:1654-1685 *)
Fixpoint rqblockio (fuel : nat) (command dpbp : Z) (s : S) : option (Z * S) :=
  match fuel with
  | O => None
  | Datatypes.S fuel' =>
      let d := bc_dpb s dpbp in
      let '(status, s) := md_execrh command (dpb_subunit d) (dpb_mdb d) (dpb_device d) s in
      if negb (Z.land status S_ERROR =? 0) || (Z.land status S_DONE =? 0) then
        (fix loop n s :=
           match n with
           | O => None
           | Datatypes.S n' =>
               let '(answer, s) := md_error (dpb_unit d) (dpb_device d) s in
               if (answer =? ABORT) || (answer =? FAIL) then Some (DE_INVLDDRV, s)
               else if answer =? RETRY then rqblockio fuel' command dpbp s
               else if answer =? CONTINUE then Some (SUCCESS, s)
               else loop n' s
           end) fuel s
      else Some (SUCCESS, s)
  end.

(** The DPB is rebuilt: the buffers of the drive are worth nothing any more.
    kernel/fatfs.c:1714-1728 *)
Definition rebuild (fuel : nat) (dpbp : Z) (s : S) : option (Z * S) :=
  let* s := md_setinvld cf (dpb_unit (bc_dpb s dpbp)) s in
  let* (ret, s) := rqblockio fuel C_BLDBPB dpbp s in
  if ret <? SUCCESS then Some (ret, s)
  else
    let bp := md_bpptr s in
    let* s := bpb_to_dpb bp dpbp ((bpb_nfsect bp =? 0) || md_internal dpbp) s in
    Some (SUCCESS, s).

(** The null pointer is 0.
    kernel/fatfs.c:1687-1730 *)
Definition media_check (fuel : nat) (dpbp : Z) (s : S) : option (Z * S) :=
  if dpbp =? 0 then Some (DE_INVLDDRV, s)
  else
    let* (ret, s) := rqblockio fuel C_MEDIACHK dpbp s in
    if ret <? SUCCESS then Some (ret, s)
    else
      let code := Z.lor (md_retcode s) (dpb_flags (bc_dpb s dpbp)) in
      if code =? M_NOT_CHANGED then Some (SUCCESS, s)
      else if code =? M_DONT_KNOW then
        let* dirty := md_dirty_buffers cf (dpb_unit (bc_dpb s dpbp)) s in
        if dirty then Some (SUCCESS, s) else rebuild fuel dpbp s
      else rebuild fuel dpbp s.

End check.

(** ** Over the block cache *)

(** A driver that also answers the two requests. *)
Class MediaDriver (D : Type) := {
  mdrv_execrh : Z -> Z -> Z -> Z -> D -> Z * D;
  mdrv_error : Z -> Z -> D -> Z * D;
  mdrv_retcode : D -> Z;
  mdrv_bpptr : D -> bpb;
  mdrv_internal : Z -> bool }.

#[export] Instance bio_media {D} `{!Device D, !MediaDriver D} : MediaDevice (bio D) := {
  md_execrh c u m h st := let '(status, d) := mdrv_execrh c u m h (dev st) in (status, set_dev d st);
  md_error u h st := let '(answer, d) := mdrv_error u h (dev st) in (answer, set_dev d st);
  md_retcode st := mdrv_retcode (dev st);
  md_bpptr st := mdrv_bpptr (dev st);
  md_internal := mdrv_internal;
  md_dirty_buffers := dirty_buffers;
  md_setinvld := setinvld }.
