(* ===== verification/MediaSpec.v ===== *)
(** * The medium of a drive: what a DPB computed from a BPB describes

    A well-formed BPB yields a DPB that satisfies what the FAT, the directories and
    the files rely on; the check of the medium mounts the volume. *)

From S2P Require Import Prelude Hdr Bytes Dpb Blockio BlockioRing BlockioSpec BlockioRange Fattab CacheSpec.
From S2P Require Import FattabSpec Fnode Cluster ClusterSpec FatdirSpec Media.

(** ** Well-formed parameter blocks *)

Definition fat_sectors (b : bpb) : Z := if bpb_nfsect b =? 0 then bpb_xnfsect b else bpb_nfsect b.

(** The first sector of the data area, and how many clusters it has. *)
Definition data_start (b : bpb) : Z :=
  bpb_nreserved b + bpb_nfat b * fat_sectors b + (if bpb_nfsect b =? 0 then 0 else (bpb_ndirent b + 15) / 16).
Definition clusters (b : bpb) : Z := (total_sectors b - data_start b) / bpb_nsector b.

(** Volumes with 12- and 16-bit entries. *)
Record bpb16_ok (b : bpb) : Prop := {
  b16_fat : 1 <= bpb_nfsect b < 65536;
  b16_root : 0 <= bpb_ndirent b <= 65520;
  b16_data : data_start b < 65536;
  b16_max : clusters b < FAT_MAGIC16 }.

Record bpb32_ok (b : bpb) : Prop := {
  b32_fat : 1 <= bpb_xnfsect b;
  b32_max : clusters b + 1 < LONG_BAD;
  b32_flags : 0 <= bpb_xflags b < 65536;
  b32_active : Z.land (bpb_xflags b) FAT_NO_MIRRORING <> 0 -> Z.land (bpb_xflags b) 0xf < bpb_nfat b;
  b32_info : bpb_xfsinfosec b = 0xffff \/ 1 <= bpb_xfsinfosec b < bpb_nreserved b }.

(** The numbers fit together, but for the length of the FAT. *)
Record bpb_shape (b : bpb) : Prop := {
  bo_sector : bpb_nbyte b = 512;
  bo_cluster : exists k, 0 <= k <= 7 /\ bpb_nsector b = 2 ^ k;
  bo_reserved : 1 <= bpb_nreserved b < 65536;
  bo_fats : 1 <= bpb_nfat b < 256;
  bo_total : total_sectors b < 4294967296;
  bo_data : data_start b + bpb_nsector b <= total_sectors b;
  bo_width : if bpb_nfsect b =? 0 then bpb32_ok b else bpb16_ok b }.

(** The FAT of 32-bit entries has one for each cluster; a FAT of a medium that has too many
    clusters for 12 bits has more than 12-bit entries could use.  The code checks neither. *)
Definition fat_room (b : bpb) : Prop :=
  if bpb_nfsect b =? 0 then 4 * (clusters b + 2) <= 512 * bpb_xnfsect b
  else FAT_MAGIC <= clusters b -> FAT_MAGIC < bpb_nfsect b * 256.

#[export] Instance fat_room_dec b : Decision (fat_room b).
Proof. unfold fat_room. destruct (bpb_nfsect b =? 0); apply _. Defined.

Record bpb_ok (b : bpb) : Prop := {
  bo_shape :> bpb_shape b;
  bo_room : fat_room b }.

(** ** The number of clusters *)

Lemma shift_loop_pow k : 0 <= k <= 7 -> shift_loop 8 (2 ^ k) 0 = k.
Proof.
  intros Hk. apply Z.eqb_eq, (forall_range (fun k => shift_loop 8 (2 ^ k) 0 =? k) 0 8); [by vm_compute|lia].
Qed.

(** The highest cluster of a volume with [size] when the FAT has [n] sectors: all
    its entries are in the FAT. *)
Lemma fat_limit_spec n size : 1 <= n < 65536 -> 2 <= size <= FAT_MAGIC16 -> (FAT_MAGIC < size -> FAT_MAGIC < n * 256) ->
  let m := fat_limit n 512 size in
  2 <= m <= size /\ (m <= FAT_MAGIC <-> size <= FAT_MAGIC) /\
  (if m <=? FAT_MAGIC then m * 3 / 2 else m * 2) + 1 < n * 512.
Proof.
  unfold FAT_MAGIC, FAT_MAGIC16, fat_limit. intros Hn Hs Hw. change (512 / 2) with 256. rewrite u32_id by lia.
  unfold FAT_MAGIC. cbv zeta.
  assert (forall x, 0 <= x < 65536 -> u16 x = x) as U by apply u16_id.
  destruct (Z.leb_spec 0x10000 (n * 256)); [destruct (Z.leb_spec size 4085); Z.div_mod_to_equations; lia|].
  destruct (Z.ltb_spec 4085 size).
  - rewrite (proj2 (Z.leb_gt _ _)) by lia. destruct (Z.leb_spec (n * 256) size).
    + rewrite U by lia. rewrite (proj2 (Z.leb_gt _ _)) by lia. lia.
    + rewrite (proj2 (Z.leb_gt size _)) by lia. lia.
  - destruct (Z.leb_spec 0x4000 (n * 256)).
    + rewrite (proj2 (Z.leb_le size _)) by lia. Z.div_mod_to_equations; lia.
    + destruct (Z.leb_spec (n * 256 * 4 / 3) size).
      * rewrite U by (Z.div_mod_to_equations; lia). rewrite (proj2 (Z.leb_le _ _)) by lia. Z.div_mod_to_equations; lia.
      * rewrite (proj2 (Z.leb_le size _)) by lia. Z.div_mod_to_equations; lia.
Qed.

Definition top_cluster (b : bpb) : Z :=
  if bpb_nfsect b =? 0 then clusters b + 1 else fat_limit (bpb_nfsect b) 512 (clusters b + 1).

(** ** The DPB field by field *)

Record dpb_of (b : bpb) (d d' : dpb) : Prop := {
  do_unit : dpb_unit d' = dpb_unit d /\ dpb_subunit d' = dpb_subunit d /\ dpb_device d' = dpb_device d;
  do_secsize : dpb_secsize d' = 512;
  do_mask : dpb_clsmask d' = bpb_nsector b - 1;
  do_shift : 2 ^ dpb_shftcnt d' = bpb_nsector b /\ 0 <= dpb_shftcnt d' <= 7;
  do_fats : dpb_fatstrt d' = bpb_nreserved b /\ dpb_fats d' = bpb_nfat b;
  do_fatsize : dpb_fatsize d' = bpb_nfsect b /\ dpb_xfatsize d' = fat_sectors b;
  do_root : dpb_dirents d' = (if bpb_nfsect b =? 0 then 0 else bpb_ndirent b) /\
    (bpb_nfsect b <> 0 -> dpb_dirstrt d' = bpb_nreserved b + bpb_nfat b * bpb_nfsect b);
  do_data : (if bpb_nfsect b =? 0 then dpb_xdata d' else dpb_data d') = data_start b;
  do_size : dpb_size d' = if bpb_nfsect b =? 0 then 0 else top_cluster b;
  do_max : max_cluster d' = top_cluster b;
  do_x : if bpb_nfsect b =? 0 then dpb_xflags d' = bpb_xflags b /\ dpb_xfsinfosec d' = bpb_xfsinfosec b
         else dpb_xflags d' = 0 /\ dpb_xfsinfosec d' = 0xffff;
  do_free : dpb_cluster d' = UNKNCLUSTER /\ dpb_xcluster d' = UNKNCLUSTER /\ dpb_xnfreeclst d' = XUNKNCLSTFREE;
  do_flags : dpb_flags d' = 0 }.

Lemma bpb_facts b : bpb_shape b -> 1 <= clusters b /\ clusters b * bpb_nsector b <= total_sectors b - data_start b /\
  1 <= fat_sectors b /\ bpb_nreserved b + bpb_nfat b * fat_sectors b <= data_start b /\ 0 < bpb_nsector b <= 128.
Proof.
  intros [H1 (k & Hk & H2) H3 H4 H5 H6 H7].
  assert (0 < bpb_nsector b <= 128) as Hs.
  { rewrite H2. split; [apply Z.pow_pos_nonneg; lia|]. change 128 with (2 ^ 7). apply Z.pow_le_mono_r; lia. }
  unfold clusters. assert (1 <= fat_sectors b) by (unfold fat_sectors; destruct (bpb_nfsect b =? 0); destruct H7; lia).
  split; [apply Z.div_le_lower_bound; lia|]. split; [pose proof (Z.mul_div_le (total_sectors b - data_start b) (bpb_nsector b)); lia|].
  split; [done|]. split; [|done]. unfold data_start. destruct (bpb_nfsect b =? 0) eqn:E; [lia|].
  assert (0 <= (bpb_ndirent b + 15) / 16) by (destruct H7; apply Z.div_pos; lia). lia.
Qed.

(** The common part, where the cluster count of a FAT32 volume is cut to a word. *)
Record basic_of (b : bpb) (d d' : dpb) : Prop := {
  ba_unit : dpb_unit d' = dpb_unit d /\ dpb_subunit d' = dpb_subunit d /\ dpb_device d' = dpb_device d;
  ba_secsize : dpb_secsize d' = 512;
  ba_mask : dpb_clsmask d' = bpb_nsector b - 1;
  ba_shift : 2 ^ dpb_shftcnt d' = bpb_nsector b /\ 0 <= dpb_shftcnt d' <= 7;
  ba_fats : dpb_fatstrt d' = bpb_nreserved b /\ dpb_fats d' = bpb_nfat b;
  ba_fatsize : dpb_fatsize d' = bpb_nfsect b;
  ba_root : dpb_dirents d' = bpb_ndirent b;
  ba_16 : bpb_nfsect b <> 0 -> dpb_dirstrt d' = bpb_nreserved b + bpb_nfat b * bpb_nfsect b /\
    dpb_data d' = data_start b /\ dpb_size d' = top_cluster b;
  ba_free : dpb_cluster d' = UNKNCLUSTER;
  ba_flags : dpb_flags d' = 0 }.

Lemma bpb_basic_spec b d : bpb_shape b -> exists d', bpb_basic b d = Some d' /\ basic_of b d d'.
Proof.
  intros Hb. pose proof (bpb_facts b Hb) as (Hc1 & Hc2 & Hf & Hd & Hs). destruct Hb as [H1 (k & Hk & H2) H3 H4 H5 H6 H7].
  unfold bpb_basic. rewrite H1. change (512 / DIRENT_SIZE) with 16. change (16 =? 0) with false. cbv iota.
  rewrite H2, shift_loop_pow, <- H2 by done. eexists. split; [reflexivity|]. unfold set_nfreeclst, set_xnfreeclst.
  split; cbn -[Z.pow Z.mul Z.add Z.sub fat_limit Z.div]; try done.
  { rewrite u8_id by lia. done. }
  intros E. rewrite (proj2 (Z.eqb_neq _ _) E) in H7. destruct H7 as [A1 A2 A3 A4].
  assert (data_start b = bpb_nreserved b + bpb_nfat b * bpb_nfsect b + (bpb_ndirent b + 15) / 16) as Ed.
  { unfold data_start, fat_sectors. by rewrite (proj2 (Z.eqb_neq _ _) E). }
  assert (0 <= (bpb_ndirent b + 15) / 16) by (apply Z.div_pos; lia).
  assert (0 <= bpb_nfat b * bpb_nfsect b) by (apply Z.mul_nonneg_nonneg; lia).
  rewrite (u16_id (bpb_nreserved b + _)) by lia.
  replace (bpb_ndirent b + 16 - 1) with (bpb_ndirent b + 15) by lia. rewrite (u16_id (bpb_ndirent b + 15)) by lia.
  rewrite <- Ed. rewrite (u16_id (data_start b)), (u32_id (total_sectors b - _)) by lia.
  rewrite Z.shiftr_div_pow2, <- H2 by lia. fold (clusters b). unfold FAT_MAGIC16 in A4.
  rewrite (u16_id (clusters b)), (u16_id (clusters b + 1)) by lia.
  unfold top_cluster. by rewrite (proj2 (Z.eqb_neq _ _) E).
Qed.

Lemma bpb_fields_spec b d : bpb_shape b -> exists d', bpb_fields b true d = Some d' /\ dpb_of b d d'.
Proof.
  intros Hb. pose proof (bpb_facts b Hb) as (Hc1 & Hc2 & Hf & Hd & Hs).
  destruct (bpb_basic_spec b d Hb) as (d1 & E1 & [B1 B2 B3 B4 [B5 B5'] B6 B7 B8 B9 B10]).
  destruct Hb as [H1 _ H3 H4 H5 H6 H7].
  unfold bpb_fields. rewrite E1. eexists. split; [reflexivity|]. clear E1.
  unfold bpb_extended, ISFAT32. cbn [dpb_fatsize dpb16to32]. rewrite B6.
  destruct (Z.eqb_spec (bpb_nfsect b) 0) as [E|E].
  - destruct H7 as [A1 A2 A3 A4 A5].
    assert (data_start b = bpb_nreserved b + bpb_nfat b * bpb_xnfsect b) as Ed.
    { unfold data_start, fat_sectors. rewrite E. cbn [Z.eqb]. lia. }
    assert (u32 (dpb_fatstrt d1 + dpb_fats d1 * bpb_xnfsect b) = data_start b) as Ex by (rewrite B5, B5', <- Ed; apply u32_id; lia).
    assert (u32 (Z.shiftr (u32 (total_sectors b - data_start b)) (dpb_shftcnt d1) + 1) = clusters b + 1) as Em.
    { rewrite (u32_id (_ - _)), Z.shiftr_div_pow2 by lia. destruct B4 as [-> _]. fold (clusters b).
      unfold LONG_BAD in A2. by rewrite u32_id by lia. }
    split; unfold bpb_fat32, max_cluster, ISFAT32, top_cluster, fat_sectors; cbn [dpb16to32 dpb_unit dpb_subunit dpb_device
      dpb_secsize dpb_clsmask dpb_shftcnt dpb_fatstrt dpb_fats dpb_fatsize dpb_xfatsize dpb_dirents dpb_dirstrt dpb_xdata
      dpb_size dpb_xsize dpb_xflags dpb_xfsinfosec dpb_cluster dpb_xcluster dpb_xnfreeclst dpb_flags];
      rewrite ?B6, ?E; cbn [Z.eqb]; try done. by rewrite Ex, Em.
  - destruct (B8 E) as (C1 & C2 & C3). pose proof (proj2 (Z.eqb_neq _ _) E) as E'.
    split; unfold max_cluster, ISFAT32, fat_sectors; cbn [dpb16to32 dpb_unit dpb_subunit dpb_device
      dpb_secsize dpb_clsmask dpb_shftcnt dpb_fatstrt dpb_fats dpb_fatsize dpb_xfatsize dpb_dirents dpb_dirstrt dpb_data
      dpb_size dpb_xsize dpb_xflags dpb_xfsinfosec dpb_cluster dpb_xcluster dpb_xnfreeclst dpb_flags];
      rewrite ?B6, ?E'; try done.
Qed.

(** ** The volume a DPB describes *)

(** The blocks of the medium but the copies of the FAT nobody reads. *)
Definition volume_block (b : bpb) (d : dpb) (n : Z) : Prop :=
  0 <= n < total_sectors b /\
  (n < dpb_fatstrt d \/ fat_start d <= n < fat_start d + fat_sectors b \/
   dpb_fatstrt d + dpb_fats d * fat_sectors b <= n).

Lemma copy_blk_sum blkno off i : 0 <= blkno -> 0 <= off -> blkno + Z.of_nat i * off < 4294967296 ->
  copy_blk blkno off i = blkno + Z.of_nat i * off.
Proof.
  intros Hb Ho. induction i as [|i IH]; intros Hi; [cbn; lia|]. unfold copy_blk in *. cbn [Nat.iter nat_rect].
  assert (0 <= Z.of_nat i * off) by (apply Z.mul_nonneg_nonneg; lia). unfold Nat.iter in IH. rewrite IH by lia.
  rewrite u32_id by lia. lia.
Qed.

Section volume.
  Context (b : bpb) (d d' : dpb) (primary : Z -> Z -> Prop).
  Context (Hb : bpb_ok b) (Hd : dpb_of b d d') (Hp : forall n, primary (dpb_unit d') n <-> volume_block b d' n).

Lemma is32 : ISFAT32 d' = (bpb_nfsect b =? 0).
Proof. unfold ISFAT32. by destruct (do_fatsize _ _ _ Hd) as [-> _]. Qed.

Lemma top_range : 2 <= top_cluster b <= clusters b + 1 /\ top_cluster b < LONG_BAD /\
  (bpb_nfsect b <> 0 -> top_cluster b <= FAT_MAGIC16 /\
    (if top_cluster b <=? FAT_MAGIC then top_cluster b * 3 / 2 else top_cluster b * 2) + 1 < bpb_nfsect b * 512).
Proof.
  destruct (bpb_facts b Hb) as (Hc1 & _). pose proof (bo_width _ Hb) as Hw. pose proof (bo_room _ Hb) as Hroom.
  unfold top_cluster, fat_room in *. destruct (Z.eqb_spec (bpb_nfsect b) 0) as [E|E].
  - destruct Hw. split; [lia|]. split; [lia|]. done.
  - destruct Hw as [A1 A2 A3 A4].
    destruct (fat_limit_spec (bpb_nfsect b) (clusters b + 1)) as (L1 & _ & L2); [lia|lia|intros; apply Hroom; lia|].
    split; [done|]. unfold FAT_MAGIC16, LONG_BAD in *. split; [lia|]. intros _. split; [lia|done].
Qed.

Lemma is12 : ISFAT12 d' = negb (bpb_nfsect b =? 0) && (top_cluster b <=? FAT_MAGIC).
Proof.
  unfold ISFAT12. rewrite (do_size _ _ _ Hd). destruct top_range as ([H1 _] & _ & H2).
  destruct (Z.eqb_spec (bpb_nfsect b) 0) as [E|E]; [by vm_compute|]. destruct (H2 E) as [H3 _].
  unfold FAT_MAGIC, FAT_MAGIC16 in *. rewrite u16_id by lia. cbn [negb andb].
  apply eq_true_iff_eq. rewrite Z.ltb_lt, Z.leb_le. lia.
Qed.

(** The FAT of the volume holds every entry. *)
Lemma last_sector_fits : last_sector d' < fat_sectors b.
Proof.
  unfold last_sector, fat_pos. rewrite is12, is32, (do_max _ _ _ Hd). destruct top_range as (H1 & _ & H2).
  unfold fat_sectors. pose proof (bo_room _ Hb) as Hroom. unfold fat_room in Hroom.
  destruct (Z.eqb_spec (bpb_nfsect b) 0) as [E|E]; cbn [negb andb].
  - apply Z.div_lt_upper_bound; lia.
  - destruct (H2 E) as [_ H3]. apply Z.div_lt_upper_bound; [lia|]. destruct (top_cluster b <=? FAT_MAGIC); lia.
Qed.

Lemma start_range : dpb_fatstrt d' <= fat_start d' /\
  fat_start d' + fat_sectors b <= dpb_fatstrt d' + dpb_fats d' * fat_sectors b /\ (fat_copies d' <> 1 -> fat_start d' = dpb_fatstrt d').
Proof.
  destruct (bpb_facts b Hb) as (_ & _ & Hf & _). destruct (do_fats _ _ _ Hd) as [E1 E2]. pose proof (bo_fats _ Hb).
  unfold fat_start, fat_copies. rewrite is32. pose proof (bo_width _ Hb) as Hw. pose proof (do_x _ _ _ Hd) as Hx.
  destruct (Z.eqb_spec (bpb_nfsect b) 0) as [E|E]; cbn [andb]; [|rewrite E2; split; [lia|]; split; [nia|lia]].
  destruct Hx as [-> _], Hw as [A1 A2 A4 A5 A6]. destruct (Z.eqb_spec (Z.land (bpb_xflags b) FAT_NO_MIRRORING) 0) as [Ez|Ez]; cbn [negb].
  { rewrite E2. split; [lia|]. split; [nia|lia]. }
  specialize (A5 Ez). destruct (do_fatsize _ _ _ Hd) as [_ ->]. rewrite E1, E2.
  assert (0 <= Z.land (bpb_xflags b) 15) by (apply Z.land_nonneg; lia). split; [nia|]. split; [nia|done].
Qed.

Lemma volume_of_bpb : volume_ok primary d'.
Proof.
  destruct (bpb_facts b Hb) as (Hc1 & Hc2 & Hf & Hds & Hs). destruct (do_fats _ _ _ Hd) as [E1 E2].
  pose proof (bo_reserved _ Hb) as Hres. pose proof (bo_fats _ Hb) as Hfats. pose proof (bo_total _ Hb) as Htot.
  pose proof (bo_data _ Hb) as Hdata. destruct top_range as (T1 & T2 & T3). destruct start_range as (S1 & S2 & S3).
  pose proof (bo_width _ Hb) as Hw. pose proof (do_x _ _ _ Hd) as Hx. pose proof last_sector_fits as Hlast.
  split.
  - rewrite is32, (do_size _ _ _ Hd). destruct (Z.eqb_spec (bpb_nfsect b) 0) as [E|E]; [done|]. destruct (T3 E). lia.
  - rewrite (do_max _ _ _ Hd). lia.
  - apply (do_secsize _ _ _ Hd).
  - destruct (do_fatsize _ _ _ Hd) as [_ ->]. rewrite E1. split_and!; [lia|lia|].
    destruct (bpb_nfsect b =? 0); destruct Hx as [-> _]; [destruct Hw; lia|done].
  - intros sec Hsec.
    assert (Hn : 0 <= fat_start d' + sec < total_sectors b) by lia. split; [|split].
    + rewrite is12. destruct (Z.eqb_spec (bpb_nfsect b) 0) as [E|E]; cbn [negb andb]; [lia|]. destruct Hw as [A1 A2 A3 A4].
      destruct (_ <=? _); lia.
    + apply Hp. split; [done|]. right. left. lia.
    + intros i Hi. rewrite Hp. intros [[_ Hlt] Hcase]. unfold fat_copies in *.
      assert (fat_offset d' = fat_sectors b) as Eo.
      { unfold fat_offset, fat_sectors. destruct (do_fatsize _ _ _ Hd) as [-> ->]. unfold fat_sectors. by destruct (bpb_nfsect b =? 0). }
      rewrite Eo in *. destruct (_ && _); [lia|]. rewrite E2 in *. specialize (S3 ltac:(lia)).
      assert (Z.of_nat i * fat_sectors b <= (bpb_nfat b - 1) * fat_sectors b) by (apply Z.mul_le_mono_nonneg_r; lia).
      assert (1 * fat_sectors b <= Z.of_nat i * fat_sectors b) by (apply Z.mul_le_mono_nonneg_r; lia).
      rewrite copy_blk_sum in * by lia. lia.
  - unfold fat_copies. rewrite E2. destruct (_ && _); lia.
Qed.

(** Every cluster, and the fixed root directory, is on the medium and apart from
    the FAT. *)
Lemma cluster_on_medium c j : 2 <= c <= max_cluster d' -> 0 <= j <= dpb_clsmask d' ->
  clus2phys c d' = data_start b + (c - 2) * bpb_nsector b /\ clus2phys c d' + j < total_sectors b.
Proof.
  intros Hc Hj. destruct (bpb_facts b Hb) as (Hc1 & Hc2 & Hf & Hds & Hs). rewrite (do_max _ _ _ Hd) in Hc.
  rewrite (do_mask _ _ _ Hd) in Hj. destruct top_range as (T1 & T2 & _). destruct (do_shift _ _ _ Hd) as [E1 E2].
  pose proof (bo_total _ Hb). pose proof (bo_reserved _ Hb). pose proof (bo_fats _ Hb).
  assert (0 <= data_start b) by (assert (0 <= bpb_nfat b * fat_sectors b) by (apply Z.mul_nonneg_nonneg; lia); lia).
  assert ((c - 2) * bpb_nsector b <= (clusters b - 1) * bpb_nsector b) by (apply Z.mul_le_mono_nonneg_r; lia).
  assert (0 <= (c - 2) * bpb_nsector b) by (apply Z.mul_nonneg_nonneg; lia).
  unfold clus2phys. rewrite is32, (do_data _ _ _ Hd), (u32_id (c - 2)) by (unfold LONG_BAD in *; lia).
  rewrite Z.shiftl_mul_pow2, E1 by lia. rewrite (u32_id (_ * _)), u32_id by lia. split; lia.
Qed.

Lemma layout_of_bpb v : (forall n, volume_block b d' n -> length (v (dpb_unit d') n) = 512%nat /\ bytes (v (dpb_unit d') n)) ->
  layout_ok (primary := primary) d' v.
Proof.
  intros Hv. destruct (bpb_facts b Hb) as (Hc1 & Hc2 & Hf & Hds & Hs). destruct (do_fats _ _ _ Hd) as [E1 E2].
  pose proof (bo_reserved _ Hb) as Hres. pose proof (bo_fats _ Hb) as Hfats. pose proof (bo_total _ Hb) as Htot.
  pose proof (bo_data _ Hb) as Hdata. destruct start_range as (S1 & S2 & S3). pose proof last_sector_fits as Hlast.
  pose proof (bo_width _ Hb) as Hw. pose proof (do_x _ _ _ Hd) as Hx. destruct (do_root _ _ _ Hd) as [R1 R2].
  assert (Hblk : forall n, bpb_nreserved b + bpb_nfat b * fat_sectors b <= n < total_sectors b -> data_block (primary := primary) d' n).
  { intros n Hn. assert (0 <= bpb_nfat b * fat_sectors b) by (apply Z.mul_nonneg_nonneg; lia).
    split; [lia|]. split; [apply Hp; split; [lia|]; right; right; rewrite E1, E2; lia|].
    split; [rewrite E1, E2 in *; lia|]. intros [En Hne]. subst n.
    destruct (bpb_nfsect b =? 0); destruct Hx as [_ Ex]; rewrite Ex in *; [destruct Hw as [_ _ _ _ [?|?]]; lia|done]. }
  split.
  - by destruct (do_shift _ _ _ Hd).
  - rewrite (do_mask _ _ _ Hd). by destruct (do_shift _ _ _ Hd) as [-> _].
  - rewrite R1. destruct (bpb_nfsect b =? 0); [lia|]. destruct Hw. lia.
  - intros k Hk. rewrite R1 in Hk. unfold data_start, fat_sectors in *. destruct (Z.eqb_spec (bpb_nfsect b) 0) as [E|E]; [lia|]. rewrite (R2 E).
    destruct Hw as [A1 A2 A3 A4]. unfold data_start, fat_sectors in A3. rewrite (proj2 (Z.eqb_neq _ _) E) in A3.
    assert (k / 16 + 1 <= (bpb_ndirent b + 15) / 16) by (rewrite <- (Z.div_add k 1 16) by lia; apply Z.div_le_mono; lia).
    assert (0 <= k / 16) by (apply Z.div_pos; lia). assert (0 <= bpb_nfat b * bpb_nfsect b) by (apply Z.mul_nonneg_nonneg; lia).
    split; [lia|]. apply Hblk. lia.
  - intros c j Hc Hj. destruct (cluster_on_medium c j Hc Hj) as [Ec Hlt]. split; [lia|]. apply Hblk. rewrite Ec in *.
    assert (0 <= (c - 2) * bpb_nsector b) by (apply Z.mul_nonneg_nonneg; lia). lia.
  - intros n (_ & Hn & _). apply Hv. by apply Hp.
Qed.

End volume.
