(* ===== verification/MediaThms.v ===== *)
(** * The check of the medium: the properties, and a disk that is changed *)

From S2P Require Import Prelude Hdr Bytes Dpb Blockio BlockioRing BlockioSpec BlockioRange Fattab CacheSpec.
From S2P Require Import FattabSpec Fnode Cluster ClusterSpec FatdirSpec Media MediaSpec.

Lemma some_eq {A} (x y : A) : Some x = Some y -> x = y.
Proof. by intros [= ->]. Qed.

Section forget.
  Context {D : Type} `{DeviceLaws D} (primary : Z -> Z -> Prop).

(** ** Buffers of the drive are dropped *)

Lemma forget_any (st : bio D) l v x : repr primary st l v -> x ∈ l ->
  exists v', repr primary (on_buf x (with_flag 0) st) l v' /\
    forall u n, u <> b_unit (buf st x) -> v' u n = v u n.
Proof.
  intros Hr Hx. destruct (decide (has BFR_VALID (b_flag (buf st x)) = true)) as [Hv|Hv].
  - destruct (forget_repr primary st l v x Hr Hx Hv) as (v' & Hr' & Hv'). exists v'. split; [done|].
    intros u n Hne. apply Hv'. by intros [<- _].
  - exists v. split; [|done]. set (st' := on_buf _ _ _).
    assert (Hb : forall y, buf st' y = if decide (y = x) then with_flag 0 (buf st x) else buf st y) by (intros; apply buf_on_buf).
    eapply repr_step; [exact Hr| |done|done|done| |].
    + cbn. apply ring_upd; [done|apply Hr].
    + intros y Hy. rewrite Hb. case_decide as E; [by intros ?|]. intros Hvy. split_and!; [done|done|].
      by apply (r_cached _ _ _ _ Hr).
    + intros u n Hp Hn. change (sector st' u n) with (sector st u n). apply (r_disk _ _ _ _ Hr); [done|].
      intros y Hy Hvy Hdy Hid. destruct (decide (y = x)) as [->|Hne]; [done|].
      apply (Hn y Hy); rewrite Hb, decide_False by done; done.
Qed.

(** The loop does not look at the device. *)
Lemma ring_set_dev fuel (body : Z -> bio D -> option (bio D)) d :
  (forall x st, body x (set_dev d st) = set_dev d <$> body x st) ->
  forall x st, for_ring fuel body x (set_dev d st) = set_dev d <$> for_ring fuel body x st.
Proof.
  intros Hb. induction fuel as [|fuel IH]; intros x st; [done|]. cbn [for_ring]. rewrite Hb.
  destruct (body x st) as [s|]; [|done]. cbn [fmap option_fmap option_map].
  change (firstbuf (set_dev d s)) with (firstbuf s). change (buf (set_dev d s) x) with (buf s x).
  destruct (_ =? _); [done|]. apply IH.
Qed.

Lemma setinvld_spec fuel (st : bio D) l v u :
  repr primary st l v -> (length l <= fuel)%nat ->
  exists st' v', setinvld fuel u st = Some st' /\ repr primary st' l v' /\
    (forall n w, w <> u -> v' w n = v w n) /\ dpbs st' = dpbs st /\ drives st' = drives st /\ dev st' = dev st /\
    (forall x, x ∈ l -> b_unit (buf st' x) = u -> ~ valid (buf st' x)) /\
    (forall x, b_unit (buf st' x) = b_unit (buf st x)) /\
    (forall x, b_unit (buf st x) <> u -> buf st' x = buf st x).
Proof.
  intros Hr Hl. unfold setinvld.
  set (I := fun (seen : list Z) (s : bio D) => exists v', repr primary s l v' /\
    (forall n w, w <> u -> v' w n = v w n) /\ (dpbs s = dpbs st /\ drives s = drives st /\ dev s = dev st) /\
    (forall x, x ∈ seen -> b_unit (buf s x) = u -> ~ valid (buf s x)) /\
    (forall x, b_unit (buf s x) = b_unit (buf st x)) /\
    (forall x, b_unit (buf st x) <> u -> buf s x = buf st x)).
  eapply (for_ring_spec primary fuel I) in Hr as Hloop; [destruct Hloop as (st' & -> & v' & Hr' & Hv & (H1 & H2 & H3) & Hno & Hu & Hk)|lia| |].
  - by exists st', v'.
  - exists v. split_and!; try done. by intros y ?%elem_of_nil.
  - intros seen y s (v1 & Hr1 & Hv1 & Hsame & Hno & Hu & Hk) Hy. destruct (Z.eqb_spec (b_unit (buf s y)) u) as [E|E].
    + destruct (forget_any s l v1 y Hr1 Hy) as (v2 & Hr2 & Hv2). exists (on_buf y (with_flag 0) s). split; [done|]. split.
      * exists v2. split_and!; try done; try apply Hsame.
        { intros n w Hne. rewrite Hv2 by congruence. by apply Hv1. }
        { intros x Hx. rewrite buf_on_buf. case_decide; [by intros _ ?|].
          apply elem_of_app in Hx as [Hx|Hx%list_elem_of_singleton]; [by apply Hno|done]. }
        { intros x. rewrite buf_on_buf. case_decide; [subst x; apply Hu|apply Hu]. }
        { intros x Hx. rewrite buf_on_buf, decide_False; [by apply Hk|]. intros ->. by rewrite Hu in E. }
      * eapply (same_ring_upd _ y); [|reflexivity|done]. done.
    + exists s. split; [done|]. split; [|done]. exists v1. split_and!; try done; try apply Hsame.
      intros x [Hx|Hx%list_elem_of_singleton]%elem_of_app; [by apply Hno|]. by subst x.
Qed.

(** Another medium in a drive of which nothing is cached. *)
Lemma swap_repr (primary' : Z -> Z -> Prop) (st : bio D) l v u d :
  repr primary st l v -> (forall x, x ∈ l -> b_unit (buf st x) = u -> ~ valid (buf st x)) ->
  (forall w n, w <> u -> sector (set_dev d st) w n = sector st w n) -> (forall w n, w <> u -> primary' w n <-> primary w n) ->
  repr primary' (set_dev d st) l (fun w n => if decide (w = u) then sector (set_dev d st) u n else v w n).
Proof.
  intros Hr Hno Hs Hp. pose proof Hr as [R1 R2 R3 R4 R5 R6 R7 R8].
  assert (Hu : forall x, x ∈ l -> valid (buf st x) -> b_unit (buf st x) <> u) by (intros x Hx Hv E; by apply (Hno x)).
  split; try done.
  - intros x Hx Hv. destruct (R5 x Hx Hv) as (A & B & C). split; [done|]. split; [done|]. apply Hp; [by apply Hu|done].
  - intros x Hx Hv. pose proof (R6 x Hx Hv) as Hc. unfold copies_ok in *. change (buf (set_dev d st) x) with (buf st x).
    change (copies_of (set_dev d st) (buf st x)) with (copies_of st (buf st x)). destruct (copies_of _ _) as [c o].
    destruct Hc as [C1 C2]. split; [done|]. intros i Hi. rewrite Hp by (by apply Hu). by apply C2.
  - intros x Hx Hv. change (buf (set_dev d st) x) with (buf st x). rewrite decide_False by (by apply Hu). by apply R7.
  - intros w n Hpr Hn. case_decide as E; [by subst w|]. rewrite Hs by done. apply R8; [by apply Hp|done].
Qed.

(** A DPB no cached FAT sector belongs to. *)
Lemma rebuilt_repr (st : bio D) l v p d :
  repr primary st l v -> dpb_device d = dpb_device (dpbs st !!! p) -> dpb_subunit d = dpb_subunit (dpbs st !!! p) ->
  (forall x, x ∈ l -> valid (buf st x) -> is_fat (buf st x) -> b_dpbp (buf st x) <> p) ->
  repr primary (set_dpbs (<[p := d]> (dpbs st)) st) l v /\
  forall u n, sector (set_dpbs (<[p := d]> (dpbs st)) st) u n = sector st u n.
Proof.
  intros Hr H1 H2 H3. set (st' := set_dpbs _ _).
  assert (Hd : forall q, dpb_device (dpbs st' !!! q) = dpb_device (dpbs st !!! q) /\
    dpb_subunit (dpbs st' !!! q) = dpb_subunit (dpbs st !!! q)).
  { intros q. cbn. destruct (decide (q = p)) as [->|]; [by rewrite lookup_total_insert_eq|]. by rewrite lookup_total_insert_ne. }
  assert (Hs : forall u n, sector st' u n = sector st u n).
  { intros u n. unfold sector. cbn [drives st' set_dpbs]. destruct (drives st !! u) as [q|]; [|done].
    destruct (Hd q) as [-> ->]. done. }
  split; [|done]. split; try apply Hr.
  - unfold drives_ok. intros d1 d2 p1 p2 Hp1 Hp2. destruct (Hd p1) as [-> ->], (Hd p2) as [-> ->]. by apply (r_drives _ _ _ _ Hr).
  - intros x Hx Hv. pose proof (r_copies _ _ _ _ Hr x Hx Hv) as Hc. revert Hc. specialize (H3 x Hx Hv).
    unfold copies_ok, copies_of, is_fat in *. change (buf st' x) with (buf st x).
    destruct (has BFR_FAT (b_flag (buf st x))); [|done]. cbn [dpbs st' set_dpbs].
    by rewrite lookup_total_insert_ne by (intros E; symmetry in E; revert E; by apply H3).
  - intros u n Hp Hno. rewrite Hs. by apply (r_disk _ _ _ _ Hr).
Qed.

End forget.

(** ** The check *)

(** The blocks clients read after the medium was changed. *)
Definition after_change (primary : Z -> Z -> Prop) (b : bpb) (d : dpb) (u n : Z) : Prop :=
  if decide (u = dpb_unit d) then volume_block b d n else primary u n.

Section check.
  Context {D : Type} `{DeviceLaws D, !MediaDriver D} (primary : Z -> Z -> Prop) (cf : nat).

Lemma rqblockio_done fuel c p (s : bio D) st d :
  mdrv_execrh c (dpb_subunit (dpbs s !!! p)) (dpb_mdb (dpbs s !!! p)) (dpb_device (dpbs s !!! p)) (dev s) = (st, d) ->
  done st = true -> rqblockio (Datatypes.S fuel) c p s = Some (SUCCESS, set_dev d s).
Proof.
  intros E Hd. cbn [rqblockio md_execrh bio_media bc_dpb bio_cache]. rewrite E. cbv iota beta.
  assert (negb (Z.land st S_ERROR =? 0) || (Z.land st S_DONE =? 0) = false) as ->; [|done].
  unfold done in Hd. apply Z.eqb_eq in Hd. assert (forall k, Z.testbit (Z.land st (Z.lor S_ERROR S_DONE)) k = Z.testbit S_DONE k) as Hk
    by (intros; by rewrite Hd).
  apply orb_false_iff. split.
  - apply negb_false_iff, Z.eqb_eq, Z.bits_inj'. intros k _. rewrite Z.land_spec, Z.bits_0.
    destruct (Z.eq_dec k 15) as [->|Hne].
    + specialize (Hk 15). rewrite Z.land_spec in Hk. change (Z.testbit (Z.lor S_ERROR S_DONE) 15) with true in Hk.
      rewrite andb_true_r in Hk. by rewrite Hk.
    + change S_ERROR with (2 ^ 15). rewrite Z.pow2_bits_false by lia. by rewrite andb_false_r.
  - apply Z.eqb_neq. intros E0. assert (Z.testbit (Z.land st S_DONE) 8 = false) as E8 by (by rewrite E0).
    specialize (Hk 8). rewrite Z.land_spec in Hk, E8. change (Z.testbit (Z.lor S_ERROR S_DONE) 8) with true in Hk.
    change (Z.testbit S_DONE 8) with true in *. rewrite andb_true_r in Hk, E8. congruence.
Qed.

(** The driver says that the medium was changed, or that it does not know while
    nothing waits to be written. *)
Definition medium_changed (s : bio D) (p : Z) (d : D) : Prop :=
  let code := Z.lor (mdrv_retcode d) (dpb_flags (dpbs s !!! p)) in
  code <> M_NOT_CHANGED /\
  (code = M_DONT_KNOW -> dirty_buffers cf (dpb_unit (dpbs s !!! p)) (set_dev d s) = Some false).

(** The cache before the medium was taken out: [d0] is the device with the old
    medium; the other drives' media stay. *)
Record was_mounted (s : bio D) (p : Z) (d0 : D) (l : list Z) (v : Z -> Z -> list Z) : Prop := {
  wm_repr : repr primary (set_dev d0 s) l v;
  wm_fuel : (2 <= length l <= cf)%nat;
  wm_others w n : w <> dpb_unit (dpbs s !!! p) -> sector s w n = sector (set_dev d0 s) w n;
  wm_owner x : x ∈ l -> valid (buf s x) -> is_fat (buf s x) -> b_dpbp (buf s x) = p -> b_unit (buf s x) = dpb_unit (dpbs s !!! p);
  wm_drive : drives s !! dpb_unit (dpbs s !!! p) = Some p }.

(** The answers to the two requests, which leave the media alone. *)
Record answers (s : bio D) (p : Z) (d1 d2 : D) : Prop := {
  an_check : exists st, mdrv_execrh C_MEDIACHK (dpb_subunit (dpbs s !!! p)) (dpb_mdb (dpbs s !!! p))
    (dpb_device (dpbs s !!! p)) (dev s) = (st, d1) /\ done st = true;
  an_build : exists st, mdrv_execrh C_BLDBPB (dpb_subunit (dpbs s !!! p)) (dpb_mdb (dpbs s !!! p))
    (dpb_device (dpbs s !!! p)) d1 = (st, d2) /\ done st = true;
  an_keep1 dv u b : sect d1 dv u b = sect (dev s) dv u b;
  an_keep2 dv u b : sect d2 dv u b = sect (dev s) dv u b }.

Lemma sector_dev (s s' : bio D) u n : drives s' = drives s -> dpbs s' = dpbs s ->
  (forall dv w b, sect (dev s') dv w b = sect (dev s) dv w b) -> sector s' u n = sector s u n.
Proof. intros E1 E2 E3. unfold sector. rewrite E1, E2. destruct (drives s !! u); [apply E3|done]. Qed.

(** What the first part of the check leaves: nothing of the drive is cached. *)
Lemma check_drops fuel (s : bio D) p d0 d1 d2 l v :
  p <> 0 -> was_mounted s p d0 l v -> answers s p d1 d2 -> medium_changed s p d1 ->
  exists s1 v1, media_check cf (Datatypes.S fuel) p s =
      (let bp := mdrv_bpptr d2 in
       let* s := bpb_to_dpb cf bp p ((bpb_nfsect bp =? 0) || mdrv_internal p) (set_dev d2 s1) in Some (SUCCESS, s)) /\
    repr primary (set_dev d0 s1) l v1 /\ dpbs s1 = dpbs s /\ drives s1 = drives s /\
    (forall n w, w <> dpb_unit (dpbs s !!! p) -> v1 w n = v w n) /\
    (forall x, x ∈ l -> b_unit (buf s1 x) = dpb_unit (dpbs s !!! p) -> ~ valid (buf s1 x)) /\
    (forall x, b_unit (buf s1 x) = b_unit (buf s x)) /\
    (forall x, b_unit (buf s x) <> dpb_unit (dpbs s !!! p) -> buf s1 x = buf s x).
Proof.
  intros Hp [W1 W2 W3 W4 W5] [(st1 & E1 & D1) (st2 & E2 & D2) K1 K2] [C1 C2]. set (u := dpb_unit (dpbs s !!! p)) in *.
  destruct (setinvld_spec primary cf (set_dev d0 s) l v u W1) as (s1 & v1 & Ei & Hr1 & Hv1 & Hdp & Hdr & Hdv & Hno & Hu & Hk); [lia|].
  assert (forall d, setinvld cf u (set_dev d s) = Some (set_dev d s1)) as Hi.
  { intros d. unfold setinvld in *. change (firstbuf (set_dev d s)) with (firstbuf (set_dev d0 s)).
    change (set_dev d s) with (set_dev d (set_dev d0 s)). rewrite ring_set_dev, Ei; [done|].
    intros x st. change (buf (set_dev d st) x) with (buf st x). by destruct (_ =? _). }
  exists s1, v1. cbn [set_dev dpbs drives dev] in Hdp, Hdr, Hdv.
  assert (set_dev d0 s1 = s1) as Es1 by (destruct s1; cbn in *; by subst).
  split.
  - unfold media_check. rewrite (proj2 (Z.eqb_neq _ _) Hp), (rqblockio_done fuel _ p s st1 d1 E1 D1).
    change (SUCCESS <? SUCCESS) with false. cbv iota. cbn [md_retcode bio_media bc_dpb bio_cache dpbs set_dev dev].
    assert (rebuild cf (Datatypes.S fuel) p (set_dev d1 s) =
      (let bp := mdrv_bpptr d2 in
       let* s := bpb_to_dpb cf bp p ((bpb_nfsect bp =? 0) || mdrv_internal p) (set_dev d2 s1) in Some (SUCCESS, s))) as Hb.
    { unfold rebuild. cbn [md_setinvld bio_media bc_dpb bio_cache dpbs set_dev]. fold u. rewrite Hi.
      rewrite (rqblockio_done fuel _ p (set_dev d1 s1) st2 d2); [|cbn [dpbs set_dev dev]; by rewrite Hdp|done].
      reflexivity. }
    etransitivity; [|exact Hb]. clear Hb. rewrite (proj2 (Z.eqb_neq _ _) C1). destruct (Z.eqb_spec (Z.lor (mdrv_retcode d1) (dpb_flags (dpbs s !!! p))) M_DONT_KNOW) as [E|E]; [|done].
    change (md_dirty_buffers cf (dpb_unit (dpbs s !!! p)) (set_dev d1 s)) with (dirty_buffers cf u (set_dev d1 s)).
    by rewrite (C2 E).
  - by rewrite Es1.
Qed.

(** The new medium is described by its DPB and none of it is in the cache; on a volume
    with 32-bit entries the information sector comes next. *)
Lemma media_check_spec fuel (s : bio D) p d0 d1 d2 l v b :
  p <> 0 -> was_mounted s p d0 l v -> answers s p d1 d2 -> medium_changed s p d1 ->
  mdrv_bpptr d2 = b -> bpb_shape b -> bpb_nfsect b = 0 \/ mdrv_internal p = true ->
  exists d' s0 v', bpb_fields b true (dpbs s !!! p) = Some d' /\ dpb_of b (dpbs s !!! p) d' /\
    media_check cf (Datatypes.S fuel) p s =
      (let* s := if ISFAT32 d' then read_fsinfo cf p s0 else Some s0 in Some (SUCCESS, s)) /\
    dpbs s0 = <[p := d']> (dpbs s) /\ drives s0 = drives s /\ bio_rep (after_change primary b d') cf s0 l v' /\
    (forall x, x ∈ l -> b_unit (buf s0 x) = dpb_unit d' -> ~ valid (buf s0 x)) /\
    (forall n, v' (dpb_unit d') n = sector s (dpb_unit d') n) /\ (forall w n, w <> dpb_unit d' -> v' w n = v w n).
Proof.
  intros Hp Hw Ha Hc Eb Hb Hext.
  destruct (check_drops fuel s p d0 d1 d2 l v Hp Hw Ha Hc) as (s1 & v1 & Em & Hr1 & Edp & Edr & Hv1 & Hno & Hu & Hk).
  destruct (bpb_fields_spec b (dpbs s !!! p) Hb) as (d' & Ed & Hd). rewrite Eb in Em. cbv zeta in Em.
  assert ((bpb_nfsect b =? 0) || mdrv_internal p = true) as Ex by (destruct Hext as [->| ->]; [done|by rewrite orb_true_r]).
  pose proof (do_unit _ _ _ Hd) as (U1 & U2 & U3). set (u := dpb_unit (dpbs s !!! p)) in *.
  pose proof Hw as [W1 W2 W3 W4 W5]. pose proof Ha as [_ _ K1 K2]. set (P' := after_change primary b d').
  assert (Hsec : forall w n, sector (set_dev d2 s1) w n = sector s w n) by (intros; by apply sector_dev).
  assert (Hsec0 : forall w n, sector (set_dev d0 s1) w n = sector (set_dev d0 s) w n) by (intros; by apply sector_dev).
  pose proof (swap_repr primary P' (set_dev d0 s1) l v1 u d2 Hr1 Hno) as Hr2. cbn beta in Hr2.
  change (set_dev d2 (set_dev d0 s1)) with (set_dev d2 s1) in Hr2.
  destruct (rebuilt_repr P' (set_dev d2 s1) l (fun w n => if decide (w = u) then sector (set_dev d2 s1) u n else v1 w n) p d')
    as [Hr3 _].
  { apply Hr2.
    - intros w n Hne. rewrite Hsec, Hsec0. by apply W3.
    - intros w n Hne. unfold P', after_change. by rewrite decide_False by congruence. }
  { cbn [dpbs set_dev]. by rewrite Edp. } { cbn [dpbs set_dev]. by rewrite Edp. }
  { intros x Hx Hv Hf Eq. change (buf (set_dev d2 s1) x) with (buf s1 x) in *.
    destruct (decide (b_unit (buf s x) = u)) as [E|E]; [apply (Hno x Hx); [by rewrite Hu|done]|].
    rewrite (Hk x E) in *. apply E. by apply (W4 x). }
  exists d', (set_dpbs (<[p:=d']> (dpbs (set_dev d2 s1))) (set_dev d2 s1)).
  exists (fun w n => if decide (w = u) then sector (set_dev d2 s1) u n else v1 w n).
  split; [done|]. split; [done|]. split; [|split; [|split; [done|split; [by split|split; [|split]]]]].
  - rewrite Em, Ex. unfold bpb_to_dpb. cbn [bc_dpb bio_cache dpbs set_dev]. rewrite Edp, Ed. cbn [andb].
    change (bc_set_dpb p d' (set_dev d2 s1)) with (set_dpbs (<[p := d']> (dpbs s1)) (set_dev d2 s1)). by rewrite Edp.
  - cbn [dpbs set_dpbs set_dev]. by rewrite Edp.
  - intros x Hx. rewrite U1. apply (Hno x Hx).
  - intros n. rewrite U1, decide_True by done. apply Hsec.
  - intros w n Hne. rewrite U1 in Hne. rewrite decide_False by done. by apply Hv1.
Qed.

(** ** The information sector *)

Lemma fill_buffer_flag fuel x blkno dsk (st st' : bio D) y :
  fill_buffer fuel x blkno dsk false st = Some (Some y, st') -> y = x /\ b_flag (buf st' x) = Z.lor BFR_VALID BFR_DATA.
Proof.
  unfold fill_buffer. destruct (flush1 _ _ _) as [[ok s1]|]; [|done]. destruct ok; [|done]. cbn [negb].
  destruct (dskxfer _ _ _ _ _ _ _ s1) as [[[rc data] s2]|]; [|done]. destruct (negb _); [done|]. intros [= <- <-].
  split; [done|]. by rewrite buf_on_buf, decide_True.
Qed.

(** A block that was not cached comes in clean. *)
Lemma getblk_clean P fuel (st st' : bio D) l v blkno dsk x :
  repr P st l v -> (length l <= fuel)%nat -> (forall y, y ∈ l -> ~ hit blkno dsk (buf st y)) ->
  getblk fuel blkno dsk false st = Some (Some x, st') -> ~ dirty (buf st' x).
Proof.
  intros Hr Hl Hno. unfold getblk.
  destruct (searchblock_spec P fuel st l v blkno dsk Hr Hl) as (y & s1 & l' & -> & _ & _ & _ & _ & Hy & _ & [(Hh & _)|(Hun & _)]).
  - by destruct (Hno y Hy).
  - unfold uncached in Hun. rewrite Hun. cbn [negb]. intros E. apply fill_buffer_flag in E as [-> E].
    unfold dirty. rewrite E. by vm_compute.
Qed.

Lemma read_flags fl :
  let fl' := Z.lor (clear (Z.lor (Z.lor BFR_DATA BFR_DIR) (Z.lor BFR_FAT BFR_DIRTY)) fl) BFR_VALID in
  has BFR_VALID fl' = true /\ has BFR_FAT fl' = false.
Proof.
  cbv zeta. unfold clear. change BFR_VALID with (2 ^ 5). change BFR_DIRTY with (2 ^ 6). change BFR_FAT with (2 ^ 1).
  rewrite !has_bit by lia. rewrite !Z.lor_spec, !Z.land_spec, !Z.lnot_spec by lia.
  change (Z.lor (Z.lor BFR_DATA BFR_DIR) (Z.lor (2 ^ 1) (2 ^ 6))) with 78.
  change (Z.testbit (2 ^ 5) 5) with true. change (Z.testbit 78 1) with true. change (Z.testbit (2 ^ 5) 1) with false.
  by rewrite orb_true_r, andb_false_r.
Qed.

Lemma get32_bytes l i : bytes l -> 0 <= i -> i + 3 < Z.of_nat (length l) -> exists n, get32 l i = Some n /\ 0 <= n < 4294967296.
Proof.
  intros Hb Hi Hl. rewrite get32_spec by lia. eexists. split; [done|].
  assert (R : forall k, is_byte (byte_at l k)) by (intros k; by apply byte_at_range).
  pose proof (R i). pose proof (R (i + 1)). pose proof (R (i + 2)). pose proof (R (i + 3)). unfold is_byte in *. lia.
Qed.

(** The counts of the information sector go to the DPB, where they are in range. *)
Definition counts_read (l : list Z) (d d' : dpb) : Prop :=
  exists n c, get32 l 0x1e8 = Some n /\ d' = set_xcluster c (set_xnfreeclst (if dpb_xsize d <=? n then XUNKNCLSTFREE else n) d) /\
    0 <= n < 4294967296 /\ (c = UNKNCLUSTER \/ 2 <= c <= dpb_xsize d).

Lemma read_fsinfo_spec P (s : bio D) l v p d :
  reliable (D := D) -> bio_rep P cf s l v -> dpbs s !!! p = d -> is_Some (drives s !! dpb_unit d) ->
  dpb_xfsinfosec d <> 0xffff -> 0 <= dpb_xfsinfosec d < 4294967296 -> P (dpb_unit d) (dpb_xfsinfosec d) ->
  (forall x, x ∈ l -> b_unit (buf s x) = dpb_unit d -> ~ valid (buf s x)) ->
  length (v (dpb_unit d) (dpb_xfsinfosec d)) = 512%nat -> bytes (v (dpb_unit d) (dpb_xfsinfosec d)) ->
  exists d' s' l', read_fsinfo cf p s = Some s' /\ counts_read (v (dpb_unit d) (dpb_xfsinfosec d)) d d' /\
    bio_rep P cf s' l' v /\ drives s' = drives s /\ dpbs s' = <[p := d']> (dpbs s).
Proof.
  intros Hrel Hrep Ed Hdr Hx Hn HP Hno Hlen Hby. unfold read_fsinfo. cbn [bc_dpb bc_getblock bio_cache]. rewrite Ed.
  rewrite (proj2 (Z.eqb_neq _ _) Hx). pose proof Hrep as [Hr Hl].
  destruct (getblk_spec P cf s l v (dpb_xfsinfosec d) (dpb_unit d) Hr) as (r & s1 & l1 & E & Hperm & (G1 & G2 & _) & Hsome & Hres);
    [lia|lia|done|done|done|].
  destruct (Hsome Hrel) as [x ->]. destruct Hres as (Hr1 & Hx1 & _ & Hh & _). rewrite E.
  assert (Hclean : ~ dirty (buf s1 x)).
  { apply (getblk_clean P cf s s1 l v (dpb_xfsinfosec d) (dpb_unit d) x Hr); [lia| |done]. intros y Hy (Hv & Hu & _). by apply (Hno y Hy). }
  pose proof Hh as (Hv1 & Hu1 & Hb1). set (f := fun b => with_flag _ b). destruct (read_flags (b_flag (buf s1 x))) as [F1 F2].
  assert (Hr2 : bio_rep P cf (on_buf x f s1) l1 v).
  { refine (proj1 (bc_store (BlockCacheLaws := bio_laws P) cf s1 l1 v v x f _ Hx1 Hv1 _ _ _ _ F1 _ _ _ _)); try done.
    - split; [done|]. by rewrite Hperm.
    - unfold mirrors_ok, is_fat. unfold f. cbn [b_flag with_flag bc_buf bio_cache]. by rewrite F2.
    - right. split; [done|]. intros Hd. by destruct Hclean.
    - cbn [bc_buf bio_cache]. rewrite Hu1, Hb1. symmetry. rewrite <- Hu1, <- Hb1. by apply (r_cached _ _ _ _ Hr1). }
  cbn [bc_upd bc_buf bio_cache]. rewrite buf_on_buf, decide_True by done. cbn [b_buffer with_flag f].
  assert (b_buffer (buf s1 x) = v (dpb_unit d) (dpb_xfsinfosec d)) as ->.
  { rewrite <- Hu1, <- Hb1. by apply (r_cached _ _ _ _ Hr1). }
  set (data := v _ _) in *. change (0x1e4 + 4) with 0x1e8. change (0x1e4 + 8) with 0x1ec.
  destruct (get32_bytes data 0x1e8) as (n & En & Rn); [done|lia|lia|]. destruct (get32_bytes data 0x1ec) as (c & Ec & Rc); [done|lia|lia|].
  rewrite En, Ec. cbn [bc_set_dpb bc_dpb bio_cache dpbs set_dpbs]. rewrite lookup_total_insert_eq.
  change (dpbs (on_buf x f s1)) with (dpbs s1). rewrite G2, Ed.
  set (n' := if dpb_xsize d <=? n then _ else n). set (c' := if _ || _ then UNKNCLUSTER else c).
  exists (set_xcluster c' (set_xnfreeclst n' d)). eexists _, l1. split; [reflexivity|]. split; [|split; [|split]].
  - exists n, c'. split; [done|]. split; [done|]. split; [lia|]. unfold c'.
    destruct (Z.ltb_spec c 2), (Z.ltb_spec (dpb_xsize d) c); cbn [orb]; try (by left). right. lia.
  - assert (Hset : forall st e, bio_rep P cf st l1 v -> dpb_device e = dpb_device (dpbs st !!! p) ->
      dpb_subunit e = dpb_subunit (dpbs st !!! p) -> dpb_xfatsize e = dpb_xfatsize (dpbs st !!! p) ->
      bio_rep P cf (set_dpbs (<[p := e]> (dpbs st)) st) l1 v).
    { intros st e [H1 H2] ???. split; [by apply set_dpbs_repr|done]. }
    assert (Ed1 : dpbs (on_buf x f s1) !!! p = d) by (change (dpbs (on_buf x f s1)) with (dpbs s1); by rewrite G2).
    pose proof (Hset _ (set_xnfreeclst n' d) Hr2) as H1. rewrite Ed1 in H1. specialize (H1 eq_refl eq_refl eq_refl).
    pose proof (Hset _ (set_xcluster c' (set_xnfreeclst n' d)) H1) as H2. cbn [dpbs set_dpbs] in H2. rewrite lookup_total_insert_eq in H2.
    specialize (H2 eq_refl eq_refl eq_refl). change (dpbs (on_buf x f s1)) with (dpbs s1) in H2. rewrite G2 in H2. exact H2.
  - exact G1.
  - cbn [dpbs set_dpbs]. by rewrite insert_insert_eq.
Qed.

(** The free count in the information sector of the new medium, where the driver reads
    it, is out of range or the number of free entries of the FAT. *)
Definition count_right (b : bpb) (s : bio D) (u : Z) (d : dpb) : Prop :=
  bpb_nfsect b <> 0 \/ bpb_xfsinfosec b = 0xffff \/
  (reliable (D := D) /\
   forall d' n, bpb_fields b true d = Some d' -> get32 (sector s u (bpb_xfsinfosec b)) 0x1e8 = Some n ->
     n < dpb_xsize d' -> n = free_count d' (sector s)).

Definition counts_ok (d : dpb) (v : Z -> Z -> list Z) : Prop :=
  0 <= dpb_xnfreeclst d < 4294967296 /\ 0 <= dpb_xcluster d < 4294967296 /\ hint_ok d /\ count_ok d v.

(** The information sector lies before the FAT. *)
Lemma info_place b d d' d'' v' :
  bpb_ok b -> dpb_of b d d' -> geometry d'' = geometry d' ->
  (forall n, after_change primary b d' (dpb_unit d') n <-> volume_block b d' n) ->
  (forall n, volume_block b d' n -> length (v' (dpb_unit d') n) = 512%nat /\ bytes (v' (dpb_unit d') n)) ->
  dpb_xfsinfosec d'' = 0xffff \/
  0 <= dpb_xfsinfosec d'' < 0xffff /\ after_change primary b d' (dpb_unit d'') (dpb_xfsinfosec d'') /\
  ~ (fat_start d'' <= dpb_xfsinfosec d'' <= fat_start d'' + last_sector d'') /\
  length (v' (dpb_unit d'') (dpb_xfsinfosec d'')) = 512%nat /\ bytes (v' (dpb_unit d'') (dpb_xfsinfosec d'')).
Proof.
  intros Hb Hd Eg HP Hvol. change (dpb_xfsinfosec d'') with (dpb_xfsinfosec (geometry d'')).
  change (dpb_unit d'') with (dpb_unit (geometry d'')). change (fat_start d'') with (fat_start (geometry d'')). rewrite Eg.
  change (dpb_xfsinfosec (geometry d')) with (dpb_xfsinfosec d'). change (dpb_unit (geometry d')) with (dpb_unit d').
  change (fat_start (geometry d')) with (fat_start d'). pose proof (do_x _ _ _ Hd) as Hx. pose proof (bo_width _ Hb) as Hw.
  destruct (bpb_nfsect b =? 0); destruct Hx as [_ Ex]; rewrite Ex in *; [|by left].
  destruct (b32_info _ Hw) as [?|Hinfo]; [by left|right].
  destruct (bpb_facts b Hb) as (Hc1 & Hc2 & Hf & Hds & Hs). pose proof (bo_fats _ Hb). pose proof (bo_reserved _ Hb).
  pose proof (bo_total _ Hb). pose proof (bo_data _ Hb). destruct (start_range _ _ _ Hb Hd) as (S1 & _).
  assert (0 <= bpb_nfat b * fat_sectors b) by (apply Z.mul_nonneg_nonneg; lia). destruct (do_fats _ _ _ Hd) as [E1 _].
  assert (volume_block b d' (bpb_xfsinfosec b)) as Hblk by (split; [lia|left; lia]). destruct (Hvol _ Hblk) as [V1 V2].
  split; [lia|]. split; [by apply HP|]. split; [lia|done].
Qed.

(** The second part of the check: the counts of the information sector. *)
Lemma info_spec b d d' (s s0 : bio D) l v' p :
  bpb_ok b -> dpb_of b d d' -> bpb_fields b true d = Some d' -> count_right b s (dpb_unit d') d ->
  bio_rep (after_change primary b d') cf s0 l v' -> dpbs s0 !! p = Some d' -> drives s0 !! dpb_unit d' = Some p ->
  (forall x, x ∈ l -> b_unit (buf s0 x) = dpb_unit d' -> ~ valid (buf s0 x)) ->
  (forall n, v' (dpb_unit d') n = sector s (dpb_unit d') n) ->
  (forall n, volume_block b d' n -> length (v' (dpb_unit d') n) = 512%nat /\ bytes (v' (dpb_unit d') n)) ->
  exists d'' s' l', (if ISFAT32 d' then read_fsinfo cf p s0 else Some s0) = Some s' /\
    bio_rep (after_change primary b d') cf s' l' v' /\ drives s' = drives s0 /\ dpbs s' = <[p := d'']> (dpbs s0) /\
    geometry d'' = geometry d' /\ counts_ok d'' v'.
Proof.
  intros Hb Hd Ed Hi Hrep Ep' Edr Hno Hv Hvol. pose proof (lookup_total_correct _ _ _ Ep') as Ep. destruct (do_free _ _ _ Hd) as (F1 & F2 & F3).
  assert (HP : forall n, after_change primary b d' (dpb_unit d') n <-> volume_block b d' n)
    by (intros n; unfold after_change; by rewrite decide_True).
  assert (Hsame : (if ISFAT32 d' then read_fsinfo cf p s0 else Some s0) = Some s0 ->
    exists d'' s' l', (if ISFAT32 d' then read_fsinfo cf p s0 else Some s0) = Some s' /\
      bio_rep (after_change primary b d') cf s' l' v' /\ drives s' = drives s0 /\ dpbs s' = <[p := d'']> (dpbs s0) /\
      geometry d'' = geometry d' /\ counts_ok d'' v').
  { intros E. exists d', s0, l. split; [done|]. split; [done|]. split; [done|].
    split; [by rewrite insert_id|]. split; [done|]. unfold counts_ok. rewrite F2, F3.
    split; [done|]. split; [done|]. split; left.
    - unfold hint. by destruct (ISFAT32 d').
    - unfold dpb_count, unknown_count, dpb_nfreeclst. rewrite F3. by destruct (ISFAT32 d'). }
  pose proof (is32 _ _ _ Hd) as E32. pose proof (do_x _ _ _ Hd) as Hx. pose proof (bo_width _ Hb) as Hw.
  destruct (Z.eqb_spec (bpb_nfsect b) 0) as [E|E]; rewrite E32 in *; [|by apply Hsame]. destruct Hx as [_ Ex].
  destruct (Z.eqb_spec (bpb_xfsinfosec b) 0xffff) as [Ef|Ef].
  { apply Hsame. unfold read_fsinfo. cbn [bc_dpb bio_cache]. by rewrite Ep, Ex, Ef. }
  destruct Hi as [?|[?|(Hrel & Hn)]]; [done..|]. pose proof (bo_reserved _ Hb). pose proof (bo_total _ Hb). pose proof (bo_data _ Hb).
  destruct (bpb_facts b Hb) as (Hc1 & Hc2 & Hf & Hds & Hs). pose proof (bo_fats _ Hb).
  assert (0 <= bpb_nfat b * fat_sectors b) by (apply Z.mul_nonneg_nonneg; lia).
  destruct (b32_info _ Hw) as [?|Hinfo]; [done|]. destruct (do_fats _ _ _ Hd) as [E1 _].
  assert (volume_block b d' (bpb_xfsinfosec b)) as Hblk by (split; [lia|left; lia]). destruct (Hvol _ Hblk) as [V1 V2].
  destruct (read_fsinfo_spec (after_change primary b d') s0 l v' p d') as (d'' & s' & l' & Er & (n & c & En & -> & Rn & Rc) & Q1 & Q2 & Q3);
    rewrite ?Ex; try done; try lia; [by apply HP|].
  eexists _, s', l'. split; [exact Er|]. split; [exact Q1|]. split; [exact Q2|]. split; [exact Q3|]. split; [done|].
  split; [|split; [|split]].
  - rewrite Ex, Hv in En. cbn. destruct (Z.leb_spec (dpb_xsize d') n); [by vm_compute|lia].
  - cbn. pose proof (top_range b Hb) as (T1 & T2 & _). rewrite <- (do_max _ _ _ Hd) in T2. unfold max_cluster in T2. rewrite E32 in T2.
    unfold LONG_BAD in T2. destruct Rc as [-> |Rc]; [by vm_compute|lia].
  - unfold hint_ok, hint, max_cluster. change (ISFAT32 (set_xcluster _ _)) with (ISFAT32 d'). rewrite E32. exact Rc.
  - unfold count_ok, dpb_count, unknown_count. change (ISFAT32 (set_xcluster _ _)) with (ISFAT32 d'). rewrite E32. cbn [dpb_xnfreeclst set_xcluster set_xnfreeclst].
    destruct (Z.leb_spec (dpb_xsize d') n); [by left|right]. rewrite Ex, Hv in En. rewrite (Hn d' n Ed En) by done.
    change (free_count (set_xcluster _ _) v') with (free_count d' v').
    pose proof (volume_of_bpb _ _ _ _ Hb Hd HP) as Hok.
    apply (free_count_ext (primary := after_change primary b d') d' (sector s) v' Hok). intros m Hm. symmetry.
    apply (entry_ext (primary := after_change primary b d') d' (sector s) v' m Hok Hm). intros. apply Hv.
Qed.

(** C26: After a change of the medium the check drops what the cache holds of the
    drive, keeps what it holds of the others, and leaves a mounted volume: the DPB
    computed from the medium's BPB satisfies what the FAT, the directories and the
    files rely on, every cluster lies on the medium, and the volume's blocks are
    those of the new medium.  The driver completes the two requests of the check; it is the
    internal one or the volume has 32-bit entries, since for other drives the code does not
    compute the extended fields.  The BPB is well-formed ([bpb_ok]: its numbers fit together
    and the FAT has room for the entries, which the code does not check), and the
    blocks can be read.  On a volume with 32-bit entries and an information sector
    the free count found there is either out of range, and dropped, or the number of free
    clusters ([count_right]): the code believes it when it is in range. *)
Theorem media_check_mounts fuel (s : bio D) p d0 d1 d2 l v b :
  p <> 0 -> was_mounted s p d0 l v -> answers s p d1 d2 -> medium_changed s p d1 ->
  mdrv_bpptr d2 = b -> bpb_ok b -> bpb_nfsect b = 0 \/ mdrv_internal p = true ->
  count_right b s (dpb_unit (dpbs s !!! p)) (dpbs s !!! p) ->
  (forall n, 0 <= n < total_sectors b -> length (sector s (dpb_unit (dpbs s !!! p)) n) = 512%nat /\
     bytes (sector s (dpb_unit (dpbs s !!! p)) n)) ->
  exists d' d'' s' v', media_check cf (Datatypes.S fuel) p s = Some (SUCCESS, s') /\
    bpb_fields b true (dpbs s !!! p) = Some d' /\ dpbs s' = <[p := d'']> (dpbs s) /\ geometry d'' = geometry d' /\
    mounted (S := bio D) (primary := after_change primary b d') cf p (geometry d') v' s' /\
    layout_ok (primary := after_change primary b d') (geometry d') v' /\
    (forall c j, 2 <= c <= max_cluster d' -> 0 <= j <= dpb_clsmask d' -> clus2phys c d' + j < total_sectors b) /\
    (forall n, v' (dpb_unit d') n = sector s (dpb_unit d') n) /\ (forall w n, w <> dpb_unit d' -> v' w n = v w n).
Proof.
  intros Hp Hw Ha Hc Eb Hb Hext Hinfo Hsec.
  destruct (media_check_spec fuel s p d0 d1 d2 l v b Hp Hw Ha Hc Eb Hb Hext)
    as (d' & s0 & v' & Ed & Hd & Em & Edp & Edr & Hrep & Hno & Hv & Hv').
  pose proof (do_unit _ _ _ Hd) as (U1 & _).
  assert (HP : forall n, after_change primary b d' (dpb_unit d') n <-> volume_block b d' n)
    by (intros n; unfold after_change; by rewrite decide_True).
  assert (Hvol : forall n, volume_block b d' n -> length (v' (dpb_unit d') n) = 512%nat /\ bytes (v' (dpb_unit d') n)).
  { intros n [Hn _]. rewrite Hv, U1. by apply Hsec. }
  destruct (info_spec b (dpbs s !!! p) d' s s0 l v' p) as (d'' & s' & l' & Ei & Hrep' & Edr' & Edp' & Eg & R1 & R2 & R3 & R4); try done.
  { by rewrite U1. } { by rewrite Edp, lookup_insert_eq. } { by rewrite Edr, U1, (wm_drive _ _ _ _ _ Hw). }
  pose proof (volume_of_bpb _ _ _ _ Hb Hd HP) as Hok.
  assert (dpbs s' !!! p = d'') as Ep by (rewrite Edp'; apply lookup_total_insert_eq).
  rewrite Edp, insert_insert_eq in Edp'. rewrite Ei in Em.
  exists d', d'', s', v'. split; [done|]. split; [done|]. split; [done|]. split; [done|]. split; [|split; [|split; [|done]]].
  - split; cbn [bc_dpb bio_cache]; rewrite ?Ep; try done.
    + by exists l'.
    + by apply volume_ok_geometry.
    + cbn. rewrite Edr', Edr, U1, (wm_drive _ _ _ _ _ Hw). done.
    + intros sec Hs. change (dpb_unit (geometry d')) with (dpb_unit d'). change (fat_start (geometry d')) with (fat_start d').
      change (last_sector (geometry d')) with (last_sector d') in Hs. apply Hvol, HP. apply (v_sector _ _ Hok sec Hs).
    + split; [done|]. split; [done|]. apply (info_place b (dpbs s !!! p) d' d'' v' Hb Hd Eg HP Hvol).
  - pose proof (layout_of_bpb _ _ _ _ Hb Hd HP v' Hvol) as [L1 L2 L3 L4 L5 L6]. by split.
  - intros c j Hcl Hj. by apply (cluster_on_medium _ _ _ Hb Hd).
Qed.

(** When the driver refuses the question and the critical error handler gives
    up, the drive is reported as invalid, and the DPB and the cache stay. *)
Theorem media_check_refused fuel (s : bio D) p st d1 answer d2 :
  p <> 0 ->
  mdrv_execrh C_MEDIACHK (dpb_subunit (dpbs s !!! p)) (dpb_mdb (dpbs s !!! p)) (dpb_device (dpbs s !!! p)) (dev s) = (st, d1) ->
  Z.land st S_ERROR <> 0 -> mdrv_error (dpb_unit (dpbs s !!! p)) (dpb_device (dpbs s !!! p)) d1 = (answer, d2) ->
  answer = ABORT \/ answer = FAIL ->
  media_check cf (Datatypes.S fuel) p s = Some (DE_INVLDDRV, set_dev d2 s).
Proof.
  intros Hp E1 Hst E2 Ha. unfold media_check. rewrite (proj2 (Z.eqb_neq _ _) Hp). cbn [rqblockio md_execrh bio_media bc_dpb bio_cache].
  rewrite E1. cbv iota beta. rewrite (proj2 (Z.eqb_neq _ _) Hst). cbn [negb orb].
  change (md_error (dpb_unit (dpbs s !!! p)) (dpb_device (dpbs s !!! p)) (set_dev d1 s))
    with (let '(answer, d) := mdrv_error (dpb_unit (dpbs s !!! p)) (dpb_device (dpbs s !!! p)) d1 in (answer, set_dev d s)).
  rewrite E2. by destruct Ha as [-> | ->].
Qed.

End check.

(** ** The length of the FAT *)

(** "let it pass through": a medium of too many clusters for 12 bits whose FAT has the
    length of a FAT of 12-bit entries. *)
Lemma fat_limit_short n size : 1 <= n -> n * 256 <= FAT_MAGIC < size -> fat_limit n 512 size = size.
Proof.
  unfold fat_limit, FAT_MAGIC. intros Hn Hs. change (512 / 2) with 256. rewrite u32_id by lia. cbv zeta.
  rewrite (proj2 (Z.leb_gt 0x10000 _)), (proj2 (Z.ltb_lt 4085 _)), (proj2 (Z.leb_le _ 4085)) by lia. done.
Qed.

Lemma shape_top b : bpb_shape b -> 2 <= top_cluster b <= clusters b + 1 /\ (~ fat_room b -> top_cluster b = clusters b + 1).
Proof.
  intros Hb. destruct (bpb_facts b Hb) as (Hc1 & _). pose proof (bo_width _ Hb) as Hw. unfold top_cluster, fat_room.
  destruct (Z.eqb_spec (bpb_nfsect b) 0) as [E|E]; [lia|]. destruct Hw as [A1 A2 A3 A4].
  destruct (decide (FAT_MAGIC <= clusters b -> FAT_MAGIC < bpb_nfsect b * 256)) as [Hr|Hr].
  - destruct (fat_limit_spec (bpb_nfsect b) (clusters b + 1)) as (L1 & _); [lia|lia|intros; apply Hr; lia|]. done.
  - rewrite fat_limit_short by lia. lia.
Qed.

(** Without room the highest cluster's entry lies behind the FAT. *)
Lemma shape_beyond b d d' : bpb_shape b -> dpb_of b d d' -> ~ fat_room b ->
  fat_sectors b * 512 <= fat_pos d' (max_cluster d') + (if ISFAT32 d' then 3 else 1).
Proof.
  intros Hb Hd Hno. destruct (shape_top b Hb) as [T1 T2]. specialize (T2 Hno). rewrite (do_max _ _ _ Hd), T2.
  destruct (bpb_facts b Hb) as (Hc1 & _). pose proof (bo_width _ Hb) as Hw. unfold fat_room, fat_sectors in *.
  assert (ISFAT32 d' = (bpb_nfsect b =? 0)) as E32 by (unfold ISFAT32; by destruct (do_fatsize _ _ _ Hd) as [-> _]).
  unfold fat_pos. rewrite E32. unfold ISFAT12. rewrite (do_size _ _ _ Hd). destruct (Z.eqb_spec (bpb_nfsect b) 0) as [E|E].
  - assert (u16 (0 - 1) <? FAT_MAGIC = false) as -> by (by vm_compute). lia.
  - destruct Hw as [A1 A2 A3 A4]. rewrite T2, u16_id by (unfold FAT_MAGIC16 in *; lia).
    assert (FAT_MAGIC <= clusters b) by lia. rewrite (proj2 (Z.ltb_ge _ _)) by lia. lia.
Qed.

(** C27: The clusters of a volume whose DPB was computed from a BPB with consistent numbers
    ([bpb_shape]; fewer than 65525 clusters with 16-bit entries) are those of its
    medium; where a FAT of 12- or 16-bit entries has no room for all of them, those without
    an entry are cut off.  Each has its entry inside the FAT, except in the two cases the
    code lets pass, which are exactly those without [fat_room]: a medium with too many
    clusters for 12 bits whose FAT has the length of a FAT of 12-bit entries, and a
    FAT of 32-bit entries that is too short. *)
Theorem entries_inside_fat b d d' :
  bpb_shape b -> bpb_fields b true d = Some d' ->
  2 <= max_cluster d' <= clusters b + 1 /\
  ((forall c, 2 <= c <= max_cluster d' ->
      0 <= fat_pos d' c /\ fat_pos d' c + (if ISFAT32 d' then 3 else 1) < fat_sectors b * dpb_secsize d') <->
   fat_room b).
Proof.
  intros Hb E. destruct (bpb_fields_spec b d Hb) as (d1 & E1 & Hd). assert (d1 = d') as -> by congruence.
  destruct (shape_top b Hb) as [T1 T2]. rewrite (do_secsize _ _ _ Hd). split; [by rewrite (do_max _ _ _ Hd)|]. split.
  - intros Hall. destruct (decide (fat_room b)) as [|Hno]; [done|exfalso].
    pose proof (shape_beyond b d d' Hb Hd Hno). destruct (Hall (max_cluster d')); [rewrite (do_max _ _ _ Hd); lia|lia].
  - intros Hr c Hc. pose proof (last_sector_fits b d d' (Build_bpb_ok b Hb Hr) Hd) as Hl.
    unfold last_sector in Hl. rewrite (do_max _ _ _ Hd) in Hc, Hl.
    assert (Hlt : forall x k, x / 512 < k -> x < k * 512) by (intros x k Hx; Z.div_mod_to_equations; lia).
    apply Hlt in Hl. clear Hlt E. unfold fat_pos in *.
    destruct (ISFAT12 d'), (ISFAT32 d'); (split; [|]); Z.div_mod_to_equations; lia.
Qed.

(** ** Disks that were changed

    Eight blocks; the drive had a medium whose DPB is [dir_dpb].  The new medium is without
    files, and has 12-bit entries, or 32-bit entries and an information sector with the
    number of free clusters; the driver tells the two by the jump of the boot sector. *)

Definition sample_bpb : bpb := Bpb 512 1 1 2 16 8 0xf8 1 9 2 0 0 0 0 0 0 0 0.
Definition sample_bpb32 : bpb := Bpb 512 1 2 1 0 8 0xf8 0 9 2 0 0 1 0 0 2 1 0xffff.

#[export] Instance sample_media : MediaDriver disk := {
  mdrv_execrh _ _ _ _ d := (S_DONE, d);
  mdrv_error _ _ d := (FAIL, d);
  mdrv_retcode _ := 0xff;
  mdrv_bpptr d := if default 0 (head (sect d 9 0 0)) =? 0xeb then sample_bpb32 else sample_bpb;
  mdrv_internal _ := true }.

Definition medium_of (block : Z -> list Z) : disk := Disk (list_to_map (map (fun n => ((9, 0, n), block n)) (seqZ 0 8))).
Definition block12 (_ : Z) : list Z := replicate 512 0.
Definition block32 (n : Z) : list Z :=
  if n =? 0 then 0xeb :: replicate 511 0
  else if n =? 1 then replicate 0x1e8 0 ++ [5; 0; 0; 0; 2; 0; 0; 0] ++ replicate 16 0 else replicate 512 0.
Definition changed_bio (block : Z -> list Z) : bio disk := fresh_bio vol_dpb (medium_of block).

Lemma sample_bpb_ok : bpb_ok sample_bpb.
Proof.
  split; [split; [reflexivity|by exists 0|by vm_compute|by vm_compute|by vm_compute|by vm_compute|]|].
  - change (bpb16_ok sample_bpb). by split; vm_compute.
  - change (FAT_MAGIC <= 4 -> FAT_MAGIC < 256). unfold FAT_MAGIC. lia.
Qed.

Lemma sample_bpb32_ok : bpb_ok sample_bpb32.
Proof.
  split; [split; [reflexivity|by exists 0|by vm_compute|by vm_compute|by vm_compute|by vm_compute|]|by vm_compute].
  change (bpb32_ok sample_bpb32). split; [by vm_compute|by vm_compute|by vm_compute|by vm_compute|by right; vm_compute].
Qed.

Lemma changed_was block : was_mounted (fun _ _ => False) 5 (changed_bio block) 77 (Disk empty) [100; 200] (sector (fresh_bio vol_dpb (Disk empty))).
Proof.
  split.
  - apply (fresh_rep (fun _ _ => False) vol_dpb (Disk empty)).
  - cbn. lia.
  - intros w n Hw. unfold sector. assert (drives (changed_bio block) !! w = None) as E; [|cbn in E |- *; by rewrite E].
    cbn. apply lookup_singleton_ne. intros <-. apply Hw. by vm_compute.
  - by intros x [-> | ->]%ex_bio_cases.
  - reflexivity.
Qed.

Lemma changed_blocks n : 0 <= n < 8 ->
  sector (changed_bio block12) 3 n = block12 n /\ sector (changed_bio block32) 3 n = block32 n.
Proof.
  intros Hn. assert (n = 0 \/ n = 1 \/ n = 2 \/ n = 3 \/ n = 4 \/ n = 5 \/ n = 6 \/ n = 7) as Hc by lia.
  destruct_or! Hc; subst n; by split; vm_compute.
Qed.

Lemma block32_bytes n : length (block32 n) = 512%nat /\ bytes (block32 n).
Proof.
  unfold block32. destruct (n =? 0); [|destruct (n =? 1)]; (split; [by vm_compute|]);
    refine (bool_decide_unpack (Forall (fun x => 0 <= x < 256) _) _); vm_compute; exact I.
Qed.

Lemma media_check_mounts_witness : exists d' d'' s', media_check 5 1 77 (changed_bio block32) = Some (SUCCESS, s') /\
  dpbs s' !!! 77 = d'' /\ geometry d'' = geometry d' /\ dpb_xdata d' = 3 /\ max_cluster d' = 6.
Proof.
  destruct (media_check_mounts (D := disk) (fun _ _ => False) 5 0 (changed_bio block32) 77 (Disk empty) (medium_of block32)
    (medium_of block32) [100; 200] (sector (fresh_bio vol_dpb (Disk empty))) sample_bpb32) as (d' & d'' & s' & v' & E & Ef & Ed & Eg & _).
  - lia.
  - exact (changed_was block32).
  - split; [by exists S_DONE|by exists S_DONE|reflexivity|reflexivity].
  - split; [by vm_compute|]. intros Hc. by vm_compute in Hc.
  - by vm_compute.
  - exact sample_bpb32_ok.
  - right. reflexivity.
  - right. right. split; [exact disk_reliable|]. intros d' n Ed En _.
    vm_compute in Ed. pose proof (some_eq _ _ Ed) as <-. vm_compute in En. pose proof (some_eq _ _ En) as <-. by vm_compute.
  - intros n Hn. change (total_sectors sample_bpb32) with 8 in Hn. change (dpb_unit (dpbs (changed_bio block32) !!! 77)) with 3.
    rewrite (proj2 (changed_blocks n Hn)). apply block32_bytes.
  - exists d', d'', s'. split; [exact E|]. rewrite Ed, lookup_total_insert_eq. split; [reflexivity|]. split; [exact Eg|].
    vm_compute in Ef. pose proof (some_eq _ _ Ef) as <-. split; vm_compute; reflexivity.
Defined.

(** The free count that the check leaves is the one of the information sector; without one it
    is not known. *)
Example counts_after_change :
  (let* (rc, s) := media_check 5 1 77 (changed_bio block32) in Some (rc, dpb_xnfreeclst (dpbs s !!! 77))) = Some (SUCCESS, 5) /\
  (let* (rc, s) := media_check 5 1 77 (changed_bio block12) in Some (rc, dpb_xnfreeclst (dpbs s !!! 77))) =
    Some (SUCCESS, XUNKNCLSTFREE).
Proof. by split; vm_compute. Qed.

Lemma entries_inside_fat_witness : exists d', bpb_fields sample_bpb true vol_dpb = Some d' /\ max_cluster d' = 5 /\
  fat_pos d' 5 + 1 < 512.
Proof.
  destruct (bpb_fields_spec sample_bpb vol_dpb sample_bpb_ok) as (d' & E & _). exists d'. split; [exact E|].
  destruct (entries_inside_fat sample_bpb vol_dpb d' sample_bpb_ok E) as [_ [_ H]].
  specialize (H (bo_room _ sample_bpb_ok) 5). revert H. vm_compute in E. pose proof (some_eq _ _ E) as <-.
  intros H. split; [by vm_compute|]. apply H. by vm_compute.
Defined.

(** A medium with 5000 clusters and one sector of FAT: the entry of the last cluster lies far
    behind the FAT. *)
Definition short_bpb : bpb := Bpb 512 1 1 1 16 5003 0xf8 1 9 2 0 0 0 0 0 0 0 0.

Example fat_passed_through : bpb_shape short_bpb /\ ~ fat_room short_bpb /\
  (let* d' := bpb_fields short_bpb true vol_dpb in Some (max_cluster d', fat_pos d' 5001, fat_sectors short_bpb * 512)) =
    Some (5001, 10002, 512).
Proof.
  split; [|split; [|by vm_compute]].
  - split; [reflexivity|by exists 0|by vm_compute|by vm_compute|by vm_compute|by vm_compute|].
    change (bpb16_ok short_bpb). by split; vm_compute.
  - change (~ (FAT_MAGIC <= 5000 -> FAT_MAGIC < 256)). unfold FAT_MAGIC. lia.
Qed.
