(* ===== verification/Diskdrv.v ===== *)
(** * The disk driver ([kernel/dsk.c])

    The built-in block device: sectors are moved between the disks of the BIOS and
    memory, through the interrupt 13h with addresses of cylinder, head and sector
    or with linear addresses.  The assembler routines [fl_...] of [drivers/floppy.asm]
    are the class [DiskBios]; memory is a function from linear addresses to bytes. *)

From S2P Require Import Prelude Hdr Bytes Blockio Media Chario.

(** hdr/device.h:36-36 *)
Definition S_BUSY : Z := 0x0200.
(** hdr/device.h:51-51 *)
Definition M_CHANGED : Z := -1.
(** hdr/device.h:59-59 *)
Definition E_WRPRT : Z := 0.
(** hdr/device.h:60-60 *)
Definition E_UNIT : Z := 1.
(** hdr/device.h:61-61 *)
Definition E_NOTRDY : Z := 2.
(** hdr/device.h:62-62 *)
Definition E_CMD : Z := 3.
(** hdr/device.h:63-63 *)
Definition E_CRC : Z := 4.
(** hdr/device.h:65-65 *)
Definition E_SEEK : Z := 6.
(** hdr/device.h:67-67 *)
Definition E_NOTFND : Z := 8.
(** hdr/device.h:71-71 *)
Definition E_FAILURE : Z := 12.
(** hdr/device.h:77-77 *)
Definition C_INIT : Z := 0x00.
(** hdr/device.h:179-179 *)
Definition N_RETRY : nat := 5.
(** hdr/device.h:180-180 *)
Definition SEC_SIZE : Z := 512.
(** hdr/device.h:182-182 *)
Definition LBA_READ : Z := 0x4200.
(** hdr/device.h:183-183 *)
Definition LBA_WRITE : Z := 0x4300.
(** kernel/dsk.c:75-75 *)
Definition LBA_VERIFY : Z := 0x4400.
(** kernel/dsk.c:76-77 *)
Definition LBA_FORMAT : Z := 0xffff.
(** kernel/dsk.c:70-70 *)
Definition NENTRY : Z := 26.
(** hdr/device.h:242-242 *)
Definition DF_FIXED : Z := 0x001.
(** hdr/device.h:243-243 *)
Definition DF_CHANGELINE : Z := 0x002.
(** hdr/device.h:246-246 *)
Definition DF_MULTLOG : Z := 0x010.
(** hdr/device.h:247-247 *)
Definition DF_CURLOG : Z := 0x020.
(** hdr/device.h:248-248 *)
Definition DF_DISKCHANGE : Z := 0x040.
(** hdr/device.h:249-249 *)
Definition DF_DPCHANGED : Z := 0x080.
(** hdr/device.h:250-250 *)
Definition DF_REFORMAT : Z := 0x100.
(** hdr/device.h:251-251 *)
Definition DF_NOACCESS : Z := 0x200.
(** hdr/device.h:253-253 *)
Definition DF_LBA : Z := 0x400.
(** hdr/device.h:254-254 *)
Definition DF_WRTVERIFY : Z := 0x800.

(** ** Pointers and memory *)

Record farptr := Far { fp_seg : Z; fp_off : Z }.
#[export] Instance farptr_eq_dec : EqDecision farptr.
Proof. solve_decision. Defined.

Definition linear (p : farptr) : Z := 16 * fp_seg p + fp_off p.
(** Pointer arithmetic moves the offset. *)
Definition far_add (p : farptr) (n : Z) : farptr := Far (fp_seg p) (u16 (fp_off p + n)).

(** kernel/memmgr.c:84-98 *)
Definition adjust_far (p : farptr) : farptr :=
  if fp_seg p =? 0xffff then p
  else Far (u16 (fp_seg p + Z.shiftr (fp_off p) 4)) (Z.land (fp_off p) 0xf).

Definition memory := Z -> Z.
Definition poke (a v : Z) (m : memory) : memory := fun x => if x =? a then v else m x.
(** [fmemcpy]. *)
Definition copy (dst src n : Z) (m : memory) : memory :=
  fun x => if (dst <=? x) && (x <? dst + n) then m (src + (x - dst)) else m x.
(** A structure stored in memory. *)
Definition store (a : Z) (l : list Z) (m : memory) : memory :=
  fun x => if (a <=? x) && (x <? a + Z.of_nat (length l)) then byte_at l (x - a) else m x.
Definition load (a n : Z) (m : memory) : list Z := map m (seqZ a n).
Definition peek16 (a : Z) (m : memory) : Z := m a + 256 * m (a + 1).
Definition peek32 (a : Z) (m : memory) : Z := peek16 a m + 65536 * peek16 (a + 2) m.

(** ** Drives *)

(** hdr/device.h:198-202 *)
Record CHS := Chs { Cylinder : Z; Head : Z; Sector : Z }.

(** The fields the kernel uses; [ddt_next] is the number of the next table.
    hdr/device.h:205-239 *)
Record ddt := Ddt {
  ddt_next : option Z;
  ddt_driveno : Z;
  ddt_logdriveno : Z;
  ddt_bpb : bpb;
  ddt_FileOC : Z;
  ddt_type : Z;
  ddt_descflags : Z;
  ddt_ncyl : Z;
  ddt_defbpb : bpb;
  ddt_lasttime : Z;
  ddt_volume : list Z;
  ddt_serialno : Z;
  ddt_fstype : list Z;
  ddt_offset : Z }.

Definition set_ddt_flags (v : Z) (d : ddt) : ddt :=
  Ddt (ddt_next d) (ddt_driveno d) (ddt_logdriveno d) (ddt_bpb d) (ddt_FileOC d) (ddt_type d) v (ddt_ncyl d)
    (ddt_defbpb d) (ddt_lasttime d) (ddt_volume d) (ddt_serialno d) (ddt_fstype d) (ddt_offset d).
Definition set_ddt_bpb (v : bpb) (d : ddt) : ddt :=
  Ddt (ddt_next d) (ddt_driveno d) (ddt_logdriveno d) v (ddt_FileOC d) (ddt_type d) (ddt_descflags d) (ddt_ncyl d)
    (ddt_defbpb d) (ddt_lasttime d) (ddt_volume d) (ddt_serialno d) (ddt_fstype d) (ddt_offset d).
Definition set_ddt_defbpb (v : bpb) (d : ddt) : ddt :=
  Ddt (ddt_next d) (ddt_driveno d) (ddt_logdriveno d) (ddt_bpb d) (ddt_FileOC d) (ddt_type d) (ddt_descflags d)
    (ddt_ncyl d) v (ddt_lasttime d) (ddt_volume d) (ddt_serialno d) (ddt_fstype d) (ddt_offset d).
Definition set_ddt_FileOC (v : Z) (d : ddt) : ddt :=
  Ddt (ddt_next d) (ddt_driveno d) (ddt_logdriveno d) (ddt_bpb d) v (ddt_type d) (ddt_descflags d) (ddt_ncyl d)
    (ddt_defbpb d) (ddt_lasttime d) (ddt_volume d) (ddt_serialno d) (ddt_fstype d) (ddt_offset d).
Definition set_ddt_type (v : Z) (d : ddt) : ddt :=
  Ddt (ddt_next d) (ddt_driveno d) (ddt_logdriveno d) (ddt_bpb d) (ddt_FileOC d) v (ddt_descflags d) (ddt_ncyl d)
    (ddt_defbpb d) (ddt_lasttime d) (ddt_volume d) (ddt_serialno d) (ddt_fstype d) (ddt_offset d).
Definition set_ddt_ncyl (v : Z) (d : ddt) : ddt :=
  Ddt (ddt_next d) (ddt_driveno d) (ddt_logdriveno d) (ddt_bpb d) (ddt_FileOC d) (ddt_type d) (ddt_descflags d) v
    (ddt_defbpb d) (ddt_lasttime d) (ddt_volume d) (ddt_serialno d) (ddt_fstype d) (ddt_offset d).
Definition set_ddt_lasttime (v : Z) (d : ddt) : ddt :=
  Ddt (ddt_next d) (ddt_driveno d) (ddt_logdriveno d) (ddt_bpb d) (ddt_FileOC d) (ddt_type d) (ddt_descflags d)
    (ddt_ncyl d) (ddt_defbpb d) v (ddt_volume d) (ddt_serialno d) (ddt_fstype d) (ddt_offset d).
Definition set_ddt_volume (serialno : Z) (volume fstype : list Z) (d : ddt) : ddt :=
  Ddt (ddt_next d) (ddt_driveno d) (ddt_logdriveno d) (ddt_bpb d) (ddt_FileOC d) (ddt_type d) (ddt_descflags d)
    (ddt_ncyl d) (ddt_defbpb d) (ddt_lasttime d) volume serialno fstype (ddt_offset d).

(** Tests and changes of flag bits. *)
Definition has (flags bits : Z) : bool := negb (Z.land flags bits =? 0).
Definition clear (bits flags : Z) : Z := Z.ldiff flags bits.

(** kernel/dsk.c:167-167 *)
Definition hd (x : Z) : bool := has x DF_FIXED.

(** ** The BIOS *)

Inductive bios_op := op_read | op_write | op_verify | op_format.

(** The packet of a call with a linear address.
    hdr/device.h:185-196 *)
Record packet := Dap { number_of_blocks : Z; buffer_address : farptr; block_address : Z }.

(** [fl_reset] and the routines that move sectors get the drive; [fl_transfer] is
    [fl_read], [fl_write], [fl_verify] or [fl_format] with head, track, sector,
    count and buffer.  All answer the error code of the BIOS, 0 when it is none.
    [fl_setmediatype] also tells the address it sets the vector 1Eh to.
    [floppy_change] is the call of the multiplex interrupt, [fl_clock] reads the
    clock of the BIOS. *)
Class DiskBios (B : Type) := {
  fl_reset : Z -> B -> B;
  fl_diskchanged : Z -> B -> Z * B;
  fl_transfer : bios_op -> Z -> Z -> Z -> Z -> Z -> farptr -> memory -> B -> Z * memory * B;
  fl_lba_ReadWrite : Z -> Z -> packet -> memory -> B -> Z * memory * B;
  fl_setdisktype : Z -> Z -> B -> B;
  fl_setmediatype : Z -> Z -> Z -> B -> Z * option Z * B;
  fl_readkey : B -> B;
  floppy_change : Z -> B -> Z * B;
  fl_clock : B -> Z * B;
  fl_put_string : list Z -> B -> B }.

(** The tables of the drives, their number in the header of the device, the
    function for writing with verification, the address the vector 1Eh holds,
    memory and the BIOS. *)
Record disks (B : Type) := Disks {
  ddts : list ddt;
  units : Z;
  LBA_WRITE_VERIFY : Z;
  int1e : Z;
  mem : memory;
  bios : B }.
Arguments Disks {B}.
Arguments ddts {B}.
Arguments units {B}.
Arguments LBA_WRITE_VERIFY {B}.
Arguments int1e {B}.
Arguments mem {B}.
Arguments bios {B}.

Definition set_ddts {B} v (s : disks B) : disks B :=
  Disks v (units s) (LBA_WRITE_VERIFY s) (int1e s) (mem s) (bios s).
Definition set_int1e {B} v (s : disks B) : disks B :=
  Disks (ddts s) (units s) (LBA_WRITE_VERIFY s) v (mem s) (bios s).
Definition set_mem {B} v (s : disks B) : disks B :=
  Disks (ddts s) (units s) (LBA_WRITE_VERIFY s) (int1e s) v (bios s).
Definition set_bios {B} v (s : disks B) : disks B :=
  Disks (ddts s) (units s) (LBA_WRITE_VERIFY s) (int1e s) (mem s) v.

Section driver.
  Context {B : Type} `{!DiskBios B}.

(** The buffer of the driver. *)
  Context (DiskTransferBuffer : farptr).

Definition dtb : Z := linear DiskTransferBuffer.

Definition update_ddt (u : Z) (f : ddt -> ddt) (s : disks B) : option (disks B) :=
  let* d := at_ (ddts s) u in
  let* l := set_at u (f d) (ddts s) in
  Some (set_ddts l s).

(** [ReadPCClock], seen from here. *)
Definition clock (s : disks B) : Z * disks B :=
  let '(t, b) := fl_clock (bios s) in (t, set_bios b s).

(** kernel/dsk.c:100-103 *)
Definition tmark (u : Z) (s : disks B) : option (disks B) :=
  let '(t, s) := clock s in update_ddt u (set_ddt_lasttime (u32 t)) s.

(** kernel/dsk.c:105-108 *)
Definition tdelay (u ticks : Z) (s : disks B) : option (bool * disks B) :=
  let '(t, s) := clock s in
  let* d := at_ (ddts s) u in
  Some (ticks <=? u32 (u32 t - ddt_lasttime d), s).

(** ** Two logical drives on one diskette drive *)

(** kernel/dsk.c:198-199 *)
Definition is_current (d : ddt) : bool :=
  Z.land (ddt_descflags d) (Z.lor DF_MULTLOG DF_CURLOG) =? Z.lor DF_MULTLOG DF_CURLOG.

(** The table of the logical drive that has the diskette drive now, from table [i]
    on; [n] tables are left.
    kernel/dsk.c:194-201 *)
Fixpoint find_current (n : nat) (i : Z) (driveno : Z) (l : list ddt) : option Z :=
  match n with
  | O => Some i
  | S n => let* d := at_ l i in
           if (driveno =? ddt_driveno d) && is_current d then Some i else find_current n (i + 1) driveno l
  end.

Definition prompt (text : list Z) (drive : Z) : list Z :=
  text ++ str " diskette in drive " ++ [ch "A" + drive] ++ str ":" ++ [10].

(** The user is asked to change diskettes, unless some program does.
    kernel/dsk.c:208-221 *)
Definition change_diskette (dl dh : Z) (s : disks B) : disks B :=
  let '(answer, b) := floppy_change (dl + 256 * dh) (bios s) in
  if answer =? 0xffff then set_bios b s
  else
    let b := fl_put_string (prompt (str "Remove") dh) b in
    let b := fl_put_string (prompt (str "Insert") dl) b in
    let b := fl_put_string (str "Press any key to continue ... " ++ [10]) b in
    set_bios (fl_readkey b) s.

(** kernel/dsk.c:188-229 *)
Definition play_dj (u : Z) (s : disks B) : option (Z * disks B) :=
  let* d := at_ (ddts s) u in
  if Z.land (ddt_descflags d) (Z.lor DF_MULTLOG DF_CURLOG) =? DF_MULTLOG then
    let* i := find_current (Z.to_nat (units s)) 0 (ddt_driveno d) (ddts s) in
    if i =? units s then
      Some (M_CHANGED, set_bios (fl_put_string (str "Error in the DJ mechanism!" ++ [10]) (bios s)) s)
    else
      let* d2 := at_ (ddts s) i in
      let s := change_diskette (ddt_logdriveno d) (ddt_logdriveno d2) s in
      let* s := update_ddt i (fun d => set_ddt_flags (clear DF_CURLOG (ddt_descflags d)) d) s in
      let* s := update_ddt u (fun d => set_ddt_flags (Z.lor (ddt_descflags d) DF_CURLOG) d) s in
      Some (M_CHANGED, set_mem (poke 0x504 (ddt_logdriveno d) (mem s)) s)
  else Some (M_NOT_CHANGED, s).

(** ** Transfers *)

(** The geometry of a hard disk is the one the BIOS has told, that of a diskette
    is in its boot sector.
    kernel/dsk.c:865-865 *)
Definition geometry (d : ddt) : bpb := if hd (ddt_descflags d) then ddt_defbpb d else ddt_bpb d.

(** The outer [None] is a division by zero, the inner one a cylinder the BIOS
    cannot address.
    kernel/dsk.c:859-885 *)
Definition LBA_to_CHS (LBA_address : Z) (d : ddt) : option (option CHS) :=
  let pbpb := geometry d in
  let hs := u16 (bpb_nsecs pbpb * bpb_nheads pbpb) in
  if hs =? 0 then None
  else
    let hsrem := LBA_address mod hs in
    let cyl := LBA_address / hs in
    if 1023 <? cyl then Some None
    else Some (Some (Chs cyl (hsrem / bpb_nsecs pbpb) (hsrem mod bpb_nsecs pbpb + 1))).

(** kernel/dsk.c:890-898 *)
Definition DMA_max_transfer (buffer : farptr) (count : Z) : Z :=
  let dma_off := u16 (Z.shiftl (fp_seg buffer) 4 + fp_off buffer) in
  let sectors := if dma_off =? 0 then 0xffff / SEC_SIZE else u16 (- dma_off) / SEC_SIZE in
  Z.min count sectors.

Definition transfer_chs (op : bios_op) (driveno : Z) (c : CHS) (count : Z) (buf : farptr) (s : disks B) : Z * disks B :=
  let '(e, m, b) := fl_transfer op driveno (Head c) (Cylinder c) (Sector c) count buf (mem s) (bios s) in
  (e, set_bios b (set_mem m s)).

Definition transfer_lba (driveno mode : Z) (p : packet) (s : disks B) : Z * disks B :=
  let '(e, m, b) := fl_lba_ReadWrite driveno mode p (mem s) (bios s) in
  (e, set_bios b (set_mem m s)).

(** kernel/dsk.c:998-1022 *)
Definition attempt_lba (d : ddt) (mode lba count : Z) (buf : farptr) (s : disks B) : Z * disks B :=
  let dap := Dap (u8 count) buf lba in
  if has (ddt_descflags d) DF_WRTVERIFY || negb (mode =? LBA_WRITE_VERIFY s)
  then transfer_lba (ddt_driveno d) mode dap s
  else
    let '(e, s) := transfer_lba (ddt_driveno d) LBA_WRITE dap s in
    if e =? 0 then transfer_lba (ddt_driveno d) LBA_VERIFY dap s else (e, s).

(** kernel/dsk.c:1037-1040 *)
Definition op_of (mode : Z) : bios_op :=
  if mode =? LBA_READ then op_read
  else if mode =? LBA_VERIFY then op_verify
  else if mode =? LBA_FORMAT then op_format else op_write.

(** The end of the track limits the count.
    kernel/dsk.c:1032-1051 *)
Definition attempt_chs (d : ddt) (mode : Z) (c : CHS) (count : Z) (buf : farptr) (s : disks B) : Z * Z * disks B :=
  let nsecs := bpb_nsecs (ddt_bpb d) in
  let count := if u16 (nsecs + 1) <? u16 (Sector c + count) then u16 (nsecs + 1 - Sector c) else count in
  let '(e, s) := transfer_chs (op_of mode) (ddt_driveno d) c count buf s in
  if (e =? 0) && (mode =? LBA_WRITE_VERIFY s) then
    let '(e, s) := transfer_chs op_verify (ddt_driveno d) c count buf s in (e, count, s)
  else (e, count, s).

(** The error code and the count of the last attempt; the inner [None] is the
    return for a cylinder out of range.
    kernel/dsk.c:994-1058 *)
Fixpoint retry (n : nat) (u mode lba : Z) (error_code count : Z) (buf : farptr) (s : disks B) :
    option (option (Z * Z) * disks B) :=
  match n with
  | O => Some (Some (error_code, count), s)
  | S n =>
      let* d := at_ (ddts s) u in
      if has (ddt_descflags d) DF_LBA && negb (mode =? LBA_FORMAT) then
        let '(e, s) := attempt_lba d mode lba count buf s in
        if e =? 0 then Some (Some (0, count), s)
        else retry n u mode lba e count buf (set_bios (fl_reset (ddt_driveno d) (bios s)) s)
      else
        let* chs := LBA_to_CHS lba d in
        match chs with
        | None => Some (None, set_bios (fl_put_string (str "LBA-Transfer error : cylinder > 1023" ++ [10]) (bios s)) s)
        | Some c =>
            let '(e, count, s) := attempt_chs d mode c count buf s in
            if e =? 0 then Some (Some (0, count), s)
            else retry n u mode lba e count buf (set_bios (fl_reset (ddt_driveno d) (bios s)) s)
        end
  end.

Definition is_write (mode : Z) : bool := Z.land mode 0xff00 =? Z.land LBA_WRITE 0xff00.
Definition is_read (mode : Z) : bool := Z.land mode 0xff00 =? Z.land LBA_READ 0xff00.

(** Where the sectors go: the buffer itself or, one at a time, the driver's.
    kernel/dsk.c:976-992 *)
Definition choose_buffer (mode : Z) (buffer : farptr) (total : Z) (s : disks B) : Z * farptr * disks B :=
  let count := DMA_max_transfer buffer total in
  if (0xa000 <=? fp_seg buffer) || (count =? 0)
  then (1, DiskTransferBuffer,
        if is_write mode then set_mem (copy dtb (linear buffer) 512 (mem s)) s else s)
  else (count, buffer, s).

(** The return value, [transferred] and the state.
    kernel/dsk.c:974-1079 *)
Fixpoint transfer_loop (fuel : nat) (u mode : Z) (buffer : farptr) (lba total done : Z) (s : disks B) :
    option (Z * Z * disks B) :=
  if total =? 0 then Some (0, done, s)
  else
    match fuel with
    | O => None
    | S fuel =>
        let '(count, buf, s) := choose_buffer mode buffer total s in
        let* (r, s) := retry N_RETRY u mode lba 0 count buf s in
        match r with
        | None => Some (1, done, s)
        | Some (e, count) =>
            if negb (e =? 0) then Some (e, done, s)
            else
              let s := if bool_decide (buf = DiskTransferBuffer) && is_read mode
                       then set_mem (copy (linear buffer) dtb 512 (mem s)) s else s in
              transfer_loop fuel u mode (adjust_far (far_add buffer (u16 (count * 512)))) (u32 (lba + count))
                (u16 (total - count)) (u16 (done + count)) s
        end
    end.

(** The BIOS must know the sectors of a track before a diskette is accessed.
    kernel/dsk.c:953-963 *)
Definition set_track_length (d : ddt) (s : disks B) : disks B :=
  if hd (ddt_descflags d) then s
  else
    let nsecs := u8 (bpb_nsecs (ddt_bpb d)) in
    if mem s (int1e s + 4) =? nsecs then s
    else set_bios (fl_reset (ddt_driveno d) (bios s)) (set_mem (poke (int1e s + 4) nsecs (mem s)) s).

(** A step per sector is enough as every round moves one or more.
    kernel/dsk.c:928-1080 *)
Definition LBA_Transfer (u mode : Z) (buffer : farptr) (lba total : Z) (s : disks B) : option (Z * Z * disks B) :=
  let* d := at_ (ddts s) u in
  if (mode =? LBA_FORMAT) && hd (ddt_descflags d) then Some (0, 0, s)
  else
    let* (_, s) := play_dj u s in
    let* d := at_ (ddts s) u in
    let s := set_track_length d s in
    transfer_loop (Z.to_nat total) u mode (adjust_far buffer) lba total 0 s.

(** kernel/dsk.c:288-295 *)
Definition RWzero (u mode : Z) (s : disks B) : option (Z * disks B) :=
  let* d := at_ (ddts s) u in
  let* (ret, _, s) := LBA_Transfer u mode DiskTransferBuffer (ddt_offset d) 1 s in
  Some (ret, s).

(** kernel/dsk.c:822-853 *)
Definition dskerr (code : Z) : Z :=
  match Z.land code 0x03 with
  | 1 => if has code 0x08 then Z.lor S_ERROR E_NOTRDY else failure E_CMD
  | 2 => failure E_FAILURE
  | 3 => failure E_WRPRT
  | _ => if has code 0x80 then failure E_NOTRDY
         else if has code 0x40 then failure E_SEEK
         else if has code 0x10 then failure E_CRC
         else if has code 0x04 then failure E_NOTFND
         else failure E_FAILURE
  end.

(** ** The medium *)

(** kernel/dsk.c:231-253 *)
Definition diskchange (u : Z) (s : disks B) : option (Z * disks B) :=
  let* d := at_ (ddts s) u in
  if hd (ddt_descflags d) then Some (M_NOT_CHANGED, s)
  else
    let* (r, s) := play_dj u s in
    if r =? M_CHANGED then Some (M_CHANGED, s)
    else
      let* d := at_ (ddts s) u in
      let timed s := let* (late, s) := tdelay u 37 s in Some (if late : bool then M_DONT_KNOW else M_NOT_CHANGED, s) in
      if has (ddt_descflags d) DF_CHANGELINE then
        let '(result, b) := fl_diskchanged (ddt_driveno d) (bios s) in
        let s := set_bios b s in
        if result =? 1 then Some (M_CHANGED, s)
        else if result =? 0 then Some (M_NOT_CHANGED, s)
        else timed s
      else timed s.

(** The BPB in a boot sector at [a].
    hdr/device.h:149-177 *)
Definition bpb_in (a : Z) (m : memory) : bpb :=
  let a := a + 11 in
  Bpb (peek16 a m) (m (a + 2)) (peek16 (a + 3) m) (m (a + 5)) (peek16 (a + 6) m) (peek16 (a + 8) m) (m (a + 10))
    (peek16 (a + 11) m) (peek16 (a + 13) m) (peek16 (a + 15) m) (peek32 (a + 17) m) (peek32 (a + 21) m)
    (peek32 (a + 25) m) (peek16 (a + 29) m) (peek16 (a + 31) m) (peek32 (a + 33) m) (peek16 (a + 37) m)
    (peek16 (a + 39) m).

(** Where the serial number stands, followed by 11 bytes of the label and 8 of the
    type of the file system.
    kernel/dsk.c:415-422 *)
Definition fs_info (b : bpb) : Z := if bpb_nfsect b =? 0 then 0x43 else 0x27.

(** What a valid boot sector at [a] changes.
    kernel/dsk.c:398-426 *)
Definition take_boot (a : Z) (m : memory) (d : ddt) : ddt :=
  let b := bpb_in a m in
  let fs := a + fs_info b in
  set_ddt_volume (peek32 fs m) (load (fs + 4) 11 m) (load (fs + 15) 8 m ++ drop 8 (ddt_fstype d))
    (set_ddt_bpb b (set_ddt_flags (clear DF_NOACCESS (ddt_descflags d)) d)).

(** kernel/dsk.c:388-391 *)
Definition valid_boot (a : Z) (m : memory) : bool :=
  (m (a + 0x1fe) =? 0x55) && (m (a + 0x1ff) =? 0xaa) && (peek16 (a + 11) m =? 512).

(** kernel/dsk.c:370-463 *)
Definition getbpb (u : Z) (s : disks B) : option (Z * disks B) :=
  let* (change, s) := diskchange u s in
  let* s := if change =? M_NOT_CHANGED then Some s
            else update_ddt u (fun d => set_ddt_flags (Z.lor (ddt_descflags d) DF_DISKCHANGE) d) s in
  let* (ret, s) := RWzero u LBA_READ s in
  if negb (ret =? 0) then Some (dskerr ret, s)
  else if negb (valid_boot dtb (mem s)) then
    let* s := update_ddt u (fun d => set_ddt_bpb (ddt_defbpb d) d) s in
    Some (S_DONE, s)
  else
    let* s := update_ddt u (take_boot dtb (mem s)) s in
    let b := bpb_in dtb (mem s) in
    let count := total_sectors b in
    let secs_per_cyl := u16 (bpb_nheads b * bpb_nsecs b) in
    if secs_per_cyl =? 0 then
      let* s := tmark u s in Some (failure E_FAILURE, s)
    else
      let* s := update_ddt u (set_ddt_ncyl (u16 (u32 (count + (secs_per_cyl - 1)) / secs_per_cyl))) s in
      let* s := tmark u s in
      Some (0, s).

(** ** Requests *)

(** hdr/device.h:258-266 *)
Record gblkio := Gblkio {
  gbio_spcfunbit : Z;
  gbio_devtype : Z;
  gbio_devattrib : Z;
  gbio_ncyl : Z;
  gbio_media : Z;
  gbio_bpb : bpb;
  gbio_nsecs : Z }.
(** hdr/device.h:268-274 *)
Record gblkfv := Gblkfv { gbfv_spcfunbit : Z; gbfv_head : Z; gbfv_cyl : Z; gbfv_ntracks : Z }.
(** hdr/device.h:276-284 *)
Record gblkrw := Gblkrw {
  gbrw_head : Z; gbrw_cyl : Z; gbrw_sector : Z; gbrw_nsecs : Z; gbrw_buffer : farptr }.
(** hdr/device.h:286-291 *)
Record Gioc_media := Gioc { ioc_serialno : Z; ioc_volume : list Z; ioc_fstype : list Z }.
(** hdr/device.h:293-296 *)
Record Access_info := AInfo { AI_Flag : Z }.

(** The parameter block of a generic request, as the function reads it.
    hdr/device.h:373-380 *)
Inductive gen_param :=
  | r_io (p : gblkio)
  | r_rw (p : gblkrw)
  | r_fv (p : gblkfv)
  | r_gioc (p : Gioc_media)
  | r_ai (p : Access_info).

(** A request; [r_bpptr] is the drive whose BPB the pointer designates.
    hdr/device.h:334-383 *)
Record request := Request {
  r_unit : Z;
  r_command : Z;
  r_mcretcode : Z;
  r_bpptr : option Z;
  r_trans : farptr;
  r_count : Z;
  r_start : Z;
  r_huge : Z;
  r_cat : Z;
  r_fun : Z;
  r_par : gen_param }.

Definition set_r_unit v (r : request) : request :=
  Request v (r_command r) (r_mcretcode r) (r_bpptr r) (r_trans r) (r_count r) (r_start r) (r_huge r) (r_cat r)
    (r_fun r) (r_par r).
Definition set_r_mcretcode v (r : request) : request :=
  Request (r_unit r) (r_command r) v (r_bpptr r) (r_trans r) (r_count r) (r_start r) (r_huge r) (r_cat r)
    (r_fun r) (r_par r).
Definition set_r_bpptr v (r : request) : request :=
  Request (r_unit r) (r_command r) (r_mcretcode r) v (r_trans r) (r_count r) (r_start r) (r_huge r) (r_cat r)
    (r_fun r) (r_par r).
Definition set_r_count v (r : request) : request :=
  Request (r_unit r) (r_command r) (r_mcretcode r) (r_bpptr r) (r_trans r) v (r_start r) (r_huge r) (r_cat r)
    (r_fun r) (r_par r).
Definition set_r_par v (r : request) : request :=
  Request (r_unit r) (r_command r) (r_mcretcode r) (r_bpptr r) (r_trans r) (r_count r) (r_start r) (r_huge r)
    (r_cat r) (r_fun r) v.

(** A handler answers the status, the request and the state. *)
Definition reply : Type := option (Z * request * disks B).

(** kernel/dsk.c:255-283 *)
Definition mediachk (r : request) (u : Z) (s : disks B) : reply :=
  let* d := at_ (ddts s) u in
  if has (ddt_descflags d) DF_REFORMAT then
    let* s := update_ddt u (fun d => set_ddt_flags (clear DF_REFORMAT (ddt_descflags d)) d) s in
    Some (S_DONE, set_r_mcretcode (u8 M_CHANGED) r, s)
  else if has (ddt_descflags d) DF_DISKCHANGE then
    let* s := update_ddt u (fun d => set_ddt_flags (clear DF_DISKCHANGE (ddt_descflags d)) d) s in
    Some (S_DONE, set_r_mcretcode M_DONT_KNOW r, s)
  else
    let* (change, s) := diskchange u s in
    let r := set_r_mcretcode (u8 change) r in
    if r_mcretcode r =? M_DONT_KNOW then
      let* d := at_ (ddts s) u in
      let serialno := ddt_serialno d in
      let* (result, s) := getbpb u s in
      if negb (result =? 0) then Some (result, r, s)
      else
        let* d := at_ (ddts s) u in
        Some (S_DONE, (if serialno =? ddt_serialno d then r else set_r_mcretcode (u8 M_CHANGED) r), s)
    else Some (S_DONE, r, s).

(** kernel/dsk.c:465-474 *)
Definition bldbpb (r : request) (u : Z) (s : disks B) : reply :=
  let* (result, s) := getbpb u s in
  if negb (result =? 0) then Some (result, r, s)
  else Some (S_DONE, set_r_bpptr (Some u) r, s).

(** kernel/dsk.c:301-322 *)
Definition Getlogdev (r : request) (u : Z) (s : disks B) : reply :=
  let* d := at_ (ddts s) u in
  if negb (has (ddt_descflags d) DF_MULTLOG) then Some (S_DONE, set_r_unit 0 r, s)
  else
    let* i := find_current (Z.to_nat (units s)) 0 (ddt_driveno d) (ddts s) in
    Some (S_DONE, set_r_unit (u8 (i + 1)) r, s).

(** kernel/dsk.c:324-334 *)
Definition Setlogdev (r : request) (u : Z) (s : disks B) : reply :=
  let unit := r_unit r in
  let* (_, r, s) := Getlogdev r u s in
  if r_unit r =? 0 then Some (S_DONE, r, s)
  else
    let* s := update_ddt (r_unit r - 1) (fun d => set_ddt_flags (clear DF_CURLOG (ddt_descflags d)) d) s in
    let* s := update_ddt u (fun d => set_ddt_flags (Z.lor (ddt_descflags d) DF_CURLOG) d) s in
    Some (S_DONE, set_r_unit (u8 (unit + 1)) r, s).

(** kernel/dsk.c:336-342 *)
Definition blk_Open (r : request) (u : Z) (s : disks B) : reply :=
  let* s := update_ddt u (fun d => set_ddt_FileOC (u16 (ddt_FileOC d + 1)) d) s in
  Some (S_DONE, r, s).
(** kernel/dsk.c:344-350 *)
Definition blk_Close (r : request) (u : Z) (s : disks B) : reply :=
  let* s := update_ddt u (fun d => set_ddt_FileOC (u16 (ddt_FileOC d - 1)) d) s in
  Some (S_DONE, r, s).

(** kernel/dsk.c:352-358 *)
Definition blk_nondr (r : request) (u : Z) (s : disks B) : reply := Some (Z.lor S_BUSY S_DONE, r, s).
(** kernel/dsk.c:360-368 *)
Definition blk_Media (r : request) (u : Z) (s : disks B) : reply :=
  let* d := at_ (ddts s) u in
  Some ((if hd (ddt_descflags d) then Z.lor S_BUSY S_DONE else S_DONE), r, s).
(** kernel/dsk.c:806-812 *)
Definition blk_error (r : request) (u : Z) (s : disks B) : reply := Some (failure E_FAILURE, set_r_count 0 r, s).
(** kernel/dsk.c:814-820 *)
Definition blk_noerr (r : request) (u : Z) (s : disks B) : reply := Some (S_DONE, r, s).

(** kernel/dsk.c:476-497 *)
Definition IoctlQueblk (r : request) (u : Z) (s : disks B) : reply :=
  if ((r_cat r =? 8) || (r_cat r =? 0x48)) && bool_decide (r_fun r ∈ [0x46; 0x47; 0x60; 0x66; 0x67])
  then Some (S_DONE, r, s) else Some (failure E_CMD, r, s).

(** The arguments are signed words.
    kernel/dsk.c:499-509 *)
Definition Genblockio (u mode head track sector count : Z) (buffer : farptr) (s : disks B) :
    option (Z * disks B) :=
  let* d := at_ (ddts s) u in
  let b := ddt_bpb d in
  let lba := u32 (u32 (s16 track * bpb_nheads b + s16 head) * bpb_nsecs b + ddt_offset d + s16 sector) in
  let* (ret, _, s) := LBA_Transfer u mode buffer lba (u16 count) s in
  Some (ret, s).

(** ** Generic requests *)

(** 31 bytes, that is all up to the extended flags, or the whole structure.
    kernel/dsk.c:541-545 *)
Definition copy_bpb (extended : bool) (src dst : bpb) : bpb :=
  if extended then src
  else Bpb (bpb_nbyte src) (bpb_nsector src) (bpb_nreserved src) (bpb_nfat src) (bpb_ndirent src) (bpb_nsize src)
         (bpb_mdesc src) (bpb_nfsect src) (bpb_nsecs src) (bpb_nheads src) (bpb_hidden src) (bpb_huge src)
         (bpb_xnfsect src) (bpb_xflags src) (bpb_xfsversion dst) (bpb_xrootclst dst) (bpb_xfsinfosec dst)
         (bpb_xbackupsec dst).

(** kernel/dsk.c:527-548 *)
Definition set_parameters (extended : bool) (g : gblkio) (d : ddt) : ddt :=
  let d := set_ddt_type (gbio_devtype g) d in
  let d := set_ddt_flags (Z.lor (Z.lor (clear 3 (ddt_descflags d)) (Z.land (gbio_devattrib g) 3))
                            (Z.lor DF_DPCHANGED DF_REFORMAT)) d in
  let d := set_ddt_ncyl (gbio_ncyl g) d in
  if Z.land (gbio_spcfunbit g) 0x01 =? 0
  then set_ddt_defbpb (copy_bpb extended (gbio_bpb g) (ddt_defbpb d)) d
  else set_ddt_bpb (copy_bpb extended (gbio_bpb g) (ddt_bpb d)) d.

(** kernel/dsk.c:699-721 *)
Definition get_parameters (extended : bool) (d : ddt) (g : gblkio) : gblkio :=
  let b := if Z.land (gbio_spcfunbit g) 0x01 =? 0 then ddt_defbpb d else ddt_bpb d in
  Gblkio (gbio_spcfunbit g) (ddt_type d) (Z.land (ddt_descflags d) 3) (ddt_ncyl d)
    (Z.b2z ((ddt_type d =? 1) && (ddt_ncyl d =? 40))) (copy_bpb extended b (gbio_bpb g)) (gbio_nsecs g).

Definition set_fv (v : Z) (f : gblkfv) : gblkfv := Gblkfv v (gbfv_head f) (gbfv_cyl f) (gbfv_ntracks f).

(** The type of the diskette for the older BIOS function, when there is one.
    kernel/dsk.c:604-621 *)
Definition disk_type (d : ddt) : option Z :=
  let tracks := ddt_ncyl d in
  let secs := bpb_nsecs (ddt_bpb d) in
  let type := u8 (ddt_type d + 1) in
  if (tracks =? 40) && ((secs =? 9) || (secs =? 8)) && (type <? 3) then Some type
  else
    let type := u8 (type + 1) in
    let type := if type =? 9 then 4 else type in
    if (tracks =? 80) && (((secs =? 15) && (type =? 3)) || ((secs =? 9) && (type =? 4))) then Some type else None.

(** A handler that ends here ([inl]) or goes on ([inr]).
    kernel/dsk.c:576-623 *)
Definition set_media_type (f : gblkfv) (d : ddt) (s : disks B) : (Z * gblkfv + unit) * disks B :=
  let '(ret, vector, b) := fl_setmediatype (ddt_driveno d) (ddt_ncyl d) (bpb_nsecs (ddt_bpb d)) (bios s) in
  let s := set_bios b (match vector with Some v => set_int1e v s | None => s end) in
  if ret =? 0xc then (inl (dskerr ret, set_fv 2 f), s)
  else if ret =? 0x80 then (inl (dskerr ret, set_fv 3 f), s)
  else if negb (ret =? 0) then
    let '(ret, s) :=
      if has (gbfv_spcfunbit f) 1
      then transfer_chs op_read (ddt_driveno d) (Chs 0 0 1) 1 DiskTransferBuffer s else (0, s) in
    if negb (ret =? 0) then (inl (dskerr ret, set_fv 3 f), s)
    else match disk_type d with
         | None => (inl (dskerr 0xc, set_fv 2 f), s)
         | Some type => (inr tt, set_bios (fl_setdisktype (ddt_driveno d) type (bios s)) s)
         end
  else (inr tt, s).

(** The address fields of a track: track, head, sector and the size of a sector.
    kernel/dsk.c:640-642 *)
Definition address_fields (track head nsecs : Z) : list Z :=
  concat (map (fun sector => [track; head; sector; 2]) (seqZ 1 nsecs)).

(** The loop over the tracks; the track and the head it formats do not change in
    it.  More sectors than the buffer holds are a stray access.
    kernel/dsk.c:632-649 *)
Fixpoint format_loop (tracks : nat) (u track head : Z) (s : disks B) : option (option Z * disks B) :=
  match tracks with
  | O => Some (None, s)
  | S tracks =>
      let* d := at_ (ddts s) u in
      let nsecs := bpb_nsecs (ddt_bpb d) in
      if ddt_ncyl d <? track then Some (Some (failure E_FAILURE), s)
      else if 128 <? nsecs then None
      else
        let s := set_mem (store dtb (address_fields track head nsecs) (mem s)) s in
        let* (ret, s) := Genblockio u LBA_FORMAT head track 0 nsecs DiskTransferBuffer s in
        if negb (ret =? 0) then Some (Some (dskerr ret), s)
        else format_loop tracks u track head s
  end.

(** kernel/dsk.c:660-672 *)
Definition verify_track (r : request) (f : gblkfv) (u : Z) (s : disks B) : reply :=
  let* d := at_ (ddts s) u in
  let nsecs := bpb_nsecs (ddt_defbpb d) in
  let count := if gbfv_spcfunbit f =? 0 then nsecs else gbfv_ntracks f * nsecs in
  let* (ret, s) := Genblockio u LBA_VERIFY (gbfv_head f) (gbfv_cyl f) 0 count DiskTransferBuffer s in
  if negb (ret =? 0) then Some (dskerr ret, set_r_par (r_fv f) r, s)
  else Some (S_DONE, set_r_par (r_fv (set_fv 0 f)) r, s).

(** kernel/dsk.c:558-658 *)
Definition format_track (r : request) (f : gblkfv) (u : Z) (s : disks B) : reply :=
  let* d := at_ (ddts s) u in
  let descflags := ddt_descflags d in
  let* s := update_ddt u (fun d => set_ddt_flags (clear DF_DPCHANGED (ddt_descflags d)) d) s in
  if hd descflags then Some (S_DONE, set_r_par (r_fv (set_fv 1 f)) r, s)
  else
    let '(out, s) := if has descflags DF_DPCHANGED then set_media_type f d s else (inr tt, s) in
    match out with
    | inl (status, f) => Some (status, set_r_par (r_fv f) r, s)
    | inr tt =>
        if has (gbfv_spcfunbit f) 1 then Some (S_DONE, r, s)
        else
          let tracks := if has (gbfv_spcfunbit f) 2 then s16 (gbfv_ntracks f) else 1 in
          let* (out, s) := format_loop (Z.to_nat tracks) u (u8 (gbfv_cyl f)) (u8 (gbfv_head f)) s in
          match out with
          | Some status => Some (status, r, s)
          | None => verify_track r f u s
          end
    end.

(** kernel/dsk.c:722-730 *)
Definition rw_track (mode : Z) (r : request) (p : gblkrw) (u : Z) (s : disks B) : reply :=
  let* (ret, s) := Genblockio u mode (gbrw_head p) (gbrw_cyl p) (gbrw_sector p) (gbrw_nsecs p) (gbrw_buffer p) s in
  Some ((if ret =? 0 then S_DONE else dskerr ret), r, s).

(** kernel/dsk.c:673-691 *)
Definition set_serial (r : request) (p : Gioc_media) (u : Z) (s : disks B) : reply :=
  let* (ret, s) := getbpb u s in
  if negb (ret =? 0) then Some (ret, r, s)
  else
    let* d := at_ (ddts s) u in
    let v := ioc_serialno p in
    let s := set_mem (store (dtb + fs_info (ddt_bpb d))
                        [u8 v; u8 (Z.shiftr v 8); u8 (Z.shiftr v 16); u8 (Z.shiftr v 24)] (mem s)) s in
    let* s := update_ddt u (fun d => set_ddt_volume v (ddt_volume d) (ddt_fstype d) d) s in
    let* (ret, s) := RWzero u LBA_WRITE s in
    Some ((if ret =? 0 then S_DONE else dskerr ret), r, s).

(** kernel/dsk.c:731-743 *)
Definition get_serial (r : request) (u : Z) (s : disks B) : reply :=
  let* (ret, s) := getbpb u s in
  if negb (ret =? 0) then Some (ret, r, s)
  else
    let* d := at_ (ddts s) u in
    Some (S_DONE, set_r_par (r_gioc (Gioc (ddt_serialno d) (take 11 (ddt_volume d)) (take 8 (ddt_fstype d)))) r, s).

(** A parameter block of another kind than the function asks for would be misread:
    [None].
    kernel/dsk.c:511-754 *)
Definition Genblkdev (r : request) (u : Z) (s : disks B) : reply :=
  let* d := at_ (ddts s) u in
  let extended := r_cat r =? 0x48 in
  if negb extended && negb (r_cat r =? 8) then Some (failure E_CMD, r, s)
  else
    match r_fun r, r_par r with
    | 0x40, r_io g => let* s := update_ddt u (set_parameters extended g) s in Some (S_DONE, r, s)
    | 0x41, r_rw p => rw_track LBA_WRITE r p u s
    | 0x42, r_fv f => format_track r f u s
    | 0x62, r_fv f => verify_track r f u s
    | 0x46, r_gioc p => set_serial r p u s
    | 0x47, r_ai a =>
        let flag := if AI_Flag a =? 0 then DF_NOACCESS else 0 in
        let* s := update_ddt u (fun d => set_ddt_flags (Z.lor (clear DF_NOACCESS (ddt_descflags d)) flag) d) s in
        Some (S_DONE, r, s)
    | 0x60, r_io g => Some (S_DONE, set_r_par (r_io (get_parameters extended d g)) r, s)
    | 0x61, r_rw p => rw_track LBA_READ r p u s
    | 0x66, r_gioc _ => get_serial r u s
    | 0x67, r_ai _ =>
        Some (S_DONE, set_r_par (r_ai (AInfo (if has (ddt_descflags d) DF_NOACCESS then 0 else 1))) r, s)
    | (0x40 | 0x41 | 0x42 | 0x62 | 0x46 | 0x47 | 0x60 | 0x61 | 0x66 | 0x67), _ => None
    | _, _ => Some (failure E_CMD, r, s)
    end.

(** ** Reading and writing *)

(** kernel/dsk.c:765-778 *)
Definition action_of (command : Z) (s : disks B) : option Z :=
  if command =? C_INPUT then Some LBA_READ
  else if command =? C_OUTPUT then Some LBA_WRITE
  else if command =? C_OUTVFY then Some (LBA_WRITE_VERIFY s)
  else None.

(** kernel/dsk.c:784-784 *)
Definition start_sector (r : request) : Z := if r_start r =? HUGECOUNT then r_huge r else r_start r.

(** The sectors of the drive.
    kernel/dsk.c:785-786 *)
Definition drive_size (d : ddt) : Z := total_sectors (geometry d).

(** kernel/dsk.c:756-804 *)
Definition blockio (r : request) (u : Z) (s : disks B) : reply :=
  match action_of (r_command r) s with
  | None => Some (failure E_FAILURE, r, s)
  | Some action =>
      let* d := at_ (ddts s) u in
      if has (ddt_descflags d) DF_NOACCESS then Some (failure E_FAILURE, r, s)
      else
        let* s := tmark u s in
        let start := start_sector r in
        let size := drive_size d in
        if (size <=? start) || (size <? u32 (start + r_count r)) then Some (0x0408, r, s)
        else
          let* (ret, done, s) := LBA_Transfer u action (r_trans r) (u32 (start + ddt_offset d)) (r_count r) s in
          Some ((if ret =? 0 then S_DONE else dskerr ret), set_r_count done r, s)
  end.

(** ** The dispatch *)

(** kernel/dsk.c:136-165 *)
Definition dispatch : list (request -> Z -> disks B -> reply) :=
  [blk_error; mediachk; bldbpb; blk_error; blockio; blk_nondr; blk_noerr; blk_noerr; blockio; blockio;
   blk_noerr; blk_noerr; blk_error; blk_Open; blk_Close; blk_Media; blk_noerr; blk_error; blk_error; Genblkdev;
   blk_error; blk_error; blk_error; Getlogdev; Setlogdev; IoctlQueblk].

(** kernel/dsk.c:173-183 *)
Definition blk_driver (r : request) (s : disks B) : reply :=
  if (units s <=? r_unit r) && negb (r_command r =? C_INIT) then Some (failure E_UNIT, r, s)
  else if NENTRY <? r_command r then Some (failure E_FAILURE, r, s)
  else
    let* handler := at_ dispatch (r_command r) in
    handler r (r_unit r) s.

End driver.
