(* ===== verification/DiskdrvSpec.v ===== *)
(** * The disk driver: what moves between disks and memory

    The BIOS is described by the bytes of its drives; the driver's loop over pieces
    of a transfer, with its retries, its bounce buffer and its cuts at tracks and at
    64K boundaries, is one transfer of all the sectors. *)

From S2P Require Import Prelude Hdr Bytes Blockio Media Chario Diskdrv.

(** ** What the BIOS does *)

(** A transfer of [n] sectors from sector [lba] of a drive and address [a], from
    memory [m] and disks [b]: what it may touch, whether it succeeds or not. *)
Section effects.
  Context {B : Type} (disk_byte : B -> Z -> Z -> Z).

Definition inside (x a n : Z) : Prop := a <= x < a + n.

Definition same_disks (b b' : B) : Prop := forall d x, disk_byte b' d x = disk_byte b d x.
Definition same_outside (a n : Z) (m m' : memory) : Prop := forall x, ~ inside x a n -> m' x = m x.
Definition same_disks_outside (drive lba n : Z) (b b' : B) : Prop :=
  forall d x, ~ (d = drive /\ inside x (512 * lba) (512 * n)) -> disk_byte b' d x = disk_byte b d x.

Definition touched (op : bios_op) (drive lba n a : Z) (m : memory) (b : B) (m' : memory) (b' : B) : Prop :=
  match op with
  | op_read => same_outside a (512 * n) m m' /\ same_disks b b'
  | op_verify => (forall x, m' x = m x) /\ same_disks b b'
  | op_write | op_format => (forall x, m' x = m x) /\ same_disks_outside drive lba n b b'
  end.

(** What it has moved when it succeeds. *)
Definition moved (op : bios_op) (drive lba n a : Z) (m : memory) (b : B) (m' : memory) (b' : B) : Prop :=
  match op with
  | op_read => forall i, 0 <= i < 512 * n -> m' (a + i) = disk_byte b drive (512 * lba + i)
  | op_write => forall i, 0 <= i < 512 * n -> disk_byte b' drive (512 * lba + i) = m (a + i)
  | op_verify | op_format => True
  end.
End effects.

(** The transfer stays in a 64K page of the DMA controller. *)
Definition dma_fits (a n : Z) : Prop := 1 <= n /\ a mod 65536 + 512 * n <= 65536.

(** The function numbers of the calls with linear addresses. *)
Definition lba_op (mode : Z) : option bios_op :=
  if mode =? 0x4200 then Some op_read
  else if (mode =? 0x4300) || (mode =? 0x4301) || (mode =? 0x4302) then Some op_write
  else if mode =? 0x4400 then Some op_verify else None.

(** What the interrupt 13h is documented to do: a transfer that stays in a track,
    or has a linear address, and stays in a 64K page. *)
Class DiskBiosLaws (B : Type) `{!DiskBios B} := {
  disk_byte : B -> Z -> Z -> Z;
  bios_heads : Z -> Z;
  bios_sectors : Z -> Z;
  bios_geometry d : 1 <= bios_heads d <= 256 /\ 1 <= bios_sectors d <= 63;
  fl_transfer_law op d head cyl sect n p m b e m' b' :
    fl_transfer op d head cyl sect n p m b = (e, m', b') ->
    0 <= head < bios_heads d -> 0 <= cyl < 1024 -> 1 <= sect -> sect + n <= bios_sectors d + 1 ->
    dma_fits (linear p) n ->
    let lba := (cyl * bios_heads d + head) * bios_sectors d + (sect - 1) in
    touched disk_byte op d lba n (linear p) m b m' b' /\
    (e = 0 -> moved disk_byte op d lba n (linear p) m b m' b');
  fl_lba_law op d mode n p lba m b e m' b' :
    fl_lba_ReadWrite d mode (Dap n p lba) m b = (e, m', b') -> lba_op mode = Some op ->
    n <= 127 -> dma_fits (linear p) n -> 0 <= lba < 4294967296 ->
    touched disk_byte op d lba n (linear p) m b m' b' /\
    (e = 0 -> moved disk_byte op d lba n (linear p) m b m' b');
  fl_reset_law d b : same_disks disk_byte b (fl_reset d b);
  fl_put_string_law l b : same_disks disk_byte b (fl_put_string l b);
  fl_readkey_law b : same_disks disk_byte b (fl_readkey b);
  floppy_change_law x b : same_disks disk_byte b (snd (floppy_change x b));
  fl_clock_law b : same_disks disk_byte b (snd (fl_clock b));
  fl_diskchanged_law d b : same_disks disk_byte b (snd (fl_diskchanged d b)) }.

Section algebra.
  Context {B : Type} (db : B -> Z -> Z -> Z).

#[export] Instance same_disks_preorder : PreOrder (same_disks db).
Proof. split; [by intros b d x|]. intros a b c H1 H2 d x. by rewrite H2, H1. Qed.
#[export] Instance same_outside_preorder a n : PreOrder (same_outside a n).
Proof. split; [by intros m x|]. intros m1 m2 m3 H1 H2 x Hx. rewrite H2, H1; done. Qed.
#[export] Instance same_disks_outside_preorder d l n : PreOrder (same_disks_outside db d l n).
Proof. split; [by intros b e x|]. intros b1 b2 b3 H1 H2 e x Hx. rewrite H2, H1; done. Qed.

Lemma same_disks_outside_intro d l n b b' : same_disks db b b' -> same_disks_outside db d l n b b'.
Proof. intros H e x _. apply H. Qed.

Lemma same_outside_grow a n a' n' m m' :
  same_outside a n m m' -> a' <= a -> a + n <= a' + n' -> same_outside a' n' m m'.
Proof. intros H H1 H2 x Hx. apply H. unfold inside in *. lia. Qed.

Lemma same_disks_outside_grow d l n l' n' b b' :
  same_disks_outside db d l n b b' -> l' <= l -> l + n <= l' + n' -> same_disks_outside db d l' n' b b'.
Proof. intros H H1 H2 e x Hx. apply H. unfold inside in *. lia. Qed.

Lemma touched_refl op d l n a m b : touched db op d l n a m b m b.
Proof. destruct op; done. Qed.

Lemma touched_trans op d l n a m1 b1 m2 b2 m3 b3 :
  touched db op d l n a m1 b1 m2 b2 -> touched db op d l n a m2 b2 m3 b3 -> touched db op d l n a m1 b1 m3 b3.
Proof.
  destruct op; intros [Hm1 Hd1] [Hm2 Hd2]; (split; [|by etransitivity]);
    solve [by etransitivity | intros x; by rewrite Hm2, Hm1].
Qed.

Lemma touched_grow op d l n n' a m b m' b' :
  touched db op d l n a m b m' b' -> n <= n' -> touched db op d l n' a m b m' b'.
Proof.
  destruct op; intros [Hm Hd] Hn; split; try done.
  - apply (same_outside_grow a (512 * n)); [done|lia|lia].
  - apply (same_disks_outside_grow d l n); [done|lia|lia].
  - apply (same_disks_outside_grow d l n); [done|lia|lia].
Qed.

(** A failed attempt does not change what a later one moves. *)
Lemma touched_moved op d l n k a m1 b1 m2 b2 m3 b3 :
  touched db op d l n a m1 b1 m2 b2 -> moved db op d l k a m2 b2 m3 b3 -> moved db op d l k a m1 b1 m3 b3.
Proof.
  destruct op; intros [Hm Hd] Hmv; try done; intros i Hi; rewrite Hmv by done; [apply Hd|apply Hm].
Qed.

Lemma touched_same_disks op d l n a m b m' b' b'' :
  touched db op d l n a m b m' b' -> same_disks db b' b'' -> touched db op d l n a m b m' b''.
Proof.
  destruct op; intros [Hm Hd] H; (split; [done|]); etransitivity; eauto using same_disks_outside_intro.
Qed.

Lemma moved_same_disks op d l n a m b m' b' b'' :
  moved db op d l n a m b m' b' -> same_disks db b' b'' -> moved db op d l n a m b m' b''.
Proof. destruct op; intros Hm H; try done. intros i Hi. rewrite H. by apply Hm. Qed.

(** A verification after a write. *)
Lemma verify_after op d l n a m b m' b' m'' b'' :
  touched db op d l n a m b m' b' -> touched db op_verify d l n a m' b' m'' b'' ->
  touched db op d l n a m b m'' b'' /\ (moved db op d l n a m b m' b' -> moved db op d l n a m b m'' b'').
Proof.
  intros Ht [Hm Hd]. split.
  - eapply touched_trans; [exact Ht|]. destruct op; split; try done.
    + intros x _. apply Hm.
    + by apply same_disks_outside_intro.
    + by apply same_disks_outside_intro.
  - intros Hmv. destruct op; try done; intros i Hi.
    + rewrite Hm. by apply Hmv.
    + rewrite Hd. by apply Hmv.
Qed.

End algebra.

(** ** Addresses *)

Lemma linear_adjust p :
  0 <= fp_seg p < 65536 -> 0 <= fp_off p < 65536 -> linear p < 1048576 ->
  linear (adjust_far p) = linear p /\ 0 <= fp_seg (adjust_far p) < 65536 /\ 0 <= fp_off (adjust_far p) < 16.
Proof.
  intros Hs Ho Hl. unfold adjust_far, linear in *. destruct (Z.eqb_spec (fp_seg p) 65535) as [E|E].
  - lia.
  - cbn [fp_seg fp_off]. rewrite (land_ones_mod (fp_off p) 4 ltac:(lia) : Z.land (fp_off p) 15 = _).
    rewrite Z.shiftr_div_pow2 by lia. change (2 ^ 4) with 16.
    rewrite u16_id by (Z.div_mod_to_equations; lia). Z.div_mod_to_equations. lia.
Qed.

Lemma linear_mod p : u16 (Z.shiftl (fp_seg p) 4 + fp_off p) = linear p mod 65536.
Proof. unfold u16, linear. rewrite Z.shiftl_mul_pow2 by lia. change (2 ^ 4) with 16. f_equal. lia. Qed.

Lemma dma_fits_less a n k : dma_fits a n -> 1 <= k <= n -> dma_fits a k.
Proof. unfold dma_fits. lia. Qed.

(** A piece of a transfer is never larger than what fits. *)
Lemma DMA_max_spec p total :
  1 <= total -> let k := DMA_max_transfer p total in
  0 <= k <= total /\ k <= 127 /\ (k <> 0 -> dma_fits (linear p) k).
Proof.
  intros Ht. unfold DMA_max_transfer. rewrite linear_mod. unfold dma_fits, SEC_SIZE.
  pose proof (Z.mod_pos_bound (linear p) 65536 ltac:(lia)) as Hm. set (r := linear p mod 65536) in *.
  change (65535 / 512) with 127. destruct (Z.eqb_spec r 0) as [E|E]; [lia|].
  assert (u16 (- r) = 65536 - r) as ->.
  { unfold u16. symmetry. apply Z.mod_unique with (-1); lia. }
  Z.div_mod_to_equations. lia.
Qed.

(** A table is replaced. *)
Lemma update_at {B} u f d (s : disks B) :
  at_ (ddts s) u = Some d ->
  exists s', update_ddt u f s = Some s' /\ at_ (ddts s') u = Some (f d) /\ s' = set_ddts (ddts s') s.
Proof.
  intros Hd. unfold update_ddt. rewrite Hd. destruct (at_lookup _ _ _ Hd) as [Hu Hl].
  apply lookup_lt_Some in Hl as Hlen. rewrite set_at_spec by lia. eexists. split; [done|]. split; [|done]. cbn.
  unfold at_. rewrite (proj2 (Z.ltb_ge _ _)) by lia. by rewrite list_lookup_insert_eq by lia.
Qed.

(** ** Attempts and retries *)

Section transfers.
  Context {B : Type} `{DiskBiosLaws B}.
  Implicit Types s : disks B.

Definition same_tables s s' : Prop :=
  ddts s' = ddts s /\ units s' = units s /\ LBA_WRITE_VERIFY s' = LBA_WRITE_VERIFY s /\ int1e s' = int1e s.

#[export] Instance same_tables_preorder : PreOrder same_tables.
Proof. split; [by intros s|]. intros a b c. unfold same_tables. intuition congruence. Qed.

Definition touched_s (op : bios_op) (drive lba n a : Z) s s' : Prop :=
  touched disk_byte op drive lba n a (mem s) (bios s) (mem s') (bios s').
Definition moved_s (op : bios_op) (drive lba n a : Z) s s' : Prop :=
  moved disk_byte op drive lba n a (mem s) (bios s) (mem s') (bios s').

(** The geometry the driver computes with is that of the BIOS. *)
Definition chs_ok (d : ddt) : Prop :=
  bpb_nheads (geometry d) = bios_heads (ddt_driveno d) /\
  bpb_nsecs (geometry d) = bios_sectors (ddt_driveno d) /\
  bpb_nsecs (ddt_bpb d) = bios_sectors (ddt_driveno d).

Definition addressable (d : ddt) : Prop := has (ddt_descflags d) DF_LBA = true \/ chs_ok d.

(** The sectors a drive can address. *)
Definition in_reach (d : ddt) (lba : Z) : Prop :=
  has (ddt_descflags d) DF_LBA = true \/
  lba < 1024 * (bios_heads (ddt_driveno d) * bios_sectors (ddt_driveno d)).

(** A BIOS that completes every transfer it is documented to do. *)
Definition bios_reliable : Prop :=
  (forall op d head cyl sect n p m (b : B), 0 <= head < bios_heads d -> 0 <= cyl < 1024 -> 1 <= sect ->
    sect + n <= bios_sectors d + 1 -> dma_fits (linear p) n ->
    fst (fst (fl_transfer op d head cyl sect n p m b)) = 0) /\
  (forall d mode op n p lba m (b : B), lba_op mode = Some op -> n <= 127 -> dma_fits (linear p) n ->
    0 <= lba < 4294967296 -> fst (fst (fl_lba_ReadWrite d mode (Dap n p lba) m b)) = 0).

Definition verify_mode s : Prop := LBA_WRITE_VERIFY s = 0x4301 \/ LBA_WRITE_VERIFY s = 0x4302.

Lemma lba_op_not_format mode op : lba_op mode = Some op -> (mode =? LBA_FORMAT) = false.
Proof. intros Hm. destruct (Z.eqb_spec mode LBA_FORMAT) as [->|]; done. Qed.

Lemma op_of_lba mode op : lba_op mode = Some op -> op_of mode = op.
Proof.
  unfold lba_op, op_of, LBA_READ, LBA_VERIFY, LBA_FORMAT. destruct (Z.eqb_spec mode 16896) as [->|]; [congruence|].
  destruct (Z.eqb_spec mode 0x4300) as [->|]; [cbn; congruence|].
  destruct (Z.eqb_spec mode 0x4301) as [->|]; [cbn; congruence|].
  destruct (Z.eqb_spec mode 0x4302) as [->|]; [cbn; congruence|]. cbn.
  destruct (Z.eqb_spec mode 17408) as [->|]; congruence.
Qed.

Lemma transfer_lba_spec d mode op n p lba s e s' :
  transfer_lba d mode (Dap n p lba) s = (e, s') -> lba_op mode = Some op -> n <= 127 -> dma_fits (linear p) n ->
  0 <= lba < 4294967296 ->
  same_tables s s' /\ touched_s op d lba n (linear p) s s' /\ (e = 0 -> moved_s op d lba n (linear p) s s') /\
  (bios_reliable -> e = 0).
Proof.
  unfold transfer_lba. destruct (fl_lba_ReadWrite _ _ _ _ _) as [[e' m'] b'] eqn:E. intros [= <- <-] Ho Hn Hf Hl.
  split; [done|]. pose proof (fl_lba_law _ _ _ _ _ _ _ _ _ _ _ E Ho Hn Hf Hl) as [Ht Hm].
  split; [done|]. split; [done|]. intros [_ Hr]. specialize (Hr d mode op n p lba (mem s) (bios s) Ho Hn Hf Hl).
  by rewrite E in Hr.
Qed.

Lemma verify_op_write s mode op : verify_mode s -> mode = LBA_WRITE_VERIFY s -> lba_op mode = Some op -> op = op_write.
Proof. intros [Hv|Hv] ->; rewrite Hv; intros [= <-]; done. Qed.

Lemma attempt_lba_spec d mode op lba n p s e s' :
  attempt_lba d mode lba n p s = (e, s') -> verify_mode s -> lba_op mode = Some op -> n <= 127 ->
  dma_fits (linear p) n -> 0 <= lba < 4294967296 ->
  same_tables s s' /\ touched_s op (ddt_driveno d) lba n (linear p) s s' /\
  (e = 0 -> moved_s op (ddt_driveno d) lba n (linear p) s s') /\ (bios_reliable -> e = 0).
Proof.
  unfold attempt_lba. intros Ha Hv Ho Hn Hf Hl. rewrite u8_id in Ha by (destruct Hf; lia).
  destruct (has (ddt_descflags d) DF_WRTVERIFY || negb (mode =? LBA_WRITE_VERIFY s)) eqn:E.
  { eapply transfer_lba_spec; eauto. }
  apply orb_false_iff in E as [_ E]. apply negb_false_iff, Z.eqb_eq in E.
  pose proof (verify_op_write _ _ _ Hv E Ho) as ->.
  destruct (transfer_lba _ LBA_WRITE _ s) as [e1 s1] eqn:E1.
  pose proof (transfer_lba_spec _ _ op_write _ _ _ _ _ _ E1 eq_refl Hn Hf Hl) as (T1 & Ht1 & Hm1 & R1).
  destruct (Z.eqb_spec e1 0) as [->|Hne].
  - pose proof (transfer_lba_spec _ _ op_verify _ _ _ _ _ _ Ha eq_refl Hn Hf Hl) as (T2 & Ht2 & _ & R2).
    split; [by etransitivity|]. destruct (verify_after disk_byte _ _ _ _ _ _ _ _ _ _ _ Ht1 Ht2) as [Ht Hm].
    split; [exact Ht|]. split; [|done]. intros _. apply Hm. by apply Hm1.
  - injection Ha as <- <-. done.
Qed.

Lemma LBA_to_CHS_spec d lba :
  chs_ok d -> 0 <= lba < 4294967296 ->
  exists r, LBA_to_CHS lba d = Some r /\
    match r with
    | None => ~ lba < 1024 * (bios_heads (ddt_driveno d) * bios_sectors (ddt_driveno d))
    | Some c => 0 <= Head c < bios_heads (ddt_driveno d) /\ 0 <= Cylinder c < 1024 /\
        1 <= Sector c <= bios_sectors (ddt_driveno d) /\
        lba = (Cylinder c * bios_heads (ddt_driveno d) + Head c) * bios_sectors (ddt_driveno d) + (Sector c - 1)
    end.
Proof.
  intros (Hh & Hs & _) Hl. unfold LBA_to_CHS. rewrite Hh, Hs.
  destruct (bios_geometry (B := B) (ddt_driveno d)) as [Gh Gs].
  set (h := bios_heads _) in *. set (n := bios_sectors _) in *.
  assert (1 <= n * h <= 16128) by nia. rewrite (u16_id (n * h)) by lia.
  rewrite (proj2 (Z.eqb_neq (n * h) 0)) by lia.
  pose proof (Z.div_mod lba (n * h) ltac:(lia)) as Hd.
  pose proof (Z.mod_pos_bound lba (n * h) ltac:(lia)) as Hr.
  set (q := lba / (n * h)) in *. set (r := lba mod (n * h)) in *.
  destruct (Z.ltb_spec 1023 q) as [Hq|Hq].
  - eexists. split; [done|]. cbn. nia.
  - eexists. split; [done|]. cbn [Head Cylinder Sector].
    pose proof (Z.div_mod r n ltac:(lia)) as Hd2. pose proof (Z.mod_pos_bound r n ltac:(lia)).
    assert (0 <= r / n < h) by (split; [apply Z.div_pos; lia|apply Z.div_lt_upper_bound; nia]).
    assert (0 <= q) by (apply Z.div_pos; lia). split_and!; [lia..|nia].
Qed.

Lemma transfer_chs_spec op d c n p s e s' :
  transfer_chs op d c n p s = (e, s') -> 0 <= Head c < bios_heads d -> 0 <= Cylinder c < 1024 ->
  1 <= Sector c -> Sector c + n <= bios_sectors d + 1 -> dma_fits (linear p) n ->
  let lba := (Cylinder c * bios_heads d + Head c) * bios_sectors d + (Sector c - 1) in
  same_tables s s' /\ touched_s op d lba n (linear p) s s' /\ (e = 0 -> moved_s op d lba n (linear p) s s') /\
  (bios_reliable -> e = 0).
Proof.
  unfold transfer_chs. destruct (fl_transfer _ _ _ _ _ _ _ _ _) as [[e' m'] b'] eqn:E.
  intros [= <- <-] H1 H2 H3 H4 H5. split; [done|].
  pose proof (fl_transfer_law _ _ _ _ _ _ _ _ _ _ _ _ E H1 H2 H3 H4 H5) as [Ht Hm].
  split; [done|]. split; [done|]. intros [Hr _]. specialize (Hr op d _ _ _ n p (mem s) (bios s) H1 H2 H3 H4 H5).
  by rewrite E in Hr.
Qed.

(** One attempt with cylinder, head and sector: the piece may get shorter. *)
Lemma attempt_chs_spec d mode op c n p s :
  chs_ok d -> verify_mode s -> lba_op mode = Some op -> n <= 127 -> dma_fits (linear p) n ->
  0 <= Head c < bios_heads (ddt_driveno d) -> 0 <= Cylinder c < 1024 ->
  1 <= Sector c <= bios_sectors (ddt_driveno d) ->
  let lba := (Cylinder c * bios_heads (ddt_driveno d) + Head c) * bios_sectors (ddt_driveno d) + (Sector c - 1) in
  exists e k s', attempt_chs d mode c n p s = (e, k, s') /\ 1 <= k <= n /\
    same_tables s s' /\ touched_s op (ddt_driveno d) lba k (linear p) s s' /\
    (e = 0 -> moved_s op (ddt_driveno d) lba k (linear p) s s') /\ (bios_reliable -> e = 0).
Proof.
  intros (_ & _ & Hs) Hv Ho Hn Hf Hh Hc Hsec lba. unfold attempt_chs. rewrite Hs.
  destruct (bios_geometry (B := B) (ddt_driveno d)) as [_ Gs]. pose proof Hf as [Hn1 _].
  rewrite !u16_id by lia. rewrite (op_of_lba _ _ Ho).
  set (spt := bios_sectors (ddt_driveno d)) in *.
  set (k := if spt + 1 <? Sector c + n then spt + 1 - Sector c else n).
  assert (Hk : 1 <= k <= n /\ Sector c + k <= spt + 1) by (subst k; case_bool; lia).
  assert (Hkf : dma_fits (linear p) k) by (eapply dma_fits_less; [exact Hf|lia]).
  destruct (transfer_chs op _ c k p s) as [e1 s1] eqn:E1.
  pose proof (transfer_chs_spec _ _ _ _ _ _ _ _ E1 Hh Hc ltac:(lia) ltac:(lia) Hkf) as (T1 & Ht1 & Hm1 & R1).
  destruct ((e1 =? 0) && (mode =? LBA_WRITE_VERIFY s1)) eqn:E.
  - apply andb_true_iff in E as [->%Z.eqb_eq Hm%Z.eqb_eq].
    destruct (transfer_chs op_verify _ c k p s1) as [e2 s2] eqn:E2.
    pose proof (transfer_chs_spec _ _ _ _ _ _ _ _ E2 Hh Hc ltac:(lia) ltac:(lia) Hkf) as (T2 & Ht2 & _ & R2).
    destruct (verify_after disk_byte _ _ _ _ _ _ _ _ _ _ _ Ht1 Ht2) as [Ht Hmv].
    exists e2, k, s2. split; [done|]. split; [lia|]. split; [by etransitivity|]. split; [exact Ht|].
    split; [|done]. intros _. apply Hmv. by apply Hm1.
  - exists e1, k, s1. split; [done|]. split; [lia|]. done.
Qed.

(** What a piece has done in the end. *)
Definition piece_done (op : bios_op) (d : ddt) (lba n a : Z) s s' (r : option (Z * Z)) : Prop :=
  same_tables s s' /\ touched_s op (ddt_driveno d) lba n a s s' /\
  match r with
  | None => ~ in_reach d lba
  | Some (e, k) => 1 <= k <= n /\ (e = 0 -> moved_s op (ddt_driveno d) lba k a s s')
  end.

Lemma reset_spec d s : same_tables s (set_bios (fl_reset d (bios s)) s) /\
  same_disks disk_byte (bios s) (bios (set_bios (fl_reset d (bios s)) s)).
Proof. split; [done|]. apply fl_reset_law. Qed.

(** Failed attempts before a piece count for nothing. *)
Lemma piece_done_after op d lba n n' a s s1 s2 r :
  same_tables s s1 -> touched_s op (ddt_driveno d) lba n' a s s1 -> n' <= n ->
  piece_done op d lba n' a s1 s2 r -> piece_done op d lba n a s s2 r.
Proof.
  intros Ht Hto Hn (Ht2 & Hto2 & Hr). split; [by etransitivity|]. split.
  - eapply touched_grow; [|exact Hn]. by eapply touched_trans.
  - destruct r as [[e k]|]; [|done]. destruct Hr as [Hk Hm]. split; [lia|]. intros He.
    eapply touched_moved; [exact Hto|]. by apply Hm.
Qed.

Lemma touched_reset op d d' lba n a s s' :
  touched_s op d lba n a s s' -> touched_s op d lba n a s (set_bios (fl_reset d' (bios s')) s').
Proof. intros Ht. eapply touched_same_disks; [exact Ht|]. apply fl_reset_law. Qed.

Lemma retry_spec tries u mode op lba d p n err s :
  at_ (ddts s) u = Some d -> verify_mode s -> lba_op mode = Some op -> addressable d ->
  0 <= lba < 4294967296 -> n <= 127 -> dma_fits (linear p) n -> (tries = O -> err <> 0) ->
  exists r s', retry tries u mode lba err n p s = Some (r, s') /\ piece_done op d lba n (linear p) s s' r /\
    (bios_reliable -> in_reach d lba -> tries <> O -> exists k, r = Some (0, k)).
Proof.
  revert n err s. induction tries as [|tries IH]; intros n err s Hd Hv Ho Ha Hl Hn Hf Herr.
  { exists (Some (err, n)), s. split; [done|]. split; [|done]. split; [done|].
    split; [apply touched_refl|]. split; [destruct Hf; lia|]. intros ->. by destruct Herr. }
  cbn [retry]. rewrite Hd, (lba_op_not_format _ _ Ho), andb_true_r.
  destruct (has (ddt_descflags d) DF_LBA) eqn:EL.
  - destruct (attempt_lba d mode lba n p s) as [e s1] eqn:E1.
    destruct (attempt_lba_spec _ _ _ _ _ _ _ _ _ E1 Hv Ho Hn Hf Hl) as (T1 & Ht1 & Hm1 & R1).
    pose proof T1 as (Td & _ & Tv & _).
    destruct (Z.eqb_spec e 0) as [->|He].
    + exists (Some (0, n)), s1. split; [done|]. split; [|by exists n]. split; [done|]. split; [done|].
      split; [destruct Hf; lia|]. auto.
    + destruct (IH n e (set_bios (fl_reset (ddt_driveno d) (bios s1)) s1)) as (r & s2 & -> & Hp & Hr);
        [by cbn; rewrite Td|by unfold verify_mode in *; cbn; rewrite Tv|done..|].
      exists r, s2. split; [done|]. split.
      * apply (piece_done_after op d lba n n _ s (set_bios (fl_reset (ddt_driveno d) (bios s1)) s1));
        [exact T1|by apply touched_reset|lia|exact Hp].
      * intros Hrel. by rewrite (R1 Hrel) in He.
  - destruct Ha as [Ha|Ha]; [by rewrite EL in Ha|].
    destruct (LBA_to_CHS_spec d lba Ha Hl) as (c & -> & Hc).
    destruct c as [c|].
    + destruct Hc as (Hh & Hcy & Hs & Hlba).
      destruct (attempt_chs_spec d mode op c n p s Ha Hv Ho Hn Hf Hh Hcy Hs)
        as (e & k & s1 & -> & Hk & T1 & Ht1 & Hm1 & R1). rewrite <- Hlba in *.
      pose proof T1 as (Td & _ & Tv & _).
      destruct (Z.eqb_spec e 0) as [->|He].
      * exists (Some (0, k)), s1. split; [done|]. split; [|by exists k]. split; [done|].
        split; [eapply touched_grow; [exact Ht1|lia]|]. split; [lia|]. auto.
      * destruct (IH k e (set_bios (fl_reset (ddt_driveno d) (bios s1)) s1)) as (r & s2 & -> & Hp & Hr);
          [by cbn; rewrite Td|by unfold verify_mode in *; cbn; rewrite Tv|done|by right|done|lia|
           eapply dma_fits_less; [exact Hf|lia]|done|].
        exists r, s2. split; [done|]. split.
        -- apply (piece_done_after op d lba n k _ s (set_bios (fl_reset (ddt_driveno d) (bios s1)) s1));
        [exact T1|by apply touched_reset|lia|exact Hp].
        -- intros Hrel. by rewrite (R1 Hrel) in He.
    + eexists None, _. split; [done|]. split.
      * split; [done|]. split; [eapply touched_same_disks; [apply touched_refl|apply fl_put_string_law]|].
        intros [Hx|Hx]; [by rewrite EL in Hx|done].
      * intros _ [Hx|Hx]; [by rewrite EL in Hx|done].
Qed.

(** ** The whole transfer *)

(** The driver's buffer does not cross a 64K boundary. *)
  Context (buf0 : farptr) (Hdtb : dma_fits (linear buf0) 1).
Let D := linear buf0.

(** A buffer below 1 MB that does not overlap the driver's, or is the driver's. *)
Definition usable (p : farptr) (total : Z) : Prop :=
  0 <= fp_seg p < 65536 /\ 0 <= fp_off p < 65536 /\ linear p + 512 * total <= 1048576 /\
  (D + 512 <= linear p \/ linear p + 512 * total <= D \/ (linear p = D /\ total = 1)).

(** The effect on memory, disks and the driver's buffer. *)
Definition transferred (op : bios_op) (drive lba n a : Z) s s' : Prop :=
  match op with
  | op_read => (forall x, ~ inside x a (512 * n) -> ~ inside x D 512 -> mem s' x = mem s x) /\
      same_disks disk_byte (bios s) (bios s')
  | op_verify => (forall x, mem s' x = mem s x) /\ same_disks disk_byte (bios s) (bios s')
  | op_write | op_format => same_outside D 512 (mem s) (mem s') /\
      same_disks_outside disk_byte drive lba n (bios s) (bios s')
  end.

Lemma transferred_refl op drive lba n a s : transferred op drive lba n a s s.
Proof. destruct op; done. Qed.

Lemma transferred_grow op drive lba n a lba' n' a' s s' :
  transferred op drive lba' n' a' s s' -> lba <= lba' -> lba' + n' <= lba + n -> a <= a' ->
  a' + 512 * n' <= a + 512 * n -> transferred op drive lba n a s s'.
Proof.
  destruct op; intros [Hm Hd] H1 H2 H3 H4; split; try done.
  - intros x Hx. apply Hm. unfold inside in *. lia.
  - eapply same_disks_outside_grow; [exact Hd|lia..].
  - eapply same_disks_outside_grow; [exact Hd|lia..].
Qed.

Lemma transferred_trans op drive lba n a s1 s2 s3 :
  transferred op drive lba n a s1 s2 -> transferred op drive lba n a s2 s3 -> transferred op drive lba n a s1 s3.
Proof.
  destruct op; intros [Hm1 Hd1] [Hm2 Hd2]; (split; [|by etransitivity]); try (by etransitivity);
    intros; rewrite Hm2, Hm1; done.
Qed.

Lemma touched_transferred op drive lba n a s s' :
  touched_s op drive lba n a s s' -> transferred op drive lba n a s s'.
Proof. destruct op; intros [Hm Hd]; split; try done; intros x; intros; by apply Hm. Qed.

Lemma copy_outside dst src n m x : ~ inside x dst n -> copy dst src n m x = m x.
Proof.
  unfold copy, inside. intros Hx. destruct (Z.leb_spec dst x), (Z.ltb_spec x (dst + n)); try done; lia.
Qed.
Lemma copy_inside dst src n m i : 0 <= i < n -> copy dst src n m (dst + i) = m (src + i).
Proof.
  unfold copy. intros Hi. rewrite (proj2 (Z.leb_le _ _)), (proj2 (Z.ltb_lt _ _)) by lia. cbn. f_equal. lia.
Qed.

Lemma is_write_op mode op : lba_op mode = Some op -> is_write mode = match op with op_write => true | _ => false end.
Proof.
  unfold lba_op. destruct (Z.eqb_spec mode 0x4200) as [->|]; [intros [= <-]; done|].
  destruct (Z.eqb_spec mode 0x4300) as [->|]; [intros [= <-]; done|].
  destruct (Z.eqb_spec mode 0x4301) as [->|]; [intros [= <-]; done|].
  destruct (Z.eqb_spec mode 0x4302) as [->|]; [intros [= <-]; done|].
  destruct (Z.eqb_spec mode 0x4400) as [->|]; [intros [= <-]; done|]. done.
Qed.
Lemma is_read_op mode op : lba_op mode = Some op -> is_read mode = match op with op_read => true | _ => false end.
Proof.
  unfold lba_op. destruct (Z.eqb_spec mode 0x4200) as [->|]; [intros [= <-]; done|].
  destruct (Z.eqb_spec mode 0x4300) as [->|]; [intros [= <-]; done|].
  destruct (Z.eqb_spec mode 0x4301) as [->|]; [intros [= <-]; done|].
  destruct (Z.eqb_spec mode 0x4302) as [->|]; [intros [= <-]; done|].
  destruct (Z.eqb_spec mode 0x4400) as [->|]; [intros [= <-]; done|]. done.
Qed.

(** The end of a piece: the driver's buffer is copied out after a read. *)
Definition copy_out (mode : Z) (buffer buf : farptr) s : disks B :=
  if bool_decide (buf = buf0) && is_read mode
  then set_mem (copy (linear buffer) (dtb buf0) 512 (mem s)) s else s.

(** A piece that goes to and from the buffer itself. *)
Lemma direct_piece mode op drive lba n a p k s s1 :
  lba_op mode = Some op -> a = linear p -> touched_s op drive lba n a s s1 -> moved_s op drive lba k a s s1 ->
  1 <= k <= n ->
  transferred op drive lba n a s (copy_out mode p p s1) /\ moved_s op drive lba k a s (copy_out mode p p s1).
Proof.
  intros Ho -> Ht Hm Hk. unfold copy_out. destruct (bool_decide_reflect (p = buf0)) as [->|_];
    cbn [andb]; [|by split; [apply touched_transferred|]].
  destruct (is_read mode); [|by split; [apply touched_transferred|]].
  assert (E : forall x, mem (set_mem (copy (linear buf0) (dtb buf0) 512 (mem s1)) s1) x = mem s1 x).
  { intros x. cbn. unfold copy, dtb. destruct (_ && _); [|done]. f_equal. lia. }
  destruct op; destruct Ht as [Hm1 Hd1]; (split; [split; try done|]); try done; cbv [moved_s moved same_outside] in *;
    intros; rewrite ?E; auto.
Qed.

(** A sector that goes through the driver's buffer. *)
Lemma bounced_sector mode op drive lba p s s1 :
  lba_op mode = Some op -> usable p 1 ->
  let s0 := if is_write mode then set_mem (copy (dtb buf0) (linear p) 512 (mem s)) s else s in
  touched_s op drive lba 1 D s0 s1 ->
  transferred op drive lba 1 (linear p) s s1 /\
  (moved_s op drive lba 1 D s0 s1 ->
   transferred op drive lba 1 (linear p) s (copy_out mode p buf0 s1) /\
   moved_s op drive lba 1 (linear p) s (copy_out mode p buf0 s1)).
Proof.
  intros Ho (_ & _ & _ & Hsep) s0 Ht. unfold copy_out. rewrite bool_decide_true by done. cbn [andb].
  subst s0. rewrite (is_write_op _ _ Ho) in *. rewrite (is_read_op _ _ Ho) in *.
  change (dtb buf0) with D in *.
  destruct op; destruct Ht as [Hm1 Hd1]; cbn [mem set_mem bios set_bios] in *.
  - split; [split; [|done]; intros x _ Hx; by apply Hm1|]. intros Hmv. split.
    + split; [|done]. intros x Hx1 Hx2. cbn. rewrite copy_outside by done. by apply Hm1.
    + intros i Hi. cbn in *. rewrite copy_inside by lia. by apply Hmv.
  - assert (Hc : forall x, ~ inside x D 512 -> mem s1 x = mem s x).
    { intros x Hx. rewrite Hm1. cbn. by apply copy_outside. }
    split; [by split|]. intros Hmv. split; [by split|]. intros i Hi. cbv [moved_s moved] in Hmv.
    rewrite Hmv by done. cbn. by apply copy_inside.
  - split; [done|]. intros _. split; done.
  - assert (Hc : forall x, ~ inside x D 512 -> mem s1 x = mem s x) by (intros x Hx; apply Hm1).
    split; [by split|]. intros _. by split.
Qed.

(** The length of a piece and where it goes. *)
Lemma choose_buffer_spec mode op p total s :
  lba_op mode = Some op -> 1 <= total -> usable p total ->
  let '(n, buf, s0) := choose_buffer buf0 mode p total s in
  1 <= n <= total /\ n <= 127 /\ dma_fits (linear buf) n /\ same_tables s s0 /\
  ((buf = p /\ s0 = s) \/
   (buf = buf0 /\ n = 1 /\
    s0 = if is_write mode then set_mem (copy (dtb buf0) (linear p) 512 (mem s)) s else s)).
Proof.
  intros Ho Ht _. unfold choose_buffer. destruct (DMA_max_spec p total Ht) as (Hk & Hk2 & Hf).
  set (k := DMA_max_transfer p total) in *.
  destruct ((0xa000 <=? fp_seg p) || (k =? 0)) eqn:E.
  - split; [lia|]. split; [lia|]. split; [done|]. split; [by destruct (is_write mode)|]. by right.
  - apply orb_false_iff in E as [_ E%Z.eqb_neq]. specialize (Hf E).
    split; [destruct Hf; lia|]. split; [lia|]. split; [done|]. split; [done|]. by left.
Qed.

(** A piece, from the choice of the buffer to the copy out of the driver's. *)
Lemma piece_spec u mode op lba d p total s :
  at_ (ddts s) u = Some d -> verify_mode s -> lba_op mode = Some op -> addressable d ->
  0 <= lba < 4294967296 -> 1 <= total -> usable p total ->
  let '(n, buf, s0) := choose_buffer buf0 mode p total s in
  exists r s1, retry N_RETRY u mode lba 0 n buf s0 = Some (r, s1) /\ same_tables s s1 /\
    transferred op (ddt_driveno d) lba total (linear p) s s1 /\
    (bios_reliable -> in_reach d lba -> exists k, r = Some (0, k)) /\
    match r with
    | None => True
    | Some (e, k) => 1 <= k <= total /\ k <= 127 /\
        (e = 0 -> transferred op (ddt_driveno d) lba total (linear p) s (copy_out mode p buf s1) /\
          moved_s op (ddt_driveno d) lba k (linear p) s (copy_out mode p buf s1))
    end.
Proof.
  intros Hd Hv Ho Ha Hl Ht Hu. pose proof (choose_buffer_spec mode op p total s Ho Ht Hu) as Hc.
  destruct (choose_buffer buf0 mode p total s) as [[n buf] s0].
  destruct Hc as (Hn & Hn2 & Hf & T0 & Hcase). pose proof T0 as (Td & _ & Tv & _).
  destruct (retry_spec N_RETRY u mode op lba d buf n 0 s0) as (r & s1 & -> & (T1 & Hto & Hr) & Hrel);
    [by rewrite Td|by unfold verify_mode in *; rewrite Tv|done..|].
  exists r, s1. split; [done|]. split; [by etransitivity|].
  destruct Hcase as [[-> ->]|(-> & -> & Hs0)].
  - split.
    { eapply transferred_grow; [by apply touched_transferred|lia..]. }
    split; [auto|]. destruct r as [[e k]|]; [|done]. destruct Hr as [Hk Hm].
    split; [lia|]. split; [lia|]. intros He.
    destruct (direct_piece mode op (ddt_driveno d) lba n (linear p) p k s s1) as [Ht2 Hm2]; [done|done|done|auto|done|].
    split; [|done]. eapply transferred_grow; [exact Ht2|lia..].
  - assert (Hu1 : usable p 1) by (unfold usable in *; lia). rewrite Hs0 in Hto.
    destruct (bounced_sector mode op (ddt_driveno d) lba p s s1 Ho Hu1 Hto) as [Ht1 Hm1].
    assert (Hgrow : forall s', transferred op (ddt_driveno d) lba 1 (linear p) s s' ->
      transferred op (ddt_driveno d) lba total (linear p) s s').
    { intros s' Hx. eapply transferred_grow; [exact Hx|lia..]. }
    split; [auto|]. split; [auto|]. destruct r as [[e k]|]; [|done]. destruct Hr as [Hk Hm].
    assert (k = 1) as -> by lia. split; [lia|]. split; [lia|]. intros He. rewrite Hs0 in Hm.
    destruct (Hm1 (Hm He)). auto.
Qed.

Lemma advance p total k :
  usable p total -> fp_off p < 16 -> 1 <= k < total -> k <= 127 ->
  let p' := adjust_far (far_add p (u16 (k * 512))) in
  linear p' = linear p + 512 * k /\ usable p' (total - k) /\ fp_off p' < 16.
Proof.
  intros (Hs & Ho & Hl & Hsep) Hn Hk Hk2. rewrite u16_id by lia. intros p'.
  assert (E : linear (far_add p (k * 512)) = linear p + 512 * k).
  { unfold linear, far_add. cbn [fp_seg fp_off]. rewrite u16_id by lia. lia. }
  destruct (linear_adjust (far_add p (k * 512))) as (E2 & Hs2 & Ho2); [done|cbn; apply u16_range|lia|].
  fold p' in E2, Hs2, Ho2. split; [congruence|]. split; [|lia]. unfold usable. split; [done|]. split; [lia|]. lia.
Qed.

(** The part before a piece stays moved while the rest is transferred. *)
Lemma moved_both op drive lba k n p s s1 s2 :
  1 <= k -> 0 <= n ->
  D + 512 <= linear p \/ linear p + 512 * (k + n) <= D ->
  moved_s op drive lba k (linear p) s s1 -> transferred op drive (lba + k) n (linear p + 512 * k) s1 s2 ->
  (op = op_read -> same_disks disk_byte (bios s) (bios s1)) ->
  (op = op_write -> same_outside D 512 (mem s) (mem s1)) ->
  forall j, 0 <= j <= n -> moved_s op drive (lba + k) j (linear p + 512 * k) s1 s2 ->
  moved_s op drive lba (k + j) (linear p) s s2.
Proof.
  intros Hk Hn Hsep Hm Ht Hr Hw j Hj Hm2. destruct op; try done; intros i Hi;
    destruct (decide (i < 512 * k)) as [Hlt|Hge].
  - destruct Ht as [Ht _]. rewrite Ht; [apply Hm; lia|unfold inside; lia..].
  - replace (linear p + i) with (linear p + 512 * k + (i - 512 * k)) by lia.
    rewrite Hm2 by lia. rewrite (Hr eq_refl). f_equal. lia.
  - destruct Ht as [_ Ht]. rewrite Ht; [apply Hm; lia|unfold inside; lia].
  - replace (512 * lba + i) with (512 * (lba + k) + (i - 512 * k)) by lia.
    rewrite Hm2 by lia. rewrite (Hw eq_refl) by (unfold inside; lia). f_equal. lia.
Qed.

(** The result of a transfer: the error, the number of sectors and the state. *)
Definition transfer_result (op : bios_op) (d : ddt) (lba total a : Z) s (e k : Z) s' : Prop :=
  0 <= k <= total /\ (e = 0 -> k = total) /\ same_tables s s' /\
  transferred op (ddt_driveno d) lba total a s s' /\ moved_s op (ddt_driveno d) lba k a s s' /\
  (bios_reliable -> (forall x, lba <= x < lba + total -> in_reach d x) -> e = 0).

Lemma transfer_loop_spec fuel u mode op d total p lba done_ s :
  at_ (ddts s) u = Some d -> verify_mode s -> lba_op mode = Some op -> addressable d ->
  (Z.to_nat total <= fuel)%nat -> 0 <= total -> 0 <= lba -> lba + total <= 4294967296 ->
  0 <= done_ -> done_ + total < 65536 -> (total <> 0 -> usable p total /\ fp_off p < 16) ->
  exists e k s', transfer_loop buf0 fuel u mode p lba total done_ s = Some (e, done_ + k, s') /\
    transfer_result op d lba total (linear p) s e k s'.
Proof.
  revert total p lba done_ s. induction fuel as [|fuel IH]; intros total p lba done_ s Hd Hv Ho Ha Hf Ht Hl Hlt H0 Hdt Hu.
  all: destruct (Z.eqb_spec total 0) as [->|Hne].
  2: lia.
  1,2: exists 0, 0, s; split; [cbn; by rewrite Z.add_0_r|]; split_and!; try done; try lia;
    [apply transferred_refl|destruct op; cbv [moved_s moved]; intros; lia].
  destruct (Hu Hne) as [Hus Hoff]. cbn [transfer_loop]. rewrite (proj2 (Z.eqb_neq _ _)) by done.
  pose proof (piece_spec u mode op lba d p total s Hd Hv Ho Ha ltac:(lia) ltac:(lia) Hus) as Hp.
  destruct (choose_buffer buf0 mode p total s) as [[n buf] s0].
  destruct Hp as (r & s1 & -> & T1 & Ht1 & Hrel & Hr).
  assert (Hfail : forall e, e <> 0 -> (bios_reliable -> in_reach d lba -> e = 0) ->
    transfer_result op d lba total (linear p) s e 0 s1).
  { intros e He Hrl. split_and!; try done; try lia.
    - destruct op; cbv [moved_s moved]; intros; lia.
    - intros Hb Hreach. apply Hrl; [done|]. apply Hreach. lia. }
  destruct r as [[e k]|].
  2: { exists 1, 0, s1. split; [by rewrite Z.add_0_r|]. apply Hfail; [done|]. intros Hb Hin.
       by destruct (Hrel Hb Hin). }
  destruct Hr as (Hk & Hk2 & Hr). destruct (Z.eqb_spec e 0) as [->|He]; cbn [negb].
  2: { exists e, 0, s1. split; [by rewrite Z.add_0_r|]. apply Hfail; [done|]. intros Hb Hin.
       destruct (Hrel Hb Hin) as [? [= -> _]]. done. }
  destruct (Hr eq_refl) as [Ht2 Hm2]. fold (copy_out mode p buf s1). set (s2 := copy_out mode p buf s1) in *.
  assert (T2 : same_tables s s2).
  { etransitivity; [exact T1|]. subst s2. unfold copy_out. by destruct (_ && _). }
  rewrite !(u16_id (_ - _)), !(u16_id (_ + _)) by lia. pose proof T2 as (Td & _ & Tv & _).
  destruct (Z.eqb_spec (total - k) 0) as [Hz|Hz].
  { exists 0, total, s2. rewrite Hz. split; [destruct fuel; cbn; do 3 f_equal; lia|].
    assert (k = total) as -> by lia. split_and!; try done; lia. }
  destruct (advance p total k Hus Hoff ltac:(lia) Hk2) as (Hlin & Hus2 & Hoff2).
  rewrite (u32_id (lba + k)) by lia.
  edestruct (IH (total - k) (adjust_far (far_add p (u16 (k * 512)))) (lba + k) (done_ + k) s2)
    as (e & j & s3 & -> & Hj & He & T3 & Ht3 & Hm3 & Hrel3);
    [by rewrite Td|by unfold verify_mode in *; rewrite Tv|done|done|lia|lia|lia|lia|lia|lia|done|].
  rewrite Hlin in Ht3, Hm3.
  exists e, (k + j), s3. split; [do 3 f_equal; lia|]. split; [lia|]. split; [intros ->; lia|].
  split; [by etransitivity|]. split.
  { eapply transferred_trans; [exact Ht2|]. eapply transferred_grow; [exact Ht3|lia..]. }
  split.
  - eapply (moved_both op _ lba k (total - k) p s s2); try done; try lia.
    + destruct Hus as (_ & _ & _ & Hsep). lia.
    + intros ->. by destruct Ht2.
    + intros ->. by destruct Ht2.
  - intros Hb Hreach. apply Hrel3; [done|]. intros x Hx. apply Hreach. lia.
Qed.

(** ** Requests *)

(** No change of diskettes is pending for the drive. *)
Definition settled (d : ddt) : Prop :=
  (Z.land (ddt_descflags d) (Z.lor DF_MULTLOG DF_CURLOG) =? DF_MULTLOG) = false.

Lemma set_track_length_spec d s :
  same_tables s (set_track_length d s) /\ same_disks disk_byte (bios s) (bios (set_track_length d s)) /\
  (forall x, x <> int1e s + 4 -> mem (set_track_length d s) x = mem s x) /\
  (hd (ddt_descflags d) = true -> set_track_length d s = s).
Proof.
  unfold set_track_length. destruct (hd _); [done|]. destruct (_ =? _); [done|].
  split; [done|]. split; [apply fl_reset_law|]. split; [|done]. intros x Hx. cbn. unfold poke.
  by rewrite (proj2 (Z.eqb_neq _ _)).
Qed.

Lemma LBA_Transfer_spec u mode op d total p lba s :
  at_ (ddts s) u = Some d -> settled d -> verify_mode s -> lba_op mode = Some op -> addressable d ->
  0 <= lba -> lba + total <= 4294967296 -> 0 <= total < 65536 -> usable p total ->
  exists e k s', LBA_Transfer buf0 u mode p lba total s = Some (e, k, s') /\
    transfer_result op d lba total (linear p) (set_track_length d s) e k s'.
Proof.
  intros Hd Hset Hv Ho Ha Hl Hlt Ht Hu. unfold LBA_Transfer. rewrite Hd, (lba_op_not_format _ _ Ho). cbn [andb].
  unfold play_dj. rewrite Hd, Hset. rewrite Hd.
  destruct (set_track_length_spec d s) as ((Td & _ & Tv & _) & _ & _ & _).
  destruct (Z.eqb_spec total 0) as [->|Hne].
  { exists 0, 0, (set_track_length d s). split; [done|]. split_and!; try done; [apply transferred_refl|].
    destruct op; cbv [moved_s moved]; intros; lia. }
  pose proof Hu as (H1 & H2 & H3 & H4). destruct (linear_adjust p H1 H2 ltac:(lia)) as (E & E1 & E2).
  edestruct (transfer_loop_spec (Z.to_nat total) u mode op d total (adjust_far p) lba 0 (set_track_length d s))
    as (e & k & s' & -> & Hr); [by rewrite Td|by unfold verify_mode in *; rewrite Tv|done|done|lia|lia|lia|lia|lia|lia| |].
  { intros _. split; [|lia]. unfold usable. rewrite E. lia. }
  exists e, k, s'. split; [by rewrite Z.add_0_l|]. by rewrite <- E.
Qed.

(** A request to read or write sectors inside a hard disk drive. *)
Definition fits_drive (d : ddt) (r : request) : Prop :=
  0 <= start_sector r < drive_size d /\ start_sector r + r_count r <= drive_size d.

(** What the code relies on: a drive of a hard disk, which lies in the first 2^32 sectors
    of the disk. *)
Definition partition_ok (d : ddt) : Prop :=
  hd (ddt_descflags d) = true /\ settled d /\ addressable d /\ 0 <= ddt_offset d /\ 0 <= drive_size d < 4294967296 /\
  ddt_offset d + drive_size d <= 4294967296.

(** The sum of the start of a request and its count has 32 bits: the code tests the sum as
    it is after the overflow, so that a request whose sum is 2^32 or more passes. *)
Definition no_overflow (d : ddt) (r : request) : Prop :=
  start_sector r < drive_size d -> start_sector r + r_count r < 4294967296.

Lemma fits_no_overflow d r : partition_ok d -> fits_drive d r -> no_overflow d r.
Proof. intros (_ & _ & _ & _ & Hs & _) [_ Hf] _. lia. Qed.

Definition command_op (command : Z) : option bios_op :=
  if command =? C_INPUT then Some op_read
  else if (command =? C_OUTPUT) || (command =? C_OUTVFY) then Some op_write else None.

Lemma action_of_spec command op s :
  verify_mode s -> command_op command = Some op ->
  exists mode, action_of command s = Some mode /\ lba_op mode = Some op.
Proof.
  unfold command_op, action_of. intros Hv. destruct (command =? C_INPUT).
  { intros [= <-]. by eexists. }
  destruct (command =? C_OUTPUT).
  { intros [= <-]. by eexists. }
  destruct (command =? C_OUTVFY); [|done]. intros [= <-]. eexists. split; [done|].
  destruct Hv as [-> | ->]; done.
Qed.

Lemma tmark_spec u d s :
  at_ (ddts s) u = Some d ->
  exists t s', tmark u s = Some s' /\ at_ (ddts s') u = Some (set_ddt_lasttime t d) /\ mem s' = mem s /\
    same_disks disk_byte (bios s) (bios s') /\ units s' = units s /\
    LBA_WRITE_VERIFY s' = LBA_WRITE_VERIFY s /\ int1e s' = int1e s.
Proof.
  intros Hd. unfold tmark, clock, update_ddt. destruct (fl_clock (bios s)) as [t b] eqn:E. cbn [ddts set_bios].
  rewrite Hd. destruct (at_lookup _ _ _ Hd) as [Hu Hl]. apply lookup_lt_Some in Hl as Hlen.
  rewrite set_at_spec by lia. exists (u32 t). eexists. split; [done|]. cbn. split.
  { unfold at_. rewrite (proj2 (Z.ltb_ge _ _)) by lia. by rewrite list_lookup_insert_eq by lia. }
  split; [done|]. split; [|done]. pose proof (fl_clock_law (bios s)) as Hc. by rewrite E in Hc.
Qed.

Lemma blockio_spec u op d r s :
  at_ (ddts s) u = Some d -> verify_mode s -> partition_ok d -> command_op (r_command r) = Some op ->
  has (ddt_descflags d) DF_NOACCESS = false -> 0 <= start_sector r -> 0 <= r_count r < 65536 ->
  no_overflow d r -> usable (r_trans r) (r_count r) ->
  exists status r' s', blockio buf0 r u s = Some (status, r', s') /\
    (exists t, at_ (ddts s') u = Some (set_ddt_lasttime t d)) /\ LBA_WRITE_VERIFY s' = LBA_WRITE_VERIFY s /\
    ((~ fits_drive d r /\ status = 0x0408 /\ r' = r /\ mem s' = mem s /\ same_disks disk_byte (bios s) (bios s')) \/
     (fits_drive d r /\ exists e k, status = (if e =? 0 then S_DONE else dskerr e) /\ r' = set_r_count k r /\
        0 <= k <= r_count r /\ (e = 0 -> k = r_count r) /\
        transferred op (ddt_driveno d) (ddt_offset d + start_sector r) (r_count r) (linear (r_trans r)) s s' /\
        moved_s op (ddt_driveno d) (ddt_offset d + start_sector r) k (linear (r_trans r)) s s' /\
        (bios_reliable -> (forall x, 0 <= x < drive_size d -> in_reach d (ddt_offset d + x)) -> e = 0))).
Proof.
  intros Hd Hv (Hhd & Hset & Ha & Ho & Hsz & Hend) Hop Hna Hst Hc Hno Hu. unfold no_overflow in Hno. unfold blockio.
  destruct (action_of_spec _ _ _ Hv Hop) as (mode & -> & Hm). rewrite Hd, Hna.
  destruct (tmark_spec u d s Hd) as (t & s1 & -> & Hd1 & Em & Hb & Eu & Ev & Ei).
  unfold fits_drive. set (start := start_sector r) in *.
  destruct ((drive_size d <=? start) || (drive_size d <? u32 (start + r_count r))) eqn:E.
  - exists 0x0408, r, s1. split; [done|]. split; [by exists t|]. split; [done|]. left. split; [|done].
    apply orb_true_iff in E as [E%Z.leb_le|E%Z.ltb_lt]; [lia|]. destruct (Z.lt_ge_cases start (drive_size d)) as [Hlt|];
      [|lia]. rewrite u32_id in E by lia. lia.
  - apply orb_false_iff in E as [E1%Z.leb_gt E2%Z.ltb_ge]. rewrite u32_id in E2 by lia.
    rewrite (u32_id (start + ddt_offset d)) by lia.
    edestruct (LBA_Transfer_spec u mode op (set_ddt_lasttime t d) (r_count r) (r_trans r) (start + ddt_offset d) s1)
      as (e & k & s' & -> & Hk & He & T & Ht & Hmv & Hrel);
      [done|done|by unfold verify_mode in *; rewrite Ev|done|done|lia|lia|lia|done|].
    rewrite (proj2 (proj2 (proj2 (set_track_length_spec (set_ddt_lasttime t d) s1))) Hhd) in T, Ht, Hmv.
    destruct T as (Td & _ & Tv & _).
    eexists _, _, s'. split; [done|]. split; [exists t; by rewrite Td|]. split; [congruence|]. right. split; [lia|]. exists e, k.
    replace (ddt_offset d + start) with (start + ddt_offset d) by lia. cbn [ddt_driveno set_ddt_lasttime] in *.
    split; [done|]. split; [done|]. split; [done|]. split; [done|]. split.
    { eapply transferred_trans; [|exact Ht]. destruct op; cbv [transferred same_outside]; rewrite Em; split; try done;
        by apply same_disks_outside_intro. }
    split.
    { destruct op; cbv [moved_s moved] in *; try done; intros i Hi; rewrite Hmv by done; [apply Hb|by rewrite Em]. }
    intros Hbr Hreach. apply Hrel; [done|]. intros x Hx.
    specialize (Hreach (x - ddt_offset d) ltac:(lia)).
    by replace (ddt_offset d + (x - ddt_offset d)) with x in Hreach by lia.
Qed.

(** ** The boot sector *)

(** The first sector of a drive, as a function from offsets. *)
Definition boot_sector (d : ddt) s : memory := fun i => disk_byte (bios s) (ddt_driveno d) (512 * ddt_offset d + i).

Lemma peek16_ext a m m' i : (forall i, 0 <= i < 512 -> m (a + i) = m' i) -> 0 <= i < 511 -> peek16 (a + i) m = peek16 i m'.
Proof. intros Hm Hi. unfold peek16. by rewrite <- Z.add_assoc, !Hm by lia. Qed.

Lemma peek32_ext a m m' i : (forall i, 0 <= i < 512 -> m (a + i) = m' i) -> 0 <= i < 509 -> peek32 (a + i) m = peek32 i m'.
Proof. intros Hm Hi. unfold peek32. by rewrite <- Z.add_assoc, !(peek16_ext a m m') by (done || lia). Qed.

Lemma load_ext a m m' i n : (forall i, 0 <= i < 512 -> m (a + i) = m' i) -> 0 <= i -> i + n <= 512 ->
  load (a + i) n m = load i n m'.
Proof.
  intros Hm Hi Hn. unfold load. apply list_eq_Forall2, Forall2_fmap_2, Forall2_same_length_lookup.
  split; [by rewrite !length_seqZ|]. intros j x y Hx Hy. apply lookup_seqZ in Hx as [-> Hj], Hy as [-> _].
  rewrite <- Z.add_assoc. apply Hm. lia.
Qed.

Lemma valid_boot_ext a m m' : (forall i, 0 <= i < 512 -> m (a + i) = m' i) -> valid_boot a m = valid_boot 0 m'.
Proof. intros Hm. unfold valid_boot. by rewrite !Hm, (peek16_ext a m m') by (done || lia). Qed.

Lemma bpb_in_ext a m m' : (forall i, 0 <= i < 512 -> m (a + i) = m' i) -> bpb_in a m = bpb_in 0 m'.
Proof.
  intros Hm. unfold bpb_in. rewrite <- !Z.add_assoc, !Z.add_0_l.
  rewrite !(peek16_ext a m m'), !(peek32_ext a m m'), !Hm by (done || lia). done.
Qed.

Lemma take_boot_ext a m m' d : (forall i, 0 <= i < 512 -> m (a + i) = m' i) -> take_boot a m d = take_boot 0 m' d.
Proof.
  intros Hm. unfold take_boot. rewrite (bpb_in_ext a m m' Hm). set (b := bpb_in 0 m').
  assert (fs_info b = 0x43 \/ fs_info b = 0x27) as Hfs by (unfold fs_info; case_bool; auto).
  rewrite !Z.add_0_l, <- !Z.add_assoc.
  rewrite (peek32_ext a m m'), !(load_ext a m m') by (done || lia). done.
Qed.

(** The BPB of a hard disk drive as [getbpb] leaves it. *)
Lemma getbpb_spec u d s :
  bios_reliable -> at_ (ddts s) u = Some d -> verify_mode s -> hd (ddt_descflags d) = true -> settled d ->
  addressable d -> in_reach d (ddt_offset d) -> 0 <= ddt_offset d < 4294967295 -> usable buf0 1 ->
  let boot := boot_sector d s in
  exists status s' d', getbpb buf0 u s = Some (status, s') /\ at_ (ddts s') u = Some d' /\
    same_disks disk_byte (bios s) (bios s') /\
    (if valid_boot 0 boot then
       exists t n, status = (if u16 (bpb_nheads (bpb_in 0 boot) * bpb_nsecs (bpb_in 0 boot)) =? 0
                             then failure E_FAILURE else 0) /\
         d' = set_ddt_lasttime t (set_ddt_ncyl n (take_boot 0 boot d))
     else status = S_DONE /\ d' = set_ddt_bpb (ddt_defbpb d) d).
Proof.
  intros Hb Hd Hv Hhd Hset Ha Hin Ho Hu boot. unfold getbpb, diskchange. rewrite Hd, Hhd. cbn [Z.eqb M_NOT_CHANGED Pos.eqb].
  unfold RWzero. rewrite Hd.
  edestruct (LBA_Transfer_spec u LBA_READ op_read d 1 buf0 (ddt_offset d) s)
    as (e & k & s1 & -> & Hk & He & T & Ht & Hm & Hrel); [done|done|done|done|done|lia|lia|lia|done|].
  rewrite (proj2 (proj2 (proj2 (set_track_length_spec d s))) Hhd) in *.
  assert (e = 0) as ->.
  { apply Hrel; [done|]. intros x Hx. by replace x with (ddt_offset d) by lia. }
  specialize (He eq_refl) as ->. cbn [Z.eqb negb]. destruct T as (Td & _). destruct Ht as [_ Hsame].
  assert (Hboot : forall i, 0 <= i < 512 -> mem s1 (dtb buf0 + i) = boot i).
  { intros i Hi. apply Hm. lia. }
  rewrite (valid_boot_ext _ _ _ Hboot). rewrite <- Td in Hd. destruct (valid_boot 0 boot); cbn [negb].
  2: { destruct (update_at u (fun d => set_ddt_bpb (ddt_defbpb d) d) d s1 Hd) as (s2 & -> & Hd2 & E2).
       eexists _, _, _. split; [done|]. split; [exact Hd2|]. split; [by rewrite E2|done]. }
  destruct (update_at u (take_boot (dtb buf0) (mem s1)) d s1 Hd) as (s2 & -> & Hd2 & E2).
  rewrite (take_boot_ext _ _ _ d Hboot) in Hd2.
  assert (Hb2 : bpb_in (dtb buf0) (mem s2) = bpb_in 0 boot) by (rewrite E2; exact (bpb_in_ext _ _ _ Hboot)).
  rewrite Hb2.
  destruct (u16 (bpb_nheads _ * bpb_nsecs _) =? 0).
  - destruct (tmark_spec u _ s2 Hd2) as (t & s3 & -> & Hd3 & _ & Hs3 & _).
    eexists _, _, _. split; [done|]. split; [exact Hd3|]. split; [etransitivity; [exact Hsame|by rewrite E2 in Hs3]|].
    exists t, (ddt_ncyl d). done.
  - set (n := u16 (_ / _)). destruct (update_at u (set_ddt_ncyl n) _ s2 Hd2) as (s3 & -> & Hd3 & E3).
    destruct (tmark_spec u _ s3 Hd3) as (t & s4 & -> & Hd4 & _ & Hs4 & _).
    eexists _, _, _. split; [done|]. split; [exact Hd4|]. split; [|by exists t, n].
    etransitivity; [exact Hsame|]. rewrite E3, E2 in Hs4. exact Hs4.
Qed.

End transfers.
