(* ===== verification/DiskdrvThms.v ===== *)
(** * The disk driver: the properties, and a sample disk *)

From S2P Require Import Prelude Hdr Bytes Blockio Media Chario Diskdrv DiskdrvSpec.

Section properties.
  Context {B : Type} `{DiskBiosLaws B} (buf0 : farptr) (Hdtb : dma_fits (linear buf0) 1).

(** C13: a transfer of sectors of a drive that is read by linear addresses, or whose BPB
    has the heads and sectors of the BIOS ([addressable]), ends, and does what it is asked
    to: [LBA_Transfer] reports how many sectors it has moved between the buffer and the
    disk, in order and without gaps, all of them when it reports no error.  Nothing else
    changes on any disk, nor in memory but for the buffer of the driver.  This holds
    whatever attempts fail, whatever tracks the sectors cross and wherever the buffer lies
    with respect to the 64K pages of the DMA controller; over a BIOS that completes its
    transfers there is no error, if cylinders up to 1023 are enough ([in_reach]).  No change
    of diskettes is due ([settled]), the sectors have addresses below 2^32, and the
    caller's buffer lies below 1 MB and apart from the driver's own ([usable]).  A BPB with
    another geometry can keep the loop from ever ending ([short_track_hangs]). *)
Theorem LBA_Transfer_correct u mode op d total p lba (s : disks B) :
  at_ (ddts s) u = Some d -> settled d -> verify_mode s -> lba_op mode = Some op -> addressable d ->
  0 <= lba -> lba + total <= 4294967296 -> 0 <= total < 65536 -> usable buf0 p total ->
  exists e k s', LBA_Transfer buf0 u mode p lba total s = Some (e, k, s') /\
    transfer_result buf0 op d lba total (linear p) (set_track_length d s) e k s'.
Proof. apply LBA_Transfer_spec, Hdtb. Qed.

(** C14: A request to read or write sectors of a drive of a hard disk, whose end does not
    overflow 32 bits ([no_overflow]), does not reach beyond the drive's partition: sectors
    out of range are refused with the status 0408h and no sector is touched, and a request
    in range changes no byte of any disk outside the partition, whether it succeeds or
    not.  The drive is read by linear addresses or with the geometry of the BIOS, and lies
    below sector 2^32 ([partition_ok]); the buffer is one as for [LBA_Transfer_correct].  A
    request that starts inside the partition and whose start and count add up to 2^32
    or more is not refused: the code tests the sum of 32 bits. *)
Theorem partition_isolated u op d r (s : disks B) :
  at_ (ddts s) u = Some d -> verify_mode s -> partition_ok d -> command_op (r_command r) = Some op ->
  has (ddt_descflags d) DF_NOACCESS = false -> 0 <= start_sector r -> 0 <= r_count r < 65536 ->
  no_overflow d r -> usable buf0 (r_trans r) (r_count r) ->
  exists status r' s', blockio buf0 r u s = Some (status, r', s') /\
    (~ fits_drive d r -> status = 0x0408 /\ same_disks disk_byte (bios s) (bios s')) /\
    same_disks_outside disk_byte (ddt_driveno d) (ddt_offset d) (drive_size d) (bios s) (bios s').
Proof.
  intros Hd Hv Hp Hop Hna Hst Hc Hno Hu.
  destruct (blockio_spec buf0 Hdtb u op d r s Hd Hv Hp Hop Hna Hst Hc Hno Hu)
    as (status & r' & s' & -> & _ & _ & [(Hf & -> & -> & Hm & Hs)|(Hf & e & k & -> & -> & _ & _ & Ht & _)]).
  - eexists _, _, _. split; [done|]. split; [done|]. by apply same_disks_outside_intro.
  - eexists _, _, _. split; [done|]. split; [by intros ?|]. destruct Hf as [Hf1 Hf2].
    destruct op; destruct Ht as [_ Hx]; try (by apply same_disks_outside_intro);
      (eapply same_disks_outside_grow; [exact Hx|lia|lia]).
Qed.

(** C15: What is written to a drive of a hard disk is read back: over a BIOS that completes
    its transfers, sectors written from one buffer and then read into another arrive there
    byte by byte, however both buffers lie below 1 MB and apart from the driver's own.  The
    drive is as in [partition_isolated], and all its sectors can be reached
    ([in_reach]), both of which [InitdiskThms.partition_ready] shows of partitions. *)
Theorem drive_roundtrip u d w r (s : disks B) :
  bios_reliable (B := B) -> at_ (ddts s) u = Some d -> verify_mode s -> partition_ok d ->
  has (ddt_descflags d) DF_NOACCESS = false ->
  (forall x, 0 <= x < drive_size d -> in_reach d (ddt_offset d + x)) ->
  r_command w = C_OUTPUT -> r_command r = C_INPUT -> start_sector w = start_sector r ->
  r_count w = r_count r -> 0 <= r_count r < 65536 -> fits_drive d r ->
  usable buf0 (r_trans w) (r_count w) -> usable buf0 (r_trans r) (r_count r) ->
  exists s1 s2, blockio buf0 w u s = Some (S_DONE, w, s1) /\ blockio buf0 r u s1 = Some (S_DONE, r, s2) /\
    forall i, 0 <= i < 512 * r_count r -> mem s2 (linear (r_trans r) + i) = mem s (linear (r_trans w) + i).
Proof.
  intros Hb Hd Hv Hp Hna Hreach Hcw Hcr Est Ec Hc Hf Huw Hur.
  assert (Hfw : fits_drive d w) by (unfold fits_drive in *; by rewrite Est, Ec).
  edestruct (blockio_spec buf0 Hdtb u op_write d w s) as (status & w' & s1 & -> & [t Hd1] & Ev & Hcase);
    [done|done|done|by rewrite Hcw|done|destruct Hfw; lia|lia|by apply fits_no_overflow|done|].
  destruct Hcase as [[Hn _]|(_ & e & k & -> & -> & Hk & He & _ & Hm & Hrel)]; [done|].
  specialize (Hrel Hb Hreach) as ->. specialize (He eq_refl) as ->.
  edestruct (blockio_spec buf0 Hdtb u op_read (set_ddt_lasttime t d) r s1)
    as (status & r' & s2 & E2 & _ & _ & Hcase);
    [done|unfold verify_mode in *; by rewrite Ev|done|by rewrite Hcr|done|destruct Hf; lia|lia|by apply fits_no_overflow|done|].
  destruct Hcase as [[Hn _]|(_ & e & k & -> & -> & Hk2 & He2 & _ & Hm2 & Hrel2)]; [done|].
  specialize (Hrel2 Hb Hreach) as ->. specialize (He2 eq_refl) as ->.
  exists s1, s2. split; [by destruct w|]. split; [rewrite E2; by destruct r|]. intros i Hi.
  cbn [ddt_driveno ddt_offset set_ddt_lasttime] in Hm2. rewrite Hm2 by done. rewrite <- Est. apply Hm. by rewrite Ec.
Qed.

(** Building the BPB of a hard disk drive: from a valid boot sector the BPB, serial
    number, label and file system type are taken and the drive becomes accessible, and the
    request designates the BPB of the drive.  Without a valid boot sector the drive gets
    its default BPB; the request is answered as done, but its pointer to a BPB is left as
    it came. *)
Theorem bldbpb_correct u d r (s : disks B) :
  bios_reliable (B := B) -> at_ (ddts s) u = Some d -> verify_mode s -> hd (ddt_descflags d) = true -> settled d ->
  addressable d -> in_reach d (ddt_offset d) -> 0 <= ddt_offset d < 4294967295 -> usable buf0 buf0 1 ->
  let boot := boot_sector d s in
  exists status r' s' d', bldbpb buf0 r u s = Some (status, r', s') /\ at_ (ddts s') u = Some d' /\
    (if valid_boot 0 boot then
       (exists t n, d' = set_ddt_lasttime t (set_ddt_ncyl n (take_boot 0 boot d))) /\
       (u16 (bpb_nheads (bpb_in 0 boot) * bpb_nsecs (bpb_in 0 boot)) <> 0 ->
        status = S_DONE /\ r' = set_r_bpptr (Some u) r)
     else status = S_DONE /\ r' = r /\ ddt_bpb d' = ddt_defbpb d).
Proof.
  intros Hb Hd Hv Hhd Hset Ha Hin Ho Hu boot. unfold bldbpb.
  edestruct (getbpb_spec buf0 Hdtb u d s) as (status & s' & d' & -> & Hd' & _ & Hres); [done..|].
  fold boot in Hres. destruct (valid_boot 0 boot).
  - destruct Hres as (t & n & -> & ->). destruct (Z.eqb_spec (u16 (bpb_nheads (bpb_in 0 boot) * bpb_nsecs (bpb_in 0 boot))) 0).
    + eexists _, _, _, _. split; [done|]. split; [done|]. split; [by exists t, n|]. done.
    + eexists _, _, _, _. split; [done|]. split; [done|]. split; [by exists t, n|]. done.
  - destruct Hres as [-> ->]. eexists _, _, _, _. split; [done|]. done.
Qed.

End properties.

(** ** Two logical drives on one diskette drive *)

Lemma land_30 f : Z.land f 0x30 = 16 * Z.b2z (Z.testbit f 4) + 32 * Z.b2z (Z.testbit f 5).
Proof.
  assert (Z.land f 0x30 = Z.land (f mod 2 ^ 6) 0x30) as ->.
  { rewrite <- Z.land_ones, <- Z.land_assoc by lia. done. }
  rewrite <- (Z.mod_pow2_bits_low f 6 4), <- (Z.mod_pow2_bits_low f 6 5) by lia.
  pose proof (Z.mod_pos_bound f (2 ^ 6) ltac:(lia)). set (r := f mod 2 ^ 6) in *.
  apply Z.eqb_eq.
  apply (forall_range (fun r => Z.land r 0x30 =? 16 * Z.b2z (Z.testbit r 4) + 32 * Z.b2z (Z.testbit r 5)) 0 64);
    [by vm_compute|lia].
Qed.

Definition multlog (d : ddt) : bool := Z.testbit (ddt_descflags d) 4.
Definition curlog (d : ddt) : bool := Z.testbit (ddt_descflags d) 5.

Lemma is_current_bits d : is_current d = multlog d && curlog d.
Proof.
  unfold is_current. change (Z.lor DF_MULTLOG DF_CURLOG) with 0x30. rewrite land_30. fold (multlog d) (curlog d).
  by destruct (multlog d), (curlog d).
Qed.

Lemma pending_bits d : (Z.land (ddt_descflags d) (Z.lor DF_MULTLOG DF_CURLOG) =? DF_MULTLOG) = multlog d && negb (curlog d).
Proof.
  change (Z.lor DF_MULTLOG DF_CURLOG) with 0x30. rewrite land_30. fold (multlog d) (curlog d).
  by destruct (multlog d), (curlog d).
Qed.

Lemma find_current_spec driveno l c dc n i :
  at_ l c = Some dc -> ddt_driveno dc = driveno -> is_current dc = true -> i <= c < i + Z.of_nat n -> 0 <= i ->
  i + Z.of_nat n <= Z.of_nat (length l) ->
  exists k dk, find_current n i driveno l = Some k /\ at_ l k = Some dk /\ ddt_driveno dk = driveno /\
    is_current dk = true /\ k < i + Z.of_nat n.
Proof.
  intros Hc Hd Hcur. revert i. induction n as [|n IH]; intros i Hi Hi0 Hl; [lia|]. cbn [find_current].
  destruct (lookup_lt_is_Some_2 l (Z.to_nat i)) as [di Hdi]; [lia|].
  assert (at_ l i = Some di) as Hat by (unfold at_; by rewrite (proj2 (Z.ltb_ge _ _)) by lia).
  rewrite Hat. destruct ((driveno =? ddt_driveno di) && is_current di) eqn:E.
  - apply andb_true_iff in E as [E%Z.eqb_eq E2]. exists i, di. split_and!; try done. lia.
  - destruct (decide (i = c)) as [->|Hne].
    { rewrite Hc in Hat. injection Hat as <-. by rewrite Hd, Hcur, Z.eqb_refl in E. }
    destruct (IH (i + 1)) as (k & dk & -> & Hk & Hdk & Hck & Hlt); [lia..|].
    exists k, dk. split_and!; try done. lia.
Qed.

Lemma at_update {B} u f (s s' : disks B) i :
  update_ddt u f s = Some s' ->
  at_ (ddts s') i = (if i =? u then f <$> at_ (ddts s) u else at_ (ddts s) i) /\
  bios s' = bios s /\ length (ddts s') = length (ddts s) /\ units s' = units s.
Proof.
  unfold update_ddt. destruct (at_ (ddts s) u) as [d|] eqn:Hd; [|done]. destruct (at_lookup _ _ _ Hd) as [Hu Hl].
  apply lookup_lt_Some in Hl as Hlen. rewrite set_at_spec by lia. intros [= <-]. cbn. rewrite length_insert.
  split; [|done]. destruct (Z.eqb_spec i u) as [->|Hne].
  - unfold at_. rewrite (proj2 (Z.ltb_ge _ _)) by lia. by rewrite list_lookup_insert_eq by lia.
  - unfold at_. destruct (Z.ltb_spec i 0); [done|]. by rewrite list_lookup_insert_ne by lia.
Qed.

Lemma set_curlog d : multlog (set_ddt_flags (Z.lor (ddt_descflags d) DF_CURLOG) d) = multlog d /\
  curlog (set_ddt_flags (Z.lor (ddt_descflags d) DF_CURLOG) d) = true.
Proof. 
  unfold multlog, curlog. cbn [ddt_descflags set_ddt_flags]. rewrite !Z.lor_spec.
  change (Z.testbit DF_CURLOG 4) with false. change (Z.testbit DF_CURLOG 5) with true.
  by rewrite orb_false_r, orb_true_r.
 Qed.

Lemma clear_curlog d : curlog (set_ddt_flags (clear DF_CURLOG (ddt_descflags d)) d) = false.
Proof. 
  unfold curlog, clear. cbn [ddt_descflags set_ddt_flags]. rewrite Z.ldiff_spec.
  change (Z.testbit DF_CURLOG 5) with true. by rewrite andb_false_r.
 Qed.

Lemma change_diskette_spec {B} `{DiskBiosLaws B} dl dh (s : disks B) :
  ddts (change_diskette dl dh s) = ddts s /\ units (change_diskette dl dh s) = units s /\
  same_disks disk_byte (bios s) (bios (change_diskette dl dh s)).
Proof.
  unfold change_diskette. pose proof (floppy_change_law (dl + 256 * dh) (bios s)) as Hf.
  destruct (floppy_change _ _) as [a b]. cbn [snd] in Hf. destruct (a =? 0xffff); [done|].
  split; [done|]. split; [done|]. cbn [bios set_bios]. etransitivity; [exact Hf|].
  do 3 (etransitivity; [apply fl_put_string_law|]). apply fl_readkey_law.
Qed.

Section sharing.
  Context {B : Type} `{DiskBiosLaws B}.

(** Of the logical drives that share one diskette drive, the one that is used has it
    afterwards and no other: when exactly one of them had it before, [play_dj] hands it
    over to the drive that is asked for and reports a change of medium just when it was
    another's. *)
Theorem play_dj_switches u d c dc (s : disks B) :
  units s = Z.of_nat (length (ddts s)) -> at_ (ddts s) u = Some d -> multlog d = true ->
  at_ (ddts s) c = Some dc -> ddt_driveno dc = ddt_driveno d -> is_current dc = true ->
  (forall i di, at_ (ddts s) i = Some di -> ddt_driveno di = ddt_driveno d -> is_current di = true -> i = c) ->
  exists r s', play_dj u s = Some (r, s') /\ same_disks disk_byte (bios s) (bios s') /\
    r = (if is_current d then M_NOT_CHANGED else M_CHANGED) /\
    forall i di, at_ (ddts s') i = Some di -> ddt_driveno di = ddt_driveno d -> (is_current di = true <-> i = u).
Proof.
  intros Hn Hd Hm Hc Hdc Hcur Huniq. unfold play_dj. rewrite Hd, pending_bits, Hm. cbn [andb].
  assert (Ed : is_current d = curlog d) by (by rewrite is_current_bits, Hm).
  rewrite Ed. destruct (curlog d) eqn:Ecur; cbn [negb].
  { exists M_NOT_CHANGED, s. split_and!; try done. intros i di Hi Hdi. split.
    - intros Hci. rewrite (Huniq i di) by done. symmetry. by apply (Huniq u d).
    - intros ->. by rewrite Hi in Hd; injection Hd as ->. }
  destruct (at_lookup _ _ _ Hc) as [Hc0 Hcl]. apply lookup_lt_Some in Hcl as Hclen.
  destruct (find_current_spec (ddt_driveno d) (ddts s) c dc (Z.to_nat (units s)) 0)
    as (k & dk & -> & Hk & Hdk & Hck & Hlt); [done|done|done|lia|lia|lia|].
  assert (k = c) as -> by (by apply (Huniq k dk)). rewrite Hc in Hk. injection Hk as <-.
  rewrite (proj2 (Z.eqb_neq _ _)), Hc by lia.
  destruct (change_diskette_spec (ddt_logdriveno d) (ddt_logdriveno dc) s) as (E1 & E2 & E3).
  set (s1 := change_diskette _ _ s) in *. rewrite <- E1 in Hc, Hd.
  destruct (update_at c (fun d => set_ddt_flags (clear DF_CURLOG (ddt_descflags d)) d) dc s1 Hc) as (s2 & Hs2 & _ & _).
  rewrite Hs2. assert (Huc : u <> c).
  { intros ->. rewrite Hc in Hd. injection Hd as ->. congruence. }
  pose proof (at_update c _ s1 s2 u Hs2) as (Hu2 & Hb2 & _). rewrite (proj2 (Z.eqb_neq u c)), Hd in Hu2 by done.
  destruct (update_at u (fun d => set_ddt_flags (Z.lor (ddt_descflags d) DF_CURLOG) d) d s2 Hu2) as (s3 & Hs3 & _ & _).
  rewrite Hs3. pose proof (at_update u _ s2 s3 0 Hs3) as (_ & Hb3 & _).
  eexists M_CHANGED, _. split; [done|]. split; [cbn; congruence|]. split; [done|]. cbn [ddts set_mem].
  intros i di Hi Hdi. rewrite (proj1 (at_update u _ s2 s3 i Hs3)), Hu2 in Hi.
  destruct (Z.eqb_spec i u) as [->|Hiu].
  { injection Hi as <-. rewrite is_current_bits. destruct (set_curlog d) as [-> ->]. by rewrite Hm. }
  rewrite (proj1 (at_update c _ s1 s2 i Hs2)), Hc in Hi. split; [|done]. intros Hci. exfalso.
  destruct (Z.eqb_spec i c) as [->|Hic].
  - injection Hi as <-. by rewrite is_current_bits, clear_curlog, andb_false_r in Hci.
  - rewrite E1 in Hi. by apply Hic, (Huniq i di).
Qed.

End sharing.

(** ** Where the end of a track is *)

Section tracks.
  Context {B : Type} `{DiskBios B} (buf0 : farptr).

(** The sector of its track a transfer begins at. *)
Definition track_sector (d : ddt) (lba : Z) : Z := lba mod bpb_nsecs (geometry d) + 1.

(** The end of a track is taken from the boot sector even for a hard disk, whose
    addresses are computed with the geometry of the BIOS.  When the boot sector speaks of
    shorter tracks, a transfer that begins right behind its end of a track asks the BIOS
    for no sectors, again and again: it never ends, whatever number of steps is allowed. *)
Theorem short_track_hangs u d mode lba total fuel p done_ (s : disks B) :
  (forall op dr head cyl sect p m b, fst (fst (fl_transfer op dr head cyl sect 0 p m (b : B))) = 0) ->
  at_ (ddts s) u = Some d -> has (ddt_descflags d) DF_LBA = false -> mode = LBA_READ \/ mode = LBA_WRITE ->
  0 < bpb_nsecs (geometry d) < 256 -> 0 < bpb_nheads (geometry d) < 256 ->
  0 <= lba < 1024 * (bpb_nsecs (geometry d) * bpb_nheads (geometry d)) -> lba < 4294967296 ->
  bpb_nsecs (ddt_bpb d) + 1 = track_sector d lba -> 1 <= total < 65536 ->
  verify_mode s -> transfer_loop buf0 fuel u mode p lba total done_ s = None.
Proof.
  intros Hz Hd HL Hmode Hs Hh Hl Hl32 Hsec Ht. revert p done_ s Hd.
  induction fuel as [|fuel IH]; intros p done_ s Hd Hv; cbn [transfer_loop]; rewrite (proj2 (Z.eqb_neq total 0)) by lia;
    [done|].
  destruct (choose_buffer buf0 mode p total s) as [[n buf] s0] eqn:Ec.
  assert (Hc : 1 <= n <= 127 /\ ddts s0 = ddts s /\ LBA_WRITE_VERIFY s0 = LBA_WRITE_VERIFY s).
  { unfold choose_buffer in Ec. pose proof (DMA_max_spec p total ltac:(lia)) as (H1 & H2 & _).
    destruct (_ || _) eqn:E; injection Ec as <- <- <-; [by destruct (is_write mode)|].
    apply orb_false_iff in E as [_ E%Z.eqb_neq]. split; [lia|done]. }
  destruct Hc as (Hn & Td & Tv). cbn [N_RETRY retry]. rewrite Td, Hd, HL. cbn [andb].
  unfold LBA_to_CHS. set (g := geometry d) in *. unfold track_sector in Hsec. fold g in Hsec.
  assert (Hhs : 1 <= bpb_nsecs g * bpb_nheads g < 65536) by nia.
  rewrite (u16_id (_ * _)), (proj2 (Z.eqb_neq _ 0)) by lia.
  assert (Hq : lba / (bpb_nsecs g * bpb_nheads g) < 1024) by (apply Z.div_lt_upper_bound; lia).
  rewrite (proj2 (Z.ltb_ge _ _)) by lia. cbv beta zeta.
  assert (Em : (lba mod (bpb_nsecs g * bpb_nheads g)) mod bpb_nsecs g = lba mod bpb_nsecs g).
  { symmetry. apply Znumtheory.Zmod_div_mod; [lia|lia|]. by exists (bpb_nheads g); lia. }
  pose proof (Z.mod_pos_bound lba (bpb_nsecs g) ltac:(lia)) as Hr.
  unfold attempt_chs. cbn [Sector]. rewrite Em, <- Hsec.
  rewrite !u16_id by lia. rewrite (proj2 (Z.ltb_lt _ _)), Z.sub_diag by lia.
  unfold transfer_chs.
  match goal with |- context [fl_transfer ?op ?dr ?h ?c ?sec 0 ?bp ?m ?b] =>
    pose proof (Hz op dr h c sec bp m b) as He; destruct (fl_transfer op dr h c sec 0 bp m b) as [[e m'] b'] end.
  cbn [fst] in He. subst e. cbn [Z.eqb andb LBA_WRITE_VERIFY set_bios set_mem].
  assert (Hnv : (mode =? LBA_WRITE_VERIFY s0) = false).
  { rewrite Tv. destruct Hv as [-> | ->]; destruct Hmode as [-> | ->]; done. }
  rewrite Hnv. cbn [Z.eqb negb]. rewrite Z.add_0_r, Z.sub_0_r, u32_id, (u16_id total) by lia.
  apply IH; [|destruct (_ && _); unfold verify_mode in *; cbn; by rewrite Tv].
  destruct (_ && _); cbn; by rewrite Td.
Qed.

(** The test of the command lets 26 pass, for which the table has no entry. *)
Lemma command_past_table r (s : disks B) :
  r_command r = NENTRY -> r_unit r < units s -> blk_driver buf0 r s = None.
Proof.
  intros Hc Hu. unfold blk_driver. rewrite Hc, (proj2 (Z.leb_gt _ _)) by done. done.
Qed.

End tracks.

(** ** A sample disk

    A BIOS with drives of 16 heads and 63 sectors, whose state is the bytes of the
    drives, and a hard disk with a partition of 100000 sectors from sector 63 on. *)

Definition ram_disk : Type := Z -> Z -> Z.

Definition ram_transfer (op : bios_op) (d lba n a : Z) (m : memory) (b : ram_disk) : Z * memory * ram_disk :=
  match op with
  | op_read => (0, (fun x => if (a <=? x) && (x <? a + 512 * n) then b d (512 * lba + (x - a)) else m x), b)
  | op_write =>
      (0, m, fun e x => if (e =? d) && (512 * lba <=? x) && (x <? 512 * lba + 512 * n)
                        then m (a + (x - 512 * lba)) else b e x)
  | op_verify | op_format => (0, m, b)
  end.

#[export] Instance ram_bios : DiskBios ram_disk := {
  fl_reset _ b := b;
  fl_diskchanged _ b := (0, b);
  fl_transfer op d head cyl sect n p m b := ram_transfer op d ((cyl * 16 + head) * 63 + (sect - 1)) n (linear p) m b;
  fl_lba_ReadWrite d mode p m b :=
    match lba_op mode with
    | Some op => ram_transfer op d (block_address p) (number_of_blocks p) (linear (buffer_address p)) m b
    | None => (1, m, b)
    end;
  fl_setdisktype _ _ b := b;
  fl_setmediatype _ _ _ b := (0, None, b);
  fl_readkey b := b;
  floppy_change _ b := (0, b);
  fl_clock b := (0, b);
  fl_put_string _ b := b }.

Definition ram_byte (b : ram_disk) : Z -> Z -> Z := b.

Lemma ram_transfer_law op d lba n a m b e m' b' :
  ram_transfer op d lba n a m b = (e, m', b') ->
  touched ram_byte op d lba n a m b m' b' /\ (e = 0 -> moved ram_byte op d lba n a m b m' b').
Proof.
  destruct op; cbn; intros [= <- <- <-]; try done.
  - split; [split; [|done]|].
    + intros x Hx. unfold inside in Hx. destruct (Z.leb_spec a x), (Z.ltb_spec x (a + 512 * n)); try done; lia.
    + intros _ i Hi. rewrite (proj2 (Z.leb_le _ _)), (proj2 (Z.ltb_lt _ _)) by lia. cbn. unfold ram_byte. f_equal. lia.
  - split; [split; [done|]|].
    + intros e x Hx. unfold ram_byte, inside in *. destruct (Z.eqb_spec e d); [|done].
      destruct (Z.leb_spec (512 * lba) x), (Z.ltb_spec x (512 * lba + 512 * n)); try done; lia.
    + intros _ i Hi. unfold ram_byte. rewrite Z.eqb_refl, (proj2 (Z.leb_le _ _)), (proj2 (Z.ltb_lt _ _)) by lia.
      cbn. f_equal. lia.
Qed.

#[export] Program Instance ram_laws : DiskBiosLaws ram_disk := {
  disk_byte := ram_byte;
  bios_heads _ := 16;
  bios_sectors _ := 63 }.
Next Obligation. cbn. lia. Qed.
Next Obligation. cbn. intros. by apply ram_transfer_law. Qed.
Next Obligation.
  cbn. intros op d mode n p lba m b e m' b' E Ho _ _ _. rewrite Ho in E. by apply ram_transfer_law in E.
Qed.
Next Obligation. done. Qed.
Next Obligation. done. Qed.
Next Obligation. done. Qed.
Next Obligation. done. Qed.
Next Obligation. done. Qed.
Next Obligation. done. Qed.

Lemma ram_reliable : bios_reliable (B := ram_disk).
Proof.
  split.
  - intros op d head cyl sect n p m b _ _ _ _ _. by destruct op.
  - intros d mode op n p lba m b Ho _ _ _. cbn. rewrite Ho. by destruct op.
Qed.

Definition sample_bpb : bpb := Bpb 512 4 1 2 512 0 0xf8 97 63 16 63 100000 0 0 0 0 0 0.
Definition sample_ddt : ddt := Ddt None 0x80 2 sample_bpb 0 5 DF_FIXED 100 sample_bpb 0 [] 0 [] 63.
Definition sample_a : ddt := Ddt (Some 1) 0 0 sample_bpb 0 7 (Z.lor DF_MULTLOG DF_CURLOG) 80 sample_bpb 0 [] 0 [] 0.
Definition sample_b : ddt := Ddt (Some 2) 0 1 sample_bpb 0 7 DF_MULTLOG 80 sample_bpb 0 [] 0 [] 0.
Definition sample_disks : disks ram_disk :=
  Disks [sample_a; sample_b; sample_ddt] 3 0x4302 0x522 (fun _ => 0) (fun _ x => x mod 256).
Definition sample_dtb : farptr := Far 0x70 0x100.
Definition sample_rq (command start count : Z) (p : farptr) : request :=
  Request 2 command 0 None p count start 0 0 0 (r_ai (AInfo 0)).

Ltac sample := first [done | by left | by right | vm_compute; intuition congruence | unfold usable, linear; cbn; lia].

Lemma sample_partition : partition_ok (B := ram_disk) sample_ddt.
Proof. split_and!; try done. by right. Qed.

Lemma sample_reach x : 0 <= x < drive_size sample_ddt -> in_reach (B := ram_disk) sample_ddt (ddt_offset sample_ddt + x).
Proof. intros Hx. right. change (drive_size sample_ddt) with 100000 in Hx. cbn in *. lia. Qed.

Lemma LBA_Transfer_correct_witness : exists e k s',
  LBA_Transfer sample_dtb 2 LBA_READ (Far 0x8000 5) 60 200 sample_disks = Some (e, k, s') /\
  transfer_result sample_dtb op_read sample_ddt 60 200 (linear (Far 0x8000 5)) (set_track_length sample_ddt sample_disks) e k s'.
Proof.
  apply (LBA_Transfer_correct sample_dtb); [sample|done|done|by right|done| |lia|lia|lia|sample].
  right. split_and!; reflexivity.
Defined.

Lemma partition_isolated_witness : exists status r' s',
  blockio sample_dtb (sample_rq C_OUTPUT 99990 20 (Far 0x8000 5)) 2 sample_disks = Some (status, r', s') /\
  (~ fits_drive sample_ddt (sample_rq C_OUTPUT 99990 20 (Far 0x8000 5)) ->
   status = 0x0408 /\ same_disks disk_byte (bios sample_disks) (bios s')) /\
  same_disks_outside disk_byte 0x80 63 (drive_size sample_ddt) (bios sample_disks) (bios s').
Proof.
  apply (partition_isolated sample_dtb ltac:(sample) 2 op_write sample_ddt);
    [done|by right|exact sample_partition|done|done|cbn; lia|cbn; lia|intros _; cbn; lia|sample].
Defined.

Lemma drive_roundtrip_witness : exists s1 s2,
  blockio sample_dtb (sample_rq C_OUTPUT 61 200 (Far 0x8000 5)) 2 sample_disks
    = Some (S_DONE, sample_rq C_OUTPUT 61 200 (Far 0x8000 5), s1) /\
  blockio sample_dtb (sample_rq C_INPUT 61 200 (Far 0x4000 0)) 2 s1
    = Some (S_DONE, sample_rq C_INPUT 61 200 (Far 0x4000 0), s2) /\
  forall i, 0 <= i < 512 * 200 -> mem s2 (linear (Far 0x4000 0) + i) = mem sample_disks (linear (Far 0x8000 5) + i).
Proof.
  apply (drive_roundtrip sample_dtb ltac:(sample) 2 sample_ddt (sample_rq C_OUTPUT 61 200 (Far 0x8000 5))
           (sample_rq C_INPUT 61 200 (Far 0x4000 0)) sample_disks);
    [exact ram_reliable|done|by right|exact sample_partition|done|exact sample_reach|done..|cbn; lia| |sample|sample].
  split; cbn; vm_compute; intuition congruence.
Defined.

Lemma bldbpb_correct_witness : exists status r' s' d',
  bldbpb sample_dtb (sample_rq C_BLDBPB 0 0 (Far 0 0)) 2 sample_disks = Some (status, r', s') /\
  at_ (ddts s') 2 = Some d' /\
  (status = S_DONE /\ r' = sample_rq C_BLDBPB 0 0 (Far 0 0) /\ ddt_bpb d' = ddt_defbpb sample_ddt).
Proof.
  apply (bldbpb_correct sample_dtb ltac:(sample) 2 sample_ddt (sample_rq C_BLDBPB 0 0 (Far 0 0)) sample_disks);
    [exact ram_reliable|done|by right|done|done|by right|right; cbn; lia|cbn; lia|sample].
Defined.

Lemma play_dj_switches_witness : exists r s', play_dj 1 sample_disks = Some (r, s') /\
  same_disks disk_byte (bios sample_disks) (bios s') /\ r = M_CHANGED /\
  forall i di, at_ (ddts s') i = Some di -> ddt_driveno di = 0 -> (is_current di = true <-> i = 1).
Proof.
  apply (play_dj_switches 1 sample_b 0 sample_a sample_disks); try done.
  intros i di Hi Hd Hc. apply at_lookup in Hi as [Hi0 Hi]. cbn in Hi.
  destruct (Z.to_nat i) as [|[|[|n]]] eqn:E; cbn in Hi; [lia|injection Hi as <-; done..|done].
Defined.

Definition short_ddt : ddt :=
  set_ddt_bpb (Bpb 512 4 1 2 512 0 0xf8 97 17 4 63 100000 0 0 0 0 0 0) sample_ddt.

Lemma short_track_hangs_witness : forall fuel,
  transfer_loop sample_dtb fuel 0 LBA_READ (Far 0x4000 0) 80 1 0
    (Disks [short_ddt] 1 0x4302 0x522 (fun _ => 0) (fun _ x => x mod 256)) = None.
Proof.
  intros fuel. apply (short_track_hangs sample_dtb 0 short_ddt);
    [by intros []|done|done|by left|sample|sample|sample|lia|done|lia|by right].
Defined.
