(* ===== verification/Initdisk.v ===== *)
(** * The scan for partitions ([kernel/initdisk.c])

    At the start the kernel asks the BIOS for its drives, reads their partition
    tables and gives every partition it can use a drive letter, that is a table [ddt]
    with a default BPB.  The calls of the interrupts 13h and 11h are the class
    [Int13]; what is printed on the screen is left out. *)

From S2P Require Import Prelude Hdr Bytes Dpb Media Diskdrv.

(** kernel/initdisk.c:155-155 *)
Definition SCAN_PRIMARYBOOT : Z := 0x00.
(** kernel/initdisk.c:156-156 *)
Definition SCAN_PRIMARY : Z := 0x01.
(** kernel/initdisk.c:157-157 *)
Definition SCAN_EXTENDED : Z := 0x02.
(** kernel/initdisk.c:158-158 *)
Definition SCAN_PRIMARY2 : Z := 0x03.
(** kernel/initdisk.c:160-160 *)
Definition FAT12 : Z := 0x01.
(** kernel/initdisk.c:161-161 *)
Definition FAT16SMALL : Z := 0x04.
(** kernel/initdisk.c:162-162 *)
Definition EXTENDED : Z := 0x05.
(** kernel/initdisk.c:163-163 *)
Definition FAT16LARGE : Z := 0x06.
(** kernel/initdisk.c:164-165 *)
Definition FAT32 : Z := 0x0b.
(** kernel/initdisk.c:166-167 *)
Definition FAT32_LBA : Z := 0x0c.
(** kernel/initdisk.c:168-169 *)
Definition FAT16_LBA : Z := 0x0e.
(** kernel/initdisk.c:170-170 *)
Definition FAT12_LBA : Z := 0xff.
(** kernel/initdisk.c:171-171 *)
Definition EXTENDED_LBA : Z := 0x0f.
(** hdr/fat.h:85-85 *)
Definition FAT_MAGIC32 : Z := 268435455.
(** kernel/initdisk.c:179-179 *)
Definition FAT16MAX : Z := FAT_MAGIC16 - 6.
(** kernel/initdisk.c:180-180 *)
Definition FAT32MAX : Z := FAT_MAGIC32 - 6.
(** kernel/initdisk.c:379-379 *)
Definition MAXCLUSTSIZE : Z := 128.
(** kernel/initdisk.c:380-380 *)
Definition NSECTORFAT12 : Z := 8.
(** kernel/initdisk.c:381-381 *)
Definition NFAT : Z := 2.
(** kernel/init-mod.h:120-120 *)
Definition MAX_HARD_DRIVE : Z := 8.
(** kernel/init-mod.h:121-121 *)
Definition NDEV : Z := 26.

(** kernel/initdisk.c:182-183 *)
Definition IsExtPartition (t : Z) : bool := (t =? EXTENDED) || (t =? EXTENDED_LBA).
(** kernel/initdisk.c:185-187 *)
Definition IsLBAPartition (t : Z) : bool := (t =? FAT12_LBA) || (t =? FAT16_LBA) || (t =? FAT32_LBA).
(** kernel/initdisk.c:190-195 *)
Definition IsFATPartition (t : Z) : bool :=
  (t =? FAT12) || (t =? FAT16SMALL) || (t =? FAT16LARGE) || (t =? FAT16_LBA) || (t =? FAT32) || (t =? FAT32_LBA).

(** kernel/initdisk.c:225-231 *)
Record DriveParamS := DriveParam { driveno : Z; descflags : Z; total_sects : Z; chs : CHS }.

(** kernel/initdisk.c:233-241 *)
Record PartTableEntry := PartEntry {
  Bootable : Z;
  FileSystem : Z;
  Begin : CHS;
  End : CHS;
  RelSect : Z;
  NumSect : Z }.

Definition set_FileSystem v (e : PartTableEntry) : PartTableEntry :=
  PartEntry (Bootable e) v (Begin e) (End e) (RelSect e) (NumSect e).
Definition set_Begin v (e : PartTableEntry) : PartTableEntry :=
  PartEntry (Bootable e) (FileSystem e) v (End e) (RelSect e) (NumSect e).
Definition set_End v (e : PartTableEntry) : PartTableEntry :=
  PartEntry (Bootable e) (FileSystem e) (Begin e) v (RelSect e) (NumSect e).

(** The settings of the configuration that matter here.
    hdr/kconfig.h:26-36 *)
Record KernelConfig := Config { DLASortByDriveNo : bool; ForceLBA : bool; GlobalEnableLBAsupport : bool }.

(** ** Geometry *)

(** [None] is a division by zero.
    kernel/initdisk.c:341-352 *)
Definition init_LBA_to_CHS (LBA_address : Z) (dp : DriveParamS) : option CHS :=
  let spt := Sector (chs dp) in
  let hs := u16 (spt * Head (chs dp)) in
  if (hs =? 0) || (spt =? 0) then None
  else
    let hsrem := LBA_address mod hs in
    let cyl := LBA_address / hs in
    Some (Chs (if 0x10000 <=? cyl then 0xffff else cyl) (hsrem / spt) (hsrem mod spt + 1)).

(** ** The default BPB of a partition *)

(** kernel/initdisk.c:369-369 *)
Definition cdiv (a b : Z) : Z := (a + b - 1) / b.

Definition is_fat12 (fs : Z) : bool := (fs =? FAT12) || (fs =? FAT12_LBA).
Definition is_fat32 (fs : Z) : bool := (fs =? FAT32) || (fs =? FAT32_LBA).

(** kernel/initdisk.c:405-410 *)
Definition fat12_length (fatdata : Z) : Z :=
  let fatdat := if 32640 <? fatdata then 32640 else u16 fatdata in
  u16 (cdiv (u16 (fatdat + 2 * NSECTORFAT12) * 3) (SEC_SIZE * 2 * NSECTORFAT12 + NFAT * 3)).

(** The cluster size for large volumes.
    kernel/initdisk.c:445-454 *)
Definition fat32_nsector (NumSectors : Z) : Z :=
  let sz_gb := NumSectors / 2097152 in
  let n := 64 in
  let n := if sz_gb <=? 32 then 32 else n in
  let n := if sz_gb <=? 16 then 16 else n in
  let n := if sz_gb <=? 8 then 8 else n in
  if NumSectors <=? 532480 then 1 else n.

(** The FAT a cluster size needs and the clusters there are then.
    kernel/initdisk.c:482-484 *)
Definition fat_length (fatdata fatentpersec nsector : Z) : Z :=
  let divisor := fatentpersec * nsector + NFAT in
  u32 (fatdata + (2 * nsector + divisor - 1)) / divisor.
(** kernel/initdisk.c:488-488 *)
Definition cluster_count (fatdata fatlength nsector : Z) : Z := u32 (fatdata - NFAT * fatlength) / nsector.

(** Whether the number of clusters is one the FAT has room for and of the right type.
    kernel/initdisk.c:488-507 *)
Definition clusters_fit (fatdata fatentpersec maxcl nsector : Z) : bool :=
  let fatlength := fat_length fatdata fatentpersec nsector in
  let clust := cluster_count fatdata fatlength nsector in
  let maxclust := Z.min (u32 (fatlength * fatentpersec)) maxcl in
  negb (u32 (maxclust - 2) <? clust) && negb (clust <=? FAT_MAGIC).

(** The search for a cluster size: the size and the length of the FAT of the last
    round.  A byte doubles to 0 after 8 rounds at most.
    kernel/initdisk.c:480-510 *)
Fixpoint cluster_loop (n : nat) (fatdata fatentpersec maxcl nsector : Z) : Z * Z :=
  let fatlength := fat_length fatdata fatentpersec nsector in
  if clusters_fit fatdata fatentpersec maxcl nsector then (nsector, fatlength)
  else
    let nsector := u8 (Z.shiftl nsector 1) in
    match n with
    | S n => if negb (nsector =? 0) && (nsector <=? MAXCLUSTSIZE)
             then cluster_loop n fatdata fatentpersec maxcl nsector else (nsector, fatlength)
    | O => (nsector, fatlength)
    end.

(** The fields that depend on the file system; the others are kept.
    kernel/initdisk.c:383-529 *)
Definition fat_bpb (NumSectors FileSystem : Z) (b : bpb) : bpb :=
  let fatdata := u32 (NumSectors - (DIRENT_SIZE + 1)) in
  if is_fat12 FileSystem then
    Bpb (bpb_nbyte b) NSECTORFAT12 1 NFAT 512 (bpb_nsize b) (bpb_mdesc b) (fat12_length fatdata) (bpb_nsecs b)
      (bpb_nheads b) (bpb_hidden b) (bpb_huge b) (bpb_xnfsect b) (bpb_xflags b) (bpb_xfsversion b) (bpb_xrootclst b)
      (bpb_xfsinfosec b) (bpb_xbackupsec b)
  else if is_fat32 FileSystem then
    let '(nsector, fatlength) :=
      cluster_loop 8 (u32 (NumSectors - 0x20)) (SEC_SIZE / 4) FAT32MAX (fat32_nsector NumSectors) in
    Bpb (bpb_nbyte b) nsector 0x20 NFAT 0 (bpb_nsize b) (bpb_mdesc b) 0 (bpb_nsecs b)
      (bpb_nheads b) (bpb_hidden b) (bpb_huge b) fatlength 0 0 2 1 6
  else
    let fatdata := if 8386688 <? fatdata then 8386688 else fatdata in
    let '(nsector, fatlength) := cluster_loop 8 fatdata (SEC_SIZE / 2) FAT16MAX 4 in
    Bpb (bpb_nbyte b) nsector 1 NFAT 512 (bpb_nsize b) (bpb_mdesc b) (u16 fatlength) (bpb_nsecs b)
      (bpb_nheads b) (bpb_hidden b) (bpb_huge b) (bpb_xnfsect b) (bpb_xflags b) (bpb_xfsversion b) (bpb_xrootclst b)
      (bpb_xfsinfosec b) (bpb_xbackupsec b).

(** kernel/initdisk.c:430-430 *)
Definition fs_sign (FileSystem : Z) : list Z :=
  (if is_fat12 FileSystem then str "FAT12   " else if is_fat32 FileSystem then str "FAT32   " else str "FAT16   ") ++ [0].

Definition set_ddt_fstype (v : list Z) (d : ddt) : ddt :=
  Ddt (ddt_next d) (ddt_driveno d) (ddt_logdriveno d) (ddt_bpb d) (ddt_FileOC d) (ddt_type d) (ddt_descflags d)
    (ddt_ncyl d) (ddt_defbpb d) (ddt_lasttime d) (ddt_volume d) (ddt_serialno d) v (ddt_offset d).

(** kernel/initdisk.c:383-532 *)
Definition CalculateFATData (d : ddt) (NumSectors FileSystem : Z) : ddt :=
  set_ddt_fstype (fs_sign FileSystem) (set_ddt_defbpb (fat_bpb NumSectors FileSystem (ddt_defbpb d)) d).

(** ** The BIOS *)

(** What the function 48h tells.
    kernel/initdisk.c:208-221 *)
Record lba_parameters := LbaParameters {
  information : Z; lba_heads : Z; lba_sectors : Z; totalSect : Z; totalSectHigh : Z }.

(** The calls, named by the function in AH: the carry flag comes first, then the
    registers that are read afterwards, in the order AX, BX, CX, DX.  A read also
    yields the contents of the buffer. *)
Class Int13 (B : Type) := {
  int13_reset : Z -> B -> B;
  int13_parameters : Z -> B -> bool * Z * Z * Z * B;
  int13_type : Z -> B -> bool * Z * B;
  int13_extensions : Z -> B -> bool * Z * Z * Z * B;
  int13_lba_parameters : Z -> B -> bool * lba_parameters * B;
  int13_read_chs : Z -> Z -> Z -> B -> bool * list Z * B;
  int13_read_lba : Z -> Z -> B -> bool * list Z * B;
  int11_equipment : B -> Z * B;
  diskette_parameters : B -> list Z;
  setvec_1e : list Z -> B -> B;
  boot_drive : B -> Z }.

(** The number of units and their tables, the globals of the module, the table of
    diskette parameters and the BIOS. *)
Record init_disk (B : Type) := InitDisk {
  nUnits : Z;
  i_ddts : list ddt;
  ExtLBAForce : bool;
  WRITE_VERIFY : Z;
  InitDiskTransferBuffer : list Z;
  int1e_table : list Z;
  i_bios : B }.
Arguments InitDisk {B}.
Arguments nUnits {B}.
Arguments i_ddts {B}.
Arguments ExtLBAForce {B}.
Arguments WRITE_VERIFY {B}.
Arguments InitDiskTransferBuffer {B}.
Arguments int1e_table {B}.
Arguments i_bios {B}.

Section scan.
  Context {B : Type} `{!Int13 B} (cfg : KernelConfig).

(** What the stack holds where a table is built. *)
  Context (junk : ddt).
  Implicit Types s : init_disk B.

Definition set_nUnits v s : init_disk B :=
  InitDisk v (i_ddts s) (ExtLBAForce s) (WRITE_VERIFY s) (InitDiskTransferBuffer s) (int1e_table s) (i_bios s).
Definition set_i_ddts v s : init_disk B :=
  InitDisk (nUnits s) v (ExtLBAForce s) (WRITE_VERIFY s) (InitDiskTransferBuffer s) (int1e_table s) (i_bios s).
Definition set_ExtLBAForce v s : init_disk B :=
  InitDisk (nUnits s) (i_ddts s) v (WRITE_VERIFY s) (InitDiskTransferBuffer s) (int1e_table s) (i_bios s).
Definition set_WRITE_VERIFY v s : init_disk B :=
  InitDisk (nUnits s) (i_ddts s) (ExtLBAForce s) v (InitDiskTransferBuffer s) (int1e_table s) (i_bios s).
Definition set_InitDiskTransferBuffer v s : init_disk B :=
  InitDisk (nUnits s) (i_ddts s) (ExtLBAForce s) (WRITE_VERIFY s) v (int1e_table s) (i_bios s).
Definition set_int1e_table v s : init_disk B :=
  InitDisk (nUnits s) (i_ddts s) (ExtLBAForce s) (WRITE_VERIFY s) (InitDiskTransferBuffer s) v (i_bios s).
Definition set_i_bios v s : init_disk B :=
  InitDisk (nUnits s) (i_ddts s) (ExtLBAForce s) (WRITE_VERIFY s) (InitDiskTransferBuffer s) (int1e_table s) v.

(** kernel/initdisk.c:249-265 *)
Definition init_readdasd (drive : Z) s : Z * init_disk B :=
  let '(carry, ah, b) := int13_type drive (i_bios s) in
  ((if carry : bool then 0 else match ah with 2 => DF_CHANGELINE | 3 => DF_FIXED | _ => 0 end), set_i_bios b s).

(** ** Diskette drives *)

(** The fields up to the number of heads: the other fields of a table keep what they
    had, but for the two the code clears.
    kernel/initdisk.c:267-287 *)
Definition floppy_bpbs : list (Z * Z * Z * Z * Z * Z * Z) :=
  [(2, 112, 720, 0xfd, 2, 9, 2); (1, 224, 2400, 0xf9, 7, 15, 2); (2, 112, 1440, 0xf9, 3, 9, 2);
   (1, 224, 2880, 0xf0, 9, 18, 2); (2, 240, 5760, 0xf0, 9, 36, 2)].

(** The type and the BPB; the type 6 would be read behind the table.
    kernel/initdisk.c:289-319 *)
Definition init_getdriveparm (drive : Z) (b : bpb) s : option (Z * bpb * init_disk B) :=
  if has drive 0x80 then Some (5, b, s)
  else
    let '(carry, bl, _, _, bs) := int13_parameters drive (i_bios s) in
    let s := set_i_bios bs s in
    let type := u8 (bl - 1) in
    let type := if carry : bool then 0 else if 6 <? type then 8 else if type =? 5 then 4 else type in
    let* (nsector, ndirent, nsize, mdesc, nfsect, nsecs, nheads) := at_ floppy_bpbs (Z.land type 7) in
    let b := Bpb SEC_SIZE nsector 1 2 ndirent nsize mdesc nfsect nsecs nheads 0 0 (bpb_xnfsect b) (bpb_xflags b)
               (bpb_xfsversion b) (bpb_xrootclst b) (bpb_xfsinfosec b) (bpb_xbackupsec b) in
    Some ((if type =? 3 then 7 else if type =? 4 then 9 else type), b, s).

(** A new table goes behind the others.
    kernel/initdisk.c:534-543 *)
Definition push_ddt (d : ddt) s : init_disk B :=
  let n := Z.of_nat (length (i_ddts s)) in
  let link (p : ddt) : ddt :=
    let p := Ddt (Some n) (ddt_driveno p) (ddt_logdriveno p) (ddt_bpb p) (ddt_FileOC p) (ddt_type p) (ddt_descflags p)
               (ddt_ncyl p) (ddt_defbpb p) (ddt_lasttime p) (ddt_volume p) (ddt_serialno p) (ddt_fstype p) (ddt_offset p) in
    if (ddt_driveno d =? 0) && (ddt_logdriveno d =? 1)
    then set_ddt_flags (Z.lor (ddt_descflags p) (Z.lor DF_CURLOG DF_MULTLOG)) p else p in
  let before := if ddt_logdriveno d =? 0 then i_ddts s
                else alter link (pred (length (i_ddts s))) (i_ddts s) in
  set_i_ddts (before ++ [d]) s.

(** kernel/initdisk.c:1239-1252 *)
Definition make_ddt (d : ddt) (Unit drive flags : Z) s : option (ddt * init_disk B) :=
  let* (type, b, s) := init_getdriveparm drive (ddt_defbpb d) s in
  let '(dasd, s) := init_readdasd drive s in
  let d := Ddt None drive Unit b (ddt_FileOC d) type (Z.lor dasd flags) (if Z.land type 7 =? 0 then 40 else 80)
             b (ddt_lasttime d) (ddt_volume d) 0x12345678 (ddt_fstype d) 0 in
  Some (d, push_ddt d s).

(** ** Partitions *)

(** Linear addresses are for partitions that ask for them.
    kernel/initdisk.c:559-595 *)
Definition partition_ddt (dp : DriveParamS) (StartSector : Z) (e : PartTableEntry) (unit : Z) (force : bool) (dasd : Z) : ddt :=
  let flags := if ForceLBA cfg || force || IsLBAPartition (FileSystem e) then descflags dp
               else clear DF_LBA (descflags dp) in
  let j := ddt_defbpb junk in
  let small := NumSect e <=? 0xffff in
  let b := Bpb SEC_SIZE (bpb_nsector j) (bpb_nreserved j) (bpb_nfat j) (bpb_ndirent j)
             (if small then u16 (NumSect e) else 0) 0xf8 (bpb_nfsect j) (Sector (chs dp)) (Head (chs dp)) (RelSect e)
             (if small then 0 else NumSect e) (bpb_xnfsect j) (bpb_xflags j) (bpb_xfsversion j) (bpb_xrootclst j)
             (bpb_xfsinfosec j) (bpb_xbackupsec j) in
  let d := Ddt None (driveno dp) unit (ddt_bpb junk) (ddt_FileOC junk) 5 flags (Cylinder (chs dp)) b
             (ddt_lasttime junk) (ddt_volume junk) 0x12345678 (ddt_fstype junk) StartSector in
  let d := CalculateFATData d (NumSect e) (FileSystem e) in
  set_ddt_bpb (ddt_defbpb d) (set_ddt_flags (Z.lor (ddt_descflags d) (Z.lor dasd DF_NOACCESS)) d).

(** The numbers of the partition serve for the message only.
    kernel/initdisk.c:545-627 *)
Definition DosDefinePartition (dp : DriveParamS) (StartSector : Z) (e : PartTableEntry) s : init_disk B :=
  if NDEV <=? nUnits s then s
  else
    let '(dasd, s) := init_readdasd (driveno dp) s in
    let s := push_ddt (partition_ddt dp StartSector e (nUnits s) (ExtLBAForce s) dasd) s in
    set_nUnits (nUnits s + 1) s.

(** Whether linear addresses can be used: the flags of the drive and its size.
    kernel/initdisk.c:640-710 *)
Definition lba_support (drive : Z) s : option (Z * Z) * init_disk B :=
  if negb (GlobalEnableLBAsupport cfg) then (None, s)
  else
    let '(carry, ax, bx, cx, b) := int13_extensions drive (i_bios s) in
    let s := set_i_bios b s in
    if negb (bx =? 0xaa55) || carry then (None, s)
    else if Z.land cx 1 =? 0 then (None, s)
    else
      let s := if ax <? 0x2100 then set_WRITE_VERIFY 0x4301 s else s in
      let '(carry, p, b) := int13_lba_parameters drive (i_bios s) in
      let s := set_i_bios b s in
      if carry : bool then (None, s)
      else if (0xffff <? lba_heads p) || (0xffff <? lba_sectors p) || negb (totalSectHigh p =? 0) then (None, s)
      else (Some (if has (information p) 8 then Z.lor DF_LBA DF_WRTVERIFY else DF_LBA, totalSect p), s).

(** The last cylinder, head and sector that function 8 tells, as numbers of them;
    the sum in the number of cylinders belongs to the second operand.
    kernel/initdisk.c:722-732 *)
Definition bios_chs (cx dx : Z) : CHS :=
  let sector := Z.land cx 0x3f in
  Chs (Z.lor (Z.shiftr cx 8) (Z.shiftl (Z.land cx 0xc0) 2 + 1)) (Z.shiftr dx 8 + 1)
      (if sector =? 0 then 63 else sector).

(** The number of the drive, 0 for none, and its parameters.
    kernel/initdisk.c:629-752 *)
Definition LBA_Get_Drive_Parameters (drive : Z) s : Z * DriveParamS * init_disk B :=
  let s := set_ExtLBAForce false s in
  let drive := Z.lor drive 0x80 in
  let '(lba, s) := lba_support drive s in
  let '(flags, total) := default (0, 0) lba in
  let '(carry, _, cx, dx, b) := int13_parameters drive (i_bios s) in
  let s := set_i_bios b s in
  if carry : bool then (0, DriveParam 0 flags total (Chs 0 0 0), s)
  else
    let c := bios_chs cx dx in
    let total := if has flags DF_LBA then total else u32 (Cylinder c * Head c * Sector c) in
    (u8 drive, DriveParam (u8 drive) flags total c, s).

(** ** Partition tables *)

(** kernel/initdisk.c:758-763 *)
Definition ConvCHSToIntern (disk : list Z) (i : Z) : option CHS :=
  let* b0 := at_ disk i in
  let* b1 := at_ disk (i + 1) in
  let* b2 := at_ disk (i + 2) in
  Some (Chs (b2 + Z.shiftl (Z.land b1 0xc0) 2) b0 (Z.land b1 0x3f)).

(** kernel/initdisk.c:782-789 *)
Definition conv_entry (disk : list Z) (i : Z) : option PartTableEntry :=
  let* bootable := at_ disk i in
  let* fs := at_ disk (i + 4) in
  let* begin := ConvCHSToIntern disk (i + 1) in
  let* end_ := ConvCHSToIntern disk (i + 5) in
  let* rel := get32 disk (i + 8) in
  let* num := get32 disk (i + 12) in
  Some (PartEntry bootable fs begin end_ rel num).

Definition no_entry : PartTableEntry := PartEntry 0 0 (Chs 0 0 0) (Chs 0 0 0) 0 0.

(** Whether the sector holds a table, and the table.
    kernel/initdisk.c:765-792 *)
Definition ConvPartTableEntryToIntern (disk : list Z) : option (bool * list PartTableEntry) :=
  let* b0 := at_ disk 0x1fe in
  let* b1 := at_ disk 0x1ff in
  if negb (b0 =? 0x55) || negb (b1 =? 0xaa) then Some (false, replicate 4 no_entry)
  else
    let* table := mapM (conv_entry disk) [0x1be; 0x1ce; 0x1de; 0x1ee] in
    Some (true, table).

(** kernel/initdisk.c:794-808 *)
Definition is_suspect (c e : CHS) : bool :=
  negb (((Cylinder e =? Cylinder c) && (Head e =? Head c) && (Sector e =? Sector c)) ||
        ((1023 <? Cylinder c) && ((Cylinder e =? 1023) || (Cylinder e =? Z.land 0x3ff (Cylinder c))))).

(** The partition types of partitions that only linear addresses reach.
    kernel/initdisk.c:910-913 *)
Definition lba_type (fs : Z) : Z := if fs =? FAT12 then FAT12_LBA else if fs =? FAT32 then FAT32_LBA else FAT16_LBA.

(** The checks of an entry against the geometry of the drive: the entry as it is left
    in the table and whether it is used.
    kernel/initdisk.c:859-914 *)
Definition check_entry (dp : DriveParamS) (force : bool) (partitionStart : Z) (e : PartTableEntry) :
    option (PartTableEntry * bool) :=
  let* c := init_LBA_to_CHS partitionStart dp in
  let* end_ := init_LBA_to_CHS (u32 (partitionStart + NumSect e - 1)) dp in
  let e := if is_suspect c (Begin e) then set_Begin c e else e in
  let suspect := is_suspect end_ (End e) in
  if suspect && (NumSect e =? 0) then Some (e, false)
  else
    let e := if suspect then set_End end_ e else e in
    if (1023 <? Cylinder c) || (1023 <? Cylinder end_) then
      if negb (has (descflags dp) DF_LBA) then Some (e, false)
      else if negb (ForceLBA cfg) && negb force && negb (IsLBAPartition (FileSystem e))
      then Some (set_FileSystem (lba_type (FileSystem e)) e, true)
      else Some (e, true)
    else Some (e, true).

(** Whether the scan looks at an entry at all.
    kernel/initdisk.c:831-848 *)
Definition considered (scan_type ignore i : Z) (e : PartTableEntry) : bool :=
  negb (FileSystem e =? 0) && negb (has ignore (Z.shiftl 1 i)) && negb (IsExtPartition (FileSystem e)) &&
  negb ((scan_type =? SCAN_PRIMARYBOOT) && (Bootable e =? 0)) && IsFATPartition (FileSystem e).

(** The entries from number [i] on; the result is the set of entries to be ignored
    from now on and the table as it is left.
    kernel/initdisk.c:829-941 *)
Fixpoint scan_entries (dp : DriveParamS) (scan_type startSector ignore i : Z) (table : list PartTableEntry) s :
    option (Z * list PartTableEntry * init_disk B) :=
  match table with
  | [] => Some (ignore, [], s)
  | e :: rest =>
      if negb (considered scan_type ignore i e) then
        let* (ignore, rest, s) := scan_entries dp scan_type startSector ignore (i + 1) rest s in
        Some (ignore, e :: rest, s)
      else
        let partitionStart := u32 (startSector + RelSect e) in
        let* (e, used) := check_entry dp (ExtLBAForce s) partitionStart e in
        if negb used then
          let* (ignore, rest, s) := scan_entries dp scan_type startSector ignore (i + 1) rest s in
          Some (ignore, e :: rest, s)
        else
          let ignore := Z.lor ignore (Z.shiftl 1 i) in
          let s := DosDefinePartition dp partitionStart e s in
          if (scan_type =? SCAN_PRIMARYBOOT) || (scan_type =? SCAN_PRIMARY) then Some (ignore, e :: rest, s)
          else
            let* (ignore, rest, s) := scan_entries dp scan_type startSector ignore (i + 1) rest s in
            Some (ignore, e :: rest, s)
  end.

(** kernel/initdisk.c:820-942 *)
Definition ScanForPrimaryPartitions (dp : DriveParamS) (scan_type : Z) (table : list PartTableEntry)
    (startSector ignore : Z) s : option (Z * list PartTableEntry * init_disk B) :=
  scan_entries dp scan_type startSector ignore 0 table s.

(** kernel/initdisk.c:1139-1147 *)
Definition BIOS_drive_reset (drive : Z) s : init_disk B := set_i_bios (int13_reset (Z.lor drive 0x80) (i_bios s)) s.

(** The inner [None] is an address that cannot be reached.
    kernel/initdisk.c:971-1012 *)
Definition read_once (dp : DriveParamS) (drive LBA_address : Z) s : option (option bool * init_disk B) :=
  let dl := Z.lor drive 0x80 in
  let* c := init_LBA_to_CHS LBA_address dp in
  if has (descflags dp) DF_LBA && (ForceLBA cfg || ExtLBAForce s || (1023 <? Cylinder c)) then
    let '(carry, data, b) := int13_read_lba dl LBA_address (i_bios s) in
    Some (Some carry, set_InitDiskTransferBuffer data (set_i_bios b s))
  else if 1023 <? Cylinder c then Some (None, s)
  else
    let cx := u16 (Z.shiftl (Z.land (Cylinder c) 0xff) 8 + Z.shiftr (Z.land (Cylinder c) 0x300) 2 + Sector c) in
    let '(carry, data, b) := int13_read_chs dl cx (u8 (Head c)) (i_bios s) in
    Some (Some carry, set_InitDiskTransferBuffer data (set_i_bios b s)).

(** The carry flag of the last attempt.
    kernel/initdisk.c:969-1014 *)
Fixpoint read_retry (n : nat) (dp : DriveParamS) (drive LBA_address : Z) (carry : bool) s : option (bool * init_disk B) :=
  match n with
  | O => Some (carry, s)
  | S n =>
      let* (r, s) := read_once dp drive LBA_address s in
      match r with
      | None => Some (true, s)
      | Some false => Some (false, s)
      | Some true => read_retry n dp drive LBA_address true (BIOS_drive_reset (driveno dp) s)
      end
  end.

(** Whether the read has failed.
    kernel/initdisk.c:946-1017 *)
Definition Read1LBASector (dp : DriveParamS) (drive LBA_address : Z) s : option (bool * init_disk B) :=
  read_retry N_RETRY dp drive LBA_address false s.

(** A table is read, up to three times when it is not valid: [None] inside is no
    table.
    kernel/initdisk.c:1049-1073 *)
Fixpoint read_table (tries : nat) (dp : DriveParamS) (drive sector : Z) s :
    option (option (list PartTableEntry) * init_disk B) :=
  match tries with
  | O => Some (None, s)
  | S tries =>
      let* (failed, s) := Read1LBASector dp drive sector s in
      if failed : bool then Some (None, s)
      else
        let* (valid, table) := ConvPartTableEntryToIntern (InitDiskTransferBuffer s) in
        if valid : bool then Some (Some table, s) else read_table tries dp drive sector s
  end.

(** kernel/initdisk.c:1075-1077 *)
Definition scans_primary (scanType found : Z) : bool :=
  (scanType =? SCAN_PRIMARYBOOT) || (scanType =? SCAN_PRIMARY) || (scanType =? SCAN_PRIMARY2) || negb (found =? 0).

(** The first extended partition of a table.
    kernel/initdisk.c:1094-1117 *)
Definition extended_entry (table : list PartTableEntry) : option PartTableEntry :=
  head (filter (fun e => IsExtPartition (FileSystem e) = true) table).

(** The tables of a chain, one per round.
    kernel/initdisk.c:1047-1119 *)
Fixpoint table_loop (fuel : nat) (dp : DriveParamS) (scanType drive : Z) (ignore offset ext found : Z) s :
    option (Z * init_disk B) :=
  match fuel with
  | O => None
  | S fuel =>
      let* (table, s) := read_table 3 dp drive offset s in
      match table with
      | None => Some (ignore, s)
      | Some table =>
          let* (ignore, table, s) :=
            if scans_primary scanType found
            then ScanForPrimaryPartitions dp scanType table offset ignore s else Some (ignore, table, s) in
          if negb (scanType =? SCAN_EXTENDED) then Some (ignore, s)
          else
            match extended_entry table with
            | None => Some (0, s)
            | Some e =>
                let offset := u32 (ext + RelSect e) in
                let '(ext, s) := if ext =? 0
                                 then (RelSect e, set_ExtLBAForce (FileSystem e =? EXTENDED_LBA) s) else (ext, s) in
                let found := found + 1 in
                if 30 <? found then Some (0, s)
                else table_loop fuel dp scanType drive 0 offset ext found s
            end
      end
  end.

(** At most 31 tables are read.
    kernel/initdisk.c:1020-1120 *)
Definition ProcessDisk (scanType drive ignore : Z) s : option (Z * init_disk B) :=
  let '(r, dp, s) := LBA_Get_Drive_Parameters drive s in
  if r =? 0 then Some (ignore, s)
  else table_loop 31 dp scanType drive ignore 0 0 0 s.

(** kernel/initdisk.c:1122-1137 *)
Definition BIOS_nrdrives s : Z * init_disk B :=
  let '(carry, _, _, dx, b) := int13_parameters 0x80 (i_bios s) in
  ((if carry : bool then 0 else u8 dx), set_i_bios b s).

(** ** All drives *)

(** A loop over the hard disks from [i] on, each with the entries found on it.
    kernel/initdisk.c:1314-1335 *)
Fixpoint each_disk (step : Z -> Z -> init_disk B -> option (Z * init_disk B)) (i : Z) (found : list Z) s :
    option (list Z * init_disk B) :=
  match found with
  | [] => Some ([], s)
  | f :: found =>
      let* (f, s) := step i f s in
      let* (found, s) := each_disk step (i + 1) found s in
      Some (f :: found, s)
  end.

(** The bootable partition of a disk or else its first one; [foundPartitions] are
    bytes.
    kernel/initdisk.c:1316-1321 *)
Definition process_boot (drive f : Z) s : option (Z * init_disk B) :=
  let* (f, s) := ProcessDisk SCAN_PRIMARYBOOT drive 0 s in
  if u8 f =? 0 then let* (f, s) := ProcessDisk SCAN_PRIMARY drive 0 s in Some (u8 f, s)
  else Some (u8 f, s).

(** kernel/initdisk.c:1327-1327 *)
Definition process_extended (drive f : Z) s : option (Z * init_disk B) :=
  let* (_, s) := ProcessDisk SCAN_EXTENDED drive 0 s in Some (f, s).

(** kernel/initdisk.c:1333-1333 *)
Definition process_rest (drive f : Z) s : option (Z * init_disk B) :=
  let* (_, s) := ProcessDisk SCAN_PRIMARY2 drive f s in Some (f, s).

(** The disk the kernel was booted from comes first when drives are sorted by disk.
    kernel/initdisk.c:1343-1353 *)
Fixpoint process_boot_drive (bootdrv i : Z) (found : list Z) s : option (list Z * init_disk B) :=
  match found with
  | [] => Some ([], s)
  | f :: found =>
      let '(r, dp, s) := LBA_Get_Drive_Parameters i s in
      if negb (r =? 0) && (driveno dp =? bootdrv) then
        let* (f, s) := ProcessDisk SCAN_PRIMARYBOOT i 0 s in Some (u8 f :: found, s)
      else
        let* (found, s) := process_boot_drive bootdrv (i + 1) found s in Some (f :: found, s)
  end.

(** kernel/initdisk.c:1357-1371 *)
Definition process_disk (drive f : Z) s : option (Z * init_disk B) :=
  let* (f, s) := if f =? 0 then process_boot drive f s else Some (f, s) in
  let* (f, s) := process_extended drive f s in
  process_rest drive f s.

(** kernel/initdisk.c:1263-1271 *)
Definition adjust_int1e s : init_disk B :=
  let t := diskette_parameters (i_bios s) in
  let t := <[3%nat := 2]> t in
  let t := if nth 4 t 0 <? 9 then <[4%nat := 9]> t else t in
  set_i_bios (setvec_1e t (i_bios s)) (set_int1e_table t s).

(** The resets of the hard disks.
    kernel/initdisk.c:1303-1307 *)
Fixpoint reset_drives (n : nat) (i : Z) s : init_disk B :=
  match n with O => s | S n => reset_drives n (i + 1) (BIOS_drive_reset i s) end.

(** kernel/initdisk.c:1254-1374 *)
Definition ReadAllPartitionTables s : option (init_disk B) :=
  let s := adjust_int1e s in
  let* (d, s) := make_ddt junk 0 0 0 s in
  let '(al, b) := int11_equipment (i_bios s) in
  let s := set_i_bios b s in
  let* (_, s) := if has al 1 && has al 0xc0 then make_ddt d 1 1 0 s else make_ddt d 1 0 DF_MULTLOG s in
  let s := set_nUnits 2 s in
  let '(n, s) := BIOS_nrdrives s in
  let n := Z.to_nat (Z.min n MAX_HARD_DRIVE) in
  let s := reset_drives n 0 s in
  let found := replicate n 0 in
  if negb (DLASortByDriveNo cfg) then
    let* (found, s) := each_disk process_boot 0 found s in
    let* (found, s) := each_disk process_extended 0 found s in
    let* (_, s) := each_disk process_rest 0 found s in
    Some s
  else
    let* (found, s) := process_boot_drive (boot_drive (i_bios s)) 0 found s in
    let* (_, s) := each_disk process_disk 0 found s in
    Some s.

(** The number of units.
    kernel/initdisk.c:1377-1396 *)
Definition dsk_init s : option (Z * init_disk B) :=
  let* st := ReadAllPartitionTables (BIOS_drive_reset 0 s) in
  Some (nUnits st, st).

End scan.
