(* ===== verification/InitdiskSpec.v ===== *)
(** * The scan for partitions: what is found

    Geometry, default BPBs and partition tables on their own; then, over a BIOS with
    given disks, the drive letters as lists of partitions. *)

From S2P Require Import Prelude Hdr Bytes Dpb Blockio Fattab Media MediaSpec Diskdrv Initdisk.

(** ** Geometry *)

Definition geometry_ok (dp : DriveParamS) : Prop :=
  1 <= Head (chs dp) <= 256 /\ 1 <= Sector (chs dp) <= 63.

Lemma init_LBA_to_CHS_spec lba dp :
  geometry_ok dp -> 0 <= lba ->
  exists c, init_LBA_to_CHS lba dp = Some c /\ 0 <= Head c < Head (chs dp) /\ 1 <= Sector c <= Sector (chs dp) /\
    0 <= Cylinder c /\
    (Cylinder c < 0xffff -> (Cylinder c * Head (chs dp) + Head c) * Sector (chs dp) + (Sector c - 1) = lba).
Proof.
  intros [Hh Hs] Hl. unfold init_LBA_to_CHS. set (h := Head (chs dp)) in *. set (n := Sector (chs dp)) in *.
  assert (1 <= n * h <= 16128) by nia. rewrite (u16_id (n * h)) by lia.
  rewrite (proj2 (Z.eqb_neq (n * h) 0)), (proj2 (Z.eqb_neq n 0)) by lia. cbn [orb].
  pose proof (Z.div_mod lba (n * h) ltac:(lia)) as Hd.
  pose proof (Z.mod_pos_bound lba (n * h) ltac:(lia)) as Hr.
  assert (0 <= lba / (n * h)) by (apply Z.div_pos; lia).
  set (q := lba / (n * h)) in *. set (r := lba mod (n * h)) in *.
  pose proof (Z.div_mod r n ltac:(lia)) as Hd2. pose proof (Z.mod_pos_bound r n ltac:(lia)).
  assert (0 <= r / n < h) by (split; [apply Z.div_pos; lia|apply Z.div_lt_upper_bound; nia]).
  eexists. split; [done|]. cbn [Head Sector Cylinder].
  split; [done|]. split; [lia|]. destruct (Z.leb_spec 0x10000 q).
  - split; [lia|]. lia.
  - split; [lia|]. intros _. nia.
Qed.

(** The end of a sector on a track is its beginning in a table of partitions. *)
Lemma not_suspect c : is_suspect c c = false.
Proof. unfold is_suspect. by rewrite !Z.eqb_refl. Qed.

(** ** Default BPBs *)

(** A FAT with [per] entries in a sector has an entry for every cluster. *)
Lemma fat_length_spec fd per ns :
  128 <= per <= 256 -> 1 <= ns <= 128 -> 0 <= fd -> fd + 65536 <= 4294967296 ->
  let fl := fat_length fd per ns in
  (per * ns + 2) * fl <= fd + 2 * ns + per * ns + 1 /\ fd + 2 * ns <= (per * ns + 2) * fl /\ 1 <= fl.
Proof.
  intros Hp Hn Hf Hf2 fl. subst fl. unfold fat_length, NFAT. set (d := per * ns + 2).
  assert (130 <= d <= 32770) by (subst d; nia). rewrite u32_id by lia.
  pose proof (Z.div_mod (fd + (2 * ns + d - 1)) d ltac:(lia)) as E.
  pose proof (Z.mod_pos_bound (fd + (2 * ns + d - 1)) d ltac:(lia)) as Hr.
  set (fl := (fd + (2 * ns + d - 1)) / d) in *. split; [lia|]. split; [lia|]. nia.
Qed.

(** Cluster sizes are tried from 4 sectors on; the numbers of clusters and the lengths
    of the FAT that belong to them. *)
Lemma cluster_count_spec fd per ns :
  128 <= per <= 256 -> 1 <= ns <= 128 -> 0 <= fd -> fd + 65536 <= 4294967296 ->
  2 * fat_length fd per ns <= fd ->
  let fl := fat_length fd per ns in
  let cl := cluster_count fd fl ns in
  ns * cl + 2 * fl <= fd < ns * cl + ns + 2 * fl /\ cl + 2 <= per * fl /\ 0 <= cl.
Proof.
  intros Hp Hn Hf Hf2 Hfl fl cl. destruct (fat_length_spec fd per ns Hp Hn Hf Hf2) as (H1 & H2 & H3).
  fold fl in H1, H2, H3, Hfl. subst cl. unfold cluster_count, NFAT. rewrite u32_id by lia.
  pose proof (Z.div_mod (fd - 2 * fl) ns ltac:(lia)) as E. pose proof (Z.mod_pos_bound (fd - 2 * fl) ns ltac:(lia)).
  assert (0 <= (fd - 2 * fl) / ns) by (apply Z.div_pos; lia).
  set (cl := (fd - 2 * fl) / ns) in *. split; [lia|]. split; [|done].
  assert (ns * (cl + 2) <= ns * (per * fl)) by lia. nia.
Qed.

Definition sizes16 : list Z := [4; 8; 16; 32; 64; 128].

Lemma fit16 fd ns :
  ns ∈ sizes16 -> 16000 <= fd <= 8386688 ->
  let fl := fat_length fd 256 ns in
  let cl := cluster_count fd fl ns in
  clusters_fit fd 256 FAT16MAX ns = (cl <=? 65517) && (4085 <? cl) /\ 1 <= fl <= 8300 /\
  ns * cl + 2 * fl <= fd < ns * cl + ns + 2 * fl /\ cl + 2 <= 256 * fl /\ (256 * ns + 2) * fl <= fd + 258 * ns + 1.
Proof.
  intros Hns Hfd fl cl. assert (4 <= ns <= 128) as Hb.
  { unfold sizes16 in Hns. rewrite !elem_of_cons, elem_of_nil in Hns. lia. }
  destruct (fat_length_spec fd 256 ns) as (H1 & H2 & H3); [lia..|]. fold fl in H1, H2, H3.
  assert (fl <= 8300 /\ 2 * fl <= fd) as [Hb1 Hb2].
  { clearbody fl. unfold sizes16 in Hns. rewrite !elem_of_cons, elem_of_nil in Hns.
    destruct Hns as [-> |[-> |[-> |[-> |[-> |[-> |[]]]]]]]; lia. }
  destruct (cluster_count_spec fd 256 ns) as (C1 & C2 & C3); [lia|lia|lia|lia|fold fl; lia|].
  fold fl in C1, C2, C3. fold cl in C1, C2, C3.
  split; [|lia]. unfold clusters_fit. fold fl. fold cl. unfold FAT16MAX, FAT_MAGIC16, FAT_MAGIC. rewrite (u32_id (fl * 256)) by lia.
  rewrite (u32_id (_ - 2)) by lia. destruct (Z.ltb_spec (Z.min (fl * 256) (65525 - 6) - 2) cl), (Z.leb_spec cl 65517),
    (Z.leb_spec cl 4085), (Z.ltb_spec 4085 cl); try done; lia.
Qed.

(** The search ends with a size that fits. *)
Lemma loop16 fd :
  16376 <= fd <= 8386688 ->
  exists ns, ns ∈ sizes16 /\ cluster_loop 8 fd 256 FAT16MAX 4 = (ns, fat_length fd 256 ns) /\
    clusters_fit fd 256 FAT16MAX ns = true.
Proof.
  intros Hfd.
  assert (H4 : 4 ∈ sizes16) by exact (list_elem_of_lookup_2 sizes16 0 4 eq_refl).
  assert (H8 : 8 ∈ sizes16) by exact (list_elem_of_lookup_2 sizes16 1 8 eq_refl).
  assert (H16 : 16 ∈ sizes16) by exact (list_elem_of_lookup_2 sizes16 2 16 eq_refl).
  assert (H32 : 32 ∈ sizes16) by exact (list_elem_of_lookup_2 sizes16 3 32 eq_refl).
  assert (H64 : 64 ∈ sizes16) by exact (list_elem_of_lookup_2 sizes16 4 64 eq_refl).
  assert (H128 : 128 ∈ sizes16) by exact (list_elem_of_lookup_2 sizes16 5 128 eq_refl).
  assert (Hgo : forall ns, ns ∈ sizes16 -> (ns = 4 \/ 65518 * (ns / 2) + 512 <= fd) ->
    clusters_fit fd 256 FAT16MAX ns = true \/ (clusters_fit fd 256 FAT16MAX ns = false /\ 65518 * ns + 512 <= fd)).
  { intros ns Hns Hlow. destruct (fit16 fd ns Hns ltac:(lia)) as (E & H1 & H2 & H3 & H5).
    set (fl := fat_length fd 256 ns) in *. set (cl := cluster_count fd fl ns) in *. rewrite E. clearbody fl cl.
    destruct (Z.leb_spec cl 65517) as [Hc|Hc]; [left|right].
    - apply andb_true_iff. split; [done|]. apply Z.ltb_lt. unfold sizes16 in Hns.
      rewrite !elem_of_cons, elem_of_nil in Hns.
      destruct Hns as [-> |[-> |[-> |[-> |[-> |[-> |[]]]]]]]; Z.div_mod_to_equations; lia.
    - split; [done|]. unfold sizes16 in Hns. rewrite !elem_of_cons, elem_of_nil in Hns.
      destruct Hns as [-> |[-> |[-> |[-> |[-> |[-> |[]]]]]]]; lia. }
  assert (Hstop : forall n ns, clusters_fit fd 256 FAT16MAX ns = true ->
    cluster_loop n fd 256 FAT16MAX ns = (ns, fat_length fd 256 ns)).
  { intros n ns F. destruct n; cbn [cluster_loop]; by rewrite F. }
  assert (Hstep : forall n ns, clusters_fit fd 256 FAT16MAX ns = false -> 1 <= ns -> ns <= 64 ->
    cluster_loop (S n) fd 256 FAT16MAX ns = cluster_loop n fd 256 FAT16MAX (2 * ns)).
  { intros n ns F H1 H2. cbn [cluster_loop]. rewrite F, Z.shiftl_mul_pow2 by lia. change (2 ^ 1) with 2.
    rewrite u8_id, (proj2 (Z.eqb_neq _ _)) by lia. unfold MAXCLUSTSIZE. rewrite (proj2 (Z.leb_le _ _)) by lia.
    cbn [negb andb]. by rewrite (Z.mul_comm ns). }
  assert (Htry : forall n ns, ns ∈ sizes16 -> (ns = 4 \/ 65518 * (ns / 2) + 512 <= fd) ->
    (clusters_fit fd 256 FAT16MAX ns = false -> 65518 * ns + 512 <= fd ->
     exists ns', ns' ∈ sizes16 /\ cluster_loop n fd 256 FAT16MAX (2 * ns) = (ns', fat_length fd 256 ns') /\
       clusters_fit fd 256 FAT16MAX ns' = true) -> ns <= 64 ->
    exists ns', ns' ∈ sizes16 /\ cluster_loop (S n) fd 256 FAT16MAX ns = (ns', fat_length fd 256 ns') /\
      clusters_fit fd 256 FAT16MAX ns' = true).
  { intros n ns Hns Hl Hnext H64'. destruct (Hgo ns Hns Hl) as [F|[F L]].
    - exists ns. split; [done|]. split; [by apply Hstop|done].
    - destruct (Hnext F L) as (ns' & Hns' & E & F'). exists ns'. split; [done|]. split; [|done].
      unfold sizes16 in Hns. rewrite !elem_of_cons, elem_of_nil in Hns. rewrite Hstep; [done|done|lia|lia]. }
  apply (Htry 7%nat 4 H4); [by left|intros _ L4|lia].
  apply (Htry 6%nat 8 H8); [by right; change (8 / 2) with 4|intros _ L8|lia].
  apply (Htry 5%nat 16 H16); [by right; change (16 / 2) with 8|intros _ L16|lia].
  apply (Htry 4%nat 32 H32); [by right; change (32 / 2) with 16|intros _ L32|lia].
  apply (Htry 3%nat 64 H64); [by right; change (64 / 2) with 32|intros _ L64|lia].
  destruct (Hgo 128 H128) as [F|[F L]]; [by right; change (128 / 2) with 64| |].
  - exists 128. split; [done|]. split; [by apply Hstop|done].
  - lia.
Qed.

(** The width of the entries for a type of partition, and the sizes the default BPB
    is for. *)
Definition fat_bits (fs : Z) : Z := if is_fat12 fs then 12 else if is_fat32 fs then 32 else 16.
Definition size_ok (fs N : Z) : Prop :=
  if is_fat12 fs then 64 <= N <= 32673 else if is_fat32 fs then 4200 <= N <= 4294901760 else 16409 <= N <= 8386721.

(** The number of clusters is right for the width, and the FAT has an entry for each. *)
Definition width_ok (bits : Z) (b : bpb) : Prop :=
  (clusters b + 2) * bits <= fat_sectors b * 512 * 8 /\
  match bits with
  | 12 => clusters b < FAT_MAGIC /\ bpb_nfsect b <> 0
  | 16 => FAT_MAGIC <= clusters b < FAT_MAGIC16 /\ bpb_nfsect b <> 0
  | _ => FAT_MAGIC <= clusters b < FAT_MAGIC32 /\ bpb_nfsect b = 0
  end.

Lemma default_fat16 fs N b :
  is_fat12 fs = false -> is_fat32 fs = false -> bpb_nbyte b = 512 -> total_sectors b = N -> size_ok fs N ->
  bpb_ok (fat_bpb N fs b) /\ width_ok 16 (fat_bpb N fs b).
Proof.
  intros E12 E32 Hb Ht Hs. unfold size_ok in Hs. rewrite E12, E32 in Hs. unfold fat_bpb. rewrite E12, E32.
  rewrite u32_id by (unfold DIRENT_SIZE; lia). change (DIRENT_SIZE + 1) with 33.
  rewrite (proj2 (Z.ltb_ge 8386688 (N - 33))) by lia. change (SEC_SIZE / 2) with 256.
  destruct (loop16 (N - 33)) as (ns & Hns & -> & F); [lia|].
  destruct (fit16 (N - 33) ns Hns ltac:(lia)) as (E & H1 & H2 & H3 & _). rewrite E in F.
  apply andb_true_iff in F as [F1%Z.leb_le F2%Z.ltb_lt].
  set (fl := fat_length _ 256 ns) in *. set (cl := cluster_count _ fl ns) in *. clearbody fl cl.
  rewrite (u16_id fl) by lia. set (b' := Bpb _ _ _ _ _ _ _ _ _ _ _ _ _ _ _ _ _ _).
  assert (Hk : exists k, 0 <= k <= 7 /\ ns = 2 ^ k).
  { unfold sizes16 in Hns. rewrite !elem_of_cons, elem_of_nil in Hns.
    destruct Hns as [-> |[-> |[-> |[-> |[-> |[-> |[]]]]]]];
      [exists 2|exists 3|exists 4|exists 5|exists 6|exists 7]; split; (lia || done). }
  assert (Hns4 : 4 <= ns <= 128).
  { unfold sizes16 in Hns. rewrite !elem_of_cons, elem_of_nil in Hns. lia. }
  assert (Hfs : fat_sectors b' = fl) by (unfold fat_sectors; cbn; by rewrite (proj2 (Z.eqb_neq fl 0)) by lia).
  assert (Hds : data_start b' = 33 + 2 * fl).
  { unfold data_start. rewrite Hfs. cbn [b' bpb_nfsect bpb_nreserved bpb_nfat bpb_ndirent].
    rewrite (proj2 (Z.eqb_neq fl 0)) by lia. change ((512 + 15) / 16) with 32. unfold NFAT. lia. }
  assert (Htot : total_sectors b' = N) by exact Ht.
  assert (Hcl : clusters b' = cl).
  { unfold clusters. rewrite Htot, Hds. cbn [b' bpb_nsector]. symmetry. apply Z.div_unique with (N - 33 - 2 * fl - ns * cl); lia. }
  split; [split; [split|]|].
  - exact Hb.
  - exact Hk.
  - cbn. lia.
  - cbn. unfold NFAT. lia.
  - rewrite Htot. lia.
  - rewrite Hds, Htot. cbn [b' bpb_nsector]. nia.
  - cbn [b' bpb_nfsect]. rewrite (proj2 (Z.eqb_neq fl 0)) by lia. split.
    + cbn. lia.
    + cbn. lia.
    + rewrite Hds. lia.
    + rewrite Hcl. unfold FAT_MAGIC16. lia.
  - unfold fat_room. cbn [b' bpb_nfsect]. rewrite (proj2 (Z.eqb_neq fl 0)) by lia. unfold FAT_MAGIC. lia.
  - unfold width_ok. rewrite Hcl, Hfs. unfold FAT_MAGIC, FAT_MAGIC16. cbn. lia.
Qed.

Lemma default_fat12 fs N b :
  is_fat12 fs = true -> bpb_nbyte b = 512 -> total_sectors b = N -> size_ok fs N ->
  bpb_ok (fat_bpb N fs b) /\ width_ok 12 (fat_bpb N fs b).
Proof.
  intros E12 Hb Ht Hs. unfold size_ok in Hs. rewrite E12 in Hs. unfold fat_bpb. rewrite E12.
  rewrite u32_id by (unfold DIRENT_SIZE; lia). change (DIRENT_SIZE + 1) with 33.
  unfold fat12_length. rewrite (proj2 (Z.ltb_ge 32640 (N - 33))) by lia.
  change (SEC_SIZE * 2 * NSECTORFAT12 + NFAT * 3) with 8198. change (2 * NSECTORFAT12) with 16.
  rewrite (u16_id (N - 33)), (u16_id (N - 33 + 16)) by lia. unfold cdiv.
  assert (Hfl : let fl := ((N - 33 + 16) * 3 + 8198 - 1) / 8198 in
    1 <= fl <= 12 /\ (N - 17) * 3 <= 8198 * fl <= (N - 17) * 3 + 8197) by (cbv zeta; Z.div_mod_to_equations; lia).
  set (fl := (_ + 8198 - 1) / 8198) in *. cbv zeta in Hfl. destruct Hfl as [H1 H2]. clearbody fl.
  rewrite (u16_id fl) by lia. set (b' := Bpb _ _ _ _ _ _ _ _ _ _ _ _ _ _ _ _ _ _).
  assert (Hfs : fat_sectors b' = fl) by (unfold fat_sectors; cbn; by rewrite (proj2 (Z.eqb_neq fl 0)) by lia).
  assert (Hds : data_start b' = 33 + 2 * fl).
  { unfold data_start. rewrite Hfs. cbn [b' bpb_nfsect bpb_nreserved bpb_nfat bpb_ndirent].
    rewrite (proj2 (Z.eqb_neq fl 0)) by lia. change ((512 + 15) / 16) with 32. unfold NFAT. lia. }
  assert (Htot : total_sectors b' = N) by exact Ht.
  assert (Hcl : 8 * clusters b' + 2 * fl <= N - 33).
  { unfold clusters. rewrite Htot, Hds. cbn [b' bpb_nsector]. unfold NSECTORFAT12. Z.div_mod_to_equations; lia. }
  split; [split; [split|]|].
  - exact Hb.
  - exists 3. done.
  - cbn. lia.
  - cbn. unfold NFAT. lia.
  - rewrite Htot. lia.
  - rewrite Hds, Htot. cbn [b' bpb_nsector]. unfold NSECTORFAT12. lia.
  - cbn [b' bpb_nfsect]. rewrite (proj2 (Z.eqb_neq fl 0)) by lia. split.
    + cbn. lia.
    + cbn. lia.
    + rewrite Hds. lia.
    + unfold FAT_MAGIC16. lia.
  - unfold fat_room. cbn [b' bpb_nfsect]. rewrite (proj2 (Z.eqb_neq fl 0)) by lia. unfold FAT_MAGIC. lia.
  - unfold width_ok. rewrite Hfs. unfold FAT_MAGIC. cbn [b' bpb_nfsect]. lia.
Qed.

Lemma fat32_nsector_spec N :
  4200 <= N <= 4294901760 ->
  let ns := fat32_nsector N in
  (ns = 1 /\ N <= 532480 \/ ns = 8 /\ 532480 < N \/ ns = 16 /\ 18874368 <= N \/ ns = 32 /\ 35651584 <= N \/
   ns = 64 /\ 69206016 <= N) /\ N <= ns * 67108864.
Proof.
  intros HN ns. subst ns. unfold fat32_nsector.
  destruct (Z.leb_spec N 532480); [lia|].
  destruct (Z.leb_spec (N / 2097152) 8); [Z.div_mod_to_equations; lia|].
  destruct (Z.leb_spec (N / 2097152) 16); [Z.div_mod_to_equations; lia|].
  destruct (Z.leb_spec (N / 2097152) 32); Z.div_mod_to_equations; lia.
Qed.

Lemma default_fat32 fs N b :
  is_fat12 fs = false -> is_fat32 fs = true -> bpb_nbyte b = 512 -> total_sectors b = N -> size_ok fs N ->
  bpb_ok (fat_bpb N fs b) /\ width_ok 32 (fat_bpb N fs b).
Proof.
  intros E12 E32 Hb Ht Hs. unfold size_ok in Hs. rewrite E12, E32 in Hs. unfold fat_bpb. rewrite E12, E32.
  rewrite u32_id by lia. change (SEC_SIZE / 4) with 128.
  destruct (fat32_nsector_spec N Hs) as [Hns HN]. set (ns := fat32_nsector N) in *. clearbody ns.
  assert (Hr : 1 <= ns <= 64) by lia.
  destruct (fat_length_spec (N - 32) 128 ns) as (H1 & H2 & H3); [lia..|].
  assert (Hfl : 2 * fat_length (N - 32) 128 ns <= N - 32).
  { set (fl := fat_length _ _ _) in *. clearbody fl.
    destruct Hns as [[-> ?]|[[-> ?]|[[-> ?]|[[-> ?]|[-> ?]]]]]; lia. }
  destruct (cluster_count_spec (N - 32) 128 ns) as (C1 & C2 & C3); [lia|lia|lia|lia|done|].
  set (fl := fat_length (N - 32) 128 ns) in *. set (cl := cluster_count (N - 32) fl ns) in *.
  assert (Hcl : 4085 < cl /\ cl < 67108864 /\ fl <= 4000000).
  { assert (cl < 67108864) by nia. split; [|split; [done|]].
    - clearbody fl cl. destruct Hns as [[-> ?]|[[-> ?]|[[-> ?]|[[-> ?]|[-> ?]]]]]; lia.
    - clearbody fl cl. destruct Hns as [[-> ?]|[[-> ?]|[[-> ?]|[[-> ?]|[-> ?]]]]]; lia. }
  assert (F : clusters_fit (N - 32) 128 FAT32MAX ns = true).
  { unfold clusters_fit. fold fl. fold cl. unfold FAT32MAX, FAT_MAGIC32, FAT_MAGIC. rewrite (u32_id (fl * 128)) by lia.
    rewrite (u32_id (_ - 2)) by lia. apply andb_true_iff. split; apply negb_true_iff; [apply Z.ltb_ge|apply Z.leb_gt]; lia. }
  assert (El : cluster_loop 8 (N - 32) 128 FAT32MAX ns = (ns, fl)) by (cbn [cluster_loop]; by rewrite F).
  rewrite El. clearbody fl cl. set (b' := Bpb _ _ _ _ _ _ _ _ _ _ _ _ _ _ _ _ _ _).
  assert (Hds : data_start b' = 32 + 2 * fl) by (unfold data_start, fat_sectors; cbn; unfold NFAT; lia).
  assert (Htot : total_sectors b' = N) by exact Ht.
  assert (Hclb : clusters b' = cl).
  { unfold clusters. rewrite Htot, Hds. cbn [b' bpb_nsector]. symmetry. apply Z.div_unique with (N - 32 - 2 * fl - ns * cl); lia. }
  split; [split; [split|]|].
  - exact Hb.
  - cbn [b' bpb_nsector]. destruct Hns as [[-> _]|[[-> _]|[[-> _]|[[-> _]|[-> _]]]]];
      [exists 0|exists 3|exists 4|exists 5|exists 6]; split; (lia || done).
  - cbn. lia.
  - cbn. unfold NFAT. lia.
  - rewrite Htot. lia.
  - rewrite Hds, Htot. cbn [b' bpb_nsector]. nia.
  - cbn [b' bpb_nfsect Z.eqb]. split; rewrite ?Hclb.
    + cbn. lia.
    + unfold LONG_BAD. lia.
    + cbn. lia.
    + cbn. done.
    + cbn. lia.
  - unfold fat_room. cbn [b' bpb_nfsect bpb_xnfsect Z.eqb]. rewrite Hclb. lia.
  - unfold width_ok. rewrite Hclb. unfold FAT_MAGIC, FAT_MAGIC32, fat_sectors. cbn. lia.
Qed.

(** ** Partition tables *)

(** A table as it is stored on a disk. *)
Definition chs_bytes (c : CHS) : list Z := [Head c; Sector c + 64 * (Cylinder c / 256); Cylinder c mod 256].
Definition le32 (v : Z) : list Z := [u8 v; u8 (Z.shiftr v 8); u8 (Z.shiftr v 16); u8 (Z.shiftr v 24)].
Definition entry_bytes (e : PartTableEntry) : list Z :=
  [Bootable e] ++ chs_bytes (Begin e) ++ [FileSystem e] ++ chs_bytes (End e) ++ le32 (RelSect e) ++ le32 (NumSect e).
Definition table_sector (code : list Z) (table : list PartTableEntry) : list Z :=
  code ++ concat (map entry_bytes table) ++ [0x55; 0xaa].

Definition chs_fits (c : CHS) : Prop := 0 <= Head c < 256 /\ 0 <= Sector c < 64 /\ 0 <= Cylinder c < 1024.
Definition entry_fits (e : PartTableEntry) : Prop :=
  chs_fits (Begin e) /\ chs_fits (End e) /\ 0 <= RelSect e < 4294967296 /\ 0 <= NumSect e < 4294967296.

Lemma at_skip {A} (l r : list A) i : 0 <= i -> at_ (l ++ r) (Z.of_nat (length l) + i) = at_ r i.
Proof.
  intros Hi. unfold at_. rewrite !(proj2 (Z.ltb_ge _ _)) by lia.
  rewrite lookup_app_r by lia. f_equal. lia.
Qed.

Lemma conv_entry_skip l r i : 0 <= i -> conv_entry (l ++ r) (Z.of_nat (length l) + i) = conv_entry r i.
Proof.
  intros Hi. unfold conv_entry, ConvCHSToIntern, get32, get16. rewrite <- !Z.add_assoc. by rewrite !at_skip by lia.
Qed.

Lemma chs_bytes_back c : chs_fits c ->
  Chs (Cylinder c mod 256 + Z.shiftl (Z.land (Sector c + 64 * (Cylinder c / 256)) 0xc0) 2) (Head c)
    (Z.land (Sector c + 64 * (Cylinder c / 256)) 0x3f) = c.
Proof.
  intros (Hh & Hs & Hc). set (b := Sector c + 64 * (Cylinder c / 256)).
  assert (Hb : 0 <= b < 256) by (subst b; Z.div_mod_to_equations; lia).
  assert (Z.land b 0x3f = b mod 64) as -> by exact (Z.land_ones b 6 ltac:(lia)).
  assert (Z.land b 0xc0 = 64 * (b / 64)) as ->.
  { apply Z.eqb_eq, (forall_range (fun b => Z.land b 0xc0 =? 64 * (b / 64)) 0 256); [by vm_compute|lia]. }
  rewrite Z.shiftl_mul_pow2 by lia. change (2 ^ 2) with 4.
  destruct c as [cy h s]. cbn in *. subst b. f_equal; Z.div_mod_to_equations; lia.
Qed.

Lemma conv_entry_list x0 x1 x2 x3 x4 x5 x6 x7 x8 x9 x10 x11 x12 x13 x14 x15 r :
  conv_entry (x0 :: x1 :: x2 :: x3 :: x4 :: x5 :: x6 :: x7 :: x8 :: x9 :: x10 :: x11 :: x12 :: x13 :: x14 :: x15 :: r) 0
  = Some (PartEntry x0 x4 (Chs (x3 + Z.shiftl (Z.land x2 0xc0) 2) x1 (Z.land x2 0x3f))
            (Chs (x7 + Z.shiftl (Z.land x6 0xc0) 2) x5 (Z.land x6 0x3f))
            (x8 + 256 * x9 + 65536 * (x10 + 256 * x11)) (x12 + 256 * x13 + 65536 * (x14 + 256 * x15))).
Proof. reflexivity. Qed.

Lemma conv_entry_bytes e r : entry_fits e -> conv_entry (entry_bytes e ++ r) 0 = Some e.
Proof.
  intros (Hb & He & Hr & Hn). unfold entry_bytes, chs_bytes, le32. cbn [app].
  rewrite conv_entry_list, !chs_bytes_back, !word32_bytes by done. by destruct e.
Qed.

Lemma conv_entry_at pre e post k :
  Z.of_nat (length pre) = k -> entry_fits e -> conv_entry (pre ++ entry_bytes e ++ post) k = Some e.
Proof.
  intros <- He. rewrite <- (Z.add_0_r (Z.of_nat _)), conv_entry_skip by lia. by apply conv_entry_bytes.
Qed.

Lemma length_entry_bytes e : length (entry_bytes e) = 16%nat.
Proof. done. Qed.

Lemma table_roundtrip code table :
  length code = 446%nat -> length table = 4%nat -> Forall entry_fits table ->
  ConvPartTableEntryToIntern (table_sector code table) = Some (true, table).
Proof.
  intros Hc Ht Hf. destruct table as [|e1 [|e2 [|e3 [|e4 [|]]]]]; try done. clear Ht.
  rewrite !list.Forall_cons in Hf. destruct Hf as (F1 & F2 & F3 & F4 & _).
  unfold table_sector. cbn [map concat]. rewrite !app_nil_r.
  assert (Hsig : forall k, 0 <= k -> at_ (code ++ (entry_bytes e1 ++ entry_bytes e2 ++ entry_bytes e3 ++ entry_bytes e4) ++ [0x55; 0xaa])
    (510 + k) = at_ [0x55; 0xaa] k).
  { intros k Hk. replace (510 + k) with (Z.of_nat (length code) + (64 + k)) by lia. rewrite at_skip by lia.
    replace (64 + k) with (Z.of_nat (length (entry_bytes e1 ++ entry_bytes e2 ++ entry_bytes e3 ++ entry_bytes e4)) + k) by done.
    by rewrite at_skip. }
  unfold ConvPartTableEntryToIntern.
  rewrite (Hsig 0 ltac:(lia) : at_ _ 0x1fe = _), (Hsig 1 ltac:(lia) : at_ _ 0x1ff = _).
  change (at_ [0x55; 0xaa] 0) with (Some 0x55). change (at_ [0x55; 0xaa] 1) with (Some 0xaa).
  cbn [Z.eqb Pos.eqb negb orb].
  set (r := [0x55; 0xaa]). set (l := _ ++ _ ++ r).
  assert (L : forall pre e post k, l = pre ++ entry_bytes e ++ post -> Z.of_nat (length pre) = k -> entry_fits e ->
    conv_entry l k = Some e) by (intros pre e post k ->; apply conv_entry_at).
  cbn [mapM]. erewrite (L code e1 _ 0x1be), (L (code ++ entry_bytes e1) e2 _ 0x1ce),
    (L (code ++ entry_bytes e1 ++ entry_bytes e2) e3 _ 0x1de),
    (L (code ++ entry_bytes e1 ++ entry_bytes e2 ++ entry_bytes e3) e4 r 0x1ee); try done;
    try (subst l; rewrite <- !app_assoc; reflexivity); rewrite ?length_app, ?Hc; done.
Qed.
