(* ===== verification/InitdiskOrder.v ===== *)
(** * The scan for partitions: the order of the drive letters

    Over a BIOS with given disks, what the scan of a disk finds is a list of
    partitions, a function of the sectors of the disk; the tables of the drives are
    these lists one behind the other, as far as there are letters. *)

From S2P Require Import Prelude Hdr Bytes Dpb Media Diskdrv Initdisk InitdiskSpec.

(** ** Disks *)

(** A BIOS whose answers depend on the drive only: the registers of function 8, the
    answers of the other functions and the sectors of every drive. *)
Class Int13Laws (B : Type) `{!Int13 B} := {
  p_carry : Z -> bool;
  p_bl : Z -> Z;
  p_cx : Z -> Z;
  p_dx : Z -> Z;
  p_ext : Z -> bool * Z * Z * Z;
  p_lba : Z -> bool * lba_parameters;
  sector_of : Z -> Z -> list Z;
  p_equipment : Z;
  int13_parameters_law d b : fst (int13_parameters d b) = (p_carry d, p_bl d, p_cx d, p_dx d);
  int13_extensions_law d b : fst (int13_extensions d b) = p_ext d;
  int13_lba_parameters_law d b : fst (int13_lba_parameters d b) = p_lba d;
  int11_equipment_law b : fst (int11_equipment b) = p_equipment;
  registers_law d : 0 <= p_cx d < 65536 /\ 0 <= p_dx d < 65536;
  sector_law d l : length (sector_of d l) = 512%nat /\ bytes (sector_of d l);
  int13_read_lba_law d l b : 0 <= l -> fst (int13_read_lba d l b) = (false, sector_of d l);
  int13_read_chs_law d c cx b :
    0 <= Cylinder c <= 1023 -> 0 <= Head c < Head (bios_chs (p_cx d) (p_dx d)) ->
    1 <= Sector c <= Sector (bios_chs (p_cx d) (p_dx d)) ->
    cx = Z.shiftl (Z.land (Cylinder c) 0xff) 8 + Z.shiftr (Z.land (Cylinder c) 0x300) 2 + Sector c ->
    fst (int13_read_chs d cx (Head c) b) =
      (false, sector_of d ((Cylinder c * Head (bios_chs (p_cx d) (p_dx d)) + Head c)
                             * Sector (bios_chs (p_cx d) (p_dx d)) + (Sector c - 1))) }.

Lemma bios_chs_ok cx dx d f t :
  0 <= cx < 65536 -> 0 <= dx < 65536 -> geometry_ok (DriveParam d f t (bios_chs cx dx)).
Proof.
  intros Hc Hd. unfold geometry_ok, bios_chs. cbn [chs Head Sector].
  rewrite Z.shiftr_div_pow2 by lia. change (2 ^ 8) with 256.
  assert (0 <= dx / 256 < 256) by (Z.div_mod_to_equations; lia).
  assert (Z.land cx 0x3f = cx mod 64) as -> by exact (Z.land_ones cx 6 ltac:(lia)).
  pose proof (Z.mod_pos_bound cx 64 ltac:(lia)). destruct (Z.eqb_spec (cx mod 64) 0); lia.
Qed.

(** ** Letters *)

Section letters.
  Context {B : Type} `{Int13Laws B} (cfg : KernelConfig) (junk : ddt).
  Implicit Types st : init_disk B.

(** A drive letter is known by the disk and the first sector. *)
Definition letter : Type := Z * Z.
Definition assigned st : list letter := map (fun d => (ddt_driveno d, ddt_offset d)) (i_ddts st).

(** The units are numbered in the order of their tables. *)
Definition units_ok st : Prop :=
  nUnits st = Z.of_nat (length (i_ddts st)) /\ (length (i_ddts st) <= 26)%nat /\
  map ddt_logdriveno (i_ddts st) = seqZ 0 (nUnits st).

(** A step that gives letters to the partitions of a list, while there are any. *)
Definition adds (l : list letter) st st' : Prop :=
  units_ok st -> units_ok st' /\ assigned st' = take 26 (assigned st ++ l).

Lemma take_take_app {A} n (a b : list A) : take n (take n a ++ b) = take n (a ++ b).
Proof.
  destruct (le_lt_dec n (length a)) as [Hn|Hn].
  - rewrite !take_app_le, take_take, Nat.min_id by (rewrite ?length_take; lia). done.
  - by rewrite (take_ge a) by lia.
Qed.

Lemma adds_nil st st' : nUnits st' = nUnits st -> i_ddts st' = i_ddts st -> adds [] st st'.
Proof.
  intros E1 E2 (H1 & H2 & H3). unfold units_ok, assigned. rewrite E1, E2, app_nil_r.
  split; [done|]. rewrite take_ge; [done|]. rewrite length_map. lia.
Qed.

Lemma adds_app l1 l2 st1 st2 st3 : adds l1 st1 st2 -> adds l2 st2 st3 -> adds (l1 ++ l2) st1 st3.
Proof.
  intros H1 H2 Hu. destruct (H1 Hu) as [Hu2 E2]. destruct (H2 Hu2) as [Hu3 E3]. split; [done|].
  by rewrite E3, E2, take_take_app, app_assoc.
Qed.

Lemma adds_r st1 st2 st3 l : adds l st1 st2 -> adds [] st2 st3 -> adds l st1 st3.
Proof. intros H1 H2. rewrite <- (app_nil_r l). by eapply adds_app. Qed.
Lemma adds_l st1 st2 st3 l : adds [] st1 st2 -> adds l st2 st3 -> adds l st1 st3.
Proof. intros H1 H2. exact (adds_app [] l _ _ _ H1 H2). Qed.

Lemma alter_map {A C} (f : A -> C) (g : A -> A) i l : (forall x, f (g x) = f x) -> map f (alter g i l) = map f l.
Proof.
  intros E. apply list_eq. intros j. rewrite !list_lookup_fmap. destruct (decide (i = j)) as [->|Hne].
  - rewrite list_lookup_alter_eq. destruct (l !! j); cbn; [by rewrite E|done].
  - by rewrite list_lookup_alter_ne.
Qed.

Lemma push_ddt_spec d st :
  nUnits (push_ddt d st) = nUnits st /\ ExtLBAForce (push_ddt d st) = ExtLBAForce st /\
  length (i_ddts (push_ddt d st)) = S (length (i_ddts st)) /\
  assigned (push_ddt d st) = assigned st ++ [(ddt_driveno d, ddt_offset d)] /\
  map ddt_logdriveno (i_ddts (push_ddt d st)) = map ddt_logdriveno (i_ddts st) ++ [ddt_logdriveno d].
Proof.
  split; [done|]. split; [done|]. unfold push_ddt, assigned. cbn [i_ddts set_i_ddts].
  rewrite !map_app, length_app. set (g := fun p => _).
  destruct (ddt_logdriveno d =? 0); [cbn; split; [lia|done]|]. rewrite length_alter.
  rewrite !alter_map; [cbn; split; [lia|done]|intros x; subst g; cbn; by destruct (_ && _)..].
Qed.

Lemma init_readdasd_spec drive st dasd st' :
  init_readdasd drive st = (dasd, st') ->
  nUnits st' = nUnits st /\ i_ddts st' = i_ddts st /\ ExtLBAForce st' = ExtLBAForce st.
Proof. unfold init_readdasd. destruct (int13_type drive (i_bios st)) as [[c ah] b]. by intros [= <- <-]. Qed.

(** A partition gets the next letter, if there is one left. *)
Lemma DosDefinePartition_spec dp start e st :
  adds [(driveno dp, start)] st (DosDefinePartition cfg junk dp start e st) /\
  ExtLBAForce (DosDefinePartition cfg junk dp start e st) = ExtLBAForce st.
Proof.
  unfold DosDefinePartition. destruct (Z.leb_spec NDEV (nUnits st)) as [Hn|Hn].
  - split; [|done]. intros Hu. split; [done|]. destruct Hu as (H1 & H2 & H3). unfold NDEV in Hn.
    rewrite take_app_le by (unfold assigned; rewrite length_map; lia). by rewrite take_ge by (unfold assigned; rewrite length_map; lia).
  - destruct (init_readdasd (driveno dp) st) as [dasd st1] eqn:E.
    destruct (init_readdasd_spec _ _ _ _ E) as (E1 & E2 & E3).
    set (d := partition_ddt _ _ _ _ _ _ _ _).
    destruct (push_ddt_spec d st1) as (P1 & P2 & P3 & P4 & P5). split; [|cbn; congruence].
    intros (H1 & H2 & H3). unfold NDEV in Hn. split.
    + unfold units_ok. cbn [nUnits i_ddts set_nUnits]. rewrite P1, P3, P5, E1, E2. split; [lia|]. split; [lia|].
      rewrite H3. cbn [ddt_logdriveno d partition_ddt set_ddt_bpb set_ddt_flags CalculateFATData set_ddt_fstype set_ddt_defbpb].
      rewrite E1. rewrite (seqZ_app 0 (nUnits st) 1) by lia. done.
    + change (assigned (set_nUnits _ _)) with (assigned (push_ddt d st1)). rewrite P4.
      change (ddt_driveno d) with (driveno dp). change (ddt_offset d) with start. unfold assigned at 1. rewrite E2.
      symmetry. apply take_ge. rewrite length_app. unfold assigned. rewrite length_map. cbn. lia.
Qed.

(** ** Parameters and sectors *)

Definition lba_flags (drive : Z) : option (Z * Z) :=
  if negb (GlobalEnableLBAsupport cfg) then None
  else
    let '(carry, ax, bx, cx) := p_ext drive in
    if negb (bx =? 0xaa55) || carry || (Z.land cx 1 =? 0) then None
    else
      let '(carry, p) := p_lba drive in
      if carry || (0xffff <? lba_heads p) || (0xffff <? lba_sectors p) || negb (totalSectHigh p =? 0) then None
      else Some (if has (information p) 8 then Z.lor DF_LBA DF_WRTVERIFY else DF_LBA, totalSect p).

(** The number the BIOS has for a hard disk. *)
Definition bios_drive (drive : Z) : Z := Z.lor drive 0x80.

(** The parameters of a hard disk, if it answers. *)
Definition params (drive : Z) : option DriveParamS :=
  let d := bios_drive drive in
  if p_carry d then None
  else
    let '(flags, total) := default (0, 0) (lba_flags d) in
    let c := bios_chs (p_cx d) (p_dx d) in
    Some (DriveParam (u8 d) flags (if has flags DF_LBA then total else u32 (Cylinder c * Head c * Sector c)) c).

Definition same_units st st' : Prop := nUnits st' = nUnits st /\ i_ddts st' = i_ddts st.

#[export] Instance same_units_preorder : PreOrder same_units.
Proof. split; [done|]. intros a b c [E1 E2] [E3 E4]. split; congruence. Qed.

Lemma same_units_adds st st' : same_units st st' -> adds [] st st'.
Proof. intros [E1 E2]. by apply adds_nil. Qed.

Lemma lba_support_spec drive st :
  exists st', lba_support cfg drive st = (lba_flags drive, st') /\ same_units st st' /\ ExtLBAForce st' = ExtLBAForce st.
Proof.
  unfold lba_support, lba_flags. destruct (negb (GlobalEnableLBAsupport cfg)); [by exists st|].
  pose proof (int13_extensions_law drive (i_bios st)) as E.
  destruct (int13_extensions drive (i_bios st)) as [[[[c1 ax] bx] cx] b1]. cbn [fst] in E. rewrite <- E.
  destruct (negb (bx =? 0xaa55) || c1); cbn [orb]; [by eexists|].
  destruct (Z.land cx 1 =? 0); cbn [orb]; [by eexists|].
  set (st1 := if ax <? 0x2100 then _ else _).
  assert (H1 : same_units st st1 /\ ExtLBAForce st1 = ExtLBAForce st) by (subst st1; by destruct (ax <? 0x2100)).
  pose proof (int13_lba_parameters_law drive (i_bios st1)) as E2.
  destruct (int13_lba_parameters drive (i_bios st1)) as [[c2 p] b2]. cbn [fst] in E2. rewrite <- E2.
  destruct c2; cbn [orb]; [by eexists|].
  destruct ((0xffff <? lba_heads p) || (0xffff <? lba_sectors p) || negb (totalSectHigh p =? 0)); by eexists.
Qed.

Lemma get_parameters_spec drive st :
  0 <= drive < 128 ->
  exists r dp st', LBA_Get_Drive_Parameters cfg drive st = (r, dp, st') /\ same_units st st' /\
    ExtLBAForce st' = false /\ match params drive with Some dp' => r <> 0 /\ dp = dp' | None => r = 0 end.
Proof.
  intros Hd. unfold LBA_Get_Drive_Parameters, params, bios_drive.
  destruct (lba_support_spec (Z.lor drive 0x80) (set_ExtLBAForce false st)) as (st1 & -> & [E1 E2] & E3).
  destruct (default (0, 0) (lba_flags (Z.lor drive 0x80))) as [flags total].
  pose proof (int13_parameters_law (Z.lor drive 0x80) (i_bios st1)) as E.
  destruct (int13_parameters (Z.lor drive 0x80) (i_bios st1)) as [[[[c bl] cx] dx] b]. cbn [fst] in E.
  injection E as -> -> -> ->. destruct (p_carry (Z.lor drive 0x80)).
  - eexists _, _, _. split; [done|]. done.
  - eexists _, _, _. split; [done|]. split; [done|]. split; [done|]. split; [|done].
    assert (Z.testbit (u8 (Z.lor drive 0x80)) 7 = true) as Hb.
    { unfold u8. change 256 with (2 ^ 8). rewrite Z.mod_pow2_bits_low, Z.lor_spec by lia. by rewrite orb_true_r. }
    intros E. by rewrite E in Hb.
Qed.

Lemma params_geometry drive dp :
  params drive = Some dp -> geometry_ok dp /\ chs dp = bios_chs (p_cx (bios_drive drive)) (p_dx (bios_drive drive)).
Proof.
  unfold params. destruct (p_carry _); [done|]. destruct (default _ _) as [flags total]. intros [= <-].
  destruct (registers_law (bios_drive drive)) as [H1 H2]. split; [by apply bios_chs_ok|done].
Qed.

(** The cylinders a read by cylinder, head and sector can name. *)
Definition reachable (dp : DriveParamS) (lba : Z) : bool :=
  has (descflags dp) DF_LBA || (lba / (Sector (chs dp) * Head (chs dp)) <=? 1023).

Lemma cylinder_reach dp lba c : geometry_ok dp -> 0 <= lba -> init_LBA_to_CHS lba dp = Some c ->
  (1023 <? Cylinder c) = negb (lba / (Sector (chs dp) * Head (chs dp)) <=? 1023).
Proof.
  intros [Hh Hs] Hl. unfold init_LBA_to_CHS. assert (1 <= Sector (chs dp) * Head (chs dp) <= 16128) by nia.
  rewrite (u16_id (_ * _)), (proj2 (Z.eqb_neq (_ * _) 0)), (proj2 (Z.eqb_neq (Sector _) 0)) by lia. cbn [orb].
  intros [= <-]. cbn [Cylinder]. set (q := lba / _). rewrite <- Z.ltb_antisym. by destruct (Z.leb_spec 0x10000 q), (Z.ltb_spec 1023 q); try lia.
Qed.

Lemma read_once_spec drive dp lba st :
  params drive = Some dp -> 0 <= lba ->
  exists st', same_units st st' /\ ExtLBAForce st' = ExtLBAForce st /\
    if reachable dp lba
    then read_once cfg dp drive lba st = Some (Some false, st') /\
         InitDiskTransferBuffer st' = sector_of (bios_drive drive) lba
    else read_once cfg dp drive lba st = Some (None, st').
Proof.
  intros Hp Hl. destruct (params_geometry _ _ Hp) as [Hg Hc]. unfold read_once. fold (bios_drive drive).
  destruct (init_LBA_to_CHS_spec lba dp Hg Hl) as (c & E & Hh & Hs & Hcy & Hlba). rewrite E.
  pose proof (cylinder_reach dp lba c Hg Hl E) as Hr. unfold reachable. rewrite Hr.
  destruct (has (descflags dp) DF_LBA && (ForceLBA cfg || ExtLBAForce st || negb (lba / (Sector (chs dp) * Head (chs dp)) <=? 1023))) eqn:E1.
  - pose proof (int13_read_lba_law (bios_drive drive) lba (i_bios st) Hl) as El.
    destruct (int13_read_lba _ _ _) as [[carry data] b]. cbn [fst] in El. injection El as -> ->.
    apply andb_true_iff in E1 as [-> _]. cbn [orb]. by exists (set_InitDiskTransferBuffer (sector_of (bios_drive drive) lba) (set_i_bios b st)).
  - destruct (negb (lba / (Sector (chs dp) * Head (chs dp)) <=? 1023)) eqn:E2.
    + rewrite orb_true_r, andb_true_r in E1. rewrite E1. apply negb_true_iff in E2. rewrite E2. cbn [orb]. by exists st.
    + apply negb_false_iff in E2. rewrite E2, orb_true_r. apply Z.ltb_ge in Hr. rewrite Hc in *.
      assert (Hh8 : Head c < 256) by (destruct Hg as [[_ Hg] _]; rewrite Hc in Hg; lia).
      destruct Hg as [Hg1 Hg2]. rewrite Hc in Hg1, Hg2.
      rewrite u8_id by lia.
      assert (Hcx : 0 <= Z.shiftl (Z.land (Cylinder c) 0xff) 8 + Z.shiftr (Z.land (Cylinder c) 0x300) 2 + Sector c < 65536).
      { assert (Z.land (Cylinder c) 0xff = Cylinder c mod 256) as -> by exact (Z.land_ones (Cylinder c) 8 ltac:(lia)).
        assert (Z.land (Cylinder c) 0x300 = 256 * (Cylinder c / 256)) as ->.
        { apply Z.eqb_eq, (forall_range (fun x => Z.land x 0x300 =? 256 * (x / 256)) 0 1024); [by vm_compute|lia]. }
        rewrite Z.shiftl_mul_pow2, Z.shiftr_div_pow2 by lia. change (2 ^ 8) with 256. change (2 ^ 2) with 4.
        Z.div_mod_to_equations. lia. }
      rewrite u16_id by done.
      pose proof (int13_read_chs_law (bios_drive drive) c _ (i_bios st) ltac:(lia) Hh Hs eq_refl) as El.
      destruct (int13_read_chs _ _ _ _) as [[carry data] b]. cbn [fst] in El. rewrite Hlba in El by lia. injection El as -> ->.
      by exists (set_InitDiskTransferBuffer (sector_of (bios_drive drive) lba) (set_i_bios b st)).
Qed.

Lemma read_sector_spec drive dp lba st :
  params drive = Some dp -> 0 <= lba ->
  exists st', Read1LBASector cfg dp drive lba st = Some (negb (reachable dp lba), st') /\ same_units st st' /\
    ExtLBAForce st' = ExtLBAForce st /\
    (reachable dp lba = true -> InitDiskTransferBuffer st' = sector_of (bios_drive drive) lba).
Proof.
  intros Hp Hl. unfold Read1LBASector, N_RETRY. cbn [read_retry].
  destruct (read_once_spec drive dp lba st Hp Hl) as (st1 & Hs & He & Hr). destruct (reachable dp lba).
  - destruct Hr as [-> Hb]. by exists st1.
  - rewrite Hr. by exists st1.
Qed.

(** ** Tables *)

Lemma conv_entry_total l i :
  bytes l -> 0 <= i -> i + 15 < Z.of_nat (length l) ->
  exists e, conv_entry l i = Some e /\ 0 <= RelSect e < 4294967296 /\ 0 <= NumSect e.
Proof.
  intros Hb Hi Hl. unfold conv_entry, ConvCHSToIntern. rewrite !at_byte, !get32_spec by lia.
  eexists. split; [done|]. cbn [RelSect NumSect].
  assert (forall k, is_byte (byte_at l k)) as HB by (intros; by apply byte_at_range). unfold is_byte in HB.
  pose proof (HB (i + 8)). pose proof (HB (i + 8 + 1)). pose proof (HB (i + 8 + 2)). pose proof (HB (i + 8 + 3)).
  pose proof (HB (i + 12)). pose proof (HB (i + 12 + 1)). pose proof (HB (i + 12 + 2)). pose proof (HB (i + 12 + 3)). lia.
Qed.

Definition entries_ok (t : list PartTableEntry) : Prop :=
  length t = 4%nat /\ Forall (fun e => 0 <= RelSect e < 4294967296 /\ 0 <= NumSect e) t.

Lemma conv_table_total l :
  bytes l -> length l = 512%nat -> exists ok t, ConvPartTableEntryToIntern l = Some (ok, t) /\ entries_ok t.
Proof.
  intros Hb Hl. unfold ConvPartTableEntryToIntern. rewrite !at_byte by lia. destruct (_ || _).
  - exists false, (replicate 4 no_entry). split; [done|]. split; [done|]. cbn. repeat constructor; cbn; lia.
  - destruct (conv_entry_total l 0x1be) as (e1 & E1 & R1); [done|lia|lia|].
    destruct (conv_entry_total l 0x1ce) as (e2 & E2 & R2); [done|lia|lia|].
    destruct (conv_entry_total l 0x1de) as (e3 & E3 & R3); [done|lia|lia|].
    destruct (conv_entry_total l 0x1ee) as (e4 & E4 & R4); [done|lia|lia|].
    cbn [mapM]. rewrite E1, E2, E3, E4. exists true, [e1; e2; e3; e4]. split; [done|]. split; [done|].
    rewrite !list.Forall_cons. split_and!; try done; lia.
Qed.

(** The table in a sector of a disk, if it can be read and holds one. *)
Definition table_at (drive lba : Z) : option (list PartTableEntry) :=
  let* dp := params drive in
  if reachable dp lba then
    match ConvPartTableEntryToIntern (sector_of (bios_drive drive) lba) with
    | Some (true, t) => Some t
    | _ => None
    end
  else None.

Lemma table_at_ok drive lba t : table_at drive lba = Some t -> entries_ok t.
Proof.
  unfold table_at. destruct (params drive) as [dp|]; [|done]. destruct (reachable dp lba); [|done].
  destruct (sector_law (bios_drive drive) lba) as [Hl Hb].
  destruct (conv_table_total _ Hb Hl) as (ok & t' & -> & Ht). destruct ok; [|done]. by intros [= <-].
Qed.

Lemma read_table_spec tries drive dp lba st :
  params drive = Some dp -> 0 <= lba ->
  exists st', read_table cfg (S tries) dp drive lba st = Some (table_at drive lba, st') /\ same_units st st' /\
    ExtLBAForce st' = ExtLBAForce st.
Proof.
  intros Hp Hl. revert st. induction tries as [|tries IH]; intros st; cbn [read_table];
    destruct (read_sector_spec drive dp lba st Hp Hl) as (st1 & -> & Hs & He & Hb);
    unfold table_at in *; rewrite Hp in *; destruct (reachable dp lba); cbn [negb]; try (by exists st1);
    rewrite (Hb eq_refl); destruct (sector_law (bios_drive drive) lba) as [Hl' Hb'];
    destruct (conv_table_total _ Hb' Hl') as (ok & t & E & Ht); rewrite E in *; destruct ok; try (by exists st1).
  destruct (IH st1) as (st2 & E2 & Hs2 & He2). cbn [read_table] in E2. rewrite E2. exists st2.
  split; [done|]. split; [by etransitivity|congruence].
Qed.

(** ** The scan of a table *)

(** An entry that is a partition the kernel can use. *)
Definition usable (dp : DriveParamS) (force : bool) (start : Z) (e : PartTableEntry) : bool :=
  match check_entry cfg dp force (u32 (start + RelSect e)) e with Some (_, true) => true | _ => false end.
Definition candidate dp force start (e : PartTableEntry) : bool :=
  negb (FileSystem e =? 0) && negb (IsExtPartition (FileSystem e)) && IsFATPartition (FileSystem e) &&
  usable dp force start e.

(** The usable partitions of a table with their numbers, from [i] on. *)
Fixpoint candidates dp force start (i : Z) (t : list PartTableEntry) : list (Z * PartTableEntry) :=
  match t with
  | [] => []
  | e :: t => (if candidate dp force start e then [(i, e)] else []) ++ candidates dp force start (i + 1) t
  end.

Definition letter_of (dp : DriveParamS) (start : Z) (x : Z * PartTableEntry) : letter :=
  (driveno dp, u32 (start + RelSect (snd x))).

(** What a scan of a kind selects. *)
Definition selected (scan ignore : Z) (x : Z * PartTableEntry) : Prop :=
  has ignore (Z.shiftl 1 (fst x)) = false /\ (scan = SCAN_PRIMARYBOOT -> Bootable (snd x) <> 0).
#[export] Instance selected_dec scan ignore x : Decision (selected scan ignore x).
Proof. unfold selected. destruct (decide (scan = SCAN_PRIMARYBOOT)); [|destruct (decide (has ignore (Z.shiftl 1 (fst x)) = false)); [left|right]; tauto].
  destruct (decide (has ignore (Z.shiftl 1 (fst x)) = false)), (decide (Bootable (snd x) = 0)); [right|left|right|right]; tauto.
Defined.

Lemma has_mask_bit m j : 0 <= j -> has m (Z.shiftl 1 j) = Z.testbit m j.
Proof.
  intros Hj. unfold has. rewrite Z.shiftl_1_l. destruct (Z.testbit m j) eqn:E.
  - apply negb_true_iff, Z.eqb_neq. intros H0. apply (f_equal (fun z => Z.testbit z j)) in H0.
    by rewrite Z.land_spec, E, Z.pow2_bits_true, Z.bits_0 in H0 by done.
  - apply negb_false_iff, Z.eqb_eq, Z.bits_inj'. intros n Hn. rewrite Z.land_spec, Z.bits_0, Z.pow2_bits_eqb by done.
    destruct (Z.eqb_spec j n) as [->|]; [by rewrite E|by rewrite andb_false_r].
Qed.

Lemma has_lor_other m i j : 0 <= i -> 0 <= j -> i <> j -> has (Z.lor m (Z.shiftl 1 i)) (Z.shiftl 1 j) = has m (Z.shiftl 1 j).
Proof.
  intros Hi Hj Hne. rewrite !has_mask_bit, Z.lor_spec, Z.shiftl_1_l, Z.pow2_bits_eqb by done.
  by rewrite (proj2 (Z.eqb_neq _ _)), orb_false_r by done.
Qed.

Lemma candidates_from dp force start i t x : x ∈ candidates dp force start i t -> i <= fst x.
Proof.
  revert i. induction t as [|e t IH]; intros i Hx; [by apply elem_of_nil in Hx|]. cbn in Hx.
  apply elem_of_app in Hx as [Hx|Hx].
  - destruct (candidate _ _ _ e); [|by apply elem_of_nil in Hx]. apply list_elem_of_singleton in Hx as ->. done.
  - apply IH in Hx. lia.
Qed.

Lemma check_entry_total dp force start e :
  geometry_ok dp -> 0 <= start ->
  exists e', check_entry cfg dp force start e = Some (e', match check_entry cfg dp force start e with Some (_, u) => u | None => false end) /\
    (IsFATPartition (FileSystem e) = true -> IsExtPartition (FileSystem e') = false).
Proof.
  intros Hg Hs. unfold check_entry. destruct (init_LBA_to_CHS_spec start dp Hg Hs) as (c & -> & _).
  destruct (init_LBA_to_CHS_spec (u32 (start + NumSect e - 1)) dp Hg (proj1 (u32_range _))) as (c2 & -> & _).
  assert (Hfat : forall f, IsFATPartition f = true -> IsExtPartition f = false /\ IsExtPartition (lba_type f) = false).
  { intros f Hf. unfold IsFATPartition in Hf. rewrite !orb_true_iff, !Z.eqb_eq in Hf.
    destruct Hf as [[[[[-> | ->]| ->]| ->]| ->]| ->]; done. }
  set (e1 := if is_suspect c (Begin e) then _ else e).
  assert (E1 : FileSystem e1 = FileSystem e /\ NumSect e1 = NumSect e) by (subst e1; by destruct (is_suspect _ _)).
  destruct E1 as [E1 E2]. destruct (is_suspect c2 (End e1) && (NumSect e1 =? 0)).
  { eexists. split; [done|]. intros Hf. rewrite E1. by apply Hfat. }
  set (e2 := if is_suspect c2 (End e1) then _ else e1).
  assert (E3 : FileSystem e2 = FileSystem e) by (subst e2; destruct (is_suspect c2 (End e1)); exact E1).
  destruct ((1023 <? Cylinder c) || (1023 <? Cylinder c2)).
  - destruct (negb (has (descflags dp) DF_LBA)).
    { eexists. split; [done|]. intros Hf. rewrite E3. by apply Hfat. }
    destruct (negb (ForceLBA cfg) && negb force && negb (IsLBAPartition (FileSystem e2))).
    + eexists. split; [done|]. intros Hf. cbn. rewrite E3. by apply Hfat.
    + eexists. split; [done|]. intros Hf. rewrite E3. by apply Hfat.
  - eexists. split; [done|]. intros Hf. rewrite E3. by apply Hfat.
Qed.

Lemma extended_entry_cons e t :
  extended_entry (e :: t) = if IsExtPartition (FileSystem e) then Some e else extended_entry t.
Proof.
  unfold extended_entry. rewrite filter_cons. destruct (IsExtPartition (FileSystem e)) eqn:E.
  - by rewrite decide_True.
  - by rewrite decide_False.
Qed.

Lemma filter_same {A} (P Q : A -> Prop) `{!forall x, Decision (P x), !forall x, Decision (Q x)} (l : list A) :
  (forall x, x ∈ l -> P x <-> Q x) -> filter P l = filter Q l.
Proof.
  induction l as [|x l IH]; intros Hpq; [done|]. rewrite !filter_cons, IH by (intros y Hy; apply Hpq; by right).
  pose proof (Hpq x ltac:(by left)). destruct (decide (P x)), (decide (Q x)); (tauto || done).
Qed.

Lemma filter_all {A} (P : A -> Prop) `{!forall x, Decision (P x)} (l : list A) :
  (forall x, x ∈ l -> P x) -> filter P l = l.
Proof.
  induction l as [|x l IH]; intros Hp; [done|]. rewrite filter_cons, decide_True by (apply Hp; by left).
  rewrite IH; [done|]. intros y Hy. apply Hp. by right.
Qed.

Lemma considered_spec scan ignore i e dp force start :
  (considered scan ignore i e = true /\ usable dp force start e = true) <->
  (candidate dp force start e = true /\ selected scan ignore (i, e)).
Proof.
  unfold considered, candidate, selected. cbn [fst snd]. rewrite !andb_true_iff, !negb_true_iff, andb_false_iff, !Z.eqb_neq.
  assert ((scan <> SCAN_PRIMARYBOOT \/ Bootable e <> 0) <-> (scan = SCAN_PRIMARYBOOT -> Bootable e <> 0)).
  { destruct (decide (scan = SCAN_PRIMARYBOOT)); tauto. }
  tauto.
Qed.

(** A scan takes only one partition or all of them. *)
Definition single (scan : Z) : bool := (scan =? SCAN_PRIMARYBOOT) || (scan =? SCAN_PRIMARY).

Definition found dp force scan start ignore i t : list (Z * PartTableEntry) :=
  let l := filter (selected scan ignore) (candidates dp force start i t) in if single scan then take 1 l else l.

Lemma found_cons dp force scan start ignore i e t :
  0 <= i ->
  found dp force scan start ignore i (e :: t) =
    if considered scan ignore i e && usable dp force start e then
      (i, e) :: (if single scan then [] else found dp force scan start (Z.lor ignore (Z.shiftl 1 i)) (i + 1) t)
    else found dp force scan start ignore (i + 1) t.
Proof.
  intros Hi. unfold found. cbn [candidates]. rewrite list.filter_app. pose proof (considered_spec scan ignore i e dp force start) as Hc.
  destruct (considered scan ignore i e && usable dp force start e) eqn:E.
  - apply andb_true_iff in E. apply Hc in E as [E1 E2]. rewrite E1. rewrite filter_cons, decide_True, filter_nil by done.
    cbn [app]. destruct (single scan) eqn:Es; [done|]. f_equal. apply filter_same. intros x Hx.
    apply candidates_from in Hx. unfold selected. rewrite has_lor_other by lia. done.
  - assert (Hn : filter (selected scan ignore) (if candidate dp force start e then [(i, e)] else []) = []).
    { destruct (candidate dp force start e); [|done]. rewrite filter_cons, decide_False; [done|]. intros Hs.
      assert (considered scan ignore i e = true /\ usable dp force start e = true) as Hx by (by apply Hc).
      apply andb_true_iff in Hx. congruence. }
    by rewrite Hn.
Qed.

Lemma scan_entries_spec dp scan start t :
  geometry_ok dp -> forall ignore i st, 0 <= i ->
  exists ignore' t' st', scan_entries cfg junk dp scan start ignore i t st = Some (ignore', t', st') /\
    adds (map (letter_of dp start) (found dp (ExtLBAForce st) scan start ignore i t)) st st' /\
    ExtLBAForce st' = ExtLBAForce st /\ extended_entry t' = extended_entry t /\
    (single scan = true -> ignore' = match found dp (ExtLBAForce st) scan start ignore i t with
                                      | (j, _) :: _ => Z.lor ignore (Z.shiftl 1 j) | [] => ignore end).
Proof.
  intros Hg. induction t as [|e t IH]; intros ignore i st Hi.
  { exists ignore, [], st. split; [done|]. split; [unfold found; cbn; destruct (single scan); by apply adds_nil|].
    split; [done|]. split; [done|]. intros Hs. unfold found. by rewrite Hs. }
  rewrite found_cons by done. cbn [scan_entries].
  destruct (considered scan ignore i e) eqn:Ec; cbn [negb andb].
  2: { destruct (IH ignore (i + 1) st ltac:(lia)) as (g & t' & st' & -> & Ha & He & Hx & Hm).
       exists g, (e :: t'), st'. rewrite !extended_entry_cons, Hx. done. }
  destruct (check_entry_total dp (ExtLBAForce st) (u32 (start + RelSect e)) e Hg (proj1 (u32_range _))) as (e' & E & Hext).
  assert (Hfat : IsFATPartition (FileSystem e) = true /\ IsExtPartition (FileSystem e) = false).
  { unfold considered in Ec. rewrite !andb_true_iff, !negb_true_iff in Ec. tauto. }
  destruct Hfat as [Hfat Hne]. specialize (Hext Hfat).
  assert (Hex : forall l l', extended_entry l' = extended_entry l -> extended_entry (e' :: l') = extended_entry (e :: l)).
  { intros l l' Hl. by rewrite !extended_entry_cons, Hext, Hne. }
  unfold usable. destruct (check_entry cfg dp (ExtLBAForce st) (u32 (start + RelSect e)) e) as [[e2 used]|] eqn:E2; [|done].
  injection E as ->. destruct used; cbn [negb].
  - destruct (DosDefinePartition_spec dp (u32 (start + RelSect e)) e' st) as [Hd Hf].
    set (st1 := DosDefinePartition cfg junk dp _ e' st) in *. fold (single scan). destruct (single scan) eqn:Es.
    + eexists _, _, st1. split; [done|]. split; [exact Hd|]. split; [done|]. split; [by apply Hex|done].
    + destruct (IH (Z.lor ignore (Z.shiftl 1 i)) (i + 1) st1 ltac:(lia)) as (g & t' & st' & -> & Ha & He & Hx & Hm).
      exists g, (e' :: t'), st'. split; [done|]. rewrite Hf in Ha, He. split; [exact (adds_app [_] _ _ _ _ Hd Ha)|].
      split; [done|]. split; [by apply Hex|done].
  - destruct (IH ignore (i + 1) st ltac:(lia)) as (g & t' & st' & -> & Ha & He & Hx & Hm).
    exists g, (e' :: t'), st'. split; [done|]. split; [done|]. split; [done|]. split; [by apply Hex|done].
Qed.

(** ** The scan of a disk *)

(** What a scan of the table of a disk finds. *)
Definition on_disk (scan ignore drive : Z) : list (Z * PartTableEntry) :=
  match params drive, table_at drive 0 with
  | Some dp, Some t => found dp false scan 0 ignore 0 t
  | _, _ => []
  end.

(** A partition of a disk as the tables of the drives know it. *)
Definition place (drive start : Z) (x : Z * PartTableEntry) : letter :=
  (u8 (bios_drive drive), u32 (start + RelSect (snd x))).

Lemma letter_of_place drive dp start x : params drive = Some dp -> letter_of dp start x = place drive start x.
Proof.
  unfold params, letter_of, place. destruct (p_carry _); [done|]. destruct (default _ _) as [f t]. by intros [= <-].
Qed.

Lemma map_place drive dp start l : params drive = Some dp -> map (letter_of dp start) l = map (place drive start) l.
Proof. intros Hp. apply map_ext. intros x. by apply letter_of_place. Qed.

(** The set of entries that consists of the first one of a list. *)
Definition mask_of (l : list (Z * PartTableEntry)) : Z := match l with (j, _) :: _ => Z.shiftl 1 j | [] => 0 end.

(** How an extended partition determines where the chain of tables is counted from. *)
Definition chain_origin (ext : Z) (force : bool) (e : PartTableEntry) : Z * bool :=
  if ext =? 0 then (RelSect e, FileSystem e =? EXTENDED_LBA) else (ext, force).

(** The logical drives of the next [n] tables of a chain. *)
Fixpoint logicals (n : nat) (dp : DriveParamS) (drive ext : Z) (force : bool) (offset : Z) : list letter :=
  match n with
  | O => []
  | S n =>
      match table_at drive offset with
      | None => []
      | Some t =>
          map (place drive offset) (candidates dp force offset 0 t) ++
          match extended_entry t with
          | None => []
          | Some e => let '(ext', force') := chain_origin ext force e in
                      logicals n dp drive ext' force' (u32 (ext + RelSect e))
          end
      end
  end.

(** The logical drives of a disk: the tables behind its first extended partition. *)
Definition logical_letters (drive : Z) : list letter :=
  match params drive, table_at drive 0 with
  | Some dp, Some t =>
      match extended_entry t with
      | None => []
      | Some e => let '(ext, force) := chain_origin 0 false e in logicals 30 dp drive ext force (u32 (0 + RelSect e))
      end
  | _, _ => []
  end.

Lemma table_loop_primary fuel dp scan drive ignore st :
  params drive = Some dp -> scan <> SCAN_EXTENDED -> scan = SCAN_PRIMARYBOOT \/ scan = SCAN_PRIMARY \/ scan = SCAN_PRIMARY2 ->
  ExtLBAForce st = false ->
  exists ignore' st', table_loop cfg junk (S fuel) dp scan drive ignore 0 0 0 st = Some (ignore', st') /\
    adds (map (place drive 0) (on_disk scan ignore drive)) st st' /\
    (single scan = true -> ignore' = Z.lor ignore (mask_of (on_disk scan ignore drive))).
Proof.
  intros Hp Hne Hsc Hf. cbn [table_loop].
  destruct (read_table_spec 2 drive dp 0 st Hp ltac:(lia)) as (st1 & -> & Hs1 & He1).
  unfold on_disk. rewrite Hp. destruct (table_at drive 0) as [t|].
  2: { exists ignore, st1. split; [done|]. split; [by apply same_units_adds|]. intros _. cbn. by rewrite Z.lor_0_r. }
  assert (scans_primary scan 0 = true) as -> by (unfold scans_primary; by destruct Hsc as [-> |[-> | ->]]).
  unfold ScanForPrimaryPartitions.
  destruct (scan_entries_spec dp scan 0 t (proj1 (params_geometry _ _ Hp)) ignore 0 st1 ltac:(lia)) as (ig & t' & st2 & -> & Ha & _ & _ & Hm).
  assert ((scan =? SCAN_EXTENDED) = false) as -> by by apply Z.eqb_neq. cbn [negb].
  rewrite He1, Hf in *. rewrite (map_place drive dp) in Ha by done. exists ig, st2.
  split; [done|]. split; [eapply adds_l; [by apply same_units_adds|done]|]. intros Hsi. rewrite (Hm Hsi).
  unfold mask_of. destruct (found dp false scan 0 ignore 0 t) as [|[j e] l]; [by rewrite Z.lor_0_r|done].
Qed.

Lemma found_extended dp force start t : found dp force SCAN_EXTENDED start 0 0 t = candidates dp force start 0 t.
Proof.
  unfold found. change (single SCAN_EXTENDED) with false. cbv iota. apply filter_all. by split.
Qed.

Lemma table_loop_extended dp drive : params drive = Some dp -> forall n ext offset found0 st,
  0 <= offset -> 1 <= found0 -> Z.of_nat n = 31 - found0 -> (0 < n)%nat ->
  exists st', table_loop cfg junk n dp SCAN_EXTENDED drive 0 offset ext found0 st = Some (0, st') /\
    adds (logicals n dp drive ext (ExtLBAForce st) offset) st st'.
Proof.
  intros Hp n. induction n as [|n IH]; intros ext offset found0 st Ho Hf Hn Hpos; [lia|]. cbn [table_loop logicals].
  destruct (read_table_spec 2 drive dp offset st Hp Ho) as (st1 & -> & Hs1 & He1).
  destruct (table_at drive offset) as [t|]; [|exists st1; split; [done|by apply same_units_adds]].
  assert (scans_primary SCAN_EXTENDED found0 = true) as -> by (unfold scans_primary; by rewrite (proj2 (Z.eqb_neq found0 0)) by lia).
  unfold ScanForPrimaryPartitions.
  destruct (scan_entries_spec dp SCAN_EXTENDED offset t (proj1 (params_geometry _ _ Hp)) 0 0 st1 ltac:(lia)) as (ig & t' & st2 & -> & Ha & He2 & Hx & _).
  rewrite found_extended, (map_place drive dp), He1 in Ha by done. change (negb (SCAN_EXTENDED =? SCAN_EXTENDED)) with false. cbv iota.
  rewrite Hx. pose proof (adds_l _ _ _ _ (same_units_adds _ _ Hs1) Ha) as Ha'.
  destruct (extended_entry t) as [e|]; [|exists st2; split; [done|by rewrite app_nil_r]].
  unfold chain_origin. destruct (if ext =? 0 then _ else (ext, st2)) as [ext' st3] eqn:E3.
  assert (H3 : same_units st2 st3 /\ (if ext =? 0 then (RelSect e, FileSystem e =? EXTENDED_LBA) else (ext, ExtLBAForce st)) = (ext', ExtLBAForce st3)).
  { destruct (ext =? 0); injection E3 as <- <-; [done|]. by rewrite He2, He1. }
  destruct H3 as [Hs3 ->]. pose proof (adds_r _ _ _ _ Ha' (same_units_adds _ _ Hs3)) as Hb.
  destruct n as [|n].
  - rewrite (proj2 (Z.ltb_lt 30 _)) by lia. exists st3. split; [done|]. by rewrite app_nil_r.
  - rewrite (proj2 (Z.ltb_ge 30 _)) by lia.
    destruct (IH ext' (u32 (ext + RelSect e)) (found0 + 1) st3 (proj1 (u32_range _)) ltac:(lia) ltac:(lia) ltac:(lia)) as (st4 & -> & Hc).
    exists st4. split; [done|]. by eapply adds_app.
Qed.

Lemma ProcessDisk_primary scan drive ignore st :
  0 <= drive < 128 -> scan <> SCAN_EXTENDED -> scan = SCAN_PRIMARYBOOT \/ scan = SCAN_PRIMARY \/ scan = SCAN_PRIMARY2 ->
  exists ignore' st', ProcessDisk cfg junk scan drive ignore st = Some (ignore', st') /\
    adds (map (place drive 0) (on_disk scan ignore drive)) st st' /\
    (single scan = true -> ignore' = Z.lor ignore (mask_of (on_disk scan ignore drive))).
Proof.
  intros Hd Hne Hsc. unfold ProcessDisk.
  destruct (get_parameters_spec drive st Hd) as (r & dp & st1 & -> & Hs & Hf & Hp).
  destruct (params drive) as [dp'|] eqn:E.
  - destruct Hp as [Hr ->]. rewrite (proj2 (Z.eqb_neq r 0) Hr).
    destruct (table_loop_primary 30 dp' scan drive ignore st1 E Hne Hsc Hf) as (ig & st2 & -> & Ha & Hm).
    exists ig, st2. split; [done|]. split; [|done]. eapply adds_l; [by apply same_units_adds|done].
  - subst r. exists ignore, st1. split; [done|]. unfold on_disk. rewrite E. split; [by apply same_units_adds|].
    intros _. cbn. by rewrite Z.lor_0_r.
Qed.

Lemma ProcessDisk_extended drive st :
  0 <= drive < 128 ->
  exists ignore' st', ProcessDisk cfg junk SCAN_EXTENDED drive 0 st = Some (ignore', st') /\
    adds (logical_letters drive) st st'.
Proof.
  intros Hd. unfold ProcessDisk, logical_letters.
  destruct (get_parameters_spec drive st Hd) as (r & dp & st1 & -> & Hs & Hf & Hp).
  destruct (params drive) as [dp'|] eqn:E; [|subst r; exists 0, st1; split; [done|by apply same_units_adds]].
  destruct Hp as [Hr ->]. rewrite (proj2 (Z.eqb_neq r 0) Hr). change 31%nat with (S 30). remember 30%nat as n eqn:En. cbn [table_loop].
  destruct (read_table_spec 2 drive dp' 0 st1 E ltac:(lia)) as (st2 & -> & Hs2 & He2).
  destruct (table_at drive 0) as [t|]; [|exists 0, st2; split; [done|by apply same_units_adds; etransitivity]].
  change (scans_primary SCAN_EXTENDED 0) with false. change (negb (SCAN_EXTENDED =? SCAN_EXTENDED)) with false. cbv iota beta.
  destruct (extended_entry t) as [e|]; [|exists 0, st2; split; [done|by apply same_units_adds; etransitivity]].
  change (30 <? 0 + 1) with false. change (0 =? 0) with true. unfold chain_origin. cbv iota.
  set (st3 := set_ExtLBAForce _ st2).
  destruct (table_loop_extended dp' drive E n (RelSect e) (u32 (0 + RelSect e)) (0 + 1) st3 (proj1 (u32_range _)) ltac:(lia) ltac:(subst n; done) ltac:(lia)) as (st4 & -> & Ha).
  exists 0, st4. split; [done|]. eapply adds_l; [|exact Ha]. apply same_units_adds. transitivity st2; [by etransitivity|done].
Qed.

(** ** All disks *)

(** The bootable partition of a disk, or else its first usable one. *)
Definition first_of (drive : Z) : list (Z * PartTableEntry) :=
  match on_disk SCAN_PRIMARYBOOT 0 drive with [] => on_disk SCAN_PRIMARY 0 drive | l => l end.
Definition first_letters (drive : Z) : list letter := map (place drive 0) (first_of drive).
(** The other primary partitions. *)
Definition rest_of (drive : Z) : list (Z * PartTableEntry) := on_disk SCAN_PRIMARY2 (mask_of (first_of drive)) drive.
Definition rest_letters (drive : Z) : list letter := map (place drive 0) (rest_of drive).

Lemma candidates_range dp force start i t x :
  x ∈ candidates dp force start i t -> i <= fst x < i + Z.of_nat (length t).
Proof.
  revert i. induction t as [|e t IH]; intros i Hx; [by apply elem_of_nil in Hx|]. cbn in Hx.
  apply elem_of_app in Hx as [Hx|Hx].
  - destruct (candidate _ _ _ e); [|by apply elem_of_nil in Hx]. apply list_elem_of_singleton in Hx as ->. cbn. lia.
  - apply IH in Hx. cbn [length]. lia.
Qed.

Lemma on_disk_range scan ignore drive x : x ∈ on_disk scan ignore drive -> 0 <= fst x < 4.
Proof.
  unfold on_disk. destruct (params drive) as [dp|]; [|by intros ?%elem_of_nil].
  destruct (table_at drive 0) as [t|] eqn:E; [|by intros ?%elem_of_nil]. destruct (table_at_ok _ _ _ E) as [Hl _].
  unfold found. intros Hx. assert (x ∈ candidates dp false 0 0 t) as Hc.
  { assert (x ∈ filter (selected scan ignore) (candidates dp false 0 0 t)) as Hf.
    { destruct (single scan); [|done]. by eapply (subseteq_take 1 (filter (selected scan ignore) (candidates dp false 0 0 t))). }
    by apply list_elem_of_filter in Hf as [_ Hf]. }
  apply candidates_range in Hc. lia.
Qed.

Lemma mask_of_spec scan ignore drive :
  u8 (mask_of (on_disk scan ignore drive)) = mask_of (on_disk scan ignore drive) /\
  (mask_of (on_disk scan ignore drive) = 0 <-> on_disk scan ignore drive = []).
Proof.
  pose proof (on_disk_range scan ignore drive) as Hr. destruct (on_disk scan ignore drive) as [|[j e] l]; [done|].
  specialize (Hr (j, e) ltac:(by left)). cbn [fst mask_of] in *. rewrite Z.shiftl_1_l.
  assert (1 <= 2 ^ j <= 8) by (split; [apply (Z.pow_le_mono_r 2 0); lia|apply (Z.pow_le_mono_r 2 j 3); lia]).
  split; [unfold u8; rewrite Z.mod_small; lia|]. split; [lia|done].
Qed.

Lemma process_boot_spec drive f st :
  0 <= drive < 128 ->
  exists st', process_boot cfg junk drive f st = Some (mask_of (first_of drive), st') /\ adds (first_letters drive) st st'.
Proof.
  intros Hd. unfold process_boot, first_letters, first_of.
  destruct (ProcessDisk_primary SCAN_PRIMARYBOOT drive 0 st Hd ltac:(done) ltac:(by left)) as (f1 & st1 & -> & Ha & Hm).
  rewrite (Hm eq_refl), Z.lor_0_l in *. destruct (mask_of_spec SCAN_PRIMARYBOOT 0 drive) as [Hu Hz]. rewrite Hu.
  destruct (Z.eqb_spec (mask_of (on_disk SCAN_PRIMARYBOOT 0 drive)) 0) as [E|E].
  - rewrite (proj1 Hz E) in *.
    destruct (ProcessDisk_primary SCAN_PRIMARY drive 0 st1 Hd ltac:(done) ltac:(by right; left)) as (f2 & st2 & -> & Ha2 & Hm2).
    rewrite (Hm2 eq_refl), Z.lor_0_l, (proj1 (mask_of_spec SCAN_PRIMARY 0 drive)). exists st2. split; [done|].
    by eapply adds_l.
  - destruct (on_disk SCAN_PRIMARYBOOT 0 drive) as [|x l]; [done|]. by exists st1.
Qed.

Lemma process_extended_spec drive f st :
  0 <= drive < 128 ->
  exists st', process_extended cfg junk drive f st = Some (f, st') /\ adds (logical_letters drive) st st'.
Proof.
  intros Hd. unfold process_extended. destruct (ProcessDisk_extended drive st Hd) as (r & st' & -> & Ha). by exists st'.
Qed.

Lemma process_rest_spec drive f st :
  0 <= drive < 128 ->
  exists f' st', process_rest cfg junk drive f st = Some (f', st') /\ f' = f /\
    adds (map (place drive 0) (on_disk SCAN_PRIMARY2 f drive)) st st'.
Proof.
  intros Hd. unfold process_rest.
  destruct (ProcessDisk_primary SCAN_PRIMARY2 drive f st Hd ltac:(done) ltac:(by right; right)) as (r & st' & -> & Ha & _).
  by exists f, st'.
Qed.

(** A loop over the disks runs a step on each. *)
Lemma each_disk_spec (step : Z -> Z -> init_disk B -> option (Z * init_disk B)) (F : Z -> Z -> Z) (L : Z -> Z -> list letter) :
  (forall i f st, 0 <= i < 128 -> exists st', step i f st = Some (F i f, st') /\ adds (L i f) st st') ->
  forall n i (G : Z -> Z) st, 0 <= i -> i + Z.of_nat n <= 128 -> units_ok st ->
  exists st', each_disk step i (map G (seqZ i (Z.of_nat n))) st = Some (map (fun d => F d (G d)) (seqZ i (Z.of_nat n)), st') /\
    adds (concat (map (fun d => L d (G d)) (seqZ i (Z.of_nat n)))) st st'.
Proof.
  intros Hstep n. induction n as [|n IH]; intros i G st Hi Hn Hu; [exists st; split; [done|by apply adds_nil]|].
  rewrite Nat2Z.inj_succ, seqZ_cons, Z.pred_succ by lia. cbn [map each_disk concat].
  destruct (Hstep i (G i) st ltac:(lia)) as (st1 & -> & Ha).
  destruct (IH (Z.succ i) G st1 ltac:(lia) ltac:(lia) (proj1 (Ha Hu))) as (st2 & E & Hb). unfold Z.succ in *. rewrite E.
  exists st2. split; [done|]. by eapply adds_app.
Qed.

(** ** The diskette drives *)

(** The types of diskette drives the table of BPBs has a line for. *)
Definition floppy_known (d : Z) : Prop := p_carry d = true \/ u8 (p_bl d - 1) <> 6.

Lemma getdriveparm_spec drive b st :
  has drive 0x80 = false -> floppy_known drive ->
  exists type b' st', init_getdriveparm drive b st = Some (type, b', st') /\ same_units st st'.
Proof.
  intros Hh Hk. unfold init_getdriveparm. rewrite Hh.
  pose proof (int13_parameters_law drive (i_bios st)) as E.
  destruct (int13_parameters drive (i_bios st)) as [[[[c bl] cx] dx] bs]. cbn [fst] in E. injection E as -> -> _ _.
  set (t := if p_carry drive then 0 else _).
  assert (Ht : 0 <= t <= 8 /\ t <> 5 /\ t <> 6 /\ t <> 7).
  { subst t. destruct (p_carry drive) eqn:Ec; [lia|]. destruct Hk as [Hk|Hk]; [congruence|].
    pose proof (u8_range (p_bl drive - 1)). destruct (Z.ltb_spec 6 (u8 (p_bl drive - 1))); [lia|].
    destruct (Z.eqb_spec (u8 (p_bl drive - 1)) 5); lia. }
  assert (t = 0 \/ t = 1 \/ t = 2 \/ t = 3 \/ t = 4 \/ t = 8) as Hc by lia.
  destruct Hc as [-> |[-> |[-> |[-> |[-> | ->]]]]]; eexists _, _, _; (split; [reflexivity|done]).
Qed.

Lemma make_ddt_spec d unit drive flags st :
  has drive 0x80 = false -> floppy_known drive ->
  exists d' st', make_ddt d unit drive flags st = Some (d', st') /\
    length (i_ddts st') = S (length (i_ddts st)) /\ assigned st' = assigned st ++ [(drive, 0)] /\
    map ddt_logdriveno (i_ddts st') = map ddt_logdriveno (i_ddts st) ++ [unit].
Proof.
  intros Hh Hk. unfold make_ddt. destruct (getdriveparm_spec drive (ddt_defbpb d) st Hh Hk) as (type & b & st1 & -> & _ & E1).
  destruct (init_readdasd drive st1) as [dasd st2] eqn:E. destruct (init_readdasd_spec _ _ _ _ E) as (_ & E2 & _).
  set (d' := Ddt _ _ _ _ _ _ _ _ _ _ _ _ _ _). destruct (push_ddt_spec d' st2) as (_ & _ & P3 & P4 & P5).
  exists d', (push_ddt d' st2). split; [done|]. rewrite P3, P4, P5. unfold assigned. rewrite E2, E1. done.
Qed.

(** The second diskette drive, or the first one under a second name. *)
Definition second_floppy : Z := if has p_equipment 1 && has p_equipment 0xc0 then 1 else 0.
Definition floppy_letters : list letter := [(0, 0); (second_floppy, 0)].

Lemma reset_drives_same n i st : same_units st (reset_drives n i st).
Proof. revert i st. induction n as [|n IH]; intros i st; [done|]. cbn [reset_drives]. etransitivity; [|apply IH]. done. Qed.

(** The hard disks, as the BIOS counts them and the kernel can hold them. *)
Definition disks_found : nat := Z.to_nat (Z.min (if p_carry 0x80 then 0 else u8 (p_dx 0x80)) MAX_HARD_DRIVE).
Definition disk_numbers : list Z := seqZ 0 (Z.of_nat disks_found).

Lemma disks_found_max : (disks_found <= 8)%nat.
Proof. unfold disks_found, MAX_HARD_DRIVE. lia. Qed.

Lemma replicate_seqZ (n : nat) (i : Z) : replicate n 0 = map (fun _ => 0) (seqZ i (Z.of_nat n)).
Proof.
  revert i. induction n as [|n IH]; intros i; [done|].
  rewrite Nat2Z.inj_succ, seqZ_cons, Z.pred_succ by lia. cbn [replicate map]. by rewrite <- IH.
Qed.

(** The state when the hard disks are looked at. *)
Lemma floppies_spec st :
  i_ddts st = [] -> floppy_known 0 -> floppy_known 1 ->
  exists st', units_ok st' /\ assigned st' = floppy_letters /\
    ReadAllPartitionTables cfg junk st =
      (let found := map (fun _ => 0) disk_numbers in
       if negb (DLASortByDriveNo cfg) then
         let* (found, s) := each_disk (process_boot cfg junk) 0 found st' in
         let* (found, s) := each_disk (process_extended cfg junk) 0 found s in
         let* (_, s) := each_disk (process_rest cfg junk) 0 found s in
         Some s
       else
         let* (found, s) := process_boot_drive cfg junk (boot_drive (i_bios st')) 0 found st' in
         let* (_, s) := each_disk (process_disk cfg junk) 0 found s in
         Some s).
Proof.
  intros Hn H0 H1. unfold ReadAllPartitionTables. set (sa := adjust_int1e st).
  assert (Ea : i_ddts sa = []) by done.
  destruct (make_ddt_spec junk 0 0 0 sa eq_refl H0) as (d & s1 & -> & L1 & A1 & N1). rewrite Ea in L1, N1.
  pose proof (int11_equipment_law (i_bios s1)) as E. destruct (int11_equipment (i_bios s1)) as [al b]. cbn [fst] in E. subst al.
  set (s2 := set_i_bios b s1).
  assert (exists d' s3, (if has p_equipment 1 && has p_equipment 0xc0 then make_ddt d 1 1 0 s2 else make_ddt d 1 0 DF_MULTLOG s2)
    = Some (d', s3) /\ length (i_ddts s3) = 2%nat /\ assigned s3 = floppy_letters /\ map ddt_logdriveno (i_ddts s3) = [0; 1]) as (d' & s3 & -> & L3 & A3 & N3).
  { assert (assigned sa = []) as Ea' by (unfold assigned; by rewrite Ea). rewrite Ea' in A1. unfold floppy_letters, second_floppy.
    destruct (has p_equipment 1 && has p_equipment 0xc0).
    - destruct (make_ddt_spec d 1 1 0 s2 eq_refl H1) as (d' & s3 & -> & L3 & A3 & N3). exists d', s3. split; [done|].
      change (i_ddts s2) with (i_ddts s1) in *. change (assigned s2) with (assigned s1) in *.
      rewrite L3, A3, N3, L1, A1, N1. done.
    - destruct (make_ddt_spec d 1 0 DF_MULTLOG s2 eq_refl H0) as (d' & s3 & -> & L3 & A3 & N3). exists d', s3. split; [done|].
      change (i_ddts s2) with (i_ddts s1) in *. change (assigned s2) with (assigned s1) in *.
      rewrite L3, A3, N3, L1, A1, N1. done. }
  unfold BIOS_nrdrives. set (s4 := set_nUnits 2 s3). pose proof (int13_parameters_law 0x80 (i_bios s4)) as E.
  destruct (int13_parameters 0x80 (i_bios s4)) as [[[[c bl] cx] dx] b4]. cbn [fst] in E. injection E as -> -> -> ->.
  set (s5 := set_i_bios b4 s4). fold disks_found.
  destruct (reset_drives_same disks_found 0 s5) as [R1 R2].
  exists (reset_drives disks_found 0 s5). split; [|split].
  - unfold units_ok. rewrite R1, R2. change (i_ddts s5) with (i_ddts s3). rewrite L3, N3. split; [done|]. split; [lia|done].
  - unfold assigned. rewrite R2. exact A3.
  - assert (replicate disks_found 0 = map (fun _ : Z => 0) disk_numbers) as ->; [|done].
    apply replicate_seqZ.
Qed.

(** The letters a scan of all disks gives: for each of the three rounds the partitions
    of the disks in their order. *)
Definition all_letters : list letter :=
  floppy_letters ++ concat (map first_letters disk_numbers) ++ concat (map logical_letters disk_numbers) ++
  concat (map rest_letters disk_numbers).

Lemma scan_spec st :
  i_ddts st = [] -> floppy_known 0 -> floppy_known 1 -> DLASortByDriveNo cfg = false ->
  exists st', ReadAllPartitionTables cfg junk st = Some st' /\ units_ok st' /\ assigned st' = take 26 all_letters.
Proof.
  intros Hn H0 H1 Hd. destruct (floppies_spec st Hn H0 H1) as (s0 & Hu & Ha & ->). rewrite Hd. cbn [negb].
  pose proof disks_found_max as Hm. unfold all_letters, disk_numbers.
  generalize dependent disks_found. intros n Hm.
  destruct (each_disk_spec (process_boot cfg junk) (fun i _ => mask_of (first_of i)) (fun i _ => first_letters i)
    (fun i f s Hi => process_boot_spec i f s Hi) n 0 (fun _ => 0) s0 ltac:(lia) ltac:(lia) Hu) as (s1 & -> & A1).
  destruct (each_disk_spec (process_extended cfg junk) (fun _ f => f) (fun i _ => logical_letters i)
    (fun i f s Hi => process_extended_spec i f s Hi) n 0 (fun i => mask_of (first_of i)) s1 ltac:(lia) ltac:(lia)
    (proj1 (A1 Hu))) as (s2 & -> & A2).
  destruct (each_disk_spec (process_rest cfg junk) (fun _ f => f) (fun i f => map (place i 0) (on_disk SCAN_PRIMARY2 f i))
    ltac:(intros i f s Hi; destruct (process_rest_spec i f s Hi) as (f' & s' & E & -> & A); by exists s')
    n 0 (fun i => mask_of (first_of i)) s2 ltac:(lia) ltac:(lia) (proj1 (A2 (proj1 (A1 Hu))))) as (s3 & -> & A3).
  exists s3. split; [done|]. rewrite <- Ha. by apply (adds_app _ _ _ _ _ A1 (adds_app _ _ _ _ _ A2 A3)).
Qed.

(** ** Each partition once *)

Lemma candidates_nodup dp force start i t : NoDup (map fst (candidates dp force start i t)).
Proof.
  revert i. induction t as [|e t IH]; intros i; [constructor|]. cbn [candidates]. rewrite map_app.
  destruct (candidate dp force start e); [|apply IH]. cbn. constructor; [|apply IH].
  intros Hx. apply list_elem_of_fmap in Hx as (x & E & Hx). apply candidates_from in Hx. cbn in E. lia.
Qed.

(** Taking away the entry a mask names leaves the others. *)
Lemma filter_mask (x : Z * PartTableEntry) l :
  NoDup (map fst l) -> x ∈ l -> (forall y, y ∈ l -> 0 <= fst y) ->
  x :: filter (selected SCAN_PRIMARY2 (Z.shiftl 1 (fst x))) l ≡ₚ l.
Proof.
  intros Hnd Hx Hpos. apply list_elem_of_split in Hx as (l1 & l2 & ->). rewrite map_app in Hnd. cbn in Hnd.
  apply list.NoDup_app in Hnd as (_ & Hd & Hnd). apply list.NoDup_cons in Hnd as [Hd2 _].
  assert (Hs : forall y, y ∈ l1 ++ l2 -> selected SCAN_PRIMARY2 (Z.shiftl 1 (fst x)) y).
  { intros y Hy. split; [|done].
    assert (0 <= fst x) by (apply Hpos, elem_of_app; right; left). 
    assert (0 <= fst y) by (apply Hpos; rewrite elem_of_app in Hy; rewrite elem_of_app, elem_of_cons; tauto).
    rewrite has_mask_bit, Z.shiftl_1_l by done. apply Z.pow2_bits_false. intros E.
    apply elem_of_app in Hy as [Hy|Hy].
    - apply (Hd (fst y)); [by apply list_elem_of_fmap_2|]. rewrite <- E. by left.
    - apply Hd2. rewrite E. by apply list_elem_of_fmap_2. }
  assert (Hn : ~ selected SCAN_PRIMARY2 (Z.shiftl 1 (fst x)) x).
  { intros [Hb _]. rewrite has_mask_bit, Z.shiftl_1_l, Z.pow2_bits_true in Hb; [done|apply Hpos, elem_of_app; right; left..]. }
  rewrite list.filter_app, filter_cons, decide_False by done.
  rewrite !filter_all by (intros y Hy; apply Hs, elem_of_app; tauto). by rewrite Permutation_middle.
Qed.

(** The usable primary partitions of a disk. *)
Definition primaries (drive : Z) : list (Z * PartTableEntry) :=
  match params drive, table_at drive 0 with
  | Some dp, Some t => candidates dp false 0 0 t
  | _, _ => []
  end.

Lemma first_of_head drive :
  match first_of drive with
  | [] => primaries drive = []
  | [x] => x ∈ primaries drive
  | _ => False
  end.
Proof.
  unfold first_of, on_disk, primaries. destruct (params drive) as [dp|]; [|done]. destruct (table_at drive 0) as [t|]; [|done].
  unfold found. change (single SCAN_PRIMARYBOOT) with true. change (single SCAN_PRIMARY) with true. cbv iota.
  set (l := candidates dp false 0 0 t).
  destruct (filter (selected SCAN_PRIMARYBOOT 0) l) as [|x l1] eqn:E1; cbn [take].
  - assert (filter (selected SCAN_PRIMARY 0) l = l) as ->.
    { apply filter_all. intros x _. by split. }
    destruct l; [done|]. cbn. by left.
  - apply (list_elem_of_filter (selected SCAN_PRIMARYBOOT 0) l x). rewrite E1. by left.
Qed.

Lemma primaries_once_spec drive : first_of drive ++ rest_of drive ≡ₚ primaries drive.
Proof.
  pose proof (first_of_head drive) as Hf. unfold rest_of. destruct (first_of drive) as [|x [|]]; [..|done].
  - unfold on_disk, primaries in *. destruct (params drive) as [dp|]; [|done]. destruct (table_at drive 0) as [t|]; [|done].
    unfold found. by rewrite Hf.
  - destruct x as [j e]. cbn [mask_of app]. unfold on_disk, primaries in *. destruct (params drive) as [dp|]; [|by apply elem_of_nil in Hf].
    destruct (table_at drive 0) as [t|]; [|by apply elem_of_nil in Hf]. unfold found. change (single SCAN_PRIMARY2) with false. cbv iota.
    apply (filter_mask (j, e)); [apply candidates_nodup|done|]. intros y Hy. by apply candidates_from in Hy.
Qed.

End letters.
