(* ===== verification/InitdiskThms.v ===== *)
(** * The scan for partitions: the properties, and sample disks *)

From S2P Require Import Prelude Hdr Bytes Media MediaSpec Chario Diskdrv DiskdrvSpec DiskdrvThms Initdisk InitdiskSpec InitdiskOrder.

(** ** The table of a partition *)

Lemma total_fat_bpb N fs b : total_sectors (fat_bpb N fs b) = total_sectors b /\
  bpb_nheads (fat_bpb N fs b) = bpb_nheads b /\ bpb_nsecs (fat_bpb N fs b) = bpb_nsecs b.
Proof.
  unfold fat_bpb. destruct (is_fat12 fs); [done|]. destruct (is_fat32 fs); by destruct (cluster_loop _ _ _ _ _).
Qed.

Lemma default_bpb fs N b :
  bpb_nbyte b = 512 -> total_sectors b = N -> size_ok fs N ->
  bpb_ok (fat_bpb N fs b) /\ width_ok (fat_bits fs) (fat_bpb N fs b).
Proof.
  intros Hb Ht Hs. unfold fat_bits. destruct (is_fat12 fs) eqn:E12; [by apply default_fat12|].
  destruct (is_fat32 fs) eqn:E32; [by apply default_fat32|by apply default_fat16].
Qed.

Lemma size_range fs N : size_ok fs N -> 64 <= N <= 4294901760.
Proof. unfold size_ok. destruct (is_fat12 fs); [lia|]. destruct (is_fat32 fs); lia. Qed.

(** The flags a drive has. *)
Definition drive_flags (f : Z) : Prop := f = 0 \/ f = DF_LBA \/ f = Z.lor DF_LBA DF_WRTVERIFY.

Section ready.
  Context {B : Type} `{DiskBiosLaws B} (cfg : KernelConfig) (junk : ddt).

(** Whether a partition is read by linear addresses. *)
Definition linear_reads (dp : DriveParamS) (e : PartTableEntry) (force : bool) : bool :=
  has (descflags dp) DF_LBA && (ForceLBA cfg || force || IsLBAPartition (FileSystem e)).

(** An entry that the scan accepts is read by linear addresses, or all its cylinders have
    numbers up to 1023. *)
Lemma check_entry_reach dp force start e0 e :
  geometry_ok dp -> 0 <= start -> 0 < NumSect e -> start + NumSect e <= 4294967296 ->
  check_entry cfg dp force start e0 = Some (e, true) ->
  linear_reads dp e force = true \/
  forall lba, lba < start + NumSect e -> lba < 1024 * (Head (chs dp) * Sector (chs dp)).
Proof.
  intros Hg H0 Hn H1. unfold check_entry.
  destruct (init_LBA_to_CHS start dp) as [c|]; [|done].
  destruct (init_LBA_to_CHS (u32 (start + NumSect e0 - 1)) dp) as [end_|] eqn:Ee; [|done].
  set (e1 := if is_suspect c (Begin e0) then _ else e0). destruct (is_suspect end_ (End e1) && _); [done|].
  set (e2 := if is_suspect end_ (End e1) then _ else e1).
  assert (NumSect e2 = NumSect e0) as E2.
  { subst e2 e1. by destruct (is_suspect c (Begin e0)); destruct (is_suspect end_ _). }
  destruct ((1023 <? Cylinder c) || (1023 <? Cylinder end_)) eqn:E.
  - destruct (has (descflags dp) DF_LBA) eqn:EL; cbn [negb]; [|done].
    destruct (negb (ForceLBA cfg) && negb force && negb (IsLBAPartition (FileSystem e2))) eqn:EF; intros [= <-]; left;
      unfold linear_reads; rewrite EL; cbn [andb].
    + assert (IsLBAPartition (FileSystem (set_FileSystem (lba_type (FileSystem e2)) e2)) = true) as ->; [|by rewrite orb_true_r].
      cbn [FileSystem set_FileSystem]. unfold lba_type. by destruct (_ =? _); [|destruct (_ =? _)].
    + by destruct (ForceLBA cfg), force, (IsLBAPartition (FileSystem e2)).
  - intros [= <-]. right. intros lba Hlt. rewrite E2 in *. rewrite u32_id in Ee by lia.
    apply orb_false_iff in E as [_ E%Z.ltb_ge].
    destruct (init_LBA_to_CHS_spec (start + NumSect e0 - 1) dp Hg ltac:(lia)) as (c' & Ec & R1 & R2 & R3 & R4).
    assert (c' = end_) as -> by congruence. specialize (R4 ltac:(lia)). nia.
Qed.

(** C17: The table that the scan builds for an entry of a partition table it accepts is one
    the other parts of the kernel can work with: its BPB is consistent, with the FAT of the
    width that the partition type stands for, long enough for all clusters, and with a
    number of clusters that is read as this width; the disk driver can reach every sector of
    the drive, and none outside the partition: no request overflows 32 bits
    ([partition_ok], [no_overflow]).  The size is one of the type, the partition ends below
    sector 2^32, and a partition that is not read by linear addresses is on a disk whose
    geometry is the one of the BIOS. *)
Theorem partition_ready dp start e0 e unit force :
  check_entry cfg dp force start e0 = Some (e, true) ->
  size_ok (FileSystem e) (NumSect e) -> drive_flags (descflags dp) -> 0 <= start -> start + NumSect e <= 4294967296 ->
  geometry_ok dp ->
  (linear_reads dp e force = true \/
   (Head (chs dp) = bios_heads (driveno dp) /\ Sector (chs dp) = bios_sectors (driveno dp))) ->
  let d := partition_ddt cfg junk dp start e unit force DF_FIXED in
  bpb_ok (ddt_bpb d) /\ width_ok (fat_bits (FileSystem e)) (ddt_bpb d) /\ partition_ok d /\
  (forall x, 0 <= x < drive_size d -> in_reach d (ddt_offset d + x)) /\
  (forall r, 0 <= r_count r < 65536 -> no_overflow d r).
Proof.
  intros Hce Hs Hf H0 H1 Hgeo Hl d. set (b := ddt_defbpb (partition_ddt cfg junk dp start e unit force DF_FIXED)).
  assert (exists b0, b = fat_bpb (NumSect e) (FileSystem e) b0 /\ bpb_nbyte b0 = 512 /\ total_sectors b0 = NumSect e /\
    bpb_nheads b0 = Head (chs dp) /\ bpb_nsecs b0 = Sector (chs dp)) as (b0 & Eb & E1 & E2 & E3 & E4).
  { eexists. split; [reflexivity|]. split; [done|]. split; [|done]. pose proof (size_range _ _ Hs).
    unfold total_sectors. cbv beta iota zeta delta [bpb_nsize bpb_huge ddt_defbpb].
    destruct (Z.leb_spec (NumSect e) 0xffff); [|done]. rewrite u16_id by lia.
    by rewrite (proj2 (Z.eqb_neq (NumSect e) 0)) by lia. }
  destruct (default_bpb (FileSystem e) (NumSect e) b0 E1 E2 Hs) as [B1 B2].
  destruct (total_fat_bpb (NumSect e) (FileSystem e) b0) as (T1 & T2 & T3).
  change (ddt_bpb d) with b. rewrite Eb. split; [done|]. split; [done|].
  assert (Hfl : hd (ddt_descflags d) = true /\ settled d /\ has (ddt_descflags d) DF_LBA = linear_reads dp e force).
  { unfold settled. subst d. unfold partition_ddt, linear_reads. cbn [ddt_descflags set_ddt_bpb set_ddt_flags CalculateFATData set_ddt_fstype set_ddt_defbpb].
    destruct Hf as [E | [E | E]]; rewrite E; destruct (ForceLBA cfg || force || IsLBAPartition (FileSystem e)); done. }
  destruct Hfl as (F1 & F2 & F3).
  assert (Eg : geometry d = fat_bpb (NumSect e) (FileSystem e) b0) by (unfold geometry; rewrite F1; exact Eb).
  assert (Ez : drive_size d = NumSect e) by (unfold drive_size; by rewrite Eg, T1, E2).
  pose proof (size_range _ _ Hs). split; [|split].
  2: { intros x Hx. unfold in_reach. rewrite F3. change (ddt_offset d) with start. change (ddt_driveno d) with (driveno dp).
    destruct Hl as [Hl|[Hl1 Hl2]]; [by left|]. rewrite <- Hl1, <- Hl2.
    destruct (check_entry_reach dp force start e0 e Hgeo H0 ltac:(lia) H1 Hce) as [Hr|Hr]; [by left|right]. apply Hr. lia. }
  2: { intros r Hr. unfold no_overflow. lia. }
  split; [done|]. split; [done|]. split.
  { unfold addressable. rewrite F3. destruct Hl as [Hl|[Hl1 Hl2]]; [by left|]. right. unfold chs_ok. rewrite Eg, T2, T3, E3, E4.
    change (ddt_bpb d) with b. rewrite Eb, T3, E4. done. }
  rewrite Ez. split; [done|]. split; [lia|]. exact H1.
Qed.

End ready.

(** A table of partitions is read as it was written: from a sector that holds any
    boot code, the four entries as they are stored and the mark 55h AAh the scan gets exactly
    these entries, cylinders above 255 and 32-bit positions included. *)
Theorem partition_table_roundtrip code table :
  length code = 446%nat -> length table = 4%nat -> Forall entry_fits table ->
  ConvPartTableEntryToIntern (table_sector code table) = Some (true, table).
Proof. apply table_roundtrip. Qed.

Section order.
  Context {B : Type} `{Int13Laws B} (cfg : KernelConfig) (junk : ddt).

(** C16: The scan always ends and gives out the drive letters in the documented order:
    the diskettes, then of each disk the bootable or else the first usable primary partition,
    then the logical drives of each disk along the chain of its extended partitions, then
    the primary partitions that are left, until there are 26.  Unit n is the n-th of them
    and its table holds its disk and its first sector.  This is the order without the
    option DLASortByDriveNo, over a BIOS whose reads succeed. *)
Theorem drive_letters (st : init_disk B) :
  i_ddts st = [] -> floppy_known 0 -> floppy_known 1 -> DLASortByDriveNo cfg = false ->
  exists st', ReadAllPartitionTables cfg junk st = Some st' /\ units_ok st' /\ assigned st' = take 26 (all_letters cfg).
Proof. apply scan_spec. Qed.

(** The first round and the last one together give each usable primary partition of a
    disk a letter, and none of them two. *)
Theorem primaries_once drive :
  first_of cfg drive ++ rest_of cfg drive ≡ₚ primaries cfg drive /\ NoDup (map fst (primaries cfg drive)).
Proof.
  split; [apply primaries_once_spec|]. unfold primaries. destruct (params cfg drive) as [dp|]; [|constructor].
  destruct (table_at cfg drive 0); [|constructor]. apply candidates_nodup.
Qed.

End order.

(** ** Sample disks

    A BIOS with one diskette drive and one disk of 16 heads and 63 sectors, without
    linear addresses: the second entry of its table is bootable, the third one is an
    extended partition with two logical drives. *)

Definition no_chs : CHS := Chs 0 0 0.
Definition sample_table : list PartTableEntry :=
  [PartEntry 0 FAT16SMALL no_chs no_chs 63 30000; PartEntry 0x80 FAT16LARGE no_chs no_chs 30063 90000;
   PartEntry 0 EXTENDED no_chs no_chs 200000 100000; PartEntry 0 FAT12 no_chs no_chs 120063 8000].
Definition sample_extended (next : Z) : list PartTableEntry :=
  [PartEntry 0 FAT16SMALL no_chs no_chs 63 20000; PartEntry 0 (if next =? 0 then 0 else EXTENDED) no_chs no_chs next 21000;
   no_entry; no_entry].
Definition sample_sector (d l : Z) : list Z :=
  if l =? 0 then table_sector (replicate 446 0) sample_table
  else if l =? 200000 then table_sector (replicate 446 0) (sample_extended 30000)
  else if l =? 230000 then table_sector (replicate 446 0) (sample_extended 0)
  else replicate 512 0.

#[export] Instance sample_int13 : Int13 unit := {
  int13_reset _ b := b;
  int13_parameters d b := (false, 4, 0xfeff, 0x0f01, b);
  int13_type d b := (false, 3, b);
  int13_extensions _ b := (true, 0, 0, 0, b);
  int13_lba_parameters _ b := (true, LbaParameters 0 0 0 0 0, b);
  int13_read_chs d cx h b :=
    (false, sample_sector d (((cx / 256 + 256 * (cx / 64 mod 4)) * 16 + h) * 63 + (cx mod 64 - 1)), b);
  int13_read_lba d l b := (false, sample_sector d l, b);
  int11_equipment b := (0, b);
  diskette_parameters _ := replicate 11 0;
  setvec_1e _ b := b;
  boot_drive _ := 0 }.

Lemma bytes_forallb l : forallb (fun x => (0 <=? x) && (x <? 256)) l = true -> bytes l.
Proof.
  intros Hf. apply list.Forall_forall. intros x Hx. rewrite forallb_forall in Hf.
  specialize (Hf x (proj1 (list_elem_of_In _ _) Hx)). unfold is_byte. lia.
Qed.

Lemma cx_decode c s : 0 <= c <= 1023 -> 1 <= s <= 63 ->
  let cx := Z.shiftl (Z.land c 0xff) 8 + Z.shiftr (Z.land c 0x300) 2 + s in
  cx / 256 + 256 * (cx / 64 mod 4) = c /\ cx mod 64 = s.
Proof.
  intros Hc Hs cx. assert (cx = 256 * (c mod 256) + 64 * (c / 256) + s) as ->.
  { subst cx. assert (Z.land c 0xff = c mod 256) as -> by exact (Z.land_ones c 8 ltac:(lia)).
    assert (Z.land c 0x300 = 256 * (c / 256)) as ->.
    { apply Z.eqb_eq, (forall_range (fun x => Z.land x 0x300 =? 256 * (x / 256)) 0 1024); [by vm_compute|lia]. }
    rewrite Z.shiftl_mul_pow2, Z.shiftr_div_pow2 by lia. change (2 ^ 8) with 256. change (2 ^ 2) with 4.
    Z.div_mod_to_equations. lia. }
  Z.div_mod_to_equations. lia.
Qed.

#[export] Program Instance sample_laws : Int13Laws unit := {
  p_carry _ := false;
  p_bl _ := 4;
  p_cx _ := 0xfeff;
  p_dx _ := 0x0f01;
  p_ext _ := (true, 0, 0, 0);
  p_lba _ := (true, LbaParameters 0 0 0 0 0);
  sector_of := sample_sector;
  p_equipment := 0 }.
Next Obligation. done. Qed.
Next Obligation. done. Qed.
Next Obligation. done. Qed.
Next Obligation. done. Qed.
Next Obligation. cbn. lia. Qed.
Next Obligation.
  intros d l. cbn. unfold sample_sector. destruct (l =? 0); [|destruct (l =? 200000); [|destruct (l =? 230000)]];
    (split; [vm_compute; reflexivity|]); apply bytes_forallb; vm_compute; reflexivity.
Qed.
Next Obligation. done. Qed.
Next Obligation.
  cbn. intros d c cx b Hc Hh Hs ->. change (Head (bios_chs 65279 3841)) with 16. change (Sector (bios_chs 65279 3841)) with 63 in *.
  destruct (cx_decode (Cylinder c) (Sector c) Hc Hs) as [E1 E2]. by rewrite E1, E2.
Qed.

Definition sample_cfg : KernelConfig := Config false false true.
Definition sample_junk : ddt := Ddt None 0 0 (Bpb 0 0 0 0 0 0 0 0 0 0 0 0 0 0 0 0 0 0) 0 0 0 0
  (Bpb 0 0 0 0 0 0 0 0 0 0 0 0 0 0 0 0 0 0) 0 [] 0 [] 0.
Definition sample_init : init_disk unit := InitDisk 0 [] false 0 [] [] tt.
Definition sample_letters : list letter :=
  [(0, 0); (0, 0); (0x80, 30063); (0x80, 200063); (0x80, 230063); (0x80, 63); (0x80, 120063)].

Lemma drive_letters_witness : exists st',
  ReadAllPartitionTables sample_cfg sample_junk sample_init = Some st' /\ units_ok st' /\ assigned st' = sample_letters.
Proof.
  assert (take 26 (all_letters (B := unit) sample_cfg) = sample_letters) as <- by (vm_compute; reflexivity).
  apply (drive_letters sample_cfg sample_junk sample_init); [done|by right|by right|done].
Defined.

Lemma partition_table_roundtrip_witness :
  Forall entry_fits sample_table /\
  ConvPartTableEntryToIntern (table_sector (replicate 446 0) sample_table) = Some (true, sample_table).
Proof.
  assert (Forall entry_fits sample_table) as Hf by (repeat constructor; cbn; lia).
  split; [exact Hf|]. apply partition_table_roundtrip; [reflexivity|reflexivity|exact Hf].
Defined.

Definition sample_drive : DriveParamS := DriveParam 0x80 0 300000 (Chs 300 16 63).

Lemma partition_ready_witness :
  let e := PartEntry 0x80 FAT16LARGE (Chs 29 13 13) (Chs 119 1 48) 30063 90000 in
  let d := partition_ddt sample_cfg sample_junk sample_drive 30063 e 2 false DF_FIXED in
  check_entry sample_cfg sample_drive false 30063 e = Some (e, true) /\
  bpb_ok (ddt_bpb d) /\ width_ok 16 (ddt_bpb d) /\ partition_ok (B := DiskdrvThms.ram_disk) d.
Proof.
  set (e := PartEntry 0x80 FAT16LARGE (Chs 29 13 13) (Chs 119 1 48) 30063 90000).
  assert (check_entry sample_cfg sample_drive false 30063 e = Some (e, true)) as E by (vm_compute; reflexivity).
  split; [exact E|].
  destruct (partition_ready (B := DiskdrvThms.ram_disk) sample_cfg sample_junk sample_drive 30063 e e 2 false E)
    as (H1 & H2 & H3 & _); [cbn; lia|by left|lia|cbn; lia|split; cbn; lia|by right|].
  split; [exact H1|]. split; [exact H2|exact H3].
Defined.
