(* ===== verification/Task.v ===== *)
(** * Programs ([kernel/task.c])

    Loading and starting a program, and the return to its parent.  The memory is the
    function of [Diskdrv.v]; a structure in it, like the program segment prefix, is read
    and written at its offsets.  The memory manager, the files and the other services of the
    kernel are the class [TaskHost].  Where the code jumps into a program through
    [exec_user] the result is the stack frame it jumps with. *)

From S2P Require Import Prelude Hdr Bytes Diskdrv.

(** kernel/task.c:39-39 *)
Definition LOADNGO : Z := 0.
(** kernel/task.c:40-40 *)
Definition LOAD : Z := 1.
(** kernel/task.c:41-41 *)
Definition OVERLAY : Z := 3.
(** kernel/task.c:59-59 *)
Definition CHUNK : Z := 32256.
(** kernel/task.c:60-60 *)
Definition MAXENV : Z := 32768.
(** kernel/task.c:61-66 *)
Definition ENV_KEEPFREE : Z := 83.
(** hdr/exe.h:55-55 *)
Definition MAGIC : Z := 0x5a4d.
(** hdr/exe.h:56-56 *)
Definition OLD_MAGIC : Z := 0x4d5a.
(** hdr/network.h:52-52 *)
Definition REM_CLOSEALL : Z := 0x111d.
(** hdr/network.h:57-57 *)
Definition REM_PROCESS_END : Z := 0x1122.
(** hdr/error.h:49-49 *)
Definition DE_INVLDENV : Z := -10.
(** hdr/error.h:50-50 *)
Definition DE_INVLDFMT : Z := -11.

(** ** Words in memory *)

Definition poke16 (a v : Z) (m : memory) : memory := poke (a + 1) (Z.shiftr v 8) (poke a (Z.land v 0xff) m).
Definition poke_far (a : Z) (p : farptr) (m : memory) : memory := poke16 (a + 2) (fp_seg p) (poke16 a (fp_off p) m).
Definition peek_far (a : Z) (m : memory) : farptr := Far (peek16 (a + 2) m) (peek16 a m).
Definition fill (a n v : Z) (m : memory) : memory := fun x => if (a <=? x) && (x <? a + n) then v else m x.

(** kernel/task.c:68-75 *)
Definition getvec (n : Z) (m : memory) : farptr := peek_far (4 * n) m.
(** kernel/task.c:77-82 *)
Definition setvec (n : Z) (p : farptr) (m : memory) : memory := poke_far (4 * n) p m.

(** The characters from an address to the next NUL, if there are less than [n]. *)
Fixpoint far_string (n : nat) (a : Z) (m : memory) : option (list Z) :=
  match n with
  | O => None
  | S n => if m a =? 0 then Some [] else cons (m a) <$> far_string n (a + 1) m
  end.

(** ** Structures *)

(** hdr/exe.h:38-53 *)
Record exe_header := ExeHeader {
  exSignature : Z; exExtraBytes : Z; exPages : Z; exRelocItems : Z; exHeaderSize : Z; exMinAlloc : Z;
  exMaxAlloc : Z; exInitSS : Z; exInitSP : Z; exCheckSum : Z; exInitIP : Z; exInitCS : Z; exRelocTable : Z;
  exOverlay : Z }.

Definition exe_header_of (l : list Z) : exe_header :=
  let w i := byte_at l i + 256 * byte_at l (i + 1) in
  ExeHeader (w 0) (w 2) (w 4) (w 6) (w 8) (w 10) (w 12) (w 14) (w 16) (w 18) (w 20) (w 22) (w 24) (w 26).

(** A union: an overlay has its segment and its relocation where the other modes have
    the environment and the offset of the command line.
    hdr/process.h:38-53 *)
Record exec_blk := ExecBlk {
  env_seg : Z; cmd_line : farptr; fcb_1 : farptr; fcb_2 : farptr; stack : farptr; start_addr : farptr }.
Definition load_seg (e : exec_blk) : Z := env_seg e.
Definition load_reloc (e : exec_blk) : Z := fp_off (cmd_line e).
Definition set_stack v (e : exec_blk) := ExecBlk (env_seg e) (cmd_line e) (fcb_1 e) (fcb_2 e) v (start_addr e).
Definition set_start v (e : exec_blk) := ExecBlk (env_seg e) (cmd_line e) (fcb_1 e) (fcb_2 e) (stack e) v.

Definition load_exec (a : Z) (m : memory) : exec_blk :=
  ExecBlk (peek16 a m) (peek_far (a + 2) m) (peek_far (a + 6) m) (peek_far (a + 10) m) (peek_far (a + 14) m)
    (peek_far (a + 18) m).
Definition store_exec (a : Z) (e : exec_blk) (m : memory) : memory :=
  poke_far (a + 18) (start_addr e) (poke_far (a + 14) (stack e) (poke_far (a + 10) (fcb_2 e)
    (poke_far (a + 6) (fcb_1 e) (poke_far (a + 2) (cmd_line e) (poke16 a (env_seg e) m))))).

(** The offsets in a program segment prefix, of 256 bytes.
    hdr/process.h:58-109 *)
Inductive psp_field :=
  | ps_size | ps_reentry | ps_isv22 | ps_isv23 | ps_isv24 | ps_parent | ps_files | ps_environ | ps_stack
  | ps_maxfiles | ps_filetab | ps_prevpsp | ps_fcb1 | ps_fcb2 | ps_cmd.
Definition psp_offset (f : psp_field) : Z :=
  match f with
  | ps_size => 2 | ps_reentry => 6 | ps_isv22 => 0xa | ps_isv23 => 0xe | ps_isv24 => 0x12 | ps_parent => 0x16
  | ps_files => 0x18 | ps_environ => 0x2c | ps_stack => 0x2e | ps_maxfiles => 0x32 | ps_filetab => 0x34
  | ps_prevpsp => 0x38 | ps_fcb1 => 0x5c | ps_fcb2 => 0x6c | ps_cmd => 0x80
  end.
Definition psp_at (seg : Z) (f : psp_field) : Z := 16 * seg + psp_offset f.

(** The offsets in a stack frame of registers, of 24 bytes.
    hdr/pcb.h:78-82 *)
Inductive ireg := rAX | rBX | rCX | rDX | rSI | rDI | rBP | rDS | rES | rIP | rCS | rFLAGS.
Definition ireg_offset (r : ireg) : Z :=
  match r with
  | rAX => 0 | rBX => 2 | rCX => 4 | rDX => 6 | rSI => 8 | rDI => 10 | rBP => 12 | rDS => 14 | rES => 16
  | rIP => 18 | rCS => 20 | rFLAGS => 22
  end.
Definition ireg_at (irp : farptr) (r : ireg) : Z := linear irp + ireg_offset r.

(** ** The other parts of the kernel *)

(** An allocation yields the return code, the segment and the size it stores, if any; a
    read its result and the bytes; [h_sft] is the size of an open file. *)
Class TaskHost (H : Type) := {
  h_alloc : Z -> Z -> Z -> Z -> memory -> H -> Z * option Z * option Z * memory * H;
  h_largest : Z -> Z -> memory -> H -> Z * Z * memory * H;
  h_free : Z -> memory -> H -> memory * H;
  h_uppermem_link : H -> Z;
  h_umblink : Z -> memory -> H -> memory * H;
  h_free_process : Z -> memory -> H -> memory * H;
  h_truename : farptr -> Z -> memory -> H -> Z * list Z * H;
  h_isdevice : farptr -> memory -> H -> bool;
  h_open : farptr -> memory -> H -> Z * H;
  h_read : Z -> Z -> H -> Z * list Z * H;
  h_seek : Z -> Z -> H -> Z * H;
  h_close : Z -> H -> H;
  h_sft : Z -> H -> option Z;
  h_clone : Z -> Z -> memory -> H -> Z * H;
  h_cds1 : Z -> H -> bool;
  h_redirector : Z -> H -> H;
  h_close_handle : Z -> Z -> memory -> H -> memory * H;
  h_fcb_close_all : memory -> H -> H }.

(** The memory and the globals of the process management. *)
Record task (H : Type) := Task {
  t_mem : memory;
  mem_access_mode : Z;
  cu_psp : Z;
  t_dta : farptr;
  InDOS : Z;
  tsr : bool;
  user_r : farptr;
  t_host : H }.
Arguments Task {H}.
Arguments t_mem {H}.
Arguments mem_access_mode {H}.
Arguments cu_psp {H}.
Arguments t_dta {H}.
Arguments InDOS {H}.
Arguments tsr {H}.
Arguments user_r {H}.
Arguments t_host {H}.

(** How a call ends: it returns, with the block as it is then, or a program runs on a
    frame; the flag is the second argument of [exec_user]. *)
Inductive outcome (H : Type) :=
  | Returned (rc : Z) (e : exec_blk) (s : task H)
  | Started (irp : farptr) (fresh : bool) (s : task H).
Arguments Returned {H}.
Arguments Started {H}.

Section programs.
  Context {H : Type} `{!TaskHost H}.

(** What the variable [env] holds before it is set. *)
  Context (env0 : Z).
  Implicit Types st : task H.

Definition set_t_mem v st : task H := Task v (mem_access_mode st) (cu_psp st) (t_dta st) (InDOS st) (tsr st) (user_r st) (t_host st).
Definition upd_mem f st : task H := set_t_mem (f (t_mem st)) st.
Definition set_access v st : task H := Task (t_mem st) v (cu_psp st) (t_dta st) (InDOS st) (tsr st) (user_r st) (t_host st).
Definition set_cu_psp v st : task H := Task (t_mem st) (mem_access_mode st) v (t_dta st) (InDOS st) (tsr st) (user_r st) (t_host st).
Definition set_dta v st : task H := Task (t_mem st) (mem_access_mode st) (cu_psp st) v (InDOS st) (tsr st) (user_r st) (t_host st).
Definition set_InDOS v st : task H := Task (t_mem st) (mem_access_mode st) (cu_psp st) (t_dta st) v (tsr st) (user_r st) (t_host st).
Definition set_host v st : task H := Task (t_mem st) (mem_access_mode st) (cu_psp st) (t_dta st) (InDOS st) (tsr st) (user_r st) v.

(** The services on the state of the kernel. *)
Definition DosMemAlloc (size mode : Z) st : Z * option Z * option Z * task H :=
  let '(rc, para, asize, m, h) := h_alloc size mode (mem_access_mode st) (cu_psp st) (t_mem st) (t_host st) in
  (rc, para, asize, set_host h (set_t_mem m st)).
Definition DosMemLargest st : Z * Z * task H :=
  let '(rc, asize, m, h) := h_largest (mem_access_mode st) (cu_psp st) (t_mem st) (t_host st) in
  (rc, asize, set_host h (set_t_mem m st)).
Definition DosMemFree (para : Z) st : task H :=
  let '(m, h) := h_free para (t_mem st) (t_host st) in set_host h (set_t_mem m st).
Definition DosUmbLink (n : Z) st : task H :=
  let '(m, h) := h_umblink n (t_mem st) (t_host st) in set_host h (set_t_mem m st).
Definition SftSeek (fd pos : Z) st : Z * task H :=
  let '(rc, h) := h_seek fd pos (t_host st) in (rc, set_host h st).
Definition read_file (fd n : Z) st : Z * list Z * task H :=
  let '(rc, data, h) := h_read fd n (t_host st) in (rc, data, set_host h st).
Definition DosCloseSft (fd : Z) st : task H := set_host (h_close fd (t_host st)) st.

(** [DosRWSft] to the memory of a program. *)
Definition read_far (fd n : Z) (p : farptr) st : Z * task H :=
  let '(rc, data, st) := read_file fd n st in (rc, upd_mem (store (linear p) data) st).

(** kernel/task.c:84-93 *)
Definition SftGetFsize (sft_idx : Z) st : Z := default (u32 DE_INVLDHNDL) (h_sft sft_idx (t_host st)).

(** ** The environment *)

(** The scan for the two NULs at the end; [room] counts down to the largest size.
    kernel/task.c:124-132 *)
Fixpoint env_scan (room : nat) (a n : Z) (m : memory) : option Z :=
  match room with
  | O => None
  | S room => if peek16 (a + n) m =? 0 then Some n else env_scan room a (n + 1) m
  end.

(** The return code and [*pChildEnvSeg].
    kernel/task.c:95-174 *)
Definition ChildEnv (e : exec_blk) (pathname : farptr) (env : Z) st : Z * Z * task H :=
  let src := if negb (env_seg e =? 0) then env_seg e else peek16 (psp_at (cu_psp st) ps_environ) (t_mem st) in
  let size := if negb (src =? 0)
              then (fun n => u16 (n + 2)) <$> env_scan (Z.to_nat (MAXENV - ENV_KEEPFREE)) (16 * src) 0 (t_mem st)
              else Some 1 in
  match size with
  | None => (DE_INVLDENV, env, st)
  | Some nEnvSize =>
      let '(rc, para, _, st) := DosMemAlloc (u16 (nEnvSize + ENV_KEEPFREE + 15) / 16) (mem_access_mode st) st in
      let env := default env para in
      if rc <? 0 then (rc, env, st)
      else
        let dest := 16 * u16 (env + 1) in
        let st := upd_mem (if negb (src =? 0) then copy dest (16 * src) nEnvSize else poke dest 0) st in
        let dest := dest + nEnvSize in
        let st := upd_mem (poke16 dest 1) st in
        let '(rc, name, h) := h_truename pathname 0x01 (t_mem st) (t_host st) in
        let st := set_host h st in
        if rc <? SUCCESS then (rc, env, st)
        else (SUCCESS, env, upd_mem (store (dest + 2) (name ++ [0])) st)
  end.

(** ** The program segment prefix *)

(** kernel/task.c:177-191 *)
Definition new_psp (para cur_psp : Z) (m : memory) : memory :=
  let m := copy (16 * para) (16 * cur_psp) 256 m in
  let m := poke_far (psp_at para ps_isv22) (getvec 0x22 m) m in
  let m := poke_far (psp_at para ps_isv23) (getvec 0x23 m) m in
  let m := poke_far (psp_at para ps_isv24) (getvec 0x24 m) m in
  poke16 (psp_at para ps_parent) 0 m.

(** The handles from [i] on.
    kernel/task.c:219-222 *)
Fixpoint clone_handles (n : nat) (i para cur_psp : Z) st : task H :=
  match n with
  | O => st
  | S n =>
      let '(rc, h) := h_clone i (cu_psp st) (t_mem st) (t_host st) in
      let st := set_host h st in
      let tab := linear (peek_far (psp_at cur_psp ps_filetab) (t_mem st)) in
      let st := if 0 <=? rc then upd_mem (fun m => poke (psp_at para ps_files + i) (m (tab + i)) m) st else st in
      clone_handles n (i + 1) para cur_psp st
  end.

(** kernel/task.c:193-234 *)
Definition child_psp (para cur_psp psize : Z) st : task H :=
  let st := upd_mem (new_psp para cur_psp) st in
  let st := upd_mem (poke16 (psp_at para ps_parent) (cu_psp st)) st in
  let st := upd_mem (poke_far (psp_at para ps_prevpsp) (Far cur_psp 0)) st in
  let st := upd_mem (poke16 (psp_at para ps_size) (u16 psize)) st in
  let st := upd_mem (poke16 (psp_at para ps_maxfiles) 20) st in
  let st := upd_mem (fill (psp_at para ps_files) 20 0xff) st in
  let st := upd_mem (poke_far (psp_at para ps_filetab) (Far para (psp_offset ps_files))) st in
  let st := clone_handles 20 0 para cur_psp st in
  let st := upd_mem (poke (psp_at para ps_fcb1) 0) st in
  let st := upd_mem (fill (psp_at para ps_fcb1 + 1) 11 (ch " ")) st in
  let st := upd_mem (poke (psp_at para ps_fcb2) 0) st in
  let st := upd_mem (fill (psp_at para ps_fcb2 + 1) 11 (ch " ")) st in
  let st := upd_mem (poke (psp_at para ps_cmd) 0) st in
  upd_mem (poke (psp_at para ps_cmd + 1) 0xd) st.

(** kernel/task.c:37-37 *)
Definition toupper (c : Z) : Z := if (ch "a" <=? c) && (c <=? ch "z") then c + (ch "A" - ch "a") else c.

(** The part of a name behind the last drive or directory.
    kernel/task.c:266-279 *)
Fixpoint base_name (np l : list Z) : list Z :=
  match l with
  | [] => np
  | c :: l => base_name (if (c =? ch ":") || (c =? ch "/") || (c =? ch "\") then l else np) l
  end.

(** The name for the memory control block, with its NUL if there is room.
    kernel/task.c:280-286 *)
Fixpoint mcb_name (n : nat) (np : list Z) : list Z :=
  match n with
  | O => []
  | S n =>
      match np with
      | [] => [0]
      | c :: np => if c =? ch "." then [0] else toupper c :: mcb_name n np
      end
  end.

(** The return value goes to AX; [None] is a name without an end.
    kernel/task.c:236-291 *)
Definition patchPSP (pspseg envseg : Z) (e : exec_blk) (fnam : farptr) st : option (Z * task H) :=
  let mcb := 16 * pspseg in
  let pspseg := u16 (pspseg + 1) in
  let st := upd_mem (copy (psp_at pspseg ps_cmd) (linear (cmd_line e)) 128) st in
  let st := if negb (fp_off (fcb_1 e) =? 0xffff)
            then upd_mem (fun m => copy (psp_at pspseg ps_fcb2) (linear (fcb_2 e)) 16
                                     (copy (psp_at pspseg ps_fcb1) (linear (fcb_1 e)) 16 m)) st else st in
  let st := upd_mem (poke16 (mcb + 1) pspseg) st in
  let '(envseg, st) := if negb (envseg =? 0) then (u16 (envseg + 1), upd_mem (poke16 (16 * envseg + 1) pspseg) st)
                       else (envseg, st) in
  let st := upd_mem (poke16 (psp_at pspseg ps_environ) envseg) st in
  let* name := far_string (Z.to_nat 65536) (linear fnam) (t_mem st) in
  let st := upd_mem (store (mcb + 8) (mcb_name 8 (base_name name name))) st in
  let drive f := h_cds1 (t_mem st (psp_at pspseg f)) (t_host st) in
  Some (Z.lor (if drive ps_fcb1 then 0 else 0xff) (if drive ps_fcb2 then 0 else 0xff00), st).

(** The parent and the child know each other, and the parent its frame.
    kernel/task.c:296-306 *)
Definition link_psp (ds : Z) st : task H :=
  let st := upd_mem (poke16 (psp_at ds ps_parent) (cu_psp st)) st in
  let st := upd_mem (poke_far (psp_at ds ps_prevpsp) (Far (cu_psp st) 0)) st in
  let st := upd_mem (poke_far (psp_at (cu_psp st) ps_stack) (user_r st)) st in
  let flags := ireg_at (user_r st) rFLAGS in
  let st := upd_mem (fun m => poke16 flags (Z.land (peek16 flags m) (Z.lnot 1)) m) st in
  set_dta (Far ds (psp_offset ps_cmd)) (set_cu_psp ds st).

(** kernel/task.c:317-325 *)
Definition start_frame (irp : farptr) (ds fcbcode : Z) (e : exec_blk) (m : memory) : memory :=
  let set r v := poke16 (ireg_at irp r) v in
  let m := set rDX ds (set rES ds (set rDS ds m)) in
  let m := set rCS (fp_seg (start_addr e)) m in
  let m := set rSI (fp_off (start_addr e)) (set rIP (fp_off (start_addr e)) m) in
  let m := set rDI (fp_off (stack e)) m in
  let m := set rBP 0x91e m in
  let m := set rAX fcbcode (set rBX fcbcode m) in
  let m := set rCX 0xff m in
  set rFLAGS 0x200 m.

(** kernel/task.c:327-328 *)
Definition leave_dos st : task H := if negb (InDOS st =? 0) then set_InDOS (InDOS st - 1) st else st.

(** kernel/task.c:293-338 *)
Definition load_transfer (ds : Z) (e : exec_blk) (fcbcode mode : Z) st : outcome H :=
  let st := link_psp ds st in
  if mode =? LOADNGO then
    let irp := far_add (stack e) (-24) in
    Started irp true (leave_dos (upd_mem (start_frame irp ds fcbcode e) st))
  else
    let e := set_stack (far_add (stack e) (-2)) e in
    Returned SUCCESS e (upd_mem (poke16 (linear (stack e)) fcbcode) st).

(** ** Memory for a program *)

(** The return code and [*asize].
    kernel/task.c:342-360 *)
Definition ExecMemLargest (threshold : Z) st : Z * Z * task H :=
  let '(rc, asize, st) :=
    if has (mem_access_mode st) 0x80 then
      let st := set_access (Z.lor (clear 0x80 (mem_access_mode st)) 0x40) st in
      let '(rc, asize, st) := DosMemLargest st in
      let st := set_access (clear 0x40 (mem_access_mode st)) st in
      let '(rc, asize, st) := if negb (rc =? SUCCESS) || (asize <? threshold) then DosMemLargest st else (rc, asize, st) in
      (rc, asize, set_access (Z.lor (mem_access_mode st) 0x80) st)
    else DosMemLargest st in
  ((if asize <? threshold then DE_NOMEM else rc), asize, st).

(** The return code, the segment and [*asize].
    kernel/task.c:362-395 *)
Definition ExecMemAlloc (size para asize : Z) st : Z * Z * Z * task H :=
  let '(rc, p, a, st) := DosMemAlloc size (mem_access_mode st) st in
  let para := default para p in
  let asize := default asize a in
  let '(rc, para, asize, st) :=
    if negb (rc =? SUCCESS) then
      if rc =? DE_NOMEM then
        let '(rc, p, a, st) := DosMemAlloc 0 (-1) st in
        let para := default para p in
        let asize := default asize a in
        if has (mem_access_mode st) 0x80 && negb (rc =? SUCCESS) then
          let st := set_access (clear 0x80 (mem_access_mode st)) st in
          let '(rc, p, a, st) := DosMemAlloc 0 (-1) st in
          (rc, default para p, default asize a, set_access (Z.lor (mem_access_mode st) 0x80) st)
        else (rc, para, asize, st)
      else (rc, para, asize, st)
    else (rc, para, size, st) in
  if (rc =? SUCCESS) && (asize <? size) then (DE_NOMEM, para, asize, DosMemFree para st)
  else (rc, para, asize, st).

(** What the two loaders do before they allocate: high memory is linked in.
    kernel/task.c:417-421 *)
Definition begin_high (mode : Z) st : task H :=
  if has mode 0x80 then DosUmbLink 1 (set_access (Z.lor (mem_access_mode st) 0x80) st) else st.
(** kernel/task.c:438-443 *)
Definition end_high (mode link access : Z) st : task H :=
  if has mode 0x80 then set_access access (DosUmbLink link st) else st.

(** ** COM files *)

(** The registers and the prefix of a COM program in a block of [asize] paragraphs.
    kernel/task.c:481-506 *)
Definition start_com (namep : farptr) (e : exec_blk) (mode mem env asize : Z) st : option (outcome H) :=
  let st := upd_mem (setvec 0x22 (Far (peek16 (ireg_at (user_r st) rCS) (t_mem st)) (peek16 (ireg_at (user_r st) rIP) (t_mem st)))) st in
  let st := child_psp mem (cu_psp st) (mem + asize) st in
  let* (fcbcode, st) := patchPSP (u16 (mem - 1)) env e namep st in
  let asize := if 0x1000 <? asize then 0x1000 else asize in
  if asize <? 0x11 then Some (Returned DE_NOMEM e st)
  else
    let asize := asize - 0x11 in
    let st := upd_mem (poke_far (psp_at mem ps_reentry) (Far (u16 (0xc - asize)) (u16 (Z.shiftl asize 4)))) st in
    let asize := u16 (u16 (Z.shiftl asize 4) + 0x10e) in
    let e := set_start (Far mem 0x100) (set_stack (Far mem asize) e) in
    let st := upd_mem (poke16 (linear (Far mem asize)) 0) st in
    match load_transfer mem e fcbcode mode st with
    | Returned _ e st => Some (Returned SUCCESS e st)
    | started => Some started
    end.

(** A block for a COM program: the return code, the mode from now on, the segment, the
    environment and the size.
    kernel/task.c:411-449 *)
Definition alloc_com (namep : farptr) (e : exec_blk) (mode com_size : Z) st : Z * Z * Z * Z * Z * task H :=
  let link := h_uppermem_link (t_host st) in
  let access := mem_access_mode st in
  let st := begin_high mode st in
  let '(rc, env, st) := ChildEnv e namep env0 st in
  let '(rc, asize, st) := if rc =? SUCCESS then ExecMemLargest com_size st else (rc, 0, st) in
  let '(rc, mem, asize, st) := if rc =? SUCCESS then ExecMemAlloc asize 0 asize st else (rc, 0, asize, st) in
  let st := if negb (rc =? SUCCESS) then DosMemFree env st else st in
  let st := end_high mode link access st in
  let mode := if has mode 0x80 then Z.land mode 0x7f else mode in
  (rc, mode, u16 (mem + 1), env, asize, st).

(** kernel/task.c:397-507 *)
Definition DosComLoader (namep : farptr) (e : exec_blk) (mode fd : Z) st : option (outcome H) :=
  let com_size := Z.shiftr (Z.min (SftGetFsize fd st) 0xfe00) 4 + 0x10 in
  let '(rc, mode, mem, env, asize, st) :=
    if negb (Z.land mode 0x7f =? OVERLAY) then alloc_com namep e mode com_size st
    else (SUCCESS, mode, load_seg e, env0, 0, st) in
  if negb (rc =? SUCCESS) then Some (Returned rc e st)
  else
    let sp := if mode =? OVERLAY then Far mem 0 else Far mem 256 in
    let '(_, st) := SftSeek fd 0 st in
    let '(_, st) := read_far fd 0xff00 sp st in
    let st := DosCloseSft fd st in
    if mode =? OVERLAY then Some (Returned SUCCESS e st)
    else start_com namep e mode mem env asize st.

(** ** EXE files *)

(** The image is read in chunks; the result is the segment behind the last whole
    chunk.  The fuel is enough for an image of 64K paragraphs.
    kernel/task.c:681-696 *)
Fixpoint read_image (fuel : nat) (fd sp exe_size : Z) st : option (task H) :=
  match fuel with
  | O => None
  | S fuel =>
      let toRead := if exe_size <? CHUNK / 16 then exe_size * 16 else CHUNK in
      let '(n, st) := read_far fd toRead (Far sp 0) st in
      if (s16 n <? toRead) || (exe_size <=? CHUNK / 16) then Some st
      else read_image fuel fd (u16 (sp + CHUNK / 16)) (exe_size - CHUNK / 16) st
  end.

(** The number that is added to a word of the image, at a place of the table.
    kernel/task.c:715-727 *)
Definition relocate (base delta off seg : Z) (m : memory) : memory :=
  let spot := linear (Far (u16 (seg + base)) off) in poke16 spot (u16 (peek16 spot m + delta)) m.

(** The entries of the table; [false] when the file ends before.
    kernel/task.c:704-728 *)
Fixpoint relocations (n : nat) (fd base delta : Z) st : bool * task H :=
  match n with
  | O => (true, st)
  | S n =>
      let '(rc, r, st) := read_file fd 4 st in
      if negb (rc =? 4) then (false, st)
      else
        let w i := byte_at r i + 256 * byte_at r (i + 1) in
        relocations n fd base delta (upd_mem (relocate base delta (w 0) (w 2)) st)
  end.

(** A block for an EXE program, as [alloc_com], and the size of the image with the
    prefix.
    kernel/task.c:582-641 *)
Definition alloc_exe (x : exe_header) (namep : farptr) (e : exec_blk) (mode image_size : Z) st :
    Z * Z * Z * Z * Z * task H :=
  let link := h_uppermem_link (t_host st) in
  let access := mem_access_mode st in
  let exe_size := u16 (image_size + exMinAlloc x) in
  let st := if has mode 0x80 then set_access (Z.lor (mem_access_mode st) 0x80) (DosUmbLink 1 st) else st in
  let '(rc, env, st) := ChildEnv e namep env0 st in
  let '(rc, asize, st) := if rc =? SUCCESS then ExecMemLargest exe_size st else (rc, 0, st) in
  let exe_size := u16 (image_size + exMaxAlloc x) in
  let exe_size := if (asize <? exe_size) || (exe_size <? image_size) then asize else exe_size in
  let exe_size := if Z.lor (exMinAlloc x) (exMaxAlloc x) =? 0 then asize else exe_size in
  let '(rc, mem, asize, st) := if rc =? SUCCESS then ExecMemAlloc exe_size 0 asize st else (rc, 0, asize, st) in
  let st := if negb (rc =? SUCCESS) then DosMemFree env st else st in
  let st := if has mode 0x80 then DosUmbLink link (set_access access st) else st in
  (rc, Z.land mode 0x7f, u16 (mem + 1), env, asize, st).

(** The frees on an error.
    kernel/task.c:656-660 *)
Definition drop_program (mode mem env : Z) st : task H :=
  if negb (mode =? OVERLAY) then DosMemFree env (DosMemFree (u16 (mem - 1)) st) else st.

(** The segment the image is read to.
    kernel/task.c:664-678 *)
Definition image_place (x : exe_header) (mode mem image_size : Z) st : Z * Z :=
  if negb (mode =? OVERLAY) then
    let exe_size := u16 (image_size - 16) in
    let start_seg := u16 (mem + 16) in
    (exe_size, if (0 <? exe_size) && (Z.lor (exMinAlloc x) (exMaxAlloc x) =? 0)
               then u16 (start_seg + (peek16 (16 * u16 (mem - 1) + 3) (t_mem st) - image_size)) else start_seg)
  else (image_size, mem).

(** What follows when there is a block: the image is read and relocated and, but for an
    overlay, the program started.
    kernel/task.c:652-753 *)
Definition load_exe (x : exe_header) (namep : farptr) (e : exec_blk) (mode fd image_size mem env asize : Z) st :
    option (outcome H) :=
  let '(rc, st) := SftSeek fd (exHeaderSize x * 16) st in
  if negb (rc =? SUCCESS) then Some (Returned DE_INVLDDATA e (drop_program mode mem env st))
  else
    let '(exe_size, start_seg) := image_place x mode mem image_size st in
    let* loaded := read_image 33 fd start_seg exe_size st in
    let '(_, st) := SftSeek fd (exRelocTable x) loaded in
    let '(base, delta) := if mode =? OVERLAY then (mem, load_reloc e) else (start_seg, start_seg) in
    let '(ok, st) := relocations (Z.to_nat (exRelocItems x)) fd base delta st in
    if negb ok then Some (Returned DE_INVLDDATA e (drop_program mode mem env st))
    else
      let st := DosCloseSft fd st in
      if mode =? OVERLAY then Some (Returned SUCCESS e st)
      else
        let st := upd_mem (setvec 0x22 (Far (peek16 (ireg_at (user_r st) rCS) (t_mem st))
                                            (peek16 (ireg_at (user_r st) rIP) (t_mem st)))) st in
        let st := child_psp mem (cu_psp st) (mem + asize) st in
        let* (fcbcode, st) := patchPSP (u16 (mem - 1)) env e namep st in
        let e := set_stack (Far (u16 (exInitSS x + start_seg)) (exInitSP x)) e in
        let e := set_start (Far (u16 (exInitCS x + start_seg)) (exInitIP x)) e in
        match load_transfer mem e fcbcode mode st with
        | Returned _ e st => Some (Returned SUCCESS e st)
        | started => Some started
        end.

(** The size of the image in paragraphs, as the header tells.
    kernel/task.c:561-572 *)
Definition image_paragraphs (x : exe_header) : Z := u16 (u16 (Z.shiftl (exPages x) 5) - exHeaderSize x).

(** kernel/task.c:554-754 *)
Definition DosExeLoader (x : exe_header) (namep : farptr) (e : exec_blk) (mode fd : Z) st : option (outcome H) :=
  if negb (Z.land mode 0x7f =? OVERLAY) then
    let image_size := u16 (image_paragraphs x + 16) in
    let '(rc, mode, mem, env, asize, st) := alloc_exe x namep e mode image_size st in
    if negb (rc =? SUCCESS) then Some (Returned rc e st)
    else load_exe x namep e mode fd image_size mem env asize st
  else load_exe x namep e mode fd (image_paragraphs x) (load_seg e) env0 0 st.

(** ** Executing and returning *)

(** [ep] and [lp] are the pointers of the program.
    kernel/task.c:762-797 *)
Definition DosExec (mode : Z) (ep lp : farptr) st : option (outcome H) :=
  let e := load_exec (linear ep) (t_mem st) in
  if (3 <? Z.land mode 0x7f) || (Z.land mode 0x7f =? 2) then Some (Returned DE_INVLDFMT e st)
  else if h_isdevice lp (t_mem st) (t_host st) then Some (Returned DE_FILENOTFND e st)
  else
    let '(fd, h) := h_open lp (t_mem st) (t_host st) in
    let st := set_host h st in
    if fd <? 0 then Some (Returned DE_FILENOTFND e st)
    else
      let '(rc, data, st) := read_file fd 28 st in
      let rc := s16 rc in
      let x := exe_header_of data in
      let* out :=
        if (rc =? 28) && ((exSignature x =? MAGIC) || (exSignature x =? OLD_MAGIC)) then DosExeLoader x lp e mode fd st
        else if negb (rc =? 0) then DosComLoader lp e mode fd st
        else Some (Returned rc e st) in
      match out with
      | Returned rc e st =>
          let st := DosCloseSft fd st in
          Some (Returned rc e (if (mode =? LOAD) && (rc =? SUCCESS) then upd_mem (store_exec (linear ep) e) st else st))
      | started => Some started
      end.

(** The handles from [i] on.
    kernel/task.c:530-533 *)
Fixpoint close_handles (n : nat) (i : Z) st : task H :=
  match n with
  | O => st
  | S n =>
      let '(m, h) := h_close_handle i (cu_psp st) (t_mem st) (t_host st) in
      close_handles n (i + 1) (set_host h (set_t_mem m st))
  end.

(** The end of a program: the parent goes on behind its call.
    kernel/task.c:509-552 *)
Definition return_user st : outcome H :=
  let p := cu_psp st in
  let vec n f := upd_mem (fun m => setvec n (peek_far (psp_at p f) m) m) in
  let st := vec 0x24 ps_isv24 (vec 0x23 ps_isv23 (vec 0x22 ps_isv22 st)) in
  let net n st := set_host (h_redirector n (t_host st)) st in
  let st := net REM_PROCESS_END st in
  let st :=
    if negb (tsr st) && negb (peek16 (psp_at p ps_parent) (t_mem st) =? cu_psp st) then
      let st := net REM_CLOSEALL st in
      let st := close_handles (Z.to_nat (peek16 (psp_at p ps_maxfiles) (t_mem st))) 0 st in
      let st := set_host (h_fcb_close_all (t_mem st) (t_host st)) st in
      let '(m, h) := h_free_process (cu_psp st) (t_mem st) (t_host st) in
      set_host h (set_t_mem m st)
    else st in
  let st := set_cu_psp (peek16 (psp_at p ps_parent) (t_mem st)) st in
  let irp := peek_far (psp_at (cu_psp st) ps_stack) (t_mem st) in
  let isv := peek_far (psp_at p ps_isv22) (t_mem st) in
  let st := upd_mem (poke16 (ireg_at irp rCS) (fp_seg isv)) st in
  let st := upd_mem (poke16 (ireg_at irp rIP) (fp_off isv)) st in
  let st := upd_mem (poke16 (ireg_at irp rFLAGS) 0x200) st in
  let st := leave_dos st in
  Started (peek_far (psp_at (cu_psp st) ps_stack) (t_mem st)) false st.

(** ** The shell *)

(** The position of the first tab, or else of the first blank.
    kernel/task.c:819-822 *)
Definition tail_start (shell : list Z) : option nat :=
  let find c := fst <$> list_find (fun x => x = c) shell in
  match find 9 with
  | Some i => Some i
  | None =>
      match find 32 with
      | Some i => Some i
      | None => if (length shell <? 2)%nat then None else Some (length shell - 2)%nat
      end
  end.

(** The line of the shell, split into its name, with its NUL, and its tail, with the
    count in front: one round of the loop of [P_0]; [None] is an access before the buffer.
    kernel/task.c:816-830 *)
Definition P_0_command (shell : list Z) : option (list Z * list Z) :=
  let* i := tail_start shell in
  Some (take i shell ++ [0], u8 (Z.of_nat (length shell - i) - 2) :: drop i shell ++ [0]).

End programs.
