(* ===== verification/TaskSpec.v ===== *)
(** * Programs: memory, images and relocations

    Two memories that agree at every address are as good as equal ([same_mem]); what a
    part of the start of a program leaves alone is stated with [touches]. *)

From S2P Require Import Prelude Hdr Bytes Diskdrv Task.

(** ** Memories *)

Definition same_mem (m m' : memory) : Prop := forall x, m' x = m x.
#[export] Instance same_mem_equiv : Equivalence same_mem.
Proof. split; [by intros m x|by intros m m' Hm x|]. intros a b c H1 H2 x. by rewrite H2, H1. Qed.

#[export] Instance poke_proper : Proper (eq ==> eq ==> same_mem ==> same_mem) poke.
Proof. intros a ? <- v ? <- m m' Hm x. unfold poke. by destruct (x =? a). Qed.
#[export] Instance poke16_proper : Proper (eq ==> eq ==> same_mem ==> same_mem) poke16.
Proof. intros a ? <- v ? <- m m' Hm. unfold poke16. by rewrite Hm. Qed.
#[export] Instance peek16_proper : Proper (eq ==> same_mem ==> eq) peek16.
Proof. intros a ? <- m m' Hm. unfold peek16. by rewrite !Hm. Qed.
#[export] Instance store_proper : Proper (eq ==> eq ==> same_mem ==> same_mem) store.
Proof. intros a ? <- l ? <- m m' Hm x. unfold store. by destruct (_ && _). Qed.
#[export] Instance relocate_proper : Proper (eq ==> eq ==> eq ==> eq ==> same_mem ==> same_mem) relocate.
Proof. intros b ? <- d ? <- o ? <- s ? <- m m' Hm. unfold relocate. by rewrite Hm. Qed.

(** Only addresses of [R] change. *)
Definition touches (R : Z -> Prop) (m m' : memory) : Prop := forall x, ~ R x -> m' x = m x.

Lemma touches_refl R m : touches R m m.
Proof. done. Qed.
Lemma touches_trans R m1 m2 m3 : touches R m1 m2 -> touches R m2 m3 -> touches R m1 m3.
Proof. intros H1 H2 x Hx. by rewrite H2, H1. Qed.
Lemma touches_weaken (R R' : Z -> Prop) m m' : (forall x, R x -> R' x) -> touches R m m' -> touches R' m m'.
Proof. intros HR Hm x Hx. apply Hm. intros Hr. by apply Hx, HR. Qed.

Definition between (a n x : Z) : Prop := a <= x < a + n.

Lemma touches_poke R a v m : R a -> touches R m (poke a v m).
Proof. intros Hr x Hx. unfold poke. destruct (Z.eqb_spec x a) as [->|]; done. Qed.
Lemma touches_poke16 (R : Z -> Prop) a v m : R a -> R (a + 1) -> touches R m (poke16 a v m).
Proof. intros H0 H1. eapply touches_trans; apply touches_poke; done. Qed.
Lemma touches_poke_far (R : Z -> Prop) a p m : (forall x, between a 4 x -> R x) -> touches R m (poke_far a p m).
Proof. intros Hr. eapply touches_trans; apply touches_poke16; apply Hr; unfold between; lia. Qed.
Lemma touches_copy (R : Z -> Prop) a s n m : (forall x, between a n x -> R x) -> touches R m (copy a s n m).
Proof.
  intros Hr x Hx. unfold copy. destruct (Z.leb_spec a x), (Z.ltb_spec x (a + n)); try done.
  exfalso. apply Hx, Hr. unfold between. lia.
Qed.
Lemma touches_fill (R : Z -> Prop) a n v m : (forall x, between a n x -> R x) -> touches R m (fill a n v m).
Proof.
  intros Hr x Hx. unfold fill. destruct (Z.leb_spec a x), (Z.ltb_spec x (a + n)); try done.
  exfalso. apply Hx, Hr. unfold between. lia.
Qed.
Lemma touches_store (R : Z -> Prop) a l m : (forall x, between a (Z.of_nat (length l)) x -> R x) -> touches R m (store a l m).
Proof.
  intros Hr x Hx. unfold store. destruct (Z.leb_spec a x), (Z.ltb_spec x (a + Z.of_nat (length l))); try done.
  exfalso. apply Hx, Hr. unfold between. lia.
Qed.

Lemma peek16_poke16 a v m : 0 <= v < 65536 -> peek16 a (poke16 a v m) = v.
Proof.
  intros Hv. unfold peek16, poke16, poke. rewrite Z.eqb_refl, (proj2 (Z.eqb_neq a (a + 1))) by lia. rewrite Z.eqb_refl.
  assert (Z.land v 0xff = v mod 256) as -> by exact (Z.land_ones v 8 ltac:(lia)).
  rewrite Z.shiftr_div_pow2 by lia. change (2 ^ 8) with 256. Z.div_mod_to_equations. lia.
Qed.

Lemma peek16_touches R m m' a : touches R m m' -> ~ R a -> ~ R (a + 1) -> peek16 a m' = peek16 a m.
Proof. intros Ht H0 H1. unfold peek16. by rewrite !Ht. Qed.
Lemma peek16_other a b v m : a + 1 < b \/ b + 1 < a -> peek16 a (poke16 b v m) = peek16 a m.
Proof. intros Hd. apply (peek16_touches (between b 2)); [apply touches_poke16|..]; unfold between; lia. Qed.

Lemma byte_at_app l1 l2 i :
  0 <= i -> byte_at (l1 ++ l2) i = if i <? Z.of_nat (length l1) then byte_at l1 i else byte_at l2 (i - Z.of_nat (length l1)).
Proof.
  intros Hi. unfold byte_at, at_. rewrite (proj2 (Z.ltb_ge i 0)) by lia. destruct (Z.ltb_spec i (Z.of_nat (length l1))).
  - by rewrite lookup_app_l by lia.
  - rewrite (proj2 (Z.ltb_ge _ 0)) by lia. rewrite lookup_app_r by lia. do 2 f_equal. lia.
Qed.

(** A chunk behind another one. *)
Lemma store_app a l1 l2 m : same_mem (store a (l1 ++ l2) m) (store (a + Z.of_nat (length l1)) l2 (store a l1 m)).
Proof.
  intros x. unfold store. rewrite length_app.
  destruct (Z.leb_spec (a + Z.of_nat (length l1)) x), (Z.ltb_spec x (a + Z.of_nat (length l1) + Z.of_nat (length l2))),
    (Z.leb_spec a x), (Z.ltb_spec x (a + Z.of_nat (length l1))), (Z.ltb_spec x (a + Z.of_nat (length l1 + length l2)));
    cbn [andb]; try lia; try done; rewrite byte_at_app by lia.
  - rewrite (proj2 (Z.ltb_ge _ _)) by lia. f_equal. lia.
  - by rewrite (proj2 (Z.ltb_lt _ _)) by lia.
Qed.

Lemma store_nil a m : same_mem m (store a [] m).
Proof. intros x. unfold store. destruct (Z.leb_spec a x), (Z.ltb_spec x (a + Z.of_nat (length (@nil Z)))); cbn in *; try done; lia. Qed.

Lemma load_store a l m : load a (Z.of_nat (length l)) (store a l m) = l.
Proof.
  unfold load. apply list_eq. intros i. rewrite list_lookup_fmap. destruct (decide (i < length l)%nat) as [Hi|Hi].
  - rewrite lookup_seqZ_lt by lia. cbn. unfold store.
    rewrite (proj2 (Z.leb_le a (a + Z.of_nat i))), (proj2 (Z.ltb_lt (a + Z.of_nat i) (a + Z.of_nat (length l)))) by lia. cbn [andb].
    replace (a + Z.of_nat i - a) with (Z.of_nat i) by lia. unfold byte_at. rewrite at_nat.
    destruct (lookup_lt_is_Some_2 l i Hi) as [x ->]. done.
  - rewrite lookup_seqZ_ge by lia. rewrite lookup_ge_None_2 by lia. done.
Qed.

(** ** Files *)

(** What the loader expects of files: a read delivers the next bytes, fewer only at the
    end, and a seek sets the position. *)
Class TaskHostLaws (H : Type) `{!TaskHost H} := {
  contents : Z -> H -> option (list Z * Z);
  h_read_law fd n h file pos :
    contents fd h = Some (file, pos) -> 0 <= pos -> 0 <= n < 65536 ->
    exists h', h_read fd n h = (Z.of_nat (length (take (Z.to_nat n) (drop (Z.to_nat pos) file))),
                                take (Z.to_nat n) (drop (Z.to_nat pos) file), h') /\
      contents fd h' = Some (file, pos + Z.of_nat (length (take (Z.to_nat n) (drop (Z.to_nat pos) file))));
  h_seek_law fd p h file pos :
    contents fd h = Some (file, pos) -> 0 <= p < 2147483648 ->
    exists h', h_seek fd p h = (SUCCESS, h') /\ contents fd h' = Some (file, p) }.

Section loading.
  Context {H : Type} `{HL : TaskHostLaws H} (env0 : Z).
  Implicit Types st : task H.

Definition same_globals st st' : Prop :=
  mem_access_mode st' = mem_access_mode st /\ cu_psp st' = cu_psp st /\ t_dta st' = t_dta st /\ InDOS st' = InDOS st /\
  tsr st' = tsr st /\ user_r st' = user_r st.
#[export] Instance same_globals_preorder : PreOrder same_globals.
Proof. split; [done|]. intros a b c. unfold same_globals. intuition congruence. Qed.

(** The bytes of a file from a position on. *)
Definition bytes_of (file : list Z) (pos n : Z) : list Z := take (Z.to_nat n) (drop (Z.to_nat pos) file).

Lemma read_file_spec fd n st file pos :
  contents fd (t_host st) = Some (file, pos) -> 0 <= pos -> 0 <= n < 65536 ->
  exists h', read_file fd n st = (Z.of_nat (length (bytes_of file pos n)), bytes_of file pos n, set_host h' st) /\
    contents fd h' = Some (file, pos + Z.of_nat (length (bytes_of file pos n))).
Proof.
  intros Hc Hp Hn. destruct (h_read_law fd n (t_host st) file pos Hc Hp Hn) as (h' & E & Hc').
  exists h'. unfold read_file. by rewrite E.
Qed.

Lemma bytes_of_split file pos a b :
  0 <= pos -> 0 <= a -> 0 <= b -> Z.of_nat (length (bytes_of file pos a)) = a ->
  bytes_of file pos (a + b) = bytes_of file pos a ++ bytes_of file (pos + a) b.
Proof.
  intros Hp Ha Hb _. unfold bytes_of. rewrite Z2Nat.inj_add by lia. rewrite (Z2Nat.inj_add pos a) by lia.
  rewrite <- drop_drop. symmetry. apply take_take_drop.
Qed.

Lemma length_bytes_of file pos n : 0 <= n -> Z.of_nat (length (bytes_of file pos n)) <= n.
Proof. intros Hn. unfold bytes_of. rewrite length_take. lia. Qed.

Lemma bytes_of_short file pos a b :
  0 <= pos -> 0 <= a <= b -> Z.of_nat (length (bytes_of file pos a)) < a -> bytes_of file pos b = bytes_of file pos a.
Proof. intros Hp Hab. unfold bytes_of. rewrite length_take. intros Hs. rewrite !take_ge by (rewrite ?length_drop in *; lia). done. Qed.

(** The chunks put together are the image. *)
Lemma read_image_spec fuel fd sp size st file pos :
  contents fd (t_host st) = Some (file, pos) -> 0 <= pos -> 0 <= size -> 0 <= sp -> sp + size <= 65536 ->
  size <= 2016 * Z.of_nat fuel -> (0 < fuel)%nat ->
  exists st', read_image fuel fd sp size st = Some st' /\
    same_mem (store (16 * sp) (bytes_of file pos (16 * size)) (t_mem st)) (t_mem st') /\ same_globals st st' /\
    exists pos', contents fd (t_host st') = Some (file, pos').
Proof.
  revert sp size st pos. induction fuel as [|fuel IH]; intros sp size st pos Hc Hp Hs H0 H1 Hf Hpos; [lia|].
  cbn [read_image]. change (CHUNK / 16) with 2016. unfold CHUNK.
  set (n := if size <? 2016 then size * 16 else 32256).
  assert (Hn : 0 <= n <= 32256 /\ n <= 16 * size /\ (size <= 2016 -> n = 16 * size) /\ (2016 <= size -> n = 32256)).
  { subst n. destruct (Z.ltb_spec size 2016); lia. }
  destruct (read_file_spec fd n st file pos Hc Hp ltac:(lia)) as (h' & E & Hc').
  unfold read_far. rewrite E. set (d := bytes_of file pos n) in *. cbn [linear fp_seg fp_off].
  pose proof (length_bytes_of file pos n ltac:(lia)) as Hl. fold d in Hl.
  assert (s16 (Z.of_nat (length d)) = Z.of_nat (length d)) as -> by word_lia. unfold linear. cbn [fp_seg fp_off]. rewrite Z.add_0_r.
  destruct (Z.ltb_spec (Z.of_nat (length d)) n) as [Hd|Hd]; cbn [orb]; [|destruct (Z.leb_spec size 2016) as [Hz|Hz]].
  - eexists. split; [done|]. split; [|split; [done|by eexists]]. cbn [t_mem upd_mem set_t_mem set_host].
    rewrite (bytes_of_short file pos n (16 * size)) by (fold d; lia). done.
  - eexists. split; [done|]. split; [|split; [done|by eexists]]. cbn [t_mem upd_mem set_t_mem set_host].
    subst d. replace n with (16 * size) by lia. done.
  - rewrite u16_id by lia. destruct Hn as (_ & _ & _ & Hn). specialize (Hn ltac:(lia)).
    set (st1 := upd_mem _ _). destruct (IH (sp + 2016) (size - 2016) st1 (pos + Z.of_nat (length d))) as (st' & -> & Hm & Hg & Hx);
      [done|lia|lia|lia|lia|lia|lia|].
    exists st'. split; [done|]. split; [|done]. rewrite <- Hm. replace (16 * size) with (n + 16 * (size - 2016)) by lia.
    rewrite bytes_of_split by (fold d; lia). fold d. rewrite store_app. cbn [t_mem st1 upd_mem set_t_mem set_host].
    replace (Z.of_nat (length d)) with n by lia. replace (16 * (sp + 2016)) with (16 * sp + n) by lia. done.
Qed.

(** ** Relocations *)

(** The entries of the table: offset and segment. *)
Fixpoint reloc_table (n : nat) (l : list Z) : list (Z * Z) :=
  match n with
  | O => []
  | S n => (byte_at l 0 + 256 * byte_at l 1, byte_at l 2 + 256 * byte_at l 3) :: reloc_table n (drop 4 l)
  end.

Definition relocate_all (base delta : Z) (t : list (Z * Z)) (m : memory) : memory :=
  foldl (fun m r => relocate base delta (fst r) (snd r) m) m t.

#[export] Instance relocate_all_proper : Proper (eq ==> eq ==> eq ==> same_mem ==> same_mem) relocate_all.
Proof.
  intros b ? <- d ? <- t ? <- m m' Hm. unfold relocate_all. revert m m' Hm.
  induction t as [|[o s] t IH]; intros m m' Hm; [done|]. cbn. apply IH. by rewrite Hm.
Qed.

Lemma byte_at_take l n i : 0 <= i < Z.of_nat n -> byte_at (take n l) i = byte_at l i.
Proof. intros Hi. unfold byte_at, at_. rewrite (proj2 (Z.ltb_ge i 0)) by lia. rewrite lookup_take_lt by lia. done. Qed.

Lemma relocations_spec n fd base delta st file pos :
  contents fd (t_host st) = Some (file, pos) -> 0 <= pos -> pos + 4 * Z.of_nat n <= Z.of_nat (length file) ->
  exists st', relocations n fd base delta st = (true, st') /\
    t_mem st' = relocate_all base delta (reloc_table n (drop (Z.to_nat pos) file)) (t_mem st) /\ same_globals st st'.
Proof.
  revert st pos. induction n as [|n IH]; intros st pos Hc Hp Hn; [by exists st|]. cbn [relocations reloc_table].
  destruct (read_file_spec fd 4 st file pos Hc Hp ltac:(lia)) as (h' & -> & Hc').
  assert (Hl : length (bytes_of file pos 4) = 4%nat) by (unfold bytes_of; rewrite length_take, length_drop; lia).
  rewrite Hl in *. cbn [Z.of_nat Z.eqb negb Pos.of_succ_nat Pos.succ Pos.eqb].
  destruct (IH (upd_mem (relocate base delta (byte_at (bytes_of file pos 4) 0 + 256 * byte_at (bytes_of file pos 4) (0 + 1))
      (byte_at (bytes_of file pos 4) 2 + 256 * byte_at (bytes_of file pos 4) (2 + 1))) (set_host h' st)) (pos + 4))
    as (st' & -> & Hm & Hg); [exact Hc'|lia|lia|].
  exists st'. split; [done|]. split; [|done]. rewrite Hm. unfold bytes_of. rewrite !byte_at_take by lia.
  rewrite drop_drop. replace (Z.to_nat (pos + 4)) with (Z.to_nat pos + 4)%nat by lia. done.
Qed.

(** The image of an EXE file in memory: read as one piece and relocated. *)
Definition exe_image (x : exe_header) (file : list Z) (start n base delta : Z) (m : memory) : memory :=
  relocate_all base delta (reloc_table (Z.to_nat (exRelocItems x)) (drop (Z.to_nat (exRelocTable x)) file))
    (store (16 * start) (bytes_of file (exHeaderSize x * 16) (16 * n)) m).

Definition header_ok (x : exe_header) (file : list Z) : Prop :=
  0 <= exHeaderSize x < 65536 /\ 0 <= exRelocTable x < 65536 /\ 0 <= exRelocItems x < 65536 /\
  exRelocTable x + 4 * exRelocItems x <= Z.of_nat (length file).

Lemma image_loaded x file fd start n base delta st pos :
  contents fd (t_host st) = Some (file, pos) -> header_ok x file -> 0 <= n -> 0 <= start -> start + n <= 65536 ->
  exists s1 s2 s3 s4, SftSeek fd (exHeaderSize x * 16) st = (SUCCESS, s1) /\ t_mem s1 = t_mem st /\
    read_image 33 fd start n s1 = Some s2 /\ SftSeek fd (exRelocTable x) s2 = (SUCCESS, s3) /\
    relocations (Z.to_nat (exRelocItems x)) fd base delta s3 = (true, s4) /\
    same_mem (exe_image x file start n base delta (t_mem st)) (t_mem s4) /\ same_globals st s4.
Proof.
  intros Hc (K1 & K2 & K3 & K4) Hn Hs Hsn.
  destruct (h_seek_law fd (exHeaderSize x * 16) (t_host st) file pos Hc ltac:(lia)) as (h1 & E1 & C1).
  destruct (read_image_spec 33 fd start n (set_host h1 st) file (exHeaderSize x * 16)) as (s2 & E2 & M2 & G2 & pos2 & C2);
    [done|lia|lia|lia|lia|lia|lia|].
  destruct (h_seek_law fd (exRelocTable x) (t_host s2) file pos2 C2 ltac:(lia)) as (h3 & E3 & C3).
  destruct (relocations_spec (Z.to_nat (exRelocItems x)) fd base delta (set_host h3 s2) file (exRelocTable x))
    as (s4 & E4 & M4 & G4); [done|lia|lia|].
  exists (set_host h1 st), s2, (set_host h3 s2), s4. unfold SftSeek. rewrite E1, E3. split_and!; try done.
  - unfold exe_image. rewrite M4. cbn [t_mem set_host]. by rewrite <- M2.
  - transitivity s2; [done|]. by transitivity (set_host h3 s2).
Qed.

(** ** What the start of a program writes *)

Lemma touches_upd (R : Z -> Prop) f st (s0 : task H) : touches R (t_mem s0) (t_mem st) -> touches R (t_mem st) (f (t_mem st)) ->
  touches R (t_mem s0) (t_mem (upd_mem f st)).
Proof. intros H1 H2. by eapply touches_trans. Qed.

Lemma new_psp_touches para cur m : touches (between (16 * para) 256) m (new_psp para cur m).
Proof.
  unfold new_psp, psp_at. cbv [psp_offset]. eapply touches_trans; [eapply touches_trans; [eapply touches_trans; [eapply touches_trans|]|]|].
  1: by apply touches_copy.
  4: apply touches_poke16; unfold between; lia.
  all: apply touches_poke_far; unfold between; lia.
Qed.

Lemma clone_handles_spec n i para cur st :
  0 <= i -> i + Z.of_nat n <= 20 ->
  touches (between (16 * para) 256) (t_mem st) (t_mem (clone_handles n i para cur st)) /\
  same_globals st (clone_handles n i para cur st).
Proof.
  revert i st. induction n as [|n IH]; intros i st Hi Hn; [done|]. cbn [clone_handles].
  destruct (h_clone i (cu_psp st) (t_mem st) (t_host st)) as [rc h]. set (st1 := if 0 <=? rc then _ else _).
  assert (touches (between (16 * para) 256) (t_mem st) (t_mem st1) /\ same_globals st st1) as [H1 H2].
  { subst st1. destruct (0 <=? rc); [|done]. split; [|done]. apply touches_poke. unfold between, psp_at. cbn [psp_offset]. lia. }
  destruct (IH (i + 1) st1 ltac:(lia) ltac:(lia)) as [H3 H4]. split; [by eapply touches_trans|by etransitivity].
Qed.

Lemma child_psp_spec para cur size st :
  touches (between (16 * para) 256) (t_mem st) (t_mem (child_psp para cur size st)) /\ same_globals st (child_psp para cur size st).
Proof.
  unfold child_psp. set (s1 := upd_mem (poke_far (psp_at para ps_filetab) _) _).
  assert (touches (between (16 * para) 256) (t_mem st) (t_mem s1) /\ same_globals st s1) as [H1 H2].
  { split; [|done]. subst s1. repeat apply touches_upd; [done|apply new_psp_touches|..];
      first [apply touches_poke16|apply touches_poke_far|apply touches_fill]; unfold between, psp_at; cbn [psp_offset]; lia. }
  destruct (clone_handles_spec 20 0 para cur s1 ltac:(lia) ltac:(lia)) as [H3 H4]. set (s2 := clone_handles _ _ _ _ _) in *.
  split; [|by transitivity s1; [|transitivity s2]].
  repeat apply touches_upd; [by eapply touches_trans|..];
    first [apply touches_poke|apply touches_fill]; unfold between, psp_at; cbn [psp_offset]; lia.
Qed.

Lemma far_string_touches R n a m m' name :
  touches R m m' -> far_string n a m = Some name -> (forall x, between a (Z.of_nat (length name) + 1) x -> ~ R x) ->
  far_string n a m' = Some name.
Proof.
  intros Ht. revert a name. induction n as [|n IH]; intros a name; [done|]. cbn [far_string]. intros Hf Hr.
  rewrite (Ht a) by (apply Hr; unfold between; lia). destruct (m a =? 0); [done|].
  destruct (far_string n (a + 1) m) as [rest|] eqn:E; [|done]. cbn in Hf. injection Hf as <-.
  rewrite (IH (a + 1) rest); [done|done|]. intros x Hx. apply Hr. unfold between in *. cbn [length]. lia.
Qed.

Lemma mcb_name_length n np : (length (mcb_name n np) <= n)%nat.
Proof.
  revert np. induction n as [|n IH]; intros [|c np]; cbn; [lia|lia|lia|]. destruct (c =? ch "."); cbn; [lia|]. specialize (IH np). lia.
Qed.

(** What [patchPSP] may write: the prefix, its memory control block and the owner of
    the environment. *)
Definition patched (mcb env : Z) (x : Z) : Prop :=
  between (16 * mcb) 272 x \/ (env <> 0 /\ between (16 * env + 1) 2 x).

Lemma patchPSP_spec mcb env e fnam name st :
  0 <= mcb -> mcb + 1 < 65536 -> 0 <= env < 65535 -> (env <> 0 -> env + 1 <= mcb \/ mcb + 17 <= env) ->
  far_string (Z.to_nat 65536) (linear fnam) (t_mem st) = Some name ->
  (forall x, between (linear fnam) (Z.of_nat (length name) + 1) x -> ~ patched mcb env x) ->
  exists code st', patchPSP mcb env e fnam st = Some (code, st') /\ 0 <= code < 65536 /\
    touches (patched mcb env) (t_mem st) (t_mem st') /\ same_globals st st' /\
    peek16 (psp_at (mcb + 1) ps_environ) (t_mem st') = (if env =? 0 then 0 else env + 1) /\
    load (16 * mcb + 8) (Z.of_nat (length (mcb_name 8 (base_name name name)))) (t_mem st') = mcb_name 8 (base_name name name).
Proof.
  intros H0 H1 He Hd Hf Hn. unfold patchPSP. rewrite (u16_id (mcb + 1)) by lia.
  set (s1 := upd_mem (poke16 (16 * mcb + 1) _) _).
  assert (T1 : touches (patched mcb env) (t_mem st) (t_mem s1) /\ same_globals st s1).
  { split; [|subst s1; by destruct (negb (fp_off (fcb_1 e) =? 0xffff))].
    apply touches_upd; [|apply touches_poke16; left; unfold between; lia].
    set (s0 := upd_mem (copy _ _ _) st). assert (T0 : touches (patched mcb env) (t_mem st) (t_mem s0)).
    { apply touches_copy. intros x Hx. left. unfold between, psp_at in *. cbn [psp_offset] in *. lia. }
    destruct (negb _); [|done]. apply touches_upd; [done|]. eapply touches_trans; apply touches_copy;
      intros x Hx; left; unfold between, psp_at in *; cbn [psp_offset] in *; lia. }
  destruct T1 as [T1 G1].
  set (s2 := if negb (env =? 0) then (u16 (env + 1), _) else (env, s1)).
  assert (T2 : exists s3, s2 = (if env =? 0 then 0 else env + 1, s3) /\ touches (patched mcb env) (t_mem st) (t_mem s3) /\ same_globals st s3).
  { subst s2. destruct (Z.eqb_spec env 0) as [->|Hne]; cbn [negb]; [by exists s1|]. rewrite u16_id by lia. eexists. split; [done|].
    split; [|done]. apply touches_upd; [done|]. apply touches_poke16; right; unfold between; lia. }
  destruct T2 as (s3 & -> & T3 & G3). set (ev := if env =? 0 then 0 else env + 1).
  set (s4 := upd_mem (poke16 (psp_at (mcb + 1) ps_environ) ev) s3).
  assert (T4 : touches (patched mcb env) (t_mem st) (t_mem s4)).
  { apply touches_upd; [done|]. apply touches_poke16; left; unfold between, psp_at; cbn [psp_offset]; lia. }
  rewrite (far_string_touches _ _ _ _ _ _ T4 Hf Hn).
  set (nm := mcb_name 8 (base_name name name)). pose proof (mcb_name_length 8 (base_name name name)) as Hl. fold nm in Hl.
  set (s5 := upd_mem (store (16 * mcb + 8) nm) s4).
  assert (T5 : touches (between (16 * mcb + 8) 8) (t_mem s4) (t_mem s5)).
  { apply touches_store. intros x Hx. unfold between in *. lia. }
  eexists _, s5. split; [done|]. split; [by destruct (h_cds1 _ _), (h_cds1 _ _)|].
  split; [eapply touches_trans; [exact T4|]; eapply touches_weaken; [|exact T5]; intros x Hx; left; unfold between in *; lia|].
  split; [done|]. split.
  - erewrite peek16_touches by (first [exact T5|unfold between, psp_at; cbn [psp_offset]; lia]).
    cbn [t_mem s4 upd_mem set_t_mem]. rewrite peek16_poke16; [done|]. subst ev. destruct (Z.eqb_spec env 0); lia.
  - cbn [t_mem s5 upd_mem set_t_mem]. apply load_store.
Qed.

(** What [load_transfer] writes before it builds the frame. *)
Definition linked (ds parent : Z) (user : farptr) (x : Z) : Prop :=
  between (psp_at ds ps_parent) 2 x \/ between (psp_at ds ps_prevpsp) 4 x \/ between (psp_at parent ps_stack) 4 x \/
  between (ireg_at user rFLAGS) 2 x.

(** The registers a program starts with. *)
Definition start_registers (ds code : Z) (e : exec_blk) (r : ireg) : Z :=
  match r with
  | rAX | rBX => code
  | rCX => 0xff
  | rDX | rDS | rES => ds
  | rSI | rIP => fp_off (start_addr e)
  | rDI => fp_off (stack e)
  | rBP => 0x91e
  | rCS => fp_seg (start_addr e)
  | rFLAGS => 0x200
  end.

Definition far_ok (p : farptr) : Prop := 0 <= fp_seg p < 65536 /\ 0 <= fp_off p < 65536.

Lemma start_frame_spec irp ds code e m :
  far_ok (stack e) -> far_ok (start_addr e) -> 0 <= ds < 65536 -> 0 <= code < 65536 ->
  touches (between (linear irp) 24) m (start_frame irp ds code e m) /\
  forall r, peek16 (ireg_at irp r) (start_frame irp ds code e m) = start_registers ds code e r.
Proof.
  intros [Hs1 Hs2] [Ha1 Ha2] Hds Hcode. split.
  - unfold start_frame. repeat (eapply touches_trans; [|apply touches_poke16; unfold between, ireg_at; cbn [ireg_offset]; lia]). done.
  - intros r. unfold start_frame, ireg_at. destruct r; cbn [ireg_offset start_registers];
      repeat (rewrite peek16_other by lia); apply peek16_poke16; lia.
Qed.

Lemma link_psp_spec ds st :
  0 <= cu_psp st < 65536 ->
  touches (linked ds (cu_psp st) (user_r st)) (t_mem st) (t_mem (link_psp ds st)) /\
  cu_psp (link_psp ds st) = ds /\ t_dta (link_psp ds st) = Far ds 0x80 /\
  ((forall x, between (psp_at ds ps_parent) 2 x ->
      ~ between (psp_at (cu_psp st) ps_stack) 4 x /\ ~ between (ireg_at (user_r st) rFLAGS) 2 x) ->
   peek16 (psp_at ds ps_parent) (t_mem (link_psp ds st)) = cu_psp st).
Proof.
  intros Hcu. set (m1 := poke16 (psp_at ds ps_parent) (cu_psp st) (t_mem st)).
  set (m2 := poke_far (psp_at ds ps_prevpsp) (Far (cu_psp st) 0) m1).
  set (m3 := poke_far (psp_at (cu_psp st) ps_stack) (user_r st) m2).
  set (f := ireg_at (user_r st) rFLAGS). set (m4 := poke16 f (Z.land (peek16 f m3) (Z.lnot 1)) m3).
  change (t_mem (link_psp ds st)) with m4.
  assert (T1 : touches (between (psp_at ds ps_parent) 2) (t_mem st) m1) by (apply touches_poke16; unfold between; lia).
  assert (P1 : peek16 (psp_at ds ps_parent) m1 = cu_psp st) by (by apply peek16_poke16).
  assert (T4 : touches (fun x => between (psp_at ds ps_prevpsp) 4 x \/ between (psp_at (cu_psp st) ps_stack) 4 x \/
    between f 2 x) m1 m4).
  { apply (touches_trans _ _ m3); [apply (touches_trans _ _ m2)|]; [apply touches_poke_far|apply touches_poke_far|apply touches_poke16];
      intros; cbv beta; unfold between in *; lia. }
  clearbody m1 m4. split; [|split; [done|split; [done|]]].
  - eapply touches_trans; [eapply touches_weaken; [|exact T1]|eapply touches_weaken; [|exact T4]]; unfold linked; tauto.
  - intros Hd. rewrite <- P1. eapply peek16_touches; [exact T4|..]; cbv beta.
    + destruct (Hd (psp_at ds ps_parent) ltac:(unfold between; lia)). unfold between, psp_at in *. cbn [psp_offset] in *. intuition lia.
    + destruct (Hd (psp_at ds ps_parent + 1) ltac:(unfold between; lia)). unfold between, psp_at in *. cbn [psp_offset] in *. intuition lia.
Qed.

Lemma load_transfer_spec mem code e st :
  far_ok (stack e) -> far_ok (start_addr e) -> 0 <= mem < 65536 -> 0 <= code < 65536 -> 0 <= cu_psp st < 65536 ->
  let irp := far_add (stack e) (-24) in
  exists st', load_transfer mem e code LOADNGO st = Started irp true st' /\
    touches (fun y => linked mem (cu_psp st) (user_r st) y \/ between (linear irp) 24 y) (t_mem st) (t_mem st') /\
    cu_psp st' = mem /\ t_dta st' = Far mem 0x80 /\
    (forall r, peek16 (ireg_at irp r) (t_mem st') = start_registers mem code e r) /\
    ((forall y, between (psp_at mem ps_parent) 2 y -> ~ between (linear irp) 24 y /\
        ~ between (psp_at (cu_psp st) ps_stack) 4 y /\ ~ between (ireg_at (user_r st) rFLAGS) 2 y) ->
     peek16 (psp_at mem ps_parent) (t_mem st') = cu_psp st).
Proof.
  intros He1 He2 Hm Hc Hcu irp. unfold load_transfer. change (LOADNGO =? LOADNGO) with true. cbv iota.
  destruct (link_psp_spec mem st Hcu) as (T1 & P1 & D1 & N1). set (s1 := link_psp mem st) in *. clearbody s1.
  destruct (start_frame_spec irp mem code e (t_mem s1) He1 He2 Hm Hc) as [T2 R2]. fold irp.
  exists (leave_dos (upd_mem (start_frame irp mem code e) s1)). split; [done|].
  assert (E : t_mem (leave_dos (upd_mem (start_frame irp mem code e) s1)) = start_frame irp mem code e (t_mem s1)).
  { unfold leave_dos. by destruct (negb _). }
  rewrite E. set (m2 := start_frame irp mem code e (t_mem s1)) in *. clearbody m2.
  split; [|split; [|split; [|split; [done|]]]].
  - eapply touches_trans; eapply touches_weaken; [|exact T1| |exact T2]; tauto.
  - unfold leave_dos. by destruct (negb _).
  - unfold leave_dos. by destruct (negb _).
  - intros Hd. rewrite (peek16_touches _ _ _ _ T2) by (apply Hd; unfold between; lia). apply N1. intros y Hy. by apply Hd.
Qed.

(** What is written from the end of the image to the start. *)
Definition prefixed (mem env y : Z) : Prop :=
  between (16 * (mem - 1)) 272 y \/ between 0x88 4 y \/ (env <> 0 /\ between (16 * env + 1) 2 y).

Lemma prefix_built mem asize env e v namep name st :
  1 <= mem < 65536 -> 0 <= env < 65535 -> (env <> 0 -> env + 1 <= mem - 1 \/ mem + 16 <= env) ->
  far_string (Z.to_nat 65536) (linear namep) (t_mem st) = Some name ->
  (forall y, between (linear namep) (Z.of_nat (length name) + 1) y -> ~ prefixed mem env y) ->
  exists code st', patchPSP (u16 (mem - 1)) env e namep 
      (child_psp mem (cu_psp (upd_mem (setvec 0x22 v) st)) (mem + asize) (upd_mem (setvec 0x22 v) st)) = Some (code, st') /\
    0 <= code < 65536 /\ touches (prefixed mem env) (t_mem st) (t_mem st') /\ cu_psp st' = cu_psp st /\ user_r st' = user_r st /\
    peek16 (psp_at mem ps_environ) (t_mem st') = (if env =? 0 then 0 else env + 1).
Proof.
  intros Hm He Hd Hf Hn. set (s1 := upd_mem (setvec 0x22 v) st).
  assert (T1 : touches (between 0x88 4) (t_mem st) (t_mem s1)) by (by apply touches_poke_far).
  assert (C1 : cu_psp s1 = cu_psp st /\ user_r s1 = user_r st) by done. clearbody s1. destruct C1 as [C1 C2].
  destruct (child_psp_spec mem (cu_psp s1) (mem + asize) s1) as [T2 (_ & G1 & _ & _ & _ & G2)].
  set (s2 := child_psp mem _ _ s1) in *. clearbody s2. rewrite (u16_id (mem - 1)) by lia.
  assert (T12 : touches (prefixed mem env) (t_mem st) (t_mem s2)).
  { eapply touches_trans; eapply touches_weaken; [|exact T1| |exact T2]; unfold prefixed, between; intros; lia. }
  assert (Hp : forall y, patched (mem - 1) env y -> prefixed mem env y) by (unfold patched, prefixed, between; lia).
  destruct (patchPSP_spec (mem - 1) env e namep name s2) as (code & s3 & E & Hc & T3 & (_ & G3 & _ & _ & _ & G4) & P3 & _); [lia..| | |].
  - apply (far_string_touches _ _ _ _ _ _ T12 Hf Hn).
  - intros y Hy Hq. by apply (Hn y Hy), Hp.
  - exists code, s3. split; [done|]. split; [done|]. replace (mem - 1 + 1) with mem in P3 by lia.
    split; [eapply touches_trans; [exact T12|by eapply touches_weaken; [exact Hp|]]|]. split; [congruence|]. split; [congruence|done].
Qed.

(** ** The environment *)

Lemma env_scan_spec room a n m k :
  env_scan room a n m = Some k ->
  n <= k < n + Z.of_nat room /\ peek16 (a + k) m = 0 /\ forall i, n <= i < k -> peek16 (a + i) m <> 0.
Proof.
  revert n. induction room as [|room IH]; intros n; [done|]. cbn [env_scan].
  destruct (Z.eqb_spec (peek16 (a + n) m) 0) as [E|E].
  - intros [= <-]. split; [lia|]. split; [done|]. lia.
  - intros Hs. destruct (IH (n + 1) Hs) as (H1 & H2 & H3). split; [lia|]. split; [done|].
    intros i Hi. destruct (decide (i = n)) as [->|]; [done|]. apply H3. lia.
Qed.

(** The segment of the environment to be copied. *)
Definition env_source (e : exec_blk) st : Z :=
  if negb (env_seg e =? 0) then env_seg e else peek16 (psp_at (cu_psp st) ps_environ) (t_mem st).

Lemma load_app a n1 n2 m : 0 <= n1 -> 0 <= n2 -> load a (n1 + n2) m = load a n1 m ++ load (a + n1) n2 m.
Proof. intros H1 H2. unfold load. rewrite seqZ_app by done. apply map_app. Qed.

Lemma load_same a n m m' : (forall y, between a n y -> m' y = m y) -> load a n m' = load a n m.
Proof. intros Hm. unfold load. apply map_ext_in. intros y Hy. apply list_elem_of_In, elem_of_seqZ in Hy. apply Hm. unfold between. lia. Qed.

Lemma load_copy dst src n m : 0 <= n -> load dst n (copy dst src n m) = load src n m.
Proof.
  intros Hn. unfold load. apply list_eq. intros i. rewrite !list_lookup_fmap. destruct (decide (Z.of_nat i < n)) as [Hi|Hi].
  - rewrite !lookup_seqZ_lt by lia. cbn. unfold copy.
    rewrite (proj2 (Z.leb_le dst (dst + Z.of_nat i))), (proj2 (Z.ltb_lt (dst + Z.of_nat i) (dst + n))) by lia. cbn [andb]. do 2 f_equal. lia.
  - by rewrite !lookup_seqZ_ge by lia.
Qed.

Lemma load_poke16_1 a m : load a 2 (poke16 a 1 m) = [1; 0].
Proof.
  unfold load. change (seqZ a 2) with (seqZ a (Z.succ (Z.succ 0))). rewrite !seqZ_cons by lia. cbn [map].
  unfold poke16, poke. rewrite Z.pred_succ. unfold Z.succ. rewrite Z.eqb_refl, (proj2 (Z.eqb_neq a (a + 1))), Z.eqb_refl by lia. done.
Qed.

End loading.

(** ** What a call that returns an error has not changed *)

Section failing.
  Context {H : Type} `{!TaskHost H} (env0 : Z).
  Implicit Types st : task H.

Lemma alloc_globals size mode st : same_globals st (snd (DosMemAlloc size mode st)).
Proof. unfold DosMemAlloc. by destruct (h_alloc _ _ _ _ _ _) as [[[[? ?] ?] ?] ?]. Qed.
Lemma largest_globals st : same_globals st (snd (DosMemLargest st)).
Proof. unfold DosMemLargest. by destruct (h_largest _ _ _ _) as [[[? ?] ?] ?]. Qed.
Lemma free_globals para st : same_globals st (DosMemFree para st).
Proof. unfold DosMemFree. by destruct (h_free _ _ _) as [? ?]. Qed.
Lemma umblink_globals n st : same_globals st (DosUmbLink n st).
Proof. unfold DosUmbLink. by destruct (h_umblink _ _ _) as [? ?]. Qed.
Lemma seek_globals fd pos st : same_globals st (snd (SftSeek fd pos st)).
Proof. unfold SftSeek. by destruct (h_seek _ _ _) as [? ?]. Qed.
Lemma read_globals fd n st : same_globals st (snd (read_file fd n st)).
Proof. unfold read_file. by destruct (h_read _ _ _) as [[? ?] ?]. Qed.

(** Everything but the access mode. *)
Definition same_process st st' : Prop :=
  cu_psp st' = cu_psp st /\ t_dta st' = t_dta st /\ InDOS st' = InDOS st /\ tsr st' = tsr st /\ user_r st' = user_r st.
#[local] Instance same_process_preorder : PreOrder same_process.
Proof. split; [done|]. intros a b c. unfold same_process. intuition congruence. Qed.
Lemma globals_process st st' : same_globals st st' -> same_process st st' /\ mem_access_mode st' = mem_access_mode st.
Proof. unfold same_globals, same_process. intuition. Qed.

Lemma ChildEnv_globals e pathname env st : same_globals st (snd (ChildEnv e pathname env st)).
Proof.
  unfold ChildEnv. set (src := if negb (env_seg e =? 0) then _ else _). destruct (if negb (src =? 0) then _ else _) as [n|]; [|done].
  pose proof (alloc_globals (u16 (n + ENV_KEEPFREE + 15) / 16) (mem_access_mode st) st) as Ha.
  destruct (DosMemAlloc _ _ st) as [[[rc para] a] st1]. cbn [snd] in Ha. destruct (rc <? 0); [done|].
  destruct (h_truename _ _ _ _) as [[rc2 name] h]. by destruct (rc2 <? SUCCESS).
Qed.

Lemma has_pow m i : 0 <= i -> has m (2 ^ i) = Z.testbit m i.
Proof.
  intros Hi. unfold has. destruct (Z.testbit m i) eqn:E.
  - apply negb_true_iff, Z.eqb_neq. intros Hz. apply (f_equal (fun z => Z.testbit z i)) in Hz.
    by rewrite Z.land_spec, E, Z.pow2_bits_true, Z.bits_0 in Hz by done.
  - apply negb_false_iff, Z.eqb_eq, Z.bits_inj'. intros j Hj. rewrite Z.land_spec, Z.bits_0, Z.pow2_bits_eqb by done.
    destruct (Z.eqb_spec i j) as [->|]; [by rewrite E|by rewrite andb_false_r].
Qed.

(** The two bits of the mode that the search in high memory plays with. *)
Lemma access_restored m :
  has m 0x80 = true -> has m 0x40 = false ->
  Z.lor (clear 0x40 (Z.lor (clear 0x80 m) 0x40)) 0x80 = m.
Proof.
  intros H8 H4. pose proof (has_pow m 7 ltac:(lia)) as H8'. pose proof (has_pow m 6 ltac:(lia)) as H4'.
  change (2 ^ 7) with 0x80 in H8'. change (2 ^ 6) with 0x40 in H4'.
  rewrite H8 in H8'. rewrite H4 in H4'. unfold clear. apply Z.bits_inj'. intros i Hi.
  rewrite Z.lor_spec, Z.ldiff_spec, Z.lor_spec, Z.ldiff_spec. change 0x80 with (2 ^ 7). change 0x40 with (2 ^ 6).
  rewrite !Z.pow2_bits_eqb by lia. assert (i = 7 \/ i = 6 \/ (7 <> i /\ 6 <> i)) as [-> |[-> |[N7 N6]]] by lia.
  - rewrite <- H8'. cbn. by destruct (Z.testbit m 7).
  - rewrite <- H4'. cbn. by destruct (Z.testbit m 6).
  - rewrite (proj2 (Z.eqb_neq 7 i) N7), (proj2 (Z.eqb_neq 6 i) N6). cbn. by destruct (Z.testbit m i).
Qed.

Lemma lor_clear m : has m 0x80 = true -> Z.lor (clear 0x80 m) 0x80 = m.
Proof.
  intros H8. unfold clear. apply Z.bits_inj'. intros i Hi. rewrite Z.lor_spec, Z.ldiff_spec.
  change 0x80 with (2 ^ 7) in *. rewrite !Z.pow2_bits_eqb by lia. destruct (Z.eqb_spec 7 i) as [<-|].
  - rewrite <- (has_pow m 7) by lia. by rewrite H8.
  - by destruct (Z.testbit m i).
Qed.

Lemma ExecMemLargest_globals threshold st :
  has (mem_access_mode st) 0x40 = false \/ has (mem_access_mode st) 0x80 = false ->
  same_globals st (snd (ExecMemLargest threshold st)).
Proof.
  intros Hm. unfold ExecMemLargest. destruct (has (mem_access_mode st) 0x80) eqn:E8.
  - destruct Hm as [E4|]; [|done]. set (s1 := set_access _ st).
    pose proof (largest_globals s1) as G1. destruct (DosMemLargest s1) as [[rc a] s2]. cbn [snd] in G1.
    set (s3 := set_access (clear 0x40 (mem_access_mode s2)) s2).
    assert (E3 : mem_access_mode s3 = clear 0x40 (Z.lor (clear 0x80 (mem_access_mode st)) 0x40)).
    { cbn [mem_access_mode s3 set_access]. destruct G1 as (-> & _). done. }
    assert (P3 : same_process st s3) by (destruct (globals_process _ _ G1) as [G _]; by transitivity s2).
    pose proof (largest_globals s3) as G3. destruct (if negb (rc =? SUCCESS) || (a <? threshold) then _ else _) as [[rc' a'] s4] eqn:E4'.
    assert (G4 : same_globals s3 s4).
    { destruct (negb (rc =? SUCCESS) || (a <? threshold)); [rewrite E4' in G3; exact G3|by injection E4' as <- <- <-]. }
    cbn [snd]. destruct (globals_process _ _ G4) as [P4 M4].
    assert (P : same_process st (set_access (Z.lor (mem_access_mode s4) 0x80) s4)) by (transitivity s3; [done|]; by transitivity s4).
    assert (M : mem_access_mode (set_access (Z.lor (mem_access_mode s4) 0x80) s4) = mem_access_mode st).
    { cbn [mem_access_mode set_access]. rewrite M4, E3. by apply access_restored. }
    unfold same_globals, same_process in *. tauto.
  - pose proof (largest_globals st) as G. by destruct (DosMemLargest st) as [[? ?] ?].
Qed.

Lemma largest_process threshold st : same_process st (snd (ExecMemLargest threshold st)).
Proof.
  unfold ExecMemLargest. destruct (has (mem_access_mode st) 0x80).
  - set (s1 := set_access _ st). pose proof (largest_globals s1) as G1. destruct (DosMemLargest s1) as [[rc a] s2]. cbn [snd] in G1.
    set (s3 := set_access _ s2). pose proof (largest_globals s3) as G3.
    destruct (globals_process _ _ G1) as [P1 _]. destruct (globals_process _ _ G3) as [P3 _].
    assert (P : same_process st s3) by (by transitivity s2).
    destruct (negb (rc =? SUCCESS) || (a <? threshold)); [|done]. destruct (DosMemLargest s3) as [[rc' a'] s4]. by transitivity s4; [transitivity s3|].
  - pose proof (largest_globals st) as G. apply globals_process in G as [G _]. by destruct (DosMemLargest st) as [[? ?] ?].
Qed.

Lemma ExecMemAlloc_globals size para asize st : same_globals st (snd (ExecMemAlloc size para asize st)).
Proof.
  unfold ExecMemAlloc. pose proof (alloc_globals size (mem_access_mode st) st) as G1.
  destruct (DosMemAlloc size _ st) as [[[rc p] a] s1]. cbn [snd] in G1.
  set (r := if negb (rc =? SUCCESS) then _ else _). assert (Hr : same_globals st (snd r)).
  { subst r. destruct (negb (rc =? SUCCESS)); [|done]. destruct (rc =? DE_NOMEM); [|done].
    pose proof (alloc_globals 0 (-1) s1) as G2. destruct (DosMemAlloc 0 (-1) s1) as [[[rc2 p2] a2] s2]. cbn [snd] in G2.
    assert (G : same_globals st s2) by (by transitivity s1).
    destruct (has (mem_access_mode s2) 0x80) eqn:E8; cbn [andb]; [|done]. destruct (negb (rc2 =? SUCCESS)); [|done].
    set (s3 := set_access _ s2). pose proof (alloc_globals 0 (-1) s3) as G3. destruct (DosMemAlloc 0 (-1) s3) as [[[rc3 p3] a3] s4].
    cbn [snd] in G3 |- *. destruct G3 as (M3 & G3).
    assert (mem_access_mode (set_access (Z.lor (mem_access_mode s4) 0x80) s4) = mem_access_mode s2) as M.
    { cbn [mem_access_mode set_access]. rewrite M3. cbn [mem_access_mode s3 set_access]. by apply lor_clear. }
    unfold same_globals in *. cbn [cu_psp t_dta InDOS tsr user_r set_access s3] in *. intuition congruence. }
  destruct r as [[[rc' para'] asize'] s5]. cbn [snd] in Hr. destruct ((rc' =? SUCCESS) && (asize' <? size)); [|done].
  transitivity s5; [done|apply free_globals].
Qed.

(** Results that keep the process, and the access mode if it is one of a search in low or
    in high memory only. *)
Definition mode_ok (m : Z) : Prop := has m 0x40 = false \/ has m 0x80 = false.
Definition keeps st st' : Prop :=
  same_process st st' /\ (mode_ok (mem_access_mode st) -> mem_access_mode st' = mem_access_mode st).

Lemma globals_keeps st st' : same_globals st st' -> keeps st st'.
Proof. intros G. apply globals_process in G as [G E]. by split. Qed.
#[local] Instance keeps_preorder : PreOrder keeps.
Proof.
  split; [done|]. intros a b c [H1 H2] [H3 H4]. split; [by transitivity b|]. intros Hm. rewrite H4, H2; [done|done|]. by rewrite H2.
Qed.

(** What happens between the environment and the block. *)
Lemma blocks_keep (e : exec_blk) namep threshold (size : Z -> Z) st :
  let '(rc, env, s1) := ChildEnv e namep env0 st in
  let '(rc, asize, s2) := if rc =? SUCCESS then ExecMemLargest threshold s1 else (rc, 0, s1) in
  let '(rc, mem, asize, s3) := if rc =? SUCCESS then ExecMemAlloc (size asize) 0 asize s2 else (rc, 0, asize, s2) in
  keeps st (if negb (rc =? SUCCESS) then DosMemFree env s3 else s3).
Proof.
  pose proof (ChildEnv_globals e namep env0 st) as G1. destruct (ChildEnv e namep env0 st) as [[rc env] s1]. cbn [snd] in G1.
  pose proof (largest_process threshold s1) as P2. pose proof (ExecMemLargest_globals threshold s1) as G2.
  set (r := if rc =? SUCCESS then ExecMemLargest threshold s1 else _).
  assert (K2 : keeps st (snd r)).
  { transitivity s1; [by apply globals_keeps|]. subst r. destruct (rc =? SUCCESS); [|done]. split; [done|]. intros Hm. by apply G2. }
  destruct r as [[rc2 asize] s2]. cbn [snd] in K2. pose proof (ExecMemAlloc_globals (size asize) 0 asize s2) as G3.
  set (r := if rc2 =? SUCCESS then _ else _). assert (K3 : keeps st (snd r)).
  { subst r. destruct (rc2 =? SUCCESS); [|done]. transitivity s2; [done|by apply globals_keeps]. }
  destruct r as [[[rc3 mem] asize3] s3]. cbn [snd] in K3. destruct (negb (rc3 =? SUCCESS)); [|done].
  transitivity s3; [done|apply globals_keeps, free_globals].
Qed.

Lemma umblink_process n st : same_process st (DosUmbLink n st).
Proof. apply globals_process, umblink_globals. Qed.

Lemma high_keeps mode link f st :
  (forall s, keeps s (f s)) -> keeps st (end_high mode link (mem_access_mode st) (f (begin_high mode st))).
Proof.
  intros Hf. unfold begin_high, end_high. destruct (has mode 0x80); [|apply Hf].
  split; [|done]. set (s1 := DosUmbLink 1 _). transitivity s1; [exact (umblink_process 1 (set_access _ st))|].
  transitivity (f s1); [apply Hf|]. exact (umblink_process link (f s1)).
Qed.

Lemma alloc_com_keeps namep e mode size st : keeps st (snd (alloc_com env0 namep e mode size st)).
Proof.
  unfold alloc_com.
  set (f := fun s => let '(rc, env, s1) := ChildEnv e namep env0 s in
    let '(rc, asize, s2) := if rc =? SUCCESS then ExecMemLargest size s1 else (rc, 0, s1) in
    let '(rc, mem, asize, s3) := if rc =? SUCCESS then ExecMemAlloc asize 0 asize s2 else (rc, 0, asize, s2) in
    if negb (rc =? SUCCESS) then DosMemFree env s3 else s3).
  assert (Hf : forall s, keeps s (f s)).
  { intros s. pose proof (blocks_keep e namep size (fun a => a) s) as Hb. unfold f. clear f. cbv beta in Hb.
    destruct (ChildEnv e namep env0 s) as [[rc env] s1]. destruct (if rc =? SUCCESS then ExecMemLargest size s1 else _) as [[rc2 a] s2].
    by destruct (if rc2 =? SUCCESS then _ else _) as [[[rc3 m] a3] s3]. }
  pose proof (high_keeps mode (h_uppermem_link (t_host st)) f st Hf) as Hk. revert Hk. unfold f. clear f Hf.
  destruct (ChildEnv e namep env0 (begin_high mode st)) as [[rc env] s1].
  destruct (if rc =? SUCCESS then ExecMemLargest size s1 else _) as [[rc2 a] s2].
  by destruct (if rc2 =? SUCCESS then _ else _) as [[[rc3 m] a3] s3].
Qed.

Lemma alloc_exe_keeps x namep e mode size st : keeps st (snd (alloc_exe env0 x namep e mode size st)).
Proof.
  unfold alloc_exe. set (thr := u16 (size + exMinAlloc x)).
  set (want := fun a => if Z.lor (exMinAlloc x) (exMaxAlloc x) =? 0 then a else
    if (a <? u16 (size + exMaxAlloc x)) || (u16 (size + exMaxAlloc x) <? size) then a else u16 (size + exMaxAlloc x)).
  set (s0 := if has mode 0x80 then _ else st).
  assert (H0 : same_process st s0 /\ (has mode 0x80 = false -> s0 = st)).
  { subst s0. destruct (has mode 0x80); [|done]. split; [|done]. transitivity (DosUmbLink 1 st); [apply umblink_process|done]. }
  pose proof (blocks_keep e namep thr want s0) as Hb. destruct (ChildEnv e namep env0 s0) as [[rc env] s1].
  destruct (if rc =? SUCCESS then ExecMemLargest thr s1 else _) as [[rc2 a] s2]. fold (want a).
  destruct (if rc2 =? SUCCESS then _ else _) as [[[rc3 m] a3] s3]. cbn [snd].
  set (s4 := if negb (rc3 =? SUCCESS) then _ else s3) in *. destruct H0 as [H0 H1].
  destruct (has mode 0x80); [|by rewrite <- (H1 eq_refl)]. split.
  - transitivity s0; [done|]. transitivity s4; [apply Hb|]. transitivity (set_access (mem_access_mode st) s4); [done|apply umblink_process].
  - intros _. destruct (umblink_globals (h_uppermem_link (t_host st)) (set_access (mem_access_mode st) s4)) as (-> & _). done.
Qed.

Lemma patchPSP_globals mcb env e fnam st code st' : patchPSP mcb env e fnam st = Some (code, st') -> same_globals st st'.
Proof.
  unfold patchPSP. destruct (negb (env =? 0)); destruct (far_string _ _ _); try done; intros [= <- <-];
    by destruct (negb (fp_off (fcb_1 e) =? 0xffff)).
Qed.

Lemma read_image_globals fuel fd sp size st st' : read_image fuel fd sp size st = Some st' -> same_globals st st'.
Proof.
  revert sp size st. induction fuel as [|fuel IH]; intros sp size st; [done|]. cbn [read_image]. unfold read_far.
  set (n := if size <? CHUNK / 16 then _ else _). pose proof (read_globals fd n st) as G.
  destruct (read_file fd n st) as [[r data] s1]. cbn [snd] in G. destruct ((s16 r <? n) || (size <=? CHUNK / 16)).
  - by intros [= <-].
  - intros Hr. transitivity s1; [done|]. exact (IH _ _ _ Hr).
Qed.

Lemma relocations_globals n fd base delta st : same_globals st (snd (relocations n fd base delta st)).
Proof.
  revert st. induction n as [|n IH]; intros st; [done|]. cbn [relocations]. pose proof (read_globals fd 4 st) as G.
  destruct (read_file fd 4 st) as [[r data] s1]. cbn [snd] in G. destruct (negb (r =? 4)); [done|].
  transitivity s1; [done|]. set (s2 := upd_mem _ s1). transitivity s2; [done|apply IH].
Qed.

Lemma drop_globals mode mem env st : same_globals st (drop_program mode mem env st).
Proof.
  unfold drop_program. destruct (negb (mode =? OVERLAY)); [|done].
  transitivity (DosMemFree (u16 (mem - 1)) st); apply free_globals.
Qed.

(** What a result tells of the process. *)
Definition outcome_keeps st (o : outcome H) : Prop :=
  match o with
  | Returned rc _ st' => (mode_ok (mem_access_mode st) -> mem_access_mode st' = mem_access_mode st) /\ (rc <> SUCCESS -> same_process st st')
  | Started _ _ _ => True
  end.

Lemma outcome_keeps_trans st st1 o : keeps st st1 -> outcome_keeps st1 o -> outcome_keeps st o.
Proof.
  intros [P M]. destruct o as [rc e st'|]; [|done]. cbn. intros [M2 P2]. split.
  - intros Hm. specialize (M Hm). rewrite M in M2. by apply M2.
  - intros Hr. transitivity st1; [done|by apply P2].
Qed.

Lemma returned_keeps rc e st st' : same_globals st st' -> outcome_keeps st (Returned rc e st').
Proof. intros G. apply globals_process in G as [P M]. by split. Qed.

(** The end of both loaders: a result is a success. *)
Lemma transfer_keeps st st1 mem e code mode o :
  same_globals st st1 ->
  match load_transfer mem e code mode st1 with Returned _ e' s => Some (Returned SUCCESS e' s) | started => Some started end = Some o ->
  outcome_keeps st o.
Proof.
  intros G. apply globals_process in G as [_ M]. unfold load_transfer. destruct (mode =? LOADNGO); intros [= <-]; [done|].
  split; [|done]. intros _. cbn. exact M.
Qed.

Lemma child_psp_globals para cur size st : same_globals st (child_psp para cur size st).
Proof.
  assert (Hc : forall n i s, same_globals s (clone_handles n i para cur s)).
  { induction n as [|n IH]; intros i s; [done|]. cbn [clone_handles]. destruct (h_clone _ _ _ _) as [rc h].
    destruct (0 <=? rc); (etransitivity; [|apply IH]); done. }
  assert (Hu : forall f (s s0 : task H), same_globals s0 s -> same_globals s0 (upd_mem f s)) by done.
  unfold child_psp. cbv zeta. do 6 apply Hu. etransitivity; [|apply Hc]. do 7 apply Hu. done.
Qed.

Lemma start_com_keeps namep e mode mem env asize st o :
  start_com namep e mode mem env asize st = Some o -> outcome_keeps st o.
Proof.
  unfold start_com. set (s1 := upd_mem (setvec 0x22 _) st). set (s2 := child_psp mem (cu_psp s1) (mem + asize) s1).
  assert (G2 : same_globals st s2) by exact (child_psp_globals mem (cu_psp s1) (mem + asize) s1). clearbody s2.
  destruct (patchPSP _ env e namep s2) as [[code s3]|] eqn:E; [|done]. apply patchPSP_globals in E.
  assert (G3 : same_globals st s3) by (by transitivity s2). cbn iota.
  set (a := if 0x1000 <? asize then 0x1000 else asize). destruct (a <? 0x11).
  - intros [= <-]. by apply returned_keeps.
  - eapply transfer_keeps. exact G3.
Qed.

Lemma DosComLoader_keeps namep e mode fd st o : DosComLoader env0 namep e mode fd st = Some o -> outcome_keeps st o.
Proof.
  unfold DosComLoader. set (size := _ + 0x10). set (r := if negb (Z.land mode 0x7f =? OVERLAY) then _ else _).
  assert (K : keeps st (snd r)) by (subst r; destruct (negb _); [apply alloc_com_keeps|done]).
  destruct r as [[[[[rc mode'] mem] env] asize] s1]. cbn [snd] in K.
  destruct (negb (rc =? SUCCESS)).
  { intros [= <-]. apply (outcome_keeps_trans st s1); [done|by apply returned_keeps]. }
  set (p := if mode' =? OVERLAY then Far mem 0 else Far mem 256). pose proof (seek_globals fd 0 s1) as G1.
  destruct (SftSeek fd 0 s1) as [r1 s2]. cbn [snd] in G1. unfold read_far. pose proof (read_globals fd 0xff00 s2) as G2.
  destruct (read_file fd 0xff00 s2) as [[r2 d] s3]. cbn [snd] in G2. set (s4 := DosCloseSft fd _).
  assert (G : same_globals s1 s4) by (transitivity s2; [done|by transitivity s3]). clearbody s4.
  intros Ho. apply (outcome_keeps_trans st s1); [done|]. apply (outcome_keeps_trans s1 s4); [by apply globals_keeps|].
  destruct (mode' =? OVERLAY); [|by eapply start_com_keeps]. injection Ho as <-. by apply returned_keeps.
Qed.

Lemma load_exe_keeps x namep e mode fd size mem env asize st o :
  load_exe x namep e mode fd size mem env asize st = Some o -> outcome_keeps st o.
Proof.
  unfold load_exe. pose proof (seek_globals fd (exHeaderSize x * 16) st) as G1.
  destruct (SftSeek fd (exHeaderSize x * 16) st) as [r1 s1]. cbn [snd] in G1. destruct (negb (r1 =? SUCCESS)).
  { intros [= <-]. apply returned_keeps. transitivity s1; [done|apply drop_globals]. }
  destruct (image_place x mode mem size s1) as [n start]. destruct (read_image 33 fd start n s1) as [s2|] eqn:E2; [|done].
  apply read_image_globals in E2. pose proof (seek_globals fd (exRelocTable x) s2) as G3.
  destruct (SftSeek fd (exRelocTable x) s2) as [r3 s3]. cbn [snd] in G3.
  set (bd := if mode =? OVERLAY then (mem, load_reloc e) else (start, start)). destruct bd as [base delta].
  pose proof (relocations_globals (Z.to_nat (exRelocItems x)) fd base delta s3) as G4.
  destruct (relocations _ fd base delta s3) as [ok s4]. cbn [snd] in G4.
  assert (G : same_globals st s4) by (transitivity s3; [transitivity s2; [by transitivity s1|done]|done]).
  destruct (negb ok).
  { intros [= <-]. apply returned_keeps. transitivity s4; [done|apply drop_globals]. }
  destruct (mode =? OVERLAY); [intros [= <-]; by apply returned_keeps|].
  set (s5 := upd_mem (setvec 0x22 _) (DosCloseSft fd s4)). set (s6 := child_psp mem (cu_psp s5) (mem + asize) s5).
  assert (G6 : same_globals st s6) by (transitivity s5; [done|exact (child_psp_globals mem (cu_psp s5) (mem + asize) s5)]).
  clearbody s6. destruct (patchPSP _ env e namep s6) as [[code s7]|] eqn:E; [|done]. apply patchPSP_globals in E. cbn iota.
  eapply transfer_keeps. by transitivity s6.
Qed.

Lemma DosExeLoader_keeps x namep e mode fd st o : DosExeLoader env0 x namep e mode fd st = Some o -> outcome_keeps st o.
Proof.
  unfold DosExeLoader. destruct (negb (Z.land mode 0x7f =? OVERLAY)); [|apply load_exe_keeps].
  pose proof (alloc_exe_keeps x namep e mode (u16 (image_paragraphs x + 16)) st) as K.
  destruct (alloc_exe _ _ _ _ _ _ _) as [[[[[rc mode'] mem] env] asize] s1]. cbn [snd] in K. destruct (negb (rc =? SUCCESS)).
  - intros [= <-]. apply (outcome_keeps_trans st s1); [done|by apply returned_keeps].
  - intros Ho. apply (outcome_keeps_trans st s1); [done|by eapply load_exe_keeps].
Qed.

Lemma DosExec_keeps mode ep lp st o : DosExec env0 mode ep lp st = Some o -> outcome_keeps st o.
Proof.
  unfold DosExec. set (e := load_exec _ _). destruct (_ || _); [intros [= <-]; by apply returned_keeps|].
  destruct (h_isdevice _ _ _); [intros [= <-]; by apply returned_keeps|].
  destruct (h_open lp (t_mem st) (t_host st)) as [fd h]. set (s1 := set_host h st).
  destruct (fd <? 0); [intros [= <-]; by apply returned_keeps|]. pose proof (read_globals fd 28 s1) as G1.
  destruct (read_file fd 28 s1) as [[rc data] s2]. cbn [snd] in G1. assert (G2 : same_globals st s2) by (by transitivity s1).
  set (out := if (s16 rc =? 28) && _ then _ else _).
  assert (Ko : forall o', out = Some o' -> outcome_keeps st o').
  { intros o' Ho. apply (outcome_keeps_trans st s2); [by apply globals_keeps|]. revert Ho. subst out.
    destruct ((s16 rc =? 28) && _); [apply DosExeLoader_keeps|]. destruct (negb (s16 rc =? 0)); [apply DosComLoader_keeps|].
    intros [= <-]. by apply returned_keeps. }
  destruct out as [o'|]; [|done]. specialize (Ko o' eq_refl). destruct o' as [rc' e' s3|]; intros [= <-]; [|done].
  cbn in Ko |- *. destruct Ko as [M P]. destruct ((mode =? LOAD) && (rc' =? SUCCESS)); exact (conj M P).
Qed.

End failing.
