(* ===== verification/TaskThms.v ===== *)
(** * Programs: the properties, and a sample program *)

From S2P Require Import Prelude Hdr Bytes Diskdrv Task TaskSpec.

Section properties.
  Context {H : Type} `{HL : TaskHostLaws H} (env0 : Z).
  Implicit Types st : task H.

(** An overlay is loaded as its header says: the memory is then what it was, with the
    image of the file from the segment given on, read as one piece whatever the chunks, and
    with the relocation added to each word the table of the file names, in its order;
    nothing else is written, and the process is the same. *)
Theorem overlay_loads x namep e fd file pos st :
  contents fd (t_host st) = Some (file, pos) -> header_ok x file ->
  0 <= load_seg e -> load_seg e + image_paragraphs x <= 65536 ->
  exists st', DosExeLoader env0 x namep e OVERLAY fd st = Some (Returned SUCCESS e st') /\
    same_mem (exe_image x file (load_seg e) (image_paragraphs x) (load_seg e) (load_reloc e) (t_mem st)) (t_mem st') /\
    same_globals st st'.
Proof.
  intros Hc Hh H0 H1. unfold DosExeLoader. change (negb (Z.land OVERLAY 0x7f =? OVERLAY)) with false. cbv iota.
  assert (0 <= image_paragraphs x) by apply u16_range.
  destruct (image_loaded x file fd (load_seg e) (image_paragraphs x) (load_seg e) (load_reloc e) st pos Hc Hh)
    as (s1 & s2 & s3 & s4 & E1 & _ & E2 & E3 & E4 & M & G); [lia..|].
  unfold load_exe. rewrite E1. change (negb (SUCCESS =? SUCCESS)) with false. unfold image_place.
  change (negb (OVERLAY =? OVERLAY)) with false. cbv iota. rewrite E2, E3. change (OVERLAY =? OVERLAY) with true. cbv iota.
  rewrite E4. cbn [negb]. by exists (DosCloseSft fd s4).
Qed.

(** ** Starting a program *)

(** The block of a program, with its memory control block. *)
Definition in_block (mem asize x : Z) : Prop := between (16 * (mem - 1)) (16 * (asize + 1)) x.
(** What else is written: the vector 22h, the owner of the environment, and where the
    parent's frame and flags are kept. *)
Definition beside (env parent : Z) (user : farptr) (x : Z) : Prop :=
  between 0x88 4 x \/ (env <> 0 /\ between (16 * env + 1) 2 x) \/ between (psp_at parent ps_stack) 4 x \/
  between (ireg_at user rFLAGS) 2 x.

(** The relocations stay in the image. *)
Definition relocs_inside (x : exe_header) (file : list Z) (start n : Z) : Prop :=
  Forall (fun r => between (16 * start) (16 * n - 1) (linear (Far (u16 (snd r + start)) (fst r))))
    (reloc_table (Z.to_nat (exRelocItems x)) (drop (Z.to_nat (exRelocTable x)) file)).

Lemma relocate_all_touches (R : Z -> Prop) base delta t m :
  Forall (fun r => R (linear (Far (u16 (snd r + base)) (fst r))) /\ R (linear (Far (u16 (snd r + base)) (fst r)) + 1)) t ->
  touches R m (relocate_all base delta t m).
Proof.
  revert m. induction t as [|r t IH]; intros m Hf; [done|]. apply list.Forall_cons in Hf as [[H1 H2] Hf]. cbn.
  eapply touches_trans; [|by apply IH]. by apply touches_poke16.
Qed.

Lemma exe_image_touches x file start n m :
  0 <= n -> relocs_inside x file start n -> touches (between (16 * start) (16 * n)) m (exe_image x file start n start start m).
Proof.
  intros Hn Hr. unfold exe_image. eapply touches_trans; [apply touches_store|apply relocate_all_touches].
  - intros y Hy. pose proof (length_bytes_of file (exHeaderSize x * 16) (16 * n) ltac:(lia)). unfold between in *. lia.
  - eapply list.Forall_impl; [exact Hr|]. cbv beta. unfold between. lia.
Qed.

Definition header_words (x : exe_header) : Prop :=
  0 <= exInitSS x < 65536 /\ 0 <= exInitSP x < 65536 /\ 0 <= exInitCS x < 65536 /\ 0 <= exInitIP x < 65536.

(** The pointers a program starts with. *)
Definition exe_block (x : exe_header) (start : Z) (e : exec_blk) : exec_blk :=
  set_start (Far (u16 (exInitCS x + start)) (exInitIP x)) (set_stack (Far (u16 (exInitSS x + start)) (exInitSP x)) e).
Definition exe_frame (x : exe_header) (start : Z) : farptr := far_add (Far (u16 (exInitSS x + start)) (exInitSP x)) (-24).

(** C18: A program in a block of its own starts as its file says.  It runs with CS:IP
    and SS:SP from the header relative to the segment of the image, with DS and ES on its
    prefix; its image is that of the file with all relocations applied, but for the frame the
    registers are popped from; it is the current process, its prefix names the parent
    and the environment, and its disk transfer area is its command tail.  Outside its
    block only the vector 22h, the owner of the environment, and the parent's stack pointer
    and flags are written. *)
Theorem program_starts x namep name e fd file pos mem env asize start n st :
  contents fd (t_host st) = Some (file, pos) -> header_ok x file -> header_words x ->
  image_place x LOADNGO mem (n + 16) st = (n, start) -> 0 <= n -> 10 <= mem -> mem + asize < 65536 ->
  mem + 16 <= start -> start + n <= mem + asize -> relocs_inside x file start n ->
  16 * (mem + 16) <= linear (exe_frame x start) -> linear (exe_frame x start) + 24 <= 16 * (mem + asize) ->
  0 <= cu_psp st < 65536 -> 0 <= env < 65535 ->
  (forall y, beside env (cu_psp st) (user_r st) y -> ~ in_block mem asize y) ->
  far_string (Z.to_nat 65536) (linear namep) (t_mem st) = Some name ->
  (forall y, between (linear namep) (Z.of_nat (length name) + 1) y ->
     ~ in_block mem asize y /\ ~ beside env (cu_psp st) (user_r st) y) ->
  (env <> 0 -> env + 1 <= mem - 1 \/ mem + asize <= env) ->
  exists code st', load_exe x namep e LOADNGO fd (n + 16) mem env asize st = Some (Started (exe_frame x start) true st') /\
    (forall r, peek16 (ireg_at (exe_frame x start) r) (t_mem st') = start_registers mem code (exe_block x start e) r) /\
    (forall a, between (16 * start) (16 * n) a -> ~ between (linear (exe_frame x start)) 24 a ->
       t_mem st' a = exe_image x file start n start start (t_mem st) a) /\
    cu_psp st' = mem /\ t_dta st' = Far mem 0x80 /\
    peek16 (psp_at mem ps_parent) (t_mem st') = cu_psp st /\
    peek16 (psp_at mem ps_environ) (t_mem st') = (if env =? 0 then 0 else env + 1) /\
    touches (fun y => in_block mem asize y \/ beside env (cu_psp st) (user_r st) y) (t_mem st) (t_mem st').
Proof.
  intros Hc Hh (W1 & W2 & W3 & W4) Hpl Hn Hmem Htop Hst Hend Hrel Hf1 Hf2 Hcu Henv Hb Hnm Hnd Hed.
  destruct (image_loaded x file fd start n start start st pos Hc Hh) as (s1 & s2 & s3 & s4 & E1 & Em1 & E2 & E3 & E4 & M & G); [lia..|].
  assert (Epl : image_place x LOADNGO mem (n + 16) s1 = (n, start)) by (unfold image_place in *; by rewrite Em1).
  unfold load_exe. rewrite E1. change (negb (SUCCESS =? SUCCESS)) with false. cbv iota. rewrite Epl, E2, E3.
  change (LOADNGO =? OVERLAY) with false. cbv iota. rewrite E4. cbn [negb].
  set (R := fun y => in_block mem asize y \/ beside env (cu_psp st) (user_r st) y).
  assert (T4 : touches R (t_mem st) (t_mem s4)).
  { intros y Hy. rewrite (M y). apply (exe_image_touches x file start n (t_mem st) Hn Hrel). intros Hi. apply Hy. left.
    unfold in_block, between in *. lia. }
  destruct G as (_ & G2 & _ & _ & _ & G6). fold (exe_block x start e).
  destruct (prefix_built mem asize env e (Far (peek16 (ireg_at (user_r (DosCloseSft fd s4)) rCS) (t_mem (DosCloseSft fd s4)))
    (peek16 (ireg_at (user_r (DosCloseSft fd s4)) rIP) (t_mem (DosCloseSft fd s4)))) namep name (DosCloseSft fd s4))
    as (code & s8 & E8 & Hcode & T8 & C8 & C8' & P8); [lia|lia|lia| | |].
  { apply (far_string_touches R _ _ _ _ _ T4 Hnm). intros y Hy [Hr|Hr]; apply Hnd in Hy; tauto. }
  { intros y Hy Hp. apply Hnd in Hy as [Hy1 Hy2]. destruct Hp as [Hp|Hp]; [apply Hy1; unfold in_block, between in *; lia|].
    apply Hy2. unfold beside. tauto. }
  change (t_mem (DosCloseSft fd s4)) with (t_mem s4) in T8. rewrite E8.
  change (cu_psp (DosCloseSft fd s4)) with (cu_psp s4) in C8. change (user_r (DosCloseSft fd s4)) with (user_r s4) in C8'.
  rewrite G2 in C8. rewrite G6 in C8'. cbn iota.
  destruct (load_transfer_spec mem code (exe_block x start e) s8) as (st' & -> & T9 & Ec & Ed & R9 & N9);
    [by split; [apply u16_range|]|by split; [apply u16_range|]|lia|done|lia|].
  change (far_add (stack (exe_block x start e)) (-24)) with (exe_frame x start) in *. rewrite C8, C8' in T9, N9.
  exists code, st'. split; [done|]. split; [done|].
  assert (Hout : forall y, in_block mem asize y -> ~ beside env (cu_psp st) (user_r st) y) by (intros y Hy Hz; by apply (Hb y)).
  assert (Hlk : forall y, linked mem (cu_psp st) (user_r st) y -> between (16 * mem) 60 y \/ beside env (cu_psp st) (user_r st) y).
  { intros y Hy. unfold beside, linked, between, psp_at in *. cbn [psp_offset] in *. lia. }
  split; [|split; [done|split; [done|split; [|split]]]].
  - intros a Ha Hfr. assert (Ho : ~ beside env (cu_psp st) (user_r st) a) by (apply Hout; unfold in_block, between in *; lia).
    rewrite (T9 a), (T8 a), (M a); [done| |].
    + intros [Hp|Hp]; [unfold between in *; lia|]. apply Ho. unfold beside. tauto.
    + intros [Hl|Hl]; [|done]. apply Hlk in Hl as [Hl|Hl]; [unfold between in *; lia|done].
  - apply N9. intros y Hy. assert (Ho : ~ beside env (cu_psp st) (user_r st) y).
    { apply Hout. unfold in_block, between, psp_at in *. cbn [psp_offset] in *. lia. }
    unfold beside, between, psp_at in *. cbn [psp_offset] in *. lia.
  - assert (Hev : forall y, between (psp_at mem ps_environ) 2 y ->
      ~ (linked mem (cu_psp st) (user_r st) y \/ between (linear (exe_frame x start)) 24 y)).
    { intros y Hy. assert (Ho : ~ beside env (cu_psp st) (user_r st) y).
      { apply Hout. unfold in_block, between, psp_at in *. cbn [psp_offset] in *. lia. }
      unfold beside, linked, between, psp_at in *. cbn [psp_offset] in *. lia. }
    rewrite <- P8. eapply peek16_touches; [exact T9|apply Hev; unfold between; lia..].
  - eapply touches_trans; [exact T4|]. eapply touches_trans; eapply touches_weaken; [|exact T8| |exact T9]; intros y Hy.
    + destruct Hy as [Hy|Hy]; [left; unfold in_block, between in *; lia|right; unfold beside; tauto].
    + destruct Hy as [Hy|Hy]; [apply Hlk in Hy as [Hy|Hy]; [|by right]|]; left; unfold in_block, between in *; lia.
Qed.

(** C19: The environment of a program is a block of its own: a copy of that of the parent, or
    of the one that is given, up to its two NULs, then the number one and the full name of
    the program.  Nothing else is written, and for a name of up to 80 characters it stays
    in the block that was asked for.  When the name cannot be resolved the error is handed on. *)
Theorem environment_built e pathname k env a m1 h1 st :
  let src := env_source e st in
  let dest := 16 * (env + 1) in
  src <> 0 -> env_scan (Z.to_nat (MAXENV - ENV_KEEPFREE)) (16 * src) 0 (t_mem st) = Some k ->
  h_alloc ((k + 100) / 16) (mem_access_mode st) (mem_access_mode st) (cu_psp st) (t_mem st) (t_host st) = (SUCCESS, Some env, a, m1, h1) ->
  0 <= env < 65535 -> (forall y, between (16 * src) (k + 2) y -> m1 y = t_mem st y) ->
  exists m2, load dest (k + 4) m2 = load (16 * src) (k + 2) (t_mem st) ++ [1; 0] /\ touches (between dest (k + 4)) m1 m2 /\
    forall rc name h2, h_truename pathname 0x01 m2 h1 = (rc, name, h2) ->
    exists st', ChildEnv e pathname env0 st = (if rc <? 0 then rc else SUCCESS, env, st') /\
      (0 <= rc ->
       load dest (k + 5 + Z.of_nat (length name)) (t_mem st') = load (16 * src) (k + 2) (t_mem st) ++ [1; 0] ++ name ++ [0] /\
       touches (between dest (k + 5 + Z.of_nat (length name))) m1 (t_mem st') /\
       ((length name <= 80)%nat -> dest + k + 5 + Z.of_nat (length name) <= dest + 16 * ((k + 100) / 16))).
Proof.
  intros src dest Hsrc Hk Ha Henv Hm1. destruct (env_scan_spec _ _ _ _ _ Hk) as (Hkr & _ & _). unfold MAXENV, ENV_KEEPFREE in Hkr.
  set (m2 := poke16 (dest + (k + 2)) 1 (copy dest (16 * src) (k + 2) m1)).
  assert (T2 : touches (between dest (k + 4)) m1 m2).
  { eapply touches_trans; [apply touches_copy|apply touches_poke16]; unfold between; intros; lia. }
  assert (L2 : load dest (k + 4) m2 = load (16 * src) (k + 2) (t_mem st) ++ [1; 0]).
  { replace (k + 4) with (k + 2 + 2) by lia. rewrite load_app by lia. f_equal; [|apply load_poke16_1].
    transitivity (load dest (k + 2) (copy dest (16 * src) (k + 2) m1)).
    - apply load_same. intros y Hy. apply (touches_poke16 (between (dest + (k + 2)) 2)); unfold between in *; lia.
    - rewrite load_copy by lia. by apply load_same. }
  exists m2. split; [done|]. split; [done|]. intros rc name h2 Ht. unfold ChildEnv. fold (env_source e st). fold src.
  rewrite (proj2 (Z.eqb_neq src 0) Hsrc). cbn [negb]. rewrite Hk. cbn [fmap option_fmap option_map].
  rewrite (u16_id (k + 2)) by lia. rewrite u16_id by (unfold ENV_KEEPFREE; lia). unfold DosMemAlloc.
  replace ((k + 2 + ENV_KEEPFREE + 15) / 16) with ((k + 100) / 16) by (f_equal; unfold ENV_KEEPFREE; lia).
  rewrite Ha. cbn [default id]. change (SUCCESS <? 0) with false. cbv iota. 
  rewrite (u16_id (env + 1)) by lia. fold dest.
  cbn [t_mem t_host upd_mem set_t_mem set_host]. fold m2. rewrite Ht. unfold SUCCESS at 1. destruct (Z.ltb_spec rc 0).
  { eexists. split; [done|]. lia. }
  eexists. split; [done|]. intros _. cbn [t_mem upd_mem set_t_mem set_host].
  set (l := name ++ [0]). assert (Hl : Z.of_nat (length l) = Z.of_nat (length name) + 1) by (subst l; rewrite length_app; cbn; lia).
  replace (dest + (k + 2) + 2) with (dest + (k + 4)) by lia.
  assert (T3 : touches (between (dest + (k + 4)) (Z.of_nat (length l))) m2 (store (dest + (k + 4)) l m2)) by (by apply touches_store).
  replace (k + 5 + Z.of_nat (length name)) with (k + 4 + Z.of_nat (length l)) by lia. split; [|split].
  - rewrite load_app, load_store by lia. rewrite (load_same _ _ m2); [by rewrite L2, <- app_assoc|].
    intros y Hy. apply T3. unfold between in *. lia.
  - eapply touches_trans; eapply touches_weaken; [|exact T2| |exact T3]; unfold between; lia.
  - intros Hn. Z.div_mod_to_equations. lia.
Qed.

(** C20: A call to execute a program that returns an error leaves the process as it was: the
    current process, its disk transfer area, the count of calls inside DOS and the pointer to
    the registers of the caller are the same, whichever step has failed, and the memory
    access mode is restored on every path, after a load into high memory too. *)
Theorem failed_exec_keeps mode ep lp rc e st st' :
  DosExec env0 mode ep lp st = Some (Returned rc e st') -> mode_ok (mem_access_mode st) ->
  mem_access_mode st' = mem_access_mode st /\ (rc <> SUCCESS -> same_process st st').
Proof. intros Ho Hm. destruct (DosExec_keeps _ _ _ _ _ _ Ho) as [M P]. split; [by apply M|done]. Qed.

End properties.

(** ** A sample program

    A host with a single file: an EXE file with a header of two paragraphs, one
    relocation, and an image of two words. *)

Definition words (l : list Z) : list Z := concat (map (fun w => [Z.land w 0xff; Z.shiftr w 8]) l).
Definition sample_header : exe_header := ExeHeader MAGIC 40 1 1 2 16 0xffff 0 0x800 0 0 0 28 0.
Definition sample_file : list Z :=
  words [MAGIC; 40; 1; 1; 2; 16; 0xffff; 0; 0x800; 0; 0; 0; 28; 0] ++ words [2; 0] ++ words [0x1234; 0x0010].

#[export] Instance sample_host : TaskHost Z := {
  h_alloc _ _ _ _ m h := (SUCCESS, Some 0x1800, None, m, h);
  h_largest _ _ m h := (DE_NOMEM, 0, m, h);
  h_free _ m h := (m, h);
  h_uppermem_link _ := 0;
  h_umblink _ m h := (m, h);
  h_free_process _ m h := (m, h);
  h_truename _ _ _ h := (0, str "C:\A.EXE", h);
  h_isdevice _ _ _ := false;
  h_open _ _ h := (5, h);
  h_read _ n h :=
    let d := take (Z.to_nat n) (drop (Z.to_nat h) sample_file) in (Z.of_nat (length d), d, h + Z.of_nat (length d));
  h_seek _ p _ := (SUCCESS, p);
  h_close _ h := h;
  h_sft _ _ := Some (Z.of_nat (length sample_file));
  h_clone _ _ _ h := (DE_INVLDHNDL, h);
  h_cds1 _ _ := true;
  h_redirector _ h := h;
  h_close_handle _ _ m h := (m, h);
  h_fcb_close_all _ h := h }.

#[export] Program Instance sample_host_laws : TaskHostLaws Z := {
  contents _ h := Some (sample_file, h) }.
Next Obligation. intros fd n h file pos [= <- <-] _ _. eexists. by split. Qed.
Next Obligation. intros fd p h file pos [= <- <-] _. eexists. by split. Qed.

(** A parent with its prefix at segment 100h, its environment at segment 180h and the
    name of the program at 50:0. *)
Definition sample_memory : memory :=
  poke16 (psp_at 0x100 ps_environ) 0x180 (store 0x500 (str "A.EXE" ++ [0]) (store 0x1800 (str "X=1" ++ [0; 0]) (fun _ => 0))).
Definition sample_task : task Z := Task sample_memory 0 0x100 (Far 0x100 0x80) 1 false (Far 0x60 0) 0.
Definition sample_exec : exec_blk := ExecBlk 0 (Far 0x70 0) (Far 0 0xffff) (Far 0 0xffff) (Far 0 0) (Far 0 0).

Lemma sample_header_ok : header_ok sample_header sample_file.
Proof. unfold header_ok. cbn. lia. Qed.

Lemma overlay_loads_witness : exists st',
  DosExeLoader 0 sample_header (Far 0x50 0) (ExecBlk 0x3000 (Far 0 0x3000) (Far 0 0) (Far 0 0) (Far 0 0) (Far 0 0)) OVERLAY 5 sample_task
    = Some (Returned SUCCESS (ExecBlk 0x3000 (Far 0 0x3000) (Far 0 0) (Far 0 0) (Far 0 0) (Far 0 0)) st') /\
  same_mem (exe_image sample_header sample_file 0x3000 30 0x3000 0x3000 sample_memory) (t_mem st') /\ same_globals sample_task st'.
Proof.
  apply (overlay_loads 0 sample_header (Far 0x50 0) (ExecBlk 0x3000 (Far 0 0x3000) (Far 0 0) (Far 0 0) (Far 0 0) (Far 0 0)) 5 sample_file 0
           sample_task); [done|apply sample_header_ok|done|done].
Defined.

Lemma program_starts_witness : exists code st',
  load_exe sample_header (Far 0x50 0) sample_exec LOADNGO 5 46 0x2000 0x1800 0x100 sample_task
    = Some (Started (exe_frame sample_header 0x2010) true st') /\
  (forall r, peek16 (ireg_at (exe_frame sample_header 0x2010) r) (t_mem st')
    = start_registers 0x2000 code (exe_block sample_header 0x2010 sample_exec) r) /\
  (forall a, between (16 * 0x2010) (16 * 30) a -> ~ between (linear (exe_frame sample_header 0x2010)) 24 a ->
     t_mem st' a = exe_image sample_header sample_file 0x2010 30 0x2010 0x2010 sample_memory a) /\
  cu_psp st' = 0x2000 /\ t_dta st' = Far 0x2000 0x80 /\ peek16 (psp_at 0x2000 ps_parent) (t_mem st') = 0x100 /\
  peek16 (psp_at 0x2000 ps_environ) (t_mem st') = 0x1801 /\
  touches (fun y => in_block 0x2000 0x100 y \/ beside 0x1800 0x100 (Far 0x60 0) y) sample_memory (t_mem st').
Proof.
  apply (program_starts sample_header (Far 0x50 0) (str "A.EXE") sample_exec 5 sample_file 0 0x2000 0x1800 0x100 0x2010 30 sample_task);
    [done|apply sample_header_ok|unfold header_words; cbn; lia|reflexivity|lia|lia|lia|lia|lia| | | |cbn; lia|lia| | | |lia].
  - repeat constructor; cbn; vm_compute; intuition congruence.
  - vm_compute. intuition congruence.
  - vm_compute. intuition congruence.
  - intros y Hy. unfold beside, in_block, between, psp_at, ireg_at, linear in *. cbn in *. lia.
  - vm_compute. reflexivity.
  - intros y Hy. unfold beside, in_block, between, psp_at, ireg_at, linear in *. cbn in *. lia.
Defined.

Lemma environment_built_witness : exists m2,
  load (16 * 0x1801) 7 m2 = load 0x1800 5 sample_memory ++ [1; 0] /\ touches (between (16 * 0x1801) 7) sample_memory m2 /\
  forall rc name h2, h_truename (Far 0x50 0) 0x01 m2 0 = (rc, name, h2) ->
  exists st', ChildEnv sample_exec (Far 0x50 0) 0 sample_task = (if rc <? 0 then rc else SUCCESS, 0x1800, st') /\
    (0 <= rc ->
     load (16 * 0x1801) (3 + 5 + Z.of_nat (length name)) (t_mem st') = load 0x1800 5 sample_memory ++ [1; 0] ++ name ++ [0] /\
     touches (between (16 * 0x1801) (3 + 5 + Z.of_nat (length name))) sample_memory (t_mem st') /\
     ((length name <= 80)%nat -> 16 * 0x1801 + 3 + 5 + Z.of_nat (length name) <= 16 * 0x1801 + 16 * ((3 + 100) / 16))).
Proof.
  apply (environment_built 0 sample_exec (Far 0x50 0) 3 0x1800 None sample_memory 0 sample_task);
    [vm_compute; congruence|vm_compute; reflexivity|reflexivity|lia|done].
Defined.

Lemma failed_exec_keeps_witness : exists st',
  DosExec 0 2 (Far 0x40 0) (Far 0x50 0) sample_task = Some (Returned DE_INVLDFMT (load_exec 0x400 sample_memory) st') /\
  mem_access_mode st' = 0 /\ (DE_INVLDFMT <> SUCCESS -> same_process sample_task st').
Proof.
  exists sample_task. split; [reflexivity|].
  apply (failed_exec_keeps 0 2 (Far 0x40 0) (Far 0x50 0) DE_INVLDFMT (load_exec 0x400 sample_memory) sample_task sample_task);
    [reflexivity|by left].
Defined.
