(* ===== verification/Ioctl.v ===== *)
(** * Device control ([kernel/ioctl.c])

    Function 44h: what a program asks of the device behind a handle or of the one
    behind a drive.  Registers are 16-bit words.  The drivers are the class
    [IoctlDriver]: a device, the unit, the command and its arguments to the status, the
    count and the unit in the header afterwards. *)

From S2P Require Import Prelude Hdr Dpb Blockio Fattab Fatdir Fileio Newstuff Chario Dosfns Dosname.

(** hdr/device.h:36-36 *)
Definition S_BUSY : Z := 0x0200.
(** hdr/device.h:38-38 *)
Definition S_MASK : Z := 0x00ff.
(** hdr/device.h:80-80 *)
Definition C_IOCTLIN : Z := 0x03.
(** hdr/device.h:83-83 *)
Definition C_ISTAT : Z := 0x06.
(** hdr/device.h:87-87 *)
Definition C_OSTAT : Z := 0x0a.
(** hdr/device.h:89-89 *)
Definition C_IOCTLOUT : Z := 0x0c.
(** hdr/device.h:92-92 *)
Definition C_REMMEDIA : Z := 0x0f.
(** hdr/device.h:94-94 *)
Definition C_GENIOCTL : Z := 0x13.
(** hdr/device.h:95-95 *)
Definition C_GETLDEV : Z := 0x17.
(** hdr/device.h:96-96 *)
Definition C_SETLDEV : Z := 0x18.
(** hdr/device.h:97-97 *)
Definition C_IOCTLQRY : Z := 0x19.
(** hdr/device.h:125-125 *)
Definition ATTR_SUBST : Z := 0x8000.
(** hdr/device.h:127-127 *)
Definition ATTR_IOCTL : Z := 0x4000.
(** hdr/device.h:129-129 *)
Definition ATTR_REMOTE : Z := 0x1000.
(** hdr/device.h:130-130 *)
Definition ATTR_EXCALLS : Z := 0x0800.
(** hdr/device.h:131-131 *)
Definition ATTR_QRYIOCTL : Z := 0x0080.
(** hdr/device.h:132-132 *)
Definition ATTR_GENIOCTL : Z := 0x0040.
(** hdr/cds.h:72-72 *)
Definition CDSSUBST : Z := 0x1000.

(** hdr/pcb.h:85-88 *)
Record lregs := LRegs { AX : Z; BX : Z; CX : Z; DX : Z; SI : Z; DI : Z; DS : Z; ES : Z }.
Definition set_AX v (r : lregs) := LRegs v (BX r) (CX r) (DX r) (SI r) (DI r) (DS r) (ES r).
Definition set_DX v (r : lregs) := LRegs (AX r) (BX r) (CX r) v (SI r) (DI r) (DS r) (ES r).
Definition lo (w : Z) : Z := Z.land w 0xff.
Definition hi (w : Z) : Z := Z.shiftr w 8.
Definition set_lo (b w : Z) : Z := Z.lor (Z.land w 0xff00) b.
Definition AL (r : lregs) : Z := lo (AX r).
Definition set_AL (b : Z) (r : lregs) : lregs := set_AX (set_lo b (AX r)) r.

(** The part of the request header that a command uses.
    hdr/device.h:334-383 *)
Inductive ioctl_args :=
  | IoTransfer (count : Z) (trans_seg trans_off : Z)
  | IoGeneric (cat fun_ si di : Z) (io_seg io_off : Z).

Class IoctlDriver (S : Type) := {
  io_execrh : Z -> Z -> Z -> ioctl_args -> system S -> Z * Z * Z * system S }.

(** The system, the settings of the network and the error for the extended error
    information. *)
Record ioctl (S : Type) := Ioctl { io_sys : system S; NetDelay : Z; NetRetry : Z; CritErrCode : Z }.
Arguments Ioctl {S}.
Arguments io_sys {S}.
Arguments NetDelay {S}.
Arguments NetRetry {S}.
Arguments CritErrCode {S}.

(** kernel/ioctl.c:59-75 *)
Definition cmd : list Z :=
  [0; 0; C_IOCTLIN; C_IOCTLOUT; C_IOCTLIN; C_IOCTLOUT; C_ISTAT; C_OSTAT; C_REMMEDIA; 0; 0; 0; C_GENIOCTL; C_GENIOCTL;
   C_GETLDEV; C_SETLDEV; C_IOCTLQRY; C_IOCTLQRY].

(** The attribute bit a device must have for a function.
    kernel/ioctl.c:224-232 *)
Definition testattr (al : Z) : Z :=
  if al <=? 0x05 then ATTR_IOCTL else if al <=? 0x07 then 0xffff else if al <=? 0x08 then ATTR_EXCALLS
  else if al <=? 0x0f then ATTR_GENIOCTL else ATTR_QRYIOCTL.

Section ioctl.
  Context {S : Type} `{!BlockCache S, !DosState S, !BlockTransfer S, !NameServices S, !DosServices S, !IoctlDriver S}.

Definition set_io_sys v (s : ioctl S) : ioctl S := Ioctl v (NetDelay s) (NetRetry s) (CritErrCode s).
Definition set_CritErrCode v (s : ioctl S) : ioctl S := Ioctl (io_sys s) (NetDelay s) (NetRetry s) v.

(** A call is finished, with its result, or goes to a device and its unit. *)
Inductive verdict :=
  | Finished (rc : Z) (r : lregs) (s : ioctl S)
  | ToDevice (dev : dhdr) (unit : Z).

(** The low byte of the flags.
    hdr/sft.h:45-52 *)
Definition set_flags_lo (b : Z) (t : sft) : sft := with_sft_flags (set_lo b (sft_flags t)) t.

(** The functions on handles; [None] is an entry of a device without a header.
    kernel/ioctl.c:102-161 *)
Definition handle_ioctl (r : lregs) (s : ioctl S) : option verdict :=
  match get_sft (BX r) (io_sys s) with
  | None => Some (Finished DE_INVLDHNDL r s)
  | Some t =>
      let flags := sft_flags t in
      let al := AL r in
      let isdev := negb (Z.land flags SFT_FDEVICE =? 0) in
      if al =? 0x00 then
        let* ax := if isdev then (fun d => Z.lor (Z.land flags 0xff) (Z.land (dh_attr d) 0xff00)) <$> device_of (sft_dcb t) (io_sys s)
                   else Some flags in
        Some (Finished SUCCESS (set_DX ax (set_AX ax r)) s)
      else if al =? 0x01 then
        if negb isdev then Some (Finished DE_INVLDFUNC r s)
        else if negb (hi (DX r) =? 0) then Some (Finished DE_INVLDDATA r s)
        else
          let s' := set_io_sys (upd_sft (set_flags_lo (Z.lor SFT_FDEVICE (lo (DX r)))) (get_sft_idx (BX r) (io_sys s)) (io_sys s)) s in
          Some (Finished SUCCESS (set_AL (lo flags) r) s')
      else if al =? 0x0a then Some (Finished SUCCESS (set_AX 0 (set_DX flags r)) s)
      else if negb isdev then
        if al =? 0x06 then Some (Finished SUCCESS (set_AL (if sft_size t <=? sft_posit t then 0 else 0xff) r) s)
        else if al =? 0x07 then Some (Finished SUCCESS (set_AL 0 r) s)
        else Some (Finished DE_INVLDFUNC r s)
      else
        let* dev := device_of (sft_dcb t) (io_sys s) in
        Some (ToDevice dev 0)
  end.

(** The functions on drives.
    kernel/ioctl.c:163-220 *)
Definition drive_ioctl (r : lregs) (s : ioctl S) : option verdict :=
  let al := AL r in
  let b := Z.land (lo (BX r)) 0x1f in
  let dsk := if b =? 0 then ns_default_drive (below (io_sys s)) else b - 1 in
  let* found :=
    match get_dpb dsk (below (io_sys s)) with
    | Some p =>
        let d := bc_dpb (below (io_sys s)) p in
        let* dev := device_of (dpb_device d) (io_sys s) in
        Some (Some (dev, dpb_subunit d))
    | None => Some None
    end in
  match found with
  | None =>
      if negb (al =? 9) then Some (Finished DE_INVLDDRV r s)
      else
        match get_cds1 b (io_sys s) with
        | None => Some (Finished DE_INVLDDRV r s)
        | Some c =>
            let attr := if negb (Z.land (cdsFlags c) CDSSUBST =? 0) then Z.lor ATTR_REMOTE ATTR_SUBST else ATTR_REMOTE in
            Some (Finished SUCCESS (set_DX attr (set_AX (Z.lor S_DONE S_BUSY) r)) s)
        end
  | Some (dev, unit) =>
      if al =? 9 then
        match get_cds1 b (io_sys s) with
        | None => Some (Finished DE_INVLDDRV r s)
        | Some c =>
            let attr := if negb (Z.land (cdsFlags c) CDSSUBST =? 0) then Z.lor (dh_attr dev) ATTR_SUBST else dh_attr dev in
            Some (Finished SUCCESS (set_DX attr (set_AX (Z.lor S_DONE S_BUSY) r)) s)
        end
      else if (al =? 0x0d) && (Z.land (CX r) (Z.lnot (0x486B - 0x084A)) =? 0x084A)
      then Some (Finished SUCCESS (set_AX 0 r) s)
      else Some (ToDevice dev unit)
  end.

(** What goes to the driver.
    kernel/ioctl.c:239-251 *)
Definition ioctl_arguments (r : lregs) : ioctl_args :=
  let al := AL r in
  if (al =? 0x0c) || (al =? 0x0d) || (0x10 <=? al) then IoGeneric (hi (CX r)) (lo (CX r)) (SI r) (DI r) (DS r) (DX r)
  else IoTransfer (CX r) (DS r) (DX r).

(** kernel/ioctl.c:263-272 *)
Definition ioctl_result (status count unit : Z) (r : lregs) : lregs :=
  let al := AL r in
  let busy := negb (Z.land status S_BUSY =? 0) in
  if al <=? 0x05 then set_AX count r
  else if al <=? 0x07 then set_AX (if busy then 0 else 0xff) r
  else if al =? 0x08 then set_AX (if busy then 1 else 0) r
  else if (al =? 0x0e) || (al =? 0x0f) then set_AL unit r
  else set_AX status r.

(** kernel/ioctl.c:223-273 *)
Definition device_ioctl (dev : dhdr) (unit : Z) (r : lregs) (s : ioctl S) : option (Z * lregs * ioctl S) :=
  if Z.land (dh_attr dev) (testattr (AL r)) =? 0 then Some (DE_INVLDFUNC, r, s)
  else
    let* command := at_ cmd (AL r) in
    let '(status, count, unit, y) := io_execrh (dh_at dev) unit command (ioctl_arguments r) (io_sys s) in
    let s := set_io_sys y s in
    if negb (Z.land status S_ERROR =? 0) then Some (DE_ACCESS, r, set_CritErrCode (Z.land status S_MASK + 0x13) s)
    else Some (SUCCESS, ioctl_result status count unit r, s).

(** The functions that are about a handle.
    kernel/ioctl.c:93-101 *)
Definition on_handle (al : Z) : bool := existsb (Z.eqb al) [0x00; 0x01; 0x02; 0x03; 0x06; 0x07; 0x0a; 0x0c; 0x10].

(** kernel/ioctl.c:77-274 *)
Definition DosDevIOctl (r : lregs) (s : ioctl S) : option (Z * lregs * ioctl S) :=
  let al := AL r in
  if 0x11 <? al then Some (DE_INVLDFUNC, r, s)
  else if al =? 0x0b then
    Some (SUCCESS, r, Ioctl (io_sys s) (lo (CX r)) (if negb (DX r =? 0) then lo (DX r) else NetRetry s) (CritErrCode s))
  else
    let* v := if on_handle al then handle_ioctl r s else drive_ioctl r s in
    match v with
    | Finished rc r s => Some (rc, r, s)
    | ToDevice dev unit => device_ioctl dev unit r s
    end.

End ioctl.
