(* ===== verification/IoctlThms.v ===== *)
(** * Device control: the properties, and a sample *)

From S2P Require Import Prelude Hdr Share Dpb Blockio BlockioRing BlockioSpec CacheSpec Fattab Fnode Cluster Names Fatdir Fileio FileioSpec Newstuff NewstuffThms.
From S2P Require Import FattabSpec ClusterSpec ClusterThms FatdirSpec FatdirThms Chario Dosfns Dosname DosfnsThms Ioctl.

Lemma set_lo_spec b w : 0 <= b < 256 -> lo (set_lo b w) = b /\ Z.land (set_lo b w) SFT_FDEVICE = Z.land b SFT_FDEVICE.
Proof.
  intros Hb. unfold lo, set_lo, SFT_FDEVICE.
  assert (B : Z.land b 0xff = b) by (change 0xff with (Z.ones 8); rewrite Z.land_ones by lia; apply Z.mod_small; done).
  rewrite !Z.land_lor_distr_l, <- !Z.land_assoc. change (Z.land 0xff00 0xff) with 0. change (Z.land 0xff00 0x80) with 0.
  by rewrite !Z.land_0_r, !Z.lor_0_l, B.
Qed.

Section properties.
  Context {S : Type} `{!BlockCache S, !DosState S, !BlockTransfer S, !NameServices S, !DosServices S, !IoctlDriver S}.

(** A call of a function with the registers DX and CX on a handle. *)
Definition call (al hndl dx cx : Z) : lregs := LRegs (0x4400 + al) hndl cx dx 0 0 0 0.

(** The information of a device handle that is set is the one that is read: function
    1 accepts a byte for every handle of a device and answers the old one in AL, and
    function 0 then answers this byte, with the device bit, and the high byte of the
    attribute of the driver, in AX and in DX.  No other entry of the system file tables
    changes, the drivers are not called. *)
Theorem device_information_roundtrip hndl dl t dev (s : ioctl S) :
  get_sft hndl (io_sys s) = Some t -> Z.land (sft_flags t) SFT_FDEVICE <> 0 -> device_of (sft_dcb t) (io_sys s) = Some dev ->
  0 <= dl < 256 ->
  exists r1 s1 r2, DosDevIOctl (call 1 hndl dl 0) s = Some (SUCCESS, r1, s1) /\ AL r1 = lo (sft_flags t) /\
    DosDevIOctl (call 0 hndl 0 0) s1 = Some (SUCCESS, r2, s1) /\
    AX r2 = Z.lor (Z.lor SFT_FDEVICE dl) (Z.land (dh_attr dev) 0xff00) /\ DX r2 = AX r2 /\
    below (io_sys s1) = below (io_sys s) /\
    forall j, 0 <= j -> j <> get_sft_idx hndl (io_sys s) -> find_sft (sfthead (io_sys s1)) j = find_sft (sfthead (io_sys s)) j.
Proof.
  intros Ht Hd Hdev Hdl. set (i := get_sft_idx hndl (io_sys s)).
  set (b := Z.lor SFT_FDEVICE dl). set (f := set_flags_lo b).
  assert (Hb : 0 <= b < 256).
  { subst b. assert ((0 <=? Z.lor SFT_FDEVICE dl) && (Z.lor SFT_FDEVICE dl <? 256) = true) as Hr; [|lia].
    by apply (forall_range (fun x => (0 <=? Z.lor SFT_FDEVICE x) && (Z.lor SFT_FDEVICE x <? 256)) 0 256); [vm_compute|]. }
  destruct (upd_sft_spec f (io_sys s) i t Ht eq_refl) as [Ht1 Hj]. set (y1 := upd_sft f i (io_sys s)) in *.
  assert (Hi1 : get_sft hndl y1 = Some (f t)) by exact Ht1.
  destruct (set_lo_spec b (sft_flags t) Hb) as [Hlo Hfl].
  assert (Hne : negb (Z.land (sft_flags (f t)) SFT_FDEVICE =? 0) = true).
  { apply negb_true_iff, Z.eqb_neq. change (sft_flags (f t)) with (set_lo b (sft_flags t)). rewrite Hfl. subst b.
    rewrite Z.land_lor_distr_l. intros E%Z.lor_eq_0_iff. by destruct E. }
  eexists _, (set_io_sys y1 s), _. split; [|split; [|split; [|split; [|split; [|split]]]]].
  - unfold DosDevIOctl, handle_ioctl. change (AL (call 1 hndl dl 0)) with 1. change (on_handle 1) with true. cbn [Z.ltb Z.eqb Z.compare Pos.compare Pos.compare_cont Pos.eqb].
    change (BX (call 1 hndl dl 0)) with hndl. rewrite Ht. rewrite (proj2 (Z.eqb_neq _ _) Hd). cbn [negb].
    assert ((hi (DX (call 1 hndl dl 0)) =? 0) = true) as ->.
    { apply Z.eqb_eq. cbn [DX call]. unfold hi. rewrite Z.shiftr_div_pow2 by lia. by apply Z.div_small. }
    assert (lo (DX (call 1 hndl dl 0)) = dl) as ->.
    { cbn [DX call]. unfold lo. change 0xff with (Z.ones 8). rewrite Z.land_ones by lia. by apply Z.mod_small. }
    reflexivity.
  - unfold AL, set_AL. cbn [AX set_AX]. apply set_lo_spec. unfold lo. change 0xff with (Z.ones 8). rewrite Z.land_ones by lia.
    apply Z.mod_pos_bound. lia.
  - unfold DosDevIOctl, handle_ioctl. change (AL (call 0 hndl 0 0)) with 0. change (on_handle 0) with true. cbn [Z.ltb Z.eqb Z.compare].
    change (BX (call 0 hndl 0 0)) with hndl. change (io_sys (set_io_sys y1 s)) with y1. rewrite Hi1, Hne.
    change (device_of (sft_dcb (f t)) y1) with (device_of (sft_dcb t) (io_sys s)). rewrite Hdev. reflexivity.
  - cbn [AX set_DX set_AX call]. change (sft_flags (f t)) with (set_lo b (sft_flags t)). unfold lo in Hlo. by rewrite Hlo.
  - reflexivity.
  - reflexivity.
  - exact Hj.
Qed.

End properties.

(** ** A sample: the console *)

#[local] Instance console_names : NameServices (bio disk) := {
  ns_set_ldt _ s := s;
  ns_cut_path _ _ s := s;
  ns_default_drive _ := 2;
  ns_njoined _ := 0;
  ns_qremote _ s := Some (DE_INVLDFUNC, [], s);
  ns_devices _ := [Dhdr 0x70 0x8013 (str "CON     ")];
  ns_up_fchar c := c;
  ns_os_major _ := 7 }.

#[local] Instance silent_driver : IoctlDriver (bio disk) := {
  io_execrh _ _ _ _ y := (S_DONE, 0, 0, y) }.

Definition console_sft : sft := Sft 1 0 0x40 0x80d3 0x70 0 0 0 0 0 0 0 0 (str "CON        ") 0 0 (-1) 0.
Definition console_system : ioctl (bio disk) := Ioctl (System dir_bio [[console_sft]] false (init 0 0) 0 [0; 255]) 0 0 0.

Lemma device_information_roundtrip_witness : exists r1 s1 r2,
  DosDevIOctl (call 1 0 0x53 0) console_system = Some (SUCCESS, r1, s1) /\ AL r1 = 0xd3 /\
  DosDevIOctl (call 0 0 0 0) s1 = Some (SUCCESS, r2, s1) /\ AX r2 = 0x80d3 /\ DX r2 = AX r2 /\
  below (io_sys s1) = dir_bio /\
  forall j, 0 <= j -> j <> 0 -> find_sft (sfthead (io_sys s1)) j = find_sft [[console_sft]] j.
Proof.
  apply (device_information_roundtrip 0 0x53 console_sft (Dhdr 0x70 0x8013 (str "CON     ")) console_system);
    [reflexivity|done|reflexivity|lia].
Defined.
