(* ===== verification/Nls.v ===== *)
(** * National language support ([kernel/nls.c], [hdr/nls.h])

    The packages of countries and code pages, upper-casing, the yes-or-no test and
    the data of a country, directly or through the multiplex interrupt 2fh. *)

From S2P Require Import Prelude Hdr Bytes.

(** ** Data *)

(** hdr/nls.h:290-290 *)
Definition NLS_FREEDOS_NLSFUNC_ID : Z := 0x534b.
(** hdr/nls.h:294-294 *)
Definition NLS_FREEDOS_NLSFUNC_VERSION : Z := 0xfd02.
(** hdr/nls.h:297-297 *)
Definition NLS_DOS_38 : Z := 0x101.
(** hdr/nls.h:306-306 *)
Definition NLSFUNC_INSTALL_CHECK : Z := 0.
(** hdr/nls.h:307-307 *)
Definition NLSFUNC_DOS38 : Z := 4.
(** hdr/nls.h:308-308 *)
Definition NLSFUNC_GETDATA : Z := 2.
(** hdr/nls.h:309-309 *)
Definition NLSFUNC_DRDOS_GETDATA : Z := 0xfe.
(** hdr/nls.h:310-310 *)
Definition NLSFUNC_LOAD_PKG : Z := 3.
(** hdr/nls.h:311-311 *)
Definition NLSFUNC_LOAD_PKG2 : Z := 1.
(** hdr/nls.h:312-312 *)
Definition NLSFUNC_UPMEM : Z := 0x22.
(** hdr/nls.h:313-313 *)
Definition NLSFUNC_YESNO : Z := 0x23.
(** hdr/nls.h:314-314 *)
Definition NLSFUNC_FILE_UPMEM : Z := 0xa2.
(** hdr/nls.h:328-328 *)
Definition NLS_FLAG_DIRECT_UPCASE : Z := 0x0001.
(** hdr/nls.h:329-329 *)
Definition NLS_FLAG_DIRECT_FUPCASE : Z := 0x0002.
(** hdr/nls.h:330-330 *)
Definition NLS_FLAG_DIRECT_YESNO : Z := 0x0004.
(** hdr/nls.h:331-331 *)
Definition NLS_FLAG_DIRECT_GETDATA : Z := 0x0008.
(** hdr/nls.h:339-339 *)
Definition NLS_DEFAULT : Z := 0xffff.

(** A package; [nlsPointers] are the bytes from that field on: entries of a number
    and a far pointer, the one of number 1 in place.
    hdr/nls.h:420-434 *)
Record nlsPackage := NlsPackage {
  cntry : Z;
  cp : Z;
  flags : Z;
  yeschar : Z;
  nochar : Z;
  numSubfct : Z;
  nlsPointers : list Z }.

(** hdr/nls.h:411-418 *)
Definition sizeof_nlsPointer : Z := 5.

(** The block shared with NLSFUNC; a package is known by its place in the chain,
    and [far] gives the bytes from a far pointer on.
    hdr/nls.h:467-476 *)
Record nlsInfoBlock := NlsInfo {
  sysCodePage : Z;
  actPkg : nat;
  chain : list nlsPackage;
  far : Z -> list Z }.

Definition with_actPkg (i : nat) (b : nlsInfoBlock) : nlsInfoBlock := NlsInfo (sysCodePage b) i (chain b) (far b).

(** The state that holds the block, the multiplex interrupt with AH = 14h (BP, the
    buffer, AL, BX, DX, CX; the result is AX, BX and the buffer), and a message. *)
Class NlsHost (S : Type) := {
  nh_info : S -> nlsInfoBlock;
  nh_set_info : nlsInfoBlock -> S -> S;
  nh_mux : Z -> list Z -> Z -> Z -> Z -> Z -> S -> option (Z * Z * list Z * S);
  nh_put_string : list Z -> S -> S }.

(** ** Tables *)

Definition pkg (i : nat) (b : nlsInfoBlock) : option nlsPackage := chain b !! i.
Definition active (b : nlsInfoBlock) : option nlsPackage := pkg (actPkg b) b.

(** The first package of a code page and a country; the inner [None] is the null
    pointer.
    kernel/nls.c:165-179 *)
Definition searchPackage (cp' cntry' : Z) (b : nlsInfoBlock) : option (option nat) :=
  let* a := active b in
  let cp' := if cp' =? NLS_DEFAULT then cp a else cp' in
  let cntry' := if cntry' =? NLS_DEFAULT then cntry a else cntry' in
  Some (fst <$> list_find (fun p => cp p = cp' /\ cntry p = cntry') (chain b)).

(** The loop over the entries.
    kernel/nls.c:190-192 *)
Fixpoint locate (cnt : nat) (off : Z) (subfct : Z) (l : list Z) : option (option Z) :=
  match cnt with
  | O => Some None
  | Datatypes.S cnt =>
      let* n := at_ l off in
      if n =? u8 subfct then Some (Some off) else locate cnt (off + sizeof_nlsPointer) subfct l
  end.

(** kernel/nls.c:184-195 *)
Definition locateSubfct (p : nlsPackage) (subfct : Z) : option (option Z) :=
  locate (Z.to_nat (numSubfct p)) 0 subfct (nlsPointers p).

(** The table behind the pointer of an entry.
    kernel/nls.c:76-78 *)
Definition getTable (i : Z) (p : nlsPackage) (b : nlsInfoBlock) : option (list Z) :=
  let* ptr := get32 (nlsPointers p) (i * sizeof_nlsPointer + 1) in Some (far b ptr).

Definition getTable2 := getTable 0.
Definition getTable4 := getTable 1.
Definition getTable7 := getTable 4.

(** The characters of a table, from 80h on.
    kernel/nls.c:87-90 *)
Definition getCharTbl (t : list Z) : list Z := drop 2 t.

(** What is copied fits, and the buffer has that room.
    kernel/nls.c:237-246 *)
Definition cpyBuf (dst : list Z) (dstlen : Z) (src : list Z) (srclen : Z) : option (Z * list Z) :=
  if srclen <=? dstlen then
    if (length dst <? Z.to_nat srclen)%nat || (length src <? Z.to_nat srclen)%nat then None
    else Some (SUCCESS, take (Z.to_nat srclen) src ++ drop (Z.to_nat srclen) dst)
  else Some (DE_INVLDFUNC, dst).

(** kernel/nls.c:271-274 *)
Definition upcase (map : list Z) (c : Z) : option Z :=
  if (ch "a" <=? c) && (c <=? ch "z") then Some (c - 32)
  else if 0x7f <? c then at_ map (c - 0x80)
  else Some c.

(** kernel/nls.c:252-284 *)
Fixpoint upMMem (map str : list Z) (len : nat) : option (list Z) :=
  match len with
  | O => Some str
  | Datatypes.S len =>
      match str with
      | [] => None
      | c :: str =>
          let* c := upcase map c in
          let* str := upMMem map str len in
          Some (c :: str)
      end
  end.

(** ** The low-level interface *)

(** kernel/nls.c:294-335 *)
Definition nlsGetData (p : nlsPackage) (subfct : Z) (buf : list Z) (bufsize : Z) : option (Z * list Z) :=
  let* poi := locateSubfct p subfct in
  match poi with
  | Some off =>
      let rest := drop (Z.to_nat off) (nlsPointers p) in
      if subfct =? 1 then
        let* size := get16 rest 1 in cpyBuf buf bufsize rest (u16 (s16 size + 3))
      else if subfct =? NLS_DOS_38 then cpyBuf buf bufsize (drop 7 rest) 24
      else cpyBuf buf bufsize rest sizeof_nlsPointer
  | None => Some (DE_INVLDFUNC, buf)
  end.

(** kernel/nls.c:413-417 *)
Definition nlsUpMem (p : nlsPackage) (str : list Z) (len : Z) (b : nlsInfoBlock) : option (list Z) :=
  let* t := getTable2 p b in upMMem (getCharTbl t) str (Z.to_nat (u16 len)).

(** kernel/nls.c:418-422 *)
Definition nlsFUpMem (p : nlsPackage) (str : list Z) (len : Z) (b : nlsInfoBlock) : option (list Z) :=
  let* t := getTable4 p b in upMMem (getCharTbl t) str (Z.to_nat (u16 len)).

(** The loop over the ranges of lead bytes, which ends with a range 0.
    kernel/nls.c:445-447 *)
Fixpoint lead_byte (c : Z) (t : list Z) : option bool :=
  match t with
  | lo :: hi :: t =>
      if (lo =? 0) && (hi =? 0) then Some false
      else if (lo <=? c) && (c <=? hi) then Some true
      else lead_byte c t
  | _ => None
  end.

(** kernel/nls.c:436-451 *)
Definition nlsIsDBCS (c : Z) (b : nlsInfoBlock) : option bool :=
  if c <? 128 then Some false
  else let* a := active b in let* t := getTable7 a b in lead_byte c (drop 2 t).

Section services.
  Context {S : Type} `{!NlsHost S}.

Definition has_flag (f : Z) (p : nlsPackage) : bool := negb (Z.land (flags p) f =? 0).

(** ** The multiplex interrupt *)

(** kernel/nls.c:99-108 *)
Definition muxGo (subfct bp cp cntry bufsize : Z) (buf : list Z) (s : S) : option (Z * Z * list Z * S) :=
  nh_mux bp buf (u8 subfct) cp cntry bufsize s.

(** kernel/nls.c:142-149 *)
Definition muxBufGo (subfct bp cp cntry bufsize : Z) (buf : list Z) (s : S) : option (Z * list Z * S) :=
  let* (ax, _, buf, s) := muxGo subfct bp cp cntry bufsize buf s in Some (s16 ax, buf, s).

(** kernel/nls.c:113-140 *)
Definition muxLoadPkg (subfct cp cntry : Z) (s : S) : option (Z * S) :=
  let* (ax, bx, _, s) := muxGo 0 0 NLS_FREEDOS_NLSFUNC_VERSION 0 NLS_FREEDOS_NLSFUNC_ID [] s in
  if negb (s16 ax =? 0x14ff) then Some (DE_FILENOTFND, s)
  else if negb (s16 bx =? NLS_FREEDOS_NLSFUNC_ID) then Some (DE_INVLDACC, s)
  else let* (ax, _, _, s) := muxGo subfct 0 cp cntry 0 [] s in Some (s16 ax, s).

(** ** Changing the package *)

(** kernel/nls.c:337-341 *)
Definition nlsCPchange (s : S) : S :=
  nh_put_string (7 :: 10 :: str "change codepage not yet done ska" ++ [10]) s.

(** kernel/nls.c:364-375 *)
Definition nlsSetPackage (i : nat) (s : S) : option (Z * S) :=
  let* p := pkg i (nh_info s) in
  let* a := active (nh_info s) in
  let s := if cp p =? cp a then s else nlsCPchange s in
  Some (SUCCESS, nh_set_info (with_actPkg i (nh_info s)) s).

(** kernel/nls.c:376-391 *)
Definition DosSetPackage (cp cntry : Z) (s : S) : option (Z * S) := muxLoadPkg NLSFUNC_LOAD_PKG2 cp cntry s.

(** kernel/nls.c:393-399 *)
Definition nlsLoadPackage (i : nat) (s : S) : Z * S := (SUCCESS, nh_set_info (with_actPkg i (nh_info s)) s).

(** kernel/nls.c:400-411 *)
Definition DosLoadPackage (cp cntry : Z) (s : S) : option (Z * S) :=
  let* nls := searchPackage cp cntry (nh_info s) in
  match nls with
  | Some i => Some (nlsLoadPackage i s)
  | None => muxLoadPkg NLSFUNC_LOAD_PKG cp cntry s
  end.

(** ** Upper-casing and yes or no *)

(** kernel/nls.c:424-434 *)
Definition xUpMem (p : nlsPackage) (str : list Z) (len : Z) (s : S) : option (list Z * S) :=
  if has_flag NLS_FLAG_DIRECT_UPCASE p then
    let* str := nlsUpMem p str len (nh_info s) in Some (str, s)
  else
    let* (_, str, s) := muxBufGo NLSFUNC_UPMEM 0 (cp p) (cntry p) len str s in Some (str, s).

(** kernel/nls.c:453-476 *)
Definition nlsYesNo (p : nlsPackage) (c : Z) (s : S) : option (Z * S) :=
  let* dbcs := nlsIsDBCS (Z.land c 0xff) (nh_info s) in
  let* (c, s) :=
    if dbcs then Some (c, s)
    else
      let* (l, s) := xUpMem p [Z.land c 0xff] 1 s in
      let* c := at_ l 0 in Some (c, s) in
  Some (if c =? yeschar p then 1 else if c =? nochar p then 0 else 2, s).

(** kernel/nls.c:482-489 *)
Definition DosYesNo (c : Z) (s : S) : option (Z * S) :=
  let* a := active (nh_info s) in
  if has_flag NLS_FLAG_DIRECT_YESNO a then nlsYesNo a c s
  else
    let* (r, _, s) := muxBufGo NLSFUNC_YESNO 0 NLS_DEFAULT NLS_DEFAULT c [] s in Some (u8 r, s).

(** kernel/nls.c:492-495 *)
Definition DosUpMem (str : list Z) (len : Z) (s : S) : option (list Z * S) :=
  let* a := active (nh_info s) in xUpMem a str len s.

(** kernel/nls.c:504-511 *)
Definition DosUpChar (c : Z) (s : S) : option (Z * S) :=
  let* (l, s) := DosUpMem [c] 1 s in let* c := at_ l 0 in Some (c, s).

(** kernel/nls.c:513-517 *)
Definition DosUpString (str : list Z) (s : S) : option (list Z * S) :=
  let* l := cstr str in DosUpMem str (Z.of_nat (length l)) s.

(** kernel/nls.c:519-534 *)
Definition DosUpFMem (str : list Z) (len : Z) (s : S) : option (list Z * S) :=
  let* a := active (nh_info s) in
  if has_flag NLS_FLAG_DIRECT_FUPCASE a then
    let* str := nlsFUpMem a str len (nh_info s) in Some (str, s)
  else
    let* (_, str, s) := muxBufGo NLSFUNC_FILE_UPMEM 0 NLS_DEFAULT NLS_DEFAULT len str s in Some (str, s).

(** kernel/nls.c:536-541 *)
Definition DosUpFChar (c : Z) (s : S) : option (Z * S) :=
  let* (l, s) := DosUpFMem [c] 1 s in let* c := at_ l 0 in Some (c, s).

(** kernel/nls.c:543-547 *)
Definition DosUpFString (str : list Z) (s : S) : option (list Z * S) :=
  let* l := cstr str in DosUpFMem str (Z.of_nat (length l)) s.

(** ** The data of a country *)

(** [None] is the null pointer.
    kernel/nls.c:557-586 *)
Definition DosGetData (subfct cp' cntry' bufsize : Z) (buf : option (list Z)) (s : S) : option (Z * option (list Z) * S) :=
  match buf with
  | None => Some (DE_INVLDDATA, None, s)
  | Some buf =>
      if bufsize =? 0 then Some (DE_INVLDDATA, Some buf, s)
      else if subfct =? 0 then Some (DE_INVLDFUNC, Some buf, s)
      else
        let mux cp' cntry' :=
          let* (rc, buf, s) :=
            if subfct =? NLS_DOS_38 then muxBufGo 4 0 cp' cntry' bufsize buf s
            else muxBufGo 2 subfct cp' cntry' bufsize buf s in
          Some (rc, Some buf, s) in
        let* nls := searchPackage cp' cntry' (nh_info s) in
        match nls with
        | Some i =>
            let* p := pkg i (nh_info s) in
            if has_flag NLS_FLAG_DIRECT_GETDATA p then
              let* (rc, buf) := nlsGetData p subfct buf bufsize in Some (rc, Some buf, s)
            else mux (cp p) (cntry p)
        | None => mux cp' cntry'
        end
  end.

(** kernel/nls.c:604-607 *)
Definition DosGetCountryInformation (cntry : Z) (buf : option (list Z)) (s : S) :=
  DosGetData NLS_DOS_38 NLS_DEFAULT cntry 0x18 buf s.

(** kernel/nls.c:614-617 *)
Definition DosSetCountry (cntry : Z) (s : S) : option (Z * S) := DosLoadPackage NLS_DEFAULT cntry s.

(** The active and the system code page.
    kernel/nls.c:623-628 *)
Definition DosGetCodepage (s : S) : option (Z * Z) :=
  let* a := active (nh_info s) in Some (cp a, sysCodePage (nh_info s)).

(** kernel/nls.c:635-640 *)
Definition DosSetCodepage (actCP sysCP : Z) (s : S) : option (Z * S) :=
  if (sysCP =? NLS_DEFAULT) || (sysCP =? sysCodePage (nh_info s)) then DosSetPackage actCP NLS_DEFAULT s
  else Some (DE_INVLDDATA, s).

(** kernel/nls.c:642-645 *)
Definition DosGetDBCS (s : S) : option Z :=
  let* a := active (nh_info s) in get32 (nlsPointers a) (4 * sizeof_nlsPointer + 1).

(** ** The handler of the kernel at the multiplex interrupt *)

(** The registers AL, BP, BX, CX, DX and the buffer at ES:DI; the results are AX,
    BX and the buffer.
    kernel/nls.c:662-717 *)
Definition syscall_MUX14 (al bp bx cx dx : Z) (buf : list Z) (s : S) : option (Z * Z * list Z * S) :=
  let data (r : option (Z * list Z)) := let* (rc, buf) := r in Some (u16 rc, bx, buf, s) in
  let* nls := searchPackage bx dx (nh_info s) in
  match nls with
  | None => Some (u16 DE_INVLDFUNC, bx, buf, s)
  | Some i =>
      let* p := pkg i (nh_info s) in
      if al =? NLSFUNC_INSTALL_CHECK then Some (SUCCESS, NLS_FREEDOS_NLSFUNC_ID, buf, s)
      else if al =? NLSFUNC_DOS38 then data (nlsGetData p NLS_DOS_38 buf 34)
      else if al =? NLSFUNC_GETDATA then data (nlsGetData p (s16 bp) buf cx)
      else if al =? NLSFUNC_DRDOS_GETDATA then data (nlsGetData p (u8 cx) buf 512)
      else if al =? NLSFUNC_LOAD_PKG then let '(rc, s) := nlsLoadPackage i s in Some (u16 rc, bx, buf, s)
      else if al =? NLSFUNC_LOAD_PKG2 then let* (rc, s) := nlsSetPackage i s in Some (u16 rc, bx, buf, s)
      else if al =? NLSFUNC_YESNO then let* (rc, s) := nlsYesNo p cx s in Some (u16 rc, bx, buf, s)
      else if al =? NLSFUNC_UPMEM then let* str := nlsUpMem p buf cx (nh_info s) in Some (SUCCESS, bx, str, s)
      else if al =? NLSFUNC_FILE_UPMEM then let* str := nlsFUpMem p buf cx (nh_info s) in Some (SUCCESS, bx, str, s)
      else Some (u16 DE_INVLDFUNC, bx, buf, s)
  end.

(** ** The calls of programs ([kernel/inthndlr.c]) *)

(** Int 21h with AH = 38h: AL, BX, DX and the buffer; the results are the error or
    the new AX and BX.
    kernel/inthndlr.c:846-872 *)
Definition int21_38 (al bx dx : Z) (buf : option (list Z)) (s : S) : option (Z * option Z * option (list Z) * S) :=
  let cntry := if al =? 0xff then bx else al in
  if dx =? 0xffff then let* (rc, s) := DosSetCountry cntry s in Some (rc, None, buf, s)
  else
    let cntry := if cntry =? 0 then u16 (cntry - 1) else cntry in
    let* (rc, buf, s) := DosGetCountryInformation cntry buf s in
    Some (rc, if SUCCESS <=? rc then Some (if cntry =? 0xffff then 1 else cntry) else None, buf, s).

(** Int 21h with AH = 65h: AL, BX, CX, DX, the memory at DS:DX and the buffer at
    ES:DI; the results are the error, AX, DL and both.
    kernel/inthndlr.c:1368-1406 *)
Definition int21_65 (al bx cx dx : Z) (mem : list Z) (buf : option (list Z)) (s : S)
    : option (Z * Z * Z * list Z * option (list Z) * S) :=
  let ax := 0x6500 + al in
  let dl := u8 dx in
  if al =? 0x20 then let* (c, s) := DosUpChar dl s in Some (SUCCESS, ax, c, mem, buf, s)
  else if al =? 0x21 then let* (l, s) := DosUpMem mem cx s in Some (SUCCESS, ax, dl, l, buf, s)
  else if al =? 0x22 then let* (l, s) := DosUpString mem s in Some (SUCCESS, ax, dl, l, buf, s)
  else if al =? 0xa0 then let* (c, s) := DosUpFChar dl s in Some (SUCCESS, ax, c, mem, buf, s)
  else if al =? 0xa1 then let* (l, s) := DosUpFMem mem cx s in Some (SUCCESS, ax, dl, l, buf, s)
  else if al =? 0xa2 then let* (l, s) := DosUpFString mem s in Some (SUCCESS, ax, dl, l, buf, s)
  else if al =? 0x23 then let* (r, s) := DosYesNo dl s in Some (SUCCESS, r, dl, mem, buf, s)
  else let* (rc, buf, s) := DosGetData al bx dx cx buf s in Some (rc, ax, dl, mem, buf, s).

(** Int 21h with AH = 66h; the results are the error, BX and DX.
    kernel/inthndlr.c:1409-1424 *)
Definition int21_66 (al bx dx : Z) (s : S) : option (Z * Z * Z * S) :=
  if al =? 1 then let* (act, sys) := DosGetCodepage s in Some (SUCCESS, act, sys, s)
  else if al =? 2 then let* (rc, s) := DosSetCodepage bx dx s in Some (rc, bx, dx, s)
  else Some (DE_INVLDFUNC, bx, dx, s).

End services.
