(* ===== verification/NlsThms.v ===== *)
(** * National language support: properties *)

From S2P Require Import Prelude Hdr Bytes Nls.

(** ** The kernel alone

    Without NLSFUNC the handler of the kernel is the only one at the multiplex
    interrupt; [n] bounds the calls of the handler from within the handler. *)

Fixpoint kernel_mux (n : nat) (bp : Z) (buf : list Z) (al bx dx cx : Z) (b : nlsInfoBlock)
    : option (Z * Z * list Z * nlsInfoBlock) :=
  match n with
  | O => None
  | S n =>
      syscall_MUX14 (NlsHost0 := {| nh_info b := b; nh_set_info b _ := b; nh_mux := kernel_mux n; nh_put_string _ b := b |})
        al bp bx cx dx buf b
  end.

Definition kernel_host (n : nat) : NlsHost nlsInfoBlock :=
  {| nh_info b := b; nh_set_info b _ := b; nh_mux := kernel_mux n; nh_put_string _ b := b |}.

Lemma kernel_mux_S n bp buf al bx dx cx b :
  nh_mux (NlsHost := kernel_host (S n)) bp buf al bx dx cx b = syscall_MUX14 (NlsHost0 := kernel_host n) al bp bx cx dx buf b.
Proof. done. Qed.

(** No two packages have the same code page and country, and these are not the
    number of the default. *)
Record well_keyed (b : nlsInfoBlock) : Prop := {
  wk_inj i j p q : pkg i b = Some p -> pkg j b = Some q -> cp p = cp q -> cntry p = cntry q -> i = j;
  wk_default i p : pkg i b = Some p -> cp p <> NLS_DEFAULT /\ cntry p <> NLS_DEFAULT }.

(** ** Searching *)

Lemma search_own b i p : well_keyed b -> is_Some (active b) -> pkg i b = Some p ->
  searchPackage (cp p) (cntry p) b = Some (Some i).
Proof.
  intros [Hinj Hdef] [a Ha] Hp. destruct (Hdef i p Hp). unfold searchPackage. rewrite Ha.
  rewrite !(proj2 (Z.eqb_neq _ _)) by done. f_equal.
  destruct (list_find _ (chain b)) as [[j q]|] eqn:E; cbn.
  - apply list_find_Some in E as (Hq & [E1 E2] & _). f_equal. by apply (Hinj j i q p).
  - apply list_find_None in E. rewrite list.Forall_forall in E. exfalso. apply (E p); [|done]. by apply list_elem_of_lookup_2 with i.
Qed.

Lemma search_default b a : well_keyed b -> active b = Some a ->
  searchPackage NLS_DEFAULT NLS_DEFAULT b = Some (Some (actPkg b)).
Proof.
  intros Hw Ha. rewrite <- (search_own b (actPkg b) a Hw (mk_is_Some _ _ Ha) Ha).
  unfold searchPackage. rewrite Ha. destruct (wk_default b Hw _ _ Ha).
  by rewrite Z.eqb_refl, !(proj2 (Z.eqb_neq _ _)) by done.
Qed.

Lemma search_found b cp' cntry' i : searchPackage cp' cntry' b = Some (Some i) -> is_Some (pkg i b).
Proof.
  unfold searchPackage. destruct (active b); [|done]. intros [= E]. destruct (list_find _ _) as [[j q]|] eqn:F; [|done].
  injection E as <-. apply list_find_Some in F as (Hq & _). by exists q.
Qed.

Lemma s16_small r : -32768 <= r < 32768 -> s16 (u16 r) = r.
Proof. intros. word_lia. Qed.

(** ** What the services do, whatever the flags *)

Section alone.
  Context (n : nat) (b : nlsInfoBlock).
  Hypothesis keyed : well_keyed b.
  #[local] Abbreviation host := (kernel_host (S (S n))).

Lemma xUpMem_plain k i p str len : is_Some (active b) -> pkg i b = Some p ->
  xUpMem (NlsHost0 := kernel_host (S k)) p str len b = (fun l => (l, b)) <$> nlsUpMem p str len b.
Proof.
  intros Ha Hp. unfold xUpMem. destruct (has_flag _ _).
  - cbn. by destruct (nlsUpMem p str len b).
  - unfold muxBufGo, muxGo. rewrite kernel_mux_S. unfold syscall_MUX14. cbn [nh_info kernel_host].
    rewrite (search_own b i p) by done. rewrite Hp. cbn. by destruct (nlsUpMem p str len b).
Qed.

Lemma upmem_plain str len :
  DosUpMem (NlsHost0 := host) str len b = (let* a := active b in (fun l => (l, b)) <$> nlsUpMem a str len b).
Proof. unfold DosUpMem. cbn [nh_info kernel_host]. destruct (active b) as [a|] eqn:Ha; [|done]. by apply (xUpMem_plain _ (actPkg b)). Qed.

Lemma upfmem_plain str len :
  DosUpFMem (NlsHost0 := host) str len b = (let* a := active b in (fun l => (l, b)) <$> nlsFUpMem a str len b).
Proof.
  unfold DosUpFMem. cbn [nh_info kernel_host]. destruct (active b) as [a|] eqn:Ha; [|done]. destruct (has_flag _ _).
  - by destruct (nlsFUpMem a str len b).
  - unfold muxBufGo, muxGo. rewrite kernel_mux_S. unfold syscall_MUX14. cbn [nh_info kernel_host].
    rewrite (search_default b a) by done. change (pkg (actPkg b) b) with (active b). rewrite Ha. cbn. by destruct (nlsFUpMem a str len b).
Qed.

(** The answer to yes or no. *)
Definition answer (p : nlsPackage) (c : Z) : Z := if c =? yeschar p then 1 else if c =? nochar p then 0 else 2.
Definition yes_no (p : nlsPackage) (c : Z) : option Z :=
  let* dbcs := nlsIsDBCS (Z.land c 0xff) b in
  if dbcs then Some (answer p c)
  else let* l := nlsUpMem p [Z.land c 0xff] 1 b in let* c := at_ l 0 in Some (answer p c).

Lemma nlsYesNo_plain k i p c : is_Some (active b) -> pkg i b = Some p ->
  nlsYesNo (NlsHost0 := kernel_host (S k)) p c b = (fun r => (r, b)) <$> yes_no p c.
Proof.
  intros Ha Hp. unfold nlsYesNo, yes_no. cbn [nh_info kernel_host]. destruct (nlsIsDBCS _ _) as [[]|]; [done| |done].
  rewrite (xUpMem_plain k i p) by done. destruct (nlsUpMem p _ 1 b) as [l|]; [|done]. cbn. by destruct (at_ l 0).
Qed.

Lemma answer_range p c : 0 <= answer p c <= 2.
Proof. unfold answer. repeat case_match; lia. Qed.

Lemma yes_no_range p c r : yes_no p c = Some r -> 0 <= r <= 2.
Proof.
  unfold yes_no. pose proof (answer_range p). destruct (nlsIsDBCS _ _) as [[]|]; [by intros [= <-]| |done].
  destruct (nlsUpMem _ _ _ _) as [l|]; [|done]. destruct (at_ l 0); [|done]. by intros [= <-].
Qed.

Lemma yesno_plain c :
  DosYesNo (NlsHost0 := host) c b = (let* a := active b in (fun r => (r, b)) <$> yes_no a c).
Proof.
  unfold DosYesNo. cbn [nh_info kernel_host]. destruct (active b) as [a|] eqn:Ha; [|done]. destruct (has_flag _ _).
  - by apply (nlsYesNo_plain _ (actPkg b)).
  - unfold muxBufGo, muxGo. rewrite kernel_mux_S. unfold syscall_MUX14. cbn [nh_info kernel_host].
    rewrite (search_default b a) by done. change (pkg (actPkg b) b) with (active b). rewrite Ha.
    change (u8 NLSFUNC_YESNO) with NLSFUNC_YESNO. cbn [NLSFUNC_YESNO]. simpl Z.eqb. cbv iota.
    rewrite (nlsYesNo_plain n (actPkg b)) by done. destruct (yes_no a c) as [r|] eqn:Er; [|done]. cbn.
    apply yes_no_range in Er. rewrite s16_small, u8_id by lia. done.
Qed.

(** The error of a data call comes back through the registers as it is. *)
Lemma data_error p subfct buf size rc l : nlsGetData p subfct buf size = Some (rc, l) -> rc = SUCCESS \/ rc = DE_INVLDFUNC.
Proof.
  unfold nlsGetData, cpyBuf. destruct (locateSubfct p subfct) as [[off|]|]; [| |done]; [|intros [= <- <-]; by right].
  repeat case_match; try done; intros [= <- <-]; auto.
Qed.

(** The reference for the data calls. *)
Definition country_data (subfct cp' cntry' bufsize : Z) (buf : option (list Z)) : option (Z * option (list Z)) :=
  match buf with
  | None => Some (DE_INVLDDATA, None)
  | Some l =>
      if bufsize =? 0 then Some (DE_INVLDDATA, buf)
      else if subfct =? 0 then Some (DE_INVLDFUNC, buf)
      else
        let* nls := searchPackage cp' cntry' b in
        match nls with
        | Some i =>
            let* p := pkg i b in
            let* (rc, l) := nlsGetData p subfct l bufsize in Some (rc, Some l)
        | None => Some (DE_INVLDFUNC, buf)
        end
  end.

(** A number of the interface, or the information of function 38h, which copies
    24 bytes. *)
Definition data_call (subfct bufsize : Z) : Prop := 0 <= subfct < 256 \/ (subfct = NLS_DOS_38 /\ bufsize = 24).

Lemma mux_data k (i : option nat) subfct cp' cntry' bufsize (l : list Z) :
  data_call subfct bufsize -> searchPackage cp' cntry' b = Some i ->
  (if subfct =? NLS_DOS_38 then muxBufGo (NlsHost0 := kernel_host (S k)) 4 0 cp' cntry' bufsize l b
   else muxBufGo (NlsHost0 := kernel_host (S k)) 2 subfct cp' cntry' bufsize l b) =
  match i with
  | Some i => let* p := pkg i b in let* (rc, l) := nlsGetData p subfct l bufsize in Some (rc, l, b)
  | None => Some (DE_INVLDFUNC, l, b)
  end.
Proof.
  intros Hc Hs. unfold muxBufGo, muxGo. rewrite !kernel_mux_S. unfold syscall_MUX14. cbn [nh_info kernel_host]. rewrite Hs.
  destruct i as [i|]; [|by destruct (_ =? _)]. destruct (pkg i b) as [q|]; [|by destruct (_ =? _)].
  destruct (Z.eqb_spec subfct NLS_DOS_38) as [->|Hne].
  - destruct Hc as [?|[_ ->]]; [unfold NLS_DOS_38 in *; lia|]. change (u8 4) with 4. cbn [Z.eqb].
    assert (nlsGetData q NLS_DOS_38 l 34 = nlsGetData q NLS_DOS_38 l 24) as -> by done.
    destruct (nlsGetData q NLS_DOS_38 l 24) as [[rc l']|] eqn:E; [|done]. cbn. by destruct (data_error _ _ _ _ _ _ E) as [-> | ->].
  - destruct Hc as [Hc|[? _]]; [|done]. change (u8 2) with 2.
    assert (s16 subfct = subfct) as -> by word_lia.
    destruct (nlsGetData q subfct l bufsize) as [[rc l']|] eqn:E; [|done].
    cbn. by destruct (data_error _ _ _ _ _ _ E) as [-> | ->].
Qed.

Lemma getdata_plain subfct cp' cntry' bufsize buf : data_call subfct bufsize ->
  DosGetData (NlsHost0 := host) subfct cp' cntry' bufsize buf b =
    (fun r => (r, b)) <$> country_data subfct cp' cntry' bufsize buf.
Proof.
  intros Hc. unfold DosGetData, country_data. destruct buf as [l|]; [|done].
  destruct (bufsize =? 0); [done|]. destruct (subfct =? 0); [done|]. cbn [nh_info kernel_host].
  destruct (searchPackage cp' cntry' b) as [[i|]|] eqn:Es; [| |done].
  - destruct (pkg i b) as [p|] eqn:Hp; [|done]. destruct (has_flag _ _).
    + by destruct (nlsGetData p subfct l bufsize) as [[rc l']|].
    + assert (is_Some (active b)) as Ha by (unfold searchPackage in Es; destruct (active b); done).
      rewrite (mux_data (S n) (Some i)) by (done || by apply search_own). rewrite Hp.
      by destruct (nlsGetData p subfct l bufsize) as [[rc l']|].
  - by rewrite (mux_data (S n) None).
Qed.

End alone.

(** ** The flags of direct access *)

(** The same packages with other flags. *)
Definition with_flags (f : Z) (p : nlsPackage) : nlsPackage :=
  NlsPackage (cntry p) (cp p) f (yeschar p) (nochar p) (numSubfct p) (nlsPointers p).
Definition reflag (f : nat -> Z) (b : nlsInfoBlock) : nlsInfoBlock :=
  NlsInfo (sysCodePage b) (actPkg b) (imap (fun i => with_flags (f i)) (chain b)) (far b).

Definition on_block {A} (b : nlsInfoBlock) (r : option (A * nlsInfoBlock)) : option (A * nlsInfoBlock) :=
  (fun r => (r.1, b)) <$> r.

Lemma pkg_reflag f b i : pkg i (reflag f b) = with_flags (f i) <$> pkg i b.
Proof. unfold pkg. cbn. rewrite list_lookup_imap. done. Qed.

Lemma find_reflag f (k : nat) cp' cntry' l :
  fst <$> list_find (fun p => cp p = cp' /\ cntry p = cntry') (imap (fun i => with_flags (f (k + i)%nat)) l) =
  fst <$> list_find (fun p => cp p = cp' /\ cntry p = cntry') l.
Proof.
  revert k. induction l as [|p l IH]; intros k; [done|]. cbn [imap list_find].
  change (cp (with_flags (f (k + 0)%nat) p)) with (cp p). change (cntry (with_flags (f (k + 0)%nat) p)) with (cntry p).
  destruct (decide (cp p = cp' /\ cntry p = cntry')); [done|].
  rewrite (imap_ext _ (fun i => with_flags (f (S k + i)%nat))) by (intros; unfold compose; by rewrite Nat.add_succ_r).
  specialize (IH (S k)). destruct (list_find _ (imap _ l)) as [[]|], (list_find _ l) as [[]|]; cbn in *; try done.
  by injection IH as ->.
Qed.

Lemma search_reflag f b cp' cntry' : searchPackage cp' cntry' (reflag f b) = searchPackage cp' cntry' b.
Proof.
  unfold searchPackage, active. change (actPkg (reflag f b)) with (actPkg b). rewrite pkg_reflag.
  destruct (pkg (actPkg b) b); [|done]. cbn [fmap option_fmap option_map]. f_equal.
  exact (find_reflag f 0 _ _ (chain b)).
Qed.

Lemma keyed_reflag f b : well_keyed b -> well_keyed (reflag f b).
Proof.
  intros [H1 H2]. split.
  - intros i j p q. rewrite !pkg_reflag. intros (p' & Hp & ->)%fmap_Some (q' & Hq & ->)%fmap_Some. cbn. by apply H1.
  - intros i p. rewrite pkg_reflag. intros (p' & Hp & ->)%fmap_Some. exact (H2 i p' Hp).
Qed.

Lemma active_reflag f b : active (reflag f b) = with_flags (f (actPkg b)) <$> active b.
Proof. apply pkg_reflag. Qed.

Lemma dbcs_reflag f b c : nlsIsDBCS c (reflag f b) = nlsIsDBCS c b.
Proof. unfold nlsIsDBCS. rewrite active_reflag. by destruct (active b). Qed.

Lemma answer_reflag f b p c : yes_no (reflag f b) (with_flags (f (actPkg b)) p) c = yes_no b p c.
Proof. unfold yes_no. by rewrite dbcs_reflag. Qed.

Lemma data_reflag f b subfct cp' cntry' bufsize buf :
  country_data (reflag f b) subfct cp' cntry' bufsize buf = country_data b subfct cp' cntry' bufsize buf.
Proof.
  unfold country_data. rewrite search_reflag. destruct buf; [|done]. destruct (bufsize =? 0), (subfct =? 0); try done.
  destruct (searchPackage cp' cntry' b) as [[i|]|]; [|done..]. rewrite pkg_reflag. by destruct (pkg i b).
Qed.

(** C24: the two ways agree.  With the kernel's own handler at the multiplex
    interrupt it does not matter which of the flags of direct access the packages
    carry: upper-casing, upper-casing of file names, the yes-or-no test and the
    data calls give the same results and errors as they do with any other flags,
    although one way goes through the registers of the interrupt. *)
Theorem flags_do_not_matter f n b : (2 <= n)%nat -> well_keyed b ->
  let b' := reflag f b in
  let h := kernel_host n in
  (forall str len, DosUpMem (NlsHost0 := h) str len b' = on_block b' (DosUpMem (NlsHost0 := h) str len b)) /\
  (forall str len, DosUpFMem (NlsHost0 := h) str len b' = on_block b' (DosUpFMem (NlsHost0 := h) str len b)) /\
  (forall c, DosYesNo (NlsHost0 := h) c b' = on_block b' (DosYesNo (NlsHost0 := h) c b)) /\
  (forall subfct cp cntry bufsize buf, data_call subfct bufsize ->
     DosGetData (NlsHost0 := h) subfct cp cntry bufsize buf b' =
     on_block b' (DosGetData (NlsHost0 := h) subfct cp cntry bufsize buf b)).
Proof.
  intros Hn Hw. cbv zeta. destruct n as [|[|n]]; [lia..|]. pose proof (keyed_reflag f b Hw) as Hw'. split_and!; intros.
  - rewrite !upmem_plain, active_reflag by done. destruct (active b) as [a|]; [|done]. cbn.
    change (nlsUpMem (with_flags _ a) str len (reflag f b)) with (nlsUpMem a str len b). by destruct (nlsUpMem a str len b).
  - rewrite !upfmem_plain, active_reflag by done. destruct (active b) as [a|]; [|done]. cbn.
    change (nlsFUpMem (with_flags _ a) str len (reflag f b)) with (nlsFUpMem a str len b). by destruct (nlsFUpMem a str len b).
  - rewrite !yesno_plain, active_reflag by done. destruct (active b) as [a|]; [|done].
    cbn [fmap option_fmap option_map]. rewrite answer_reflag. by destruct (yes_no b a c).
  - rewrite !getdata_plain, data_reflag by done. by destruct (country_data b _ _ _ _ _).
Qed.

(** ** Selecting a country *)

Lemma keyed_active i b : well_keyed b -> well_keyed (with_actPkg i b).
Proof. intros [H1 H2]. by split. Qed.

Lemma country_default b a buf : well_keyed b -> active b = Some a ->
  country_data b NLS_DOS_38 NLS_DEFAULT NLS_DEFAULT 24 (Some buf) =
    (let* (rc, l) := nlsGetData a NLS_DOS_38 buf 24 in Some (rc, Some l)).
Proof.
  intros Hw Ha. unfold country_data. change (24 =? 0) with false. change (NLS_DOS_38 =? 0) with false. cbv iota.
  rewrite (search_default b a) by done. change (pkg (actPkg b) b) with (active b). by rewrite Ha.
Qed.

Lemma locate_38 cnt l : forall off, locate cnt off NLS_DOS_38 l = locate cnt off 1 l.
Proof.
  induction cnt as [|cnt IH]; intros off; [done|]. cbn [locate]. destruct (at_ l off) as [x|]; [|done].
  rewrite IH. done.
Qed.

(** The 24 bytes of function 38h. *)
Lemma info_data p off buf :
  locateSubfct p 1 = Some (Some off) -> (24 <= length (drop 7 (drop (Z.to_nat off) (nlsPointers p))))%nat -> (24 <= length buf)%nat ->
  nlsGetData p NLS_DOS_38 buf 24 =
    Some (SUCCESS, take 24 (drop 7 (drop (Z.to_nat off) (nlsPointers p))) ++ drop 24 buf).
Proof.
  intros Hl Hp Hb. unfold nlsGetData. unfold locateSubfct in *. rewrite locate_38, Hl.
  change (NLS_DOS_38 =? 1) with false. change (NLS_DOS_38 =? NLS_DOS_38) with true. cbv zeta iota. unfold cpyBuf.
  change (24 <=? 24) with true. change (Z.to_nat 24) with 24%nat. by rewrite !(proj2 (Nat.ltb_ge _ _)) by done.
Qed.

(** C25: a country that is selected is the one that is reported.  When a package of
    the active code page and the country is loaded, function 38h with DX = FFFFh
    makes it the active one; then function 66h reports its code page, and function
    38h returns the 24 bytes of its country information.  The number of the country
    it answers is 1 whatever the country is. *)
Theorem country_roundtrip n b i p off al bx dx buf :
  (2 <= n)%nat -> well_keyed b -> let h := kernel_host n in
  searchPackage NLS_DEFAULT (if al =? 0xff then bx else al) b = Some (Some i) -> pkg i b = Some p ->
  let info := drop 7 (drop (Z.to_nat off) (nlsPointers p)) in
  locateSubfct p 1 = Some (Some off) -> (24 <= length info)%nat -> (24 <= length buf)%nat -> dx <> 0xffff ->
  exists b', int21_38 (NlsHost0 := h) al bx 0xffff (Some buf) b = Some (SUCCESS, None, Some buf, b') /\
    active b' = Some p /\
    int21_66 (NlsHost0 := h) 1 bx dx b' = Some (SUCCESS, cp p, sysCodePage b, b') /\
    int21_38 (NlsHost0 := h) 0 bx dx (Some buf) b' = Some (SUCCESS, Some 1, Some (take 24 info ++ drop 24 buf), b').
Proof.
  intros Hn Hw h Hs Hp info Hl Hi Hb Hdx. exists (with_actPkg i b). destruct n as [|[|n]]; [lia..|].
  assert (active (with_actPkg i b) = Some p) as Ha by done.
  split_and!; [| |unfold int21_66, DosGetCodepage; cbn [Z.eqb Pos.eqb]; cbn [nh_info h kernel_host]; by rewrite Ha|].
  - unfold int21_38, DosSetCountry, DosLoadPackage. cbn [nh_info h kernel_host]. change (65535 =? 65535) with true. cbv iota zeta.
    by rewrite Hs.
  - done.
  - unfold int21_38. rewrite (proj2 (Z.eqb_neq _ _)) by done. change (0 =? 0xff) with false. change (0 =? 0) with true.
    cbv iota zeta. change (u16 (0 - 1)) with NLS_DEFAULT. unfold DosGetCountryInformation, h.
    rewrite getdata_plain by (by apply keyed_active || by right). rewrite (country_default _ p) by (done || by apply keyed_active).
    by rewrite (info_data p off).
Qed.

(** Without NLSFUNC the code page cannot be changed: function 66h with AL = 2
    fails for every code page and leaves everything as it is, because the check for
    NLSFUNC is answered by the kernel itself. *)
Theorem codepage_needs_nlsfunc n b bx dx : (2 <= n)%nat -> is_Some (active b) ->
  int21_66 (NlsHost0 := kernel_host n) 2 bx dx b =
    Some (if (dx =? NLS_DEFAULT) || (dx =? sysCodePage b) then DE_FILENOTFND else DE_INVLDDATA, bx, dx, b).
Proof.
  intros Hn [a Ha]. destruct n as [|[|n]]; [lia..|]. unfold int21_66, DosSetCodepage. cbn [nh_info kernel_host].
  change (2 =? 1) with false. change (2 =? 2) with true. cbv iota.
  destruct ((dx =? NLS_DEFAULT) || (dx =? sysCodePage b)); [|done]. unfold DosSetPackage, muxLoadPkg, muxGo.
  rewrite kernel_mux_S. unfold syscall_MUX14 at 1. cbn [nh_info kernel_host].
  destruct (searchPackage NLS_FREEDOS_NLSFUNC_VERSION 0 b) as [[i|]|] eqn:E; [|done|].
  - destruct (search_found _ _ _ _ E) as [p Hp]. by rewrite Hp.
  - unfold searchPackage in E. by rewrite Ha in E.
Qed.

(** ** The package of the kernel ([kernel/nls_hc.asm]) *)

(** The tables 2 and 4, which are the same. *)
Definition hard_upcase : list Z := [
   0x80; 0x00; 0x80; 0x9a; 0x45; 0x41; 0x8e; 0x41; 0x8f; 0x80; 0x45; 0x45; 0x45; 0x49; 0x49; 0x49;
   0x8e; 0x8f; 0x90; 0x92; 0x92; 0x4f; 0x99; 0x4f; 0x55; 0x55; 0x59; 0x99; 0x9a; 0x9b; 0x9c; 0x9d;
   0x9e; 0x9f; 0x41; 0x49; 0x4f; 0x55; 0xa5; 0xa5; 0xa6; 0xa7; 0xa8; 0xa9; 0xaa; 0xab; 0xac; 0xad;
   0xae; 0xaf; 0xb0; 0xb1; 0xb2; 0xb3; 0xb4; 0xb5; 0xb6; 0xb7; 0xb8; 0xb9; 0xba; 0xbb; 0xbc; 0xbd;
   0xbe; 0xbf; 0xc0; 0xc1; 0xc2; 0xc3; 0xc4; 0xc5; 0xc6; 0xc7; 0xc8; 0xc9; 0xca; 0xcb; 0xcc; 0xcd;
   0xce; 0xcf; 0xd0; 0xd1; 0xd2; 0xd3; 0xd4; 0xd5; 0xd6; 0xd7; 0xd8; 0xd9; 0xda; 0xdb; 0xdc; 0xdd;
   0xde; 0xdf; 0xe0; 0xe1; 0xe2; 0xe3; 0xe4; 0xe5; 0xe6; 0xe7; 0xe8; 0xe9; 0xea; 0xeb; 0xec; 0xed;
   0xee; 0xef; 0xf0; 0xf1; 0xf2; 0xf3; 0xf4; 0xf5; 0xf6; 0xf7; 0xf8; 0xf9; 0xfa; 0xfb; 0xfc; 0xfd;
   0xfe; 0xff].

(** The extended information with the address of the upper-casing routine left at
    zero. *)
Definition hard_info : list Z := [
   0x01; 0x1c; 0x00; 0x01; 0x00; 0xb5; 0x01; 0x00; 0x00; 0x24; 0x00; 0x00; 0x00; 0x00; 0x2c; 0x00;
   0x2e; 0x00; 0x2d; 0x00; 0x3a; 0x00; 0x00; 0x02; 0x00; 0x00; 0x00; 0x00; 0x00; 0x2c; 0x00].

(** Far pointers are the numbers of the tables. *)
Definition hard_far (ptr : Z) : list Z := if (ptr =? 2) || (ptr =? 4) then hard_upcase else [0; 0; 0; 0].
Definition hard_pointers : list Z :=
  concat (map (fun n => [n; n; 0; 0; 0]) [2; 4; 5; 6; 7]) ++ hard_info.

Definition nlsPackageHardcoded : nlsPackage := NlsPackage 1 437 0x0f 0x59 0x4e 6 hard_pointers.
Definition german : nlsPackage := NlsPackage 49 437 0 0x4a 0x4e 6 (take 25 hard_pointers ++ <[3%nat := 49]> hard_info).
Definition hard_block : nlsInfoBlock := NlsInfo 437 0 [nlsPackageHardcoded; german] hard_far.

Lemma hard_keyed : well_keyed hard_block.
Proof.
  split.
  - intros [|[|i]] [|[|j]] p q [= <-] [= <-]; done.
  - intros [|[|i]] p [= <-]; done.
Qed.

(** With [f] the package of the kernel goes through the interrupt. *)
Lemma flags_do_not_matter_witness :
  (2 <= 2)%nat /\
  DosUpFMem (NlsHost0 := kernel_host 2) [ch "a"; 0x84; ch "z"] 2 (reflag (fun _ => 0) hard_block) =
    Some ([ch "A"; 0x8e; ch "z"], reflag (fun _ => 0) hard_block).
Proof.
  split; [lia|]. rewrite (proj1 (proj2 (flags_do_not_matter (fun _ => 0) 2 hard_block ltac:(lia) hard_keyed))).
  vm_compute. reflexivity.
Defined.

Lemma country_roundtrip_witness :
  exists b', int21_38 (NlsHost0 := kernel_host 2) 49 0 0xffff (Some (replicate 30 7)) hard_block = Some (SUCCESS, None, Some (replicate 30 7), b') /\
    active b' = Some german /\
    int21_66 (NlsHost0 := kernel_host 2) 1 0 9 b' = Some (SUCCESS, 437, 437, b') /\
    int21_38 (NlsHost0 := kernel_host 2) 0 0 9 (Some (replicate 30 7)) b' =
      Some (SUCCESS, Some 1, Some (take 24 (drop 7 hard_info) ++ replicate 6 7), b').
Proof.
  apply (country_roundtrip 2 hard_block 1 german 25 49 0 9 (replicate 30 7)).
  - lia.
  - exact hard_keyed.
  - reflexivity.
  - reflexivity.
  - reflexivity.
  - apply Nat.leb_le. reflexivity.
  - apply Nat.leb_le. reflexivity.
  - discriminate.
Defined.

Lemma codepage_needs_nlsfunc_witness :
  is_Some (active hard_block) /\ int21_66 (NlsHost0 := kernel_host 2) 2 850 0xffff hard_block = Some (DE_FILENOTFND, 850, 0xffff, hard_block).
Proof.
  split; [by eexists|]. exact (codepage_needs_nlsfunc 2 hard_block 850 0xffff ltac:(lia) (mk_is_Some _ _ eq_refl)).
Defined.
