(* ===== verification/Systime.v ===== *)
(** * Date and time ([kernel/systime.c], [kernel/sysclk.c],
    [kernel/initclk.c])

    The calendar, the clock driver over the BIOS, and the calls that get and set
    date and time through the clock device. *)

From S2P Require Import Prelude Hdr Chario.

(** ** Data *)

(** hdr/time.h:44-47 *)
Record dostime := DosTime { t_hour : Z; t_minute : Z; t_second : Z; t_hundredth : Z }.
(** hdr/time.h:49-53 *)
Record dosdate := DosDate { d_year : Z; d_month : Z; d_monthday : Z }.
(** hdr/clock.h:40-46 *)
Record ClockRecord := ClkRecord {
  clkDays : Z;
  clkMinutes : Z;
  clkHours : Z;
  clkHundredths : Z;
  clkSeconds : Z }.
Definition sizeof_ClockRecord : Z := 6.

(** ** The calendar *)

(** kernel/systime.c:39-42 *)
Definition days : list (list Z) :=
  [[0; 31; 59; 90; 120; 151; 181; 212; 243; 273; 304; 334; 365];
   [0; 31; 60; 91; 121; 152; 182; 213; 244; 274; 305; 335; 366]].

(** kernel/systime.c:50-61 *)
Definition is_leap_year_monthdays (y : Z) : option (list Z) :=
  if negb (Z.land y 3 =? 0) || (y =? 2100) then at_ days 0 else at_ days 1.

(** kernel/systime.c:63-72 *)
Definition DaysFromYearMonthDay (Year Month DayOfMonth : Z) : option Z :=
  if Year <? 1980 then Some 0
  else
    let* pdays := is_leap_year_monthdays Year in
    let* before := at_ pdays (Month - 1) in
    Some (u16 (DayOfMonth - 1 + before + (Year - 1980) * 365 + (Year - 1980 + 3) / 4)).

(** The loop over the years, with the days left in the year and its table; the
    driver has the same loop.
    kernel/systime.c:125-135 *)
Fixpoint year_loop (fuel : nat) (Year c : Z) : option (Z * Z * list Z) :=
  match fuel with
  | O => None
  | S fuel' =>
      let* pdays := is_leap_year_monthdays Year in
      let* len := at_ pdays 12 in
      if len <=? c then year_loop fuel' (u16 (Year + 1)) (c - len) else Some (Year, c, pdays)
  end.

(** The loop over the months.
    kernel/systime.c:139-143 *)
Fixpoint month_loop (fuel : nat) (pdays : list Z) (c Month : Z) : option Z :=
  match fuel with
  | O => None
  | S fuel' =>
      let* limit := at_ pdays Month in
      if limit <=? c then month_loop fuel' pdays c (Month + 1) else Some Month
  end.

(** A day count takes at most 180 years and 13 months. *)
Definition YEARS : nat := 181.
Definition MONTHS : nat := 13.

(** ** The clock driver

    The BIOS: reading the tick count gives the midnight flag in AL and the ticks;
    the two routines that set the PC clock and the battery-backed clock. *)

Class Bios (B : Type) := {
  int1a_read : B -> Z * Z * B;
  WritePCClock : Z -> B -> B;
  WriteATClock : list Z -> Z -> Z -> Z -> B -> B }.

(** hdr/device.h:77-77 *)
Definition C_INIT : Z := 0x00.
(** hdr/device.h:81-81 *)
Definition C_INPUT : Z := 0x04.
(** hdr/device.h:84-84 *)
Definition C_IFLUSH : Z := 0x07.
(** hdr/device.h:85-85 *)
Definition C_OUTPUT : Z := 0x08.
(** hdr/device.h:88-88 *)
Definition C_OFLUSH : Z := 0x0b.
(** hdr/device.h:64-64 *)
Definition E_LENGTH : Z := 5.
(** hdr/device.h:71-71 *)
Definition E_FAILURE : Z := 12.

Record clock (B : Type) := Clock { DaysSinceEpoch : Z; bios : B }.
Arguments Clock {B}. Arguments DaysSinceEpoch {B}. Arguments bios {B}.

(** kernel/sysclk.c:43-46 *)
Definition ByteToBcd (x : Z) : Z := Z.lor (Z.shiftl (x / 10) 4) (x mod 10).
(** kernel/initclk.c:41-44 *)
Definition InitBcdToByte (x : Z) : Z := Z.land (Z.shiftr x 4) 0xf * 10 + Z.land x 0xf.
(** kernel/sysclk.c:53-59 *)
Definition DayToBcd (mon day yr : Z) : list Z :=
  [ByteToBcd day; ByteToBcd mon; ByteToBcd (yr mod 100); ByteToBcd (yr / 100)].

(** The ticks as hundredths of a second.
    kernel/sysclk.c:86-87 *)
Definition ticks_to_hs (pcticks : Z) : Z :=
  let ticks := u32 (5 * pcticks) in
  u32 (u32 (Z.shiftl (ticks / 59659) 16) + u32 (Z.shiftl (ticks mod 59659) 16) / 59659).

(** kernel/sysclk.c:123-123 *)
Definition hs_to_ticks (hs : Z) : Z :=
  u32 (u32 (Z.shiftr hs 16 * 59659) + Z.shiftr (u32 (Z.land hs 0xffff * 59659)) 16) / 5.

(** kernel/sysclk.c:141-151 *)
Fixpoint at_month_loop (fuel : nat) (pdays : list Z) (Month Day : Z) : option (Z * Z) :=
  match fuel with
  | O => None
  | S fuel' =>
      if negb (Month <? 13) then Some (Month, Day)
      else
        let* limit := at_ pdays Month in
        if Day <? limit then
          let* before := at_ pdays (Month - 1) in
          Some (Month, u16 (Day - before + 1))
        else at_month_loop fuel' pdays (Month + 1) Day
  end.

Section driver.
  Context {B : Type} `{!Bios B}.

(** The day count moves on with the midnight flag.
    drivers/rdpcclk.asm:39-52 *)
Definition ReadPCClock (s : clock B) : Z * clock B :=
  let '(al, ticks, b) := int1a_read (bios s) in
  (ticks, Clock (u16 (DaysSinceEpoch s + al)) b).

(** kernel/sysclk.c:74-101 *)
Definition clk_input (s : clock B) : ClockRecord * clock B :=
  let '(pcticks, s) := ReadPCClock s in
  let ticks := ticks_to_hs pcticks in
  let tmp := s16 (ticks / 6000) in
  let tmp' := s16 (ticks mod 6000) in
  (ClkRecord (DaysSinceEpoch s) (u8 (Z.rem tmp 60)) (u8 (Z.quot tmp 60))
     (u8 (Z.rem tmp' 100)) (u8 (Z.quot tmp' 100)), s).

(** kernel/sysclk.c:103-159 *)
Definition clk_output (clk : ClockRecord) (s : clock B) : option (clock B) :=
  let hs := u32 (6000 * (60 * clkHours clk + clkMinutes clk) +
                 (100 * clkSeconds clk + clkHundredths clk)) in
  let b := WritePCClock (hs_to_ticks hs) (bios s) in
  let* (Year, Day, pdays) := year_loop YEARS 1980 (clkDays clk) in
  let* (Month, Day) := at_month_loop MONTHS pdays 1 Day in
  let b := WriteATClock (DayToBcd Month Day Year) (ByteToBcd (clkHours clk))
             (ByteToBcd (clkMinutes clk)) (ByteToBcd (clkSeconds clk)) b in
  Some (Clock (clkDays clk) b).

(** kernel/sysclk.c:61-172 *)
Definition clk_driver (command count : Z) (clk : ClockRecord) (s : clock B)
    : option (Z * Z * ClockRecord * clock B) :=
  if command =? C_INIT then Some (S_DONE, count, clk, s)
  else if command =? C_INPUT then
    if negb (sizeof_ClockRecord =? count) then Some (failure E_LENGTH, count, clk, s)
    else
      let '(clk, s) := clk_input s in
      Some (S_DONE, count, clk, s)
  else if command =? C_OUTPUT then
    if negb (sizeof_ClockRecord =? count) then Some (failure E_LENGTH, count, clk, s)
    else
      let* s := clk_output clk s in
      Some (S_DONE, count, clk, s)
  else if (command =? C_OFLUSH) || (command =? C_IFLUSH) then Some (S_DONE, count, clk, s)
  else Some (failure E_FAILURE, count, clk, s).

End driver.

(** ** The system calls

    Over any clock device: the built-in driver or one that was loaded. *)

Section calls.
  Context {D : Type} `{HD : !CharDevice ClockRecord D}.

(** The status of the last request, the record and the device. *)
Record systime := Systime {
  clk_status : Z;
  clk_record : ClockRecord;
  clk_dev : D }.

Definition with_record r (st : systime) : systime := Systime (clk_status st) r (clk_dev st).

(** kernel/systime.c:75-78 *)
Definition ExecuteClockDriverRequest (fuel : nat) (command : Z) (st : systime) : option systime :=
  let* (_, rq, d) := BinaryCharIO fuel sizeof_ClockRecord (clk_record st) command (clk_dev st) in
  Some (Systime (r_status rq) (r_trans rq) d).

(** The time, or nothing when the caller's structure is left as it is.
    kernel/systime.c:80-91 *)
Definition DosGetTime (fuel : nat) (st : systime) : option (option dostime * systime) :=
  let* st := ExecuteClockDriverRequest fuel C_INPUT st in
  if is_error (clk_status st) then Some (None, st)
  else
    let r := clk_record st in
    Some (Some (DosTime (clkHours r) (clkMinutes r) (clkSeconds r) (clkHundredths r)), st).

(** The end of the two setting calls: send the record.
    kernel/systime.c:107-111 *)
Definition send_record (fuel : nat) (st : systime) : option (Z * systime) :=
  let* st := ExecuteClockDriverRequest fuel C_OUTPUT st in
  if is_error (clk_status st) then
    let '(rc, d) := char_error (clk_status st) (clk_dev st) in
    Some (rc, Systime (clk_status st) (clk_record st) d)
  else Some (SUCCESS, st).

(** kernel/systime.c:93-112 *)
Definition DosSetTime (fuel : nat) (dt : dostime) (st : systime) : option (Z * systime) :=
  if (23 <? t_hour dt) || (59 <? t_minute dt) || (59 <? t_second dt) || (99 <? t_hundredth dt)
  then Some (DE_INVLDDATA, st)
  else
    let* st := ExecuteClockDriverRequest fuel C_INPUT st in
    send_record fuel
      (with_record (ClkRecord (clkDays (clk_record st)) (t_minute dt) (t_hour dt)
                      (t_hundredth dt) (t_second dt)) st).

(** The date, if it was set, and the day of the week.
    kernel/systime.c:114-153 *)
Definition DosGetDate (fuel : nat) (st : systime) : option (option dosdate * Z * systime) :=
  let* st := ExecuteClockDriverRequest fuel C_INPUT st in
  if is_error (clk_status st) then Some (None, 0, st)
  else
    let n := clkDays (clk_record st) in
    let* (Year, c, pdays) := year_loop YEARS 1980 n in
    let* Month := month_loop MONTHS pdays c 1 in
    let* before := at_ pdays (Month - 1) in
    Some (Some (DosDate Year (u8 Month) (u8 (c - before + 1))), u8 (u16 (n + 2) mod 7), st).

(** kernel/systime.c:155-177 *)
Definition DosSetDate (fuel : nat) (dd : dosdate) (st : systime) : option (Z * systime) :=
  let Year := d_year dd in let Month := d_month dd in let DayOfMonth := d_monthday dd in
  let* pdays := is_leap_year_monthdays Year in
  let* invalid :=
    if (Year <? 1980) || (2099 <? Year) || (Month <? 1) || (12 <? Month) || (DayOfMonth <? 1)
    then Some true
    else
      let* a := at_ pdays Month in
      let* b := at_ pdays (Month - 1) in
      Some (a - b <? DayOfMonth) in
  if invalid then Some (DE_INVLDDATA, st)
  else
    let* st := ExecuteClockDriverRequest fuel C_INPUT st in
    let* n := DaysFromYearMonthDay Year Month DayOfMonth in
    let r := clk_record st in
    send_record fuel
      (with_record (ClkRecord n (clkMinutes r) (clkHours r) (clkHundredths r) (clkSeconds r)) st).

(** At the start the date and the time are read from the battery-backed clock,
    in BCD: [regsD] is century, year, month and day, [regsT] hour, minute and
    second.
    kernel/initclk.c:46-74 *)
Definition Init_clk_driver (fuel : nat) (regsD : Z * Z * Z * Z) (regsT : Z * Z * Z)
    (st : systime) : option systime :=
  let '(dch, dcl, ddh, ddl) := regsD in
  let '(tch, tcl, tdh) := regsT in
  let year := 100 * InitBcdToByte dch + InitBcdToByte dcl in
  let year := if (1900 <=? year) && (year <? 1980) then year + 100 else year in
  let* (_, st) := DosSetDate fuel (DosDate year (InitBcdToByte ddh) (InitBcdToByte ddl)) st in
  let* (_, st) :=
    DosSetTime fuel (DosTime (InitBcdToByte tch) (InitBcdToByte tcl) (InitBcdToByte tdh) 0) st in
  Some st.

(** ** Directory time stamps ([kernel/fatfs.c], [hdr/date.h]) *)

(** kernel/fatfs.c:55-58 *)
Definition time_encode (t : dostime) : Z :=
  Z.lor (Z.lor (Z.shiftl (t_hour t) 11) (Z.shiftl (t_minute t) 5)) (Z.shiftr (t_second t) 1).
(** hdr/date.h:47-47 *)
Definition DT_ENCODE (m d y : Z) : Z :=
  Z.lor (Z.lor (Z.shiftl (Z.land m 0x0f) 5) (Z.land d 0x1f)) (Z.shiftl (Z.land y 0x7f) 9).
(** hdr/date.h:43-43 *)
Definition DT_YEAR (d : Z) : Z := Z.land (Z.shiftr d 9) 0x7f.
(** hdr/date.h:44-44 *)
Definition DT_MONTH (d : Z) : Z := Z.land (Z.shiftr d 5) 0x0f.
(** hdr/date.h:45-45 *)
Definition DT_DAY (d : Z) : Z := Z.land d 0x1f.
(** hdr/date.h:52-52 *)
Definition EPOCH_YEAR : Z := 1980.

(** [dd] is what the caller's stack holds in the place of the local variable; it
    shows when the device fails.
    kernel/fatfs.c:667-675 *)
Definition dos_getdate (fuel : nat) (dd : dosdate) (st : systime) : option (Z * systime) :=
  let* (got, _, st) := DosGetDate fuel st in
  let dd := default dd got in
  Some (u16 (DT_ENCODE (d_month dd) (d_monthday dd) (d_year dd - EPOCH_YEAR)), st).

(** kernel/fatfs.c:680-688 *)
Definition dos_gettime (fuel : nat) (dt : dostime) (st : systime) : option (Z * systime) :=
  let* (got, st) := DosGetTime fuel st in
  Some (u16 (time_encode (default dt got)), st).

End calls.
Arguments systime : clear implicits.

(** The built-in driver as a clock device; [answer] is the critical error
    handler's. *)
Definition clk_device {B} `{!Bios B} (answer : Z -> Z) : CharDevice ClockRecord (clock B) := {|
  char_execrh := clk_driver;
  char_error status s := (answer status, s) |}.
