(* ===== verification/SystimeSpec.v ===== *)
(** * Date and time: the calendar and the clock

    The reference calendar is the Gregorian one, day after day from the first of
    January 1980.  The conversions of [Systime] agree with it, and what is set
    through the clock driver can be read back, after a reboot too. *)

From S2P Require Import Prelude Hdr Chario Systime.

(** ** The Gregorian calendar *)

Definition leap (y : Z) : bool :=
  ((y mod 4 =? 0) && negb (y mod 100 =? 0)) || (y mod 400 =? 0).

Definition month_length (y m : Z) : Z :=
  if m =? 2 then (if leap y then 29 else 28)
  else if (m =? 4) || (m =? 6) || (m =? 9) || (m =? 11) then 30 else 31.

Definition next_day (d : dosdate) : dosdate :=
  let '(DosDate y m day) := d in
  if day <? month_length y m then DosDate y m (day + 1)
  else if m <? 12 then DosDate y (m + 1) 1
  else DosDate (y + 1) 1 1.

(** The date [n] days after the first of January 1980. *)
Definition date_of (n : nat) : dosdate := Nat.iter n next_day (DosDate 1980 1 1).

Definition date_valid (d : dosdate) : Prop :=
  1980 <= d_year d <= 2099 /\ 1 <= d_month d <= 12 /\
  1 <= d_monthday d <= month_length (d_year d) (d_month d).

#[export] Instance date_valid_dec d : Decision (date_valid d).
Proof. apply _. Defined.

Definition weekday (n : nat) : Z := (Z.of_nat n + 2) mod 7.

(** *** The tables *)

Definition year_days (y : Z) : Z := if leap y then 366 else 365.
Definition table (y : Z) : list Z := if leap y then days !!! 1%nat else days !!! 0%nat.

Lemma monthdays_eq y : 1980 <= y < 2200 -> is_leap_year_monthdays y = Some (table y).
Proof.
  intros Hy.
  assert (bool_decide (is_leap_year_monthdays y = Some (table y)) = true) as E.
  { refine (forall_range (fun y => bool_decide (is_leap_year_monthdays y = Some (table y)))
      1980 220 _ y _); [vm_compute; reflexivity|lia]. }
  by apply bool_decide_eq_true in E.
Qed.

Lemma table_year y : at_ (table y) 12 = Some (year_days y).
Proof. unfold table, year_days. destruct (leap y); reflexivity. Qed.

(** Days before the year [1980 + k]. *)
Fixpoint year_start (k : nat) : Z :=
  match k with
  | O => 0
  | S k => year_start k + year_days (1980 + Z.of_nat k)
  end.

Lemma year_days_range y : 365 <= year_days y <= 366.
Proof. unfold year_days. destruct (leap y); lia. Qed.

Lemma year_start_ge k : 365 * Z.of_nat k <= year_start k.
Proof.
  induction k as [|k IH]; cbn [year_start]; [lia|].
  pose proof (year_days_range (1980 + Z.of_nat k)). lia.
Qed.

(** Every day lies in a year. *)
Lemma year_exists n : 0 <= n -> exists k, year_start k <= n < year_start (S k).
Proof.
  intros Hn. assert (exists k, n < year_start k) as [k Hk].
  { exists (Z.to_nat n + 1)%nat. pose proof (year_start_ge (Z.to_nat n + 1)). lia. }
  induction k as [|k IH]; [cbn in Hk; lia|].
  destruct (Z.lt_ge_cases n (year_start k)); [auto|]. by exists k.
Qed.

Lemma year_start_180 : year_start 180 = 65744.
Proof. vm_compute. reflexivity. Qed.

Lemma year_start_mono j k : (j <= k)%nat -> year_start j <= year_start k.
Proof.
  induction 1 as [|k _ IH]; [lia|]. cbn [year_start].
  pose proof (year_days_range (1980 + Z.of_nat k)). lia.
Qed.

(** A word of days ends before the year 2160. *)
Lemma year_of_word n : 0 <= n < 65536 ->
  exists k, (k < 180)%nat /\ year_start k <= n < year_start (S k).
Proof.
  intros Hn. destruct (year_exists n) as [k Hk]; [lia|]. exists k. split; [|done].
  destruct (le_lt_dec 180 k) as [Hle|]; [|done].
  pose proof (year_start_mono _ _ Hle). rewrite year_start_180 in *. lia.
Qed.

(** The loop over the years finds the year. *)
Lemma year_loop_from j k c fuel :
  (j + k < 180)%nat -> (k < fuel)%nat ->
  year_start (j + k) <= c < year_start (Datatypes.S (j + k)) ->
  year_loop fuel (1980 + Z.of_nat j) (c - year_start j) =
  Some (1980 + Z.of_nat (j + k), c - year_start (j + k), table (1980 + Z.of_nat (j + k))).
Proof.
  revert j fuel. induction k as [|k IH]; intros j fuel Hj Hf Hc;
    (destruct fuel as [|fuel]; [lia|]); cbn [year_loop];
    rewrite monthdays_eq by lia; rewrite table_year.
  - rewrite Nat.add_0_r in *. cbn [year_start] in Hc. by rewrite (proj2 (Z.leb_gt _ _)) by lia.
  - replace (j + Datatypes.S k)%nat with (Datatypes.S j + k)%nat in * by lia.
    pose proof (year_start_mono (Datatypes.S j) (Datatypes.S j + k) ltac:(lia)) as Hm.
    cbn [year_start] in Hm. rewrite (proj2 (Z.leb_le _ _)) by lia.
    rewrite u16_id by lia.
    replace (1980 + Z.of_nat j + 1) with (1980 + Z.of_nat (Datatypes.S j)) by lia.
    replace (c - year_start j - year_days (1980 + Z.of_nat j))
      with (c - year_start (Datatypes.S j)) by (cbn [year_start]; lia).
    apply IH; [lia..|done].
Qed.

Lemma year_loop_spec k c :
  (k < 180)%nat -> year_start k <= c < year_start (Datatypes.S k) ->
  year_loop YEARS 1980 c =
  Some (1980 + Z.of_nat k, c - year_start k, table (1980 + Z.of_nat k)).
Proof.
  intros Hk Hc. pose proof (year_loop_from 0 k c YEARS) as H. cbn in H.
  rewrite Z.sub_0_r in H. apply H; [lia|unfold YEARS; lia|done].
Qed.

(** *** Within a year *)

(** Month and day of month of the day [c] of a year. *)
Definition month_day (t : list Z) (c : Z) : option (Z * Z) :=
  let* m := month_loop MONTHS t c 1 in
  let* before := at_ t (m - 1) in
  Some (m, c - before + 1).

Definition dated (y : Z) (md : option (Z * Z)) : option dosdate :=
  let* (m, d) := md in Some (DosDate y m d).

Definition days_of (b : bool) : list Z := if b then days !!! 1%nat else days !!! 0%nat.

(** What [month_day] gives for a table, for each day of the year: its successor,
    the driver's loop, the way back, the bounds. *)
Definition month_length_of (b : bool) (m : Z) : Z :=
  if m =? 2 then (if b then 29 else 28)
  else if (m =? 4) || (m =? 6) || (m =? 9) || (m =? 11) then 30 else 31.

Definition day_ok (b : bool) (c : Z) : bool :=
  match month_day (days_of b) c with
  | Some (m, d) =>
      bool_decide (at_month_loop MONTHS (days_of b) 1 c = Some (m, d)) &&
      bool_decide (1 <= m <= 12 /\ 1 <= d <= month_length_of b m) &&
      bool_decide (default 0 (at_ (days_of b) (m - 1)) + d - 1 = c) &&
      bool_decide (month_day (days_of b) (c + 1) =
                   if d <? month_length_of b m then Some (m, d + 1)
                   else if m <? 12 then Some (m + 1, 1) else None)
  | None => false
  end.

Lemma days_ok (b : bool) c : 0 <= c < (if b then 366 else 365) -> day_ok b c = true.
Proof.
  intros Hc. refine (forall_range (day_ok b) 0 (if b then 366 else 365) _ c _); [|lia].
  destruct b; vm_compute; reflexivity.
Qed.

Lemma month_length_eq y m : month_length y m = month_length_of (leap y) m.
Proof. reflexivity. Qed.

Record day_facts (y c m d : Z) : Prop := {
  day_md : month_day (table y) c = Some (m, d);
  day_driver : at_month_loop MONTHS (table y) 1 c = Some (m, d);
  day_month : 1 <= m <= 12;
  day_range : 1 <= d <= month_length y m;
  day_back : default 0 (at_ (table y) (m - 1)) + d - 1 = c;
  day_next : month_day (table y) (c + 1) =
             if d <? month_length y m then Some (m, d + 1)
             else if m <? 12 then Some (m + 1, 1) else None }.

Lemma day_spec y c : 0 <= c < year_days y -> exists m d, day_facts y c m d.
Proof.
  intros Hc. pose proof (days_ok (leap y) c Hc) as H. unfold day_ok in H.
  change (days_of (leap y)) with (table y) in H. rewrite <- ?month_length_eq in H.
  destruct (month_day (table y) c) as [[m d]|] eqn:E; [|done].
  rewrite !andb_true_iff, !bool_decide_eq_true in H. destruct H as [[[? [? ?]] ?] ?].
  exists m, d. by split.
Qed.

(** *** Day numbers and dates *)

(** The date of a day number, as the code computes it. *)
Definition decode (n : Z) : option dosdate :=
  let* (y, c, t) := year_loop YEARS 1980 n in
  dated y (month_day t c).

Lemma decode_in_year k c m d :
  (k < 180)%nat -> day_facts (1980 + Z.of_nat k) c m d -> 0 <= c < year_days (1980 + Z.of_nat k) ->
  decode (year_start k + c) = Some (DosDate (1980 + Z.of_nat k) m d).
Proof.
  intros Hk F Hc. unfold decode. rewrite (year_loop_spec k) by (cbn [year_start]; lia || done).
  replace (year_start k + c - year_start k) with c by lia. by rewrite (day_md _ _ _ _ F).
Qed.

(** The position of a day number: its year and the day within. *)
Lemma day_of_word n : 0 <= n < 65536 ->
  exists k c m d, (k < 180)%nat /\ n = year_start k + c /\ 0 <= c < year_days (1980 + Z.of_nat k) /\
    day_facts (1980 + Z.of_nat k) c m d.
Proof.
  intros Hn. destruct (year_of_word n Hn) as (k & Hk & Hr). cbn [year_start] in Hr.
  destruct (day_spec (1980 + Z.of_nat k) (n - year_start k)) as (m & d & F); [lia|].
  exists k, (n - year_start k), m, d. split_and!; (done || lia).
Qed.

Lemma month_day_last (b : bool) : month_day (days_of b) (if b then 366 else 365) = None.
Proof. by destruct b; vm_compute. Qed.

Lemma month_day_first y : month_day (table y) 0 = Some (1, 1).
Proof. unfold table. destruct (leap y); by vm_compute. Qed.

Lemma decode_next n d : 0 <= n -> n + 1 < 65536 -> decode n = Some d -> decode (n + 1) = Some (next_day d).
Proof.
  intros Hn Hn' E. destruct (day_of_word n) as (k & c & m & day & Hk & -> & Hc & F); [lia|].
  rewrite (decode_in_year k c m day) in E by done. injection E as <-.
  pose proof (day_next _ _ _ _ F) as Hnext. pose proof (day_month _ _ _ _ F) as Hm. cbn [next_day].
  destruct (Z.lt_ge_cases (c + 1) (year_days (1980 + Z.of_nat k))) as [Hlt|Hge].
  - destruct (day_spec (1980 + Z.of_nat k) (c + 1)) as (m' & d' & F'); [lia|].
    rewrite (day_md _ _ _ _ F') in Hnext. rewrite <- Z.add_assoc, (decode_in_year k _ m' d') by (done || lia).
    destruct (day <? month_length _ m); [by injection Hnext as -> ->|].
    destruct (m <? 12); [by injection Hnext as -> ->|done].
  - assert (c + 1 = year_days (1980 + Z.of_nat k)) as Ec by lia.
    assert (month_day (table (1980 + Z.of_nat k)) (c + 1) = None) as E1.
    { rewrite Ec. apply month_day_last. }
    rewrite E1 in Hnext. destruct (day <? month_length _ m); [done|].
    destruct (m <? 12) eqn:E12; [done|].
    assert (Datatypes.S k < 180)%nat as Hk'.
    { destruct (Nat.eq_dec k 179%nat) as [->|]; [|lia]. exfalso.
      pose proof year_start_180 as E180. change 180%nat with (Datatypes.S 179) in E180.
      remember 179%nat as k0 eqn:Ek in *. cbn [year_start] in E180. lia. }
    replace (year_start k + c + 1) with (year_start (Datatypes.S k) + 0) by (cbn [year_start]; lia).
    destruct (day_spec (1980 + Z.of_nat (Datatypes.S k)) 0) as (m' & d' & F');
      [pose proof (year_days_range (1980 + Z.of_nat (Datatypes.S k))); lia|].
    pose proof (day_md _ _ _ _ F') as E0. rewrite month_day_first in E0. injection E0 as <- <-.
    rewrite (decode_in_year _ _ _ _ Hk' F') by (pose proof (year_days_range (1980 + Z.of_nat (Datatypes.S k))); lia).
    do 2 f_equal. lia.
Qed.

(** Every word of days is decoded to its Gregorian date. *)
Lemma decode_date_of n : Z.of_nat n < 65536 -> decode (Z.of_nat n) = Some (date_of n).
Proof.
  induction n as [|n IH]; intros Hn; [by vm_compute|].
  rewrite Nat2Z.inj_succ. apply decode_next; [lia|lia|]. apply IH; lia.
Qed.

(** *** The way back *)

(** The day number of a valid date. *)
Definition encode (d : dosdate) : Z :=
  default 0 (DaysFromYearMonthDay (d_year d) (d_month d) (d_monthday d)).

Lemma year_start_closed k : (k <= 120)%nat -> year_start k = Z.of_nat k * 365 + (Z.of_nat k + 3) / 4.
Proof.
  intros Hk. apply Z.eqb_eq.
  replace k with (Z.to_nat (Z.of_nat k)) at 1 by lia.
  refine (forall_range (fun z => year_start (Z.to_nat z) =? z * 365 + (z + 3) / 4) 0 121 _ (Z.of_nat k) _);
    [vm_compute; reflexivity|lia].
Qed.

(** What the tables say about each month and each of its days. *)
Definition month_ok (b : bool) (m : Z) : bool :=
  match at_ (days_of b) (m - 1), at_ (days_of b) m with
  | Some before, Some after =>
      bool_decide (after - before = month_length_of b m) &&
      bool_decide (0 <= before /\ after <= if b then 366 else 365) &&
      forallb (fun d => bool_decide (month_day (days_of b) (before + d - 1) = Some (m, d)))
        (seqZ 1 (month_length_of b m))
  | _, _ => false
  end.

Lemma months_ok (b : bool) m : 1 <= m <= 12 -> month_ok b m = true.
Proof.
  intros Hm. refine (forall_range (month_ok b) 1 12 _ m _); [|lia].
  destruct b; vm_compute; reflexivity.
Qed.

(** A day of a month is a day of the year. *)
Lemma date_in_year y m d : 1 <= m <= 12 -> 1 <= d <= month_length y m ->
  exists before after, at_ (table y) (m - 1) = Some before /\ at_ (table y) m = Some after /\
    after - before = month_length y m /\
    0 <= before + d - 1 < year_days y /\ month_day (table y) (before + d - 1) = Some (m, d).
Proof.
  intros Hm Hd. pose proof (months_ok (leap y) m Hm) as H. unfold month_ok in H.
  change (days_of (leap y)) with (table y) in H. rewrite <- !month_length_eq in H.
  destruct (at_ (table y) (m - 1)) as [before|], (at_ (table y) m) as [after|]; try done.
  rewrite !andb_true_iff, !bool_decide_eq_true in H. destruct H as [[H1 [H2 H3]] H4].
  pose proof (forall_range _ _ _ H4 d ltac:(lia)) as H5. apply bool_decide_eq_true in H5.
  exists before, after. split_and!; try done; [lia|unfold year_days in *; lia].
Qed.

(** The day number of a valid date fits a word, and is decoded to it. *)
Lemma encode_spec d : date_valid d ->
  exists n : nat, DaysFromYearMonthDay (d_year d) (d_month d) (d_monthday d) = Some (Z.of_nat n) /\
    Z.of_nat n < 43830 /\ date_of n = d.
Proof.
  destruct d as [y m day]. intros (Hy & Hm & Hd). cbn [d_year d_month d_monthday] in *.
  destruct (date_in_year y m day Hm Hd) as (before & after & E1 & E2 & E3 & Hc & Emd).
  set (k := Z.to_nat (y - 1980)). assert (y = 1980 + Z.of_nat k) as Ey by lia.
  assert (Hk : (k < 120)%nat) by lia.
  assert (year_start (Datatypes.S k) <= 43830) as Hmax.
  { change 43830 with (year_start 120). apply year_start_mono. lia. }
  set (c := before + day - 1) in *. cbn [year_start] in Hmax. rewrite <- Ey in Hmax.
  pose proof (year_start_ge k).
  assert (decode (year_start k + c) = Some (DosDate y m day)) as Hdec.
  { unfold decode. rewrite (year_loop_spec k) by (cbn [year_start]; rewrite <- ?Ey; lia).
    rewrite <- Ey. replace (year_start k + c - year_start k) with c by lia. by rewrite Emd. }
  exists (Z.to_nat (year_start k + c)). split_and!.
  - unfold DaysFromYearMonthDay. rewrite (proj2 (Z.ltb_ge _ _)) by lia.
    rewrite monthdays_eq by lia. rewrite E1. f_equal. rewrite Z2Nat.id by lia.
    rewrite (year_start_closed k) in * by lia. rewrite u16_id; subst c; rewrite ?Ey in *;
      replace (1980 + Z.of_nat k - 1980) with (Z.of_nat k) by lia; lia.
  - lia.
  - assert (Some (date_of (Z.to_nat (year_start k + c))) = Some (DosDate y m day)) as E; [|by injection E].
    rewrite <- Hdec, <- decode_date_of by lia. by rewrite Z2Nat.id by lia.
Qed.

(** ** Hundredths and ticks *)

Definition hundredths (t : dostime) : Z :=
  6000 * (60 * t_hour t + t_minute t) + (100 * t_second t + t_hundredth t).

Definition time_valid (t : dostime) : Prop :=
  0 <= t_hour t < 24 /\ 0 <= t_minute t < 60 /\ 0 <= t_second t < 60 /\ 0 <= t_hundredth t < 100.

#[export] Instance time_valid_dec t : Decision (time_valid t).
Proof. apply _. Defined.

(** A day has 1800B0h ticks. *)
Definition DAY_TICKS : Z := 0x1800B0.

Lemma hs_to_ticks_eq hs : 0 <= hs < 8640000 -> hs_to_ticks hs = hs * 59659 / 327680.
Proof.
  intros H. unfold hs_to_ticks.
  change 0xffff with (Z.ones 16). rewrite (land_ones_mod hs 16), !Z.shiftr_div_pow2 by lia.
  change (2 ^ 16) with 65536. unfold u32.
  rewrite (Z.mod_small (hs / 65536 * 59659)) by (Z.div_mod_to_equations; lia).
  rewrite (Z.mod_small (hs mod 65536 * 59659)) by (Z.div_mod_to_equations; lia).
  rewrite Z.mod_small by (Z.div_mod_to_equations; lia).
  change 327680 with (65536 * 5). rewrite <- Z.div_div by lia. f_equal.
  Z.div_mod_to_equations. lia.
Qed.

Lemma ticks_to_hs_eq t : 0 <= t < DAY_TICKS -> ticks_to_hs t = t * 327680 / 59659.
Proof.
  unfold DAY_TICKS. intros H. unfold ticks_to_hs, u32. rewrite !Z.shiftl_mul_pow2 by lia.
  change (2 ^ 16) with 65536. rewrite (Z.mod_small (5 * t)) by lia.
  rewrite (Z.mod_small (5 * t / 59659 * 65536)) by (Z.div_mod_to_equations; lia).
  rewrite (Z.mod_small (5 * t mod 59659 * 65536)) by (Z.div_mod_to_equations; lia).
  rewrite Z.mod_small by (Z.div_mod_to_equations; lia).
  Z.div_mod_to_equations. lia.
Qed.

Lemma ticks_to_hs_range t : 0 <= t < DAY_TICKS -> 0 <= ticks_to_hs t < 8640000.
Proof. intros H. rewrite ticks_to_hs_eq by done. unfold DAY_TICKS in H. Z.div_mod_to_equations. lia. Qed.

Lemma hs_to_ticks_range hs : 0 <= hs < 8640000 -> 0 <= hs_to_ticks hs < DAY_TICKS.
Proof. intros H. rewrite hs_to_ticks_eq by done. unfold DAY_TICKS. Z.div_mod_to_equations. lia. Qed.

(** What is set is read back at most 6 hundredths early. *)
Lemma hs_ticks_hs hs : 0 <= hs < 8640000 -> hs - 6 <= ticks_to_hs (hs_to_ticks hs) <= hs.
Proof.
  intros H. rewrite ticks_to_hs_eq by (by apply hs_to_ticks_range).
  rewrite hs_to_ticks_eq by done. Z.div_mod_to_equations. lia.
Qed.

(** Ticks read and written again lose at most one. *)
Lemma ticks_hs_ticks t : 0 <= t < DAY_TICKS -> t - 1 <= hs_to_ticks (ticks_to_hs t) <= t.
Proof.
  intros H. rewrite hs_to_ticks_eq by (by apply ticks_to_hs_range).
  rewrite ticks_to_hs_eq by done. Z.div_mod_to_equations. lia.
Qed.

(** *** BCD *)

Lemma bcd_roundtrip x : 0 <= x < 100 -> InitBcdToByte (ByteToBcd x) = x.
Proof.
  intros H. apply Z.eqb_eq.
  refine (forall_range (fun x => InitBcdToByte (ByteToBcd x) =? x) 0 100 _ x _); [|lia].
  vm_compute. reflexivity.
Qed.

(** ** The BIOS

    What a read reports and what the two writes set: the midnight flag, which a
    read clears, the tick count and the battery-backed clock.  The laws describe
    the calls, not the passing of time between them. *)

Record bios_view := View {
  v_midnight : Z;
  v_ticks : Z;
  v_rtc : list Z * Z * Z * Z }.

Class BiosLaws (B : Type) `{!Bios B} := {
  view : B -> bios_view;
  read_law b : exists b', int1a_read b = (v_midnight (view b), v_ticks (view b), b') /\
    view b' = View 0 (v_ticks (view b)) (v_rtc (view b));
  pc_law t b : view (WritePCClock t b) = View 0 t (v_rtc (view b));
  at_law d h m s b : view (WriteATClock d h m s b) =
    View (v_midnight (view b)) (v_ticks (view b)) (d, h, m, s) }.

(** A BIOS that keeps just that. *)
#[export] Instance view_bios : Bios bios_view := {
  int1a_read b := (v_midnight b, v_ticks b, View 0 (v_ticks b) (v_rtc b));
  WritePCClock t b := View 0 t (v_rtc b);
  WriteATClock d h m s b := View (v_midnight b) (v_ticks b) (d, h, m, s) }.

#[export] Instance view_bios_laws : BiosLaws bios_view.
Proof. refine {| view b := b |}; [by eexists|done|done]. Defined.

Section clock.
Context {B : Type} `{HB : !Bios B, HL : !BiosLaws B}.
Context (answer : Z -> Z).
#[local] Instance system_clock : CharDevice ClockRecord (clock B) := clk_device answer.

(** The clock of a state, and the day it counts when it is read next. *)
Definition clock_view (st : systime (clock B)) : bios_view := view (bios (clk_dev st)).
Definition today (st : systime (clock B)) : Z :=
  u16 (DaysSinceEpoch (clk_dev st) + v_midnight (clock_view st)).

(** The record the driver answers. *)
Definition record_of (day ticks : Z) : ClockRecord :=
  let hs := ticks_to_hs ticks in
  ClkRecord day (u8 (Z.rem (s16 (hs / 6000)) 60)) (u8 (Z.quot (s16 (hs / 6000)) 60))
    (u8 (Z.rem (s16 (hs mod 6000)) 100)) (u8 (Z.quot (s16 (hs mod 6000)) 100)).

Definition time_of (r : ClockRecord) : dostime :=
  DosTime (clkHours r) (clkMinutes r) (clkSeconds r) (clkHundredths r).

Lemma request_input fuel st : exists st',
  ExecuteClockDriverRequest (Datatypes.S fuel) C_INPUT st = Some st' /\
  clk_status st' = S_DONE /\ clk_record st' = record_of (today st) (v_ticks (clock_view st)) /\
  DaysSinceEpoch (clk_dev st') = today st /\
  clock_view st' = View 0 (v_ticks (clock_view st)) (v_rtc (clock_view st)).
Proof.
  destruct st as [status r [n b]]. destruct (read_law b) as (b' & Eb & Hv).
  eexists. split.
  { unfold ExecuteClockDriverRequest. cbn [BinaryCharIO]. unfold CharRequest.
    cbn [char_execrh system_clock clk_device]. unfold clk_driver, clk_input, ReadPCClock.
    cbn [clk_dev bios DaysSinceEpoch Z.eqb negb sizeof_ClockRecord C_INIT C_INPUT Pos.eqb].
    rewrite Eb. cbn. reflexivity. }
  cbn. split_and!; done.
Qed.

Lemma request_output fuel st s' : clk_output (clk_record st) (clk_dev st) = Some s' ->
  ExecuteClockDriverRequest (Datatypes.S fuel) C_OUTPUT st = Some (Systime S_DONE (clk_record st) s').
Proof.
  intros E. destruct st as [status r s]. cbn [clk_record clk_dev] in E.
  unfold ExecuteClockDriverRequest. cbn [BinaryCharIO]. unfold CharRequest.
  cbn [char_execrh system_clock clk_device]. unfold clk_driver.
  cbn [clk_dev clk_record Z.eqb negb sizeof_ClockRecord C_INIT C_INPUT C_OUTPUT Pos.eqb].
  by rewrite E.
Qed.

(** The record is in range, as [C_OUTPUT] needs it. *)
Definition record_ok (r : ClockRecord) : Prop := 0 <= clkDays r < 65536 /\ time_valid (time_of r).

(** The battery-backed clock shows a date and a time. *)
Definition rtc_of (d : dosdate) (t : dostime) : list Z * Z * Z * Z :=
  (DayToBcd (d_month d) (d_monthday d) (d_year d), ByteToBcd (t_hour t), ByteToBcd (t_minute t),
   ByteToBcd (t_second t)).

Lemma clk_output_spec r s : record_ok r -> exists s',
  clk_output r s = Some s' /\ DaysSinceEpoch s' = clkDays r /\
  view (bios s') = View 0 (hs_to_ticks (hundredths (time_of r)))
                     (rtc_of (date_of (Z.to_nat (clkDays r))) (time_of r)).
Proof.
  intros [Hd Ht]. destruct (day_of_word _ Hd) as (k & c & m & d & Hk & E & Hc & F).
  eexists. split.
  { unfold clk_output. rewrite E.
    rewrite (year_loop_spec k) by (done || (cbn [year_start]; lia)).
    replace (year_start k + c - year_start k) with c by lia. rewrite (day_driver _ _ _ _ F). reflexivity. }
  cbn [DaysSinceEpoch bios]. split; [by rewrite E|].
  rewrite at_law, pc_law. cbn [v_midnight v_ticks]. f_equal.
  - f_equal. unfold hundredths, time_of; cbn. apply u32_id.
    destruct Ht as (? & ? & ? & ?). cbn in *. lia.
  - assert (date_of (Z.to_nat (clkDays r)) = DosDate (1980 + Z.of_nat k) m d) as ->.
    { assert (Some (date_of (Z.to_nat (clkDays r))) = Some (DosDate (1980 + Z.of_nat k) m d)) as E';
        [|by injection E'].
      rewrite <- decode_date_of by lia. rewrite Z2Nat.id by lia. rewrite E.
      by apply decode_in_year. }
    done.
Qed.

(** *** The time a tick count shows *)

Lemma time_of_record day t : 0 <= t < DAY_TICKS ->
  time_valid (time_of (record_of day t)) /\ hundredths (time_of (record_of day t)) = ticks_to_hs t.
Proof.
  intros H. pose proof (ticks_to_hs_range t H) as Hr. unfold time_of, record_of, time_valid, hundredths.
  cbn [clkHours clkMinutes clkSeconds clkHundredths t_hour t_minute t_second t_hundredth].
  generalize dependent (ticks_to_hs t). intros hs Hr.
  rewrite !Z.rem_mod_nonneg, !Z.quot_div_nonneg by word_lia.
  assert (s16 (hs / 6000) = hs / 6000) as -> by word_lia.
  assert (s16 (hs mod 6000) = hs mod 6000) as -> by word_lia.
  rewrite !u8_id by (Z.div_mod_to_equations; lia). split; Z.div_mod_to_equations; lia.
Qed.

Lemma is_error_done : is_error S_DONE = false.
Proof. reflexivity. Qed.

Lemma today_range st : 0 <= today st < 65536.
Proof. apply u16_range. Qed.

(** Sending a record that is in range. *)
Lemma send_record_spec fuel st : record_ok (clk_record st) -> exists st',
  send_record (Datatypes.S fuel) st = Some (SUCCESS, st') /\
  DaysSinceEpoch (clk_dev st') = clkDays (clk_record st) /\
  clock_view st' = View 0 (hs_to_ticks (hundredths (time_of (clk_record st))))
    (rtc_of (date_of (Z.to_nat (clkDays (clk_record st)))) (time_of (clk_record st))).
Proof.
  intros H. destruct (clk_output_spec _ (clk_dev st) H) as (s' & E & Hd & Hv).
  exists (Systime S_DONE (clk_record st) s'). unfold send_record. rewrite (request_output _ _ _ E).
  cbn [clk_status]. rewrite is_error_done. split_and!; done.
Qed.

(** *** The calls *)

Lemma DosGetDate_spec fuel st : exists st',
  DosGetDate (Datatypes.S fuel) st =
    Some (Some (date_of (Z.to_nat (today st))), u8 (u16 (today st + 2) mod 7), st') /\
  DaysSinceEpoch (clk_dev st') = today st /\
  clock_view st' = View 0 (v_ticks (clock_view st)) (v_rtc (clock_view st)).
Proof.
  destruct (request_input fuel st) as (st' & E & Es & Er & Ed & Ev). exists st'. split; [|done].
  unfold DosGetDate. rewrite E, Es, is_error_done, Er. cbn [clkDays record_of].
  pose proof (today_range st) as Hn. destruct (day_of_word _ Hn) as (k & c & m & d & Hk & En & Hc & F).
  assert (date_of (Z.to_nat (today st)) = DosDate (1980 + Z.of_nat k) m d) as ->.
  { assert (Some (date_of (Z.to_nat (today st))) = Some (DosDate (1980 + Z.of_nat k) m d)) as E';
      [|by injection E'].
    rewrite <- decode_date_of by lia. rewrite Z2Nat.id by lia. rewrite En. by apply decode_in_year. }
  rewrite En at 1. rewrite (year_loop_spec k) by (done || (cbn [year_start]; lia)).
  replace (year_start k + c - year_start k) with c by lia.
  pose proof (day_md _ _ _ _ F) as Emd. unfold month_day in Emd.
  destruct (month_loop MONTHS (table _) c 1) as [m'|]; [|done].
  destruct (at_ (table _) (m' - 1)) as [before|]; [|done]. injection Emd as -> Ed'.
  pose proof (day_month _ _ _ _ F) as Hm. pose proof (day_range _ _ _ _ F) as Hdd.
  rewrite Ed', (u8_id m), (u8_id d); [done| |lia].
  assert (month_length (1980 + Z.of_nat k) m <= 31); [|lia].
  unfold month_length. by repeat case_match.
Qed.

Lemma DosGetTime_spec fuel st : 0 <= v_ticks (clock_view st) < DAY_TICKS -> exists t st',
  DosGetTime (Datatypes.S fuel) st = Some (Some t, st') /\
  time_valid t /\ hundredths t = ticks_to_hs (v_ticks (clock_view st)) /\
  DaysSinceEpoch (clk_dev st') = today st /\
  clock_view st' = View 0 (v_ticks (clock_view st)) (v_rtc (clock_view st)).
Proof.
  intros Ht. destruct (request_input fuel st) as (st' & E & Es & Er & Ed & Ev).
  destruct (time_of_record (today st) _ Ht) as [Hv Hh].
  exists (time_of (record_of (today st) (v_ticks (clock_view st)))), st'.
  unfold DosGetTime. rewrite E, Es, is_error_done, Er. split_and!; try done; apply Hv.
Qed.

(** The fields of a caller's date as the machine has them. *)
Definition date_word (d : dosdate) : Prop :=
  0 <= d_year d < 65536 /\ 0 <= d_month d < 256 /\ 0 <= d_monthday d < 256.

(** The guard of [DosSetDate] is the validity of the date. *)
Lemma set_date_guard d : date_word d -> exists pdays,
  is_leap_year_monthdays (d_year d) = Some pdays /\
  (if (d_year d <? 1980) || (2099 <? d_year d) || (d_month d <? 1) || (12 <? d_month d) ||
      (d_monthday d <? 1) then Some true
   else let* a := at_ pdays (d_month d) in
        let* b := at_ pdays (d_month d - 1) in
        Some (a - b <? d_monthday d)) = Some (negb (bool_decide (date_valid d))).
Proof.
  destruct d as [y m d]. unfold date_word, date_valid. cbn. intros (Hy & Hm & Hd).
  assert (exists pdays, is_leap_year_monthdays y = Some pdays) as [pdays Ep].
  { unfold is_leap_year_monthdays. destruct (_ || _); by eexists. }
  exists pdays. split; [done|].
  destruct ((y <? 1980) || (2099 <? y) || (m <? 1) || (12 <? m) || (d <? 1)) eqn:G.
  - rewrite bool_decide_false; [done|]. intros (? & ? & ?).
    repeat (apply orb_true_iff in G as [G|G]); apply Z.ltb_lt in G; lia.
  - repeat (apply orb_false_iff in G as [G ?]). rewrite !Z.ltb_ge in *.
    rewrite monthdays_eq in Ep by lia. injection Ep as <-.
    pose proof (months_ok (leap y) m ltac:(lia)) as Hok. unfold month_ok in Hok.
    change (days_of (leap y)) with (table y) in Hok. rewrite <- !month_length_eq in Hok.
    destruct (at_ (table y) (m - 1)) as [b|], (at_ (table y) m) as [a|]; try done.
    rewrite !andb_true_iff, !bool_decide_eq_true in Hok. destruct Hok as [[Hl _] _].
    f_equal. destruct (Z.ltb_spec (a - b) d).
    + rewrite bool_decide_false; [done|]. lia.
    + rewrite bool_decide_true; [done|]. lia.
Qed.

Lemma DosSetDate_spec fuel d st : date_valid d -> 0 <= v_ticks (clock_view st) < DAY_TICKS ->
  exists n t st', DosSetDate (Datatypes.S fuel) d st = Some (SUCCESS, st') /\
    Z.of_nat n < 43830 /\ date_of n = d /\ DaysSinceEpoch (clk_dev st') = Z.of_nat n /\
    time_valid t /\ hundredths t = ticks_to_hs (v_ticks (clock_view st)) /\
    clock_view st' = View 0 (hs_to_ticks (hundredths t)) (rtc_of d t).
Proof.
  intros Hd Ht. assert (date_word d) as Hw.
  { destruct Hd as (? & ? & Hl). split_and!; try lia.
    unfold month_length in Hl. repeat case_match; lia. }
  destruct (set_date_guard d Hw) as (pdays & Ep & Eg).
  destruct (encode_spec d Hd) as (n & En & Hn & Ed).
  destruct (request_input fuel st) as (st1 & E1 & Es & Er & Ed1 & Ev).
  destruct (time_of_record (today st) _ Ht) as [Hv Hh].
  set (r := record_of (today st) (v_ticks (clock_view st))) in *.
  set (r' := ClkRecord (Z.of_nat n) (clkMinutes r) (clkHours r) (clkHundredths r) (clkSeconds r)).
  destruct (send_record_spec fuel (with_record r' st1)) as (st' & E2 & Ed2 & Ev2).
  { split; [cbn; lia|exact Hv]. }
  exists n, (time_of r), st'. split.
  - unfold DosSetDate. rewrite Ep, Eg, bool_decide_true by done. cbn [negb]. rewrite E1, En, Er. exact E2.
  - cbn in Ed2. rewrite Ev2. cbn [with_record clk_record clkDays r']. rewrite Nat2Z.id, Ed. done.
Qed.

Lemma DosSetTime_spec fuel t st : time_valid t ->
  exists st', DosSetTime (Datatypes.S fuel) t st = Some (SUCCESS, st') /\
    DaysSinceEpoch (clk_dev st') = today st /\
    clock_view st' = View 0 (hs_to_ticks (hundredths t)) (rtc_of (date_of (Z.to_nat (today st))) t).
Proof.
  intros Ht. destruct (request_input fuel st) as (st1 & E1 & Es & Er & Ed1 & Ev).
  set (r' := ClkRecord (today st) (t_minute t) (t_hour t) (t_hundredth t) (t_second t)).
  destruct (send_record_spec fuel (with_record r' st1)) as (st' & E2 & Ed2 & Ev2).
  { split; [apply today_range|]. by destruct t. }
  exists st'. split.
  - unfold DosSetTime. destruct Ht as (? & ? & ? & ?).
    rewrite !(proj2 (Z.ltb_ge _ _)) by lia. cbn [orb]. rewrite E1, Er. exact E2.
  - split; [done|]. rewrite Ev2. by destruct t.
Qed.

Lemma hundredths_range t : time_valid t -> 0 <= hundredths t < 8640000.
Proof. unfold time_valid, hundredths. lia. Qed.

(** The day does not change when the midnight flag is down. *)
Lemma today_settled st n : DaysSinceEpoch (clk_dev st) = n -> 0 <= n < 65536 ->
  v_midnight (clock_view st) = 0 -> today st = n.
Proof. intros <- Hn E. unfold today. rewrite E, Z.add_0_r. by apply u16_id. Qed.

(** ** Properties *)

(** Getting the date: for every day count the loops end and the date is the
    one of the Gregorian calendar, so many days after the first of January 1980;
    the weekday is right up to the two last counts. *)
Theorem DosGetDate_correct fuel st : exists wd st',
  DosGetDate (Datatypes.S fuel) st = Some (Some (date_of (Z.to_nat (today st))), wd, st') /\
  DaysSinceEpoch (clk_dev st') = today st /\
  (today st < 65534 -> wd = weekday (Z.to_nat (today st))).
Proof.
  destruct (DosGetDate_spec fuel st) as (st' & E & Ed & _).
  exists (u8 (u16 (today st + 2) mod 7)), st'. split_and!; [done|done|]. intros Hlt.
  pose proof (today_range st). unfold weekday. rewrite Z2Nat.id by lia. word_lia.
Qed.

(** Setting the date: a date that is not one of the years 1980 to 2099 is
    refused and nothing changes; any other is stored, is the date the next call
    gets, with its weekday, and the time of day loses at most a tick. *)
Theorem DosSetDate_correct fuel d st :
  date_word d -> 0 <= v_ticks (clock_view st) < DAY_TICKS ->
  if decide (date_valid d) then
    exists n st' st'', DosSetDate (Datatypes.S fuel) d st = Some (SUCCESS, st') /\
      date_of n = d /\ DosGetDate (Datatypes.S fuel) st' = Some (Some d, weekday n, st'') /\
      v_ticks (clock_view st) - 1 <= v_ticks (clock_view st') <= v_ticks (clock_view st)
  else DosSetDate (Datatypes.S fuel) d st = Some (DE_INVLDDATA, st).
Proof.
  intros Hw Ht. destruct (decide (date_valid d)) as [Hd|Hd].
  - destruct (DosSetDate_spec fuel d st Hd Ht) as (n & t & st' & E & Hn & <- & Hday & Hv & Hh & Ev).
    destruct (DosGetDate_spec fuel st') as (st'' & E' & _).
    assert (today st' = Z.of_nat n) as Ht' by (apply today_settled; [done|lia|by rewrite Ev]).
    exists n, st', st''. rewrite E', Ht', Nat2Z.id. split_and!; try done.
    + do 3 f_equal. unfold weekday. word_lia.
    + rewrite Ev, Hh. cbn. by apply ticks_hs_ticks.
    + rewrite Ev, Hh. cbn. by apply ticks_hs_ticks.
  - destruct (set_date_guard d Hw) as (pdays & Ep & Eg). unfold DosSetDate.
    rewrite Ep, Eg, bool_decide_false by done. done.
Qed.

(** Setting the time: a time that is not of a day is refused and nothing
    changes; any other is stored, leaves the day, and is read back as a valid
    time at most 6 hundredths of a second early. *)
Theorem DosSetTime_correct fuel t st :
  0 <= t_hour t -> 0 <= t_minute t -> 0 <= t_second t -> 0 <= t_hundredth t ->
  if decide (time_valid t) then
    exists st' t' st'', DosSetTime (Datatypes.S fuel) t st = Some (SUCCESS, st') /\
      DosGetTime (Datatypes.S fuel) st' = Some (Some t', st'') /\ time_valid t' /\
      hundredths t - 6 <= hundredths t' <= hundredths t /\
      today st' = today st
  else DosSetTime (Datatypes.S fuel) t st = Some (DE_INVLDDATA, st).
Proof.
  intros H1 H2 H3 H4. destruct (decide (time_valid t)) as [Ht|Ht].
  - destruct (DosSetTime_spec fuel t st Ht) as (st' & E & Ed & Ev).
    pose proof (hundredths_range t Ht) as Hr.
    destruct (DosGetTime_spec fuel st') as (t' & st'' & E' & Hv & Hh & _).
    { rewrite Ev. by apply hs_to_ticks_range. }
    exists st', t', st''. rewrite Hh, Ev. cbn. split_and!; try done.
    1,2: by apply hs_ticks_hs.
    apply today_settled; [done|apply today_range|by rewrite Ev].
  - unfold DosSetTime. destruct (_ || _) eqn:G; [done|]. destruct Ht.
    repeat (apply orb_false_iff in G as [G ?]). rewrite !Z.ltb_ge in *.
    unfold time_valid. lia.
Qed.

(** The time of day: for every tick count of a day the driver's scaling does
    not overflow and the time is valid, in hundredths the ticks times 65536 * 5
    / 59659 rounded down. *)
Theorem DosGetTime_bounds fuel st : 0 <= v_ticks (clock_view st) < DAY_TICKS ->
  exists t st', DosGetTime (Datatypes.S fuel) st = Some (Some t, st') /\ time_valid t /\
    hundredths t = v_ticks (clock_view st) * 327680 / 59659.
Proof.
  intros Ht. destruct (DosGetTime_spec fuel st Ht) as (t & st' & E & Hv & Hh & _).
  exists t, st'. by rewrite Hh, ticks_to_hs_eq.
Qed.

(** The registers in which the BIOS reports the battery-backed clock. *)
Definition rtc_registers (rtc : list Z * Z * Z * Z) : option ((Z * Z * Z * Z) * (Z * Z * Z)) :=
  match rtc with
  | ([day; month; year; century], h, m, s) => Some ((century, year, month, day), (h, m, s))
  | _ => None
  end.

(** A date and a time that were set survive a restart: from the registers of
    the battery-backed clock, whatever the state before, the start-up code sets
    the same date, and a time at most 6 hundredths before the same second. *)
Theorem clock_survives_restart fuel d t st st0 :
  date_valid d -> time_valid t ->
  0 <= v_ticks (clock_view st) < DAY_TICKS -> 0 <= v_ticks (clock_view st0) < DAY_TICKS ->
  exists st1 st2 regsD regsT st3 wd t' st4 st5,
    DosSetDate (Datatypes.S fuel) d st = Some (SUCCESS, st1) /\
    DosSetTime (Datatypes.S fuel) t st1 = Some (SUCCESS, st2) /\
    rtc_registers (v_rtc (clock_view st2)) = Some (regsD, regsT) /\
    Init_clk_driver (Datatypes.S fuel) regsD regsT st0 = Some st3 /\
    DosGetDate (Datatypes.S fuel) st3 = Some (Some d, wd, st4) /\
    DosGetTime (Datatypes.S fuel) st3 = Some (Some t', st5) /\
    hundredths t - t_hundredth t - 6 <= hundredths t' <= hundredths t - t_hundredth t.
Proof.
  intros Hd Ht Htk Htk0.
  destruct (DosSetDate_spec fuel d st Hd Htk) as (n & t1 & st1 & E1 & Hn & Edate & Ed1 & _ & _ & Ev1).
  destruct (DosSetTime_spec fuel t st1 Ht) as (st2 & E2 & Ed2 & Ev2).
  rewrite (today_settled st1 _ Ed1 ltac:(lia) ltac:(by rewrite Ev1)), Nat2Z.id, Edate in *.
  set (t0 := DosTime (t_hour t) (t_minute t) (t_second t) 0).
  assert (time_valid t0) as Ht0 by (destruct Ht as (? & ? & ? & ?); split_and!; cbn; lia).
  destruct (DosSetDate_spec fuel d st0 Hd Htk0) as (n' & t1' & st1' & E3 & Hn' & Edate' & Ed3 & _ & _ & Ev3).
  destruct (DosSetTime_spec fuel t0 st1' Ht0) as (st3 & E4 & Ed4 & Ev4).
  rewrite (today_settled st1' _ Ed3 ltac:(lia) ltac:(by rewrite Ev3)), Nat2Z.id, Edate' in *.
  pose proof (today_settled st3 _ Ed4 ltac:(lia) ltac:(by rewrite Ev4)) as Htoday.
  destruct (DosGetDate_spec fuel st3) as (st4 & E5 & _).
  rewrite Htoday, Nat2Z.id, Edate' in E5.
  destruct (DosGetTime_spec fuel st3) as (t' & st5 & E6 & _ & Hh & _).
  { rewrite Ev4. apply hs_to_ticks_range, hundredths_range, Ht0. }
  do 9 eexists. split_and!; [exact E1|exact E2|by rewrite Ev2| |exact E5|exact E6|..].
  - unfold Init_clk_driver. destruct Hd as ((? & ?) & ? & Hl), Ht as (? & ? & ? & ?).
    assert (month_length (d_year d) (d_month d) <= 31) by (unfold month_length; by repeat case_match).
    rewrite !bcd_roundtrip by (Z.div_mod_to_equations; lia).
    replace (100 * (d_year d / 100) + d_year d mod 100) with (d_year d) by (Z.div_mod_to_equations; lia).
    rewrite (proj2 (Z.ltb_ge (d_year d) 1980)), andb_false_r by lia.
    destruct d as [y m dd]. cbn [d_year d_month d_monthday] in *. rewrite E3. fold t0. by rewrite E4.
  - rewrite Hh, Ev4. cbn [v_ticks]. pose proof (hs_ticks_hs _ (hundredths_range _ Ht0)).
    unfold hundredths, t0 in *. cbn in *. lia.
  - rewrite Hh, Ev4. cbn [v_ticks]. pose proof (hs_ticks_hs _ (hundredths_range _ Ht0)).
    unfold hundredths, t0 in *. cbn in *. lia.
Qed.

End clock.

(** ** Witnesses: the 29th of February 2000, on a BIOS that keeps what it is told *)

Definition noon_state : systime (clock bios_view) :=
  Systime 0 (ClkRecord 0 0 0 0 0) (Clock 10956 (View 0 0xC0058 ([], 0, 0, 0))).

Lemma DosSetDate_correct_witness : exists n st' st'',
  DosSetDate (HD := clk_device id) 1 (DosDate 2000 2 29) noon_state = Some (SUCCESS, st') /\
  date_of n = DosDate 2000 2 29 /\
  DosGetDate (HD := clk_device id) 1 st' = Some (Some (DosDate 2000 2 29), weekday n, st'') /\
  v_ticks (clock_view noon_state) - 1 <= v_ticks (clock_view st') <= v_ticks (clock_view noon_state).
Proof.
  pose proof (DosSetDate_correct id 0 (DosDate 2000 2 29) noon_state
    ltac:(split_and!; vm_compute; congruence) ltac:(split; vm_compute; congruence)) as H.
  rewrite decide_True in H by (split_and!; vm_compute; congruence). exact H.
Defined.

Lemma DosSetTime_correct_witness : exists st' t' st'',
  DosSetTime (HD := clk_device id) 1 (DosTime 23 59 59 99) noon_state = Some (SUCCESS, st') /\
  DosGetTime (HD := clk_device id) 1 st' = Some (Some t', st'') /\ time_valid t' /\
  hundredths (DosTime 23 59 59 99) - 6 <= hundredths t' <= hundredths (DosTime 23 59 59 99) /\
  today st' = today noon_state.
Proof.
  pose proof (DosSetTime_correct id 0 (DosTime 23 59 59 99) noon_state
    ltac:(cbn; lia) ltac:(cbn; lia) ltac:(cbn; lia) ltac:(cbn; lia)) as H.
  rewrite decide_True in H by (split_and!; cbn; lia). exact H.
Defined.

Lemma DosGetTime_bounds_witness : exists t st',
  DosGetTime (HD := clk_device id) 1 noon_state = Some (Some t, st') /\ time_valid t /\
  hundredths t = v_ticks (clock_view noon_state) * 327680 / 59659.
Proof. exact (DosGetTime_bounds id 0 noon_state ltac:(split; vm_compute; congruence)). Defined.

Lemma clock_survives_restart_witness :
  exists st1 st2 regsD regsT st3 wd t' st4 st5,
    DosSetDate (HD := clk_device id) 1 (DosDate 2099 12 31) noon_state = Some (SUCCESS, st1) /\
    DosSetTime (HD := clk_device id) 1 (DosTime 23 59 59 99) st1 = Some (SUCCESS, st2) /\
    rtc_registers (v_rtc (clock_view st2)) = Some (regsD, regsT) /\
    Init_clk_driver (HD := clk_device id) 1 regsD regsT noon_state = Some st3 /\
    DosGetDate (HD := clk_device id) 1 st3 = Some (Some (DosDate 2099 12 31), wd, st4) /\
    DosGetTime (HD := clk_device id) 1 st3 = Some (Some t', st5) /\
    hundredths (DosTime 23 59 59 99) - 99 - 6 <= hundredths t' <= hundredths (DosTime 23 59 59 99) - 99.
Proof.
  exact (clock_survives_restart id 0 (DosDate 2099 12 31) (DosTime 23 59 59 99) noon_state noon_state
    ltac:(split_and!; vm_compute; congruence) ltac:(split_and!; cbn; lia)
    ltac:(split; vm_compute; congruence) ltac:(split; vm_compute; congruence)).
Defined.

Lemma DosGetDate_correct_witness : exists wd st',
  DosGetDate (HD := clk_device id) 1 noon_state = Some (Some (date_of (Z.to_nat (today noon_state))), wd, st') /\
  DaysSinceEpoch (clk_dev st') = today noon_state /\ wd = weekday (Z.to_nat (today noon_state)).
Proof.
  destruct (DosGetDate_correct id 0 noon_state) as (wd & st' & E & Ed & Hw).
  exists wd, st'. split_and!; [exact E|exact Ed|]. apply Hw. vm_compute. congruence.
Defined.
