(* ===== verification/Prf.v ===== *)
(** * Formatted output ([kernel/prf.c])

    The kernel's own [printf].  A character is its code, the console is the list
    of the characters sent to it, and the variable arguments are the words of
    the stack: one for an [int] or a near pointer, two for a [long] or a far
    pointer. *)

From S2P Require Import Prelude.

(** ** Output *)

(** What was sent to the console; where [charp] points, when it is not null, by
    the characters stored there so far. *)
Record prf := Prf { console : list Z; charp : option (list Z) }.

(** kernel/prf.c:95-116 *)
Definition put_console (c : Z) (st : prf) : prf :=
  let st := if c =? 10 then Prf (console st ++ [13]) (charp st) else st in
  Prf (console st ++ [u8 c]) (charp st).

(** kernel/prf.c:143-149 *)
Definition handle_char (c : Z) (st : prf) : prf :=
  match charp st with
  | None => put_console c st
  | Some l => Prf (console st) (Some (l ++ [u8 c]))
  end.

(** ** Numbers *)

Definition digits : list Z := str "0123456789abcdef".

(** The digits in reverse order, from the place [p] of the array [s].
    kernel/prf.c:170-175 *)
Fixpoint ltob_digits (fuel : nat) (s : list Z) (p u base : Z) : option (list Z * Z) :=
  match fuel with
  | O => None
  | S fuel' =>
      let* d := at_ digits (u16 (u mod base)) in
      let* s := set_at p d s in
      if 0 <? u / base then ltob_digits fuel' s (p + 1) (u / base) base else Some (s, p + 1)
  end.

(** The reversal of the digits between [q] and [p].
    kernel/prf.c:178-183 *)
Fixpoint ltob_reverse (fuel : nat) (s : list Z) (q p : Z) : option (list Z) :=
  match fuel with
  | O => None
  | S fuel' =>
      let p := p - 1 in
      if q <? p then
        let* c := at_ s q in
        let* d := at_ s p in
        let* s := set_at q d s in
        let* s := set_at p c s in
        ltob_reverse fuel' s (q + 1) p
      else Some s
  end.

(** A long has at most 32 digits. *)
Definition LTOB : nat := 32.

(** kernel/prf.c:152-184 *)
Definition ltob (n : Z) (s : list Z) (base : Z) : option (list Z) :=
  let* (u, base, s, start) :=
    if base =? -10 then
      if n <? 0 then let* s := set_at 0 (ch "-") s in Some (u32 (- n), 10, s, 1)
      else Some (u32 n, 10, s, 0)
    else Some (u32 n, base, s, 0) in
  let* (s, p) := ltob_digits LTOB s start u base in
  let* s := set_at p 0 s in
  ltob_reverse LTOB s start p.

(** ** Formats *)

(** kernel/prf.c:186-186 *)
Definition LEFT : Z := 0.
(** kernel/prf.c:187-187 *)
Definition RIGHT : Z := 1.
(** kernel/prf.c:188-188 *)
Definition ZEROSFILL : Z := 2.
(** kernel/prf.c:189-189 *)
Definition LONGARG : Z := 4.

Definition flag (flags f : Z) : bool := negb (Z.land flags f =? 0).

(** An option character of a directive.
    kernel/prf.c:245-255 *)
Definition option_char (c : Z) (fmt : list Z) : bool * list Z :=
  match fmt with
  | c' :: fmt' => if c' =? c then (true, fmt') else (false, fmt)
  | [] => (false, fmt)
  end.

(** kernel/prf.c:257-265 *)
Fixpoint field_width (fmt : list Z) (size : Z) : Z * list Z :=
  match fmt with
  | [] => (size, [])
  | f :: fmt' =>
      let c := u8 (f - ch "0") in
      if 9 <? c then (size, fmt) else field_width fmt' (s16 (size * 10 + c))
  end.

(** The arguments on the stack.
    kernel/prf.c:132-132 *)
Definition va_int (arg : list Z) : option (Z * list Z) :=
  match arg with w :: arg => Some (w, arg) | [] => None end.
Definition va_long (arg : list Z) : option (Z * list Z) :=
  match arg with lo :: hi :: arg => Some (lo + 65536 * hi, arg) | _ => None end.

(** A [long] from its 32 bits. *)
Definition s32 (z : Z) : Z := (z + 2147483648) mod 4294967296 - 2147483648.

(** The number a directive takes.
    kernel/prf.c:323-331 *)
Definition number_arg (flags base : Z) (arg : list Z) : option (Z * list Z) :=
  if flag flags LONGARG then let* (w, arg) := va_long arg in Some (s32 w, arg)
  else let* (w, arg) := va_int arg in Some (if 0 <=? base then w else s16 w, arg).

(** kernel/prf.c:304-319 *)
Definition conversion_base (c : Z) : option Z :=
  if (c =? ch "i") || (c =? ch "d") then Some (-10)
  else if c =? ch "o" then Some 8
  else if c =? ch "u" then Some 10
  else if (c =? ch "X") || (c =? ch "x") then Some 16
  else None.

(** [size] copies of a character, none when it is not positive. *)
Definition repeat_char (size c : Z) (st : prf) : prf := Nat.iter (Z.to_nat size) (handle_char c) st.

(** The field with its padding.
    kernel/prf.c:345-362 *)
Definition put_field (flags size : Z) (p : list Z) (st : prf) : prf :=
  let size := s16 (size - u16 (Z.of_nat (length p))) in
  let '(size, st) :=
    if flag flags RIGHT then
      (Z.min size 0, repeat_char size (if flag flags ZEROSFILL then ch "0" else 32) st)
    else (size, st) in
  let st := fold_left (fun st c => handle_char c st) p st in
  repeat_char size 32 st.

(** The local array [s]. *)
Definition buffer : list Z := repeat 0 11.

Section printf.
(** The memory a string argument points into, and the data segment. *)
Context (mem : Z -> Z -> Z) (DS : Z).

(** The characters from an address to the NUL; the offset wraps. *)
Fixpoint far_string (fuel : nat) (seg off : Z) : option (list Z) :=
  match fuel with
  | O => None
  | S fuel' =>
      let c := mem seg off in
      if c =? 0 then Some []
      else let* s := far_string fuel' seg (u16 (off + 1)) in Some (c :: s)
  end.

(** One turn for each character or directive; a nested turn of a [%p] comes out
    of the same fuel.
    kernel/prf.c:227-365 *)
Fixpoint do_printf (fuel : nat) (fmt arg : list Z) (st : prf) : option prf :=
  match fuel with
  | O => None
  | S fuel' =>
      match fmt with
      | [] => Some st
      | c :: fmt =>
          if negb (c =? ch "%") then do_printf fuel' fmt arg (handle_char c st)
          else
            let '(minus, fmt) := option_char (ch "-") fmt in
            let flags := if minus then LEFT else RIGHT in
            let '(zeros, fmt) := option_char (ch "0") fmt in
            let flags := if zeros then Z.lor flags ZEROSFILL else flags in
            let '(size, fmt) := field_width fmt 0 in
            let '(long, fmt) := option_char (ch "l") fmt in
            let flags := if long then Z.lor flags LONGARG else flags in
            match fmt with
            | [] => Some st
            | c :: fmt =>
                if c =? ch "c" then
                  let* (n, arg) := va_int arg in
                  do_printf fuel' fmt arg (handle_char n st)
                else if c =? ch "p" then
                  let* (w0, arg) := va_int arg in
                  let* (w1, arg) := va_int arg in
                  let* st' := do_printf fuel' (str "%04x:%04x") [w1; w0] (Prf (console st) (Some [])) in
                  let* p := charp st' in
                  let* p := if (length p <? 11)%nat then cstr (p ++ [0]) else None in
                  do_printf fuel' fmt arg (put_field flags size p st)
                else if c =? ch "s" then
                  let* (off, arg) := va_int arg in
                  let* p := far_string fuel' DS off in
                  do_printf fuel' fmt arg (put_field flags size p st)
                else if (c =? ch "F") || (c =? ch "S") then
                  let* fmt := if c =? ch "F" then match fmt with [] => None | _ :: fmt => Some fmt end
                              else Some fmt in
                  let* (off, arg) := va_int arg in
                  let* (seg, arg) := va_int arg in
                  let* p := far_string fuel' seg off in
                  do_printf fuel' fmt arg (put_field flags size p st)
                else
                  match conversion_base c with
                  | Some base =>
                      let* (currentArg, arg) := number_arg flags base arg in
                      let* s := ltob currentArg buffer base in
                      let* p := cstr s in
                      do_printf fuel' fmt arg (put_field flags size p st)
                  | None =>
                      let st := if c =? ch "%" then st else handle_char (ch "?") st in
                      do_printf fuel' fmt arg (handle_char c st)
                  end
            end
      end
  end.

(** kernel/prf.c:192-199 *)
Definition printf (fuel : nat) (fmt arg : list Z) (st : prf) : option prf :=
  do_printf fuel fmt arg (Prf (console st) None).

(** The characters stored at [buff], and the state, whose [charp] is after them.
    kernel/prf.c:216-225 *)
Definition sprintf (fuel : nat) (fmt arg : list Z) (st : prf) : option prf :=
  let* st := do_printf fuel fmt arg (Prf (console st) (Some [])) in
  Some (handle_char 0 st).

End printf.

(** ** Dumps *)

(** The digits of [put_unsigned] in its array of six characters.
    kernel/prf.c:403-407 *)
Fixpoint unsigned_digits (width : nat) (i : Z) (s : list Z) (n base : Z) : option (list Z) :=
  match width with
  | O => Some s
  | S width' =>
      let* d := at_ digits (u16 (n mod base)) in
      let* s := set_at i d s in
      unsigned_digits width' (i + 1) s (n / base) base
  end.

(** kernel/prf.c:398-413 *)
Definition put_unsigned (n base : Z) (width : nat) (st : prf) : option prf :=
  let* s := unsigned_digits width 0 (repeat 0 6) n base in
  Some (fold_left (fun st c => put_console c st) (rev (take width s)) st).

(** kernel/prf.c:415-419 *)
Definition put_string (s : list Z) (st : prf) : prf := fold_left (fun st c => put_console c st) s st.

(** A line of the dump.
    kernel/prf.c:382-393 *)
Definition hexd_line (mem : Z -> Z -> Z) (seg off numBytes start : Z) (st : prf) : option prf :=
  let places := seqZ start (Z.min numBytes (s16 (start + 16)) - start) in
  let* st := put_unsigned seg 16 4 st in
  let st := put_console (ch ":") st in
  let* st := put_unsigned (u16 (off + start)) 16 4 st in
  let st := put_console (ch "|") st in
  let* st :=
    fold_left (fun st loop =>
      let* st := st in
      let* st := put_unsigned (mem seg (u16 (off + loop))) 16 2 st in
      Some (put_console 32 st)) places (Some st) in
  let st :=
    fold_left (fun st loop =>
      let c := mem seg (u16 (off + loop)) in
      put_console (if c <? 0x20 then ch "." else c) st) places st in
  Some (put_console 10 st).

(** kernel/prf.c:380-394 *)
Fixpoint hexd_lines (fuel : nat) (mem : Z -> Z -> Z) (seg off numBytes start : Z) (st : prf)
    : option prf :=
  match fuel with
  | O => None
  | S fuel' =>
      if start <? numBytes then
        let* st := hexd_line mem seg off numBytes start st in
        hexd_lines fuel' mem seg off numBytes (s16 (start + 16)) st
      else Some st
  end.

(** kernel/prf.c:373-395 *)
Definition hexd (fuel : nat) (title : list Z) (mem : Z -> Z -> Z) (seg off numBytes : Z) (st : prf)
    : option prf :=
  let st := put_string title st in
  let st := if 16 <? numBytes then put_console 10 st else st in
  hexd_lines fuel mem seg off numBytes 0 st.
