(* ===== verification/PrfSpec.v ===== *)
(** * Formatted output: what a format prints

    Numbers are printed in the digits that read back as them, unless they need
    more room than the local array has; a format of the supported items prints
    their renderings one after the other. *)

From S2P Require Import Prelude Prf.

(** ** The text of a number *)

Definition digit (d : Z) : Z := default 0 (at_ digits d).
Definition digit_value (c : Z) : Z := if c <? 58 then c - 48 else c - 87.

(** The digits, the least significant first. *)
Fixpoint digits_lsf (fuel : nat) (u base : Z) : list Z :=
  match fuel with
  | O => []
  | S fuel' => digit (u mod base) :: if 0 <? u / base then digits_lsf fuel' (u / base) base else []
  end.

Definition unsigned_text (base u : Z) : list Z := rev (digits_lsf LTOB u base).

Definition number_text (base n : Z) : list Z :=
  if base =? -10 then (if n <? 0 then [ch "-"] else []) ++ unsigned_text 10 (Z.abs n)
  else unsigned_text base (u32 n).

(** Reading digits. *)
Definition read_digits (base : Z) (l : list Z) : Z :=
  fold_left (fun a c => a * base + digit_value c) l 0.

Definition read_number (base : Z) (l : list Z) : Z :=
  if base =? -10 then
    match l with
    | c :: l' => if c =? ch "-" then - read_digits 10 l' else read_digits 10 l
    | [] => 0
    end
  else read_digits base l.

Lemma digit_facts d : 0 <= d < 16 ->
  at_ digits d = Some (digit d) /\ digit_value (digit d) = d /\ 48 <= digit d <= 102 /\
  (d < 10 -> digit d = 48 + d).
Proof.
  intros H.
  assert (bool_decide (at_ digits d = Some (digit d)) && bool_decide (digit_value (digit d) = d) &&
    bool_decide (48 <= digit d <= 102) && bool_decide (d < 10 -> digit d = 48 + d) = true) as E.
  { refine (forall_range (fun d => bool_decide (at_ digits d = Some (digit d)) &&
      bool_decide (digit_value (digit d) = d) && bool_decide (48 <= digit d <= 102) &&
      bool_decide (d < 10 -> digit d = 48 + d)) 0 16 _ d _); [vm_compute; reflexivity|lia]. }
  rewrite !andb_true_iff, !bool_decide_eq_true in E. tauto.
Qed.

Lemma digits_lsf_range fuel u base : 2 <= base <= 16 -> 0 <= u ->
  Forall (fun c => 48 <= c <= 102) (digits_lsf fuel u base).
Proof.
  intros Hb. revert u. induction fuel as [|fuel IH]; intros u Hu; cbn; [constructor|].
  constructor.
  - apply digit_facts. pose proof (Z.mod_pos_bound u base). lia.
  - destruct (0 <? u / base); [|constructor]. apply IH. apply Z.div_pos; lia.
Qed.

Lemma digits_lsf_length fuel u base : (length (digits_lsf fuel u base) <= fuel)%nat.
Proof.
  revert u. induction fuel as [|fuel IH]; intros u; cbn; [lia|].
  destruct (0 <? u / base); cbn; [specialize (IH (u / base))|]; lia.
Qed.

(** The digits read back as the number. *)
Lemma read_digits_lsf fuel u base : 2 <= base <= 16 -> 0 <= u < base ^ Z.of_nat fuel ->
  read_digits base (rev (digits_lsf fuel u base)) = u.
Proof.
  intros Hb. revert u. induction fuel as [|fuel IH]; intros u Hu; [cbn in *; lia|].
  rewrite Nat2Z.inj_succ, Z.pow_succ_r in Hu by lia. cbn [digits_lsf rev].
  unfold read_digits. rewrite fold_left_app. fold (read_digits base (rev (if 0 <? u / base then
    digits_lsf fuel (u / base) base else []))).
  pose proof (Z.mod_pos_bound u base ltac:(lia)) as Hm. pose proof (Z.div_mod u base ltac:(lia)) as Hdm.
  cbn [fold_left]. destruct (digit_facts (u mod base) ltac:(lia)) as (_ & -> & _).
  destruct (Z.ltb_spec 0 (u / base)) as [Hlt|Hge].
  - rewrite IH; [lia|]. split; [lia|]. apply Z.div_lt_upper_bound; lia.
  - pose proof (Z.div_pos u base ltac:(lia) ltac:(lia)). cbn. lia.
Qed.

Lemma fuel_enough u base : 2 <= base -> 0 <= u < 4294967296 -> 0 <= u < base ^ Z.of_nat LTOB.
Proof.
  intros Hb Hu. split; [lia|]. apply Z.lt_le_trans with (2 ^ Z.of_nat LTOB); [change (2 ^ Z.of_nat LTOB) with 4294967296; lia|].
  apply Z.pow_le_mono_l; lia.
Qed.

(** A number that is not 0 does not start with the digit 0. *)
Lemma unsigned_text_head u : 0 < u < 4294967296 -> exists c l, unsigned_text 10 u = c :: l /\ 49 <= c <= 57.
Proof.
  intros Hu. unfold unsigned_text.
  assert (forall fuel u, 0 < u < 10 ^ Z.of_nat fuel ->
    exists c l, rev (digits_lsf fuel u 10) = c :: l /\ 49 <= c <= 57) as H.
  { clear. induction fuel as [|fuel IH]; intros u Hu; [cbn in Hu; lia|].
    rewrite Nat2Z.inj_succ, Z.pow_succ_r in Hu by lia. cbn [digits_lsf rev].
    pose proof (Z.mod_pos_bound u 10 ltac:(lia)). pose proof (Z.div_mod u 10 ltac:(lia)).
    destruct (Z.ltb_spec 0 (u / 10)) as [Hlt|Hge].
    - destruct (IH (u / 10)) as (c & l & -> & Hc); [lia|]. by exists c, (l ++ [digit (u mod 10)]).
    - exists (digit (u mod 10)), []. split; [done|].
      destruct (digit_facts (u mod 10) ltac:(lia)) as (_ & _ & _ & E). rewrite E by lia. lia. }
  apply H. pose proof (fuel_enough u 10). lia.
Qed.

Lemma unsigned_text_digits u : 0 <= u -> Forall (fun c => 48 <= c <= 57) (unsigned_text 10 u).
Proof.
  intros Hu. apply Forall_rev. generalize LTOB. intros fuel. revert u Hu.
  induction fuel as [|fuel IH]; intros u Hu; cbn; [constructor|]. constructor.
  - pose proof (Z.mod_pos_bound u 10 ltac:(lia)).
    destruct (digit_facts (u mod 10) ltac:(lia)) as (_ & _ & _ & E). rewrite E by lia. lia.
  - destruct (0 <? u / 10); [|constructor]. apply IH. apply Z.div_pos; lia.
Qed.

(** ** The conversion in the local array *)

(** Equality of lists built by appending. *)
Ltac app_norm := cbn; rewrite <- ?app_assoc; cbn; rewrite <- ?app_assoc; reflexivity.

Lemma ltob_digits_spec fuel pre rest u base : 2 <= base <= 16 -> (0 < fuel)%nat -> 0 <= u < base ^ Z.of_nat fuel ->
  u < 4294967296 ->
  ltob_digits fuel (pre ++ rest) (Z.of_nat (length pre)) u base =
  let ds := digits_lsf fuel u base in
  if (length ds <=? length rest)%nat
  then Some (pre ++ ds ++ drop (length ds) rest, Z.of_nat (length pre + length ds)) else None.
Proof.
  intros Hb. revert pre rest u. induction fuel as [|fuel IH]; intros pre rest u Hf Hu Hu'; [lia|].
  rewrite Nat2Z.inj_succ, Z.pow_succ_r in Hu by lia. cbn [ltob_digits digits_lsf].
  pose proof (Z.mod_pos_bound u base ltac:(lia)) as Hm.
  rewrite u16_id by lia. rewrite (proj1 (digit_facts (u mod base) ltac:(lia))).
  destruct rest as [|x rest].
  { unfold set_at. rewrite app_nil_r, (proj2 (Z.ltb_ge (Z.of_nat (length pre)) _)), andb_false_r by lia. done. }
  rewrite set_at_nat by (rewrite length_app; cbn; lia).
  rewrite insert_app_r_alt, Nat.sub_diag by lia. cbn [list_insert].
  change (<[0%nat:=digit (u mod base)]> (x :: rest)) with (digit (u mod base) :: rest).
  destruct (0 <? u / base) eqn:E.
  - specialize (IH (pre ++ [digit (u mod base)]) rest (u / base)).
    rewrite <- app_assoc, length_app in IH. cbn in IH.
    replace (Z.of_nat (length pre) + 1) with (Z.of_nat (length pre + 1)) by lia. rewrite IH.
    + cbn. destruct (_ <=? _)%nat; [|done]. rewrite <- app_assoc. cbn.
      f_equal. f_equal. lia.
    + destruct fuel; [|lia]. apply Z.ltb_lt in E. cbn in Hu. rewrite Z.div_small in E; lia.
    + split; [apply Z.div_pos; lia|]. apply Z.div_lt_upper_bound; lia.
    + apply Z.le_lt_trans with u; [|lia]. apply Z.div_le_upper_bound; nia.
  - cbn. rewrite drop_0. do 2 f_equal. lia.
Qed.

Lemma ltob_reverse_spec fuel pre mid post : (length mid <= 2 * fuel + 1)%nat ->
  ltob_reverse (Datatypes.S fuel) (pre ++ mid ++ post) (Z.of_nat (length pre))
    (Z.of_nat (length pre + length mid)) = Some (pre ++ rev mid ++ post).
Proof.
  revert pre mid post. induction fuel as [fuel IH] using lt_wf_ind. intros pre mid post Hf.
  destruct mid as [|x mid].
  { cbn. rewrite (proj2 (Z.ltb_ge _ _)) by lia. done. }
  destruct mid as [|y mid _] using rev_ind.
  { cbn. rewrite (proj2 (Z.ltb_ge _ _)) by lia. done. }
  cbn [length] in *. rewrite length_app in *. cbn [length] in *.
  destruct fuel as [|fuel]; [lia|]. remember (Datatypes.S fuel) as fuel' eqn:Ef.
  cbn [ltob_reverse].
  replace (Z.of_nat (length pre + Datatypes.S (length mid + 1)) - 1)
    with (Z.of_nat (length (pre ++ x :: mid))) by (rewrite length_app; cbn; lia).
  rewrite (proj2 (Z.ltb_lt _ _)) by (rewrite length_app; cbn; lia).
  rewrite !at_nat. cbn [app].
  rewrite (list_lookup_middle pre _ x) by done.
  replace (pre ++ x :: (mid ++ [y]) ++ post) with ((pre ++ x :: mid) ++ y :: post)
    by app_norm.
  rewrite list_lookup_middle by done.
  rewrite set_at_nat by (rewrite !length_app; cbn; lia).
  rewrite <- app_assoc, insert_app_r_alt, Nat.sub_diag by lia. cbn.
  replace (pre ++ y :: mid ++ y :: post) with ((pre ++ y :: mid) ++ y :: post) by app_norm.
  rewrite set_at_nat by (rewrite !length_app; cbn; lia).
  rewrite insert_app_r_alt by (rewrite !length_app; cbn; lia).
  replace (length (pre ++ x :: mid) - length (pre ++ y :: mid))%nat with 0%nat
    by (rewrite !length_app; cbn; lia). cbn.
  subst fuel'. specialize (IH fuel ltac:(lia) (pre ++ [y]) mid (x :: post) ltac:(lia)).
  rewrite !length_app in *. cbn [length] in *.
  replace (Z.of_nat (length pre) + 1) with (Z.of_nat (length pre + 1)) by lia.
  replace (Z.of_nat (length pre + Datatypes.S (length mid))) with (Z.of_nat (length pre + 1 + length mid)) by lia.
  replace ((pre ++ y :: mid) ++ x :: post) with ((pre ++ [y]) ++ mid ++ x :: post) by app_norm.
  rewrite IH. f_equal. rewrite rev_app_distr. app_norm.
Qed.

(** The unsigned part of the conversion, behind a sign. *)
Lemma ltob_tail sign rest u base : 2 <= base <= 16 -> 0 <= u < 4294967296 ->
  (let* (s, p) := ltob_digits LTOB (sign ++ rest) (Z.of_nat (length sign)) u base in
   let* s := set_at p 0 s in
   ltob_reverse LTOB s (Z.of_nat (length sign)) p) =
  let t := unsigned_text base u in
  if (length t <? length rest)%nat
  then Some (sign ++ t ++ 0 :: drop (Datatypes.S (length t)) rest) else None.
Proof.
  intros Hb Hu. pose proof (fuel_enough u base ltac:(lia) Hu) as Hf. cbn zeta.
  unfold unsigned_text. rewrite length_rev.
  rewrite ltob_digits_spec by (done || lia || (unfold LTOB; lia)). cbn zeta.
  pose proof (digits_lsf_length LTOB u base) as Hl. set (ds := digits_lsf LTOB u base) in *.
  destruct (Nat.leb_spec (length ds) (length rest)) as [Hle|Hgt].
  2: { by rewrite (proj2 (Nat.ltb_ge _ _)) by lia. }
  destruct (Nat.ltb_spec (length ds) (length rest)) as [Hlt|Hge].
  - rewrite set_at_nat by (rewrite !length_app, length_drop; lia).
    rewrite insert_app_r, insert_app_r_alt by lia. rewrite Nat.sub_diag.
    destruct (drop (length ds) rest) as [|x l] eqn:E.
    { assert (length (drop (length ds) rest) = 0%nat) as E0 by (by rewrite E).
      rewrite length_drop in E0. lia. }
    cbn [insert list_insert]. unfold LTOB in *.
    rewrite (ltob_reverse_spec 31 sign ds (0 :: l)); [|].
    + do 3 f_equal. replace (Datatypes.S (length ds)) with (length ds + 1)%nat by lia.
      rewrite <- drop_drop, E. done.
    + lia.
  - unfold set_at. rewrite (proj2 (Z.ltb_ge _ _)), andb_false_r; [done|].
    rewrite !length_app, length_drop. lia.
Qed.

Definition base_ok (base : Z) : Prop := base = -10 \/ 2 <= base <= 16.

(** The conversion of a long: its text and a NUL, when they fit. *)
Lemma ltob_spec n s base : base_ok base -> -2147483648 <= n < 4294967296 ->
  (base = -10 -> n < 2147483648) ->
  ltob n s base =
  let t := number_text base n in
  if (length t <? length s)%nat then Some (t ++ 0 :: drop (Datatypes.S (length t)) s) else None.
Proof.
  intros Hb Hn Hs. unfold ltob, number_text.
  destruct (Z.eqb_spec base (-10)) as [->|Hne].
  - specialize (Hs eq_refl). destruct (Z.ltb_spec n 0) as [Hneg|Hpos].
    + destruct s as [|x s]; [done|]. change (set_at 0 (ch "-") (x :: s)) with (Some (ch "-" :: s)).
      cbn zeta match. rewrite u32_id by lia.
      pose proof (ltob_tail [ch "-"] s (- n) 10 ltac:(lia) ltac:(lia)) as E. cbn [length app] in E.
      replace (Z.abs n) with (- n) by lia. cbn [app length]. exact E.
    + rewrite u32_id by lia. replace (Z.abs n) with n by lia. exact (ltob_tail [] s n 10 ltac:(lia) ltac:(lia)).
  - destruct Hb as [|Hb]; [done|]. exact (ltob_tail [] s (u32 n) base Hb (u32_range n)).
Qed.

Lemma number_text_nonzero base n : base_ok base -> Forall (fun c => c <> 0) (number_text base n).
Proof.
  intros Hb.
  assert (forall b u, 2 <= b <= 16 -> 0 <= u -> Forall (fun c => c <> 0) (unsigned_text b u)) as H.
  { intros b u Hb' Hu. apply Forall_rev. eapply Forall_impl; [|exact (digits_lsf_range LTOB u b Hb' Hu)].
    cbn. lia. }
  unfold number_text. destruct (Z.eqb_spec base (-10)).
  - apply list.Forall_app. split; [destruct (n <? 0); repeat constructor; done|]. apply H; lia.
  - destruct Hb as [|Hb]; [done|]. apply H; [done|]. apply u32_range.
Qed.

(** The text reads back as the number. *)
Lemma read_number_text base n : base_ok base -> -2147483648 <= n < 4294967296 ->
  read_number base (number_text base n) = if base =? -10 then n else u32 n.
Proof.
  intros Hb Hn. unfold read_number, number_text. destruct (Z.eqb_spec base (-10)) as [->|Hne].
  - assert (read_digits 10 (unsigned_text 10 (Z.abs n)) = Z.abs n) as E.
    { apply read_digits_lsf; [lia|]. apply fuel_enough; lia. }
    destruct (Z.ltb_spec n 0); cbn [app]; [cbn [ch]; rewrite Z.eqb_refl, E; lia|].
    destruct (decide (n = 0)) as [->|]; [by vm_compute|].
    destruct (unsigned_text_head (Z.abs n)) as (c & l & E' & Hc); [lia|].
    rewrite E' in *. change (ch "-") with 45. rewrite (proj2 (Z.eqb_neq c 45)) by lia. lia.
  - destruct Hb as [|Hb]; [done|]. apply read_digits_lsf; [done|].
    apply fuel_enough; [lia|]. apply u32_range.
Qed.

(** ** Formats as items *)

(** The options of a directive: a minus sign, a zero, the width. *)
Record options := Options { o_left : bool; o_zeros : bool; o_width : Z }.

Inductive item :=
  | Lit (c : Z)
  | Percent
  | Char (c : Z)
  | Num (o : options) (long : bool) (conv : Z) (w : Z)  (* the bits of the argument *)
  | Ptr (o : options) (seg off : Z)
  | Str (o : options) (off : Z) (s : list Z)
  | FarStr (o : options) (seg off : Z) (s : list Z).

Definition option_chars (o : options) : list Z :=
  (if o_left o then [ch "-"] else []) ++ (if o_zeros o then [ch "0"] else []) ++
  (if o_width o =? 0 then [] else unsigned_text 10 (o_width o)).

(** What the item looks like in the format. *)
Definition item_fmt (i : item) : list Z :=
  match i with
  | Lit c => [c]
  | Percent => [ch "%"; ch "%"]
  | Char _ => [ch "%"; ch "c"]
  | Num o long conv _ => ch "%" :: option_chars o ++ (if long then [ch "l"] else []) ++ [conv]
  | Ptr o _ _ => ch "%" :: option_chars o ++ [ch "p"]
  | Str o _ _ => ch "%" :: option_chars o ++ [ch "s"]
  | FarStr o _ _ _ => ch "%" :: option_chars o ++ [ch "S"]
  end.

(** The words it takes from the stack. *)
Definition item_args (i : item) : list Z :=
  match i with
  | Lit _ | Percent => []
  | Char c => [c]
  | Num _ long _ w => if long then [w mod 65536; w / 65536] else [w]
  | Ptr _ seg off | FarStr _ seg off _ => [off; seg]
  | Str _ off _ => [off]
  end.

(** The field: the text, filled up to the width. *)
Definition field (o : options) (text : list Z) : list Z :=
  let n := (Z.to_nat (o_width o) - length text)%nat in
  if o_left o then text ++ repeat 32 n
  else repeat (if o_zeros o then ch "0" else 32) n ++ text.

Definition hex4 (w : Z) : list Z := field (Options false true 4) (number_text 16 w).

(** The number of a directive: [%d] and [%i] are signed. *)
Definition item_number (long : bool) (base w : Z) : Z :=
  if long then s32 w else if base =? -10 then s16 w else w.

Definition item_text (i : item) : list Z :=
  match i with
  | Lit c => [c]
  | Percent => [ch "%"]
  | Char c => [c]
  | Num o long conv w =>
      let base := default 10 (conversion_base conv) in
      field o (number_text base (item_number long base w))
  | Ptr o seg off => field o (hex4 seg ++ ch ":" :: hex4 off)
  | Str o _ s | FarStr o _ _ s => field o s
  end.

Definition word (w : Z) : Prop := 0 <= w < 65536.
Definition option_ok (o : options) : Prop := 0 <= o_width o < 32768.

(** Strings in memory, with a NUL behind them, shorter than a signed word. *)
Fixpoint string_at (mem : Z -> Z -> Z) (seg off : Z) (s : list Z) : Prop :=
  match s with
  | [] => mem seg off = 0
  | c :: s => mem seg off = c /\ c <> 0 /\ string_at mem seg (u16 (off + 1)) s
  end.

Definition item_ok (mem : Z -> Z -> Z) (DS : Z) (i : item) : Prop :=
  match i with
  | Lit c => c <> 0 /\ c <> ch "%"
  | Percent => True
  | Char c => word c
  | Num o long conv w => option_ok o /\
      (exists base, conversion_base conv = Some base /\
        (length (number_text base (item_number long base w)) <= 10)%nat) /\
      0 <= w < (if long then 4294967296 else 65536)
  | Ptr o seg off => option_ok o /\ word seg /\ word off
  | Str o off s => option_ok o /\ word off /\ string_at mem DS off s /\ Z.of_nat (length s) < 32768
  | FarStr o seg off s => option_ok o /\ word off /\ string_at mem seg off s /\ Z.of_nat (length s) < 32768
  end.

(** The turns it takes, a nested one for a pointer included. *)
Definition item_fuel (i : item) : nat :=
  match i with
  | Ptr _ _ _ => 4
  | Str _ _ s | FarStr _ _ _ s => 1 + length s
  | _ => 0
  end.

Definition put (l : list Z) (st : prf) : prf := fold_left (fun st c => handle_char c st) l st.

Lemma put_app l l' st : put (l ++ l') st = put l' (put l st).
Proof. apply fold_left_app. Qed.

Lemma repeat_char_put size c st : repeat_char size c st = put (repeat c (Z.to_nat size)) st.
Proof.
  unfold repeat_char. generalize (Z.to_nat size). intros n. clear size. revert st.
  induction n as [|n IH]; intros st; [done|]. rewrite Nat.iter_succ_r. cbn. by rewrite IH.
Qed.

(** *** Reading a directive *)

Definition flags_of (o : options) (long : bool) : Z :=
  let flags := if o_left o then LEFT else RIGHT in
  let flags := if o_zeros o then Z.lor flags ZEROSFILL else flags in
  if long then Z.lor flags LONGARG else flags.

Lemma put_field_spec o long p st : option_ok o -> Z.of_nat (length p) < 32768 ->
  put_field (flags_of o long) (o_width o) p st = put (field o p) st.
Proof.
  intros Ho Hp. unfold option_ok in Ho. unfold put_field, field.
  rewrite (u16_id (Z.of_nat (length p))) by lia.
  assert (s16 (o_width o - Z.of_nat (length p)) = o_width o - Z.of_nat (length p)) as -> by word_lia.
  replace (Z.to_nat (o_width o) - length p)%nat with (Z.to_nat (o_width o - Z.of_nat (length p))) by lia.
  assert (flag (flags_of o long) RIGHT = negb (o_left o)) as ->
    by (destruct o as [[] [] w], long; reflexivity).
  destruct (o_left o) eqn:El; cbn [negb].
  - rewrite repeat_char_put. fold (put p st). by rewrite put_app.
  - assert (flag (flags_of o long) ZEROSFILL = o_zeros o) as ->
      by (destruct o as [[] [] w], long; reflexivity).
    rewrite !repeat_char_put. rewrite (put_app (repeat _ _)).
    replace (Z.to_nat (Z.min _ 0)) with 0%nat by lia. done.
Qed.

(** The characters that end a width. *)
Definition ends_width (fmt : list Z) : Prop :=
  match fmt with [] => True | c :: _ => 0 <= c < 48 \/ 58 <= c < 256 end.

Lemma field_width_stop fmt n : ends_width fmt -> field_width fmt n = (n, fmt).
Proof.
  intros H. destruct fmt as [|c fmt]; [done|]. cbn in *.
  change (ch "0") with 48. rewrite (proj2 (Z.ltb_lt _ _)); [done|]. word_lia.
Qed.

Lemma field_width_digits l fmt n : Forall (fun c => 48 <= c <= 57) l ->
  ends_width fmt -> 0 <= n -> fold_left (fun a c => a * 10 + digit_value c) l n < 32768 ->
  field_width (l ++ fmt) n = (fold_left (fun a c => a * 10 + digit_value c) l n, fmt).
Proof.
  intros Hl Hf. revert n. induction Hl as [|c l Hc Hl IH]; intros n Hn Hlt; [by apply field_width_stop|].
  assert (digit_value c = c - 48) as Ed by (unfold digit_value; by rewrite (proj2 (Z.ltb_lt _ _)) by lia).
  assert (n * 10 + digit_value c <= fold_left (fun a c => a * 10 + digit_value c) l (n * 10 + digit_value c)) as Hge.
  { clear -Hl Hn Hc Ed. assert (0 <= n * 10 + digit_value c) as H by lia. revert H.
    generalize (n * 10 + digit_value c). induction Hl as [|d l Hd Hl IH]; intros m Hm; cbn; [lia|].
    assert (0 <= digit_value d) by (unfold digit_value; rewrite (proj2 (Z.ltb_lt _ _)); lia).
    specialize (IH (m * 10 + digit_value d)). lia. }
  cbn [app field_width fold_left] in *. change (ch "0") with 48.
  unfold u8. rewrite Z.mod_small by lia. rewrite (proj2 (Z.ltb_ge _ _)) by lia.
  rewrite <- Ed. assert (s16 (n * 10 + digit_value c) = n * 10 + digit_value c) as -> by word_lia.
  apply IH; [lia|done].
Qed.

(** The options of a directive are read as they were written. *)
Lemma read_options {A} o fmt (k : Z -> Z -> list Z -> A) : option_ok o -> ends_width fmt ->
  match fmt with c :: _ => c <> 45 /\ c <> 48 | [] => True end ->
  (let '(minus, fmt) := option_char (ch "-") (option_chars o ++ fmt) in
   let flags := if minus then LEFT else RIGHT in
   let '(zeros, fmt) := option_char (ch "0") fmt in
   let flags := if zeros then Z.lor flags ZEROSFILL else flags in
   let '(size, fmt) := field_width fmt 0 in
   k flags size fmt) = k (flags_of o false) (o_width o) fmt.
Proof.
  intros Ho Hf Hc. unfold option_ok in Ho. destruct o as [l z w]. cbn [o_width o_left o_zeros] in *.
  set (ds := if w =? 0 then [] else unsigned_text 10 w).
  assert (field_width (ds ++ fmt) 0 = (w, fmt)) as Ew.
  { subst ds. destruct (Z.eqb_spec w 0) as [->|Hne]; [by apply field_width_stop|].
    assert (read_digits 10 (unsigned_text 10 w) = w) as E.
    { apply read_digits_lsf; [lia|]. apply fuel_enough; lia. }
    unfold read_digits in E. rewrite field_width_digits; [by rewrite E| |done|lia|lia].
    apply unsigned_text_digits. lia. }
  assert (forall c, c = 45 \/ c = 48 -> option_char c (ds ++ fmt) = (false, ds ++ fmt)) as Hds.
  { intros c Hcc. subst ds. unfold option_char.
    destruct (Z.eqb_spec w 0) as [->|Hne].
    - destruct fmt as [|d fmt]; [done|]. cbn. destruct Hc as [? ?].
      rewrite (proj2 (Z.eqb_neq d c)) by lia. done.
    - destruct (unsigned_text_head w) as (d & t & -> & Hd); [lia|]. cbn.
      rewrite (proj2 (Z.eqb_neq d c)) by lia. done. }
  unfold option_chars. cbn [o_left o_zeros o_width]. fold ds. rewrite <- !app_assoc.
  destruct l, z; cbn [app option_char]; rewrite ?Z.eqb_refl;
    rewrite ?(Hds 45), ?(Hds 48), ?Ew by auto; try reflexivity.
  all: change (ch "0") with 48; change (ch "-") with 45; cbn [Z.eqb Pos.eqb];
    rewrite ?(Hds 45), ?(Hds 48) by auto; cbn [option_char Z.eqb Pos.eqb]; rewrite ?Ew; reflexivity.
Qed.

Section items.
Context (mem : Z -> Z -> Z) (DS : Z).

(** What a turn does once the options are read. *)
Definition convert (fuel : nat) (arg : list Z) (st : prf) (flags size : Z) (fmt : list Z) : option prf :=
  let '(long, fmt) := option_char (ch "l") fmt in
  let flags := if long then Z.lor flags LONGARG else flags in
  match fmt with
  | [] => Some st
  | c :: fmt =>
      if c =? ch "c" then
        let* (n, arg) := va_int arg in
        do_printf mem DS fuel fmt arg (handle_char n st)
      else if c =? ch "p" then
        let* (w0, arg) := va_int arg in
        let* (w1, arg) := va_int arg in
        let* st' := do_printf mem DS fuel (str "%04x:%04x") [w1; w0] (Prf (console st) (Some [])) in
        let* p := charp st' in
        let* p := if (length p <? 11)%nat then cstr (p ++ [0]) else None in
        do_printf mem DS fuel fmt arg (put_field flags size p st)
      else if c =? ch "s" then
        let* (off, arg) := va_int arg in
        let* p := far_string mem fuel DS off in
        do_printf mem DS fuel fmt arg (put_field flags size p st)
      else if (c =? ch "F") || (c =? ch "S") then
        let* fmt := if c =? ch "F" then match fmt with [] => None | _ :: fmt => Some fmt end
                    else Some fmt in
        let* (off, arg) := va_int arg in
        let* (seg, arg) := va_int arg in
        let* p := far_string mem fuel seg off in
        do_printf mem DS fuel fmt arg (put_field flags size p st)
      else
        match conversion_base c with
        | Some base =>
            let* (currentArg, arg) := number_arg flags base arg in
            let* s := ltob currentArg buffer base in
            let* p := cstr s in
            do_printf mem DS fuel fmt arg (put_field flags size p st)
        | None =>
            let st := if c =? ch "%" then st else handle_char (ch "?") st in
            do_printf mem DS fuel fmt arg (handle_char c st)
        end
  end.

Lemma do_printf_directive fuel o fmt arg st : option_ok o -> ends_width fmt ->
  match fmt with c :: _ => c <> 45 /\ c <> 48 | [] => True end ->
  do_printf mem DS (Datatypes.S fuel) (ch "%" :: option_chars o ++ fmt) arg st =
  convert fuel arg st (flags_of o false) (o_width o) fmt.
Proof. intros Ho Hf Hc. exact (read_options o fmt (convert fuel arg st) Ho Hf Hc). Qed.

Lemma number_arg_spec o (long : bool) base w arg :
  0 <= w < (if long then 4294967296 else 65536) -> base = -10 \/ 0 <= base ->
  number_arg (flags_of o long) base ((if long then [w mod 65536; w / 65536] else [w]) ++ arg) =
  Some (item_number long base w, arg).
Proof.
  intros Hw Hb. unfold number_arg, item_number.
  assert (flag (flags_of o long) LONGARG = long) as -> by (by destruct o as [[] [] ?], long).
  destruct long; cbn [va_long va_int app].
  - do 3 f_equal. pose proof (Z.div_mod w 65536 ltac:(lia)). lia.
  - destruct Hb as [->|Hb]; [done|]. rewrite (proj2 (Z.leb_le _ _)), (proj2 (Z.eqb_neq base (-10))) by lia. done.
Qed.

Lemma conversion_base_ok c base : conversion_base c = Some base ->
  base_ok base /\ In c [ch "i"; ch "d"; ch "o"; ch "u"; ch "X"; ch "x"].
Proof.
  unfold conversion_base, base_ok. intros H.
  repeat match type of H with context [Z.eqb c ?a] => destruct (Z.eqb_spec c a) as [->|] end;
    cbn in H; simplify_eq; (split; [lia|]); cbn; tauto.
Qed.

(** A number that fits its array. *)
Lemma number_field fuel o (long : bool) conv w base rest arg st : option_ok o ->
  conversion_base conv = Some base -> 0 <= w < (if long then 4294967296 else 65536) ->
  let text := number_text base (item_number long base w) in
  do_printf mem DS (Datatypes.S fuel)
    (ch "%" :: option_chars o ++ (if long then [ch "l"] else []) ++ conv :: rest)
    ((if long then [w mod 65536; w / 65536] else [w]) ++ arg) st =
  if (length text <? 11)%nat then do_printf mem DS fuel rest arg (put (field o text) st) else None.
Proof.
  intros Ho Hc Hw text. destruct (conversion_base_ok _ _ Hc) as [Hb Hin].
  rewrite do_printf_directive; [|done|destruct long; [by right; vm_compute|]|destruct long; [by vm_compute|]].
  2,3: cbn in Hin; cbn; destruct_or! Hin; subst; first [by right; vm_compute|by vm_compute].
  assert (option_char (ch "l") ((if long then [ch "l"] else []) ++ conv :: rest) = (long, conv :: rest)) as E.
  { destruct long; [done|]. cbn in Hin. cbn [app option_char]. destruct_or! Hin; subst; done. }
  unfold convert. rewrite E. clear E.
  assert ((conv =? ch "c") = false /\ (conv =? ch "p") = false /\ (conv =? ch "s") = false /\
    (conv =? ch "F") = false /\ (conv =? ch "S") = false) as (-> & -> & -> & -> & ->).
  { cbn in Hin. destruct_or! Hin; subst; done. }
  cbn [orb]. rewrite Hc.
  assert ((if long then Z.lor (flags_of o false) LONGARG else flags_of o false) = flags_of o long) as ->
    by (by destruct long).
  rewrite number_arg_spec by (done || (destruct Hb; lia)).
  rewrite ltob_spec; [|done|unfold item_number; destruct long; [|destruct (base =? -10)]; word_unfold; unfold s32; Z.div_mod_to_equations; lia|].
  2: { intros ->. unfold item_number. destruct long; cbn; word_unfold; unfold s32; Z.div_mod_to_equations; lia. }
  fold text. change (length buffer) with 11%nat. cbn zeta.
  destruct (length text <? 11)%nat eqn:El; [|done]. apply Nat.ltb_lt in El.
  rewrite cstr_app by (by apply number_text_nonzero). by rewrite put_field_spec by (done || lia).
Qed.

(** Strings in memory. *)
Lemma far_string_spec seg s : forall fuel off, string_at mem seg off s ->
  far_string mem (Datatypes.S (length s) + fuel) seg off = Some s.
Proof.
  induction s as [|c s IH]; intros fuel off H; cbn in *; [by rewrite H|].
  destruct H as (-> & Hc & H). rewrite (proj2 (Z.eqb_neq c 0)) by done. by rewrite (IH fuel).
Qed.

Lemma far_string_le fuel seg off s : string_at mem seg off s -> (length s < fuel)%nat ->
  far_string mem fuel seg off = Some s.
Proof.
  intros H Hl. replace fuel with (Datatypes.S (length s) + (fuel - Datatypes.S (length s)))%nat by lia.
  by apply far_string_spec.
Qed.

Lemma handle_char_stored c l st : charp st = Some l -> charp (handle_char c st) = Some (l ++ [u8 c]).
Proof. unfold handle_char. by intros ->. Qed.

Lemma put_stored t l st : charp st = Some l -> charp (put t st) = Some (l ++ map u8 t) /\
  console (put t st) = console st.
Proof.
  revert l st. induction t as [|c t IH]; intros l st H; [by cbn; rewrite app_nil_r|].
  change (put (c :: t) st) with (put t (handle_char c st)). cbn [map].
  destruct (IH (l ++ [u8 c]) (handle_char c st)) as [-> ->]; [by apply handle_char_stored|].
  rewrite <- app_assoc. split; [done|]. unfold handle_char. by rewrite H.
Qed.

(** The four digits of a word. *)
Lemma hex4_text w : word w -> (length (number_text 16 w) <= 4)%nat /\
  Forall (fun c => 48 <= c <= 102) (hex4 w) /\ length (hex4 w) = 4%nat.
Proof.
  intros Hw. unfold word in Hw.
  assert (length (number_text 16 w) <= 4)%nat as Hl.
  { unfold number_text. cbn [Z.eqb Pos.eqb]. unfold unsigned_text. rewrite length_rev, u32_id by lia.
    unfold LTOB. change 32%nat with (4 + 28)%nat. revert w Hw.
    assert (forall k w f, 0 <= w < 16 ^ Z.of_nat (Datatypes.S k) ->
      (length (digits_lsf (Datatypes.S k + f) w 16) <= Datatypes.S k)%nat) as H.
    { clear. induction k as [|k IH]; intros w f Hw.
      - cbn [digits_lsf plus]. rewrite Z.div_small by (cbn in Hw; lia). cbn. lia.
      - rewrite Nat2Z.inj_succ, Z.pow_succ_r in Hw by lia. change (Datatypes.S (Datatypes.S k) + f)%nat
          with (Datatypes.S (Datatypes.S k + f)). cbn [digits_lsf length].
        destruct (0 <? w / 16); cbn [length]; [|lia]. apply le_n_S, IH.
        split; [apply Z.div_pos; lia|]. apply Z.div_lt_upper_bound; lia. }
    intros w Hw. apply (H 3%nat). cbn. lia. }
  split; [done|]. unfold hex4, field. cbn [o_left o_zeros o_width].
  split; [|rewrite length_app, repeat_length; lia].
  apply list.Forall_app. split; [apply list.Forall_forall; intros x Hx; apply list_elem_of_In, repeat_spec in Hx as ->; by vm_compute|].
  unfold number_text. cbn [Z.eqb Pos.eqb]. apply Forall_rev, digits_lsf_range; [lia|].
  pose proof (u32_range w). lia.
Qed.

(** A turn of the loop prints an item. *)
Lemma pointer_digits fuel seg off l con : word seg -> word off ->
  do_printf mem DS (4 + fuel) (str "%04x:%04x") [seg; off] (Prf con (Some l)) =
  Some (put (hex4 seg ++ ch ":" :: hex4 off) (Prf con (Some l))).
Proof.
  intros Hs Ho. change (4 + fuel)%nat with (Datatypes.S (Datatypes.S (Datatypes.S (Datatypes.S fuel)))).
  set (o := Options false true 4). assert (option_ok o) by (by vm_compute).
  change (str "%04x:%04x") with (ch "%" :: option_chars o ++ [] ++ ch "x" :: (ch ":" :: str "%04x")).
  pose proof (number_field (Datatypes.S (Datatypes.S (Datatypes.S fuel))) o false (ch "x") seg 16
    (ch ":" :: str "%04x") [off] (Prf con (Some l)) ltac:(done) ltac:(done) Hs) as E.
  cbn zeta in E. cbn [app] in E |- *. rewrite E. clear E.
  destruct (hex4_text seg Hs) as (Hl1 & _ & _). destruct (hex4_text off Ho) as (Hl2 & _ & _).
  change (item_number false 16 seg) with seg. rewrite (proj2 (Nat.ltb_lt _ _)) by lia.
  cbn [do_printf]. change (negb (ch ":" =? ch "%")) with true. cbn iota.
  change (str "%04x") with (ch "%" :: option_chars o ++ [] ++ ch "x" :: []).
  pose proof (number_field (Datatypes.S fuel) o false (ch "x") off 16
    [] [] (handle_char (ch ":") (put (field o (number_text 16 seg)) (Prf con (Some l))))
    ltac:(done) ltac:(done) Ho) as E.
  cbn zeta in E. rewrite app_nil_r in E. etransitivity; [exact E|]. clear E.
  change (item_number false 16 off) with off. rewrite (proj2 (Nat.ltb_lt _ _)) by lia.
  cbn [do_printf]. rewrite put_app. done.
Qed.

Lemma item_step i fuel rest arg st : item_ok mem DS i -> (item_fuel i <= fuel)%nat ->
  do_printf mem DS (Datatypes.S fuel) (item_fmt i ++ rest) (item_args i ++ arg) st =
  do_printf mem DS fuel rest arg (put (item_text i) st).
Proof.
  intros Hok Hf. destruct i as [c| |c|o long conv w|o seg off|o off s|o seg off s];
    cbn [item_ok item_fmt item_args item_text item_fuel app] in *.
  - destruct Hok as [_ Hc]. cbn [do_printf]. by rewrite (proj2 (Z.eqb_neq c _)).
  - exact (do_printf_directive fuel (Options false false 0) (ch "%" :: rest) arg st
      ltac:(by vm_compute) ltac:(by left; vm_compute) ltac:(by vm_compute)).
  - exact (do_printf_directive fuel (Options false false 0) (ch "c" :: rest) (c :: arg) st
      ltac:(by vm_compute) ltac:(by right; vm_compute) ltac:(by vm_compute)).
  - destruct Hok as (Ho & (base & Hb & Hl) & Hw). rewrite Hb. cbn [default].
    rewrite <- !app_assoc. cbn [app].
    etransitivity; [exact (number_field fuel o long conv w base rest arg st Ho Hb Hw)|].
    by rewrite (proj2 (Nat.ltb_lt _ _)) by lia.
  - destruct Hok as (Ho & Hs & Hoff). rewrite <- app_assoc. cbn [app].
    rewrite do_printf_directive by (done || (right; by vm_compute) || by vm_compute).
    unfold convert. cbn [option_char]. change (ch "p" =? ch "l") with false. cbn iota.
    change (ch "p" =? ch "c") with false. change (ch "p" =? ch "p") with true. cbn iota. cbn [va_int].
    replace fuel with (4 + (fuel - 4))%nat at 1 by lia. rewrite pointer_digits by done.
    destruct (hex4_text seg Hs) as (_ & H1 & L1). destruct (hex4_text off Hoff) as (_ & H2 & L2).
    set (t := hex4 seg ++ ch ":" :: hex4 off).
    assert (Forall (fun c => 48 <= c <= 102) t) as Ht.
    { apply list.Forall_app. split; [done|]. by constructor. }
    assert (length t = 9)%nat as Lt by (unfold t; rewrite length_app; cbn [length]; lia).
    rewrite (proj1 (put_stored t [] (Prf (console st) (Some [])) eq_refl)). cbn [app].
    assert (map u8 t = t) as ->.
    { clear -Ht. induction Ht as [|c l Hc _ IH]; [done|]. cbn. rewrite IH, u8_id by lia. done. }
    rewrite Lt. cbn [Nat.ltb Nat.leb]. rewrite cstr_app.
    + by rewrite (put_field_spec o false) by (done || lia).
    + eapply Forall_impl; [|exact Ht]. cbn. lia.
  - destruct Hok as (Ho & Hoff & Hs & Hl). rewrite <- app_assoc. cbn [app].
    rewrite do_printf_directive by (done || (right; by vm_compute) || by vm_compute).
    unfold convert. cbn [option_char]. change (ch "s" =? ch "l") with false. cbn iota.
    change (ch "s" =? ch "c") with false. change (ch "s" =? ch "p") with false.
    change (ch "s" =? ch "s") with true. cbn iota. cbn [va_int].
    rewrite (far_string_le fuel _ _ s) by (done || lia). by rewrite (put_field_spec o false) by done.
  - destruct Hok as (Ho & Hoff & Hs & Hl). rewrite <- app_assoc. cbn [app].
    rewrite do_printf_directive by (done || (right; by vm_compute) || by vm_compute).
    unfold convert. cbn [option_char]. change (ch "S" =? ch "l") with false. cbn iota.
    change (ch "S" =? ch "c") with false. change (ch "S" =? ch "p") with false.
    change (ch "S" =? ch "s") with false. change (ch "S" =? ch "F") with false.
    change (ch "S" =? ch "S") with true. cbn iota. cbn [va_int orb].
    rewrite (far_string_le fuel _ _ s) by (done || lia). by rewrite (put_field_spec o false) by done.
Qed.

Definition items_fmt (l : list item) : list Z := concat (map item_fmt l).
Definition items_args (l : list item) : list Z := concat (map item_args l).
Definition items_text (l : list item) : list Z := concat (map item_text l).
Definition items_fuel (l : list item) : nat := length l + sum_list_with item_fuel l.

Lemma items_spec l : forall fuel arg st, Forall (item_ok mem DS) l -> (items_fuel l < fuel)%nat ->
  do_printf mem DS fuel (items_fmt l) (items_args l ++ arg) st = Some (put (items_text l) st).
Proof.
  induction l as [|i l IH]; intros fuel arg st Hl Hf;
    (destruct fuel as [|fuel]; [unfold items_fuel in Hf; cbn in Hf; lia|]); [done|].
  inversion Hl as [|? ? Hi Hl']; subst. unfold items_fuel in Hf. cbn in Hf.
  unfold items_fmt, items_args, items_text. cbn [map concat]. rewrite <- app_assoc.
  rewrite item_step by (done || lia). rewrite put_app. apply IH; [done|].
  unfold items_fuel. lia.
Qed.

(** ** Properties *)

(** What the console gets: a carriage return before each line feed. *)
Definition crlf (l : list Z) : list Z := concat (map (fun c => if c =? 10 then [13; 10] else [u8 c]) l).

Lemma put_console_text l con : put l (Prf con None) = Prf (con ++ crlf l) None.
Proof.
  revert con. induction l as [|c l IH]; intros con; [by cbn; rewrite app_nil_r|].
  change (put (c :: l) (Prf con None)) with (put l (put_console c (Prf con None))).
  unfold put_console, crlf. cbn [console charp map concat]. destruct (Z.eqb_spec c 10) as [->|Hne];
    cbn [console charp]; rewrite IH; rewrite <- !app_assoc; done.
Qed.

(** Printing a format made of literal characters and of the directives for
    percent signs, characters, numbers, pointers and strings: whatever the
    widths and the other options, the console gets the renderings of the items
    in order; in a buffer, with a NUL behind them. *)
Theorem printf_correct fuel l arg st : Forall (item_ok mem DS) l -> (items_fuel l < fuel)%nat ->
  printf mem DS fuel (items_fmt l) (items_args l ++ arg) st =
    Some (Prf (console st ++ crlf (items_text l)) None) /\
  sprintf mem DS fuel (items_fmt l) (items_args l ++ arg) st =
    Some (Prf (console st) (Some (map u8 (items_text l) ++ [0]))).
Proof.
  intros Hl Hf. unfold printf, sprintf. rewrite !items_spec by done. split.
  - by rewrite put_console_text.
  - destruct (put_stored (items_text l) [] (Prf (console st) (Some [])) eq_refl) as [Ec Ecs].
    unfold handle_char. rewrite Ec, Ecs. done.
Qed.

End items.

(** The conversion of a long in the local array of [do_printf]: the array
    holds digits that read back as the number when they are at most ten; longer
    texts, of the smallest long and of long octal numbers, are written past its
    end. *)
Theorem ltob_correct n base : base_ok base -> -2147483648 <= n < 2147483648 ->
  let text := number_text base n in
  read_number base text = (if base =? -10 then n else u32 n) /\
  (length text <= 10 -> exists s, ltob n buffer base = Some s /\ cstr s = Some text)%nat /\
  (10 < length text -> ltob n buffer base = None)%nat.
Proof.
  intros Hb Hn text. split; [apply read_number_text; [done|lia]|].
  rewrite ltob_spec by (done || lia). fold text. change (length buffer) with 11%nat. cbn zeta.
  split; intros Hl.
  - rewrite (proj2 (Nat.ltb_lt _ _)) by lia. eexists. split; [done|].
    apply cstr_app. by apply number_text_nonzero.
  - by rewrite (proj2 (Nat.ltb_ge _ _)) by lia.
Qed.

Lemma ltob_correct_witness :
  read_number 10 (number_text 10 (-1)) = 4294967295 /\
  (exists s, ltob (-1) buffer 10 = Some s /\ cstr s = Some (number_text 10 (-1))) /\
  ltob (-2147483648) buffer (-10) = None.
Proof.
  split_and!.
  - exact (proj1 (ltob_correct (-1) 10 ltac:(right; lia) ltac:(lia))).
  - apply (ltob_correct (-1) 10 ltac:(right; lia) ltac:(lia)). vm_compute. lia.
  - apply (ltob_correct (-2147483648) (-10) ltac:(left; lia) ltac:(lia)). vm_compute. lia.
Defined.

(** The string [A:] at offset 16 of the data segment. *)
Definition sample_mem (seg off : Z) : Z := if off =? 16 then 65 else if off =? 17 then 58 else 0.

Definition sample_items : list item :=
  [Str (Options true false 4) 16 [65; 58]; Num (Options false true 6) true (ch "d") 4294967254;
   Lit 32; Ptr (Options false false 0) 0xb800 16; Percent; Char 33; Lit 10].

Lemma printf_correct_witness :
  printf sample_mem 0 32 (str "%-4s%06ld %p%%%c" ++ [10]) [16; 65494; 65535; 16; 0xb800; 33]
    (Prf [] None) = Some (Prf (str "A:  000-42 b800:0010%!" ++ [13; 10]) None).
Proof.
  refine (proj1 (printf_correct sample_mem 0 32 sample_items [] (Prf [] None) _ _)).
  - unfold sample_items. repeat constructor; cbn; try lia; try done.
    all: try (eexists; split; [reflexivity|]; vm_compute; lia).
  - vm_compute. lia.
Defined.
