(* ===== verification/Pcb.v ===== *)
(** * The state of a call of a program ([hdr/pcb.h], [kernel/globals.h])

    The registers of the caller, the variables of the kernel that only the calls
    touch, and the structures programs pass in memory: file control blocks, the
    buffers of searches, BIOS and drive parameter blocks. *)

From S2P Require Import Prelude Hdr Bytes Memmgr Dpb Blockio Fattab Fnode Fatdir Fileio Media Newstuff Lineedit Chario Dosfns Dosname Ioctl Fcb Systime Diskdrv Task.

(** ** Registers *)

(** hdr/pcb.h:165-165 *)
Definition FLG_ZERO : Z := 0x0040.
(** hdr/pcb.h:166-166 *)
Definition FLG_CARRY : Z := 0x0001.

(** The frame of the caller; the registers that are copied come first.
    hdr/pcb.h:78-82 *)
Record iregs := IRegs { frame : lregs; BP : Z; IP : Z; CS : Z; FLAGS : Z }.

Definition set_frame v (r : iregs) := IRegs v (BP r) (IP r) (CS r) (FLAGS r).
Definition set_FLAGS v (r : iregs) := IRegs (frame r) (BP r) (IP r) (CS r) v.
Definition set_BX v (r : lregs) := LRegs (AX r) v (CX r) (DX r) (SI r) (DI r) (DS r) (ES r).
Definition set_CX v (r : lregs) := LRegs (AX r) (BX r) v (DX r) (SI r) (DI r) (DS r) (ES r).
Definition set_SI v (r : lregs) := LRegs (AX r) (BX r) (CX r) (DX r) v (DI r) (DS r) (ES r).
Definition set_DI v (r : lregs) := LRegs (AX r) (BX r) (CX r) (DX r) (SI r) v (DS r) (ES r).
Definition set_DS v (r : lregs) := LRegs (AX r) (BX r) (CX r) (DX r) (SI r) (DI r) v (ES r).
Definition set_ES v (r : lregs) := LRegs (AX r) (BX r) (CX r) (DX r) (SI r) (DI r) (DS r) v.

(** The high byte of a word. *)
Definition set_hi (b w : Z) : Z := Z.lor (Z.land w 0xff) (Z.shiftl b 8).

Definition AH (r : lregs) : Z := hi (AX r).
Definition BL (r : lregs) : Z := lo (BX r).
Definition BH (r : lregs) : Z := hi (BX r).
Definition CL (r : lregs) : Z := lo (CX r).
Definition CH (r : lregs) : Z := hi (CX r).
Definition DL (r : lregs) : Z := lo (DX r).
Definition DH (r : lregs) : Z := hi (DX r).
Definition set_AH b (r : lregs) := set_AX (set_hi b (AX r)) r.
Definition set_BL b (r : lregs) := set_BX (set_lo b (BX r)) r.
Definition set_BH b (r : lregs) := set_BX (set_hi b (BX r)) r.
Definition set_CH b (r : lregs) := set_CX (set_hi b (CX r)) r.
Definition set_DL b (r : lregs) := set_DX (set_lo b (DX r)) r.
Definition set_DH b (r : lregs) := set_DX (set_hi b (DX r)) r.

Definition DS_DX (r : lregs) : farptr := Far (DS r) (DX r).
Definition ES_DI (r : lregs) : farptr := Far (ES r) (DI r).
Definition DS_SI (r : lregs) : farptr := Far (DS r) (SI r).

(** Registers in the memory of a program.
    hdr/pcb.h:85-88 *)
Definition load_lregs (a : Z) (m : memory) : lregs :=
  LRegs (peek16 a m) (peek16 (a + 2) m) (peek16 (a + 4) m) (peek16 (a + 6) m) (peek16 (a + 8) m)
    (peek16 (a + 10) m) (peek16 (a + 12) m) (peek16 (a + 14) m).

(** ** Structures in memory *)

(** The bytes from a pointer to the end of its segment. *)
Definition load_segment (p : farptr) (m : memory) : list Z := load (linear p) (65536 - fp_off p) m.

(** A name with the byte in front of it. *)
Definition path_at (p : farptr) (m : memory) : option (Z * list Z) :=
  let* l := far_string (Z.to_nat 65536) (linear p) m in Some (m (linear p - 1), l).

Definition poke32 (a v : Z) (m : memory) : memory := poke16 (a + 2) (u16 (Z.shiftr v 16)) (poke16 a (u16 v) m).

(** hdr/fcb.h:80-101 *)
Definition load_fcb (a : Z) (m : memory) : fcb :=
  Fcb.Fcb (m a) (load (a + 1) 8 m) (load (a + 9) 3 m) (peek16 (a + 12) m) (peek16 (a + 14) m) (peek32 (a + 16) m)
    (peek16 (a + 20) m) (peek16 (a + 22) m) (m (a + 24)) (peek16 (a + 27) m) (peek16 (a + 29) m) (m (a + 32))
    (peek32 (a + 33) m).

(** hdr/fcb.h:80-101 *)
Definition store_fcb (a : Z) (f : fcb) (m : memory) : memory :=
  let m := Diskdrv.store a (fcb_drive f :: fcb_fname f ++ fcb_fext f) m in
  let m := poke16 (a + 14) (fcb_recsiz f) (poke16 (a + 12) (fcb_cublock f) m) in
  let m := poke16 (a + 22) (fcb_time f) (poke16 (a + 20) (fcb_date f) (poke32 (a + 16) (fcb_fsize f) m)) in
  let m := poke16 (a + 29) (fcb_dirclst f) (poke16 (a + 27) (fcb_strtclst f) (poke (a + 24) (fcb_sftno f) m)) in
  poke32 (a + 33) (fcb_rndm f) (poke (a + 32) (fcb_curec f) m).

(** hdr/fcb.h:104-109 *)
Definition load_xfcb (a : Z) (m : memory) : xfcb :=
  if m a =? 0xff then Extended (load (a + 1) 5 m) (m (a + 6)) (load_fcb (a + 7) m) else Plain (load_fcb a m).
Definition store_xfcb (a : Z) (x : xfcb) (m : memory) : memory :=
  match x with Plain f => store_fcb a f m | Extended _ _ f => store_fcb (a + 7) f m end.

(** The block of a renaming, with the attribute of an extended one.
    hdr/fcb.h:111-119 *)
Definition load_rfcb (a : Z) (m : memory) : option Z * rfcb :=
  let b := if m a =? 0xff then a + 7 else a in
  (if m a =? 0xff then Some (m (a + 6)) else None, Rfcb (m b) (load (b + 1) 11 m) (load (b + 17) 11 m)).

(** The buffer of a search.
    hdr/dirmatch.h:38-54 *)
Definition load_dta (a : Z) (m : memory) : dta_buf :=
  Dta (Dmatch (m a) (load (a + 1) 11 m) (m (a + 12)) (peek16 (a + 13) m) (peek32 (a + 15) m))
    (m (a + 21)) (peek16 (a + 22) m) (peek16 (a + 24) m) (peek32 (a + 26) m)
    (default (load (a + 30) 13 m) (cstr (load (a + 30) 13 m))).

(** hdr/dirmatch.h:38-54 *)
Definition store_dta (a : Z) (d : dta_buf) (m : memory) : memory :=
  let dm := dta_dm d in
  let m := Diskdrv.store a (dm_drive dm :: dm_name_pat dm ++ [dm_attr_srch dm]) m in
  let m := poke32 (a + 15) (dm_dircluster dm) (poke16 (a + 13) (dm_entry dm) m) in
  let m := poke16 (a + 22) (dm_time d) (poke (a + 21) (dm_attr_fnd d) m) in
  let m := poke32 (a + 26) (dm_size d) (poke16 (a + 24) (dm_date d) m) in
  Diskdrv.store (a + 30) (dm_name d ++ [0]) m.

(** A drive parameter block with its pointers as numbers.
    hdr/dcb.h:39-87 *)
Definition dpb_bytes (d : dpb) : list Z :=
  [dpb_unit d; dpb_subunit d] ++ le16 (dpb_secsize d) ++ [dpb_clsmask d; dpb_shftcnt d] ++ le16 (dpb_fatstrt d) ++
  [dpb_fats d] ++ le16 (dpb_dirents d) ++ le16 (dpb_data d) ++ le16 (dpb_size d) ++ le16 (dpb_fatsize d) ++
  le16 (dpb_dirstrt d) ++ le32 (dpb_device d) ++ [dpb_mdb d; dpb_flags d] ++ le32 (dpb_next d) ++ le16 (dpb_cluster d) ++
  le32 (dpb_xnfreeclst d) ++ le16 (dpb_xflags d) ++ le16 (dpb_xfsinfosec d) ++ le16 (dpb_xbackupsec d) ++
  le32 (dpb_xdata d) ++ le32 (dpb_xsize d) ++ le32 (dpb_xfatsize d) ++ le32 (dpb_xrootclst d) ++ le32 (dpb_xcluster d).
Definition sizeof_dpb : Z := 61.

Definition set_xfatsize v (d : dpb) : dpb :=
  Dpb (dpb_unit d) (dpb_subunit d) (dpb_secsize d) (dpb_clsmask d) (dpb_shftcnt d) (dpb_fatstrt d)
    (dpb_fats d) (dpb_dirents d) (dpb_data d) (dpb_size d) (dpb_fatsize d) (dpb_dirstrt d)
    (dpb_device d) (dpb_mdb d) (dpb_flags d) (dpb_next d) (dpb_cluster d) (dpb_xnfreeclst d) (dpb_xflags d)
    (dpb_xfsinfosec d) (dpb_xbackupsec d) (dpb_xdata d) (dpb_xsize d) v (dpb_xrootclst d) (dpb_xcluster d).

(** The copy of a DPB that is not of FAT32, as an extended one.
    kernel/inthndlr.c:204-213 *)
Definition extend_dpb (d : dpb) : dpb :=
  if negb (ISFAT32 d) && negb (dpb_xsize d =? dpb_size d) then
    let high := if dpb_nfreeclst d =? 0xffff then 0xffff else 0 in
    let cluster := if dpb_cluster d =? 0xffff then 0xffffffff else dpb_cluster d in
    set_xcluster cluster (set_xfatsize (dpb_fatsize d)
      (dpb16to32 (set_xnfreeclst (Z.lor (dpb_nfreeclst d) (Z.shiftl high 16)) d)))
  else d.

(** hdr/xstructs.h:21-36 *)
Definition xfree_bytes (x : xfreespace) : list Z :=
  le16 44 ++ le16 0 ++ le32 (xfs_clussize x) ++ le32 (xfs_secsize x) ++ le32 (xfs_freeclusters x) ++
  le32 (xfs_totalclusters x) ++ le32 (xfs_freesectors x) ++ le32 (xfs_totalsectors x) ++ le32 (xfs_freeunits x) ++
  le32 (xfs_totalunits x) ++ replicate 8 0.
