(* ===== verification/Int21.v ===== *)
(** * Interrupt 21h ([kernel/inthndlr.c])

    The calls of programs: the registers of the caller are copied, the function in AH is
    done by the part of the kernel that has it, and registers and carry go back.  The
    frame of the caller is a value, with [c_r] for what the pointer of the code leads to
    and [c_lr] for the copy.  What jumps away, to another program or to the handler of
    Ctrl-Break, is [Leave]. *)

From S2P Require Import Prelude Hdr Bytes Memmgr Share Dpb Blockio Fattab Fnode Cluster Names Fatdir Fileio Media Chario Lineedit Newstuff Dosfns Console.
From S2P Require Import Dosname Ioctl Fcb Nls Systime Diskdrv Task Pcb.

(** hdr/file.h:47-47 *)
Definition STDAUX : Z := 3.
(** hdr/file.h:48-48 *)
Definition STDPRN : Z := 4.
(** hdr/version.h:39-39 *)
Definition REVISION_SEQ : Z := 40.
(** hdr/version.h:40-40 *)
Definition OEM_ID : Z := 0xfd.
(** hdr/cds.h:70-70 *)
Definition CDSPHYSDRV : Z := 0x4000.
(** hdr/network.h:53-53 *)
Definition REM_DOREDIRECT : Z := 0x111e.
(** hdr/network.h:54-54 *)
Definition REM_PRINTSET : Z := 0x111f.
(** hdr/network.h:59-59 *)
Definition REM_PRINTREDIR : Z := 0x1125.
(** hdr/mcb.h:49-49 *)
Definition FIT_MASK : Z := 0x3f.

(** hdr/error.h:59-59 *)
Definition DE_INVLDBUF : Z := -24.
(** hdr/error.h:63-63 *)
Definition DE_INVLDPARM : Z := -0x57.

(** ** The state *)

(** What is known of the last error besides its code: the device, the locus, the class
    and the action.
    kernel/globals.h:265-275 *)
Record crit_info := CritInfo { CritErrDev : farptr; CritErrLocus : Z; CritErrClass : Z; CritErrAction : Z }.

(** Variables of the kernel that the calls work with; [os_setver] is the major and the
    minor version that is told, [v_line] the memory of buffered input.
    kernel/globals.h:180-329 *)
Record vars := Vars {
  break_ena : Z;
  break_flg : bool;
  ErrorMode : bool;
  dta : farptr;
  switchar : Z;
  return_code : Z;
  tsr : bool;
  InDOS : Z;
  Int21AX : Z;
  user_r : farptr;
  os_setver : Z * Z;
  CritErrInfo : crit_info;
  net_name : list Z;
  NetBios : Z;
  net_set_count : Z;
  v_wAttr : Z;
  v_line : line_memory }.

Definition set_break_ena v (x : vars) : vars :=
  Vars v (break_flg x) (ErrorMode x) (dta x) (switchar x) (return_code x) (tsr x) (InDOS x) (Int21AX x) (user_r x)
    (os_setver x) (CritErrInfo x) (net_name x) (NetBios x) (net_set_count x) (v_wAttr x) (v_line x).
Definition set_break_flg v (x : vars) : vars :=
  Vars (break_ena x) v (ErrorMode x) (dta x) (switchar x) (return_code x) (tsr x) (InDOS x) (Int21AX x) (user_r x)
    (os_setver x) (CritErrInfo x) (net_name x) (NetBios x) (net_set_count x) (v_wAttr x) (v_line x).
Definition set_ErrorMode v (x : vars) : vars :=
  Vars (break_ena x) (break_flg x) v (dta x) (switchar x) (return_code x) (tsr x) (InDOS x) (Int21AX x) (user_r x)
    (os_setver x) (CritErrInfo x) (net_name x) (NetBios x) (net_set_count x) (v_wAttr x) (v_line x).
Definition set_dta v (x : vars) : vars :=
  Vars (break_ena x) (break_flg x) (ErrorMode x) v (switchar x) (return_code x) (tsr x) (InDOS x) (Int21AX x)
    (user_r x) (os_setver x) (CritErrInfo x) (net_name x) (NetBios x) (net_set_count x) (v_wAttr x) (v_line x).
Definition set_switchar v (x : vars) : vars :=
  Vars (break_ena x) (break_flg x) (ErrorMode x) (dta x) v (return_code x) (tsr x) (InDOS x) (Int21AX x) (user_r x)
    (os_setver x) (CritErrInfo x) (net_name x) (NetBios x) (net_set_count x) (v_wAttr x) (v_line x).
Definition set_return_code v (x : vars) : vars :=
  Vars (break_ena x) (break_flg x) (ErrorMode x) (dta x) (switchar x) v (tsr x) (InDOS x) (Int21AX x) (user_r x)
    (os_setver x) (CritErrInfo x) (net_name x) (NetBios x) (net_set_count x) (v_wAttr x) (v_line x).
Definition set_tsr v (x : vars) : vars :=
  Vars (break_ena x) (break_flg x) (ErrorMode x) (dta x) (switchar x) (return_code x) v (InDOS x) (Int21AX x)
    (user_r x) (os_setver x) (CritErrInfo x) (net_name x) (NetBios x) (net_set_count x) (v_wAttr x) (v_line x).
Definition set_InDOS v (x : vars) : vars :=
  Vars (break_ena x) (break_flg x) (ErrorMode x) (dta x) (switchar x) (return_code x) (tsr x) v (Int21AX x)
    (user_r x) (os_setver x) (CritErrInfo x) (net_name x) (NetBios x) (net_set_count x) (v_wAttr x) (v_line x).
Definition set_Int21AX v (x : vars) : vars :=
  Vars (break_ena x) (break_flg x) (ErrorMode x) (dta x) (switchar x) (return_code x) (tsr x) (InDOS x) v (user_r x)
    (os_setver x) (CritErrInfo x) (net_name x) (NetBios x) (net_set_count x) (v_wAttr x) (v_line x).
Definition set_user_r v (x : vars) : vars :=
  Vars (break_ena x) (break_flg x) (ErrorMode x) (dta x) (switchar x) (return_code x) (tsr x) (InDOS x) (Int21AX x)
    v (os_setver x) (CritErrInfo x) (net_name x) (NetBios x) (net_set_count x) (v_wAttr x) (v_line x).
Definition set_os_setver v (x : vars) : vars :=
  Vars (break_ena x) (break_flg x) (ErrorMode x) (dta x) (switchar x) (return_code x) (tsr x) (InDOS x) (Int21AX x)
    (user_r x) v (CritErrInfo x) (net_name x) (NetBios x) (net_set_count x) (v_wAttr x) (v_line x).
Definition set_CritErrInfo v (x : vars) : vars :=
  Vars (break_ena x) (break_flg x) (ErrorMode x) (dta x) (switchar x) (return_code x) (tsr x) (InDOS x) (Int21AX x)
    (user_r x) (os_setver x) v (net_name x) (NetBios x) (net_set_count x) (v_wAttr x) (v_line x).
Definition set_net_name v (x : vars) : vars :=
  Vars (break_ena x) (break_flg x) (ErrorMode x) (dta x) (switchar x) (return_code x) (tsr x) (InDOS x) (Int21AX x)
    (user_r x) (os_setver x) (CritErrInfo x) v (NetBios x) (net_set_count x) (v_wAttr x) (v_line x).
Definition set_NetBios v (x : vars) : vars :=
  Vars (break_ena x) (break_flg x) (ErrorMode x) (dta x) (switchar x) (return_code x) (tsr x) (InDOS x) (Int21AX x)
    (user_r x) (os_setver x) (CritErrInfo x) (net_name x) v (net_set_count x) (v_wAttr x) (v_line x).
Definition set_net_set_count v (x : vars) : vars :=
  Vars (break_ena x) (break_flg x) (ErrorMode x) (dta x) (switchar x) (return_code x) (tsr x) (InDOS x) (Int21AX x)
    (user_r x) (os_setver x) (CritErrInfo x) (net_name x) (NetBios x) v (v_wAttr x) (v_line x).
Definition set_v_wAttr v (x : vars) : vars :=
  Vars (break_ena x) (break_flg x) (ErrorMode x) (dta x) (switchar x) (return_code x) (tsr x) (InDOS x) (Int21AX x)
    (user_r x) (os_setver x) (CritErrInfo x) (net_name x) (NetBios x) (net_set_count x) v (v_line x).
Definition set_v_line v (x : vars) : vars :=
  Vars (break_ena x) (break_flg x) (ErrorMode x) (dta x) (switchar x) (return_code x) (tsr x) (InDOS x) (Int21AX x)
    (user_r x) (os_setver x) (CritErrInfo x) (net_name x) (NetBios x) (net_set_count x) (v_wAttr x) v.

(** The whole kernel as the calls see it: files, directories and devices with the
    code of the last error, the chain of memory blocks, the memory, the variables, the
    clock, and the rest. *)
Record dos (S C X : Type) := Dos {
  d_io : ioctl S;
  d_mm : mm;
  d_mem : memory;
  d_vars : vars;
  d_clock : systime C;
  d_rest : X }.
Arguments Dos {S C X}.
Arguments d_io {S C X}.
Arguments d_mm {S C X}.
Arguments d_mem {S C X}.
Arguments d_vars {S C X}.
Arguments d_clock {S C X}.
Arguments d_rest {S C X}.

(** What else the calls use of the block cache and of the drives. *)
Class StoreCalls (S : Type) := {
  st_flush : nat -> S -> option (bool * S);
  st_setinvld : nat -> Z -> S -> option S;
  st_verify : S -> Z;
  st_set_verify : Z -> S -> S;
  st_set_bpb : Z -> bpb -> S -> S;
  st_set_cds_flags : Z -> Z -> S -> S }.

(** Things in the data segment whose address is told: [at_media] is the media byte of
    a drive. *)
Inductive symbol :=
  | at_InDOS | at_DPBp | at_internal_data | at_os_release | at_dpb (p : Z) | at_media (drive : Z) | at_nul_dev
  | at_next_dev | at_cds (drive : Z) | at_lpCurSft (i : Z).

(** The placement of the kernel and its version, the type of the boot, and the parts
    in assembler: the redirector with the two structures of registers, which it may
    write to (the function, the registers of the caller, their copy and the argument). *)
Class KernelPlace (K : Type) := {
  kp_address : symbol -> K -> farptr;
  kp_swap_indos : Z;
  kp_swap_always : Z;
  kp_BootDrive : Z;
  kp_version : Z * Z * Z * Z;
  kp_AnyVersion : bool;
  kp_redirector : Z -> iregs -> lregs -> Z -> K -> Z * iregs * lregs * K }.

(** ** How a call goes on *)

(** The registers of the caller, the copy the function works on, and the kernel. *)
Record call (K : Type) := Call { c_r : iregs; c_lr : lregs; c_s : K }.
Arguments Call {K}.
Arguments c_r {K}.
Arguments c_lr {K}.
Arguments c_s {K}.

(** A call comes back to its program; or a program runs on a frame, with the flag of
    [exec_user]; or the handler of Ctrl-Break has the word. *)
Inductive ending (K : Type) :=
  | Returns (r : iregs) (s : K)
  | Runs (irp : farptr) (fresh : bool) (s : K)
  | Breaks (s : K).
Arguments Returns {K}.
Arguments Runs {K}.
Arguments Breaks {K}.

(** The labels a function goes to.
    kernel/inthndlr.c:1531-1554 *)
Inductive exit (K : Type) :=
  | ExitDispatch (c : call K)
  | LongCheck (lrc : Z) (c : call K)
  | ShortCheck (rc : Z) (c : call K)
  | ErrorExit (rc : Z) (c : call K)
  | ErrorCarry (c : call K)
  | RealExit (c : call K)
  | Dispatch (c : call K)
  | Leave (e : ending K).
Arguments ExitDispatch {K}.
Arguments LongCheck {K}.
Arguments ShortCheck {K}.
Arguments ErrorExit {K}.
Arguments ErrorCarry {K}.
Arguments RealExit {K}.
Arguments Dispatch {K}.
Arguments Leave {K}.

(** [goto error_invalid].
    kernel/inthndlr.c:1542-1543 *)
Definition error_invalid {K} (c : call K) : exit K := ErrorExit DE_INVLDFUNC c.

Definition with_lr {K} lr (c : call K) : call K := Call (c_r c) lr (c_s c).
Definition upd_lr {K} (f : lregs -> lregs) (c : call K) : call K := with_lr (f (c_lr c)) c.
Definition with_s {K} s (c : call K) : call K := Call (c_r c) (c_lr c) s.
Definition with_flags {K} f (c : call K) : call K := Call (set_FLAGS f (c_r c)) (c_lr c) (c_s c).

(** [SET_CARRY_FLAG] and [CLEAR_CARRY_FLAG].
    kernel/inthndlr.c:386-387 *)
Definition set_carry {K} (c : call K) : call K := with_flags (Z.lor (FLAGS (c_r c)) FLG_CARRY) c.
Definition clear_carry {K} (c : call K) : call K := with_flags (Z.ldiff (FLAGS (c_r c)) FLG_CARRY) c.

Section int21.
  Context {S C X : Type}.
  Context `{!BlockCache S, !DosState S, !BlockTransfer S, !NameServices S, !DosServices S, !DirServices S}.
  Context `{!MediaDevice S, !IoctlDriver S, !StoreCalls S, !CharDevice ClockRecord C}.

#[local] Abbreviation dos := (dos S C X).

  Context `{!ConsoleHost dos, !NlsHost dos, !TaskHost dos, !KernelPlace dos}.

(** The bounds of the loops, and what the kernel finds in its buffers and on its stack,
    as in the components. *)
  Context (cf steps ents fuel tries mfuel : nat) (env0 sec_before stack_before : Z) (node node1 : fcb_state S -> f_node).
  Context (stack_fcb : fcb) (stack_dta : dta_buf).

(** ** The state of the components *)

Definition sys (s : dos) : system S := io_sys (d_io s).
Definition with_io i (s : dos) : dos := Dos i (d_mm s) (d_mem s) (d_vars s) (d_clock s) (d_rest s).
Definition with_sys y (s : dos) : dos := with_io (set_io_sys y (d_io s)) s.
Definition with_mm m (s : dos) : dos := Dos (d_io s) m (d_mem s) (d_vars s) (d_clock s) (d_rest s).
Definition with_mem m (s : dos) : dos := Dos (d_io s) (d_mm s) m (d_vars s) (d_clock s) (d_rest s).
Definition upd_mem f (s : dos) : dos := with_mem (f (d_mem s)) s.
Definition upd_vars f (s : dos) : dos := Dos (d_io s) (d_mm s) (d_mem s) (f (d_vars s)) (d_clock s) (d_rest s).
Definition with_clock t (s : dos) : dos := Dos (d_io s) (d_mm s) (d_mem s) (d_vars s) t (d_rest s).
Definition CritErrCode (s : dos) : Z := Ioctl.CritErrCode (d_io s).
Definition set_CritErrCode v (s : dos) : dos := with_io (Ioctl.set_CritErrCode v (d_io s)) s.
Definition cu_psp (s : dos) : Z := Fileio.cu_psp (sys s).
Definition default_drive (s : dos) : Z := ns_default_drive (below (sys s)).

(** [cu_psp] is one variable, which the files and the memory manager both read. *)
Definition set_cu_psp v (s : dos) : dos :=
  let y := sys s in
  let m := d_mm s in
  with_mm (MM (Memmgr.mem m) (first_mcb m) (uppermem_root m) (uppermem_link m) (Memmgr.mem_access_mode m) v)
    (with_sys (System (below y) (sfthead y) (share_installed y) (sharing y) v (Fileio.ps_filetab y)) s).

(** A function of the files; of the control blocks; of the processes. *)
Definition on_sys {A} (f : system S -> option (A * system S)) (s : dos) : option (A * dos) :=
  let* (a, y) := f (sys s) in Some (a, with_sys y s).
Definition fcb_view (s : dos) : fcb_state S := FcbState (sys s) (CritErrCode s) (v_wAttr (d_vars s)).
Definition from_fcb (f : fcb_state S) (s : dos) : dos :=
  upd_vars (set_v_wAttr (wAttr f)) (set_CritErrCode (Fcb.CritErrCode f) (with_sys (Fcb.sys f) s)).
Definition task_view (s : dos) : task dos :=
  let v := d_vars s in
  Task (d_mem s) (Memmgr.mem_access_mode (d_mm s)) (cu_psp s) (dta v) (InDOS v) (tsr v) (user_r v) s.
Definition from_task (t : task dos) : dos :=
  let s := t_host t in
  let s := with_mm (set_access_mode (Task.mem_access_mode t) (d_mm s)) (with_mem (t_mem t) s) in
  set_cu_psp (Task.cu_psp t)
    (upd_vars (fun v => set_dta (t_dta t) (set_InDOS (Task.InDOS t) (set_tsr (Task.tsr t) (set_user_r (Task.user_r t) v)))) s).

(** What [fnode[0]] and [fnode[1]] hold. *)
Definition fnode (s : dos) : f_node := node (fcb_view s).
Definition fnode1 (s : dos) : f_node := node1 (fcb_view s).

(** A program runs, or the process management has returned. *)
Definition process_exit (o : Task.outcome dos) (c : call dos) : exit dos :=
  match o with
  | Returned rc _ t => ShortCheck rc (with_s (from_task t) c)
  | Started irp fresh t => Leave (Runs irp fresh (from_task t))
  end.

(** A function of the console, which may end in the handler of Ctrl-Break. *)
Definition console {A} (f : dos -> Lineedit.outcome dos A) (c : call dos) (k : A -> call dos -> option (exit dos))
    : option (exit dos) :=
  match f (c_s c) with
  | Done a s => k a (with_s s c)
  | Broken s => Some (Leave (Breaks s))
  | Stuck => None
  end.

(** ** Characters *)

Definition sft_idx (hndl : Z) (s : dos) : Z := Dosfns.get_sft_idx hndl (sys s).

Definition put_stdout (ch : Z) (c : call dos) (k : call dos -> option (exit dos)) : option (exit dos) :=
  console (write_char_stdout ch) c (fun _ c => k c).

(** kernel/inthndlr.c:449-453 *)
Definition DOS_01 (c : call dos) : option (exit dos) :=
  console (read_char_stdin tries fuel true) c (fun ch c =>
    let c := upd_lr (set_AL (u8 ch)) c in
    put_stdout (AL (c_lr c)) c (fun c => Some (ExitDispatch c))).

(** kernel/inthndlr.c:456-460 *)
Definition DOS_02 (c : call dos) : option (exit dos) :=
  let c := upd_lr (set_AL (DL (c_lr c))) c in
  put_stdout (AL (c_lr c)) c (fun c => Some (ExitDispatch c)).

(** kernel/inthndlr.c:496-505 *)
Definition DOS_07_08 (check_break : bool) (c : call dos) : option (exit dos) :=
  console (read_char_stdin tries fuel check_break) c (fun ch c => Some (ExitDispatch (upd_lr (set_AL (u8 ch)) c))).

(** kernel/inthndlr.c:480-493 *)
Definition DOS_06 (c : call dos) : option (exit dos) :=
  if negb (DL (c_lr c) =? 0xff) then DOS_02 c
  else
    let c := upd_lr (set_AL 0) c in
    let c := with_flags (Z.lor (FLAGS (c_r c)) FLG_ZERO) c in
    console (StdinBusy tries) c (fun busy c =>
      if (busy : bool) then Some (ExitDispatch (with_s (co_idle (c_s c)) c))
      else DOS_07_08 false (with_flags (Z.ldiff (FLAGS (c_r c)) FLG_ZERO) c)).

(** The characters up to the dollar sign; [n] bounds them.
    kernel/inthndlr.c:508-518 *)
Fixpoint display_string (n : nat) (bp : farptr) (c : call dos) : option (exit dos) :=
  match n with
  | O => None
  | Datatypes.S n =>
      let ch := d_mem (c_s c) (linear bp) in
      if ch =? Prelude.ch "$" then Some (ExitDispatch (upd_lr (set_AL ch) c))
      else put_stdout ch c (fun c => display_string n (far_add bp 1) c)
  end.

(** The buffer of the program: its size, the count and the line.
    kernel/inthndlr.c:521-524 *)
Definition DOS_0A (c : call dos) : option (exit dos) :=
  let p := linear (DS_DX (c_lr c)) in
  let s := c_s c in
  let kp := Keyboard (d_mem s p) (d_mem s (p + 1)) (load (p + 2) 256 (d_mem s)) in
  console (read_line (Terminal0 := console_terminal tries fuel) fuel (sft_idx STDIN s) (sft_idx STDOUT s) kp (v_line (d_vars s))) c
    (fun r c =>
       let '(kp, m) := r in
       let s := upd_vars (set_v_line m) (c_s c) in
       Some (ExitDispatch (with_s (upd_mem (Diskdrv.store p (kb_size kp :: kb_count kp :: kb_buf kp)) s) c))).

(** kernel/inthndlr.c:534-549 *)
Definition flush_and_read (c : call dos) : option (exit dos) :=
  let s := c_s c in
  let go c :=
    let al := AL (c_lr c) in
    if al =? 0x01 then DOS_01 c else if al =? 0x06 then DOS_06 c else if al =? 0x07 then DOS_07_08 false c
    else if al =? 0x08 then DOS_07_08 true c else if al =? 0x0a then DOS_0A c
    else Some (ExitDispatch (upd_lr (set_AL 0) c)) in
  match sft_to_dev (Dosfns.get_sft STDIN (sys s)) s with
  | Some dev => console (con_flush tries dev) c (fun _ c => go c)
  | None => go c
  end.

(** Functions 01h to 0Ch.
    kernel/inthndlr.c:449-549 *)
Definition char_calls (ah : Z) (c : call dos) : option (exit dos) :=
  let s := c_s c in
  let r := c_lr c in
  if ah =? 0x01 then DOS_01 c
  else if ah =? 0x02 then DOS_02 c
  else if ah =? 0x03 then
    console (read_char tries fuel (sft_idx STDAUX s) (sft_idx STDAUX s) true) c
      (fun ch c => Some (ExitDispatch (upd_lr (set_AL (u8 ch)) c)))
  else if ah =? 0x04 then console (write_char (DL r) (sft_idx STDAUX s)) c (fun _ c => Some (ExitDispatch c))
  else if ah =? 0x05 then console (write_char (DL r) (sft_idx STDPRN s)) c (fun _ c => Some (ExitDispatch c))
  else if ah =? 0x06 then DOS_06 c
  else if ah =? 0x07 then DOS_07_08 false c
  else if ah =? 0x08 then DOS_07_08 true c
  else if ah =? 0x09 then display_string (Z.to_nat 65536) (DS_DX r) c
  else if ah =? 0x0a then DOS_0A c
  else if ah =? 0x0b then
    console (StdinBusy tries) c (fun busy c => Some (ExitDispatch (upd_lr (set_AL (if (busy : bool) then 0 else 0xff)) c)))
  else flush_and_read c.

(** ** Drives and file control blocks *)

(** A function on the block at DS:DX whose result is AL. *)
Definition fcb_call (f : xfcb -> fcb_state S -> option (Z * xfcb * fcb_state S)) (c : call dos) : option (exit dos) :=
  let s := c_s c in
  let a := linear (DS_DX (c_lr c)) in
  let* (al, x, t) := f (load_xfcb a (d_mem s)) (fcb_view s) in
  Some (ExitDispatch (upd_lr (set_AL (u8 al)) (with_s (upd_mem (store_xfcb a x) (from_fcb t s)) c))).

(** A transfer: the memory from the transfer address on goes in and out. *)
Definition fcb_transfer {A} (f : xfcb -> Z -> list Z -> fcb_state S -> option (Z * A * xfcb * list Z * fcb_state S))
    (k : A -> call dos -> call dos) (c : call dos) : option (exit dos) :=
  let s := c_s c in
  let a := linear (DS_DX (c_lr c)) in
  let p := dta (d_vars s) in
  let* (al, b, x, l, t) := f (load_xfcb a (d_mem s)) (fp_off p) (load_segment p (d_mem s)) (fcb_view s) in
  let s := upd_mem (fun m => store_xfcb a x (Diskdrv.store (linear p) l m)) (from_fcb t s) in
  Some (ExitDispatch (k b (upd_lr (set_AL (u8 al)) (with_s s c)))).

Definition simple_transfer (f : xfcb -> Z -> list Z -> fcb_state S -> option (Z * xfcb * list Z * fcb_state S)) :=
  fcb_transfer (fun x off l s => let* (al, x, l, s) := f x off l s in Some (al, tt, x, l, s)) (fun _ c => c).

(** Functions 0Dh to 17h.
    kernel/inthndlr.c:552-597 *)
Definition calls_0D_17 (ah : Z) (c : call dos) : option (exit dos) :=
  let s := c_s c in
  let r := c_lr c in
  if ah =? 0x0d then
    let* (_, b) := st_flush cf (below (sys s)) in
    Some (ExitDispatch (with_s (with_sys (with_below b (sys s)) s) c))
  else if ah =? 0x0e then
    let '(n, y) := DosSelectDrv (DL r) (sys s) in
    Some (ExitDispatch (upd_lr (set_AL n) (with_s (with_sys y s) c)))
  else if ah =? 0x0f then
    fcb_call (fun x => FcbOpen cf steps ents fuel sec_before node x (Z.lor (Z.lor O_FCB O_LEGACY) (Z.lor O_OPEN O_RDWR))) c
  else if ah =? 0x10 then fcb_call (FcbClose cf fuel node) c
  else if (ah =? 0x11) || (ah =? 0x12) then
    fcb_transfer (fun x _ _ t =>
      let* (al, x, l, t) := FcbFindFirstNext cf steps ents sec_before node x (ah =? 0x11) t in Some (al, tt, x, l, t))
      (fun _ c => c) c
  else if ah =? 0x13 then
    fcb_call (fun x t => let* (al, t) := FcbDelete cf steps ents sec_before node ents x stack_dta t in Some (al, x, t)) c
  else if ah =? 0x14 then simple_transfer (fun x => FcbReadWrite cf steps fuel node x 1 XFR_READ) c
  else if ah =? 0x15 then simple_transfer (fun x => FcbReadWrite cf steps fuel node x 1 XFR_WRITE) c
  else if ah =? 0x16 then
    fcb_call (fun x => FcbOpen cf steps ents fuel sec_before node x
                         (Z.lor (Z.lor O_FCB O_LEGACY) (Z.lor (Z.lor O_CREAT O_TRUNC) O_RDWR))) c
  else
    let '(ext, rf) := load_rfcb (linear (DS_DX r)) (d_mem s) in
    let* (al, t) := FcbRename cf steps ents sec_before stack_before node node1 stack_fcb ents ext rf stack_dta (fcb_view s) in
    Some (ExitDispatch (upd_lr (set_AL (u8 al)) (with_s (from_fcb t s) c))).

(** kernel/inthndlr.c:633-645 *)
Definition drive_data (c : call dos) : option (exit dos) :=
  let* (d, f) := FatGetDrvData cf steps (DL (c_lr c)) (fcb_view (c_s c)) in
  let c := with_s (from_fcb f (c_s c)) c in
  Some (ExitDispatch (
    match d with
    | Some (spc, bps, nc, _) =>
        let p := kp_address (at_media (DL (c_lr c))) (c_s c) in
        upd_lr (fun r => set_BX (fp_off p) (set_DS (fp_seg p) (set_DX nc (set_CX bps (set_AL spc r))))) c
    | None => upd_lr (set_AL 0xff) c
    end)).

(** Functions 19h to 1Ch.
    kernel/inthndlr.c:618-645 *)
Definition calls_19_1C (ah : Z) (c : call dos) : option (exit dos) :=
  if ah =? 0x19 then Some (ExitDispatch (upd_lr (set_AL (default_drive (c_s c))) c))
  else if ah =? 0x1a then Some (ExitDispatch (with_s (upd_vars (set_dta (DS_DX (c_lr c))) (c_s c)) c))
  else if ah =? 0x1b then drive_data (upd_lr (set_DL 0) c)
  else drive_data c.

(** Functions 21h to 29h.
    kernel/inthndlr.c:652-692 *)
Definition calls_21_29 (ah : Z) (c : call dos) : option (exit dos) :=
  let s := c_s c in
  let r := c_lr c in
  let block mode := fcb_transfer (fun x off l t =>
    let* (al, n, x, l, t) := FcbRandomBlockIO cf steps fuel node x (CX r) (Z.lor mode XFR_FCB_RANDOM) off l t in
    Some (al, n, x, l, t)) (fun n => upd_lr (set_CX n)) c in
  if ah =? 0x21 then simple_transfer (fun x => FcbRandomIO cf steps fuel node x XFR_READ) c
  else if ah =? 0x22 then simple_transfer (fun x => FcbRandomIO cf steps fuel node x XFR_WRITE) c
  else if ah =? 0x23 then fcb_call (FcbGetFileSize cf steps ents fuel sec_before node) c
  else if ah =? 0x24 then
    let a := linear (DS_DX r) in
    let* x := FcbSetRandom (load_xfcb a (d_mem s)) in
    Some (ExitDispatch (with_s (upd_mem (store_xfcb a x) s) c))
  else if ah =? 0x26 then Some (ExitDispatch (with_s (upd_mem (new_psp (DX r) (CS (c_r c))) s) c))
  else if ah =? 0x27 then block XFR_READ
  else if ah =? 0x28 then block XFR_WRITE
  else
    let l := load_segment (DS_SI r) (d_mem s) in
    let a := linear (ES_DI r) in
    let* (al, rest, f) := FcbParseFname (AL r) l (load_fcb a (d_mem s)) (below (sys s)) in
    Some (ExitDispatch (upd_lr (fun r => set_SI (u16 (SI r + Z.of_nat (length l - length rest))) (set_AL (u8 al) r))
                          (with_s (upd_mem (store_fcb a f) s) c))).

(** ** Clock, variables and country *)

(** A date and a time in CX and DX, as the structures lie over them.
    hdr/time.h:44-53 *)
Definition date_in (r : lregs) : dosdate := DosDate (CX r) (DH r) (DL r).
Definition set_date (d : dosdate) (r : lregs) : lregs := set_DX (Z.lor (d_monthday d) (Z.shiftl (d_month d) 8)) (set_CX (d_year d) r).
Definition time_in (r : lregs) : dostime := DosTime (CH r) (CL r) (DH r) (DL r).
Definition set_time (t : dostime) (r : lregs) : lregs :=
  set_DX (Z.lor (t_hundredth t) (Z.shiftl (t_second t) 8)) (set_CX (Z.lor (t_minute t) (Z.shiftl (t_hour t) 8)) r).

(** Functions 2Ah to 2Dh.
    kernel/inthndlr.c:695-712 *)
Definition clock_calls (ah : Z) (c : call dos) : option (exit dos) :=
  let s := c_s c in
  let r := c_lr c in
  let done rc t := Some (ExitDispatch (upd_lr (set_AL (if rc =? SUCCESS then 0 else 0xff)) (with_s (with_clock t s) c))) in
  if ah =? 0x2a then
    let* (d, al, t) := DosGetDate tries (d_clock s) in
    let r := match d with Some d => set_date d r | None => r end in
    Some (ExitDispatch (with_lr (set_AL al r) (with_s (with_clock t s) c)))
  else if ah =? 0x2b then
    let* (rc, t) := DosSetDate tries (date_in r) (d_clock s) in done rc t
  else if ah =? 0x2c then
    let* (d, t) := DosGetTime tries (d_clock s) in
    let r := match d with Some d => set_time d r | None => r end in
    Some (ExitDispatch (with_lr r (with_s (with_clock t s) c)))
  else
    let* (rc, t) := DosSetTime tries (time_in r) (d_clock s) in done rc t.

(** A program that asks for one version is told this one.
    kernel/inthndlr.c:726-760 *)
Definition get_version (c : call dos) : lregs :=
  let v := d_vars (c_s c) in
  let r := set_AH (os_setver v).2 (set_AL (os_setver v).1 (c_lr c)) in
  let r := set_CX 0 (set_BL REVISION_SEQ (set_BH OEM_ID r)) in
  let retp i := d_mem (c_s c) (linear (far_add (Far (CS (c_r c)) (IP (c_r c))) i)) in
  let jump i := (retp i =? 0x75) || (retp i =? 0x74) in
  if negb kp_AnyVersion then r
  else if (retp 0 =? 0x3d) && jump 3 then set_AH (retp 2) (set_AL (retp 1) r)
  else if (retp 0 =? 0x86) && (retp 1 =? 0xc4) && (retp 2 =? 0x3d) && jump 5 then set_AH (retp 3) (set_AL (retp 4) r)
  else r.

(** [return_user()] on the state of the process management. *)
Definition leave_program (c : call dos) : option (exit dos) := Some (process_exit (return_user (task_view (c_s c))) c).

(** Functions 2Eh to 31h.
    kernel/inthndlr.c:715-768 *)
Definition calls_2E_31 (ah : Z) (c : call dos) : option (exit dos) :=
  let s := c_s c in
  let r := c_lr c in
  if ah =? 0x2e then Some (ExitDispatch (with_s (with_sys (upd_below (st_set_verify (Z.land (AL r) 1)) (sys s)) s) c))
  else if ah =? 0x2f then
    let p := dta (d_vars s) in Some (ExitDispatch (upd_lr (fun r => set_ES (fp_seg p) (set_BX (fp_off p) r)) c))
  else if ah =? 0x30 then Some (ExitDispatch (with_lr (get_version c) c))
  else
    let* (_, _, m) := Memmgr.DosMemChange mfuel (cu_psp s) (if DX r <? 6 then 6 else DX r) None (d_mm s) in
    let set v := set_tsr true (set_return_code (Z.lor (AL r) 0x300) v) in
    leave_program (with_s (upd_vars set (with_mm m s)) c).

(** [flush_buffers], and the DPB is marked.
    kernel/inthndlr.c:786-788 *)
Definition force_reread (p : Z) (y : system S) : option (system S) :=
  let* (_, y) := Fileio.call (bc_flush cf (dpb_unit (bc_dpb (below y) p))) y in
  Some (upd_below (fun b => bc_set_dpb p (set_dpb_flags M_CHANGED (bc_dpb b p)) b) y).

(** Functions 1Fh and 32h.
    kernel/inthndlr.c:771-805 *)
Definition get_drive_dpb (c : call dos) : option (exit dos) :=
  let s := c_s c in
  let r := c_lr c in
  let drv := if (DL r =? 0) || (AH r =? 0x1f) then default_drive s else DL r - 1 in
  let failed c := Some (ExitDispatch (upd_lr (set_AL 0xff) (with_s (set_CritErrCode (- DE_INVLDDRV) (c_s c)) c))) in
  match get_dpb drv (below (sys s)) with
  | None => failed c
  | Some p =>
      let* y := force_reread p (sys s) in
      let* (rc, y) := Fileio.call (ds_media_check p) y in
      let c := with_s (with_sys y s) c in
      if (rc <? 0) || ISFAT32 (bc_dpb (below y) p) then failed c
      else
        let a := kp_address (at_dpb p) (c_s c) in
        Some (ExitDispatch (upd_lr (fun r => set_AL 0 (set_BX (fp_off a) (set_DS (fp_seg a) r))) c))
  end.

(** The buffer of the country's data.
    kernel/inthndlr.c:846-873 *)
Definition country_info (c : call dos) : option (exit dos) :=
  let s := c_s c in
  let r := c_lr c in
  let a := linear (DS_DX r) in
  let* (rc, ax, buf, s) := int21_38 (AL r) (BX r) (DX r) (Some (load a 64 (d_mem s))) s in
  let s := match buf with Some l => upd_mem (Diskdrv.store a l) s | None => s end in
  let c := with_s s c in
  Some (ShortCheck rc (match ax with Some n => upd_lr (fun r => set_AX n (set_BX n r)) c | None => c end)).

(** Functions 34h to 38h.
    kernel/inthndlr.c:811-873 *)
Definition calls_34_38 (ah : Z) (c : call dos) : option (exit dos) :=
  let s := c_s c in
  let r := c_lr c in
  if ah =? 0x34 then
    let p := kp_address at_InDOS s in Some (ExitDispatch (upd_lr (fun r => set_ES (fp_seg p) (set_BX (fp_off p) r)) c))
  else if ah =? 0x36 then
    let* (spc, out, y) := DosGetFree cf steps (DL r) true (sys s) in
    let c := upd_lr (set_AX (u16 spc)) (with_s (with_sys y s) c) in
    Some (ExitDispatch (
      match out with
      | Some (navc, bps, nc) => upd_lr (fun r => set_DX nc (set_CX bps (set_BX navc r))) c
      | None => c
      end))
  else if ah =? 0x37 then
    if AL r =? 0 then Some (ExitDispatch (upd_lr (fun r => set_AL 0 (set_DL (switchar (d_vars s)) r)) c))
    else if AL r =? 1 then Some (ExitDispatch (upd_lr (set_AL 0) (with_s (upd_vars (set_switchar (DL r)) s) c)))
    else Some (error_invalid c)
  else country_info c.

(** ** Files *)

(** The name at a pointer, with the byte in front. *)
Definition named {A} (p : farptr) (s : dos) (f : Z -> list Z -> option A) : option A :=
  let* (before, l) := path_at p (d_mem s) in f before l.

(** The result is a status, or a number to be returned in AX. *)
Definition short (f : system S -> option (Z * system S)) (c : call dos) : option (exit dos) :=
  let* (rc, s) := on_sys f (c_s c) in Some (ShortCheck rc (with_s s c)).
Definition long (f : system S -> option (Z * f_node * system S)) (c : call dos) : option (exit dos) :=
  let* (lrc, s) := on_sys (fun y => let* (lrc, _, y) := f y in Some (lrc, y)) (c_s c) in Some (LongCheck lrc (with_s s c)).

Definition open_at (p : farptr) (mode attr : Z) (c : call dos) : option (exit dos) :=
  named p (c_s c) (fun before l => long (DosOpen cf steps ents fuel before l mode attr (fnode (c_s c))) c).

(** A transfer between a handle and the memory at DS:DX.
    kernel/inthndlr.c:904-911 *)
Definition transfer (f : Z -> Z -> list Z -> f_node -> system S -> option (Z * list Z * f_node * system S)) (c : call dos)
    : option (exit dos) :=
  let s := c_s c in
  let r := c_lr c in
  let p := linear (DS_DX r) in
  let* (lrc, l, _, y) := f (BX r) (CX r) (load p (CX r) (d_mem s)) (fnode s) (sys s) in
  Some (LongCheck lrc (with_s (upd_mem (Diskdrv.store p l) (with_sys y s)) c)).

(** A signed 32-bit value. *)
Definition s32 (z : Z) : Z := (z + 2147483648) mod 4294967296 - 2147483648.
Definition dword (high low : Z) : Z := Z.lor (Z.shiftl high 16) low.

(** kernel/inthndlr.c:919-929 *)
Definition seek_call (c : call dos) : option (exit dos) :=
  let s := c_s c in
  let r := c_lr c in
  if 2 <? AL r then Some (error_invalid c)
  else
    let* (lrc, rc, y) := DosSeek (BX r) (s32 (dword (CX r) (DX r))) (AL r) (sys s) in
    let c := with_s (with_sys y s) c in
    Some (ShortCheck rc
      (if rc =? SUCCESS then upd_lr (fun r => set_AX (u16 lrc) (set_DX (u16 (Z.shiftr lrc 16)) r)) c else c)).

(** kernel/inthndlr.c:932-949 *)
Definition attribute_call (c : call dos) : option (exit dos) :=
  let s := c_s c in
  let r := c_lr c in
  if AL r =? 0 then
    named (DS_DX r) s (fun before l =>
      let* (rc, s) := on_sys (DosGetFattr cf steps ents before l (fnode s)) s in
      let c := with_s s c in
      Some (ShortCheck rc (if SUCCESS <=? rc then upd_lr (set_CX (u16 rc)) c else c)))
  else if AL r =? 1 then
    named (DS_DX r) s (fun before l =>
      let* (rc, s) := on_sys (DosSetFattr cf steps ents fuel before l (CX r) (fnode s)) s in
      Some (ShortCheck rc (upd_lr (fun r => set_AX (CX r) r) (with_s s c))))
  else Some (error_invalid c).

(** kernel/inthndlr.c:952-962 *)
Definition ioctl_call (c : call dos) : option (exit dos) :=
  let* (rc, r, i) := DosDevIOctl (c_lr c) (d_io (c_s c)) in
  let c := with_lr r (with_s (with_io i (c_s c)) c) in
  let rc := s16 rc in
  if rc <? SUCCESS then
    let c := upd_lr (set_AX (u16 (- rc))) c in
    Some (ErrorCarry (if negb (rc =? DE_DEVICE) && negb (rc =? DE_ACCESS)
                      then with_s (set_CritErrCode (s16 (- rc)) (c_s c)) c else c))
  else Some (ExitDispatch c).

(** Functions 39h to 47h.
    kernel/inthndlr.c:877-978 *)
Definition calls_39_47 (ah : Z) (c : call dos) : option (exit dos) :=
  let s := c_s c in
  let r := c_lr c in
  let by_name f := named (DS_DX r) s (fun before l => short (f before l (fnode s)) c) in
  if (ah =? 0x39) || (ah =? 0x3a) then by_name (fun before l => DosMkRmdir cf steps ents before l ah)
  else if ah =? 0x3b then by_name (DosChangeDir cf steps ents)
  else if ah =? 0x3c then open_at (DS_DX r) (Z.lor (Z.lor O_LEGACY O_RDWR) (Z.lor O_CREAT O_TRUNC)) (CL r) c
  else if ah =? 0x3d then open_at (DS_DX r) (Z.lor (Z.lor O_LEGACY O_OPEN) (AL r)) 0 c
  else if ah =? 0x3e then short (fun y => let* (rc, _, y) := DosClose cf fuel (BX r) (fnode s) y in Some (rc, y)) c
  else if ah =? 0x3f then transfer (DosRead cf steps fuel) c
  else if ah =? 0x40 then transfer (DosWrite cf steps fuel) c
  else if ah =? 0x41 then by_name (fun before l => DosDelete cf steps ents before l D_ALL)
  else if ah =? 0x42 then seek_call c
  else if ah =? 0x43 then attribute_call c
  else if ah =? 0x44 then ioctl_call c
  else if ah =? 0x45 then long (DosDup cf fuel (BX r) (fnode s)) c
  else if ah =? 0x46 then short (fun y => let* (rc, _, y) := DosForceDup cf fuel (BX r) (CX r) (fnode s) y in Some (rc, y)) c
  else
    let* (rc, d, y) := DosGetCuDir cf steps ents (DL r) (fnode s) (sys s) in
    let s := with_sys y s in
    let s := match d with Some d => upd_mem (Diskdrv.store (linear (DS_SI r)) (d ++ [0])) s | None => s end in
    Some (ShortCheck rc (upd_lr (set_AX 0x100) (with_s s c))).

(** ** Memory and programs *)

(** A corrupted chain stops the machine.
    kernel/inthndlr.c:985-986 *)
Definition checked (s : dos) : option unit :=
  let* rc := Memmgr.DosMemCheck mfuel (d_mm s) in if rc =? SUCCESS then Some tt else None.

(** kernel/inthndlr.c:981-990 *)
Definition memory_alloc (c : call dos) : option (exit dos) :=
  let s := c_s c in
  let r := c_lr c in
  let* (rc, para, asize, m) := Memmgr.DosMemAlloc mfuel (BX r) (Memmgr.mem_access_mode (d_mm s)) (AX r) (Some (BX r)) (d_mm s) in
  let rc := s16 rc in
  if rc <? 0 then
    let* (_, size, m) := Memmgr.DosMemLargest mfuel m in
    let c := upd_lr (fun r => set_BX size (set_AX para r)) (with_s (with_mm m s) c) in
    let* _ := checked (c_s c) in Some (ErrorExit rc c)
  else Some (ExitDispatch (upd_lr (fun r => set_BX (default (BX r) asize) (set_AX (u16 (para + 1)) r)) (with_s (with_mm m s) c))).

(** kernel/inthndlr.c:993-1000 *)
Definition memory_free (c : call dos) : option (exit dos) :=
  let s := c_s c in
  let '(rc, m) := Memmgr.DosMemFree (u16 (ES (c_lr c) - 1)) (Memmgr.mem (d_mm s)) in
  let c := with_s (with_mm (Memmgr.set_mem m (d_mm s)) s) c in
  let rc := s16 rc in
  if rc <? SUCCESS then let* _ := checked (c_s c) in Some (ErrorExit rc c) else Some (ExitDispatch c).

(** kernel/inthndlr.c:1003-1021 *)
Definition memory_resize (c : call dos) : option (exit dos) :=
  let s := c_s c in
  let r := c_lr c in
  let* _ := checked s in
  let* (rc, size, m) := Memmgr.DosMemChange mfuel (ES r) (BX r) (Some (BX r)) (d_mm s) in
  let c := upd_lr (set_BX (default (BX r) size)) (with_s (with_mm m s) c) in
  let rc := s16 rc in
  if rc <? 0 then let* _ := checked (c_s c) in Some (ErrorExit rc c)
  else Some (ExitDispatch (upd_lr (fun r => set_AX (ES r) r) c)).

(** kernel/inthndlr.c:1035-1055 *)
Definition terminate (c : call dos) : option (exit dos) :=
  let v := d_vars (c_s c) in
  let '(rc, v) :=
    if ErrorMode v then (0x200, set_ErrorMode false v)
    else if break_flg v then (0x100, set_break_flg false v) else (0, v) in
  let v := set_tsr false (set_return_code (Z.lor (AL (c_lr c)) rc) v) in
  let c := with_s (upd_vars (fun _ => v) (c_s c)) c in
  let* _ := checked (c_s c) in leave_program c.

(** Functions 48h to 4Dh, and 00h.
    kernel/inthndlr.c:981-1062 *)
Definition calls_48_4D (ah : Z) (c : call dos) : option (exit dos) :=
  let s := c_s c in
  let r := c_lr c in
  if ah =? 0x48 then memory_alloc c
  else if ah =? 0x49 then memory_free c
  else if ah =? 0x4a then memory_resize c
  else if ah =? 0x4b then
    let c := with_s (upd_vars (set_break_flg false) s) c in
    let* o := DosExec env0 (AL r) (Far (ES r) (BX r)) (DS_DX r) (task_view (c_s c)) in
    Some (process_exit o c)
  else if ah =? 0x00 then terminate (upd_lr (set_AX 0x4c00) c)
  else if ah =? 0x4c then terminate c
  else Some (ExitDispatch (upd_lr (set_AX (return_code (d_vars s))) (with_s (upd_vars (set_return_code 0) s) c))).

(** ** Searches, names, locks *)

(** The buffer of a search is at the transfer address.
    kernel/inthndlr.c:1065-1078 *)
Definition search_call (f : dta_buf -> system S -> option (Z * dta_buf * system S)) (c : call dos) : option (exit dos) :=
  let s := c_s c in
  let a := linear (dta (d_vars s)) in
  let* (rc, d, y) := f (load_dta a (d_mem s)) (sys s) in
  let s := with_sys y s in
  let s := if rc =? SUCCESS then upd_mem (store_dta a d) s else s in
  Some (ShortCheck rc (upd_lr (set_AX 0) (with_s s c))).

(** Functions 4Eh to 55h.
    kernel/inthndlr.c:1065-1111 *)
Definition calls_4E_55 (ah : Z) (c : call dos) : option (exit dos) :=
  let s := c_s c in
  let r := c_lr c in
  if ah =? 0x4e then
    named (DS_DX r) s (fun before l => search_call (fun d => DosFindFirst cf steps ents before (CX r) l d (fnode s)) c)
  else if ah =? 0x4f then search_call (fun d => DosFindNext cf steps ents d (fnode s)) c
  else if ah =? 0x52 then
    let p := kp_address at_DPBp s in Some (ExitDispatch (upd_lr (fun r => set_ES (fp_seg p) (set_BX (fp_off p) r)) c))
  else if ah =? 0x53 then
    let* (_, y) := Fileio.call (fun b =>
      let* b := bpb_to_dpb cf (bpb_in (linear (DS_SI r) - 11) (d_mem s)) (dword (ES r) (BP (c_r c)))
                  ((CX r =? 0x4558) && (DX r =? 0x4152)) b in Some (tt, b)) (sys s) in
    Some (ExitDispatch (with_s (with_sys y s) c))
  else if ah =? 0x54 then Some (ExitDispatch (upd_lr (set_AL (st_verify (below (sys s)))) c))
  else
    let t := child_psp (DX r) (cu_psp s) (SI r) (task_view s) in
    Some (ExitDispatch (with_s (set_cu_psp (DX r) (from_task t)) c)).

(** kernel/inthndlr.c:1119-1137 *)
Definition stamp_call (c : call dos) : option (exit dos) :=
  let s := c_s c in
  let r := c_lr c in
  if AL r =? 0 then
    match DosGetFtime (BX r) (sys s) with
    | inl rc => Some (ShortCheck rc c)
    | inr (date, time) => Some (ShortCheck SUCCESS (upd_lr (fun r => set_CX time (set_DX date r)) c))
    end
  else if AL r =? 1 then
    let '(rc, y) := DosSetFtime (BX r) (DX r) (CX r) (sys s) in Some (ShortCheck rc (with_s (with_sys y s) c))
  else Some (error_invalid c).

(** kernel/inthndlr.c:1140-1175 *)
Definition strategy_call (c : call dos) : option (exit dos) :=
  let s := c_s c in
  let r := c_lr c in
  if AL r =? 0 then
    Some (ExitDispatch (upd_lr (fun r => set_AH 0 (set_AL (Memmgr.mem_access_mode (d_mm s)) r)) c))
  else if AL r =? 1 then
    if (LAST_FIT_U <? BL r) || (LAST_FIT <? Z.land (BL r) FIT_MASK) then Some (error_invalid c)
    else Some (ExitDispatch (with_s (with_mm (set_access_mode (BL r) (d_mm s)) s) c))
  else if AL r =? 2 then Some (ExitDispatch (upd_lr (set_AL (uppermem_link (d_mm s))) c))
  else if (AL r =? 3) && negb (uppermem_root (d_mm s) =? 0xffff) then
    let* m := Memmgr.DosUmbLink mfuel (BX r) (d_mm s) in Some (ExitDispatch (with_s (with_mm m s) c))
  else Some (error_invalid c).

(** kernel/inthndlr.c:1178-1185 *)
Definition extended_error (s : dos) (r : lregs) : lregs :=
  let i := CritErrInfo (d_vars s) in
  let p := CritErrDev i in
  set_ES (fp_seg p) (set_DI (fp_off p)
    (set_BL (CritErrAction i) (set_BH (CritErrClass i) (set_CH (CritErrLocus i) (set_AX (u16 (CritErrCode s)) r))))).

(** Functions 56h to 5Ch.
    kernel/inthndlr.c:1114-1205 *)
Definition calls_56_5C (ah : Z) (c : call dos) : option (exit dos) :=
  let s := c_s c in
  let r := c_lr c in
  if ah =? 0x56 then
    named (DS_DX r) s (fun b1 l1 => named (ES_DI r) s (fun b2 l2 =>
      short (DosRename cf steps ents b1 b2 l1 l2 (fnode s) (fnode1 s)) c))
  else if ah =? 0x57 then stamp_call c
  else if ah =? 0x58 then strategy_call c
  else if ah =? 0x59 then Some (ExitDispatch (upd_lr (extended_error s) c))
  else if ah =? 0x5a then
    named (DS_DX r) s (fun before l =>
      let* (lrc, name, _, y) := DosMkTmp cf steps ents fuel before l (CX r) (fnode s) (sys s) in
      Some (LongCheck lrc (with_s (upd_mem (Diskdrv.store (linear (DS_DX r)) (name ++ [0])) (with_sys y s)) c)))
  else if ah =? 0x5b then open_at (DS_DX r) (Z.lor (Z.lor O_LEGACY O_RDWR) O_CREAT) (CX r) c
  else
    let* (rc, y) := DosLockUnlock (BX r) (dword (CX r) (DX r)) (dword (SI r) (DI r)) (negb (AL r =? 0)) (sys s) in
    let c := with_s (with_sys y s) c in
    let rc := s16 rc in
    Some (if negb (rc =? SUCCESS) then ErrorExit rc c else ExitDispatch c).

(** ** The functions for FAT32 *)

(** A result of [int21_fat32], the registers and the kernel. *)
Definition fat32_result : Type := option (Z * lregs * dos).

Definition fat32_dpb (c : call dos) (k : Z -> fat32_result) : fat32_result :=
  match GetDriveDPB (DL (c_lr c)) (sys (c_s c)) with
  | (rc, Some p) => k p
  | (rc, None) => Some (rc, c_lr c, c_s c)
  end.

(** The DPB is built anew.
    kernel/inthndlr.c:284-292 *)
Definition rebuild_dpb (p : Z) (r : lregs) (s : dos) : fat32_result :=
  let* y := force_reread p (sys s) in
  let* (rc, y) := Fileio.call (ds_media_check p) y in
  Some (if rc <? 0 then DE_INVLDDRV else SUCCESS, r, with_sys y s).

(** kernel/inthndlr.c:180-215 *)
Definition fat32_get_dpb (c : call dos) : fat32_result :=
  let r := c_lr c in
  if CX r <? 2 + sizeof_dpb then Some (DE_INVLDBUF, r, c_s c)
  else fat32_dpb c (fun p =>
    let* (rc, r, s) := rebuild_dpb p r (c_s c) in
    if rc <? 0 then Some (rc, r, s)
    else
      let d := extend_dpb (bc_dpb (below (sys s)) p) in
      Some (SUCCESS, r, upd_mem (Diskdrv.store (linear (ES_DI r)) (le16 sizeof_dpb ++ dpb_bytes d)) s)).

(** kernel/inthndlr.c:217-228 *)
Definition fat32_free_space (c : call dos) : fat32_result :=
  let r := c_lr c in
  let s := c_s c in
  if CX r <? 44 then Some (DE_INVLDBUF, r, s)
  else
    let* (rc, x, y) := DosGetExtFree cf steps (load_segment (DS_DX r) (d_mem s)) (sys s) in
    Some (rc, r, upd_mem (Diskdrv.store (linear (ES_DI r)) (xfree_bytes x)) (with_sys y s)).

(** The counts of free clusters.
    kernel/inthndlr.c:247-275 *)
Definition set_dpb_counts (p nfreeclst cluster : Z) (r : lregs) (s : dos) : fat32_result :=
  let d := bc_dpb (below (sys s)) p in
  let put d := upd_below (bc_set_dpb p d) (sys s) in
  if ISFAT32 d then
    if (dpb_xfsinfosec d =? 0xffff) && (negb (nfreeclst =? 0) || negb (cluster =? 0)) || (nfreeclst =? 1) ||
       (dpb_xsize d <? nfreeclst) || (cluster =? 1) || (dpb_xsize d <? cluster)
    then Some (DE_INVLDPARM, r, s)
    else
      let* (_, y) := Fileio.call (fun b => let* b := write_fsinfo cf p b in Some (tt, b))
                       (put (set_xcluster cluster (set_xnfreeclst nfreeclst d))) in
      Some (SUCCESS, r, with_sys y s)
  else
    let nfreeclst := u16 nfreeclst in
    let cluster := u16 cluster in
    if (nfreeclst =? 1) || (dpb_size d <? nfreeclst) || (cluster =? 1) || (dpb_size d <? cluster) then Some (DE_INVLDPARM, r, s)
    else Some (SUCCESS, r, with_sys (put (set_cluster cluster (set_nfreeclst nfreeclst d))) s).

(** The flags of the FATs, or the root cluster, in the copy of the BPB at byte 11 of
    sector 1; a failed read is the null pointer, which is not tested: [None].
    kernel/inthndlr.c:315-326 *)
Definition patch_bpb (function value p : Z) (y : system S) : option (system S) :=
  let* (bp, y) := Fileio.call (bc_getblock cf 1 (dpb_unit (bc_dpb (below y) p))) y in
  let* bp := bp in
  let l := b_buffer (bc_buf (below y) bp) in
  let* l := if function =? 0x03 then put16 (11 + 29) (u16 value) l else put32 (11 + 33) value l in
  Some (upd_below (bc_upd bp (fun b =>
    with_data l (with_flag (Z.lor (Blockio.clear (Z.lor (Z.lor BFR_DATA BFR_DIR) BFR_FAT) (b_flag b))
                                  (Z.lor BFR_VALID BFR_DIRTY)) b))) y).

(** [a] is the address of the structure: the new value is at 8, the old one at 12.
    kernel/inthndlr.c:293-328 *)
Definition set_get (function p a : Z) (r : lregs) (s : dos) : fat32_result :=
  let d := bc_dpb (below (sys s)) p in
  let value := peek32 (a + 8) (d_mem s) in
  let old := if function =? 0x03 then dpb_xflags d else dpb_xrootclst d in
  let invalid := if function =? 0x03 then negb (Z.ldiff value 0x8f =? 0) else (value <? 2) || (dpb_xsize d <? value) in
  if negb (ISFAT32 d) then Some (DE_INVLDPARM, r, s)
  else if negb (value =? 0xffffffff) && invalid then Some (DE_INVLDPARM, r, s)
  else
    let s := upd_mem (poke32 (a + 12) old) s in
    let* y := if negb (value =? 0xffffffff) then patch_bpb function value p (sys s) else Some (sys s) in
    rebuild_dpb p r (with_sys y s).

(** [getddt] gets DL, which counts the drives from 1, where it counts from 0.
    kernel/inthndlr.c:230-334 *)
Definition fat32_format_dpb (c : call dos) : fat32_result :=
  let r := c_lr c in
  let s := c_s c in
  let a := linear (ES_DI r) in
  if CX r <? 24 then Some (DE_INVLDBUF, r, s)
  else fat32_dpb c (fun p =>
    let s := upd_mem (fun m => poke16 (a + 2) 0 (poke16 a 24 m)) s in
    let function := peek16 (a + 4) (d_mem s) in
    if function =? 0 then set_dpb_counts p (peek32 (a + 8) (d_mem s)) (peek32 (a + 12) (d_mem s)) r s
    else if function =? 1 then
      let b := bpb_in (linear (peek_far (a + 12) (d_mem s)) - 11) (d_mem s) in
      rebuild_dpb p r (with_sys (upd_below (st_set_bpb (DL r) b) (sys s)) s)
    else if function =? 2 then rebuild_dpb p r s
    else if (function =? 3) || (function =? 4) then set_get function p a r s
    else Some (DE_INVLDFUNC, r, s)).

(** Sectors to or from the memory at a pointer, past the buffers.
    kernel/inthndlr.c:358-360 *)
Definition raw_transfer (dsk blkno : Z) (buf : farptr) (nblks mode : Z) (s : dos) : option (Z * dos) :=
  let a := linear buf in
  let* (rc, l, b) := bt_dskxfer cf (0xa000 <=? fp_seg buf) dsk blkno (load a (512 * nblks) (d_mem s)) nblks mode (below (sys s)) in
  Some (rc, upd_mem (Diskdrv.store a l) (with_sys (with_below b (sys s)) s)).

(** What the buffers hold of a drive is forgotten. *)
Definition invalidate (dsk : Z) (s : dos) : option dos :=
  let* b := st_setinvld cf dsk (below (sys s)) in Some (with_sys (with_below b (sys s)) s).

(** The structure at DS:BX has the sector, the count and the buffer.
    kernel/inthndlr.c:337-369 *)
Definition fat32_absolute (c : call dos) : fat32_result :=
  let r := c_lr c in
  let s := c_s c in
  let a := linear (Far (DS r) (BX r)) in
  if negb (CX r =? 0xffff) || negb (Z.ldiff (SI r) 0x6001 =? 0) then Some (DE_INVLDPARM, r, s)
  else if (ds_lastdrive (below (sys s)) <? DL r) || (DL r =? 0) then Some (-0x207, r, s)
  else
    let mode := if Z.land (SI r) 1 =? 0 then DSKREADINT25 else DSKWRITEINT26 in
    let m := d_mem s in
    let* (rc, s) := raw_transfer (DL r - 1) (peek32 a m) (peek_far (a + 6) m) (peek16 (a + 4) m) mode s in
    let ax := u16 rc in
    let* s := if (mode =? DSKWRITEINT26) && (ax =? 0) then invalidate (DL r - 1) s else Some s in
    Some (if 0 <? ax then -0x20c else SUCCESS, set_AX ax r, s).

(** kernel/inthndlr.c:173-374 *)
Definition int21_fat32 (c : call dos) : fat32_result :=
  let al := AL (c_lr c) in
  if al =? 0x02 then fat32_get_dpb c
  else if al =? 0x03 then fat32_free_space c
  else if al =? 0x04 then fat32_format_dpb c
  else if al =? 0x05 then fat32_absolute c
  else Some (DE_INVLDFUNC, c_lr c, c_s c).

(** ** The network, names and national languages *)

(** The registers of a program in its memory; the dispatch starts again with them.
    kernel/inthndlr.c:1209-1250 *)
Definition server_call (c : call dos) : option (exit dos) :=
  let s := c_s c in
  let r := c_lr c in
  let al := AL r in
  if al =? 0x00 then Some (Dispatch (with_lr (load_lregs (linear (DS_DX r)) (d_mem s)) c))
  else if al =? 0x06 then
    let p := kp_address at_internal_data s in
    Some (ExitDispatch (clear_carry
      (upd_lr (fun r => set_DX kp_swap_always (set_CX kp_swap_indos (set_SI (fp_off p) (set_DS (fp_seg p) r)))) c)))
  else if (0x07 <=? al) && (al <=? 0x09) then
    let '(rc, fr, lr, s) := kp_redirector REM_PRINTREDIR (c_r c) (c_lr c) (Int21AX (d_vars s)) s in
    let c := clear_carry (Call fr lr s) in
    let rc := s16 rc in
    Some (if negb (rc =? SUCCESS) then ErrorExit rc c else ExitDispatch c)
  else if al =? 0x0a then
    let er := load_lregs (linear (DS_DX r)) (d_mem s) in
    let i := CritInfo (ES_DI er) (CH er) (BH er) (BL er) in
    Some (ExitDispatch (clear_carry (with_s (upd_vars (set_CritErrInfo i) (set_CritErrCode (s16 (AX er)) s)) c)))
  else Some (error_invalid (with_s (set_CritErrCode SUCCESS s) c)).

(** kernel/network.c:41-45 *)
Definition get_machine_name (a : Z) (s : dos) : Z * dos :=
  (NetBios (d_vars s), upd_mem (Diskdrv.store a (take 16 (net_name (d_vars s)))) s).

(** kernel/network.c:47-52 *)
Definition set_machine_name (a name_num : Z) (s : dos) : dos :=
  let name := load a 15 (d_mem s) in
  upd_vars (fun v => set_net_set_count (u8 (net_set_count v + 1))
                       (set_net_name (name ++ drop 15 (net_name v)) (set_NetBios name_num v))) s.

(** kernel/inthndlr.c:1253-1268 *)
Definition machine_call (c : call dos) : option (exit dos) :=
  let s := c_s c in
  let r := c_lr c in
  let a := linear (DS_DX r) in
  if AL r =? 0 then let '(n, s) := get_machine_name a s in Some (ExitDispatch (upd_lr (set_CX n) (with_s s c)))
  else if AL r =? 1 then Some (ExitDispatch (with_s (set_machine_name a (CX r) s) c))
  else
    let '(rc, fr, lr, s) := kp_redirector REM_PRINTSET (c_r c) r (Int21AX (d_vars s)) s in
    Some (ShortCheck rc (Call fr lr s)).

(** The redirector writes to the registers of the caller themselves.
    kernel/inthndlr.c:1270-1299 *)
Definition redirection_call (c : call dos) : option (exit dos) :=
  let s := c_s c in
  let r := c_lr c in
  if (AL r =? 7) || (AL r =? 8) then
    let y := below (sys s) in
    let d := ds_cds (DL r) y in
    if (DL r <? ds_lastdrive y) && negb (cdsDpb d =? 0) then
      let flags := Z.ldiff (cdsFlags d) CDSPHYSDRV in
      let flags := if AL r =? 7 then Z.lor flags CDSPHYSDRV else flags in
      Some (ExitDispatch (with_s (with_sys (upd_below (st_set_cds_flags (DL r) flags) (sys s)) s) c))
    else Some (ErrorExit DE_INVLDDRV c)
  else
    let '(rc, fr, lr, s) := kp_redirector REM_DOREDIRECT (c_r c) r (Int21AX (d_vars s)) s in
    let c := Call fr lr s in
    let rc := s16 rc in
    let c := if negb (rc =? SUCCESS) then set_carry (with_s (set_CritErrCode (s16 (- rc)) (c_s c)) c) else c in
    Some (RealExit (Call (set_frame (set_AX (u16 (- rc)) (frame (c_r c))) (c_r c)) (c_lr c) (c_s c))).

(** kernel/inthndlr.c:1301-1304 *)
Definition truename_call (c : call dos) : option (exit dos) :=
  named (DS_SI (c_lr c)) (c_s c) (fun before l =>
    let* (rc, d, y) := DosTruename cf steps ents before l (fnode (c_s c)) (sys (c_s c)) in
    let s := with_sys y (c_s c) in
    let s := match d with
             | Some d => upd_mem (Diskdrv.store (linear (Diskdrv.adjust_far (ES_DI (c_lr c)))) (d ++ [0])) s
             | None => s
             end in
    Some (ShortCheck rc (upd_lr (set_AX (u16 rc)) (with_s s c)))).

(** Functions 5Dh to 60h.
    kernel/inthndlr.c:1209-1304 *)
Definition calls_5D_60 (ah : Z) (c : call dos) : option (exit dos) :=
  if ah =? 0x5d then server_call c
  else if ah =? 0x5e then machine_call c
  else if ah =? 0x5f then redirection_call c
  else truename_call c.

(** kernel/inthndlr.c:1334-1361 *)
Definition dbcs_call (c : call dos) : option (exit dos) :=
  let al := AL (c_lr c) in
  if al =? 0 then
    let* p := DosGetDBCS (c_s c) in
    Some (ExitDispatch (upd_lr (fun r => set_SI (u16 p) (set_DS (Z.shiftr p 16) r)) c))
  else if (al =? 1) || (al =? 2) then Some (ExitDispatch (upd_lr (set_AL 0xff) c))
  else Some (ErrorExit (-1) c).

(** kernel/inthndlr.c:1368-1406 *)
Definition language_call (c : call dos) : option (exit dos) :=
  let s := c_s c in
  let r := c_lr c in
  let a := linear (ES_DI r) in
  let* (rc, ax, dl, l, buf, s) :=
    int21_65 (AL r) (BX r) (CX r) (DX r) (load_segment (DS_DX r) (d_mem s)) (Some (load a (CX r) (d_mem s))) s in
  let s :=
    if existsb (Z.eqb (AL r)) [0x20; 0x23; 0xa0] then s
    else if existsb (Z.eqb (AL r)) [0x21; 0x22; 0xa1; 0xa2] then upd_mem (Diskdrv.store (linear (DS_DX r)) l) s
    else match buf with Some b => upd_mem (Diskdrv.store a b) s | None => s end in
  Some (ShortCheck rc (upd_lr (fun r => set_DL dl (set_AX ax r)) (with_s s c))).

(** kernel/inthndlr.c:1438-1457 *)
Definition serial_number_call (c : call dos) : option (exit dos) :=
  let s := c_s c in
  let r := c_lr c in
  let drive := if BL r =? 0 then default_drive s else BL r - 1 in
  if AL r <? 2 then
    match get_cds drive (below (sys s)), get_dpb drive (below (sys s)) with
    | None, _ => Some (ErrorExit DE_INVLDDRV c)
    | Some _, None => Some (error_invalid c)
    | Some _, Some _ =>
        let* (rc, r', i) := DosDevIOctl (set_AL 0x0d (set_CX (if AL r =? 0 then 0x0866 else 0x0846) r)) (d_io s) in
        Some (ShortCheck rc (with_lr (set_CX (CX r) r') (with_s (with_io i s) c)))
    end
  else Some (error_invalid c).

(** The mode that function 6Ch makes of BX and DL.
    kernel/inthndlr.c:1468-1469 *)
Definition extended_mode (r : lregs) : Z :=
  Z.lor (Z.lor (Z.land (BX r) 0x70ff) (Z.shiftl (Z.land (DL r) 3) 8)) (Z.shiftl (Z.land (DL r) 0x10) 6).

(** kernel/inthndlr.c:1463-1473 *)
Definition extended_open (c : call dos) : option (exit dos) :=
  let r := c_lr c in
  if 2 <? Z.land (DL r) 0xef then Some (error_invalid c)
  else
    named (DS_SI r) (c_s c) (fun before l =>
      let* (lrc, s) := on_sys (fun y => let* (lrc, _, y) := DosOpen cf steps ents fuel before l (extended_mode r) (CL r)
                                                              (fnode (c_s c)) y in Some (lrc, y)) (c_s c) in
      let c := with_s s c in
      Some (LongCheck lrc (if SUCCESS <=? lrc then upd_lr (set_CX (u16 (Z.shiftr lrc 16))) c else c))).

(** Functions 65h to 73h.
    kernel/inthndlr.c:1368-1489 *)
Definition calls_65_73 (ah : Z) (c : call dos) : option (exit dos) :=
  let s := c_s c in
  let r := c_lr c in
  if ah =? 0x65 then language_call c
  else if ah =? 0x66 then
    let* (rc, bx, dx, s) := int21_66 (AL r) (BX r) (DX r) s in
    let c := upd_lr (fun r => set_DX dx (set_BX bx r)) (with_s s c) in
    let rc := s16 rc in
    Some (if negb (rc =? SUCCESS) then ErrorExit rc c else ExitDispatch c)
  else if ah =? 0x67 then
    let* (rc, m, y) := SetJFTSize mfuel (BX r) (d_mm s) (sys s) in Some (ShortCheck rc (with_s (with_mm m (with_sys y s)) c))
  else if (ah =? 0x68) || (ah =? 0x6a) then
    short (fun y => let* (rc, _, y) := DosCommit cf fuel (BX r) (fnode s) y in Some (rc, y)) c
  else if ah =? 0x69 then serial_number_call c
  else if ah =? 0x6c then extended_open c
  else if ah =? 0x71 then Some (ErrorCarry (upd_lr (set_AL 0) c))
  else
    let c := clear_carry (with_s (set_CritErrCode SUCCESS s) c) in
    let* (rc, r, s) := int21_fat32 c in
    Some (ShortCheck rc (with_lr r (with_s s c))).

(** ** The dispatch *)

(** The functions that tell an error by carry, which starts cleared.
    kernel/inthndlr.c:407-409 *)
Definition carry_function (ah : Z) : bool :=
  (0x38 <=? ah) && (ah <=? 0x4f) || (0x56 <=? ah) && (ah <=? 0x5c) || (0x5e <=? ah) && (ah <=? 0x60) ||
  (0x65 <=? ah) && (ah <=? 0x6a) || (ah =? 0x6c).

(** What comes before the function itself.
    kernel/inthndlr.c:407-437 *)
Definition prepare (ah : Z) (c : call dos) : call dos :=
  let c := if carry_function ah then
             let c := clear_carry c in
             if negb (ah =? 0x59) then with_s (set_CritErrCode SUCCESS (c_s c)) c else c
           else c in
  if (0x0c <? ah) && negb (ah =? 0x30) && negb (ah =? 0x59)
  then with_s (upd_vars (set_ErrorMode false) (c_s c)) c else c.

(** The functions that test for Ctrl-Break even when the flag is off.
    kernel/inthndlr.c:436-436 *)
Definition breakable (ah : Z) : bool := (1 <=? ah) && (ah <=? 5) || (8 <=? ah) && (ah <=? 0x0b).

(** kernel/inthndlr.c:440-1526 *)
Definition switch (ah : Z) (c : call dos) : option (exit dos) :=
  let within a b := (a <=? ah) && (ah <=? b) in
  let one_of l := existsb (Z.eqb ah) l in
  if ah =? 0x64 then Some (error_invalid c)
  else if within 0x01 0x0c then char_calls ah c
  else if within 0x0d 0x17 then calls_0D_17 ah c
  else if within 0x19 0x1c then calls_19_1C ah c
  else if (ah =? 0x1f) || (ah =? 0x32) then get_drive_dpb c
  else if within 0x21 0x24 || within 0x26 0x29 then calls_21_29 ah c
  else if within 0x2a 0x2d then clock_calls ah c
  else if within 0x2e 0x31 then calls_2E_31 ah c
  else if (ah =? 0x34) || within 0x36 0x38 then calls_34_38 ah c
  else if within 0x39 0x47 then calls_39_47 ah c
  else if (ah =? 0x00) || within 0x48 0x4d then calls_48_4D ah c
  else if one_of [0x4e; 0x4f; 0x52; 0x53; 0x54; 0x55] then calls_4E_55 ah c
  else if within 0x56 0x5c then calls_56_5C ah c
  else if within 0x5d 0x60 then calls_5D_60 ah c
  else if ah =? 0x63 then dbcs_call c
  else if one_of [0x65; 0x66; 0x67; 0x68; 0x69; 0x6a; 0x6c; 0x71; 0x73] then calls_65_73 ah c
  else Some (ExitDispatch (upd_lr (set_AL 0) c)).

(** kernel/inthndlr.c:1550-1553 *)
Definition exit_dispatch (c : call dos) : ending dos := Returns (set_frame (c_lr c) (c_r c)) (c_s c).

(** kernel/inthndlr.c:1544-1553 *)
Definition error_exit (rc : Z) (c : call dos) : ending dos :=
  let c := upd_lr (set_AX (u16 (- rc))) c in
  let c := if CritErrCode (c_s c) =? SUCCESS then with_s (set_CritErrCode (s16 (AX (c_lr c))) (c_s c)) c else c in
  exit_dispatch (set_carry c).

(** kernel/inthndlr.c:1538-1541 *)
Definition short_check (rc : Z) (c : call dos) : ending dos :=
  if rc <? SUCCESS then error_exit rc c else exit_dispatch c.

(** kernel/inthndlr.c:1531-1537 *)
Definition long_check (lrc : Z) (c : call dos) : ending dos :=
  if SUCCESS <=? lrc then exit_dispatch (upd_lr (set_AX (u16 lrc)) c) else short_check (s16 lrc) c.

(** What the function has led to; [again] is the jump back to the dispatch.
    kernel/inthndlr.c:1530-1554 *)
Definition finish (again : call dos -> option (ending dos)) (e : exit dos) : option (ending dos) :=
  match e with
  | ExitDispatch c => Some (exit_dispatch c)
  | LongCheck lrc c => Some (long_check lrc c)
  | ShortCheck rc c => Some (short_check (s16 rc) c)
  | ErrorExit rc c => Some (error_exit rc c)
  | ErrorCarry c => Some (exit_dispatch (set_carry c))
  | RealExit c => Some (Returns (c_r c) (c_s c))
  | Dispatch c => again c
  | Leave e => Some e
  end.

(** From the label [dispatch] to the end.
    kernel/inthndlr.c:395-1554 *)
Definition serve (again : call dos -> option (ending dos)) (c : call dos) : option (ending dos) :=
  let ah := AH (c_lr c) in
  let c := prepare ah c in
  let go c := let* e := switch ah c in finish again e in
  if negb (break_ena (d_vars (c_s c)) =? 0) || breakable ah then
    match check_handle_break tries fuel (co_syscon (c_s c)) (c_s c) with
    | Done _ s => go (with_s s c)
    | Broken s => Some (Breaks s)
    | Stuck => None
    end
  else go c.

(** [n] bounds the jumps back. *)
Fixpoint serve_loop (n : nat) (c : call dos) : option (ending dos) :=
  match n with
  | O => None
  | Datatypes.S n => serve (serve_loop n) c
  end.

(** The address of the frame goes to the prefix of the program.
    kernel/inthndlr.c:377-1562 *)
Definition int21_service (n : nat) (irp : farptr) (r : iregs) (s : dos) : option (ending dos) :=
  let s := upd_mem (poke_far (psp_at (cu_psp s) ps_stack) irp) s in
  serve_loop n (Call r (frame r) s).

(** ** The functions on the stack of the program *)

(** kernel/inthndlr.c:78-142 *)
Definition dos_variables (r : lregs) (s : dos) : lregs * dos :=
  let v := d_vars s in
  let al := AL r in
  let ena := Z.land (DL r) 1 in
  let '(major, minor, rev, flags) := kp_version in
  if al =? 0x00 then (set_DL (break_ena v) r, s)
  else if al =? 0x01 then (set_DL ena r, upd_vars (set_break_ena ena) s)
  else if al =? 0x02 then (set_DL (break_ena v) r, upd_vars (set_break_ena ena) s)
  else if al =? 0x05 then (set_DL kp_BootDrive r, s)
  else if al =? 0x06 then (set_DH flags (set_DL rev (set_BH minor (set_BL major r))), s)
  else if al =? 0xfc then (r, upd_vars (set_os_setver (BL r, BH r)) s)
  else if al =? 0xff then
    let p := kp_address at_os_release s in (set_AX (fp_off p) (set_DX (fp_seg p) r), s)
  else (set_AL 0xff r, s).

(** kernel/inthndlr.c:66-166 *)
Definition int21_syscall (r : iregs) (s : dos) : iregs * dos :=
  let f := frame r in
  let ah := AH f in
  let s := upd_vars (set_Int21AX (AX f)) s in
  let '(f, s) :=
    if ah =? 0x25 then (f, upd_mem (setvec (AL f) (DS_DX f)) s)
    else if ah =? 0x33 then dos_variables f s
    else if ah =? 0x35 then let p := getvec (AL f) (d_mem s) in (set_BX (fp_off p) (set_ES (fp_seg p) f), s)
    else if ah =? 0x50 then (f, set_cu_psp (BX f) s)
    else if (ah =? 0x51) || (ah =? 0x62) then (set_BX (cu_psp s) f, s)
    else (f, s) in
  (set_frame f r, s).

(** The entry: some functions run on the stack of the program; the others count as
    being in DOS, but after a critical error.
    kernel/entry.asm:260-369 *)
Definition int21_entry (n : nat) (irp : farptr) (r : iregs) (s : dos) : option (ending dos) :=
  if existsb (Z.eqb (AH (frame r))) [0x25; 0x33; 0x35; 0x50; 0x51; 0x62]
  then let '(r, s) := int21_syscall r s in Some (Returns r s)
  else
    let s := upd_vars (set_user_r irp) s in
    if ErrorMode (d_vars s) then int21_service n irp r s
    else
      let ah := AH (frame r) in
      let s := if (ah =? 0) || (0x0c <? ah) then upd_vars (set_Int21AX (AX (frame r))) s else s in
      let* e := int21_service n irp r (upd_vars (fun v => set_InDOS (u8 (InDOS v + 1)) v) s) in
      Some (match e with
            | Returns r s => Returns r (upd_vars (fun v => set_InDOS (u8 (InDOS v - 1)) v) s)
            | e => e
            end).

End int21.
