(* ===== verification/Int2f.v ===== *)
(** * Interrupts 25h, 26h and 2Fh ([kernel/inthndlr.c], [kernel/blockio.c])

    Absolute sectors for programs, and the functions of the kernel that drivers and the
    network use through the multiplex interrupt. *)

From S2P Require Import Prelude Hdr Bytes Memmgr Share Dpb Blockio Fattab Fnode Cluster Names Fatdir Fileio Media Chario Lineedit Newstuff Dosfns Console.
From S2P Require Import Dosname Ioctl Fcb Nls Systime Diskdrv Task Pcb Int21 Initbuf.

(** ** Buffers in the high memory area *)

Section hma.
  Context {D : Type} `{!Device D}.

(** A buffer leaves the ring.
    kernel/blockio.c:507-511 *)
Definition unlink (bp : Z) (st : bio D) : bio D :=
  let b := buf st bp in
  let st := on_buf (b_prev b) (with_next (b_next b)) st in
  let st := on_buf (b_next b) (with_prev (b_prev b)) st in
  if bp =? firstbuf st then set_first (b_next (buf st bp)) st else st.

(** The loop over the [n] buffers; [cnt] of them stay.
    kernel/blockio.c:499-516 *)
Fixpoint allocate_loop (fuel n : nat) (lowbuffer highbuffer cnt bp : Z) (st : bio D) : option (Z * bio D) :=
  match n with
  | O => Some (cnt, st)
  | S n =>
      let* (cnt, st) :=
        if (bp <? highbuffer) && (lowbuffer <? u16 (bp + sizeof_buffer)) then
          let* (_, st) := flush1 fuel bp st in Some (cnt - 1, unlink bp st)
        else Some (cnt, st) in
      allocate_loop fuel n lowbuffer highbuffer cnt (b_next (buf st bp)) st
  end.

(** The buffers are all in the high memory area or none is.
    kernel/blockio.c:490-517 *)
Definition AllocateHMASpace (fuel : nat) (in_hma : bool) (lowbuffer highbuffer nbuffers : Z) (st : bio D) : option (Z * bio D) :=
  if negb in_hma then Some (nbuffers, st)
  else allocate_loop fuel (Z.to_nat nbuffers) lowbuffer highbuffer nbuffers (firstbuf st) st.

End hma.

(** ** The rest of the kernel *)

(** Where entries of the system file tables are, the entry [lpCurSft] points to, the
    name in [DirEntBuffer], the handler of critical errors, and the first free byte and
    the allocation in the high memory area. *)
Class MultiplexHost (K : Type) := {
  mh_sft_at : farptr -> K -> Z;
  mh_lpCurSft : K -> Z;
  mh_set_lpCurSft : Z -> K -> K;
  mh_DirEntBuffer : K -> list Z;
  mh_CriticalError : Z -> Z -> Z -> farptr -> K -> Z * K;
  mh_firstAvailableBuf : K -> farptr;
  mh_set_firstAvailableBuf : farptr -> K -> K;
  mh_allocate : Z -> Z -> K -> option K }.

Definition with_sft_psp p (t : sft) : sft :=
  Sft (sft_count t) (sft_mode t) (sft_attrib t) (sft_flags t) (sft_dcb t) (sft_relclust_high t) (sft_time t) (sft_date t)
    (sft_size t) (sft_posit t) (sft_relclust t) (sft_dirsector t) (sft_diridx t) (sft_name t) (sft_stclust t)
    p (sft_shroff t) (sft_cuclust t).

Section multiplex.
  Context {S C X : Type}.
  Context `{!BlockCache S, !DosState S, !BlockTransfer S, !NameServices S, !DosServices S, !DirServices S}.
  Context `{!StoreCalls S, !KernelPlace (dos S C X), !MultiplexHost (dos S C X)}.
  Context (cf steps ents fuel : nat) (node : fcb_state S -> f_node).

#[local] Abbreviation dos := (dos S C X).

(** ** Interrupts 25h and 26h *)

(** The sector, the count and the buffer, in registers or in a structure.
    kernel/inthndlr.c:1629-1640 *)
Definition absolute_place (r : lregs) (s : dos) : Z * Z * farptr :=
  let p := Far (DS r) (BX r) in
  let a := linear p in
  if CX r =? 0xffff then (peek32 a (d_mem s), peek16 (a + 4) (d_mem s), peek_far (a + 6) (d_mem s))
  else (DX r, CX r, p).

Definition count_InDOS (n : Z) (s : dos) : dos := upd_vars (fun v => set_InDOS (u8 (InDOS v + n)) v) s.

(** kernel/inthndlr.c:1596-1654 *)
Definition int2526_handler (mode : Z) (r : iregs) (s : dos) : option (iregs * dos) :=
  let f := frame r in
  let mode := if mode =? 0x26 then DSKWRITEINT26 else DSKREADINT25 in
  let drv := AL f in
  let fail ax r := set_FLAGS (Z.lor (FLAGS r) FLG_CARRY) (set_frame (set_AX ax f) r) in
  if ds_lastdrive (below (sys s)) <=? drv then Some (fail 0x201 r, s)
  else if match get_dpb drv (below (sys s)) with Some p => ISFAT32 (bc_dpb (below (sys s)) p) | None => false end
  then Some (fail 0x207 r, s)
  else
    let '(blkno, nblks, buf) := absolute_place f s in
    let* (rc, s) := raw_transfer cf drv blkno buf nblks mode (count_InDOS 1 s) in
    let ax := u16 rc in
    let r := set_FLAGS (Z.ldiff (FLAGS r) FLG_CARRY) (set_frame (set_AX ax f) r) in
    if negb (ax =? 0) then
      let* s := if mode =? DSKWRITEINT26 then invalidate cf drv s else Some s in
      Some (fail ax r, count_InDOS (-1) s)
    else Some (r, count_InDOS (-1) s).

(** ** Interrupt 2Fh *)

(** The high memory area: the start and the size of what is free, or of what is given
    away.
    kernel/inthndlr.c:1710-1728 *)
Definition hma_call (r : lregs) (s : dos) : option (lregs * dos) :=
  let p := mh_firstAvailableBuf s in
  let none := set_ES 0xffff r in
  if negb (fp_seg p =? 0xffff) then Some (set_BX 0 (set_DI 0xffff none), s)
  else
    let offs := fp_off p in
    let size := u16 (Z.lnot offs) in
    let* (size, s) :=
      if AL r =? 0x02 then
        let size := if BX r <? size then BX r else size in
        let* s := mh_allocate offs (u16 (offs + size)) s in
        Some (size, mh_set_firstAvailableBuf (far_add p size) s)
      else Some (size, s) in
    Some (set_BX size (set_DI offs none), s).

(** A character in upper case, without the tables of the country.
    kernel/inthndlr.c:1795-1796 *)
Definition ascii_up (c : Z) : Z := if (ch "a" <=? c) && (c <=? ch "z") then c - (ch "a" - ch "A") else c.

(** [n] bounds the characters.
    kernel/inthndlr.c:1784-1804 *)
Fixpoint normalise (n : nat) (src dst : farptr) (m : memory) : option memory :=
  match n with
  | O => None
  | Datatypes.S n =>
      let c := m (linear src) in
      let c := if (ch "a" <=? c) && (c <=? ch "z") then ascii_up c else if c =? ch "/" then ch "\" else c in
      let m := poke (linear dst) c m in
      if c =? 0 then Some m else normalise n (far_add src 1) (far_add dst 1) m
  end.

Definition string_length (p : farptr) (s : dos) : option Z :=
  let* l := far_string (Z.to_nat 65536) (linear p) (d_mem s) in Some (Z.of_nat (length l)).

(** The number of an entry in its table; the entry is [lpCurSft] then.
    kernel/dosfns.c:149-172 *)
Fixpoint relative_index (sp : list (list sft)) (SftIndex : Z) : Z :=
  match sp with
  | [] => -1
  | t :: sp => if SftIndex <? Z.of_nat (length t) then SftIndex else relative_index sp (SftIndex - Z.of_nat (length t))
  end.

(** How a function of the handler ends: with the flags as they are, with carry set or
    cleared, or at one of the two labels.
    kernel/inthndlr.c:2001-2019 *)
Inductive multiplex :=
  | Done2f (r : lregs) (s : dos)
  | Carry (on : bool) (r : lregs) (s : dos)
  | Checked (lrc : Z) (r : lregs) (s : dos)
  | Status (rc : Z) (r : lregs) (s : dos).

Definition cstr_end (p : farptr) (r : lregs) (s : dos) : option multiplex :=
  let* n := string_length p s in Some (Done2f (set_CX (u16 (n + 1)) r) s).

(** kernel/inthndlr.c:1750-1759 *)
Definition drop_sft (r : lregs) (s : dos) : option multiplex :=
  let i := mh_sft_at (ES_DI r) s in
  let* t := find_sft (sfthead (sys s)) i in
  let n := u16 (sft_count t) in
  let n' := if u16 (n - 1) =? 0 then -1 else s16 (n - 1) in
  Some (Done2f (set_AX n r) (with_sys (upd_sft (with_sft_count n') i (sys s)) s)).

(** kernel/inthndlr.c:1761-1776 *)
Definition open_device (r : lregs) (s : dos) : option multiplex :=
  let i := mh_lpCurSft s in
  let* t := find_sft (sfthead (sys s)) i in
  let* y :=
    if negb (Z.land (sft_flags t) SFT_FDEVICE =? 0) then
      let* (_, _, _, y) := char_execrh (CharDevice := sv_driver (sft_dcb t)) C_OPEN 0 [] (sys s) in Some y
    else Some (sys s) in
  Some (Done2f r (with_sys (upd_sft (with_sft_psp (Fileio.cu_psp y)) i y) s)).

(** kernel/inthndlr.c:1819-1838 *)
Definition find_entry (r : lregs) (s : dos) : multiplex :=
  let i := s16 (BX r) in
  let rel := if i <? 0 then -1 else relative_index (sfthead (sys s)) i in
  let s := mh_set_lpCurSft (if rel =? -1 then -1 else i) s in
  if rel =? -1 then Carry true r s
  else let p := kp_address (at_lpCurSft i) s in Carry false (set_DI (fp_off p) (set_ES (fp_seg p) (set_BX rel r))) s.

(** Functions 00h to 20h.
    kernel/inthndlr.c:1734-1894 *)
Definition mux_00_20 (al arg : Z) (r : lregs) (s : dos) : option multiplex :=
  if al =? 0x00 then Some (Done2f (set_AL 0xff r) s)
  else if al =? 0x03 then Some (Done2f (set_DS (fp_seg (kp_address at_nul_dev s)) r) s)
  else if al =? 0x08 then drop_sft r s
  else if al =? 0x0c then open_device r s
  else if al =? 0x0d then
    let* (date, y) := Fileio.call ds_getdate (sys s) in
    let* (time, y) := Fileio.call ds_gettime y in
    Some (Done2f (set_DX time (set_AX date r)) (with_sys y s))
  else if al =? 0x11 then
    let* m := normalise (Z.to_nat 65536) (DS_SI r) (ES_DI r) (d_mem s) in Some (Done2f r (with_mem m s))
  else if al =? 0x12 then cstr_end (ES_DI r) r s
  else if al =? 0x13 then Some (Done2f (set_AL (ascii_up (lo arg)) r) s)
  else if al =? 0x16 then Some (find_entry r s)
  else if al =? 0x17 then
    match get_cds (lo arg) (below (sys s)) with
    | None => Some (Carry true r s)
    | Some _ => let p := kp_address (at_cds (lo arg)) s in Some (Carry false (set_SI (fp_off p) (set_DS (fp_seg p) r)) s)
    end
  else if al =? 0x18 then
    let p := user_r (d_vars s) in Some (Done2f (set_SI (fp_off p) (set_DS (fp_seg p) r)) s)
  else if al =? 0x1b then Some (Done2f (set_AL (if Z.land (CL r) 3 =? 0 then 29 else 28) r) s)
  else
    if Z.of_nat (length (Fileio.ps_filetab (sys s))) <=? BX r then Some (Carry true (set_AL (- DE_INVLDHNDL) r) s)
    else
      let p := far_add (peek_far (psp_at (cu_psp s) ps_filetab) (d_mem s)) (BX r) in
      Some (Carry false (set_DI (fp_off p) (set_ES (fp_seg p) r)) s).

(** The handler of critical errors; [bp] is BP.
    kernel/inthndlr.c:1742-1748 *)
Definition critical_error (arg bp : Z) (r : lregs) (s : dos) : multiplex :=
  let drive := if Z.land arg 0x8000 =? 0 then lo arg else 0 in
  let '(answer, s) := mh_CriticalError (Z.shiftr arg 8) drive (DI r) (Far bp (SI r)) s in
  Done2f (set_AL (lo answer) r) s.

(** A function on files: carry is cleared first.
    kernel/inthndlr.c:1923-1957 *)
Definition file_mux (al bp : Z) (r : lregs) (s : dos) : option multiplex :=
  let s := set_CritErrCode SUCCESS s in
  let fnp := fnode node s in
  if al =? 0x26 then
    named (DS_DX r) s (fun before l =>
      let* (lrc, _, y) := DosOpen cf steps ents fuel before l (Z.lor (Z.lor O_LEGACY O_OPEN) (CL r)) 0 fnp (sys s) in
      Some (Checked lrc r (with_sys y s)))
  else if al =? 0x27 then
    let* (rc, _, y) := DosClose cf fuel (BX r) fnp (sys s) in Some (Status rc r (with_sys y s))
  else if al =? 0x28 then
    if (bp <? 0x4200) || (0x4202 <? bp) then Some (Status DE_INVLDFUNC r s)
    else
      let* (lrc, rc, y) := DosSeek (BX r) (s32 (dword (CX r) (DX r))) (Z.land bp 0xff) (sys s) in
      let r := if rc =? SUCCESS then set_AX (u16 lrc) (set_DX (u16 (Z.shiftr lrc 16)) r) else r in
      Some (Status rc r (with_sys y s))
  else
    let p := linear (DS_DX r) in
    let* (lrc, l, _, y) := DosRead cf steps fuel (BX r) (CX r) (load p (CX r) (d_mem s)) fnp (sys s) in
    Some (Checked lrc r (upd_mem (Diskdrv.store p l) (with_sys y s))).

(** Functions 21h to 31h; the message for the missing ones is left out.
    kernel/inthndlr.c:1896-1999 *)
Definition mux_21_31 (al bp : Z) (r : lregs) (s : dos) : option multiplex :=
  if al =? 0x21 then
    named (DS_SI r) s (fun before l =>
      let* (_, d, y) := DosTruename cf steps ents before l (fnode node s) (sys s) in
      let s := with_sys y s in
      Some (Done2f r (match d with Some d => upd_mem (Diskdrv.store (linear (ES_DI r)) (d ++ [0])) s | None => s end)))
  else if al =? 0x23 then
    match IsDevice (mh_DirEntBuffer s) (below (sys s)) with
    | None => Some (Carry true r s)
    | Some d => Some (Carry false (set_BH (lo (dh_attr d)) r) s)
    end
  else if al =? 0x25 then cstr_end (DS_SI r) r s
  else if (0x26 <=? al) && (al <=? 0x29) then file_mux al bp r s
  else if al =? 0x2a then Some (Carry false r s)
  else if al =? 0x2c then
    let p := kp_address at_next_dev s in Some (Done2f (set_AX (fp_off p) (set_BX (fp_seg p) r)) s)
  else if al =? 0x2e then Some (Done2f r s)
  else if al =? 0x2f then
    let '(major, minor, _, _) := kp_version in
    let v := if negb (DX r =? 0) then (DL r, DH r) else (major, minor) in
    Some (Done2f r (upd_vars (set_os_setver v) s))
  else Some (if al <=? 0x31 then Carry true r s else Done2f r s).

(** kernel/inthndlr.c:1732-1999 *)
Definition mux_switch (al bp arg : Z) (r : lregs) (s : dos) : option multiplex :=
  if al =? 0x06 then Some (critical_error arg bp r s)
  else if existsb (Z.eqb al) [0x00; 0x03; 0x08; 0x0c; 0x0d; 0x11; 0x12; 0x13; 0x16; 0x17; 0x18; 0x1b; 0x20]
  then mux_00_20 al arg r s
  else mux_21_31 al bp r s.

(** [arg] is the word a caller has pushed.
    kernel/inthndlr.c:1705-2019 *)
Definition int2F_12_handler (arg : Z) (r : iregs) (s : dos) : option (iregs * dos) :=
  let carry (on : bool) (f : lregs) := set_FLAGS (if on then Z.lor (FLAGS r) FLG_CARRY else Z.ldiff (FLAGS r) FLG_CARRY) (set_frame f r) in
  let error rc f s :=
    let f := set_AX (u16 (- rc)) f in
    let s := if CritErrCode s =? SUCCESS then set_CritErrCode (s16 (AX f)) s else s in
    Some (carry true f, s) in
  if AH (frame r) =? 0x4a then let* (f, s) := hma_call (frame r) s in Some (set_frame f r, s)
  else
    let al := AL (frame r) in
    let* e := mux_switch al (BP r) arg (frame r) s in
    match e with
    | Done2f f s => Some (set_frame f r, s)
    | Carry on f s => Some (carry on f, s)
    | Checked lrc f s => if SUCCESS <=? lrc then Some (carry false (set_AX (u16 lrc) f), s) else error (s16 lrc) f s
    | Status rc f s => if s16 rc <? SUCCESS then error (s16 rc) f s else Some (carry false f, s)
    end.

End multiplex.
