(* ===== verification/Int21Spec.v ===== *)
(** * Interrupt 21h: what calls leave alone, and calls as steps

    Every function that tells errors by carry goes to its end with the frame of the
    caller as it was ([tells]); a call without a test for Ctrl-Break is the function
    between [prepare] and [finish]. *)

From S2P Require Import Prelude Hdr Bytes Memmgr Share Dpb Blockio Fattab Fnode Cluster Names Fatdir Fileio Media Chario Lineedit Newstuff Dosfns Console.
From S2P Require Import Dosname Ioctl Fcb Nls Systime Diskdrv DiskdrvSpec Task Pcb Int21.

(** The parts of a frame no function writes to. *)
Definition kept_place (r r0 : iregs) : Prop := BP r = BP r0 /\ IP r = IP r0 /\ CS r = CS r0.
Definition same_frame {K} (c c0 : call K) : Prop := kept_place (c_r c) (c_r c0) /\ FLAGS (c_r c) = FLAGS (c_r c0).

(** The redirector keeps the place and the flags of the caller, and its status is an
    [int]. *)
Class RedirectorLaws (K : Type) `{!KernelPlace K} := {
  rl_frame cmd r lr arg s : let '(_, r', _, _) := kp_redirector cmd r lr arg s in kept_place r' r /\ FLAGS r' = FLAGS r }.

Lemma kept_place_trans r1 r2 r3 : kept_place r1 r2 -> kept_place r2 r3 -> kept_place r1 r3.
Proof. unfold kept_place. intuition congruence. Qed.

(** Codes as an [int] and as the word that AX gets. *)
Lemma s16_range z : -32768 <= s16 z < 32768.
Proof. unfold s16. pose proof (Z.mod_pos_bound (z + 32768) 65536). lia. Qed.
Lemma s16_twice z : s16 (s16 z) = s16 z.
Proof. apply s16_id, s16_range. Qed.
Lemma neg_word z : s16 z <> 0 -> 0 < u16 (- z) < 65536 /\ s16 (u16 (- z)) <> 0.
Proof. intros. pose proof (s16_range z). unfold s16, u16 in *. Z.div_mod_to_equations. lia. Qed.
Lemma neg_code z : s16 z <> 0 -> 0 < u16 (- s16 z) < 65536 /\ s16 (u16 (- s16 z)) <> 0.
Proof. intros. apply neg_word. by rewrite s16_twice. Qed.
Lemma s16_u16 z : s16 (u16 z) = s16 z.
Proof. unfold s16, u16. Z.div_mod_to_equations. lia. Qed.

Section spec.
  Context {S C X : Type}.
  Context `{!BlockCache S, !DosState S, !BlockTransfer S, !NameServices S, !DosServices S, !DirServices S}.
  Context `{!MediaDevice S, !IoctlDriver S, !StoreCalls S, !CharDevice ClockRecord C}.

#[local] Abbreviation dos := (dos S C X).

  Context `{!ConsoleHost dos, !NlsHost dos, !TaskHost dos, !KernelPlace dos, !RedirectorLaws dos}.
  Context (cf steps ents fuel tries mfuel : nat) (env0 sec_before stack_before : Z) (node node1 : fcb_state S -> f_node).
  Context (stack_fcb : fcb) (stack_dta : dta_buf).

(** How a function that tells errors by carry ends: with the frame of the caller, and
    where it ends with an error there is one. *)
Definition tells (ah : Z) (c0 : call dos) (e : exit dos) : Prop :=
  match e with
  | ExitDispatch c | LongCheck _ c | ShortCheck _ c => same_frame c c0
  | ErrorExit rc c => same_frame c c0 /\ s16 rc <> 0
  | ErrorCarry c => same_frame c c0 /\ ah = 0x44 /\ 0 < AX (c_lr c) < 65536
  | RealExit c =>
      kept_place (c_r c) (c_r c0) /\
      (FLAGS (c_r c) = FLAGS (c_r c0) \/
       FLAGS (c_r c) = Z.lor (FLAGS (c_r c0)) FLG_CARRY /\ 0 < AX (frame (c_r c)) < 65536 /\ CritErrCode (c_s c) <> SUCCESS)
  | Dispatch _ | Leave (Returns _ _) => False
  | Leave _ => True
  end.

Ltac step :=
  match goal with
  | H : Some _ = Some _ |- _ => injection H as <-
  | H : None = Some _ |- _ => discriminate H
  | H : context [match ?x with _ => _ end] |- _ => destruct x eqn:?
  end.
Ltac walk :=
  repeat step; cbn [tells];
  repeat match goal with |- context [if ?b then _ else _] => destruct b end; try done.

Lemma named_inv {A} p (s : dos) (f : Z -> list Z -> option A) e : named p s f = Some e -> exists b l, f b l = Some e.
Proof. unfold named. intros H. repeat step. eauto. Qed.

Lemma short_tells ah f c e : short f c = Some e -> tells ah c e.
Proof. unfold short. intros H. walk. Qed.
Lemma long_tells ah f c e : long f c = Some e -> tells ah c e.
Proof. unfold long. intros H. walk. Qed.
Lemma transfer_tells ah f c e : transfer node f c = Some e -> tells ah c e.
Proof. unfold transfer. intros H. walk. Qed.
Lemma open_tells ah p m a c e : open_at cf steps ents fuel node p m a c = Some e -> tells ah c e.
Proof. unfold open_at. intros H. apply named_inv in H as (b & l & H). by eapply long_tells. Qed.

Lemma ioctl_tells c e : ioctl_call c = Some e -> tells 0x44 c e.
Proof.
  unfold ioctl_call. intros H. destruct (DosDevIOctl _ _) as [[[rc r] i]|]; [|done].
  destruct (s16 rc <? SUCCESS) eqn:E; injection H as <-; [|done]. apply Z.ltb_lt in E.
  destruct (neg_code rc) as [N _]; [unfold SUCCESS in E; lia|]. by destruct (_ && _).
Qed.

Lemma seek_tells ah c e : seek_call c = Some e -> tells ah c e.
Proof. unfold seek_call. intros H. walk. Qed.

Lemma attribute_tells ah c e : attribute_call cf steps ents fuel node c = Some e -> tells ah c e.
Proof.
  unfold attribute_call. intros H. repeat match type of H with (if ?b then _ else _) = _ => destruct b end; [| |walk].
  all: apply named_inv in H as (b & l & H); walk.
Qed.

Lemma directory_tells ah c e : calls_39_47 cf steps ents fuel node 0x47 c = Some e -> tells ah c e.
Proof. cbn. intros H. walk. Qed.

Lemma calls_39_47_tells ah c e : 0x39 <= ah <= 0x47 -> calls_39_47 cf steps ents fuel node ah c = Some e -> tells ah c e.
Proof.
  intros Ha. destruct (decide (ah = 0x47)) as [->|H7]; [apply directory_tells|].
  unfold calls_39_47. destruct (ah =? 0x44) eqn:E44; [apply Z.eqb_eq in E44 as ->; cbn; apply ioctl_tells|].
  intros H. repeat (match type of H with (if ?b then _ else _) = _ => destruct b eqn:? end;
    [first [by apply seek_tells|by apply attribute_tells|apply (open_tells _ _ _ _ _ _ H)|apply (transfer_tells _ _ _ _ H)
           |apply (long_tells _ _ _ _ H)|apply (short_tells _ _ _ _ H)
           |apply named_inv in H as (b & l & H); apply (short_tells _ _ _ _ H)]|]).
  lia.
Qed.

Lemma process_tells ah o c c0 : c_r c = c_r c0 -> tells ah c0 (process_exit o c).
Proof. intros E. destruct o; cbn; [|done]. unfold same_frame. cbn. by rewrite E. Qed.

Lemma code_tells ah rc c c0 : same_frame c c0 -> s16 rc <> 0 -> tells ah c0 (ErrorExit (s16 rc) c).
Proof. intros. split; [done|]. by rewrite s16_twice. Qed.

Lemma negative rc : (s16 rc <? SUCCESS) = true -> s16 rc <> 0.
Proof. intros H%Z.ltb_lt. unfold SUCCESS in H. lia. Qed.

Lemma nonzero rc : negb (s16 rc =? SUCCESS) = true -> s16 rc <> 0.
Proof. by intros H%negb_true_iff%Z.eqb_neq. Qed.

Lemma memory_tells ah c e :
  memory_alloc mfuel c = Some e \/ memory_free mfuel c = Some e \/ memory_resize mfuel c = Some e -> tells ah c e.
Proof.
  unfold memory_alloc, memory_free, memory_resize. change SUCCESS with 0 at 1.
  intros [H|[H|H]]; repeat step; try done; apply code_tells; try done; by apply negative.
Qed.

Lemma leave_tells ah c c0 e : c_r c = c_r c0 -> leave_program c = Some e -> tells ah c0 e.
Proof. unfold leave_program. intros E <-%(inj Some). by apply process_tells. Qed.

Lemma terminate_tells ah c e : terminate mfuel c = Some e -> tells ah c e.
Proof. unfold terminate. destruct (if ErrorMode _ then _ else _) as [rc v]. destruct (checked _ _); [by apply leave_tells|done]. Qed.

Lemma exec_tells ah c e : calls_48_4D mfuel env0 0x4b c = Some e -> tells ah c e.
Proof. cbn -[DosExec]. destruct (DosExec _ _ _ _ _) as [o|]; [|done]. intros <-%(inj Some). by apply process_tells. Qed.

Lemma calls_48_4D_tells ah c e : 0x48 <= ah <= 0x4d -> calls_48_4D mfuel env0 ah c = Some e -> tells ah c e.
Proof.
  intros Ha. destruct (decide (ah = 0x4b)) as [->|Hb]; [apply exec_tells|]. unfold calls_48_4D. intros H.
  repeat (match type of H with (if ?b then _ else _) = _ => destruct b eqn:? end;
    [first [apply memory_tells; by (eauto)|by apply (terminate_tells _ _ _ H)|lia]|]).
  by injection H as <-.
Qed.

Lemma country_tells ah c e : calls_34_38 cf steps 0x38 c = Some e -> tells ah c e.
Proof.
  cbn -[country_info]. unfold country_info. destruct (int21_38 _ _ _ _ _) as [[[[rc ax] buf] s]|]; [|done].
  intros <-%(inj Some). by destruct ax, buf.
Qed.

Lemma search_tells ah f c e : search_call f c = Some e -> tells ah c e.
Proof. unfold search_call. destruct (f _ _) as [[[rc d] y]|]; [|done]. by intros <-%(inj Some). Qed.

Lemma calls_4E_4F_tells ah c e : ah = 0x4e \/ ah = 0x4f -> calls_4E_55 cf steps ents node ah c = Some e -> tells ah c e.
Proof.
  intros [-> | ->]; cbn -[search_call named]; [|apply search_tells].
  intros H. apply named_inv in H as (b & l & H). by apply (search_tells _ _ _ _ H).
Qed.

Lemma stamp_tells ah c e : stamp_call c = Some e -> tells ah c e.
Proof. unfold stamp_call. intros H. walk. Qed.

Lemma strategy_tells ah c e : strategy_call mfuel c = Some e -> tells ah c e.
Proof. unfold strategy_call. intros H. repeat step; try done; by split. Qed.

Lemma temporary_tells ah c e : calls_56_5C cf steps ents fuel mfuel node node1 0x5a c = Some e -> tells ah c e.
Proof. cbn -[named]. intros H. apply named_inv in H as (b & l & H). walk. Qed.

Lemma lock_tells ah c e : calls_56_5C cf steps ents fuel mfuel node node1 0x5c c = Some e -> tells ah c e.
Proof.
  cbn. destruct (DosLockUnlock _ _ _ _ _) as [[rc y]|]; [|done]. intros <-%(inj Some).
  destruct (negb _) eqn:E; [|done]. apply code_tells; [done|by apply nonzero].
Qed.

Lemma calls_56_5C_tells ah c e : 0x56 <= ah <= 0x5c -> calls_56_5C cf steps ents fuel mfuel node node1 ah c = Some e -> tells ah c e.
Proof.
  intros Ha. destruct (decide (ah = 0x5a)) as [->|Ho]; [apply temporary_tells|].
  destruct (decide (ah = 0x5c)) as [->|Hc]; [apply lock_tells|]. unfold calls_56_5C. intros H.
  repeat (match type of H with (if ?b then _ else _) = _ => destruct b eqn:? end;
    [first [by apply (stamp_tells _ _ _ H)|by apply (strategy_tells _ _ _ H)|apply (open_tells _ _ _ _ _ _ H)
           |by injection H as <-|lia
           |apply named_inv in H as (b & l & H); apply named_inv in H as (b' & l' & H); apply (short_tells _ _ _ _ H)]|]).
  lia.
Qed.

Lemma redirector_keeps cmd (c : call dos) arg s rc fr lr s' :
  kp_redirector cmd (c_r c) (c_lr c) arg s = (rc, fr, lr, s') -> kept_place fr (c_r c) /\ FLAGS fr = FLAGS (c_r c).
Proof. intros E. pose proof (rl_frame cmd (c_r c) (c_lr c) arg s) as L. by rewrite E in L. Qed.

Lemma machine_tells ah c e : machine_call c = Some e -> tells ah c e.
Proof.
  unfold machine_call. intros H. repeat step; try done. by eapply redirector_keeps.
Qed.

Lemma redirection_tells ah c e : redirection_call c = Some e -> tells ah c e.
Proof.
  unfold redirection_call. destruct (_ || _).
  { destruct (_ && _); intros <-%(inj Some); [done|]. by split. }
  destruct (kp_redirector _ _ _ _ _) as [[[rc fr] lr] s'] eqn:E. apply redirector_keeps in E as [P F].
  intros <-%(inj Some). destruct (negb _) eqn:N; cbn; (split; [exact P|]); [right|by left].
  apply nonzero in N. destruct (neg_code rc N) as [N1 N2]. rewrite F. split; [done|]. split; [done|].
  unfold CritErrCode, SUCCESS. cbn. by rewrite <- s16_u16.
Qed.

Lemma truename_tells ah c e : truename_call cf steps ents node c = Some e -> tells ah c e.
Proof. unfold truename_call. intros H. apply named_inv in H as (b & l & H). walk. Qed.

Lemma language_tells ah c e : language_call c = Some e -> tells ah c e.
Proof.
  unfold language_call. destruct (int21_65 _ _ _ _ _ _ _) as [[[[[[rc ax] dl] l] buf] s]|]; [|done].
  by intros <-%(inj Some).
Qed.

Lemma serial_tells ah c e : serial_number_call c = Some e -> tells ah c e.
Proof. unfold serial_number_call. intros H. repeat step; try done; by split. Qed.

Lemma extended_open_tells ah c e : extended_open cf steps ents fuel node c = Some e -> tells ah c e.
Proof.
  unfold extended_open. destruct (2 <? _); [by intros <-%(inj Some)|]. intros H.
  apply named_inv in H as (b & l & H). walk.
Qed.

Lemma codepage_tells ah c e : calls_65_73 cf steps ents fuel mfuel node 0x66 c = Some e -> tells ah c e.
Proof.
  cbn. destruct (int21_66 _ _ _ _) as [[[[rc bx] dx] s]|]; [|done]. intros <-%(inj Some).
  destruct (negb _) eqn:E; [|done]. apply code_tells; [done|by apply nonzero].
Qed.

Lemma calls_65_6C_tells ah c e : 0x65 <= ah <= 0x6a \/ ah = 0x6c ->
  calls_65_73 cf steps ents fuel mfuel node ah c = Some e -> tells ah c e.
Proof.
  intros Ha. destruct (decide (ah = 0x66)) as [->|Hb]; [apply codepage_tells|]. unfold calls_65_73. intros H.
  repeat (match type of H with (if ?b then _ else _) = _ => destruct b eqn:? end;
    [first [by apply (language_tells _ _ _ H)|by apply (serial_tells _ _ _ H)|by apply (extended_open_tells _ _ _ H)
           |apply (short_tells _ _ _ _ H)|lia|idtac]|]).
  all: repeat step; try done; lia.
Qed.

(** Every function that tells errors by carry. *)
Lemma switch_tells ah c e : carry_function ah = true ->
  switch cf steps ents fuel tries mfuel env0 sec_before stack_before node node1 stack_fcb stack_dta ah c = Some e -> tells ah c e.
Proof.
  unfold carry_function, switch. intros Ha H. cbn [existsb] in H.
  repeat match type of H with (if ?b then _ else _) = _ => destruct b eqn:? end; try lia.
  - assert (ah = 0x38) as -> by lia. by apply (country_tells _ _ _ H).
  - apply (calls_39_47_tells ah c e ltac:(lia) H).
  - apply (calls_48_4D_tells ah c e ltac:(lia) H).
  - apply (calls_4E_4F_tells ah c e ltac:(lia) H).
  - apply (calls_56_5C_tells ah c e ltac:(lia) H).
  - unfold calls_5D_60 in H. repeat match type of H with (if ?b then _ else _) = _ => destruct b eqn:? end.
    + lia.
    + apply (machine_tells _ _ _ H).
    + apply (redirection_tells _ _ _ H).
    + apply (truename_tells _ _ _ H).
  - apply (calls_65_6C_tells ah c e ltac:(lia) H).
Qed.

(** ** From the switch to the caller *)

Lemma error_exit_spec rc (c : call dos) : s16 rc <> 0 ->
  exists r s, error_exit rc c = Returns r s /\ kept_place r (c_r c) /\ FLAGS r = Z.lor (FLAGS (c_r c)) FLG_CARRY /\
    0 < AX (frame r) < 65536 /\ CritErrCode s <> SUCCESS.
Proof.
  intros H. destruct (neg_word rc H) as [N1 N2]. unfold error_exit. eexists _, _. split; [done|].
  destruct (_ =? _) eqn:E; cbn; (split; [done|]); (split; [done|]); (split; [done|]).
  - exact N2.
  - by apply Z.eqb_neq in E.
Qed.

Lemma lor_ldiff f : Z.lor (Z.ldiff f FLG_CARRY) FLG_CARRY = Z.lor f FLG_CARRY.
Proof.
  apply Z.bits_inj'. intros n Hn. rewrite !Z.lor_spec, Z.ldiff_spec. destruct (Z.testbit f n), (Z.testbit FLG_CARRY n); done.
Qed.

(** How the caller sees the end of a function that tells errors by carry. *)
Definition answered (ah : Z) (r0 r : iregs) (s : dos) : Prop :=
  kept_place r r0 /\
  (FLAGS r = Z.ldiff (FLAGS r0) FLG_CARRY \/
   FLAGS r = Z.lor (FLAGS r0) FLG_CARRY /\ 0 < AX (frame r) < 65536 /\ (ah <> 0x44 -> CritErrCode s <> SUCCESS)).

Lemma short_check_spec ah rc (c : call dos) r0 :
  kept_place (c_r c) r0 -> FLAGS (c_r c) = Z.ldiff (FLAGS r0) FLG_CARRY ->
  exists r s, short_check (s16 rc) c = Returns r s /\ answered ah r0 r s.
Proof.
  intros P F. unfold short_check. destruct (s16 rc <? SUCCESS) eqn:E.
  - apply negative in E. rewrite <- s16_twice in E.
    destruct (error_exit_spec _ c E) as (r & s & -> & P' & F' & A & N). exists r, s. split; [done|].
    split; [by apply (kept_place_trans _ _ _ P')|]. right. rewrite F', F, lor_ldiff. done.
  - eexists _, _. split; [done|]. split; [exact P|by left].
Qed.

Lemma finish_spec again ah (c0 : call dos) e r0 r s :
  tells ah c0 e -> kept_place (c_r c0) r0 -> FLAGS (c_r c0) = Z.ldiff (FLAGS r0) FLG_CARRY ->
  finish again e = Some (Returns r s) -> answered ah r0 r s.
Proof.
  intros T P F. assert (Hs : forall c', same_frame c' c0 -> kept_place (c_r c') r0 /\ FLAGS (c_r c') = Z.ldiff (FLAGS r0) FLG_CARRY).
  { intros c' [P' ->]. split; [by apply (kept_place_trans _ _ _ P')|done]. }
  destruct e as [c'|lrc c'|rc c'|rc c'|c'|c'|c'|[r' s'|irp fresh s'|s']]; cbn [tells finish] in *; try done.
  - destruct (Hs c' T) as [P' F']. intros [= <- <-]. split; [exact P'|by left].
  - destruct (Hs c' T) as [P' F']. unfold long_check. destruct (_ <=? _).
    + intros [= <- <-]. split; [exact P'|by left].
    + destruct (short_check_spec ah lrc c' r0 P' F') as (r1 & s1 & -> & A). by intros [= <- <-].
  - destruct (Hs c' T) as [P' F']. destruct (short_check_spec ah rc c' r0 P' F') as (r1 & s1 & -> & A). by intros [= <- <-].
  - destruct T as [T N]. destruct (Hs c' T) as [P' F'].
    destruct (error_exit_spec rc c' N) as (r1 & s1 & -> & P1 & F1 & A & N1). intros [= <- <-].
    split; [by apply (kept_place_trans _ _ _ P1)|]. right. rewrite F1, F', lor_ldiff. done.
  - destruct T as (T & -> & A). destruct (Hs c' T) as [P' F']. intros [= <- <-].
    split; [exact P'|]. right. cbn. rewrite F', lor_ldiff. by split.
  - destruct T as [T1 T2]. intros [= <- <-]. split; [by apply (kept_place_trans _ _ _ T1)|].
    destruct T2 as [->|(-> & A & N)]; [by left|right]. rewrite F, lor_ldiff. by split.
Qed.

Lemma prepare_frame ah (c : call dos) : carry_function ah = true ->
  kept_place (c_r (prepare ah c)) (c_r c) /\ FLAGS (c_r (prepare ah c)) = Z.ldiff (FLAGS (c_r c)) FLG_CARRY.
Proof. intros E. unfold prepare. rewrite E. by repeat case_match. Qed.

(** ** Calls that test for nothing *)

#[local] Abbreviation service :=
  (int21_service cf steps ents fuel tries mfuel env0 sec_before stack_before node node1 stack_fcb stack_dta).
#[local] Abbreviation function :=
  (switch cf steps ents fuel tries mfuel env0 sec_before stack_before node node1 stack_fcb stack_dta).

(** The call at the function itself. *)
Definition entered (irp : farptr) (r : iregs) (s : dos) : call dos :=
  prepare (AH (frame r)) (Call r (frame r) (upd_mem (poke_far (psp_at (cu_psp s) ps_stack) irp) s)).

Lemma entered_lr irp r s : c_lr (entered irp r s) = frame r.
Proof. unfold entered, prepare. by repeat case_match. Qed.
Lemma entered_sys irp r s : sys (c_s (entered irp r s)) = sys s.
Proof. unfold entered, prepare. by repeat case_match. Qed.
Lemma entered_mem irp r s : d_mem (c_s (entered irp r s)) = poke_far (psp_at (cu_psp s) ps_stack) irp (d_mem s).
Proof. unfold entered, prepare. by repeat case_match. Qed.
Lemma entered_break irp r s : break_ena (d_vars (c_s (entered irp r s))) = break_ena (d_vars s).
Proof. unfold entered, prepare. by repeat case_match. Qed.

(** Without the test for Ctrl-Break the service is the function and its end. *)
Lemma service_runs n irp r (s : dos) e v :
  break_ena (d_vars s) = 0 -> breakable (AH (frame r)) = false ->
  function (AH (frame r)) (entered irp r s) = Some e -> (forall again, finish again e = Some v) ->
  service (Datatypes.S n) irp r s = Some v.
Proof.
  intros Hb Ha He Hv. unfold int21_service. cbn [serve_loop]. unfold serve. change (AH (c_lr _)) with (AH (frame r)).
  fold (entered irp r s). rewrite entered_break, Hb, Ha. change (negb (0 =? 0) || false) with false. cbv iota. by rewrite He.
Qed.

(** A call that succeeds: the registers given back and the carry. *)
Definition succeeds (r : iregs) (lr : lregs) (r' : iregs) : Prop :=
  frame r' = lr /\ kept_place r' r /\ FLAGS r' = Z.ldiff (FLAGS r) FLG_CARRY.

Lemma exit_succeeds irp r (s : dos) (c : call dos) : carry_function (AH (frame r)) = true -> c_r c = c_r (entered irp r s) ->
  exists r', exit_dispatch c = Returns r' (c_s c) /\ succeeds r (c_lr c) r'.
Proof.
  intros Ha Hr. destruct (prepare_frame (AH (frame r)) (Call r (frame r) (upd_mem (poke_far (psp_at (cu_psp s) ps_stack) irp) s)) Ha) as [P F].
  eexists. split; [done|]. unfold succeeds, kept_place in *. cbn. rewrite Hr. by repeat split; destruct P as (P1 & P2 & P3).
Qed.

(** A transfer that gives [n] bytes. *)
Lemma transfer_runs k irp r (s : dos) f n l f1 y :
  break_ena (d_vars s) = 0 -> AH (frame r) = 0x3f /\ f = DosRead cf steps fuel \/ AH (frame r) = 0x40 /\ f = DosWrite cf steps fuel ->
  0 <= n < 65536 ->
  f (BX (frame r)) (CX (frame r)) (load (linear (DS_DX (frame r))) (CX (frame r)) (poke_far (psp_at (cu_psp s) ps_stack) irp (d_mem s)))
    (fnode node (c_s (entered irp r s))) (sys s) = Some (n, l, f1, y) ->
  exists r' s', service (Datatypes.S k) irp r s = Some (Returns r' s') /\ succeeds r (set_AX n (frame r)) r' /\ sys s' = y /\
    d_mem s' = Diskdrv.store (linear (DS_DX (frame r))) l (poke_far (psp_at (cu_psp s) ps_stack) irp (d_mem s)) /\
    break_ena (d_vars s') = 0.
Proof.
  intros Hb Hf Hn E. set (c := entered irp r s) in *.
  set (c2 := upd_lr (set_AX n) (with_s (upd_mem (Diskdrv.store (linear (DS_DX (frame r))) l) (with_sys y (c_s c))) c)).
  assert (Ha : carry_function (AH (frame r)) = true) by (destruct Hf as [[-> _]|[-> _]]; done).
  destruct (exit_succeeds irp r s c2 Ha eq_refl) as (r' & Er & Hr). exists r', (c_s c2). split.
  - apply (service_runs k irp r s (LongCheck n (with_s (c_s c2) c))); [done|by destruct Hf as [[-> _]|[-> _]]| |].
    + assert (transfer node f c = Some (LongCheck n (with_s (c_s c2) c))) as Et.
      { unfold transfer. fold c. unfold c. rewrite entered_lr, entered_mem, entered_sys. fold c. by rewrite E. }
      by destruct Hf as [[-> ->]|[-> ->]].
    + intros again. cbn [finish]. unfold long_check. rewrite (proj2 (Z.leb_le _ _)) by (unfold SUCCESS; lia).
      unfold u16. rewrite Z.mod_small by lia. f_equal. exact Er.
  - split; [|split; [done|split]].
    + cbn in Hr. unfold c in Hr. by rewrite entered_lr in Hr.
    + cbn. unfold c. by rewrite entered_mem.
    + cbn. unfold c. by rewrite entered_break.
Qed.

(** A seek that gives the position [p]. *)
Lemma seek_runs k irp r (s : dos) p y :
  break_ena (d_vars s) = 0 -> AH (frame r) = 0x42 -> AL (frame r) <= 2 ->
  DosSeek (BX (frame r)) (s32 (dword (CX (frame r)) (DX (frame r)))) (AL (frame r)) (sys s) = Some (p, SUCCESS, y) ->
  exists r' s', service (Datatypes.S k) irp r s = Some (Returns r' s') /\
    succeeds r (set_AX (u16 p) (set_DX (u16 (Z.shiftr p 16)) (frame r))) r' /\ sys s' = y /\
    d_mem s' = poke_far (psp_at (cu_psp s) ps_stack) irp (d_mem s) /\ break_ena (d_vars s') = 0.
Proof.
  intros Hb Hah Hal E. set (c := entered irp r s) in *.
  set (c2 := upd_lr (fun r => set_AX (u16 p) (set_DX (u16 (Z.shiftr p 16)) r)) (with_s (with_sys y (c_s c)) c)).
  assert (Ha : carry_function (AH (frame r)) = true) by (by rewrite Hah).
  destruct (exit_succeeds irp r s c2 Ha eq_refl) as (r' & Er & Hr). exists r', (c_s c2). split.
  - apply (service_runs k irp r s (ShortCheck SUCCESS c2)); [done|by rewrite Hah| |].
    + rewrite Hah. change (seek_call c = Some (ShortCheck SUCCESS c2)). unfold seek_call.
      assert (c_lr c = frame r /\ sys (c_s c) = sys s) as [-> ->] by (split; [apply entered_lr|apply entered_sys]).
      rewrite (proj2 (Z.ltb_ge _ _)) by lia. by rewrite E.
    + intros again. cbn. f_equal. exact Er.
  - split; [|split; [done|split]].
    + cbn in Hr. unfold c in Hr. by rewrite entered_lr in Hr.
    + cbn. unfold c. by rewrite entered_mem.
    + cbn. unfold c. by rewrite entered_break.
Qed.

End spec.
