(* ===== verification/Int21Thms.v ===== *)
(** * Interrupt 21h: the properties, and sample calls

    What a program sees of a call: its registers and carry, bytes written and read
    through the registers, and a call that does not come back. *)

From S2P Require Import Prelude Hdr Share ShareSpec Bytes Memmgr Dpb Blockio BlockioRing BlockioSpec BlockioRange Fattab CacheSpec.
From S2P Require Import FattabSpec Fnode Cluster ClusterSpec Names Fatdir FatdirSpec FatdirThms Fileio FileioSpec.
From S2P Require Import FilewriteSpec FilecloseSpec FileThms Media MediaThms Chario Lineedit Newstuff NewstuffThms Dosfns Console DosfnsSpec DosfnsThms.
From S2P Require Import Dosname DosnameThms Ioctl Fcb FcbThms Nls Systime Diskdrv DiskdrvSpec Task TaskSpec Pcb Int21 Int21Spec.

Section properties.
  Context {S C X : Type}.
  Context `{!BlockCache S, !DosState S, !BlockTransfer S, !NameServices S, !DosServices S, !DirServices S}.
  Context `{!MediaDevice S, !IoctlDriver S, !StoreCalls S, !CharDevice ClockRecord C}.

#[local] Abbreviation dos := (dos S C X).

  Context `{!ConsoleHost dos, !NlsHost dos, !TaskHost dos, !KernelPlace dos, !RedirectorLaws dos}.
  Context (cf steps ents fuel tries mfuel : nat) (env0 sec_before stack_before : Z) (node node1 : fcb_state S -> f_node).
  Context (stack_fcb : fcb) (stack_dta : dta_buf).

#[local] Abbreviation service :=
  (int21_service cf steps ents fuel tries mfuel env0 sec_before stack_before node node1 stack_fcb stack_dta).

(** C6: a function of the range that tells errors by carry, when it comes back,
    comes back to where it was called from, with every flag but carry as it was; and
    either carry is off, or carry is on, AX has an error code, not zero, and so has
    the variable for the extended error (but after function 44h, which does not tell). *)
Theorem carry_convention n irp r (s : dos) r' s' :
  carry_function (AH (frame r)) = true -> service n irp r s = Some (Returns r' s') -> answered (AH (frame r)) r r' s'.
Proof.
  intros Ha. unfold int21_service. destruct n as [|n]; [done|]. cbn [serve_loop].
  set (c := Call r (frame r) _). unfold serve. change (AH (c_lr c)) with (AH (frame r)).
  destruct (prepare_frame (AH (frame r)) c Ha) as [P F]. set (c1 := prepare _ c) in *. change (c_r c) with r in *.
  assert (Hgo : forall c2 e, kept_place (c_r c2) r -> FLAGS (c_r c2) = Z.ldiff (FLAGS r) FLG_CARRY ->
    (let* e := switch cf steps ents fuel tries mfuel env0 sec_before stack_before node node1 stack_fcb stack_dta
                 (AH (frame r)) c2 in finish (serve_loop cf steps ents fuel tries mfuel env0 sec_before stack_before node node1 stack_fcb stack_dta n) e)
     = Some e -> e = Returns r' s' -> answered (AH (frame r)) r r' s').
  { intros c2 e P2 F2. destruct (switch _ _ _ _ _ _ _ _ _ _ _ _ _ _ _) as [x|] eqn:E; [|done]. intros E2 ->.
    apply switch_tells in E; [|done]. by eapply finish_spec. }
  destruct (_ || _); [|intros H; exact (Hgo c1 _ P F H eq_refl)].
  destruct (check_handle_break _ _ _ _) as [? s1|s1|]; [|done|done]. intros H. exact (Hgo (with_s s1 c1) _ P F H eq_refl).
Qed.

End properties.

(** ** A call that does not come back *)

Section hanging.
  Context {S C X : Type}.
  Context `{!BlockCache S, !DosState S, !BlockTransfer S, !NameServices S, !DosServices S, !DirServices S}.
  Context `{!MediaDevice S, !IoctlDriver S, !StoreCalls S, !CharDevice ClockRecord C}.

#[local] Abbreviation dos := (dos S C X).

  Context `{!ConsoleHost dos, !NlsHost dos, !TaskHost dos, !KernelPlace dos}.
  Context (cf steps ents fuel tries mfuel : nat) (env0 sec_before stack_before : Z) (node node1 : fcb_state S -> f_node).
  Context (stack_fcb : fcb) (stack_dta : dta_buf).

(** Function 5D00h on a block that holds function 5D00h and its own address: the
    dispatch starts again with the same registers, however often it is done. *)
Theorem server_call_hangs n (c : call dos) :
  AX (c_lr c) = 0x5d00 -> load_lregs (linear (DS_DX (c_lr c))) (d_mem (c_s c)) = c_lr c -> break_ena (d_vars (c_s c)) = 0 ->
  serve_loop cf steps ents fuel tries mfuel env0 sec_before stack_before node node1 stack_fcb stack_dta n c = None.
Proof.
  revert c. induction n as [|n IH]; [done|]. intros c Ha Hl Hb. cbn [serve_loop]. unfold serve, AH. rewrite Ha.
  set (c1 := prepare (hi 0x5d00) c).
  assert (c_lr c1 = c_lr c /\ d_mem (c_s c1) = d_mem (c_s c) /\ break_ena (d_vars (c_s c1)) = 0) as (E1 & E2 & E3) by done.
  rewrite E3. change (negb (0 =? 0) || breakable (hi 0x5d00)) with false. cbv iota.
  assert (switch cf steps ents fuel tries mfuel env0 sec_before stack_before node node1 stack_fcb stack_dta (hi 0x5d00) c1 =
    Some (Dispatch (with_lr (c_lr c) c1))) as ->.
  { change (server_call c1 = Some (Dispatch (with_lr (c_lr c) c1))). unfold server_call. rewrite E1, E2.
    unfold AL at 1. rewrite Ha. change (lo 0x5d00 =? 0) with true. cbv iota. by rewrite Hl. }
  cbn [finish]. by apply IH.
Qed.

(** The end of a program after a critical error, which the handler starts as function
    4Ch with [ErrorMode] set: whatever the flag is, the dispatch has cleared the flag before the function
    looks at it, so the return code does not tell of the error. *)
Theorem abort_code_lost irp r (s : dos) : AH (frame r) = 0x4c ->
  let c := entered irp r s in
  exists v, return_code v = Z.lor (AL (frame r)) (if break_flg (d_vars s) then 0x100 else 0) /\
    switch cf steps ents fuel tries mfuel env0 sec_before stack_before node node1 stack_fcb stack_dta 0x4c c =
      (let c := with_s (upd_vars (fun _ => v) (c_s c)) c in let* _ := checked mfuel (c_s c) in leave_program c).
Proof.
  intros Ha c. change (switch _ _ _ _ _ _ _ _ _ _ _ _ _ 0x4c c) with (terminate mfuel c). unfold terminate.
  assert (ErrorMode (d_vars (c_s c)) = false) as ->.
  { unfold c, entered, prepare. rewrite Ha. by repeat case_match. }
  assert (break_flg (d_vars (c_s c)) = break_flg (d_vars s)) as ->.
  { unfold c, entered, prepare. by repeat case_match. }
  assert (c_lr c = frame r) as -> by apply entered_lr. destruct (break_flg (d_vars s)).
  - exists (set_tsr false (set_return_code (Z.lor (AL (frame r)) 0x100) (set_break_flg false (d_vars (c_s c))))). by split.
  - exists (set_tsr false (set_return_code (Z.lor (AL (frame r)) 0) (d_vars (c_s c)))). by split.
Qed.

End hanging.

(** ** Writing and reading through the registers *)




Section roundtrip.
  Context {S C X : Type} `{TransferLaws S primary}.
  Context `{!DosState S, !NameServices S, !DosServices S, !DirServices S}.
  Context `{!MediaDevice S, !IoctlDriver S, !StoreCalls S, !CharDevice ClockRecord C}.

#[local] Abbreviation dos := (dos S C X).

  Context `{!ConsoleHost dos, !NlsHost dos, !TaskHost dos, !KernelPlace dos}.
  Context (cf steps ents fuel tries mfuel : nat) (env0 sec_before stack_before : Z) (node node1 : fcb_state S -> f_node).
  Context (stack_fcb : fcb) (stack_dta : dta_buf) (p : Z) (g : dpb).

#[local] Abbreviation service :=
  (int21_service cf steps ents fuel tries mfuel env0 sec_before stack_before node node1 stack_fcb stack_dta).



End roundtrip.

(** ** Sample calls, on the small volume *)

#[local] Instance silent_driver : IoctlDriver (bio disk) := {
  io_execrh _ _ _ _ y := (S_DONE, 0, 0, y) }.

#[local] Instance sample_store : StoreCalls (bio disk) := {
  st_flush cf b := Some (true, b);
  st_setinvld cf d b := Some b;
  st_verify _ := 0;
  st_set_verify _ b := b;
  st_set_bpb _ _ b := b;
  st_set_cds_flags _ _ b := b }.

#[local] Instance still_clock : CharDevice ClockRecord unit := {
  char_execrh _ n t d := Some (S_DONE, n, t, d);
  char_error _ d := (FAIL, d) }.

#[local] Abbreviation sample_dos := (dos (bio disk) unit unit).

#[local] Instance quiet_console : ConsoleHost sample_dos := {|
  co_driver _ := Build_CharDevice (list Z) sample_dos (fun _ n t s => Some (S_DONE, n, t, s)) (fun _ s => (FAIL, s));
  co_attr _ _ := 0;
  co_syscon _ := 1;
  co_break_flag _ := false;
  co_clear_break d := d;
  co_idle d := d;
  co_fast_put _ d := d;
  co_printer_echo _ := false;
  co_print _ d := d;
  co_scr_pos _ := 0;
  co_set_scr_pos _ d := d;
  co_sft _ _ := None;
  co_sft_idx h _ := h;
  co_rw _ _ _ _ := None;
  co_int23 d := d |}.

#[local] Instance no_languages : NlsHost sample_dos := {
  nh_info _ := NlsInfo 437 0 [] (fun _ => []);
  nh_set_info _ s := s;
  nh_mux _ _ _ _ _ _ _ := None;
  nh_put_string _ s := s }.

#[local] Instance no_programs : TaskHost sample_dos := {
  h_alloc _ _ _ _ m h := (DE_NOMEM, None, None, m, h);
  h_largest _ _ m h := (DE_NOMEM, 0, m, h);
  h_free _ m h := (m, h);
  h_uppermem_link _ := 0;
  h_umblink _ m h := (m, h);
  h_free_process _ m h := (m, h);
  h_truename _ _ _ h := (DE_FILENOTFND, [], h);
  h_isdevice _ _ _ := false;
  h_open _ _ h := (DE_FILENOTFND, h);
  h_read _ _ h := (DE_INVLDHNDL, [], h);
  h_seek _ _ h := (DE_INVLDHNDL, h);
  h_close _ h := h;
  h_sft _ _ := None;
  h_clone _ _ _ h := (DE_INVLDHNDL, h);
  h_cds1 _ _ := true;
  h_redirector _ h := h;
  h_close_handle _ _ m h := (m, h);
  h_fcb_close_all _ h := h }.

#[local] Instance sample_place : KernelPlace sample_dos := {
  kp_address _ _ := Far 0x70 0;
  kp_swap_indos := 0x100;
  kp_swap_always := 0x80;
  kp_BootDrive := 3;
  kp_version := (7, 10, 40, 0);
  kp_AnyVersion := false;
  kp_redirector _ r lr _ s := (DE_INVLDFUNC, r, lr, s) }.

#[local] Instance sample_redirector : RedirectorLaws sample_dos.
Proof. split. intros. by repeat split. Qed.

(** A program at segment 1000h, with the bytes to be written at offset 100h. *)
Definition program_memory : memory := Diskdrv.store 0x10100 [112; 33; 33] (fun _ => 0).
Definition sample_vars : vars :=
  Vars 0 false false (Far 0x1000 0x80) 47 0 false 0 0 (Far 0 0) (7, 10) (CritInfo (Far 0 0) 0 0 0) (replicate 16 0) 0 0 0
    (LineMem [] []).
Definition before_call : sample_dos :=
  Dos (Ioctl (handle_system 4) 0 0 0) (MM empty 0 0 0 0 0) program_memory sample_vars (Systime 0 (ClkRecord 0 0 0 0 0) tt) tt.
Definition registers (ax bx cx dx : Z) : iregs := IRegs (LRegs ax bx cx dx 0 0 0x1000 0x1000) 0 0x200 0x1000 0x3203.

(** A call on that system, which has reached its program again. *)
Definition sample_call (r : iregs) (s : sample_dos) : option (ending sample_dos) :=
  int21_service 5 200 ENTS 10 5 10 0 0 0 (fun _ => sample_node) (fun _ => sample_node) (sample_fcb 0 128) sample_dta 2
    (Far 0x1000 0x1f0) r s.
Definition came_back (e : option (ending sample_dos)) : option iregs :=
  match e with Some (Returns r _) => Some r | _ => None end.

(** Closing a handle that is not open. *)
Lemma carry_convention_witness : exists r s, sample_call (registers 0x3e00 7 0 0) before_call = Some (Returns r s) /\
  AX (frame r) = 6 /\ answered 0x3e (registers 0x3e00 7 0 0) r s.
Proof.
  assert (option_map (fun r => AX (frame r)) (came_back (sample_call (registers 0x3e00 7 0 0) before_call)) = Some 6) as Ev
    by (by vm_compute).
  destruct (sample_call (registers 0x3e00 7 0 0) before_call) as [[r s| |]|] eqn:E; try discriminate Ev.
  exists r, s. split; [reflexivity|]. split; [exact (some_inj Ev)|].
  apply (carry_convention 5 200 ENTS 10 5 10 0 0 0 (fun _ => sample_node) (fun _ => sample_node) (sample_fcb 0 128) sample_dta 2
    (Far 0x1000 0x1f0) (registers 0x3e00 7 0 0) before_call r s); [reflexivity|exact E].
Defined.


