(* ===== verification/Config.v ===== *)
(** * The configuration at the start ([kernel/config.c])

    CONFIG.SYS is read three times, line by line: the menu and the switches first, then
    the settings, then the drivers.  A string is the list of its characters, and a
    pointer into the line is the rest from there on.  What is shown on the screen is left
    out, but for the lines that errors are reported for; [None] is what C does not define,
    among others an access behind the end of the line, where older lines have left
    something. *)

From S2P Require Import Prelude Hdr Bytes.

(** ** Characters *)

(** The character at a pointer. *)
Definition first (s : list Z) : Z := default 0 (head s).

(** kernel/config.c:1803-1806 *)
Definition iswh (c : Z) : bool := existsb (Z.eqb c) [13; 10; 9; ch " "].

(** kernel/config.c:1808-1813 *)
Fixpoint skipwh (s : list Z) : list Z :=
  match s with
  | c :: s' => if iswh c then skipwh s' else s
  | [] => []
  end.

(** kernel/config.c:1866-1869 *)
Definition isnum (c : Z) : bool := (ch "0" <=? c) && (c <=? ch "9").

(** kernel/config.c:1872-1877 *)
Definition toupper (c : Z) : Z := if (ch "a" <=? c) && (c <=? ch "z") then c - (ch "a" - ch "A") else c.

(** kernel/config.c:1880-1886 *)
Definition strupr (s : list Z) : list Z := map toupper s.

(** kernel/config.c:1923-1930 *)
Fixpoint strcaseequal (d s : list Z) : bool :=
  match d, s with
  | [], [] => true
  | x :: d, y :: s => (toupper y =? toupper x) && strcaseequal d s
  | _, _ => false
  end.

(** [memcmp] with the beginning of a string. *)
Definition starts (p s : list Z) : bool := bool_decide (take (length p) s = p).

(** ** The state *)

(** kernel/config.h:30-46 *)
Record config := MkConfig {
  cfgDosDataUmb : bool;
  cfgBuffers : Z;
  cfgFiles : Z;
  cfgFilesHigh : bool;
  cfgFcbs : Z;
  cfgProtFcbs : Z;
  cfgInit : list Z;
  cfgInitTail : list Z;
  cfgLastdrive : Z;
  cfgLastdriveHigh : bool;
  cfgStacks : Z;
  cfgStacksHigh : bool;
  cfgStackSize : Z;
  cfgP_0_startmode : Z;
  ebda2move : Z }.

(** kernel/config.c:131-148 *)
Definition Config : config :=
  MkConfig false 20 16 false 16 0 (str "command.com") (str " /P /E:256" ++ [13; 10]) 5 false 8 false 256 0 0.

Definition set_files n high (c : config) : config :=
  MkConfig (cfgDosDataUmb c) (cfgBuffers c) n high (cfgFcbs c) (cfgProtFcbs c) (cfgInit c) (cfgInitTail c)
    (cfgLastdrive c) (cfgLastdriveHigh c) (cfgStacks c) (cfgStacksHigh c) (cfgStackSize c) (cfgP_0_startmode c) (ebda2move c).
Definition set_buffers n (c : config) : config :=
  MkConfig (cfgDosDataUmb c) n (cfgFiles c) (cfgFilesHigh c) (cfgFcbs c) (cfgProtFcbs c) (cfgInit c) (cfgInitTail c)
    (cfgLastdrive c) (cfgLastdriveHigh c) (cfgStacks c) (cfgStacksHigh c) (cfgStackSize c) (cfgP_0_startmode c) (ebda2move c).
Definition set_dosdata (c : config) : config :=
  MkConfig true (cfgBuffers c) (cfgFiles c) (cfgFilesHigh c) (cfgFcbs c) (cfgProtFcbs c) (cfgInit c) (cfgInitTail c)
    (cfgLastdrive c) (cfgLastdriveHigh c) (cfgStacks c) (cfgStacksHigh c) (cfgStackSize c) (cfgP_0_startmode c) (ebda2move c).
Definition set_fcbs n prot (c : config) : config :=
  MkConfig (cfgDosDataUmb c) (cfgBuffers c) (cfgFiles c) (cfgFilesHigh c) n prot (cfgInit c) (cfgInitTail c)
    (cfgLastdrive c) (cfgLastdriveHigh c) (cfgStacks c) (cfgStacksHigh c) (cfgStackSize c) (cfgP_0_startmode c) (ebda2move c).
Definition set_init init tail mode (c : config) : config :=
  MkConfig (cfgDosDataUmb c) (cfgBuffers c) (cfgFiles c) (cfgFilesHigh c) (cfgFcbs c) (cfgProtFcbs c) init tail
    (cfgLastdrive c) (cfgLastdriveHigh c) (cfgStacks c) (cfgStacksHigh c) (cfgStackSize c) mode (ebda2move c).
Definition set_lastdrive n high (c : config) : config :=
  MkConfig (cfgDosDataUmb c) (cfgBuffers c) (cfgFiles c) (cfgFilesHigh c) (cfgFcbs c) (cfgProtFcbs c) (cfgInit c) (cfgInitTail c)
    n high (cfgStacks c) (cfgStacksHigh c) (cfgStackSize c) (cfgP_0_startmode c) (ebda2move c).
Definition set_stacks n size high (c : config) : config :=
  MkConfig (cfgDosDataUmb c) (cfgBuffers c) (cfgFiles c) (cfgFilesHigh c) (cfgFcbs c) (cfgProtFcbs c) (cfgInit c) (cfgInitTail c)
    (cfgLastdrive c) (cfgLastdriveHigh c) n high size (cfgP_0_startmode c) (ebda2move c).
Definition set_ebda n (c : config) : config :=
  MkConfig (cfgDosDataUmb c) (cfgBuffers c) (cfgFiles c) (cfgFilesHigh c) (cfgFcbs c) (cfgProtFcbs c) (cfgInit c) (cfgInitTail c)
    (cfgLastdrive c) (cfgLastdriveHigh c) (cfgStacks c) (cfgStacksHigh c) (cfgStackSize c) (cfgP_0_startmode c) n.

(** What is asked and skipped, and the menu.
    kernel/config.c:158-166 *)
Record asking := Asking {
  singleStep : bool;
  SkipAllConfig : bool;
  askThisSingleCommand : bool;
  DontAskThisSingleCommand : bool;
  SkipConfigSeconds : Z;
  MenuTimeout : Z;
  MenuSelected : Z;
  MenuLine : Z;
  Menus : Z;
  MenuColor : Z;
  nMenuLine : Z }.

Definition set_steps single skip secs (a : asking) : asking :=
  Asking single skip (askThisSingleCommand a) (DontAskThisSingleCommand a) secs (MenuTimeout a) (MenuSelected a)
    (MenuLine a) (Menus a) (MenuColor a) (nMenuLine a).
Definition set_seconds secs (a : asking) : asking := set_steps (singleStep a) (SkipAllConfig a) secs a.
Definition set_single v (a : asking) : asking := set_steps v (SkipAllConfig a) (SkipConfigSeconds a) a.
Definition set_skip_all (a : asking) : asking := set_steps (singleStep a) true (SkipConfigSeconds a) a.
Definition set_scan ask dont line menus (a : asking) : asking :=
  Asking (singleStep a) (SkipAllConfig a) ask dont (SkipConfigSeconds a) (MenuTimeout a) (MenuSelected a)
    line menus (MenuColor a) (nMenuLine a).
Definition set_menu timeout selected menus color line (a : asking) : asking :=
  Asking (singleStep a) (SkipAllConfig a) (askThisSingleCommand a) (DontAskThisSingleCommand a) (SkipConfigSeconds a)
    timeout selected (MenuLine a) menus color line.
Definition set_selected v (a : asking) : asking := set_menu (MenuTimeout a) v (Menus a) (MenuColor a) (nMenuLine a) a.
Definition set_timeout v (a : asking) : asking := set_menu v (MenuSelected a) (Menus a) (MenuColor a) (nMenuLine a) a.
Definition set_color v (a : asking) : asking := set_menu (MenuTimeout a) (MenuSelected a) (Menus a) v (nMenuLine a) a.
Definition set_menus v (a : asking) : asking := set_menu (MenuTimeout a) (MenuSelected a) v (MenuColor a) (nMenuLine a) a.
Definition set_menu_line v (a : asking) : asking := set_menu (MenuTimeout a) (MenuSelected a) (Menus a) (MenuColor a) v a.

(** Variables of the kernel and of the BIOS that a setting changes; the tables of the
    country by their numbers, without the words of their lengths. *)
Record settings := Settings {
  UmbState : Z;
  uppermem : Z * Z;
  HMAState : Z;
  kbdType : Z;
  HaltCpuWhileIdle : Z;
  ReturnAnyDosVersionExpected : bool;
  setver : Z * Z;
  break_ena : Z;
  switchar : Z;
  keyflags : Z;
  keybuf : Z * Z * Z * Z;
  country_id : Z * Z;
  tables : Z -> list Z }.

Definition set_umb v mem hma (x : settings) : settings :=
  Settings v mem hma (kbdType x) (HaltCpuWhileIdle x) (ReturnAnyDosVersionExpected x) (setver x) (break_ena x)
    (switchar x) (keyflags x) (keybuf x) (country_id x) (tables x).
Definition set_kbdType v (x : settings) : settings :=
  Settings (UmbState x) (uppermem x) (HMAState x) v (HaltCpuWhileIdle x) (ReturnAnyDosVersionExpected x) (setver x)
    (break_ena x) (switchar x) (keyflags x) (keybuf x) (country_id x) (tables x).
Definition set_idle v (x : settings) : settings :=
  Settings (UmbState x) (uppermem x) (HMAState x) (kbdType x) v (ReturnAnyDosVersionExpected x) (setver x)
    (break_ena x) (switchar x) (keyflags x) (keybuf x) (country_id x) (tables x).
Definition set_any (x : settings) : settings :=
  Settings (UmbState x) (uppermem x) (HMAState x) (kbdType x) (HaltCpuWhileIdle x) true (setver x)
    (break_ena x) (switchar x) (keyflags x) (keybuf x) (country_id x) (tables x).
Definition set_setver v (x : settings) : settings :=
  Settings (UmbState x) (uppermem x) (HMAState x) (kbdType x) (HaltCpuWhileIdle x) (ReturnAnyDosVersionExpected x) v
    (break_ena x) (switchar x) (keyflags x) (keybuf x) (country_id x) (tables x).
Definition set_break v (x : settings) : settings :=
  Settings (UmbState x) (uppermem x) (HMAState x) (kbdType x) (HaltCpuWhileIdle x) (ReturnAnyDosVersionExpected x)
    (setver x) v (switchar x) (keyflags x) (keybuf x) (country_id x) (tables x).
Definition set_switchar v (x : settings) : settings :=
  Settings (UmbState x) (uppermem x) (HMAState x) (kbdType x) (HaltCpuWhileIdle x) (ReturnAnyDosVersionExpected x)
    (setver x) (break_ena x) v (keyflags x) (keybuf x) (country_id x) (tables x).
Definition set_keys flags buf (x : settings) : settings :=
  Settings (UmbState x) (uppermem x) (HMAState x) (kbdType x) (HaltCpuWhileIdle x) (ReturnAnyDosVersionExpected x)
    (setver x) (break_ena x) (switchar x) flags buf (country_id x) (tables x).
Definition set_country id tab (x : settings) : settings :=
  Settings (UmbState x) (uppermem x) (HMAState x) (kbdType x) (HaltCpuWhileIdle x) (ReturnAnyDosVersionExpected x)
    (setver x) (break_ena x) (switchar x) (keyflags x) (keybuf x) id tab.

(** The whole: [switches_pass] is the pass of the first command of the table, [reported]
    the lines whose errors were shown, [master_env] and [envp] the environment, and
    [installs] the commands to be run later. *)
Record boot (H : Type) := Boot {
  b_config : config;
  b_asking : asking;
  b_settings : settings;
  nCfgLine : Z;
  ErrorAlreadyPrinted : list Z;
  reported : list Z;
  switches_pass : Z;
  master_env : list Z;
  envp : Z;
  installs : list (list Z * Z);
  b_host : H }.
Arguments Boot {H}.
Arguments b_config {H}.
Arguments b_asking {H}.
Arguments b_settings {H}.
Arguments nCfgLine {H}.
Arguments ErrorAlreadyPrinted {H}.
Arguments reported {H}.
Arguments switches_pass {H}.
Arguments master_env {H}.
Arguments envp {H}.
Arguments installs {H}.
Arguments b_host {H}.

Definition upd_config {H} f (st : boot H) : boot H :=
  Boot (f (b_config st)) (b_asking st) (b_settings st) (nCfgLine st) (ErrorAlreadyPrinted st) (reported st)
    (switches_pass st) (master_env st) (envp st) (installs st) (b_host st).
Definition upd_asking {H} f (st : boot H) : boot H :=
  Boot (b_config st) (f (b_asking st)) (b_settings st) (nCfgLine st) (ErrorAlreadyPrinted st) (reported st)
    (switches_pass st) (master_env st) (envp st) (installs st) (b_host st).
Definition upd_settings {H} f (st : boot H) : boot H :=
  Boot (b_config st) (b_asking st) (f (b_settings st)) (nCfgLine st) (ErrorAlreadyPrinted st) (reported st)
    (switches_pass st) (master_env st) (envp st) (installs st) (b_host st).
Definition set_nCfgLine {H} n (st : boot H) : boot H :=
  Boot (b_config st) (b_asking st) (b_settings st) n (ErrorAlreadyPrinted st) (reported st)
    (switches_pass st) (master_env st) (envp st) (installs st) (b_host st).
Definition set_reported {H} bits l (st : boot H) : boot H :=
  Boot (b_config st) (b_asking st) (b_settings st) (nCfgLine st) bits l
    (switches_pass st) (master_env st) (envp st) (installs st) (b_host st).
Definition set_switches_pass {H} n (st : boot H) : boot H :=
  Boot (b_config st) (b_asking st) (b_settings st) (nCfgLine st) (ErrorAlreadyPrinted st) (reported st)
    n (master_env st) (envp st) (installs st) (b_host st).
Definition set_env {H} env p (st : boot H) : boot H :=
  Boot (b_config st) (b_asking st) (b_settings st) (nCfgLine st) (ErrorAlreadyPrinted st) (reported st)
    (switches_pass st) env p (installs st) (b_host st).
Definition set_installs {H} l (st : boot H) : boot H :=
  Boot (b_config st) (b_asking st) (b_settings st) (nCfgLine st) (ErrorAlreadyPrinted st) (reported st)
    (switches_pass st) (master_env st) (envp st) l (b_host st).
Definition set_host {H} h (st : boot H) : boot H :=
  Boot (b_config st) (b_asking st) (b_settings st) (nCfgLine st) (ErrorAlreadyPrinted st) (reported st)
    (switches_pass st) (master_env st) (envp st) (installs st) h.

(** What the configuration uses of the rest: the contents of a file; the keyboard (is
    there a key, the next key), and the clock of the BIOS; moving the kernel to the high
    memory area; the check of the keyboard and the video mode; loading a driver (its
    name, high or low) and initialising it (its line); and the memory of XMS drivers. *)
Class BootHost (H : Type) := {
  bh_file : list Z -> H -> option (list Z);
  bh_ready : H -> bool * H;
  bh_key : H -> Z * H;
  bh_time : H -> Z * H;
  bh_move_hma : H -> bool * H;
  bh_keycheck : H -> H;
  bh_video : Z -> H -> H;
  bh_load : list Z -> bool -> H -> Z * H;
  bh_init_devices : list Z -> bool -> H -> Z * H;
  bh_umb_init : H -> bool * H }.

(** ** Countries *)

(** kernel/config.c:2294-2308 *)
Record country_small := Small {
  sm_CountryID : Z;
  sm_DateFormat : Z;
  sm_CurrencyString : list Z;
  sm_ThousandSeparator : Z;
  sm_DecimalPoint : Z;
  sm_DateSeparator : Z;
  sm_TimeSeparator : Z;
  sm_CurrencyFormat : Z;
  sm_CurrencyPrecision : Z;
  sm_TimeFormat : Z }.

(** kernel/config.c:2310-2353 *)
Definition specificCountriesSupported : list country_small := [
  Small 1 0 [36; 0; 0] 44 46 47 58 0 2 0;
  Small 2 2 [36; 0; 0] 44 46 45 58 0 2 1;
  Small 3 0 [36; 0; 0] 44 46 47 58 0 2 0;
  Small 7 1 [82; 85; 66] 32 44 46 58 3 2 1;
  Small 31 1 [69; 85; 82] 46 44 45 58 0 2 1;
  Small 32 1 [69; 85; 82] 46 44 45 58 0 2 1;
  Small 33 1 [69; 85; 82] 46 44 45 58 0 2 1;
  Small 34 1 [69; 85; 82] 46 39 45 58 0 2 1;
  Small 36 1 [36; 72; 85] 46 44 45 58 0 2 1;
  Small 38 1 [36; 89; 85] 46 44 45 58 0 2 1;
  Small 39 1 [69; 85; 82] 46 44 45 58 0 2 1;
  Small 41 1 [83; 70; 0] 46 44 46 58 0 2 1;
  Small 42 2 [36; 89; 85] 46 44 46 58 0 2 1;
  Small 44 1 [156; 0; 0] 46 44 47 58 0 2 1;
  Small 45 1 [68; 75; 75] 46 44 45 58 0 2 1;
  Small 46 2 [83; 69; 75] 44 46 45 58 0 2 1;
  Small 47 1 [78; 79; 75] 44 46 46 58 0 2 1;
  Small 48 2 [80; 76; 78] 44 46 46 58 0 2 1;
  Small 49 1 [69; 85; 82] 46 44 46 58 1 2 1;
  Small 54 1 [36; 97; 114] 46 44 47 58 1 2 0;
  Small 55 1 [36; 97; 114] 46 44 47 58 1 2 1;
  Small 61 0 [36; 0; 0] 46 44 47 58 0 2 1;
  Small 81 2 [129; 143; 0] 44 46 47 58 0 2 0;
  Small 351 1 [69; 85; 82] 46 44 45 58 0 2 1;
  Small 358 1 [69; 85; 82] 32 44 46 58 3 2 1;
  Small 359 1 [66; 71; 76] 32 44 46 58 3 2 1;
  Small 380 1 [85; 65; 72] 32 44 46 58 3 2 1].

(** The data of the country as they lie in table 1.
    hdr/nls.h:341-359 *)
Definition small_info (k : country_small) (l : list Z) : option (list Z) :=
  let* l := put16 0 (sm_CountryID k) l in
  let* l := put16 4 (sm_DateFormat k) l in
  let* a := at_ (sm_CurrencyString k) 0 in let* l := set_at 6 a l in
  let* a := at_ (sm_CurrencyString k) 1 in let* l := set_at 7 a l in
  let* a := at_ (sm_CurrencyString k) 2 in let* l := set_at 8 a l in
  let* l := set_at 11 (sm_ThousandSeparator k) l in
  let* l := set_at 13 (sm_DecimalPoint k) l in
  let* l := set_at 15 (sm_DateSeparator k) l in
  let* l := set_at 17 (sm_TimeSeparator k) l in
  let* l := set_at 19 (sm_CurrencyFormat k) l in
  let* l := set_at 20 (sm_CurrencyPrecision k) l in
  set_at 21 (sm_TimeFormat k) l.

(** The country and its code page, and the tables. *)
Definition country_data : Type := (Z * Z) * (Z -> list Z).
Definition set_table (id : Z) (l : list Z) (t : Z -> list Z) : Z -> list Z := fun i => if i =? id then l else t i.

(** The result 0 is [true].
    kernel/config.c:2367-2410 *)
Definition LoadCountryInfoHardCoded (ctryCode : Z) (k : country_data) : option (bool * country_data) :=
  match find (fun c => sm_CountryID c =? ctryCode) specificCountriesSupported with
  | Some c => let* l := small_info c (k.2 1) in Some (true, (k.1, set_table 1 l k.2))
  | None => Some (false, k)
  end.

(** Bytes of a file; [None] is a read that is cut short. *)
Definition read_at (f : list Z) (pos n : Z) : option (list Z) :=
  if (0 <=? pos) && (pos + n <=? Z.of_nat (length f)) then Some (take (Z.to_nat n) (drop (Z.to_nat pos) f)) else None.

(** A position that [lseek] does not give back as an error. *)
Definition seek_ok (pos : Z) : bool := negb (pos =? 0xffffffff).

(** The signatures of the tables.
    kernel/config.c:1382-1391 *)
Definition signature (id : Z) : list Z :=
  255 :: str (if id =? 1 then "CTYINFO" else if id =? 2 then "UCASE  " else if id =? 3 then "LCASE  "
              else if id =? 4 then "FUCASE " else if id =? 5 then "FCHAR  " else if id =? 6 then "COLLATE"
              else if id =? 7 then "DBCS   " else "       ").

Definition sizeof_CountrySpecificInfo : Z := 22.

(** What a step of the loader comes to: it goes on or has found a fault, with the
    buffer and the tables as they are then. *)
Definition loading : Type := bool * list Z * country_data.

(** The data of a table, behind its signature and length, are read to the buffer and
    copied.
    kernel/config.c:1439-1455 *)
Definition take_table (country codepage want id n : Z) (data buffer : list Z) (k : country_data) : option loading :=
  let buffer := data ++ drop (length data) buffer in
  let* cid := get16 buffer 0 in
  let* ccp := get16 buffer 2 in
  if (id =? 1) && (negb (cid =? country) || negb (ccp =? codepage) && negb (want =? 0)) then Some (true, buffer, k)
  else
    let n := if id =? 1 then Z.min n sizeof_CountrySpecificInfo else n in
    let old := k.2 id in
    if Z.of_nat (length old) <? n then None
    else
      let l := take (Z.to_nat n) buffer ++ drop (Z.to_nat n) old in
      Some (true, buffer, (if id =? 1 then (country, codepage) else k.1, set_table id l k.2)).

(** One header of a table; [want] is the code page asked for, 0 for any.
    kernel/config.c:1431-1455 *)
Definition subfunction (f : list Z) (country codepage want len id off : Z) (buffer : list Z) (k : country_data) : option loading :=
  if negb (len =? 6) then Some (false, buffer, k)
  else if (id <? 1) || (6 <? id) || (id =? 3) then Some (true, buffer, k)
  else if negb (seek_ok off) then Some (false, buffer, k)
  else
    match read_at f off 10 with
    | None => Some (false, buffer, k)
    | Some h =>
        let sig := take 8 h in
        if negb (bool_decide (sig = signature id)) && negb ((id =? 4) && bool_decide (sig = signature 2)) then Some (false, buffer, k)
        else
          let* n := get16 h 8 in
          let got := Z.max 0 (Z.min n (Z.of_nat (length f) - (off + 10))) in
          if 256 <? got then None
          else if negb (got =? n) then Some (false, buffer, k)
          else let* data := read_at f (off + 10) n in take_table country codepage want id n data buffer k
    end.

(** kernel/config.c:1429-1457 *)
Fixpoint subfunctions (f : list Z) (country codepage want : Z) (hdrs : list (Z * Z * Z)) (buffer : list Z) (k : country_data)
    : option (bool * country_data) :=
  match hdrs with
  | [] => Some (true, k)
  | (len, id, off) :: hdrs =>
      let* (ok, buffer, k) := subfunction f country codepage want len id off buffer k in
      if (ok : bool) then subfunctions f country codepage want hdrs buffer k else Some (false, k)
  end.

(** The headers of the tables of an entry; [None] where the file is not in order.
    kernel/config.c:1423-1428 *)
Definition read_headers (f : list Z) (off : Z) : option (list (Z * Z * Z)) :=
  if negb (seek_ok off) then None
  else
    let* c := read_at f off 2 in
    let* count := get16 c 0 in
    if 8 <? count then None
    else
      let* h := read_at f (off + 2) (8 * count) in
      mapM (fun i => let* len := get16 h (8 * i) in let* id := get16 h (8 * i + 2) in let* o := get32 h (8 * i + 4) in
                     Some (len, id, o)) (seqZ 0 count).

(** The entries of the file from [pos] on.
    kernel/config.c:1417-1460 *)
Fixpoint find_entry (n : nat) (f : list Z) (pos ctryCode codePage : Z) (buffer : list Z) (k : country_data) : option (bool * country_data) :=
  match n with
  | O => Some (false, k)
  | S n =>
      match read_at f pos 14 with
      | None => Some (false, k)
      | Some e =>
          let* len := get16 e 0 in
          let* country := get16 e 2 in
          let* cp := get16 e 4 in
          let* off := get32 e 10 in
          if negb (len =? 12) then Some (false, k)
          else if negb (country =? ctryCode) || negb (cp =? codePage) && negb (codePage =? 0)
          then find_entry n f (pos + 14) ctryCode codePage buffer k
          else match read_headers f off with
               | None => Some (false, k)
               | Some hdrs => subfunctions f country cp codePage hdrs buffer k
               end
      end
  end.

(** A file in the format of COUNTRY.SYS; the static buffer is taken as empty, which
    matters for a first table of less than four bytes only.
    kernel/config.c:1404-1464 *)
Definition load_country_file (f : list Z) (ctryCode codePage : Z) (k : country_data) : option (bool * country_data) :=
  match (let* h := read_at f 0 23 in
         if negb (starts (255 :: str "COUNTRY") h) then None
         else
           let* off := get32 h 19 in
           if negb (seek_ok off) then None
           else let* e := read_at f off 2 in let* n := get16 e 0 in Some (off, n)) with
  | None => Some (false, k)
  | Some (off, n) => find_entry (Z.to_nat (s16 n)) f (off + 2) ctryCode codePage (replicate 256 0) k
  end.

Section config.
  Context {H : Type} `{!BootHost H}.

#[local] Abbreviation boot := (boot H).

(** ** Lines *)

(** The line is reported, but once only.
    kernel/config.c:1679-1697 *)
Definition CfgFailure (st : boot) : boot :=
  let n := nCfgLine st in
  if n <? 1024 then
    let b := default 0 (at_ (ErrorAlreadyPrinted st) (n / 8)) in
    if Z.testbit b (n mod 8) then st
    else set_reported (<[Z.to_nat (n / 8) := Z.setbit b (n mod 8)]> (ErrorAlreadyPrinted st)) (reported st ++ [n]) st
  else set_reported (ErrorAlreadyPrinted st) (reported st ++ [n]) st.

(** Digits, as the bits of a set.
    kernel/config.c:1828-1829 *)
Fixpoint scan_digits (numbers : Z) (s : list Z) : Z * list Z :=
  match s with
  | c :: s' => if isnum c then scan_digits (u16 (Z.lor numbers (Z.shiftl 1 (c - ch "0")))) s' else (numbers, s)
  | [] => (numbers, [])
  end.

(** The verb, without its question marks, and whether there was one.
    kernel/config.c:1854-1861 *)
Fixpoint scan_verb (s : list Z) : list Z * bool * list Z :=
  match s with
  | c :: s' =>
      if iswh c || (c =? ch "=") then ([], false, s)
      else
        let '(d, ask, r) := scan_verb s' in
        if c =? ch "?" then (d, true, r) else (c :: d, ask, r)
  | [] => ([], false, [])
  end.

(** kernel/config.c:1815-1864 *)
Definition scan (s : list Z) (st : boot) : list Z * list Z * boot :=
  let s := skipwh s in
  let menus := Menus (b_asking st) in
  let '(line, menus, s) :=
    if isnum (first s) then
      let '(numbers, s) := scan_digits 0 s in
      if first s =? ch "?" then (numbers, Z.lor menus numbers, skipwh (tail s)) else (0, menus, s)
    else (0, menus, s) in
  let '(dont, s) := if first s =? ch "!" then (true, skipwh (tail s)) else (false, s) in
  let '(d, ask, s) := if first s =? ch ";" then ([ch ";"], false, tail s) else scan_verb s in
  (s, d, upd_asking (set_scan ask dont line menus) st).

(** kernel/config.c:1033-1040 *)
Definition GetStringArg (pLine : list Z) (st : boot) : list Z * list Z * boot := scan (skipwh pLine) st.

(** The value of a character as a digit.
    kernel/config.c:998-1023 *)
Definition digit (c : Z) : option Z :=
  if isnum c then Some (c - ch "0")
  else if (ch "A" <=? c) && (c <=? ch "F") then Some (c - ch "A" + 10) else None.

(** The digits of a number; [n] is a 16-bit integer that wraps.
    kernel/config.c:1016-1028 *)
Fixpoint number (base n : Z) (p : list Z) : Z * list Z :=
  match p with
  | c :: p' =>
      let c := toupper c in
      if c =? ch "X" then number 16 n p'
      else match digit c with
           | None => (n, p)
           | Some q => number base (s16 (n * base + q)) p'
           end
  | [] => (n, [])
  end.

(** The outer [None] is the null pointer.
    kernel/config.c:996-1031 *)
Definition GetNumArg (p : list Z) (st : boot) : option (list Z * Z) * boot :=
  let p := skipwh p in
  if first p =? ch "-" then
    let '(n, p) := number 10 0 (tail p) in (Some (p, s16 (- n)), st)
  else if negb (isnum (first p)) then (None, CfgFailure st)
  else let '(n, p) := number 10 0 p in (Some (p, n), st).

(** ** Keys *)

(** [n] bounds the polls.
    kernel/config.c:884-897 *)
Fixpoint poll_key (n : nat) (startTime timeout : Z) (h : H) : option (Z * H) :=
  match n with
  | O => None
  | S n =>
      let '(ready, h) := bh_ready h in
      if (ready : bool) then Some (bh_key h)
      else
        let '(t, h) := bh_time h in
        if u16 (t - startTime) <? u16 (timeout * 18) then poll_key n startTime timeout h else Some (0xffff, h)
  end.

(** kernel/config.c:878-911 *)
Definition GetBiosKey (n : nat) (timeout : Z) (h : H) : option (Z * H) :=
  let '(startTime, h) := bh_time h in
  if 0 <=? timeout then poll_key n startTime timeout h else Some (bh_key h).

(** The answer to a question; [n] bounds the keys.
    kernel/config.c:960-990 *)
Fixpoint ask_line (n polls : nat) (st : boot) : option (bool * boot) :=
  match n with
  | O => None
  | S n =>
      let* (key, h) := GetBiosKey polls (-1) (b_host st) in
      let st := set_host h st in
      let c := toupper (Z.land key 0xff) in
      if c =? ch "N" then Some (true, st)
      else if c =? 0x1b then Some (false, upd_asking (set_single false) st)
      else if existsb (Z.eqb c) [13; 10; ch "Y"] then Some (false, st)
      else if key =? 0x3f00 then Some (true, upd_asking set_skip_all st)
      else ask_line n polls st
  end.

(** The first command waits for F5 and F8.
    kernel/config.c:917-938 *)
Definition first_question (polls : nat) (st : boot) : option boot :=
  let a := b_asking st in
  if 0 <=? SkipConfigSeconds a then
    let* (key, h) := GetBiosKey polls (SkipConfigSeconds a) (b_host st) in
    Some (set_host h (upd_asking (set_steps (singleStep a || (key =? 0x4200)) (SkipAllConfig a || (key =? 0x3f00)) (-1)) st))
  else Some st.

(** kernel/config.c:913-992 *)
Definition SkipLine (n polls : nat) (st : boot) : option (bool * boot) :=
  let* st := first_question polls st in
  let a := b_asking st in
  if SkipAllConfig a then Some (true, st)
  else if negb (MenuLine a =? 0) && negb (Z.testbit (MenuLine a) (MenuSelected a)) then Some (true, st)
  else if DontAskThisSingleCommand a then Some (false, st)
  else if negb (askThisSingleCommand a) && negb (singleStep a) then Some (false, st)
  else ask_line n polls st.

(** ** The settings *)

(** A command gets the line from its argument on. *)
Definition handler : Type := list Z -> boot -> option boot.

(** A number, where the null pointer ends the command. *)
Definition with_num (p : list Z) (st : boot) (k : list Z -> Z -> boot -> option boot) : option boot :=
  match GetNumArg p st with
  | (Some (p, n), st) => k p n st
  | (None, st) => Some st
  end.

(** A number, where the null pointer is used. *)
Definition need_num (p : list Z) (st : boot) (k : list Z -> Z -> boot -> option boot) : option boot :=
  match GetNumArg p st with
  | (Some (p, n), st) => k p n st
  | (None, st) => None
  end.

(** kernel/config.c:1042-1049 *)
Definition Config_Buffers : handler := fun pLine st =>
  with_num pLine st (fun _ n st => Some (upd_config (set_buffers (u8 n)) st)).

(** kernel/config.c:1060-1085 *)
Definition sysScreenMode : handler := fun pLine st =>
  with_num pLine st (fun _ nMode st =>
    let go nFunc := Some (set_host (bh_video (Z.lor (Z.shiftl nFunc 8) (u8 nMode)) (b_host st)) st) in
    if nMode <? 0x10 then go 0
    else if (nMode =? 0x11) || (nMode =? 0x12) || (nMode =? 0x14) then go 0x11 else Some st).

(** The rest of a string behind a character.
    kernel/config.c:1090-1095 *)
Fixpoint behind (c : Z) (s : list Z) : option (list Z) :=
  match s with
  | [] => None
  | x :: s => if x =? c then Some s else behind c s
  end.

(** kernel/config.c:1087-1109 *)
Definition sysVersion : handler := fun pLine st =>
  match behind (ch ".") pLine with
  | None => Some st
  | Some p =>
      with_num pLine st (fun _ major st => with_num p st (fun _ minor st =>
        Some (upd_settings (set_setver (u8 major, u8 minor)) st)))
  end.

(** kernel/config.c:1111-1122 *)
Definition Files : handler := fun pLine st =>
  with_num pLine st (fun _ n st => Some (upd_config (fun c => set_files (u8 (Z.max (cfgFiles c) n)) false c) st)).

(** kernel/config.c:1124-1128 *)
Definition FilesHigh : handler := fun pLine st =>
  let* st := Files pLine st in Some (upd_config (fun c => set_files (cfgFiles c) true c) st).

(** kernel/config.c:1130-1147 *)
Definition CfgLastdrive : handler := fun pLine st =>
  let drv := toupper (first (skipwh pLine)) in
  if (drv <? ch "A") || (ch "Z" <? drv) then Some (CfgFailure st)
  else
    let drv := drv - (ch "A" - 1) in
    Some (upd_config (fun c => set_lastdrive (if cfgLastdrive c <? drv then drv else cfgLastdrive c) false c) st).

(** kernel/config.c:1149-1154 *)
Definition CfgLastdriveHigh : handler := fun pLine st =>
  let* st := CfgLastdrive pLine st in Some (upd_config (fun c => set_lastdrive (cfgLastdrive c) true c) st).

Definition HMA_REQ : Z := 1.
Definition HMA_DONE : Z := 2.

(** The words of DOS=, separated by commas.
    kernel/config.c:1172-1188 *)
Fixpoint dos_words (n : nat) (p : list Z) (umb high : bool) : bool * bool :=
  let u := starts (str "UMB") p in
  let p := if u then drop 3 p else p in
  let h := starts (str "HIGH") p in
  let p := skipwh (if h then drop 4 p else p) in
  let umb := umb || u in
  let high := high || h in
  match n with
  | O => (umb, high)
  | S n => if first p =? ch "," then dos_words n (tail p) umb high else (umb, high)
  end.

(** kernel/config.c:1160-1202 *)
Definition Dosmem : handler := fun pLine st =>
  let '(_, d, st) := GetStringArg pLine st in
  let '(umb, high) := dos_words (length d) (strupr d) false false in
  let x := b_settings st in
  let hma := if high then HMA_REQ else HMAState x in
  let st := upd_settings (fun x =>
              if UmbState x =? 0 then set_umb (if umb then 2 else 0) (0, 0xffff) hma x
              else set_umb (UmbState x) (uppermem x) hma x) st in
  Some (if hma =? HMA_REQ then
          let '(ok, h) := bh_move_hma (b_host st) in
          let st := set_host h st in
          if (ok : bool) then upd_settings (fun x => set_umb (UmbState x) (uppermem x) HMA_DONE x) st else st
        else st).

(** kernel/config.c:1204-1211 *)
Definition DosData : handler := fun pLine st =>
  let '(_, d, st) := GetStringArg pLine st in
  Some (if starts (str "UMB") (strupr d) then upd_config set_dosdata st else st).

(** kernel/config.c:1213-1219 *)
Definition CfgSwitchar : handler := fun pLine st =>
  let '(_, d, st) := GetStringArg pLine st in Some (upd_settings (set_switchar (first d)) st).

(** The amount of the EBDA: the place behind it, and what is set.
    kernel/config.c:1244-1270 *)
Definition ebda_switch (pLine : list Z) (st : boot) : list Z * boot :=
  let pLine := if first pLine =? ch ":" then tail pLine else pLine in
  if negb (isnum (first pLine)) then (pLine, st)
  else
    let '(n, p) := number 10 0 pLine in
    if n =? -1 then (p, upd_config (set_ebda 0xffff) st)
    else if (48 <=? n) && (n <=? 1024) then (p, upd_config (set_ebda (Z.land (n + 15) 0xfff0)) st)
    else (p, CfgFailure st).

(** [n] bounds the switches.
    kernel/config.c:1228-1277 *)
Fixpoint switch_loop (n : nat) (pLine : list Z) (st : boot) : option boot :=
  match n with
  | O => None
  | S n =>
      match pLine with
      | [] => Some st
      | c :: p =>
          if c =? ch "/" then
            match p with
            | [] => None
            | o :: p =>
                let o := toupper o in
                if o =? ch "K" then
                  switch_loop n (skipwh p) (if switches_pass st =? 1 then upd_settings (set_kbdType 0) st else st)
                else if o =? ch "N" then switch_loop n (skipwh p) (upd_asking (set_seconds (-1)) st)
                else if o =? ch "F" then switch_loop n (skipwh p) (upd_asking (set_seconds 0) st)
                else if o =? ch "E" then let '(p, st) := ebda_switch p st in switch_loop n (skipwh p) st
                else switch_loop n (skipwh p) (CfgFailure st)
            end
          else switch_loop n (skipwh p) (CfgFailure st)
      end
  end.

(** kernel/config.c:1221-1279 *)
Definition CfgSwitches : handler := fun pLine st =>
  let p := skipwh pLine in
  let p := if first p =? ch "=" then skipwh (tail p) else p in
  let* st := switch_loop (S (length p)) p st in Some (set_switches_pass 1 st).

(** A second number behind a comma; without one [n] stays. *)
Definition second_num (p : list Z) (n : Z) (st : boot) (k : Z -> boot -> boot) : boot :=
  match GetNumArg (tail p) st with
  | (Some (_, n), st) => k n st
  | (None, st) => k n st
  end.

(** kernel/config.c:1281-1300 *)
Definition Fcbs : handler := fun pLine st =>
  with_num pLine st (fun p n st =>
    let st := upd_config (fun c => set_fcbs (u8 n) (cfgProtFcbs c) c) st in
    let p := skipwh p in
    let st := if first p =? ch "," then
                second_num p n st (fun n => upd_config (fun c => set_fcbs (cfgFcbs c) (u8 n) c))
              else st in
    Some (upd_config (fun c => if cfgFcbs c <? cfgProtFcbs c then set_fcbs (cfgFcbs c) (cfgFcbs c) c else c) st)).

(** The place of the keyboard buffer, if it is a good one.
    kernel/config.c:1327-1341 *)
Definition place_keybuf (startbuf endbuf : Z) (st : boot) : boot :=
  let startbuf := s16 (Z.land startbuf 0xfffe) in
  let endbuf := s16 (Z.land endbuf 0xfffe) in
  let bad := (endbuf <? startbuf) || (s16 (endbuf - startbuf) <=? 0x20) ||
             negb (Z.land startbuf 0xff00 =? Z.land (endbuf - 1) 0xff00) in
  let startbuf := if bad then 0 else startbuf in
  if (startbuf <? 0xac) || (0x100 <=? startbuf) && (startbuf <? 0x105) || (0x1de <? startbuf) then st
  else
    let st := upd_settings (fun x => set_keys (keyflags x) (startbuf, startbuf, startbuf, endbuf) x) st in
    set_host (bh_keycheck (b_host st)) st.

(** kernel/config.c:1311-1342 *)
Definition CfgKeyBuf : handler := fun pLine st =>
  with_num pLine st (fun p startbuf st =>
    let p := skipwh p in
    let endbuf := s16 (Z.lor startbuf 0xff + 1) in
    if first p =? ch "," then with_num (tail p) st (fun _ endbuf st => Some (place_keybuf startbuf endbuf st))
    else Some (place_keybuf startbuf endbuf st)).

(** kernel/config.c:1352-1464 *)
Definition LoadCountryInfo (filename : option (list Z)) (ctryCode codePage : Z) (st : boot) : option (bool * boot) :=
  let x := b_settings st in
  let k := (country_id x, tables x) in
  let* (ok, k) :=
    match bh_file (default (str "\COUNTRY.SYS") filename) (b_host st), filename with
    | None, None => LoadCountryInfoHardCoded (s16 ctryCode) k
    | None, Some _ => Some (false, k)
    | Some f, _ => load_country_file f ctryCode codePage k
    end in
  Some (ok, upd_settings (set_country k.1 k.2) st).

(** The country has been read; the code page and the file may follow.
    kernel/config.c:1476-1491 *)
Definition country_rest (p : list Z) (ctryCode : Z) (st : boot) : option boot :=
  let load filename cp st :=
    let* (ok, st) := LoadCountryInfo filename (u16 ctryCode) (u16 cp) st in
    Some (if (ok : bool) then st else CfgFailure st) in
  let file p cp st :=
    let p := skipwh p in
    if first p =? ch "," then let '(_, d, st) := GetStringArg (tail p) st in load (Some d) cp st else load None cp st in
  let p := skipwh p in
  if first p =? ch "," then
    let p := skipwh (tail p) in
    if first p =? ch "," then file p 0 st
    else match GetNumArg p st with
         | (Some (p, cp), st) => file p cp st
         | (None, st) => Some (CfgFailure st)
         end
  else load None 0 st.

(** kernel/config.c:1466-1498 *)
Definition Country : handler := fun pLine st =>
  match GetNumArg pLine st with
  | (Some (p, n), st) => country_rest p n st
  | (None, st) => Some (CfgFailure st)
  end.

(** kernel/config.c:1516-1525 *)
Definition clip_stacks (c : config) : config :=
  if cfgStacks c =? 0 then c
  else
    let size := if cfgStackSize c <? 32 then 32 else cfgStackSize c in
    set_stacks (if 64 <? cfgStacks c then 64 else cfgStacks c) (if 512 <? size then 512 else size) (cfgStacksHigh c) c.

(** kernel/config.c:1500-1526 *)
Definition Stacks : handler := fun pLine st =>
  need_num pLine st (fun p n st =>
    let st := upd_config (fun c => set_stacks (u8 n) (cfgStackSize c) (cfgStacksHigh c) c) st in
    let p := skipwh p in
    let st := if first p =? ch "," then
                second_num p n st (fun n => upd_config (fun c => set_stacks (cfgStacks c) (u16 n) (cfgStacksHigh c) c))
              else st in
    Some (upd_config (fun c => let c := clip_stacks c in set_stacks (cfgStacks c) (cfgStackSize c) false c) st)).

(** kernel/config.c:1528-1532 *)
Definition StacksHigh : handler := fun pLine st =>
  let* st := Stacks pLine st in Some (upd_config (fun c => set_stacks (cfgStacks c) (cfgStackSize c) true c) st).

(** kernel/init-mod.h:112-112 *)
Definition NAMEMAX : Z := 67.

(** A string ends at a NUL, if there is one. *)
Fixpoint cut_nul (l : list Z) : list Z :=
  match l with
  | c :: l => if c =? 0 then [] else c :: cut_nul l
  | [] => []
  end.

(** [strcpy] to the place [i] of an array: a byte behind the array is not defined in C. *)
Fixpoint copy_string (s : list Z) (i : Z) (array : list Z) : option (list Z) :=
  match s with
  | [] => set_at i 0 array
  | c :: s => let* array := set_at i c array in copy_string s (i + 1) array
  end.

(** The name and the line are copied to two arrays of [NAMEMAX] bytes, whose sizes are not
    looked at.
    kernel/config.c:1540-1559 *)
Definition InitPgm : handler := fun pLine st =>
  let array := replicate (Z.to_nat NAMEMAX) 0 in
  let '(p, d, st) := GetStringArg pLine st in
  let* init := copy_string d 0 array in
  let* inittail := copy_string p 0 array in
  let* inittail := copy_string [13; 10] (Z.of_nat (length (cut_nul inittail))) inittail in
  Some (upd_config (set_init (cut_nul init) (cut_nul inittail) 0) st).

(** kernel/config.c:1534-1538 *)
Definition InitPgmHigh : handler := fun pLine st =>
  let* st := InitPgm pLine st in Some (upd_config (fun c => set_init (cfgInit c) (cfgInitTail c) 0x80 c) st).

(** kernel/config.c:1561-1566 *)
Definition CfgBreak : handler := fun pLine st =>
  let '(_, d, st) := GetStringArg pLine st in
  Some (upd_settings (set_break (if strcaseequal d (str "OFF") then 0 else 1)) st).

(** kernel/config.c:1568-1578 *)
Definition Numlock : handler := fun pLine st =>
  let '(_, d, st) := GetStringArg pLine st in
  let flags := Z.ldiff (keyflags (b_settings st)) 32 in
  let flags := if strcaseequal d (str "OFF") then flags else Z.lor flags 32 in
  let st := upd_settings (fun x => set_keys flags (keybuf x) x) st in
  Some (set_host (bh_keycheck (b_host st)) st).

(** kernel/config.c:2018-2022 *)
Definition SetAnyDos : handler := fun _ st => Some (upd_settings set_any st).

(** kernel/config.c:2029-2034 *)
Definition SetIdleHalt : handler := fun pLine st =>
  with_num pLine st (fun _ n st => Some (upd_settings (set_idle (u8 n)) st)).

(** kernel/config.c:2036-2039 *)
Definition CfgIgnore : handler := fun _ st => Some st.

(** ** Drivers and programs *)

(** A driver is loaded and initialised; a driver for XMS may bring upper memory.
    kernel/config.c:1602-1677 *)
Definition LoadDevice (pLine : list Z) (high : bool) (st : boot) : Z * boot :=
  let '(_, name, st) := GetStringArg pLine st in
  let '(rc, h) := bh_load name high (b_host st) in
  let st := set_host h st in
  if negb (rc =? SUCCESS) then (rc, CfgFailure st)
  else
    let '(rc, h) := bh_init_devices (strupr pLine ++ [ch " "; 13; 10]) high (b_host st) in
    let st := set_host h st in
    if UmbState (b_settings st) =? 2 then
      let '(ok, h) := bh_umb_init (b_host st) in
      let st := set_host h st in
      (rc, if (ok : bool) then upd_settings (fun x => set_umb 1 (uppermem x) (HMAState x) x) st else st)
    else (rc, st).

(** kernel/config.c:1597-1600 *)
Definition Device : handler := fun pLine st => Some (LoadDevice pLine false st).2.

(** kernel/config.c:1580-1595 *)
Definition DeviceHigh : handler := fun pLine st =>
  if UmbState (b_settings st) =? 1 then
    let '(rc, st) := LoadDevice pLine true st in
    Some (if rc =? DE_NOMEM then (LoadDevice pLine false st).2 else st)
  else Some (LoadDevice pLine false st).2.

(** The array has ten elements, of 128 bytes for the line.
    kernel/config.c:2417-2446 *)
Definition CmdInstall_ (mode : Z) : handler := fun pLine st =>
  let n := Z.of_nat (length (installs st)) in
  if 10 <? n then Some (CfgFailure st)
  else if n =? 10 then None
  else Some (set_installs (installs st ++ [(take 127 pLine, mode)]) st).

(** kernel/config.c:2447-2450 *)
Definition CmdInstall : handler := CmdInstall_ 0.
(** kernel/config.c:2451-2454 *)
Definition CmdInstallHigh : handler := CmdInstall_ 0x80.

(** The name up to a slash or a blank, and the rest as a command tail, whose length is
    written over the last character of the name in the line.
    kernel/config.c:2463-2476 *)
Fixpoint install_name (cmd : list Z) : list Z * list Z :=
  match cmd with
  | c :: cmd' => if (c <=? 0x20) || (c =? ch "/") then ([], cmd) else let '(d, r) := install_name cmd' in (c :: d, r)
  | [] => ([], [])
  end.

(** kernel/config.c:2456-2476 *)
Definition install_command (icmd : list Z) : list Z * list Z :=
  let '(name, args) := install_name (skipwh icmd) in (name, Z.of_nat (length args) :: args ++ [13]).

(** ** The environment *)

(** Bytes are put into the environment at [envp]. *)
Definition put_env (v : list Z) (env : list Z) (p : Z) : list Z :=
  take (Z.to_nat p) env ++ v ++ drop (Z.to_nat p + length v) env.

(** kernel/config.c:2549-2571 *)
Definition CmdSet : handler := fun pLine st =>
  let '(p, d, st) := GetStringArg pLine st in
  let p := skipwh p in
  if first p =? ch "=" then
    let v := strupr d ++ [ch "="] ++ skipwh (tail p) in
    let size := Z.of_nat (length v) in
    Some (if size <? Z.of_nat (length (master_env st)) - envp st - 1
          then set_env (put_env (v ++ [0]) (master_env st) (envp st)) (envp st + size + 1) st
          else st)
  else Some st.

(** ** The menu *)

(** kernel/config.c:2230-2252 *)
Definition ClearScreen (attr : Z) (st : boot) : boot := upd_asking (set_color (u8 attr)) st.

(** A line of the menu, or an echo.
    kernel/config.c:2047-2083 *)
Definition CfgMenu : handler := fun _ st =>
  let a := b_asking st in
  Some (if MenuColor a =? -1 then st else upd_asking (set_menu_line (nMenuLine a + 1)) st).

(** What it prints is left out.
    kernel/config.c:2085-2091 *)
Definition CfgMenuEsc : handler := fun _ st => Some st.

(** kernel/config.c:2206-2228 *)
Definition CfgMenuDefault : handler := fun pLine st =>
  let p := skipwh pLine in
  if negb (first p =? ch "=") then Some (CfgFailure st)
  else
    need_num (skipwh (tail p)) st (fun p n st =>
      let st := upd_asking (set_selected (u8 n)) st in
      let p := skipwh p in
      if first p =? ch "," then with_num (tail p) st (fun _ n st => Some (upd_asking (set_timeout n) st)) else Some st).

(** kernel/config.c:2257-2282 *)
Definition CfgMenuColor : handler := fun pLine st =>
  let p := skipwh pLine in
  let p := if first p =? ch "=" then skipwh (tail p) else p in
  with_num p st (fun p fg st =>
    let p := skipwh p in
    if first p =? ch "," then
      with_num (skipwh (tail p)) st (fun _ bg st => Some (ClearScreen (Z.lor (Z.shiftl (u8 bg) 4) (u8 fg)) st))
    else Some (ClearScreen (u8 fg) st)).

(** The bit of a menu. *)
Definition has_menu (i : Z) (a : asking) : bool := Z.testbit (Menus a) i.

(** What a key does to the menu; [true] ends it.
    kernel/config.c:2162-2195 *)
Definition menu_key (key : Z) (a : asking) : bool * asking :=
  if key =? 0x3f00 then (true, set_skip_all a)
  else
    let sel := MenuSelected a in
    let color := negb (MenuColor a =? -1) in
    let a :=
      if key =? 0x4200 then set_single (negb (singleStep a)) a
      else if (key =? 0x4800) && color then if (1 <=? sel) && has_menu (sel - 1) a then set_selected (sel - 1) a else a
      else if (key =? 0x5000) && color then if (sel <? 9) && has_menu (sel + 1) a then set_selected (sel + 1) a else a
      else a in
    let key := Z.land key 0xff in
    if (key =? 13) || (key =? 0x1b) then (true, a)
    else if isnum key && has_menu (key - ch "0") a then (true, set_selected (key - ch "0") a)
    else (false, a).

(** The selected line is shown, which has ten places; [n] bounds the keys and the seconds.
    kernel/config.c:2107-2196 *)
Fixpoint menu_loop (n polls : nat) (st : boot) : option boot :=
  match n with
  | O => None
  | S n =>
      let a := b_asking st in
      if negb (MenuColor a =? -1) && (9 <? MenuSelected a) then None
      else
        let* (key, h) := GetBiosKey polls (if 0 <=? MenuTimeout a then 1 else -1) (b_host st) in
        let st := set_host h st in
        if key =? 0xffff then
          if 0 <? MenuTimeout a then menu_loop n polls (upd_asking (set_timeout (MenuTimeout a - 1)) st) else Some st
        else
          let '(stop, a) := menu_key key (set_timeout (-1) a) in
          let st := upd_asking (fun _ => a) st in
          if (stop : bool) then Some st else menu_loop n polls st
  end.

(** The selection goes to the environment.
    kernel/config.c:2197-2203 *)
Definition export_menu (st : boot) : option boot :=
  let a := b_asking st in
  let v := str "CONFIG=" ++ [u8 (MenuSelected a + ch "0"); 0] in
  if Z.of_nat (length (master_env st)) <? envp st + 9 then None
  else
    let st := set_env (put_env v (master_env st) (envp st)) (envp st + 9) st in
    Some (if MenuColor a =? -1 then st else ClearScreen 7 st).

(** kernel/config.c:2093-2204 *)
Definition DoMenu (n polls : nat) (st : boot) : option boot :=
  let a := b_asking st in
  if Menus a =? 0 then Some st
  else
    let a := set_seconds (-1) a in
    let a := if MenuColor a =? -1 then set_menus (Z.lor (Menus a) 1) a else a in
    let* st := menu_loop n polls (upd_asking (fun _ => set_menu_line (nMenuLine a + 2) a) st) in
    export_menu st.

(** ** The table of commands *)

Record table := Table { entry : list Z; pass : Z; is_menu : bool; func : handler }.

(** kernel/config.c:252-300 *)
Definition commands (st : boot) : list table := [
  Table (str "SWITCHES") (switches_pass st) false CfgSwitches;
  Table (str "REM") 0 false CfgIgnore;
  Table (str ";") 0 false CfgIgnore;
  Table (str "MENUCOLOR") 0 false CfgMenuColor;
  Table (str "MENUDEFAULT") 0 false CfgMenuDefault;
  Table (str "MENU") 0 true CfgMenu;
  Table (str "ECHO") 2 true CfgMenu;
  Table (str "EECHO") 2 true CfgMenuEsc;
  Table (str "BREAK") 1 false CfgBreak;
  Table (str "BUFFERS") 1 false Config_Buffers;
  Table (str "BUFFERSHIGH") 1 false Config_Buffers;
  Table (str "COMMAND") 1 false InitPgm;
  Table (str "COUNTRY") 1 false Country;
  Table (str "DOS") 1 false Dosmem;
  Table (str "DOSDATA") 1 false DosData;
  Table (str "FCBS") 1 false Fcbs;
  Table (str "KEYBUF") 1 false CfgKeyBuf;
  Table (str "FILES") 1 false Files;
  Table (str "FILESHIGH") 1 false FilesHigh;
  Table (str "LASTDRIVE") 1 false CfgLastdrive;
  Table (str "LASTDRIVEHIGH") 1 false CfgLastdriveHigh;
  Table (str "NUMLOCK") 1 false Numlock;
  Table (str "SHELL") 1 false InitPgm;
  Table (str "SHELLHIGH") 1 false InitPgmHigh;
  Table (str "STACKS") 1 false Stacks;
  Table (str "STACKSHIGH") 1 false StacksHigh;
  Table (str "SWITCHAR") 1 false CfgSwitchar;
  Table (str "SCREEN") 1 false sysScreenMode;
  Table (str "VERSION") 1 false sysVersion;
  Table (str "ANYDOS") 1 false SetAnyDos;
  Table (str "IDLEHALT") 1 false SetIdleHalt;
  Table (str "DEVICE") 2 false Device;
  Table (str "DEVICEHIGH") 2 false DeviceHigh;
  Table (str "INSTALL") 2 false CmdInstall;
  Table (str "INSTALLHIGH") 2 false CmdInstallHigh;
  Table (str "SET") 2 false CmdSet ].

(** Behind the last entry comes the one without a name.
    kernel/config.c:856-861 *)
Definition LookUp (token : list Z) (st : boot) : table :=
  default (Table [] (-1) false (fun _ st => Some (CfgFailure st)))
    (find (fun t => strcaseequal (entry t) token) (commands st)).

(** ** The passes *)

Context (keys polls : nat).

(** Behind the verb: the argument, or [None] where the line is a fault.
    kernel/config.c:832-843 *)
Definition argument (menu : bool) (p : list Z) : option (list Z) :=
  if menu then Some (skipwh (tail p))
  else if negb (existsb (Z.eqb (first p)) [ch " "; 9; ch "="]) then None
  else let p := skipwh p in Some (if first p =? ch "=" then skipwh (tail p) else p).

(** One line.
    kernel/config.c:808-846 *)
Definition config_line (nPass : Z) (line : list Z) (st : boot) : option boot :=
  let '(p, d, st) := scan line st in
  match d with
  | [] => Some st
  | _ =>
      let e := LookUp d st in
      if (0 <=? pass e) && negb (pass e =? nPass) then Some st
      else if nPass =? 0 then func e p st
      else
        let* (skip, st) := SkipLine keys polls st in
        if (skip : bool) then Some st
        else match argument (is_menu e) p with
             | None => Some (CfgFailure st)
             | Some p => func e p st
             end
  end.

(** The characters of the file; [line] is what has been read of a line.
    kernel/config.c:730-847 *)
Fixpoint config_loop (nPass : Z) (f line : list Z) (st : boot) : option boot :=
  let run st := let* st := config_line nPass (cut_nul line) st in Some (set_nCfgLine (u16 (nCfgLine st + 1)) st) in
  match f with
  | [] => run st
  | c :: f =>
      if 253 <=? Z.of_nat (length line) then let* st := run (CfgFailure st) in config_loop nPass f [] st
      else if (c =? 10) || (c =? 0x1a) then let* st := run st in config_loop nPass f [] st
      else config_loop nPass f (if c =? 13 then line else line ++ [c]) st
  end.

(** kernel/config.c:630-854 *)
Definition DoConfig (nPass : Z) (st : boot) : option boot :=
  let st := if nPass =? 0 then upd_settings (set_idle 0) st else st in
  let file := match bh_file (str "fdconfig.sys") (b_host st) with
              | Some f => Some f
              | None => bh_file (str "config.sys") (b_host st)
              end in
  match file with
  | None => Some st
  | Some f =>
      let* st := config_loop nPass f [] (set_nCfgLine 0 st) in
      if nPass =? 0 then DoMenu keys polls st else Some st
  end.

(** The three passes; between the second and the third, the memory is laid out.
    kernel/main.c:328-334 *)
Definition configure (st : boot) : option boot :=
  let* st := DoConfig 0 st in
  let* st := DoConfig 1 st in
  DoConfig 2 st.

End config.

(** As the start finds things. *)
Definition initial {H} (x : settings) (seconds : Z) (h : H) : boot H :=
  Boot Config (Asking false false false false seconds (-1) 0 0 0 (-1) 0) x 0 (replicate 128 0) [] 0 (replicate 128 0) 0 [] h.
