(* ===== verification/ConfigSpec.v ===== *)
(** * The configuration: what a line can change

    The parts of the state that a command leaves alone, invariants of the three passes,
    and the environment and the settings that they keep in order. *)

From S2P Require Import Prelude Hdr Bytes Config.

#[local] Create HintDb cfg_sound.

(** ** Characters of a line *)

Lemma skipwh_in s : skipwh s ⊆ s.
Proof. induction s as [|c s IH]; cbn [skipwh]; [done|]. destruct (iswh c); [set_solver|done]. Qed.

Lemma tail_in (s : list Z) : tail s ⊆ s.
Proof. destruct s; set_solver. Qed.

Lemma skip_tail_in s : skipwh (tail s) ⊆ s.
Proof. etransitivity; [apply skipwh_in|apply tail_in]. Qed.

Lemma scan_digits_in s : forall n, (scan_digits n s).2 ⊆ s.
Proof.
  induction s as [|c s IH]; intros n; cbn [scan_digits]; [done|]. destruct (isnum c); [|done].
  etransitivity; [apply IH|]. set_solver.
Qed.

Lemma scan_verb_in s : let '(d, _, r) := scan_verb s in d ⊆ s /\ r ⊆ s.
Proof.
  induction s as [|c s IH]; cbn [scan_verb]; [done|]. destruct (_ || _); [set_solver|].
  destruct (scan_verb s) as [[d ask] r]. destruct IH as [Hd Hr]. destruct (c =? _); set_solver.
Qed.

Lemma scan_in {H} s (st st' : boot H) p d : scan s st = (p, d, st') -> p ⊆ s /\ d ⊆ s.
Proof.
  unfold scan. pose proof (skipwh_in s) as H0. set (s0 := skipwh s) in *.
  destruct (if isnum (first s0) then _ else _) as [[line menus] s1] eqn:E1.
  assert (H1 : s1 ⊆ s0).
  { destruct (isnum _); [|by injection E1 as _ _ <-]. pose proof (scan_digits_in s0 0) as Hd.
    destruct (scan_digits 0 s0) as [n r]. destruct (_ =? _); injection E1 as _ _ <-; [|done].
    etransitivity; [apply skip_tail_in|exact Hd]. }
  destruct (if first s1 =? ch "!" then _ else _) as [dont s2] eqn:E2.
  assert (H2 : s2 ⊆ s1) by (destruct (_ =? _) in E2; injection E2 as _ <-; [apply skip_tail_in|done]).
  destruct (if first s2 =? ch ";" then _ else _) as [[d' ask] s3] eqn:E3.
  assert (H3 : d' ⊆ s2 /\ s3 ⊆ s2).
  { destruct (Z.eqb_spec (first s2) (ch ";")) as [Ef|_].
    - injection E3 as <- _ <-. split; [|apply tail_in]. destruct s2 as [|c r]; [done|]. cbn in Ef. subst c. set_solver.
    - pose proof (scan_verb_in s2) as Hv. by rewrite E3 in Hv. }
  intros [= <- <- _]. set_solver.
Qed.

Lemma argument_in menu p q : argument menu p = Some q -> q ⊆ p.
Proof.
  unfold argument. destruct menu; [intros [= <-]; apply skip_tail_in|]. destruct (negb _); [done|]. intros [= <-].
  destruct (_ =? _); [|apply skipwh_in]. etransitivity; [apply skip_tail_in|apply skipwh_in].
Qed.

Lemma cut_nul_in l : 0 ∉ cut_nul l.
Proof. induction l as [|c l IH]; cbn; [by intros ?%elem_of_nil|]. destruct (Z.eqb_spec c 0); [by intros ?%elem_of_nil|set_solver]. Qed.

Section frame.
  Context {H : Type} `{!BootHost H}.

#[local] Abbreviation boot := (boot H).

(** ** Parts of the state that reading a line does not touch *)

Section obs.
  Context {X : Type} (obs : boot -> X).
  Context (obs_asking : forall f st, obs (upd_asking f st) = obs st).
  Context (obs_reported : forall bits l st, obs (set_reported bits l st) = obs st).
  Context (obs_host : forall h st, obs (set_host h st) = obs st).

Lemma CfgFailure_obs st : obs (CfgFailure st) = obs st.
Proof. unfold CfgFailure. by repeat case_match. Qed.

Lemma scan_obs s st p d st' : scan s st = (p, d, st') -> obs st' = obs st.
Proof.
  unfold scan. intros E. repeat match type of E with context [let '(_, _) := ?x in _] => destruct x as [? ?] eqn:? end.
  repeat match goal with x : _ * _ |- _ => destruct x end. injection E as <- <- <-. apply obs_asking.
Qed.

Lemma GetNumArg_obs p st r st' : GetNumArg p st = (r, st') -> obs st' = obs st.
Proof.
  unfold GetNumArg. destruct (_ =? _); [destruct (number _ _ _); by intros [= <- <-]|].
  destruct (negb _); [intros [= <- <-]; apply CfgFailure_obs|]. destruct (number _ _ _). by intros [= <- <-].
Qed.

Lemma ask_line_obs n polls st b st' : ask_line n polls st = Some (b, st') -> obs st' = obs st.
Proof.
  revert st. induction n as [|n IH]; intros st; [done|]. cbn [ask_line]. destruct (GetBiosKey _ _ _) as [[key h]|]; [|done].
  repeat case_match; try (intros [= <- <-]; by rewrite ?obs_asking, obs_host).
  intros E. apply IH in E. by rewrite E, obs_host.
Qed.

Lemma SkipLine_obs n polls st b st' : SkipLine n polls st = Some (b, st') -> obs st' = obs st.
Proof.
  unfold SkipLine, first_question. intros E.
  assert (exists st1, obs st1 = obs st /\ (Some (b, st') = Some (true, st1) \/ Some (b, st') = Some (false, st1) \/
    ask_line n polls st1 = Some (b, st'))) as (st1 & Ho & [[= _ ->]|[[= _ ->]|Ha]]); [|done|done|].
  { destruct (0 <=? _).
    - destruct (GetBiosKey _ _ _) as [[key h]|]; [|done]. eexists. split; [by rewrite obs_host, obs_asking|].
      repeat case_match; [by left|by left|by right; left|by right; left|by right; right].
    - exists st. split; [done|]. repeat case_match; [by left|by left|by right; left|by right; left|by right; right]. }
  apply ask_line_obs in Ha. congruence.
Qed.

End obs.

(** ** Invariants of a pass *)

Section invariant.
  Context (keys polls : nat) (P : boot -> Prop) (nPass : Z).
  Context (P_asking : forall f st, P st -> P (upd_asking f st)).
  Context (P_reported : forall bits l st, P st -> P (set_reported bits l st)).
  Context (P_host : forall h st, P st -> P (set_host h st)).
  Context (P_line : forall n st, P st -> P (set_nCfgLine n st)).
  Context (P_func : forall t p st st', t ∈ commands st -> pass t = nPass \/ pass t < 0 -> 0 ∉ p -> P st -> func t p st = Some st' -> P st').

Lemma CfgFailure_inv st : P st -> P (CfgFailure st).
Proof. unfold CfgFailure. intros. repeat case_match; auto. Qed.

Lemma scan_inv s st p d st' : P st -> scan s st = (p, d, st') -> P st'.
Proof.
  unfold scan. intros Hp E. repeat match type of E with context [let '(_, _) := ?x in _] => destruct x as [? ?] eqn:? end.
  repeat match goal with x : _ * _ |- _ => destruct x end. injection E as <- <- <-. by apply P_asking.
Qed.

Lemma ask_line_inv n st b st' : P st -> ask_line n polls st = Some (b, st') -> P st'.
Proof.
  revert st. induction n as [|n IH]; intros st Hp; [done|]. cbn [ask_line]. destruct (GetBiosKey _ _ _) as [[key h]|]; [|done].
  repeat case_match; try (intros [= <- <-]; auto). intros E. by apply IH in E; auto.
Qed.

Lemma SkipLine_inv st b st' : P st -> SkipLine keys polls st = Some (b, st') -> P st'.
Proof.
  unfold SkipLine, first_question. intros Hp.
  assert (Hgo : forall st1, P st1 ->
    (let a := b_asking st1 in
     if SkipAllConfig a then Some (true, st1)
     else if negb (MenuLine a =? 0) && negb (Z.testbit (MenuLine a) (MenuSelected a)) then Some (true, st1)
     else if DontAskThisSingleCommand a then Some (false, st1)
     else if negb (askThisSingleCommand a) && negb (singleStep a) then Some (false, st1)
     else ask_line keys polls st1) = Some (b, st') -> P st').
  { intros st1 H1. cbv zeta. repeat case_match; try (by intros [= _ <-]). by apply ask_line_inv. }
  destruct (0 <=? _); [|by apply Hgo]. destruct (GetBiosKey _ _ _) as [[key h]|]; [|done]. apply Hgo. auto.
Qed.

Lemma config_line_inv line st st' : 0 ∉ line -> P st -> config_line keys polls nPass line st = Some st' -> P st'.
Proof.
  unfold config_line. intros Hline Hp. destruct (scan line st) as [[p d] st1] eqn:Es.
  destruct (scan_in _ _ _ _ _ Es) as [Hin _]. assert (Hp0 : 0 ∉ p) by set_solver. pose proof (scan_inv _ _ _ _ _ Hp Es) as H1.
  destruct d as [|c d]; [by intros [= <-]|]. set (tok := c :: d). unfold LookUp.
  destruct (find _ (commands st1)) as [t|] eqn:Ef; cbn [from_option id]; cbv zeta.
  - apply find_some in Ef as [Ht _]. apply list_elem_of_In in Ht.
    destruct ((0 <=? pass t) && negb (pass t =? nPass)) eqn:Ep; [by intros [= <-]|].
    assert (pass t = nPass \/ pass t < 0) as Hpass.
    { apply andb_false_iff in Ep as [Ep|Ep]; [right; by apply Z.leb_gt in Ep|left; by apply negb_false_iff, Z.eqb_eq in Ep]. }
    destruct (nPass =? 0); [by apply P_func|]. destruct (SkipLine _ _ st1) as [[skip st2]|] eqn:Ek; [|done].
    pose proof (SkipLine_inv _ _ _ H1 Ek) as H2. destruct skip; [by intros [= <-]|].
    destruct (argument _ _) as [q|] eqn:Ea; [|intros [= <-]; by apply CfgFailure_inv]. intros E. apply argument_in in Ea.
    assert (Hc : switches_pass st2 = switches_pass st1).
    { by apply (SkipLine_obs switches_pass) in Ek. }
    apply (P_func t q st2 st'); [|done|set_solver|done|done]. unfold commands. rewrite Hc. exact Ht.
  - cbn [pass func]. change (0 <=? -1) with false. cbn [andb]. destruct (nPass =? 0); [intros [= <-]; by apply CfgFailure_inv|].
    destruct (SkipLine _ _ st1) as [[skip st2]|] eqn:Ek; [|done]. pose proof (SkipLine_inv _ _ _ H1 Ek) as H2.
    destruct skip; [by intros [= <-]|]. destruct (argument _ _); intros [= <-]; by apply CfgFailure_inv.
Qed.

Lemma config_loop_inv f line st st' : P st -> config_loop keys polls nPass f line st = Some st' -> P st'.
Proof.
  revert line st. induction f as [|c f IH]; intros line st Hp; cbn [config_loop].
  - destruct (config_line _ _ _ _ st) as [s1|] eqn:E; [|done]. intros [= <-]. apply P_line. by apply (config_line_inv _ _ _ (cut_nul_in _) Hp E).
  - destruct (253 <=? _); [|destruct ((c =? 10) || (c =? 0x1a)); [|by apply IH]].
    + destruct (config_line _ _ _ _ (CfgFailure st)) as [s1|] eqn:E; [|done]. apply IH, P_line.
      by apply (config_line_inv _ _ _ (cut_nul_in _) (CfgFailure_inv _ Hp) E).
    + destruct (config_line _ _ _ _ st) as [s1|] eqn:E; [|done]. apply IH, P_line. by apply (config_line_inv _ _ _ (cut_nul_in _) Hp E).
Qed.

End invariant.

(** The menu changes what is asked and, at its end, the environment. *)
Lemma menu_loop_obs {X} (obs : boot -> X) n polls st st' :
  (forall f st, obs (upd_asking f st) = obs st) -> (forall h st, obs (set_host h st) = obs st) ->
  menu_loop n polls st = Some st' -> obs st' = obs st.
Proof.
  intros Ha Hh. revert st. induction n as [|n IH]; intros st; [done|]. cbn [menu_loop].
  destruct (_ && _); [done|]. destruct (GetBiosKey _ _ _) as [[key h]|]; [|done].
  destruct (key =? _); [destruct (0 <? _); [intros E; apply IH in E; by rewrite E, Ha, Hh|intros [= <-]; by rewrite Hh]|].
  destruct (menu_key _ _) as [stop a]. destruct stop; [intros [= <-]; by rewrite Ha, Hh|].
  intros E. apply IH in E. by rewrite E, Ha, Hh.
Qed.

(** ** What a command keeps *)

(** The settings in their bounds. *)
Record config_ok (c : config) : Prop := {
  ok_lastdrive : 5 <= cfgLastdrive c <= 26;
  ok_buffers : 0 <= cfgBuffers c <= 255;
  ok_files : 0 <= cfgFiles c <= 255;
  ok_fcbs : 0 <= cfgProtFcbs c <= cfgFcbs c /\ cfgFcbs c <= 255;
  ok_stacks : cfgStacks c = 0 \/ 1 <= cfgStacks c <= 64 /\ 32 <= cfgStackSize c <= 512;
  ok_mode : cfgP_0_startmode c = 0 \/ cfgP_0_startmode c = 0x80;
  ok_ebda : ebda2move c = 0 \/ ebda2move c = 0xffff \/ 48 <= ebda2move c <= 1024 /\ ebda2move c mod 16 = 0 }.

Definition env_part (st : boot) : list Z * Z := (master_env st, envp st).

(** The environment stays, and the settings stay in their bounds. *)
Definition keeps (st st' : boot) : Prop := env_part st' = env_part st /\ (config_ok (b_config st) -> config_ok (b_config st')).

#[local] Instance keeps_preorder : PreOrder keeps.
Proof. split; [by intros st|]. intros a b c [E1 H1] [E2 H2]. split; [congruence|auto]. Qed.

Lemma keeps_same st st' : env_part st' = env_part st -> b_config st' = b_config st -> keeps st st'.
Proof. intros E1 E2. split; [done|]. by rewrite E2. Qed.

Lemma keeps_asking f st : keeps st (upd_asking f st).
Proof. by apply keeps_same. Qed.
Lemma keeps_settings f st : keeps st (upd_settings f st).
Proof. by apply keeps_same. Qed.
Lemma keeps_host h st : keeps st (set_host h st).
Proof. by apply keeps_same. Qed.
Lemma keeps_pass n st : keeps st (set_switches_pass n st).
Proof. by apply keeps_same. Qed.
Lemma keeps_installs l st : keeps st (set_installs l st).
Proof. by apply keeps_same. Qed.
Lemma keeps_config f st : (config_ok (b_config st) -> config_ok (f (b_config st))) -> keeps st (upd_config f st).
Proof. by split. Qed.
Lemma keeps_failure st : keeps st (CfgFailure st).
Proof. apply keeps_same; by apply CfgFailure_obs. Qed.

Lemma keeps_scan s st p d st' : scan s st = (p, d, st') -> keeps st st'.
Proof. intros E. apply keeps_same; refine (scan_obs _ _ _ _ _ _ _ E); done. Qed.
Lemma num_parts p st r st' : GetNumArg p st = (r, st') -> env_part st' = env_part st /\ b_config st' = b_config st.
Proof. intros E. split; refine (GetNumArg_obs _ _ _ _ _ _ E); done. Qed.
Lemma keeps_num p st r st' : GetNumArg p st = (r, st') -> keeps st st'.
Proof. intros E. apply keeps_same; by eapply num_parts. Qed.

Definition sound (h : handler) : Prop := forall p st st', h p st = Some st' -> keeps st st'.

Lemma keeps_with_num p st st' k : (forall p n s, k p n s = Some st' -> keeps s st') -> with_num p st k = Some st' -> keeps st st'.
Proof.
  intros Hk. unfold with_num. destruct (GetNumArg p st) as [[[q n]|] s] eqn:E; apply keeps_num in E.
  - intros Ek. etransitivity; [exact E|by eapply Hk].
  - by intros [= <-].
Qed.
Lemma keeps_need_num p st st' k : (forall p n s, k p n s = Some st' -> keeps s st') -> need_num p st k = Some st' -> keeps st st'.
Proof.
  intros Hk. unfold need_num. destruct (GetNumArg p st) as [[[q n]|] s] eqn:E; apply keeps_num in E; [|done].
  intros Ek. etransitivity; [exact E|by eapply Hk].
Qed.

(** Backwards over the steps of a command. *)
Ltac keeps_steps :=
  repeat match goal with
    | |- keeps ?s ?s => reflexivity
    | |- keeps _ (upd_asking _ _) => etransitivity; [|apply keeps_asking]
    | |- keeps _ (upd_settings _ _) => etransitivity; [|apply keeps_settings]
    | |- keeps _ (set_host _ _) => etransitivity; [|apply keeps_host]
    | |- keeps _ (set_switches_pass _ _) => etransitivity; [|apply keeps_pass]
    | |- keeps _ (set_installs _ _) => etransitivity; [|apply keeps_installs]
    | |- keeps _ (CfgFailure _) => etransitivity; [|apply keeps_failure]
    | |- keeps _ (upd_config _ _) => etransitivity; [|apply keeps_config]
    | G : scan _ _ = (_, _, ?s) |- keeps _ ?s => etransitivity; [|apply (keeps_scan _ _ _ _ _ G)]
    | G : GetStringArg _ _ = (_, _, ?s) |- keeps _ ?s => etransitivity; [|apply (keeps_scan _ _ _ _ _ G)]
    | G : GetNumArg _ _ = (_, ?s) |- keeps _ ?s => etransitivity; [|apply (keeps_num _ _ _ _ G)]
    | E : with_num _ _ _ = Some ?s |- keeps _ ?s => revert E; apply keeps_with_num; intros
    | E : need_num _ _ _ = Some ?s |- keeps _ ?s => revert E; apply keeps_need_num; intros
    | E : Some _ = Some _ |- _ => injection E as <-
    | E : None = Some _ |- _ => discriminate E
    | |- keeps _ (match ?x with _ => _ end) => destruct x eqn:?
    | E : match ?x with _ => _ end = Some _ |- _ => destruct x eqn:?
    | E : Some (match ?x with _ => _ end) = Some _ |- _ => destruct x eqn:?
    end.

(** A setting that changes one field. *)
Ltac ok_settings := intros []; constructor; cbn; repeat case_match; try lia; try done.

Lemma sound_buffers : sound Config_Buffers.
Proof. intros p st st' E. unfold Config_Buffers in E. keeps_steps. pose proof (u8_range n). ok_settings. Qed.

Lemma sound_screen : sound sysScreenMode.
Proof. intros p st st' E. unfold sysScreenMode in E. keeps_steps. Qed.

Lemma sound_version : sound sysVersion.
Proof. intros p st st' E. unfold sysVersion in E. destruct (behind _ p); [|by injection E as <-]. keeps_steps. Qed.

Lemma sound_files : sound Files.
Proof. intros p st st' E. unfold Files in E. keeps_steps. pose proof (u8_range (Z.max (cfgFiles (b_config s)) n)). ok_settings. Qed.

Lemma sound_files_high : sound FilesHigh.
Proof.
  intros p st st' E. unfold FilesHigh in E. destruct (Files p st) eqn:F; [|done]. apply sound_files in F. injection E as <-.
  etransitivity; [exact F|]. apply keeps_config. ok_settings.
Qed.

Lemma sound_lastdrive : sound CfgLastdrive.
Proof.
  intros p st st' E. unfold CfgLastdrive in E. set (drv := toupper _) in E.
  destruct ((drv <? ch "A") || (ch "Z" <? drv)) eqn:Ed; keeps_steps.
  apply orb_false_iff in Ed as [H1%Z.ltb_ge H2%Z.ltb_ge]. change (ch "A") with 65 in *. change (ch "Z") with 90 in *. ok_settings.
Qed.

Lemma sound_lastdrive_high : sound CfgLastdriveHigh.
Proof.
  intros p st st' E. unfold CfgLastdriveHigh in E. destruct (CfgLastdrive p st) eqn:F; [|done]. apply sound_lastdrive in F.
  injection E as <-. etransitivity; [exact F|]. apply keeps_config. ok_settings.
Qed.

Lemma sound_dosmem : sound Dosmem.
Proof.
  intros p st st' E. unfold Dosmem in E. keeps_steps.
Qed.

Lemma sound_dosdata : sound DosData.
Proof. intros p st st' E. unfold DosData in E. keeps_steps. ok_settings. Qed.

Lemma sound_switchar : sound CfgSwitchar.
Proof. intros p st st' E. unfold CfgSwitchar in E. keeps_steps. Qed.

Definition ebda_round (n : Z) : Z := Z.land (n + 15) 0xfff0.

Lemma forallb_seqZ (f : Z -> bool) a n : forallb f (seqZ a n) = true -> forall x, a <= x < a + n -> f x = true.
Proof. intros Hf x Hx. rewrite forallb_forall in Hf. apply Hf, list_elem_of_In, elem_of_seqZ, Hx. Qed.

Lemma ebda_keeps p st : keeps st (ebda_switch p st).2.
Proof.
  unfold ebda_switch. set (q := if first p =? ch ":" then tail p else p). destruct (negb _); [reflexivity|].
  destruct (number 10 0 q) as [n r]. destruct (n =? -1); [apply keeps_config; ok_settings|].
  destruct ((48 <=? n) && (n <=? 1024)) eqn:En; [|apply keeps_failure]. apply keeps_config. apply andb_prop in En as [H1%Z.leb_le H2%Z.leb_le].
  pose proof (forallb_seqZ (fun n => (48 <=? ebda_round n) && (ebda_round n <=? 1024) && (ebda_round n mod 16 =? 0)) 48 977 ltac:(vm_compute; reflexivity) n ltac:(lia)) as Hr.
  unfold ebda_round in Hr. ok_settings.
Qed.

Lemma sound_switches : sound CfgSwitches.
Proof.
  assert (Hloop : forall n p st st', switch_loop n p st = Some st' -> keeps st st').
  { induction n as [|n IH]; intros p st st' E; [done|]. cbn [switch_loop] in E.
    destruct p as [|c p]; [by injection E as <-|]. destruct (c =? _).
    - destruct p as [|o p]; [done|]. cbv zeta in E. set (u := toupper o) in E.
      destruct (u =? ch "K"); [apply IH in E; etransitivity; [|exact E]; keeps_steps|].
      destruct (u =? ch "N"); [apply IH in E; etransitivity; [|exact E]; keeps_steps|].
      destruct (u =? ch "F"); [apply IH in E; etransitivity; [|exact E]; keeps_steps|].
      destruct (u =? ch "E"); [|apply IH in E; etransitivity; [|exact E]; keeps_steps].
      pose proof (ebda_keeps p st) as K. destruct (ebda_switch p st) as [q s]. apply IH in E. etransitivity; [exact K|exact E].
    - apply IH in E. etransitivity; [|exact E]. keeps_steps. }
  intros p st st' E. unfold CfgSwitches in E. cbv zeta in E. set (q := if first (skipwh p) =? ch "=" then skipwh (tail (skipwh p)) else skipwh p) in E.
  destruct (switch_loop _ q st) eqn:F; [|done]. apply Hloop in F. injection E as <-. etransitivity; [exact F|apply keeps_pass].
Qed.

Lemma sound_fcbs : sound Fcbs.
Proof.
  intros p st st' E. unfold Fcbs in E. revert E. apply keeps_with_num. clear. intros p n s [= <-].
  pose proof (u8_range n) as Hn. set (f := fun c => if cfgFcbs c <? cfgProtFcbs c then _ else c).
  assert (Hf : forall m s', env_part s' = env_part s ->
    b_config s' = set_fcbs (u8 n) m (b_config s) -> 0 <= m <= 255 \/ m = cfgProtFcbs (b_config s) -> keeps s (upd_config f s')).
  { intros m s' E1 E2 Hm. split; [exact E1|]. change (b_config (upd_config f s')) with (f (b_config s')). rewrite E2.
    intros []. unfold f. cbn. destruct (Z.ltb_spec (u8 n) m); constructor; cbn; try done; lia. }
  destruct (first (skipwh p) =? ch ","); [|apply (Hf (cfgProtFcbs (b_config s))); [done|done|by right]].
  set (s1 := upd_config _ s). unfold second_num.
  destruct (GetNumArg _ s1) as [[[q k]|] s2] eqn:G; apply num_parts in G as [E1 E2].
  - apply (Hf (u8 k)); [exact E1|cbn; by rewrite E2|left; pose proof (u8_range k); lia].
  - apply (Hf (u8 n)); [exact E1|cbn; by rewrite E2|left; lia].
Qed.

Lemma clip_stacks_ok c : let d := clip_stacks c in
  0 <= cfgStacks c -> cfgStacks d = 0 \/ 1 <= cfgStacks d <= 64 /\ 32 <= cfgStackSize d <= 512.
Proof.
  unfold clip_stacks. destruct (Z.eqb_spec (cfgStacks c) 0) as [E|E]; [by left|]. cbn. intros H0. right.
  repeat case_match; lia.
Qed.

Lemma sound_stacks : sound Stacks.
Proof.
  intros p st st' E. unfold Stacks in E. revert E. apply keeps_need_num. clear. intros p n s [= <-].
  pose proof (u8_range n) as Hn.
  set (f := fun c => let c := clip_stacks c in _).
  assert (Hf : forall m s', env_part s' = env_part s -> b_config s' = set_stacks (u8 n) m (cfgStacksHigh (b_config s)) (b_config s) ->
    keeps s (upd_config f s')).
  { intros m s' E1 E2. split; [exact E1|]. change (b_config (upd_config f s')) with (f (b_config s')). intros [].
    pose proof (clip_stacks_ok (b_config s')) as Hc. cbv zeta in Hc. unfold f.
    assert (exists a b h, clip_stacks (b_config s') = set_stacks a b h (b_config s)) as (a & b & h & Ec).
    { rewrite E2. unfold clip_stacks. case_match; by repeat eexists. }
    rewrite Ec in *. constructor; cbn in *; try done. apply Hc. rewrite E2. cbn. lia. }
  destruct (first (skipwh p) =? ch ","); [|by apply (Hf (cfgStackSize (b_config s)))].
  set (s1 := upd_config _ s). unfold second_num.
  destruct (GetNumArg _ s1) as [[[q k]|] s2] eqn:G; apply num_parts in G as [E1 E2].
  - apply (Hf (u16 k)); [exact E1|cbn; by rewrite E2].
  - apply (Hf (u16 n)); [exact E1|cbn; by rewrite E2].
Qed.

Lemma sound_stacks_high : sound StacksHigh.
Proof.
  intros p st st' E. unfold StacksHigh in E. destruct (Stacks p st) eqn:F; [|done]. apply sound_stacks in F.
  injection E as <-. etransitivity; [exact F|]. apply keeps_config. ok_settings.
Qed.

Lemma sound_init : sound InitPgm.
Proof.
  intros p st st' E. unfold InitPgm in E. destruct (GetStringArg p st) as [[q d] s] eqn:G.
  destruct (copy_string d _ _) as [a|]; [|done]. destruct (copy_string q _ _) as [b|]; [|done].
  destruct (copy_string _ _ b) as [b'|]; [|done]. keeps_steps. ok_settings.
Qed.

Lemma sound_init_high : sound InitPgmHigh.
Proof.
  intros p st st' E. unfold InitPgmHigh in E. destruct (InitPgm p st) eqn:F; [|done]. apply sound_init in F.
  injection E as <-. etransitivity; [exact F|]. apply keeps_config. ok_settings.
Qed.

Lemma sound_break : sound CfgBreak.
Proof. intros p st st' E. unfold CfgBreak in E. keeps_steps. Qed.

Lemma sound_numlock : sound Numlock.
Proof. intros p st st' E. unfold Numlock in E. keeps_steps. Qed.

Lemma sound_keybuf : sound CfgKeyBuf.
Proof.
  assert (Hk : forall a b st, keeps st (place_keybuf a b st)) by (intros; unfold place_keybuf; cbv zeta; keeps_steps).
  intros p st st' E. unfold CfgKeyBuf in E. revert E. apply keeps_with_num. intros q n s E.
  destruct (first (skipwh q) =? ch ","); [|injection E as <-; apply Hk].
  revert E. apply keeps_with_num. intros _ b s1 [= <-]. apply Hk.
Qed.

Lemma keeps_country f c cp st ok st' : LoadCountryInfo f c cp st = Some (ok, st') -> keeps st st'.
Proof.
  unfold LoadCountryInfo. cbv zeta. repeat case_match; intros [= <- <-]; apply keeps_settings.
Qed.

Lemma sound_country : sound Country.
Proof.
  assert (Hrest : forall p c st st', country_rest p c st = Some st' -> keeps st st').
  { intros p c st st' E. unfold country_rest in E. cbv zeta in E.
    assert (Hload : forall f cp s, (let* (ok, s1) := LoadCountryInfo f (u16 c) (u16 cp) s in Some (if ok : bool then s1 else CfgFailure s1)) = Some st' -> keeps s st').
    { intros f cp s F. destruct (LoadCountryInfo _ _ _ s) as [[ok s1]|] eqn:L; [|done]. apply keeps_country in L.
      etransitivity; [exact L|]. keeps_steps. }
    destruct (first (skipwh p) =? ch ","); [|by apply Hload in E].
    assert (Hfile : forall q cp s, (if first (skipwh q) =? ch "," then let '(_, d, s1) := GetStringArg (tail (skipwh q)) s in
        (let* (ok, s2) := LoadCountryInfo (Some d) (u16 c) (u16 cp) s1 in Some (if ok : bool then s2 else CfgFailure s2))
      else (let* (ok, s2) := LoadCountryInfo None (u16 c) (u16 cp) s in Some (if ok : bool then s2 else CfgFailure s2))) = Some st' -> keeps s st').
    { intros q cp s F. destruct (first (skipwh q) =? ch ","); [|by apply Hload in F]. destruct (GetStringArg _ s) as [[r d] s1] eqn:G.
      apply keeps_scan in G. apply Hload in F. by etransitivity. }
    destruct (first (skipwh (tail (skipwh p))) =? ch ","); [by apply Hfile in E|]. destruct (GetNumArg _ st) as [[[q cp]|] s] eqn:G; apply keeps_num in G.
    - apply Hfile in E. by etransitivity.
    - injection E as <-. etransitivity; [exact G|apply keeps_failure]. }
  intros p st st' E. unfold Country in E. destruct (GetNumArg p st) as [[[q n]|] s] eqn:G; apply keeps_num in G.
  - apply Hrest in E. by etransitivity.
  - injection E as <-. etransitivity; [exact G|apply keeps_failure].
Qed.

Lemma keeps_load p high st : keeps st (LoadDevice p high st).2.
Proof.
  unfold LoadDevice. destruct (GetStringArg p st) as [[q name] s] eqn:G. destruct (bh_load name high _) as [rc h].
  destruct (negb _); [cbn; keeps_steps|]. destruct (bh_init_devices _ _ _) as [rc2 h2].
  destruct (_ =? 2); [destruct (bh_umb_init _) as [ok h3]|]; cbn [snd]; keeps_steps.
Qed.

Lemma sound_device : sound Device.
Proof. intros p st st' [= <-]. apply keeps_load. Qed.

Lemma sound_device_high : sound DeviceHigh.
Proof.
  intros p st st' E. unfold DeviceHigh in E. destruct (_ =? 1); [|injection E as <-; apply keeps_load].
  pose proof (keeps_load p true st) as K. destruct (LoadDevice p true st) as [rc s]. cbn in K. injection E as <-.
  destruct (_ =? _); [|exact K]. etransitivity; [exact K|apply keeps_load].
Qed.

Lemma sound_install : sound CmdInstall /\ sound CmdInstallHigh.
Proof. split; intros p st st' E; unfold CmdInstall, CmdInstallHigh, CmdInstall_ in E; cbv zeta in E; keeps_steps. Qed.

Lemma sound_menu_default : sound CfgMenuDefault.
Proof. intros p st st' E. unfold CfgMenuDefault in E. cbv zeta in E. keeps_steps. Qed.

Lemma sound_menu_color : sound CfgMenuColor.
Proof.
  assert (Hc : forall a st, keeps st (ClearScreen a st)) by (intros; apply keeps_asking).
  intros p st st' E. unfold CfgMenuColor in E. cbv zeta in E. revert E. apply keeps_with_num. intros q fg s E.
  destruct (_ =? _); [|injection E as <-; apply Hc]. revert E. apply keeps_with_num. intros _ bg s1 [= <-]. apply Hc.
Qed.

#[local] Hint Resolve sound_switches sound_menu_color sound_menu_default sound_break sound_buffers sound_init sound_country
  sound_dosmem sound_dosdata sound_fcbs sound_keybuf sound_files sound_files_high sound_lastdrive sound_lastdrive_high
  sound_numlock sound_init_high sound_stacks sound_stacks_high sound_switchar sound_screen sound_version sound_device
  sound_device_high : cfg_sound.

(** All commands but [SET]. *)
Lemma sound_commands t st : t ∈ commands st -> func t = CmdSet /\ pass t = 2 \/ sound (func t).
Proof.
  intros Ht.
  assert (Hskip : sound CfgIgnore /\ sound CfgMenu /\ sound CfgMenuEsc /\ sound SetAnyDos /\ sound SetIdleHalt).
  { split_and!; intros p s s' E; try injection E as <-; try reflexivity; try apply keeps_settings.
    - destruct (_ =? _); [reflexivity|apply keeps_asking].
    - unfold SetIdleHalt in E. keeps_steps. }
  destruct Hskip as (Hi & Hm & He & Ha & Hh), sound_install as [Hi1 Hi2]. unfold commands in Ht.
  repeat (apply elem_of_cons in Ht as [->|Ht]; [cbn [func pass]; first [by left|right; solve [auto with cfg_sound]]|]).
  by apply elem_of_nil in Ht.
Qed.

(** ** The environment *)

(** The variables, each with its NUL, and NULs up to the end. *)
Definition environment (vars : list (list Z)) : list Z :=
  concat (map (fun v => v ++ [0]) vars).

Record env_ok (vars : list (list Z)) (st : boot) : Prop := {
  env_bytes : master_env st = environment vars ++ replicate (128 - length (environment vars)) 0;
  env_end : envp st = Z.of_nat (length (environment vars));
  env_room : (length (environment vars) <= 127)%nat }.

Lemma environment_snoc vars v : environment (vars ++ [v]) = environment vars ++ v ++ [0].
Proof. unfold environment. rewrite map_app, concat_app. cbn. by rewrite app_nil_r. Qed.

Lemma put_env_app v (a : list Z) n : (length v <= n)%nat ->
  put_env v (a ++ replicate n 0) (Z.of_nat (length a)) = a ++ v ++ replicate (n - length v) 0.
Proof.
  intros Hn. unfold put_env. rewrite Nat2Z.id, take_app_length, drop_app_add. by rewrite drop_replicate.
Qed.

(** A variable is put behind the others. *)
Lemma env_add vars st v : env_ok vars st -> (length (environment vars) + length v + 1 <= 127)%nat ->
  env_ok (vars ++ [v]) (set_env (put_env (v ++ [0]) (master_env st) (envp st)) (envp st + Z.of_nat (length v) + 1) st).
Proof.
  intros [E1 E2 _] Hn. assert (Hl : length (environment (vars ++ [v])) = (length (environment vars) + length v + 1)%nat).
  { rewrite environment_snoc, !length_app. cbn. lia. }
  constructor; cbn; rewrite ?Hl; [|lia|lia]. rewrite E1, E2, put_env_app by (rewrite length_app; cbn; lia).
  rewrite environment_snoc, <- !app_assoc, length_app. do 4 f_equal. cbn. lia.
Qed.

Lemma toupper_nonzero c : c <> 0 -> toupper c <> 0.
Proof. unfold toupper. change (ch "a") with 97. change (ch "z") with 122. change (ch "A") with 65. intros. repeat case_match; lia. Qed.

Lemma strupr_nonzero s : 0 ∉ s -> 0 ∉ strupr s.
Proof. intros Hs (c & Ec & Hc)%list_elem_of_fmap. by apply (toupper_nonzero c); [intros ->|]. Qed.

(** A variable, or a menu's selection that is not a digit. *)
Definition var_ok (v : list Z) : Prop := 0 ∉ v \/ v = str "CONFIG=" ++ [0].

(** The state between the lines of a pass. *)
Definition in_order (st : boot) : Prop :=
  config_ok (b_config st) /\ exists vars, env_ok vars st /\ Forall var_ok vars.

Lemma keeps_in_order st st' : keeps st st' -> in_order st -> in_order st'.
Proof.
  intros [E Hk] [Hc (vars & [E1 E2 E3] & Hv)]. injection E as Em Ep. split; [by apply Hk|]. exists vars. split; [|done].
  constructor; congruence.
Qed.

Lemma CmdSet_in_order p st st' : 0 ∉ p -> in_order st -> CmdSet p st = Some st' -> in_order st'.
Proof.
  intros Hp Ho. unfold CmdSet. destruct (GetStringArg p st) as [[q d] s] eqn:G.
  destruct (scan_in _ _ _ _ _ G) as [Hq Hd]. pose proof (skipwh_in p) as Hs. apply keeps_scan in G.
  apply (keeps_in_order _ _ G) in Ho. cbv zeta. destruct (_ =? _); [|by intros [= <-]].
  set (v := strupr d ++ [ch "="] ++ skipwh (tail (skipwh q))). destruct (Z.ltb_spec (Z.of_nat (length v)) (Z.of_nat (length (master_env s)) - envp s - 1)) as [Hl|_];
    [|by intros [= <-]].
  intros [= <-]. destruct Ho as [Hc (vars & He & Hv)]. split; [exact Hc|]. exists (vars ++ [v]). pose proof He as [E1 E2 E3]. split.
  - apply env_add; [done|]. rewrite E1, length_app, length_replicate in Hl. lia.
  - apply Forall_app. split; [done|]. repeat constructor. unfold v.
    assert (0 ∉ strupr d) by (apply strupr_nonzero; set_solver). pose proof (skip_tail_in (skipwh q)). pose proof (skipwh_in q).
    intros [Hx|[Hx|Hx]%elem_of_app]%elem_of_app; [done|by apply list_elem_of_singleton in Hx|]. set_solver.
Qed.

Lemma pass_in_order keys polls n f st st' : in_order st -> config_loop keys polls n f [] st = Some st' -> in_order st'.
Proof.
  intros Ho E. refine (config_loop_inv keys polls in_order n _ _ _ _ _ f [] st st' Ho E); clear.
  1-4: intros; match goal with Ho : in_order ?s |- in_order ?s' => apply (keeps_in_order s s' (keeps_same s s' eq_refl eq_refl) Ho) end.
  - intros t p s s' Ht _ Hp Ho E. destruct (sound_commands t s Ht) as [[Ef _]|Hs].
    + rewrite Ef in E. by apply (CmdSet_in_order _ _ _ Hp Ho E).
    + apply (keeps_in_order s); [by apply (Hs p)|done].
Qed.

(** The first pass sets no variables. *)
Lemma first_pass_keeps keys polls f st st' : config_loop keys polls 0 f [] st = Some st' -> keeps st st'.
Proof.
  intros E. refine (config_loop_inv keys polls (keeps st) 0 _ _ _ _ _ f [] st st' (reflexivity st) E).
  - intros g s Hs. etransitivity; [exact Hs|apply keeps_asking].
  - intros b l s Hs. etransitivity; [exact Hs|by apply keeps_same].
  - intros h s Hs. etransitivity; [exact Hs|apply keeps_host].
  - intros n s Hs. etransitivity; [exact Hs|by apply keeps_same].
  - intros t p s s' Ht Hpass _ Hs Et. destruct (sound_commands t s Ht) as [[_ Ep]|Hf]; [lia|].
    etransitivity; [exact Hs|by apply (Hf p)].
Qed.

(** The selection of the menu becomes the first variable. *)
Lemma DoMenu_in_order n polls st st' : config_ok (b_config st) -> env_ok [] st -> DoMenu n polls st = Some st' -> in_order st'.
Proof.
  intros Hc He. unfold DoMenu. destruct (Menus _ =? 0).
  { intros [= <-]. split; [done|]. by exists []. }
  cbv zeta. set (s0 := upd_asking _ st). destruct (menu_loop n polls s0) as [s1|] eqn:E; [|done].
  pose proof (menu_loop_obs (fun s => (b_config s, env_part s)) _ _ _ _ (fun _ _ => eq_refl) (fun _ _ => eq_refl) E) as Ho.
  injection Ho as Ec Em Ep. unfold export_menu. destruct (_ <? _); [done|]. intros [= <-].
  set (sel := u8 (MenuSelected (b_asking s1) + ch "0")). set (v := str "CONFIG=" ++ [sel]).
  assert (He1 : env_ok [] s1) by (destruct He as [E1 E2 E3]; constructor; [by rewrite Em|by rewrite Ep|done]).
  pose proof (env_add [] s1 v He1 ltac:(cbn; lia)) as Hadd. cbn [app] in Hadd.
  set (s2 := set_env _ _ s1). assert (Ho : in_order s2).
  { split; [cbn; rewrite Ec; exact Hc|]. exists [v]. split.
    - replace (envp s1 + Z.of_nat (length v) + 1) with (envp s1 + 9) in Hadd by (unfold v; cbn; lia). exact Hadd.
    - apply list.Forall_singleton. destruct (decide (sel = 0)) as [E0|E0]; [right; unfold v; by rewrite E0|]. left. unfold v. cbn.
      intros Hin. repeat (apply elem_of_cons in Hin as [Hin|Hin]; [first [by subst sel|discriminate Hin|by apply E0]|]). by apply elem_of_nil in Hin. }
  destruct (MenuColor (b_asking s1) =? -1); [exact Ho|]. by apply (keeps_in_order s2); [apply keeps_asking|].
Qed.

Lemma DoConfig_first keys polls x secs (h : H) st : DoConfig keys polls 0 (initial x secs h) = Some st -> in_order st.
Proof.
  assert (Hc : config_ok Config) by (constructor; cbn; lia).
  assert (He : forall s : boot, env_part s = env_part (initial x secs h) -> env_ok [] s).
  { intros s [= Em Ep]. constructor; [by rewrite Em|by rewrite Ep|cbn; lia]. }
  unfold DoConfig. cbn [Z.eqb]. set (st0 := upd_settings _ _).
  destruct (match bh_file _ _ with Some f => Some f | None => _ end) as [f|]; [|intros [= <-]; split; [exact Hc|exists []; auto]].
  destruct (config_loop _ _ 0 f [] _) as [s1|] eqn:E; [|done]. apply first_pass_keeps in E as [Ee Ek].
  apply DoMenu_in_order; [apply Ek, Hc|apply He; by rewrite Ee].
Qed.

Lemma DoConfig_later keys polls n st st' : 0 < n -> in_order st -> DoConfig keys polls n st = Some st' -> in_order st'.
Proof.
  intros Hn Ho. unfold DoConfig. assert (n =? 0 = false) as -> by lia.
  destruct (match bh_file _ _ with Some f => Some f | None => _ end) as [f|]; [|by intros [= <-]].
  destruct (config_loop _ _ n f [] _) as [s1|] eqn:E; [|done]. intros [= <-].
  apply (pass_in_order keys polls n f _ _ (keeps_in_order _ _ (keeps_same st (set_nCfgLine 0 st) eq_refl eq_refl) Ho) E).
Qed.

(** C10: when the three passes over CONFIG.SYS run to their end without anything that C leaves
    undefined, every setting is in its bounds (LASTDRIVE from E to Z, the protected FCBs no
    more than the FCBs, no stacks or up to 64 of 32 to 512 bytes, an EBDA amount that is
    whole paragraphs), and the environment for the first program is a list of variables,
    each ended by a NUL, with NULs up to the end of its 128 bytes: no variable was cut and
    none was written behind the end.  A variable holds no NUL but for the selection of a
    menu, where MENUDEFAULT was 208.  What C leaves undefined are accesses outside an array
    or the line and the null pointer of a missing number: a SHELL= that is longer than its
    array ([long_shell_overruns]), an eleventh INSTALL=, a menu above 9, STACKS= without a
    number, SWITCHES=/ at the end of a line; and the menu and the questions must end. *)
Theorem configuration_in_order keys polls x secs (h : H) st' :
  configure keys polls (initial x secs h) = Some st' ->
  config_ok (b_config st') /\ exists assignments, env_ok assignments st' /\ Forall var_ok assignments.
Proof.
  unfold configure. destruct (DoConfig _ _ 0 _) as [s1|] eqn:E0; [|done]. apply DoConfig_first in E0.
  destruct (DoConfig _ _ 1 _) as [s2|] eqn:E1; [|done]. apply DoConfig_later in E1; [|lia|done].
  intros E2. by apply DoConfig_later in E2.
Qed.

End frame.

(** ** The name of the shell *)

Lemma set_at_inside {A} i (x : A) l l' : set_at i x l = Some l' -> 0 <= i < Z.of_nat (length l) /\ length l' = length l.
Proof.
  unfold set_at. intros E. repeat case_match; try done. injection E as <-. rewrite length_insert. split; [lia|done].
Qed.

(** A string fits an array together with its NUL, or bytes behind the array are written. *)
Lemma copy_string_none s : forall i array, 0 <= i -> Z.of_nat (length array) <= i + Z.of_nat (length s) ->
  copy_string s i array = None.
Proof.
  induction s as [|c s IH]; intros i array Hi Hl; cbn [copy_string length] in *.
  - destruct (set_at i 0 array) as [l|] eqn:E; [|done]. apply set_at_inside in E. lia.
  - destruct (set_at i c array) as [l|] eqn:E; [|done]. apply set_at_inside in E as [E1 E2]. apply IH; lia.
Qed.

(** Nobody looks at the length of what SHELL= names: a name of 67 characters or more, or such a
    line behind it, is written over what lies behind the array. *)
Theorem long_shell_overruns {H} `{!BootHost H} line (st : boot H) p d st1 :
  GetStringArg line st = (p, d, st1) -> NAMEMAX <= Z.of_nat (length d) \/ NAMEMAX <= Z.of_nat (length p) ->
  InitPgm line st = None.
Proof.
  intros E Hl. unfold InitPgm. rewrite E.
  destruct Hl as [Hl|Hl]; [by rewrite (copy_string_none d) by (rewrite ?length_replicate; lia)|].
  destruct (copy_string d _ _); [|done]. by rewrite (copy_string_none p) by (rewrite ?length_replicate; lia).
Qed.

(** A machine without keys whose configuration is a list of lines. *)
Definition ex_lines : list Z :=
  str "FILES=40" ++ [13; 10] ++ str "lastdrive = z" ++ [13; 10] ++ str "STACKS=100,16" ++ [13; 10] ++
  str "SET path=c:\dos" ++ [13; 10] ++ str "FCBS=4,9" ++ [13; 10] ++ str "nonsense" ++ [13; 10].

#[export] Instance ex_boot : BootHost (list Z) := {|
  bh_file name h := Some h;
  bh_ready h := (false, h);
  bh_key h := (13, h);
  bh_time h := (0, h);
  bh_move_hma h := (true, h);
  bh_keycheck h := h;
  bh_video _ h := h;
  bh_load _ _ h := (SUCCESS, h);
  bh_init_devices _ _ h := (SUCCESS, h);
  bh_umb_init h := (false, h) |}.

Definition ex_settings : settings := Settings 0 (0, 0xffff) 0 0 0 false (7, 10) 1 (ch "/") 0 (0, 0, 0, 0) (1, 437) (fun _ => []).

Lemma configuration_in_order_witness : exists st', configure 5 5 (initial ex_settings (-1) ex_lines) = Some st' /\
  cfgFiles (b_config st') = 40 /\ cfgLastdrive (b_config st') = 26 /\ cfgStacks (b_config st') = 64 /\ cfgStackSize (b_config st') = 32 /\
  cfgProtFcbs (b_config st') = 4 /\ reported st' = [5] /\
  config_ok (b_config st') /\ exists assignments, env_ok assignments st' /\ Forall var_ok assignments.
Proof.
  eexists. assert (E : configure 5 5 (initial ex_settings (-1) ex_lines) = Some _) by (vm_compute; reflexivity).
  split; [exact E|]. do 6 (split; [vm_compute; reflexivity|]). exact (configuration_in_order 5 5 _ _ _ _ E).
Defined.

Example shell_copied : exists st', InitPgm (str " c:\dos\command.com c:\dos /p") (initial ex_settings (-1) ex_lines) = Some st' /\
  cfgInit (b_config st') = str "c:\dos\command.com" /\ cfgInitTail (b_config st') = str " c:\dos /p" ++ [13; 10].
Proof. eexists. split; [vm_compute; reflexivity|]. by split; vm_compute. Qed.
