(* ===== verification/ConfigThms.v ===== *)
(** * The configuration: lines are executed

    What a line of CONFIG.SYS comes to: the lines of a file one after the other, the
    command of the table that a verb names, and the number that an argument stands for. *)

From S2P Require Import Prelude Hdr Bytes Config ConfigSpec.

(** A line that fits the buffer. *)
Definition good_line (l : list Z) : Prop := (length l <= 252)%nat /\ Forall (fun c => ~ c ∈ [0; 10; 13; 26]) l.

#[export] Instance good_line_dec l : Decision (good_line l).
Proof. unfold good_line. apply _. Defined.

Definition file_of (lines : list (list Z)) : list Z := concat (map (fun l => l ++ [13; 10]) lines).

Section lines.
  Context {H : Type} `{!BootHost H}.

#[local] Abbreviation boot := (boot H).

(** ** The file as a list of lines *)

(** The lines in turn, each with its number. *)
Fixpoint run_lines keys polls (nPass : Z) (lines : list (list Z)) (st : boot) : option boot :=
  match lines with
  | [] => Some st
  | l :: lines =>
      let* st := config_line keys polls nPass l st in
      run_lines keys polls nPass lines (set_nCfgLine (u16 (nCfgLine st + 1)) st)
  end.

Lemma cut_nul_good l : Forall (fun c => ~ c ∈ [0; 10; 13; 26]) l -> cut_nul l = l.
Proof.
  induction 1 as [|c l Hc Hl IH]; [done|]. cbn [cut_nul]. destruct (Z.eqb_spec c 0) as [->|_]; [|by rewrite IH].
  destruct Hc. set_solver.
Qed.

(** Reading the rest of a line. *)
Lemma config_loop_line keys polls n l f line st : Forall (fun c => ~ c ∈ [0; 10; 13; 26]) l -> (length line + length l <= 252)%nat ->
  config_loop keys polls n (l ++ 13 :: 10 :: f) line st =
  (let* st := config_line keys polls n (cut_nul (line ++ l)) st in
   config_loop keys polls n f [] (set_nCfgLine (u16 (nCfgLine st + 1)) st)).
Proof.
  intros Hl. revert line. induction Hl as [|c l Hc Hl IH]; intros line Hlen; cbn [app].
  - cbn [config_loop]. cbn in Hlen. rewrite (proj2 (Z.leb_gt 253 (Z.of_nat (length line)))) by lia. change ((13 =? 10) || (13 =? 0x1a)) with false.
    change (13 =? 13) with true. cbv iota. cbn [config_loop]. rewrite (proj2 (Z.leb_gt 253 (Z.of_nat (length line)))) by lia.
    change ((10 =? 10) || (10 =? 0x1a)) with true. cbv iota. rewrite app_nil_r. by destruct (config_line _ _ _ _ st).
  - cbn [config_loop length] in *. rewrite (proj2 (Z.leb_gt 253 (Z.of_nat (length line)))) by lia.
    assert (c <> 10 /\ c <> 13 /\ c <> 26) as (H1 & H2 & H3) by (split_and!; intros ->; apply Hc; set_solver).
    rewrite (proj2 (Z.eqb_neq c 10) H1), (proj2 (Z.eqb_neq c 26) H3), (proj2 (Z.eqb_neq c 13) H2). cbv iota.
    cbn [orb]. rewrite IH by (rewrite length_app; cbn; lia). by rewrite <- app_assoc.
Qed.

(** A file of lines that fit the buffer of the reader is executed line by line, and
    behind the last one comes an empty line: the reader, which goes through the file byte
    by byte, drops carriage returns and stops at line feeds, is the execution of the list
    of lines in their order. *)
Theorem file_line_by_line keys polls n lines st : Forall good_line lines ->
  config_loop keys polls n (file_of lines) [] st = run_lines keys polls n (lines ++ [[]]) st.
Proof.
  intros Hl. revert st. induction Hl as [|l lines [Hlen Hc] Hl IH]; intros st.
  - cbn. by destruct (config_line _ _ _ _ st).
  - change (file_of (l :: lines)) with ((l ++ [13; 10]) ++ file_of lines). rewrite <- app_assoc. cbn [app run_lines].
    rewrite config_loop_line by (cbn; done || lia). cbn [app]. rewrite cut_nul_good by done.
    destruct (config_line _ _ _ l st) as [s|]; [apply IH|done].
Qed.

(** ** The command that a verb names *)

Definition letter (c : Z) : bool := (ch "A" <=? c) && (c <=? ch "Z").

Lemma strcaseequal_upper d s : strcaseequal d s = true <-> strupr s = strupr d.
Proof.
  revert s. induction d as [|x d IH]; intros [|y s]; cbn [strcaseequal strupr map]; try done.
  rewrite andb_true_iff, Z.eqb_eq, IH. unfold strupr. split; [by intros [-> ->]|by intros [= -> ->]].
Qed.

(** The names of the table are different, and but for the comment they are capital letters. *)
Lemma commands_names st : NoDup (map (fun t => strupr (entry t)) (commands st)).
Proof. apply (bool_decide_unpack _). vm_compute. exact I. Qed.

Lemma commands_letters st t : t ∈ commands st -> entry t <> str ";" -> forallb letter (strupr (entry t)) = true /\ entry t <> [].
Proof.
  intros Ht Hp. assert (Hall : forallb (fun t => match entry t with [] => false | _ => forallb letter (strupr (entry t)) end ||
    bool_decide (entry t = str ";")) (commands st) = true) by (vm_compute; reflexivity).
  rewrite forallb_forall in Hall. specialize (Hall t (proj1 (list_elem_of_In _ _) Ht)). cbv beta in Hall.
  rewrite bool_decide_eq_false_2, orb_false_r in Hall by done. by destruct (entry t).
Qed.

Lemma find_unique {A B} `{EqDecision B} (key : A -> B) (f : A -> bool) l t k :
  (forall t, f t = true <-> k = key t) -> NoDup (map key l) -> t ∈ l -> k = key t -> find f l = Some t.
Proof.
  intros Hf. induction l as [|a l IH]; cbn [map find]; intros Hnd Ht Hk; [by apply elem_of_nil in Ht|].
  apply list.NoDup_cons in Hnd as [Ha Hnd]. apply elem_of_cons in Ht as [->|Ht].
  - by rewrite (proj2 (Hf a) Hk).
  - destruct (f a) eqn:Ea; [|by apply IH]. apply Hf in Ea. destruct Ha. rewrite <- Ea, Hk. apply list_elem_of_fmap. eauto.
Qed.

Lemma LookUp_found st t v : t ∈ commands st -> strcaseequal (entry t) v = true -> LookUp v st = t.
Proof.
  intros Ht Hv. unfold LookUp.
  rewrite (find_unique (fun t => strupr (entry t)) _ (commands st) t (strupr v)); [done| |apply commands_names|done|by apply strcaseequal_upper].
  intros u. apply strcaseequal_upper.
Qed.

(** What a letter is not. *)
Lemma letter_char c : letter (toupper c) = true -> iswh c = false /\ isnum c = false /\ c <> ch "=" /\ c <> ch "?" /\ c <> ch "!" /\ c <> ch ";".
Proof.
  unfold letter, toupper, iswh, isnum. cbn [existsb]. change (ch "A") with 65. change (ch "Z") with 90. change (ch "a") with 97.
  change (ch "z") with 122. change (ch " ") with 32. change (ch "0") with 48. change (ch "9") with 57. change (ch "=") with 61.
  change (ch "?") with 63. change (ch "!") with 33. change (ch ";") with 59. intros Hc.
  assert (65 <= c <= 90 \/ 97 <= c <= 122) by (revert Hc; case_match; lia). split_and!; lia.
Qed.

Lemma skipwh_blank b s : forallb iswh b = true -> skipwh (b ++ s) = skipwh s.
Proof. induction b as [|c b IH]; cbn [forallb app skipwh]; [done|]. by destruct (iswh c). Qed.

Lemma skipwh_stop s : iswh (first s) = false -> skipwh s = s.
Proof. destruct s as [|c s]; cbn [skipwh]; [done|]. change (first (c :: s)) with c. by intros ->. Qed.

Lemma scan_verb_word v s : forallb letter (strupr v) = true -> iswh (first s) || (first s =? ch "=") = true -> scan_verb (v ++ s) = (v, false, s).
Proof.
  intros Hv Hs. induction v as [|c v IH]; cbn [app].
  - destruct s as [|c s]; [done|]. cbn [scan_verb]. change (first (c :: s)) with c in Hs. by rewrite Hs.
  - cbn in Hv. apply andb_prop in Hv as [Hc Hv]. cbn [scan_verb].
    destruct (letter_char c Hc) as (H1 & _ & H2 & H3 & _). rewrite H1, (proj2 (Z.eqb_neq _ _) H2). cbn [orb]. rewrite (IH Hv).
    by rewrite (proj2 (Z.eqb_neq _ _) H3).
Qed.

(** A line with a verb and nothing in front of it. *)
Lemma scan_word b v s (st : boot) : forallb iswh b = true -> forallb letter (strupr v) = true -> v <> [] ->
  iswh (first s) || (first s =? ch "=") = true ->
  scan (b ++ v ++ s) st = (s, v, upd_asking (set_scan false false 0 (Menus (b_asking st))) st).
Proof.
  intros Hb Hv Hn Hs. destruct v as [|c v]; [done|]. pose proof Hv as Hv0. cbn in Hv0. apply andb_prop in Hv0 as [Hc _].
  destruct (letter_char c Hc) as (H1 & H2 & _ & _ & H5 & H6). unfold scan. rewrite skipwh_blank by done.
  rewrite (skipwh_stop ((c :: v) ++ s)) by done. change (first ((c :: v) ++ s)) with c. rewrite H2.
  change (first ((c :: v) ++ s)) with c. rewrite (proj2 (Z.eqb_neq _ _) H5).
  change (first ((c :: v) ++ s)) with c. rewrite (proj2 (Z.eqb_neq _ _) H6). by rewrite scan_verb_word.
Qed.

Definition blanks (b : list Z) : Prop := Forall (fun c => c = 32 \/ c = 9) b.

Lemma blanks_iswh b : blanks b -> forallb iswh b = true.
Proof. induction 1 as [|c b [->| ->] _ IH]; [done| |]; cbn [forallb]; by rewrite IH. Qed.

(** No question is asked. *)
Definition unasked (a : asking) : Prop := SkipConfigSeconds a < 0 /\ SkipAllConfig a = false /\ singleStep a = false.

(** What a command is called with, when [rest] stands behind its name: the commands of the first
    pass look for their argument themselves, those of the menu begin behind one character,
    and the others get the argument. *)
Definition called_with (n : Z) (t : table (H := H)) (rest arg : list Z) : list Z :=
  if n =? 0 then rest else if is_menu t then skipwh (tail rest) else arg.

(** C11: a line "VERB = argument" with the name of a command of the table but the comment
    sign, in capitals or not and with any blanks, runs in the pass of the command this
    command, and in the other passes nothing.  From the second pass on a setting is called
    with the argument itself, without the sign and the blanks before it, and a command that
    belongs to the menu with what stands behind the first character after its name; in
    the first pass the command is called with all that stands behind its name
    ([called_with]).  The only change before is that the marks of the line are cleared.  No
    question is asked: from the second pass on, neither F5 nor F8 may have been
    pressed, nor may the time for them still run ([unasked]). *)
Theorem line_executes keys polls n t b1 v b2 b3 arg (st : boot) :
  t ∈ commands st -> entry t <> str ";" -> 0 <= pass t -> strcaseequal (entry t) v = true ->
  (n <> 0 -> unasked (b_asking st)) -> blanks b1 -> blanks b2 -> blanks b3 -> iswh (first arg) = false ->
  let rest := b2 ++ ch "=" :: b3 ++ arg in
  let st1 := upd_asking (set_scan false false 0 (Menus (b_asking st))) st in
  config_line keys polls n (b1 ++ v ++ rest) st =
    if pass t =? n then func t (called_with n t rest arg) st1 else Some st1.
Proof.
  intros Ht He Hpos Hv Hask Hb1%blanks_iswh Hb2 Hb3%blanks_iswh Harg rest st1.
  destruct (commands_letters st t Ht He) as [Hl Hne]. pose proof (proj1 (strcaseequal_upper _ _) Hv) as Hup.
  assert (Hlv : forallb letter (strupr v) = true) by (by rewrite Hup).
  assert (Hnv : v <> []) by (intros ->; by destruct (entry t)).
  assert (Hfirst : iswh (first rest) || (first rest =? ch "=") = true /\ existsb (Z.eqb (first rest)) [ch " "; 9; ch "="] = true).
  { unfold rest. destruct Hb2 as [|c b [->| ->] _]; done. }
  unfold config_line. rewrite (scan_word b1 v rest st Hb1 Hlv Hnv (proj1 Hfirst)). destruct v as [|c v]; [done|].
  fold st1. cbv zeta. rewrite (LookUp_found st1 t); [|done|done]. rewrite (proj2 (Z.leb_le _ _) Hpos). cbn [andb].
  destruct (Z.eqb_spec (pass t) n) as [Hp|Hp]; cbn [negb]; [|done]. unfold called_with.
  destruct (Z.eqb_spec n 0) as [Hn|Hn]; [done|]. destruct (Hask Hn) as (Hsec & Hskip & Hsingle).
  unfold SkipLine, first_question.
  change (SkipConfigSeconds (b_asking st1)) with (SkipConfigSeconds (b_asking st)). rewrite (proj2 (Z.leb_gt _ _)) by lia. cbv zeta.
  change (SkipAllConfig (b_asking st1)) with (SkipAllConfig (b_asking st)). change (singleStep (b_asking st1)) with (singleStep (b_asking st)).
  rewrite Hskip, Hsingle. cbn [MenuLine askThisSingleCommand DontAskThisSingleCommand b_asking st1 upd_asking set_scan Z.eqb negb andb].
  unfold argument. destruct (is_menu t); [done|]. rewrite (proj2 Hfirst). cbn [negb]. unfold rest. rewrite skipwh_blank by (by apply blanks_iswh).
  rewrite (skipwh_stop (ch "=" :: _)) by done. cbn [first head from_option id]. rewrite Z.eqb_refl. cbn [tail].
  rewrite skipwh_blank by done. by rewrite skipwh_stop.
Qed.

(** ** Numbers *)

(** A number in decimal digits; [k] bounds them. *)
Fixpoint decimal (k : nat) (n : Z) : list Z :=
  match k with
  | O => []
  | S k => (if n <? 10 then [] else decimal k (n / 10)) ++ [ch "0" + n mod 10]
  end.

(** The number ends before [s]. *)
Definition ends_number (s : list Z) : Prop := match s with [] => True | c :: _ => toupper c <> ch "X" /\ digit (toupper c) = None end.

Lemma digit_char q : 0 <= q <= 9 -> toupper (ch "0" + q) = ch "0" + q /\ ch "0" + q <> ch "X" /\ digit (ch "0" + q) = Some q /\
  isnum (ch "0" + q) = true.
Proof.
  intros Hq. unfold toupper, digit, isnum. change (ch "0") with 48. change (ch "a") with 97. change (ch "z") with 122. change (ch "X") with 88.
  change (ch "9") with 57. rewrite (proj2 (Z.leb_gt 97 _)), (proj2 (Z.leb_le 48 _)), (proj2 (Z.leb_le _ 57)) by lia.
  cbn [andb]. split_and!; [done|lia|f_equal; lia|done].
Qed.

Lemma number_end n s : ends_number s -> number 10 n s = (n, s).
Proof. destruct s as [|c s]; [done|]. intros [H1 H2]. cbn [number]. by rewrite (proj2 (Z.eqb_neq _ _) H1), H2. Qed.

Lemma number_decimal k n s : 0 <= n <= 32767 -> n < 10 ^ Z.of_nat k -> number 10 0 (decimal k n ++ s) = number 10 n s.
Proof.
  revert n s. induction k as [|k IH]; intros n s Hn Hk; [cbn in Hk; replace n with 0 by lia; done|].
  rewrite Nat2Z.inj_succ, Z.pow_succ_r in Hk by lia. cbn [decimal]. pose proof (Z.mod_pos_bound n 10 ltac:(lia)) as Hm.
  pose proof (Z.div_mod n 10 ltac:(lia)) as Hd. destruct (digit_char (n mod 10) ltac:(lia)) as (H1 & H2 & H3 & _).
  assert (Hlast : forall m, m * 10 + n mod 10 = n -> number 10 m ([ch "0" + n mod 10] ++ s) = number 10 n s).
  { intros m Hmn. cbn [app number]. rewrite H1, (proj2 (Z.eqb_neq _ _) H2), H3, Hmn. by rewrite s16_id by lia. }
  destruct (Z.ltb_spec n 10) as [Hs|Hs].
  - cbn [app]. apply (Hlast 0). rewrite Z.mod_small; lia.
  - rewrite <- app_assoc, IH by (Z.div_mod_to_equations; lia). apply Hlast. lia.
Qed.

Lemma decimal_first k n : (0 < k)%nat -> 0 <= n -> isnum (first (decimal k n)) = true /\ decimal k n <> [].
Proof.
  revert n. induction k as [|k IH]; intros n Hk Hn; [lia|]. cbn [decimal].
  destruct (digit_char (n mod 10)) as (_ & _ & _ & Hd); [pose proof (Z.mod_pos_bound n 10); lia|].
  destruct (n <? 10); [done|]. destruct k as [|k]; [done|].
  destruct (IH (n / 10)) as [H1 H2]; [lia|Z.div_mod_to_equations; lia|]. destruct (decimal (S k) (n / 10)) as [|c l]; [done|].
  split; [exact H1|done].
Qed.

(** A number in decimal digits, with blanks before it and a minus or none, is read
    back as the number, and reading stops behind it.  (The digits A to F and an X count
    as part of a number, which is why a word may not follow at once.) *)
Theorem number_read_back b n rest (st : boot) : blanks b -> 0 <= n <= 32767 -> ends_number rest ->
  GetNumArg (b ++ decimal 5 n ++ rest) st = (Some (rest, n), st) /\
  GetNumArg (b ++ ch "-" :: decimal 5 n ++ rest) st = (Some (rest, - n), st).
Proof.
  intros Hb%blanks_iswh Hn Hr. assert (Hnum : number 10 0 (decimal 5 n ++ rest) = (n, rest)).
  { rewrite number_decimal by (cbn; lia). by apply number_end. }
  unfold GetNumArg. split; rewrite skipwh_blank by done.
  - destruct (decimal_first 5 n ltac:(lia) ltac:(lia)) as [Hf Hne].
    destruct (decimal 5 n) as [|c l]; [done|]. change (first (c :: l)) with c in Hf. cbn [app].
    assert (iswh c = false /\ c =? ch "-" = false) as [Hw Hm].
    { revert Hf. unfold isnum, iswh. cbn [existsb]. change (ch "0") with 48. change (ch "9") with 57. change (ch " ") with 32. change (ch "-") with 45. lia. }
    rewrite skipwh_stop by done. change (first (c :: l ++ rest)) with c. rewrite Hm, Hf. cbn [negb]. cbn [app] in Hnum. by rewrite Hnum.
  - rewrite skipwh_stop by done. change (first (ch "-" :: decimal 5 n ++ rest)) with (ch "-"). rewrite Z.eqb_refl. cbn [tail].
    rewrite Hnum. by rewrite s16_id by lia.
Qed.

End lines.

Lemma number_read_back_witness :
  GetNumArg ([32; 9] ++ decimal 5 640 ++ str ",7") (initial ex_settings (-1) ex_lines) = (Some (str ",7", 640), initial ex_settings (-1) ex_lines) /\
  decimal 5 640 = str "640".
Proof.
  split; [|vm_compute; reflexivity]. refine (proj1 (number_read_back [32; 9] 640 (str ",7") (initial ex_settings (-1) ex_lines) _ _ _)).
  - constructor; [by left|constructor; [by right|constructor]].
  - lia.
  - split; vm_compute; congruence.
Defined.

Definition ex_split : list (list Z) :=
  [str "FILES=40"; str "lastdrive = z"; str "STACKS=100,16"; str "SET path=c:\dos"; str "FCBS=4,9"; str "nonsense"].

Lemma file_line_by_line_witness : ex_lines = file_of ex_split /\ let st := initial ex_settings (-1) ex_lines in
  config_loop 5 5 1 (file_of ex_split) [] st = run_lines 5 5 1 (ex_split ++ [[]]) st.
Proof.
  split; [vm_compute; reflexivity|]. cbv zeta.
  refine (file_line_by_line 5 5 1 ex_split _ _). apply (bool_decide_unpack (Forall good_line ex_split)). vm_compute. exact I.
Defined.

(** The drive letters, in the second pass, and a colour for the menu in the first one. *)
Lemma line_executes_witness : let st := initial ex_settings (-1) ex_lines in
  let st1 := upd_asking (set_scan false false 0 0) st in
  config_line 5 5 1 (str "  lastDrive = z") st = CfgLastdrive (str "z") st1 /\
  (cfgLastdrive ∘ b_config) <$> config_line 5 5 1 (str "  lastDrive = z") st = Some 26 /\
  config_line 5 5 0 (str "menucolor= 7") st = CfgMenuColor (str "= 7") st1.
Proof.
  assert (unasked (b_asking (initial ex_settings (-1) ex_lines))) as Hu by (split; [reflexivity|split; reflexivity]).
  split; [|split; [vm_compute; reflexivity|]].
  - apply (line_executes 5 5 1 (Table (str "LASTDRIVE") 1 false CfgLastdrive) [32; 32] (str "lastDrive") [32] [32] (str "z") (initial ex_settings (-1) ex_lines)).
    + apply list_elem_of_In. cbn. tauto.
    + discriminate.
    + cbn. lia.
    + vm_compute. reflexivity.
    + intros _. exact Hu.
    + repeat constructor; auto.
    + repeat constructor; auto.
    + repeat constructor; auto.
    + reflexivity.
  - apply (line_executes 5 5 0 (Table (str "MENUCOLOR") 0 false CfgMenuColor) [] (str "menucolor") [] [32] (str "7") (initial ex_settings (-1) ex_lines)).
    + apply list_elem_of_In. cbn. tauto.
    + discriminate.
    + cbn. lia.
    + vm_compute. reflexivity.
    + intros Hn. exact Hu.
    + constructor.
    + constructor.
    + repeat constructor; auto.
    + reflexivity.
Defined.
